(* ===== verification/_CoqProject ===== *)
-Q . S2P
Prelude.v
Error.v
Effect.v
ExprSyntax.v
Datatype.v
Layout.v
DatatypeEq.v
Memory.v
DenseCopy.v
DenseCopyFacts.v
RoundTrip.v
Access.v
Ref.v
RefInv.v
RefOps.v
RefTheorems.v
RefCopy.v
Numeric.v
Parse.v
ParseFacts.v
ParsePrint.v
Yaml.v
Template.v
GlobalContext.v
Eval.v
ContextInv.v
DescriptorInv.v
EvalInv.v
Share.v
ShareFacts.v
MetadataFacts.v
Logger.v
LoggerFacts.v
Postorder.v
Includes.v
StringTools.v
PluginStore.v
PluginStoreFacts.v
Init.v
Api.v
ApiFacts.v
ExposeFacts.v
Serialize.v
SerializeFacts.v
SerializePlugin.v
SerializeRun.v
Contexts.v
SetValue.v
SetValueFacts.v
SetValueRun.v
UserCode.v
UserCodeFacts.v
Json.v
JsonFacts.v
JsonRun.v
Timer.v
TimerFacts.v
EffectEq.v
Hdf5.v
Hdf5Ops.v
Hdf5Exec.v
Hdf5Facts.v
Hdf5Guards.v
Hdf5Parse.v
Hdf5Run.v
Netcdf.v
NetcdfFile.v
NetcdfExec.v
NetcdfFacts.v
NetcdfRun.v
Mpi.v
MpiFacts.v
MpiRelease.v
MpiRun.v
Python.v
PythonFacts.v
PythonShare.v
Pycall.v
PycallFacts.v
PythonRun.v
