(* ===== verification/Prelude.v ===== *)
(** * A verification of the PDI Data Interface

    PDI couples a simulation code with I/O and analysis libraries: the code
    shares its buffers under names, plugins are notified and read or write them,
    and the code takes them back.  This library models the core of PDI, the C++
    files of [pdi/src] and [pdi/include/pdi], its Python bindings and the plugins
    ([plugins/serialize], [plugins/set_value], [plugins/user_code], [plugins/json],
    [plugins/timer], [plugins/trace], [plugins/decl_hdf5], [plugins/decl_netcdf],
    [plugins/mpi], [plugins/pycall]), and proves what makes them correct.

    ** The program and its model

    An application calls the C interface ([pdi.cxx]).  It forwards to a global
    context ([global_context.cxx]), built from a YAML specification tree, that
    owns data descriptors ([data_descriptor_impl.cxx]).  A descriptor has a stack
    of references ([ref_any.h]) to typed data.  Types ([*_datatype.cxx]) come from
    templates ([datatype_template.cxx]) whose sizes are expressions
    ([expression/]); expressions read the data of other descriptors.  Plugins
    ([plugin_store.cxx]) register callbacks on the context.

    - [Prelude], [Error], [Effect]: [size_t] arithmetic modulo 2^64; the statuses
      and the exceptions of [error.cxx]; the two monads of the model.  A pure
      operation has an [outcome]: a value, an exception, or [Crash], which stands
      for undefined behaviour, a failed assertion or an exhausted fuel.  A
      stateful operation has type [M S A] and an exception keeps the state in
      which it was thrown.
    - [Datatype], [Layout], [DatatypeEq]: the five classes of types as one
      inductive type, one definition per method and class; densification.
    - [Memory], [DenseCopy], [DenseCopyFacts], [RoundTrip]: a byte memory, and the
      copies between sparse and dense buffers.
    - [Access]: elements, slices, members and pointed data; [debug_string].
    - [Ref], [RefInv], [RefOps], [RefTheorems], [RefCopy]: the store of buffers,
      data and references, with locks, notifications, shared ownership and the
      log of the deallocators that ran; the deep copy.
    - [Numeric]: C++ integers of every width, IEEE floats, conversions, scalar
      reads and writes, the operators of an operation.
    - [ExprSyntax], [Parse], [ParseFacts], [ParsePrint]: expressions and their
      parser, with [strtol] and [strtod].
    - [Yaml], [Template]: the specification tree, the templates, their parsers and
      evaluation, the basic and user types.
    - [GlobalContext], [Eval], [ContextInv], [DescriptorInv], [EvalInv], [Share],
      [ShareFacts], [MetadataFacts]: descriptors, callbacks and notification;
      evaluation of expressions in the context; the invariant of the context; what
      sharing and reclaiming do with data and with metadata.
    - [Logger], [LoggerFacts]: the loggers of the context and of its plugins,
      their patterns and levels, and how both are read from the specification.
    - [Postorder], [Includes], [StringTools], [PluginStore], [PluginStoreFacts]:
      included files, the search path and the loading order of plugins, each with
      its logger.
    - [Init], [Api], [ApiFacts], [ExposeFacts]: the constructor of the context and
      the C interface with its error handlers, which may do whatever a program can,
      and transactions.
    - [Serialize], [SerializeFacts], [SerializePlugin], [SerializeRun]: the
      Serialize plugin: the serialized type, the copies in both directions, the
      callbacks that share and reclaim the serialized data, and a run of them.
    - [Contexts]: the interface that a plugin is given, with the global context and
      its proxy as implementations, and the iterators over the descriptors.
    - [SetValue], [SetValueFacts], [SetValueRun]: the Set_value plugin: its
      triggers and operations, and a run of them.
    - [UserCode], [UserCodeFacts]: the User_code plugin: the aliases it exposes
      around the call of a function of the user.
    - [Json], [JsonFacts], [JsonRun]: the Json plugin: the JSON value of data, the
      array of documents that a file holds, and a run.
    - [Timer], [TimerFacts]: the Timer and Trace plugins.
    - [EffectEq]: operations that do the same in every state, a relation for which
      those of the monad are morphisms.
    - [Hdf5], [Hdf5Ops], [Hdf5Exec]: the Decl'HDF5 plugin: types, dataspaces,
      selections and collision policies; the configuration; the transfers of
      datasets and attributes, files and callbacks.  [Hdf5Facts], [Hdf5Guards],
      [Hdf5Parse], [Hdf5Run]: the dataspaces, what the plugin never does, its
      configuration, and a run with an HDF5 library in memory.
    - [Netcdf], [NetcdfFile], [NetcdfExec], [NetcdfFacts], [NetcdfRun]: the
      Decl'NetCDF plugin: its configuration, an open file, what is done on data and
      on events; its properties, and a run with a netCDF library in memory.
    - [Mpi], [MpiFacts], [MpiRelease], [MpiRun]: the MPI plugin: predefined metadata,
      the types of communicators and their conversions between C and Fortran, when
      they are shared and when they are taken back, and a run.
    - [Python], [PythonFacts], [PythonShare]: the Python bindings: datatypes and the
      layout of NumPy arrays, references as arrays or wrappers, the functions of the
      module; sharing an array and accessing it.
    - [Pycall], [PycallFacts], [PythonRun]: the Pycall plugin: the variables it sets
      and the code it runs; runs of it and of the bindings.

    The state of the context is the record [GlobalContext.global]; that of the
    plugin store wraps it ([PluginStore.plugin_store]), and that of the C
    interface wraps the store ([Api.api]).

    ** Interfaces

    Code outside the library is a parameter, as a type class: the system
    allocator ([RefCopy.Allocator]), the functions registered on nullification
    ([RefTheorems.Callbacks]), what a callback of a plugin does
    ([GlobalContext.Platform]), [fmt] and the aligned allocation
    ([Eval.Runtime]), files ([Includes.Files]), the dynamic loader
    ([PluginStore.System]), the code of the plugins ([PluginStore.Plugin_code])
    and the handlers of the user ([Api.Program]); where the loggers are in the state
    of the plugins is [Logger.LoggerHost].  The plugins are written
    against what they ask of the context and of the system, each as a class
    ([SerializePlugin.SerializeHost] and those of [SetValue], [UserCode], [Json],
    [Timer], [Hdf5Ops], [NetcdfExec] and [Mpi]); the HDF5, netCDF and MPI libraries
    are [Hdf5.Hdf5], [Netcdf.Netcdf] and [Mpi.Mpi], NumPy and Python are
    [Python.Numpy] and [Pycall.Interpreter].  What a theorem needs of them is a
    class of laws: [DescriptorInv.Plugins] for plugins that use references and
    leave the stacks alone, [ShareFacts.Observers] for plugins that only look at
    the data, [ApiFacts.Handlers] for error handlers that return and leave the
    transaction alone, [JsonFacts.JsonLaws] for files, [Hdf5Facts.Dataspaces] for the
    dataspaces of HDF5, [PythonFacts.Numpy_limits] for the arrays that NumPy can
    make, [PycallFacts.Python_laws] for the objects of Python.  The interface of the
    context itself is [Contexts.Context_ops] with [Contexts.Context_laws], which the
    global context and the proxy satisfy.  Instances over small worlds discharge the
    classes in the witnesses.

    ** What is proved

    - Types: densifying gives the packed layout of a C structure and is
      idempotent; equality is an equivalence; a struct of the specification is
      laid out as a C structure; arrays multiply their dimensions.
    - Data: the copy to a dense buffer refines a list of moves, and the copy back
      restores the data; accesses stay in bounds and agree with types.
    - References: readers and writers exclude each other, no operation crashes,
      memory is freed exactly once, a release gives the data back; a deep copy
      holds the same data.
    - Expressions: parsing reads back what is printed and terminates; integer
      arithmetic is exact when the result is representable.
    - Context: an invariant of every reachable state, no operation on descriptors
      crashes, sharing then reclaiming gives the data back, and a copy of reclaimed
      metadata stays readable.
    - Configuration: included files come once and before those that include
      them, plugins are constructed once and after their dependencies; without a
      cycle both succeed.
    - C interface: a transaction is a [PDI_multi_expose] cut into calls, data
      exposed together comes back, and when one piece can not be shared the others
      are taken back.
    - Plugins: data that is serialized and read back is the data that was
      shared; the triggers of Set_value and User_code keep the invariant of the
      context where they do not run into undefined behaviour, and those of Set_value
      that release nothing meet the contract of plugins; the aliases of User_code are
      exposed while the function is called, which it is when its condition holds; the
      Json plugin appends the value of the data to the array of its file; a timer
      accumulates the time of a block.
    - HDF5 and netCDF: the dataspaces select the elements of the data where access
      by index finds them; by comparison with libraries in which a call that should
      not happen crashes, transfers of datasets have the same number of points on both
      sides, a
      file that must be kept is not changed, a default netCDF transfer has the bytes
      of the data; operations are registered for the data they transfer or for their
      events; groups are found.
    - MPI: predefined values outlive the variables they come from; shared
      communicators are converted in both directions, and written back when they are
      taken back.
    - Python: the elements of a NumPy array are those of the data, where access by
      index finds them; an array that is shared comes back with its elements; the code
      that Pycall runs finds them in its variables, and its exceptions stay in the
      plugin.
    - Contexts: a loop over the descriptors, through a proxy or not, visits each of
      them once.
    - Loggers: a pattern of the specification reaches the loggers of the
      plugins, and the substitution in a pattern terminates.
    - Defects: theorems, most of them on concrete inputs, show where the code does
      not do what it means to (padded elements in arrays, slices of tuples, empty structs,
      self-referring types, backslashes, the address a deep copy deletes, nested
      timers, damaged JSON files, datasets that are not replaced, netCDF files that
      are read and written on one event, the deprecated key of the MPI plugin, an
      access of Python that fails, arrays whose last stride is not that of their
      elements, variables of Pycall that outlive the data).

    ** Bounds and fuel

    The library is modelled on an LP64 target.  The locks of a buffer, [int] in the
    code, are numbers without a bound that stay in the range of an [int] while there
    are fewer than 2^31 - 1 references ([RefTheorems.locks_fit_in_an_int]).  Recursions that are not
    structural have a fuel: ten times the length of the string for the parser
    ([Parse.fuel_for], enough by [ParsePrint.expression_parser_terminates]), more
    than the number of files for includes (enough by
    [Includes.includes_are_ordered]), the number of plugins for dependencies
    (enough by [PluginStoreFacts.acyclic_plugins_load]), the number of
    notifications for a release (enough by [RefTheorems.release_gives_data_back]),
    twice the depth of the type for JSON values (enough by [JsonFacts.all_written]),
    any fuel for user types, where a definition that names itself diverges
    ([Template.recursive_user_type_diverges]), and any number of turns for patterns of
    loggers, where a reference whose value contains itself diverges.

    ** Not modelled

    The sinks of the loggers ([spdlog]), the Fortran bindings, which only declare
    the C interface to another language, the mock library, whose functions do
    nothing, the vendored libraries, and what Decl'HDF5 and Decl'NetCDF do with a
    parallel library, which is another build of the two plugins.
    Memory allocation does not fail.  Threads are not modelled: the library is
    used by one thread at a time. *)

From stdpp Require Export prelude gmap list strings pretty numbers.

(** * Shared notation *)

Declare Scope size_scope.
Delimit Scope size_scope with size.

#[export] Set Warnings "-register-all,-clear-no-such-hyp".

#[global] Open Scope Z_scope.

Create HintDb pdi.
Create HintDb pdi_size.

(** * [size_t] arithmetic

    The library is built for LP64 targets: [size_t] is an unsigned 64-bit
    integer and [long] a signed 64-bit one.  A [size_t] is a [Z] in
    [0, 2^64); every arithmetic operation wraps. *)

Definition size_modulus : Z := 2 ^ 64.

Definition wrap (z : Z) : Z := z mod size_modulus.

Definition size_add (a b : Z) : Z := wrap (a + b).
Definition size_sub (a b : Z) : Z := wrap (a - b).
Definition size_mul (a b : Z) : Z := wrap (a * b).

Infix "+s" := size_add (at level 50, left associativity) : size_scope.
Infix "-s" := size_sub (at level 50, left associativity) : size_scope.
Infix "*s" := size_mul (at level 40, left associativity) : size_scope.

#[global] Open Scope size_scope.

(** A value a [size_t] variable can hold. *)
Definition is_size (z : Z) : Prop := 0 <= z < size_modulus.

#[export] Instance is_size_dec z : Decision (is_size z).
Proof. unfold is_size. apply _. Defined.

(** A value a [long] variable can hold, and the conversions between the two
    types ([static_cast<size_t>(long)] and back, modulo 2^64). *)
Definition is_long (z : Z) : Prop := - 2 ^ 63 <= z < 2 ^ 63.

#[export] Instance is_long_dec z : Decision (is_long z).
Proof. unfold is_long. apply _. Defined.

Definition size_of_long (z : Z) : Z := wrap z.

Definition long_of_size (z : Z) : Z :=
  if z <? 2 ^ 63 then z else z - size_modulus.

Lemma size_modulus_pos : 0 < size_modulus.
Proof. reflexivity. Qed.

Lemma wrap_is_size z : is_size (wrap z).
Proof. apply Z.mod_pos_bound, size_modulus_pos. Qed.

Lemma wrap_small z : is_size z -> wrap z = z.
Proof. apply Z.mod_small. Qed.

Lemma size_add_small a b : is_size (a + b) -> a +s b = a + b.
Proof. apply wrap_small. Qed.

Lemma size_sub_small a b : is_size (a - b) -> a -s b = a - b.
Proof. apply wrap_small. Qed.

Lemma size_mul_small a b : is_size (a * b) -> a *s b = a * b.
Proof. apply wrap_small. Qed.

#[export] Hint Resolve wrap_is_size : pdi_size.

Lemma size_add_is_size a b : is_size (a +s b).
Proof. apply wrap_is_size. Qed.
Lemma size_sub_is_size a b : is_size (a -s b).
Proof. apply wrap_is_size. Qed.
Lemma size_mul_is_size a b : is_size (a *s b).
Proof. apply wrap_is_size. Qed.

#[export] Hint Resolve size_add_is_size size_sub_is_size size_mul_is_size : pdi_size.

Lemma size_of_long_small z : 0 <= z -> is_long z -> size_of_long z = z.
Proof. unfold is_long. intros ? ?. apply wrap_small. unfold is_size, size_modulus. lia. Qed.

Lemma long_of_size_of_long z : is_long z -> long_of_size (size_of_long z) = z.
Proof.
  unfold is_long, long_of_size, size_of_long, wrap. intros Hz.
  destruct (Z.lt_ge_cases z 0).
  - rewrite <- (Z.mod_unique z size_modulus (-1) (z + size_modulus));
      [| left; unfold size_modulus; lia | lia].
    destruct (Z.ltb_spec (z + size_modulus) (2 ^ 63)); unfold size_modulus in *; lia.
  - rewrite Z.mod_small by (unfold size_modulus; lia).
    destruct (Z.ltb_spec z (2 ^ 63)); lia.
Qed.

(** Rewrites every wrapping operation whose mathematical value provably fits. *)
Ltac size_simpl :=
  repeat first
    [ rewrite size_add_small by (unfold is_size, size_modulus in *; nia)
    | rewrite size_sub_small by (unfold is_size, size_modulus in *; nia)
    | rewrite size_mul_small by (unfold is_size, size_modulus in *; nia) ].

(** * Powers of two

    [ispow2] is the test the scalar constructors apply to an alignment. *)

(** [v && !(v & (v - 1))] on [size_t]. *)
Definition ispow2 (v : Z) : bool :=
  negb (v =? 0) && (Z.land v (v -s 1) =? 0).

Lemma land_pred_pow2 n : 0 <= n -> Z.land (2 ^ n) (2 ^ n - 1) = 0.
Proof.
  intros Hn. replace (2 ^ n - 1) with (Z.ones n) by (rewrite Z.ones_equiv; lia).
  rewrite Z.land_ones by lia. apply Z_mod_same_full.
Qed.

(** If [v] is not the power of two of its own logarithm, its leading bit
    survives the conjunction with its predecessor. *)
Lemma land_pred_nonpow2 v : 0 < v -> v <> 2 ^ Z.log2 v -> Z.land v (v - 1) <> 0.
Proof.
  intros Hv Hne Hz.
  pose proof (Z.log2_spec v Hv) as [Hlo Hhi].
  assert (Hl : Z.log2 (v - 1) = Z.log2 v)
    by (apply Z.log2_unique; [apply Z.log2_nonneg | lia]).
  assert (Hb : Z.testbit (Z.land v (v - 1)) (Z.log2 v) = true).
  { rewrite Z.land_spec, Z.bit_log2 by lia. rewrite <- Hl at 1.
    rewrite Z.bit_log2; [done |].
    pose proof (Z.pow_pos_nonneg 2 (Z.log2 v) ltac:(lia) (Z.log2_nonneg v)). lia. }
  rewrite Hz, Z.testbit_0_l in Hb. discriminate.
Qed.

Lemma ispow2_spec v : is_size v -> ispow2 v = true <-> exists n, 0 <= n < 64 /\ v = 2 ^ n.
Proof.
  intros Hv. unfold ispow2. rewrite andb_true_iff, negb_true_iff, Z.eqb_neq, Z.eqb_eq. split.
  - intros [Hnz Hland]. rewrite size_sub_small in Hland by (unfold is_size in *; lia).
    destruct (Z.eq_dec v (2 ^ Z.log2 v)) as [E|E].
    + exists (Z.log2 v). repeat split; [apply Z.log2_nonneg | | done].
      apply Z.log2_lt_pow2; unfold is_size, size_modulus in Hv; lia.
    + exfalso. unfold is_size in Hv. by apply (land_pred_nonpow2 v); [lia | |].
  - intros (n & Hn & ->). pose proof (Z.pow_pos_nonneg 2 n ltac:(lia) ltac:(lia)). split; [lia |].
    rewrite size_sub_small by (unfold is_size in *; lia). apply land_pred_pow2. lia.
Qed.

Definition pow2 (v : Z) : Prop := exists n, 0 <= n < 64 /\ v = 2 ^ n.

Lemma pow2_pos v : pow2 v -> 0 < v.
Proof. intros (n & ? & ->). apply Z.pow_pos_nonneg; lia. Qed.

Lemma pow2_is_size v : pow2 v -> is_size v.
Proof.
  intros (n & ? & ->). unfold is_size, size_modulus. split; [apply Z.pow_nonneg; lia|].
  apply Z.pow_lt_mono_r; lia.
Qed.

Lemma pow2_1 : pow2 1.
Proof. by exists 0. Qed.

Lemma pow2_8 : pow2 8.
Proof. by exists 3. Qed.

Lemma ispow2_pow2 v : is_size v -> ispow2 v = true <-> pow2 v.
Proof. apply ispow2_spec. Qed.

Lemma pow2_ispow2 v : pow2 v -> ispow2 v = true.
Proof. intros H. apply ispow2_pow2; [by apply pow2_is_size | done]. Qed.

(** Powers of two are totally ordered by divisibility, so the maximum of two
    alignments is a common multiple of both. *)
Lemma pow2_divide a b : pow2 a -> pow2 b -> a <= b -> (a | b).
Proof.
  intros (n & ? & ->) (m & ? & ->) Hle. exists (2 ^ (m - n)).
  rewrite <- Z.pow_add_r; [f_equal; lia | | lia].
  enough (n <= m) by lia. apply (Z.pow_le_mono_r_iff 2); lia.
Qed.

Lemma pow2_max a b : pow2 a -> pow2 b -> pow2 (Z.max a b).
Proof. intros. destruct (Z.max_spec a b) as [[? ->]|[? ->]]; done. Qed.

Lemma pow2_max_divide_l a b : pow2 a -> pow2 b -> (a | Z.max a b).
Proof. intros. apply pow2_divide; auto using pow2_max. lia. Qed.

Lemma pow2_max_divide_r a b : pow2 a -> pow2 b -> (b | Z.max a b).
Proof. intros. apply pow2_divide; auto using pow2_max. lia. Qed.

#[export] Hint Resolve pow2_pos pow2_is_size pow2_1 pow2_8 pow2_max pow2_ispow2 : pdi.

(** * Rounding an offset up to an alignment *)

(** The mathematical value of [d + (a - d % a) % a]. *)
Definition align_up (a d : Z) : Z := d + (a - d mod a) mod a.

Lemma align_up_ge a d : 0 < a -> d <= align_up a d.
Proof. intros. unfold align_up. pose proof (Z.mod_pos_bound (a - d mod a) a). lia. Qed.

Lemma align_up_lt a d : 0 < a -> align_up a d < d + a.
Proof. intros. unfold align_up. pose proof (Z.mod_pos_bound (a - d mod a) a). lia. Qed.

Lemma align_up_divide a d : 0 < a -> (a | align_up a d).
Proof.
  intros Ha. apply Z.mod_divide; [lia|]. unfold align_up.
  rewrite Z.add_mod_idemp_r by lia.
  replace (d + (a - d mod a)) with (a + (d - d mod a)) by lia.
  rewrite (Z.div_mod d a) at 1 by lia.
  replace (a + (a * (d / a) + d mod a - d mod a)) with ((1 + d / a) * a) by lia.
  apply Z_mod_mult.
Qed.

Lemma align_up_id a d : 0 < a -> (a | d) -> align_up a d = d.
Proof.
  intros Ha Hd. unfold align_up. apply Z.mod_divide in Hd; [|lia]. rewrite Hd, Z.sub_0_r, Z_mod_same_full. lia.
Qed.

(** [align_up a d] is the least multiple of [a] that is at least [d]. *)
Lemma align_up_least a d x : 0 < a -> (a | x) -> d <= x -> align_up a d <= x.
Proof.
  intros Ha [k ->] Hle. destruct (align_up_divide a d Ha) as [j Hj].
  pose proof (align_up_lt a d Ha). rewrite Hj in *. apply Z.mul_le_mono_nonneg_r; [lia|]. nia.
Qed.

Lemma align_up_mono a d d' : 0 < a -> d <= d' -> align_up a d <= align_up a d'.
Proof.
  intros Ha Hle. apply align_up_least; auto using align_up_divide.
  pose proof (align_up_ge a d' Ha). lia.
Qed.

(** Rounding an address commutes with a base that is itself aligned. *)
Lemma align_up_base a b d : 0 < a -> (a | b) -> align_up a (b + d) = b + align_up a d.
Proof.
  intros Ha [k ->]. unfold align_up. rewrite (Z.add_comm (k * a) d), Z.mod_add by lia. lia.
Qed.

Lemma align_up_nonneg a d : 0 < a -> 0 <= d -> 0 <= align_up a d.
Proof. intros. pose proof (align_up_ge a d). lia. Qed.

(** * Strings *)

Lemma string_app_String c (a b : string) : String c a +:+ b = String c (a +:+ b).
Proof. done. Qed.

Lemma string_app_assoc (a b c : string) : (a +:+ b) +:+ c = a +:+ (b +:+ c).
Proof. induction a as [|x a IH]; [done|]. by rewrite !string_app_String, IH. Qed.

Lemma string_app_nil_r (a : string) : a +:+ "" = a.
Proof. induction a as [|x a IH]; [done|]. by rewrite string_app_String, IH. Qed.

Lemma string_length_app (a b : string) : String.length (a +:+ b) = (String.length a + String.length b)%nat.
Proof. induction a as [|x a IH]; [done|]. rewrite string_app_String. simpl. by rewrite IH. Qed.

(** * Boolean tests *)

Lemma forallb_Forall {A} (f : A -> bool) l : forallb f l = true <-> Forall (fun x => f x = true) l.
Proof.
  induction l as [|x l IH]; simpl; [by split; [constructor|]|].
  by rewrite andb_true_iff, list.Forall_cons, IH.
Qed.

(** Splits a conjunction of boolean tests into propositions. *)
Ltac bools :=
  repeat match goal with
  | H : _ && _ = true |- _ => apply andb_true_iff in H as [? ?]
  | H : negb _ = true |- _ => apply negb_true_iff in H
  | H : bool_decide _ = true |- _ => apply bool_decide_eq_true_1 in H
  | H : bool_decide _ = false |- _ => apply bool_decide_eq_false_1 in H
  | H : forallb _ _ = true |- _ => apply forallb_Forall in H
  | H : (_ =? _) = true |- _ => apply Z.eqb_eq in H
  | H : (_ =? _) = false |- _ => apply Z.eqb_neq in H
  | H : (_ <=? _) = true |- _ => apply Z.leb_le in H
  | H : (_ <? _) = true |- _ => apply Z.ltb_lt in H
  | H : (_ <? _) = false |- _ => apply Z.ltb_ge in H
  | H : (_ <=? _) = false |- _ => apply Z.leb_gt in H
  end.
