(* ===== verification/Error.v ===== *)
(** Error statuses, exceptions and the outcome monad.

    Models [pdi/include/pdi.h] (the C status codes and their messages),
    [pdi/include/pdi/error.h] and [pdi/src/error.cxx] (the exception classes and
    the functions that rethrow them with more context).  Every fallible
    operation of the development returns an [outcome]: a value, a C++ exception
    that propagates, or [Crash] for an operation whose behaviour C++ leaves
    undefined (division by zero, access outside an allocated buffer...). *)

From S2P Require Import Prelude.

(** * Status codes *)

Inductive PDI_status_t :=
  | PDI_OK
  | PDI_UNAVAILABLE
  | PDI_ERR_SPECTREE
  | PDI_ERR_VALUE
  | PDI_ERR_PLUGIN
  | PDI_ERR_IMPL
  | PDI_ERR_SYSTEM
  | PDI_ERR_STATE
  | PDI_ERR_PERMISSION
  | PDI_ERR_TYPE
  | PDI_ERR_INVALIDACTION
  | PDI_ERR_MULTIPLE.

#[export] Instance PDI_status_t_eq_dec : EqDecision PDI_status_t.
Proof. solve_decision. Defined.

Definition PDI_STATUS_MSG (s : PDI_status_t) : string :=
  match s with
  | PDI_OK => "Not an error"
  | PDI_UNAVAILABLE => "Data unavailable"
  | PDI_ERR_SPECTREE => "Invalid entry in specification tree"
  | PDI_ERR_VALUE => "Invalid value expression"
  | PDI_ERR_PLUGIN => "Invalid plugin"
  | PDI_ERR_IMPL => "Missing feature"
  | PDI_ERR_SYSTEM => "System error"
  | PDI_ERR_STATE => "Precondition not respected"
  | PDI_ERR_PERMISSION => "Permission issue"
  | PDI_ERR_TYPE => "Incorrect type"
  | PDI_ERR_INVALIDACTION => "Invalid action requested"
  | PDI_ERR_MULTIPLE => "Multiple errors"
  end.

(** [if (status)] in C: a status is an error when it is not [PDI_OK]. *)
Definition is_error (s : PDI_status_t) : bool := negb (bool_decide (s = PDI_OK)).

(** * Exceptions *)

Record Yaml_mark := { line : Z; column : Z }.
Record Yaml_region := { m_file : string; m_start_mark : Yaml_mark; m_end_mark : Yaml_mark }.

(** The C++ exceptions that can propagate through the library.  The first three
    constructors are the subclasses of [PDI::Error]; [System_error_nested] is
    the object thrown by [std::throw_with_nested(System_error(what))], which is
    a [System_error] too; the last two are a [std::exception] of another class
    and an object of any other type. *)
Inductive exn :=
  | Error_impl (STATUS : PDI_status_t) (m_what : string)
  | Spectree_error (m_location : option Yaml_region) (m_what : string)
  | Multiple_errors (m_nested_ptrs : list exn) (m_what : string)
  | System_error_nested (m_what : string) (nested : exn)
  | Std_exception (m_what : string)
  | Unknown_exception.

Abbreviation Value_error := (Error_impl PDI_ERR_VALUE).
Abbreviation Plugin_error := (Error_impl PDI_ERR_PLUGIN).
Abbreviation Impl_error := (Error_impl PDI_ERR_IMPL).
Abbreviation State_error := (Error_impl PDI_ERR_STATE).
Abbreviation Permission_error := (Error_impl PDI_ERR_PERMISSION).
Abbreviation System_error := (Error_impl PDI_ERR_SYSTEM).
Abbreviation Type_error := (Error_impl PDI_ERR_TYPE).

(** [Error::status], for the exceptions that are a [PDI::Error]. *)
Definition status (e : exn) : option PDI_status_t :=
  match e with
  | Error_impl st _ => Some st
  | Spectree_error _ _ => Some PDI_ERR_SPECTREE
  | Multiple_errors _ _ => Some PDI_ERR_MULTIPLE
  | System_error_nested _ _ => Some PDI_ERR_SYSTEM
  | Std_exception _ | Unknown_exception => None
  end.

(** [std::exception::what], for the exceptions that have one. *)
Definition what (e : exn) : option string :=
  match e with
  | Error_impl _ w | Spectree_error _ w | Multiple_errors _ w
  | System_error_nested w _ | Std_exception w => Some w
  | Unknown_exception => None
  end.

(** [fmt::join] *)
Fixpoint join (sep : string) (l : list string) : string :=
  match l with
  | [] => ""
  | [s] => s
  | s :: l' => s +:+ sep +:+ join sep l'
  end.

Definition newline : string := String (Ascii.ascii_of_nat 10) "".

Definition format_region (r : Yaml_region) : string :=
  m_file r +:+ "(" +:+ pretty (line (m_start_mark r)) +:+ ":" +:+ pretty (column (m_start_mark r))
  +:+ " -> " +:+ pretty (line (m_end_mark r)) +:+ ":" +:+ pretty (column (m_end_mark r)) +:+ ")".

(** [Error::full_msg] of each class, and the formatter of an [exception_ptr]
    that [Multiple_errors] uses for its nested errors. *)
Fixpoint full_msg (e : exn) : string :=
  match e with
  | Error_impl st w => PDI_STATUS_MSG st +:+ ": " +:+ w
  | Spectree_error (Some loc) w =>
      PDI_STATUS_MSG PDI_ERR_SPECTREE +:+ ": " +:+ format_region loc +:+ " " +:+ w
  | Spectree_error None w => PDI_STATUS_MSG PDI_ERR_SPECTREE +:+ ": " +:+ w
  | Multiple_errors nested w =>
      PDI_STATUS_MSG PDI_ERR_MULTIPLE +:+ ": " +:+ w +:+ newline +:+ " * "
      +:+ join (newline +:+ " * ") (map full_msg nested)
  | System_error_nested w _ => PDI_STATUS_MSG PDI_ERR_SYSTEM +:+ ": " +:+ w
  | Std_exception w => w
  | Unknown_exception => "unknown error"
  end.

(** * Outcomes *)

Inductive outcome (A : Type) : Type :=
  | Ret (a : A)
  | Throw (e : exn)
  | Crash.
Arguments Ret {A} a.
Arguments Throw {A} e.
Arguments Crash {A}.

#[export] Instance outcome_ret : MRet outcome := @Ret.
#[export] Instance outcome_bind : MBind outcome := fun A B f m =>
  match m with Ret a => f a | Throw e => Throw e | Crash => Crash end.
#[export] Instance outcome_fmap : FMap outcome := fun A B f m =>
  match m with Ret a => Ret (f a) | Throw e => Throw e | Crash => Crash end.

Lemma bind_Ret {A B} (m : outcome A) (f : A -> outcome B) b :
  (m ≫= f) = Ret b <-> exists a, m = Ret a /\ f a = Ret b.
Proof. destruct m; naive_solver. Qed.

Lemma bind_Ret_l {A B} (a : A) (f : A -> outcome B) : (Ret a ≫= f) = f a.
Proof. reflexivity. Qed.

Lemma bind_assoc {A B C} (m : outcome A) (f : A -> outcome B) (g : B -> outcome C) :
  ((m ≫= f) ≫= g) = (m ≫= fun a => f a ≫= g).
Proof. by destruct m. Qed.

(** Peels the binds of a computation known to return. *)
Ltac inv_ret :=
  repeat match goal with
  | H : Ret _ = Ret _ |- _ => injection H; clear H; intros; try subst
  | H : mret _ = Ret _ |- _ => injection H; clear H; intros; try subst
  | H : Throw _ = Ret _ |- _ => discriminate H
  | H : Crash = Ret _ |- _ => discriminate H
  | H : mbind _ _ = Ret _ |- _ =>
      let a := fresh "a" in let H1 := fresh "H" in
      apply bind_Ret in H as (a & H1 & H); cbn beta in H
  end.

Lemma mapM_Ret_Forall2 {A B} (f : A -> outcome B) l k :
  mapM f l = Ret k <-> Forall2 (fun x y => f x = Ret y) l k.
Proof.
  revert k. induction l as [|x l IH]; intros k; simpl.
  - split; [intros [= <-]; constructor | by inversion 1].
  - split.
    + intros Hm. inv_ret. constructor; [done|]. by apply IH.
    + inversion 1 as [|? y ? k' Hx Hl]; subst. rewrite Hx. simpl.
      apply IH in Hl. by rewrite Hl.
Qed.

(** * Rethrowing with context *)

(** [Error::rethrow_with_context]: the exception each class throws.  A nested
    system error goes through [Error_impl<PDI_ERR_SYSTEM>] and loses its nested
    exception.  The last two cases are not a [PDI::Error]. *)
Definition rethrow_with_context (e : exn) (msg : string) : exn :=
  match e with
  | Error_impl st w => Error_impl st (msg +:+ w)
  | Spectree_error loc w => Spectree_error loc (msg +:+ w)
  | Multiple_errors nested w => Multiple_errors nested (msg +:+ w)
  | System_error_nested w _ => System_error (msg +:+ w)
  | Std_exception _ | Unknown_exception => e
  end.

(** [rethrow_with_simple_context(std::exception_ptr, std::string)] *)
Definition rethrow_with_simple_context (err : exn) (msg : string) : exn :=
  match status err with
  | Some _ => rethrow_with_context err msg
  | None => System_error_nested msg err
  end.

(** [rethrow_with_simple_context(std::vector<std::exception_ptr>, std::string)] *)
Definition rethrow_all_with_simple_context (errors : list exn) (msg : string) : outcome unit :=
  match errors with
  | [] => Ret tt
  | [e] => Throw (rethrow_with_simple_context e msg)
  | _ => Throw (Multiple_errors errors msg)
  end.

(** [try { m } catch (...) { rethrow_with_context(current_exception(), msg) }] *)
Definition with_context {A} (msg : string) (m : outcome A) : outcome A :=
  match m with
  | Throw e => Throw (rethrow_with_simple_context e msg)
  | _ => m
  end.

(** The status [catch (const Error&)] / [catch (...)] of the C API returns. *)
Definition caught_status (e : exn) : PDI_status_t :=
  match status e with Some st => st | None => PDI_ERR_SYSTEM end.

Lemma rethrow_status e msg :
  status (rethrow_with_simple_context e msg) = Some (caught_status e).
Proof. by destruct e. Qed.

Lemma caught_status_rethrow e msg :
  caught_status (rethrow_with_simple_context e msg) = caught_status e.
Proof. unfold caught_status at 1. by rewrite rethrow_status. Qed.

Lemma rethrow_all_Ret errors msg :
  rethrow_all_with_simple_context errors msg = Ret tt <-> errors = [].
Proof. destruct errors as [|? [|]]; simpl; naive_solver. Qed.

Lemma with_context_Ret {A} msg (m : outcome A) a : with_context msg m = Ret a <-> m = Ret a.
Proof. destruct m; simpl; naive_solver. Qed.

(** No PDI exception carries the [PDI_OK] status as long as its leaves do not:
    [Error_impl] is only ever instantiated at the error statuses. *)
Definition exn_ok (e : exn) : Prop := status e <> Some PDI_OK.

Lemma caught_status_error e : exn_ok e -> is_error (caught_status e) = true.
Proof.
  unfold exn_ok, is_error, caught_status. intros H. case_bool_decide; [|done].
  destruct (status e); congruence.
Qed.

Lemma rethrow_exn_ok e msg : exn_ok e -> exn_ok (rethrow_with_simple_context e msg).
Proof. unfold exn_ok. intros H. rewrite rethrow_status. unfold caught_status. destruct (status e); congruence. Qed.

Lemma rethrow_all_exn_ok errors msg e :
  Forall exn_ok errors -> rethrow_all_with_simple_context errors msg = Throw e -> exn_ok e.
Proof.
  intros Hall. destruct errors as [|e1 [|e2 errors]]; simpl; [done| |].
  - intros [= <-]. apply rethrow_exn_ok. by inversion Hall.
  - by intros [= <-].
Qed.

#[export] Hint Resolve rethrow_exn_ok : pdi.
