(* ===== verification/Effect.v ===== *)
(** The monad of the operations that change shared state.

    An operation runs in a state and returns a value, throws, or has undefined
    behaviour; unlike in [outcome], the state at the point of a throw is kept,
    because the library catches exceptions and goes on. *)

From S2P Require Import Prelude Error.

Inductive exec (S A : Type) : Type :=
  | Done (a : A) (s : S)
  | Thrown (e : exn) (s : S)
  | Crashed.
Arguments Done {S A} a s.
Arguments Thrown {S A} e s.
Arguments Crashed {S A}.

Definition M (S A : Type) : Type := S -> exec S A.

#[export] Instance M_ret S : MRet (M S) := fun A a s => Done a s.
#[export] Instance M_bind S : MBind (M S) := fun A B f m s =>
  match m s with Done a s => f a s | Thrown e s => Thrown e s | Crashed => Crashed end.
#[export] Instance M_fmap S : FMap (M S) := fun A B f m s =>
  match m s with Done a s => Done (f a) s | Thrown e s => Thrown e s | Crashed => Crashed end.

Section operations.
  Context {S : Type}.

Definition throw {A} (e : exn) : M S A := fun s => Thrown e s.

Definition get_state : M S S := fun s => Done s s.
Definition gets {A} (f : S -> A) : M S A := fun s => Done (f s) s.
Definition modify (f : S -> S) : M S unit := fun s => Done tt (f s).

(** A computation that does not touch the state. *)
Definition lift {A} (o : outcome A) : M S A := fun s =>
  match o with Ret a => Done a s | Throw e => Thrown e s | Crash => Crashed end.

(** An operation on a part of the state, which it leaves as it was when it throws. *)
Definition zoom {T A} (get : S -> T) (set : T -> S -> S) (f : T -> outcome (A * T)) : M S A := fun s =>
  match f (get s) with Ret (a, t) => Done a (set t s) | Throw e => Thrown e s | Crash => Crashed end.

(** [try { m } catch (...) { handler }] *)
Definition catch {A} (m : M S A) (handler : exn -> M S A) : M S A := fun s =>
  match m s with Thrown e s => handler e s | o => o end.

(** The destructor of a local variable runs whether or not the block throws;
    destructors do not throw. *)
Definition finally {A} (m : M S A) (destructor : M S unit) : M S A := fun s =>
  match m s with
  | Done a s => match destructor s with Done _ s => Done a s | Thrown _ _ | Crashed => Crashed end
  | Thrown e s => match destructor s with Done _ s => Thrown e s | Thrown _ _ | Crashed => Crashed end
  | Crashed => Crashed
  end.

(** [catch (...) { rethrow_with_context(std::current_exception(), msg); }] *)
Definition in_context {A} (msg : string) (m : M S A) : M S A :=
  catch m (fun e => throw (rethrow_with_simple_context e msg)).

(** A loop over a list. *)
Fixpoint iter {A B} (f : A -> B -> M S B) (l : list A) (b : B) : M S B :=
  match l with [] => mret b | x :: l => b ← f x b; iter f l b end.

Definition assert (c : bool) : M S unit := if c then mret tt else fun _ => Crashed.

(** The state an operation stops in. *)
Definition final {A} (o : exec S A) : option S :=
  match o with Done _ s | Thrown _ s => Some s | Crashed => None end.

(** [P] holds of the outcome: of the value and state, or of the exception and state. *)
Definition outcome_sat {A} (o : exec S A) (Q : A -> S -> Prop) (E : exn -> S -> Prop) : Prop :=
  match o with Done a s => Q a s | Thrown e s => E e s | Crashed => False end.

End operations.
