(* ===== verification/ExprSyntax.v ===== *)
(** Abstract syntax of $-expressions.

    Models the class hierarchy of [pdi/src/expression/impl.h] and
    [pdi/src/expression/impl/*.h]: one constructor per implementation class, with
    the members of the class.  An [Expression] owns a possibly null pointer to
    an implementation ([pdi/include/pdi/expression.h]). *)

From S2P Require Import Prelude.
From Corelib Require Export SpecFloat.

(** The operator characters of [Expression::Impl::Operation::Operator]. *)
Inductive Operator :=
  | PLUS | MINUS | MULT | DIV | MOD | EQUAL | AND | OR | GT | LT | GET | LET.

#[export] Instance Operator_eq_dec : EqDecision Operator.
Proof. solve_decision. Defined.

(** The implementations of an expression and the accessors of a reference.
    A [double] is a binary64 value of [SpecFloat] (precision 53, exponent
    bound 1024); an [unordered_map] is the list of its pairs in iteration
    order. *)
Inductive Impl :=
  | Int_literal (m_value : Z)
  | Float_literal (m_value : spec_float)
  | Operation (m_first_operand : Impl) (m_operands : list (Operator * Impl))
  | Reference_expression (m_referenced : string) (m_subelements : list Accessor)
      (m_fmt_format : string)
  | String_literal (m_start : string) (m_values : list (Impl * string))
  | Sequence (m_value : list Impl)
  | Mapping (m_value : list (string * Impl))
with Accessor :=
  | Index_accessor_expression (m_expression : Impl)
  | Member_accessor_expression (m_expression : Impl).

(** [Expression]: the owning pointer, null for a default-constructed one. *)
Abbreviation Expression := (option Impl).

(** [Attributes_map]: the attributes of a datatype (the [+name] keys of its
    specification), by name. *)
Abbreviation Attributes_map := (list (string * Impl)).
