(* ===== verification/Datatype.v ===== *)
(** Datatypes: representation, sizes, density and densification.

    Models [pdi/include/pdi/*_datatype.h] and [pdi/src/*_datatype.cxx]: one
    constructor of [Datatype] per class, and one definition per virtual method
    that does not touch the data itself.  A [size_t] is a wrapping 64-bit
    integer; an operation that divides by a null alignment returns [Crash]. *)

From S2P Require Import Prelude Error ExprSyntax.

(** * Representation *)

Inductive Scalar_kind := UNKNOWN | SIGNED | UNSIGNED | FLOAT.

#[export] Instance Scalar_kind_eq_dec : EqDecision Scalar_kind.
Proof. solve_decision. Defined.

(** A [std::function] given by the creator of a type: a handle on code that is
    not part of the library.  A null function is [None]. *)
Abbreviation fn := (option Z).

Record Member {D : Type} := mkMember {
  member_displacement : Z;
  member_type : D;
  member_name : string
}.
Arguments Member D : clear implicits.
Arguments mkMember {D} _ _ _.

Record Element {D : Type} := mkElement {
  element_offset : Z;
  element_type : D
}.
Arguments Element D : clear implicits.
Arguments mkElement {D} _ _.

Inductive Datatype :=
  | Scalar_datatype (m_attributes : Attributes_map) (m_kind : Scalar_kind)
      (m_size m_align m_dense_size : Z) (m_copy m_destroy : fn)
  | Array_datatype (m_attributes : Attributes_map) (m_subtype : Datatype)
      (m_size m_start m_subsize : Z)
  | Record_datatype (m_attributes : Attributes_map) (m_members : list (Member Datatype))
      (m_buffersize : Z)
  | Tuple_datatype (m_attributes : Attributes_map) (m_elements : list (Element Datatype))
      (m_buffersize : Z)
  | Pointer_datatype (m_attributes : Attributes_map) (m_subtype : Datatype)
      (m_copy m_destroy : fn).

(** The induction principle that goes through the members of a record and the
    elements of a tuple. *)
Section Datatype_induction.
  Context (P : Datatype -> Prop).
  Context (HScalar : forall a k s al ds c d, P (Scalar_datatype a k s al ds c d)).
  Context (HArray : forall a t s st ss, P t -> P (Array_datatype a t s st ss)).
  Context (HRecord : forall a ms b, Forall (fun m => P (member_type m)) ms -> P (Record_datatype a ms b)).
  Context (HTuple : forall a es b, Forall (fun e => P (element_type e)) es -> P (Tuple_datatype a es b)).
  Context (HPointer : forall a t c d, P t -> P (Pointer_datatype a t c d)).

Fixpoint Datatype_nested_ind (t : Datatype) : P t :=
    match t with
    | Scalar_datatype a k s al ds c d => HScalar a k s al ds c d
    | Array_datatype a t s st ss => HArray a t s st ss (Datatype_nested_ind t)
    | Record_datatype a ms b =>
        HRecord a ms b
          ((fix go (ms : list (Member Datatype)) : Forall (fun m => P (member_type m)) ms :=
              match ms with
              | [] => Forall_nil_2 _
              | m :: ms => Forall_cons_2 _ _ _ (Datatype_nested_ind (member_type m)) (go ms)
              end) ms)
    | Tuple_datatype a es b =>
        HTuple a es b
          ((fix go (es : list (Element Datatype)) : Forall (fun e => P (element_type e)) es :=
              match es with
              | [] => Forall_nil_2 _
              | e :: es => Forall_cons_2 _ _ _ (Datatype_nested_ind (element_type e)) (go es)
              end) es)
    | Pointer_datatype a t c d => HPointer a t c d (Datatype_nested_ind t)
    end.
End Datatype_induction.

(** The size of a pointer on the LP64 targets. *)
Definition sizeof_ptr : Z := 8.

(** [Datatype_template::attributes] *)
Definition attributes (t : Datatype) : Attributes_map :=
  match t with
  | Scalar_datatype a _ _ _ _ _ _ | Array_datatype a _ _ _ _ | Record_datatype a _ _
  | Tuple_datatype a _ _ | Pointer_datatype a _ _ _ => a
  end.

(** [Datatype_template::attribute] *)
Definition attribute (t : Datatype) (attribute_name : string) : outcome Impl :=
  match list_find (fun p => fst p = attribute_name) (attributes t) with
  | Some (_, (_, e)) => Ret e
  | None => Throw (Type_error ("`" +:+ attribute_name +:+ "' type attribute not found"))
  end.

(** * Methods

    A virtual method is a [Fixpoint] that dispatches on the class; the body of
    a class that has one of its own is a definition named after the class, whose
    first argument is the method itself, for the components. *)

(** ** Sizes and alignment *)

Definition array_datasize (datasize : Datatype -> Z) (m_subtype : Datatype) (m_subsize : Z) : Z :=
  m_subsize *s datasize m_subtype.

Definition record_datasize (datasize : Datatype -> Z) (m_members : list (Member Datatype)) : Z :=
  foldl (fun result m => result +s datasize (member_type m)) 0 m_members.

Definition tuple_datasize (datasize : Datatype -> Z) (m_elements : list (Element Datatype)) : Z :=
  foldl (fun result e => result +s datasize (element_type e)) 0 m_elements.

Arguments array_datasize datasize m_subtype m_subsize /.
Arguments record_datasize datasize m_members /.
Arguments tuple_datasize datasize m_elements /.

Fixpoint datasize (t : Datatype) : Z :=
  match t with
  | Scalar_datatype _ _ m_size _ _ _ _ => m_size
  | Array_datatype _ m_subtype _ _ m_subsize => array_datasize datasize m_subtype m_subsize
  | Record_datatype _ m_members _ => record_datasize datasize m_members
  | Tuple_datatype _ m_elements _ => tuple_datasize datasize m_elements
  | Pointer_datatype _ _ _ _ => sizeof_ptr
  end.

Definition array_buffersize (buffersize : Datatype -> Z) (m_subtype : Datatype) (m_size : Z) : Z :=
  m_size *s buffersize m_subtype.

Arguments array_buffersize buffersize m_subtype m_size /.

Fixpoint buffersize (t : Datatype) : Z :=
  match t with
  | Scalar_datatype _ _ _ _ m_dense_size _ _ => m_dense_size
  | Array_datatype _ m_subtype m_size _ _ => array_buffersize buffersize m_subtype m_size
  | Record_datatype _ _ m_buffersize => m_buffersize
  | Tuple_datatype _ _ m_buffersize => m_buffersize
  | Pointer_datatype _ _ _ _ => sizeof_ptr
  end.

Definition record_alignment (alignment : Datatype -> Z) (m_members : list (Member Datatype)) : Z :=
  foldl (fun result m => Z.max result (alignment (member_type m))) 1 m_members.

Definition tuple_alignment (alignment : Datatype -> Z) (m_elements : list (Element Datatype)) : Z :=
  foldl (fun result e => Z.max result (alignment (element_type e))) 1 m_elements.

Arguments record_alignment alignment m_members /.
Arguments tuple_alignment alignment m_elements /.

Fixpoint alignment (t : Datatype) : Z :=
  match t with
  | Scalar_datatype _ _ _ m_align _ _ _ => m_align
  | Array_datatype _ m_subtype _ _ _ => alignment m_subtype
  | Record_datatype _ m_members _ => record_alignment alignment m_members
  | Tuple_datatype _ m_elements _ => tuple_alignment alignment m_elements
  | Pointer_datatype _ _ _ _ => sizeof_ptr
  end.

(** [!m_copy && !m_destroy] for the leaves, all the components otherwise. *)
Definition record_simple (simple : Datatype -> bool) (m_members : list (Member Datatype)) : bool :=
  forallb (fun m => simple (member_type m)) m_members.

Definition tuple_simple (simple : Datatype -> bool) (m_elements : list (Element Datatype)) : bool :=
  forallb (fun e => simple (element_type e)) m_elements.

Arguments record_simple simple m_members /.
Arguments tuple_simple simple m_elements /.

Fixpoint simple (t : Datatype) : bool :=
  match t with
  | Scalar_datatype _ _ _ _ _ m_copy m_destroy | Pointer_datatype _ _ m_copy m_destroy =>
      bool_decide (m_copy = None) && bool_decide (m_destroy = None)
  | Array_datatype _ m_subtype _ _ _ => simple m_subtype
  | Record_datatype _ m_members _ => record_simple simple m_members
  | Tuple_datatype _ m_elements _ => tuple_simple simple m_elements
  end.

(** * Construction *)

(** The test of [scalar_datatype.cxx]: nothing is known about the type. *)
Definition nulltype (t : Datatype) : bool :=
  match t with
  | Scalar_datatype _ m_kind _ _ _ _ _ =>
      (buffersize t =? 0) && (datasize t =? 0) && (alignment t =? 0) && bool_decide (m_kind = UNKNOWN)
  | _ => false
  end.

Definition make_scalar (m_kind : Scalar_kind) (size align dense_size : Z) (copy destroy : fn)
    (attrs : Attributes_map) : outcome Datatype :=
  let t := Scalar_datatype attrs m_kind size align dense_size copy destroy in
  if negb (nulltype t) && negb (ispow2 align)
  then Throw (Value_error "alignment should be a power of 2")
  else Ret t.

(** [Scalar_datatype::make(kind, size, attributes)] *)
Definition make_scalar_kind_size (m_kind : Scalar_kind) (size : Z) (attrs : Attributes_map) :=
  make_scalar m_kind size size size None None attrs.

(** [Scalar_datatype::make(kind, size, align, attributes)] *)
Definition make_scalar_kind_size_align (m_kind : Scalar_kind) (size align : Z)
    (attrs : Attributes_map) :=
  make_scalar m_kind size align size None None attrs.

(** [Array_datatype::make(subtype, size, attributes)] *)
Definition make_array (sub : Datatype) (size : Z) (attrs : Attributes_map) : Datatype :=
  Array_datatype attrs sub size 0 size.

(** The type of a null reference and of a descriptor before it has one. *)
Definition UNDEF_TYPE : Datatype := Scalar_datatype [] UNKNOWN 0 0 0 None None.

(** * Layout loops

    The same loop appears in [Record_datatype::densify],
    [Tuple_datatype::densify], [Struct_template::evaluate],
    [Tuple_template::evaluate], [Sequence::to_ref] and [Mapping::to_ref]:
    components are placed one after the other, each at the next multiple of
    its alignment. *)

(** [(alignment - (displacement % alignment)) % alignment] *)
Definition padding (align displacement : Z) : outcome Z :=
  if align =? 0 then Crash else Ret ((align -s displacement mod align) mod align).

Definition place_members {M N} (conv : M -> outcome Datatype) (mk : M -> Z -> Datatype -> N) :
    list M -> Z -> outcome (list N * Z) :=
  fix go ms displacement :=
    match ms with
    | [] => Ret ([], displacement)
    | m :: ms =>
        t ← conv m;
        p ← padding (alignment t) displacement;
        let displacement := displacement +s p in
        '(ns, displacement') ← go ms (displacement +s buffersize t);
        Ret (mk m displacement t :: ns, displacement')
    end.

(** Trailing padding, and at least one byte so that the address is unique. *)
Definition close_layout (align displacement : Z) : outcome Z :=
  p ← padding align displacement;
  Ret (Z.max 1 (displacement +s p)).

Definition scalar_densify (a : Attributes_map) (k : Scalar_kind) (m_align m_dense_size : Z) (m_copy m_destroy : fn) : outcome Datatype :=
  make_scalar k m_dense_size m_align m_dense_size m_copy m_destroy a.

Definition array_densify (densify : Datatype -> outcome Datatype) (a : Attributes_map) (m_subtype : Datatype) (m_subsize : Z) :
    outcome Datatype :=
  sub' ← densify m_subtype; Ret (make_array sub' m_subsize a).

Definition record_densify (densify : Datatype -> outcome Datatype) (m_members : list (Member Datatype)) (align : Z) : outcome Datatype :=
  '(ms', displacement) ←
    place_members (fun m => densify (member_type m))
      (fun m displacement t' => mkMember displacement t' (member_name m)) m_members 0;
  displacement ← close_layout align displacement;
  Ret (Record_datatype [] ms' displacement).

Definition tuple_densify (densify : Datatype -> outcome Datatype) (m_elements : list (Element Datatype)) (align : Z) : outcome Datatype :=
  '(es', displacement) ←
    place_members (fun e => densify (element_type e))
      (fun _ displacement t' => mkElement displacement t') m_elements 0;
  displacement ← close_layout align displacement;
  Ret (Tuple_datatype [] es' displacement).

Definition pointer_densify (densify : Datatype -> outcome Datatype) (a : Attributes_map) (m_subtype : Datatype) (m_copy m_destroy : fn) :
    outcome Datatype :=
  sub' ← densify m_subtype; Ret (Pointer_datatype a sub' m_copy m_destroy).

Arguments scalar_densify a k m_align m_dense_size m_copy m_destroy /.
Arguments array_densify densify a m_subtype m_subsize /.
Arguments record_densify densify m_members align /.
Arguments tuple_densify densify m_elements align /.
Arguments pointer_densify densify a m_subtype m_copy m_destroy /.

Fixpoint densify (t : Datatype) : outcome Datatype :=
  match t with
  | Scalar_datatype a k _ m_align m_dense_size m_copy m_destroy => scalar_densify a k m_align m_dense_size m_copy m_destroy
  | Array_datatype a m_subtype _ _ m_subsize => array_densify densify a m_subtype m_subsize
  | Record_datatype _ m_members _ => record_densify densify m_members (alignment t)
  | Tuple_datatype _ m_elements _ => tuple_densify densify m_elements (alignment t)
  | Pointer_datatype a m_subtype m_copy m_destroy => pointer_densify densify a m_subtype m_copy m_destroy
  end.

(** The loop of [Record_datatype::dense] and [Tuple_datatype::dense]: [None] when
    it returns [false] early, otherwise the displacement it reaches. *)
Definition dense_members {M} (offset : M -> Z) (type : M -> Datatype)
    (dense : M -> outcome bool) : list M -> Z -> outcome (option Z) :=
  fix go ms displacement :=
    match ms with
    | [] => Ret (Some displacement)
    | m :: ms =>
        b ← dense m;
        if negb b then Ret None
        else
          p ← padding (alignment (type m)) displacement;
          let displacement := displacement +s p in
          if offset m >? displacement then Ret None
          else go ms (displacement +s buffersize (type m))
    end.

Definition array_dense (dense : Datatype -> outcome bool) (m_subtype : Datatype) (m_size m_subsize : Z) : outcome bool :=
  if negb (m_size =? m_subsize) then Ret false else dense m_subtype.

Definition record_dense (dense : Datatype -> outcome bool) (m_members : list (Member Datatype)) (m_buffersize align : Z) : outcome bool :=
  r ← dense_members member_displacement member_type (fun m => dense (member_type m)) m_members 0;
  match r with
  | None => Ret false
  | Some displacement =>
      displacement ← close_layout align displacement;
      Ret (negb (m_buffersize >? displacement))
  end.

Definition tuple_dense (dense : Datatype -> outcome bool) (m_elements : list (Element Datatype)) (m_buffersize align : Z) : outcome bool :=
  r ← dense_members element_offset element_type (fun e => dense (element_type e)) m_elements 0;
  match r with
  | None => Ret false
  | Some displacement =>
      displacement ← close_layout align displacement;
      Ret (negb (m_buffersize >? displacement))
  end.

Arguments array_dense dense m_subtype m_size m_subsize /.
Arguments record_dense dense m_members m_buffersize align /.
Arguments tuple_dense dense m_elements m_buffersize align /.

Fixpoint dense (t : Datatype) : outcome bool :=
  match t with
  | Scalar_datatype _ _ m_size _ m_dense_size _ _ => Ret (m_dense_size =? m_size)
  | Array_datatype _ m_subtype m_size _ m_subsize => array_dense dense m_subtype m_size m_subsize
  | Record_datatype _ m_members m_buffersize => record_dense dense m_members m_buffersize (alignment t)
  | Tuple_datatype _ m_elements m_buffersize => tuple_dense dense m_elements m_buffersize (alignment t)
  | Pointer_datatype _ _ _ _ => Ret true
  end.

(** * Equality *)

(** [operator==] on vectors: same length and equal components. *)
Definition list_eqb {A B} (eqb : A -> B -> bool) : list A -> list B -> bool :=
  fix go l1 l2 :=
    match l1, l2 with
    | [], [] => true
    | x :: l1, y :: l2 => eqb x y && go l1 l2
    | _, _ => false
    end.

(** [Record_datatype::Member::operator==] and [Tuple_datatype::Element::operator==] *)
Definition member_eqb (datatype_eqb : Datatype -> Datatype -> bool) (m1 m2 : Member Datatype) : bool :=
  (member_displacement m1 =? member_displacement m2)
  && bool_decide (member_name m1 = member_name m2)
  && datatype_eqb (member_type m1) (member_type m2).

Definition element_eqb (datatype_eqb : Datatype -> Datatype -> bool) (e1 e2 : Element Datatype) : bool :=
  (element_offset e1 =? element_offset e2) && datatype_eqb (element_type e1) (element_type e2).

Arguments member_eqb datatype_eqb m1 m2 /.
Arguments element_eqb datatype_eqb e1 e2 /.

Definition scalar_eqb (k1 : Scalar_kind) (s1 al1 : Z) (k2 : Scalar_kind) (s2 al2 : Z) : bool :=
  (s1 =? s2) && (al1 =? al2) && bool_decide (k1 = k2).

Definition array_eqb (datatype_eqb : Datatype -> Datatype -> bool) (sub1 : Datatype) (s1 st1 ss1 : Z) (sub2 : Datatype) (s2 st2 ss2 : Z) : bool :=
  datatype_eqb sub1 sub2 && (s1 =? s2) && (st1 =? st2) && (ss1 =? ss2).

Arguments scalar_eqb k1 s1 al1 k2 s2 al2 /.
Arguments array_eqb datatype_eqb sub1 s1 st1 ss1 sub2 s2 st2 ss2 /.

Fixpoint datatype_eqb (t1 t2 : Datatype) : bool :=
  match t1, t2 with
  | Scalar_datatype _ k1 s1 al1 _ _ _, Scalar_datatype _ k2 s2 al2 _ _ _ => scalar_eqb k1 s1 al1 k2 s2 al2
  | Array_datatype _ sub1 s1 st1 ss1, Array_datatype _ sub2 s2 st2 ss2 => array_eqb datatype_eqb sub1 s1 st1 ss1 sub2 s2 st2 ss2
  | Record_datatype _ ms1 b1, Record_datatype _ ms2 b2 => (b1 =? b2) && list_eqb (member_eqb datatype_eqb) ms1 ms2
  | Tuple_datatype _ es1 b1, Tuple_datatype _ es2 b2 => (b1 =? b2) && list_eqb (element_eqb datatype_eqb) es1 es2
  | Pointer_datatype _ sub1 _ _, Pointer_datatype _ sub2 _ _ => datatype_eqb sub1 sub2
  | _, _ => false
  end.
