(* ===== verification/Layout.v ===== *)
(** Layout theory of datatypes: what densification promises.

    [pack_offsets]/[pack_end] are the reference definition, over unbounded
    integers, of the C structure layout; [packed_size] is the number of bytes a
    value takes once densified.  The wrapping loops of [Datatype.v] are shown to
    compute them on every type whose packed size fits in a [size_t]. *)

From S2P Require Import Prelude Error ExprSyntax Datatype.

(** * Reference layout *)

(** Components are (alignment, size) pairs. *)
Fixpoint pack_end (d : Z) (l : list (Z * Z)) : Z :=
  match l with
  | [] => d
  | (a, s) :: l => pack_end (align_up a d + s) l
  end.

Fixpoint pack_offsets (d : Z) (l : list (Z * Z)) : list Z :=
  match l with
  | [] => []
  | (a, s) :: l => align_up a d :: pack_offsets (align_up a d + s) l
  end.

Definition pack_total (align : Z) (l : list (Z * Z)) : Z :=
  Z.max 1 (align_up align (pack_end 0 l)).

Fixpoint packed_size (t : Datatype) : Z :=
  match t with
  | Scalar_datatype _ _ _ _ m_dense_size _ _ => m_dense_size
  | Array_datatype _ sub _ _ m_subsize => m_subsize * packed_size sub
  | Record_datatype _ ms _ =>
      pack_total (alignment t)
        (map (fun m => (alignment (member_type m), packed_size (member_type m))) ms)
  | Tuple_datatype _ es _ =>
      pack_total (alignment t)
        (map (fun e => (alignment (element_type e), packed_size (element_type e))) es)
  | Pointer_datatype _ _ _ _ => sizeof_ptr
  end.

(** The types the layout code is meant for: alignments are powers of two, every
    number is a [size_t], and no packed size overflows. *)
Fixpoint wf_layout (t : Datatype) : bool :=
  match t with
  | Scalar_datatype _ _ s al ds _ _ =>
      bool_decide (is_size s) && bool_decide (is_size al) && bool_decide (is_size ds) && ispow2 al
  | Array_datatype _ sub s st ss =>
      wf_layout sub && bool_decide (is_size s) && bool_decide (is_size st) && bool_decide (is_size ss)
      && bool_decide (is_size (packed_size t))
  | Record_datatype _ ms b =>
      forallb (fun m => wf_layout (member_type m)) ms && bool_decide (is_size b)
      && bool_decide (is_size (packed_size t))
  | Tuple_datatype _ es b =>
      forallb (fun e => wf_layout (element_type e)) es && bool_decide (is_size b)
      && bool_decide (is_size (packed_size t))
  | Pointer_datatype _ sub _ _ => wf_layout sub
  end.

(** Components that are legal arguments of the layout. *)
Definition comp_ok (c : Z * Z) : Prop := pow2 (fst c) /\ 0 <= snd c.

Lemma pack_end_ge d l : Forall comp_ok l -> d <= pack_end d l.
Proof.
  revert d. induction l as [|[a s] l IH]; intros d Hl; simpl; [lia|].
  apply list.Forall_cons in Hl as [[Ha Hs] Hl]; simpl in *.
  pose proof (align_up_ge a d ltac:(eauto with pdi)). specialize (IH (align_up a d + s) Hl). lia.
Qed.

Lemma pack_end_app d l l' : pack_end d (l ++ l') = pack_end (pack_end d l) l'.
Proof. revert d. by induction l as [|[a s] l IH]; intros d; simpl. Qed.

Lemma length_pack_offsets d l : length (pack_offsets d l) = length l.
Proof. revert d. induction l as [|[a s] l IH]; intros d; simpl; auto. Qed.

(** ** Alignment *)

Lemma foldl_max_ge {A} (f : A -> Z) l r : r <= foldl (fun r x => Z.max r (f x)) r l.
Proof. revert r. induction l as [|x l IH]; intros r; simpl; [lia|]. specialize (IH (Z.max r (f x))). lia. Qed.

Lemma foldl_max_elem {A} (f : A -> Z) l r x :
  x ∈ l -> f x <= foldl (fun r x => Z.max r (f x)) r l.
Proof.
  revert r. induction l as [|y l IH]; intros r; [by intros ?%not_elem_of_nil|].
  intros [->|Hx]%elem_of_cons; simpl; [|by apply IH].
  pose proof (foldl_max_ge f l (Z.max r (f y))). lia.
Qed.

Lemma foldl_max_pow2 {A} (f : A -> Z) l r :
  pow2 r -> Forall (fun x => pow2 (f x)) l -> pow2 (foldl (fun r x => Z.max r (f x)) r l).
Proof.
  intros Hr Hl. revert r Hr. induction Hl as [|x l Hx Hl IH]; intros r Hr; simpl; [done|].
  apply IH. by apply pow2_max.
Qed.

Lemma foldl_max_divide {A} (f : A -> Z) l x :
  Forall (fun x => pow2 (f x)) l -> x ∈ l -> (f x | foldl (fun r x => Z.max r (f x)) 1 l).
Proof.
  intros Hl Hx. apply pow2_divide.
  - by eapply list.Forall_forall in Hl.
  - by apply foldl_max_pow2; [apply pow2_1|].
  - by apply foldl_max_elem.
Qed.

Lemma wf_alignment_pow2 t : wf_layout t = true -> pow2 (alignment t).
Proof.
  induction t as [? ? ? ? ? ? ?|? ? ? ? ? IH|? ms ? IH|? es ? IH|] using Datatype_nested_ind; simpl; intros Hwf; bools.
  - by apply ispow2_pow2.
  - auto.
  - apply foldl_max_pow2; [apply pow2_1|]. rewrite list.Forall_forall in *. auto.
  - apply foldl_max_pow2; [apply pow2_1|]. rewrite list.Forall_forall in *. auto.
  - apply pow2_8.
Qed.

(** * The wrapping loops compute the reference layout *)

Lemma padding_ok a d :
  pow2 a -> 0 <= d -> align_up a d < size_modulus ->
  exists p, padding a d = Ret p /\ d +s p = align_up a d.
Proof.
  intros Ha Hd Hfit. pose proof (pow2_pos a Ha) as Hpos. pose proof (pow2_is_size a Ha) as Hsz.
  exists ((a -s d mod a) mod a). unfold padding.
  destruct (Z.eqb_spec a 0); [lia|]. split; [done|].
  pose proof (Z.mod_pos_bound d a Hpos).
  rewrite size_sub_small by (unfold is_size in *; lia).
  apply size_add_small. fold (align_up a d). unfold is_size.
  pose proof (align_up_ge a d Hpos). lia.
Qed.

(** The (alignment, size) component of a type as it will be stored. *)
Definition comp (t : Datatype) : Z * Z := (alignment t, buffersize t).

(** The components [place_members] builds: one per source component, at the
    reference offsets. *)
Fixpoint placed {M N} (mk : M -> Z -> Datatype -> N) (ms : list M) (ts : list Datatype) (d : Z) : list N :=
  match ms, ts with
  | m :: ms, t :: ts =>
      let o := align_up (alignment t) d in mk m o t :: placed mk ms ts (o + buffersize t)
  | _, _ => []
  end.

Lemma place_members_ok {M N} (conv : M -> outcome Datatype) (mk : M -> Z -> Datatype -> N) ms ts d :
  Forall2 (fun m t => conv m = Ret t) ms ts ->
  Forall comp_ok (map comp ts) ->
  0 <= d -> pack_end d (map comp ts) < size_modulus ->
  place_members conv mk ms d = Ret (placed mk ms ts d, pack_end d (map comp ts)).
Proof.
  intros Hconv. revert d. induction Hconv as [|m t ms ts Hm Hms IH]; intros d Hok Hd Hfit; simpl in *; [done|].
  apply list.Forall_cons in Hok as [[Ha Hs] Hok]; simpl in *.
  pose proof (align_up_ge (alignment t) d ltac:(eauto with pdi)) as Hge.
  pose proof (pack_end_ge _ _ Hok : _ <= pack_end (align_up (alignment t) d + buffersize t) _) as Hge'.
  destruct (padding_ok (alignment t) d) as (p & Hp & Hadd); [done..|lia|].
  rewrite Hm; simpl. rewrite Hp; simpl. rewrite Hadd.
  rewrite size_add_small by (unfold is_size; lia).
  rewrite IH by (done || lia). reflexivity.
Qed.

Lemma close_layout_ok a d :
  pow2 a -> 0 <= d -> Z.max 1 (align_up a d) < size_modulus ->
  close_layout a d = Ret (Z.max 1 (align_up a d)).
Proof.
  intros Ha Hd Hfit. destruct (padding_ok a d) as (p & Hp & Hadd); [done..|lia|].
  unfold close_layout. rewrite Hp; simpl. by rewrite Hadd.
Qed.

Lemma dense_members_ok {M} (offset : M -> Z) (type : M -> Datatype) (dns : M -> outcome bool) ms d :
  Forall (fun m => dns m = Ret true) ms ->
  Forall comp_ok (map (comp ∘ type) ms) ->
  Forall2 (fun m o => offset m <= o) ms (pack_offsets d (map (comp ∘ type) ms)) ->
  0 <= d -> pack_end d (map (comp ∘ type) ms) < size_modulus ->
  dense_members offset type dns ms d = Ret (Some (pack_end d (map (comp ∘ type) ms))).
Proof.
  intros Hdns. revert d. induction Hdns as [|m ms Hm Hms IH]; intros d Hok Hoff Hd Hfit; simpl in *; [done|].
  apply list.Forall_cons in Hok as [[Ha Hs] Hok]; simpl in *.
  apply list.Forall2_cons in Hoff as [Ho Hoff].
  pose proof (align_up_ge (alignment (type m)) d ltac:(eauto with pdi)) as Hge.
  pose proof (pack_end_ge _ _ Hok : _ <= pack_end (align_up (alignment (type m)) d + buffersize (type m)) _).
  destruct (padding_ok (alignment (type m)) d) as (p & Hp & Hadd); [done..|lia|].
  rewrite Hm; simpl. rewrite Hp; simpl. rewrite Hadd.
  destruct (Z.gtb_spec (offset m) (align_up (alignment (type m)) d)); [lia|].
  rewrite size_add_small by (unfold is_size; lia).
  by apply IH; (done || lia).
Qed.

(** * Properties of the reference layout *)

(** What a C compiler guarantees about the components of a structure: each one
    is aligned, they are in order without overlap, and inside the structure. *)
Fixpoint valid_layout (from : Z) (l : list (Z * (Z * Z))) (size : Z) : Prop :=
  match l with
  | [] => from <= size
  | (o, (a, s)) :: l => from <= o /\ (a | o) /\ valid_layout (o + s) l size
  end.

Lemma pack_valid d l size :
  Forall comp_ok l -> pack_end d l <= size -> valid_layout d (zip (pack_offsets d l) l) size.
Proof.
  revert d. induction l as [|[a s] l IH]; intros d Hl Hsz; simpl in *; [done|].
  apply list.Forall_cons in Hl as [[Ha Hs] Hl]; simpl in *.
  repeat split; [apply align_up_ge | apply align_up_divide | by apply IH]; eauto with pdi.
Qed.

Lemma valid_layout_bounds d l size o a s :
  Forall (fun c => 0 <= snd (snd c)) l -> valid_layout d l size -> (o, (a, s)) ∈ l -> d <= o /\ o + s <= size.
Proof.
  intros Hl. revert d. induction Hl as [|[o' [a' s']] l Hs Hl IH]; intros d; simpl in *;
    [by intros _ ?%not_elem_of_nil|].
  intros (Hd & _ & Hv) [[= -> -> ->]|Hin]%elem_of_cons.
  - split; [done|]. clear IH. revert Hv. generalize (o' + s') as d'. induction Hl as [|[o2 [a2 s2]] l Hs2 Hl IH2]; simpl in *; [done|].
    intros d' (? & _ & Hv). specialize (IH2 _ Hv). lia.
  - apply IH in Hv as [? ?]; [|done]. lia.
Qed.

Lemma packed_size_nonneg t : wf_layout t = true -> 0 <= packed_size t.
Proof.
  destruct t; simpl; intros Hwf; bools; unfold is_size, sizeof_ptr in *; lia.
Qed.

Lemma wf_packed_is_size t : wf_layout t = true -> is_size (packed_size t).
Proof. destruct t; simpl; intros Hwf; bools; [done..|]. done. Qed.

(** * Densification *)

(** What [densify] promises on a type: it terminates normally on a dense type of
    the packed size and same alignment, on which it is the identity. *)
Definition densified (t t' : Datatype) : Prop :=
  densify t = Ret t' /\ buffersize t' = packed_size t /\ alignment t' = alignment t /\
  dense t' = Ret true /\ densify t' = Ret t' /\ wf_layout t' = true /\ packed_size t' = packed_size t.

Lemma Forall_exists_Forall2 {A B} (R : A -> B -> Prop) l :
  Forall (fun x => exists y, R x y) l -> exists k, Forall2 R l k.
Proof.
  induction 1 as [|x l [y Hy] Hl [k Hk]]; [by exists []|]. exists (y :: k). by constructor.
Qed.


Lemma foldl_max_map {A} (f : A -> Z) l r :
  foldl (fun r x => Z.max r (f x)) r l = foldl Z.max r (map f l).
Proof. revert r. induction l as [|x l IH]; intros r; simpl; [done|]. apply IH. Qed.

(** Records and tuples share their layout: a component is built from a source
    component, an offset and a type, and the last two can be read back. *)
Section composite.
  Context {M : Type} (offset : M -> Z) (type : M -> Datatype) (mk : M -> Z -> Datatype -> M).
  Context (offset_mk : forall m o t, offset (mk m o t) = o).
  Context (type_mk : forall m o t, type (mk m o t) = t).
  Context (mk_mk : forall m o t, mk (mk m o t) o t = mk m o t).

Lemma placed_types ms ts d : length ms = length ts -> map type (placed mk ms ts d) = ts.
Proof.
  revert ts d. induction ms as [|m ms IH]; intros [|t ts] d Hlen; simpl in *; try done.
  rewrite type_mk, IH; auto.
Qed.

Lemma placed_offsets ms ts d :
  length ms = length ts -> map offset (placed mk ms ts d) = pack_offsets d (map comp ts).
Proof.
  revert ts d. induction ms as [|m ms IH]; intros [|t ts] d Hlen; simpl in *; try done.
  rewrite offset_mk, IH; auto.
Qed.

Lemma placed_placed ms ts d :
  length ms = length ts -> placed mk (placed mk ms ts d) ts d = placed mk ms ts d.
Proof.
  revert ts d. induction ms as [|m ms IH]; intros [|t ts] d Hlen; simpl in *; try done.
  rewrite mk_mk, IH; auto.
Qed.

Definition max_alignment (ms : list M) : Z := foldl (fun r m => Z.max r (alignment (type m))) 1 ms.

Definition components (ms : list M) : list (Z * Z) :=
  map (fun m => (alignment (type m), packed_size (type m))) ms.

Definition composite_wf (ms : list M) : Prop :=
  Forall (fun m => wf_layout (type m) = true) ms /\
  pack_total (max_alignment ms) (components ms) < size_modulus.

Lemma max_alignment_pow2 ms : composite_wf ms -> pow2 (max_alignment ms).
Proof.
  intros [Hwf _]. apply foldl_max_pow2; [apply pow2_1|].
  eapply list.Forall_impl; [exact Hwf|]. intros m. apply wf_alignment_pow2.
Qed.

Lemma components_ok ms : composite_wf ms -> Forall comp_ok (components ms).
Proof.
  intros [Hwf _]. apply Forall_map. eapply list.Forall_impl; [exact Hwf|]. intros m Hm.
  split; [by apply wf_alignment_pow2 | by apply packed_size_nonneg].
Qed.

Lemma pack_end_fits ms : composite_wf ms -> 0 <= pack_end 0 (components ms) < size_modulus.
Proof.
  intros Hwf. pose proof (pack_end_ge 0 _ (components_ok ms Hwf)).
  pose proof (align_up_ge _ (pack_end 0 (components ms)) (pow2_pos _ (max_alignment_pow2 ms Hwf))).
  destruct Hwf as [_ Hfit]. unfold pack_total in Hfit. lia.
Qed.

(** The components [placed] builds from densified types have the same packed
    components as the source ones. *)
Lemma placed_components ms ts :
  Forall2 (fun m t => densified (type m) t) ms ts ->
  map comp ts = components ms /\ components (placed mk ms ts 0) = components ms /\
  max_alignment (placed mk ms ts 0) = max_alignment ms.
Proof.
  intros Hts. assert (Hlen : length ms = length ts) by by eapply Forall2_length.
  assert (Hc : map comp ts = components ms).
  { clear -Hts. induction Hts as [|m t ms ts (_ & Hb & Ha & _) Hts IH]; simpl; [done|].
    unfold comp at 1. by rewrite Hb, Ha, IH. }
  assert (Hc' : components (placed mk ms ts 0) = components ms).
  { unfold components at 1. rewrite <- (map_map type (fun t => (alignment t, packed_size t))), placed_types by done.
    rewrite <- Hc. clear -Hts. induction Hts as [|m t ms ts (_ & Hb & Ha & _ & _ & _ & Hp) Hts IH]; simpl; [done|].
    unfold comp at 1. by rewrite Hp, Hb, IH. }
  split_and!; [done..|]. unfold max_alignment.
  rewrite !(foldl_max_map (fun m => alignment (type m))). f_equal.
  apply (f_equal (map fst)) in Hc'. unfold components in Hc'. by rewrite !map_map in Hc'.
Qed.

(** Densifying the components of a composite: the loops give the reference
    layout, the result is dense, and densifying it again gives it back. *)
Lemma densify_components ms :
  composite_wf ms -> Forall (fun m => exists t', densified (type m) t') ms ->
  exists ms',
    place_members (fun m => densify (type m)) mk ms 0 = Ret (ms', pack_end 0 (components ms)) /\
    place_members (fun m => densify (type m)) mk ms' 0 = Ret (ms', pack_end 0 (components ms)) /\
    dense_members offset type (fun m => dense (type m)) ms' 0 = Ret (Some (pack_end 0 (components ms))) /\
    Forall (fun m => wf_layout (type m) = true) ms' /\
    components ms' = components ms /\ max_alignment ms' = max_alignment ms /\
    map offset ms' = pack_offsets 0 (components ms) /\
    map (comp ∘ type) ms' = components ms.
Proof.
  intros Hwf Hms. pose proof (components_ok ms Hwf) as Hok. pose proof (pack_end_fits ms Hwf) as Hend.
  destruct (Forall_exists_Forall2 (fun m t => densified (type m) t) ms Hms) as [ts Hts].
  assert (Hlen : length ms = length ts) by by eapply Forall2_length.
  destruct (placed_components ms ts Hts) as (Hco & Hcs & Hal).
  pose proof (placed_types ms ts 0 Hlen) as Htypes.
  exists (placed mk ms ts 0). remember (placed mk ms ts 0) as ms' eqn:Hms'.
  assert (Hids : Forall (fun m => densify (type m) = Ret (type m) /\ dense (type m) = Ret true
                                  /\ wf_layout (type m) = true) ms').
  { apply (Forall_map type (fun t => densify t = Ret t /\ dense t = Ret true /\ wf_layout t = true)).
    rewrite Htypes. clear -Hts.
    induction Hts as [|m t ms ts (_ & _ & _ & ? & ? & ? & _) Hts IH]; by constructor. }
  assert (Hc : map (comp ∘ type) ms' = components ms).
  { rewrite <- Hco, <- Htypes. by rewrite map_map. }
  split_and!; try done.
  - rewrite <- Hco, Hms'. apply place_members_ok; rewrite ?Hco; [|done|lia..].
    eapply list.Forall2_impl; [exact Hts|]. by intros ? ? [? _].
  - rewrite <- Hco. rewrite Hms' at 2. rewrite <- placed_placed, <- Hms' by done.
    apply place_members_ok; rewrite ?Hco; [|done|lia..].
    rewrite <- Htypes. apply Forall2_fmap_r, Forall_Forall2_diag.
    eapply list.Forall_impl; [exact Hids|]. by intros ? [? _].
  - rewrite <- Hc. apply dense_members_ok; rewrite ?Hc; [|done| |lia..].
    + eapply list.Forall_impl; [exact Hids|]. by intros ? (_ & ? & _).
    + rewrite <- Hco, <- (placed_offsets ms ts 0), <- Hms' by done.
      apply Forall2_fmap_r, Forall_Forall2_diag, Forall_true. intros m; simpl; lia.
  - eapply list.Forall_impl; [exact Hids|]. by intros ? (_ & _ & ?).
  - rewrite Hms', placed_offsets by done. by rewrite Hco.
Qed.

Lemma close_components ms :
  composite_wf ms ->
  close_layout (max_alignment ms) (pack_end 0 (components ms))
  = Ret (pack_total (max_alignment ms) (components ms)).
Proof.
  intros Hwf. pose proof (pack_end_fits ms Hwf). apply close_layout_ok; [by apply max_alignment_pow2|lia|].
  apply Hwf.
Qed.

End composite.

Definition set_member (m : Member Datatype) (o : Z) (t : Datatype) : Member Datatype :=
  mkMember o t (member_name m).

Definition set_element (e : Element Datatype) (o : Z) (t : Datatype) : Element Datatype :=
  mkElement o t.

(** ** Unfolding equations of the composites *)

Lemma densify_record a ms b :
  densify (Record_datatype a ms b) =
  ('(ms', d) ← place_members (fun m => densify (member_type m)) set_member ms 0;
   d ← close_layout (max_alignment member_type ms) d; Ret (Record_datatype [] ms' d)).
Proof. reflexivity. Qed.

Lemma dense_record a ms b :
  dense (Record_datatype a ms b) =
  (r ← dense_members member_displacement member_type (fun m => dense (member_type m)) ms 0;
   match r with
   | None => Ret false
   | Some d => d ← close_layout (max_alignment member_type ms) d; Ret (negb (b >? d))
   end).
Proof. reflexivity. Qed.

Lemma alignment_record a ms b : alignment (Record_datatype a ms b) = max_alignment member_type ms.
Proof. reflexivity. Qed.

Lemma packed_record a ms b :
  packed_size (Record_datatype a ms b) = pack_total (max_alignment member_type ms) (components member_type ms).
Proof. reflexivity. Qed.

Lemma wf_record a ms b :
  wf_layout (Record_datatype a ms b) = true <-> composite_wf member_type ms /\ is_size b.
Proof.
  unfold composite_wf, wf_layout; fold wf_layout. rewrite packed_record, !andb_true_iff, !bool_decide_eq_true, forallb_Forall.
  unfold is_size, pack_total. split; [naive_solver|]. intros [[? ?] [? ?]]. split_and!; (done || lia).
Qed.

Lemma densify_tuple a es b :
  densify (Tuple_datatype a es b) =
  ('(ms', d) ← place_members (fun m => densify (element_type m)) set_element es 0;
   d ← close_layout (max_alignment element_type es) d; Ret (Tuple_datatype [] ms' d)).
Proof. reflexivity. Qed.

Lemma dense_tuple a es b :
  dense (Tuple_datatype a es b) =
  (r ← dense_members element_offset element_type (fun m => dense (element_type m)) es 0;
   match r with
   | None => Ret false
   | Some d => d ← close_layout (max_alignment element_type es) d; Ret (negb (b >? d))
   end).
Proof. reflexivity. Qed.

Lemma alignment_tuple a es b : alignment (Tuple_datatype a es b) = max_alignment element_type es.
Proof. reflexivity. Qed.

Lemma packed_tuple a es b :
  packed_size (Tuple_datatype a es b) = pack_total (max_alignment element_type es) (components element_type es).
Proof. reflexivity. Qed.

Lemma wf_tuple a es b :
  wf_layout (Tuple_datatype a es b) = true <-> composite_wf element_type es /\ is_size b.
Proof.
  unfold composite_wf, wf_layout; fold wf_layout. rewrite packed_tuple, !andb_true_iff, !bool_decide_eq_true, forallb_Forall.
  unfold is_size, pack_total. split; [naive_solver|]. intros [[? ?] [? ?]]. split_and!; (done || lia).
Qed.

(** ** The densification theorem *)

Lemma densify_spec t : wf_layout t = true -> exists t', densified t t'.
Proof.
  induction t as [a k s al ds c d|a t s st ss IH|a ms b IH|a es b IH|a t c d IH] using Datatype_nested_ind;
    intros Hwf.
  - simpl in Hwf. bools. exists (Scalar_datatype a k ds al ds c d).
    assert (Hmk : make_scalar k ds al ds c d a = Ret (Scalar_datatype a k ds al ds c d)).
    { unfold make_scalar. by rewrite H0, andb_false_r. }
    split_and!; simpl; try done; [by rewrite Z.eqb_refl | by rewrite !bool_decide_eq_true_2].
  - pose proof (wf_packed_is_size _ Hwf) as Hps. simpl in Hwf, Hps. bools.
    destruct (IH H) as (t' & Hd & Hb & Ha & Hdn & Hid & Hwf' & Hp).
    exists (make_array t' ss a). split_and!; simpl; rewrite ?Hd, ?Hid, ?Hwf', ?Z.eqb_refl; simpl; try done.
    + by rewrite Hb, size_mul_small.
    + by rewrite Hp, !bool_decide_eq_true_2.
    + by rewrite Hp.
  - pose proof (wf_packed_is_size _ Hwf) as Hps. rewrite packed_record in Hps.
    apply wf_record in Hwf as [Hc Hb].
    destruct (densify_components member_displacement member_type set_member ltac:(done) ltac:(done) ltac:(done)
                ms Hc) as (ms' & Hp1 & Hp2 & Hdn & Hwf' & Hcs & Hal & _).
    { destruct Hc as [Hc _]. rewrite list.Forall_forall in *. eauto. }
    pose proof (close_components member_type ms Hc) as Hcl.
    exists (Record_datatype [] ms' (pack_total (max_alignment member_type ms) (components member_type ms))).
    unfold densified. rewrite !densify_record, dense_record, !alignment_record, !packed_record, Hp1, Hp2, Hdn, Hal, Hcs; simpl.
    rewrite Hcl; simpl. split_and!; try done.
    + by rewrite Z.gtb_ltb, Z.ltb_irrefl.
    + refine (proj2 (wf_record [] ms' _) _). split; [|done]. split; [done|]. rewrite Hal, Hcs. apply Hc.
  - pose proof (wf_packed_is_size _ Hwf) as Hps. rewrite packed_tuple in Hps.
    apply wf_tuple in Hwf as [Hc Hb].
    destruct (densify_components element_offset element_type set_element ltac:(done) ltac:(done) ltac:(done)
                es Hc) as (ms' & Hp1 & Hp2 & Hdn & Hwf' & Hcs & Hal & _).
    { destruct Hc as [Hc _]. rewrite list.Forall_forall in *. eauto. }
    pose proof (close_components element_type es Hc) as Hcl.
    exists (Tuple_datatype [] ms' (pack_total (max_alignment element_type es) (components element_type es))).
    unfold densified. rewrite !densify_tuple, dense_tuple, !alignment_tuple, !packed_tuple, Hp1, Hp2, Hdn, Hal, Hcs; simpl.
    rewrite Hcl; simpl. split_and!; try done.
    + by rewrite Z.gtb_ltb, Z.ltb_irrefl.
    + refine (proj2 (wf_tuple [] ms' _) _). split; [|done]. split; [done|]. rewrite Hal, Hcs. apply Hc.
  - simpl in Hwf. destruct (IH Hwf) as (t' & Hd & Hb & Ha & Hdn & Hid & Hwf' & Hp).
    exists (Pointer_datatype a t' c d). split_and!; simpl; rewrite ?Hd, ?Hid; done.
Qed.

(** * Theorems *)

(** C10: densifying a well-formed type terminates normally on a dense type that
    takes exactly the packed size, has the same alignment, and that densifying
    again leaves unchanged. *)
Theorem densify_correct t :
  wf_layout t = true ->
  exists t', densify t = Ret t' /\ dense t' = Ret true /\ buffersize t' = packed_size t /\
    alignment t' = alignment t /\ densify t' = Ret t'.
Proof.
  intros (t' & ? & ? & ? & ? & ? & _)%densify_spec. exists t'. by split_and!.
Qed.

(** A record with a hole at its start and a sub-array in a sparse array. *)
Definition sparse_members : list (Member Datatype) :=
  [mkMember 3 (Scalar_datatype [] UNSIGNED 1 1 1 None None) "c";
   mkMember 16 (Array_datatype [] (Scalar_datatype [] FLOAT 8 8 8 None None) 10 2 3) "a"].

Definition sparse_record : Datatype := Record_datatype [] sparse_members 128.

Lemma densify_correct_witness :
  wf_layout sparse_record = true /\
  exists t', densify sparse_record = Ret t' /\ dense t' = Ret true /\ buffersize t' = 32 /\
    alignment t' = 8 /\ densify t' = Ret t'.
Proof. split; [by vm_compute|]. apply (densify_correct sparse_record). by vm_compute. Defined.

Lemma place_members_names conv ms d ms' d' :
  place_members conv set_member ms d = Ret (ms', d') -> map member_name ms' = map member_name ms.
Proof.
  revert d ms' d'. induction ms as [|m ms IH]; intros d ms' d' H; simpl in H; inv_ret; simpl; [done|].
  destruct a1 as [ns d1]. inv_ret. simpl. f_equal. by eapply IH.
Qed.

(** The record [densify] builds is a C structure: the same members in the
    same order, each aligned on its type's alignment, without overlap and inside
    the buffer, at the offsets of the reference layout. *)
Theorem densify_record_layout a ms b :
  wf_layout (Record_datatype a ms b) = true ->
  exists ms' b', densify (Record_datatype a ms b) = Ret (Record_datatype [] ms' b') /\
    map member_name ms' = map member_name ms /\
    map member_displacement ms' = pack_offsets 0 (components member_type ms) /\
    valid_layout 0 (zip (map member_displacement ms') (map (comp ∘ member_type) ms')) b' /\
    Forall (fun m => 0 <= member_displacement m /\ member_displacement m + buffersize (member_type m) <= b') ms'.
Proof.
  intros [Hc Hb]%wf_record.
  destruct (densify_components member_displacement member_type set_member ltac:(done) ltac:(done) ltac:(done)
              ms Hc) as (ms' & Hp1 & _ & _ & _ & _ & _ & Hoff & Hcomp).
  { destruct Hc as [Hc _]. eapply list.Forall_impl; [exact Hc|]. intros m. apply densify_spec. }
  pose proof (close_components member_type ms Hc) as Hcl. pose proof (components_ok member_type ms Hc) as Hok.
  assert (Hv : valid_layout 0 (zip (map member_displacement ms') (map (comp ∘ member_type) ms'))
                 (pack_total (max_alignment member_type ms) (components member_type ms))).
  { rewrite Hoff, Hcomp. apply pack_valid; [done|]. unfold pack_total.
    pose proof (align_up_ge _ (pack_end 0 (components member_type ms)) (pow2_pos _ (max_alignment_pow2 _ _ Hc))). lia. }
  exists ms', (pack_total (max_alignment member_type ms) (components member_type ms)).
  split_and!; [|by eapply place_members_names|done|done|].
  - rewrite densify_record, Hp1; simpl. by rewrite Hcl.
  - apply list.Forall_forall. intros m Hm. eapply valid_layout_bounds with (a := alignment (member_type m)); [|exact Hv|].
    + clear -Hok Hcomp. rewrite <- Hcomp in Hok. clear Hcomp.
      induction ms' as [|m' ms' IH]; simpl in *; [constructor|].
      apply list.Forall_cons in Hok as [[_ ?] Hok]. constructor; [done|by apply IH].
    + clear -Hm. apply list_elem_of_lookup in Hm as [i Hi]. apply list_elem_of_lookup. exists i.
      by rewrite lookup_zip_with, !list_lookup_fmap, Hi.
Qed.

Lemma densify_record_layout_witness :
  exists ms' b', densify sparse_record = Ret (Record_datatype [] ms' b') /\
    map member_name ms' = ["c"; "a"]%string /\ map member_displacement ms' = [0; 8] /\
    valid_layout 0 (zip (map member_displacement ms') (map (comp ∘ member_type) ms')) b' /\
    Forall (fun m => 0 <= member_displacement m /\ member_displacement m + buffersize (member_type m) <= b') ms'.
Proof. apply (densify_record_layout [] sparse_members 128). by vm_compute. Defined.
