(* ===== verification/DatatypeEq.v ===== *)
(** The equality of datatypes ([operator==]) is an equivalence: it compares the
    types after everything but kinds, sizes, alignments, names and offsets is
    erased. *)

From S2P Require Import Prelude Error ExprSyntax Datatype Layout.

(** What [operator==] looks at. *)
Fixpoint canonical (t : Datatype) : Datatype :=
  match t with
  | Scalar_datatype _ k s al _ _ _ => Scalar_datatype [] k s al 0 None None
  | Array_datatype _ sub s st ss => Array_datatype [] (canonical sub) s st ss
  | Record_datatype _ ms b =>
      Record_datatype []
        (map (fun m => mkMember (member_displacement m) (canonical (member_type m)) (member_name m)) ms) b
  | Tuple_datatype _ es b =>
      Tuple_datatype [] (map (fun e => mkElement (element_offset e) (canonical (element_type e))) es) b
  | Pointer_datatype _ sub _ _ => Pointer_datatype [] (canonical sub) None None
  end.

Lemma list_eqb_map {A B C} (eqb : A -> B -> bool) (f : A -> C) (g : B -> C) l1 l2 :
  Forall (fun x => forall y, eqb x y = true <-> f x = g y) l1 ->
  list_eqb eqb l1 l2 = true <-> map f l1 = map g l2.
Proof.
  intros Hl. revert l2. induction Hl as [|x l1 Hx Hl IH]; intros [|y l2]; simpl; try done.
  rewrite andb_true_iff, Hx, IH. split; [by intros [-> ->]|by intros [= -> ->]].
Qed.

(** Closes an equivalence between equal fields and equal records. *)
Ltac eq_fields :=
  let H := fresh in
  split; intros H; [repeat match goal with H : _ /\ _ |- _ => destruct H end | injection H as H];
  subst; try split_and!; congruence.

Lemma datatype_eqb_spec t1 t2 : datatype_eqb t1 t2 = true <-> canonical t1 = canonical t2.
Proof.
  revert t2. induction t1 as [a k s al ds c d|a t s st ss IH|a ms b IH|a es b IH|a t c d IH] using Datatype_nested_ind;
    intros [a2 k2 s2 al2 ds2 c2 d2|a2 t2 s2 st2 ss2|a2 ms2 b2|a2 es2 b2|a2 t2 c2 d2]; simpl; try done.
  - rewrite !andb_true_iff, !Z.eqb_eq, bool_decide_eq_true. eq_fields.
  - rewrite !andb_true_iff, !Z.eqb_eq, IH. eq_fields.
  - rewrite andb_true_iff, Z.eqb_eq.
    rewrite (list_eqb_map _
      (fun m => mkMember (member_displacement m) (canonical (member_type m)) (member_name m))
      (fun m => mkMember (member_displacement m) (canonical (member_type m)) (member_name m))).
    + eq_fields.
    + eapply list.Forall_impl; [exact IH|]. intros m Hm m2; unfold member_eqb; cbn beta in *.
      rewrite !andb_true_iff, Z.eqb_eq, bool_decide_eq_true, Hm. eq_fields.
  - rewrite andb_true_iff, Z.eqb_eq.
    rewrite (list_eqb_map _
      (fun e => mkElement (element_offset e) (canonical (element_type e)))
      (fun e => mkElement (element_offset e) (canonical (element_type e)))).
    + eq_fields.
    + eapply list.Forall_impl; [exact IH|]. intros m Hm m2; unfold element_eqb; cbn beta in *. rewrite andb_true_iff, Z.eqb_eq, Hm. eq_fields.
  - rewrite IH. eq_fields.
Qed.

(** Equality as a relation on types. *)
Definition datatype_eq (t1 t2 : Datatype) : Prop := datatype_eqb t1 t2 = true.

#[export] Instance datatype_eq_equiv : Equivalence datatype_eq.
Proof.
  unfold datatype_eq. split.
  - intros t. by apply datatype_eqb_spec.
  - intros t1 t2. rewrite !datatype_eqb_spec. congruence.
  - intros t1 t2 t3. rewrite !datatype_eqb_spec. congruence.
Qed.

Lemma foldl_map_eq {A B} (f : Z -> B -> Z) (g : A -> B) l r : foldl f r (map g l) = foldl (fun r x => f r (g x)) r l.
Proof. revert r. induction l as [|x l IH]; intros r; simpl; [done|]. apply IH. Qed.

Lemma foldl_ext_Forall {A} (f g : Z -> A -> Z) l r :
  Forall (fun x => forall r, f r x = g r x) l -> foldl f r l = foldl g r l.
Proof. intros Hl. revert r. induction Hl as [|x l Hx Hl IH]; intros r; simpl; [done|]. by rewrite Hx, IH. Qed.

Lemma datasize_canonical t : datasize (canonical t) = datasize t.
Proof.
  induction t as [a k s al ds c d|a t s st ss IH|a ms b IH|a es b IH|a t c d IH] using Datatype_nested_ind; simpl;
    [done|by rewrite IH| | |done]; rewrite foldl_map_eq; apply foldl_ext_Forall; simpl;
    (eapply list.Forall_impl; [exact IH|]); intros m Hm r; by rewrite Hm.
Qed.

Lemma alignment_canonical t : alignment (canonical t) = alignment t.
Proof.
  induction t as [a k s al ds c d|a t s st ss IH|a ms b IH|a es b IH|a t c d IH] using Datatype_nested_ind; simpl;
    [done|by rewrite IH| | |done]; rewrite foldl_map_eq; apply foldl_ext_Forall; simpl;
    (eapply list.Forall_impl; [exact IH|]); intros m Hm r; by rewrite Hm.
Qed.

(** Equal types have the same data size and alignment. *)
#[export] Instance datasize_proper : Proper (datatype_eq ==> eq) datasize.
Proof. intros t1 t2 H%datatype_eqb_spec. by rewrite <- datasize_canonical, H, datasize_canonical. Qed.

#[export] Instance alignment_proper : Proper (datatype_eq ==> eq) alignment.
Proof. intros t1 t2 H%datatype_eqb_spec. by rewrite <- alignment_canonical, H, alignment_canonical. Qed.

(** * Theorems *)

(** [operator==] is an equivalence relation on types, and equal types have
    the same data size and the same alignment. *)
Theorem datatype_eq_correct :
  (forall t, datatype_eqb t t = true) /\
  (forall t1 t2, datatype_eqb t1 t2 = datatype_eqb t2 t1) /\
  (forall t1 t2 t3, datatype_eqb t1 t2 = true -> datatype_eqb t2 t3 = datatype_eqb t1 t3) /\
  (forall t1 t2, datatype_eqb t1 t2 = true -> datasize t1 = datasize t2 /\ alignment t1 = alignment t2).
Proof.
  split_and!.
  - intros t. by apply datatype_eqb_spec.
  - intros t1 t2. apply eq_true_iff_eq. rewrite !datatype_eqb_spec. split; congruence.
  - intros t1 t2 t3 H%datatype_eqb_spec. apply eq_true_iff_eq. rewrite !datatype_eqb_spec. split; congruence.
  - intros t1 t2 H. by split; rewrite (H : datatype_eq _ _).
Qed.

(** [operator==] on scalars does not look at the dense size, so two equal
    types may need buffers of different sizes. *)
Theorem equal_scalars_differ_in_buffersize :
  exists t1 t2, datatype_eqb t1 t2 = true /\ wf_layout t1 = true /\ wf_layout t2 = true /\
    buffersize t1 <> buffersize t2.
Proof.
  exists (Scalar_datatype [] SIGNED 4 4 4 None None), (Scalar_datatype [] SIGNED 4 4 8 None None).
  split_and!; by vm_compute.
Qed.
