(* ===== verification/Memory.v ===== *)
(** Byte-addressed memory and the C library functions the copies use.

    A memory maps the addresses of allocated bytes to their values.  Reading or
    writing an address that is not allocated is undefined behaviour, so the
    outcome of such an access is [Crash]. *)

From S2P Require Import Prelude Error.

Abbreviation mem := (gmap Z Z).

Definition nullptr : Z := 0.

(** [n] bytes from address [a]. *)
Fixpoint load (m : mem) (a : Z) (n : nat) : option (list Z) :=
  match n with
  | O => Some []
  | S n => b ← m !! a; bs ← load m (a + 1) n; Some (b :: bs)
  end.

Fixpoint store (m : mem) (a : Z) (bs : list Z) : option mem :=
  match bs with
  | [] => Some m
  | b :: bs => _ ← m !! a; store (<[a := b]> m) (a + 1) bs
  end.

(** [memcpy(to, from, n)]: the two ranges must be allocated and disjoint. *)
Definition memcpy (m : mem) (to from n : Z) : outcome mem :=
  if n =? 0 then Ret m
  else if (to <? from + n) && (from <? to + n) then Crash
  else match load m from (Z.to_nat n) ≫= store m to with
       | Some m' => Ret m'
       | None => Crash
       end.

(** A pointer read from memory, in the little-endian order of the LP64 targets. *)
Definition load_pointer (m : mem) (a : Z) : outcome Z :=
  match load m a 8 with
  | Some bs => Ret (little_endian_to_Z 8 bs)
  | None => Crash
  end.

(** [std::align(alignment, size, ptr, space)]: undefined when the alignment is
    not a power of two, null when the aligned area does not fit in [space]. *)
Definition std_align (align size ptr space : Z) : outcome Z :=
  if negb (ispow2 align) then Crash
  else
    let aligned := align_up align ptr in
    if (aligned - ptr) + size <=? space then Ret aligned else Ret nullptr.

(** * Specifications *)

Definition allocated (m : mem) (a n : Z) : Prop :=
  forall x, a <= x < a + n -> is_Some (m !! x).

(** Two memories with the same allocated addresses. *)
Definition same_alloc (m m' : mem) : Prop := forall x, is_Some (m !! x) <-> is_Some (m' !! x).

(** [m'] only differs from [m] on [a, a + n). *)
Definition frame (m m' : mem) (a n : Z) : Prop :=
  forall x, ~ (a <= x < a + n) -> m' !! x = m !! x.

Definition disjoint_ranges (a n b k : Z) : Prop := a + n <= b \/ b + k <= a.

#[export] Instance same_alloc_equiv : Equivalence same_alloc.
Proof. split; unfold same_alloc; [done | by intros ?? H x | intros ??? H1 H2 x; by rewrite H1]. Qed.

Lemma allocated_same m m' a n : same_alloc m m' -> allocated m a n -> allocated m' a n.
Proof. intros Hs Ha x Hx. by apply Hs, Ha. Qed.

#[export] Instance allocated_proper : Proper (same_alloc ==> eq ==> eq ==> iff) allocated.
Proof.
  intros m m' Hm a ? <- n ? <-. split; apply allocated_same; [done|by symmetry].
Qed.

Lemma allocated_sub m a n b k :
  allocated m a n -> a <= b -> b + k <= a + n -> allocated m b k.
Proof. intros Ha ? ? x Hx. apply Ha. lia. Qed.

Lemma frame_refl m a n : frame m m a n.
Proof. by intros x. Qed.

Lemma frame_widen m m' a n b k : frame m m' a n -> b <= a -> a + n <= b + k -> frame m m' b k.
Proof. intros Hf ? ? x Hx. apply Hf. lia. Qed.

Lemma frame_trans m1 m2 m3 a n : frame m1 m2 a n -> frame m2 m3 a n -> frame m1 m3 a n.
Proof. intros H1 H2 x Hx. rewrite H2, H1; done. Qed.

Lemma load_ok m a n :
  allocated m a (Z.of_nat n) ->
  exists bs, load m a n = Some bs /\ length bs = n /\ forall i, (i < n)%nat -> bs !! i = m !! (a + Z.of_nat i).
Proof.
  revert a. induction n as [|n IH]; intros a Ha; simpl; [exists []; repeat split; lia|].
  destruct (Ha a) as [b Hb]; [lia|]. destruct (IH (a + 1)) as (bs & Hl & Hlen & Hbs).
  { eapply allocated_sub; [exact Ha|lia..]. }
  exists (b :: bs). rewrite Hb; simpl. rewrite Hl; simpl. split_and!; [done|by f_equal|].
  intros [|i] Hi; simpl; [by rewrite Z.add_0_r|].
  rewrite Hbs by lia. f_equal. lia.
Qed.

Lemma store_ok m a bs :
  allocated m a (Z.of_nat (length bs)) ->
  exists m', store m a bs = Some m' /\ same_alloc m m' /\ frame m m' a (Z.of_nat (length bs)) /\
    forall i, (i < length bs)%nat -> m' !! (a + Z.of_nat i) = bs !! i.
Proof.
  revert m a. induction bs as [|b bs IH]; intros m a Ha; simpl.
  { exists m. split_and!; [done|done|apply frame_refl|lia]. }
  simpl in Ha. destruct (Ha a) as [b' Hb']; [lia|]. rewrite Hb'; simpl.
  assert (Hsa : same_alloc m (<[a := b]> m)).
  { intros x. destruct (decide (x = a)) as [->|]; [|by rewrite lookup_insert_ne].
    rewrite lookup_insert_eq, Hb'. by split; eexists. }
  destruct (IH (<[a := b]> m) (a + 1)) as (m' & Hst & Hs' & Hf & Hm').
  { rewrite <- Hsa. eapply allocated_sub; [exact Ha|lia..]. }
  exists m'. split_and!; [done| by etrans | |].
  - intros x Hx. rewrite Hf by lia. apply lookup_insert_ne. lia.
  - intros [|i] Hi; simpl.
    + rewrite Z.add_0_r, Hf by lia. by rewrite lookup_insert_eq.
    + rewrite <- Hm' by lia. f_equal. lia.
Qed.

Lemma memcpy_ok m to from n :
  0 <= n -> allocated m from n -> allocated m to n -> disjoint_ranges to n from n ->
  exists m', memcpy m to from n = Ret m' /\ same_alloc m m' /\ frame m m' to n /\
    forall i, 0 <= i < n -> m' !! (to + i) = m !! (from + i).
Proof.
  intros Hn Hfrom Hto Hdis. unfold memcpy. destruct (Z.eqb_spec n 0) as [->|Hnz].
  { exists m. split_and!; [done..|apply frame_refl|lia]. }
  replace ((to <? from + n) && (from <? to + n)) with false.
  2: { symmetry. apply andb_false_iff. rewrite !Z.ltb_ge. unfold disjoint_ranges in Hdis. lia. }
  destruct (load_ok m from (Z.to_nat n)) as (bs & Hl & Hlen & Hbs); [by rewrite Z2Nat.id|].
  destruct (store_ok m to bs) as (m' & Hst & Hs & Hf & Hm'); [by rewrite Hlen, Z2Nat.id|].
  rewrite Hlen, Z2Nat.id in Hf by done.
  exists m'. rewrite Hl; simpl. rewrite Hst. split_and!; [done..|].
  intros i Hi. replace i with (Z.of_nat (Z.to_nat i)) by lia. rewrite Hm' by lia. apply Hbs. lia.
Qed.

(** A byte outside the two ranges has no influence on a copy. *)
Lemma memcpy_other m to from n x v m' :
  0 <= n -> allocated m from n -> allocated m to n -> disjoint_ranges to n from n ->
  ~ from <= x < from + n -> ~ to <= x < to + n ->
  memcpy m to from n = Ret m' -> memcpy (<[x := v]> m) to from n = Ret (<[x := v]> m').
Proof.
  intros Hn Hfrom Hto Hdis Hx1 Hx2 Hm'. destruct (memcpy_ok m to from n) as (m0 & Hm0 & _ & Hf & Hv); [done..|].
  rewrite Hm' in Hm0. injection Hm0 as <-.
  assert (Halloc : forall a, allocated m a n -> allocated (<[x := v]> m) a n).
  { intros a Ha i Hi. destruct (decide (x = i)) as [->|?]; [rewrite lookup_insert_eq; by eexists|].
    rewrite lookup_insert_ne by done. by apply Ha. }
  destruct (memcpy_ok (<[x := v]> m) to from n) as (m2 & Hm2 & _ & Hf2 & Hv2); [by auto..|].
  rewrite Hm2. f_equal. apply map_eq. intros i.
  destruct (decide (to <= i < to + n)) as [Hi|Hi].
  - rewrite (lookup_insert_ne m') by lia. replace i with (to + (i - to)) by lia.
    rewrite Hv2, Hv, lookup_insert_ne by lia. done.
  - rewrite Hf2 by done. destruct (decide (x = i)) as [->|?]; [by rewrite !lookup_insert_eq|].
    rewrite !lookup_insert_ne by done. by rewrite Hf.
Qed.

Lemma std_align_ok a p : pow2 a -> std_align a 0 p a = Ret (align_up a p).
Proof.
  intros Ha. unfold std_align. rewrite pow2_ispow2 by done; simpl.
  pose proof (align_up_lt a p (pow2_pos a Ha)). destruct (Z.leb_spec (align_up a p - p + 0) a); [done|lia].
Qed.

(** * Concrete memories *)

(** The bytes [bs] allocated from address [a]. *)
Definition bytes_at (a : Z) (bs : list Z) : mem := list_to_map (zip (seqZ a (Z.of_nat (length bs))) bs).

Definition allocatedb (m : mem) (a n : Z) : bool := forallb (fun x => bool_decide (is_Some (m !! x))) (seqZ a n).

Lemma allocatedb_ok m a n : allocatedb m a n = true -> allocated m a n.
Proof.
  intros H x Hx. unfold allocatedb in H. apply forallb_Forall in H. rewrite list.Forall_forall in H.
  specialize (H x). rewrite elem_of_seqZ, bool_decide_eq_true in H. by apply H.
Qed.
