(* ===== verification/DenseCopy.v ===== *)
(** Copying data between a sparse buffer and its dense form.

    Models [data_to_dense_copy], [data_from_dense_copy] and [destroy_data] of
    every datatype class ([pdi/src/*_datatype.cxx]).  The copy and destroy
    functions a type may carry are code given by its creator: parameters. *)

From S2P Require Import Prelude Error ExprSyntax Datatype Layout Memory.

(** [INT_MAX]: the loops of [data_from_dense_copy] count with an [int]. *)
Definition int_max : Z := 2 ^ 31 - 1.

Definition int_incr (i : Z) : outcome Z := if i =? int_max then Crash else Ret (i + 1).

(** The conversion of a [size_t] to the [int] that holds a padding: it is reduced
    to 32 bits and read as a signed number. *)
Definition size_to_int (n : Z) : Z := (n + 2 ^ 31) mod 2 ^ 32 - 2 ^ 31.

(** [t->simple() && t->dense()] *)
Definition simple_and_dense (t : Datatype) : outcome bool :=
  if simple t then dense t else Ret false.

(** * The loops

    Each takes the copy of a component as an argument: an array repeats the copy
    of its elements, a record or a tuple copies its components in order. *)

(** The loop of [Array_datatype::data_to_dense_copy] *)
Definition to_dense_elements (al bs : Z) (copy : mem -> Z -> Z -> outcome (mem * Z)) :
    nat -> mem -> Z -> Z -> outcome (mem * Z) :=
  fix loop n m to from :=
    match n with
    | O => Ret (m, to)
    | S n =>
        to ← std_align al 0 to al;
        '(m, to) ← copy m to from;
        loop n m to (from + bs)
    end.

(** The loop of [Record_datatype::data_to_dense_copy] and
    [Tuple_datatype::data_to_dense_copy] *)
Definition to_dense_members {M} (al offset : M -> Z) (copy : M -> mem -> Z -> Z -> outcome (mem * Z))
    (from : Z) : list M -> mem -> Z -> outcome (mem * Z) :=
  fix loop ms m to :=
    match ms with
    | [] => Ret (m, to)
    | mb :: ms =>
        to ← std_align (al mb) 0 to (al mb);
        '(m, to) ← copy mb m to (from + offset mb);
        loop ms m to
    end.

(** The loop of [Array_datatype::data_from_dense_copy]; the padding of [from] is
    computed by hand, and kept in an [int], because [from] is const. *)
Definition from_dense_elements (al ds : Z) (copy : mem -> Z -> Z -> outcome (mem * Z)) :
    nat -> Z -> mem -> Z -> Z -> outcome mem :=
  fix loop n subtype_no m to from :=
    match n with
    | O => Ret m
    | S n =>
        to ← std_align al 0 to al;
        p ← padding al from;
        let from := from + size_to_int p in
        '(m, to) ← copy m to from;
        subtype_no ← int_incr subtype_no;
        loop n subtype_no m to (from + ds)
    end.

(** The loop of [Record_datatype::data_from_dense_copy] and
    [Tuple_datatype::data_from_dense_copy]; the padding is kept in an [int]. *)
Definition from_dense_members {M} (al offset ds : M -> Z)
    (copy : M -> mem -> Z -> Z -> outcome (mem * Z)) (original_to : Z) :
    list M -> mem -> Z -> outcome mem :=
  fix loop ms m from :=
    match ms with
    | [] => Ret m
    | mb :: ms =>
        p ← padding (al mb) from;
        let from := from + size_to_int p in
        '(m, _) ← copy mb m (original_to + offset mb) from;
        loop ms m (from + ds mb)
    end.

(** The loop of [Array_datatype::destroy_data] *)
Definition destroy_elements (bs : Z) (destroy : mem -> Z -> outcome mem) (ptr : Z) :
    nat -> Z -> mem -> outcome mem :=
  fix loop n subtype_no m :=
    match n with
    | O => Ret m
    | S n => m ← destroy m (ptr + (subtype_no *s bs)); loop n (subtype_no +s 1) m
    end.

(** The loop of [Record_datatype::destroy_data] and [Tuple_datatype::destroy_data] *)
Definition destroy_members {M} (offset : M -> Z) (destroy : M -> mem -> Z -> outcome mem) (ptr : Z) :
    list M -> mem -> outcome mem :=
  fix loop ms m :=
    match ms with
    | [] => Ret m
    | mb :: ms => m ← destroy mb m (ptr + offset mb); loop ms m
    end.

Section copies.

(** The functions stored in a type: [copy(to, from)] returns the updated [to],
    [destroy(ptr)] releases what the data refers to. *)
Context (run_copy : Z -> mem -> Z -> Z -> outcome (mem * Z)).
Context (run_destroy : Z -> mem -> Z -> outcome mem).

(** The common body of [Scalar_datatype] and [Pointer_datatype]. *)
Definition leaf_copy (m_copy : fn) (size : Z) (m : mem) (to from : Z) : outcome (mem * Z) :=
  match m_copy with
  | None => m' ← memcpy m to from size; Ret (m', to + size)
  | Some f => run_copy f m to from
  end.

(** [memcpy] and the pointer to return. *)
Definition bytes_copy (m : mem) (to from n ret : Z) : outcome (mem * Z) :=
  m' ← memcpy m to from n; Ret (m', ret).

(** The bodies of the classes: [rec] copies a component; a record or a tuple also
    needs itself, for [simple], [dense] and [buffersize]. *)
Abbreviation copier := (Datatype -> mem -> Z -> Z -> outcome (mem * Z)).

Definition array_to_dense_copy (rec : copier) (m_subtype : Datatype) (m_start m_subsize datasize : Z) (m : mem) (to from : Z) :
    outcome (mem * Z) :=
  let from := from + (m_start *s buffersize m_subtype) in
  sd ← simple_and_dense m_subtype;
  if (sd : bool) then bytes_copy m to from datasize (to + datasize)
  else to_dense_elements (alignment m_subtype) (buffersize m_subtype) (rec m_subtype) (Z.to_nat m_subsize) m to from.

Definition record_to_dense_copy (rec : copier) (t : Datatype) (m_members : list (Member Datatype)) (m : mem) (to from : Z) : outcome (mem * Z) :=
  sd ← simple_and_dense t;
  if (sd : bool) then bytes_copy m to from (buffersize t) (to + buffersize t)
  else to_dense_members (fun mb => alignment (member_type mb)) member_displacement (fun mb => rec (member_type mb)) from m_members m to.

Definition tuple_to_dense_copy (rec : copier) (t : Datatype) (m_elements : list (Element Datatype)) (m : mem) (to from : Z) : outcome (mem * Z) :=
  sd ← simple_and_dense t;
  if (sd : bool) then bytes_copy m to from (buffersize t) (to + buffersize t)
  else to_dense_members (fun e => alignment (element_type e)) element_offset (fun e => rec (element_type e)) from m_elements m to.

#[global] Arguments array_to_dense_copy rec m_subtype m_start m_subsize datasize m to from /.
#[global] Arguments record_to_dense_copy rec t m_members m to from /.
#[global] Arguments tuple_to_dense_copy rec t m_elements m to from /.

Fixpoint data_to_dense_copy (t : Datatype) (m : mem) (to from : Z) : outcome (mem * Z) :=
  match t with
  | Scalar_datatype _ _ _ _ _ m_copy _ => leaf_copy m_copy (datasize t) m to from
  | Pointer_datatype _ _ m_copy _ => leaf_copy m_copy (datasize t) m to from
  | Array_datatype _ m_subtype _ m_start m_subsize => array_to_dense_copy data_to_dense_copy m_subtype m_start m_subsize (datasize t) m to from
  | Record_datatype _ m_members _ => record_to_dense_copy data_to_dense_copy t m_members m to from
  | Tuple_datatype _ m_elements _ => tuple_to_dense_copy data_to_dense_copy t m_elements m to from
  end.

Definition array_from_dense_copy (rec : copier) (t m_subtype : Datatype) (m_start m_subsize : Z) (m : mem) (to from : Z) : outcome (mem * Z) :=
  let original_to := to in
  let to := to + (m_start *s buffersize m_subtype) in
  sd ← simple_and_dense m_subtype;
  if (sd : bool) then bytes_copy m to from (datasize t) (original_to + buffersize t)
  else
    m' ← from_dense_elements (alignment m_subtype) (datasize m_subtype) (rec m_subtype) (Z.to_nat m_subsize) 0 m to from;
    Ret (m', original_to + buffersize t).

Definition record_from_dense_copy (rec : copier) (t : Datatype) (m_members : list (Member Datatype)) (m : mem) (to from : Z) : outcome (mem * Z) :=
  let original_to := to in
  sd ← simple_and_dense t;
  if (sd : bool) then bytes_copy m to from (buffersize t) (original_to + buffersize t)
  else
    m' ← from_dense_members (fun mb => alignment (member_type mb)) member_displacement (fun mb => datasize (member_type mb))
           (fun mb => rec (member_type mb)) original_to m_members m from;
    Ret (m', original_to + buffersize t).

Definition tuple_from_dense_copy (rec : copier) (t : Datatype) (m_elements : list (Element Datatype)) (m : mem) (to from : Z) : outcome (mem * Z) :=
  let original_to := to in
  sd ← simple_and_dense t;
  if (sd : bool) then bytes_copy m to from (buffersize t) (original_to + buffersize t)
  else
    m' ← from_dense_members (fun e => alignment (element_type e)) element_offset (fun e => datasize (element_type e))
           (fun e => rec (element_type e)) original_to m_elements m from;
    Ret (m', original_to + buffersize t).

#[global] Arguments array_from_dense_copy rec t m_subtype m_start m_subsize m to from /.
#[global] Arguments record_from_dense_copy rec t m_members m to from /.
#[global] Arguments tuple_from_dense_copy rec t m_elements m to from /.

Fixpoint data_from_dense_copy (t : Datatype) (m : mem) (to from : Z) : outcome (mem * Z) :=
  match t with
  | Scalar_datatype _ _ _ _ _ m_copy _ => leaf_copy m_copy (datasize t) m to from
  | Pointer_datatype _ _ m_copy _ => leaf_copy m_copy (datasize t) m to from
  | Array_datatype _ m_subtype _ m_start m_subsize => array_from_dense_copy data_from_dense_copy t m_subtype m_start m_subsize m to from
  | Record_datatype _ m_members _ => record_from_dense_copy data_from_dense_copy t m_members m to from
  | Tuple_datatype _ m_elements _ => tuple_from_dense_copy data_from_dense_copy t m_elements m to from
  end.

(** [if (m_destroy) m_destroy(ptr)] *)
Definition leaf_destroy (m_destroy : fn) (m : mem) (ptr : Z) : outcome mem :=
  match m_destroy with None => Ret m | Some f => run_destroy f m ptr end.

Definition array_destroy_data (rec : Datatype -> mem -> Z -> outcome mem) (m_subtype : Datatype) (m_start m_subsize : Z) (m : mem) (ptr : Z) :
    outcome mem :=
  if simple m_subtype then Ret m
  else destroy_elements (buffersize m_subtype) (rec m_subtype) ptr (Z.to_nat ((m_start +s m_subsize) - m_start)) m_start m.

Definition record_destroy_data (rec : Datatype -> mem -> Z -> outcome mem) (t : Datatype) (m_members : list (Member Datatype)) (m : mem) (ptr : Z) :
    outcome mem :=
  if simple t then Ret m else destroy_members member_displacement (fun mb => rec (member_type mb)) ptr m_members m.

Definition tuple_destroy_data (rec : Datatype -> mem -> Z -> outcome mem) (t : Datatype) (m_elements : list (Element Datatype)) (m : mem) (ptr : Z) :
    outcome mem :=
  if simple t then Ret m else destroy_members element_offset (fun e => rec (element_type e)) ptr m_elements m.

#[global] Arguments array_destroy_data rec m_subtype m_start m_subsize m ptr /.
#[global] Arguments record_destroy_data rec t m_members m ptr /.
#[global] Arguments tuple_destroy_data rec t m_elements m ptr /.

Fixpoint destroy_data (t : Datatype) (m : mem) (ptr : Z) : outcome mem :=
  match t with
  | Scalar_datatype _ _ _ _ _ _ m_destroy | Pointer_datatype _ _ _ m_destroy => leaf_destroy m_destroy m ptr
  | Array_datatype _ m_subtype _ m_start m_subsize => array_destroy_data destroy_data m_subtype m_start m_subsize m ptr
  | Record_datatype _ m_members _ => record_destroy_data destroy_data t m_members m ptr
  | Tuple_datatype _ m_elements _ => tuple_destroy_data destroy_data t m_elements m ptr
  end.

End copies.
