(* ===== verification/DenseCopyFacts.v ===== *)
(** Correctness of the dense copies.

    [moves] is the abstract specification: the blocks of bytes a copy transfers,
    each with its offset in the sparse buffer and its offset in the dense one.
    [data_to_dense_copy] performs exactly these moves, without accessing a byte
    outside the two buffers, and [data_from_dense_copy] undoes them on the types
    whose components have no padding of their own. *)

From S2P Require Import Prelude Error ExprSyntax Datatype Layout Memory DenseCopy.

(** * Specification *)

(** (offset in the sparse buffer, offset in the dense buffer, length) *)
Abbreviation move := (Z * Z * Z)%type.

Definition shift (s d : Z) (mv : list move) : list move :=
  map (fun '(s0, d0, n) => (s + s0, d + d0, n)) mv.

(** The moves of a sequence of components, each aligned before it is copied. *)
Definition place_moves {M} (al offset adv : M -> Z) (mv : M -> list move) : Z -> list M -> list move :=
  fix go d ms :=
    match ms with
    | [] => []
    | m :: ms =>
        let o := align_up (al m) d in shift (offset m) o (mv m) ++ go (o + adv m) ms
    end.

Definition fast (t : Datatype) : bool :=
  match simple_and_dense t with Ret b => b | _ => false end.

(** How far the destination pointer advances. *)
Fixpoint advance (t : Datatype) : Z :=
  match t with
  | Scalar_datatype _ _ _ _ _ _ _ | Pointer_datatype _ _ _ _ => datasize t
  | Array_datatype _ sub _ _ m_subsize =>
      if fast sub then datasize t
      else pack_end 0 (map (fun _ => (alignment sub, advance sub)) (seqZ 0 m_subsize))
  | Record_datatype _ ms b =>
      if fast t then b
      else pack_end 0 (map (fun m => (alignment (member_type m), advance (member_type m))) ms)
  | Tuple_datatype _ es b =>
      if fast t then b
      else pack_end 0 (map (fun e => (alignment (element_type e), advance (element_type e))) es)
  end.

Fixpoint moves (t : Datatype) : list move :=
  match t with
  | Scalar_datatype _ _ _ _ _ _ _ | Pointer_datatype _ _ _ _ => [(0, 0, datasize t)]
  | Array_datatype _ sub _ m_start m_subsize =>
      if fast sub then [(m_start * buffersize sub, 0, datasize t)]
      else shift (m_start * buffersize sub) 0
             (place_moves (fun _ => alignment sub) (fun k => k * buffersize sub) (fun _ => advance sub)
                (fun _ => moves sub) 0 (seqZ 0 m_subsize))
  | Record_datatype _ ms b =>
      if fast t then [(0, 0, b)]
      else place_moves (fun m => alignment (member_type m)) member_displacement
             (fun m => advance (member_type m)) (fun m => moves (member_type m)) 0 ms
  | Tuple_datatype _ es b =>
      if fast t then [(0, 0, b)]
      else place_moves (fun e => alignment (element_type e)) element_offset
             (fun e => advance (element_type e)) (fun e => moves (element_type e)) 0 es
  end.

(** The types the copies are safe on: no user copy function, components inside
    the buffer, elements of an array not larger than their stride and with a
    packed size that keeps the next one aligned. *)
Fixpoint copy_ok (t : Datatype) : bool :=
  wf_layout t &&
  match t with
  | Scalar_datatype _ _ s _ ds c _ => bool_decide (c = None) && (s <=? ds)
  | Pointer_datatype _ _ c _ => bool_decide (c = None)
  | Array_datatype _ sub s st ss =>
      copy_ok sub && (st + ss <=? s) && bool_decide (is_size (s * buffersize sub))
      && (datasize sub <=? buffersize sub) && (packed_size sub mod alignment sub =? 0)
  | Record_datatype _ ms b =>
      forallb (fun m => copy_ok (member_type m) && (0 <=? member_displacement m)
                        && (member_displacement m + buffersize (member_type m) <=? b)) ms
  | Tuple_datatype _ es b =>
      forallb (fun e => copy_ok (element_type e) && (0 <=? element_offset e)
                        && (element_offset e + buffersize (element_type e) <=? b)) es
  end.

Lemma copy_ok_wf t : copy_ok t = true -> wf_layout t = true.
Proof. destruct t; simpl; intros H; by apply andb_true_iff in H as [? _]. Qed.

(** * Sizes *)

Lemma foldl_add_is_size {A} (f : A -> Z) l r :
  is_size r -> is_size (foldl (fun r x => r +s f x) r l).
Proof. revert r. induction l as [|x l IH]; intros r Hr; simpl; [done|]. apply IH, size_add_is_size. Qed.

Lemma datasize_is_size t : wf_layout t = true -> is_size (datasize t).
Proof.
  destruct t; simpl; intros Hwf; bools; auto with pdi_size;
    by apply foldl_add_is_size || done.
Qed.

Lemma buffersize_is_size t : wf_layout t = true -> is_size (buffersize t).
Proof. destruct t; simpl; intros Hwf; bools; auto with pdi_size; done. Qed.

Lemma wrap_le z : 0 <= z -> wrap z <= z.
Proof. intros. apply Z.mod_le; [done|]. apply size_modulus_pos. Qed.

Lemma dense_members_le {M} (offset : M -> Z) (type : M -> Datatype) ms d d' r :
  Forall (fun m => wf_layout (type m) = true /\
                   (dense (type m) = Ret true -> buffersize (type m) <= packed_size (type m))) ms ->
  0 <= d <= d' -> pack_end d' (components type ms) < size_modulus ->
  dense_members offset type (fun m => dense (type m)) ms d = Ret (Some r) ->
  0 <= r <= pack_end d' (components type ms).
Proof.
  intros Hms. revert d d'. induction Hms as [|m ms [Hwf Hle] Hms IH]; intros d d' Hd Hfit; simpl.
  { intros [= <-]. lia. }
  destruct (dense (type m)) as [b|e|] eqn:Hdm; simpl; [|done..]. destruct b; simpl; [|done].
  specialize (Hle eq_refl). pose proof (wf_alignment_pow2 _ Hwf) as Hal. pose proof (pow2_pos _ Hal) as Hpos.
  pose proof (buffersize_is_size _ Hwf) as Hb. pose proof (align_up_mono (alignment (type m)) d d' Hpos) as Hmono.
  pose proof (align_up_ge (alignment (type m)) d Hpos).
  assert (Hge : align_up (alignment (type m)) d' + packed_size (type m) <= pack_end d' (components type (m :: ms))).
  { simpl. apply pack_end_ge. apply Forall_map. eapply list.Forall_impl; [exact Hms|]. intros x [Hx _].
    split; [by apply wf_alignment_pow2 | by apply packed_size_nonneg]. }
  unfold is_size in Hb. destruct (padding_ok (alignment (type m)) d) as (p & Hp & Hadd); [done|lia|lia|].
  rewrite Hp; simpl. rewrite Hadd. destruct (_ >? _); [done|].
  rewrite size_add_small by (unfold is_size; lia). intros Hr.
  apply IH with (d' := align_up (alignment (type m)) d' + packed_size (type m)) in Hr; [done|lia|done].
Qed.

Lemma composite_dense_le {M} (offset : M -> Z) (type : M -> Datatype) ms b :
  composite_wf type ms ->
  Forall (fun m => wf_layout (type m) = true -> dense (type m) = Ret true ->
                   buffersize (type m) <= packed_size (type m)) ms ->
  (r ← dense_members offset type (fun m => dense (type m)) ms 0;
   match r with
   | None => Ret false
   | Some d => d ← close_layout (max_alignment type ms) d; Ret (negb (b >? d))
   end) = Ret true ->
  b <= pack_total (max_alignment type ms) (components type ms).
Proof.
  intros Hc IH Hd. inv_ret. destruct a as [r|]; [|by inv_ret]. inv_ret.
  pose proof (max_alignment_pow2 type ms Hc) as Hal. pose proof (pow2_pos _ Hal).
  apply dense_members_le with (d' := 0) in H; [| |lia|by apply pack_end_fits].
  2: { destruct Hc as [Hc _]. rewrite list.Forall_forall in *. auto. }
  pose proof (align_up_mono (max_alignment type ms) r _ ltac:(done) (proj2 H)) as Hmono.
  destruct Hc as [_ Hfit]. unfold pack_total in *.
  rewrite close_layout_ok in H0 by (done || lia). inv_ret. bools.
  destruct (Z.gtb_spec b (Z.max 1 (align_up (max_alignment type ms) r))); [done|lia].
Qed.

(** A dense value is never larger than its packed form. *)
Lemma dense_buffersize_le t : wf_layout t = true -> dense t = Ret true -> buffersize t <= packed_size t.
Proof.
  induction t as [a k s al ds c d|a t s st ss IH|a ms b IH|a es b IH|a t c d IH] using Datatype_nested_ind;
    intros Hwf Hd; [done| | | |done].
  - simpl in *. bools. destruct (Z.eqb_spec s ss) as [->|]; [|done]. simpl in Hd.
    specialize (IH H Hd). pose proof (buffersize_is_size _ H). unfold is_size in *.
    transitivity (ss * buffersize t); [apply wrap_le|]; nia.
  - apply wf_record in Hwf as [Hc _]. rewrite dense_record in Hd. by apply (composite_dense_le member_displacement).
  - apply wf_tuple in Hwf as [Hc _]. rewrite dense_tuple in Hd. by apply (composite_dense_le element_offset).
Qed.

Lemma dense_members_Ret {M} (offset : M -> Z) (type : M -> Datatype) ms d :
  Forall (fun m => wf_layout (type m) = true /\ exists b, dense (type m) = Ret b) ms ->
  exists r, dense_members offset type (fun m => dense (type m)) ms d = Ret r.
Proof.
  intros Hms. revert d. induction Hms as [|m ms [Hwf [b Hb]] Hms IH]; intros d; simpl; [eauto|].
  rewrite Hb; simpl. destruct b; simpl; [|eauto]. unfold padding.
  pose proof (pow2_pos _ (wf_alignment_pow2 _ Hwf)). destruct (Z.eqb_spec (alignment (type m)) 0); [lia|]; simpl.
  destruct (_ >? _); eauto.
Qed.

Lemma close_layout_Ret a d : pow2 a -> exists r, close_layout a d = Ret r.
Proof.
  intros Ha. pose proof (pow2_pos a Ha). unfold close_layout, padding.
  destruct (Z.eqb_spec a 0); [lia|]; simpl. eauto.
Qed.

(** Density is decided without undefined behaviour on well-formed types. *)
Lemma dense_Ret t : wf_layout t = true -> exists b, dense t = Ret b.
Proof.
  assert (Hcomp : forall {M} (offset : M -> Z) (type : M -> Datatype) ms b,
    composite_wf type ms -> Forall (fun m => wf_layout (type m) = true -> exists b, dense (type m) = Ret b) ms ->
    exists r, (r ← dense_members offset type (fun m => dense (type m)) ms 0;
       match r with
       | None => Ret false
       | Some d => d ← close_layout (max_alignment type ms) d; Ret (negb (b >? d))
       end) = Ret r).
  { intros M offset type ms b Hc IH. destruct (dense_members_Ret offset type ms 0) as [r Hr].
    { destruct Hc as [Hc _]. rewrite list.Forall_forall in *. auto. }
    rewrite Hr; simpl. destruct r as [r|]; [|eauto].
    destruct (close_layout_Ret (max_alignment type ms) r) as [d Hd]; [by apply max_alignment_pow2|].
    rewrite Hd; simpl. eauto. }
  induction t as [a k s al ds c d|a t s st ss IH|a ms b IH|a es b IH|a t c d IH] using Datatype_nested_ind;
    intros Hwf; [simpl; eauto| | | |simpl; eauto].
  - simpl in *. bools. destruct (negb _); eauto.
  - apply wf_record in Hwf as [Hc _]. rewrite dense_record. by apply Hcomp.
  - apply wf_tuple in Hwf as [Hc _]. rewrite dense_tuple. by apply Hcomp.
Qed.

Lemma simple_and_dense_fast t : wf_layout t = true -> simple_and_dense t = Ret (fast t).
Proof.
  intros Hwf. unfold fast, simple_and_dense. destruct (simple t); [|done].
  by destruct (dense_Ret t Hwf) as [b ->].
Qed.

Lemma fast_dense t : fast t = true -> dense t = Ret true.
Proof. unfold fast, simple_and_dense. destruct (simple t); [|done]. destruct (dense t) as [[]| |]; done. Qed.

(** * From the sparse buffer to the dense one *)

(** Block [(s, d, n)] was transferred from [from] in [m] to [to] in [m']. *)
Definition moved (m m' : mem) (to from : Z) (mv : list move) : Prop :=
  Forall (fun '(s, d, n) => forall i, 0 <= i < n -> m' !! (to + d + i) = m !! (from + s + i)) mv.

(** The blocks stay inside a sparse buffer of [sz] bytes and the first [adv]
    bytes of the dense one. *)
Definition moves_in (sz adv : Z) (mv : list move) : Prop :=
  Forall (fun '(s, d, n) => 0 <= n /\ 0 <= s /\ s + n <= sz /\ 0 <= d /\ d + n <= adv) mv.

Definition copies_at (al sz ext adv : Z) (mv : list move)
    (copy : mem -> Z -> Z -> outcome (mem * Z)) : Prop :=
  forall m to from,
    (al | to) -> allocated m from sz -> allocated m to ext -> disjoint_ranges to ext from sz ->
    exists m', copy m to from = Ret (m', to + adv) /\ same_alloc m m' /\ frame m m' to ext /\
      moved m m' to from mv.

Record copies (al sz ext adv : Z) (mv : list move) (copy : mem -> Z -> Z -> outcome (mem * Z)) : Prop := {
  copies_adv : 0 <= adv <= ext;
  copies_in : moves_in sz adv mv;
  copies_run : copies_at al sz ext adv mv copy
}.

Lemma disjoint_sub a n b k a' n' b' k' :
  disjoint_ranges a n b k -> a <= a' -> a' + n' <= a + n -> b <= b' -> b' + k' <= b + k ->
  disjoint_ranges a' n' b' k'.
Proof. unfold disjoint_ranges. lia. Qed.

Lemma shift_in s d sz adv sz' adv' mv :
  0 <= s -> 0 <= d -> s + sz <= sz' -> d + adv <= adv' -> moves_in sz adv mv -> moves_in sz' adv' (shift s d mv).
Proof.
  intros ? ? ? ? Hin. apply Forall_map. eapply list.Forall_impl; [exact Hin|]. intros [[s0 d0] n]. lia.
Qed.

Lemma shift_moved m m' to from s d mv :
  moved m m' (to + d) (from + s) mv -> moved m m' to from (shift s d mv).
Proof.
  intros Hm. apply Forall_map. eapply list.Forall_impl; [exact Hm|]. intros [[s0 d0] n] H i Hi.
  rewrite !Z.add_assoc. by apply H.
Qed.

Lemma moves_in_widen sz adv sz' adv' mv :
  sz <= sz' -> adv <= adv' -> moves_in sz adv mv -> moves_in sz' adv' mv.
Proof. intros ? ? Hin. eapply list.Forall_impl; [exact Hin|]. intros [[s d] n]. lia. Qed.

(** A later copy that leaves the destination blocks alone preserves them. *)
Lemma moved_frame_dst m m1 m2 to from mv sz adv a n :
  moved m m1 to from mv -> moves_in sz adv mv -> frame m1 m2 a n -> to + adv <= a -> moved m m2 to from mv.
Proof.
  intros Hm Hin Hf Hle. unfold moved, moves_in in *. rewrite list.Forall_forall in *. intros [[s d] n'] Hx i Hi.
  specialize (Hin _ Hx). specialize (Hm _ Hx i Hi). simpl in *. rewrite Hf; [done|lia].
Qed.

(** A copy out of a buffer that an earlier one left alone reads the original. *)
Lemma moved_frame_src m m1 m2 to from mv sz adv a n :
  moved m1 m2 to from mv -> moves_in sz adv mv -> frame m m1 a n -> disjoint_ranges a n from sz ->
  moved m m2 to from mv.
Proof.
  intros Hm Hin Hf Hdis. unfold moved, moves_in, disjoint_ranges in *. rewrite list.Forall_forall in *.
  intros [[s d] n'] Hx i Hi. specialize (Hin _ Hx). specialize (Hm _ Hx i Hi). simpl in *.
  rewrite Hm. apply Hf. lia.
Qed.

(** One [memcpy] is one move. *)
Lemma bytes_copies al sz ext s n :
  0 <= s -> 0 <= n -> s + n <= sz -> n <= ext ->
  copies al sz ext n [(s, 0, n)] (fun m to from => bytes_copy m to (from + s) n (to + n)).
Proof.
  intros Hs Hn Hsz Hext. split; [lia|by repeat constructor; lia|].
  intros m to from _ Hfrom Hto Hdis.
  destruct (memcpy_ok m to (from + s) n) as (m' & Hc & Hsa & Hf & Hm'); [done|..].
  - eapply allocated_sub; [exact Hfrom|lia..].
  - eapply allocated_sub; [exact Hto|lia..].
  - eapply disjoint_sub; [exact Hdis|lia..].
  - exists m'. unfold bytes_copy. rewrite Hc; simpl. split_and!; [done..| |].
    + eapply frame_widen; [exact Hf|lia..].
    + constructor; [|constructor]. intros i Hi. rewrite Z.add_0_r. by apply Hm'.
Qed.

(** ** Sequences of components *)

Section sequence.
  Context {M : Type} (al offset sz ext adv : M -> Z) (mv : M -> list move).
  Context (copy : M -> mem -> Z -> Z -> outcome (mem * Z)).

Definition member_ok (base S : Z) (mb : M) : Prop :=
  pow2 (al mb) /\ (al mb | base) /\ copies (al mb) (sz mb) (ext mb) (adv mb) (mv mb) (copy mb) /\
  0 <= offset mb /\ offset mb + sz mb <= S.

Lemma sequence_adv ms d D base S :
  Forall (member_ok base S) ms -> d <= D ->
  d <= pack_end d (map (fun mb => (al mb, adv mb)) ms) <= pack_end D (map (fun mb => (al mb, ext mb)) ms).
Proof.
  intros Hms. revert d D. induction Hms as [|mb ms (Hal & _ & Hc & _) Hms IH]; intros d D Hd; simpl; [lia|].
  pose proof (pow2_pos _ Hal) as Hpos. pose proof (align_up_ge (al mb) d Hpos).
  pose proof (align_up_mono (al mb) d D Hpos Hd). destruct (copies_adv _ _ _ _ _ _ Hc).
  specialize (IH (align_up (al mb) d + adv mb) (align_up (al mb) D + ext mb) ltac:(lia)). lia.
Qed.

Lemma sequence_in ms d base S :
  Forall (member_ok base S) ms -> 0 <= d ->
  moves_in S (pack_end d (map (fun mb => (al mb, adv mb)) ms)) (place_moves al offset adv mv d ms).
Proof.
  intros Hms. revert d. induction Hms as [|mb ms (Hal & ? & Hc & Ho & HoS) Hms IH]; intros d Hd; simpl; [constructor|].
  pose proof (pow2_pos _ Hal) as Hpos. pose proof (align_up_ge (al mb) d Hpos).
  destruct (copies_adv _ _ _ _ _ _ Hc).
  apply Forall_app; split; [|apply IH; lia].
  destruct (sequence_adv ms (align_up (al mb) d + adv mb) (align_up (al mb) d + adv mb) base S Hms ltac:(lia)).
  eapply shift_in; [done|lia| | |apply (copies_in _ _ _ _ _ _ Hc)]; lia.
Qed.

(** The loop performs the moves of every component, each at its aligned place. *)
Lemma to_dense_members_ok ms base S E m d D from :
  Forall (member_ok base S) ms -> 0 <= d <= D ->
  pack_end D (map (fun mb => (al mb, ext mb)) ms) <= E ->
  allocated m from S -> allocated m base E -> disjoint_ranges base E from S ->
  exists m', to_dense_members al offset copy from ms m (base + d)
             = Ret (m', base + pack_end d (map (fun mb => (al mb, adv mb)) ms)) /\
    same_alloc m m' /\ frame m m' (base + d) (E - d) /\
    moved m m' base from (place_moves al offset adv mv d ms).
Proof.
  intros Hms. revert m d D. induction Hms as [|mb ms (Hal & Hdiv & Hc & Ho & HoS) Hms IH];
    intros m d D Hd HE Hfrom Hbase Hdis; simpl in *.
  { exists m. split_and!; [done..|apply frame_refl|constructor]. }
  pose proof (pow2_pos _ Hal) as Hpos. pose proof (align_up_ge (al mb) d Hpos).
  pose proof (align_up_mono (al mb) d D Hpos ltac:(lia)).
  destruct (copies_adv _ _ _ _ _ _ Hc) as [Ha0 Ha1].
  destruct (sequence_adv ms (align_up (al mb) D + ext mb) (align_up (al mb) D + ext mb) base S Hms ltac:(lia)) as [Hend1 Hend2].
  set (o := align_up (al mb) d) in *. rewrite std_align_ok, align_up_base by done. simpl. fold o.
  destruct (copies_run _ _ _ _ _ _ Hc m (base + o) (from + offset mb)) as (m1 & Hrun & Hsa1 & Hf1 & Hm1).
  - apply Z.divide_add_r; [done|by apply align_up_divide].
  - eapply allocated_sub; [exact Hfrom|lia..].
  - eapply allocated_sub; [exact Hbase|lia..].
  - eapply disjoint_sub; [exact Hdis|lia..].
  - rewrite Hrun; simpl. rewrite <- Z.add_assoc.
    destruct (IH m1 (o + adv mb) (align_up (al mb) D + ext mb)) as (m2 & Hrun2 & Hsa2 & Hf2 & Hm2);
      [lia|done|by rewrite <- Hsa1..|done|].
    exists m2. split_and!; [done|by etrans| |].
    + eapply frame_trans; eapply frame_widen; [exact Hf1|..|exact Hf2| |]; lia.
    + apply Forall_app; split.
      * eapply moved_frame_dst; [| |exact Hf2|].
        -- by apply shift_moved.
        -- eapply (shift_in _ _ _ _ S (o + adv mb)); [done|lia| | |apply (copies_in _ _ _ _ _ _ Hc)]; lia.
        -- lia.
      * eapply moved_frame_src; [exact Hm2| |exact Hf1|].
        -- eapply sequence_in; [done|lia].
        -- eapply disjoint_sub; [exact Hdis|lia..].
Qed.

End sequence.

Lemma copies_ext al sz ext adv mv f g :
  (forall m to from, f m to from = g m to from) -> copies al sz ext adv mv f -> copies al sz ext adv mv g.
Proof.
  intros Hfg [Ha Hi Hr]. split; [done..|]. intros m to from ? ? ? ?. rewrite <- Hfg. by apply Hr.
Qed.

Lemma pack_end_const {A} a p d (l : list A) :
  0 < a -> (a | d) -> (a | p) -> pack_end d (map (fun _ => (a, p)) l) = d + Z.of_nat (length l) * p.
Proof.
  intros Ha Hd Hp. revert d Hd. induction l as [|x l IH]; intros d Hd; simpl; [lia|].
  rewrite align_up_id, IH by auto using Z.divide_add_r. lia.
Qed.

(** The element loop of an array is the component loop over its indices. *)
Lemma to_dense_elements_members al bs copy n k m to from :
  to_dense_elements al bs copy n m to (from + k * bs)
  = to_dense_members (fun _ => al) (fun k => k * bs) (fun _ => copy) from (seqZ k (Z.of_nat n)) m to.
Proof.
  revert k m to. induction n as [|n IH]; intros k m to; [done|].
  rewrite seqZ_cons by lia. simpl. destruct (std_align al 0 to al) as [to'| |]; simpl; [|done..].
  destruct (copy m to' (from + k * bs)) as [[m' to'']| |]; simpl; [|done..].
  rewrite <- Z.add_assoc. replace (k * bs + bs) with (Z.succ k * bs) by lia. rewrite IH.
  by replace (Z.pred (Z.of_nat (S n))) with (Z.of_nat n) by lia.
Qed.

Lemma seqZ_Forall k n (P : Z -> Prop) : (forall i, k <= i < k + n -> P i) -> Forall P (seqZ k n).
Proof. intros H. apply list.Forall_forall. intros i Hi. apply H. by apply elem_of_seqZ in Hi. Qed.

(** Composites: records and tuples, on the component loop. *)
Lemma composite_copies {M} (offset : M -> Z) (type : M -> Datatype) rc ms b :
  composite_wf type ms -> is_size b ->
  Forall (fun m => copies (alignment (type m)) (buffersize (type m)) (packed_size (type m))
                     (advance (type m)) (moves (type m)) (data_to_dense_copy rc (type m)) /\
                   0 <= offset m /\ offset m + buffersize (type m) <= b) ms ->
  copies (max_alignment type ms) b (pack_total (max_alignment type ms) (components type ms))
    (pack_end 0 (map (fun m => (alignment (type m), advance (type m))) ms))
    (place_moves (fun m => alignment (type m)) offset (fun m => advance (type m)) (fun m => moves (type m)) 0 ms)
    (fun m to from => to_dense_members (fun m => alignment (type m)) offset
                        (fun m => data_to_dense_copy rc (type m)) from ms m to).
Proof.
  intros Hc Hb Hms.
  assert (Hok : forall base, (max_alignment type ms | base) ->
    Forall (member_ok (fun m => alignment (type m)) offset (fun m => buffersize (type m))
              (fun m => packed_size (type m)) (fun m => advance (type m)) (fun m => moves (type m))
              (fun m => data_to_dense_copy rc (type m)) base b) ms).
  { intros base Hbase. destruct Hc as [Hwf _]. rewrite list.Forall_forall in Hms, Hwf |- *. intros m Hm.
    destruct (Hms m Hm) as (? & ? & ?). split_and!; [by apply wf_alignment_pow2, Hwf| |done..].
    etrans; [|exact Hbase]. apply (foldl_max_divide (fun m => alignment (type m))); [|done].
    apply list.Forall_forall. intros x Hx. by apply wf_alignment_pow2, Hwf. }
  pose proof (align_up_ge _ (pack_end 0 (components type ms)) (pow2_pos _ (max_alignment_pow2 _ _ Hc))).
  assert (Htot : pack_end 0 (components type ms) <= pack_total (max_alignment type ms) (components type ms))
    by (unfold pack_total; lia).
  specialize (Hok 0 (Z.divide_0_r _)) as Hok0.
  destruct (sequence_adv _ _ _ _ _ _ _ ms 0 0 0 b Hok0 ltac:(lia)) as [Hlo Hhi].
  split.
  - fold (components type ms) in Hhi. lia.
  - by eapply sequence_in.
  - intros m to from Hdiv Hfrom Hto Hdis.
    destruct (to_dense_members_ok _ _ _ _ _ _ _ ms to b
      (pack_total (max_alignment type ms) (components type ms)) m 0 0 from (Hok to Hdiv) ltac:(lia)
      Htot Hfrom Hto Hdis) as (m' & Hrun & Hsa & Hf & Hm).
    rewrite Z.add_0_r in Hrun, Hf. rewrite Z.sub_0_r in Hf. exists m'. by split_and!.
Qed.

(** Arrays whose elements are copied one by one. *)
Lemma array_copies rc a sub s st ss :
  copy_ok (Array_datatype a sub s st ss) = true ->
  copies (alignment sub) (buffersize sub) (packed_size sub) (advance sub) (moves sub) (data_to_dense_copy rc sub) ->
  copies (alignment sub) (s * buffersize sub) (ss * packed_size sub)
    (pack_end 0 (map (fun _ => (alignment sub, advance sub)) (seqZ 0 ss)))
    (shift (st * buffersize sub) 0
      (place_moves (fun _ => alignment sub) (fun k => k * buffersize sub) (fun _ => advance sub)
         (fun _ => moves sub) 0 (seqZ 0 ss)))
    (fun m to from => to_dense_elements (alignment sub) (buffersize sub) (data_to_dense_copy rc sub)
       (Z.to_nat ss) m to (from + st * buffersize sub)).
Proof.
  intros Hok Hsub. assert (Hwf := copy_ok_wf _ Hok). simpl in Hok, Hwf. bools.
  pose proof (wf_alignment_pow2 sub ltac:(done)) as Hal. pose proof (pow2_pos _ Hal) as Hpos.
  pose proof (buffersize_is_size sub ltac:(done)) as Hb. unfold is_size in *.
  assert (Hmem : forall base, (alignment sub | base) ->
    Forall (member_ok (fun _ => alignment sub) (fun k => k * buffersize sub) (fun _ => buffersize sub)
      (fun _ => packed_size sub) (fun _ => advance sub) (fun _ => moves sub) (fun _ => data_to_dense_copy rc sub)
      base (ss * buffersize sub)) (seqZ 0 ss)).
  { intros base Hbase. apply seqZ_Forall. intros k Hk. split_and!; [done..|nia|].
    pose proof (Z.mul_le_mono_nonneg_r (k + 1) ss (buffersize sub) ltac:(lia) ltac:(lia)). lia. }
  assert (Hend : pack_end 0 (map (fun _ => (alignment sub, packed_size sub)) (seqZ 0 ss)) = ss * packed_size sub).
  { rewrite pack_end_const; [rewrite length_seqZ, Z2Nat.id by lia; lia|done|apply Z.divide_0_r|].
    apply Z.mod_divide; [lia|done]. }
  destruct (sequence_adv _ _ _ _ _ _ _ (seqZ 0 ss) 0 0 0 _ (Hmem 0 (Z.divide_0_r _)) ltac:(lia)) as [Hlo Hhi].
  split.
  - rewrite <- Hend. lia.
  - assert ((st + ss) * buffersize sub <= s * buffersize sub) by (apply Z.mul_le_mono_nonneg_r; lia).
    eapply shift_in; [nia|lia| | |eapply sequence_in; [apply (Hmem 0), Z.divide_0_r|lia]]; cbn beta; lia.
  - intros m to from Hdiv Hfrom Hto Hdis.
    destruct (to_dense_members_ok _ _ _ _ _ _ _ (seqZ 0 ss) to (ss * buffersize sub) (ss * packed_size sub)
      m 0 0 (from + st * buffersize sub) (Hmem to Hdiv) ltac:(lia)) as (m' & Hrun & Hsa & Hf & Hm).
    + lia.
    + assert ((st + ss) * buffersize sub <= s * buffersize sub) by (apply Z.mul_le_mono_nonneg_r; lia).
      eapply allocated_sub; [exact Hfrom|nia..].
    + done.
    + eapply disjoint_sub; [exact Hdis|nia..].
    + rewrite Z.add_0_r in Hrun, Hf. rewrite Z.sub_0_r in Hf. exists m'.
      replace (from + st * buffersize sub) with (from + st * buffersize sub + 0 * buffersize sub) by lia.
      rewrite to_dense_elements_members, Z2Nat.id by lia. split_and!; [done..|].
      apply shift_moved. by rewrite Z.add_0_r.
Qed.

(** Either way a composite is copied, in one block or component by component. *)
Lemma composite_to_dense {M} (offset : M -> Z) (type : M -> Datatype) rc ms b (isfast : bool) :
  composite_wf type ms -> is_size b ->
  (isfast = true -> b <= pack_total (max_alignment type ms) (components type ms)) ->
  Forall (fun m => copy_ok (type m) && (0 <=? offset m) && (offset m + buffersize (type m) <=? b) = true) ms ->
  Forall (fun m => copy_ok (type m) = true ->
            copies (alignment (type m)) (buffersize (type m)) (packed_size (type m))
              (advance (type m)) (moves (type m)) (data_to_dense_copy rc (type m))) ms ->
  copies (max_alignment type ms) b (pack_total (max_alignment type ms) (components type ms))
    (if isfast then b else pack_end 0 (map (fun m => (alignment (type m), advance (type m))) ms))
    (if isfast then [(0, 0, b)]
     else place_moves (fun m => alignment (type m)) offset (fun m => advance (type m)) (fun m => moves (type m)) 0 ms)
    (fun m to from => if isfast then bytes_copy m to from b (to + b)
       else to_dense_members (fun m => alignment (type m)) offset
              (fun m => data_to_dense_copy rc (type m)) from ms m to).
Proof.
  intros Hc Hb Hle Hok IH. destruct isfast.
  - specialize (Hle eq_refl). unfold is_size in Hb.
    eapply copies_ext; [|apply (bytes_copies _ b _ 0 b); lia]. intros. cbn beta. by rewrite Z.add_0_r.
  - apply composite_copies; [done..|]. rewrite list.Forall_forall in *. intros m Hm.
    specialize (Hok m Hm). simpl in Hok. bools. auto.
Qed.

(** [data_to_dense_copy] performs the moves of the type, whatever the functions
    behind the handles are. *)
Lemma to_dense_copies rc t :
  copy_ok t = true ->
  copies (alignment t) (buffersize t) (packed_size t) (advance t) (moves t) (data_to_dense_copy rc t).
Proof.
  induction t as [a k s al ds c d|a t s st ss IH|a ms b IH|a es b IH|a t c d IH] using Datatype_nested_ind;
    intros Hok; assert (Hwf := copy_ok_wf _ Hok).
  - simpl in Hok, Hwf. bools. subst c. unfold is_size in *.
    eapply copies_ext; [|apply (bytes_copies al ds ds 0 s); lia].
    intros. unfold bytes_copy. by rewrite Z.add_0_r.
  - assert (Hok' := Hok). simpl in Hok, Hwf. bools. specialize (IH ltac:(done)).
    pose proof (buffersize_is_size t ltac:(done)) as Hb. pose proof (datasize_is_size t ltac:(done)) as Hd.
    unfold is_size in *.
    assert ((st + ss) * buffersize t <= s * buffersize t) by (apply Z.mul_le_mono_nonneg_r; lia).
    simpl. rewrite (size_mul_small s) by (unfold is_size; lia).
    assert (Hfrom : forall m to from, data_to_dense_copy rc (Array_datatype a t s st ss) m to from =
      if fast t then bytes_copy m to (from + st * buffersize t) (ss *s datasize t) (to + (ss *s datasize t))
      else to_dense_elements (alignment t) (buffersize t) (data_to_dense_copy rc t) (Z.to_nat ss) m to
             (from + st * buffersize t)).
    { intros. simpl. rewrite simple_and_dense_fast by done. simpl.
      rewrite (size_mul_small st) by (unfold is_size; nia). done. }
    eapply copies_ext; [intros; symmetry; apply Hfrom|]. destruct (fast t) eqn:Hfast.
    + pose proof (dense_buffersize_le t ltac:(done) (fast_dense t Hfast)).
      rewrite (size_mul_small ss) by (unfold is_size; nia). apply bytes_copies; nia.
    + by apply (array_copies rc a t s st ss).
  - assert (Hle := dense_buffersize_le _ Hwf). assert (Hsd := simple_and_dense_fast _ Hwf).
    apply wf_record in Hwf as [Hc Hb]. apply andb_true_iff in Hok as [_ Hok]. bools.
    eapply copies_ext; [|eapply (composite_to_dense member_displacement member_type rc ms b
                            (fast (Record_datatype a ms b)))]; try done.
    + intros. cbn [data_to_dense_copy record_to_dense_copy tuple_to_dense_copy]. by rewrite Hsd.
    + intros Hf. by apply Hle, fast_dense.
  - assert (Hle := dense_buffersize_le _ Hwf). assert (Hsd := simple_and_dense_fast _ Hwf).
    apply wf_tuple in Hwf as [Hc Hb]. apply andb_true_iff in Hok as [_ Hok]. bools.
    eapply copies_ext; [|eapply (composite_to_dense element_offset element_type rc es b
                            (fast (Tuple_datatype a es b)))]; try done.
    + intros. cbn [data_to_dense_copy record_to_dense_copy tuple_to_dense_copy]. by rewrite Hsd.
    + intros Hf. by apply Hle, fast_dense.
  - simpl in Hok. bools. subst c. unfold sizeof_ptr in *.
    eapply copies_ext; [|apply (bytes_copies 8 8 8 0 8); lia].
    intros. unfold bytes_copy. by rewrite Z.add_0_r.
Qed.
