(* ===== verification/RoundTrip.v ===== *)
(** [data_from_dense_copy] undoes [data_to_dense_copy].

    The inverse copy reads the dense buffer at the positions where the direct
    one wrote it only if every component advances the destination by exactly its
    data size, i.e. has no padding of its own, and if the paddings it computes fit
    in the [int] that holds them; [rt_ok] states these conditions. *)

From S2P Require Import Prelude Error ExprSyntax Datatype Layout Memory DenseCopy DenseCopyFacts.

(** How far [data_from_dense_copy] moves the pointer it returns. *)
Definition ret_size (t : Datatype) : Z :=
  match t with
  | Scalar_datatype _ _ _ _ _ _ _ | Pointer_datatype _ _ _ _ => datasize t
  | _ => buffersize t
  end.

Fixpoint rt_ok (t : Datatype) : bool :=
  copy_ok t &&
  match t with
  | Scalar_datatype _ _ _ _ _ _ _ | Pointer_datatype _ _ _ _ => true
  | Array_datatype _ sub _ _ ss =>
      rt_ok sub &&
      (fast sub || ((advance sub =? datasize sub) && (buffersize sub mod alignment sub =? 0)
                    && (ret_size sub =? buffersize sub) && (ss <=? int_max) && (alignment sub <=? 2 ^ 31)))
  | Record_datatype _ ms _ =>
      fast t || forallb (fun m => rt_ok (member_type m) && (advance (member_type m) =? datasize (member_type m))
                           && (member_displacement m mod alignment (member_type m) =? 0)
                           && (alignment (member_type m) <=? 2 ^ 31)) ms
  | Tuple_datatype _ es _ =>
      fast t || forallb (fun e => rt_ok (element_type e) && (advance (element_type e) =? datasize (element_type e))
                           && (element_offset e mod alignment (element_type e) =? 0)
                           && (alignment (element_type e) <=? 2 ^ 31)) es
  end.

Lemma rt_ok_copy_ok t : rt_ok t = true -> copy_ok t = true.
Proof. destruct t; simpl; intros H; by apply andb_true_iff in H as [? _]. Qed.

(** * Restoring a sparse buffer *)

(** [src o] is the byte expected at offset [o] of the sparse buffer.  The dense
    buffer at [from] holds the bytes of the blocks. *)
Definition holds (m : mem) (from : Z) (src : Z -> option Z) (mv : list move) : Prop :=
  Forall (fun '(s, d, n) => forall i, 0 <= i < n -> m !! (from + d + i) = src (s + i)) mv.

(** The blocks are back in the sparse buffer at [to]. *)
Definition restored (m : mem) (to : Z) (src : Z -> option Z) (mv : list move) : Prop :=
  Forall (fun '(s, _, n) => forall i, 0 <= i < n -> m !! (to + s + i) = src (s + i)) mv.

(** Every byte that changed has its expected value. *)
Definition consistent (m m' : mem) (to sz : Z) (src : Z -> option Z) : Prop :=
  forall x, m' !! x = m !! x \/ (to <= x < to + sz /\ m' !! x = src (x - to)).

Definition restores_at (al sz adv : Z) (mv : list move) (copy : mem -> Z -> Z -> outcome (mem * Z)) : Prop :=
  forall m to from src,
    (al | to) -> (al | from) -> allocated m to sz -> allocated m from adv -> disjoint_ranges to sz from adv ->
    holds m from src mv ->
    exists m' r, copy m to from = Ret (m', r) /\ same_alloc m m' /\
      restored m' to src mv /\ consistent m m' to sz src.

Lemma consistent_frame m m' to sz src : consistent m m' to sz src -> frame m m' to sz.
Proof. intros Hc x Hx. destruct (Hc x) as [|[? _]]; [done|lia]. Qed.

Lemma holds_frame m m' from src mv sz adv a n :
  holds m from src mv -> moves_in sz adv mv -> frame m m' a n -> disjoint_ranges a n from adv ->
  holds m' from src mv.
Proof.
  intros Hh Hin Hf Hdis. unfold holds, moves_in, disjoint_ranges in *. rewrite list.Forall_forall in *.
  intros [[s d] n'] Hx i Hi. specialize (Hin _ Hx). specialize (Hh _ Hx i Hi). simpl in *. rewrite Hf; [done|lia].
Qed.

Lemma restored_consistent m m' to src mv sz :
  restored m to src mv -> consistent m m' to sz src -> restored m' to src mv.
Proof.
  intros Hr Hc. unfold restored in *. rewrite list.Forall_forall in *. intros [[s d] n] Hx i Hi.
  destruct (Hc (to + s + i)) as [->|[_ ->]]; [by apply (Hr _ Hx)|f_equal; lia].
Qed.

Lemma consistent_trans m1 m2 m3 to sz src :
  consistent m1 m2 to sz src -> consistent m2 m3 to sz src -> consistent m1 m3 to sz src.
Proof. intros H1 H2 x. destruct (H2 x) as [->|]; [apply H1|by right]. Qed.

Lemma consistent_shift m m' to o sz S src :
  0 <= o -> o + sz <= S -> consistent m m' (to + o) sz (fun x => src (o + x)) -> consistent m m' to S src.
Proof.
  intros ? ? Hc x. destruct (Hc x) as [|[? Hx]]; [by left|]. right. split; [lia|]. rewrite Hx. f_equal. lia.
Qed.

Lemma holds_shift m from s d src mv :
  holds m from src (shift s d mv) <-> holds m (from + d) (fun x => src (s + x)) mv.
Proof.
  unfold holds, shift. split; intros H; [apply Forall_map in H|apply Forall_map];
    (eapply list.Forall_impl; [exact H|]); intros [[s0 d0] n] Hn i Hi; specialize (Hn i Hi);
    rewrite !Z.add_assoc in *; done.
Qed.

Lemma restored_shift m to s d src mv :
  restored m (to + s) (fun x => src (s + x)) mv -> restored m to src (shift s d mv).
Proof.
  intros H. apply Forall_map. eapply list.Forall_impl; [exact H|]. intros [[s0 d0] n] Hi i Hn.
  rewrite !Z.add_assoc. specialize (Hi i Hn). by rewrite !Z.add_assoc in Hi.
Qed.

(** One [memcpy] restores one block. *)
Lemma bytes_restores al sz s n ret :
  0 <= s -> 0 <= n -> s + n <= sz ->
  restores_at al sz n [(s, 0, n)] (fun m to from => bytes_copy m (to + s) from n (to + ret)).
Proof.
  intros Hs Hn Hsz m to from src _ _ Hto Hfrom Hdis Hh.
  unfold holds in Hh. rewrite list.Forall_singleton in Hh.
  change (forall i, 0 <= i < n -> m !! (from + 0 + i) = src (s + i)) in Hh.
  destruct (memcpy_ok m (to + s) from n) as (m' & Hc & Hsa & Hf & Hm'); [done|..].
  - eapply allocated_sub; [exact Hfrom|lia..].
  - eapply allocated_sub; [exact Hto|lia..].
  - eapply disjoint_sub; [exact Hdis|lia..].
  - assert (Hval : forall i, 0 <= i < n -> m' !! (to + s + i) = src (s + i)).
    { intros i Hi. rewrite Hm' by done. rewrite <- Hh by done. by rewrite Z.add_0_r. }
    exists m', (to + ret). unfold bytes_copy. rewrite Hc; simpl. split_and!; [done..| |].
    + by repeat constructor.
    + intros x. destruct (decide (to + s <= x < to + s + n)); [right|left; by apply Hf].
      split; [lia|]. replace x with (to + s + (x - to - s)) at 1 by lia. rewrite Hval by lia. f_equal. lia.
Qed.

Lemma padding_addr a p : pow2 a -> padding a p = Ret (align_up a p - p).
Proof.
  intros Ha. pose proof (pow2_pos a Ha). pose proof (pow2_is_size a Ha) as Hs. unfold is_size in Hs. unfold padding.
  destruct (Z.eqb_spec a 0); [lia|]. pose proof (Z.mod_pos_bound p a ltac:(done)).
  rewrite size_sub_small by (unfold is_size; lia). f_equal. unfold align_up. lia.
Qed.

(** A padding is below the alignment: up to 2^31 it fits in an [int]. *)
Lemma padding_fits a p : pow2 a -> a <= 2 ^ 31 -> size_to_int (align_up a p - p) = align_up a p - p.
Proof.
  intros Ha Hle. pose proof (pow2_pos a Ha) as Hpos. pose proof (align_up_ge a p Hpos).
  assert (align_up a p - p < a).
  { unfold align_up. pose proof (Z.mod_pos_bound (a - p mod a) a Hpos). lia. }
  unfold size_to_int. rewrite Z.mod_small; lia.
Qed.

Section sequence.
  Context {M : Type} (al offset sz adv : M -> Z) (mv : M -> list move).
  Context (copy : M -> mem -> Z -> Z -> outcome (mem * Z)).

Definition restore_ok (base fbase S : Z) (mb : M) : Prop :=
  (pow2 (al mb) /\ al mb <= 2 ^ 31) /\ (al mb | base) /\ (al mb | fbase) /\ (al mb | offset mb) /\
  0 <= offset mb /\ offset mb + sz mb <= S /\ 0 <= adv mb /\ moves_in (sz mb) (adv mb) (mv mb) /\
  restores_at (al mb) (sz mb) (adv mb) (mv mb) (copy mb).

Lemma restore_end_ge ms d base fbase S :
  Forall (restore_ok base fbase S) ms -> d <= pack_end d (map (fun mb => (al mb, adv mb)) ms).
Proof.
  intros Hms. apply pack_end_ge. apply Forall_map. eapply list.Forall_impl; [exact Hms|].
  intros mb ((Ha & _) & ? & ? & ? & ? & ? & Hadv & _). by split.
Qed.

Lemma restore_moves_in ms d base fbase S :
  Forall (restore_ok base fbase S) ms -> 0 <= d ->
  moves_in S (pack_end d (map (fun mb => (al mb, adv mb)) ms)) (place_moves al offset adv mv d ms).
Proof.
  intros Hms. revert d. induction Hms as [|mb ms ((Ha & _) & _ & _ & _ & Ho & HoS & Hadv & Hin & _) Hms IH];
    intros d Hd; simpl; [constructor|].
  pose proof (align_up_ge (al mb) d (pow2_pos _ Ha)).
  pose proof (restore_end_ge ms (align_up (al mb) d + adv mb) base fbase S Hms).
  apply Forall_app; split; [|apply IH; lia]. eapply shift_in; [done|lia| | |exact Hin]; lia.
Qed.

Lemma from_dense_members_ok ms base fbase S E m d src :
  Forall (restore_ok base fbase S) ms -> 0 <= d ->
  pack_end d (map (fun mb => (al mb, adv mb)) ms) <= E ->
  allocated m base S -> allocated m fbase E -> disjoint_ranges base S fbase E ->
  holds m fbase src (place_moves al offset adv mv d ms) ->
  exists m', from_dense_members al offset adv copy base ms m (fbase + d) = Ret m' /\ same_alloc m m' /\
    restored m' base src (place_moves al offset adv mv d ms) /\ consistent m m' base S src.
Proof.
  intros Hms. revert m d. induction Hms as [|mb ms ((Ha & Hle) & Hb & Hfb & Hob & Ho & HoS & Hadv & Hin & Hrun) Hms IH];
    intros m d Hd HE Hbase Hfbase Hdis Hh; simpl in *.
  { exists m. split_and!; [done..|constructor|by left]. }
  pose proof (pow2_pos _ Ha) as Hpos. pose proof (align_up_ge (al mb) d Hpos).
  set (o := align_up (al mb) d) in *. pose proof (restore_end_ge ms (o + adv mb) base fbase S Hms).
  apply Forall_app in Hh as [Hh1 Hh2]. apply (holds_shift m fbase) in Hh1.
  rewrite padding_addr by done. simpl. rewrite padding_fits, align_up_base by done. fold o.
  replace (fbase + d + (fbase + o - (fbase + d))) with (fbase + o) by lia.
  destruct (Hrun m (base + offset mb) (fbase + o) (fun x => src (offset mb + x))) as (m1 & r & Hr1 & Hsa1 & Hres1 & Hcon1).
  - by apply Z.divide_add_r.
  - apply Z.divide_add_r; [done|by apply align_up_divide].
  - eapply allocated_sub; [exact Hbase|lia..].
  - eapply allocated_sub; [exact Hfbase|lia..].
  - eapply disjoint_sub; [exact Hdis|lia..].
  - done.
  - rewrite Hr1; simpl. rewrite <- Z.add_assoc.
    apply consistent_shift with (S := S) in Hcon1; [|done..].
    destruct (IH m1 (o + adv mb)) as (m2 & Hr2 & Hsa2 & Hres2 & Hcon2); [lia|done|by rewrite <- Hsa1..|done| |].
    { eapply holds_frame; [exact Hh2| |by eapply consistent_frame|].
      - eapply restore_moves_in; [done|lia].
      - eapply disjoint_sub; [exact Hdis|lia..]. }
    exists m2. split_and!; [done|by etrans| |by eapply consistent_trans].
    apply Forall_app; split; [|done].
    eapply restored_consistent; [|exact Hcon2]. by apply restored_shift.
Qed.

End sequence.


(** The loop over the elements of an array, with the counter it keeps in an
    [int], is the loop over the components at their displacements: every copy
    returns the address of the next element. *)
Lemma from_dense_elements_members al ds bs copy n k no m base from :
  pow2 al -> (al | base) -> (al | bs) -> 0 <= no -> no + Z.of_nat n <= int_max ->
  (forall m to from m' r, copy m to from = Ret (m', r) -> r = to + bs) ->
  from_dense_elements al ds copy n no m (base + k * bs) from
  = from_dense_members (fun _ => al) (fun k => k * bs) (fun _ => ds) (fun _ => copy) base (seqZ k (Z.of_nat n)) m from.
Proof.
  intros Hal Hb Hbs Hno Hmax Hret. revert k no m from Hno Hmax.
  induction n as [|n IH]; intros k no m from Hno Hmax; [done|].
  rewrite seqZ_cons by lia. simpl. rewrite std_align_ok by done; simpl.
  rewrite align_up_id by (eauto using pow2_pos, Z.divide_add_r, Z.divide_mul_r).
  destruct (padding al from) as [p| |]; simpl; [|done..].
  destruct (copy m (base + k * bs) (from + size_to_int p)) as [[m' r]| |] eqn:Hc; simpl; [|done..].
  apply Hret in Hc as ->. unfold int_incr. destruct (Z.eqb_spec no int_max); [lia|]. simpl.
  replace (base + k * bs + bs) with (base + Z.succ k * bs) by lia.
  rewrite IH by lia. by replace (Z.pred (Z.of_nat (S n))) with (Z.of_nat n) by lia.
Qed.

Lemma from_dense_return rc t m to from m' r :
  rt_ok t = true -> data_from_dense_copy rc t m to from = Ret (m', r) -> r = to + ret_size t.
Proof.
  intros Hok%rt_ok_copy_ok. destruct t; simpl in Hok |- *; bools; subst; unfold leaf_copy, bytes_copy; intros Hr;
    repeat (inv_ret; try done; try match goal with b : bool |- _ => destruct b end); try done.
Qed.

Lemma restores_ext al sz adv mv f g :
  (forall m to from, f m to from = g m to from) -> restores_at al sz adv mv f -> restores_at al sz adv mv g.
Proof. intros Hfg Hr m to from src ? ? ? ? ? ?. rewrite <- Hfg. by apply Hr. Qed.

Abbreviation restores rc t :=
  (restores_at (alignment t) (buffersize t) (advance t) (moves t) (data_from_dense_copy rc t)).

(** Composites copied component by component. *)
Lemma composite_restores {M} (offset : M -> Z) (type : M -> Datatype) rc ms b :
  composite_wf type ms ->
  Forall (fun m => (rt_ok (type m) = true /\ alignment (type m) <= 2 ^ 31) /\ advance (type m) = datasize (type m) /\
                   (alignment (type m) | offset m) /\ 0 <= offset m /\
                   offset m + buffersize (type m) <= b /\ restores rc (type m)) ms ->
  restores_at (max_alignment type ms) b
    (pack_end 0 (map (fun m => (alignment (type m), advance (type m))) ms))
    (place_moves (fun m => alignment (type m)) offset (fun m => advance (type m)) (fun m => moves (type m)) 0 ms)
    (fun m to from =>
       m' ← from_dense_members (fun m => alignment (type m)) offset (fun m => datasize (type m))
              (fun m => data_from_dense_copy rc (type m)) to ms m from;
       Ret (m', to + b)).
Proof.
  intros Hc Hms m to from src Hto Hfrom Hato Hafrom Hdis Hh.
  assert (Hds : from_dense_members (fun m => alignment (type m)) offset (fun m => datasize (type m))
                  (fun m => data_from_dense_copy rc (type m)) to ms m from
                = from_dense_members (fun m => alignment (type m)) offset (fun m => advance (type m))
                  (fun m => data_from_dense_copy rc (type m)) to ms m from).
  { clear -Hms. revert m from. induction Hms as [|mb ms (_ & Ha & _) Hms IH]; intros m from; simpl; [done|].
    destruct (padding _ _) as [p| |]; simpl; [|done..].
    destruct (data_from_dense_copy _ _ _ _ _) as [[m' r]| |]; simpl; [|done..]. by rewrite Ha, IH. }
  rewrite Hds.
  destruct (from_dense_members_ok (fun m => alignment (type m)) offset (fun m => buffersize (type m))
    (fun m => advance (type m)) (fun m => moves (type m)) (fun m => data_from_dense_copy rc (type m))
    ms to from b (pack_end 0 (map (fun m => (alignment (type m), advance (type m))) ms)) m 0 src)
    as (m' & Hrun & Hsa & Hres & Hcon); try done.
  - destruct Hc as [Hwf _]. pose proof Hwf as Hal. rewrite list.Forall_forall in Hms, Hwf |- *. intros mb Hmb.
    destruct (Hms mb Hmb) as ((Hrt & Hle) & Ha & Hd & Ho & HoS & Hr).
    assert (Hdiv : (alignment (type mb) | max_alignment type ms)).
    { apply (foldl_max_divide (fun m => alignment (type m))); [|done].
      eapply list.Forall_impl; [exact Hal|]. intros x. apply wf_alignment_pow2. }
    destruct (to_dense_copies rc (type mb) (rt_ok_copy_ok _ Hrt)) as [Hadv Hin _].
    split_and!; [by apply wf_alignment_pow2, Hwf|done|by etrans|by etrans|done..|lia|done|done].
  - rewrite Z.add_0_r in Hrun. rewrite Hrun. simpl. exists m', (to + b). by split_and!.
Qed.

Lemma array_restores rc a sub s st ss :
  rt_ok (Array_datatype a sub s st ss) = true -> fast sub = false -> restores rc sub ->
  restores_at (alignment sub) (s * buffersize sub)
    (pack_end 0 (map (fun _ => (alignment sub, advance sub)) (seqZ 0 ss)))
    (shift (st * buffersize sub) 0
      (place_moves (fun _ => alignment sub) (fun k => k * buffersize sub) (fun _ => advance sub)
         (fun _ => moves sub) 0 (seqZ 0 ss)))
    (fun m to from =>
       m' ← from_dense_elements (alignment sub) (datasize sub) (data_from_dense_copy rc sub)
              (Z.to_nat ss) 0 m (to + st * buffersize sub) from;
       Ret (m', to + s * buffersize sub)).
Proof.
  intros Hok Hnf Hr m to from src Hto Hfrom Hato Hafrom Hdis Hh.
  assert (Hok' := rt_ok_copy_ok _ Hok). assert (Hwf := copy_ok_wf _ Hok'). simpl in Hok, Hok', Hwf.
  rewrite Hnf in Hok. simpl in Hok. bools.
  pose proof (wf_alignment_pow2 sub ltac:(done)) as Hal. pose proof (pow2_pos _ Hal) as Hpos.
  pose proof (buffersize_is_size sub ltac:(done)) as Hb. unfold is_size in *.
  assert (Hdiv : (alignment sub | buffersize sub)) by (apply Z.mod_divide; [lia|done]).
  assert (Hspan : (st + ss) * buffersize sub <= s * buffersize sub) by (apply Z.mul_le_mono_nonneg_r; lia).
  destruct (to_dense_copies rc sub ltac:(done)) as [Hadv Hin _].
  assert (Hbase : (alignment sub | to + st * buffersize sub)) by (auto using Z.divide_add_r, Z.divide_mul_r).
  destruct (from_dense_members_ok (fun _ => alignment sub) (fun k => k * buffersize sub) (fun _ => buffersize sub)
    (fun _ => advance sub) (fun _ => moves sub) (fun _ => data_from_dense_copy rc sub)
    (seqZ 0 ss) (to + st * buffersize sub) from (ss * buffersize sub)
    (pack_end 0 (map (fun _ => (alignment sub, advance sub)) (seqZ 0 ss))) m 0
    (fun x => src (st * buffersize sub + x)))
    as (m' & Hrun & Hsa & Hres & Hcon); try done.
  - apply seqZ_Forall. intros k Hk.
    split_and!; [done..|by apply Z.divide_mul_r|nia| |lia|done|done].
    pose proof (Z.mul_le_mono_nonneg_r (k + 1) ss (buffersize sub) ltac:(lia) ltac:(lia)). lia.
  - eapply allocated_sub; [exact Hato|nia..].
  - eapply disjoint_sub; [exact Hdis|nia..].
  - apply holds_shift in Hh. by rewrite Z.add_0_r in Hh.
  - replace (to + st * buffersize sub) with (to + st * buffersize sub + 0 * buffersize sub) by lia.
    rewrite from_dense_elements_members; [|done..|lia|lia|].
    2: { intros m0 to0 from0 m0' r0 H0'. apply from_dense_return in H0'; [|done]. congruence. }
    rewrite Z2Nat.id by lia. replace (datasize sub) with (advance sub). rewrite Z.add_0_r in Hrun. rewrite Hrun. simpl.
    exists m', (to + s * buffersize sub). split_and!; [done..| |].
    + by apply restored_shift.
    + eapply consistent_shift; [| |exact Hcon]; nia.
Qed.

Lemma from_dense_restores rc t : rt_ok t = true -> restores rc t.
Proof.
  induction t as [a k s al ds c d|a t s st ss IH|a ms b IH|a es b IH|a t c d IH] using Datatype_nested_ind;
    intros Hok; assert (Hcok := rt_ok_copy_ok _ Hok); assert (Hwf := copy_ok_wf _ Hcok).
  - simpl in Hcok, Hwf. bools. subst c. unfold is_size in *.
    eapply restores_ext; [|apply (bytes_restores al ds 0 s s); lia].
    intros. unfold bytes_copy. by rewrite Z.add_0_r.
  - assert (Hok' := Hok). simpl in Hok, Hcok, Hwf. bools. specialize (IH ltac:(done)).
    pose proof (buffersize_is_size t ltac:(done)) as Hb. pose proof (datasize_is_size t ltac:(done)) as Hd.
    unfold is_size in *.
    assert ((st + ss) * buffersize t <= s * buffersize t) by (apply Z.mul_le_mono_nonneg_r; lia).
    assert (Hss : ss * datasize t <= ss * buffersize t) by (apply Z.mul_le_mono_nonneg_l; lia).
    eapply restores_ext.
    { intros m to from. cbn [data_from_dense_copy array_from_dense_copy record_from_dense_copy tuple_from_dense_copy]. rewrite simple_and_dense_fast by done.
      rewrite (size_mul_small st) by (unfold is_size; nia). reflexivity. }
    simpl. rewrite (size_mul_small s) by (unfold is_size; lia). destruct (fast t) eqn:Hfast; simpl.
    + rewrite (size_mul_small ss) by (unfold is_size; nia). apply bytes_restores; nia.
    + by apply (array_restores rc a t s st ss).
  - assert (Hsd := simple_and_dense_fast _ Hwf). apply wf_record in Hwf as [Hc Hb]. unfold is_size in Hb.
    eapply restores_ext; [intros m to from; cbn [data_from_dense_copy array_from_dense_copy record_from_dense_copy tuple_from_dense_copy]; rewrite Hsd; reflexivity|].
    apply andb_true_iff in Hok as [_ Hok]. apply andb_true_iff in Hcok as [_ Hcok].
    cbn [advance moves buffersize alignment]. fold (max_alignment member_type ms).
    destruct (fast (Record_datatype a ms b)).
    + eapply restores_ext; [|apply (bytes_restores _ b 0 b b); lia]. intros. cbn. by rewrite Z.add_0_r.
    + simpl in Hok. bools. apply composite_restores; [done|].
      destruct Hc as [Hwf _]. rewrite list.Forall_forall in *. intros m Hm.
      specialize (Hok m Hm). specialize (Hcok m Hm). specialize (Hwf m Hm). simpl in *. bools.
      split_and!; auto. apply Z.mod_divide; [|done]. pose proof (pow2_pos _ (wf_alignment_pow2 _ Hwf)). lia.
  - assert (Hsd := simple_and_dense_fast _ Hwf). apply wf_tuple in Hwf as [Hc Hb]. unfold is_size in Hb.
    eapply restores_ext; [intros m to from; cbn [data_from_dense_copy array_from_dense_copy record_from_dense_copy tuple_from_dense_copy]; rewrite Hsd; reflexivity|].
    apply andb_true_iff in Hok as [_ Hok]. apply andb_true_iff in Hcok as [_ Hcok].
    cbn [advance moves buffersize alignment]. fold (max_alignment element_type es).
    destruct (fast (Tuple_datatype a es b)).
    + eapply restores_ext; [|apply (bytes_restores _ b 0 b b); lia]. intros. cbn. by rewrite Z.add_0_r.
    + simpl in Hok. bools. apply composite_restores; [done|].
      destruct Hc as [Hwf _]. rewrite list.Forall_forall in *. intros m Hm.
      specialize (Hok m Hm). specialize (Hcok m Hm). specialize (Hwf m Hm). simpl in *. bools.
      split_and!; auto. apply Z.mod_divide; [|done]. pose proof (pow2_pos _ (wf_alignment_pow2 _ Hwf)). lia.
  - simpl in Hcok. bools. subst c. unfold sizeof_ptr in *.
    eapply restores_ext; [|apply (bytes_restores 8 8 0 8 8); lia].
    intros. unfold bytes_copy. by rewrite Z.add_0_r.
Qed.

(** * The data of a type

    Independently of how it is copied, the data of a type is the bytes of its
    leaves: (offset, length) in the sparse buffer. *)
Definition at_offset (o : Z) (l : list (Z * Z)) : list (Z * Z) := map (fun '(o0, n) => (o + o0, n)) l.

Fixpoint leaves (t : Datatype) : list (Z * Z) :=
  match t with
  | Scalar_datatype _ _ _ _ _ _ _ | Pointer_datatype _ _ _ _ => [(0, datasize t)]
  | Array_datatype _ sub _ st ss =>
      flat_map (fun k => at_offset ((st + k) * buffersize sub) (leaves sub)) (seqZ 0 ss)
  | Record_datatype _ ms _ => flat_map (fun m => at_offset (member_displacement m) (leaves (member_type m))) ms
  | Tuple_datatype _ es _ => flat_map (fun e => at_offset (element_offset e) (leaves (element_type e))) es
  end.

(** The elements an array copies in one block have no byte outside their data:
    the block is sized by their data. *)
Fixpoint lossless (t : Datatype) : bool :=
  match t with
  | Scalar_datatype _ _ _ _ _ _ _ | Pointer_datatype _ _ _ _ => true
  | Array_datatype _ sub _ _ _ => lossless sub && (negb (fast sub) || (datasize sub =? buffersize sub))
  | Record_datatype _ ms _ => forallb (fun m => lossless (member_type m)) ms
  | Tuple_datatype _ es _ => forallb (fun e => lossless (element_type e)) es
  end.

(** [x] is a byte of a leaf; [x] is transferred by a move. *)
Definition in_leaves (x : Z) (l : list (Z * Z)) : Prop := exists o n, (o, n) ∈ l /\ o <= x < o + n.
Definition in_moves (x : Z) (mv : list move) : Prop := exists s d n, (s, d, n) ∈ mv /\ s <= x < s + n.

Lemma in_at_offset x o l : in_leaves x (at_offset o l) <-> in_leaves (x - o) l.
Proof.
  unfold in_leaves, at_offset. split.
  - intros (o' & n & ([o0 n0] & [= -> ->] & Hin)%list_elem_of_fmap & Hx). exists o0, n0. split; [done|lia].
  - intros (o' & n & Hin & Hx). exists (o + o'), n. split; [|lia]. apply list_elem_of_fmap. by exists (o', n).
Qed.

Lemma in_shift x s d mv : in_moves (x - s) mv -> in_moves x (shift s d mv).
Proof.
  intros (s' & d' & n & Hin & Hx). exists (s + s'), (d + d'), n. split; [|lia].
  apply list_elem_of_fmap. by exists (s', d', n).
Qed.

Lemma in_flat_map {A} (f : A -> list (Z * Z)) x l :
  in_leaves x (flat_map f l) <-> exists a, a ∈ l /\ in_leaves x (f a).
Proof.
  unfold in_leaves. split.
  - intros (o & n & Hin & Hx). apply list_elem_of_In, List.in_flat_map in Hin as (a & Ha & Hin).
    apply list_elem_of_In in Ha, Hin. eauto 10.
  - intros (a & Ha & o & n & Hin & Hx). exists o, n. split; [|done].
    apply list_elem_of_In, List.in_flat_map. exists a. by rewrite <- !list_elem_of_In.
Qed.

Lemma in_place_moves {M} (al offset adv : M -> Z) mv d ms mb x :
  mb ∈ ms -> in_moves (x - offset mb) (mv mb) -> in_moves x (place_moves al offset adv mv d ms).
Proof.
  intros Hmb Hx. revert d. induction ms as [|mb' ms IH]; intros d; simpl; [by apply not_elem_of_nil in Hmb|].
  apply elem_of_cons in Hmb as [->|Hmb].
  - destruct (in_shift x (offset mb') (align_up (al mb') d) (mv mb') Hx) as (s & d' & n & Hin & ?).
    exists s, d', n. split; [|done]. apply elem_of_app. by left.
  - destruct (IH Hmb (align_up (al mb') d + adv mb')) as (s & d' & n & Hin & ?).
    exists s, d', n. split; [|done]. apply elem_of_app. by right.
Qed.

(** The data lies inside the buffer. *)
Lemma leaves_bounds t x : copy_ok t = true -> in_leaves x (leaves t) -> 0 <= x < buffersize t.
Proof.
  revert x. induction t as [a k s al ds c d|a t s st ss IH|a ms b IH|a es b IH|a t c d IH] using Datatype_nested_ind;
    intros x Hok Hx; assert (Hwf := copy_ok_wf _ Hok).
  - destruct Hx as (o & n & Hin & Hx). apply list_elem_of_singleton in Hin. simpl in *. bools. simplify_eq.
    unfold is_size in *. lia.
  - simpl in Hok, Hwf, Hx |- *. bools. apply in_flat_map in Hx as (k & Hk & Hx). apply elem_of_seqZ in Hk.
    apply in_at_offset in Hx. apply IH in Hx; [|done]. unfold is_size in *.
    rewrite size_mul_small by (unfold is_size; lia). nia.
  - apply andb_true_iff in Hok as [_ Hok]. simpl in Hx |- *. bools. apply in_flat_map in Hx as (m & Hm & Hx).
    rewrite list.Forall_forall in *. specialize (Hok m Hm). simpl in Hok. bools.
    apply in_at_offset in Hx. apply IH in Hx; [|done..]. lia.
  - apply andb_true_iff in Hok as [_ Hok]. simpl in Hx |- *. bools. apply in_flat_map in Hx as (m & Hm & Hx).
    rewrite list.Forall_forall in *. specialize (Hok m Hm). simpl in Hok. bools.
    apply in_at_offset in Hx. apply IH in Hx; [|done..]. lia.
  - destruct Hx as (o & n & Hin & Hx). apply list_elem_of_singleton in Hin. simpl in *. simplify_eq. lia.
Qed.

Lemma composite_covered {M} (offset : M -> Z) (type : M -> Datatype) ms b (isfast : bool) x :
  (in_leaves x (flat_map (fun m => at_offset (offset m) (leaves (type m))) ms) -> 0 <= x < b) ->
  Forall (fun m => forall x, in_leaves x (leaves (type m)) -> in_moves x (moves (type m))) ms ->
  in_leaves x (flat_map (fun m => at_offset (offset m) (leaves (type m))) ms) ->
  in_moves x (if isfast then [(0, 0, b)]
     else place_moves (fun m => alignment (type m)) offset (fun m => advance (type m)) (fun m => moves (type m)) 0 ms).
Proof.
  intros Hb IH Hx. destruct isfast.
  - exists 0, 0, b. split; [by apply list_elem_of_singleton|]. by apply Hb.
  - apply in_flat_map in Hx as (m & Hm & Hx). apply in_at_offset in Hx.
    rewrite list.Forall_forall in IH. eapply in_place_moves; eauto.
Qed.

(** Every byte of the data is transferred. *)
Lemma leaves_covered t x :
  copy_ok t = true -> lossless t = true -> in_leaves x (leaves t) -> in_moves x (moves t).
Proof.
  revert x. induction t as [a k s al ds c d|a t s st ss IH|a ms b IH|a es b IH|a t c d IH] using Datatype_nested_ind;
    intros x Hok Hl Hx; assert (Hbound := fun x => leaves_bounds _ x Hok); assert (Hwf := copy_ok_wf _ Hok).
  - destruct Hx as (o & n & Hin & Hx). apply list_elem_of_singleton in Hin. simpl in *. simplify_eq.
    exists 0, 0, s. split; [by apply list_elem_of_singleton|done].
  - simpl in Hok, Hwf, Hl, Hx |- *. bools. apply in_flat_map in Hx as (k & Hk & Hx). apply elem_of_seqZ in Hk.
    apply in_at_offset in Hx. destruct (fast t) eqn:Hfast; simpl in *; bools.
    + apply leaves_bounds in Hx; [|done]. pose proof (buffersize_is_size t ltac:(done)) as Hb. unfold is_size in *.
      assert ((st + ss) * buffersize t <= s * buffersize t) by (apply Z.mul_le_mono_nonneg_r; lia).
      replace (datasize t) with (buffersize t). rewrite size_mul_small by (unfold is_size; nia).
      exists (st * buffersize t), 0, (ss * buffersize t). split; [by apply list_elem_of_singleton|]. nia.
    + apply in_shift. eapply in_place_moves with (mb := k); [apply elem_of_seqZ; lia|]. apply IH; [done..|].
      by replace (x - st * buffersize t - k * buffersize t) with (x - (st + k) * buffersize t) by lia.
  - apply andb_true_iff in Hok as [_ Hok]. cbn [leaves moves buffersize] in *. simpl in Hl. bools.
    apply composite_covered; [apply Hbound| |done].
    rewrite list.Forall_forall in *. intros m Hm y. specialize (Hok m Hm). simpl in Hok. bools. by apply IH; auto.
  - apply andb_true_iff in Hok as [_ Hok]. cbn [leaves moves buffersize] in *. simpl in Hl. bools.
    apply composite_covered; [apply Hbound| |done].
    rewrite list.Forall_forall in *. intros m Hm y. specialize (Hok m Hm). simpl in Hok. bools. by apply IH; auto.
  - destruct Hx as (o & n & Hin & Hx). apply list_elem_of_singleton in Hin. simpl in *. simplify_eq.
    exists 0, 0, sizeof_ptr. split; [by apply list_elem_of_singleton|done].
Qed.

(** * Theorems *)

(** Going to the dense form and back, in terms of the data. *)
Lemma round_trip rc t m dst src back :
  rt_ok t = true -> lossless t = true ->
  (alignment t | dst) -> (alignment t | back) ->
  allocated m src (buffersize t) -> allocated m dst (packed_size t) -> allocated m back (buffersize t) ->
  disjoint_ranges dst (packed_size t) src (buffersize t) ->
  disjoint_ranges back (buffersize t) dst (packed_size t) ->
  exists m1 r1 m2 r2,
    data_to_dense_copy rc t m dst src = Ret (m1, r1) /\ data_from_dense_copy rc t m1 back dst = Ret (m2, r2) /\
    frame m m1 dst (packed_size t) /\ frame m1 m2 back (buffersize t) /\
    forall x, in_leaves x (leaves t) -> m2 !! (back + x) = m !! (src + x).
Proof.
  intros Hrt Hl Hdst Hback Hsrc Hadst Haback Hdis1 Hdis2. pose proof (rt_ok_copy_ok _ Hrt) as Hok.
  destruct (to_dense_copies rc t Hok) as [Hadv Hin Hrun].
  destruct (Hrun m dst src) as (m1 & Hr1 & Hsa1 & Hf1 & Hm1); [done..|].
  destruct (from_dense_restores rc t Hrt m1 back dst (fun o => m !! (src + o))) as (m2 & r2 & Hr2 & _ & Hres & Hcon); try done.
  - by rewrite <- Hsa1.
  - rewrite <- Hsa1. eapply allocated_sub; [exact Hadst|lia..].
  - eapply disjoint_sub; [exact Hdis2|lia..].
  - eapply list.Forall_impl; [exact Hm1|]. intros [[s d] n] Hmv i Hi. rewrite Hmv by done. f_equal. lia.
  - exists m1, (dst + advance t), m2, r2. split_and!; [done..|by eapply consistent_frame|].
    intros x Hx. destruct (leaves_covered t x Hok Hl Hx) as (s & d & n & Hmv & Hsx).
    unfold restored in Hres. rewrite list.Forall_forall in Hres. specialize (Hres _ Hmv (x - s)). simpl in Hres.
    replace (back + s + (x - s)) with (back + x) in Hres by lia. replace (s + (x - s)) with x in Hres by lia.
    apply Hres. lia.
Qed.

(** C1: let a type be well formed and without copy functions, its components inside
    their buffer, at multiples of alignments of at most 2^31 (the code keeps a padding
    in an [int]) and with a dense form that takes just the size of their data, its
    arrays shorter than 2^31 ([rt_ok]), and let the elements that an array copies in one
    block have no padding inside ([lossless]).  Then copying data of this type to its
    dense form and back to another buffer succeeds, writes nothing outside the dense
    buffer and the destination, and restores every byte of the data, whatever was in
    the buffers; the buffers are allocated and aligned, and the dense one is apart from
    the two others. *)
Theorem dense_copy_round_trip rc t m dst src back :
  rt_ok t = true -> lossless t = true ->
  (alignment t | dst) -> (alignment t | back) ->
  allocated m src (buffersize t) -> allocated m dst (packed_size t) -> allocated m back (buffersize t) ->
  disjoint_ranges dst (packed_size t) src (buffersize t) ->
  disjoint_ranges back (buffersize t) dst (packed_size t) ->
  exists m1 r1 m2 r2,
    data_to_dense_copy rc t m dst src = Ret (m1, r1) /\ data_from_dense_copy rc t m1 back dst = Ret (m2, r2) /\
    frame m m1 dst (packed_size t) /\ frame m1 m2 back (buffersize t) /\
    forall x, in_leaves x (leaves t) -> m2 !! (back + x) = m !! (src + x).
Proof. apply round_trip. Qed.

(** A character, then the middle two of four integers, in a padded record. *)
Definition sample_record : Datatype :=
  Record_datatype []
    [mkMember 0 (Scalar_datatype [] UNSIGNED 1 1 1 None None) "c";
     mkMember 8 (Array_datatype [] (Scalar_datatype [] SIGNED 4 4 4 None None) 4 1 2) "a"] 32.

Definition sample_memory : mem :=
  bytes_at 64 (seqZ 1 32) ∪ bytes_at 128 (replicate 12 0) ∪ bytes_at 256 (replicate 32 0).

Lemma dense_copy_round_trip_witness :
  rt_ok sample_record = true /\
  exists m1 r1 m2 r2,
    data_to_dense_copy (fun _ _ _ _ => Crash) sample_record sample_memory 128 64 = Ret (m1, r1) /\
    data_from_dense_copy (fun _ _ _ _ => Crash) sample_record m1 256 128 = Ret (m2, r2) /\
    frame sample_memory m1 128 12 /\ frame m1 m2 256 32 /\
    forall x, in_leaves x (leaves sample_record) -> m2 !! (256 + x) = sample_memory !! (64 + x).
Proof.
  split; [by vm_compute|].
  apply (dense_copy_round_trip (fun _ _ _ _ => Crash) sample_record sample_memory 128 64 256).
  - by vm_compute.
  - by vm_compute.
  - by exists 32.
  - by exists 64.
  - apply allocatedb_ok. by vm_compute.
  - apply allocatedb_ok. by vm_compute.
  - apply allocatedb_ok. by vm_compute.
  - right. by vm_compute.
  - right. by vm_compute.
Defined.

(** C11: [data_to_dense_copy] refines its specification: it never fails nor
    accesses a byte outside the two buffers, leaves everything outside the
    dense buffer unchanged, performs exactly the moves of the type and returns
    the address after the last byte it wrote. *)
Theorem to_dense_copy_refines rc t m to from :
  copy_ok t = true -> (alignment t | to) ->
  allocated m from (buffersize t) -> allocated m to (packed_size t) ->
  disjoint_ranges to (packed_size t) from (buffersize t) ->
  exists m', data_to_dense_copy rc t m to from = Ret (m', to + advance t) /\ 0 <= advance t <= packed_size t /\
    frame m m' to (packed_size t) /\ moves_in (buffersize t) (advance t) (moves t) /\ moved m m' to from (moves t).
Proof.
  intros Hok ? ? ? ?. destruct (to_dense_copies rc t Hok) as [Hadv Hin Hrun].
  destruct (Hrun m to from) as (m' & ? & _ & ? & ?); [done..|]. exists m'. split_and!; (done || lia).
Qed.

Lemma to_dense_copy_refines_witness :
  moves sample_record = [(0, 0, 1); (12, 4, 8)] /\
  exists m', data_to_dense_copy (fun _ _ _ _ => Crash) sample_record sample_memory 128 64 = Ret (m', 128 + 12) /\
    0 <= 12 <= 12 /\ frame sample_memory m' 128 12 /\
    moves_in 32 12 [(0, 0, 1); (12, 4, 8)] /\ moved sample_memory m' 128 64 [(0, 0, 1); (12, 4, 8)].
Proof.
  split; [by vm_compute|].
  apply (to_dense_copy_refines (fun _ _ _ _ => Crash) sample_record sample_memory 128 64).
  - by vm_compute.
  - by exists 32.
  - apply allocatedb_ok. by vm_compute.
  - apply allocatedb_ok. by vm_compute.
  - right. by vm_compute.
Defined.

(** Two records of a character and an integer, without any extra padding. *)
Definition padded_record : Datatype :=
  Record_datatype []
    [mkMember 0 (Scalar_datatype [] UNSIGNED 1 1 1 None None) "c";
     mkMember 4 (Scalar_datatype [] SIGNED 4 4 4 None None) "i"] 8.

Definition padded_array : Datatype := make_array padded_record 2 [].

Definition padded_array_memory : mem := bytes_at 64 (seqZ 1 16) ∪ bytes_at 128 (replicate 16 0).

(** C40: an array of simple dense elements is copied to its dense form as one
    block of [datasize] bytes, which leaves out the padding inside the elements:
    when the elements have some, every byte of the data beyond that block is
    lost.  The copy returns the end of the block, changes nothing after it, and
    gives the same dense form whatever that byte of the data is. *)
Theorem padded_elements_lose_data rc a sub s st ss m to from x v :
  let t := Array_datatype a sub s st ss in
  copy_ok t = true -> fast sub = true -> datasize sub < buffersize sub ->
  allocated m from (buffersize t) -> allocated m to (datasize t) ->
  disjoint_ranges to (datasize t) from (buffersize t) ->
  in_leaves x (leaves t) -> st * buffersize sub + datasize t <= x ->
  exists m', data_to_dense_copy rc t m to from = Ret (m', to + datasize t) /\
    datasize t = ss * datasize sub /\ frame m m' to (datasize t) /\
    data_to_dense_copy rc t (<[from + x := v]> m) to from = Ret (<[from + x := v]> m', to + datasize t).
Proof.
  intros t Hok Hfast Hpad Hfrom Hto Hdis Hx Hlate.
  destruct (leaves_bounds t x Hok Hx) as [_ Hxb].
  assert (Hwf := copy_ok_wf _ Hok). subst t. simpl in Hok, Hwf, Hfrom, Hto, Hdis, Hxb, Hlate |- *. bools.
  pose proof (buffersize_is_size sub ltac:(done)) as Hb. pose proof (datasize_is_size sub ltac:(done)) as Hd.
  unfold is_size in *.
  assert ((st + ss) * buffersize sub <= s * buffersize sub) by (apply Z.mul_le_mono_nonneg_r; lia).
  assert (ss * datasize sub <= ss * buffersize sub) by (apply Z.mul_le_mono_nonneg_l; lia).
  assert (0 <= ss * datasize sub /\ 0 <= st * buffersize sub) by nia.
  rewrite simple_and_dense_fast, Hfast by done. simpl.
  rewrite (size_mul_small s), (size_mul_small ss), (size_mul_small st) in * by (unfold is_size; lia).
  assert (Hsrc : allocated m (from + st * buffersize sub) (ss * datasize sub)) by (eapply allocated_sub; [exact Hfrom|lia..]).
  assert (Hd' : disjoint_ranges to (ss * datasize sub) (from + st * buffersize sub) (ss * datasize sub))
    by (eapply disjoint_sub; [exact Hdis|lia..]).
  destruct (memcpy_ok m to (from + st * buffersize sub) (ss * datasize sub)) as (m' & Hm' & _ & Hf & _); [lia|done..|].
  exists m'. unfold bytes_copy. rewrite Hm'. simpl. split_and!; [done..|].
  rewrite (memcpy_other m to _ _ (from + x) v m') by (done || lia || (unfold disjoint_ranges in Hdis; lia)). done.
Qed.

Lemma padded_elements_lose_data_witness :
  in_leaves 12 (leaves padded_array) /\
  exists m', data_to_dense_copy (fun _ _ _ _ => Crash) padded_array padded_array_memory 128 64 = Ret (m', 128 + 10) /\
    10 = 2 * 5 /\ frame padded_array_memory m' 128 10 /\
    data_to_dense_copy (fun _ _ _ _ => Crash) padded_array (<[64 + 12 := 0]> padded_array_memory) 128 64
    = Ret (<[64 + 12 := 0]> m', 128 + 10).
Proof.
  assert (Hleaf : in_leaves 12 (leaves padded_array)).
  { exists 12, 4. split; [|lia]. apply list_elem_of_In. by repeat ((left; reflexivity) || right). }
  split; [exact Hleaf|].
  apply (padded_elements_lose_data (fun _ _ _ _ => Crash) [] padded_record 2 0 2 padded_array_memory 128 64 12 0).
  - by vm_compute.
  - by vm_compute.
  - by vm_compute.
  - apply allocatedb_ok. by vm_compute.
  - apply allocatedb_ok. by vm_compute.
  - right. by vm_compute.
  - exact Hleaf.
  - by vm_compute.
Defined.
