(* ===== verification/Access.v ===== *)
(** Access to the components of a type and of its data.

    Models [index], [slice], [member], [dereference] of every datatype class,
    each in its two forms (on a type, and on a type with the address of its
    data), and [debug_string], which the error messages of the base class
    [Datatype] embed. *)

From S2P Require Import Prelude Error ExprSyntax Datatype Layout Memory DenseCopy DenseCopyFacts.

(** * Textual description *)

Definition tab : string := String (Ascii.ascii_of_nat 9) EmptyString.
Definition endl : string := newline.

(** [regex_replace(s, regex("\n"), by)] *)
Fixpoint replace_newlines (by_ s : string) : string :=
  match s with
  | EmptyString => EmptyString
  | String c s =>
      (if bool_decide (String c EmptyString = newline) then by_ else String c EmptyString) +:+ replace_newlines by_ s
  end.

Definition bool_string (b : bool) : string := if b then "true" else "false".

Definition kind_string (k : Scalar_kind) : string :=
  match k with UNKNOWN => "unknown" | SIGNED => "signed" | UNSIGNED => "unsigned" | FLOAT => "float" end.

(** The names of the attributes, in the order of the map. *)
Fixpoint attribute_names (a : Attributes_map) : string :=
  match a with
  | [] => ""
  | [(k, _)] => tab +:+ k
  | (k, _) :: a => tab +:+ k +:+ ", " +:+ attribute_names a
  end.

Definition attributes_string (a : Attributes_map) : string :=
  match a with [] => "" | _ => endl +:+ "attributes: " +:+ endl +:+ attribute_names a end.

(** The lines every class starts with. *)
Definition header_string (t : Datatype) (is_dense : bool) : string :=
  "dense: " +:+ bool_string is_dense +:+ endl +:+
  "buffersize: " +:+ pretty (buffersize t) +:+ endl +:+
  "datasize: " +:+ pretty (datasize t) +:+ endl +:+
  "alignment: " +:+ pretty (alignment t).

(** The members of a record and the elements of a tuple, one after the other. *)
Definition strings_of {X} (line : X -> outcome string) : list X -> outcome string :=
  fix go l := match l with [] => Ret "" | x :: l => s ← line x; r ← go l; Ret (s +:+ r) end.

Definition scalar_debug_string (t : Datatype) (a : Attributes_map) (k : Scalar_kind) : outcome string :=
  d ← dense t;
  Ret ("type: scalar" +:+ endl +:+ "kind: " +:+ kind_string k +:+ endl +:+ header_string t d +:+ attributes_string a).

Definition array_debug_string (debug_string : Datatype -> outcome string) (t : Datatype) (a : Attributes_map) (sub : Datatype)
    (size start subsize : Z) : outcome string :=
  s ← debug_string sub;
  d ← dense t;
  Ret ("type: array" +:+ endl +:+ header_string t d +:+ endl +:+
       "size: " +:+ pretty size +:+ endl +:+ "start: " +:+ pretty start +:+ endl +:+
       "subsize: " +:+ pretty subsize +:+ endl +:+ "subtype: " +:+ endl +:+
       tab +:+ replace_newlines (newline +:+ tab) s +:+ attributes_string a).

Definition record_debug_string (debug_string : Datatype -> outcome string) (t : Datatype) (a : Attributes_map) (ms : list (Member Datatype)) :
    outcome string :=
  d ← dense t;
  ss ← strings_of (fun m =>
         s ← debug_string (member_type m);
         Ret (endl +:+ tab +:+ " - name: " +:+ member_name m +:+ endl +:+
              tab +:+ "   displacement: " +:+ pretty (member_displacement m) +:+ endl +:+
              tab +:+ "   type: " +:+ endl +:+ tab +:+ tab +:+ replace_newlines (newline +:+ tab +:+ tab) s)) ms;
  Ret ("type: record" +:+ endl +:+ header_string t d +:+ endl +:+ "members: " +:+ ss +:+ attributes_string a).

Definition tuple_debug_string (debug_string : Datatype -> outcome string) (t : Datatype) (a : Attributes_map) (es : list (Element Datatype)) :
    outcome string :=
  d ← dense t;
  ss ← strings_of (fun e =>
         s ← debug_string (element_type e);
         Ret (endl +:+ tab +:+ "   displacement: " +:+ pretty (element_offset e) +:+ endl +:+
              tab +:+ "   type: " +:+ endl +:+ tab +:+ tab +:+ replace_newlines (newline +:+ tab +:+ tab) s)) es;
  Ret ("type: tuple" +:+ endl +:+ header_string t d +:+ endl +:+ "elements: " +:+ ss +:+ attributes_string a).

Definition pointer_debug_string (debug_string : Datatype -> outcome string) (t : Datatype) (a : Attributes_map) (sub : Datatype) : outcome string :=
  d ← dense t;
  s ← debug_string sub;
  Ret ("type: pointer" +:+ endl +:+ header_string t d +:+ endl +:+ "subtype: " +:+ endl +:+ s +:+ attributes_string a).

Fixpoint debug_string (t : Datatype) : outcome string :=
  match t with
  | Scalar_datatype a k _ _ _ _ _ => scalar_debug_string t a k
  | Array_datatype a sub size start subsize => array_debug_string debug_string t a sub size start subsize
  | Record_datatype a ms _ => record_debug_string debug_string t a ms
  | Tuple_datatype a es _ => tuple_debug_string debug_string t a es
  | Pointer_datatype a sub _ _ => pointer_debug_string debug_string t a sub
  end.

(** * Access to a component *)

(** The [Type_error]s of the base class. *)
Definition no_access {A} (what : string) (t : Datatype) : outcome A :=
  s ← debug_string t; Throw (Type_error (what +:+ s)).

Definition no_index {A} (t : Datatype) : outcome A := no_access "unable to access element by index in " t.
Definition no_slice {A} (t : Datatype) : outcome A := no_access "unable to access slice in " t.
Definition no_member {A} (t : Datatype) : outcome A := no_access "unable to access member in " t.
Definition no_dereference {A} (t : Datatype) : outcome A := no_access "unable to dereference " t.

Definition out_of_range {A} (what : string) (i n : Z) : outcome A :=
  Throw (Value_error ("Subaccess " +:+ what +:+ " index out of range: " +:+ pretty i +:+ " >= " +:+ pretty n)).

Definition slice_out_of_range {A} (what : string) (start_index end_index n : Z) : outcome A :=
  Throw (Value_error ("Subaccess " +:+ what +:+ " slice out of range: [" +:+ pretty start_index +:+ ":" +:+
                      pretty end_index +:+ "] > " +:+ pretty n)).

(** [v[i]]: undefined out of bounds. *)
Definition vector_at {A} (v : list A) (i : Z) : outcome A :=
  if i <? 0 then Crash else match v !! Z.to_nat i with Some x => Ret x | None => Crash end.

(** [v.size()] *)
Definition vsize {A} (v : list A) : Z := Z.of_nat (length v).

Definition array_index (m_subtype : Datatype) (m_subsize i : Z) : outcome Datatype :=
  if i <? m_subsize then Ret m_subtype else out_of_range "array" i m_subsize.

Definition tuple_index (m_elements : list (Element Datatype)) (i : Z) : outcome Datatype :=
  if i <? vsize m_elements then e ← vector_at m_elements i; Ret (element_type e) else out_of_range "tuple" i (vsize m_elements).

Arguments array_index m_subtype m_subsize i /.
Arguments tuple_index m_elements i /.

Fixpoint index (t : Datatype) (i : Z) : outcome Datatype :=
  match t with
  | Array_datatype _ m_subtype _ _ m_subsize => array_index m_subtype m_subsize i
  | Tuple_datatype _ m_elements _ => tuple_index m_elements i
  | Pointer_datatype _ m_subtype _ _ => index m_subtype i
  | Scalar_datatype _ _ _ _ _ _ _ | Record_datatype _ _ _ => no_index t
  end.

Definition array_index_data (m_subtype : Datatype) (m_start m_subsize i data : Z) : outcome (Z * Datatype) :=
  if i <? m_subsize then Ret (data + (buffersize m_subtype *s (m_start +s i)), m_subtype) else out_of_range "array" i m_subsize.

Definition tuple_index_data (m_elements : list (Element Datatype)) (i data : Z) : outcome (Z * Datatype) :=
  if i <? vsize m_elements then e ← vector_at m_elements i; Ret (data + element_offset e, element_type e)
  else out_of_range "tuple" i (vsize m_elements).

Arguments array_index_data m_subtype m_start m_subsize i data /.
Arguments tuple_index_data m_elements i data /.

Fixpoint index_data (t : Datatype) (i : Z) (m : mem) (data : Z) : outcome (Z * Datatype) :=
  match t with
  | Array_datatype _ m_subtype _ m_start m_subsize => array_index_data m_subtype m_start m_subsize i data
  | Tuple_datatype _ m_elements _ => tuple_index_data m_elements i data
  | Pointer_datatype _ m_subtype _ _ => data ← load_pointer m data; index_data m_subtype i m data
  | Scalar_datatype _ _ _ _ _ _ _ | Record_datatype _ _ _ => no_index t
  end.

(** The loop of [Tuple_datatype::slice]: [i] from [start_index] up. *)
Fixpoint slice_elements (es : list (Element Datatype)) (start_index : Z) (n : nat) (i : Z) :
    outcome (list (Element Datatype)) :=
  match n with
  | O => Ret []
  | S n =>
      e ← vector_at es i;
      s ← vector_at es start_index;
      r ← slice_elements es start_index n (i + 1);
      Ret (mkElement (element_offset e -s element_offset s) (element_type e) :: r)
  end.

Definition array_slice (m_subtype : Datatype) (m_subsize start_index end_index : Z) : outcome Datatype :=
  if end_index <=? m_subsize then Ret (make_array m_subtype (end_index -s start_index) [])
  else slice_out_of_range "array" start_index end_index m_subsize.

Definition tuple_slice (m_elements : list (Element Datatype)) (m_buffersize start_index end_index : Z) : outcome Datatype :=
  if end_index <=? vsize m_elements then
    new_elements ← slice_elements m_elements start_index (Z.to_nat (end_index - start_index)) start_index;
    new_buffersize ←
      (if end_index =? vsize m_elements then
         s ← vector_at m_elements start_index; Ret (m_buffersize -s element_offset s)
       else
         e ← vector_at m_elements (end_index +s 1);
         s ← vector_at m_elements start_index;
         Ret (element_offset e -s element_offset s));
    Ret (Tuple_datatype [] new_elements new_buffersize)
  else slice_out_of_range "tuple" start_index end_index (vsize m_elements).

Arguments array_slice m_subtype m_subsize start_index end_index /.
Arguments tuple_slice m_elements m_buffersize start_index end_index /.

Fixpoint slice (t : Datatype) (start_index end_index : Z) : outcome Datatype :=
  match t with
  | Array_datatype _ m_subtype _ _ m_subsize => array_slice m_subtype m_subsize start_index end_index
  | Tuple_datatype _ m_elements m_buffersize => tuple_slice m_elements m_buffersize start_index end_index
  | Pointer_datatype _ m_subtype _ _ => slice m_subtype start_index end_index
  | Scalar_datatype _ _ _ _ _ _ _ | Record_datatype _ _ _ => no_slice t
  end.

Fixpoint slice_data (t : Datatype) (start_index end_index : Z) (m : mem) (data : Z) : outcome (Z * Datatype) :=
  match t with
  | Array_datatype _ m_subtype _ m_start _ =>
      let data := data + (buffersize m_subtype *s (m_start +s start_index)) in
      t' ← slice t start_index end_index; Ret (data, t')
  | Tuple_datatype _ m_elements _ =>
      s ← vector_at m_elements start_index;
      t' ← slice t start_index end_index; Ret (data + element_offset s, t')
  | Pointer_datatype _ m_subtype _ _ => data ← load_pointer m data; slice_data m_subtype start_index end_index m data
  | Scalar_datatype _ _ _ _ _ _ _ | Record_datatype _ _ _ => no_slice t
  end.

(** [find_if] on the names of the members. *)
Definition find_member (ms : list (Member Datatype)) (name : string) : outcome (Member Datatype) :=
  match list_find (fun m => name = member_name m) ms with
  | Some (_, m) => Ret m
  | None => Throw (Value_error ("Record subaccess error: no member named " +:+ name))
  end.

Fixpoint member (t : Datatype) (name : string) : outcome Datatype :=
  match t with
  | Record_datatype _ ms _ => m ← find_member ms name; Ret (member_type m)
  | Pointer_datatype _ sub _ _ => member sub name
  | _ => no_member t
  end.

Fixpoint member_data (t : Datatype) (name : string) (m : mem) (data : Z) : outcome (Z * Datatype) :=
  match t with
  | Record_datatype _ ms _ => mb ← find_member ms name; Ret (data + member_displacement mb, member_type mb)
  | Pointer_datatype _ sub _ _ => data ← load_pointer m data; member_data sub name m data
  | _ => no_member t
  end.

Definition dereference (t : Datatype) : outcome Datatype :=
  match t with Pointer_datatype _ sub _ _ => Ret sub | _ => no_dereference t end.

Definition dereference_data (t : Datatype) (m : mem) (data : Z) : outcome (Z * Datatype) :=
  match t with
  | Pointer_datatype _ sub _ _ => data ← load_pointer m data; Ret (data, sub)
  | _ => no_dereference t
  end.

(** * Lemmas *)

Lemma Forall_and_impl {X} (P Q R : X -> Prop) l : Forall P l -> Forall Q l -> (forall x, P x -> Q x -> R x) -> Forall R l.
Proof. intros HP HQ HR. induction HP; inversion HQ; subst; constructor; auto. Qed.

Lemma strings_of_Ret {X} (line : X -> outcome string) l : Forall (fun x => exists s, line x = Ret s) l -> exists s, strings_of line l = Ret s.
Proof. induction 1 as [|x l [s Hx] _ [r Hr]]; simpl; [by eexists|]. rewrite Hx. simpl. rewrite Hr. simpl. by eexists. Qed.

Lemma debug_string_Ret t : wf_layout t = true -> exists s, debug_string t = Ret s.
Proof.
  induction t as [a k s al ds c d|a t s st ss IH|a ms b IH|a es b IH|a t c d IH] using Datatype_nested_ind;
    intros Hwf; destruct (dense_Ret _ Hwf) as [b' Hd]; cbn [debug_string].
  - unfold scalar_debug_string. rewrite Hd. by eexists.
  - unfold array_debug_string. rewrite Hd. simpl in Hwf. bools. destruct IH as [str ->]; [done|]. by eexists.
  - unfold record_debug_string. rewrite Hd. simpl. apply wf_record in Hwf as [[Hwf _] _].
    match goal with |- context [strings_of ?f ms] => destruct (strings_of_Ret f ms) as [str ->]; [|by eexists] end. eapply Forall_and_impl; [exact IH|exact Hwf|].
    intros m Hm Hm'. destruct (Hm Hm') as [s ->]. by eexists.
  - unfold tuple_debug_string. rewrite Hd. simpl. apply wf_tuple in Hwf as [[Hwf _] _].
    match goal with |- context [strings_of ?f es] => destruct (strings_of_Ret f es) as [str ->]; [|by eexists] end. eapply Forall_and_impl; [exact IH|exact Hwf|].
    intros m Hm Hm'. destruct (Hm Hm') as [s ->]. by eexists.
  - unfold pointer_debug_string. rewrite Hd. simpl in *. destruct IH as [str ->]; [done|]. by eexists.
Qed.

(** A normal return, or an exception of one of the two classes. *)
Definition value_or_type_error {A} (r : outcome A) : Prop :=
  (exists x, r = Ret x) \/
  (exists e, r = Throw e /\ (status e = Some PDI_ERR_VALUE \/ status e = Some PDI_ERR_TYPE)).

Lemma no_access_error {A} w t : wf_layout t = true -> value_or_type_error (no_access (A := A) w t).
Proof.
  intros [s Hs]%debug_string_Ret. right. unfold no_access. rewrite Hs. simpl. eexists. split; [done|]. by right.
Qed.

Lemma vector_at_ok {A} (v : list A) i : 0 <= i < vsize v -> exists x, vector_at v i = Ret x /\ v !! Z.to_nat i = Some x.
Proof.
  unfold vector_at, vsize. intros Hi. destruct (Z.ltb_spec i 0); [lia|].
  destruct (lookup_lt_is_Some_2 v (Z.to_nat i)) as [x Hx]; [lia|]. rewrite Hx. by exists x.
Qed.

Lemma index_error t i : wf_layout t = true -> 0 <= i -> value_or_type_error (index t i).
Proof.
  induction t as [a k s al ds c d|a t s st ss IH|a ms b IH|a es b IH|a t c d IH] using Datatype_nested_ind;
    intros Hwf Hi; try (by apply no_access_error).
  - simpl. destruct (i <? ss); [left; by eexists|right; eexists; split; [done|by left]].
  - simpl. destruct (Z.ltb_spec i (vsize es)).
    + destruct (vector_at_ok es i ltac:(lia)) as (e & -> & _). left. by eexists.
    + right; eexists; split; [done|by left].
  - by apply IH.
Qed.

Lemma member_error t n : wf_layout t = true -> value_or_type_error (member t n).
Proof.
  induction t as [a k s al ds c d|a t s st ss IH|a ms b IH|a es b IH|a t c d IH] using Datatype_nested_ind;
    intros Hwf; try (by apply no_access_error).
  - simpl. unfold find_member. destruct (list_find _ _) as [[? ?]|]; simpl; [left; by eexists|].
    right. eexists. split; [done|by left].
  - by apply IH.
Qed.

Lemma dereference_error t : wf_layout t = true -> value_or_type_error (dereference t).
Proof. destruct t; intros Hwf; try (by apply no_access_error). left. by eexists. Qed.

Lemma index_data_index t i m p q t' : index_data t i m p = Ret (q, t') -> index t i = Ret t'.
Proof.
  revert p. induction t as [a k s al ds c d|a t s st ss IH|a ms b IH|a es b IH|a t c d IH] using Datatype_nested_ind;
    intros p; simpl; unfold no_index, no_access, out_of_range; intros H; try (by inv_ret).
  - destruct (i <? ss); by inv_ret.
  - destruct (i <? vsize es); [|done]. destruct (vector_at es i); simpl in *; congruence.
  - inv_ret. by eapply IH.
Qed.

Lemma slice_data_slice t a b m p q t' : slice_data t a b m p = Ret (q, t') -> slice t a b = Ret t'.
Proof.
  revert p. induction t as [? k s al ds c d|? t s st ss IH|? ms ? IH|? es ? IH|? t c d IH] using Datatype_nested_ind;
    intros p; cbn [slice_data]; unfold no_slice, no_access; intros H; inv_ret; try done.
  by eapply IH.
Qed.

Lemma member_data_member t n m p q t' : member_data t n m p = Ret (q, t') -> member t n = Ret t'.
Proof.
  revert p. induction t as [a k s al ds c d|a t s st ss IH|a ms b IH|a es b IH|a t c d IH] using Datatype_nested_ind;
    intros p; simpl; unfold no_member, no_access; intros H; try (by inv_ret).
  - destruct (find_member ms n); simpl in *; congruence.
  - inv_ret. by eapply IH.
Qed.

(** One access inside a buffer: no pointer is followed. *)
Inductive sub_access (m : mem) : Z * Datatype -> Z * Datatype -> Prop :=
  | sub_index_array p a sub s st ss i r :
      0 <= i -> index_data (Array_datatype a sub s st ss) i m p = Ret r ->
      sub_access m (p, Array_datatype a sub s st ss) r
  | sub_index_tuple p a es b i r :
      0 <= i -> index_data (Tuple_datatype a es b) i m p = Ret r ->
      sub_access m (p, Tuple_datatype a es b) r
  | sub_member p a ms b name r :
      member_data (Record_datatype a ms b) name m p = Ret r ->
      sub_access m (p, Record_datatype a ms b) r.

Definition inside (x y : Z * Datatype) : Prop :=
  fst x <= fst y /\ fst y + buffersize (snd y) <= fst x + buffersize (snd x).

Lemma sub_access_inside m x y :
  sub_access m x y -> copy_ok (snd x) = true -> inside x y /\ copy_ok (snd y) = true.
Proof.
  intros [p a sub s st ss i r Hi H|p a es b i r Hi H|p a ms b n r H] Hok; simpl in H.
  - destruct (Z.ltb_spec i ss); [|done]. injection H as <-. assert (Hwf := copy_ok_wf _ Hok). simpl in Hok, Hwf. bools.
    pose proof (buffersize_is_size sub ltac:(done)). unfold is_size, inside in *. simpl.
    assert (st + i < size_modulus) by lia. rewrite (size_add_small st) by (unfold is_size; lia).
    assert ((st + i + 1) * buffersize sub <= s * buffersize sub) by (apply Z.mul_le_mono_nonneg_r; lia).
    rewrite (size_mul_small (buffersize sub)), (size_mul_small s) by (unfold is_size; nia). split; [nia|done].
  - destruct (Z.ltb_spec i (vsize es)); [|done]. destruct (vector_at_ok es i ltac:(lia)) as (e & He & Hl).
    rewrite He in H. simpl in H. injection H as <-. apply andb_true_iff in Hok as [_ Hok]. bools.
    apply (Forall_lookup_1 _ _ _ _ Hok) in Hl. simpl in Hl. bools. unfold inside. simpl. split; [lia|done].
  - unfold find_member in H. destruct (list_find _ ms) as [[k mb]|] eqn:Hf; [|done]. simpl in H. injection H as <-.
    apply list_find_Some in Hf as (Hl & _ & _). apply andb_true_iff in Hok as [_ Hok]. bools.
    apply (Forall_lookup_1 _ _ _ _ Hok) in Hl. simpl in Hl. bools. unfold inside. simpl. split; [lia|done].
Qed.

Lemma sub_accesses_inside m x y :
  rtc (sub_access m) x y -> copy_ok (snd x) = true -> inside x y /\ copy_ok (snd y) = true.
Proof.
  induction 1 as [x|x y z Hxy Hyz IH]; intros Hok; [by split; [split|]|].
  destruct (sub_access_inside m x y Hxy Hok) as [[? ?] Hok']. destruct (IH Hok') as [[? ?] ?].
  split; [split; lia|done].
Qed.

(** * Theorems *)

(** C39: whatever sequence of accesses to elements of arrays and tuples and to members
    of records is applied to data of a well-formed type, the component reached lies
    inside the buffer of the original data.  No pointer is followed: what a pointer
    leads to is another buffer. *)
Theorem sub_accesses_in_bounds m p t q t' :
  copy_ok t = true -> rtc (sub_access m) (p, t) (q, t') -> p <= q /\ q + buffersize t' <= p + buffersize t.
Proof. intros Hok H. by apply sub_accesses_inside in H as [? _]. Qed.

Definition nested_type : Datatype :=
  Record_datatype []
    [mkMember 0 (Scalar_datatype [] SIGNED 4 4 4 None None) "n";
     mkMember 8 (Array_datatype [] (Scalar_datatype [] FLOAT 8 8 8 None None) 4 1 2) "a"] 40.

Lemma sub_accesses_in_bounds_witness :
  copy_ok nested_type = true /\ 100 <= 124 /\ 124 + 8 <= 100 + 40.
Proof.
  split; [by vm_compute|].
  apply (sub_accesses_in_bounds ∅ 100 nested_type 124 (Scalar_datatype [] FLOAT 8 8 8 None None)); [by vm_compute|].
  eapply rtc_l; [by eapply (sub_member _ _ _ _ _ "a")|].
  eapply rtc_l; [by apply (sub_index_array _ _ _ _ _ _ _ 1)|]. apply rtc_refl.
Defined.

(** The type a data access returns is the one the type access returns. *)
Theorem data_access_agrees t m p q t' :
  (forall i, index_data t i m p = Ret (q, t') -> index t i = Ret t') /\
  (forall a b, slice_data t a b m p = Ret (q, t') -> slice t a b = Ret t') /\
  (forall n, member_data t n m p = Ret (q, t') -> member t n = Ret t') /\
  (dereference_data t m p = Ret (q, t') -> dereference t = Ret t').
Proof.
  split_and!; intros; [by eapply index_data_index|by eapply slice_data_slice|by eapply member_data_member|].
  destruct t; simpl in *; unfold no_dereference, no_access in *; by inv_ret.
Qed.

(** On a well-formed type, element, member and pointer access never crash:
    they return a component or throw a value or a type error. *)
Theorem access_is_safe t i n :
  wf_layout t = true -> 0 <= i ->
  value_or_type_error (index t i) /\ value_or_type_error (member t n) /\ value_or_type_error (dereference t).
Proof. intros Hwf Hi. split_and!; [by apply index_error|by apply member_error|by apply dereference_error]. Qed.

Lemma access_is_safe_witness :
  value_or_type_error (index nested_type 7) /\ value_or_type_error (member nested_type "absent") /\
  value_or_type_error (dereference nested_type).
Proof. apply (access_is_safe nested_type 7 "absent"); [by vm_compute|done]. Defined.

(** Element [k] of the slice [a:b) of an array is element [a + k] of the
    array, at the same address and with the same type. *)
Theorem array_slice_index attrs sub s st ss a b k m p :
  copy_ok (Array_datatype attrs sub s st ss) = true ->
  0 <= a -> a <= b -> b <= ss -> 0 <= k -> k < b - a ->
  exists q t', slice_data (Array_datatype attrs sub s st ss) a b m p = Ret (q, t') /\
    index_data t' k m q = index_data (Array_datatype attrs sub s st ss) (a + k) m p.
Proof.
  intros Hok ? ? ? ? ?. assert (Hwf := copy_ok_wf _ Hok). simpl in Hok, Hwf. bools.
  pose proof (buffersize_is_size sub ltac:(done)). unfold is_size in *. simpl.
  destruct (Z.leb_spec b ss); [|lia]. simpl. do 2 eexists. split; [done|]. simpl.
  rewrite (size_sub_small b) by (unfold is_size; lia).
  destruct (Z.ltb_spec k (b - a)); [|lia]. destruct (Z.ltb_spec (a + k) ss); [|lia].
  assert ((st + a + k + 1) * buffersize sub <= s * buffersize sub) by (apply Z.mul_le_mono_nonneg_r; lia).
  rewrite (size_add_small st a), (size_add_small 0 k), (size_add_small st (a + k)) by (unfold is_size; lia).
  rewrite !(size_mul_small (buffersize sub)) by (unfold is_size; nia). do 2 f_equal. lia.
Qed.

Lemma array_slice_index_witness :
  exists q t', slice_data (make_array (Scalar_datatype [] FLOAT 8 8 8 None None) 10 []) 2 6 ∅ 100 = Ret (q, t') /\
    index_data t' 3 ∅ q = index_data (make_array (Scalar_datatype [] FLOAT 8 8 8 None None) 10 []) (2 + 3) ∅ 100.
Proof.
  apply (array_slice_index [] (Scalar_datatype [] FLOAT 8 8 8 None None) 10 0 10 2 6 3); by vm_compute.
Defined.

Definition triple : Datatype :=
  Tuple_datatype []
    [mkElement 0 (Scalar_datatype [] SIGNED 4 4 4 None None);
     mkElement 4 (Scalar_datatype [] SIGNED 4 4 4 None None);
     mkElement 8 (Scalar_datatype [] SIGNED 4 4 4 None None)] 12.

(** The size of a slice of a tuple is computed from the element after
    [end_index]: dropping only the last element reads past the end of the
    elements, and an earlier slice is one element too large. *)
Theorem tuple_slice_reads_past_the_end :
  slice triple 0 2 = Crash /\
  exists t, slice triple 0 1 = Ret t /\ buffersize t = 8 /\ packed_size t = 4.
Proof.
  split; [by vm_compute|].
  exists (Tuple_datatype [] [mkElement 0 (Scalar_datatype [] SIGNED 4 4 4 None None)] 8).
  split_and!; by vm_compute.
Qed.

(** A slice whose start is after its end is accepted: the length of the
    array it returns wraps around. *)
Theorem reversed_slice_is_accepted sub size start subsize :
  2 <= subsize ->
  exists t, slice (Array_datatype [] sub size start subsize) 2 1 = Ret t /\
    t = make_array sub (2 ^ 64 - 1) [].
Proof.
  intros Hs. simpl. destruct (Z.leb_spec 1 subsize); [|lia]. eexists. split; [done|]. f_equal.
Qed.

Lemma reversed_slice_is_accepted_witness :
  exists t, slice (Array_datatype [] UNDEF_TYPE 3 0 3) 2 1 = Ret t /\ t = make_array UNDEF_TYPE (2 ^ 64 - 1) [].
Proof. apply (reversed_slice_is_accepted UNDEF_TYPE 3 0 3). lia. Defined.
