(* ===== verification/Ref.v ===== *)
(** References to data: [pdi/include/pdi/ref_any.h].

    A [Ref_any<R, W>] object is identified by its address (a [nat]); the objects
    it shares with other references through [std::shared_ptr] live in the store:
    [Referenced_data] (an address and a type) and [Referenced_buffer] (locks,
    deallocator, notifications).  An object of the store is destroyed when the
    last [shared_ptr] to it goes away, which [collect] does at each place the
    code drops one.  A failed [assert] is a [Crash]. *)

From S2P Require Import Prelude Error ExprSyntax Datatype Layout Memory DenseCopy DenseCopyFacts Access.

(** * The store *)

(** What the deallocator lambda captures: [data], [type] and [freefunc]. *)
Record Deallocator := mkDeallocator {
  dealloc_data : Z;
  dealloc_type : Datatype;
  dealloc_freefunc : Z
}.

(** The deallocator is [None] once [release] has replaced it by a no-op.  The two
    counters are [int]s of the source kept as integers: [locks_fit_in_an_int]
    (in RefTheorems) bounds them, in every reachable state, by 2 and by the number
    of live reference objects plus 1, so that with fewer than 2^31 - 1 of these
    no increment overflows and the integers are the [int]s. *)
Record Referenced_buffer := mkBuffer {
  m_deallocator : option Deallocator;
  m_read_locks : Z;
  m_write_locks : Z;
  m_notifications : gmap nat Z
}.

Record Referenced_data := mkData {
  data_buffer : nat;
  data_address : Z;
  data_type : Datatype
}.

(** A [Ref_any<R, W>] object. *)
Record Reference := mkReference {
  ref_R : bool;
  ref_W : bool;
  m_content : option nat
}.

(** [freed] lists the deallocators that have run, with the buffer they freed;
    [next] is the next fresh identity. *)
Record store := mkStore {
  refs : gmap nat Reference;
  datas : gmap nat Referenced_data;
  buffers : gmap nat Referenced_buffer;
  freed : list (nat * Deallocator);
  next : nat
}.

Definition empty_store : store := mkStore ∅ ∅ ∅ [] 0.

Definition set_refs (f : gmap nat Reference -> gmap nat Reference) (st : store) : store :=
  mkStore (f (refs st)) (datas st) (buffers st) (freed st) (next st).
Definition set_datas (f : gmap nat Referenced_data -> gmap nat Referenced_data) (st : store) : store :=
  mkStore (refs st) (f (datas st)) (buffers st) (freed st) (next st).
Definition set_buffers (f : gmap nat Referenced_buffer -> gmap nat Referenced_buffer) (st : store) : store :=
  mkStore (refs st) (datas st) (f (buffers st)) (freed st) (next st).

(** Following a pointer to an object that does not exist is undefined. *)
Definition deref {A} (o : option A) : outcome A := match o with Some x => Ret x | None => Crash end.

Definition buffer_locks (b : Referenced_buffer) (read write : Z) : Referenced_buffer :=
  mkBuffer (m_deallocator b) (m_read_locks b + read) (m_write_locks b + write) (m_notifications b).

Definition buffer_notifications (f : gmap nat Z -> gmap nat Z) (b : Referenced_buffer) : Referenced_buffer :=
  mkBuffer (m_deallocator b) (m_read_locks b) (m_write_locks b) (f (m_notifications b)).

(** The contribution of a reference to the locks of its buffer. *)
Definition write_lock (x : Reference) : Z := if ref_R x || ref_W x then 1 else 0.
Definition read_lock (x : Reference) : Z := if ref_W x then 1 else 0.

(** ** Destruction of shared objects *)

(** [~Referenced_buffer] *)
Definition destroy_buffer (b : nat) (st : store) : outcome store :=
  x ← deref (buffers st !! b);
  let freed' := match m_deallocator x with Some dl => freed st ++ [(b, dl)] | None => freed st end in
  if negb ((m_read_locks x =? 0) || (m_read_locks x =? 1)) then Crash
  else if negb ((m_write_locks x =? 0) || (m_write_locks x =? 1)) then Crash
  else if negb (bool_decide (m_notifications x = ∅)) then Crash
  else Ret (mkStore (refs st) (datas st) (delete b (buffers st)) freed' (next st)).

(** A [shared_ptr<Referenced_data>] to [d] was dropped. *)
Definition collect (d : nat) (st : store) : outcome store :=
  if bool_decide (map_Exists (fun _ x => m_content x = Some d) (refs st)) then Ret st
  else
    x ← deref (datas st !! d);
    let st := set_datas (delete d) st in
    if bool_decide (map_Exists (fun _ y => data_buffer y = data_buffer x) (datas st)) then Ret st
    else destroy_buffer (data_buffer x) st.

(** ** Linking *)

Definition set_content (r : nat) (c : option nat) (st : store) : store :=
  set_refs (alter (fun x => mkReference (ref_R x) (ref_W x) c) r) st.

(** [Ref_any::unlink] *)
Definition unlink (r : nat) (st : store) : outcome store :=
  x ← deref (refs st !! r);
  d ← deref (m_content x);
  dd ← deref (datas st !! d);
  b ← deref (buffers st !! data_buffer dd);
  let b := buffer_locks (buffer_notifications (delete r) b) (- read_lock x) (- write_lock x) in
  collect d (set_content r None (set_buffers <[data_buffer dd := b]> st)).

(** [Ref_any::link]: [content] is a [shared_ptr] the call owns. *)
Definition link (r : nat) (content : option nat) (st : store) : outcome store :=
  x ← deref (refs st !! r);
  if bool_decide (is_Some (m_content x)) then Crash
  else
    match content with
    | None => Ret st
    | Some d =>
        dd ← deref (datas st !! d);
        if data_address dd =? nullptr then collect d st
        else
          b ← deref (buffers st !! data_buffer dd);
          if (ref_R x && negb (m_read_locks b =? 0)) || (ref_W x && negb (m_write_locks b =? 0)) then collect d st
          else Ret (set_content r (Some d) (set_buffers <[data_buffer dd := buffer_locks b (read_lock x) (write_lock x)]> st))
    end.

(** [Reference_base::get_content] *)
Definition get_content (st : store) (r : nat) : outcome (option nat) :=
  x ← deref (refs st !! r);
  match m_content x with
  | None => Ret None
  | Some d => dd ← deref (datas st !! d); Ret (if data_address dd =? nullptr then None else Some d)
  end.

(** [Ref_any::is_null] *)
Definition is_null (r : nat) (st : store) : outcome (bool * store) :=
  x ← deref (refs st !! r);
  match m_content x with
  | None => Ret (true, st)
  | Some d =>
      dd ← deref (datas st !! d);
      if data_address dd =? nullptr then st ← unlink r st; Ret (true, st)
      else Ret (false, st)
  end.

(** [Ref_any::reset] *)
Definition reset (r : nat) (st : store) : outcome store :=
  x ← deref (refs st !! r);
  match m_content x with None => Ret st | Some _ => unlink r st end.

(** ** Construction, assignment and destruction *)

(** [Ref_any()]: the new object and the store. *)
Definition new_null (R W : bool) (st : store) : nat * store :=
  (next st, mkStore (<[next st := mkReference R W None]> (refs st)) (datas st) (buffers st) (freed st) (S (next st))).

(** [Ref_any(const Ref_any<OR, OW>& other)] *)
Definition new_copy (R W : bool) (other : nat) (st : store) : outcome (nat * store) :=
  let '(r, st) := new_null R W st in
  c ← get_content st other;
  st ← link r c st; Ret (r, st).

(** Erasing the notification of [other] and stealing its content. *)
Definition steal (r other : nat) (st : store) : outcome store :=
  x ← deref (refs st !! other);
  d ← deref (m_content x);
  dd ← deref (datas st !! d);
  b ← deref (buffers st !! data_buffer dd);
  Ret (set_content other None (set_content r (Some d)
         (set_buffers <[data_buffer dd := buffer_notifications (delete other) b]> st))).

(** [Ref_any(Ref_any&& other)] *)
Definition new_move (other : nat) (st : store) : outcome (nat * store) :=
  x ← deref (refs st !! other);
  let '(r, st) := new_null (ref_R x) (ref_W x) st in
  match m_content x with
  | None => Ret (r, st)
  | Some _ => st ← steal r other st; Ret (r, st)
  end.

(** A new [Referenced_data], with [assert(data)]. *)
Definition make_data (buffer : nat) (data : Z) (type : Datatype) (st : store) : outcome (nat * store) :=
  if data =? nullptr then Crash
  else Ret (next st, mkStore (refs st) (<[next st := mkData buffer data type]> (datas st)) (buffers st) (freed st) (S (next st))).

(** A new [Referenced_buffer] *)
Definition make_buffer (dl : Deallocator) (readable writable : bool) (st : store) : nat * store :=
  (next st, mkStore (refs st) (datas st)
     (<[next st := mkBuffer (Some dl) (if readable then 0 else 1) (if writable then 0 else 1) ∅]> (buffers st))
     (freed st) (S (next st))).

(** [Ref_any(data, freefunc, type, readable, writable)] *)
Definition new_ref (R W : bool) (data : Z) (freefunc : Z) (type : Datatype) (readable writable : bool) (st : store) :
    outcome (nat * store) :=
  if negb (datasize type =? 0) && (data =? nullptr) && (readable || writable)
  then Throw (Type_error "Referencing null data with non-null size")
  else
    let '(r, st) := new_null R W st in
    if data =? nullptr then Ret (r, st)
    else
      let '(b, st) := make_buffer (mkDeallocator data type freefunc) readable writable st in
      '(d, st) ← make_data b data type st;
      st ← link r (Some d) st; Ret (r, st).

(** [~Ref_any] *)
Definition delete_ref (r : nat) (st : store) : outcome store :=
  st ← reset r st; Ret (set_refs (delete r) st).

(** [operator=(Ref_any&& other)] *)
Definition assign_move (r other : nat) (st : store) : outcome store :=
  if bool_decide (other = r) then Ret st
  else
    st ← reset r st;
    '(n, st) ← is_null other st;
    if (n : bool) then Ret st else steal r other st.

(** [operator=(const Ref_any& other)] *)
Definition assign_copy (r other : nat) (st : store) : outcome store :=
  if bool_decide (other = r) then Ret st
  else
    st ← reset r st;
    c ← get_content st other;
    link r c st.

(** [operator==(const Ref_any<OR, OW>& o)] *)
Definition ref_eqb (r o : nat) (st : store) : outcome (bool * store) :=
  '(_, st) ← is_null r st;
  x ← deref (refs st !! r);
  c ← get_content st o;
  Ret (bool_decide (m_content x = c), st).

(** [Reference_base::type] *)
Definition type (r : nat) (st : store) : outcome Datatype :=
  x ← deref (refs st !! r);
  match m_content x with
  | None => Ret UNDEF_TYPE
  | Some d => dd ← deref (datas st !! d); Ret (if data_address dd =? nullptr then UNDEF_TYPE else data_type dd)
  end.

(** [Ref_any::get] *)
Definition get (r : nat) (st : store) : outcome (Z * store) :=
  '(n, st) ← is_null r st;
  if (n : bool) then Throw (Permission_error "Trying to dereference a null reference")
  else x ← deref (refs st !! r); d ← deref (m_content x); dd ← deref (datas st !! d); Ret (data_address dd, st).

(** [Ref_any::get(std::nothrow)] *)
Definition get_nothrow (r : nat) (st : store) : outcome (Z * store) :=
  '(n, st) ← is_null r st;
  if (n : bool) then Ret (nullptr, st)
  else x ← deref (refs st !! r); d ← deref (m_content x); dd ← deref (datas st !! d); Ret (data_address dd, st).

(** ** Sub-references *)

(** The common body of the [operator[]]: [access] finds the component in the
    data, [empty] is the message for a null reference. *)
Definition sub_ref (empty : string) (access : Datatype -> Z -> outcome (Z * Datatype)) (r : nat) (st : store) :
    outcome (nat * store) :=
  '(n, st) ← is_null r st;
  if (n : bool) then Throw (Type_error empty)
  else
    x ← deref (refs st !! r);
    d ← deref (m_content x);
    dd ← deref (datas st !! d);
    '(data, t) ← access (data_type dd) (data_address dd);
    let '(result, st) := new_null false false st in
    '(d', st) ← make_data (data_buffer dd) data t st;
    st ← link result (Some d') st; Ret (result, st).

(** [operator[](const char* member_name)] *)
Definition sub_member (m : mem) (name : string) : nat -> store -> outcome (nat * store) :=
  sub_ref ("Cannot access member from empty Ref: `" +:+ name +:+ "'") (fun t data => member_data t name m data).

(** [operator[](T index)] *)
Definition sub_index (m : mem) (i : Z) : nat -> store -> outcome (nat * store) :=
  sub_ref ("Cannot access array index from empty Ref: `" +:+ pretty i +:+ "'") (fun t data => index_data t i m data).

(** [operator[](std::pair<size_t, size_t> slice)] *)
Definition sub_slice (m : mem) (a b : Z) : nat -> store -> outcome (nat * store) :=
  sub_ref ("Cannot access array slice from empty Ref: `" +:+ pretty a +:+ ":" +:+ pretty b +:+ "'")
    (fun t data => slice_data t a b m data).

Definition is_pointer (t : Datatype) : bool := match t with Pointer_datatype _ _ _ _ => true | _ => false end.

(** [Ref_any<true, W>::dereference] *)
Definition dereference_readable (m : mem) : nat -> store -> outcome (nat * store) :=
  sub_ref "Cannot dereference an empty Ref"
    (fun t data => if is_pointer t then dereference_data t m data
                   else Throw (Type_error "Cannot dereference a non pointer_type")).

(** [Ref_any::dereference]: a reference without read access goes through a
    temporary [Ref_r], destroyed whether or not the call throws. *)
Definition dereference_ref (m : mem) (r : nat) (st : store) : outcome (nat * store) :=
  '(n, st) ← is_null r st;
  if (n : bool) then Throw (Type_error "Cannot dereference an empty Ref")
  else
    x ← deref (refs st !! r);
    t ← type r st;
    if negb (is_pointer t) then Throw (Type_error "Cannot dereference a non pointer_type")
    else if ref_R x then dereference_readable m r st
    else
      '(tmp, st) ← new_copy true false r st;
      '(result, st) ← dereference_readable m tmp st;
      st ← delete_ref tmp st; Ret (result, st).

(** ** Nullification *)

(** [Ref_any::on_nullify] *)
Definition on_nullify (r : nat) (notifier : Z) (st : store) : outcome store :=
  '(n, st) ← is_null r st;
  if (n : bool) then Ret st
  else
    x ← deref (refs st !! r);
    d ← deref (m_content x);
    dd ← deref (datas st !! d);
    b ← deref (buffers st !! data_buffer dd);
    Ret (set_buffers <[data_buffer dd := buffer_notifications <[r := notifier]> b]> st).

Section release.

(** The registered functions are user code; [begin] is the order in which an
    [unordered_map] is traversed. *)
Context (notify : Z -> nat -> store -> outcome store).
Context (begin : gmap nat Z -> option (nat * Z)).

(** The loop of [release]: each function is called with a copy of the
    reference, then its registration is erased. *)
Fixpoint notify_all (fuel : nat) (r : nat) (st : store) : outcome store :=
  x ← deref (refs st !! r);
  d ← deref (m_content x);
  dd ← deref (datas st !! d);
  b ← deref (buffers st !! data_buffer dd);
  match begin (m_notifications b) with
  | None => Ret st
  | Some (key, f) =>
      match fuel with
      | O => Crash
      | S fuel =>
          '(arg, st) ← new_copy false false r st;
          st ← notify f arg st;
          st ← delete_ref arg st;
          x ← deref (refs st !! r);
          d ← deref (m_content x);
          dd ← deref (datas st !! d);
          b ← deref (buffers st !! data_buffer dd);
          notify_all fuel r (set_buffers <[data_buffer dd := buffer_notifications (delete key) b]> st)
      end
  end.

(** [Ref_any::release] *)
Definition release (fuel : nat) (r : nat) (st : store) : outcome (Z * store) :=
  '(n, st) ← is_null r st;
  if (n : bool) then Ret (nullptr, st)
  else
    st ← notify_all fuel r st;
    x ← deref (refs st !! r);
    d ← deref (m_content x);
    dd ← deref (datas st !! d);
    b ← deref (buffers st !! data_buffer dd);
    let st := set_datas <[d := mkData (data_buffer dd) nullptr (data_type dd)]> st in
    let st := set_buffers <[data_buffer dd := mkBuffer None (m_read_locks b) (m_write_locks b) (m_notifications b)]> st in
    st ← unlink r st; Ret (data_address dd, st).

End release.

#[global] Arguments new_null : simpl never.
#[global] Arguments make_data : simpl never.
#[global] Arguments make_buffer : simpl never.
