(* ===== verification/RefInv.v ===== *)
(** The invariant of the reference store and its preservation by every operation
    of [Ref.v]: shared objects live exactly as long as something refers to them,
    the lock counters count the references that hold them, readers and writers
    exclude each other, and registrations belong to linked references. *)

From S2P Require Import Prelude Error ExprSyntax Datatype Layout Memory DenseCopy DenseCopyFacts Access Ref.

(** * Counting the entries of a map *)

Section count.
  Context {A : Type}.
  Implicit Types (P Q : A -> bool) (m : gmap nat A).

Definition count P m : Z := Z.of_nat (size (filter (fun kv => P (snd kv) = true) m)).

Definition one P (o : option A) : Z := match o with Some x => if P x then 1 else 0 | None => 0 end.

Lemma count_nonneg P m : 0 <= count P m.
Proof. unfold count. lia. Qed.

Lemma count_delete P m i : count P (delete i m) = count P m - one P (m !! i).
Proof.
  unfold count. rewrite map_filter_delete. unfold one. destruct (m !! i) as [x|] eqn:Hi.
  - destruct (P x) eqn:HP.
    + assert (Hf : filter (fun kv => P kv.2 = true) m !! i = Some x) by (by apply map_lookup_filter_Some).
      rewrite map_size_delete_Some by (by exists x).
      assert (size (filter (fun kv => P kv.2 = true) m) <> 0%nat).
      { intros H0%map_size_empty_inv. by rewrite H0, lookup_empty in Hf. }
      lia.
    + rewrite delete_id; [lia|]. apply map_lookup_filter_None. right. intros y Hy. simplify_eq/=. congruence.
  - rewrite delete_id; [lia|]. apply map_lookup_filter_None. by left.
Qed.

Lemma count_insert P m i x : count P (<[i := x]> m) = count P m - one P (m !! i) + one P (Some x).
Proof.
  rewrite <- count_delete. rewrite <- (insert_delete_eq m i x). unfold count. simpl.
  destruct (P x) eqn:HP.
  - rewrite map_filter_insert_True by done. rewrite map_size_insert_None; [lia|].
    apply map_lookup_filter_None. left. apply lookup_delete_eq.
  - rewrite map_filter_insert_False by (simpl; congruence).
    rewrite delete_delete_eq. lia.
Qed.

Lemma count_ext P Q m : (forall i x, m !! i = Some x -> P x = Q x) -> count P m = count Q m.
Proof.
  intros H. unfold count. do 2 f_equal. apply map_filter_ext. intros i x Hx. simpl. by rewrite (H i x).
Qed.

Lemma count_le P Q m : (forall x, P x = true -> Q x = true) -> count P m <= count Q m.
Proof.
  intros H. unfold count. apply inj_le. apply map_subseteq_size.
  apply map_filter_subseteq_ext. intros i x _. apply H.
Qed.

Lemma count_zero P m : (forall i x, m !! i = Some x -> P x = false) -> count P m = 0.
Proof.
  intros H. unfold count. rewrite (map_empty_filter_2 _ m); [by rewrite map_size_empty|].
  intros i x Hx. simpl. by rewrite (H i x Hx).
Qed.

Lemma count_zero_inv P m i x : count P m = 0 -> m !! i = Some x -> P x = false.
Proof.
  intros H Hi. destruct (P x) eqn:HP; [|done]. exfalso.
  assert (Hf : filter (fun kv => P kv.2 = true) m !! i = Some x) by (by apply map_lookup_filter_Some).
  unfold count in H. assert (H0 : size (filter (fun kv => P kv.2 = true) m) = 0%nat) by lia.
  apply map_size_empty_inv in H0. by rewrite H0, lookup_empty in Hf.
Qed.

(** Two different entries. *)
Lemma count_two P m i j x y :
  m !! i = Some x -> m !! j = Some y -> i <> j -> P x = true -> P y = true -> 2 <= count P m.
Proof.
  intros Hi Hj Hij HP HQ. pose proof (count_delete P m i) as H1. pose proof (count_delete P (delete i m) j) as H2.
  rewrite lookup_delete_ne, Hj in H2 by done. rewrite Hi in H1. simpl in *. rewrite HP in H1. rewrite HQ in H2.
  pose proof (count_nonneg P (delete j (delete i m))). lia.
Qed.

End count.

(** * The invariant *)

(** The buffer a reference is linked to. *)
Definition ref_buffer (ds : gmap nat Referenced_data) (x : Reference) : option nat :=
  d ← m_content x; dd ← ds !! d; Some (data_buffer dd).

Definition into (ds : gmap nat Referenced_data) (b : nat) (P : Reference -> bool) (x : Reference) : bool :=
  P x && bool_decide (ref_buffer ds x = Some b).

Definition is_user (x : Reference) : bool := ref_R x || ref_W x.

(** How many linked references can write to, read from, or do either with the
    buffer. *)
Definition writers (st : store) (b : nat) : Z := count (into (datas st) b ref_W) (refs st).
Definition readers (st : store) (b : nat) : Z := count (into (datas st) b ref_R) (refs st).
Definition users (st : store) (b : nat) : Z := count (into (datas st) b is_user) (refs st).

(** The counters are the base locks of a buffer that is not readable or not
    writable, plus one per reference that holds them. *)
Definition locks_ok (st : store) (b : nat) (x : Referenced_buffer) : Prop :=
  exists iw ir, (iw = 0 \/ iw = 1) /\ (ir = 0 \/ ir = 1) /\
    m_write_locks x = iw + users st b /\ m_read_locks x = ir + writers st b /\
    (writers st b = 0 \/ (writers st b = 1 /\ users st b = 1 /\ iw = 0)) /\
    (ir = 1 -> readers st b = 0).

Definition notifications_ok (st : store) (b : nat) (x : Referenced_buffer) : Prop :=
  forall r h, m_notifications x !! r = Some h ->
    exists y, refs st !! r = Some y /\ ref_buffer (datas st) y = Some b.

(** The buffers whose deallocator has run. *)
Definition freed_ids (st : store) : list nat := map fst (freed st).

Record wf (st : store) : Prop := {
  wf_content : forall r x d, refs st !! r = Some x -> m_content x = Some d -> is_Some (datas st !! d);
  wf_data : forall d x, datas st !! d = Some x -> is_Some (buffers st !! data_buffer x);
  wf_locks : forall b x, buffers st !! b = Some x -> locks_ok st b x;
  wf_notifications : forall b x, buffers st !! b = Some x -> notifications_ok st b x;
  wf_next_refs : forall r, is_Some (refs st !! r) -> (r < next st)%nat;
  wf_next_datas : forall d, is_Some (datas st !! d) -> (d < next st)%nat;
  wf_next_buffers : forall b, is_Some (buffers st !! b) -> (b < next st)%nat;
  wf_freed : forall b, b ∈ (freed_ids st) -> (b < next st)%nat /\ buffers st !! b = None;
  wf_freed_once : NoDup (freed_ids st)
}.

(** Everything that is alive is used; [ex] is a data a caller still holds. *)
Record live (ex : option nat) (st : store) : Prop := {
  live_data : forall d, is_Some (datas st !! d) ->
    ex = Some d \/ exists r x, refs st !! r = Some x /\ m_content x = Some d;
  live_buffer : forall b, is_Some (buffers st !! b) -> exists d x, datas st !! d = Some x /\ data_buffer x = b
}.

Definition inv (st : store) : Prop := wf st /\ live None st.

(** What happens to the buffer [b] between two states: its deallocator is kept
    until it runs, exactly when the buffer is destroyed.  [E] are the buffers
    released in between, whose deallocator is dropped. *)
Definition fate (E : gset nat) (st' : store) (b : nat) (x : Referenced_buffer) : Prop :=
  match buffers st' !! b with
  | Some x' => m_deallocator x' = m_deallocator x \/ (b ∈ E /\ m_deallocator x' = None)
  | None =>
      match m_deallocator x with
      | Some dl => (b, dl) ∈ freed st' \/ (b ∈ E /\ b ∉ (freed_ids st'))
      | None => b ∉ (freed_ids st')
      end
  end.

Record evolves (E : gset nat) (st st' : store) : Prop := {
  ev_next : (next st <= next st')%nat;
  ev_freed : freed st `prefix_of` freed st';
  ev_old : forall b, (b < next st)%nat -> buffers st !! b = None ->
    buffers st' !! b = None /\ forall dl, (b, dl) ∈ freed st' -> (b, dl) ∈ freed st;
  ev_fate : forall b x, buffers st !! b = Some x -> fate E st' b x
}.

Lemma evolves_refl E st : evolves E st st.
Proof.
  split; [done..|]. intros b x Hb. unfold fate. rewrite Hb. by left.
Qed.

Lemma elem_of_freed_ids b st : b ∈ freed_ids st <-> exists dl, (b, dl) ∈ freed st.
Proof.
  unfold freed_ids. rewrite list_elem_of_fmap. split; [intros ([? dl] & -> & ?); by exists dl|intros [dl ?]; by exists (b, dl)].
Qed.

Lemma evolves_trans E st1 st2 st3 :
  (forall b, is_Some (buffers st1 !! b) -> (b < next st1)%nat) ->
  evolves E st1 st2 -> evolves E st2 st3 -> evolves E st1 st3.
Proof.
  intros Hb1 [Hn12 Hf12 Ho12 Ha12] [Hn23 Hf23 Ho23 Ha23]. split; [lia|by etrans| |].
  - intros b Hb Hnone. destruct (Ho12 b Hb Hnone) as [H2 Hd2]. destruct (Ho23 b) as [H3 Hd3]; [lia|done|]. auto.
  - intros b x Hx. specialize (Ha12 b x Hx). unfold fate in *.
    destruct (buffers st2 !! b) as [x2|] eqn:H2.
    + specialize (Ha23 b x2 H2). destruct (buffers st3 !! b) as [x3|].
      { destruct Ha12 as [E12|[HE E12]], Ha23 as [E23|[HE' E23]]; rewrite ?E23, ?E12 in *; auto. }
      destruct Ha12 as [<-|[HE E2]]; [done|]. rewrite E2 in Ha23.
      destruct (m_deallocator x); [right; by split|done].
    + destruct (Ho23 b) as [H3 Hd3]; [|done|]. { specialize (Hb1 b ltac:(by eexists)). lia. }
      rewrite H3. assert (Hnot : b ∉ (freed_ids st2) -> b ∉ (freed_ids st3)).
      { intros Hb [dl Hdl]%elem_of_freed_ids. apply Hb, elem_of_freed_ids. eauto. }
      destruct (m_deallocator x); [|auto]. destruct Ha12 as [Hin|[HE Hb]]; [left|right; auto].
      eapply elem_of_prefix; [|done]. done.
Qed.

(** * Destruction *)

(** The counts only depend on where the references are linked. *)
Lemma into_ext (ds ds' : gmap nat Referenced_data) rs P b :
  (forall r x, rs !! r = Some x -> ref_buffer ds' x = ref_buffer ds x) ->
  count (into ds' b P) rs = count (into ds b P) rs.
Proof. intros H. apply count_ext. intros r x Hx. unfold into. by rewrite (H r x Hx). Qed.

Lemma locks_ok_ext st st' b x :
  refs st' = refs st ->
  (forall r y, refs st !! r = Some y -> ref_buffer (datas st') y = ref_buffer (datas st) y) ->
  locks_ok st b x -> locks_ok st' b x.
Proof.
  intros Hr Hd. unfold locks_ok, users, writers, readers. rewrite Hr. by rewrite !(into_ext (datas st) (datas st')) by done.
Qed.

Lemma notifications_ok_ext st st' b x :
  refs st' = refs st ->
  (forall r y, refs st !! r = Some y -> ref_buffer (datas st') y = ref_buffer (datas st) y) ->
  notifications_ok st b x -> notifications_ok st' b x.
Proof.
  intros Hr Hd Hn r h Hh. destruct (Hn r h Hh) as (y & Hy & Hb). exists y. rewrite Hr, (Hd r y Hy). done.
Qed.

(** No reference is linked to data that is going away. *)
Lemma ref_buffer_delete st d :
  ~ map_Exists (fun _ x => m_content x = Some d) (refs st) ->
  forall r y, refs st !! r = Some y -> ref_buffer (delete d (datas st)) y = ref_buffer (datas st) y.
Proof.
  intros Hno r y Hy. unfold ref_buffer. destruct (m_content y) as [d'|] eqn:Hc; simpl; [|done].
  rewrite lookup_delete_ne; [done|]. intros <-. apply Hno. by exists r, y.
Qed.

Lemma delete_data_wf st d :
  wf st -> ~ map_Exists (fun _ x => m_content x = Some d) (refs st) -> wf (set_datas (delete d) st).
Proof.
  intros [Hc Hd Hl Hn Hnr Hnd Hnb Hf Hfo] Hno. pose proof (ref_buffer_delete st d Hno) as Hrb. split; simpl; try done.
  - intros r x d' Hx Hd'. rewrite lookup_delete_ne; [by eapply Hc|]. intros <-. apply Hno. by exists r, x.
  - intros d' x [_ Hx]%lookup_delete_Some. by eapply Hd.
  - intros b x Hx. by eapply locks_ok_ext; [| |apply Hl].
  - intros b x Hx. by eapply notifications_ok_ext; [| |apply Hn].
  - intros d' [x [_ Hx]%lookup_delete_Some]. apply Hnd. by eexists.
Qed.

Lemma destroy_buffer_ok st b x :
  wf st -> buffers st !! b = Some x -> ~ map_Exists (fun _ y => data_buffer y = b) (datas st) ->
  exists st', destroy_buffer b st = Ret st' /\ wf st' /\ refs st' = refs st /\ datas st' = datas st /\
    buffers st' = delete b (buffers st) /\ next st' = next st /\ evolves ∅ st st'.
Proof.
  intros Hwf Hb Hno. pose proof Hwf as [Hc Hd Hl Hn Hnr Hnd Hnb Hf Hfo].
  assert (Hnone : forall r y, refs st !! r = Some y -> ref_buffer (datas st) y <> Some b).
  { intros r y Hy Hby. unfold ref_buffer in Hby. destruct (m_content y) as [d|]; [|done]. simpl in Hby.
    destruct (datas st !! d) as [dd|] eqn:Hdd; [|done]. simpl in Hby. apply Hno. exists d, dd. split; [done|congruence]. }
  assert (Hzero : forall P, count (into (datas st) b P) (refs st) = 0).
  { intros P. apply count_zero. intros r y Hy. unfold into. rewrite (bool_decide_eq_false_2 _ (Hnone r y Hy)). by rewrite andb_false_r. }
  destruct (Hl b x Hb) as (iw & ir & Hiw & Hir & Hw & Hr & _). unfold users, writers in *. rewrite Hzero in *.
  assert (Hnot : m_notifications x = ∅).
  { apply map_empty. intros r. destruct (_ !! r) as [h|] eqn:Hh; [|done]. exfalso.
    destruct (Hn b x Hb r h Hh) as (y & Hy & Hby). by apply (Hnone r y). }
  assert (Hbf : b ∉ freed_ids st) by (intros Hin; apply Hf in Hin as [_ ?]; congruence).
  unfold destroy_buffer. rewrite Hb; simpl.
  replace ((m_read_locks x =? 0) || (m_read_locks x =? 1)) with true by (destruct Hir as [-> | ->]; by rewrite Hr).
  replace ((m_write_locks x =? 0) || (m_write_locks x =? 1)) with true by (destruct Hiw as [-> | ->]; by rewrite Hw).
  simpl. rewrite bool_decide_eq_true_2 by done. simpl. eexists. split; [done|].
  set (f' := match m_deallocator x with Some dl => freed st ++ [(b, dl)] | None => freed st end).
  assert (Hids : forall b', b' ∈ map fst f' -> b' = b \/ b' ∈ freed_ids st).
  { unfold f'. intros b' Hb'. destruct (m_deallocator x); [|by right]. rewrite map_app in Hb'. simpl in Hb'.
    apply elem_of_app in Hb' as [?| ->%list_elem_of_singleton]; auto. }
  split_and!; try done.
  - split; simpl; try done.
    + intros d y Hy. destruct (Hd d y Hy) as [z Hz]. exists z. rewrite lookup_delete_ne; [done|]. intros ->. apply Hno. by exists d, y.
    + intros b' x' [_ Hx']%lookup_delete_Some. by eapply (locks_ok_ext st); [| |apply Hl].
    + intros b' x' [_ Hx']%lookup_delete_Some. by eapply (notifications_ok_ext st); [| |apply Hn].
    + intros b' [x' [_ Hx']%lookup_delete_Some]. apply Hnb. by eexists.
    + intros b' [->|Hin]%Hids; [split; [apply Hnb; by eexists|by apply lookup_delete_eq]|].
      apply Hf in Hin as [? ?]. split; [done|]. by rewrite lookup_delete_None; right.
    + unfold freed_ids, f'; simpl. destruct (m_deallocator x); [|done]. rewrite map_app. simpl.
      apply list.NoDup_app. split_and!; [done| |apply NoDup_singleton]. intros b' Hb' ->%list_elem_of_singleton. by apply Hbf.
  - split; simpl; [done| | |].
    + unfold f'. destruct (m_deallocator x); [by apply prefix_app_r|done].
    + intros b' Hlt Hb'. rewrite lookup_delete_None. split; [by right|]. intros dl Hdl. unfold f' in Hdl.
      destruct (m_deallocator x); [|done]. apply elem_of_app in Hdl as [|[= -> ->]%list_elem_of_singleton]; [done|congruence].
    + intros b' x' Hx'. unfold fate; simpl. destruct (decide (b' = b)) as [->|Hne].
      * rewrite lookup_delete_eq. assert (x' = x) as -> by congruence. unfold freed_ids, f'; simpl.
        destruct (m_deallocator x); [|done]. left. apply elem_of_app. right. by apply list_elem_of_singleton.
      * rewrite lookup_delete_ne by done. rewrite Hx'. by left.
Qed.

Lemma collect_ok st d :
  wf st -> live (Some d) st -> is_Some (datas st !! d) ->
  exists st', collect d st = Ret st' /\ inv st' /\ refs st' = refs st /\ next st' = next st /\
    datas st' ⊆ datas st /\ buffers st' ⊆ buffers st /\ evolves ∅ st st'.
Proof.
  intros Hwf [Hld Hlb] [x Hx]. unfold collect. case_bool_decide as Hex.
  { exists st. split_and!; try done; [|apply evolves_refl]. split; [done|]. split; [|done].
    intros d' Hd'. destruct (Hld d' Hd') as [[= ->]|]; [|by right]. right. destruct Hex as (r & y & ? & ?). by exists r, y. }
  rewrite Hx; simpl. pose proof (delete_data_wf st d Hwf Hex) as Hwf'.
  assert (Hld' : forall d', is_Some (delete d (datas st) !! d') ->
            None = Some d' \/ exists r y, refs st !! r = Some y /\ m_content y = Some d').
  { intros d' [y [Hne Hy]%lookup_delete_Some]. destruct (Hld d' ltac:(by eexists)) as [[= ->]|?]; [done|by right]. }
  assert (Hev : evolves ∅ st (set_datas (delete d) st)).
  { split; simpl; try done. intros b y Hy. unfold fate; simpl. rewrite Hy. by left. }
  case_bool_decide as Hex'.
  - exists (set_datas (delete d) st). split_and!; try done; [|apply delete_subseteq].
    split; [done|]. split; [done|]. simpl. intros b Hb. destruct (Hlb b Hb) as (d' & y & Hy & Hby).
    destruct (decide (d' = d)) as [->|Hne].
    + destruct Hex' as (d2 & y2 & Hy2 & Hb2). simpl in Hy2. exists d2, y2. split; [done|congruence].
    + exists d', y. by rewrite lookup_delete_ne.
  - destruct (wf_data _ Hwf d x Hx) as [b Hb].
    destruct (destroy_buffer_ok (set_datas (delete d) st) (data_buffer x) b) as (st' & Hrun & Hwf2 & Hr & Hd & Hb' & Hn & Hev');
      [done..|]. exists st'. rewrite Hr, Hd, Hb'. simpl. split_and!; try done; [|apply delete_subseteq..|].
    + split; [done|]. split; rewrite ?Hr, ?Hd, ?Hb'; [done|]. simpl.
      intros b' [y [Hne Hy]%lookup_delete_Some]. destruct (Hlb b' ltac:(by eexists)) as (d' & z & Hz & Hbz).
      exists d', z. rewrite lookup_delete_ne; [done|]. congruence.
    + eapply evolves_trans; [|exact Hev|exact Hev']. apply Hwf.
Qed.

(** * Linking and unlinking *)

Definition with_content (x : Reference) (c : option nat) : Reference := mkReference (ref_R x) (ref_W x) c.

Lemma set_content_refs st r x c :
  refs st !! r = Some x -> refs (set_content r c st) = <[r := with_content x c]> (refs st).
Proof.
  intros Hr. simpl. apply map_eq. intros i. destruct (decide (i = r)) as [->|Hne].
  - by rewrite lookup_alter_eq, lookup_insert_eq, Hr.
  - by rewrite lookup_alter_ne, lookup_insert_ne.
Qed.

(** The effect on the counts of changing the content of one reference. *)
Lemma count_set (ds : gmap nat Referenced_data) rs r x x' b P :
  rs !! r = Some x ->
  count (into ds b P) (<[r := x']> rs)
  = count (into ds b P) rs - (if into ds b P x then 1 else 0) + (if into ds b P x' then 1 else 0).
Proof. intros Hr. by rewrite count_insert, Hr. Qed.

Lemma into_None ds b P x : m_content x = None -> into ds b P x = false.
Proof. intros Hx. unfold into, ref_buffer. rewrite Hx. simpl. by rewrite andb_false_r. Qed.

Lemma into_at (ds : gmap nat Referenced_data) d dd P x :
  m_content x = Some d -> ds !! d = Some dd -> into ds (data_buffer dd) P x = P x.
Proof. intros Hx Hd. unfold into, ref_buffer. rewrite Hx. simpl. rewrite Hd. simpl. by rewrite bool_decide_eq_true_2, andb_true_r. Qed.

Lemma into_other (ds : gmap nat Referenced_data) d dd P x b :
  m_content x = Some d -> ds !! d = Some dd -> b <> data_buffer dd -> into ds b P x = false.
Proof.
  intros Hx Hd Hb. unfold into, ref_buffer. rewrite Hx. simpl. rewrite Hd. simpl.
  rewrite bool_decide_eq_false_2 by congruence. by rewrite andb_false_r.
Qed.

Lemma count_bounds st b :
  0 <= writers st b /\ 0 <= readers st b /\ writers st b <= users st b /\ readers st b <= users st b.
Proof.
  unfold writers, readers, users. split_and!; try apply count_nonneg; apply count_le; intros x; unfold into, is_user;
    intros [-> ->]%andb_true_iff; by rewrite ?orb_true_r.
Qed.

(** A buffer whose deallocator does not change. *)
Lemma evolves_set_buffer E st b x x' rs :
  buffers st !! b = Some x -> m_deallocator x' = m_deallocator x ->
  evolves E st (mkStore rs (datas st) (<[b := x']> (buffers st)) (freed st) (next st)).
Proof.
  intros Hb Hd. split; simpl; [done..| |].
  - intros b' Hlt Hb'. split; [|done]. rewrite lookup_insert_ne; [done|congruence].
  - intros b' y Hy. unfold fate; simpl. destruct (decide (b' = b)) as [->|].
    + rewrite lookup_insert_eq. left. congruence.
    + rewrite lookup_insert_ne by done. rewrite Hy. by left.
Qed.

(** The state between the two last statements of [unlink]. *)
Definition unlinked (r d : nat) (x : Reference) (dd : Referenced_data) (b : Referenced_buffer) (st : store) : store :=
  mkStore (<[r := with_content x None]> (refs st)) (datas st)
    (<[data_buffer dd := buffer_locks (buffer_notifications (delete r) b) (- read_lock x) (- write_lock x)]> (buffers st))
    (freed st) (next st).

Lemma unlinked_locks st r x d dd b b' y :
  wf st -> refs st !! r = Some x -> m_content x = Some d -> datas st !! d = Some dd ->
  buffers st !! data_buffer dd = Some b ->
  buffers (unlinked r d x dd b st) !! b' = Some y -> locks_ok (unlinked r d x dd b st) b' y.
Proof.
  intros Hwf Hr Hc Hd Hb Hy. pose proof (count_bounds st b') as B. pose proof (count_bounds (unlinked r d x dd b st) b') as B'.
  pose proof (into_None (datas st) b' ref_W (with_content x None) eq_refl).
  unfold locks_ok, writers, readers, users in *; simpl in *. rewrite !(count_set (datas st) (refs st) r x) in * by done.
  rewrite !(into_None _ _ _ (with_content x None)) in * by done.
  destruct (decide (b' = data_buffer dd)) as [->|Hne].
  - rewrite lookup_insert_eq in Hy. injection Hy as <-. rewrite !(into_at _ d dd) in * by done.
    destruct (wf_locks _ Hwf _ _ Hb) as (iw & ir & Hiw & Hir & Hw & Hrd & Hex & Hro). unfold writers, readers, users in *.
    exists iw, ir. unfold buffer_locks, write_lock, read_lock, is_user in *; simpl. destruct (ref_R x), (ref_W x); simpl in *;
    split_and!; try done; try lia; try (intros Hi; specialize (Hro Hi); lia).
  - rewrite lookup_insert_ne in Hy by done. rewrite !(into_other _ d dd) in * by done.
    destruct (wf_locks _ Hwf _ _ Hy) as (iw & ir & Hiw & Hir & Hw & Hrd & Hex & Hro). unfold writers, readers, users in *.
    exists iw, ir. rewrite !Z.sub_0_r, !Z.add_0_r. done.
Qed.

Lemma unlinked_wf st r x d dd b :
  wf st -> live None st -> refs st !! r = Some x -> m_content x = Some d -> datas st !! d = Some dd ->
  buffers st !! data_buffer dd = Some b ->
  wf (unlinked r d x dd b st) /\ live (Some d) (unlinked r d x dd b st) /\ evolves ∅ st (unlinked r d x dd b st).
Proof.
  intros Hwf [Hld Hlb] Hr Hc Hd Hb. pose proof (fun b' y => unlinked_locks st r x d dd b b' y Hwf Hr Hc Hd Hb) as Hlocks.
  destruct Hwf as [Hwc Hwd _ Hwn Hnr Hnd Hnb Hf Hfo]. split_and!.
  - split; try done; simpl.
    + intros r' y d' Hy Hd'. apply lookup_insert_Some in Hy as [[_ <-]|[_ Hy]]; [done|]. by eapply Hwc.
    + intros d' y Hy. apply lookup_insert_is_Some. destruct (decide (data_buffer dd = data_buffer y)); [by left|right]. eauto.
    + intros b' y Hy r' h Hh. simpl.
      assert (Hn' : r' <> r /\ exists z, refs st !! r' = Some z /\ ref_buffer (datas st) z = Some b').
      { apply lookup_insert_Some in Hy as [[<- <-]|[Hne Hy]].
        - simpl in Hh. apply lookup_delete_Some in Hh as [? Hh]. split; [done|]. by apply (Hwn _ b Hb r' h).
        - destruct (Hwn b' y Hy r' h Hh) as (z & Hz & Hzb). split; [|by exists z]. intros ->.
          assert (z = x) as -> by congruence. unfold ref_buffer in Hzb. rewrite Hc in Hzb. simpl in Hzb. rewrite Hd in Hzb. simpl in Hzb. congruence. }
      destruct Hn' as (Hne & z & Hz & Hzb). exists z. by rewrite lookup_insert_ne.
    + intros r' [y [[<- _]|[_ Hy]]%lookup_insert_Some]; apply Hnr; by eexists.
    + intros b' [y [[<- _]|[_ Hy]]%lookup_insert_Some]; apply Hnb; by eexists.
    + intros b' Hb'. destruct (Hf b' Hb') as [? Hnone]. split; [done|]. rewrite lookup_insert_ne; [done|congruence].
  - split; simpl.
    + intros d' Hd'. destruct (decide (d = d')) as [->|Hne]; [by left|right]. destruct (Hld d' Hd') as [|(r' & y & Hy & Hyd)]; [done|].
      exists r', y. split; [|done]. rewrite lookup_insert_ne; [done|congruence].
    + intros b' [y [[<- _]|[_ Hy]]%lookup_insert_Some]; apply Hlb; by eexists.
  - by eapply evolves_set_buffer.
Qed.

(** What a reference looks like after an operation. *)
Lemma unlink_ok st r x d :
  inv st -> refs st !! r = Some x -> m_content x = Some d ->
  exists st', unlink r st = Ret st' /\ inv st' /\ refs st' = <[r := with_content x None]> (refs st) /\
    next st' = next st /\ datas st' ⊆ datas st /\ evolves ∅ st st' /\
    (forall b, is_Some (buffers st' !! b) -> is_Some (buffers st !! b)).
Proof.
  intros [Hwf Hlive] Hr Hc. destruct (wf_content _ Hwf _ _ _ Hr Hc) as [dd Hd]. destruct (wf_data _ Hwf _ _ Hd) as [b Hb].
  destruct (unlinked_wf st r x d dd b Hwf Hlive Hr Hc Hd Hb) as (Hwf1 & Hl1 & He1).
  destruct (collect_ok _ d Hwf1 Hl1) as (st' & Hrun & Hinv & Hrefs & Hnext & Hds & Hbs & He2); [by exists dd|].
  exists st'. split_and!; try done.
  - unfold unlink. rewrite Hr; simpl. rewrite Hc; simpl. rewrite Hd; simpl. rewrite Hb; simpl.
    assert (Heq : set_content r None (set_buffers <[data_buffer dd :=
      buffer_locks (buffer_notifications (delete r) b) (- read_lock x) (- write_lock x)]> st) = unlinked r d x dd b st).
    { unfold unlinked. rewrite <- set_content_refs by done. reflexivity. }
    by rewrite Heq.
  - eapply evolves_trans; [apply Hwf|exact He1|exact He2].
  - intros b' Hb'. assert (is_Some (buffers (unlinked r d x dd b st) !! b')) as [y Hy].
    { destruct Hb' as [z Hz]. exists z. eapply lookup_weaken; [exact Hz|done]. }
    simpl in Hy. apply lookup_insert_Some in Hy as [[<- _]|[_ Hy]]; by eexists.
Qed.

(** The state after a successful [link]. *)
Definition linked (r d : nat) (x : Reference) (dd : Referenced_data) (b : Referenced_buffer) (st : store) : store :=
  mkStore (<[r := with_content x (Some d)]> (refs st)) (datas st)
    (<[data_buffer dd := buffer_locks b (read_lock x) (write_lock x)]> (buffers st)) (freed st) (next st).

(** The privileges can be granted. *)
Definition granted (x : Reference) (b : Referenced_buffer) : bool :=
  negb ((ref_R x && negb (m_read_locks b =? 0)) || (ref_W x && negb (m_write_locks b =? 0))).

Lemma linked_locks st r x d dd b b' y :
  wf st -> refs st !! r = Some x -> m_content x = None -> datas st !! d = Some dd ->
  buffers st !! data_buffer dd = Some b -> granted x b = true ->
  buffers (linked r d x dd b st) !! b' = Some y -> locks_ok (linked r d x dd b st) b' y.
Proof.
  intros Hwf Hr Hc Hd Hb Hg Hy. pose proof (count_bounds st b') as B. pose proof (count_bounds (linked r d x dd b st) b') as B'.
  unfold locks_ok, writers, readers, users in *; simpl in *. rewrite !(count_set (datas st) (refs st) r x) in * by done.
  rewrite !(into_None _ _ _ x) in * by done.
  destruct (decide (b' = data_buffer dd)) as [->|Hne].
  - rewrite lookup_insert_eq in Hy. injection Hy as <-. rewrite !(into_at _ d dd) in * by done.
    destruct (wf_locks _ Hwf _ _ Hb) as (iw & ir & Hiw & Hir & Hw & Hrd & Hex & Hro). unfold writers, readers, users in *.
    unfold granted in Hg. apply negb_true_iff, orb_false_iff in Hg as [Hg1 Hg2].
    exists iw, ir. unfold buffer_locks, write_lock, read_lock, is_user in *; simpl in *. destruct (ref_R x), (ref_W x); simpl in *;
    try apply negb_false_iff, Z.eqb_eq in Hg1; try apply negb_false_iff, Z.eqb_eq in Hg2;
    split_and!; try done; try lia; try (intros Hi; specialize (Hro Hi); lia).
  - rewrite lookup_insert_ne in Hy by done. rewrite !(into_other _ d dd) in * by done.
    destruct (wf_locks _ Hwf _ _ Hy) as (iw & ir & Hiw & Hir & Hw & Hrd & Hex & Hro). unfold writers, readers, users in *.
    exists iw, ir. rewrite !Z.sub_0_r, !Z.add_0_r. done.
Qed.

Lemma linked_inv st r x d dd b :
  wf st -> live (Some d) st -> refs st !! r = Some x -> m_content x = None -> datas st !! d = Some dd ->
  buffers st !! data_buffer dd = Some b -> granted x b = true ->
  inv (linked r d x dd b st) /\ evolves ∅ st (linked r d x dd b st).
Proof.
  intros Hwf [Hld Hlb] Hr Hc Hd Hb Hg. pose proof (fun b' y => linked_locks st r x d dd b b' y Hwf Hr Hc Hd Hb Hg) as Hlocks.
  destruct Hwf as [Hwc Hwd _ Hwn Hnr Hnd Hnb Hf Hfo]. split; [split|].
  - split; try done; simpl.
    + intros r' y d' Hy Hd'. apply lookup_insert_Some in Hy as [[_ <-]|[_ Hy]]; [|by eapply Hwc].
      simpl in Hd'. injection Hd' as <-. by eexists.
    + intros d' y Hy. apply lookup_insert_is_Some. destruct (decide (data_buffer dd = data_buffer y)); [by left|right]. eauto.
    + intros b' y Hy r' h Hh. simpl.
      assert (Hn' : exists z, refs st !! r' = Some z /\ ref_buffer (datas st) z = Some b').
      { apply lookup_insert_Some in Hy as [[<- <-]|[Hne Hy]]; [by apply (Hwn _ b Hb r' h)|by apply (Hwn b' y Hy r' h)]. }
      destruct Hn' as (z & Hz & Hzb). exists z. split; [|done]. rewrite lookup_insert_ne; [done|]. intros <-.
      assert (z = x) as -> by congruence. unfold ref_buffer in Hzb. by rewrite Hc in Hzb.
    + intros r' [y [[<- _]|[_ Hy]]%lookup_insert_Some]; apply Hnr; by eexists.
    + intros b' [y [[<- _]|[_ Hy]]%lookup_insert_Some]; apply Hnb; by eexists.
    + intros b' Hb'. destruct (Hf b' Hb') as [? Hnone]. split; [done|]. rewrite lookup_insert_ne; [done|congruence].
  - split; simpl.
    + intros d' Hd'. right. destruct (Hld d' Hd') as [[= <-]|(r' & y & Hy & Hyd)].
      * exists r, (with_content x (Some d)). by rewrite lookup_insert_eq.
      * exists r', y. split; [|done]. rewrite lookup_insert_ne; [done|congruence].
    + intros b' [y [[<- _]|[_ Hy]]%lookup_insert_Some]; apply Hlb; by eexists.
  - by eapply evolves_set_buffer.
Qed.

Lemma live_weaken st d : live None st -> live (Some d) st.
Proof. intros [Hd Hb]. split; [|done]. intros d' Hd'. destruct (Hd d' Hd'); [done|by right]. Qed.

(** What [link] does to the reference, and to nothing else. *)
Definition link_result (x : Reference) (dd : Referenced_data) (b : Referenced_buffer) (d : nat) : option nat :=
  if (data_address dd =? nullptr) || negb (granted x b) then None else Some d.

Lemma insert_same {A} (m : gmap nat A) i x : m !! i = Some x -> <[i := x]> m = m.
Proof. apply insert_id. Qed.

Lemma with_content_same x : m_content x = None -> with_content x None = x.
Proof. destruct x; simpl. by intros ->. Qed.

Lemma link_ok st r x d dd b :
  wf st -> live (Some d) st -> refs st !! r = Some x -> m_content x = None -> datas st !! d = Some dd ->
  buffers st !! data_buffer dd = Some b ->
  exists st', link r (Some d) st = Ret st' /\ inv st' /\
    refs st' = <[r := with_content x (link_result x dd b d)]> (refs st) /\
    next st' = next st /\ datas st' ⊆ datas st /\ evolves ∅ st st' /\
    (forall b, is_Some (buffers st' !! b) -> is_Some (buffers st !! b)).
Proof.
  intros Hwf Hl Hr Hc Hd Hb. unfold link. rewrite Hr; simpl.
  rewrite bool_decide_eq_false_2 by (rewrite Hc; by intros []). rewrite Hd; simpl. rewrite Hb; simpl.
  fold (negb (granted x b)). unfold link_result.
  destruct (collect_ok st d Hwf Hl) as (st' & Hrun & Hinv & Hrefs & Hnext & Hds & Hbs & He); [by eexists|].
  assert (Hrefused : exists st', collect d st = Ret st' /\ inv st' /\
    refs st' = <[r := with_content x None]> (refs st) /\ next st' = next st /\ datas st' ⊆ datas st /\ evolves ∅ st st' /\
    (forall b, is_Some (buffers st' !! b) -> is_Some (buffers st !! b))).
  { exists st'. split_and!; try done; [by rewrite with_content_same, insert_same|].
    intros b' [y Hy]. exists y. by eapply lookup_weaken. }
  destruct (data_address dd =? nullptr); simpl; [done|].
  assert (Hneg : (ref_R x && negb (m_read_locks b =? 0)) || (ref_W x && negb (m_write_locks b =? 0)) = negb (granted x b))
    by (unfold granted; by rewrite negb_involutive).
  rewrite Hneg. destruct (granted x b) eqn:Hg; simpl; [|done].
  destruct (linked_inv st r x d dd b Hwf Hl Hr Hc Hd Hb Hg) as [Hinv' He']. exists (linked r d x dd b st). split_and!; try done.
  - unfold linked. rewrite <- set_content_refs by done. reflexivity.
  - simpl. intros b' [y [[<- _]|[_ Hy]]%lookup_insert_Some]; by eexists.
Qed.

(** * The operations *)

(** The invariant holds in both states and buffers met their fate in between. *)
Definition steps_to (E : gset nat) (st st' : store) : Prop := inv st -> inv st' /\ evolves E st st'.

#[export] Instance steps_to_refl E : Reflexive (steps_to E).
Proof. intros st Hinv. split; [done|apply evolves_refl]. Qed.

#[export] Instance steps_to_trans E : Transitive (steps_to E).
Proof.
  intros st1 st2 st3 H12 H23 H1. destruct (H12 H1) as [H2 E12]. destruct (H23 H2) as [H3 E23]. split; [done|].
  eapply evolves_trans; [apply H1|done..].
Qed.

(** A non-null reference and the objects behind it. *)
Definition points_to (st : store) (r : nat) (x : Reference) (d : nat) (dd : Referenced_data) (b : Referenced_buffer) : Prop :=
  refs st !! r = Some x /\ m_content x = Some d /\ datas st !! d = Some dd /\ buffers st !! data_buffer dd = Some b.

Lemma linked_points_to st r x d :
  inv st -> refs st !! r = Some x -> m_content x = Some d -> exists dd b, points_to st r x d dd b.
Proof.
  intros [Hwf _] Hr Hc. destruct (wf_content _ Hwf _ _ _ Hr Hc) as [dd Hd]. destruct (wf_data _ Hwf _ _ Hd) as [b Hb].
  by exists dd, b.
Qed.

Lemma is_null_ok st r x :
  inv st -> refs st !! r = Some x ->
  exists n st', is_null r st = Ret (n, st') /\ steps_to ∅ st st' /\ next st' = next st /\
    match n with
    | true => refs st' = <[r := with_content x None]> (refs st)
    | false => st' = st /\ exists d dd b, points_to st r x d dd b /\ data_address dd <> nullptr
    end.
Proof.
  intros Hinv Hr. unfold is_null. rewrite Hr; simpl. destruct (m_content x) as [d|] eqn:Hc.
  - destruct (linked_points_to st r x d Hinv Hr Hc) as (dd & b & _ & _ & Hd & Hb). rewrite Hd; simpl.
    destruct (Z.eqb_spec (data_address dd) nullptr) as [Hn|Hn].
    + destruct (unlink_ok st r x d Hinv Hr Hc) as (st' & -> & Hinv' & Hrefs & Hnext & _ & He & _). simpl.
      exists true, st'. by split_and!.
    + exists false, st. split_and!; [done|reflexivity|done|done|]. by exists d, dd, b.
  - exists true, st. split_and!; [done|reflexivity|done|]. by rewrite with_content_same, insert_same.
Qed.

Lemma reset_ok st r x :
  inv st -> refs st !! r = Some x ->
  exists st', reset r st = Ret st' /\ steps_to ∅ st st' /\ next st' = next st /\
    refs st' = <[r := with_content x None]> (refs st) /\ datas st' ⊆ datas st.
Proof.
  intros Hinv Hr. unfold reset. rewrite Hr; simpl. destruct (m_content x) as [d|] eqn:Hc.
  - destruct (unlink_ok st r x d Hinv Hr Hc) as (st' & -> & Hinv' & Hrefs & Hnext & Hds & He & _). by exists st'.
  - exists st. split_and!; [done|reflexivity|done| |done]. by rewrite with_content_same, insert_same.
Qed.

Lemma get_content_ok st r x :
  inv st -> refs st !! r = Some x ->
  exists c, get_content st r = Ret c /\
    match c with
    | None => True
    | Some d => exists dd b, points_to st r x d dd b /\ data_address dd <> nullptr
    end.
Proof.
  intros Hinv Hr. unfold get_content. rewrite Hr; simpl. destruct (m_content x) as [d|] eqn:Hc; [|by exists None].
  destruct (linked_points_to st r x d Hinv Hr Hc) as (dd & b & ? & ? & Hd & Hb). rewrite Hd; simpl.
  destruct (Z.eqb_spec (data_address dd) nullptr); [by exists None|]. exists (Some d). split; [done|]. by exists dd, b.
Qed.

(** A reference object that holds nothing appears or disappears. *)
Lemma null_ref_inv st r o n :
  inv st -> (next st <= n)%nat -> (r < n)%nat ->
  (refs st !! r = None \/ exists y, refs st !! r = Some y /\ m_content y = None) ->
  (match o with None => True | Some x => m_content x = None end) ->
  inv (mkStore (partial_alter (fun _ => o) r (refs st)) (datas st) (buffers st) (freed st) n) /\
  evolves ∅ st (mkStore (partial_alter (fun _ => o) r (refs st)) (datas st) (buffers st) (freed st) n).
Proof.
  intros [[Hwc Hwd Hwl Hwn Hnr Hnd Hnb Hf Hfo] [Hld Hlb]] Hn Hrn Hr Ho.
  assert (Hold : forall r' y d, refs st !! r' = Some y -> m_content y = Some d -> r' <> r).
  { intros r' y d Hy Hyd ->. destruct Hr as [Hr|(z & Hz & Hzn)]; congruence. }
  assert (Hne : forall r' y d, partial_alter (fun _ => o) r (refs st) !! r' = Some y -> m_content y = Some d -> refs st !! r' = Some y).
  { intros r' y d Hy Hyd. destruct (decide (r' = r)) as [->|]; [|by rewrite lookup_partial_alter_ne in Hy].
    rewrite lookup_partial_alter_eq in Hy. subst o. congruence. }
  assert (Hcount : forall b P, count (into (datas st) b P) (partial_alter (fun _ => o) r (refs st)) = count (into (datas st) b P) (refs st)).
  { intros b P. assert (Hz : one (into (datas st) b P) (refs st !! r) = 0).
    { destruct Hr as [-> |(z & -> & Hz)]; [done|]. simpl. by rewrite into_None. }
    destruct o as [x|].
    - change (partial_alter (fun _ => Some x) r (refs st)) with (<[r := x]> (refs st)).
      rewrite count_insert, Hz. simpl. rewrite into_None by done. lia.
    - change (partial_alter (fun _ => None) r (refs st)) with (delete r (refs st)).
      rewrite count_delete, Hz. lia. }
  split; [split; split; simpl|split; simpl; [done..|]]; try done.
  - intros r' y d Hy Hyd. eapply Hwc; [by eapply Hne|done].
  - intros b y Hy. destruct (Hwl b y Hy) as (iw & ir & H). exists iw, ir. unfold users, writers, readers in *. simpl. by rewrite !Hcount.
  - intros b y Hy r' h Hh. destruct (Hwn b y Hy r' h Hh) as (z & Hz & Hzb). exists z. split; [|done]. simpl.
    rewrite lookup_partial_alter_ne; [done|]. unfold ref_buffer in Hzb. destruct (m_content z) as [d|] eqn:Hzd; [|done].
    intros ->. by apply (Hold r' z d).
  - intros r' [y Hy]. destruct (decide (r' = r)) as [->|]; [done|]. rewrite lookup_partial_alter_ne in Hy by done.
    specialize (Hnr r' ltac:(by eexists)). lia.
  - intros d Hd. specialize (Hnd d Hd). lia.
  - intros b Hb. specialize (Hnb b Hb). lia.
  - intros b Hb. destruct (Hf b Hb). split; [lia|done].
  - intros d Hd. destruct (Hld d Hd) as [|(r' & y & Hy & Hyd)]; [done|]. right. exists r', y. split; [|done].
    rewrite lookup_partial_alter_ne; [done|]. intros ->. by apply (Hold r' y d).
  - intros b y Hy. unfold fate; simpl. rewrite Hy. by left.
Qed.

Lemma new_null_ok st R W :
  inv st ->
  exists st', new_null R W st = (next st, st') /\ steps_to ∅ st st' /\
    refs st' = <[next st := mkReference R W None]> (refs st) /\ refs st !! next st = None /\
    datas st' = datas st /\ buffers st' = buffers st /\ next st' = S (next st).
Proof.
  intros Hinv. unfold new_null. eexists. split; [done|]. simpl.
  assert (Hfresh : refs st !! next st = None).
  { destruct (refs st !! next st) eqn:H; [|done]. destruct Hinv as [Hwf _]. pose proof (wf_next_refs _ Hwf (next st) ltac:(by eexists)). lia. }
  split_and!; try done. intros _. apply (null_ref_inv st (next st) (Some (mkReference R W None)) (S (next st))); [done|lia|lia|by left|done].
Qed.

Lemma delete_ref_ok st r x :
  inv st -> refs st !! r = Some x ->
  exists st', delete_ref r st = Ret st' /\ steps_to ∅ st st' /\ refs st' = delete r (refs st) /\ next st' = next st /\ datas st' ⊆ datas st.
Proof.
  intros Hinv Hr. unfold delete_ref. destruct (reset_ok st r x Hinv Hr) as (st1 & -> & H1 & Hn1 & Hr1 & Hds1). simpl.
  eexists. split; [done|]. simpl. rewrite Hr1, delete_insert_eq. split_and!; try done.
  etrans; [exact H1|]. intros Hinv1.
  pose proof (wf_next_refs _ (proj1 Hinv) r ltac:(by eexists)).
  pose proof (null_ref_inv st1 r None (next st1) Hinv1 ltac:(lia) ltac:(lia)) as Hni.
  apply Hni; [|done]. right. rewrite Hr1, lookup_insert_eq. by eexists.
Qed.
