(* ===== verification/RefOps.v ===== *)
(** Every operation on references preserves the invariant and never crashes;
    what each one does to the reference it is applied to. *)

From S2P Require Import Prelude Error ExprSyntax Datatype Layout Memory DenseCopy DenseCopyFacts Access Ref RefInv.

Lemma fresh_ref st r x : inv st -> refs st !! r = Some x -> r <> next st.
Proof. intros [Hwf _] Hr ->. pose proof (wf_next_refs _ Hwf (next st) ltac:(by eexists)). lia. Qed.

Lemma link_None st r x : refs st !! r = Some x -> m_content x = None -> link r None st = Ret st.
Proof. intros Hr Hc. unfold link. rewrite Hr; simpl. rewrite Hc. by rewrite bool_decide_eq_false_2 by (by intros []). Qed.

(** Copying: the new reference has the content of the other one, or is null. *)
Lemma new_copy_ok st R W other y :
  inv st -> refs st !! other = Some y ->
  exists st' c, new_copy R W other st = Ret (next st, st') /\ steps_to ∅ st st' /\
    refs st' = <[next st := mkReference R W c]> (refs st) /\ next st' = S (next st) /\ datas st' ⊆ datas st /\
    (forall d dd b, points_to st other y d dd b -> data_address dd <> nullptr ->
       c = if granted (mkReference R W None) b then Some d else None).
Proof.
  intros Hinv Hy. pose proof (fresh_ref _ _ _ Hinv Hy) as Hne. unfold new_copy.
  destruct (new_null_ok st R W Hinv) as (st1 & -> & H1 & Hr1 & Hf & Hd1 & Hb1 & Hn1).
  destruct (H1 Hinv) as [Hinv1 _].
  assert (Hy1 : refs st1 !! other = Some y) by (by rewrite Hr1, lookup_insert_ne).
  assert (Hx1 : refs st1 !! next st = Some (mkReference R W None)) by (by rewrite Hr1, lookup_insert_eq).
  unfold get_content. rewrite Hy1; simpl. destruct (m_content y) as [d|] eqn:Hc.
  2: { simpl. rewrite (link_None st1 _ _ Hx1) by done. simpl. exists st1, None. split_and!; try done; [by rewrite Hd1|].
       intros d dd b (_ & Hc' & _). congruence. }
  destruct (linked_points_to st other y d Hinv Hy Hc) as (dd & b & _ & _ & Hdd & Hb). rewrite Hd1, Hdd. simpl.
  destruct (Z.eqb_spec (data_address dd) nullptr) as [Hnull|Hnull].
  { simpl. rewrite (link_None st1 _ _ Hx1) by done. simpl. exists st1, None. split_and!; try done; [by rewrite Hd1|].
    intros d' dd' b' (_ & Hc' & Hd' & _) Hnn. congruence. }
  destruct (link_ok st1 (next st) (mkReference R W None) d dd b) as (st2 & -> & Hinv2 & Hr2 & Hn2 & Hds2 & He2 & _); try done.
  { apply Hinv1. } { by apply live_weaken, Hinv1. } { by rewrite Hd1. } { by rewrite Hb1. }
  simpl. eexists st2, _. split; [done|]. split_and!.
  - etrans; [exact H1|]. by intros _.
  - rewrite Hr2, Hr1, insert_insert_eq. unfold with_content; simpl. reflexivity.
  - congruence.
  - by rewrite <- Hd1.
  - intros d' dd' b' (_ & Hc' & Hd' & Hb') _. simplify_eq. unfold link_result.
    destruct (Z.eqb_spec (data_address dd) nullptr); [done|]. simpl. by destruct (granted _ _).
Qed.

(** The state after a move. *)
Definition stolen (r other d : nat) (xr xo : Reference) (dd : Referenced_data) (b : Referenced_buffer) (st : store) : store :=
  mkStore (<[other := with_content xo None]> (<[r := with_content xr (Some d)]> (refs st))) (datas st)
    (<[data_buffer dd := buffer_notifications (delete other) b]> (buffers st)) (freed st) (next st).

Lemma stolen_ok st r other xr xo d dd b :
  inv st -> refs st !! r = Some xr -> m_content xr = None -> points_to st other xo d dd b ->
  ref_R xr = ref_R xo -> ref_W xr = ref_W xo ->
  inv (stolen r other d xr xo dd b st) /\ evolves ∅ st (stolen r other d xr xo dd b st).
Proof.
  intros [[Hwc Hwd Hwl Hwn Hnr Hnd Hnb Hf Hfo] [Hld Hlb]] Hr Hcr (Ho & Hco & Hd & Hb) HR HW.
  assert (Hne : r <> other) by congruence.
  assert (Hcount : forall b' P, (forall c, P (with_content xr c) = P (with_content xo c)) ->
    count (into (datas st) b' P) (<[other := with_content xo None]> (<[r := with_content xr (Some d)]> (refs st)))
    = count (into (datas st) b' P) (refs st)).
  { intros b' P HP. rewrite (count_set _ _ other xo) by (by rewrite lookup_insert_ne).
    rewrite (count_set _ _ r xr) by done. rewrite (into_None _ _ _ xr) by done. rewrite (into_None _ _ _ (with_content xo None)) by done.
    assert (into (datas st) b' P (with_content xr (Some d)) = into (datas st) b' P xo) as ->; [|lia].
    unfold into, ref_buffer. simpl. rewrite Hco. simpl. rewrite HP. unfold with_content. rewrite <- Hco. by destruct xo. }
  split; [split|].
  - split; simpl; try done.
    + intros r' y d' Hy Hyd. apply lookup_insert_Some in Hy as [[_ <-]|[_ Hy]]; [done|].
      apply lookup_insert_Some in Hy as [[_ <-]|[_ Hy]]; [|by eapply Hwc]. simpl in Hyd. injection Hyd as <-. by eexists.
    + intros d' y Hy. apply lookup_insert_is_Some. destruct (decide (data_buffer dd = data_buffer y)); [by left|right]. eauto.
    + intros b' y Hy. assert (Hy' : exists z, buffers st !! b' = Some z /\ m_read_locks z = m_read_locks y /\ m_write_locks z = m_write_locks y).
      { apply lookup_insert_Some in Hy as [[<- <-]|[_ Hy]]; [by exists b|by exists y]. }
      destruct Hy' as (z & Hz & Hrl & Hwl'). destruct (Hwl b' z Hz) as (iw & ir & Hlk). exists iw, ir.
      unfold users, writers, readers in *. simpl. rewrite !Hcount, <- Hrl, <- Hwl'; [done|..]; intros c; unfold is_user, with_content; simpl; congruence.
    + intros b' y Hy r' h Hh. simpl.
      assert (Hz : r' <> other /\ exists z, refs st !! r' = Some z /\ ref_buffer (datas st) z = Some b').
      { apply lookup_insert_Some in Hy as [[<- <-]|[Hne' Hy]].
        - simpl in Hh. apply lookup_delete_Some in Hh as [? Hh]. split; [done|]. by apply (Hwn _ b Hb r' h).
        - destruct (Hwn b' y Hy r' h Hh) as (z & Hz & Hzb). split; [|by exists z]. intros ->.
          assert (z = xo) as -> by congruence. unfold ref_buffer in Hzb. rewrite Hco in Hzb. simpl in Hzb. rewrite Hd in Hzb. simpl in Hzb. congruence. }
      destruct Hz as (Hro & z & Hz & Hzb). exists z. rewrite lookup_insert_ne by done. rewrite lookup_insert_ne; [done|].
      intros <-. assert (z = xr) as -> by congruence. unfold ref_buffer in Hzb. by rewrite Hcr in Hzb.
    + intros r' [y [[<- _]|[_ [[<- _]|[_ Hy]]%lookup_insert_Some]]%lookup_insert_Some]; apply Hnr; by eexists.
    + intros b' [y [[<- _]|[_ Hy]]%lookup_insert_Some]; apply Hnb; by eexists.
    + intros b' Hb'. destruct (Hf b' Hb') as [? Hnone]. split; [done|]. rewrite lookup_insert_ne; [done|congruence].
  - split; simpl.
    + intros d' Hd'. right. destruct (decide (d' = d)) as [->|Hdne].
      * exists r, (with_content xr (Some d)). by rewrite lookup_insert_ne, lookup_insert_eq.
      * destruct (Hld d' Hd') as [|(r' & y & Hy & Hyd)]; [done|]. exists r', y. split; [|done].
        rewrite lookup_insert_ne by congruence. rewrite lookup_insert_ne; [done|congruence].
    + intros b' [y [[<- _]|[_ Hy]]%lookup_insert_Some]; apply Hlb; by eexists.
  - by eapply evolves_set_buffer.
Qed.

Lemma steal_ok st r other xr xo d dd b :
  inv st -> refs st !! r = Some xr -> m_content xr = None -> points_to st other xo d dd b ->
  ref_R xr = ref_R xo -> ref_W xr = ref_W xo ->
  steal r other st = Ret (stolen r other d xr xo dd b st).
Proof.
  intros Hinv Hr Hcr (Ho & Hco & Hd & Hb) HR HW. unfold steal.
  rewrite Ho; simpl. rewrite Hco; simpl. rewrite Hd; simpl. rewrite Hb; simpl. f_equal. unfold stolen.
  unfold set_content at 1. unfold set_refs. f_equal.
  - rewrite (set_content_refs _ r xr) by done. simpl. apply map_eq. intros i. destruct (decide (i = other)) as [->|].
    + rewrite lookup_alter_eq, lookup_insert_eq, lookup_insert_ne by congruence. by rewrite Ho.
    + rewrite lookup_alter_ne by done. by rewrite (lookup_insert_ne _ other) by done.
Qed.

Lemma new_move_ok st other xo :
  inv st -> refs st !! other = Some xo ->
  exists st', new_move other st = Ret (next st, st') /\ steps_to ∅ st st' /\ next st' = S (next st) /\
    refs st' = <[other := with_content xo None]> (<[next st := xo]> (refs st)).
Proof.
  intros Hinv Ho. pose proof (fresh_ref _ _ _ Hinv Ho) as Hne. unfold new_move. rewrite Ho. cbn [deref mbind outcome_bind].
  destruct (new_null_ok st (ref_R xo) (ref_W xo) Hinv) as (st1 & Heq & H1 & Hr1 & Hf & Hd1 & Hb1 & Hn1).
  rewrite Heq. destruct (H1 Hinv) as [Hinv1 _].
  destruct (m_content xo) as [d|] eqn:Hc.
  - destruct (linked_points_to st other xo d Hinv Ho Hc) as (dd & b & _ & _ & Hd & Hb).
    set (xr := mkReference (ref_R xo) (ref_W xo) None) in *.
    assert (Hpt : points_to st1 other xo d dd b).
    { split_and!; [by rewrite Hr1, lookup_insert_ne|done|by rewrite Hd1|by rewrite Hb1]. }
    assert (Hxr : refs st1 !! next st = Some xr) by (by rewrite Hr1, lookup_insert_eq).
    rewrite (steal_ok st1 (next st) other xr xo d dd b) by done. simpl.
    eexists. split; [done|]. split_and!; [|done|].
    + etrans; [exact H1|]. intros _. by eapply stolen_ok.
    + simpl. rewrite Hr1, insert_insert_eq. f_equal. f_equal. unfold with_content, xr; simpl. rewrite <- Hc. by destruct xo.
  - simpl. exists st1. split_and!; try done. rewrite Hr1, with_content_same by done.
    rewrite (insert_id _ other); [|by rewrite lookup_insert_ne]. f_equal. rewrite <- Hc. by destruct xo.
Qed.

Lemma assign_move_ok st r other xr xo :
  inv st -> refs st !! r = Some xr -> refs st !! other = Some xo -> ref_R xr = ref_R xo -> ref_W xr = ref_W xo ->
  exists st', assign_move r other st = Ret st' /\ steps_to ∅ st st' /\ next st' = next st.
Proof.
  intros Hinv Hr Ho HR HW. unfold assign_move. case_bool_decide as Heq; [by exists st|].
  destruct (reset_ok st r xr Hinv Hr) as (st1 & -> & H1 & Hn1 & Hr1 & _). simpl. destruct (H1 Hinv) as [Hinv1 _].
  assert (Ho1 : refs st1 !! other = Some xo) by (by rewrite Hr1, lookup_insert_ne).
  destruct (is_null_ok st1 other xo Hinv1 Ho1) as (n & st2 & -> & H2 & Hn2 & Hres). simpl.
  destruct n; [exists st2; split_and!; [done|by etrans|congruence]|].
  destruct Hres as (-> & d & dd & b & Hpt & _).
  set (x1 := with_content xr None) in *. assert (Hx1 : refs st1 !! r = Some x1) by (by rewrite Hr1, lookup_insert_eq).
  rewrite (steal_ok st1 r other x1 xo d dd b) by done.
  eexists. split; [done|]. split; [|done]. etrans; [exact H1|]. intros _. by eapply stolen_ok.
Qed.

Lemma assign_copy_ok st r other xr xo :
  inv st -> refs st !! r = Some xr -> refs st !! other = Some xo ->
  exists st', assign_copy r other st = Ret st' /\ steps_to ∅ st st' /\ next st' = next st.
Proof.
  intros Hinv Hr Ho. unfold assign_copy. case_bool_decide as Heq; [by exists st|].
  destruct (reset_ok st r xr Hinv Hr) as (st1 & -> & H1 & Hn1 & Hr1 & _). simpl. destruct (H1 Hinv) as [Hinv1 _].
  assert (Ho1 : refs st1 !! other = Some xo) by (by rewrite Hr1, lookup_insert_ne).
  assert (Hx1 : refs st1 !! r = Some (with_content xr None)) by (by rewrite Hr1, lookup_insert_eq).
  destruct (get_content_ok st1 other xo Hinv1 Ho1) as (c & -> & Hc). simpl. destruct c as [d|].
  - destruct Hc as (dd & b & (_ & _ & Hd & Hb) & _).
    destruct (link_ok st1 r (with_content xr None) d dd b) as (st2 & -> & Hinv2 & _ & Hn2 & _ & He2 & _); try done.
    { apply Hinv1. } { by apply live_weaken, Hinv1. }
    exists st2. split_and!; [done| |congruence]. etrans; [exact H1|]. by intros _.
  - rewrite (link_None st1 r _ Hx1) by done. by exists st1.
Qed.

(** ** New buffers and new data *)

(** The state after [make_buffer]. *)
Lemma make_buffer_ok st dl readable writable :
  inv st ->
  exists st', make_buffer dl readable writable st = (next st, st') /\ wf st' /\ evolves ∅ st st' /\
    refs st' = refs st /\ datas st' = datas st /\ next st' = S (next st) /\
    buffers st' = <[next st := mkBuffer (Some dl) (if readable then 0 else 1) (if writable then 0 else 1) ∅]> (buffers st).
Proof.
  intros [[Hwc Hwd Hwl Hwn Hnr Hnd Hnb Hf Hfo] [Hld Hlb]]. unfold make_buffer. eexists. split; [done|].
  assert (Hfresh : buffers st !! next st = None).
  { destruct (buffers st !! next st) eqn:H; [|done]. specialize (Hnb (next st) ltac:(by eexists)). lia. }
  assert (Hnone : forall r y, refs st !! r = Some y -> ref_buffer (datas st) y <> Some (next st)).
  { intros r y Hy Hby. unfold ref_buffer in Hby. destruct (m_content y) as [d|]; [|done]. simpl in Hby.
    destruct (datas st !! d) as [dd|] eqn:Hdd; [|done]. simpl in Hby. injection Hby as Hby.
    destruct (Hwd d dd Hdd) as [z Hz]. congruence. }
  assert (Hzero : forall P, count (into (datas st) (next st) P) (refs st) = 0).
  { intros P. apply count_zero. intros r y Hy. unfold into. rewrite (bool_decide_eq_false_2 _ (Hnone r y Hy)). by rewrite andb_false_r. }
  split_and!; try done.
  - split; simpl; try done.
    + intros d y Hy. apply lookup_insert_is_Some. right. split; [|by eapply Hwd]. intros Heq. destruct (Hwd d y Hy) as [z Hz]. congruence.
    + intros b y Hy. apply lookup_insert_Some in Hy as [[<- <-]|[_ Hy]]; [|by apply Hwl].
      exists (if writable then 0 else 1), (if readable then 0 else 1). unfold users, writers, readers. simpl. rewrite !Hzero.
      split_and!; [destruct writable; lia|destruct readable; lia|simpl; lia|simpl; lia|by left|done].
    + intros b y Hy r h Hh. apply lookup_insert_Some in Hy as [[<- <-]|[_ Hy]]; [simpl in Hh; by rewrite lookup_empty in Hh|].
      by eapply (Hwn b y).
    + intros r Hr. specialize (Hnr r Hr). lia.
    + intros d Hd. specialize (Hnd d Hd). lia.
    + intros b [y [[<- _]|[_ Hy]]%lookup_insert_Some]; [lia|]. specialize (Hnb b ltac:(by eexists)). lia.
    + intros b Hb. destruct (Hf b Hb). split; [lia|]. rewrite lookup_insert_ne; [done|lia].
  - split; simpl; [lia|done| |].
    + intros b Hlt Hb. split; [|done]. rewrite lookup_insert_ne; [done|lia].
    + intros b y Hy. unfold fate; simpl. rewrite lookup_insert_ne by congruence. rewrite Hy. by left.
Qed.

(** The state after [make_data]: only the caller holds the new data. *)
Lemma make_data_ok st bk data t :
  wf st -> (forall d, is_Some (datas st !! d) -> exists r x, refs st !! r = Some x /\ m_content x = Some d) ->
  (forall b, is_Some (buffers st !! b) -> b = bk \/ exists d x, datas st !! d = Some x /\ data_buffer x = b) ->
  is_Some (buffers st !! bk) -> data <> nullptr ->
  exists st', make_data bk data t st = Ret (next st, st') /\ wf st' /\ live (Some (next st)) st' /\ evolves ∅ st st' /\
    refs st' = refs st /\ buffers st' = buffers st /\ next st' = S (next st) /\
    datas st' = <[next st := mkData bk data t]> (datas st).
Proof.
  intros [Hwc Hwd Hwl Hwn Hnr Hnd Hnb Hf Hfo] Hld Hlb Hbk Hdata. unfold make_data.
  destruct (Z.eqb_spec data nullptr); [done|]. eexists. split; [done|].
  assert (Hfresh : datas st !! next st = None).
  { destruct (datas st !! next st) eqn:H; [|done]. specialize (Hnd (next st) ltac:(by eexists)). lia. }
  assert (Hsame : forall r y, refs st !! r = Some y ->
    ref_buffer (<[next st := mkData bk data t]> (datas st)) y = ref_buffer (datas st) y).
  { intros r y Hy. unfold ref_buffer. destruct (m_content y) as [d|] eqn:Hd; [|done]. simpl. rewrite lookup_insert_ne; [done|].
    destruct (Hwc r y d Hy Hd). congruence. }
  split_and!; try done.
  - split; simpl; try done.
    + intros r x d Hx Hd. apply lookup_insert_is_Some. destruct (decide (next st = d)); [by left|right]. split; [done|by eapply Hwc].
    + intros d x Hx. apply lookup_insert_Some in Hx as [[_ <-]|[_ Hx]]; [done|by eapply Hwd].
    + intros b y Hy. by eapply (locks_ok_ext st); [| |apply Hwl].
    + intros b y Hy. by eapply (notifications_ok_ext st); [| |apply Hwn].
    + intros r Hr. specialize (Hnr r Hr). lia.
    + intros d [y [[<- _]|[_ Hy]]%lookup_insert_Some]; [lia|]. specialize (Hnd d ltac:(by eexists)). lia.
    + intros b Hb. specialize (Hnb b Hb). lia.
    + intros b Hb. destruct (Hf b Hb). split; [lia|done].
  - split; simpl.
    + intros d [y [[<- _]|[_ Hy]]%lookup_insert_Some]; [by left|right]. apply Hld. by eexists.
    + intros b Hb. destruct (Hlb b Hb) as [->|(d & x & Hx & Hxb)].
      * exists (next st), (mkData bk data t). by rewrite lookup_insert_eq.
      * exists d, x. split; [|done]. rewrite lookup_insert_ne; [done|congruence].
  - split; simpl; [lia|done..|]. intros b y Hy. unfold fate; simpl. rewrite Hy. by left.
Qed.

Lemma new_ref_ok st R W data freefunc t readable writable :
  inv st ->
  (exists e, new_ref R W data freefunc t readable writable st = Throw e /\ status e = Some PDI_ERR_TYPE /\ data = nullptr) \/
  exists st' c, new_ref R W data freefunc t readable writable st = Ret (next st, st') /\ steps_to ∅ st st' /\
    (next st < next st')%nat /\ refs st' = <[next st := mkReference R W c]> (refs st) /\
    (forall d dd, (d < next st)%nat -> datas st' !! d = Some dd -> datas st !! d = Some dd) /\
    (data <> nullptr -> (R = false \/ readable = true) -> (W = false \/ writable = true) ->
       exists d b, c = Some d /\ datas st' !! d = Some (mkData b data t) /\
         (exists y, buffers st' !! b = Some y /\ m_deallocator y = Some (mkDeallocator data t freefunc)) /\ (next st <= d)%nat).
Proof.
  intros Hinv. unfold new_ref. destruct (negb _ && _ && _) eqn:Hchk; [left; bools; eexists; by split_and!|right].
  destruct (new_null_ok st R W Hinv) as (st1 & -> & H1 & Hr1 & Hf & Hd1 & Hb1 & Hn1). destruct (H1 Hinv) as [Hinv1 _].
  destruct (Z.eqb_spec data nullptr) as [Hnull|Hnull]; [exists st1, None; rewrite Hd1; split_and!; (done || lia)|].
  set (dl := mkDeallocator data t freefunc).
  destruct (make_buffer_ok st1 dl readable writable Hinv1) as (st2 & -> & Hwf2 & He2 & Hr2 & Hd2 & Hn2 & Hb2).
  destruct Hinv1 as [Hwf1 [Hld1 Hlb1]].
  destruct (make_data_ok st2 (next st1) data t) as (st3 & -> & Hwf3 & Hl3 & He3 & Hr3 & Hb3 & Hn3 & Hd3); try done.
  { intros d Hd. rewrite Hd2 in Hd. rewrite Hr2. by destruct (Hld1 d Hd). }
  { intros b [y Hy]. rewrite Hb2 in Hy. apply lookup_insert_Some in Hy as [[<- _]|[_ Hy]]; [by left|right].
    rewrite Hd2. apply Hlb1. by eexists. }
  { rewrite Hb2, lookup_insert_eq. by eexists. }
  assert (Hx3 : refs st3 !! next st = Some (mkReference R W None)) by (by rewrite Hr3, Hr2, Hr1, lookup_insert_eq).
  set (b := mkBuffer (Some dl) (if readable then 0 else 1) (if writable then 0 else 1) ∅).
  simpl. destruct (link_ok st3 (next st) (mkReference R W None) (next st2) (mkData (next st1) data t) b)
    as (st4 & Hlink & Hinv4 & Hr4 & Hn4 & Hds4 & He4 & _); try done.
  { by rewrite Hd3, lookup_insert_eq. } { simpl. by rewrite Hb3, Hb2, lookup_insert_eq. }
  rewrite Hlink. simpl. eexists st4, _. split; [done|]. split_and!.
  - etrans; [exact H1|]. intros [Hw1 Hl1]. split; [done|].
    eapply evolves_trans; [apply Hw1|exact He2|]. eapply evolves_trans; [apply Hwf2|exact He3|exact He4].
  - lia.
  - rewrite Hr4, Hr3, Hr2, Hr1, insert_insert_eq. unfold with_content; simpl. reflexivity.
  - intros d y Hlt Hy. apply (lookup_weaken _ _ _ _ Hy) in Hds4. rewrite Hd3, lookup_insert_ne, Hd2, Hd1 in Hds4 by lia. done.
  - intros _ HR HW. exists (next st2), (next st1).
    assert (Hg : granted (mkReference R W None) b = true).
    { unfold granted, b; simpl. destruct R, W, readable, writable; simpl in *; try done; destruct HR, HW; done. }
    unfold link_result. rewrite Hg. simpl. destruct (Z.eqb_spec data nullptr); [done|]. simpl. split; [done|].
    revert Hlink. unfold link. rewrite Hx3; simpl.
    rewrite Hd3, lookup_insert_eq; simpl. destruct (Z.eqb_spec data nullptr); [done|].
    rewrite Hb3, Hb2, lookup_insert_eq; simpl. unfold granted in Hg. simpl in Hg.
    apply negb_true_iff in Hg. rewrite Hg. intros [= <-]. simpl. rewrite Hd3, lookup_insert_eq. split; [done|].
    rewrite lookup_insert_eq. split; [eexists; split; [done|]; done|lia].
Qed.

(** ** Sub-references *)

(** The access neither fails nor gives a null address. *)
Definition access_ok (o : outcome (Z * Datatype)) : Prop :=
  match o with Ret (data, _) => data <> nullptr | Throw _ => True | Crash => False end.

Lemma sub_ref_ok st empty access r x :
  inv st -> refs st !! r = Some x ->
  (forall d dd b, points_to st r x d dd b -> access_ok (access (data_type dd) (data_address dd))) ->
  (exists e, sub_ref empty access r st = Throw e) \/
  exists st' d dd b data t, sub_ref empty access r st = Ret (next st, st') /\ steps_to ∅ st st' /\
    (next st < next st')%nat /\ points_to st r x d dd b /\ access (data_type dd) (data_address dd) = Ret (data, t) /\
    exists d', refs st' = <[next st := mkReference false false (Some d')]> (refs st) /\
      datas st' !! d' = Some (mkData (data_buffer dd) data t).
Proof.
  intros Hinv Hr Hacc. unfold sub_ref.
  destruct (is_null_ok st r x Hinv Hr) as (n & st0 & -> & H0 & Hn0 & Hres). cbn [deref mbind outcome_bind].
  destruct n; [left; by eexists|]. destruct Hres as (-> & d & dd & b & Hpt & Hnn).
  specialize (Hacc d dd b Hpt). pose proof Hpt as (_ & Hc & Hd & Hb).
  rewrite Hr. cbn [deref mbind outcome_bind]. rewrite Hc. cbn [deref mbind outcome_bind].
  rewrite Hd. cbn [deref mbind outcome_bind].
  destruct (access _ _) as [[data t]| e |] eqn:Ha; cbn [deref mbind outcome_bind access_ok] in *; [|left; by eexists|done]. right.
  destruct (new_null_ok st false false Hinv) as (st1 & -> & H1 & Hr1 & Hf & Hd1 & Hb1 & Hn1). destruct (H1 Hinv) as [[Hwf1 [Hld1 Hlb1]] _].
  destruct (make_data_ok st1 (data_buffer dd) data t) as (st2 & -> & Hwf2 & Hl2 & He2 & Hr2 & Hb2 & Hn2 & Hd2); try done.
  { intros d' Hd'. by destruct (Hld1 d' Hd'). } { intros b' Hb'. right. by apply Hlb1. } { rewrite Hb1. by eexists. }
  simpl. destruct (link_ok st2 (next st) (mkReference false false None) (next st1) (mkData (data_buffer dd) data t) b)
    as (st3 & Hlink & Hinv3 & Hr3 & Hn3 & _ & He3 & _); try done.
  { by rewrite Hr2, Hr1, lookup_insert_eq. } { by rewrite Hd2, lookup_insert_eq. } { simpl. by rewrite Hb2, Hb1. }
  rewrite Hlink. simpl. exists st3, d, dd, b, data, t. split_and!; try done.
  - etrans; [exact H1|]. intros [Hw1 Hl1]. split; [done|]. eapply evolves_trans; [apply Hw1|exact He2|exact He3].
  - lia.
  - exists (next st1). revert Hlink. unfold link_result in Hr3. unfold link.
    destruct (Z.eqb_spec data nullptr); [done|]. rewrite Hr2, Hr1, lookup_insert_eq; simpl.
    rewrite Hd2, lookup_insert_eq; simpl. destruct (Z.eqb_spec data nullptr); [done|]. rewrite Hb2, Hb1, Hb; simpl.
    intros [= <-]. simpl. rewrite Hd2, lookup_insert_eq. split; [|done].
    rewrite Hr2, Hr1. apply map_eq. intros i. destruct (decide (i = next st)) as [->|].
    + by rewrite lookup_alter_eq, !lookup_insert_eq.
    + by rewrite lookup_alter_ne, !lookup_insert_ne.
Qed.

(** ** Registrations *)

(** Changing the registrations of a buffer to references linked to it. *)
(** [dereference] returns or throws, and destroys its temporary. *)
Lemma dereference_ref_ok m st r x :
  inv st -> refs st !! r = Some x ->
  (forall d dd b, points_to st r x d dd b -> access_ok (dereference_data (data_type dd) m (data_address dd))) ->
  dereference_ref m r st <> Crash.
Proof.
  intros Hinv Hr Hacc. unfold dereference_ref.
  destruct (is_null_ok st r x Hinv Hr) as (n & st0 & -> & _ & _ & Hres). cbn [mbind outcome_bind]. destruct n; [done|].
  destruct Hres as (-> & d & dd & b & Hpt & Hnn). pose proof Hpt as (_ & Hc & Hd & _).
  rewrite Hr. cbn [deref mbind outcome_bind]. unfold type. rewrite Hr. cbn [deref mbind outcome_bind].
  rewrite Hc, Hd. cbn [deref mbind outcome_bind]. destruct (Z.eqb_spec (data_address dd) nullptr); [done|].
  destruct (is_pointer (data_type dd)) eqn:Hp; [|done]. cbn [negb].
  set (access t data := if is_pointer t then dereference_data t m data else Throw (Type_error "Cannot dereference a non pointer_type")).
  assert (Hacc' : forall r1 st1 x1, inv st1 -> refs st1 !! r1 = Some x1 -> (m_content x1 = Some d \/ m_content x1 = None) -> datas st1 ⊆ datas st ->
    (exists e, dereference_readable m r1 st1 = Throw e) \/
    exists st2 c, dereference_readable m r1 st1 = Ret (next st1, st2) /\ inv st2 /\ refs st2 = <[next st1 := mkReference false false c]> (refs st1)).
  { intros r1 st1 x1 Hinv1 Hr1 Hc1 Hsub. destruct (sub_ref_ok st1 "Cannot dereference an empty Ref" access r1 x1 Hinv1 Hr1)
      as [(e & He)|(st2 & ? & ? & ? & ? & ? & Hrun & Hst & _ & _ & _ & d' & Hrefs & _)].
    - intros d1 dd1 b1 (_ & Hd1 & Hdd1 & _). destruct Hc1 as [Hc1|Hc1]; [|congruence].
      assert (d1 = d) as -> by congruence. pose proof (lookup_weaken _ _ _ _ Hdd1 Hsub) as Hdd. rewrite Hd in Hdd. injection Hdd as <-.
      unfold access. rewrite Hp. by apply (Hacc d dd b).
    - left. by exists e.
    - right. exists st2, (Some d'). split; [exact Hrun|]. split; [by apply Hst|done]. }
  destruct (ref_R x).
  - by destruct (Hacc' r st x Hinv Hr (or_introl Hc)) as [(e & ->)|(st2 & c & -> & _)].
  - destruct (new_copy_ok st true false r x Hinv Hr) as (st1 & c & -> & Hst1 & Hrefs1 & Hn1 & Hsub & Hcont). cbn [mbind outcome_bind].
    destruct (Hacc' (next st) st1 (mkReference true false c)) as [(e & ->)|(st2 & c' & -> & Hinv2 & Hrefs2)]; try done.
    + by apply Hst1.
    + by rewrite Hrefs1, lookup_insert_eq.
    + rewrite (Hcont d dd b Hpt Hnn). destruct (granted _ _); [by left|by right].
    + cbn [mbind outcome_bind]. destruct (delete_ref_ok st2 (next st) (mkReference true false c) Hinv2) as (st3 & -> & _); [|done].
      rewrite Hrefs2, lookup_insert_ne by lia. by rewrite Hrefs1, lookup_insert_eq.
Qed.

Lemma set_notifications_ok st b y f :
  buffers st !! b = Some y ->
  (forall r h, f (m_notifications y) !! r = Some h -> exists z, refs st !! r = Some z /\ ref_buffer (datas st) z = Some b) ->
  steps_to ∅ st (set_buffers <[b := buffer_notifications f y]> st).
Proof.
  intros Hb Hf [[Hwc Hwd Hwl Hwn Hnr Hnd Hnb Hfr Hfo] [Hld Hlb]]. split; [split; split; simpl|]; try done.
  - intros d z Hz. apply lookup_insert_is_Some. destruct (decide (b = data_buffer z)); [by left|right]. eauto.
  - intros b' z Hz. apply lookup_insert_Some in Hz as [[<- <-]|[_ Hz]]; [|by apply Hwl].
    destruct (Hwl b y Hb) as (iw & ir & H). by exists iw, ir.
  - intros b' z Hz. apply lookup_insert_Some in Hz as [[<- <-]|[_ Hz]]; [|by apply Hwn]. intros r h Hh. by eapply Hf.
  - intros b' [z [[<- _]|[_ Hz]]%lookup_insert_Some]; apply Hnb; by eexists.
  - intros b' Hb'. destruct (Hfr b' Hb') as [? Hn]. split; [done|]. rewrite lookup_insert_ne; [done|congruence].
  - intros b' [z [[<- _]|[_ Hz]]%lookup_insert_Some]; apply Hlb; by eexists.
  - by eapply evolves_set_buffer.
Qed.

Lemma points_to_buffer st r x d dd b : points_to st r x d dd b -> ref_buffer (datas st) x = Some (data_buffer dd).
Proof. intros (_ & Hc & Hd & _). unfold ref_buffer. rewrite Hc; simpl. by rewrite Hd. Qed.

Lemma on_nullify_ok st r x h :
  inv st -> refs st !! r = Some x ->
  exists st', on_nullify r h st = Ret st' /\ steps_to ∅ st st' /\ next st' = next st /\
    (forall d dd b, points_to st r x d dd b -> data_address dd <> nullptr ->
       exists b', points_to st' r x d dd b' /\ m_notifications b' = <[r := h]> (m_notifications b)).
Proof.
  intros Hinv Hr. unfold on_nullify. destruct (is_null_ok st r x Hinv Hr) as (n & st0 & Hnull & H0 & Hn0 & Hres).
  rewrite Hnull. simpl. destruct n.
  - exists st0. split_and!; try done. intros d dd b (_ & Hc & Hd & _) Hnn. exfalso. revert Hnull.
    unfold is_null. rewrite Hr; simpl. rewrite Hc; simpl. rewrite Hd; simpl. destruct (Z.eqb_spec (data_address dd) nullptr); done.
  - destruct Hres as (-> & d & dd & b & Hpt & Hnn). pose proof Hpt as (_ & Hc & Hd & Hb).
    rewrite Hr; simpl. rewrite Hc; simpl. rewrite Hd; simpl. rewrite Hb; simpl. eexists. split; [done|]. split_and!; [|done|].
    + apply set_notifications_ok; [done|]. intros r' h' Hh. apply lookup_insert_Some in Hh as [[<- _]|[_ Hh]].
      * exists x. split; [done|by eapply points_to_buffer].
      * destruct Hinv as [Hwf _]. by eapply (wf_notifications _ Hwf).
    + intros d' dd' b' (_ & Hc' & Hd' & Hb') _. simplify_eq. eexists. split; [split_and!; simpl; [done..|]; by rewrite lookup_insert_eq|done].
Qed.

(** ** Release *)

(** The argument of a notification is a copy without any privilege: making it
    changes nothing else. *)
Lemma new_copy_plain st r x d dd b :
  inv st -> points_to st r x d dd b -> data_address dd <> nullptr ->
  exists st', new_copy false false r st = Ret (next st, st') /\ steps_to ∅ st st' /\ next st <> r /\
    refs st' !! next st = Some (mkReference false false (Some d)) /\
    exists b', points_to st' r x d dd b' /\ m_notifications b' = m_notifications b.
Proof.
  intros Hinv (Hr & Hc & Hd & Hb) Hnn. pose proof (fresh_ref _ _ _ Hinv Hr) as Hne.
  destruct (new_copy_ok st false false r x Hinv Hr) as (st' & c & Hrun & Hst & Hrefs & Hn & _ & Hcont).
  rewrite (Hcont d dd b) in Hrefs by done. simpl in Hrefs. exists st'. rewrite Hrefs, lookup_insert_eq. split_and!; try done.
  revert Hrun. unfold new_copy. destruct (new_null_ok st false false Hinv) as (st1 & -> & _ & Hr1 & _ & Hd1 & Hb1 & _).
  unfold get_content. rewrite Hr1, lookup_insert_ne, Hr by done. simpl. rewrite Hc, Hd1, Hd. simpl.
  destruct (Z.eqb_spec (data_address dd) nullptr); [done|]. simpl. unfold link.
  rewrite Hr1, lookup_insert_eq. simpl. rewrite Hd1, Hd. simpl. destruct (Z.eqb_spec (data_address dd) nullptr); [done|].
  rewrite Hb1, Hb. simpl. intros [= <-]. exists (buffer_locks b 0 0). split; [|done]. split_and!; simpl; try done.
  - rewrite lookup_alter_ne by done. by rewrite Hr1, lookup_insert_ne.
  - by rewrite Hd1.
  - by rewrite lookup_insert_eq.
Qed.

(** Destroying a reference whose data another one shares only removes its
    locks and its registration. *)
Lemma delete_ref_shared st r x d dd b arg y :
  inv st -> points_to st r x d dd b -> arg <> r -> refs st !! arg = Some y -> m_content y = Some d ->
  exists st' b', delete_ref arg st = Ret st' /\ steps_to ∅ st st' /\ points_to st' r x d dd b' /\
    m_notifications b' = delete arg (m_notifications b).
Proof.
  intros Hinv (Hr & Hc & Hd & Hb) Hne Hy Hyd. destruct (delete_ref_ok st arg y Hinv Hy) as (st' & Hrun & Hst & Hrefs & _).
  exists st'. revert Hrun. unfold delete_ref, reset. rewrite Hy; simpl. rewrite Hyd; simpl. unfold unlink.
  rewrite Hy; simpl. rewrite Hyd; simpl. rewrite Hd; simpl. rewrite Hb; simpl. unfold collect.
  rewrite bool_decide_eq_true_2 by (exists r, x; split; [simpl; by rewrite lookup_alter_ne|done]).
  simpl. intros [= <-]. eexists. split_and!; [done|done|..].
  - split_and!; simpl; [|done..|by rewrite lookup_insert_eq]. rewrite lookup_delete_ne by done. by rewrite lookup_alter_ne.
  - done.
Qed.

(** * Which references survive *)

(** A reference keeps existing, with the same rights. *)
Definition keeps_refs (st st' : store) : Prop :=
  forall r x, refs st !! r = Some x -> exists x', refs st' !! r = Some x' /\ ref_R x' = ref_R x /\ ref_W x' = ref_W x.

#[export] Instance keeps_refs_refl : Reflexive keeps_refs.
Proof. intros st r x Hr. by exists x. Qed.

#[export] Instance keeps_refs_trans : Transitive keeps_refs.
Proof.
  intros st1 st2 st3 H12 H23 r x Hr. destruct (H12 r x Hr) as (y & Hy & ? & ?). destruct (H23 r y Hy) as (z & Hz & ? & ?).
  exists z. split_and!; congruence.
Qed.

Lemma keeps_insert_fresh st st' x : inv st -> refs st' = <[next st := x]> (refs st) -> keeps_refs st st'.
Proof.
  intros Hinv Hrefs r y Hr. exists y. rewrite Hrefs, lookup_insert_ne; [done|]. intros <-. by apply (fresh_ref _ _ _ Hinv Hr).
Qed.

Lemma keeps_set_content st st' r x c : refs st !! r = Some x -> refs st' = <[r := with_content x c]> (refs st) -> keeps_refs st st'.
Proof.
  intros Hr Hrefs r' y Hy. rewrite Hrefs. destruct (decide (r' = r)) as [->|]; [|exists y; by rewrite lookup_insert_ne].
  rewrite lookup_insert_eq. eexists. split; [done|]. simplify_eq. done.
Qed.

(** A copy that is destroyed after another operation ran. *)
Lemma temporary_keeps st R W r x st1 st2 st3 y :
  inv st -> refs st !! r = Some x -> new_copy R W r st = Ret (next st, st1) -> keeps_refs st1 st2 ->
  inv st2 -> refs st2 !! next st = Some y -> delete_ref (next st) st2 = Ret st3 -> keeps_refs st st3.
Proof.
  intros Hinv Hr Hrun Hk Hinv2 Hy Hdel r0 x0 Hx0.
  destruct (new_copy_ok st R W r x Hinv Hr) as (st1' & c & Hrun' & _ & Hrefs & _). rewrite Hrun in Hrun'. injection Hrun' as <-.
  destruct (delete_ref_ok st2 (next st) y Hinv2 Hy) as (st3' & Hdel' & _ & Hrefs3 & _). rewrite Hdel in Hdel'. injection Hdel' as <-.
  pose proof (fresh_ref _ _ _ Hinv Hx0) as Hne.
  destruct (Hk r0 x0) as (x' & Hx' & ? & ?); [by rewrite Hrefs, lookup_insert_ne|]. exists x'. by rewrite Hrefs3, lookup_delete_ne.
Qed.

Section release.
  Context (notify : Z -> nat -> store -> outcome store).
  Context (begin : gmap nat Z -> option (nat * Z)).

(** [unordered_map::begin] gives an entry of the map, if there is one. *)
  Hypothesis begin_Some : forall m k h, begin m = Some (k, h) -> m !! k = Some h.
  Hypothesis begin_None : forall m, begin m = None -> m = ∅.

(** The functions registered on a buffer return normally, leave the released
    reference and their argument alone, register nothing new on it and destroy no
    reference that existed before. *)
Definition quiet (r : nat) : Prop :=
  forall f arg st x y d dd b,
    inv st -> points_to st r x d dd b -> refs st !! arg = Some y -> arg <> r ->
    exists st' b', notify f arg st = Ret st' /\ steps_to ∅ st st' /\ refs st' !! arg = Some y /\
      points_to st' r x d dd b' /\ m_notifications b' ⊆ m_notifications b /\ keeps_refs st st'.

Lemma notify_all_ok r : quiet r -> forall fuel st x d dd b,
  inv st -> points_to st r x d dd b -> data_address dd <> nullptr -> (size (m_notifications b) <= fuel)%nat ->
  exists st' b', notify_all notify begin fuel r st = Ret st' /\ steps_to ∅ st st' /\ points_to st' r x d dd b' /\
    m_notifications b' = ∅ /\ keeps_refs st st'.
Proof.
  intros Hquiet fuel. induction fuel as [|fuel IH]; intros st x d dd b Hinv Hpt Hnn Hsize; pose proof Hpt as (Hr & Hc & Hd & Hb);
    cbn [notify_all]; rewrite Hr; cbn [deref mbind outcome_bind]; rewrite Hc; cbn [deref mbind outcome_bind];
    rewrite Hd; cbn [deref mbind outcome_bind]; rewrite Hb; cbn [deref mbind outcome_bind].
  { assert (Hnil : m_notifications b = ∅) by (apply map_size_empty_inv; lia).
    destruct (begin _) as [[k h]|] eqn:Hbg; [|by exists st, b]. apply begin_Some in Hbg. by rewrite Hnil, lookup_empty in Hbg. }
  destruct (begin (m_notifications b)) as [[k h]|] eqn:Hbg; [|exists st, b; split_and!; (done || by apply begin_None)].
  apply begin_Some in Hbg.
  destruct (new_copy_plain st r x d dd b Hinv Hpt Hnn) as (st1 & Hrun1 & H1 & Hne & Ha1 & b1 & Hpt1 & Hnot1).
  rewrite Hrun1.
  destruct (H1 Hinv) as [Hinv1 _]. cbn [deref mbind outcome_bind].
  destruct (Hquiet h (next st) st1 x _ d dd b1 Hinv1 Hpt1 Ha1 Hne) as (st2 & b2 & -> & H2 & Ha2 & Hpt2 & Hnot2 & Hk2).
  destruct (H2 Hinv1) as [Hinv2 _]. cbn [deref mbind outcome_bind].
  destruct (delete_ref_shared st2 r x d dd b2 (next st) _ Hinv2 Hpt2 Hne Ha2 eq_refl) as (st3 & b3 & Hrun3 & H3 & Hpt3 & Hnot3).
  rewrite Hrun3.
  assert (Hk : keeps_refs st st3) by (by eapply temporary_keeps).
  destruct (H3 Hinv2) as [Hinv3 _]. pose proof Hpt3 as (Hr3 & Hc3 & Hd3 & Hb3).
  cbn [deref mbind outcome_bind]; rewrite Hr3; cbn [deref mbind outcome_bind]; rewrite Hc3; cbn [deref mbind outcome_bind];
    rewrite Hd3; cbn [deref mbind outcome_bind]; rewrite Hb3; cbn [deref mbind outcome_bind].
  assert (H4 : steps_to ∅ st3 (set_buffers <[data_buffer dd := buffer_notifications (delete k) b3]> st3)).
  { apply set_notifications_ok; [done|]. intros r' h' [_ Hh]%lookup_delete_Some. destruct Hinv3 as [Hwf3 _].
    by eapply (wf_notifications _ Hwf3). }
  destruct (H4 Hinv3) as [Hinv4 _].
  destruct (IH _ x d dd (buffer_notifications (delete k) b3) Hinv4) as (st5 & b5 & Hrun & H5 & Hpt5 & Hn5 & Hk5); try done.
  - split_and!; simpl; [done..|by rewrite lookup_insert_eq].
  - simpl. rewrite Hnot3. assert (Hsub : delete k (delete (next st) (m_notifications b2)) ⊆ delete k (m_notifications b)).
    { apply delete_mono. etrans; [apply delete_subseteq|]. by rewrite <- Hnot1. }
    apply map_subseteq_size in Hsub.
    assert (Hdel : size (delete k (m_notifications b)) = pred (size (m_notifications b))) by (apply map_size_delete_Some; by eexists).
    rewrite Hdel in Hsub.
    assert (size (m_notifications b) <> 0%nat) by (intros H0%map_size_empty_inv; by rewrite H0, lookup_empty in Hbg). lia.
  - exists st5, b5. split_and!; try done; [|by etrans]. etrans; [exact H1|]. etrans; [exact H2|]. etrans; [exact H3|]. by etrans.
Qed.

(** The state in which [release] unlinks: the data is null and the deallocator
    does nothing. *)
Definition released (d : nat) (dd : Referenced_data) (b : Referenced_buffer) (st : store) : store :=
  mkStore (refs st) (<[d := mkData (data_buffer dd) nullptr (data_type dd)]> (datas st))
    (<[data_buffer dd := mkBuffer None (m_read_locks b) (m_write_locks b) (m_notifications b)]> (buffers st))
    (freed st) (next st).

Lemma released_inv st r x d dd b :
  points_to st r x d dd b -> steps_to {[data_buffer dd]} st (released d dd b st).
Proof.
  intros (Hr & Hc & Hd & Hb) [[Hwc Hwd Hwl Hwn Hnr Hnd Hnb Hfr Hfo] [Hld Hlb]].
  assert (Hsame : forall r' y, refs st !! r' = Some y ->
    ref_buffer (<[d := mkData (data_buffer dd) nullptr (data_type dd)]> (datas st)) y = ref_buffer (datas st) y).
  { intros r' y Hy. unfold ref_buffer. destruct (m_content y) as [d'|]; [|done]. simpl. destruct (decide (d' = d)) as [->|].
    - rewrite lookup_insert_eq, Hd. done.
    - by rewrite lookup_insert_ne. }
  split; [split; split; simpl|]; try done.
  - intros r' y d' Hy Hyd. apply lookup_insert_is_Some. destruct (decide (d = d')); [by left|right]. split; [done|by eapply Hwc].
  - intros d' y Hy. apply lookup_insert_is_Some. destruct (decide (data_buffer dd = data_buffer y)); [by left|right]. split; [done|].
    apply lookup_insert_Some in Hy as [[_ <-]|[_ Hy]]; [done|by eapply Hwd].
  - intros b' y Hy. eapply (locks_ok_ext st); [done..|]. apply lookup_insert_Some in Hy as [[<- <-]|[_ Hy]]; [|by apply Hwl].
    destruct (Hwl _ b Hb) as (iw & ir & H). by exists iw, ir.
  - intros b' y Hy. eapply (notifications_ok_ext st); [done..|]. apply lookup_insert_Some in Hy as [[<- <-]|[_ Hy]]; [|by apply Hwn].
    by apply (Hwn _ b Hb).
  - intros d' [y [[<- _]|[_ Hy]]%lookup_insert_Some]; apply Hnd; by eexists.
  - intros b' [y [[<- _]|[_ Hy]]%lookup_insert_Some]; apply Hnb; by eexists.
  - intros b' Hb'. destruct (Hfr b' Hb') as [? Hn]. split; [done|]. rewrite lookup_insert_ne; [done|congruence].
  - intros d' [y [[<- _]|[_ Hy]]%lookup_insert_Some]; apply Hld; by eexists.
  - intros b' [y Hy]. assert (Hb' : is_Some (buffers st !! b')).
    { apply lookup_insert_Some in Hy as [[<- _]|[_ Hy]]; by eexists. }
    destruct (Hlb b' Hb') as (d' & z & Hz & Hzb). destruct (decide (d' = d)) as [->|].
    + exists d, (mkData (data_buffer dd) nullptr (data_type dd)). rewrite lookup_insert_eq. split; [done|]. simpl. congruence.
    + exists d', z. by rewrite lookup_insert_ne.
  - split; simpl; [done..| |].
    + intros b' Hlt Hb'. split; [|done]. rewrite lookup_insert_ne; [done|congruence].
    + intros b' y Hy. unfold fate; simpl. destruct (decide (b' = data_buffer dd)) as [->|].
      * rewrite lookup_insert_eq. right. split; [by apply elem_of_singleton|done].
      * rewrite lookup_insert_ne by done. rewrite Hy. by left.
Qed.

Lemma evolves_mono E E' st st' : E ⊆ E' -> evolves E st st' -> evolves E' st st'.
Proof.
  intros HE [Hn Hf Ho Ha]. split; [done..|]. intros b x Hx. specialize (Ha b x Hx). unfold fate in *.
  destruct (buffers st' !! b); [destruct Ha as [|[? ?]]; auto|]. destruct (m_deallocator x); [destruct Ha as [|[? ?]]; auto|done].
Qed.

Lemma steps_to_mono E E' st st' : E ⊆ E' -> steps_to E st st' -> steps_to E' st st'.
Proof. intros HE Hst Hinv. destruct (Hst Hinv). split; [done|by eapply evolves_mono]. Qed.

(** [release] gives the address back, leaves every reference to the data null,
    and the deallocator of the buffer does not run, then or later. *)
Lemma release_ok r fuel st x d dd b :
  quiet r -> inv st -> points_to st r x d dd b -> data_address dd <> nullptr -> (size (m_notifications b) <= fuel)%nat ->
  exists st', release notify begin fuel r st = Ret (data_address dd, st') /\ inv st' /\
    evolves {[data_buffer dd]} st st' /\ refs st' !! r = Some (with_content x None) /\
    (forall r', is_Some (refs st' !! r') -> get_content st' r' <> Ret (Some d)) /\
    (match buffers st' !! data_buffer dd with Some b' => m_deallocator b' = None | None => data_buffer dd ∉ freed_ids st' end) /\
    keeps_refs st st'.
Proof.
  intros Hquiet Hinv Hpt Hnn Hfuel. pose proof Hpt as (Hr & Hc & Hd & Hb). unfold release.
  assert (Hnull : is_null r st = Ret (false, st)).
  { unfold is_null. rewrite Hr; simpl. rewrite Hc; simpl. rewrite Hd; simpl. destruct (Z.eqb_spec (data_address dd) nullptr); done. }
  rewrite Hnull. cbn [deref mbind outcome_bind].
  destruct (notify_all_ok r Hquiet fuel st x d dd b Hinv Hpt Hnn Hfuel) as (st1 & b1 & -> & H1 & Hpt1 & Hn1 & Hk1).
  destruct (H1 Hinv) as [Hinv1 He1]. pose proof Hpt1 as (Hr1 & Hc1 & Hd1 & Hb1).
  cbn [deref mbind outcome_bind]; rewrite Hr1; cbn [deref mbind outcome_bind]; rewrite Hc1; cbn [deref mbind outcome_bind];
    rewrite Hd1; cbn [deref mbind outcome_bind]; rewrite Hb1; cbn [deref mbind outcome_bind].
  change (set_buffers _ _) with (released d dd b1 st1).
  pose proof (released_inv st1 r x d dd b1 Hpt1) as H2. destruct (H2 Hinv1) as [Hinv2 He2].
  destruct (unlink_ok (released d dd b1 st1) r x d Hinv2 Hr1 Hc1) as (st3 & -> & Hinv3 & Hr3 & Hn3 & Hds3 & He3 & Hb3).
  cbn [deref mbind outcome_bind]. exists st3.
  assert (Hev : evolves {[data_buffer dd]} st st3).
  { assert (∅ ⊆ ({[data_buffer dd]} : gset nat)) by set_solver.
    eapply evolves_trans; [apply Hinv|by eapply evolves_mono|]. eapply evolves_trans; [apply Hinv1|done|by eapply evolves_mono]. }
  split_and!; try done.
  - by rewrite Hr3, lookup_insert_eq.
  - intros r' [y Hy]. unfold get_content. rewrite Hy; simpl. destruct (m_content y) as [d'|]; [|done].
    destruct (datas st3 !! d') as [z|] eqn:Hz; simpl; [|done]. destruct (Z.eqb_spec (data_address z) nullptr) as [|Hznn]; [done|].
    intros [= ->]. apply Hznn. pose proof (lookup_weaken _ _ _ _ Hz Hds3) as Hz'. simpl in Hz'.
    rewrite lookup_insert_eq in Hz'. by injection Hz' as <-.
  - assert (Hb2 : buffers (released d dd b1 st1) !! data_buffer dd = Some (mkBuffer None (m_read_locks b1) (m_write_locks b1) (m_notifications b1)))
      by (simpl; by rewrite lookup_insert_eq).
    pose proof (ev_fate _ _ _ He3 _ _ Hb2) as Hfate. unfold fate in Hfate. simpl in Hfate.
    destruct (buffers st3 !! data_buffer dd); [destruct Hfate as [|[? ?]]; done|done].
  - etrans; [exact Hk1|]. eapply keeps_set_content; [exact Hr1|exact Hr3].
Qed.

(** Functions that leave the store alone: the loop changes neither the references
    nor the data of those that are left. *)
Lemma notify_all_silent fuel r st st' :
  (forall f arg st, notify f arg st = Ret st) -> inv st -> notify_all notify begin fuel r st = Ret st' ->
  refs st' = refs st /\ datas st' ⊆ datas st.
Proof.
  intros Hsilent. revert st. induction fuel as [|fuel IH]; intros st Hinv Hrun; cbn [notify_all] in Hrun;
    (destruct (refs st !! r) as [x|] eqn:Hr; [|done]; cbn [deref mbind outcome_bind] in Hrun);
    (destruct (m_content x) as [d|] eqn:Hc; [|done]; cbn [deref mbind outcome_bind] in Hrun);
    (destruct (datas st !! d) as [dd|] eqn:Hd; [|done]; cbn [deref mbind outcome_bind] in Hrun);
    (destruct (buffers st !! data_buffer dd) as [b|] eqn:Hb; [|done]; cbn [deref mbind outcome_bind] in Hrun);
    destruct (begin _) as [[k f]|]; try done; try (by injection Hrun as <-).
  destruct (new_copy_ok st false false r x Hinv Hr) as (st1 & c & E1 & H1 & Hrefs1 & _ & Hds1 & _). destruct (H1 Hinv) as [Hinv1 _].
  rewrite E1 in Hrun. cbn [mbind outcome_bind] in Hrun. rewrite Hsilent in Hrun. cbn [mbind outcome_bind] in Hrun.
  destruct (delete_ref_ok st1 (next st) (mkReference false false c) Hinv1) as (st2 & E2 & H2 & Hrefs2 & _ & Hds2); [by rewrite Hrefs1, lookup_insert_eq|].
  destruct (H2 Hinv1) as [Hinv2 _]. rewrite E2 in Hrun. cbn [mbind outcome_bind] in Hrun.
  assert (Hsame : refs st2 = refs st).
  { rewrite Hrefs2, Hrefs1, delete_insert_eq. apply delete_id. destruct (refs st !! next st) eqn:Hn; [|done]. by apply (fresh_ref _ _ _ Hinv) in Hn. }
  rewrite Hsame, Hr in Hrun. cbn [deref mbind outcome_bind] in Hrun. rewrite Hc in Hrun. cbn [deref mbind outcome_bind] in Hrun.
  destruct (datas st2 !! d) as [dd2|] eqn:Hd2; [|done]. cbn [deref mbind outcome_bind] in Hrun.
  destruct (buffers st2 !! data_buffer dd2) as [b2|] eqn:Hb2; [|done]. cbn [deref mbind outcome_bind] in Hrun.
  assert (H3 : steps_to ∅ st2 (set_buffers <[data_buffer dd2 := buffer_notifications (delete k) b2]> st2)).
  { apply set_notifications_ok; [done|]. intros r' h' [_ Hh]%lookup_delete_Some. by eapply (wf_notifications _ (proj1 Hinv2)). }
  destruct (H3 Hinv2) as [Hinv3 _]. apply IH in Hrun as [Hr3 Hd3]; [|done]. simpl in *. split; [by rewrite Hr3|].
  etrans; [exact Hd3|]. by etrans.
Qed.

Lemma release_silent fuel r st x d a st' :
  (forall f arg st, notify f arg st = Ret st) -> inv st -> refs st !! r = Some x -> m_content x = Some d -> is_null r st = Ret (false, st) ->
  (forall st1, notify_all notify begin fuel r st = Ret st1 -> inv st1) ->
  release notify begin fuel r st = Ret (a, st') ->
  refs st' = <[r := with_content x None]> (refs st) /\
  (forall d' z, d' <> d -> datas st' !! d' = Some z -> datas st !! d' = Some z).
Proof.
  intros Hsilent Hinv Hr Hc Hnull Hinv1 Hrun. unfold release in Hrun. rewrite Hnull in Hrun. cbn [mbind outcome_bind] in Hrun.
  destruct (notify_all _ _ _ _ _) as [st1|e|] eqn:Hall; [|done..]. cbn [mbind outcome_bind] in Hrun. specialize (Hinv1 st1 eq_refl).
  apply notify_all_silent in Hall as [Hrefs1 Hds1]; [|done..].
  rewrite Hrefs1, Hr in Hrun. cbn [deref mbind outcome_bind] in Hrun. rewrite Hc in Hrun. cbn [deref mbind outcome_bind] in Hrun.
  destruct (datas st1 !! d) as [dd|] eqn:Hd1; [|done]. cbn [deref mbind outcome_bind] in Hrun.
  destruct (buffers st1 !! data_buffer dd) as [b|] eqn:Hb1; [|done]. cbn [deref mbind outcome_bind] in Hrun.
  change (set_buffers _ _) with (released d dd b st1) in Hrun.
  assert (Hpt1 : points_to st1 r x d dd b) by (unfold points_to; rewrite Hrefs1; done).
  destruct (released_inv st1 r x d dd b Hpt1 Hinv1) as [Hinv2 _].
  destruct (unlink_ok (released d dd b st1) r x d Hinv2) as (st3 & E3 & _ & Hr3 & _ & Hds3 & _); [simpl; by rewrite Hrefs1|done|].
  rewrite E3 in Hrun. injection Hrun as _ <-. simpl in Hr3. split; [by rewrite Hr3, Hrefs1|].
  intros d' z Hne Hz. apply (lookup_weaken _ _ _ _ Hz) in Hds3. simpl in Hds3. rewrite lookup_insert_ne in Hds3 by done.
  by apply (lookup_weaken _ _ _ _ Hds3).
Qed.

End release.
