(* ===== verification/RefTheorems.v ===== *)
(** What references promise, for every sequence of operations: readers and
    writers exclude each other, no assertion fails, a buffer is freed exactly
    once and only when nothing refers to it any more, and a released buffer is
    never freed. *)

From S2P Require Import Prelude Error ExprSyntax Datatype Layout Memory DenseCopy DenseCopyFacts Access Ref RefInv RefOps.

(** What references rely on: the order in which the registrations are
    traversed, and registered functions that leave the released reference alone. *)
Class Callbacks := {
  notify : Z -> nat -> store -> outcome store;
  begin : gmap nat Z -> option (nat * Z);
  begin_Some : forall m k h, begin m = Some (k, h) -> m !! k = Some h;
  begin_None : forall m, begin m = None -> m = ∅;
  all_quiet : forall r, quiet notify r
}.

(** Registered functions that do nothing. *)
#[local] Instance silent_callbacks : Callbacks.
Proof.
  refine {| notify := fun _ _ st => Ret st; begin := fun m => head (map_to_list m) |}.
  - intros m k h Hm. apply elem_of_map_to_list. destruct (map_to_list m) as [|kh l]; [done|]. simpl in Hm.
    injection Hm as ->. apply list_elem_of_here.
  - intros m Hm. apply map_to_list_empty_iff. by destruct (map_to_list m).
  - intros r f arg st x y d dd b Hinv Hpt Harg Hne. exists st, b. by split_and!.
Defined.

Section reachable.
  Context {CB : Callbacks}.

(** One operation on a reference, from any client of the library. *)
Inductive ref_step : store -> store -> Prop :=
  | step_new_null R W st r st' : new_null R W st = (r, st') -> ref_step st st'
  | step_new_copy R W other st r st' :
      is_Some (refs st !! other) -> new_copy R W other st = Ret (r, st') -> ref_step st st'
  | step_new_move other st r st' :
      is_Some (refs st !! other) -> new_move other st = Ret (r, st') -> ref_step st st'
  | step_new_ref R W data freefunc t readable writable st r st' :
      new_ref R W data freefunc t readable writable st = Ret (r, st') -> ref_step st st'
  | step_delete_ref r st st' : is_Some (refs st !! r) -> delete_ref r st = Ret st' -> ref_step st st'
  | step_assign_move r other xr xo st st' :
      refs st !! r = Some xr -> refs st !! other = Some xo -> ref_R xr = ref_R xo -> ref_W xr = ref_W xo ->
      assign_move r other st = Ret st' -> ref_step st st'
  | step_assign_copy r other st st' :
      is_Some (refs st !! r) -> is_Some (refs st !! other) -> assign_copy r other st = Ret st' -> ref_step st st'
  | step_reset r st st' : is_Some (refs st !! r) -> reset r st = Ret st' -> ref_step st st'
  | step_is_null r n st st' : is_Some (refs st !! r) -> is_null r st = Ret (n, st') -> ref_step st st'
  | step_sub_ref empty access r x r' st st' :
      refs st !! r = Some x ->
      (forall d dd b, points_to st r x d dd b -> access_ok (access (data_type dd) (data_address dd))) ->
      sub_ref empty access r st = Ret (r', st') -> ref_step st st'
  | step_on_nullify r h st st' : is_Some (refs st !! r) -> on_nullify r h st = Ret st' -> ref_step st st'.

(** One operation, or the release of the buffers in [E]. *)
Inductive ref_step_or_release : gset nat -> store -> store -> Prop :=
  | step_other st st' : ref_step st st' -> ref_step_or_release ∅ st st'
  | step_release fuel r x d dd b data st st' :
      points_to st r x d dd b -> data_address dd <> nullptr -> (size (m_notifications b) <= fuel)%nat ->
      release notify begin fuel r st = Ret (data, st') -> ref_step_or_release {[data_buffer dd]} st st'.

(** The states any program reaches. *)
Definition reachable : store -> Prop := rtc (fun st st' => exists E, ref_step_or_release E st st') empty_store.

Lemma ref_step_ok st st' : ref_step st st' -> steps_to ∅ st st'.
Proof.
  intros Hstep Hinv. revert Hinv.
  destruct Hstep as [R W st r st' H|R W o st r st' [y Ho] H|o st r st' [y Ho] H|R W data ff t rd wr st r st' H
    |r st st' [x Hr] H|r o xr xo st st' Hr Ho HR HW H|r o st st' [x Hr] [y Ho] H|r st st' [x Hr] H|r n st st' [x Hr] H
    |em ac r x r' st st' Hr Hac H|r h st st' [x Hr] H]; intros Hinv.
  - destruct (new_null_ok st R W Hinv) as (st2 & Hrun & Hst & _). rewrite Hrun in H. injection H as <- <-. by apply Hst.
  - destruct (new_copy_ok st R W o y Hinv Ho) as (st2 & c & Hrun & Hst & _). rewrite Hrun in H. injection H as <- <-. by apply Hst.
  - destruct (new_move_ok st o y Hinv Ho) as (st2 & Hrun & Hst & _). rewrite Hrun in H. injection H as <- <-. by apply Hst.
  - destruct (new_ref_ok st R W data ff t rd wr Hinv) as [(e & Hrun & _)|(st2 & c & Hrun & Hst & _)]; rewrite Hrun in H;
      [done|]. injection H as <- <-. by apply Hst.
  - destruct (delete_ref_ok st r x Hinv Hr) as (st2 & Hrun & Hst & _). rewrite Hrun in H. injection H as <-. by apply Hst.
  - destruct (assign_move_ok st r o xr xo Hinv Hr Ho HR HW) as (st2 & Hrun & Hst & _). rewrite Hrun in H. injection H as <-. by apply Hst.
  - destruct (assign_copy_ok st r o x y Hinv Hr Ho) as (st2 & Hrun & Hst & _). rewrite Hrun in H. injection H as <-. by apply Hst.
  - destruct (reset_ok st r x Hinv Hr) as (st2 & Hrun & Hst & _). rewrite Hrun in H. injection H as <-. by apply Hst.
  - destruct (is_null_ok st r x Hinv Hr) as (n' & st2 & Hrun & Hst & _). rewrite Hrun in H. injection H as <- <-. by apply Hst.
  - destruct (sub_ref_ok st em ac r x Hinv Hr Hac) as [(e & Hrun)|(st2 & d & dd & b & a & t & Hrun & Hst & _)]; rewrite Hrun in H;
      [done|]. injection H as <- <-. by apply Hst.
  - destruct (on_nullify_ok st r x h Hinv Hr) as (st2 & Hrun & Hst & _). rewrite Hrun in H. injection H as <-. by apply Hst.
Qed.

Lemma ref_step_or_release_ok E st st' : ref_step_or_release E st st' -> steps_to E st st'.
Proof.
  intros Hstep. destruct Hstep as [st st' H|fuel r x d dd b data st st' Hpt Hnn Hfuel H]; [by apply ref_step_ok|].
  intros Hinv. destruct (release_ok notify begin begin_Some begin_None r fuel st x d dd b (all_quiet r) Hinv Hpt Hnn Hfuel)
    as (st2 & Hrun & Hinv2 & He & _). rewrite Hrun in H. by injection H as <- <-.
Qed.

Lemma inv_empty : inv empty_store.
Proof.
  split; split; simpl; try done; try (intros ? ? ?; rewrite lookup_empty; done); try (intros ? ?; rewrite lookup_empty; done);
    try (intros ? [? H]; by rewrite lookup_empty in H).
  - intros b Hb. by apply not_elem_of_nil in Hb.
  - constructor.
Qed.

Lemma reachable_inv st : reachable st -> inv st.
Proof.
  unfold reachable. intros H. assert (Hgen : forall st1, rtc (fun st st' => exists E, ref_step_or_release E st st') st1 st -> inv st1 -> inv st).
  { clear H. induction 1 as [|st1 st2 st3 [E Hstep] _ IH]; [done|]. intros Hinv. apply IH. by apply (ref_step_or_release_ok E st1). }
  eapply Hgen; [exact H|apply inv_empty].
Qed.

(** * More operations that return *)

Definition returns {A} (o : outcome A) : Prop := exists v, o = Ret v.

Lemma ref_eqb_ok st r o x y : inv st -> refs st !! r = Some x -> refs st !! o = Some y -> returns (ref_eqb r o st).
Proof.
  intros Hinv Hr Ho. unfold ref_eqb. destruct (is_null_ok st r x Hinv Hr) as (n & st' & -> & Hst & _ & Hres).
  cbn [mbind outcome_bind]. destruct (Hst Hinv) as [Hinv' _].
  assert (Hk : keeps_refs st st').
  { destruct n; [by apply (keeps_set_content st st' r x None)|]. destruct Hres as [-> _]. reflexivity. }
  destruct (Hk r x Hr) as (x' & Hx' & _). destruct (Hk o y Ho) as (y' & Hy' & _). rewrite Hx'. cbn [deref mbind outcome_bind].
  destruct (get_content_ok st' o y' Hinv' Hy') as (c & -> & _). by eexists.
Qed.

Lemma type_ok st r x : inv st -> refs st !! r = Some x -> returns (type r st).
Proof.
  intros Hinv Hr. unfold type. rewrite Hr. cbn [deref mbind outcome_bind]. destruct (m_content x) as [d|] eqn:Hc; [|by eexists].
  destruct (linked_points_to st r x d Hinv Hr Hc) as (dd & b & _ & _ & -> & _). by eexists.
Qed.

Lemma get_ok st r x : inv st -> refs st !! r = Some x -> returns (get_nothrow r st) /\ get r st <> Crash.
Proof.
  intros Hinv Hr. unfold get_nothrow, get. destruct (is_null_ok st r x Hinv Hr) as (n & st' & -> & _ & _ & Hres).
  cbn [mbind outcome_bind]. destruct n; [split; [by eexists|done]|].
  destruct Hres as (-> & d & dd & b & (_ & Hc & Hd & _) & _). rewrite Hr. cbn [deref mbind outcome_bind]. rewrite Hc.
  cbn [deref mbind outcome_bind]. rewrite Hd. split; [by eexists|done].
Qed.

Lemma release_returns st r x fuel :
  inv st -> refs st !! r = Some x -> (forall d dd b, points_to st r x d dd b -> (size (m_notifications b) <= fuel)%nat) ->
  returns (release notify begin fuel r st).
Proof.
  intros Hinv Hr Hfuel. destruct (is_null_ok st r x Hinv Hr) as (n & st' & Hn & _ & _ & Hres). destruct n.
  - exists (nullptr, st'). unfold release. by rewrite Hn.
  - destruct Hres as (-> & d & dd & b & Hpt & Hnn).
    destruct (release_ok notify begin begin_Some begin_None r fuel st x d dd b (all_quiet r) Hinv Hpt Hnn (Hfuel d dd b Hpt))
      as (st2 & -> & _). by eexists.
Qed.

(** * Theorems *)

(** C6: readers and writers exclude each other: in every state a program can
    reach, while a reference with write access is linked to a buffer, no other
    reference linked to that buffer, even to another part of it, can read or
    write it. *)
Theorem readers_writers_exclusion st r r' x x' d d' dd dd' b b' :
  reachable st -> points_to st r x d dd b -> points_to st r' x' d' dd' b' ->
  data_buffer dd = data_buffer dd' -> r <> r' -> ref_W x = true -> ref_R x' = false /\ ref_W x' = false.
Proof.
  intros Hreach Hpt Hpt' Hsame Hne HW. destruct (reachable_inv st Hreach) as [Hwf _].
  pose proof Hpt as (Hr & Hc & Hd & Hb). pose proof Hpt' as (Hr' & Hc' & Hd' & Hb').
  destruct (wf_locks _ Hwf _ _ Hb) as (iw & ir & _ & _ & _ & _ & Hex & _). unfold writers, users in Hex.
  assert (HW1 : into (datas st) (data_buffer dd) ref_W x = true) by (by rewrite (into_at _ d dd)).
  assert (HU1 : into (datas st) (data_buffer dd) is_user x = true)
    by (rewrite (into_at _ d dd) by done; unfold is_user; by rewrite HW, orb_true_r).
  assert (HU2 : into (datas st) (data_buffer dd) is_user x' = is_user x') by (rewrite Hsame; by rewrite (into_at _ d' dd')).
  destruct Hex as [Hz|(_ & Hone & _)]; [by rewrite (count_zero_inv _ _ r x Hz Hr) in HW1|].
  destruct (is_user x') eqn:Hu; [|by apply orb_false_iff in Hu].
  pose proof (count_two _ _ r r' x x' Hr Hr' Hne HU1 HU2). lia.
Qed.

(** In every state a program can reach, a copy of a non-null reference is
    granted exactly when the locks allow it: the copy has the content of the
    original if the buffer has no writer (to read) or no user at all (to
    write), and is null otherwise; nothing else changes. *)
Theorem copy_is_granted_by_the_locks st R W r x d dd b :
  reachable st -> points_to st r x d dd b -> data_address dd <> nullptr ->
  exists st', new_copy R W r st = Ret (next st, st') /\
    refs st' = <[next st := mkReference R W
      (if (negb R || (m_read_locks b =? 0)) && (negb W || (m_write_locks b =? 0)) then Some d else None)]> (refs st).
Proof.
  intros Hreach Hpt Hnn. pose proof (reachable_inv st Hreach) as Hinv. pose proof Hpt as (Hr & _).
  destruct (new_copy_ok st R W r x Hinv Hr) as (st' & c & Hrun & _ & Hrefs & _ & _ & Hc). exists st'. split; [done|].
  rewrite Hrefs, (Hc d dd b Hpt Hnn). do 2 f_equal. unfold granted. simpl.
  destruct R, W, (m_read_locks b =? 0), (m_write_locks b =? 0); done.
Qed.

(** The counters of locks stay small: one lock of its own at most, plus, to
    read, one writer at most, and, to write, one per reference object. *)
Lemma locks_fit_in_an_int st b x :
  reachable st -> buffers st !! b = Some x ->
  0 <= m_read_locks x <= 2 /\ 0 <= m_write_locks x <= 1 + Z.of_nat (size (refs st)).
Proof.
  intros Hreach Hb. destruct (reachable_inv st Hreach) as [Hwf _].
  destruct (wf_locks _ Hwf _ _ Hb) as (iw & ir & Hiw & Hir & -> & -> & Hex & _).
  pose proof (count_bounds st b) as (? & _ & ? & _).
  assert (users st b <= Z.of_nat (size (refs st))).
  { unfold users, count. apply inj_le. apply map_subseteq_size, map_filter_subseteq. }
  lia.
Qed.

(** C12: no operation on references ever fails an assertion or follows a
    dangling pointer, in every state a program can reach.  Testing, copying,
    moving, assigning, comparing, resetting, releasing and destroying a
    reference, and registering a function on it, return; constructing one,
    getting its address, taking a component of its data and dereferencing it
    return or throw.  What is asked of the components is what the code asserts:
    the access to the data neither fails nor gives a null address, which a null
    pointer in the data would; an assignment is between references of the same
    rights; and [release] may call as many functions as are registered. *)
Theorem references_never_crash st r o x y R W h empty access m fuel data freefunc t readable writable :
  reachable st -> refs st !! r = Some x -> refs st !! o = Some y -> ref_R x = ref_R y -> ref_W x = ref_W y ->
  (forall d dd b, points_to st r x d dd b ->
     access_ok (access (data_type dd) (data_address dd)) /\
     access_ok (dereference_data (data_type dd) m (data_address dd)) /\ (size (m_notifications b) <= fuel)%nat) ->
  returns (reset r st) /\ returns (delete_ref r st) /\ returns (is_null r st) /\ returns (new_copy R W r st) /\
  returns (new_move r st) /\ returns (assign_move r o st) /\ returns (assign_copy r o st) /\ returns (ref_eqb r o st) /\
  returns (type r st) /\ returns (get_nothrow r st) /\ returns (on_nullify r h st) /\
  returns (release notify begin fuel r st) /\
  new_ref R W data freefunc t readable writable st <> Crash /\ get r st <> Crash /\
  sub_ref empty access r st <> Crash /\ dereference_ref m r st <> Crash.
Proof.
  intros Hreach Hr Ho HR HW Hac. pose proof (reachable_inv st Hreach) as Hinv. split_and!.
  - destruct (reset_ok st r x Hinv Hr) as (? & -> & _). by eexists.
  - destruct (delete_ref_ok st r x Hinv Hr) as (? & -> & _). by eexists.
  - destruct (is_null_ok st r x Hinv Hr) as (? & ? & -> & _). by eexists.
  - destruct (new_copy_ok st R W r x Hinv Hr) as (? & ? & -> & _). by eexists.
  - destruct (new_move_ok st r x Hinv Hr) as (? & -> & _). by eexists.
  - destruct (assign_move_ok st r o x y Hinv Hr Ho HR HW) as (? & -> & _). by eexists.
  - destruct (assign_copy_ok st r o x y Hinv Hr Ho) as (? & -> & _). by eexists.
  - by apply (ref_eqb_ok st r o x y).
  - by apply (type_ok st r x).
  - by apply (get_ok st r x).
  - destruct (on_nullify_ok st r x h Hinv Hr) as (? & -> & _). by eexists.
  - apply (release_returns st r x fuel Hinv Hr). intros d dd b Hpt. by apply (Hac d dd b).
  - destruct (new_ref_ok st R W data freefunc t readable writable Hinv) as [(? & -> & _)|(? & ? & -> & _)]; done.
  - by apply (get_ok st r x).
  - destruct (sub_ref_ok st empty access r x Hinv Hr) as [(? & ->)|(? & ? & ? & ? & ? & ? & -> & _)]; [|done..].
    intros d dd b Hpt. by apply (Hac d dd b).
  - apply (dereference_ref_ok m st r x Hinv Hr). intros d dd b Hpt. by apply (Hac d dd b).
Qed.

(** C13: memory is neither freed twice nor leaked: in every state a program can
    reach, no deallocator has run twice, none has run for a buffer still alive,
    and once no reference is linked any more there is no buffer left. *)
Theorem buffers_are_freed_once st :
  reachable st ->
  NoDup (freed_ids st) /\ (forall b, b ∈ freed_ids st -> buffers st !! b = None) /\
  ((forall r x, refs st !! r = Some x -> m_content x = None) -> datas st = ∅ /\ buffers st = ∅).
Proof.
  intros Hreach. destruct (reachable_inv st Hreach) as [Hwf [Hld Hlb]]. split_and!.
  - apply Hwf.
  - intros b Hb. by apply Hwf.
  - intros Hnull. assert (Hd : datas st = ∅).
    { apply map_empty. intros d. destruct (datas st !! d) as [z|] eqn:Hd; [|done]. exfalso.
      destruct (Hld d ltac:(by eexists)) as [|(r & x & Hx & Hxd)]; [done|]. rewrite (Hnull r x Hx) in Hxd. done. }
    split; [done|]. apply map_empty. intros b. destruct (buffers st !! b) as [z|] eqn:Hb; [|done]. exfalso.
    destruct (Hlb b ltac:(by eexists)) as (d' & y & Hy & _). by rewrite Hd, lookup_empty in Hy.
Qed.

(** An operation other than a release never loses a deallocator: the buffer
    keeps it, or is destroyed and its deallocator has just been run on it. *)
Theorem buffers_meet_their_fate st st' b x dl :
  reachable st -> ref_step st st' -> buffers st !! b = Some x -> m_deallocator x = Some dl ->
  (exists x', buffers st' !! b = Some x' /\ m_deallocator x' = Some dl) \/
  (buffers st' !! b = None /\ (b, dl) ∈ freed st').
Proof.
  intros Hreach Hstep Hx Hdl. destruct (ref_step_ok st st' Hstep (reachable_inv st Hreach)) as [_ He].
  pose proof (ev_fate _ _ _ He b x Hx) as Hf. unfold fate in Hf. rewrite Hdl in Hf.
  destruct (buffers st' !! b) as [x'|]; [left|right].
  - exists x'. destruct Hf as [|[? ?]]; [by split|set_solver].
  - destruct Hf as [|[? ?]]; [done|set_solver].
Qed.

(** [release] gives the address of the data back to its caller, nullifies
    every reference to that data, and its buffer is never freed. *)
Theorem release_gives_data_back r fuel st x d dd b :
  reachable st -> points_to st r x d dd b -> data_address dd <> nullptr -> (size (m_notifications b) <= fuel)%nat ->
  exists st', release notify begin fuel r st = Ret (data_address dd, st') /\ reachable st' /\
    (forall r', is_Some (refs st' !! r') -> get_content st' r' <> Ret (Some d)) /\
    (match buffers st' !! data_buffer dd with
     | Some b' => m_deallocator b' = None
     | None => data_buffer dd ∉ freed_ids st'
     end).
Proof.
  intros Hreach Hpt Hnn Hfuel. pose proof (reachable_inv st Hreach) as Hinv.
  destruct (release_ok notify begin begin_Some begin_None r fuel st x d dd b (all_quiet r) Hinv Hpt Hnn Hfuel)
    as (st' & Hrun & _ & _ & _ & Hnull & Hfate & _).
  exists st'. split_and!; try done. eapply rtc_r; [exact Hreach|]. eexists. by eapply step_release.
Qed.

End reachable.

(** * A small program *)

(** A reference with full access to an integer at address 4096, then a copy of
    it without privileges. *)
Definition demo_type : Datatype := Scalar_datatype [] SIGNED 4 4 4 None None.

Definition state_of (o : outcome (nat * store)) : store := match o with Ret (_, st) => st | _ => empty_store end.

Definition demo1 : store := state_of (new_ref true true 4096 7 demo_type true true empty_store).
Definition demo2 : store := state_of (new_copy false false 0 demo1).

Definition demo_data : Referenced_data := mkData 1 4096 demo_type.
Definition demo_buffer : Referenced_buffer := mkBuffer (Some (mkDeallocator 4096 demo_type 7)) 1 1 ∅.

Lemma demo2_reachable : reachable demo2.
Proof.
  eapply rtc_l; [exists ∅; apply step_other; eapply (step_new_ref true true 4096 7 demo_type true true _ 0 demo1); by vm_compute|].
  eapply rtc_l; [exists ∅; apply step_other; eapply (step_new_copy false false 0 _ 3 demo2); [by eexists|by vm_compute]|].
  apply rtc_refl.
Defined.

Lemma demo2_points_to_0 : points_to demo2 0 (mkReference true true (Some 2%nat)) 2 demo_data demo_buffer.
Proof. split_and!; by vm_compute. Defined.

Lemma demo2_points_to_3 : points_to demo2 3 (mkReference false false (Some 2%nat)) 2 demo_data demo_buffer.
Proof. split_and!; by vm_compute. Defined.

Lemma readers_writers_exclusion_witness : false = false /\ false = false.
Proof.
  apply (readers_writers_exclusion demo2 0 3 _ (mkReference false false (Some 2%nat)) _ _ _ _ _ _
           demo2_reachable demo2_points_to_0 demo2_points_to_3); done.
Defined.

Lemma copy_is_granted_by_the_locks_witness :
  exists st', new_copy true false 3 demo2 = Ret (next demo2, st') /\
    refs st' = <[next demo2 := mkReference true false None]> (refs demo2).
Proof. apply (copy_is_granted_by_the_locks demo2 true false 3 _ _ _ _ demo2_reachable demo2_points_to_3). done. Defined.

Lemma references_never_crash_witness :
  returns (reset 0 demo2) /\ returns (delete_ref 0 demo2) /\ returns (is_null 0 demo2) /\ returns (new_copy true true 0 demo2) /\
  returns (new_move 0 demo2) /\ returns (assign_move 0 0 demo2) /\ returns (assign_copy 0 0 demo2) /\ returns (ref_eqb 0 0 demo2) /\
  returns (type 0 demo2) /\ returns (get_nothrow 0 demo2) /\ returns (on_nullify 0 9 demo2) /\
  returns (release notify begin 0 0 demo2) /\
  new_ref true true 0 7 demo_type true true demo2 <> Crash /\ get 0 demo2 <> Crash /\
  sub_ref "empty" (fun t p => Ret (p, t)) 0 demo2 <> Crash /\ dereference_ref ∅ 0 demo2 <> Crash.
Proof.
  apply (references_never_crash demo2 0 0 _ _ true true 9 "empty" (fun t p => Ret (p, t)) ∅ 0 0 7 demo_type true true demo2_reachable
           (proj1 demo2_points_to_0) (proj1 demo2_points_to_0)); [done..|].
  intros d dd b (Hr & Hc & Hd & Hb). vm_compute in Hc. injection Hc as <-.
  vm_compute in Hd. injection Hd as <-. vm_compute in Hb. injection Hb as <-. split_and!; [done..|by vm_compute].
Defined.

Lemma buffers_are_freed_once_witness :
  NoDup (freed_ids demo2) /\ (forall b, b ∈ freed_ids demo2 -> buffers demo2 !! b = None) /\
  ((forall r x, refs demo2 !! r = Some x -> m_content x = None) -> datas demo2 = ∅ /\ buffers demo2 = ∅).
Proof. apply (buffers_are_freed_once demo2 demo2_reachable). Defined.

Lemma buffers_meet_their_fate_witness :
  exists st', delete_ref 0 demo2 = Ret st' /\
  ((exists x', buffers st' !! 1%nat = Some x' /\ m_deallocator x' = Some (mkDeallocator 4096 demo_type 7)) \/
   (buffers st' !! 1%nat = None /\ (1%nat, mkDeallocator 4096 demo_type 7) ∈ freed st')).
Proof.
  eexists. split; [vm_compute; reflexivity|].
  apply (buffers_meet_their_fate demo2 _ 1 demo_buffer (mkDeallocator 4096 demo_type 7) demo2_reachable); [|done..].
  apply (step_delete_ref 0); [by eexists|by vm_compute].
Defined.

Lemma release_gives_data_back_witness :
  exists st', release notify begin 0 0 demo2 = Ret (4096, st') /\ reachable st' /\
    (forall r', is_Some (refs st' !! r') -> get_content st' r' <> Ret (Some 2%nat)) /\
    (match buffers st' !! 1%nat with Some b' => m_deallocator b' = None | None => 1%nat ∉ freed_ids st' end).
Proof.
  apply (release_gives_data_back 0 0 demo2 _ _ _ _ demo2_reachable demo2_points_to_0); [done|]. by vm_compute.
Defined.
