(* ===== verification/RefCopy.v ===== *)
(** Deep copy of the data behind a reference: [Reference_base::do_copy]
    ([pdi/src/ref_any.cxx]). *)

From S2P Require Import Prelude Error ExprSyntax Datatype Layout Memory DenseCopy DenseCopyFacts RoundTrip Access Ref RefInv RefOps RefTheorems.

(** What [operator new(size)] promises: a non-null block that was not
    allocated, the rest of the memory being unchanged. *)
Class Allocator := {
  operator_new : mem -> Z -> Z * mem;
  new_fresh : forall m n x, fst (operator_new m n) <= x < fst (operator_new m n) + n -> m !! x = None;
  new_allocated : forall m n, allocated (snd (operator_new m n)) (fst (operator_new m n)) n;
  new_frame : forall m n, frame m (snd (operator_new m n)) (fst (operator_new m n)) n;
  new_positive : forall m n, 0 < fst (operator_new m n)
}.

Section do_copy.
  Context {AL : Allocator}.
  Context (run_copy : Z -> mem -> Z -> Z -> outcome (mem * Z)).

(** [std::align] takes its pointer by reference: both [data] and [buffer] are
    the aligned address afterwards.  The deallocator calls
    [operator delete(buffer)], here its handle is that address. *)
Definition do_copy (ref : nat) (m : mem) (st : store) : outcome (nat * mem * store) :=
  t ← type ref st;
  densified_type ← densify t;
  if buffersize densified_type =? 0 then let '(r, st) := new_null false false st in Ret (r, m, st)
  else
    let size := buffersize densified_type +s (alignment densified_type -s 1) in
    let '(buffer, m) := operator_new m size in
    data ← std_align (alignment densified_type) (buffersize densified_type) buffer size;
    let buffer := if data =? nullptr then buffer else data in
    '(from, st) ← get ref st;
    '(m, _) ← data_to_dense_copy run_copy t m data from;
    '(r, st) ← new_ref false false data buffer densified_type true true st;
    Ret (r, m, st).

(** Aligning inside the block [do_copy] allocates. *)
Lemma align_in_block a n p :
  pow2 a -> 0 <= n -> n + (a - 1) < size_modulus ->
  std_align a n p (n +s (a -s 1)) = Ret (align_up a p) /\ p <= align_up a p /\ align_up a p + n <= p + (n + (a - 1)).
Proof.
  intros Ha Hn Hfit. pose proof (pow2_pos a Ha). pose proof (pow2_is_size a Ha) as Hs. unfold is_size in Hs.
  rewrite (size_sub_small a) by (unfold is_size; lia). rewrite size_add_small by (unfold is_size; lia).
  pose proof (align_up_ge a p ltac:(done)). pose proof (align_up_lt a p ltac:(done)).
  unfold std_align. rewrite pow2_ispow2 by done. simpl. destruct (Z.leb_spec (align_up a p - p + n) (n + (a - 1))); [|lia].
  split; [done|lia].
Qed.

(** A new reference without rights: the store it is made in, with a new
    reference, new data and a new buffer. *)
Definition with_new_ref (data free : Z) (t : Datatype) (readable writable : bool) (st : store) : store :=
  let n := next st in
  mkStore (<[n := mkReference false false (Some (S (S n)))]> (refs st)) (<[S (S n) := mkData (S n) data t]> (datas st))
    (<[S n := mkBuffer (Some (mkDeallocator data t free)) (if readable then 0 else 1) (if writable then 0 else 1) ∅]> (buffers st))
    (freed st) (S (S (S n))).

Lemma new_ref_runs data free t readable writable st :
  data <> nullptr -> new_ref false false data free t readable writable st = Ret (next st, with_new_ref data free t readable writable st).
Proof.
  intros Hnn. unfold new_ref. destruct (Z.eqb_spec data nullptr); [done|]. rewrite andb_false_r. unfold new_null, make_buffer, make_data.
  destruct (Z.eqb_spec data nullptr); [done|]. cbn [mbind outcome_bind refs datas buffers freed next]. unfold link. cbn [refs datas buffers freed next].
  rewrite lookup_insert_eq; cbn [deref mbind outcome_bind m_content bool_decide].
  rewrite lookup_insert_eq; cbn [deref mbind outcome_bind data_address data_buffer]. destruct (Z.eqb_spec data nullptr); [done|].
  rewrite lookup_insert_eq; cbn [deref mbind outcome_bind ref_R ref_W andb orb]. unfold set_content, set_refs, set_buffers, with_new_ref; simpl.
  rewrite alter_insert_eq, insert_insert_eq. unfold buffer_locks; simpl. by rewrite !Z.add_0_r.
Qed.

Lemma do_copy_spec ref m st x d dd b :
  inv st -> points_to st ref x d dd b -> data_address dd <> nullptr ->
  copy_ok (data_type dd) = true -> 0 < packed_size (data_type dd) -> 0 < buffersize (data_type dd) ->
  packed_size (data_type dd) + (alignment (data_type dd) - 1) < size_modulus ->
  allocated m (data_address dd) (buffersize (data_type dd)) ->
  exists m' st' t' data d' b' y,
    do_copy ref m st = Ret (next st, m', st') /\ inv st' /\
    densify (data_type dd) = Ret t' /\ dense t' = Ret true /\
    refs st' !! next st = Some (mkReference false false (Some d')) /\ datas st' !! d' = Some (mkData b' data t') /\
    buffers st' !! b' = Some y /\ m_deallocator y = Some (mkDeallocator data t' data) /\
    (alignment t' | data) /\ allocated m' data (buffersize t') /\
    moved m m' data (data_address dd) (moves (data_type dd)) /\
    (forall z, is_Some (m !! z) -> m' !! z = m !! z) /\
    (forall z, data <= z < data + buffersize t' -> m !! z = None) /\ st' = with_new_ref data data t' true true st /\ data <> nullptr.
Proof.
  intros Hinv Hpt Hnn Hok Hpos Hbpos Hfit Hal. pose proof Hpt as (Hr & Hc & Hd & Hb).
  pose proof (copy_ok_wf _ Hok) as Hwf. destruct (densify_spec _ Hwf) as (t' & Hden & Hbs & Halign & Hdense & _).
  pose proof (wf_alignment_pow2 _ Hwf) as Hpow. pose proof (pow2_pos _ Hpow) as Hap.
  pose proof (align_in_block (alignment (data_type dd)) (packed_size (data_type dd))) as Hblock.
  unfold do_copy, type. rewrite Hr; cbn [deref mbind outcome_bind]. rewrite Hc. rewrite Hd; cbn [deref mbind outcome_bind].
  destruct (Z.eqb_spec (data_address dd) nullptr); [done|]. rewrite Hden; cbn [deref mbind outcome_bind].
  rewrite Hbs, Halign. destruct (Z.eqb_spec (packed_size (data_type dd)) 0); [lia|].
  set (sz := packed_size (data_type dd) +s (alignment (data_type dd) -s 1)).
  assert (Hsz : sz = packed_size (data_type dd) + (alignment (data_type dd) - 1)).
  { unfold sz. pose proof (pow2_is_size _ Hpow) as Hs. unfold is_size in Hs. rewrite (size_sub_small (alignment _)) by (unfold is_size; lia).
    apply size_add_small. unfold is_size. lia. }
  destruct (operator_new m sz) as [p m1] eqn:Hnew.
  pose proof (new_fresh m sz) as Hfr. pose proof (new_allocated m sz) as Hna. pose proof (new_frame m sz) as Hnf.
  pose proof (new_positive m sz) as Hpp. rewrite Hnew in Hfr, Hna, Hnf, Hpp. simpl in Hfr, Hna, Hnf, Hpp.
  destruct (Hblock p Hpow) as (Hrun & Hlo & Hhi); [lia|done|]. fold sz in Hrun. rewrite Hrun; cbn [deref mbind outcome_bind].
  set (q := align_up (alignment (data_type dd)) p) in *.
  destruct (Z.eqb_spec q nullptr) as [Hq|Hq]; [unfold nullptr in Hq; lia|].
  assert (Hget : get ref st = Ret (data_address dd, st)).
  { unfold get, is_null. rewrite Hr; cbn [deref mbind outcome_bind]. rewrite Hc. rewrite Hd; cbn [deref mbind outcome_bind].
    destruct (Z.eqb_spec (data_address dd) nullptr); [done|]. cbn [deref mbind outcome_bind]. rewrite Hr; cbn [deref mbind outcome_bind].
    rewrite Hc; cbn [deref mbind outcome_bind]. rewrite Hd; cbn [deref mbind outcome_bind]. done. }
  rewrite Hget; cbn [deref mbind outcome_bind].
  assert (Hkeep : forall z, is_Some (m !! z) -> ~ (p <= z < p + sz)) by (intros z [v Hv] Hz; specialize (Hfr z Hz); congruence).
  assert (Hal1 : allocated m1 (data_address dd) (buffersize (data_type dd))).
  { intros z Hz. specialize (Hal z Hz). rewrite Hnf by (by apply Hkeep). done. }
  assert (Hdis : disjoint_ranges q (packed_size (data_type dd)) (data_address dd) (buffersize (data_type dd))).
  { unfold disjoint_ranges. destruct (decide (q + packed_size (data_type dd) <= data_address dd)); [by left|right].
    destruct (decide (data_address dd + buffersize (data_type dd) <= q)); [done|]. exfalso.
    apply (Hkeep (Z.max q (data_address dd))); [apply Hal|]; lia. }
  assert (Hqdiv : (alignment (data_type dd) | q)) by (by apply align_up_divide).
  destruct (to_dense_copies run_copy (data_type dd) Hok) as [_ Hmin Hcopy].
  destruct (Hcopy m1 q (data_address dd)) as (m2 & -> & Hsa & Hf2 & Hmv); [done|done| |done|].
  { eapply allocated_sub; [exact Hna|lia..]. }
  cbn [deref mbind outcome_bind].
  destruct (new_ref_ok st false false q q t' true true Hinv) as [(e & _ & _ & Hthrow)|(st' & c & Hnr & Hst & _ & Hrefs & _ & Hcont)]; [done|].
  rewrite Hnr; cbn [deref mbind outcome_bind].
  destruct Hcont as (d' & b' & -> & Hd' & (y & Hy & Hdl) & _); [done|by left|by left|].
  assert (Hst' : st' = with_new_ref q q t' true true st) by (rewrite new_ref_runs in Hnr by done; congruence).
  exists m2, st', t', q, d', b', y. rewrite Hrefs, lookup_insert_eq, Hbs, Halign. split_and!; try done.
  - by apply Hst.
  - intros z Hz. apply Hsa. apply Hna. lia.
  - unfold moved, moves_in in *. rewrite list.Forall_forall in *. intros [[s0 d0] len] Hin i Hi. specialize (Hmv _ Hin i Hi). simpl in Hmv.
    specialize (Hmin _ Hin). simpl in Hmin. rewrite Hmv. apply Hnf. apply Hkeep, Hal. lia.
  - intros z Hz. rewrite Hf2; [|specialize (Hkeep z Hz); lia]. apply Hnf. by apply Hkeep.
  - intros z Hz. apply Hfr. lia.
Qed.

(** * Theorems *)

(** A deep copy of readable data succeeds, its type is the densified type
    of the source, it lives in a new aligned block that it owns, it holds the
    data of the source, and no byte that existed before changes. *)
Theorem do_copy_correct ref m st x d dd b :
  reachable (CB := silent_callbacks) st -> points_to st ref x d dd b -> data_address dd <> nullptr ->
  copy_ok (data_type dd) = true -> 0 < packed_size (data_type dd) -> 0 < buffersize (data_type dd) ->
  packed_size (data_type dd) + (alignment (data_type dd) - 1) < size_modulus ->
  allocated m (data_address dd) (buffersize (data_type dd)) ->
  exists m' st' t' data d' b' y,
    do_copy ref m st = Ret (next st, m', st') /\ inv st' /\
    densify (data_type dd) = Ret t' /\ dense t' = Ret true /\
    refs st' !! next st = Some (mkReference false false (Some d')) /\ datas st' !! d' = Some (mkData b' data t') /\
    buffers st' !! b' = Some y /\ m_deallocator y = Some (mkDeallocator data t' data) /\
    (alignment t' | data) /\ allocated m' data (buffersize t') /\
    moved m m' data (data_address dd) (moves (data_type dd)) /\
    (forall z, is_Some (m !! z) -> m' !! z = m !! z).
Proof.
  intros Hreach Hpt Hnn Hok Hp Hb Hfit Hal. apply reachable_inv in Hreach.
  destruct (do_copy_spec ref m st x d dd b Hreach Hpt Hnn Hok Hp Hb Hfit Hal) as (m' & st' & t' & data & d' & b' & y & Hall).
  exists m', st', t', data, d', b', y. tauto.
Qed.

End do_copy.

(** An allocator that uses the addresses above all the allocated ones, and
    returns blocks at odd addresses. *)
Definition top_address (m : mem) : Z := map_fold (fun k _ t => Z.max (k + 1) t) 1 m.

Lemma top_address_spec m k : is_Some (m !! k) -> k < top_address m.
Proof.
  unfold top_address. revert k. refine (map_fold_weak_ind (fun t m => forall k, is_Some (m !! k) -> k < t) _ 1 _ _ m).
  - intros k [v Hv]. by rewrite lookup_empty in Hv.
  - intros k v m' t Hk IH k' [v' Hv']. apply lookup_insert_Some in Hv' as [[<- _]|[_ Hv']]; [lia|].
    specialize (IH k' ltac:(by eexists)). lia.
Qed.

Lemma top_address_pos m : 0 < top_address m.
Proof.
  unfold top_address. refine (map_fold_weak_ind (fun t _ => 0 < t) _ 1 _ _ m); [lia|]. intros. lia.
Qed.

Definition odd_top (m : mem) : Z := 2 * top_address m + 1.

Lemma lookup_bytes_at a bs x :
  bytes_at a bs !! x = if bool_decide (a <= x < a + Z.of_nat (length bs)) then bs !! Z.to_nat (x - a) else None.
Proof.
  unfold bytes_at. revert a. induction bs as [|v bs IH]; intros a; cbn [length].
  - rewrite bool_decide_eq_false_2 by lia. apply lookup_empty.
  - rewrite seqZ_cons by lia. cbn [zip zip_with list_to_map]. simpl.
    replace (Z.pred (Z.of_nat (S (length bs)))) with (Z.of_nat (length bs)) by lia.
    replace (Z.succ a) with (a + 1) by lia.
    destruct (decide (x = a)) as [->|Hne].
    + rewrite lookup_insert_eq, bool_decide_eq_true_2 by lia. by rewrite Z.sub_diag.
    + rewrite lookup_insert_ne by done. rewrite IH. case_bool_decide; case_bool_decide; try lia; [|done].
      replace (Z.to_nat (x - a)) with (S (Z.to_nat (x - (a + 1)))) by lia. done.
Qed.

(** Zeroed blocks at an address above the allocated ones. *)
Definition block_allocator (base : mem -> Z) (above : forall m, top_address m <= base m) : Allocator.
Proof.
  refine {| operator_new := fun m n => (base m, bytes_at (base m) (replicate (Z.to_nat n) 0) ∪ m) |}; simpl.
  - intros m n x Hx. destruct (m !! x) eqn:Hm; [|done]. pose proof (top_address_spec m x ltac:(by eexists)). specialize (above m). lia.
  - intros m n x Hx. apply lookup_union_is_Some. left. rewrite lookup_bytes_at, length_replicate, bool_decide_eq_true_2 by lia.
    apply lookup_lt_is_Some. rewrite length_replicate. lia.
  - intros m n x Hx. rewrite lookup_union_r; [done|]. rewrite lookup_bytes_at, length_replicate.
    case_bool_decide; [|done]. lia.
  - intros m n. pose proof (top_address_pos m). specialize (above m). lia.
Defined.

Lemma odd_top_above m : top_address m <= odd_top m.
Proof. pose proof (top_address_pos m). unfold odd_top. lia. Qed.

#[local] Instance odd_allocator : Allocator := block_allocator odd_top odd_top_above.

(** Blocks aligned for every scalar type, as the usual implementations return. *)
Definition even_top (m : mem) : Z := align_up 16 (top_address m).

Lemma even_top_above m : top_address m <= even_top m.
Proof. apply align_up_ge. lia. Qed.

Definition even_allocator : Allocator := block_allocator even_top even_top_above.

Definition demo_memory : mem := bytes_at 4096 [1; 2; 3; 4].

Lemma do_copy_correct_witness :
  exists m' st' t' data d' b' y,
    do_copy (fun _ _ _ _ => Crash) 3 demo_memory demo2 = Ret (next demo2, m', st') /\ inv st' /\
    densify demo_type = Ret t' /\ dense t' = Ret true /\
    refs st' !! next demo2 = Some (mkReference false false (Some d')) /\ datas st' !! d' = Some (mkData b' data t') /\
    buffers st' !! b' = Some y /\ m_deallocator y = Some (mkDeallocator data t' data) /\
    (alignment t' | data) /\ allocated m' data (buffersize t') /\
    moved demo_memory m' data 4096 [(0, 0, 4)] /\
    (forall z, is_Some (demo_memory !! z) -> m' !! z = demo_memory !! z).
Proof.
  apply (do_copy_correct (fun _ _ _ _ => Crash) 3 demo_memory demo2 _ _ _ _ demo2_reachable demo2_points_to_3); try done.
  apply allocatedb_ok. by vm_compute.
Defined.

(** The deallocator of a deep copy deletes the aligned address, which
    [std::align] stored back in [buffer], and not the address [operator new]
    returned: they differ as soon as the block is not aligned already. *)
Theorem deep_copy_deletes_another_address :
  exists m' st' r dl,
    do_copy (fun _ _ _ _ => Crash) 3 demo_memory demo2 = Ret (r, m', st') /\
    (exists y b, buffers st' !! b = Some y /\ m_deallocator y = Some dl /\ dealloc_type dl = demo_type /\
       dealloc_data dl <> 4096 /\ dealloc_freefunc dl <> fst (operator_new demo_memory 7)).
Proof.
  do 4 eexists. split; [vm_compute; reflexivity|]. eexists. exists 5%nat. split; [vm_compute; reflexivity|].
  split; [reflexivity|]. split_and!; by vm_compute.
Qed.
