(* ===== verification/Numeric.v ===== *)
(** Scalar values: how they are read from and written to memory, converted and
    computed with.

    Models [Ref_any::scalar_value] and [Ref_any::scalar_assign] ([ref_any.h]),
    the [copy_value] of literals, and the arithmetic of [$]-expressions
    ([expression/impl/operation.cxx]), with the C++ rules the code relies on:
    integral promotion, usual arithmetic conversions, wrapping unsigned
    arithmetic, undefined signed overflow (a [Crash]) and IEEE arithmetic on
    floating point values. *)

From S2P Require Import Prelude Error ExprSyntax Datatype Layout Memory DenseCopy DenseCopyFacts Access.

(** * C++ scalar types and values *)

(** [CInt s w]: [int8_t] ... [uint64_t], [w] bytes, signed if [s]. *)
Inductive ctype := CBool | CInt (is_signed : bool) (bytes : Z) | CFloat | CDouble.

#[export] Instance ctype_eq_dec : EqDecision ctype.
Proof. solve_decision. Defined.

Inductive cnum := NBool (b : bool) | NInt (is_signed : bool) (bytes : Z) (v : Z) | NFloat (f : spec_float) | NDouble (f : spec_float).

Definition ctype_of (n : cnum) : ctype :=
  match n with NBool _ => CBool | NInt s w _ => CInt s w | NFloat _ => CFloat | NDouble _ => CDouble end.

Definition is_integral (n : cnum) : bool := match n with NBool _ | NInt _ _ _ => true | _ => false end.

(** The range of an integer type. *)
Definition int_min_of (s : bool) (w : Z) : Z := if s then - 2 ^ (8 * w - 1) else 0.
Definition int_max_of (s : bool) (w : Z) : Z := if s then 2 ^ (8 * w - 1) - 1 else 2 ^ (8 * w) - 1.
Definition fits (s : bool) (w v : Z) : bool := (int_min_of s w <=? v) && (v <=? int_max_of s w).

(** Conversion to an integer type: modulo 2^N. *)
Definition to_int (s : bool) (w v : Z) : Z :=
  let u := v mod 2 ^ (8 * w) in if s && (2 ^ (8 * w - 1) <=? u) then u - 2 ^ (8 * w) else u.

(** binary32 and binary64. *)
Definition float_prec (dbl : bool) : Z := if dbl then 53 else 24.
Definition float_emax (dbl : bool) : Z := if dbl then 1024 else 128.

Definition float_of_Z (dbl : bool) (v : Z) : spec_float :=
  binary_normalize (float_prec dbl) (float_emax dbl) v 0 false.

(** Conversion between the two floating point types. *)
Definition float_of_float (dbl : bool) (f : spec_float) : spec_float :=
  match f with
  | S754_finite s m e =>
      binary_normalize (float_prec dbl) (float_emax dbl) (if s then Z.neg m else Z.pos m) e s
  | _ => f
  end.

(** Truncation towards zero; none for an infinity or a NaN. *)
Definition Z_of_float (f : spec_float) : option Z :=
  match f with
  | S754_zero _ => Some 0
  | S754_finite s m e =>
      let a := if 0 <=? e then Z.pos m * 2 ^ e else Z.pos m / 2 ^ (- e) in Some (if s then - a else a)
  | _ => None
  end.

Definition float_nonzero (f : spec_float) : bool := match f with S754_zero _ => false | _ => true end.

(** Conversion to bool, integer and floating point types; a floating point value
    out of the range of an integer type is undefined. *)
Definition to_bool (n : cnum) : bool :=
  match n with NBool b => b | NInt _ _ v => negb (v =? 0) | NFloat f | NDouble f => float_nonzero f end.

Definition int_value (n : cnum) : Z := match n with NBool b => if b then 1 else 0 | NInt _ _ v => v | _ => 0 end.

Definition convert (t : ctype) (n : cnum) : outcome cnum :=
  match t, n with
  | CBool, _ => Ret (NBool (to_bool n))
  | CInt s w, (NBool _ | NInt _ _ _) => Ret (NInt s w (to_int s w (int_value n)))
  | CInt s w, (NFloat f | NDouble f) =>
      match Z_of_float f with
      | Some v => if fits s w v then Ret (NInt s w v) else Crash
      | None => Crash
      end
  | CFloat, (NBool _ | NInt _ _ _) => Ret (NFloat (float_of_Z false (int_value n)))
  | CFloat, (NFloat f | NDouble f) => Ret (NFloat (float_of_float false f))
  | CDouble, (NBool _ | NInt _ _ _) => Ret (NDouble (float_of_Z true (int_value n)))
  | CDouble, (NFloat f | NDouble f) => Ret (NDouble (float_of_float true f))
  end.

(** * Memory representation *)

Definition decode_float (dbl : bool) (bits : Z) : spec_float :=
  let prec := float_prec dbl in
  let width := if dbl then 64 else 32 in
  let s := Z.testbit bits (width - 1) in
  let frac := bits mod 2 ^ (prec - 1) in
  let e := (bits / 2 ^ (prec - 1)) mod 2 ^ (width - prec) in
  let emin := SpecFloat.emin prec (float_emax dbl) in
  if e =? 2 ^ (width - prec) - 1 then (if frac =? 0 then S754_infinity s else S754_nan)
  else if e =? 0 then match frac with Z.pos m => S754_finite s m emin | _ => S754_zero s end
  else match frac + 2 ^ (prec - 1) with Z.pos m => S754_finite s m (e - 1 + emin) | _ => S754_nan end.

Definition encode_float (dbl : bool) (f : spec_float) : Z :=
  let prec := float_prec dbl in
  let width := if dbl then 64 else 32 in
  let emin := SpecFloat.emin prec (float_emax dbl) in
  let sign (s : bool) := if s then 2 ^ (width - 1) else 0 in
  let top := (2 ^ (width - prec) - 1) * 2 ^ (prec - 1) in
  match f with
  | S754_zero s => sign s
  | S754_infinity s => sign s + top
  | S754_nan => top + 2 ^ (prec - 2)
  | S754_finite s m e =>
      sign s + (if Z.pos m <? 2 ^ (prec - 1) then Z.pos m else (e - emin + 1) * 2 ^ (prec - 1) + (Z.pos m - 2 ^ (prec - 1)))
  end.

(** The bytes of an object of [w] bytes. *)
Definition load_bits (m : mem) (a w : Z) : outcome Z :=
  match load m a (Z.to_nat w) with Some bs => Ret (little_endian_to_Z 8 bs) | None => Crash end.

Definition store_bits (m : mem) (a w v : Z) : outcome mem :=
  match store m a (Z_to_little_endian w 8 v) with Some m => Ret m | None => Crash end.

Definition sizeof (t : ctype) : Z := match t with CBool => 1 | CInt _ w => w | CFloat => 4 | CDouble => 8 end.

(** [*static_cast<const T*>(data)] *)
Definition read_as (t : ctype) (m : mem) (a : Z) : outcome cnum :=
  bits ← load_bits m a (sizeof t);
  Ret (match t with
       | CBool => NBool (negb (bits =? 0))
       | CInt s w => NInt s w (to_int s w bits)
       | CFloat => NFloat (decode_float false bits)
       | CDouble => NDouble (decode_float true bits)
       end).

(** [*static_cast<T*>(data) = value], the value having type [T]. *)
Definition write_num (m : mem) (a : Z) (n : cnum) : outcome mem :=
  match n with
  | NBool b => store_bits m a 1 (if b then 1 else 0)
  | NInt _ w v => store_bits m a w v
  | NFloat f => store_bits m a 4 (encode_float false f)
  | NDouble f => store_bits m a 8 (encode_float true f)
  end.

(** * [scalar_value] and [scalar_assign] *)

(** The C++ type a scalar datatype stands for, by its kind and the given size:
    the nested switches of both functions. *)
Definition stored_type (k : Scalar_kind) (size : Z) : outcome ctype :=
  match k with
  | UNSIGNED =>
      if bool_decide (size ∈ [1; 2; 4; 8]) then Ret (CInt false size)
      else Throw (Type_error "Unknown size of unsigned integer datatype")
  | SIGNED =>
      if bool_decide (size ∈ [1; 2; 4; 8]) then Ret (CInt true size)
      else Throw (Type_error "Unknown size of integer datatype")
  | FLOAT =>
      if size =? 4 then Ret CFloat else if size =? 8 then Ret CDouble
      else Throw (Type_error "Unknown size of float datatype")
  | UNKNOWN => Throw (Type_error "Unknown datatype to get value")
  end.

Definition expected_scalar {A} (t : Datatype) : outcome A :=
  s ← debug_string t; Throw (Type_error ("Expected scalar, found invalid type instead: " +:+ s)).

(** [Ref_any::scalar_value<T>] on data of type [t] at [a]. *)
Definition scalar_value (T : ctype) (t : Datatype) (m : mem) (a : Z) : outcome cnum :=
  match t with
  | Scalar_datatype _ k _ _ _ _ _ => c ← stored_type k (buffersize t); n ← read_as c m a; convert T n
  | _ => expected_scalar t
  end.

(** [Ref_any::scalar_assign<T>] *)
Definition scalar_assign (t : Datatype) (value : cnum) (m : mem) (a : Z) : outcome mem :=
  match t with
  | Scalar_datatype _ k _ _ _ _ _ => c ← stored_type k (buffersize t); n ← convert c value; write_num m a n
  | _ => expected_scalar t
  end.

(** * Copying literals into a buffer *)

(** [Int_literal::copy_value]: the number of bytes written. *)
Definition int_literal_copy_value (m_value : Z) (m : mem) (buffer : Z) (t : Datatype) : outcome (mem * Z) :=
  match t with
  | Scalar_datatype _ UNSIGNED _ _ _ _ _ =>
      if bool_decide (buffersize t ∈ [1; 2; 4; 8]) then
        m ← write_num m buffer (NInt false (buffersize t) (to_int false (buffersize t) m_value)); Ret (m, buffersize t)
      else Throw (Type_error "Unknown size of integer datatype")
  | Scalar_datatype _ SIGNED _ _ _ _ _ =>
      if bool_decide (buffersize t ∈ [1; 2; 4; 8]) then
        m ← write_num m buffer (NInt true (buffersize t) (to_int true (buffersize t) m_value)); Ret (m, buffersize t)
      else Throw (Value_error "Cannot copy Int_literal as a non integer datatype->")
  | _ => Throw (Value_error "Cannot copy Int_literal as a non integer datatype->")
  end.

(** [Float_literal::copy_value] *)
Definition float_literal_copy_value (m_value : spec_float) (m : mem) (buffer : Z) (t : Datatype) : outcome (mem * Z) :=
  match t with
  | Scalar_datatype _ FLOAT _ _ _ _ _ =>
      if buffersize t =? 4 then m ← write_num m buffer (NFloat (float_of_float false m_value)); Ret (m, 4)
      else if buffersize t =? 8 then m ← write_num m buffer (NDouble m_value); Ret (m, 8)
      else Throw (Value_error "Cannot copy Float_literal as a non float datatype.")
  | _ => Throw (Value_error "Cannot copy Float_literal as a non float datatype.")
  end.

(** * Arithmetic *)

(** Integral promotion. *)
Definition promote (t : ctype) : ctype :=
  match t with CBool => CInt true 4 | CInt s w => if w <? 4 then CInt true 4 else t | _ => t end.

(** Usual arithmetic conversions. *)
Definition common_type (t1 t2 : ctype) : ctype :=
  match promote t1, promote t2 with
  | CDouble, _ | _, CDouble => CDouble
  | CFloat, _ | _, CFloat => CFloat
  | CInt s1 w1, CInt s2 w2 =>
      if bool_decide (s1 = s2) then CInt s1 (Z.max w1 w2)
      else
        let u := if s1 then w2 else w1 in
        let s := if s1 then w1 else w2 in
        if s <=? u then CInt false u else CInt true s
  | t, _ => t
  end.

(** The result of an integer operation in its type. *)
Definition int_result (s : bool) (w v : Z) : outcome cnum :=
  if s then (if fits true w v then Ret (NInt true w v) else Crash) else Ret (NInt false w (to_int false w v)).

Definition int_op (op : Operator) (s : bool) (w a b : Z) : outcome cnum :=
  match op with
  | PLUS => int_result s w (a + b)
  | MINUS => int_result s w (a - b)
  | MULT => int_result s w (a * b)
  | DIV => if b =? 0 then Crash else int_result s w (Z.quot a b)
  | MOD => if b =? 0 then Crash else if fits s w (Z.quot a b) then int_result s w (Z.rem a b) else Crash
  | EQUAL => Ret (NBool (a =? b))
  | GT => Ret (NBool (b <? a))
  | LT => Ret (NBool (a <? b))
  | GET => Ret (NBool (b <=? a))
  | LET => Ret (NBool (a <=? b))
  | AND | OR => Crash
  end.

Definition float_op (op : Operator) (dbl : bool) (a b : spec_float) : outcome cnum :=
  let prec := float_prec dbl in
  let emax := float_emax dbl in
  let ret f := Ret (if dbl then NDouble f else NFloat f) in
  match op with
  | PLUS => ret (SFadd prec emax a b)
  | MINUS => ret (SFsub prec emax a b)
  | MULT => ret (SFmul prec emax a b)
  | DIV => ret (SFdiv prec emax a b)
  | MOD => Throw (Type_error "Invalid operands to modulo operation")
  | EQUAL => Ret (NBool (SFeqb a b))
  | GT => Ret (NBool (SFltb b a))
  | LT => Ret (NBool (SFltb a b))
  | GET => Ret (NBool (SFleb b a))
  | LET => Ret (NBool (SFleb a b))
  | AND | OR => Crash
  end.

(** [Operation::eval]: [&&] and [||] convert to [bool], the others to the common
    type of their operands. *)
Definition eval (computed_value : cnum) (op : Operator) (operand_value : cnum) : outcome cnum :=
  match op with
  | AND => Ret (NBool (to_bool computed_value && to_bool operand_value))
  | OR => Ret (NBool (to_bool computed_value || to_bool operand_value))
  | _ =>
      let t := common_type (ctype_of computed_value) (ctype_of operand_value) in
      a ← convert t computed_value;
      b ← convert t operand_value;
      match a, b with
      | NInt s w x, NInt _ _ y => int_op op s w x y
      | NFloat x, NFloat y => float_op op false x y
      | NDouble x, NDouble y => float_op op true x y
      | _, _ => Crash
      end
  end.

(** The switches of [Operation::evalp] and [Operation::to_ref]: the C++ type an
    operand is read as. *)
Definition operand_type (t : Datatype) : outcome ctype :=
  match t with
  | Scalar_datatype _ FLOAT _ _ _ _ _ =>
      if datasize t =? 4 then Ret CFloat else if datasize t =? 8 then Ret CDouble
      else Throw (Type_error ("Unable to compute on floating point data of size " +:+ pretty (datasize t)))
  | Scalar_datatype _ SIGNED _ _ _ _ _ =>
      if bool_decide (datasize t ∈ [1; 2; 4; 8]) then Ret (CInt true (datasize t))
      else Throw (Type_error ("Unable to compute on integer data of size " +:+ pretty (datasize t)))
  | Scalar_datatype _ UNSIGNED _ _ _ _ _ =>
      if bool_decide (datasize t ∈ [1; 2; 4; 8]) then Ret (CInt false (datasize t))
      else Throw (Type_error ("Unable to compute on unsigned data of size " +:+ pretty (datasize t)))
  | Scalar_datatype _ UNKNOWN _ _ _ _ _ => Throw (Type_error "Unable to compute on data of unknown type")
  | _ => Throw (Type_error "Cannot apply operation on non-scalar value")
  end.

Definition read_operand (t : Datatype) (m : mem) (a : Z) : outcome cnum :=
  T ← operand_type t; scalar_value T t m a.

(** [Operation::evalp] *)
Definition evalp (computed_value : cnum) (op : Operator) (t : Datatype) (m : mem) (a : Z) : outcome cnum :=
  n ← read_operand t m a; eval computed_value op n.

(** [Scalar_datatype::type_for_v<T>], with [alignof(T) == sizeof(T)]. *)
Definition type_for (t : ctype) : Datatype :=
  match t with
  | CBool => Scalar_datatype [] UNSIGNED 1 1 1 None None
  | CInt s w => Scalar_datatype [] (if s then SIGNED else UNSIGNED) w w w None None
  | CFloat => Scalar_datatype [] FLOAT 4 4 4 None None
  | CDouble => Scalar_datatype [] FLOAT 8 8 8 None None
  end.

(** A [bool] result is stored in a byte and read back as a [uint8_t]. *)
Definition reread (n : cnum) : cnum := match n with NBool b => NInt false 1 (if b then 1 else 0) | _ => n end.

(** The loop of [Operation::to_ref] on operands that are already values: each
    result is stored in a new reference and read back. *)
Fixpoint operate (computed : cnum) (ops : list (Operator * cnum)) : outcome cnum :=
  match ops with
  | [] => Ret computed
  | (op, n) :: ops => r ← eval computed op n; operate (reread r) ops
  end.

(** * Lemmas *)

Lemma to_int_fits s w v : 0 < w -> fits s w v = true -> to_int s w v = v.
Proof.
  unfold fits, to_int, int_min_of, int_max_of. intros Hw Hf. bools.
  assert (Hp : 2 ^ (8 * w) = 2 * 2 ^ (8 * w - 1)) by (rewrite <- Z.pow_succ_r by lia; f_equal; lia).
  assert (0 < 2 ^ (8 * w - 1)) by (apply Z.pow_pos_nonneg; lia).
  destruct s; simpl.
  - destruct (Z.lt_ge_cases v 0).
    + rewrite <- (Z.mod_unique v (2 ^ (8 * w)) (-1) (v + 2 ^ (8 * w))) by lia.
      destruct (Z.leb_spec (2 ^ (8 * w - 1)) (v + 2 ^ (8 * w))); lia.
    + rewrite Z.mod_small by lia. destruct (Z.leb_spec (2 ^ (8 * w - 1)) v); lia.
  - rewrite Z.mod_small; lia.
Qed.

Lemma to_int_mod s w v : 0 < w -> to_int s w (v mod 2 ^ (8 * w)) = to_int s w v.
Proof. intros Hw. unfold to_int. rewrite Zmod_mod. done. Qed.

(** A value written to memory is read back modulo the size of its type. *)
Lemma load_store_bits m a w v :
  0 <= w -> allocated m a w ->
  exists m', store_bits m a w v = Ret m' /\ load_bits m' a w = Ret (v mod 2 ^ (8 * w)) /\ frame m m' a w /\ same_alloc m m'.
Proof.
  intros Hw Ha. unfold store_bits, load_bits.
  assert (Hlen : length (Z_to_little_endian w 8 v) = Z.to_nat w).
  { pose proof (length_Z_to_little_endian w 8 v Hw). lia. }
  destruct (store_ok m a (Z_to_little_endian w 8 v)) as (m' & -> & Hsa & Hf & Hm'); [by rewrite Hlen, Z2Nat.id|].
  rewrite Hlen, Z2Nat.id in Hf by done. exists m'. split_and!; try done.
  destruct (load_ok m' a (Z.to_nat w)) as (bs & -> & Hbl & Hbs); [rewrite Z2Nat.id by done; by rewrite <- Hsa|].
  assert (bs = Z_to_little_endian w 8 v) as ->.
  { apply list_eq. intros i. destruct (decide (i < Z.to_nat w)%nat) as [Hi|Hi].
    - rewrite Hbs by done. apply Hm'. lia.
    - rewrite !lookup_ge_None_2; [done|lia|lia]. }
  rewrite little_endian_to_Z_to_little_endian by lia. do 2 f_equal. f_equal. lia.
Qed.

Definition is_width (w : Z) : Prop := w ∈ [1; 2; 4; 8].

Lemma is_width_cases w : is_width w -> w = 1 \/ w = 2 \/ w = 4 \/ w = 8.
Proof. unfold is_width. rewrite !elem_of_cons, elem_of_nil. tauto. Qed.

(** The exact result of an operation, where it has one. *)
Definition math (op : Operator) (a b : Z) : option (Z + bool) :=
  match op with
  | PLUS => Some (inl (a + b))
  | MINUS => Some (inl (a - b))
  | MULT => Some (inl (a * b))
  | DIV => if b =? 0 then None else Some (inl (Z.quot a b))
  | MOD => if b <=? 0 then None else Some (inl (Z.rem a b))
  | EQUAL => Some (inr (a =? b))
  | AND => Some (inr (negb (a =? 0) && negb (b =? 0)))
  | OR => Some (inr (negb (a =? 0) || negb (b =? 0)))
  | GT => Some (inr (b <? a))
  | LT => Some (inr (a <? b))
  | GET => Some (inr (b <=? a))
  | LET => Some (inr (a <=? b))
  end.

Lemma fits_common s w1 w2 a b s' w' :
  is_width w1 -> is_width w2 -> fits s w1 a = true -> fits s w2 b = true ->
  common_type (CInt s w1) (CInt s w2) = CInt s' w' -> 4 <= w' /\ fits s' w' a = true /\ fits s' w' b = true.
Proof.
  intros H1%is_width_cases H2%is_width_cases.
  destruct H1 as [-> |[-> |[-> | ->]]], H2 as [-> |[-> |[-> | ->]]], s; intros Ha Hb Hc; vm_compute in Hc; injection Hc as <- <-;
    (split; [lia|]); unfold fits, int_min_of, int_max_of in *; simpl in *; bools; split; apply andb_true_iff; rewrite !Z.leb_le; lia.
Qed.

Lemma fits_quot s w a b : 0 < w -> 0 < b -> fits s w a = true -> fits s w (Z.quot a b) = true.
Proof.
  intros Hw Hb Hf. unfold fits, int_min_of, int_max_of in *. bools.
  assert (0 < 2 ^ (8 * w - 1)) by (apply Z.pow_pos_nonneg; lia). assert (0 < 2 ^ (8 * w)) by (apply Z.pow_pos_nonneg; lia).
  apply andb_true_iff. rewrite !Z.leb_le. destruct (Z.le_gt_cases 0 a).
  - pose proof (Z.quot_pos a b ltac:(done) Hb). pose proof (Z.quot_le_upper_bound a b a Hb ltac:(nia)). destruct s; lia.
  - destruct s; [|lia]. pose proof (Z.quot_le_lower_bound a b a Hb ltac:(nia)).
    assert (Z.quot a b <= 0) by (apply Z.quot_le_upper_bound; lia). lia.
Qed.

Lemma int_op_exact op s w a b r :
  0 < w -> fits s w a = true -> math op a b = Some r -> op <> AND -> op <> OR ->
  match r with
  | inl v => fits s w v = true -> int_op op s w a b = Ret (NInt s w v)
  | inr c => int_op op s w a b = Ret (NBool c)
  end.
Proof.
  intros Hw Ha Hm HA HO.
  assert (Hres : forall v, fits s w v = true -> int_result s w v = Ret (NInt s w v)).
  { intros v Hv. unfold int_result. destruct s; [by rewrite Hv|]. by rewrite to_int_fits. }
  destruct op; simpl in *; simplify_eq; try done; auto.
  - destruct (b =? 0); simplify_eq. auto.
  - destruct (Z.leb_spec b 0); simplify_eq. destruct (Z.eqb_spec b 0); [lia|].
    intros Hv. rewrite fits_quot by (done || lia). auto.
Qed.

(** * Theorems *)

(** An integer assigned to a scalar of an integer type that can represent
    it is read back unchanged, whatever the sizes and signs of the types, and
    nothing else in memory changes. *)
Theorem scalar_assign_value attrs s w size al c d v m a :
  is_width w -> fits s w v = true -> fits true 8 v = true -> allocated m a w ->
  exists m', scalar_assign (Scalar_datatype attrs (if s then SIGNED else UNSIGNED) size al w c d) (NInt true 8 v) m a = Ret m' /\
    scalar_value (CInt true 8) (Scalar_datatype attrs (if s then SIGNED else UNSIGNED) size al w c d) m' a = Ret (NInt true 8 v) /\
    frame m m' a w.
Proof.
  intros Hw Hf Hf8 Ha. assert (0 < w) by (destruct (is_width_cases w Hw) as [-> |[-> |[-> | ->]]]; lia).
  destruct (load_store_bits m a w v) as (m' & Hst & Hld & Hfr & _); [lia|done|].
  assert (Hty : stored_type (if s then SIGNED else UNSIGNED) w = Ret (CInt s w)).
  { unfold stored_type. destruct s; by rewrite bool_decide_eq_true_2. }
  exists m'. unfold scalar_assign, scalar_value. simpl buffersize. rewrite Hty. simpl.
  rewrite to_int_fits by done. split_and!; [done| |done]. unfold read_as. simpl. rewrite Hld. simpl.
  rewrite to_int_mod by done. rewrite (to_int_fits s w v) by done. by rewrite (to_int_fits true 8 v) by (done || lia).
Qed.

Lemma scalar_assign_value_witness :
  exists m', scalar_assign (Scalar_datatype [] SIGNED 2 2 2 None None) (NInt true 8 (-300)) (bytes_at 64 [0; 0]) 64 = Ret m' /\
    scalar_value (CInt true 8) (Scalar_datatype [] SIGNED 2 2 2 None None) m' 64 = Ret (NInt true 8 (-300)) /\
    frame (bytes_at 64 [0; 0]) m' 64 2.
Proof.
  apply (scalar_assign_value [] true 2 2 2 None None (-300) (bytes_at 64 [0; 0]) 64).
  - apply list_elem_of_In. right. by left.
  - done.
  - done.
  - apply allocatedb_ok. by vm_compute.
Defined.

(** On two integers of the same signedness, an operation of an expression
    gives the exact mathematical result whenever it is representable in the
    common type of its operands. *)
Theorem eval_is_exact op s w1 w2 a b r s' w' :
  is_width w1 -> is_width w2 -> fits s w1 a = true -> fits s w2 b = true ->
  math op a b = Some r -> common_type (CInt s w1) (CInt s w2) = CInt s' w' ->
  match r with
  | inl v => fits s' w' v = true -> eval (NInt s w1 a) op (NInt s w2 b) = Ret (NInt s' w' v)
  | inr c => eval (NInt s w1 a) op (NInt s w2 b) = Ret (NBool c)
  end.
Proof.
  intros H1 H2 Ha Hb Hm Hc. destruct (fits_common s w1 w2 a b s' w' H1 H2 Ha Hb Hc) as (Hw' & Ha' & Hb').
  assert (Hlogic : op = AND \/ op = OR \/ (op <> AND /\ op <> OR)) by (destruct op; auto; right; right; split; discriminate).
  destruct Hlogic as [-> |[-> |[HA HO]]]; [by simpl in *; simplify_eq..|].
  pose proof (int_op_exact op s' w' a b r ltac:(lia) Ha' Hm HA HO) as Hop.
  assert (He : eval (NInt s w1 a) op (NInt s w2 b) = int_op op s' w' a b).
  { unfold eval. cbn [ctype_of]. rewrite Hc. simpl. rewrite !to_int_fits by (done || lia). by destruct op. }
  rewrite He. done.
Qed.

Lemma eval_is_exact_witness :
  fits true 8 (40000 * 3) = true /\ eval (NInt true 8 40000) MULT (NInt true 4 3) = Ret (NInt true 8 (40000 * 3)).
Proof.
  split; [done|].
  apply (eval_is_exact MULT true 8 4 40000 3 (inl (40000 * 3)) true 8); try done; apply list_elem_of_In; simpl; tauto.
Defined.
