(* ===== verification/Parse.v ===== *)
(** The parser of $-expressions.

    Models the [parse] functions of [pdi/src/expression/impl.cxx] and
    [pdi/src/expression/impl/*.cxx].  A [const char*] is the string from that
    character to the terminating NUL; a function that advances the pointer
    returns the rest of the string. *)

From S2P Require Import Prelude Error ExprSyntax Numeric.
From Stdlib Require Import Ascii.

(** * Characters *)

(** [*p], the NUL character at the end. *)
Definition peek (s : string) : option ascii := match s with EmptyString => None | String c _ => Some c end.

(** [++p]: undefined on the terminating NUL, since what follows is not in the string. *)
Definition tail (s : string) : outcome string := match s with EmptyString => Crash | String _ s => Ret s end.

Definition at_char (s : string) (c : ascii) : bool := bool_decide (peek s = Some c).

Definition code (c : ascii) : Z := Z.of_N (N_of_ascii c).

(** [isspace] in the C locale. *)
Definition isspace (c : ascii) : bool := (code c =? 32) || ((9 <=? code c) && (code c <=? 13)).

Definition isdigit (c : ascii) : bool := (48 <=? code c) && (code c <=? 57).
Definition islower (c : ascii) : bool := (97 <=? code c) && (code c <=? 122).
Definition isupper (c : ascii) : bool := (65 <=? code c) && (code c <=? 90).

Fixpoint skip_spaces (s : string) : string :=
  match s with String c s' => if isspace c then skip_spaces s' else s | EmptyString => EmptyString end.

(** The character in an error message. *)
Definition found (s : string) : string := match s with String c _ => String c "" | EmptyString => String "000" "" end.

(** * Numbers *)

(** What [strtol] and [strtod] accept is described on strings: the characters
    after the first one. *)
Definition following (s : string) : string := match s with EmptyString => EmptyString | String _ s => s end.

(** The value of a digit in bases up to 16. *)
Definition digit_value (c : ascii) : option Z :=
  if isdigit c then Some (code c - 48)
  else if islower c then Some (code c - 87)
  else if isupper c then Some (code c - 55)
  else None.

(** The digits in the given base: their value, added to [acc], their number and
    the rest of the string. *)
Fixpoint scan_digits (base acc n : Z) (s : string) : Z * Z * string :=
  match s with
  | EmptyString => (acc, n, EmptyString)
  | String c s' =>
      match digit_value c with
      | Some d => if d <? base then scan_digits base (acc * base + d) (n + 1) s' else (acc, n, s)
      | None => (acc, n, s)
      end
  end.

(** An optional sign: whether it is a minus, and the rest. *)
Definition scan_sign (s : string) : bool * string :=
  if at_char s "-" then (true, following s) else if at_char s "+" then (false, following s) else (false, s).

(** The base [strtol] deduces when it is given base 0, and where the digits
    start. *)
Definition scan_base (s : string) : Z * string :=
  if at_char s "0" then
    if at_char (following s) "x" || at_char (following s) "X" then
      match peek (following (following s)) with
      | Some c => match digit_value c with
                  | Some d => if d <? 16 then (16, following (following s)) else (8, s)
                  | None => (8, s)
                  end
      | None => (8, s)
      end
    else (8, s)
  else (10, s).

(** [strtol(s, &end, 0)]: the value, whether it is out of range, the end; the
    end is [s] itself when there is no number. *)
Definition strtol (s : string) : Z * bool * string :=
  let '(neg, s1) := scan_sign (skip_spaces s) in
  let '(base, s2) := scan_base s1 in
  let '(v, n, rest) := scan_digits base 0 0 s2 in
  if n =? 0 then (0, false, s)
  else
    let v := if (neg : bool) then - v else v in
    if v <? - 2 ^ 63 then (- 2 ^ 63, true, rest)
    else if 2 ^ 63 - 1 <? v then (2 ^ 63 - 1, true, rest)
    else (v, false, rest).

(** The binary64 value nearest to [m * 10^e] (exactly rounded: the quotient has
    more bits than the precision, its last one being sticky). *)
Definition double_of_decimal (neg : bool) (m e : Z) : spec_float :=
  if m =? 0 then S754_zero neg
  else if 0 <=? e then binary_normalize 53 1024 (if neg then - (m * 10 ^ e) else m * 10 ^ e) 0 neg
  else
    let d := 10 ^ (- e) in
    let s := 64 + Z.log2 d in
    let q := (m * 2 ^ s) / d in
    let q := 2 * q + (if (m * 2 ^ s) mod d =? 0 then 0 else 1) in
    binary_normalize 53 1024 (if neg then - q else q) (- s - 1) neg.

(** The optional exponent of a number, introduced by one of two letters. *)
Definition scan_exponent (lower upper : ascii) (s : string) : Z * string :=
  if at_char s lower || at_char s upper then
    let '(neg, s1) := scan_sign (following s) in
    let '(v, n, rest) := scan_digits 10 0 0 s1 in
    if n =? 0 then (0, s) else (if (neg : bool) then - v else v, rest)
  else (0, s).

(** The digits of a number with an optional point: their value, how many there
    are, how many follow the point, the rest. *)
Definition scan_mantissa (base : Z) (s : string) : Z * Z * Z * string :=
  let '(v, n, s1) := scan_digits base 0 0 s in
  if at_char s1 "." then
    let '(v', k, s2) := scan_digits base v 0 (following s1) in
    if n + k =? 0 then (v, 0, 0, s1) else (v', n + k, k, s2)
  else (v, n, 0, s1).

Definition tolower (c : ascii) : ascii := if isupper c then ascii_of_N (Z.to_N (code c + 32)) else c.

(** [s] after the given lower case word, whatever its case. *)
Fixpoint after_word (w s : string) : option string :=
  match w, s with
  | EmptyString, _ => Some s
  | String a w, String c s => if bool_decide (tolower c = a) then after_word w s else None
  | _, EmptyString => None
  end.

Fixpoint after_id_chars (s : string) : string :=
  match s with
  | String c s' => if islower c || isupper c || isdigit c || bool_decide (c = "_"%char) then after_id_chars s' else s
  | EmptyString => EmptyString
  end.

(** The optional parenthesis after [nan]. *)
Definition after_nan (s : string) : string :=
  if at_char s "(" then let r := after_id_chars (following s) in if at_char r ")" then following r else s else s.

(** [strtod(s, &end)]: infinities, NaNs, hexadecimal and decimal numbers; the end
    is [s] itself when there is no number. *)
Definition strtod (s : string) : spec_float * string :=
  let '(neg, s1) := scan_sign (skip_spaces s) in
  match after_word "infinity" s1, after_word "inf" s1, after_word "nan" s1 with
  | Some r, _, _ | None, Some r, _ => (S754_infinity neg, r)
  | None, None, Some r => (S754_nan, after_nan r)
  | None, None, None =>
      let '(hv, hn, hk, hr) := scan_mantissa 16 (following (following s1)) in
      if at_char s1 "0" && (at_char (following s1) "x" || at_char (following s1) "X") && negb (hn =? 0) then
        let '(e, rest) := scan_exponent "p" "P" hr in
        (if hv =? 0 then S754_zero neg
         else binary_normalize 53 1024 (if neg then - hv else hv) (e - 4 * hk) neg, rest)
      else
        let '(v, n, k, r) := scan_mantissa 10 s1 in
        if n =? 0 then (S754_zero false, s)
        else let '(e, rest) := scan_exponent "e" "E" r in (double_of_decimal neg v (e - k), rest)
  end.

(** ** Literals *)

(** [Int_literal::parse]: the test [result > 0] is on the pointer, which is
    never null. *)
Definition parse_int_literal (s : string) : outcome (Impl * string) :=
  let '(v, erange, rest) := strtol s in
  if (erange : bool) then Throw (Value_error ("Value too large for PDI integers: " +:+ rest))
  else if bool_decide (rest = s) then Throw (Value_error ("Expected integer, found `" +:+ rest +:+ "'"))
  else Ret (Int_literal v, skip_spaces rest).

(** [Float_literal::parse] *)
Definition parse_float_literal (s : string) : outcome (Impl * string) :=
  let '(v, rest) := strtod s in
  if bool_decide (rest = s) then Throw (Value_error ("Expected double, found `" +:+ rest +:+ "'"))
  else Ret (Float_literal v, skip_spaces rest).

(** * Identifiers *)

Definition is_id_start (c : ascii) : bool := islower c || isupper c || bool_decide (c = "_"%char).
Definition is_id_char (c : ascii) : bool := is_id_start c || isdigit c.

Fixpoint scan_id (s : string) : string * string :=
  match s with
  | String c s' => if is_id_char c then let '(id, rest) := scan_id s' in (String c id, rest) else ("", s)
  | EmptyString => ("", "")
  end.

(** [Impl::parse_id] *)
Definition parse_id (s : string) : outcome (string * string) :=
  match s with
  | String c s' =>
      if is_id_start c then let '(id, rest) := scan_id s' in Ret (String c id, rest)
      else Throw (Value_error ("Invalid first ID character: " +:+ found s))
  | EmptyString => Throw (Value_error ("Invalid first ID character: " +:+ found s))
  end.

(** * Operators *)

(** [static_cast<Operator>( *op )] *)
Definition operator_of (c : ascii) : option Operator :=
  if bool_decide (c = "|"%char) then Some OR
  else if bool_decide (c = "&"%char) then Some AND
  else if bool_decide (c = "="%char) then Some EQUAL
  else if bool_decide (c = ">"%char) then Some GT
  else if bool_decide (c = "<"%char) then Some LT
  else if bool_decide (c = "+"%char) then Some PLUS
  else if bool_decide (c = "-"%char) then Some MINUS
  else if bool_decide (c = "*"%char) then Some MULT
  else if bool_decide (c = "/"%char) then Some DIV
  else if bool_decide (c = "%"%char) then Some MOD
  else None.

Definition level_of (op : Operator) : Z :=
  match op with
  | OR => 1 | AND => 2 | EQUAL => 3 | GT | LT => 4 | PLUS | MINUS => 5 | MULT | DIV | MOD => 6
  | GET | LET => 0
  end.

(** [Operation::op_level] *)
Definition op_level (s : string) : Z :=
  match peek s with
  | Some c => match operator_of c with Some op => level_of op | None => 0 end
  | None => 0
  end.

(** [Operation::parse_operator] *)
Definition parse_operator (s : string) (level : Z) : outcome (Operator * string) :=
  if op_level s =? 0 then Throw (Value_error ("Expected operator, found '" +:+ found s +:+ "'"))
  else if negb (op_level s =? level) then Throw (Value_error "Mixing operator priority")
  else match peek s ≫= operator_of with
       | Some op => s ← tail s; Ret (op, skip_spaces s)
       | None => Crash
       end.

(** * The grammar *)

(** [string(s).find(".") != npos] *)
Fixpoint has_dot (s : string) : bool :=
  match s with EmptyString => false | String c s => bool_decide (c = "."%char) || has_dot s end.

(** [ref.substr(0, ref.find_first_of("}"))] and the rest. *)
Fixpoint until_brace (s : string) : string * string :=
  match s with
  | EmptyString => ("", "")
  | String c s' => if bool_decide (c = "}"%char) then ("", s) else let '(a, b) := until_brace s' in (String c a, b)
  end.

Definition open_brace : ascii := "{".
Definition close_brace : ascii := "}".

(** The end of [Reference_expression::parse]: the format and the closing brace. *)
Definition parse_reference_end (has_curly_brace : bool) (id : string) (sub : list Accessor) (s : string) :
    outcome (Impl * string) :=
  let '(fmt, s) := if at_char s ":" then until_brace s else ("", s) in
  if has_curly_brace then
    if negb (at_char s close_brace) then Throw (Value_error ("Expected '}', found " +:+ found s))
    else s ← tail s; Ret (Reference_expression id sub fmt, skip_spaces s)
  else Ret (Reference_expression id sub fmt, s).

(** The recursive functions, each call using one unit of fuel: [Operation::parse]
    and its loop, [Impl::parse_term], [Reference_expression::parse] and its loop.
    The name of a member is itself parsed as an expression: an identifier is not
    a number, so it becomes the string literal. *)
Fixpoint parse_operation (fuel : nat) (level : Z) (s : string) : outcome (Impl * string) :=
  match fuel with
  | O => Crash
  | S fuel =>
      if level =? 7 then parse_term fuel s
      else
        '(result, s) ← parse_operation fuel (level + 1) s;
        parse_operands fuel level result [] s
  end
with parse_operands (fuel : nat) (level : Z) (first : Impl) (ops : list (Operator * Impl)) (s : string) :
    outcome (Impl * string) :=
  match fuel with
  | O => Crash
  | S fuel =>
      if op_level s =? level then
        '(oper, s) ← parse_operator s level;
        '(e, s) ← parse_operation fuel (level + 1) s;
        parse_operands fuel level first (ops ++ [(oper, e)]) s
      else Ret (match ops with [] => first | _ => Operation first ops end, s)
  end
with parse_term (fuel : nat) (s : string) : outcome (Impl * string) :=
  match fuel with
  | O => Crash
  | S fuel =>
      if at_char s "(" then
        s ← tail s;
        '(result, s) ← parse_operation fuel 1 (skip_spaces s);
        if negb (at_char s ")") then Throw (Value_error ("Expected ')', found '" +:+ found s +:+ "'"))
        else s ← tail s; Ret (result, skip_spaces s)
      else if at_char s "$" then parse_reference fuel s
      else if has_dot s then parse_float_literal s
      else parse_int_literal s
  end
with parse_reference (fuel : nat) (s : string) : outcome (Impl * string) :=
  match fuel with
  | O => Crash
  | S fuel =>
      if negb (at_char s "$") then Throw (Value_error ("Expected '$', got " +:+ found s))
      else
        s ← tail s;
        let has_curly_brace := at_char s open_brace in
        s ← (if has_curly_brace then s ← tail s; Ret (skip_spaces s) else Ret s);
        '(id, s) ← parse_id s;
        parse_subelements fuel has_curly_brace id [] (skip_spaces s)
  end
with parse_subelements (fuel : nat) (has_curly_brace : bool) (id : string) (sub : list Accessor) (s : string) :
    outcome (Impl * string) :=
  match fuel with
  | O => Crash
  | S fuel =>
      if at_char s "[" then
        s ← tail s;
        '(e, s) ← parse_operation fuel 1 (skip_spaces s);
        if negb (at_char s "]") then Throw (Value_error ("Expected ']', found " +:+ found s))
        else s ← tail s; parse_subelements fuel has_curly_brace id (sub ++ [Index_accessor_expression e]) (skip_spaces s)
      else if at_char s "." then
        s ← tail s;
        '(m, s) ← parse_id (skip_spaces s);
        parse_subelements fuel has_curly_brace id
          (sub ++ [Member_accessor_expression (String_literal m [])]) (skip_spaces s)
      else parse_reference_end has_curly_brace id sub s
  end.

(** Enough fuel for any call on a string: see [parse_fuel]. *)
Definition fuel_for (s : string) : nat := 10 * String.length s + 10.

(** * Strings *)

(** The characters up to a backslash or a dollar. *)
Fixpoint scan_plain (s : string) : string * string :=
  match s with
  | EmptyString => ("", "")
  | String c s' =>
      if bool_decide (c = "\"%char) || bool_decide (c = "$"%char) then ("", s) else let '(a, b) := scan_plain s' in (String c a, b)
  end.

(** [curstr->append]: to [m_start] or to the last value. *)
Definition append_current (a : string) (start : string) (values : list (Impl * string)) : string * list (Impl * string) :=
  match reverse values with
  | [] => (start +:+ a, [])
  | (e, t) :: r => (start, reverse ((e, t +:+ a) :: r))
  end.

(** The loop of [String_literal::parse].  After a backslash, [str += 2] goes
    past the end of the string when nothing follows it. *)
Fixpoint parse_string (fuel : nat) (start : string) (values : list (Impl * string)) (s : string) : outcome (Impl * string) :=
  match s, fuel with
  | EmptyString, _ => Ret (String_literal start values, "")
  | _, O => Crash
  | _, S fuel =>
      let '(a, s) := scan_plain s in
      let '(start, values) := append_current a start values in
      match peek s with
      | None => parse_string fuel start values s
      | Some c =>
          if bool_decide (c = "\"%char) then
            s ← tail s;
            s ← tail s;
            let '(start, values) := append_current "\" start values in parse_string fuel start values s
          else
            after ← tail s;
            if at_char after "(" then
              '(e, s) ← parse_term (fuel_for s) after; parse_string fuel start (values ++ [(e, "")]) s
            else
              '(e, s) ← parse_reference (fuel_for s) s; parse_string fuel start (values ++ [(e, "")]) s
      end
  end.

(** [Impl::parse(char const* val_str)] *)
Definition parse_expression (val_str : string) : outcome Impl :=
  let as_string := '(e, _) ← parse_string (S (String.length val_str)) "" [] val_str; Ret e in
  match parse_operation (fuel_for val_str) 1 (skip_spaces val_str) with
  | Ret (result, s) => match skip_spaces s with EmptyString => Ret result | _ => as_string end
  | Throw _ => as_string
  | Crash => Crash
  end.
