(* ===== verification/ParseFacts.v ===== *)
(** The parser terminates on every string, without reading out of it. *)

From S2P Require Import Prelude Error ExprSyntax Numeric Parse.
From Stdlib Require Import Ascii.

Abbreviation len := String.length.

(** * Suffixes *)

(** [s'] is what is left of [s] after at least [k] characters. *)
Definition suf (k : nat) (s' s : string) : Prop := exists p, s = p +:+ s' /\ (k <= len p)%nat.

Lemma suf_refl s : suf 0 s s.
Proof. by exists "". Qed.

Lemma suf_cons c s : suf 1 s (String c s).
Proof. exists (String c ""). by split. Qed.

Lemma suf_trans j k k' a b c : suf k a b -> suf k' b c -> (j <= k + k')%nat -> suf j a c.
Proof.
  intros (p & -> & Hp) (q & -> & Hq) Hj. exists (q +:+ p). split.
  - clear. induction q as [|x q IH]; [done|]. rewrite string_app_String. change (String x q +:+ (p +:+ a)) with (String x (q +:+ (p +:+ a))). by rewrite IH.
  - assert (len (q +:+ p) = len q + len p)%nat as ->; [|lia]. clear. induction q as [|x q IH]; [done|]. simpl. by rewrite IH.
Qed.

Lemma suf_weaken j k a b : suf k a b -> (j <= k)%nat -> suf j a b.
Proof. intros H Hj. eapply suf_trans; [exact H|apply suf_refl|lia]. Qed.

Lemma suf_len k a b : suf k a b -> (len a + k <= len b)%nat.
Proof.
  intros (p & -> & Hp). assert (len (p +:+ a) = len p + len a)%nat as ->; [|lia]. clear. induction p as [|x p IH]; [done|]. simpl. by rewrite IH.
Qed.

#[local] Hint Resolve suf_refl suf_cons : core.

(** * How much each scanner consumes *)

Lemma skip_spaces_suf s : suf 0 (skip_spaces s) s.
Proof. induction s as [|c s IH]; simpl; [done|]. destruct (isspace c); [|done]. eapply suf_trans; [exact IH|apply suf_cons|lia]. Qed.

Lemma at_char_tail s c : at_char s c = true -> exists s', tail s = Ret s' /\ suf 1 s' s.
Proof. unfold at_char. rewrite bool_decide_eq_true. destruct s as [|x s]; simpl; [done|]. intros _. by exists s. Qed.

(** After a character and spaces. *)
Lemma tail_spaces k s s' r : suf 1 s' s -> suf k s r -> suf (S k) (skip_spaces s') r.
Proof. intros H1 H2. eapply (suf_trans _ 0 (S k)); [apply skip_spaces_suf|eapply suf_trans; [exact H1|exact H2|lia]|lia]. Qed.

Lemma following_suf s : suf 0 (following s) s.
Proof. destruct s as [|c s]; [done|]. apply (suf_weaken 0 1); [apply suf_cons|lia]. Qed.

Lemma scan_sign_suf s b r : scan_sign s = (b, r) -> suf 0 r s.
Proof.
  unfold scan_sign. pose proof (following_suf s). destruct (at_char s "-"); [by intros [= _ <-]|].
  destruct (at_char s "+"); by intros [= _ <-].
Qed.

Lemma scan_digits_suf base acc n s v k r :
  scan_digits base acc n s = (v, k, r) -> n <= k /\ suf (Z.to_nat (k - n)) r s.
Proof.
  revert acc n. induction s as [|c s IH]; intros acc n; simpl.
  - intros [= <- <- <-]. rewrite Z.sub_diag. by split.
  - destruct (digit_value c) as [d|]; [|intros [= <- <- <-]; rewrite Z.sub_diag; by split].
    destruct (d <? base); [|intros [= <- <- <-]; rewrite Z.sub_diag; by split]. intros [Hn Hs]%IH. split; [lia|].
    eapply suf_trans; [exact Hs|apply suf_cons|lia].
Qed.

Lemma scan_base_suf s base r : scan_base s = (base, r) -> suf 0 r s.
Proof.
  unfold scan_base. pose proof (suf_trans 0 0 0 _ _ _ (following_suf (following s)) (following_suf s) ltac:(lia)).
  repeat (match goal with |- context [if ?c then _ else _] => destruct c | |- context [match ?o with Some _ => _ | None => _ end] => destruct o end);
    by intros [= _ <-].
Qed.

Lemma parse_int_literal_suf s e r : parse_int_literal s = Ret (e, r) -> suf 1 r s.
Proof.
  unfold parse_int_literal, strtol. destruct (scan_sign (skip_spaces s)) as [neg s1] eqn:H1.
  destruct (scan_base s1) as [base s2] eqn:H2. destruct (scan_digits base 0 0 s2) as [[v n] rest] eqn:H3.
  apply scan_sign_suf in H1. apply scan_base_suf in H2. apply scan_digits_suf in H3 as (Hn & Hr).
  destruct (Z.eqb_spec n 0); [by rewrite bool_decide_eq_true_2|].
  destruct (_ <? _); [done|]. destruct (_ <? _); [done|]. case_bool_decide; [done|]. intros [= <- <-].
  eapply (suf_trans 1 0 1); [apply skip_spaces_suf| |lia]. eapply (suf_trans 1 _ 0); [exact Hr| |lia].
  eapply (suf_trans 0 0 0); [exact H2| |lia]. eapply (suf_trans 0 0 0); [exact H1|apply skip_spaces_suf|lia].
Qed.

Lemma scan_exponent_suf a b s v r : scan_exponent a b s = (v, r) -> suf 0 r s.
Proof.
  unfold scan_exponent. destruct (_ || _); [|by intros [= <- <-]].
  destruct (scan_sign (following s)) as [neg s1] eqn:H1. destruct (scan_digits 10 0 0 s1) as [[v' n] rest] eqn:H2.
  apply scan_sign_suf in H1. apply scan_digits_suf in H2 as [_ H2]. destruct (n =? 0); intros [= <- <-]; [done|].
  eapply (suf_trans 0 _ 0); [exact H2|eapply (suf_trans 0); [exact H1|apply following_suf|lia]|lia].
Qed.

Lemma scan_mantissa_suf base s v n k r : scan_mantissa base s = (v, n, k, r) -> 0 <= n /\ suf (Z.to_nat n) r s.
Proof.
  unfold scan_mantissa. destruct (scan_digits base 0 0 s) as [[v1 n1] s1] eqn:H1. apply scan_digits_suf in H1 as [Hn1 H1].
  rewrite Z.sub_0_r in H1. destruct (at_char s1 "."); [|by intros [= <- <- <- <-]].
  destruct (scan_digits base v1 0 (following s1)) as [[v2 n2] s2] eqn:H2. apply scan_digits_suf in H2 as [Hn2 H2].
  destruct (Z.eqb_spec (n1 + n2) 0); intros [= <- <- <- <-]; (split; [lia|]); [eapply suf_weaken; [exact H1|lia]|].
  eapply suf_trans; [exact H2|eapply (suf_trans (Z.to_nat n1)); [apply following_suf|exact H1|lia]|lia].
Qed.

Lemma after_word_suf w s r : after_word w s = Some r -> suf (len w) r s.
Proof.
  revert s. induction w as [|a w IH]; intros s; simpl; [by intros [= <-]|]. destruct s as [|c s]; [done|].
  destruct (bool_decide _); [|done]. intros H%IH. eapply suf_trans; [exact H|apply suf_cons|lia].
Qed.

Lemma after_id_chars_suf s : suf 0 (after_id_chars s) s.
Proof. induction s as [|c s IH]; simpl; [done|]. destruct (_ || _); [|done]. eapply suf_trans; [exact IH|apply suf_cons|lia]. Qed.

Lemma after_nan_suf s : suf 0 (after_nan s) s.
Proof.
  unfold after_nan. destruct (at_char s "("); [|done]. destruct (at_char _ ")"); [|done].
  eapply (suf_trans 0 0 0); [apply following_suf| |lia]. eapply (suf_trans 0 0 0); [apply after_id_chars_suf|apply following_suf|lia].
Qed.

Lemma strtod_suf s v r : strtod s = (v, r) -> r = s \/ suf 1 r s.
Proof.
  unfold strtod. destruct (scan_sign (skip_spaces s)) as [neg s1] eqn:H1. apply scan_sign_suf in H1.
  pose proof (suf_trans 0 0 0 _ _ _ H1 (skip_spaces_suf s) ltac:(lia)) as Hs.
  destruct (after_word "infinity" s1) as [r1|] eqn:Hi.
  { apply after_word_suf in Hi. intros [= _ <-]. right. eapply suf_trans; [exact Hi|exact Hs|simpl; lia]. }
  destruct (after_word "inf" s1) as [r2|] eqn:Hf.
  { apply after_word_suf in Hf. intros [= _ <-]. right. eapply suf_trans; [exact Hf|exact Hs|simpl; lia]. }
  destruct (after_word "nan" s1) as [r3|] eqn:Hn.
  { apply after_word_suf in Hn. intros [= _ <-]. right. eapply (suf_trans 1 0 1); [apply after_nan_suf| |lia]. eapply suf_trans; [exact Hn|exact Hs|simpl; lia]. }
  destruct (scan_mantissa 16 (following (following s1))) as [[[hv hn] hk] hr] eqn:H2. apply scan_mantissa_suf in H2 as [Hhn H2].
  destruct (_ && _) eqn:Hhex.
  - apply andb_true_iff in Hhex as [_ Hne]. bools. destruct (scan_exponent "p" "P" hr) as [e rest] eqn:Hexp.
    apply scan_exponent_suf in Hexp. intros [= _ <-]. right. eapply (suf_trans 1 0 1); [exact Hexp| |lia].
    eapply (suf_trans 1 _ 0); [exact H2| |lia]. eapply (suf_trans 0 0 0); [apply following_suf| |lia].
    eapply (suf_trans 0 0 0); [apply following_suf|exact Hs|lia].
  - destruct (scan_mantissa 10 s1) as [[[v' n] k] r'] eqn:Hm. apply scan_mantissa_suf in Hm as [Hn0 Hm].
    destruct (Z.eqb_spec n 0); [intros [= _ <-]; by left|]. destruct (scan_exponent "e" "E" r') as [e rest] eqn:Hexp.
    apply scan_exponent_suf in Hexp. intros [= _ <-]. right. eapply (suf_trans 1 0 1); [exact Hexp| |lia].
    eapply suf_trans; [exact Hm|exact Hs|lia].
Qed.

Lemma parse_float_literal_suf s e r : parse_float_literal s = Ret (e, r) -> suf 1 r s.
Proof.
  unfold parse_float_literal. destruct (strtod s) as [v rest] eqn:H1. apply strtod_suf in H1.
  case_bool_decide; [done|]. intros [= <- <-]. destruct H1; [done|]. eapply (suf_trans 1 0 1); [apply skip_spaces_suf|done|lia].
Qed.

Lemma scan_id_suf s id r : scan_id s = (id, r) -> suf 0 r s.
Proof.
  revert id. induction s as [|c s IH]; intros id; simpl; [by intros [= <- <-]|]. destruct (is_id_char c); [|by intros [= <- <-]].
  destruct (scan_id s) as [id' rest]. intros [= <- <-]. eapply suf_trans; [by apply (IH id')|apply suf_cons|lia].
Qed.

Lemma until_brace_suf s a b : until_brace s = (a, b) -> suf 0 b s.
Proof.
  revert a. induction s as [|c s IH]; intros a; simpl; [by intros [= <- <-]|]. destruct (bool_decide _); [by intros [= <- <-]|].
  destruct (until_brace s) as [a' b']. intros [= <- <-]. eapply suf_trans; [by apply (IH a')|apply suf_cons|lia].
Qed.

Lemma scan_plain_suf s a b : scan_plain s = (a, b) -> suf 0 b s /\ (b = "" \/ exists c s', b = String c s' /\ (c = "\"%char \/ c = "$"%char)).
Proof.
  revert a. induction s as [|c s IH]; intros a; simpl; [intros [= <- <-]; split; [done|by left]|].
  destruct (bool_decide (c = "\"%char) || bool_decide (c = "$"%char)) eqn:Hc.
  - intros [= <- <-]. split; [done|]. right. exists c, s. split; [done|]. apply orb_true_iff in Hc. by rewrite !bool_decide_eq_true in Hc.
  - destruct (scan_plain s) as [a' b'] eqn:Hs. intros [= <- <-]. destruct (IH a' eq_refl) as [H1 H2].
    split; [|exact H2]. eapply suf_trans; [exact H1|apply suf_cons|lia].
Qed.

(** * Fuel *)

(** The call leaves a suffix of [s] with at least [k] characters fewer, or throws
    a value error. *)
Definition parses {A} (k : nat) (s : string) (r : outcome (A * string)) : Prop :=
  match r with
  | Ret (_, s') => suf k s' s
  | Throw e => status e = Some PDI_ERR_VALUE
  | Crash => False
  end.

(** Sequencing: the first parser leaves [s1], from which the rest goes on. *)
Lemma parses_bind {A B} j k k' (s : string) (m : outcome (A * string)) (f : A -> string -> outcome (B * string)) :
  parses k s m -> (forall a s', suf k s' s -> parses k' s' (f a s')) -> (j <= k + k')%nat -> parses j s ('(a, s') ← m; f a s').
Proof.
  intros Hm Hf Hj. destruct m as [[a s']|e|]; simpl in *; [|done|done]. specialize (Hf a s' Hm).
  destruct (f a s') as [[b s'']|e|]; simpl in *; [|done|done]. eapply suf_trans; [exact Hf|exact Hm|lia].
Qed.

Lemma parses_weaken {A} j k k' s s' (r : outcome (A * string)) : parses k' s' r -> suf k s' s -> (j <= k + k')%nat -> parses j s r.
Proof. destruct r as [[a s'']|e|]; simpl; [|done..]. intros H1 H2 Hj. eapply suf_trans; [exact H1|exact H2|lia]. Qed.

Lemma parse_id_parses s : parses 1 s (parse_id s).
Proof.
  unfold parse_id. destruct s as [|c s]; [done|]. destruct (is_id_start c); [|done]. destruct (scan_id s) as [id rest] eqn:H.
  apply scan_id_suf in H. simpl. eapply suf_trans; [exact H|apply suf_cons|lia].
Qed.

Lemma parse_operator_parses s l : parses 1 s (parse_operator s l).
Proof.
  unfold parse_operator, op_level. destruct s as [|c s]; simpl; [done|]. destruct (operator_of c) as [op|]; simpl; [|done].
  destruct (level_of op =? 0); [done|]. destruct (negb _); [done|]. simpl. eapply suf_trans; [apply skip_spaces_suf|apply suf_cons|lia].
Qed.

Lemma parse_int_parses s : parses 1 s (parse_int_literal s).
Proof.
  destruct (parse_int_literal s) as [[e r]|e|] eqn:H; [by apply parse_int_literal_suf in H|..]; revert H;
    unfold parse_int_literal; destruct (strtol s) as [[v er] r]; destruct er; try case_bool_decide; by intros [= <-].
Qed.

Lemma parse_float_parses s : parses 1 s (parse_float_literal s).
Proof.
  destruct (parse_float_literal s) as [[e r]|e|] eqn:H; [by apply parse_float_literal_suf in H|..]; revert H;
    unfold parse_float_literal; destruct (strtod s) as [v r]; case_bool_decide; by intros [= <-].
Qed.

Lemma parse_reference_end_parses c id sub s : parses 0 s (parse_reference_end c id sub s).
Proof.
  unfold parse_reference_end.
  assert (H : exists fmt s', (if at_char s ":" then until_brace s else ("", s)) = (fmt, s') /\ suf 0 s' s).
  { destruct (at_char s ":"); [|by exists "", s]. destruct (until_brace s) as [a b] eqn:Hb. apply until_brace_suf in Hb. by exists a, b. }
  destruct H as (fmt & s' & -> & Hl). destruct c; [|done]. destruct (at_char s' close_brace) eqn:Hc; [|done].
  destruct (at_char_tail _ _ Hc) as (s2 & -> & H2). simpl. eapply suf_weaken; [by apply (tail_spaces 0 s')|lia].
Qed.

Lemma parse_fuel fuel :
  (forall l s, 1 <= l <= 7 -> (10 * len s + Z.to_nat (9 - l) < fuel)%nat -> parses 1 s (parse_operation fuel l s)) /\
  (forall l first ops s, 1 <= l <= 6 -> (10 * len s + 9 < fuel)%nat -> parses 0 s (parse_operands fuel l first ops s)) /\
  (forall s, (10 * len s + 1 < fuel)%nat -> parses 1 s (parse_term fuel s)) /\
  (forall s, (10 * len s < fuel)%nat -> parses 1 s (parse_reference fuel s)) /\
  (forall c id sub s, (10 * len s + 9 < fuel)%nat -> parses 0 s (parse_subelements fuel c id sub s)).
Proof.
  induction fuel as [|fuel (IHo & IHl & IHt & IHr & IHs)]; [split_and!; intros; lia|]. split_and!.
  - intros l s Hl Hf. cbn [parse_operation]. destruct (Z.eqb_spec l 7) as [->|Hne]; [apply IHt; lia|].
    apply (parses_bind 1 1 0); [apply IHo; lia| |lia]. intros e s' Hs%suf_len. apply IHl; lia.
  - intros l first ops s Hl Hf. cbn [parse_operands]. destruct (op_level s =? l); [|apply suf_refl].
    apply (parses_bind 0 1 0); [apply parse_operator_parses| |lia]. intros op s1 H1%suf_len.
    apply (parses_bind 0 1 0); [apply IHo; lia| |lia]. intros e s2 H2%suf_len. apply IHl; lia.
  - intros s Hf. cbn [parse_term]. destruct (at_char s "(") eqn:Hp.
    + destruct (at_char_tail _ _ Hp) as (s1 & -> & H1). cbn [mbind outcome_bind].
      pose proof (tail_spaces 0 s s1 s H1 (suf_refl s)) as H2. pose proof (suf_len _ _ _ H2).
      apply (parses_weaken 1 1 0 s (skip_spaces s1)); [|done|lia]. apply (parses_bind 0 1 0); [apply IHo; lia| |lia].
      intros e s3 H3. destruct (at_char s3 ")") eqn:Hc; [|done]. destruct (at_char_tail _ _ Hc) as (s4 & -> & H4).
      simpl. eapply suf_weaken; [by apply (tail_spaces 0 s3)|lia].
    + destruct (at_char s "$"); [apply IHr; lia|]. destruct (has_dot s); [apply parse_float_parses|apply parse_int_parses].
  - intros s Hf. cbn [parse_reference]. destruct (at_char s "$") eqn:Hp; simpl negb; [|done].
    destruct (at_char_tail _ _ Hp) as (s1 & -> & H1). cbn [mbind outcome_bind].
    assert (H2 : exists s2, (if at_char s1 open_brace then s' ← tail s1; Ret (skip_spaces s') else Ret s1) = Ret s2 /\ suf 0 s2 s1).
    { destruct (at_char s1 open_brace) eqn:Hb; [|by exists s1]. destruct (at_char_tail _ _ Hb) as (s2 & -> & H2).
      exists (skip_spaces s2). split; [done|]. eapply suf_weaken; [by apply (tail_spaces 0 s1)|lia]. }
    destruct H2 as (s2 & Heq & H2). cbv beta in Heq. rewrite Heq. cbn [mbind outcome_bind].
    pose proof (suf_len _ _ _ H1). pose proof (suf_len _ _ _ H2).
    apply (parses_weaken 1 1 1 s s2); [|eapply suf_trans; [exact H2|exact H1|lia]|lia].
    apply (parses_bind 1 1 0); [apply parse_id_parses| |lia]. intros id s3 H3%suf_len.
    apply (parses_weaken 0 0 0 s3 (skip_spaces s3)); [|apply skip_spaces_suf|lia]. pose proof (suf_len _ _ _ (skip_spaces_suf s3)). apply IHs; lia.
  - intros c id sub s Hf. cbn [parse_subelements]. destruct (at_char s "[") eqn:Hp.
    + destruct (at_char_tail _ _ Hp) as (s1 & -> & H1). cbn [mbind outcome_bind].
      pose proof (tail_spaces 0 s s1 s H1 (suf_refl s)) as H2. pose proof (suf_len _ _ _ H2).
      apply (parses_weaken 0 1 0 s (skip_spaces s1)); [|done|lia]. apply (parses_bind 0 1 0); [apply IHo; lia| |lia].
      intros e s3 H3. destruct (at_char s3 "]") eqn:Hc; [|done]. destruct (at_char_tail _ _ Hc) as (s4 & -> & H4). cbn [mbind outcome_bind negb].
      pose proof (tail_spaces 0 s3 s4 s3 H4 (suf_refl s3)) as H5. pose proof (suf_len _ _ _ H5). pose proof (suf_len _ _ _ H3).
      apply (parses_weaken 0 1 0 s3 (skip_spaces s4)); [apply IHs; lia|done|lia].
    + destruct (at_char s ".") eqn:Hd; [|apply parse_reference_end_parses].
      destruct (at_char_tail _ _ Hd) as (s1 & -> & H1). cbn [mbind outcome_bind].
      pose proof (tail_spaces 0 s s1 s H1 (suf_refl s)) as H2. pose proof (suf_len _ _ _ H2).
      apply (parses_weaken 0 1 0 s (skip_spaces s1)); [|done|lia]. apply (parses_bind 0 1 0); [apply parse_id_parses| |lia].
      intros m s3 H3%suf_len. pose proof (suf_len _ _ _ (skip_spaces_suf s3)).
      apply (parses_weaken 0 0 0 s3 (skip_spaces s3)); [apply IHs; lia|apply skip_spaces_suf|lia].
Qed.

(** * Strings *)

(** The last character of the string is a backslash. *)
Fixpoint ends_in_backslash (s : string) : bool :=
  match s with
  | EmptyString => false
  | String c EmptyString => bool_decide (c = "\"%char)
  | String _ s => ends_in_backslash s
  end.

Lemma ends_suf k s' s : suf k s' s -> ends_in_backslash s = false -> ends_in_backslash s' = false.
Proof.
  intros (p & -> & _). clear. induction p as [|c p IH]; [done|]. rewrite string_app_String. simpl.
  destruct (p +:+ s') as [|x r] eqn:Hr; [|exact IH]. intros _. by apply IH.
Qed.

Lemma parse_string_parses fuel : forall start values s, (len s < fuel)%nat -> ends_in_backslash s = false ->
  parses 0 s (parse_string fuel start values s).
Proof.
  induction fuel as [|fuel IH]; intros start values s Hf Hb; [lia|].
  destruct s as [|c0 s0] eqn:Hs; [apply suf_refl|]. rewrite <- Hs in *. assert (Hne : s <> "") by (by rewrite Hs).
  replace (parse_string (S fuel) start values s) with
    (let '(a, s) := scan_plain s in
     let '(start, values) := append_current a start values in
     match peek s with
     | None => parse_string fuel start values s
     | Some c =>
         if bool_decide (c = "\"%char) then
           s ← tail s; s ← tail s;
           let '(start, values) := append_current "\" start values in parse_string fuel start values s
         else
           after ← tail s;
           if at_char after "(" then
             '(e, s) ← parse_term (fuel_for s) after; parse_string fuel start (values ++ [(e, "")]) s
           else
             '(e, s) ← parse_reference (fuel_for s) s; parse_string fuel start (values ++ [(e, "")]) s
     end) by (by rewrite Hs).
  clear Hs c0 s0. destruct (scan_plain s) as [a s1] eqn:Hp. apply scan_plain_suf in Hp as [H1 Hc].
  destruct (append_current a start values) as [st vs]. pose proof (ends_suf _ _ _ H1 Hb) as Hb1. pose proof (suf_len _ _ _ H1) as Hl1.
  apply (parses_weaken 0 0 0 s s1); [|done|lia]. destruct Hc as [->|(c & s2 & -> & Hc)]; [destruct fuel; apply suf_refl|].
  cbn [peek tail mbind outcome_bind]. pose proof (suf_cons c s2) as H2. cbn [len] in Hl1.
  assert (Hgo : forall st vs s', suf 1 s' (String c s2) -> parses 0 s' (parse_string fuel st vs s')).
  { intros st' vs' s' H'. pose proof (suf_len _ _ _ H') as Hl'. cbn [len] in Hl'. apply IH; [lia|]. by eapply ends_suf. }
  case_bool_decide as Hbs.
  - subst c. destruct s2 as [|c' s3]; [done|]. cbn [tail mbind outcome_bind]. destruct (append_current "\" st vs) as [st' vs'].
    assert (H3 : suf 1 s3 (String "\" (String c' s3))) by (eapply suf_trans; [apply suf_cons|exact H2|lia]).
    apply (parses_weaken 0 1 0 _ s3); [by apply Hgo|done|lia].
  - destruct (parse_fuel (fuel_for (String c s2))) as (_ & _ & Ht & Hr & _).
    destruct (at_char s2 "(").
    + apply (parses_weaken 0 1 0 _ s2); [|done|lia]. apply (parses_bind 0 1 0); [apply Ht; unfold fuel_for; cbn [len]; lia| |lia].
      intros e s3 H3. apply Hgo. eapply suf_trans; [exact H3|exact H2|lia].
    + apply (parses_bind 0 1 0); [apply Hr; unfold fuel_for; lia| |lia]. intros e s3 H3. by apply Hgo.
Qed.

(** The whole parser. *)
Lemma parse_expression_parses s :
  ends_in_backslash s = false ->
  match parse_expression s with Ret _ => True | Throw e => status e = Some PDI_ERR_VALUE | Crash => False end.
Proof.
  intros Hb. unfold parse_expression. destruct (parse_fuel (fuel_for s)) as (Ho & _). pose proof (suf_len _ _ _ (skip_spaces_suf s)).
  specialize (Ho 1 (skip_spaces s) ltac:(lia) ltac:(unfold fuel_for; lia)).
  pose proof (parse_string_parses (S (len s)) "" [] s ltac:(lia) Hb) as Hs.
  set (o := parse_operation _ _ _) in *. set (p := parse_string _ _ _ _) in *.
  destruct o as [[e s']|e|]; simpl in Ho; [destruct (skip_spaces s')|..]; try done; destruct p as [[? ?]| |]; done.
Qed.
