(* ===== verification/ParsePrint.v ===== *)
(** Printing and parsing expressions: the parser reads back what is printed,
    with the precedence and the grouping of the operators. *)

From S2P Require Import Prelude Error ExprSyntax Numeric Parse ParseFacts.
From Stdlib Require Import Ascii.

(** * Printing *)

Definition digit_char (d : Z) : ascii := ascii_of_N (Z.to_N (48 + d)).

(** The decimal digits of a natural number. *)
Fixpoint decimal (fuel : nat) (n : Z) : string :=
  match fuel with
  | O => ""
  | S fuel => if n <? 10 then String (digit_char n) "" else decimal fuel (n / 10) +:+ String (digit_char (n mod 10)) ""
  end.

Definition operator_char (op : Operator) : ascii :=
  match op with
  | PLUS => "+" | MINUS => "-" | MULT => "*" | DIV => "/" | MOD => "%" | EQUAL => "=" | AND => "&" | OR => "|"
  | GT => ">" | LT => "<" | GET => "]" | LET => "["
  end.

(** The priority of an expression: that of its operators, or that of a term. *)
Definition priority (e : Impl) : Z :=
  match e with Operation _ ((op, _) :: _) => level_of op | _ => 7 end.

Definition parens (b : bool) (s : string) : string := if b then String "(" (s +:+ ")") else s.

Fixpoint print (e : Impl) : string :=
  match e with
  | Int_literal v => decimal 20 v
  | Operation first ops =>
      let l := priority e in
      parens (priority first <? l + 1) (print first) +:+
      (fix go ops :=
         match ops with
         | [] => ""
         | (op, x) :: ops => String (operator_char op) (parens (priority x <? l + 1) (print x) +:+ go ops)
         end) ops
  | Reference_expression id sub _ =>
      String "$" (id +:+
        (fix go sub :=
           match sub with
           | Index_accessor_expression x :: sub => String "[" (print x +:+ String "]" (go sub))
           | _ => ""
           end) sub)
  | _ => ""
  end.

(** As an operand of level [l]: with parentheses if its operators bind less. *)
Definition print_at (l : Z) (e : Impl) : string := parens (priority e <? l) (print e).

Definition print_ops (l : Z) : list (Operator * Impl) -> string :=
  fix go ops :=
    match ops with
    | [] => ""
    | (op, x) :: ops => String (operator_char op) (print_at (l + 1) x +:+ go ops)
    end.

Definition print_sub : list Accessor -> string :=
  fix go sub :=
    match sub with
    | Index_accessor_expression x :: sub => String "[" (print x +:+ String "]" (go sub))
    | _ => ""
    end.

(** * The expressions that can be printed *)

Fixpoint id_chars (s : string) : bool :=
  match s with EmptyString => true | String c s => is_id_char c && id_chars s end.

Definition is_id (s : string) : bool :=
  match s with EmptyString => false | String c s => is_id_start c && id_chars s end.

(** Natural numbers, operations whose operators all have the same priority, and
    references with indices. *)
Fixpoint printable (e : Impl) : bool :=
  match e with
  | Int_literal v => (0 <=? v) && (v <? 2 ^ 63)
  | Operation first ops =>
      printable first && (1 <=? priority e) && negb (bool_decide (ops = [])) &&
      forallb (fun p => (level_of (fst p) =? priority e) && printable (snd p)) ops
  | Reference_expression id sub fmt =>
      is_id id && bool_decide (fmt = "") &&
      (fix go sub :=
         match sub with
         | [] => true
         | Index_accessor_expression x :: sub => printable x && go sub
         | _ => false
         end) sub
  | _ => false
  end.

(** * Strings *)

Lemma len_app (a b : string) : len (a +:+ b) = (len a + len b)%nat.
Proof. induction a as [|x a IH]; [done|]. rewrite string_app_String. simpl. by rewrite IH. Qed.

Lemma has_dot_app a b : has_dot (a +:+ b) = has_dot a || has_dot b.
Proof. induction a as [|x a IH]; [done|]. rewrite string_app_String. simpl. by rewrite IH, orb_assoc. Qed.

(** * Delimiters *)

(** The characters that may follow an operand. *)
Definition delimiters : list ascii := [")"; "]"; "|"; "&"; "="; ">"; "<"; "+"; "-"; "*"; "/"; "%"]%char.

(** What may follow an operand of level [l] without being part of it. *)
Definition stop (l : Z) (r : string) : Prop :=
  match peek r with None => True | Some c => c ∈ delimiters /\ op_level r < l end.

Lemma delimiter_props c :
  c ∈ delimiters ->
  isspace c = false /\ digit_value c = None /\ is_id_char c = false /\
  c <> "["%char /\ c <> "."%char /\ c <> ":"%char /\ c <> "x"%char /\ c <> "X"%char.
Proof.
  unfold delimiters. rewrite !elem_of_cons, elem_of_nil. intros H.
  repeat destruct H as [->|H]; [split_and!; (by vm_compute || discriminate)..|done].
Qed.

Lemma stop_skip l r : stop l r -> skip_spaces r = r.
Proof. destruct r as [|c r]; [done|]. intros [Hc _]. simpl. by destruct (delimiter_props c Hc) as (-> & _). Qed.

Lemma stop_not l r c : stop l r -> (forall x, x ∈ delimiters -> x <> c) -> at_char r c = false.
Proof.
  intros Hs Hc. unfold at_char. apply bool_decide_eq_false. destruct r as [|x r]; simpl; [done|]. destruct Hs as [Hx _].
  intros [= ->]. by apply (Hc c Hx).
Qed.

Lemma stop_mono l l' r : l <= l' -> stop l r -> stop l' r.
Proof. unfold stop. destruct (peek r); [|done]. intros ? [? ?]. split; [done|lia]. Qed.

Lemma stop_op_level l r : 0 < l -> stop l r -> op_level r < l.
Proof. unfold stop, op_level. destruct (peek r); [|lia]. by intros _ [_ ?]. Qed.

(** * Numbers *)

Lemma digit_cases d : 0 <= d < 10 -> d = 0 \/ d = 1 \/ d = 2 \/ d = 3 \/ d = 4 \/ d = 5 \/ d = 6 \/ d = 7 \/ d = 8 \/ d = 9.
Proof. lia. Qed.

Lemma digit_char_value d : 0 <= d < 10 -> digit_value (digit_char d) = Some d.
Proof. intros H%digit_cases. repeat destruct H as [->|H]; try (by vm_compute). by subst. Qed.

Lemma digit_char_plain d : 0 <= d < 10 ->
  isspace (digit_char d) = false /\ digit_char d <> "-"%char /\ digit_char d <> "+"%char /\ digit_char d <> "("%char /\
  digit_char d <> "$"%char /\ digit_char d <> "."%char /\ (digit_char d = "0"%char -> d = 0).
Proof.
  intros H%digit_cases. repeat destruct H as [->|H]; try subst d; split_and!; (by vm_compute || discriminate || done).
Qed.

Lemma scan_digits_stop base acc n l r : stop l r -> scan_digits base acc n r = (acc, n, r).
Proof. destruct r as [|c r]; [done|]. intros [Hc _]. simpl. by destruct (delimiter_props c Hc) as (_ & -> & _). Qed.

Lemma scan_decimal fuel n acc k r :
  0 <= n < 10 ^ Z.of_nat fuel ->
  scan_digits 10 acc k (decimal fuel n +:+ r)
  = scan_digits 10 (acc * 10 ^ Z.of_nat (len (decimal fuel n)) + n) (k + Z.of_nat (len (decimal fuel n))) r.
Proof.
  revert n acc k r. induction fuel as [|fuel IH]; intros n acc k r Hn.
  - simpl in *. f_equal; lia.
  - cbn [decimal]. destruct (Z.ltb_spec n 10) as [Hlt|Hge].
    + rewrite string_app_String. simpl scan_digits at 1. rewrite digit_char_value by lia. destruct (Z.ltb_spec n 10); [|lia].
      cbn. f_equal; lia.
    + rewrite Nat2Z.inj_succ, Z.pow_succ_r in Hn by lia. rewrite string_app_assoc, string_app_String, IH.
      2: { pose proof (Z.div_pos n 10). pose proof (Z.div_lt_upper_bound n 10 (10 ^ Z.of_nat fuel)). lia. }
      simpl scan_digits at 1. pose proof (Z.mod_pos_bound n 10 ltac:(lia)). rewrite digit_char_value by lia.
      destruct (Z.ltb_spec (n mod 10) 10); [|lia]. rewrite len_app. cbn [len].
      rewrite Nat2Z.inj_add, Z.pow_add_r by lia. change (10 ^ Z.of_nat 1) with 10. pose proof (Z.div_mod n 10 ltac:(lia)).
      f_equal; [lia|]. cbn [Z.of_nat]. lia.
Qed.

(** A number starts with a digit, which is not zero unless it is the number 0. *)
Lemma decimal_head fuel n :
  0 <= n < 10 ^ Z.of_nat fuel -> (0 < fuel)%nat ->
  exists d s, decimal fuel n = String (digit_char d) s /\ 0 <= d < 10 /\ (d = 0 -> n = 0).
Proof.
  revert n. induction fuel as [|fuel IH]; intros n Hn Hf; [lia|]. cbn [decimal]. destruct (Z.ltb_spec n 10) as [Hlt|Hge].
  - exists n, "". split_and!; (done || lia).
  - rewrite Nat2Z.inj_succ, Z.pow_succ_r in Hn by lia.
    assert (Hq : 1 <= n / 10 < 10 ^ Z.of_nat fuel).
    { split; [apply Z.div_le_lower_bound; lia|apply Z.div_lt_upper_bound; lia]. }
    destruct fuel as [|fuel]; [simpl in Hq; lia|].
    destruct (IH (n / 10)) as (d & s & Hs & Hd & Hz); [lia|lia|]. exists d, (s +:+ String (digit_char (n mod 10)) "").
    rewrite Hs. split_and!; [done|lia|lia|]. intros ->. specialize (Hz eq_refl). lia.
Qed.

Lemma decimal_has_dot fuel n : 0 <= n -> has_dot (decimal fuel n) = false.
Proof.
  revert n. induction fuel as [|fuel IH]; intros n Hn; cbn [decimal]; [done|].
  assert (Hdot : forall d, 0 <= d < 10 -> has_dot (String (digit_char d) "") = false).
  { intros d Hd. cbn. rewrite bool_decide_eq_false_2; [done|]. by apply digit_char_plain. }
  destruct (Z.ltb_spec n 10); [apply Hdot; lia|]. rewrite has_dot_app, IH by (apply Z.div_pos; lia). simpl orb.
  apply Hdot. apply Z.mod_pos_bound. lia.
Qed.

Lemma parse_decimal v l r :
  0 <= v < 2 ^ 63 -> stop l r -> parse_int_literal (decimal 20 v +:+ r) = Ret (Int_literal v, r).
Proof.
  intros Hv Hr. assert (Hv' : 0 <= v < 10 ^ Z.of_nat 20) by (split; [lia|]; change (10 ^ Z.of_nat 20) with 100000000000000000000; lia).
  destruct (decimal_head 20 v Hv' ltac:(lia)) as (d & s & Hs & Hd & Hz).
  destruct (digit_char_plain d Hd) as (Hsp & Hm & Hp & _ & _ & _ & H0).
  pose proof (scan_decimal 20 v 0 0 r Hv') as Hscan. rewrite (scan_digits_stop _ _ _ l r Hr) in Hscan.
  assert (Hlen : (0 < len (decimal 20 v))%nat) by (rewrite Hs; simpl; lia).
  assert (Hne : r <> decimal 20 v +:+ r).
  { intros H. apply (f_equal len) in H. rewrite len_app in H. lia. }
  unfold parse_int_literal, strtol.
  assert (Hskip : skip_spaces (decimal 20 v +:+ r) = decimal 20 v +:+ r) by (rewrite Hs, string_app_String; simpl; by rewrite Hsp).
  assert (Hsign : scan_sign (decimal 20 v +:+ r) = (false, decimal 20 v +:+ r)).
  { unfold scan_sign, at_char. rewrite Hs, string_app_String. simpl. rewrite !bool_decide_eq_false_2 by congruence. done. }
  rewrite Hskip, Hsign.
  assert (Hbase : exists base, scan_base (decimal 20 v +:+ r) = (base, decimal 20 v +:+ r) /\
            scan_digits base 0 0 (decimal 20 v +:+ r) = (v, Z.of_nat (len (decimal 20 v)), r)).
  { unfold scan_base. destruct (at_char (decimal 20 v +:+ r) "0") eqn:Hz0.
    - assert (d = 0) as ->.
      { apply H0. unfold at_char in Hz0. rewrite Hs, string_app_String in Hz0. apply bool_decide_eq_true in Hz0. simpl in Hz0. congruence. }
      specialize (Hz eq_refl) as ->. exists 8. change (decimal 20 0) with (String "0" ""). rewrite string_app_String. simpl following.
      rewrite !(stop_not l r) by (done || (intros x Hx; by destruct (delimiter_props x Hx) as (_ & _ & _ & _ & _ & _ & ? & ?))).
      split; [done|]. simpl. by rewrite (scan_digits_stop _ _ _ l r Hr).
    - exists 10. split; [done|]. by rewrite Hscan. }
  destruct Hbase as (base & -> & ->). destruct (Z.eqb_spec (Z.of_nat (len (decimal 20 v))) 0); [lia|].
  destruct (Z.ltb_spec v (- 2 ^ 63)); [lia|]. destruct (Z.ltb_spec (2 ^ 63 - 1) v); [lia|].
  rewrite bool_decide_eq_false_2 by done. by rewrite (stop_skip l r Hr).
Qed.

(** * Expressions *)

Lemma print_operation first ops :
  print (Operation first ops) =
  print_at (priority (Operation first ops) + 1) first +:+ print_ops (priority (Operation first ops)) ops.
Proof. reflexivity. Qed.

Lemma print_reference id sub fmt : print (Reference_expression id sub fmt) = String "$" (id +:+ print_sub sub).
Proof. reflexivity. Qed.

Definition printable_sub : list Accessor -> bool :=
  fix go sub :=
    match sub with
    | [] => true
    | Index_accessor_expression x :: sub => printable x && go sub
    | _ => false
    end.

Lemma printable_reference id sub fmt :
  printable (Reference_expression id sub fmt) = is_id id && bool_decide (fmt = "") && printable_sub sub.
Proof. reflexivity. Qed.

(** The first character of an expression is not a space. *)
Definition starts (s : string) : Prop := exists c s', s = String c s' /\ isspace c = false.

Lemma starts_app s r : starts s -> starts (s +:+ r).
Proof. intros (c & s' & -> & Hc). exists c, (s' +:+ r). by rewrite string_app_String. Qed.

Lemma starts_skip s : starts s -> skip_spaces s = s.
Proof. intros (c & s' & -> & Hc). simpl. by rewrite Hc. Qed.

Lemma starts_len s : starts s -> (0 < len s)%nat.
Proof. intros (c & s' & -> & _). simpl. lia. Qed.

Fixpoint print_starts (e : Impl) : printable e = true -> starts (print e).
Proof.
  intros He. destruct e as [v|f|first ops|id sub fmt|st vs|vs|vs]; try done.
  - simpl in He. bools. destruct (decimal_head 20 v) as (d & s & Hs & Hd & _);
      [split; [lia|]; change (10 ^ Z.of_nat 20) with 100000000000000000000; lia|lia|].
    cbn [print]. rewrite Hs. exists (digit_char d), s. split; [done|]. by apply digit_char_plain.
  - rewrite print_operation. apply starts_app. unfold print_at, parens.
    assert (Hf : printable first = true) by (cbn [printable] in He; by bools).
    destruct (_ <? _); [by exists "("%char, (print first +:+ ")")|by apply print_starts].
  - rewrite print_reference. by exists "$"%char, (id +:+ print_sub sub).
Qed.

Lemma print_at_starts l e : printable e = true -> starts (print_at l e).
Proof.
  intros He. unfold print_at, parens. destruct (_ <? _); [by exists "("%char, (print e +:+ ")")|by apply print_starts].
Qed.

Lemma id_no_dot id : id_chars id = true -> has_dot id = false.
Proof.
  induction id as [|c id IH]; simpl; [done|]. intros H. bools. rewrite IH by done. rewrite bool_decide_eq_false_2; [done|]. intros ->. done.
Qed.

Lemma is_id_chars id : is_id id = true -> id_chars id = true.
Proof.
  destruct id as [|c id]; simpl; [done|]. intros H. bools. apply andb_true_iff. split; [|done]. unfold is_id_char. by rewrite H.
Qed.

(** Induction on printable expressions. *)
Section printable_ind.
  Context (P : Impl -> Prop).
  Context (Hint : forall v, 0 <= v < 2 ^ 63 -> P (Int_literal v)).
  Context (Hop : forall first ops, 1 <= priority (Operation first ops) <= 6 -> ops <> [] ->
    printable first = true -> P first ->
    Forall (fun p => level_of (fst p) = priority (Operation first ops) /\ printable (snd p) = true /\ P (snd p)) ops ->
    P (Operation first ops)).
  Context (Href : forall id sub, is_id id = true ->
    Forall (fun a => exists x, a = Index_accessor_expression x /\ printable x = true /\ P x) sub ->
    P (Reference_expression id sub "")).

Fixpoint printable_ind (e : Impl) : printable e = true -> P e.
Proof.
  intros He. destruct e as [v|f|first ops|id sub fmt|st vs|vs|vs]; try done.
  - simpl in He. bools. by apply Hint.
  - cbn [printable] in He. apply andb_true_iff in He as [He Hops]. apply andb_true_iff in He as [He Hne].
    apply andb_true_iff in He as [Hf Hl]. apply Z.leb_le in Hl. apply negb_true_iff, bool_decide_eq_false in Hne.
    apply Hop; [|done|done|by apply printable_ind|].
    + split; [done|]. destruct ops as [|[[] x] ops]; [done|..]; simpl in *; lia.
    + revert Hops. generalize (priority (Operation first ops)) as k. clear Hne Hl. intros k.
      induction ops as [|[op x] ops IH]; [constructor|]. cbn [forallb]. intros [Hx Hops]%andb_true_iff.
      apply andb_true_iff in Hx as [Hk Hx]. constructor; [|by apply IH].
      split_and!; [by apply Z.eqb_eq|done|]. cbn [snd] in *. by apply printable_ind.
  - rewrite printable_reference in He. apply andb_true_iff in He as [He Hs]. apply andb_true_iff in He as [Hid Hfmt].
    apply bool_decide_eq_true in Hfmt as ->. apply Href; [done|].
    induction sub as [|[x|x] sub IH]; [constructor| |done]. cbn in Hs. apply andb_true_iff in Hs as [Hx Hs].
    constructor; [|by apply IH]. exists x. split_and!; [done|done|]. by apply printable_ind.
Qed.

End printable_ind.

Lemma print_at_no_dot l e : has_dot (print e) = false -> has_dot (print_at l e) = false.
Proof.
  intros Hx. unfold print_at, parens. destruct (_ <? _); [|done]. change (has_dot (print e +:+ ")") = false). by rewrite has_dot_app, Hx.
Qed.

Lemma print_ops_no_dot l ops : Forall (fun p => has_dot (print (snd p)) = false) ops -> has_dot (print_ops l ops) = false.
Proof.
  induction 1 as [|[op x] ops Hx Hops IH]; simpl; [done|]. rewrite has_dot_app, IH, print_at_no_dot by done. by destruct op.
Qed.

Lemma print_no_dot e : printable e = true -> has_dot (print e) = false.
Proof.
  revert e. apply printable_ind.
  - intros v Hv. apply decimal_has_dot. lia.
  - intros first ops _ _ _ Hf Hops. rewrite print_operation, has_dot_app, print_at_no_dot by done.
    apply print_ops_no_dot. eapply list.Forall_impl; [exact Hops|]. naive_solver.
  - intros id sub Hid Hsub. rewrite print_reference. change (has_dot (id +:+ print_sub sub) = false).
    rewrite has_dot_app, id_no_dot by (by apply is_id_chars). simpl orb.
    induction Hsub as [|a sub (x & -> & _ & Hx) Hsub IH]; simpl; [done|]. rewrite has_dot_app, Hx. done.
Qed.

(** * Parsing back *)

Lemma parse_operation_7 fuel s : parse_operation (S fuel) 7 s = parse_term fuel s.
Proof. reflexivity. Qed.

(** An expression read at a level is also read at the lower ones. *)
Lemma descend j : forall l k s e r fuel,
  k = l + Z.of_nat j -> 1 <= l -> k <= 7 -> stop l r -> (len r < len s)%nat ->
  (10 * len s + Z.to_nat (9 - l) < fuel)%nat ->
  (forall fuel', (10 * len s + Z.to_nat (9 - k) < fuel')%nat -> parse_operation fuel' k s = Ret (e, r)) ->
  parse_operation fuel l s = Ret (e, r).
Proof.
  induction j as [|j IH]; intros l k s e r fuel Hk Hl Hk7 Hr Hlen Hfuel Hrun.
  { assert (k = l) as -> by lia. by apply Hrun. }
  destruct fuel as [|fuel]; [lia|]. cbn [parse_operation]. destruct (Z.eqb_spec l 7); [lia|].
  rewrite (IH (l + 1) k s e r fuel); [|lia|lia|lia|by eapply stop_mono; [|exact Hr]; lia|done|lia|done].
  simpl. destruct fuel as [|fuel]; [lia|]. cbn [parse_operands].
  pose proof (stop_op_level l r ltac:(lia) Hr). destruct (Z.eqb_spec (op_level r) l); [lia|]. done.
Qed.

(** The parser reads back [e] when it is printed where level [l] is expected. *)
Definition reads (e : Impl) : Prop := forall l fuel r,
  1 <= l <= 7 -> l <= priority e -> stop l r -> has_dot r = false ->
  (10 * len (print e +:+ r) + Z.to_nat (9 - l) < fuel)%nat ->
  parse_operation fuel l (print e +:+ r) = Ret (e, r).

Lemma priority_pos e : printable e = true -> 1 <= priority e.
Proof. intros He. destruct e as [| |? ?| | | |]; try (simpl; lia). cbn [printable] in He. by bools. Qed.

Lemma at_char_here c s : at_char (String c s) c = true.
Proof. unfold at_char. by rewrite bool_decide_eq_true_2. Qed.

Lemma at_char_other c c' s : c <> c' -> at_char (String c s) c' = false.
Proof. intros H. unfold at_char. rewrite bool_decide_eq_false_2; [done|]. simpl. congruence. Qed.

Lemma reads_at e l fuel r :
  printable e = true -> reads e -> 1 <= l <= 7 -> stop l r -> has_dot r = false ->
  (10 * len (print_at l e +:+ r) + Z.to_nat (9 - l) < fuel)%nat ->
  parse_operation fuel l (print_at l e +:+ r) = Ret (e, r).
Proof.
  intros He Hreads Hl Hr Hdot Hfuel. unfold print_at, parens in *. destruct (Z.ltb_spec (priority e) l); [|by apply Hreads].
  rewrite string_app_String, string_app_assoc in *. cbn [len] in Hfuel. rewrite !len_app in Hfuel. cbn [len] in Hfuel.
  apply (descend (Z.to_nat (7 - l)) l 7); [lia|lia|lia|done| | |].
  - cbn [len]. rewrite !len_app. lia.
  - cbn [len]. rewrite !len_app. cbn [len]. lia.
  - intros fuel' Hf'. cbn [len] in Hf'. rewrite !len_app in Hf'. cbn [len] in Hf'.
    destruct fuel' as [|fuel']; [lia|]. rewrite parse_operation_7. destruct fuel' as [|fuel']; [lia|]. cbn [parse_term].
    rewrite at_char_here. cbn [tail mbind outcome_bind].
    rewrite starts_skip by (by apply starts_app, print_starts). change (")" +:+ r) with (String ")" r) in *.
    rewrite Hreads; [|lia|by apply priority_pos|split; [apply list_elem_of_here|done]|done|].
    + cbn [mbind outcome_bind]. rewrite at_char_here. cbn [negb tail mbind outcome_bind]. by rewrite (stop_skip l r).
    + rewrite len_app. cbn [len]. lia.
Qed.

(** The operators are the characters they are printed as. *)
Lemma operator_char_of op : 1 <= level_of op -> operator_of (operator_char op) = Some op /\ operator_char op ∈ delimiters.
Proof.
  destruct op; simpl; intros H; try lia; (split; [by vm_compute|]); apply list_elem_of_In; simpl; tauto.
Qed.

Lemma op_level_char op s : 1 <= level_of op -> op_level (String (operator_char op) s) = level_of op.
Proof. intros H. unfold op_level. simpl. by destruct (operator_char_of op H) as [-> _]. Qed.

Lemma parse_operator_char op s :
  1 <= level_of op -> starts s -> parse_operator (String (operator_char op) s) (level_of op) = Ret (op, s).
Proof.
  intros H Hs. unfold parse_operator. rewrite op_level_char by done. destruct (Z.eqb_spec (level_of op) 0); [lia|].
  rewrite Z.eqb_refl. simpl. destruct (operator_char_of op H) as [-> _]. simpl. by rewrite starts_skip.
Qed.

(** The operands of an operation of level [l], one after the other. *)
Lemma read_operands l first ops r : forall acc fuel,
  1 <= l <= 6 -> stop l r -> has_dot r = false ->
  Forall (fun p => level_of (fst p) = l /\ printable (snd p) = true /\ reads (snd p)) ops ->
  (10 * len (print_ops l ops +:+ r) + 9 < fuel)%nat ->
  parse_operands fuel l first acc (print_ops l ops +:+ r)
  = Ret (match acc ++ ops with [] => first | _ => Operation first (acc ++ ops) end, r).
Proof.
  intros acc fuel Hl Hr Hdot Hops. revert acc fuel.
  induction Hops as [|[op x] ops (Hop & Hx & Hreads) Hops IH]; intros acc fuel Hfuel; (destruct fuel as [|fuel]; [lia|]); cbn [parse_operands].
  - simpl print_ops in *. change ("" +:+ r) with r in *. pose proof (stop_op_level l r ltac:(lia) Hr).
    destruct (Z.eqb_spec (op_level r) l); [lia|]. by rewrite app_nil_r.
  - cbn [fst snd] in *. cbn [print_ops] in *. rewrite string_app_String, string_app_assoc in *. cbn [len] in Hfuel.
    rewrite op_level_char by lia. rewrite Hop, Z.eqb_refl. subst l.
    rewrite parse_operator_char by (lia || by apply starts_app, print_at_starts). cbn [mbind outcome_bind].
    rewrite len_app in Hfuel. pose proof (starts_len _ (print_at_starts (level_of op + 1) x Hx)).
    rewrite reads_at; [|done|done|lia| |  |rewrite len_app; lia].
    + cbn [mbind outcome_bind]. rewrite IH by lia. rewrite <- (app_assoc acc). done.
    + destruct ops as [|[op' x'] ops]; [simpl; eapply stop_mono; [|exact Hr]; lia|].
      apply list.Forall_cons in Hops as [(Hop' & _) _]. cbn [fst] in Hop'. cbn [print_ops]. rewrite string_app_String.
      split; [apply operator_char_of; lia|]. rewrite op_level_char by lia. lia.
    + rewrite has_dot_app, Hdot, orb_false_r. apply print_ops_no_dot.
      eapply list.Forall_impl; [exact Hops|]. intros p (_ & Hp & _). by apply print_no_dot.
Qed.

Lemma scan_id_chars id r :
  id_chars id = true -> (match peek r with Some c => is_id_char c = false | None => True end) -> scan_id (id +:+ r) = (id, r).
Proof.
  intros Hid Hr. induction id as [|c id IH]; simpl in Hid.
  - change ("" +:+ r) with r. destruct r as [|c r]; [done|]. simpl in *. by rewrite Hr.
  - bools. rewrite string_app_String. simpl. rewrite IH by done. by rewrite H.
Qed.

(** The indices of a reference. *)
Lemma read_sub id sub l r : forall acc fuel,
  stop l r -> has_dot r = false ->
  Forall (fun a => exists x, a = Index_accessor_expression x /\ printable x = true /\ reads x) sub ->
  (10 * len (print_sub sub +:+ r) + 9 < fuel)%nat ->
  parse_subelements fuel false id acc (print_sub sub +:+ r) = Ret (Reference_expression id (acc ++ sub) "", r).
Proof.
  intros acc fuel Hr Hdot Hsub. revert acc fuel.
  induction Hsub as [|a sub (x & -> & Hx & Hreads) Hsub IH]; intros acc fuel Hfuel; (destruct fuel as [|fuel]; [lia|]); cbn [parse_subelements].
  - simpl print_sub in *. change ("" +:+ r) with r in *.
    rewrite !(stop_not l r) by (done || (intros c Hc; destruct (delimiter_props c Hc); tauto)).
    unfold parse_reference_end. rewrite (stop_not l r) by (done || (intros c Hc; destruct (delimiter_props c Hc); tauto)). by rewrite app_nil_r.
  - cbn [print_sub] in *. rewrite string_app_String, string_app_assoc, string_app_String in *. rewrite at_char_here. cbn [tail mbind outcome_bind]. cbn [len] in Hfuel.
    rewrite len_app in Hfuel. cbn [len] in Hfuel.
    rewrite starts_skip by (by apply starts_app, print_starts).
    rewrite Hreads; [|lia|by apply priority_pos| | |rewrite len_app; cbn [len]; lia].
    + cbn [mbind outcome_bind]. rewrite at_char_here. cbn [negb tail mbind outcome_bind].
      assert (Hskip : skip_spaces (print_sub sub +:+ r) = print_sub sub +:+ r).
      { destruct Hsub as [|a sub (y & -> & _)]; [by apply (stop_skip l)|done]. }
      rewrite Hskip, IH by lia. by rewrite <- app_assoc.
    + split; [|done]. apply list_elem_of_In. simpl. tauto.
    + change (has_dot (print_sub sub +:+ r) = false). rewrite has_dot_app, Hdot, orb_false_r.
      clear -Hsub. induction Hsub as [|a sub (y & -> & Hy & _) Hsub IH]; [done|].
      cbn [print_sub]. change (has_dot (print y +:+ String "]" (print_sub sub)) = false).
      rewrite has_dot_app, print_no_dot by done. exact IH.
Qed.

(** A term is read at every level. *)
Lemma term_reads e :
  priority e = 7 ->
  (forall fuel r l, stop l r -> has_dot r = false -> (10 * len (print e +:+ r) + 1 < fuel)%nat ->
     parse_term fuel (print e +:+ r) = Ret (e, r)) ->
  starts (print e) -> reads e.
Proof.
  intros Hp Hterm Hst l fuel r Hl _ Hr Hdot Hfuel. pose proof (starts_len _ Hst).
  apply (descend (Z.to_nat (7 - l)) l 7); [lia|lia|lia|done| |done|].
  - rewrite len_app. lia.
  - intros fuel' Hf'. destruct fuel' as [|fuel']; [lia|]. rewrite parse_operation_7. apply (Hterm _ _ l); [done|done|lia].
Qed.

Lemma printable_reads e : printable e = true -> reads e.
Proof.
  revert e. apply printable_ind.
  - intros v Hv. apply term_reads; [done| |apply print_starts; simpl; apply andb_true_iff; lia].
    intros fuel r l Hr Hdot Hfuel. destruct fuel as [|fuel]; [lia|]. cbn [parse_term print].
    destruct (decimal_head 20 v) as (d & s & Hs & Hd & _);
      [split; [lia|]; change (10 ^ Z.of_nat 20) with 100000000000000000000; lia|lia|].
    destruct (digit_char_plain d Hd) as (_ & _ & _ & Hpar & Hdol & _ & _).
    assert (Hc : forall c, digit_char d <> c -> at_char (decimal 20 v +:+ r) c = false).
    { intros c Hc. rewrite Hs, string_app_String. by apply at_char_other. }
    rewrite !Hc by done. rewrite has_dot_app, Hdot, decimal_has_dot by lia. simpl orb. by apply (parse_decimal v l).
  - intros first ops Hl Hne Hf Hreads Hops l fuel r Hl' Hle Hr Hdot Hfuel.
    set (k := priority (Operation first ops)) in *.
    assert (Hlen : (len (print_ops k ops) > 0)%nat) by (destruct ops as [|[op x] ops]; [done|simpl; lia]).
    pose proof (starts_len _ (print_at_starts (k + 1) first Hf)).
    rewrite print_operation in *. fold k in Hfuel |- *. rewrite string_app_assoc in *.
    apply (descend (Z.to_nat (k - l)) l k); [lia|lia|lia|done|rewrite !len_app; lia|done|].
    intros fuel' Hf'. destruct fuel' as [|fuel']; [lia|]. cbn [parse_operation]. destruct (Z.eqb_spec k 7); [lia|].
    rewrite reads_at; [|done|done|lia| | |lia].
    + cbn [mbind outcome_bind]. rewrite (read_operands k first ops r []); [|lia|by eapply stop_mono; [|exact Hr]|done|done|].
      * simpl. by destruct ops.
      * rewrite len_app in Hf'. lia.
    + destruct ops as [|[op x] ops]; [done|]. apply list.Forall_cons in Hops as [(Hop & _) _]. cbn [fst] in Hop.
      cbn [print_ops]. rewrite string_app_String. split; [apply operator_char_of; lia|]. rewrite op_level_char by lia. lia.
    + rewrite has_dot_app, Hdot, orb_false_r. apply print_ops_no_dot.
      eapply list.Forall_impl; [exact Hops|]. intros p (_ & Hp & _). by apply print_no_dot.
  - intros id sub Hid Hsub.
    assert (Hpr : printable (Reference_expression id sub "") = true).
    { rewrite printable_reference, Hid. simpl. clear Hid. induction Hsub as [|a sub (x & -> & Hx & _) Hsub IH]; [done|]. simpl. by rewrite Hx. }
    apply term_reads; [done| |by apply print_starts]. intros fuel r l Hr Hdot Hfuel.
    rewrite print_reference, string_app_String, string_app_assoc in *. cbn [len] in Hfuel.
    destruct fuel as [|fuel]; [lia|]. cbn [parse_term]. rewrite at_char_other by discriminate. rewrite at_char_here.
    destruct fuel as [|fuel]; [lia|]. cbn [parse_reference]. rewrite at_char_here. cbn [negb tail mbind outcome_bind].
    destruct id as [|c id]; [done|]. simpl in Hid. bools. rewrite string_app_String in *.
    assert (at_char (String c (id +:+ print_sub sub +:+ r)) open_brace = false) as ->.
    { apply at_char_other. intros ->. done. }
    cbn [mbind outcome_bind]. unfold parse_id. rewrite H. rewrite scan_id_chars; [|done|].
    + cbn [mbind outcome_bind]. cbn [len] in Hfuel. rewrite len_app in Hfuel.
      assert (Hskip : skip_spaces (print_sub sub +:+ r) = print_sub sub +:+ r).
      { destruct Hsub as [|a sub (y & -> & _)]; [by apply (stop_skip l)|done]. }
      rewrite Hskip. by rewrite (read_sub (String c id) sub l r []) by (done || lia).
    + destruct Hsub as [|a sub (y & -> & _)]; [|done]. change (print_sub [] +:+ r) with r. destruct r as [|c' r]; [done|].
      destruct Hr as [Hc' _]. simpl. by destruct (delimiter_props c' Hc') as (_ & _ & ? & _).
Qed.

(** * Theorems *)

(** C14: the expression parser reads back what is printed: an expression made of
    natural numbers, operators and indexed references, printed with parentheses
    only where the priorities need them, is parsed as that very expression. *)
Theorem parse_print_expression e :
  printable e = true -> parse_expression (print e) = Ret e.
Proof.
  intros He. unfold parse_expression. rewrite starts_skip by (by apply print_starts).
  rewrite <- (string_app_nil_r (print e)) at 2. rewrite (printable_reads e He 1 _ ""); [done|lia|by apply priority_pos|done|done|].
  unfold fuel_for. rewrite string_app_nil_r. lia.
Qed.

Definition sample_expression : Impl :=
  Operation (Int_literal 12)
    [(MINUS, Operation (Operation (Int_literal 3) [(PLUS, Reference_expression "a" [Index_accessor_expression (Int_literal 0)] "")])
               [(MULT, Int_literal 7); (MOD, Int_literal 5)]);
     (PLUS, Int_literal 1)].

Lemma parse_print_expression_witness :
  print sample_expression = "12-(3+$a[0])*7%5+1" /\ parse_expression "12-(3+$a[0])*7%5+1" = Ret sample_expression.
Proof. split; [by vm_compute|]. apply (parse_print_expression sample_expression). by vm_compute. Defined.

(** C15: the parser terminates on every string.  Reading an operation, a term or a
    reference leaves a proper suffix of the string, or throws a value error; no
    read goes past the terminating NUL, which would be a crash, and a fuel of ten
    times the length is enough.  The whole parser, which falls back on a string
    with references, returns an expression or throws a value error on every string
    that does not end in a backslash: after that one it does read past the end. *)
Theorem expression_parser_terminates s l :
  1 <= l <= 7 ->
  parses 1 s (parse_operation (fuel_for s) l s) /\ parses 1 s (parse_term (fuel_for s) s) /\ parses 1 s (parse_reference (fuel_for s) s) /\
  (ends_in_backslash s = false ->
   match parse_expression s with Ret _ => True | Throw e => status e = Some PDI_ERR_VALUE | Crash => False end).
Proof.
  intros Hl. destruct (parse_fuel (fuel_for s)) as (Ho & _ & Ht & Hr & _). unfold fuel_for in *.
  split_and!; [apply Ho|apply Ht|apply Hr|apply parse_expression_parses]; lia.
Qed.

Lemma expression_parser_terminates_witness :
  parses 1 "((1+" (parse_operation (fuel_for "((1+") 1 "((1+") /\ parses 1 "((1+" (parse_term (fuel_for "((1+") "((1+") /\
  parses 1 "((1+" (parse_reference (fuel_for "((1+") "((1+") /\
  (ends_in_backslash "((1+" = false ->
   match parse_expression "((1+" with Ret _ => True | Throw e => status e = Some PDI_ERR_VALUE | Crash => False end).
Proof. apply (expression_parser_terminates "((1+" 1). lia. Defined.

(** An integer is parsed as a floating point number as soon as a dot
    appears anywhere after it, even in a member access: the remainder of an
    integer by a member then fails on its type. *)
Theorem integer_before_a_dot_is_a_float :
  parse_expression "7%$r" = Ret (Operation (Int_literal 7) [(MOD, Reference_expression "r" [] "")]) /\
  exists f sub, parse_expression "7%$r.n" = Ret (Operation (Float_literal f) [(MOD, Reference_expression "r" sub "")]) /\
    eval (NDouble f) MOD (NInt true 8 2) = Throw (Type_error "Invalid operands to modulo operation").
Proof. split; [by vm_compute|]. do 2 eexists. split; [by vm_compute|]. by vm_compute. Qed.

(** In a string, a backslash is kept and the character after it is dropped,
    and a backslash at the end of the string makes the parser read past it. *)
Theorem backslash_drops_the_next_character :
  parse_expression "a\$b" = Ret (String_literal "a\b" []) /\ parse_expression "a\" = Crash.
Proof. split; by vm_compute. Qed.
