(* ===== verification/Yaml.v ===== *)
(** The specification tree and the functions that read it.

    A [PC_tree_t] is a status and a node; after a failed [PC_get] the status is
    an error and the node is the one where the search stopped.  [PC_get],
    [PC_len], [PC_int] and [PC_string] are those of paraconf; the wrappers are
    those of [pdi/src/paraconf_wrapper.cxx]. *)

From S2P Require Import Prelude Error ExprSyntax Numeric Parse.

(** * Trees *)

Inductive yaml :=
  | YScalar (r : Yaml_region) (value : string)
  | YSequence (r : Yaml_region) (items : list yaml)
  | YMapping (r : Yaml_region) (pairs : list (yaml * yaml)).

Definition region (y : yaml) : Yaml_region :=
  match y with YScalar r _ | YSequence r _ | YMapping r _ => r end.

(** A tree with an error status carries a message, a short one standing for
    the text of paraconf. *)
Record PC_tree := mkTree { pc_error : option string; pc_node : yaml }.

Definition PC_status (t : PC_tree) : bool := bool_decide (is_Some (pc_error t)).

Definition tree_of (y : yaml) : PC_tree := mkTree None y.
Definition tree_error (msg : string) (y : yaml) : PC_tree := mkTree (Some msg) y.

(** [Yaml_region::make] *)
Definition make_region (t : PC_tree) : option Yaml_region :=
  if PC_status t then None else Some (region (pc_node t)).

(** [throw Spectree_error{tree, msg}] *)
Definition spectree_error {A} (t : PC_tree) (msg : string) : outcome A := Throw (Spectree_error (make_region t) msg).

(** ** paraconf *)

Definition nodetype (y : yaml) : string :=
  match y with YScalar _ _ => "scalar" | YSequence _ _ => "sequence" | YMapping _ _ => "mapping" end.

Definition node_result (t : PC_tree) (o : option yaml) (msg : string) : PC_tree :=
  match pc_error t with
  | Some _ => t
  | None => match o with Some y => tree_of y | None => tree_error msg (pc_node t) end
  end.

(** [PC_get(tree, "[i]")] *)
Definition get_item (t : PC_tree) (i : nat) : PC_tree :=
  node_result t (match pc_node t with YSequence _ l => l !! i | _ => None end) "no such item".

Definition scalar_is (key : string) (y : yaml) : bool :=
  match y with YScalar _ k => bool_decide (k = key) | _ => false end.

(** [PC_get(tree, ".key")] *)
Definition get_key (t : PC_tree) (key : string) : PC_tree :=
  node_result t
    (match pc_node t with
     | YMapping _ l =>
         p ← list_find (fun p => scalar_is key (fst p) = true) l; Some (snd (snd p))
     | _ => None
     end) "no such key".

(** [PC_get(tree, "{i}")] and [PC_get(tree, "<i>")] *)
Definition get_nth_key (t : PC_tree) (i : nat) : PC_tree :=
  node_result t (match pc_node t with YMapping _ l => fst <$> l !! i | _ => None end) "no such pair".
Definition get_nth_value (t : PC_tree) (i : nat) : PC_tree :=
  node_result t (match pc_node t with YMapping _ l => snd <$> l !! i | _ => None end) "no such pair".

(** [PC_len] *)
Definition PC_len (t : PC_tree) : nat :=
  match pc_node t with YScalar _ s => String.length s | YSequence _ l => length l | YMapping _ l => length l end.

Definition PC_string (t : PC_tree) : option string :=
  match pc_error t, pc_node t with None, YScalar _ s => Some s | _, _ => None end.

(** [PC_int]: [strtol] must read the whole scalar. *)
Definition PC_int (t : PC_tree) : option Z :=
  s ← PC_string t;
  let '(v, _, rest) := strtol s in
  match rest with EmptyString => Some v | _ => None end.

(** The message [PC_errmsg] gives after a failure. *)
Definition PC_errmsg (t : PC_tree) : string :=
  match pc_error t with Some msg => msg | None => "Expected a scalar, found " +:+ nodetype (pc_node t) end.

(** ** The wrappers *)

Definition do_pc {A} (t : PC_tree) (o : option A) : outcome A :=
  match o with Some x => Ret x | None => spectree_error t (PC_errmsg t) end.

Definition len (t : PC_tree) : outcome nat := do_pc t (if PC_status t then None else Some (PC_len t)).
Definition len_default (t : PC_tree) (dflt : nat) : nat := if PC_status t then dflt else PC_len t.
Definition to_long (t : PC_tree) : outcome Z := do_pc t (PC_int t).
Definition to_long_default (t : PC_tree) (dflt : Z) : Z := default dflt (PC_int t).
Definition to_string (t : PC_tree) : outcome string := do_pc t (PC_string t).
Definition to_string_default (t : PC_tree) (dflt : string) : string := default dflt (PC_string t).

Definition is_list (t : PC_tree) : bool := match pc_node t with YSequence _ _ => true | _ => false end.
Definition is_map (t : PC_tree) : bool := match pc_node t with YMapping _ _ => true | _ => false end.
Definition is_scalar (t : PC_tree) : bool := match pc_node t with YScalar _ _ => true | _ => false end.

(** The effect of a loop whose body may throw. *)
Definition for_each {A S} (f : A -> S -> outcome S) : list A -> S -> outcome S :=
  fix go l s := match l with [] => Ret s | x :: l => s ← f x s; go l s end.

(** [each] on a list, [opt_each], and [each] on a mapping; the state is what the
    operation updates. *)
Definition each {S} (t : PC_tree) (operation : PC_tree -> S -> outcome S) (s : S) : outcome S :=
  n ← len t; for_each (fun i => operation (get_item t i)) (seq 0 n) s.

Definition opt_each {S} (t : PC_tree) (operation : PC_tree -> S -> outcome S) (s : S) : outcome S :=
  if negb (PC_status (get_item t 0)) then each t operation s else operation t s.

Definition each_pair {S} (t : PC_tree) (operation : PC_tree -> PC_tree -> S -> outcome S) (s : S) : outcome S :=
  n ← len t; for_each (fun i => operation (get_nth_key t i) (get_nth_value t i)) (seq 0 n) s.

(** [each_in_omap] *)
Definition each_in_omap {S} (t : PC_tree) (operation : PC_tree -> PC_tree -> S -> outcome S) (s : S) : outcome S :=
  nb_elem ← len t;
  if negb (is_list t) then
    if is_scalar t then spectree_error t "Expected an ordered mapping, found a scalar"
    else spectree_error t "Expected an ordered mapping, found a (unordered) mapping"
  else
    for_each (fun i s =>
      let elem := get_item t i in
      if negb (is_map elem) then spectree_error elem "Invalid ordered mapping found (no key)"
      else
        n ← len elem;
        if negb (n =? 1)%nat then spectree_error elem "Invalid ordered mapping found (multiple keys)"
        else operation (get_nth_key elem 0) (get_nth_value elem 0) s) (seq 0 nb_elem) s.

(** * Expressions in a tree *)

(** [unordered_map::emplace]: an existing key is kept. *)
Definition emplace {A} (k : string) (v : A) (l : list (string * A)) : list (string * A) :=
  if bool_decide (k ∈ map fst l) then l else l ++ [(k, v)].

(** [unordered_map::operator[]] with an assignment. *)
Fixpoint assign {A} (k : string) (v : A) (l : list (string * A)) : list (string * A) :=
  match l with
  | [] => [(k, v)]
  | (k', v') :: l => if bool_decide (k' = k) then (k, v) :: l else (k', v') :: assign k v l
  end.

(** [Impl::parse(PC_tree_t)], the constructors of [Sequence] and [Mapping]. *)
Fixpoint parse_node (y : yaml) : outcome Impl :=
  match y with
  | YScalar _ s => parse_expression s
  | YSequence _ l =>
      es ← (fix go l := match l with [] => Ret [] | x :: l => e ← parse_node x; r ← go l; Ret (e :: r) end) l;
      Ret (Sequence es)
  | YMapping _ l =>
      es ← (fix go l (acc : list (string * Impl)) :=
              match l with
              | [] => Ret acc
              | (k, x) :: l =>
                  name ← to_string (tree_of k);
                  e ← parse_node x;
                  go l (emplace name e acc)
              end) l [];
      Ret (Mapping es)
  end.
