(* ===== verification/Template.v ===== *)
(** Datatype templates: types whose sizes are expressions, built from the
    specification tree and evaluated to datatypes.

    Models [pdi/src/datatype_template.cxx] and [Global_context::datatype] and
    [add_datatype] ([pdi/src/global_context.cxx]). *)

From S2P Require Import Prelude Error Effect ExprSyntax Datatype Layout Numeric Parse Yaml.
From Stdlib Require Import Ascii.

(** * Templates *)

(** One constructor per template class, and one for the datatypes, which are
    templates too; a tuple element without displacement has a null expression. *)
Inductive Template :=
  | Scalar_template (m_attributes : Attributes_map) (m_kind : Scalar_kind) (m_size m_align : Impl)
  | Array_template (m_attributes : Attributes_map) (m_subtype : Template) (m_size m_start m_subsize : Impl)
  | Record_template (m_attributes : Attributes_map) (m_members : list (Impl * Template * string)) (m_buffersize : Impl)
  | Struct_template (m_attributes : Attributes_map) (m_members : list (Template * string))
  | Pointer_template (m_attributes : Attributes_map) (m_subtype : Template)
  | Tuple_template (m_attributes : Attributes_map) (m_elements : list (Expression * Template)) (m_buffersize : Expression)
  | Datatype_as_template (t : Datatype).

(** * Evaluation *)

Section evaluate.

(** [Expression::to_long] in the context of the evaluation, which the state is. *)
Context {S : Type} (expr_to_long : Impl -> M S Z).

(** [static_cast<size_t>(e.to_long(ctx))] *)
Definition to_size (e : Impl) : M S Z := v ← expr_to_long e; mret (size_of_long v).

(** A null expression has no implementation to call. *)
Definition opt_to_size (e : Expression) : M S Z := match e with Some e => to_size e | None => lift Crash end.

(** The loop of [Struct_template::evaluate] and of the second case of
    [Tuple_template::evaluate], whose alignment starts at 0: the displacement
    and the alignment it reaches. *)
Definition layout_loop {X N} (conv : X -> M S Datatype) (mk : X -> Z -> Datatype -> N) : list X -> Z -> Z -> M S (list N * Z * Z) :=
  fix go ms displacement struct_alignment :=
    match ms with
    | [] => mret ([], displacement, struct_alignment)
    | m :: ms =>
        t ← conv m;
        p ← lift (padding (alignment t) displacement);
        let displacement := displacement +s p in
        '(ns, displacement', al) ← go ms (displacement +s buffersize t) (Z.max struct_alignment (alignment t));
        mret (mk m displacement t :: ns, displacement', al)
    end.

Definition layout_members {X N} (conv : X -> M S Datatype) (mk : X -> Z -> Datatype -> N) (ms : list X) : M S (list N * Z) :=
  '(ns, displacement, al) ← layout_loop conv mk ms 0 0;
  b ← lift (close_layout al displacement);
  mret (ns, b).

(** Evaluating the members or the elements one after the other. *)
Definition each_of {X N} (f : X -> M S N) : list X -> M S (list N) :=
  fix go l := match l with [] => mret [] | x :: l => n ← f x; r ← go l; mret (n :: r) end.

(** The bodies of the classes; [evaluate] is the method itself. *)

Definition scalar_evaluate (a : Attributes_map) (k : Scalar_kind) (m_size m_align : Impl) : M S Datatype :=
  s ← to_size m_size; al ← to_size m_align; lift (make_scalar_kind_size_align k s al a).

Definition array_evaluate (evaluate : Template -> M S Datatype) (a : Attributes_map) (m_subtype : Template) (m_size m_start m_subsize : Impl) :
    M S Datatype :=
  sub' ← evaluate m_subtype; s ← to_size m_size; st ← to_size m_start; ss ← to_size m_subsize;
  mret (Array_datatype a sub' s st ss).

Definition record_evaluate (evaluate : Template -> M S Datatype) (a : Attributes_map) (m_members : list (Impl * Template * string))
    (m_buffersize : Impl) : M S Datatype :=
  ms' ← each_of (fun m => d ← to_size m.1.1; t' ← evaluate m.1.2; mret (mkMember d t' m.2)) m_members;
  b ← to_size m_buffersize;
  mret (Record_datatype a ms' b).

Definition struct_evaluate (evaluate : Template -> M S Datatype) (a : Attributes_map) (m_members : list (Template * string)) : M S Datatype :=
  '(ms', b) ← layout_members (fun m => evaluate m.1) (fun m d t' => mkMember d t' m.2) m_members;
  mret (Record_datatype a ms' b).

Definition pointer_evaluate (evaluate : Template -> M S Datatype) (a : Attributes_map) (m_subtype : Template) : M S Datatype :=
  sub' ← evaluate m_subtype; mret (Pointer_datatype a sub' None None).

(** [m_elements[0]] does not exist in an empty tuple. *)
Definition tuple_evaluate (evaluate : Template -> M S Datatype) (a : Attributes_map) (m_elements : list (Expression * Template))
    (m_buffersize : Expression) : M S Datatype :=
  match m_elements with
  | [] => lift Crash
  | (Some _, _) :: _ =>
      b ← opt_to_size m_buffersize;
      es' ← each_of (fun e => d ← opt_to_size e.1; t' ← evaluate e.2; mret (mkElement d t')) m_elements;
      mret (Tuple_datatype a es' b)
  | (None, _) :: _ =>
      '(es', b) ← layout_members (fun e => evaluate e.2) (fun _ d t' => mkElement d t') m_elements;
      mret (Tuple_datatype a es' b)
  end.

Fixpoint evaluate (t : Template) : M S Datatype :=
  match t with
  | Scalar_template a k m_size m_align => scalar_evaluate a k m_size m_align
  | Array_template a m_subtype m_size m_start m_subsize => array_evaluate evaluate a m_subtype m_size m_start m_subsize
  | Record_template a m_members m_buffersize => record_evaluate evaluate a m_members m_buffersize
  | Struct_template a m_members => struct_evaluate evaluate a m_members
  | Pointer_template a m_subtype => pointer_evaluate evaluate a m_subtype
  | Tuple_template a m_elements m_buffersize => tuple_evaluate evaluate a m_elements m_buffersize
  | Datatype_as_template t => mret t
  end.

End evaluate.

(** * Building templates *)

(** The attributes of a tree: the values of its keys that start with [+]. *)
Definition template_attributes (t : PC_tree) : outcome Attributes_map :=
  if negb (PC_status t) && negb (is_scalar t) then
    for_each (fun i attrs =>
      key ← to_string (get_nth_key t i);
      match key with
      | String c name =>
          if bool_decide (c = "+"%char) then e ← parse_node (pc_node (get_nth_value t i)); Ret (assign name e attrs)
          else Ret attrs
      | EmptyString => Ret attrs
      end) (seq 0 (PC_len t)) []
  else Ret [].

(** [get_array_property] *)
Definition get_array_property (node : PC_tree) (property : string) : outcome (list Impl) :=
  let config := get_key node property in
  if negb (PC_status (get_item config 0)) then
    rank ← len config;
    for_each (fun i acc => s ← to_string (get_item config i); e ← parse_expression s; Ret (acc ++ [e])) (seq 0 rank) []
  else
    match to_string_default config "" with
    | EmptyString => Ret []
    | prop => e ← parse_expression prop; Ret [e]
    end.

(** [validate_array]: the completed size, subsize and start. *)
Definition validate_array (node : PC_tree) (size subsize start : list Impl) : outcome (list Impl * list Impl * list Impl) :=
  match size with
  | [] => spectree_error node "Array must have defined `size'"
  | _ =>
      if negb (bool_decide (start = [])) && bool_decide (subsize = []) then
        spectree_error node "Array with a `start` property must have a defined `subsize'"
      else
        let start := match start with [] => replicate (length size) (Int_literal 0) | _ => start end in
        let subsize := match subsize with [] => size | _ => subsize end in
        if negb (length size =? length subsize)%nat then
          spectree_error node ("`subsize' must have the same rank as `size': " +:+ pretty (length subsize) +:+ " != " +:+ pretty (length size))
        else if negb (length size =? length start)%nat then
          spectree_error node ("`start' must have the same rank as `size': " +:+ pretty (length start) +:+ " != " +:+ pretty (length size))
        else Ret (size, subsize, start)
  end.

(** The parsers a context knows: those of [load_basic_datatypes], scalars of a
    kind and size, Fortran scalars with their default kind, user types, and the
    types of plugins, which do not look at the tree. *)
Inductive Parser :=
  | Parse_array | Parse_struct | Parse_record | Parse_pointer | Parse_tuple
  | Parse_scalar (kind : Scalar_kind) (size : Z)
  | Parse_fortran (kind : Scalar_kind) (default_kind : Z)
  | Parse_user (datatype_tree : PC_tree)
  | Parse_fixed (type : Datatype).

Abbreviation Parsers := (gmap string Parser).

(** The dimensions of an array, the last one first. *)
Fixpoint array_of (attrs : Attributes_map) (dims : list (Impl * Impl * Impl)) (sub : Template) : Template :=
  match dims with
  | [] => sub
  | (size, subsize, start) :: dims => Array_template attrs (array_of attrs dims sub) size start subsize
  end.

(** The parsers of [load_basic_datatypes]; [ctx_datatype] is [Context::datatype],
    for the types nested in a node. *)
Section parsers.
  Context (ctx_datatype : PC_tree -> outcome Template).

(** [to_array_datatype_template] *)
Definition to_array_datatype_template (node : PC_tree) : outcome Template :=
  let order := to_string_default (get_key node "order") "" in
  if negb (bool_decide (order ∈ ["c"; "C"; ""])) then
    spectree_error node ("Incorrect array ordering: `" +:+ order +:+ "', only C order is supported")
  else
    size ← get_array_property node "size";
    subsize ← get_array_property node "subsize";
    start ← get_array_property node "start";
    '(size, subsize, start) ← validate_array node size subsize start;
    let config_elem := get_key node "subtype" in
    if PC_status config_elem then spectree_error node "Array must have `subtype'"
    else
      sub ← ctx_datatype config_elem;
      attrs ← template_attributes node;
      Ret (array_of attrs (zip (zip size subsize) start) sub).

(** [to_struct_datatype_template] *)
Definition to_struct_datatype_template (node : PC_tree) : outcome Template :=
  ms ← each_in_omap (get_key node "members") (fun name value acc =>
         t ← ctx_datatype value; n ← to_string name; Ret (acc ++ [(t, n)])) [];
  attrs ← template_attributes node;
  Ret (Struct_template attrs ms).

(** [get_members] *)
Definition get_members (member_list_node : PC_tree) : outcome (list (Impl * Template * string)) :=
  for_each (fun i acc =>
    name ← to_string (get_nth_key member_list_node i);
    let member_node := get_nth_value member_list_node i in
    let disp_conf := get_key member_node "disp" in
    if PC_status disp_conf then spectree_error member_node "All members must have displacements"
    else
      s ← to_string disp_conf;
      disp ← parse_expression s;
      t ← ctx_datatype member_node;
      Ret (acc ++ [(disp, t, name)])) (seq 0 (len_default member_list_node 0)) [].

(** [to_record_datatype_template] *)
Definition to_record_datatype_template (node : PC_tree) : outcome Template :=
  let buffersize_conf := get_key node "buffersize" in
  if PC_status buffersize_conf then spectree_error node "Record must have defined buffersize"
  else
    b ← to_string buffersize_conf;
    record_buffersize ← parse_expression b;
    ms ← get_members (get_key node "members");
    attrs ← template_attributes node;
    Ret (Record_template attrs ms record_buffersize).

(** [to_pointer_datatype_template] *)
Definition to_pointer_datatype_template (node : PC_tree) : outcome Template :=
  let subtype_conf := get_key node "subtype" in
  if PC_status subtype_conf then spectree_error node "Pointer must have defined subtype"
  else sub ← ctx_datatype subtype_conf; attrs ← template_attributes node; Ret (Pointer_template attrs sub).

(** [get_tuple_elements] *)
Definition get_tuple_elements (elements_node : PC_tree) (buffersize_defined : bool) : outcome (list (Expression * Template)) :=
  if negb (is_list elements_node) then
    spectree_error elements_node "Tuple elements subtree must be a seqence or ordered mapping"
  else
    es ← for_each (fun i acc =>
           let element_node := get_item elements_node i in
           let disp_conf := get_key element_node "disp" in
           disp ← (if PC_status disp_conf then Ret None else s ← to_string disp_conf; e ← parse_expression s; Ret (Some e));
           t ← ctx_datatype element_node;
           Ret (acc ++ [(disp, t)])) (seq 0 (len_default elements_node 0)) [];
    let displacement_counter := length (filter (fun e => is_Some (fst e)) es) in
    if negb (displacement_counter =? 0)%nat && negb (displacement_counter =? length es)%nat then
      spectree_error elements_node "None or all of tuple elements must to have `disp' defined"
    else if buffersize_defined && (displacement_counter =? 0)%nat then
      spectree_error elements_node "If tuple buffersize is defined, all `disp' must be defined also"
    else if negb buffersize_defined && negb (displacement_counter =? 0)%nat then
      spectree_error elements_node "If tuple buffersize is not defined, `disp' cannot be defined also"
    else Ret es.

(** [to_tuple_datatype_template] *)
Definition to_tuple_datatype_template (node : PC_tree) : outcome Template :=
  let buffersize_conf := get_key node "buffersize" in
  buffersize ← (if PC_status buffersize_conf then Ret None
                else s ← to_string buffersize_conf; e ← parse_expression s; Ret (Some e));
  let elements_node := get_key node "elements" in
  if PC_status elements_node then spectree_error node "Tuple datatype must have `elements' subtree"
  else
    es ← get_tuple_elements elements_node (bool_decide (is_Some buffersize));
    attrs ← template_attributes node;
    Ret (Tuple_template attrs es buffersize).

(** The parser of [add_scalar_datatype] and [add_scalar_datatype_T] *)
Definition to_scalar_datatype_template (kind : Scalar_kind) (size : Z) (node : PC_tree) : outcome Template :=
  attrs ← template_attributes node; Ret (Scalar_template attrs kind (Int_literal size) (Int_literal size)).

(** The parsers of the Fortran types *)
Definition to_fortran_datatype_template (kind : Scalar_kind) (dflt : Z) (node : PC_tree) : outcome Template :=
  let k := to_long_default (get_key node "kind") dflt in
  if k <? 0 then spectree_error (get_key node "kind") "`kind' of the datatype cannot be less than 0"
  else
    let k := if k =? 0 then dflt else k in
    attrs ← template_attributes node; Ret (Scalar_template attrs kind (Int_literal k) (Int_literal k)).

Definition run_parser (p : Parser) (node : PC_tree) : outcome Template :=
  match p with
  | Parse_array => to_array_datatype_template node
  | Parse_struct => to_struct_datatype_template node
  | Parse_record => to_record_datatype_template node
  | Parse_pointer => to_pointer_datatype_template node
  | Parse_tuple => to_tuple_datatype_template node
  | Parse_scalar kind size => to_scalar_datatype_template kind size node
  | Parse_fortran kind dflt => to_fortran_datatype_template kind dflt node
  | Parse_user datatype_tree => ctx_datatype datatype_tree
  | Parse_fixed type => Ret (Datatype_as_template type)
  end.

End parsers.

(** [Global_context::datatype].  A user type refers to another tree, so the
    recursion needs fuel. *)
Fixpoint datatype (parsers : Parsers) (fuel : nat) (node : PC_tree) : outcome Template :=
  match fuel with
  | O => Crash
  | S fuel =>
      type ← (match PC_string (get_key node "type") with Some s => Ret s | None => to_string node end);
      match parsers !! type with
      | None => spectree_error node ("Unknown data type: `" +:+ type +:+ "'")
      | Some p => run_parser (datatype parsers fuel) p node
      end
  end.

(** * The known types *)

(** [Global_context::add_datatype] *)
Definition add_datatype (name : string) (p : Parser) (ps : Parsers) : outcome Parsers :=
  match ps !! name with
  | Some _ => Throw (Type_error ("Datatype already defined `" +:+ name +:+ "'"))
  | None => Ret (<[name := p]> ps)
  end.

(** The sizes of the C types on the LP64 targets. *)
Definition signed_types : list (string * Z) :=
  [("int", 4); ("short", 2); ("long", 8); ("long long", 8); ("intmax", 8); ("intmax_t", 8);
   ("int8", 1); ("int16", 2); ("int32", 4); ("int64", 8); ("int8_t", 1); ("int16_t", 2); ("int32_t", 4); ("int64_t", 8);
   ("int_least8", 1); ("int_least16", 2); ("int_least32", 4); ("int_least64", 8);
   ("int_least8_t", 1); ("int_least16_t", 2); ("int_least32_t", 4); ("int_least64_t", 8);
   ("int_fast8", 1); ("int_fast16", 8); ("int_fast32", 8); ("int_fast64", 8);
   ("int_fast8_t", 1); ("int_fast16_t", 8); ("int_fast32_t", 8); ("int_fast64_t", 8);
   ("intptr", 8); ("intptr_t", 8); ("ptrdiff", 8); ("ptrdiff_t", 8)].

Definition unsigned_types : list (string * Z) :=
  [("char", 1); ("unsigned short", 2); ("unsigned long", 8); ("unsigned long long", 8); ("uintmax", 8); ("uintmax_t", 8);
   ("uint8", 1); ("uint16", 2); ("uint32", 4); ("uint64", 8); ("uint8_t", 1); ("uint16_t", 2); ("uint32_t", 4); ("uint64_t", 8);
   ("uint_least8", 1); ("uint_least16", 2); ("uint_least32", 4); ("uint_least64", 8);
   ("uint_least8_t", 1); ("uint_least16_t", 2); ("uint_least32_t", 4); ("uint_least64_t", 8);
   ("uint_fast8", 1); ("uint_fast16", 8); ("uint_fast32", 8); ("uint_fast64", 8);
   ("uint_fast8_t", 1); ("uint_fast16_t", 8); ("uint_fast32_t", 8); ("uint_fast64_t", 8);
   ("uintptr", 8); ("uintptr_t", 8); ("size_t", 8)].

(** The Fortran kinds are known when the Fortran bindings are built. *)
Record Fortran_kinds := { character_kind : Z; integer_kind : Z; logical_kind : Z; real_kind : Z }.

Definition fortran_types (f : option Fortran_kinds) : list (string * Parser) :=
  match f with
  | None => []
  | Some k =>
      [("character", Parse_fortran UNSIGNED (character_kind k)); ("integer", Parse_fortran SIGNED (integer_kind k));
       ("logical", Parse_fortran UNSIGNED (logical_kind k)); ("real", Parse_fortran FLOAT (real_kind k))]
  end.

Definition basic_datatypes (f : option Fortran_kinds) : list (string * Parser) :=
  [("array", Parse_array); ("struct", Parse_struct); ("record", Parse_record); ("pointer", Parse_pointer); ("tuple", Parse_tuple)]
  ++ map (fun p => (fst p, Parse_scalar SIGNED (snd p))) signed_types
  ++ map (fun p => (fst p, Parse_scalar UNSIGNED (snd p))) unsigned_types
  ++ [("float", Parse_scalar FLOAT 4); ("double", Parse_scalar FLOAT 8); ("byte", Parse_scalar UNKNOWN 1)]
  ++ fortran_types f.

(** [Datatype_template::load_basic_datatypes] *)
Definition load_basic_datatypes (f : option Fortran_kinds) (ps : Parsers) : outcome Parsers :=
  for_each (fun p => add_datatype (fst p) (snd p)) (basic_datatypes f) ps.

(** [Datatype_template::load_user_datatypes] *)
Definition load_user_datatypes (types_tree : PC_tree) (ps : Parsers) : outcome Parsers :=
  if PC_status types_tree then Ret ps
  else
    for_each (fun i ps =>
      name ← to_string (get_nth_key types_tree i);
      add_datatype name (Parse_user (get_nth_value types_tree i)) ps) (seq 0 (PC_len types_tree)) ps.

(** * Lemmas *)

Lemma for_each_add (l : list (string * Parser)) ps :
  NoDup (map fst l) -> (forall n, n ∈ map fst l -> ps !! n = None) ->
  exists ps', for_each (fun p => add_datatype (fst p) (snd p)) l ps = Ret ps' /\
    (forall n p, (n, p) ∈ l -> ps' !! n = Some p) /\ (forall n, n ∉ map fst l -> ps' !! n = ps !! n).
Proof.
  revert ps. induction l as [|[n p] l IH]; intros ps Hnd Hfresh; simpl.
  - exists ps. split_and!; [done| |done]. intros n p H. by apply not_elem_of_nil in H.
  - simpl in Hnd. apply list.NoDup_cons in Hnd as [Hn Hnd]. assert (Hp : ps !! n = None) by (apply Hfresh; simpl; apply list_elem_of_here).
    assert (Ha : add_datatype n p ps = Ret (<[n := p]> ps)) by (unfold add_datatype; by rewrite Hp). rewrite Ha. cbn [mbind outcome_bind].
    destruct (IH (<[n := p]> ps)) as (ps' & -> & Hin & Hout); [done| |].
    { intros n' Hn'. rewrite lookup_insert_ne by (intros ->; done). apply Hfresh. by apply list_elem_of_further. }
    exists ps'. split_and!; [done| |].
    + intros n' p' [[= -> ->]|H]%elem_of_cons; [|by apply Hin]. rewrite Hout by done. by rewrite lookup_insert_eq.
    + intros n' Hn'. rewrite not_elem_of_cons in Hn'. destruct Hn' as [Hne Hn']. rewrite Hout by done. by rewrite lookup_insert_ne.
Qed.

(** [m] gives [a] in the state [s], which it does not change. *)
Definition yields {S A} (s : S) (m : M S A) (a : A) : Prop := m s = Done a s.

Lemma layout_loop_ok {S X N} (s : S) (conv : X -> M S Datatype) (mk : X -> Z -> Datatype -> N) ms ts d r :
  Forall2 (fun m t => yields s (conv m) t) ms ts -> Forall comp_ok (map comp ts) -> 0 <= d -> pack_end d (map comp ts) < size_modulus ->
  yields s (layout_loop conv mk ms d r) (placed mk ms ts d, pack_end d (map comp ts), foldl (fun r t => Z.max r (alignment t)) r ts).
Proof.
  unfold yields. intros Hconv. revert d r. induction Hconv as [|m t ms ts Hm Hms IH]; intros d r Hok Hd Hfit; simpl in *; [done|].
  apply list.Forall_cons in Hok as [[Ha Hs] Hok]. simpl in Ha, Hs, Hfit.
  pose proof (align_up_ge (alignment t) d (pow2_pos _ Ha)) as Hge.
  pose proof (pack_end_ge (align_up (alignment t) d + buffersize t) _ Hok) as Hge'.
  destruct (padding_ok (alignment t) d) as (p & Hp & Hadd); [done..|lia|].
  unfold mbind, M_bind, lift. rewrite Hm, Hp, Hadd, size_add_small by (unfold is_size; lia).
  specialize (IH (align_up (alignment t) d + buffersize t) (Z.max r (alignment t)) Hok ltac:(lia) Hfit).
  unfold mbind, M_bind, lift in IH. rewrite IH. done.
Qed.

Lemma placed_map {M N A} (mk : M -> Z -> Datatype -> N) (f : N -> A) (g : M -> A) ms ts d :
  (forall m o t, f (mk m o t) = g m) -> length ms = length ts -> map f (placed mk ms ts d) = map g ms.
Proof.
  intros Hf. revert ts d. induction ms as [|m ms IH]; intros [|t ts] d Hlen; simpl in *; try done. rewrite Hf, IH by lia. done.
Qed.

Lemma template_placed_offsets {M N} (mk : M -> Z -> Datatype -> N) (offset : N -> Z) ms ts d :
  (forall m o t, offset (mk m o t) = o) -> length ms = length ts ->
  map offset (placed mk ms ts d) = pack_offsets d (map comp ts).
Proof.
  intros Hoff. revert ts d. induction ms as [|m ms IH]; intros [|t ts] d Hlen; simpl in *; try done. rewrite Hoff, IH by lia. done.
Qed.

Lemma template_placed_types {X N} (mk : X -> Z -> Datatype -> N) (type : N -> Datatype) ms ts d :
  (forall m o t, type (mk m o t) = t) -> length ms = length ts -> map type (placed mk ms ts d) = ts.
Proof.
  intros Hty. revert ts d. induction ms as [|m ms IH]; intros [|t ts] d Hlen; simpl in *; try done. rewrite Hty, IH by lia. done.
Qed.

(** The layout of a sequence of types that already have their sizes. *)
Lemma layout_members_ok {S X N} (s : S) (conv : X -> M S Datatype) (mk : X -> Z -> Datatype -> N) offset ms ts :
  (forall m o t, offset (mk m o t) = o) ->
  Forall2 (fun m t => yields s (conv m) t) ms ts -> Forall comp_ok (map comp ts) -> ts <> [] ->
  pack_total (foldl (fun r t => Z.max r (alignment t)) 0 ts) (map comp ts) < size_modulus ->
  yields s (layout_members conv mk ms)
    (placed mk ms ts 0, pack_total (foldl (fun r t => Z.max r (alignment t)) 0 ts) (map comp ts)) /\
  map offset (placed mk ms ts 0) = pack_offsets 0 (map comp ts) /\
  valid_layout 0 (zip (pack_offsets 0 (map comp ts)) (map comp ts)) (pack_total (foldl (fun r t => Z.max r (alignment t)) 0 ts) (map comp ts)).
Proof.
  intros Hoff Hconv Hok Hne Hfit. assert (Hlen : length ms = length ts) by by eapply Forall2_length.
  set (al := foldl (fun r t => Z.max r (alignment t)) 0 ts) in *.
  assert (Hal : pow2 al).
  { destruct ts as [|t ts]; [done|]. unfold al. simpl in *. apply list.Forall_cons in Hok as [[Ht _] Hok]. simpl in Ht.
    pose proof (pow2_pos _ Ht). rewrite Z.max_r by lia. apply foldl_max_pow2; [done|]. apply Forall_map in Hok.
    rewrite map_id, Forall_map in Hok. eapply list.Forall_impl; [exact Hok|]. by intros ? [? _]. }
  pose proof (pack_end_ge 0 _ Hok) as Hge. pose proof (align_up_ge al (pack_end 0 (map comp ts)) (pow2_pos _ Hal)).
  unfold pack_total in *. split_and!.
  - unfold layout_members, yields, mbind, M_bind. rewrite (layout_loop_ok s conv mk ms ts 0 0) by (done || lia). fold al.
    unfold lift. by rewrite close_layout_ok by (done || lia).
  - by apply template_placed_offsets.
  - apply pack_valid; [done|lia].
Qed.

(** * Theorems *)

(** A [struct] of the specification is laid out like a C structure: its
    members in order, each at the next multiple of its alignment, without
    overlap, the size rounded up to the largest alignment. *)
Theorem struct_template_layout {S} (s : S) ev a ms ts :
  ms <> [] -> Forall2 (fun m t => evaluate ev (fst m) s = Done t s) ms ts ->
  Forall (fun t => pow2 (alignment t) /\ 0 <= buffersize t) ts ->
  pack_total (foldl (fun r t => Z.max r (alignment t)) 0 ts) (map comp ts) < size_modulus ->
  exists ms' b, evaluate ev (Struct_template a ms) s = Done (Record_datatype a ms' b) s /\
    map member_name ms' = map snd ms /\ map member_type ms' = ts /\
    map member_displacement ms' = pack_offsets 0 (map comp ts) /\
    b = pack_total (foldl (fun r t => Z.max r (alignment t)) 0 ts) (map comp ts) /\
    valid_layout 0 (zip (map member_displacement ms') (map comp ts)) b.
Proof.
  intros Hne Hev Hok Hfit. assert (Hlen : length ms = length ts) by by eapply Forall2_length.
  destruct (layout_members_ok s (fun m => evaluate ev (fst m)) (fun m d t' => mkMember d t' (snd m)) member_displacement ms ts)
    as (Hrun & Hoff & Hval); try done.
  { apply Forall_map. eapply list.Forall_impl; [exact Hok|]. done. }
  { by destruct ms, ts. }
  simpl. unfold struct_evaluate, mbind, M_bind. rewrite Hrun. do 2 eexists. split; [done|]. rewrite Hoff. split_and!; try done.
  - by apply (placed_map _ member_name snd).
  - by apply template_placed_types.
Qed.

Definition literal_value (e : Impl) : M unit Z :=
  match e with Int_literal v => mret v | _ => throw (Value_error "not a literal") end.

Definition demo_struct : list (Template * string) :=
  [(Scalar_template [] UNSIGNED (Int_literal 1) (Int_literal 1), "c");
   (Scalar_template [] FLOAT (Int_literal 8) (Int_literal 8), "x")].

Lemma struct_template_layout_witness :
  exists ms' b, evaluate literal_value (Struct_template [] demo_struct) tt = Done (Record_datatype [] ms' b) tt /\
    map member_name ms' = ["c"; "x"] /\
    map member_type ms' = [Scalar_datatype [] UNSIGNED 1 1 1 None None; Scalar_datatype [] FLOAT 8 8 8 None None] /\
    map member_displacement ms' = [0; 8] /\ b = 16 /\
    valid_layout 0 (zip (map member_displacement ms') [(1, 1); (8, 8)]) b.
Proof.
  apply (struct_template_layout tt literal_value [] demo_struct
           [Scalar_datatype [] UNSIGNED 1 1 1 None None; Scalar_datatype [] FLOAT 8 8 8 None None]); try done.
  - repeat constructor.
  - repeat constructor; simpl; auto with pdi; lia.
Defined.

(** The basic types load without conflict on any build, each under its own
    name, and loading a user type under a known name is a type error. *)
Theorem basic_datatypes_load f :
  exists ps, load_basic_datatypes f ∅ = Ret ps /\
    (forall name p, (name, p) ∈ basic_datatypes f -> ps !! name = Some p) /\
    (forall name p p', (name, p) ∈ basic_datatypes f ->
       add_datatype name p' ps = Throw (Type_error ("Datatype already defined `" +:+ name +:+ "'"))).
Proof.
  destruct (for_each_add (basic_datatypes f) ∅) as (ps & Hrun & Hin & _).
  - destruct f; apply (bool_decide_eq_true_1 (NoDup _)); by vm_compute.
  - intros n _. apply lookup_empty.
  - exists ps. split_and!; [done|done|]. intros name p p' H. unfold add_datatype. by rewrite (Hin name p H).
Qed.

(** Evaluating an array multiplies its dimensions: the buffer of the nested
    arrays has the product of the sizes times the buffer of an element, modulo
    the range of [size_t]. *)
Theorem array_of_buffersize {S} (s : S) ev attrs dims sub t sizes :
  evaluate ev sub s = Done t s ->
  Forall2 (fun d n => to_size ev (fst (fst d)) s = Done n s /\
             exists a b, to_size ev (snd (fst d)) s = Done a s /\ to_size ev (snd d) s = Done b s) dims sizes ->
  exists t', evaluate ev (array_of attrs dims sub) s = Done t' s /\
    buffersize t' mod size_modulus = (foldr Z.mul (buffersize t) sizes) mod size_modulus.
Proof.
  intros Ht Hdims. induction Hdims as [|[[size subsize] start] n dims sizes (Hs & ss & st & Hss & Hst) Hdims IH]; simpl in *.
  - exists t. by split.
  - destruct IH as (t' & Hev & Hb). unfold array_evaluate, mbind, M_bind in *. rewrite Hev, Hs, Hst, Hss. eexists. split; [done|].
    simpl. unfold size_mul, wrap. rewrite Zmod_mod. rewrite <- Z.mul_mod_idemp_r by (pose proof size_modulus_pos; lia).
    rewrite Hb. by rewrite Z.mul_mod_idemp_r by (pose proof size_modulus_pos; lia).
Qed.

Definition demo_dims : list (Impl * Impl * Impl) :=
  [(Int_literal 3, Int_literal 2, Int_literal 1); (Int_literal 5, Int_literal 5, Int_literal 0)].

Lemma array_of_buffersize_witness :
  exists t', evaluate literal_value (array_of [] demo_dims (Scalar_template [] FLOAT (Int_literal 8) (Int_literal 8))) tt = Done t' tt /\
    buffersize t' mod size_modulus = (3 * (5 * 8)) mod size_modulus.
Proof.
  apply (array_of_buffersize tt literal_value [] demo_dims (Scalar_template [] FLOAT (Int_literal 8) (Int_literal 8))
           (Scalar_datatype [] FLOAT 8 8 8 None None) [3; 5]); [done|].
  repeat constructor; do 2 eexists; by split.
Defined.

(** A user type whose definition names itself. *)
Definition no_region : Yaml_region :=
  {| m_file := ""; m_start_mark := {| line := 0; column := 0 |}; m_end_mark := {| line := 0; column := 0 |} |}.
Definition looping_tree (name : string) : PC_tree :=
  tree_of (YMapping no_region [(YScalar no_region "type", YScalar no_region name)]).

(** A user type whose definition names itself is accepted when the types
    are loaded, and parsing a node of that type then recurses without end. *)
Theorem recursive_user_type_diverges ps name :
  ps !! name = None ->
  exists ps', load_user_datatypes (tree_of (YMapping no_region [(YScalar no_region name, pc_node (looping_tree name))])) ps = Ret ps' /\
    forall fuel, datatype ps' fuel (looping_tree name) = Crash.
Proof.
  intros Hnew. exists (<[name := Parse_user (looping_tree name)]> ps). split.
  - unfold load_user_datatypes. simpl. unfold add_datatype. by rewrite Hnew.
  - induction fuel as [|fuel IH]; [done|]. simpl. by rewrite lookup_insert_eq.
Qed.

Lemma recursive_user_type_diverges_witness :
  exists ps', load_user_datatypes (tree_of (YMapping no_region [(YScalar no_region "list", pc_node (looping_tree "list"))])) ∅ = Ret ps' /\
    forall fuel, datatype ps' fuel (looping_tree "list") = Crash.
Proof. apply (recursive_user_type_diverges ∅ "list"). reflexivity. Defined.

(** A template with no member has no layout: evaluating an empty struct
    divides by its zero alignment, evaluating an empty tuple reads the first
    element of an empty vector, whatever the context. *)
Theorem empty_compounds_crash {S} (s : S) ev a e :
  evaluate ev (Struct_template a []) s = Crashed /\ evaluate ev (Tuple_template a [] e) s = Crashed.
Proof. done. Qed.
