(* ===== verification/GlobalContext.v ===== *)
(** The global context: descriptors, their stacks of references, and the
    notification of the plugins.

    Models [pdi/src/global_context.cxx] and [pdi/src/data_descriptor_impl.cxx].
    A [Data_descriptor_impl] is known by its name; the holders on its stack are
    references of the store, top first.  A callback is known by a handle; the
    code behind it belongs to a plugin and is a parameter.  A failed [assert] is
    a crash. *)

From S2P Require Import Prelude Error Effect ExprSyntax Datatype Layout Memory DenseCopy Access Ref RefInv RefOps RefTheorems RefCopy Template.

(** * State *)

Record Descriptor := mkDescriptor {
  m_type : Template;
  m_metadata : bool;
  m_refs : list nat
}.

(** A list of callbacks and a multimap of named ones, in insertion order, each
    with the iterator that removes it. *)
Record Registry := mkRegistry {
  named : list (nat * string * Z);
  unnamed : list (nat * Z)
}.

Inductive Kind := On_init | On_data | On_data_remove | On_event | On_missing_data.

#[export] Instance Kind_eq_dec : EqDecision Kind.
Proof. solve_decision. Defined.

(** [W] is the state of the plugins. *)
Record global (W : Type) := mkGlobal {
  g_store : store;
  g_mem : mem;
  m_datatype_parsers : Parsers;
  m_descriptors : gmap string Descriptor;
  m_callbacks : Kind -> Registry;
  next_iterator : nat;
  g_world : W
}.
Arguments mkGlobal {W} _ _ _ _ _ _ _.
Arguments g_store {W} _.
Arguments g_mem {W} _.
Arguments m_datatype_parsers {W} _.
Arguments m_descriptors {W} _.
Arguments m_callbacks {W} _.
Arguments next_iterator {W} _.
Arguments g_world {W} _.

Section setters.
  Context {W : Type}.

Definition set_store (st : store) (g : global W) : global W :=
  mkGlobal st (g_mem g) (m_datatype_parsers g) (m_descriptors g) (m_callbacks g) (next_iterator g) (g_world g).
Definition set_mem (m : mem) (g : global W) : global W :=
  mkGlobal (g_store g) m (m_datatype_parsers g) (m_descriptors g) (m_callbacks g) (next_iterator g) (g_world g).
Definition set_parsers (ps : Parsers) (g : global W) : global W :=
  mkGlobal (g_store g) (g_mem g) ps (m_descriptors g) (m_callbacks g) (next_iterator g) (g_world g).
Definition set_descriptors (ds : gmap string Descriptor) (g : global W) : global W :=
  mkGlobal (g_store g) (g_mem g) (m_datatype_parsers g) ds (m_callbacks g) (next_iterator g) (g_world g).
Definition set_callbacks (cs : Kind -> Registry) (n : nat) (g : global W) : global W :=
  mkGlobal (g_store g) (g_mem g) (m_datatype_parsers g) (m_descriptors g) cs n (g_world g).
Definition set_world (w : W) (g : global W) : global W :=
  mkGlobal (g_store g) (g_mem g) (m_datatype_parsers g) (m_descriptors g) (m_callbacks g) (next_iterator g) w.

End setters.

(** The code outside the library: what a callback does when it is called with
    a name and, for data, a reference; the copy functions of the datatypes. *)
Class Platform (W : Type) := {
  platform_notifications :: Callbacks;
  platform_allocator :: Allocator;
  run_copy : Z -> mem -> Z -> Z -> outcome (mem * Z);
  invoke : Z -> string -> option nat -> M (global W) unit
}.

(** * References in the context *)

Section operations.
  Context {W : Type} {P : Platform W}.

Abbreviation G := (M (global W)).

Definition on_store {A} (f : store -> outcome (A * store)) : G A := zoom g_store set_store f.
Definition unit_store (f : store -> outcome store) : G unit := on_store (fun st => st ← f st; Ret (tt, st)).

Definition ref_null (R W : bool) : G nat := on_store (fun st => Ret (new_null R W st)).
Definition ref_copy (R W : bool) (r : nat) : G nat := on_store (new_copy R W r).
Definition ref_destroy (r : nat) : G unit := unit_store (delete_ref r).
Definition ref_is_null (r : nat) : G bool := on_store (is_null r).
Definition ref_get_nothrow (r : nat) : G Z := on_store (get_nothrow r).

(** A local or temporary reference. *)
Definition with_ref {A} (mk : G nat) (body : nat -> G A) : G A :=
  r ← mk; finally (body r) (ref_destroy r).

(** As many notifications as the buffer of [r] has. *)
Definition notification_count (r : nat) (st : store) : nat :=
  match refs st !! r with
  | Some x =>
      match m_content x with
      | Some d =>
          match datas st !! d with
          | Some dd => match buffers st !! data_buffer dd with Some b => size (m_notifications b) | None => O end
          | None => O
          end
      | None => O
      end
  | None => O
  end.

Definition ref_release (r : nat) : G Z := on_store (fun st => release notify begin (notification_count r st) r st).

(** [Ref_any::copy]: [do_copy] takes its argument as a [Ref_r]. *)
Definition ref_deep_copy (r : nat) : G nat :=
  with_ref (ref_copy true false r) (fun ref =>
    zoom (fun g => (g_mem g, g_store g)) (fun ms g => set_store (snd ms) (set_mem (fst ms) g))
      (fun ms => '(r', m, st) ← do_copy run_copy ref (fst ms) (snd ms); Ret (r', (m, st)))).

(** * Callbacks *)

Definition registry (k : Kind) : G Registry := gets (fun g => m_callbacks g k).

Definition set_registry (k : Kind) (r : Registry) (g : global W) : Kind -> Registry :=
  fun k' => if bool_decide (k' = k) then r else m_callbacks g k'.

(** What the five [on_...] do: an empty name registers for every name; the result
    is the iterator the returned function erases.  [on_init] has no name. *)
Definition add_callback (k : Kind) (callback : Z) (name : string) : G nat := fun g =>
  let it := next_iterator g in
  let r := m_callbacks g k in
  let r := match name with
           | EmptyString => mkRegistry (named r) (unnamed r ++ [(it, callback)])
           | _ => mkRegistry (named r ++ [(it, name, callback)]) (unnamed r)
           end in
  Done it (set_callbacks (set_registry k r g) (S it) g).

Definition on_init (callback : Z) : G nat := add_callback On_init callback "".
Definition on_data (callback : Z) (name : string) : G nat := add_callback On_data callback name.
Definition on_data_remove (callback : Z) (name : string) : G nat := add_callback On_data_remove callback name.
Definition on_event (callback : Z) (name : string) : G nat := add_callback On_event callback name.
Definition on_missing_data (callback : Z) (name : string) : G nat := add_callback On_missing_data callback name.

(** The function that [add_callback] returns. *)
Definition remove_callback (k : Kind) (it : nat) : G unit := fun g =>
  let r := m_callbacks g k in
  let r := mkRegistry (filter (fun c => c.1.1 <> it) (named r)) (filter (fun c => c.1 <> it) (unnamed r)) in
  Done tt (set_callbacks (set_registry k r g) (next_iterator g) g).

(** The callbacks to call for a name: the named ones, then the others. *)
Definition gather (name : string) (r : Registry) : list (nat * Z) :=
  map (fun c => (c.1.1, c.2)) (filter (fun c => c.1.2 = name) (named r)) ++ unnamed r.

Definition registered (k : Kind) (it : nat) (g : global W) : bool :=
  bool_decide (it ∈ map (fun c => c.1.1) (named (m_callbacks g k)) ++ map fst (unnamed (m_callbacks g k))).

(** One callback of the loop; the list holds references to the functions, so one
    that was removed in the meantime must not be called.  Data callbacks take
    their reference by value. *)
Definition call (k : Kind) (name : string) (ref : option nat) (c : nat * Z) : G unit :=
  ok ← gets (registered k c.1);
  assert ok;;
  match ref with
  | None => invoke c.2 name None
  | Some r => with_ref (ref_copy false false r) (fun arg => invoke c.2 name (Some arg))
  end.

(** The loop that calls the gathered callbacks and collects their errors. *)
Definition call_all (k : Kind) (name : string) (ref : option nat) (cs : list (nat * Z)) : G (list exn) :=
  iter (fun c errors => catch (call k name ref c;; mret errors) (fun e => mret (errors ++ [e]))) cs [].

Definition notify_named (k : Kind) (msg name : string) (ref : option nat) : G unit :=
  r ← registry k;
  errors ← call_all k name ref (gather name r);
  lift (rethrow_all_with_simple_context errors (msg +:+ " `" +:+ name +:+ "', ")).

Definition notify_data (name : string) (ref : nat) : G unit := notify_named On_data "while sharing" name (Some ref).
Definition notify_data_remove (name : string) (ref : nat) : G unit := notify_named On_data_remove "while removing" name (Some ref).
Definition notify_event (name : string) : G unit := notify_named On_event "while triggering" name None.
Definition notify_missing_data (name : string) : G unit := notify_named On_missing_data "while populating" name None.

(** [notify_init]: the first error propagates. *)
Definition notify_init : G unit :=
  r ← registry On_init; iter (fun c _ => call On_init "" None c) (unnamed r) tt.

(** A block with a [Timer_event_handler]: an exception of its destructor ends the program. *)
Definition timed {A} (plugin_name : string) (m : G A) : G A :=
  notify_event (plugin_name +:+ "_start_timer");;
  finally m (notify_event (plugin_name +:+ "_stop_timer")).

(** * Descriptors *)

Definition empty_descriptor : Descriptor := mkDescriptor (Datatype_as_template UNDEF_TYPE) false [].

(** [Global_context::desc]: the descriptor, created at its first use. *)
Definition desc (name : string) : G unit := fun g =>
  Done tt match m_descriptors g !! name with
          | Some _ => g
          | None => set_descriptors (<[name := empty_descriptor]> (m_descriptors g)) g
          end.

(** The members of a descriptor. *)
Definition get_desc (name : string) : G Descriptor := fun g =>
  match m_descriptors g !! name with Some d => Done d g | None => Crashed end.

Definition set_desc (name : string) (d : Descriptor) : G unit :=
  modify (fun g => set_descriptors (<[name := d]> (m_descriptors g)) g).

(** [assert((!metadata() || !m_refs.empty()) && ...)] *)
Definition has_placeholder (d : Descriptor) : bool := negb (m_metadata d) || negb (bool_decide (m_refs d = [])).
Definition assert_placeholder (name : string) : G unit := d ← get_desc name; assert (has_placeholder d).

Definition push (name : string) (r : nat) : G unit :=
  d ← get_desc name; set_desc name (mkDescriptor (m_type d) (m_metadata d) (r :: m_refs d)).

(** [m_refs.pop()]: the holder is destroyed. *)
Definition pop (name : string) : G unit :=
  d ← get_desc name;
  match m_refs d with
  | [] => lift Crash
  | r :: rs => set_desc name (mkDescriptor (m_type d) (m_metadata d) rs);; ref_destroy r
  end.

(** [m_refs.emplace(new Ref_holder::Impl<R, W>(r))], whose argument is a copy. *)
Definition hold (name : string) (R W : bool) (r : nat) : G unit :=
  with_ref (ref_copy false false r) (fun t => h ← ref_copy R W t; push name h).

Definition default_type (name : string) (type : Template) : G unit :=
  d ← get_desc name; set_desc name (mkDescriptor type (m_metadata d) (m_refs d)).

(** [metadata(bool)] *)
Definition set_metadata (name : string) (metadata : bool) : G unit :=
  assert_placeholder name;;
  d ← get_desc name;
  match m_refs d with
  | _ :: _ => throw (State_error "Can not change the metadata status of a non-empty descriptor")
  | [] =>
      set_desc name (mkDescriptor (m_type d) metadata []);;
      (if metadata then with_ref (ref_null false false) (hold name true false) else mret tt);;
      assert_placeholder name
  end.

(** [Data_descriptor_impl::ref] *)
Definition ref (name : string) : G nat :=
  assert_placeholder name;;
  d ← get_desc name;
  (if bool_decide (m_refs d = []) then
     notify_missing_data name;;
     d ← get_desc name;
     if bool_decide (m_refs d = []) then throw (Value_error ("Cannot access a non shared value: `" +:+ name +:+ "'")) else mret tt
   else mret tt);;
  assert_placeholder name;;
  d ← get_desc name;
  match m_refs d with [] => lift Crash | top :: _ => ref_copy false false top end.

(** [Data_descriptor_impl::empty] *)
Definition empty (name : string) : G bool :=
  assert_placeholder name;; d ← get_desc name; mret (bool_decide (m_refs d = [])).

(** [Data_descriptor_impl::share(Ref, bool, bool)] *)
Definition share_ref (name : string) (data_ref : nat) (read write : bool) : G Z :=
  in_context ("Unable to share `" +:+ name +:+ "', ") (
    assert_placeholder name;;
    d ← get_desc name;
    (if m_metadata d then
       n ← with_ref (ref_copy true false data_ref) ref_is_null;
       if n : bool then throw (Permission_error "Metadata sharing must offer read access") else mret tt
     else mret tt);;
    result ← (if read || write then with_ref (ref_copy read write data_ref) ref_get_nothrow else mret nullptr);
    hold name read write data_ref;;
    n ← ref_is_null data_ref;
    (if negb n then
       n ← with_ref (ref name) ref_is_null;
       if n : bool then pop name;; throw (Permission_error "Unable to grant requested rights") else mret tt
     else mret tt);;
    catch (with_ref (ref name) (notify_data name)) (fun e => pop name;; throw e);;
    assert_placeholder name;;
    mret result).

(** [m_refs.empty() || (m_refs.size() == 1 && metadata())] *)
Definition not_shared (d : Descriptor) : bool :=
  bool_decide (m_refs d = []) || ((length (m_refs d) =? 1)%nat && m_metadata d).

(** Replacing the metadata placeholder when it is alone on the stack; [make] is
    called with the reference that was just removed. *)
Definition keep_metadata (name : string) (make : G unit) : G unit :=
  d ← get_desc name;
  if m_metadata d && (length (m_refs d) =? 1)%nat then pop name;; make else mret tt.

(** [Data_descriptor_impl::release] *)
Definition release_desc (name : string) : G unit :=
  in_context ("Unable to release `" +:+ name +:+ "', ") (
    assert_placeholder name;;
    d ← get_desc name;
    (if not_shared d then throw (State_error ("Cannot release a non shared value: `" +:+ name +:+ "'")) else mret tt);;
    with_ref (ref name) (notify_data_remove name);;
    with_ref (ref name) (fun oldref =>
      pop name;;
      keep_metadata name (hold name true false oldref);;
      assert_placeholder name)).

(** [Data_descriptor_impl::reclaim] *)
Definition reclaim (name : string) : G Z :=
  in_context ("Unable to reclaim `" +:+ name +:+ "', ") (
    assert_placeholder name;;
    d ← get_desc name;
    (if not_shared d then throw (State_error ("Cannot reclaim a non shared value: `" +:+ name +:+ "'")) else mret tt);;
    with_ref (ref name) (notify_data_remove name);;
    with_ref (ref name) (fun oldref =>
      pop name;;
      keep_metadata name (with_ref (ref_deep_copy oldref) (hold name true false));;
      assert_placeholder name;;
      ref_release oldref)).

(** [~Data_descriptor_impl]: a lone placeholder is destroyed, anything else is
    leaked; the number of leaked references is the one the warning counts. *)
Definition destroy_desc (name : string) : G nat :=
  d ← get_desc name;
  (if m_metadata d && (length (m_refs d) =? 1)%nat then pop name else mret tt);;
  d ← get_desc name;
  let leaked := if bool_decide (m_refs d = []) then O else (length (m_refs d) - (if m_metadata d then 1 else 0))%nat in
  modify (fun g => set_descriptors (delete name (m_descriptors g)) g);;
  mret leaked.

End operations.

#[global] Arguments on_store : simpl never.
