(* ===== verification/Eval.v ===== *)
(** Evaluation of expressions in a context.

    Models the methods [to_long], [to_double], [to_string], [to_ref] and
    [copy_value] of the classes of [pdi/src/expression/impl/*.cxx], of their base
    class ([pdi/src/expression/impl.cxx]), and [Datatype_template::evaluate] in
    the context.  Each class gives its table of methods from those of its
    sub-expressions, the way a class fills its virtual table. *)

From S2P Require Import Prelude Error Effect ExprSyntax Datatype Layout Memory DenseCopy Access Ref RefInv RefOps RefTheorems RefCopy Numeric Parse Template GlobalContext.
From Stdlib Require Import Ascii.

(** * Strings and numbers *)

Definition string_of_bytes (bs : list Z) : string :=
  foldr (fun b s => String (ascii_of_N (Z.to_N b)) s) EmptyString bs.

Fixpoint bytes_of_string (s : string) : list Z :=
  match s with EmptyString => [] | String c s => Z.of_N (N_of_ascii c) :: bytes_of_string s end.

(** The characters before the first null one. *)
Fixpoint c_str (s : string) : string :=
  match s with
  | EmptyString => EmptyString
  | String c s => if bool_decide (c = "000"%char) then EmptyString else String c (c_str s)
  end.

(** ** [std::ostream << std::setprecision(17) << double] *)

(** Rounding the quotient of two positive integers to nearest, ties to even. *)
Definition round_quotient (a b : Z) : Z :=
  let q := a / b in
  let r := 2 * (a mod b) in
  if (b <? r) || ((r =? b) && Z.odd q) then q + 1 else q.

(** [num / den] times ten to the power [k]. *)
Definition scale10 (num den k : Z) : Z * Z := if 0 <=? k then (num * 10 ^ k, den) else (num, den * 10 ^ (- k)).

(** The decimal exponent of [num / den]: the first one at or above [x] whose
    successor is too large. *)
Fixpoint exponent10 (fuel : nat) (num den x : Z) : Z :=
  match fuel with
  | O => x
  | S fuel => let '(n, d) := scale10 num den (- (x + 1)) in if d <=? n then exponent10 fuel num den (x + 1) else x
  end.

Fixpoint strip_zeros (l : list ascii) : list ascii :=
  match l with "0"%char :: l => strip_zeros l | _ => l end.

Definition digits_string (l : list ascii) : string := String.string_of_list_ascii l.

(** The digits [ds] with a point after the first [n], without trailing zeros. *)
Definition with_point (n : nat) (ds : list ascii) : string :=
  let frac := rev (strip_zeros (rev (drop n ds))) in
  match frac with
  | [] => digits_string (take n ds)
  | _ => digits_string (take n ds) +:+ "." +:+ digits_string frac
  end.

Definition two_digits (x : Z) : string := if x <? 10 then "0" +:+ pretty x else pretty x.

(** A positive number [m * 2 ^ e] with 17 significant digits. *)
Definition print_positive (m : positive) (e : Z) : string :=
  let num := if 0 <=? e then Zpos m * 2 ^ e else Zpos m in
  let den := if 0 <=? e then 1 else 2 ^ (- e) in
  let x := exponent10 700 num den (-330) in
  let '(n, d) := scale10 num den (16 - x) in
  let r := round_quotient n d in
  let '(r, x) := if r =? 10 ^ 17 then (10 ^ 16, x + 1) else (r, x) in
  let ds := String.list_ascii_of_string (pretty r) in
  if (x <? -4) || (17 <=? x) then
    with_point 1 ds +:+ "e" +:+ (if x <? 0 then "-" else "+") +:+ two_digits (Z.abs x)
  else if x <? 0 then with_point 1 ("0"%char :: replicate (Z.to_nat (- x - 1)) "0"%char ++ ds)
  else with_point (Z.to_nat (x + 1)) ds.

Definition print_double (f : spec_float) : string :=
  match f with
  | S754_zero s => if s then "-0" else "0"
  | S754_infinity s => if s then "-inf" else "inf"
  | S754_nan => "nan"
  | S754_finite s m e => (if s then "-" else "") +:+ print_positive m e
  end.

(** What [fmt::format] is called with. *)
Inductive fmt_value :=
  | Fmt_string (s : string)
  | Fmt_long (v : Z)
  | Fmt_double (f : spec_float).

(** The allocation function with an alignment, and the formatting library. *)
Class Runtime (W : Type) := {
  runtime_platform :: Platform W;
  operator_new_aligned : mem -> Z -> Z -> Z * mem;
  fmt_format : string -> fmt_value -> outcome string
}.

(** The deallocators the library installs. *)
Definition free_function : Z := -1.
Definition delete_aligned : Z := -2.
Definition delete_value : Z := -3.
Definition no_delete : Z := -4.

Section evaluation.
  Context {W : Type} {RT : Runtime W}.

Abbreviation G := (M (global W)).

(** * More operations on references *)

Definition ref_type (r : nat) : G Datatype := fun g => lift (type r (g_store g)) g.
Definition ref_get (r : nat) : G Z := ref_is_null r;; on_store (get r).

(** [m_content->m_data], which is only followed when the type is not
    [UNDEF_TYPE]. *)
Definition ref_data (r : nat) : G Z := fun g =>
  lift (x ← deref (refs (g_store g) !! r);
        match m_content x with
        | None => Ret nullptr
        | Some d => dd ← deref (datas (g_store g) !! d); Ret (data_address dd)
        end) g.

(** [Ref_any::scalar_value<T>] *)
Definition ref_scalar_value (T : ctype) (r : nat) : G cnum :=
  t ← ref_type r; a ← ref_data r; m ← gets g_mem; lift (scalar_value T t m a).

Definition ref_long (r : nat) : G Z := n ← ref_scalar_value (CInt true 8) r; mret (int_value n).
Definition ref_double (r : nat) : G spec_float :=
  n ← ref_scalar_value CDouble r; match n with NDouble f => mret f | _ => lift Crash end.

Definition ref_index (i : Z) (r : nat) : G nat := ref_is_null r;; m ← gets g_mem; on_store (sub_index m i r).
Definition ref_member (name : string) (r : nat) : G nat := ref_is_null r;; m ← gets g_mem; on_store (sub_member m name r).

(** A [Ref_r] made from a temporary [Ref]. *)
Definition readable (mk : G nat) : G nat := with_ref mk (ref_copy true false).

(** Two temporaries: a [Ref], and the [Ref_r] made from it. *)
Definition with_part {A} (part : G nat) (body : nat -> G A) : G A :=
  with_ref part (fun t => with_ref (ref_copy true false t) body).

(** A block that owns a reference until it returns. *)
Definition owning {A} (r : nat) (m : G A) : G A := catch m (fun e => ref_destroy r;; throw e).

(** [r = temporary] *)
Definition ref_assign (r : nat) (mk : G nat) : G unit := with_ref mk (fun t => unit_store (assign_move r t)).

Definition on_mem {A} (f : mem -> outcome (A * mem)) : G A := zoom g_mem set_mem f.
Definition unit_mem (f : mem -> outcome mem) : G unit := on_mem (fun m => m ← f m; Ret (tt, m)).

Definition load_string (a n : Z) : G string := fun g =>
  match load (g_mem g) a (Z.to_nat n) with Some bs => Done (string_of_bytes bs) g | None => Crashed end.

(** * The methods of an expression *)

Record methods := mkMethods {
  to_long : G Z;
  to_double : G spec_float;
  to_string : G string;
  to_ref : G nat;
  copy_value : Z -> Datatype -> G Z
}.

(** [Expression::Impl::to_ref(Context&, Datatype_sptr)] *)
Definition to_ref_typed (copy_value : Z -> Datatype -> G Z) (type : Datatype) : G nat :=
  data ← on_mem (fun m => Ret (operator_new_aligned m (buffersize type) (alignment type)));
  with_ref (on_store (new_ref true true data delete_aligned type true true)) (fun result =>
    p ← ref_get result;
    copy_value p type;;
    ref_copy false false result).

(** An array of characters. *)
Definition is_char (t : Datatype) : bool :=
  match t with
  | Scalar_datatype _ (SIGNED | UNSIGNED) _ _ _ _ _ => datasize t =? 1
  | _ => false
  end.

Definition same_value (lres : Z) (dres : spec_float) : bool := SFeqb (float_of_Z true lres) dres.

(** [Expression::Impl::to_string] *)
Definition default_to_string (to_long : G Z) (to_double : G spec_float) (to_ref : G nat) : G string :=
  with_ref (readable to_ref) (fun raw_data =>
    t ← ref_type raw_data;
    match t with
    | Array_datatype _ sub size _ _ =>
        if is_char sub then a ← ref_get raw_data; load_string a size
        else lres ← to_long; dres ← to_double; mret (if same_value lres dres then pretty lres else print_double dres)
    | _ => lres ← to_long; dres ← to_double; mret (if same_value lres dres then pretty lres else print_double dres)
    end).

(** ** Literals *)

Definition Int_literal_methods (m_value : Z) : methods :=
  let to_long := mret m_value in
  let to_double := mret (float_of_Z true m_value) in
  let copy_value := fun buffer type => on_mem (fun m => '(m, n) ← int_literal_copy_value m_value m buffer type; Ret (n, m)) in
  let to_ref := t ← lift (make_scalar_kind_size SIGNED 8 []); to_ref_typed copy_value t in
  mkMethods to_long to_double (default_to_string to_long to_double to_ref) to_ref copy_value.

(** The conversion of a [double] to a [long] out of range is undefined. *)
Definition Float_literal_methods (m_value : spec_float) : methods :=
  let to_long := n ← lift (convert (CInt true 8) (NDouble m_value)); mret (int_value n) in
  let to_double := mret m_value in
  let copy_value := fun buffer type => on_mem (fun m => '(m, n) ← float_literal_copy_value m_value m buffer type; Ret (n, m)) in
  let to_ref := t ← lift (make_scalar_kind_size FLOAT 8 []); to_ref_typed copy_value t in
  mkMethods to_long to_double (default_to_string to_long to_double to_ref) to_ref copy_value.

(** The words [String_literal::to_long] knows. *)
Definition true_values : list string := ["y"; "Y"; "yes"; "Yes"; "YES"; "true"; "True"; "TRUE"; "on"; "On"; "ON"].
Definition false_values : list string := ["n"; "N"; "no"; "No"; "NO"; "false"; "False"; "FALSE"; "Off"; "Off"; "OFF"].

Definition truth_value (src_string : string) : outcome Z :=
  if bool_decide (src_string ∈ true_values) then Ret 1
  else if bool_decide (src_string ∈ false_values) then Ret 0
  else Throw (Value_error ("Can not interpret `" +:+ src_string +:+ "' as an integer value")).

Definition String_literal_methods (m_start : string) (m_values : list (methods * string)) : methods :=
  let to_string := iter (fun v result => s ← to_string v.1; mret (result +:+ s +:+ v.2)) m_values m_start in
  let to_long := s ← to_string; lift (truth_value s) in
  let to_double := s ← to_string; throw (Value_error ("Can not interpret `" +:+ s +:+ "' as an double value")) in
  let copy_value := fun buffer type =>
    match type with
    | Array_datatype _ (Scalar_datatype _ _ _ _ _ _ _ as sub) _ _ _ =>
        if buffersize sub =? 1 then
          value ← to_string;
          unit_mem (fun m => deref (Memory.store m buffer (bytes_of_string value ++ [0])));;
          mret (buffersize type)
        else throw (Value_error "Cannot copy String_literal as a non chars array datatype.")
    | _ => throw (Value_error "Cannot copy String_literal as a non chars array datatype.")
    end in
  let to_ref :=
    value ← to_string;
    t ← lift (make_scalar_kind_size UNSIGNED 1 []);
    to_ref_typed copy_value (make_array t (Z.of_nat (String.length value) + 1) []) in
  mkMethods to_long to_double to_string to_ref copy_value.

(** ** References to data *)

(** The accessors, with the methods of their expression. *)
Inductive accessor := Index_accessor (e : methods) | Member_accessor (e : methods).

(** [Accessor_expression::access], whose reference is passed by value. *)
Definition access (a : accessor) (result : nat) : G nat :=
  with_ref (ref_copy false false result) (fun r =>
    match a with
    | Index_accessor e => i ← to_long e; ref_index i r
    | Member_accessor e => name ← to_string e; ref_member name r
    end).

(** The switch of [Reference_expression::copy_value]: the type the value is
    copied as. *)
Definition indexed_copy_type (type : Datatype) : outcome ctype :=
  let no := Throw (Value_error "Cannot copy reference expression value: non scalar datatype for indexed reference") in
  match type with
  | Scalar_datatype _ UNSIGNED _ _ _ _ _ =>
      if bool_decide (buffersize type ∈ [1; 2; 4; 8]) then Ret (CInt false (buffersize type))
      else Throw (Type_error "Unknown size of integer datatype")
  | Scalar_datatype _ SIGNED _ _ _ _ _ =>
      if bool_decide (buffersize type ∈ [1; 2; 4; 8]) then Ret (CInt true (buffersize type)) else no
  | Scalar_datatype _ FLOAT _ _ _ _ _ =>
      if buffersize type =? 4 then Ret CFloat else if buffersize type =? 8 then Ret CDouble else no
  | _ => no
  end.

Definition format_or (m_fmt_format : string) (v : fmt_value) (plain : string) : G string :=
  match m_fmt_format with
  | EmptyString => mret plain
  | _ => lift (fmt_format ("{" +:+ m_fmt_format +:+ "}") v)
  end.

Definition Reference_expression_methods (m_referenced : string) (m_subelements : list accessor) (m_fmt_format : string) : methods :=
  let to_ref :=
    desc m_referenced;;
    result ← ref m_referenced;
    owning result (iter (fun a _ => ref_assign result (access a result)) m_subelements tt);;
    mret result in
  let while_referencing {A} (m : G A) := in_context ("while referencing `" +:+ m_referenced +:+ "', ") m in
  let to_long := while_referencing (with_ref (readable to_ref) (fun r =>
    n ← ref_is_null r;
    if n : bool then throw (Permission_error "Unable to grant access for value reference") else ref_long r)) in
  let to_double := while_referencing (with_ref (readable to_ref) (fun r =>
    n ← ref_is_null r;
    if n : bool then throw (Permission_error "Unable to grant read access for value reference") else ref_double r)) in
  let to_string := with_ref (readable to_ref) (fun raw_data =>
    t ← ref_type raw_data;
    match t with
    | Array_datatype _ (Scalar_datatype _ _ _ _ _ _ _ as sub) size _ _ =>
        if is_char sub then
          a ← ref_get raw_data; result ← load_string a size; format_or m_fmt_format (Fmt_string (c_str result)) result
        else mret EmptyString
    | Array_datatype _ _ _ _ _ => throw (Type_error "Cannot evaluate as string an array of non char elements")
    | _ =>
        lres ← to_long; dres ← to_double;
        if same_value lres dres then format_or m_fmt_format (Fmt_long lres) (pretty lres)
        else format_or m_fmt_format (Fmt_double dres) (print_double dres)
    end) in
  let copy_value := fun buffer type => with_ref (readable to_ref) (fun ref_r =>
    n ← ref_is_null ref_r;
    if n : bool then throw (Value_error "Cannot copy reference expression value: cannot get read access to reference")
    else
      match m_subelements with
      | [] =>
          t ← ref_type ref_r;
          if buffersize t =? buffersize type then
            from ← ref_get ref_r; unit_mem (fun m => memcpy m buffer from (buffersize type));; mret (buffersize type)
          else
            throw (Value_error ("Cannot copy reference expression value: reference buffersize (" +:+ pretty (buffersize t)
                                +:+ ") != type bufferize (" +:+ pretty (buffersize type) +:+ ")"))
      | _ =>
          T ← lift (indexed_copy_type type);
          v ← ref_scalar_value T ref_r;
          unit_mem (fun m => write_num m buffer v);; mret (sizeof T)
      end) in
  mkMethods to_long to_double to_string to_ref copy_value.

(** ** Operations *)

(** [Operation::eval]: the result is a new object. *)
Definition eval_to_ref (computed_value : cnum) (op : Operator) (operand_value : cnum) : G nat :=
  v ← lift (eval computed_value op operand_value);
  p ← on_mem (fun m => Ret (operator_new m (sizeof (ctype_of v))));
  unit_mem (fun m => write_num m p v);;
  on_store (new_ref false false p delete_value (type_for (ctype_of v)) true false).

(** [Operation::evalp] *)
Definition evalp_to_ref (computed_value : cnum) (op : Operator) (operand_ref : nat) : G nat :=
  t ← ref_type operand_ref;
  T ← lift (operand_type t);
  v ← ref_scalar_value T operand_ref;
  eval_to_ref computed_value op v.

(** The body of the loop of [Operation::to_ref]. *)
Definition operation_step (computed_ref : nat) (op : Operator) (operand : methods) : G unit :=
  computed_type ← ref_type computed_ref;
  match computed_type with
  | Scalar_datatype _ _ _ _ _ _ _ =>
      with_ref (readable (to_ref operand)) (fun operand_ref =>
        T ← lift (operand_type computed_type);
        v ← ref_scalar_value T computed_ref;
        ref_assign computed_ref (readable (with_ref (ref_copy true false operand_ref) (evalp_to_ref v op))))
  | _ => throw (Type_error "Cannot apply operation on non-scalar value")
  end.

(** The type [Operation::copy_value] assigns the value as. *)
Definition operation_copy_type (type : Datatype) : outcome ctype :=
  match type with
  | Scalar_datatype _ FLOAT _ _ _ _ _ =>
      if datasize type =? 4 then Ret CFloat else if datasize type =? 8 then Ret CDouble
      else Throw (Type_error ("Cannot copy operation expression value to floating point data of size " +:+ pretty (datasize type)))
  | Scalar_datatype _ SIGNED _ _ _ _ _ =>
      if bool_decide (datasize type ∈ [1; 2; 4; 8]) then Ret (CInt true (datasize type))
      else Throw (Type_error ("Cannot copy operation expression value to integer data of size " +:+ pretty (datasize type)))
  | Scalar_datatype _ UNSIGNED _ _ _ _ _ =>
      if bool_decide (datasize type ∈ [1; 2; 4; 8]) then Ret (CInt false (datasize type))
      else Throw (Type_error ("Cannot copy operation expression value to unsigned data of size " +:+ pretty (datasize type)))
  | Scalar_datatype _ UNKNOWN _ _ _ _ _ => Throw (Type_error "Cannot copy operation expression value: unknown type")
  | _ => Throw (Value_error "Cannot copy operation expression value to non scalar datatype")
  end.

Definition Operation_methods (m_first_operand : methods) (m_operands : list (Operator * methods)) : methods :=
  let to_ref := with_ref (readable (to_ref m_first_operand)) (fun computed_ref =>
    iter (fun o _ => operation_step computed_ref o.1 o.2) m_operands tt;;
    ref_copy false false computed_ref) in
  let value {A} (read : nat -> G A) : G A := with_ref (readable to_ref) (fun ref_value =>
    n ← ref_is_null ref_value;
    if n : bool then throw (Value_error "Unexpected null value for operation") else read ref_value) in
  let copy_value := fun buffer type => with_ref (readable to_ref) (fun v =>
    T ← lift (operation_copy_type type);
    n ← ref_scalar_value T v;
    unit_mem (fun m => write_num m buffer n);; mret (datasize type)) in
  let to_long := value ref_long in
  let to_double := value ref_double in
  mkMethods to_long to_double (default_to_string to_long to_double to_ref) to_ref copy_value.

(** ** Sequences and mappings *)

(** The type of the value of an expression. *)
Definition element_type_of (e : methods) : G Datatype := with_ref (to_ref e) ref_type.

Definition all_equal (ts : list Datatype) : bool :=
  match ts with [] => true | t :: ts => forallb (datatype_eqb t) ts end.

(** The loop that lays the elements of a tuple out. *)
Definition tuple_of (ts : list Datatype) (result_alignment : Z) : outcome Datatype :=
  '(es, displacement) ← place_members Ret (fun _ d t => mkElement d t) ts 0;
  b ← close_layout result_alignment displacement;
  Ret (Tuple_datatype [] es b).

Definition Sequence_methods (m_value : list methods) : methods :=
  let to_long := throw (Value_error "Cannot interpret Array_expression as a long value") in
  let to_double := throw (Value_error "Cannot interpret Array_expression as a double value") in
  let to_string := iter (fun e result => s ← to_string e; mret (result +:+ s)) m_value EmptyString in
  let copy_value := fun buffer type =>
    match type with
    | Array_datatype _ sub _ _ _ =>
        offset ← iter (fun e offset => n ← copy_value e (buffer + offset) sub; mret (offset +s n)) m_value 0;
        if offset =? buffersize type then mret offset
        else throw (Value_error ("Array literal copy incomplete: copied " +:+ pretty offset +:+ " B of " +:+ pretty (buffersize type) +:+ " B"))
    | Tuple_datatype _ es _ =>
        iter (fun e i =>
          match es !! i with
          | Some el => copy_value e (buffer + element_offset el) (element_type el);; mret (S i)
          | None => lift Crash
          end) m_value O;;
        mret (buffersize type)
    | _ => throw (Value_error "Sequence literal cannot copy a value whose type is neither array nor tuple")
    end in
  let to_ref :=
    match m_value with
    | [] =>
        t ← lift (make_scalar_kind_size UNKNOWN 0 []);
        with_ref (on_store (new_ref true true nullptr no_delete (make_array t 0 []) true true)) (ref_copy false false)
    | _ =>
        ts ← iter (fun e ts => t ← element_type_of e; mret (ts ++ [t])) m_value [];
        let result_alignment := foldl (fun r t => Z.max r (alignment t)) 0 ts in
        result_type ← (match ts with
                       | t :: _ => if all_equal ts then mret (make_array t (Z.of_nat (length m_value)) [])
                                   else lift (tuple_of ts result_alignment)
                       | [] => lift Crash
                       end);
        to_ref_typed copy_value result_type
    end in
  mkMethods to_long to_double to_string to_ref copy_value.

(** One iteration of [Mapping::to_ref]: the members so far, the displacement and
    the alignment.  The element is accessed as a [Ref_rw]. *)
Definition mapping_member (element : string * methods) (acc : list (Member Datatype) * Z * Z) : G (list (Member Datatype) * Z * Z) :=
  let '(members, displacement, record_alignment) := acc in
  with_ref (with_ref (to_ref element.2) (ref_copy true true)) (fun element_ref =>
    t ← ref_type element_ref;
    p ← lift (padding (alignment t) displacement);
    let displacement := displacement +s p in
    mret (members ++ [mkMember displacement t element.1], displacement +s buffersize t, Z.max record_alignment (alignment t))).

Definition Mapping_methods (m_value : list (string * methods)) : methods :=
  let to_long := throw (Value_error "Cannot interpret Map_expression as a long value") in
  let to_double := throw (Value_error "Cannot interpret Map_expression as a double value") in
  let to_string := throw (Value_error "Cannot interpret Map_expression as a string value") in
  let copy_value := fun buffer type =>
    match type with
    | Record_datatype _ ms _ =>
        iter (fun e _ =>
          match list_find (fun m => member_name m = e.1) ms with
          | Some (_, m) => copy_value e.2 (buffer + member_displacement m) (member_type m);; mret tt
          | None => throw (Value_error ("Trying to reference non-existing member: " +:+ e.1))
          end) m_value tt;;
        mret (buffersize type)
    | _ => throw (Value_error "Map literal cannot copy value of not record datatype")
    end in
  let to_ref :=
    '(members, displacement, record_alignment) ← iter mapping_member m_value ([], 0, 1);
    p ← lift (padding record_alignment displacement);
    to_ref_typed copy_value (Record_datatype [] members (displacement +s p)) in
  mkMethods to_long to_double to_string to_ref copy_value.

(** * Dispatch *)

Fixpoint methods_of (e : Impl) : methods :=
  match e with
  | Int_literal v => Int_literal_methods v
  | Float_literal v => Float_literal_methods v
  | Operation first ops => Operation_methods (methods_of first) (map (fun o => (o.1, methods_of o.2)) ops)
  | Reference_expression name subs fmt => Reference_expression_methods name (map accessor_of subs) fmt
  | String_literal start vs => String_literal_methods start (map (fun v => (methods_of v.1, v.2)) vs)
  | Sequence l => Sequence_methods (map methods_of l)
  | Mapping l => Mapping_methods (map (fun p => (p.1, methods_of p.2)) l)
  end
with accessor_of (a : Accessor) : accessor :=
  match a with
  | Index_accessor_expression e => Index_accessor (methods_of e)
  | Member_accessor_expression e => Member_accessor (methods_of e)
  end.

Definition expr_to_long (e : Impl) : G Z := to_long (methods_of e).
Definition expr_to_double (e : Impl) : G spec_float := to_double (methods_of e).
Definition expr_to_string (e : Impl) : G string := to_string (methods_of e).
Definition expr_to_ref (e : Impl) : G nat := to_ref (methods_of e).

(** [Datatype_template::evaluate] in the context. *)
Definition evaluate_in_context (t : Template) : G Datatype := evaluate expr_to_long t.

End evaluation.

(** * A concrete runtime *)

(** Blocks above everything that is allocated, no formatting, and given plugins;
    then plugins that do nothing. *)
Definition aligned_block (m : mem) (n al : Z) : Z * mem :=
  let p := align_up al (top_address m + 1) in (p, bytes_at p (replicate (Z.to_nat n) 0) ∪ m).

Definition runtime_with {W} (al : Allocator) (callbacks : Z -> string -> option nat -> M (global W) unit) : Runtime W := {|
  runtime_platform := {| platform_notifications := silent_callbacks; platform_allocator := al; run_copy := fun _ m to _ => Ret (m, to); invoke := callbacks |};
  operator_new_aligned := aligned_block;
  fmt_format := fun _ _ => Throw (Std_exception "no format")
|}.

Definition quiet_runtime {W} : Runtime W := runtime_with odd_allocator (fun _ _ _ => mret tt).

Definition empty_global : global unit := mkGlobal empty_store ∅ ∅ ∅ (fun _ => mkRegistry [] []) 0 tt.
