(* ===== verification/ContextInv.v ===== *)
(** The invariant of the context and the operations on references inside it.

    [ctx_ok]: the store is well formed, every holder of a stack is a reference of
    the store that is on no other stack, and a metadata descriptor keeps its
    placeholder.  [framed]: an operation kept the references it does not own
    and shortened no stack. *)

From S2P Require Import Prelude Error Effect ExprSyntax Datatype Layout Memory DenseCopy DenseCopyFacts Access Ref RefInv RefOps RefTheorems RefCopy Template GlobalContext.

(** * Reasoning about operations *)

Section wp.
  Context {S : Type} (C : Prop).

(** What an operation run in [s] does; [C] is what is known when its behaviour
    is undefined. *)
Definition wp {A} (m : M S A) (Q : A -> S -> Prop) (E : exn -> S -> Prop) (s : S) : Prop :=
  match m s with Done a s => Q a s | Thrown e s => E e s | Crashed => C end.

Lemma wp_ret {A} (a : A) Q E s : Q a s -> wp (mret a) Q E s.
Proof. done. Qed.

Lemma wp_throw {A} e (Q : A -> S -> Prop) E s : E e s -> wp (throw e) Q E s.
Proof. done. Qed.

Lemma wp_bind {A B} (m : M S A) (f : A -> M S B) Q E s : wp m (fun a => wp (f a) Q E) E s -> wp (m ≫= f) Q E s.
Proof. unfold wp, mbind, M_bind. by destruct (m s). Qed.

Lemma wp_mono {A} (m : M S A) Q Q' (E E' : exn -> S -> Prop) s :
  wp m Q E s -> (forall a s', Q a s' -> Q' a s') -> (forall e s', E e s' -> E' e s') -> wp m Q' E' s.
Proof. unfold wp. destruct (m s); auto. Qed.

Lemma wp_catch {A} (m : M S A) h Q E s : wp m Q (fun e => wp (h e) Q E) s -> wp (catch m h) Q E s.
Proof. unfold wp, catch. by destruct (m s). Qed.

Lemma wp_in_context {A} msg (m : M S A) Q E s :
  wp m Q (fun e => E (rethrow_with_simple_context e msg)) s -> wp (in_context msg m) Q E s.
Proof. intros H. apply wp_catch. exact H. Qed.

Lemma wp_finally {A} (m : M S A) d Q E s :
  wp m (fun a => wp d (fun _ => Q a) (fun _ _ => False)) (fun e => wp d (fun _ => E e) (fun _ _ => False)) s ->
  wp (finally m d) Q E s.
Proof. unfold wp, finally. destruct (m s) as [a s'|e s'|]; [| |done]; by destruct (d s'). Qed.

Lemma wp_lift {A} (o : outcome A) Q E s :
  (forall a, o = Ret a -> Q a s) -> (forall e, o = Throw e -> E e s) -> (o = Crash -> C) -> wp (lift o) Q E s.
Proof. unfold wp, lift. destruct o; auto. Qed.

Lemma wp_iter {A B} (f : A -> B -> M S B) (I : B -> S -> Prop) E l :
  (forall x b s, x ∈ l -> I b s -> wp (f x b) I E s) -> forall b s, I b s -> wp (iter f l b) I E s.
Proof.
  induction l as [|x l IH]; intros Hf b s HI; simpl; [done|]. apply wp_bind.
  eapply wp_mono; [apply Hf; [by apply list_elem_of_here|done]| |done]. intros b' s' HI'. apply IH; [|done].
  intros y b2 s2 Hy. apply Hf. by apply list_elem_of_further.
Qed.

Lemma wp_assert c Q E s : (c = false -> C) -> (c = true -> Q tt s) -> wp (assert c) Q E s.
Proof. unfold wp, assert. destruct c; intros H1 H2; [by apply H2|by apply H1]. Qed.

End wp.

Lemma wp_crash {S A} (C C' : Prop) (m : M S A) Q E s : wp C m Q E s -> (C -> C') -> wp C' m Q E s.
Proof. unfold wp. destruct (m s); auto. Qed.

(** Undefined behaviour is considered apart. *)
Lemma wp_crash_apart {S A} (C : Prop) (m : M S A) Q E s : wp True m Q E s -> (m s = Crashed -> C) -> wp C m Q E s.
Proof. unfold wp. destruct (m s); auto. Qed.

(** * The invariant *)

Section invariant.
  Context {W : Type} (X : option string).

Definition on_stack (g : global W) (r : nat) : Prop := exists n d, m_descriptors g !! n = Some d /\ r ∈ m_refs d.

Definition exists_ref (g : global W) (r : nat) : Prop := is_Some (refs (g_store g) !! r).

(** A local reference: it exists and no descriptor holds it. *)
Definition local_ref (g : global W) (r : nat) : Prop := exists_ref g r /\ ~ on_stack g r.

(** [X] is a descriptor whose placeholder is being replaced. *)
Record ctx_ok (g : global W) : Prop := {
  ok_store : inv (g_store g);
  ok_held : forall n d r, m_descriptors g !! n = Some d -> r ∈ m_refs d -> exists_ref g r;
  ok_once : forall n d, m_descriptors g !! n = Some d -> NoDup (m_refs d);
  ok_disjoint : forall n n' d d' r, m_descriptors g !! n = Some d -> m_descriptors g !! n' = Some d' ->
    r ∈ m_refs d -> r ∈ m_refs d' -> n = n';
  ok_metadata : forall n d, X <> Some n -> m_descriptors g !! n = Some d -> m_metadata d = true -> m_refs d <> []
}.

Record framed (g g' : global W) : Prop := {
  fr_next : (next (g_store g) <= next (g_store g'))%nat;
  fr_local : forall r, local_ref g r -> local_ref g' r;
  fr_rights : forall r x, refs (g_store g) !! r = Some x -> local_ref g r ->
    exists x', refs (g_store g') !! r = Some x' /\ ref_R x' = ref_R x /\ ref_W x' = ref_W x;
  fr_stacks : forall n d, m_descriptors g !! n = Some d ->
    exists d', m_descriptors g' !! n = Some d' /\ (length (m_refs d) <= length (m_refs d'))%nat /\
      (m_refs d <> [] -> m_metadata d' = m_metadata d);
  fr_callbacks : forall k it, registered k it g = true -> registered k it g' = true
}.

#[export] Instance framed_refl : Reflexive framed.
Proof. intros g. split; [done..|by eauto| |done]. intros n d Hd. by exists d. Qed.

#[export] Instance framed_trans : Transitive framed.
Proof.
  intros g1 g2 g3 [N12 L12 R12 S12 C12] [N23 L23 R23 S23 C23]. split; [lia|auto| | |auto].
  - intros r x Hr Hl. destruct (R12 r x Hr Hl) as (y & Hy & ? & ?). destruct (R23 r y Hy (L12 r Hl)) as (z & Hz & ? & ?).
    exists z. split_and!; congruence.
  - intros n d Hd. destruct (S12 n d Hd) as (d2 & Hd2 & Hl2 & Hm2). destruct (S23 n d2 Hd2) as (d3 & Hd3 & Hl3 & Hm3).
    exists d3. split_and!; [done|lia|]. intros Hne. rewrite Hm3; [by apply Hm2|]. intros Hnil. rewrite Hnil in Hl2.
    destruct (m_refs d); simpl in *; [done|lia].
Qed.

Definition good (g g' : global W) : Prop := ctx_ok g' /\ framed g g'.

Lemma good_refl g : ctx_ok g -> good g g.
Proof. by split. Qed.

Lemma good_trans g1 g2 g3 : good g1 g2 -> good g2 g3 -> good g1 g3.
Proof. intros [_ F12] [O3 F23]. split; [done|by etrans]. Qed.

(** ** Steps of the store *)

Lemma store_step_good g st' :
  ctx_ok g -> inv st' -> keeps_refs (g_store g) st' -> (next (g_store g) <= next st')%nat -> good g (set_store st' g).
Proof.
  intros [Hinv Hh Ho Hd Hm] Hinv' Hk Hn.
  assert (Hex : forall r, exists_ref g r -> exists_ref (set_store st' g) r).
  { intros r [x Hx]. destruct (Hk r x Hx) as (x' & Hx' & _). by eexists. }
  split; split; simpl; try done; eauto.
  intros r [He Hs]. split; [by apply Hex|done].
Qed.

Lemma set_mem_good g m : ctx_ok g -> good g (set_mem m g).
Proof. intros [Hinv Hh Ho Hd Hm]. split; split; try done; eauto. Qed.

(** The references created since [g]. *)
Definition fresh_local (g : global W) (r : nat) (g' : global W) : Prop := local_ref g' r /\ (next (g_store g) <= r)%nat.

(** The reference [r] is gone and nothing else changed but what it was linked to. *)
Definition removed (r : nat) (g g' : global W) : Prop :=
  exists st', g' = set_store st' g /\ inv st' /\ refs st' = delete r (refs (g_store g)) /\ next st' = next (g_store g).

Lemma removed_ok r g g' : ctx_ok g -> ~ on_stack g r -> removed r g g' -> ctx_ok g'.
Proof.
  intros [Hinv Hh Ho Hd Hm] Hns (st' & -> & Hinv' & Hrefs & _). split; simpl; try done; eauto.
  intros n d r' Hd' Hr'. unfold exists_ref; simpl. rewrite Hrefs, lookup_delete_ne; [by eapply Hh|].
  intros ->. apply Hns. by exists n, d.
Qed.

Lemma removed_local r r' g g' : removed r g g' -> local_ref g r' -> r' <> r -> local_ref g' r'.
Proof.
  intros (st' & -> & _ & Hrefs & _) [He Hs] Hne. split; [|done]. unfold exists_ref; simpl. by rewrite Hrefs, lookup_delete_ne.
Qed.

Lemma local_lt g r : inv (g_store g) -> local_ref g r -> (r < next (g_store g))%nat.
Proof. intros Hinv [He _]. by apply (wf_next_refs _ (proj1 Hinv)). Qed.

(** Removing a reference created since [g]. *)
Lemma removed_good g g' g'' r :
  inv (g_store g) -> good g g' -> (next (g_store g) <= r)%nat -> ~ on_stack g' r -> removed r g' g'' -> good g g''.
Proof.
  intros Hok [Hok' [Hn Hl Hr Hs Hc]] Hfresh Hns Hrem. split; [by eapply removed_ok|].
  assert (Hne : forall r', local_ref g r' -> r' <> r) by (intros r' Hlr ->; pose proof (local_lt _ _ Hok Hlr); lia).
  pose proof Hrem as (st' & -> & Hinv' & Hrefs & Hn'). split; simpl; [by rewrite Hn'| | |done|done].
  - intros r' Hlr. eapply removed_local; eauto.
  - intros r' x Hx Hlr. rewrite Hrefs, lookup_delete_ne by (by apply not_eq_sym, Hne). by apply Hr.
Qed.

End invariant.

(** * Operations on references *)

Section references.
  Context {W : Type} {P : Platform W} (X : option string) (C : Prop).

Implicit Types g : global W.

(** [m] keeps the invariant and the frame, and its result satisfies [Q]. *)
Definition tame_at {A} (g : global W) (m : M (global W) A) (Q : A -> global W -> Prop) : Prop :=
  wp C m (fun a g' => good X g g' /\ Q a g') (fun _ g' => good X g g') g.

Definition tame {A} (m : M (global W) A) (Q : global W -> A -> global W -> Prop) : Prop :=
  forall g, ctx_ok X g -> tame_at g m (Q g).

Lemma fresh_local_step g st' x c R V :
  ctx_ok X g -> inv st' -> refs st' = <[next (g_store g) := mkReference R V c]> (refs (g_store g)) -> x = next (g_store g) ->
  (next (g_store g) < next st')%nat -> good X g (set_store st' g) /\ fresh_local g x (set_store st' g).
Proof.
  intros Hok Hinv' Hrefs -> Hn. split.
  - apply store_step_good; [done..| |lia]. eapply keeps_insert_fresh; [apply Hok|done].
  - split; [|done]. split; [unfold exists_ref; simpl; by rewrite Hrefs, lookup_insert_eq|].
    intros (n & d & Hd & Hr). destruct (ok_held _ _ Hok n d _ Hd Hr) as [y Hy]. by apply (fresh_ref _ _ _ (ok_store _ _ Hok) Hy).
Qed.

Lemma ref_null_spec R V : tame (ref_null R V) fresh_local.
Proof.
  intros g Hok. unfold tame_at, wp, ref_null, on_store, zoom. pose proof (ok_store _ _ Hok) as Hinv.
  destruct (new_null_ok (g_store g) R V Hinv) as (st' & -> & Hst & Hrefs & _ & _ & _ & Hn). destruct (Hst Hinv) as [Hinv' _].
  eapply fresh_local_step; [done..|lia].
Qed.

Lemma ref_copy_spec g R V r :
  ctx_ok X g -> exists_ref g r -> tame_at g (ref_copy R V r) (fresh_local g).
Proof.
  intros Hok [x Hr]. unfold tame_at, wp, ref_copy, on_store, zoom. pose proof (ok_store _ _ Hok) as Hinv.
  destruct (new_copy_ok (g_store g) R V r x Hinv Hr) as (st' & c & -> & Hst & Hrefs & Hn & _). destruct (Hst Hinv) as [Hinv' _].
  eapply fresh_local_step; [done..|lia].
Qed.

(** Only the store changes. *)
Definition store_only (g g' : global W) : Prop := g' = set_store (g_store g') g.

Lemma ref_copy_exact g R V r E :
  ctx_ok X g -> exists_ref g r ->
  wp C (ref_copy R V r) (fun r' g' => good X g g' /\ fresh_local g r' g' /\ store_only g g') E g.
Proof.
  intros Hok Hr. pose proof (ref_copy_spec g R V r Hok Hr) as H. unfold tame_at, wp, ref_copy, on_store, zoom in *.
  destruct Hr as [x Hr]. destruct (new_copy_ok (g_store g) R V r x (ok_store _ _ Hok) Hr) as (st' & c & Hrun & _).
  rewrite Hrun in *. by destruct H.
Qed.

Lemma ref_null_exact g R V E :
  ctx_ok X g -> wp C (ref_null R V) (fun r' g' => good X g g' /\ fresh_local g r' g' /\ store_only g g') E g.
Proof.
  intros Hok. pose proof (ref_null_spec R V g Hok) as H. unfold tame_at, wp, ref_null, on_store, zoom in *.
  destruct (new_null R V (g_store g)). by destruct H.
Qed.

Lemma ref_is_null_spec g r :
  ctx_ok X g -> exists_ref g r -> tame_at g (ref_is_null r) (fun _ _ => True).
Proof.
  intros Hok [x Hr]. unfold tame_at, wp, ref_is_null, on_store, zoom. pose proof (ok_store _ _ Hok) as Hinv.
  destruct (is_null_ok (g_store g) r x Hinv Hr) as (n & st' & -> & Hst & Hn & Hres). destruct (Hst Hinv) as [Hinv' _].
  split; [|done]. apply store_step_good; [done..| |lia]. destruct n; [by eapply keeps_set_content|]. by destruct Hres as [-> _].
Qed.

Lemma ref_destroy_spec g r E :
  inv (g_store g) -> exists_ref g r -> wp C (ref_destroy r) (fun _ g' => removed r g g') E g.
Proof.
  intros Hinv [x Hr]. unfold wp, ref_destroy, unit_store, on_store, zoom.
  destruct (delete_ref_ok (g_store g) r x Hinv Hr) as (st' & -> & Hst & Hrefs & Hn & Hds). destruct (Hst Hinv) as [Hinv' _].
  by exists st'.
Qed.

(** A block with a temporary reference. *)
Lemma wp_with_ref {A} mk (body : nat -> M (global W) A) Q E g :
  wp C mk (fun r => wp C (body r)
    (fun a g2 => inv (g_store g2) /\ exists_ref g2 r /\ forall g3, removed r g2 g3 -> Q a g3)
    (fun e g2 => inv (g_store g2) /\ exists_ref g2 r /\ forall g3, removed r g2 g3 -> E e g3)) E g ->
  wp C (with_ref mk body) Q E g.
Proof.
  intros H. apply wp_bind. eapply wp_mono; [exact H| |done]. intros r g1 Hb. apply wp_finally.
  eapply wp_mono; [exact Hb| |].
  - intros a g2 (Hok & Hex & HQ). eapply wp_mono; [by apply (ref_destroy_spec g2 r (fun _ _ => False))| |done]. intros [] g3. apply HQ.
  - intros e g2 (Hok & Hex & HQ). eapply wp_mono; [by apply (ref_destroy_spec g2 r (fun _ _ => False))| |done]. intros [] g3. apply HQ.
Qed.

Lemma with_ref_spec {A} g mk (body : nat -> M (global W) A) Q :
  ctx_ok X g -> tame_at g mk (fresh_local g) ->
  (forall r g, ctx_ok X g -> local_ref g r -> tame_at g (body r) (Q g r)) ->
  tame_at g (with_ref mk body)
    (fun a g3 => exists r g1 g2, good X g g1 /\ fresh_local g r g1 /\ good X g1 g2 /\ Q g1 r a g2 /\ removed r g2 g3).
Proof.
  intros Hok Hmk Hbody. apply wp_with_ref. eapply wp_mono; [by apply Hmk| |done].
  intros r g1 [Hg1 Hfr]. eapply wp_mono; [apply Hbody; [apply Hg1|apply Hfr]| |].
  - intros a g2 [Hg2 HQ]. destruct (fr_local _ _ (proj2 Hg2) r (proj1 Hfr)) as [Hex Hns]. split_and!; [apply Hg2|done|].
    intros g3 Hrem. split; [|by exists r, g1, g2]. eapply removed_good; [apply Hok| | |exact Hns|done]; [by eapply good_trans|apply Hfr].
  - intros e g2 Hg2. destruct (fr_local _ _ (proj2 Hg2) r (proj1 Hfr)) as [Hex Hns]. split_and!; [apply Hg2|done|].
    intros g3 Hrem. eapply removed_good; [apply Hok| | |exact Hns|done]; [by eapply good_trans|apply Hfr].
Qed.

(** The same when nothing is said of the result. *)
Lemma with_ref_tame {A} g mk (body : nat -> M (global W) A) :
  ctx_ok X g -> tame_at g mk (fresh_local g) ->
  (forall r g, ctx_ok X g -> local_ref g r -> tame_at g (body r) (fun _ _ => True)) ->
  tame_at g (with_ref mk body) (fun _ _ => True).
Proof.
  intros Hok Hmk Hbody. eapply wp_mono; [by apply (with_ref_spec g mk body (fun _ _ _ _ => True))| |done]. by intros ? ? [? _].
Qed.

(** A reference made inside a block with a temporary one. *)
Lemma fresh_through g g1 g2 g3 r r' :
  ctx_ok X g1 -> good X g g1 -> local_ref g1 r -> fresh_local g1 r' g2 -> removed r g2 g3 -> fresh_local g r' g3.
Proof.
  intros Hok1 [_ F1] Hl [Hl' Hn] Hrem. pose proof (local_lt _ _ (ok_store _ _ Hok1) Hl). split.
  - eapply removed_local; [done..|lia].
  - pose proof (fr_next _ _ F1). lia.
Qed.

(** ... and when the result is a new reference. *)
Lemma with_ref_fresh g mk (body : nat -> M (global W) nat) :
  ctx_ok X g -> tame_at g mk (fresh_local g) ->
  (forall r g, ctx_ok X g -> local_ref g r -> tame_at g (body r) (fresh_local g)) ->
  tame_at g (with_ref mk body) (fresh_local g).
Proof.
  intros Hok Hmk Hbody. eapply wp_mono; [by apply (with_ref_spec g mk body (fun g _ => fresh_local g))| |done].
  intros r' g3 (Hg3 & r & g1 & g2 & Hg1 & Hfr & Hg2 & Hf2 & Hrem). split; [done|].
  eapply fresh_through; [apply Hg1|exact Hg1|apply Hfr|exact Hf2|exact Hrem].
Qed.

Lemma tame_bind_at {A B} g (m : M (global W) A) (f : A -> M (global W) B) Q (Q' : B -> global W -> Prop) :
  tame_at g m Q ->
  (forall a g', good X g g' -> Q a g' -> tame_at g' (f a) Q') ->
  tame_at g (m ≫= f) Q'.
Proof.
  intros Hm Hf. apply wp_bind. eapply wp_mono; [by apply Hm| |done]. intros a g' [Hg HQ].
  eapply wp_mono; [by apply Hf|..]; [intros ? ? [? ?]; split; [|done]|intros]; by eapply good_trans.
Qed.

Lemma tame_ret_at {A} g (a : A) (Q : A -> global W -> Prop) : ctx_ok X g -> Q a g -> tame_at g (mret a) Q.
Proof. intros Hok HQ. split; [by apply good_refl|done]. Qed.

Lemma tame_throw_at {A} g e (Q : A -> global W -> Prop) : ctx_ok X g -> tame_at g (throw e) Q.
Proof. intros Hok. by apply good_refl. Qed.

Lemma tame_lift_at {A} g (o : outcome A) (Q : A -> global W -> Prop) :
  ctx_ok X g -> (forall a, o = Ret a -> Q a g) -> (o = Crash -> C) -> tame_at g (lift o) Q.
Proof. intros Hok HQ Hc. apply wp_lift; [|by intros; apply good_refl|done]. intros a Ha. split; [by apply good_refl|auto]. Qed.

Lemma tame_mono_at {A} g (m : M (global W) A) (Q Q' : A -> global W -> Prop) :
  tame_at g m Q -> (forall a g', good X g g' -> Q a g' -> Q' a g') -> tame_at g m Q'.
Proof. intros Hm HQ. eapply wp_mono; [exact Hm| |done]. intros a g' [? ?]. auto. Qed.

Lemma tame_catch_at {A} g (m : M (global W) A) h Q :
  tame_at g m Q -> (forall e g', good X g g' -> tame_at g' (h e) Q) ->
  tame_at g (catch m h) Q.
Proof.
  intros Hm Hh. apply wp_catch. eapply wp_mono; [exact Hm|done|]. intros e g' Hg.
  eapply wp_mono; [by apply (Hh e g')| |].
  - intros a g'' [Hg' HQ]. split; [exact (good_trans X _ _ _ Hg Hg')|done].
  - intros e' g'' Hg'. exact (good_trans X _ _ _ Hg Hg').
Qed.

Lemma tame_in_context_at {A} g msg (m : M (global W) A) Q : tame_at g m Q -> tame_at g (in_context msg m) Q.
Proof. intros Hm. apply wp_in_context. eapply wp_mono; [exact Hm|done|done]. Qed.

Lemma tame_iter_at {A B} (f : A -> B -> M (global W) B) l (I : B -> global W -> Prop) :
  (forall x b g, x ∈ l -> ctx_ok X g -> I b g -> tame_at g (f x b) I) ->
  forall b g, ctx_ok X g -> I b g -> tame_at g (iter f l b) I.
Proof.
  induction l as [|x l IH]; intros Hf b g Hok HI; simpl; [by apply tame_ret_at|].
  eapply tame_bind_at; [apply Hf; [by apply list_elem_of_here|done..]|]. intros b' g' Hg HI'. apply IH; [|apply Hg|done].
  intros y b2 g2 Hy. apply Hf. by apply list_elem_of_further.
Qed.

End references.

#[export] Hint Resolve good_refl : pdi.
