(* ===== verification/DescriptorInv.v ===== *)
(** The operations on descriptors keep the invariant of the context, whatever
    well-behaved plugins do when they are notified. *)

From S2P Require Import Prelude Error Effect ExprSyntax Datatype Layout Memory DenseCopy DenseCopyFacts Access Ref RefInv RefOps RefTheorems RefCopy Template GlobalContext ContextInv.

(** What the library relies on: a plugin that is called keeps the invariant of
    the context, leaves alone the references that are not its own, and removes
    neither shared data nor callbacks that are not its own. *)
Class Plugins (W : Type) {P : Platform W} : Prop := {
  invoke_ok : forall h name arg g,
    ctx_ok None g -> (forall r, arg = Some r -> local_ref g r) -> tame_at None False g (invoke h name arg) (fun _ _ => True)
}.

Section descriptors.
  Context {W : Type} {P : Platform W} {PL : Plugins W} (C : Prop).

Implicit Types g : global W.

(** * Notifications *)

Lemma call_spec g k name r c :
  ctx_ok None g -> registered k c.1 g = true -> (forall x, r = Some x -> local_ref g x) ->
  tame_at None C g (call k name r c) (fun _ _ => True).
Proof.
  intros Hok Hreg Hr. unfold call. apply wp_bind. cbn. apply wp_bind, wp_assert; [congruence|intros _].
  destruct r as [r|].
  - apply with_ref_tame; [done|apply ref_copy_spec; [done|by apply Hr]|]. intros arg g' Hok' Hl.
    eapply wp_crash; [apply invoke_ok; [done|]|done]. by intros x [= <-].
  - eapply wp_crash; [by apply invoke_ok|done].
Qed.

Lemma gather_registered g k name c : c ∈ gather name (m_callbacks g k) -> registered k c.1 g = true.
Proof.
  unfold gather, registered. intros [H|H]%elem_of_app; apply bool_decide_eq_true_2, elem_of_app.
  - left. apply list_elem_of_fmap in H as ([[it n] h] & -> & H). apply list_elem_of_filter in H as [_ H].
    apply list_elem_of_fmap. by exists (it, n, h).
  - right. apply list_elem_of_fmap. by exists c.
Qed.

Lemma call_all_spec g k name r cs :
  ctx_ok None g -> (forall c, c ∈ cs -> registered k c.1 g = true) -> (forall x, r = Some x -> local_ref g x) ->
  tame_at None C g (call_all k name r cs) (fun _ _ => True).
Proof.
  intros Hok Hreg Hr. unfold call_all. eapply tame_mono_at; [|done].
  apply (tame_iter_at None C _ cs (fun _ g' => framed g g')); [|done|done].
  intros c errors g' Hc Hok' Hf. apply tame_catch_at.
  - eapply tame_bind_at; [apply call_spec; [done|by eapply fr_callbacks, Hreg|]|].
    + intros x ->. eapply fr_local; [exact Hf|by apply Hr].
    + intros [] g'' Hg _. apply tame_ret_at; [apply Hg|]. etrans; [exact Hf|apply Hg].
  - intros e g'' Hg. apply tame_ret_at; [apply Hg|]. etrans; [exact Hf|apply Hg].
Qed.

Lemma notify_named_spec g k msg name r :
  ctx_ok None g -> (forall x, r = Some x -> local_ref g x) -> tame_at None C g (notify_named k msg name r) (fun _ _ => True).
Proof.
  intros Hok Hr. unfold notify_named. apply wp_bind. cbn.
  eapply tame_bind_at; [apply call_all_spec; [done| |done]; intros c; apply gather_registered|].
  intros errors g' Hg _. apply tame_lift_at; [apply Hg|done|]. intros Hc. by destruct errors as [|? [|]].
Qed.

(** * Descriptors *)

Lemma desc_spec g name X :
  ctx_ok X g -> tame_at X C g (desc name) (fun _ g' => is_Some (m_descriptors g' !! name) /\ g_store g' = g_store g).
Proof.
  intros Hok. unfold tame_at, wp, desc. destruct (m_descriptors g !! name) as [d|] eqn:Hd.
  { split; [by apply good_refl|]. by rewrite Hd. }
  split; [|by simpl; rewrite lookup_insert_eq].
  destruct Hok as [Hinv Hh Ho Hdj Hm].
  assert (Hold : forall n d r, <[name := empty_descriptor]> (m_descriptors g) !! n = Some d -> r ∈ m_refs d -> m_descriptors g !! n = Some d).
  { intros n d r [[<- <-]|[_ Hn]]%lookup_insert_Some Hr; [by apply not_elem_of_nil in Hr|done]. }
  assert (Hstack : forall r, on_stack (set_descriptors (<[name := empty_descriptor]> (m_descriptors g)) g) r -> on_stack g r).
  { intros r (n & d & Hn & Hr). exists n, d. split; [|done]. by eapply Hold. }
  split; split; simpl; try done.
  - intros n d r Hn Hr. eapply Hh; [|done]. by eapply Hold.
  - intros n d [[<- <-]|[_ Hn]]%lookup_insert_Some; [constructor|by eapply Ho].
  - intros n n' d d' r Hn Hn' Hr Hr'. eapply Hdj; [by eapply Hold|by eapply (Hold n')|done|done].
  - intros n d HX [[<- <-]|[_ Hn]]%lookup_insert_Some; [done|by eapply Hm].
  - intros r [He Hs]. split; [done|]. intros Hs'. by apply Hs, Hstack.
  - intros r x Hr _. by exists x.
  - intros n d Hn. exists d. split; [|done]. rewrite lookup_insert_ne; [done|congruence].
Qed.

(** Changing a descriptor without touching its stack. *)
Lemma set_desc_ok g X name d d' :
  ctx_ok X g -> m_descriptors g !! name = Some d -> m_refs d' = m_refs d -> m_metadata d' = m_metadata d ->
  good X g (set_descriptors (<[name := d']> (m_descriptors g)) g).
Proof.
  intros [Hinv Hh Ho Hdj Hm] Hd Hrefs Hmeta.
  assert (Hold : forall n x, <[name := d']> (m_descriptors g) !! n = Some x ->
            exists y, m_descriptors g !! n = Some y /\ m_refs x = m_refs y /\ m_metadata x = m_metadata y).
  { intros n x [[<- <-]|[_ Hn]]%lookup_insert_Some; [by exists d|by exists x]. }
  split; split; simpl; try done.
  - intros n x r Hn Hr. destruct (Hold n x Hn) as (y & Hy & Hyr & _). rewrite Hyr in Hr. by eapply Hh.
  - intros n x Hn. destruct (Hold n x Hn) as (y & Hy & -> & _). by eapply Ho.
  - intros n n' x x' r Hn Hn' Hr Hr'. destruct (Hold n x Hn) as (y & Hy & Hyr & _), (Hold n' x' Hn') as (y' & Hy' & Hyr' & _).
    rewrite Hyr in Hr. rewrite Hyr' in Hr'. by eapply Hdj.
  - intros n x HX Hn Hmx. destruct (Hold n x Hn) as (y & Hy & Hyr & Hym). rewrite Hyr. eapply Hm; [done..|congruence].
  - intros r [He Hs]. split; [done|]. intros (n & x & Hn & Hr). apply Hs. destruct (Hold n x Hn) as (y & Hy & Hyr & _).
    exists n, y. by rewrite <- Hyr.
  - intros r x Hr _. by exists x.
  - intros n x Hn. destruct (decide (n = name)) as [->|].
    + exists d'. rewrite lookup_insert_eq. simplify_eq. by rewrite Hrefs.
    + exists x. by rewrite lookup_insert_ne.
Qed.

(** ** Stacks *)

Lemma ctx_ok_weaken g name : ctx_ok None g -> ctx_ok (Some name) g.
Proof. intros [? ? ? ? Hm]. split; try done. intros n d _. by apply Hm. Qed.

Lemma push_ok g name d h t m :
  ctx_ok (Some name) g -> m_descriptors g !! name = Some d -> local_ref g h ->
  ctx_ok None (set_descriptors (<[name := mkDescriptor t m (h :: m_refs d)]> (m_descriptors g)) g).
Proof.
  intros [Hinv Hh Ho Hdj Hm] Hd [He Hs].
  assert (Hold : forall n x r, <[name := mkDescriptor t m (h :: m_refs d)]> (m_descriptors g) !! n = Some x -> r ∈ m_refs x ->
            (n = name /\ r = h) \/ exists y, m_descriptors g !! n = Some y /\ r ∈ m_refs y).
  { intros n x r [[<- <-]|[_ Hn]]%lookup_insert_Some Hr; [|right; by exists x]. simpl in Hr.
    apply elem_of_cons in Hr as [->|Hr]; [by left|right; by exists d]. }
  assert (Hnot : forall n y, m_descriptors g !! n = Some y -> h ∉ m_refs y) by (intros n y Hy Hr; apply Hs; by exists n, y).
  split; simpl; try done.
  - intros n x r Hn Hr. destruct (Hold n x r Hn Hr) as [[_ ->]|(y & Hy & Hry)]; [done|by eapply Hh].
  - intros n x [[<- <-]|[_ Hn]]%lookup_insert_Some; simpl; [|by eapply Ho]. apply list.NoDup_cons. split; [by eapply Hnot|by eapply Ho].
  - intros n n' x x' r Hn Hn' Hr Hr'.
    destruct (Hold n x r Hn Hr) as [[-> ->]|(y & Hy & Hry)], (Hold n' x' _ Hn' Hr') as [[-> Heq]|(y' & Hy' & Hry')]; try done.
    + exfalso. by eapply Hnot.
    + exfalso. subst r. by eapply Hnot.
    + by eapply Hdj.
  - intros n x _ [[<- <-]|[Hne Hn]]%lookup_insert_Some; [done|]. apply (Hm n x); [congruence|done].
Qed.

Lemma push_framed g0 g name d h t :
  inv (g_store g0) -> framed g0 g -> m_descriptors g !! name = Some d -> (next (g_store g0) <= h)%nat ->
  framed g0 (set_descriptors (<[name := mkDescriptor t (m_metadata d) (h :: m_refs d)]> (m_descriptors g)) g).
Proof.
  intros Hinv [Hn Hl Hr Hs Hc] Hd Hh. split; simpl; try done.
  - intros r Hlr. pose proof (local_lt _ _ Hinv Hlr). destruct (Hl r Hlr) as [He Hns]. split; [done|].
    intros (n & x & Hx & Hrx). simpl in Hx. apply lookup_insert_Some in Hx as [[<- <-]|[_ Hx]]; simpl in *.
    + apply elem_of_cons in Hrx as [->|Hrx]; [lia|]. apply Hns. by exists name, d.
    + apply Hns. by exists n, x.
  - intros n x Hx. destruct (Hs n x Hx) as (x' & Hx' & Hlen & Hm). destruct (decide (n = name)) as [->|].
    + rewrite lookup_insert_eq. eexists. split; [done|]. simplify_eq. simpl. split; [lia|done].
    + exists x'. by rewrite lookup_insert_ne.
Qed.

(** [hold] puts a new holder on the stack. *)
Definition held (name : string) (d : Descriptor) (g g' : global W) : Prop :=
  exists h, m_descriptors g' = <[name := mkDescriptor (m_type d) (m_metadata d) (h :: m_refs d)]> (m_descriptors g).

Lemma hold_spec g name d R V r E :
  ctx_ok (Some name) g -> m_descriptors g !! name = Some d -> exists_ref g r ->
  wp C (hold name R V r) (fun _ g' => good None g g' /\ held name d g g') E g.
Proof.
  intros Hok Hd Hr. apply wp_with_ref. eapply wp_mono; [by apply (ref_copy_exact (Some name) C _ _ _ _ (fun _ _ => False))| |done].
  intros t g1 (Hg1 & [Ht Htn] & Hs1). apply wp_bind.
  eapply wp_mono; [apply (ref_copy_exact (Some name) C _ _ _ _ (fun _ _ => False)); [apply Hg1|apply Ht]| |done].
  intros h g2 (Hg2 & [Hh Hhn] & Hs2).
  assert (Hd2 : m_descriptors g2 = m_descriptors g) by (rewrite Hs2, Hs1; done).
  assert (Hd2' : m_descriptors g2 !! name = Some d) by (by rewrite Hd2).
  assert (Hf2 : framed g g2) by (etrans; [apply Hg1|apply Hg2]).
  pose proof (fr_next _ _ (proj2 Hg1)) as Hn1.
  assert (Hpush : wp C (push name h) (fun _ g3 => g3 = set_descriptors (<[name := mkDescriptor (m_type d) (m_metadata d) (h :: m_refs d)]> (m_descriptors g2)) g2)
                    (fun _ _ => False) g2).
  { unfold wp, push, get_desc, set_desc, modify, mbind, M_bind. by rewrite Hd2'. }
  eapply wp_mono; [exact Hpush| |done]. intros [] g3 ->.
  assert (Hok3 := push_ok g2 name d h (m_type d) (m_metadata d) (proj1 Hg2) Hd2' Hh).
  assert (Hf3 := push_framed g g2 name d h (m_type d) (ok_store _ _ Hok) Hf2 Hd2' ltac:(lia)).
  destruct (fr_local _ _ (proj2 Hg2) t Ht) as [Het Hnt].
  split_and!; [apply Hok3|done|]. intros g4 Hrem. split.
  - eapply removed_good; [apply Hok|by split|exact Htn| |exact Hrem]. intros (n & x & Hx & Hrx). simpl in Hx.
    apply lookup_insert_Some in Hx as [[<- <-]|[_ Hx]]; simpl in Hrx.
    + apply elem_of_cons in Hrx as [->|Hrx]; [|apply Hnt; by exists name, d]. pose proof (local_lt _ _ (ok_store _ _ (proj1 Hg1)) Ht). lia.
    + apply Hnt. by exists n, x.
  - exists h. destruct Hrem as (st' & -> & _). simpl. by rewrite Hd2.
Qed.

(** [pop] removes the top of the stack. *)
Definition popped (name : string) (d : Descriptor) (r : nat) (rs : list nat) (g g' : global W) : Prop :=
  exists st', g' = set_store st' (set_descriptors (<[name := mkDescriptor (m_type d) (m_metadata d) rs]> (m_descriptors g)) g) /\
    inv st' /\ refs st' = delete r (refs (g_store g)) /\ next st' = next (g_store g).

Lemma pop_spec g X name d r rs E :
  ctx_ok X g -> m_descriptors g !! name = Some d -> m_refs d = r :: rs ->
  wp C (pop name) (fun _ g' => popped name d r rs g g') E g.
Proof.
  intros Hok Hd Hr. unfold pop. apply wp_bind. unfold wp at 1, get_desc. rewrite Hd. rewrite Hr. cbn.
  unfold wp, set_desc, modify, mbind, M_bind, ref_destroy, unit_store, on_store, zoom. cbn.
  destruct (ok_held _ _ Hok name d r Hd ltac:(rewrite Hr; apply list_elem_of_here)) as [x Hx].
  destruct (delete_ref_ok (g_store g) r x (ok_store _ _ Hok) Hx) as (st' & -> & Hst & Hrefs & Hn & _).
  destruct (Hst (ok_store _ _ Hok)) as [Hinv' _]. by exists st'.
Qed.

Lemma popped_ok g g' X name d r rs :
  ctx_ok X g -> m_descriptors g !! name = Some d -> m_refs d = r :: rs -> popped name d r rs g g' ->
  ((X = Some name) \/ m_metadata d = false \/ rs <> []) -> ctx_ok X g'.
Proof.
  intros [Hinv Hh Ho Hdj Hm] Hd Hr (st' & -> & Hinv' & Hrefs & Hn) Hmeta.
  assert (Hnd : (r ∉ rs) /\ NoDup rs) by (pose proof (Ho name d Hd) as Hnd; rewrite Hr in Hnd; by apply list.NoDup_cons in Hnd).
  assert (Hold : forall n x r', <[name := mkDescriptor (m_type d) (m_metadata d) rs]> (m_descriptors g) !! n = Some x -> r' ∈ m_refs x ->
            r' <> r /\ exists y, m_descriptors g !! n = Some y /\ r' ∈ m_refs y).
  { intros n x r' [[<- <-]|[Hne Hx]]%lookup_insert_Some Hr'; simpl in *.
    - split; [intros ->; by apply Hnd|]. exists d. split; [done|]. rewrite Hr. by apply list_elem_of_further.
    - split; [|by exists x]. intros ->. apply Hne. eapply Hdj; [exact Hd|exact Hx|rewrite Hr; apply list_elem_of_here|done]. }
  split; simpl; try done.
  - intros n x r' Hx Hr'. destruct (Hold n x r' Hx Hr') as (Hne & y & Hy & Hry). unfold exists_ref; simpl.
    rewrite Hrefs, lookup_delete_ne by done. by eapply Hh.
  - intros n x [[<- <-]|[_ Hx]]%lookup_insert_Some; [apply Hnd|by eapply Ho].
  - intros n n' x x' r' Hx Hx' Hr1 Hr2. destruct (Hold n x r' Hx Hr1) as (_ & y & Hy & Hry), (Hold n' x' r' Hx' Hr2) as (_ & y' & Hy' & Hry').
    by eapply Hdj.
  - intros n x HX [[<- <-]|[_ Hx]]%lookup_insert_Some Hmx; simpl in *; [|by eapply Hm]. destruct Hmeta as [?|[?|?]]; congruence.
Qed.

Lemma popped_framed g0 g g' name d r rs :
  framed g0 g -> m_descriptors g !! name = Some d -> m_refs d = r :: rs -> popped name d r rs g g' ->
  (forall d0, m_descriptors g0 !! name = Some d0 -> (length (m_refs d0) <= length rs)%nat) -> framed g0 g'.
Proof.
  intros [Hn Hl Hr Hs Hc] Hd Hrs (st' & -> & Hinv' & Hrefs & Hn') Hlen.
  assert (Htop : on_stack g r) by (exists name, d; split; [done|]; rewrite Hrs; apply list_elem_of_here).
  assert (Hne : forall r', local_ref g0 r' -> r' <> r) by (intros r' Hlr ->; by destruct (Hl r Hlr)).
  split; simpl; try done.
  - by rewrite Hn'.
  - intros r' Hlr. destruct (Hl r' Hlr) as [He Hns]. split.
    + unfold exists_ref; simpl. rewrite Hrefs, lookup_delete_ne; [done|]. by apply not_eq_sym, Hne.
    + intros (n & x & Hx & Hrx). simpl in Hx. apply lookup_insert_Some in Hx as [[<- <-]|[_ Hx]]; apply Hns; simpl in *.
      * exists name, d. split; [done|]. rewrite Hrs. by apply list_elem_of_further.
      * by exists n, x.
  - intros r' x Hx Hlr. rewrite Hrefs, lookup_delete_ne by (by apply not_eq_sym, Hne). by apply Hr.
  - intros n x Hx. destruct (Hs n x Hx) as (x' & Hx' & Hl' & Hm'). destruct (decide (n = name)) as [->|].
    + rewrite lookup_insert_eq. eexists. split; [done|]. simpl. split; [by apply Hlen|]. simplify_eq. done.
    + exists x'. by rewrite lookup_insert_ne.
Qed.

(** ** Accessing a descriptor *)

Lemma wp_get_desc {A} g name d (f : Descriptor -> M (global W) A) Q E :
  m_descriptors g !! name = Some d -> wp C (f d) Q E g -> wp C (get_desc name ≫= f) Q E g.
Proof. intros Hd Hf. unfold wp, mbind, M_bind, get_desc in *. by rewrite Hd. Qed.

Lemma ok_has_placeholder g name d : ctx_ok None g -> m_descriptors g !! name = Some d -> has_placeholder d = true.
Proof.
  intros Hok Hd. unfold has_placeholder. pose proof (ok_metadata _ _ Hok name d ltac:(done) Hd) as Hm.
  destruct (m_metadata d); [|done]. by rewrite bool_decide_eq_false_2 by auto.
Qed.

Lemma wp_assert_placeholder {A} g name d (m : M (global W) A) Q E :
  ctx_ok None g -> m_descriptors g !! name = Some d -> wp C m Q E g -> wp C (assert_placeholder name;; m) Q E g.
Proof.
  intros Hok Hd Hm. unfold assert_placeholder, wp, mbind, M_bind, get_desc in *. rewrite Hd.
  by rewrite (ok_has_placeholder g name d).
Qed.

Lemma framed_desc g g' name d :
  framed g g' -> m_descriptors g !! name = Some d ->
  exists d', m_descriptors g' !! name = Some d' /\ (length (m_refs d) <= length (m_refs d'))%nat.
Proof. intros Hf Hd. destruct (fr_stacks _ _ Hf name d Hd) as (d' & ? & ? & _). by exists d'. Qed.

Lemma ref_spec g name d :
  ctx_ok None g -> m_descriptors g !! name = Some d -> tame_at None C g (ref name) (fresh_local g).
Proof.
  intros Hok Hd. eapply wp_assert_placeholder; [done..|]. eapply wp_get_desc; [done|].
  apply (tame_bind_at None C g _ _ (fun _ g' => exists d', m_descriptors g' !! name = Some d' /\ m_refs d' <> [])).
  - case_bool_decide as Hnil.
    + eapply tame_bind_at; [by apply notify_named_spec|]. intros [] g' Hg _. cbn.
      destruct (framed_desc g g' name d (proj2 Hg) Hd) as (d' & Hd' & _). eapply wp_get_desc; [done|].
      case_bool_decide; [apply tame_throw_at, Hg|]. apply tame_ret_at; [apply Hg|by exists d'].
    + apply tame_ret_at; [done|by exists d].
  - intros [] g' Hg (d' & Hd' & Hne). cbn. eapply wp_assert_placeholder; [apply Hg|done|]. eapply wp_get_desc; [done|].
    destruct (m_refs d') as [|top rs] eqn:Hrs; [done|].
    eapply wp_mono; [apply (ref_copy_exact None C g' _ _ _ (fun _ _ => False)); [apply Hg|]| |done].
    { eapply (ok_held _ _ (proj1 Hg)); [done|]. rewrite Hrs. apply list_elem_of_here. }
    intros r g'' (Hg'' & [Hl Hn] & _). split; [done|]. split; [done|]. pose proof (fr_next _ _ (proj2 Hg)). lia.
Qed.

Lemma ref_get_nothrow_spec g r :
  ctx_ok None g -> exists_ref g r -> tame_at None C g (ref_get_nothrow r) (fun _ _ => True).
Proof.
  intros Hok [x Hr]. unfold tame_at, wp, ref_get_nothrow, on_store, zoom, get_nothrow. pose proof (ok_store _ _ Hok) as Hinv.
  destruct (is_null_ok (g_store g) r x Hinv Hr) as (n & st' & -> & Hst & Hn & Hres). destruct (Hst Hinv) as [Hinv' _].
  cbn [mbind outcome_bind]. destruct n.
  - split; [|done]. apply store_step_good; [done..| |lia]. by eapply keeps_set_content.
  - destruct Hres as (-> & dd & y & b & (_ & Hc & Hd & Hb) & _). rewrite Hr. cbn [deref mbind outcome_bind].
    rewrite Hc. cbn [deref mbind outcome_bind]. rewrite Hd. cbn [deref mbind outcome_bind]. split; [|done].
    by apply store_step_good.
Qed.

(** ** Sharing *)

(** The failing paths of [share]: what was pushed is popped. *)
Lemma pop_and_throw {A} g g1 name d d1 e (Q : A -> global W -> Prop) :
  ctx_ok None g -> good None g g1 -> m_descriptors g !! name = Some d -> m_descriptors g1 !! name = Some d1 ->
  (length (m_refs d) < length (m_refs d1))%nat -> m_metadata d1 = m_metadata d ->
  wp C (pop name;; throw e) Q (fun _ g' => good None g g') g1.
Proof.
  intros Hok [Hok1 Hf1] Hd Hd1 Hlen Hm1. pose proof (ok_metadata _ _ Hok name d ltac:(done) Hd) as Hm. destruct (m_refs d1) as [|r rs] eqn:Hrs; simpl in Hlen; [lia|].
  apply wp_bind. eapply wp_mono; [apply (pop_spec g1 None name d1 r rs (fun _ _ => False) Hok1 Hd1 Hrs)| |done].
  intros [] g' Hp. cbn. split.
  - eapply popped_ok; [exact Hok1|exact Hd1|exact Hrs|exact Hp|]. right. rewrite Hm1. destruct (m_metadata d); [|by left]. right.
    intros ->. specialize (Hm eq_refl). simpl in Hlen. destruct (m_refs d); simpl in *; [done|lia].
  - eapply popped_framed; [exact Hf1|exact Hd1|exact Hrs|exact Hp|]. intros d0 Hd0. simplify_eq. lia.
Qed.

Lemma share_ref_spec g name d data_ref read write :
  ctx_ok None g -> m_descriptors g !! name = Some d -> local_ref g data_ref ->
  tame_at None C g (share_ref name data_ref read write)
    (fun _ g' => exists d', m_descriptors g' !! name = Some d' /\ (length (m_refs d) < length (m_refs d'))%nat).
Proof.
  intros Hok Hd Hl. apply tame_in_context_at. eapply wp_assert_placeholder; [done..|]. eapply wp_get_desc; [done|].
  (* the metadata check *)
  eapply (tame_bind_at None C g _ _ (fun _ _ => True)).
  { destruct (m_metadata d); [|by apply tame_ret_at]. eapply (tame_bind_at None C g _ _ (fun _ _ => True)).
    - apply with_ref_tame; [done|by apply ref_copy_spec; [|apply Hl]|]. intros r g' Hok' Hl'. apply ref_is_null_spec; [done|apply Hl'].
    - intros [] g' Hg _; [apply tame_throw_at|apply tame_ret_at]; try done; apply Hg. }
  intros [] g1 Hg1 _. cbn.
  (* the result *)
  eapply (tame_bind_at None C g1 _ _ (fun _ _ => True)).
  { destruct (read || write); [|apply tame_ret_at; [apply Hg1|done]].
    apply with_ref_tame; [apply Hg1|apply ref_copy_spec; [apply Hg1|by apply (fr_local _ _ (proj2 Hg1))]|].
    intros r g' Hok' Hl'. apply ref_get_nothrow_spec; [done|apply Hl']. }
  intros result g2 Hg2 _.
  assert (Hg02 : good None g g2) by (by eapply good_trans).
  destruct (fr_stacks _ _ (proj2 Hg02) name d Hd) as (d2 & Hd2 & Hlen2 & Hm2).
  assert (Hl2 := fr_local _ _ (proj2 Hg02) data_ref Hl).
  (* the holder *)
  apply wp_bind. eapply wp_mono; [apply (hold_spec g2 name d2 read write data_ref (fun _ _ => False)); [|done|apply Hl2]| |done].
  { apply ctx_ok_weaken, Hg2. }
  intros [] g3 (Hg3 & h & Hds3). cbn.
  set (d3 := mkDescriptor (m_type d2) (m_metadata d2) (h :: m_refs d2)) in *.
  assert (Hd3 : m_descriptors g3 !! name = Some d3) by (by rewrite Hds3, lookup_insert_eq).
  assert (Hl3 := fr_local _ _ (proj2 Hg3) data_ref Hl2).
  assert (Hafter : forall g4, good None g3 g4 ->
            good None g2 g4 /\ exists d4, m_descriptors g4 !! name = Some d4 /\ (length (m_refs d2) < length (m_refs d4))%nat /\ m_metadata d4 = m_metadata d2).
  { intros g4 Hg4. split; [by eapply good_trans|]. destruct (fr_stacks _ _ (proj2 Hg4) name d3 Hd3) as (d4 & Hd4 & Hl4 & Hm4).
    exists d4. simpl in *. split_and!; [done|lia|by apply Hm4]. }
  assert (Hfail : forall (A : Type) g4 e (Q : A -> global W -> Prop), good None g3 g4 ->
            wp C (pop name;; throw e) Q (fun _ g' => good None g2 g') g4).
  { intros A g4 e Q Hg4. destruct (Hafter g4 Hg4) as (Hg24 & d4 & Hd4 & Hl4 & Hm4). eapply pop_and_throw; [apply Hg2|done..]. }
  apply wp_bind. eapply wp_mono; [apply (ref_is_null_spec None C g3 data_ref); [apply Hg3|apply Hl3]| |].
  2: { intros e g' Hg'. by apply Hafter. }
  intros n g4 [Hg4 _]. cbn.
  (* the rights *)
  apply wp_bind. eapply (wp_mono C _ (fun _ g' => good None g3 g') _ (fun _ g' => good None g2 g')); [| |done].
  { destruct n; [by apply wp_ret|]. apply wp_bind. destruct (framed_desc g3 g4 name d3 (proj2 Hg4) Hd3) as (d4 & Hd4 & _).
    eapply wp_mono; [apply (with_ref_tame None C g4 (ref name) ref_is_null); [apply Hg4|by eapply ref_spec, Hd4; apply Hg4|]| |].
    - intros r g' Hok' Hl'. apply ref_is_null_spec; [done|apply Hl'].
    - intros n' g5 [Hg5 _]. assert (Hg35 : good None g3 g5) by by eapply good_trans.
      destruct n'; [by apply Hfail|by apply wp_ret].
    - intros e g5 Hg5. apply Hafter. by eapply good_trans. }
  intros [] g5 Hg5. cbn.
  (* the notification *)
  destruct (framed_desc g3 g5 name d3 (proj2 Hg5) Hd3) as (d5 & Hd5 & _).
  apply wp_bind, wp_catch.
  eapply wp_mono; [apply (with_ref_tame None C g5 (ref name) (notify_data name)); [apply Hg5|by eapply ref_spec, Hd5; apply Hg5|]| |].
  - intros r g' Hok' Hl'. apply notify_named_spec; [done|]. by intros x [= <-].
  - intros [] g6 [Hg6 _]. assert (Hg36 : good None g3 g6) by by eapply good_trans.
    destruct (Hafter g6 Hg36) as (Hg26 & d6 & Hd6 & Hl6 & _).
    cbn. eapply wp_assert_placeholder; [apply Hg6|done|]. apply wp_ret. split; [done|]. exists d6. split; [done|lia].
  - intros e g6 Hg6. apply Hfail. by eapply good_trans.
Qed.

(** ** Removing *)

(** What an operation that shortens a stack keeps. *)
Record kept (g g' : global W) : Prop := {
  kp_next : (next (g_store g) <= next (g_store g'))%nat;
  kp_local : forall r, local_ref g r -> local_ref g' r;
  kp_desc : forall n, is_Some (m_descriptors g !! n) -> is_Some (m_descriptors g' !! n);
  kp_callbacks : forall k it, registered k it g = true -> registered k it g' = true
}.

Lemma framed_kept g g' : framed g g' -> kept g g'.
Proof. intros [Hn Hl _ Hs Hc]. split; try done. intros n [d Hd]. destruct (Hs n d Hd) as (d' & Hd' & _). by exists d'. Qed.

#[export] Instance kept_trans : Transitive kept.
Proof. intros g1 g2 g3 [N1 L1 D1 C1] [N2 L2 D2 C2]. split; [lia|auto..]. Qed.

Lemma popped_kept g g' X name d r rs :
  ctx_ok X g -> m_descriptors g !! name = Some d -> m_refs d = r :: rs -> popped name d r rs g g' -> kept g g'.
Proof.
  intros Hok Hd Hrs (st' & -> & Hinv' & Hrefs & Hn').
  assert (Htop : on_stack g r) by (exists name, d; split; [done|]; rewrite Hrs; apply list_elem_of_here).
  split; simpl; try done.
  - by rewrite Hn'.
  - intros r' [He Hns]. split.
    + unfold exists_ref; simpl. rewrite Hrefs, lookup_delete_ne; [done|]. by intros ->.
    + intros (n & x & Hx & Hrx). simpl in Hx. apply lookup_insert_Some in Hx as [[<- <-]|[_ Hx]]; apply Hns; simpl in *.
      * exists name, d. split; [done|]. rewrite Hrs. by apply list_elem_of_further.
      * by exists n, x.
  - intros n Hn. apply lookup_insert_is_Some'. by right.
Qed.

Lemma removed_kept g g' g'' r :
  inv (g_store g) -> kept g g' -> (next (g_store g) <= r)%nat -> removed r g' g'' -> kept g g''.
Proof.
  intros Hinv [Hn Hl Hd Hc] Hr Hrem. pose proof Hrem as (st' & -> & _ & _ & Hn'). split; simpl; try done; [by rewrite Hn'|].
  intros r' Hlr. pose proof (local_lt _ _ Hinv Hlr). eapply removed_local; [done|by apply Hl|lia].
Qed.

Lemma not_shared_false d : not_shared d = false -> m_refs d <> [] /\ (m_metadata d = true -> (2 <= length (m_refs d))%nat).
Proof.
  unfold not_shared. intros [H1 H2]%orb_false_iff. apply bool_decide_eq_false in H1. split; [done|]. intros Hm. rewrite Hm in H2.
  apply andb_false_iff in H2 as [H2|?]; [|done]. apply Nat.eqb_neq in H2. destruct (m_refs d) as [|? [|]]; simpl in *; [done|lia..].
Qed.

(** The guard and the notification that [release] and [reclaim] begin with. *)
Lemma removal_prefix {A} g name d msg (m : M (global W) A) Q (EE : global W -> Prop) :
  (forall g', ctx_ok None g' -> EE g') -> ctx_ok None g -> m_descriptors g !! name = Some d ->
  (forall g1 d1, good None g g1 -> m_descriptors g1 !! name = Some d1 -> m_refs d1 <> [] ->
     (m_metadata d1 = true -> (2 <= length (m_refs d1))%nat) -> m_metadata d1 = m_metadata d ->
     wp C m (fun a g' => ctx_ok None g' /\ kept g1 g' /\ Q a g') (fun _ g' => EE g' /\ kept g1 g') g1) ->
  wp C (assert_placeholder name;;
        d ← get_desc name;
        (if not_shared d then throw (State_error msg) else mret tt);;
        with_ref (ref name) (notify_data_remove name);; m)
    (fun a g' => ctx_ok None g' /\ kept g g' /\ Q a g') (fun _ g' => EE g' /\ kept g g') g.
Proof.
  intros HEE Hok Hd Hm. eapply wp_assert_placeholder; [done..|]. eapply wp_get_desc; [done|].
  destruct (not_shared d) eqn:Hns.
  { apply wp_throw. split; [by apply HEE|]. by apply framed_kept. }
  destruct (not_shared_false d Hns) as [Hne Hlen]. apply wp_bind, wp_ret, wp_bind.
  eapply wp_mono; [apply (with_ref_tame None C g (ref name) (notify_data_remove name)); [done|by eapply ref_spec|]| |].
  - intros r g' Hok' Hl'. apply notify_named_spec; [done|]. by intros x [= <-].
  - intros [] g1 [Hg1 _]. destruct (fr_stacks _ _ (proj2 Hg1) name d Hd) as (d1 & Hd1 & Hl1 & Hm1). specialize (Hm1 Hne). cbn.
    eapply wp_mono; [apply (Hm g1 d1); try done| |].
    + intros Hnil. rewrite Hnil in Hl1. destruct (m_refs d); simpl in *; [done|lia].
    + rewrite Hm1. intros Hmt. specialize (Hlen Hmt). lia.
    + intros a g' (Hok' & Hk & HQ). split_and!; [done| |done]. etrans; [apply framed_kept, Hg1|done].
    + intros e g' (Hok' & Hk). split; [done|]. etrans; [apply framed_kept, Hg1|done].
  - intros e g1 Hg1. split; [apply HEE, Hg1|apply framed_kept, Hg1].
Qed.

(** Popping the top, with what [make] puts in place of a lone placeholder. *)
Lemma pop_keep_spec {A} g name d make (k : M (global W) A) (Q : A -> global W -> Prop) (E : exn -> global W -> Prop) oldref :
  ctx_ok None g -> m_descriptors g !! name = Some d -> m_refs d <> [] -> local_ref g oldref ->
  (m_metadata d = true -> (2 <= length (m_refs d))%nat) ->
  (forall g1 d1, m_metadata d = true -> ctx_ok (Some name) g1 -> kept g g1 -> m_descriptors g1 !! name = Some d1 -> m_refs d1 = [] -> m_metadata d1 = true ->
     wp C make (fun _ g2 => ctx_ok None g2 /\ kept g1 g2) E g1) ->
  (forall g2, ctx_ok None g2 -> kept g g2 -> wp C k Q E g2) ->
  wp C (pop name;; keep_metadata name make;; k) Q E g.
Proof.
  intros Hok Hd Hne Hl Hlen Hmake Hk. destruct (m_refs d) as [|r rs] eqn:Hrs; [done|]. apply wp_bind.
  eapply wp_mono; [apply (pop_spec g None name d r rs (fun _ _ => False) Hok Hd Hrs)| |done]. intros [] g1 Hp. cbn.
  assert (Hok1 : ctx_ok None g1).
  { eapply popped_ok; [exact Hok|exact Hd|exact Hrs|exact Hp|]. right. destruct (m_metadata d); [|by left]. right. specialize (Hlen eq_refl).
    intros ->. simpl in Hlen. lia. }
  assert (Hk1 : kept g g1) by (eapply popped_kept; [exact Hok|exact Hd|exact Hrs|exact Hp]).
  set (d1 := mkDescriptor (m_type d) (m_metadata d) rs). assert (Hd1 : m_descriptors g1 !! name = Some d1).
  { destruct Hp as (st' & -> & _). simpl. by rewrite lookup_insert_eq. }
  apply wp_bind. eapply wp_get_desc; [exact Hd1|]. simpl m_metadata. destruct (m_metadata d && _) eqn:Hone; [|by apply wp_ret, Hk].
  apply andb_true_iff in Hone as [Hmeta Hone]. apply Nat.eqb_eq in Hone. simpl in Hone.
  destruct rs as [|r' [|]]; simpl in Hone; try lia. apply wp_bind.
  eapply wp_mono; [apply (pop_spec g1 (Some name) name d1 r' [] (fun _ _ => False)); [by apply ctx_ok_weaken|done..]| |done]. intros [] g2 Hp2.
  eapply wp_mono; [eapply (Hmake g2 (mkDescriptor (m_type d) (m_metadata d) [])); try done| |done].
  - eapply popped_ok; [by apply ctx_ok_weaken|exact Hd1|done|exact Hp2|by left].
  - etrans; [exact Hk1|]. eapply popped_kept; [exact Hok1|exact Hd1|done|exact Hp2].
  - destruct Hp2 as (st' & -> & _). simpl. by rewrite lookup_insert_eq.
  - intros [] g3 (Hok3 & Hk3). apply Hk; [done|]. etrans; [exact Hk1|]. etrans; [|exact Hk3].
    eapply popped_kept; [exact Hok1|exact Hd1|done|exact Hp2].
Qed.

(** [ref_release] keeps every reference. *)
Lemma ref_release_spec g r E :
  ctx_ok None g -> exists_ref g r -> wp C (ref_release r) (fun _ g' => good None g g') E g.
Proof.
  intros Hok [x Hr]. unfold wp, ref_release, on_store, zoom. pose proof (ok_store _ _ Hok) as Hinv.
  destruct (is_null_ok (g_store g) r x Hinv Hr) as (n & st' & Hnull & Hst & Hn & Hres). destruct (Hst Hinv) as [Hinv' _].
  destruct n.
  - unfold release. rewrite Hnull. cbn [mbind outcome_bind]. apply store_step_good; [done..| |lia]. by eapply keeps_set_content.
  - destruct Hres as (-> & d & dd & b & Hpt & Hnn). pose proof Hpt as (_ & Hc & Hd & Hb).
    destruct (release_ok notify begin begin_Some begin_None r (notification_count r (g_store g)) (g_store g) x d dd b)
      as (st' & -> & Hinv2 & Hev & _ & _ & _ & Hk); [apply all_quiet|done..| |].
    { unfold notification_count. rewrite Hr, Hc, Hd, Hb. done. }
    apply store_step_good; [done..|]. apply Hev.
Qed.

(** The reference that [release] and [reclaim] take out of the stack; [thr] is
    known when the block throws. *)
Lemma with_oldref {A} g name d (body : nat -> M (global W) A) (thr : Prop) :
  ctx_ok None g -> m_descriptors g !! name = Some d -> m_refs d <> [] -> (m_metadata d = true -> (2 <= length (m_refs d))%nat) ->
  (forall g1 d1 oldref, good None g g1 -> m_descriptors g1 !! name = Some d1 -> m_refs d1 <> [] -> local_ref g1 oldref ->
     (m_metadata d1 = true -> (2 <= length (m_refs d1))%nat) -> m_metadata d1 = m_metadata d ->
     wp C (body oldref) (fun _ g2 => ctx_ok None g2 /\ kept g1 g2) (fun _ g2 => (thr /\ ctx_ok (Some name) g2) /\ kept g1 g2) g1) ->
  wp C (with_ref (ref name) body) (fun _ g' => ctx_ok None g' /\ kept g g') (fun _ g' => ((thr /\ ctx_ok (Some name) g') \/ ctx_ok None g') /\ kept g g') g.
Proof.
  intros Hok Hd Hne Hlen Hbody. apply wp_with_ref. eapply wp_mono; [by eapply ref_spec| |].
  2: { intros e g' Hg. split; [right; apply Hg|apply framed_kept, Hg]. }
  intros oldref g1 [Hg1 [Hl Hn]]. destruct (fr_stacks _ _ (proj2 Hg1) name d Hd) as (d1 & Hd1 & Hl1 & Hm1). specialize (Hm1 Hne).
  assert (Hk1 : kept g g1) by apply framed_kept, Hg1.
  eapply wp_mono; [apply (Hbody g1 d1 oldref); try done| |].
  - intros Hnil. rewrite Hnil in Hl1. destruct (m_refs d); simpl in *; [done|lia].
  - rewrite Hm1. intros Hmt. specialize (Hlen Hmt). lia.
  - intros a g2 [Hok2 Hk2]. destruct (kp_local _ _ Hk2 oldref Hl) as [He Hns]. split_and!; [apply Hok2|done|].
    intros g3 Hrem. split; [by eapply removed_ok|]. eapply removed_kept; [apply Hok|by etrans|done|done].
  - intros e g2 ((Ht & Hok2) & Hk2). destruct (kp_local _ _ Hk2 oldref Hl) as [He Hns]. split_and!; [apply Hok2|done|].
    intros g3 Hrem. split; [left; split; [done|by eapply removed_ok]|]. eapply removed_kept; [apply Hok|by etrans|done|done].
Qed.

Lemma release_desc_spec g name d :
  ctx_ok None g -> m_descriptors g !! name = Some d ->
  wp C (release_desc name) (fun _ g' => ctx_ok None g' /\ kept g g') (fun _ g' => ctx_ok None g' /\ kept g g') g.
Proof.
  intros Hok Hd. apply wp_in_context.
  eapply wp_mono; [apply (removal_prefix g name d _ _ (fun _ _ => True) (fun g' => (False /\ ctx_ok (Some name) g') \/ ctx_ok None g')); [by right|done..|]| |].
  - intros g1 d1 Hg1 Hd1 Hne Hlen Hm. eapply wp_mono; [apply (with_oldref g1 name d1 _ False); [apply Hg1|done..|]| |].
    + intros g2 d2 oldref Hg2 Hd2 Hne2 Hl2 Hlen2 Hm2. eapply (pop_keep_spec g2 name d2 _ _ _ _ oldref); [apply Hg2|done..| |].
      * intros g3 d3 Hmd Hok3 Hk3 Hd3 Hnil Hm3.
        eapply wp_mono; [apply (hold_spec g3 name d3 true false oldref (fun _ _ => False)); [done|done|by apply (kp_local _ _ Hk3)]| |done].
        intros [] g4 [Hg4 _]. split; [apply Hg4|apply framed_kept, Hg4].
      * intros g3 Hok3 Hk3. destruct (kp_desc _ _ Hk3 name ltac:(by eexists)) as [d3 Hd3].
        unfold wp, assert_placeholder, mbind, M_bind, get_desc. rewrite Hd3. by rewrite (ok_has_placeholder g3 name d3).
    + by intros [] g' [? ?].
    + done.
  - intros [] g' (? & ? & _). done.
  - intros e g' [[[[] _]|?] ?]. done.
Qed.

(** ** Deep copies *)

Lemma get_state st r x a st' :
  inv st -> refs st !! r = Some x -> get r st = Ret (a, st') -> st' = st.
Proof.
  intros Hinv Hr. unfold get. destruct (is_null_ok st r x Hinv Hr) as (n & st1 & -> & _ & _ & Hres). cbn [mbind outcome_bind].
  destruct n; [done|]. destruct Hres as (-> & d & dd & b & (_ & Hc & Hd & _) & _). intros Hg. by inv_ret.
Qed.

Lemma do_copy_keeps rc r m st x r' m' st' :
  inv st -> refs st !! r = Some x -> do_copy rc r m st = Ret (r', m', st') ->
  inv st' /\ r' = next st /\ exists y, refs st' = <[next st := y]> (refs st) /\ (next st < next st')%nat.
Proof.
  intros Hinv Hr Hrun. unfold do_copy in Hrun. apply bind_Ret in Hrun as (t & _ & Hrun). apply bind_Ret in Hrun as (t' & _ & Hrun).
  destruct (_ =? 0).
  - destruct (new_null_ok st false false Hinv) as (st1 & Heq & Hst & Hrefs & _ & _ & _ & Hn). rewrite Heq in Hrun. injection Hrun as <- <- <-.
    destruct (Hst Hinv). split_and!; [done..|]. eexists. split; [done|lia].
  - destruct (operator_new _ _) as [p m1]. apply bind_Ret in Hrun as (data & _ & Hrun).
    apply bind_Ret in Hrun as ([from st1] & Hget & Hrun). apply (get_state _ _ x) in Hget as ->; [|done..].
    apply bind_Ret in Hrun as ([m2 z] & _ & Hrun). apply bind_Ret in Hrun as ([r2 st2] & Hnew & Hrun). injection Hrun as <- <- <-.
    destruct (new_ref_ok st false false data (if data =? nullptr then p else data) t' true true Hinv)
      as [(e & Heq & _)|(st2' & c & Heq & Hst & Hn & Hrefs & _)]; rewrite Heq in Hnew; [done|]. injection Hnew as <- <-.
    destruct (Hst Hinv). split_and!; [done..|]. by eexists.
Qed.

Lemma ref_deep_copy_spec X g r :
  ctx_ok X g -> exists_ref g r ->
  wp True (ref_deep_copy r) (fun r' g' => good X g g' /\ fresh_local g r' g' /\ m_descriptors g' = m_descriptors g)
    (fun _ g' => good X g g' /\ m_descriptors g' = m_descriptors g) g.
Proof.
  intros Hok Hr. apply wp_with_ref. eapply wp_mono; [by apply (ref_copy_exact X True _ _ _ _ (fun _ _ => False))| |done].
  intros ref g1 (Hg1 & [Hl Hn] & Hs1). assert (Hd1 : m_descriptors g1 = m_descriptors g) by (by rewrite Hs1).
  pose proof (ok_store _ _ (proj1 Hg1)) as Hinv1. unfold wp, zoom. cbn [fst snd]. destruct Hl as [[x Hx] Hns].
  destruct (do_copy run_copy ref (g_mem g1) (g_store g1)) as [[[r' m'] st']|e|] eqn:Hrun; cbn [mbind outcome_bind]; [| |done].
  - destruct (do_copy_keeps _ _ _ _ x _ _ _ Hinv1 Hx Hrun) as (Hinv' & -> & y & Hrefs & Hlt).
    set (g2 := set_store st' (set_mem m' g1)).
    assert (Hgm : good X g1 (set_mem m' g1)) by apply set_mem_good, Hg1.
    assert (Hg2 : good X g1 g2).
    { eapply good_trans; [exact Hgm|]. apply store_step_good; [apply Hgm|done| |simpl; lia]. by eapply keeps_insert_fresh. }
    destruct (fr_local _ _ (proj2 Hg2) ref) as [Hex2 Hns2]; [by split; [exists x|]|].
    assert (Hfr : fresh_local g1 (next (g_store g1)) g2).
    { split; [|done]. split; [unfold exists_ref; simpl; by rewrite Hrefs, lookup_insert_eq|]. intros (n & d & Hd & Hin).
      destruct (ok_held _ _ (proj1 Hg1) n d _ Hd Hin) as [z Hz]. by apply (fresh_ref _ _ _ Hinv1 Hz). }
    split_and!; [done|done|]. intros g3 Hrem. split_and!.
    + eapply removed_good; [apply Hok| |exact Hn|exact Hns2|exact Hrem]. by eapply good_trans.
    + eapply fresh_through; [apply Hg1|exact Hg1|by split; [exists x|]|exact Hfr|exact Hrem].
    + destruct Hrem as (st3 & -> & _). done.
  - split_and!; [done|by exists x|]. intros g3 Hrem. split.
    + eapply removed_good; [apply Hok|exact Hg1|exact Hn|exact Hns|exact Hrem].
    + destruct Hrem as (st3 & -> & _). done.
Qed.

(** [reclaim] that throws while it copies a metadata loses the placeholder of that
    metadata, and nothing else. *)
Lemma reclaim_spec g name d :
  ctx_ok None g -> m_descriptors g !! name = Some d ->
  (m_metadata d = true -> forall g1 r, ref_deep_copy r g1 = Crashed -> C) ->
  wp C (reclaim name) (fun _ g' => ctx_ok None g' /\ kept g g')
    (fun _ g' => ((m_metadata d = true /\ ctx_ok (Some name) g') \/ ctx_ok None g') /\ kept g g') g.
Proof.
  intros Hok Hd Hcopy. apply wp_in_context.
  eapply wp_mono; [apply (removal_prefix g name d _ _ (fun _ _ => True) (fun g' => (m_metadata d = true /\ ctx_ok (Some name) g') \/ ctx_ok None g')); [by right|done..|]| |].
  - intros g1 d1 Hg1 Hd1 Hne Hlen Hm. eapply wp_mono; [apply (with_oldref g1 name d1 _ (m_metadata d = true)); [apply Hg1|done..|]| |].
    + intros g2 d2 oldref Hg2 Hd2 Hne2 Hl2 Hlen2 Hm2. eapply (pop_keep_spec g2 name d2 _ _ _ _ oldref); [apply Hg2|done..| |].
      * intros g3 d3 Hmd Hok3 Hk3 Hd3 Hnil Hm3.
        assert (Hmd0 : m_metadata d = true) by congruence. apply wp_with_ref.
        eapply wp_mono; [apply wp_crash_apart; [apply (ref_deep_copy_spec (Some name)); [done|by apply (kp_local _ _ Hk3)]|by apply Hcopy]| |].
        -- intros r g4 (Hg4 & [Hl4 Hn4] & Hds4).
           eapply wp_mono; [apply (hold_spec g4 name d3 true false r (fun _ _ => False)); [apply Hg4|by rewrite Hds4|apply Hl4]| |done].
           intros [] g5 [Hg5 _]. destruct (fr_local _ _ (proj2 Hg5) r Hl4) as [He5 Hns5]. split_and!; [apply Hg5|done|].
           intros g6 Hrem. assert (Hg56 : good None g3 g6).
           { eapply removed_good; [apply Hok3| |exact Hn4|exact Hns5|exact Hrem]. split; [apply Hg5|]. etrans; [apply Hg4|apply Hg5]. }
           split; [apply Hg56|apply framed_kept, Hg56].
        -- intros e g4 (Hg4 & _). split; [split; [done|apply Hg4]|]. etrans; [exact Hk3|apply framed_kept, Hg4].
      * intros g3 Hok3 Hk3. destruct (kp_desc _ _ Hk3 name ltac:(by eexists)) as [d3 Hd3].
        eapply wp_assert_placeholder; [done..|].
        eapply wp_mono; [apply (ref_release_spec g3 oldref (fun _ _ => False)); [done|by apply (kp_local _ _ Hk3)]| |done].
        intros a g4 Hg4. split; [apply Hg4|]. etrans; [exact Hk3|apply framed_kept, Hg4].
    + by intros a g' [? ?].
    + done.
  - intros a g' (? & ? & _). done.
  - done.
Qed.

End descriptors.
