(* ===== verification/EvalInv.v ===== *)
(** Evaluating an expression keeps the invariant of the context: whatever the
    expression does (create and destroy references, allocate, throw), the
    references it does not own survive and no stack is shortened. *)

From S2P Require Import Prelude Error Effect ExprSyntax Datatype Layout Memory DenseCopy DenseCopyFacts Access Ref RefInv RefOps RefTheorems RefCopy Numeric Parse Template GlobalContext Eval ContextInv DescriptorInv.

(** * More facts on references *)

Lemma sub_ref_keeps st empty access r x r' st' :
  inv st -> refs st !! r = Some x -> sub_ref empty access r st = Ret (r', st') ->
  inv st' /\ r' = next st /\ (next st < next st')%nat /\ exists c, refs st' = <[next st := mkReference false false c]> (refs st).
Proof.
  intros Hinv Hr Hrun.
  assert (Hacc : forall d dd b, points_to st r x d dd b -> access_ok (access (data_type dd) (data_address dd))).
  { intros d dd b (_ & Hc & Hd & Hb). revert Hrun. unfold sub_ref.
    destruct (is_null_ok st r x Hinv Hr) as (n & st0 & -> & _ & _ & Hres). cbn [deref mbind outcome_bind]. destruct n; [done|].
    destruct Hres as (-> & d' & dd' & b' & (_ & Hc' & Hd' & _) & _). simplify_eq.
    rewrite Hr; cbn [deref mbind outcome_bind]. rewrite Hc; cbn [deref mbind outcome_bind]. rewrite Hd; cbn [deref mbind outcome_bind].
    destruct (access _ _) as [[data t]|e|]; cbn [mbind outcome_bind]; [|done|done].
    destruct (new_null false false st) as [rr st1]. unfold make_data. destruct (Z.eqb_spec data nullptr); [done|]. done. }
  destruct (sub_ref_ok st empty access r x Hinv Hr Hacc) as [(e & He)|(st2 & d & dd & b & data & t & Heq & Hst & Hn & _ & _ & d' & Hrefs & _)];
    rewrite Hrun in *; [done|]. simplify_eq. destruct (Hst Hinv). split_and!; [done..|]. by exists (Some d').
Qed.

Lemma assign_move_keeps st r other xr xo st' :
  inv st -> refs st !! r = Some xr -> refs st !! other = Some xo -> ref_R xr = ref_R xo -> ref_W xr = ref_W xo ->
  assign_move r other st = Ret st' -> inv st' /\ keeps_refs st st' /\ next st' = next st.
Proof.
  intros Hinv Hr Ho HR HW Hrun. destruct (assign_move_ok st r other xr xo Hinv Hr Ho HR HW) as (st2 & Heq & Hst & Hn).
  rewrite Hrun in Heq. injection Heq as <-. split; [by apply (Hst Hinv)|]. split; [|done]. revert Hrun. unfold assign_move.
  case_bool_decide as Hsame; [by intros [= <-]|].
  destruct (reset_ok st r xr Hinv Hr) as (st1 & -> & H1 & _ & Hr1 & _). cbn [mbind outcome_bind]. destruct (H1 Hinv) as [Hinv1 _].
  assert (Hk1 : keeps_refs st st1) by (by apply (keeps_set_content st st1 r xr None)).
  assert (Ho1 : refs st1 !! other = Some xo) by (by rewrite Hr1, lookup_insert_ne).
  destruct (is_null_ok st1 other xo Hinv1 Ho1) as (n & st2 & -> & H2 & _ & Hres). cbn [mbind outcome_bind]. destruct n.
  - intros [= <-]. etrans; [exact Hk1|]. by apply (keeps_set_content st1 st2 other xo None).
  - destruct Hres as (-> & d & dd & b & Hpt & _). assert (Hx1 : refs st1 !! r = Some (with_content xr None)) by (by rewrite Hr1, lookup_insert_eq).
    rewrite (steal_ok st1 r other (with_content xr None) xo d dd b) by done. intros [= <-]. etrans; [exact Hk1|].
    intros r' y Hy. unfold stolen. cbn [refs]. destruct (decide (r' = other)) as [->|Hne].
    + rewrite lookup_insert_eq. eexists. split; [done|]. simplify_eq. done.
    + rewrite lookup_insert_ne by done. destruct (decide (r' = r)) as [->|Hne'].
      * rewrite lookup_insert_eq. eexists. split; [done|]. rewrite Hr1, lookup_insert_eq in Hy. by simplify_eq.
      * rewrite lookup_insert_ne by done. by exists y.
Qed.

Section evaluation.
  Context {W : Type} {RT : Runtime W} {PL : Plugins W}.

Implicit Types g : global W.

Abbreviation ok := (ctx_ok None).
Abbreviation tm := (tame_at None True).

(** * Rights *)

Definition has_rights g r (R V : bool) : Prop := exists x, refs (g_store g) !! r = Some x /\ ref_R x = R /\ ref_W x = V.

(** A new local reference with the given rights. *)
Definition fresh_with (R V : bool) g r g' : Prop := fresh_local g r g' /\ has_rights g' r R V.

Lemma rights_framed g g' r R V : framed g g' -> local_ref g r -> has_rights g r R V -> has_rights g' r R V.
Proof.
  intros Hf Hl (x & Hx & HR & HV). destruct (fr_rights _ _ Hf r x Hx Hl) as (x' & Hx' & ? & ?). exists x'. split_and!; congruence.
Qed.

Lemma rights_removed g g' r r' R V : removed r' g g' -> r <> r' -> has_rights g r R V -> has_rights g' r R V.
Proof.
  intros (st' & -> & _ & Hrefs & _) Hne (x & Hx & HR & HV). exists x. split; [|done]. simpl. by rewrite Hrefs, lookup_delete_ne.
Qed.

Lemma ref_copy_with g R V r : ok g -> exists_ref g r -> tm g (ref_copy R V r) (fresh_with R V g).
Proof.
  intros Hok Hr. pose proof (ref_copy_spec None True g R V r Hok Hr) as H. destruct Hr as [x Hr].
  unfold tame_at, wp, ref_copy, on_store, zoom in *.
  destruct (new_copy_ok (g_store g) R V r x (ok_store _ _ Hok) Hr) as (st' & c & Heq & _ & Hrefs & _). rewrite Heq in *.
  destruct H as [Hg Hf]. split; [done|]. split; [done|]. exists (mkReference R V c). simpl. by rewrite Hrefs, lookup_insert_eq.
Qed.

Lemma fresh_step g g1 r R V g2 : good None g g1 -> fresh_with R V g1 r g2 -> fresh_with R V g r g2.
Proof. intros [_ Hf] [[Hl Hn] Hr]. split; [|done]. split; [done|]. pose proof (fr_next _ _ Hf). lia. Qed.

Lemma with_ref_with {R V} g mk (body : nat -> M (global W) nat) :
  ok g -> tm g mk (fresh_local g) ->
  (forall r g, ok g -> local_ref g r -> tm g (body r) (fresh_with R V g)) ->
  tm g (with_ref mk body) (fresh_with R V g).
Proof.
  intros Hok Hmk Hbody. eapply wp_mono; [by apply (with_ref_spec None True g mk body (fun g _ => fresh_with R V g))| |done].
  intros r' g3 (Hg3 & r & g1 & g2 & Hg1 & Hfr & Hg2 & [Hf2 Hr2] & Hrem). split; [done|].
  split; [eapply fresh_through; [apply Hg1|exact Hg1|apply Hfr|exact Hf2|exact Hrem]|].
  eapply rights_removed; [exact Hrem| |done]. pose proof (local_lt _ _ (ok_store _ _ (proj1 Hg1)) (proj1 Hfr)). destruct Hf2. lia.
Qed.

(** ... and the block can rely on the rights of its temporary reference. *)
Lemma with_ref_full {R0 V0 R V} g mk (body : nat -> M (global W) nat) :
  ok g -> tm g mk (fresh_with R0 V0 g) ->
  (forall r g, ok g -> local_ref g r -> has_rights g r R0 V0 -> tm g (body r) (fresh_with R V g)) ->
  tm g (with_ref mk body) (fresh_with R V g).
Proof.
  intros Hok Hmk Hbody. apply wp_with_ref. eapply wp_mono; [exact Hmk| |done]. intros r g1 [Hg1 [[Hl Hn] Hr]].
  eapply wp_mono; [apply (Hbody r g1); [apply Hg1|done|done]| |].
  - intros r' g2 [Hg2 [Hf2 Hr2]]. destruct (fr_local _ _ (proj2 Hg2) r Hl) as [He Hns]. split_and!; [apply Hg2|done|]. intros g3 Hrem.
    split; [eapply removed_good; [apply Hok|exact (good_trans None _ _ _ Hg1 Hg2)|exact Hn|exact Hns|exact Hrem]|].
    split; [eapply fresh_through; [apply Hg1|exact Hg1|exact Hl|exact Hf2|exact Hrem]|].
    eapply rights_removed; [exact Hrem| |done]. pose proof (local_lt _ _ (ok_store _ _ (proj1 Hg1)) Hl). destruct Hf2. lia.
  - intros e g2 Hg2. destruct (fr_local _ _ (proj2 Hg2) r Hl) as [He Hns]. split_and!; [apply Hg2|done|]. intros g3 Hrem.
    eapply removed_good; [apply Hok|exact (good_trans None _ _ _ Hg1 Hg2)|exact Hn|exact Hns|exact Hrem].
Qed.

Lemma readable_spec g mk : ok g -> tm g mk (fresh_local g) -> tm g (readable mk) (fresh_with true false g).
Proof. intros Hok Hmk. apply with_ref_with; [done..|]. intros r g' Hok' Hl. apply ref_copy_with; [done|apply Hl]. Qed.

Lemma fresh_weaken g (m : M (global W) nat) R V : tm g m (fresh_with R V g) -> tm g m (fresh_local g).
Proof. intros H. eapply tame_mono_at; [exact H|]. by intros ? ? _ [? _]. Qed.

(** * Operations that only read *)

Definition reads {A} (m : M (global W) A) : Prop := forall g g', final (m g) = Some g' -> g' = g.

Lemma reads_tame {A} g (m : M (global W) A) : reads m -> ok g -> tm g m (fun _ g' => g' = g).
Proof.
  intros Hm Hok. specialize (Hm g). unfold tame_at, wp. destruct (m g) as [a g'|e g'|]; simpl in Hm; [| |done];
    rewrite (Hm g' eq_refl); [split|]; try done; by apply good_refl.
Qed.

Lemma reads_bind {A B} (m : M (global W) A) (f : A -> M (global W) B) : reads m -> (forall a, reads (f a)) -> reads (m ≫= f).
Proof.
  intros Hm Hf g g'. specialize (Hm g). unfold mbind, M_bind. destruct (m g) as [a g1|e g1|]; simpl in *; [|by auto|done].
  rewrite (Hm g1 eq_refl). apply Hf.
Qed.

Lemma reads_ret {A} (a : A) : reads (mret a).
Proof. by intros g g' [= <-]. Qed.

Lemma reads_lift {A} (o : outcome A) : reads (lift o).
Proof. intros g g'. unfold lift. destruct o; simpl; congruence. Qed.

Lemma reads_gets {A} (f : global W -> A) : reads (gets f).
Proof. by intros g g' [= <-]. Qed.

Lemma reads_pointwise {A} (f : global W -> outcome A) : reads (fun g => lift (f g) g).
Proof. intros g g'. unfold lift. destruct (f g); simpl; congruence. Qed.

Lemma ref_type_reads r : reads (ref_type r).
Proof. apply reads_pointwise. Qed.

Lemma ref_data_reads r : reads (ref_data r).
Proof. apply reads_pointwise. Qed.

Lemma load_string_reads a n : reads (load_string a n).
Proof. intros g g'. unfold load_string. destruct (load _ _ _); simpl; congruence. Qed.

Lemma ref_scalar_value_reads T r : reads (ref_scalar_value T r).
Proof.
  apply reads_bind; [apply ref_type_reads|]. intros t. apply reads_bind; [apply ref_data_reads|]. intros a.
  apply reads_bind; [apply reads_gets|]. intros m. apply reads_lift.
Qed.

Lemma ref_long_reads r : reads (ref_long r).
Proof. apply reads_bind; [apply ref_scalar_value_reads|]. intros n. apply reads_ret. Qed.

Lemma ref_double_reads r : reads (ref_double r).
Proof. apply reads_bind; [apply ref_scalar_value_reads|]. intros []; (apply reads_ret || apply reads_lift). Qed.

(** * Operations on references and memory *)

Lemma on_store_spec {A} g (f : store -> outcome (A * store)) (Q : A -> global W -> Prop) :
  ok g ->
  (forall a st', f (g_store g) = Ret (a, st') -> inv st' /\ keeps_refs (g_store g) st' /\ (next (g_store g) <= next st')%nat /\ Q a (set_store st' g)) ->
  tm g (on_store f) Q.
Proof.
  intros Hok Hf. unfold tame_at, wp, on_store, zoom. destruct (f (g_store g)) as [[a st']|e|] eqn:Hrun; [|by apply good_refl|done].
  destruct (Hf a st' eq_refl) as (Hinv & Hk & Hn & HQ). split; [by apply store_step_good|done].
Qed.

Lemma is_null_state st r x n st' : inv st -> refs st !! r = Some x -> is_null r st = Ret (n, st') ->
  inv st' /\ keeps_refs st st' /\ next st' = next st.
Proof.
  intros Hinv Hr Hrun. destruct (is_null_ok st r x Hinv Hr) as (n' & st2 & Heq & Hst & Hn & Hres). rewrite Hrun in Heq.
  injection Heq as <- <-. destruct (Hst Hinv). split_and!; [done| |done]. destruct n; [by eapply keeps_set_content|]. by destruct Hres as [-> _].
Qed.

Lemma ref_get_spec g r : ok g -> local_ref g r -> tm g (ref_get r) (fun _ _ => True).
Proof.
  intros Hok Hl. eapply tame_bind_at; [apply ref_is_null_spec; [done|apply Hl]|]. intros n g' Hg _.
  apply on_store_spec; [apply Hg|]. intros a st' Hrun. destruct (fr_local _ _ (proj2 Hg) r Hl) as [[x Hx] _].
  apply (get_state _ _ x) in Hrun as ->; [|apply Hg|done]. split_and!; [apply Hg|done..].
Qed.

Lemma sub_ref_spec g empty access r :
  ok g -> local_ref g r -> tm g (on_store (sub_ref empty access r)) (fresh_with false false g).
Proof.
  intros Hok Hl. pose proof (ok_store _ _ Hok) as Hinv. pose proof Hl as [[x Hx] _]. apply on_store_spec; [done|]. intros r' st' Hrun.
  destruct (sub_ref_keeps _ _ _ _ x _ _ Hinv Hx Hrun) as (Hinv' & -> & Hlt & c & Hrefs). split_and!; [done| |lia|].
  - by eapply keeps_insert_fresh.
  - destruct (fresh_local_step None g st' (next (g_store g)) c false false) as [_ Hf]; [done..|]. split; [done|].
    exists (mkReference false false c). simpl. by rewrite Hrefs, lookup_insert_eq.
Qed.

Lemma ref_access_spec g r empty access :
  ok g -> local_ref g r ->
  tm g (ref_is_null r;; m ← gets g_mem; on_store (sub_ref empty (access m) r)) (fresh_with false false g).
Proof.
  intros Hok Hl. eapply tame_bind_at; [apply ref_is_null_spec; [done|apply Hl]|]. intros n g' Hg _. cbn.
  eapply tame_mono_at; [apply sub_ref_spec; [apply Hg|by apply (fr_local _ _ (proj2 Hg))]|]. intros a g'' _ Hf. by eapply fresh_step.
Qed.

Lemma new_ref_spec g R V data f t readable writable :
  ok g -> tm g (on_store (new_ref R V data f t readable writable)) (fresh_with R V g).
Proof.
  intros Hok. pose proof (ok_store _ _ Hok) as Hinv. apply on_store_spec; [done|]. intros r st' Hrun.
  destruct (new_ref_ok (g_store g) R V data f t readable writable Hinv) as [(e & Heq & _)|(st2 & c & Heq & Hst & Hlt & Hrefs & _)];
    rewrite Hrun in Heq; [done|]. injection Heq as -> <-. destruct (Hst Hinv) as [Hinv' _]. split_and!; [done| |lia|].
  - by eapply keeps_insert_fresh.
  - destruct (fresh_local_step None g st' (next (g_store g)) c R V) as [_ Hf]; [done..|]. split; [done|].
    exists (mkReference R V c). simpl. by rewrite Hrefs, lookup_insert_eq.
Qed.

Lemma ref_assign_spec g r mk R V :
  ok g -> local_ref g r -> has_rights g r R V -> tm g mk (fresh_with R V g) -> tm g (ref_assign r mk) (fun _ _ => True).
Proof.
  intros Hok Hl Hr Hmk. unfold ref_assign. apply wp_with_ref. eapply wp_mono; [exact Hmk| |done].
  intros t g1 [Hg1 [[Hlt Hnt] (xt & Hxt & HR & HV)]].
  assert (Hl1 := fr_local _ _ (proj2 Hg1) r Hl). destruct (rights_framed _ _ r R V (proj2 Hg1) Hl Hr) as (xr & Hxr & HRr & HVr).
  assert (Hrun : tm g1 (unit_store (assign_move r t)) (fun _ _ => True)).
  { apply on_store_spec; [apply Hg1|]. intros a st' Hrun. apply bind_Ret in Hrun as (st2 & Hrun & [= <- <-]).
    destruct (assign_move_keeps _ r t xr xt st2 (ok_store _ _ (proj1 Hg1)) Hxr Hxt) as (Hinv' & Hk & Hn); [congruence..|done|].
    split_and!; [done..|lia|done]. }
  eapply wp_mono; [exact Hrun| |].
  - intros [] g2 [Hg2 _]. destruct (fr_local _ _ (proj2 Hg2) t Hlt) as [He Hns]. split_and!; [apply Hg2|done|]. intros g3 Hrem. split; [|done].
    eapply removed_good; [apply Hok|exact (good_trans None _ _ _ Hg1 Hg2)|exact Hnt|exact Hns|exact Hrem].
  - intros e g2 Hg2. destruct (fr_local _ _ (proj2 Hg2) t Hlt) as [He Hns]. split_and!; [apply Hg2|done|]. intros g3 Hrem.
    eapply removed_good; [apply Hok|exact (good_trans None _ _ _ Hg1 Hg2)|exact Hnt|exact Hns|exact Hrem].
Qed.

Lemma on_mem_spec {A} g (f : mem -> outcome (A * mem)) : ok g -> tm g (on_mem f) (fun _ _ => True).
Proof.
  intros Hok. unfold tame_at, wp, on_mem, zoom. destruct (f (g_mem g)) as [[a m]|e|]; [|by apply good_refl|done].
  split; [by apply set_mem_good|done].
Qed.

(** A block that owns a reference: it is destroyed when the block throws. *)
Lemma owning_spec {A} g g0 r (m : M (global W) A) Q :
  ok g0 -> good None g0 g -> fresh_local g0 r g -> tm g m Q ->
  wp True (owning r m) (fun a g' => good None g g' /\ Q a g') (fun _ g' => good None g0 g') g.
Proof.
  intros Hok0 Hg0 [Hl Hn] Hm. apply wp_catch. eapply wp_mono; [exact Hm|done|]. intros e g' Hg'. apply wp_bind.
  destruct (fr_local _ _ (proj2 Hg') r Hl) as [He Hns].
  eapply wp_mono; [apply (ref_destroy_spec True g' r (fun _ _ => False)); [apply Hg'|done]| |done]. intros [] g'' Hrem. cbn.
  eapply removed_good; [apply Hok0|exact (good_trans None _ _ _ Hg0 Hg')|exact Hn|exact Hns|exact Hrem].
Qed.

(** * The methods *)

Abbreviation any := (fun _ _ => True).

(** Reading the type or the value behind a reference, then going on. *)
Lemma reads_then {A B} g (m : M (global W) A) (f : A -> M (global W) B) Q :
  reads m -> ok g -> (forall a, tm g (f a) Q) -> tm g (m ≫= f) Q.
Proof. intros Hm Hok Hf. eapply tame_bind_at; [by apply reads_tame|]. intros a g' _ ->. apply Hf. Qed.

Lemma reads_any {A} g (m : M (global W) A) : reads m -> ok g -> tm g m any.
Proof. intros Hm Hok. eapply tame_mono_at; [by apply reads_tame|done]. Qed.

(** Going on after an operation of which nothing is said. *)
Lemma then_tame {A B} g (m : M (global W) A) (f : A -> M (global W) B) :
  tm g m any -> (forall a g', good None g g' -> tm g' (f a) any) -> tm g (m ≫= f) any.
Proof. intros Hm Hf. eapply tame_bind_at; [exact Hm|]. intros a g' Hg _. by apply Hf. Qed.

Lemma with_ref_rights {A R V} g mk (body : nat -> M (global W) A) :
  ok g -> tm g mk (fresh_with R V g) ->
  (forall r g, ok g -> local_ref g r -> has_rights g r R V -> tm g (body r) any) -> tm g (with_ref mk body) any.
Proof.
  intros Hok Hmk Hbody. apply wp_with_ref. eapply wp_mono; [exact Hmk| |done]. intros r g1 [Hg1 [[Hl Hn] Hr]].
  eapply wp_mono; [apply (Hbody r g1); [apply Hg1|done|done]| |].
  - intros a g2 [Hg2 _]. destruct (fr_local _ _ (proj2 Hg2) r Hl) as [He Hns]. split_and!; [apply Hg2|done|]. intros g3 Hrem. split; [|done].
    eapply removed_good; [apply Hok|exact (good_trans None _ _ _ Hg1 Hg2)|exact Hn|exact Hns|exact Hrem].
  - intros e g2 Hg2. destruct (fr_local _ _ (proj2 Hg2) r Hl) as [He Hns]. split_and!; [apply Hg2|done|]. intros g3 Hrem.
    eapply removed_good; [apply Hok|exact (good_trans None _ _ _ Hg1 Hg2)|exact Hn|exact Hns|exact Hrem].
Qed.

Record tame_methods (ms : methods) : Prop := {
  tame_to_long : forall g, ok g -> tm g (to_long ms) any;
  tame_to_double : forall g, ok g -> tm g (to_double ms) any;
  tame_to_string : forall g, ok g -> tm g (to_string ms) any;
  tame_to_ref : forall g, ok g -> tm g (to_ref ms) (fresh_with false false g);
  tame_copy_value : forall b t g, ok g -> tm g (copy_value ms b t) any
}.

Lemma local_good g g' r : good None g g' -> local_ref g r -> local_ref g' r.
Proof. intros [_ Hf]. apply (fr_local _ _ Hf). Qed.

Lemma to_ref_typed_spec cv t :
  (forall b t g, ok g -> tm g (cv b t) any) -> forall g, ok g -> tm g (to_ref_typed cv t) (fresh_with false false g).
Proof.
  intros Hcv g Hok. eapply tame_bind_at; [by apply on_mem_spec|]. intros data g1 Hg1 _.
  eapply tame_mono_at; [|intros r g' _ Hf; by eapply fresh_step].
  apply with_ref_with; [apply Hg1|eapply fresh_weaken, new_ref_spec, Hg1|]. intros r g2 Hok2 Hl.
  eapply tame_bind_at; [by apply ref_get_spec|]. intros p g3 Hg3 _. eapply tame_bind_at; [apply Hcv, Hg3|]. intros n g4 Hg4 _.
  assert (Hg24 : good None g2 g4) by by eapply good_trans.
  eapply tame_mono_at; [apply ref_copy_with; [apply Hg4|by apply (local_good _ _ r Hg24)]|]. intros r' g5 _ Hf. by eapply fresh_step.
Qed.

Lemma default_to_string_spec tl td tr :
  (forall g, ok g -> tm g tl any) -> (forall g, ok g -> tm g td any) -> (forall g, ok g -> tm g tr (fresh_with false false g)) ->
  forall g, ok g -> tm g (default_to_string tl td tr) any.
Proof.
  intros Hl Hd Hr g Hok. eapply with_ref_rights; [done|apply readable_spec; [done|by eapply fresh_weaken, Hr]|].
  intros r g1 Hok1 Hlr _. apply reads_then; [apply ref_type_reads|done|]. intros t.
  assert (Hnum : tm g1 (lres ← tl; dres ← td; mret (if same_value lres dres then pretty lres else print_double dres)) any).
  { apply then_tame; [by apply Hl|]. intros v g2 Hg2. apply then_tame; [apply Hd, Hg2|]. intros f g3 Hg3. apply tame_ret_at; [apply Hg3|done]. }
  destruct t as [|? sub ? ? ?| | |]; try exact Hnum. destruct (is_char sub); [|exact Hnum].
  apply then_tame; [by apply ref_get_spec|]. intros a g2 Hg2. apply reads_any; [apply load_string_reads|apply Hg2].
Qed.

Lemma Int_literal_tame v : tame_methods (Int_literal_methods v).
Proof.
  assert (Hcv : forall b t g, ok g -> tm g (copy_value (Int_literal_methods v) b t) any) by (intros; by apply on_mem_spec).
  assert (Hr : forall g, ok g -> tm g (to_ref (Int_literal_methods v)) (fresh_with false false g)).
  { intros g Hok. apply reads_then; [apply reads_lift|done|]. intros t. by apply to_ref_typed_spec. }
  split; try done. intros g Hok. by apply default_to_string_spec.
Qed.

Lemma Float_literal_tame v : tame_methods (Float_literal_methods v).
Proof.
  assert (Hcv : forall b t g, ok g -> tm g (copy_value (Float_literal_methods v) b t) any) by (intros; by apply on_mem_spec).
  assert (Hr : forall g, ok g -> tm g (to_ref (Float_literal_methods v)) (fresh_with false false g)).
  { intros g Hok. apply reads_then; [apply reads_lift|done|]. intros t. by apply to_ref_typed_spec. }
  assert (Hl : forall g, ok g -> tm g (to_long (Float_literal_methods v)) any).
  { intros g Hok. apply reads_then; [apply reads_lift|done|]. intros n. by apply tame_ret_at. }
  split; try done. intros g Hok. by apply default_to_string_spec.
Qed.

Lemma String_literal_tame start vs :
  Forall (fun v => tame_methods v.1) vs -> tame_methods (String_literal_methods start vs).
Proof.
  intros Hvs. rewrite list.Forall_forall in Hvs.
  assert (Hs : forall g, ok g -> tm g (to_string (String_literal_methods start vs)) any).
  { intros g Hok. apply tame_iter_at; [|done|done]. intros v b g' Hv Hok' _. apply then_tame; [by apply (Hvs v Hv)|].
    intros s g2 Hg2. apply tame_ret_at; [apply Hg2|done]. }
  assert (Hcv : forall b t g, ok g -> tm g (copy_value (String_literal_methods start vs) b t) any).
  { intros b t g Hok. assert (Hno : forall e, tm g (throw e : M (global W) Z) any) by (intros; by apply tame_throw_at).
    destruct t as [|? sub ? ? ?| | |]; try apply Hno. destruct sub; try apply Hno. simpl. destruct (_ =? 1); [|apply Hno].
    apply then_tame; [by apply Hs|]. intros s g2 Hg2. apply then_tame; [apply on_mem_spec, Hg2|]. intros [] g3 Hg3.
    apply tame_ret_at; [apply Hg3|done]. }
  split; try done.
  - intros g Hok. apply then_tame; [by apply Hs|]. intros s g2 Hg2. apply reads_any; [apply reads_lift|apply Hg2].
  - intros g Hok. apply then_tame; [by apply Hs|]. intros s g2 Hg2. apply tame_throw_at, Hg2.
  - intros g Hok. eapply tame_bind_at; [by apply Hs|]. intros s g2 Hg2 _. apply reads_then; [apply reads_lift|apply Hg2|]. intros t.
    eapply tame_mono_at; [apply to_ref_typed_spec; [exact Hcv|apply Hg2]|]. intros r g3 _ Hf. by eapply fresh_step.
Qed.

(** ** References to data *)

Definition tame_accessor (a : accessor) : Prop :=
  match a with Index_accessor e | Member_accessor e => tame_methods e end.

Lemma access_spec a g r :
  tame_accessor a -> ok g -> local_ref g r -> tm g (access a r) (fresh_with false false g).
Proof.
  intros Ha Hok Hl. apply with_ref_with; [done|eapply fresh_weaken, ref_copy_with; [done|apply Hl]|]. intros p g1 Hok1 Hl1.
  destruct a as [e|e]; simpl in Ha.
  - eapply tame_bind_at; [by apply (tame_to_long e Ha)|]. intros i g2 Hg2 _.
    eapply tame_mono_at; [apply (ref_access_spec g2 p); [apply Hg2|by apply (local_good _ _ p Hg2)]|]. intros r' g3 _ Hf. by eapply fresh_step.
  - eapply tame_bind_at; [by apply (tame_to_string e Ha)|]. intros i g2 Hg2 _.
    eapply tame_mono_at; [apply (ref_access_spec g2 p); [apply Hg2|by apply (local_good _ _ p Hg2)]|]. intros r' g3 _ Hf. by eapply fresh_step.
Qed.

Lemma ref_with g name : ok g -> is_Some (m_descriptors g !! name) -> tm g (ref name) (fresh_with false false g).
Proof.
  intros Hok [d Hd]. eapply wp_assert_placeholder; [done..|]. eapply wp_get_desc; [done|].
  apply (tame_bind_at None True g _ _ (fun _ g' => exists d', m_descriptors g' !! name = Some d' /\ m_refs d' <> [])).
  - case_bool_decide as Hnil.
    + eapply tame_bind_at; [by apply notify_named_spec|]. intros [] g' Hg _. cbn.
      destruct (framed_desc g g' name d (proj2 Hg) Hd) as (d' & Hd' & _). eapply wp_get_desc; [done|].
      case_bool_decide; [apply tame_throw_at, Hg|]. apply tame_ret_at; [apply Hg|by exists d'].
    + apply tame_ret_at; [done|by exists d].
  - intros [] g' Hg (d' & Hd' & Hne). cbn. eapply wp_assert_placeholder; [apply Hg|done|]. eapply wp_get_desc; [done|].
    destruct (m_refs d') as [|top rs] eqn:Hrs; [done|].
    eapply tame_mono_at; [apply ref_copy_with; [apply Hg|]|].
    + eapply (ok_held _ _ (proj1 Hg)); [done|]. rewrite Hrs. apply list_elem_of_here.
    + intros r g'' _ Hf. by eapply fresh_step.
Qed.

Section reference.
  Context (name : string) (subs : list (accessor (W := W))) (fmt : string).
  Hypothesis Hsubs : Forall tame_accessor subs.

Lemma reference_to_ref g : ok g -> tm g (to_ref (Reference_expression_methods name subs fmt)) (fresh_with false false g).
Proof.
  intros Hok. simpl. eapply tame_bind_at; [by apply desc_spec|]. intros [] g1 Hg1 [Hd1 _]. cbn.
  eapply tame_mono_at; [|intros r g' _ Hf; by eapply fresh_step].
  apply wp_bind. eapply wp_mono; [apply ref_with; [apply Hg1|done]| |done]. intros r g2 [Hg2 [Hf2 Hr2]].
  apply wp_bind. eapply wp_mono; [apply (owning_spec g2 g1 r _ any); [apply Hg1|done|done|]| |done].
  - pose proof Hf2 as [Hl2 _]. eapply tame_mono_at; [|done].
    apply (tame_iter_at None True _ subs (fun _ g' => good None g2 g')); [|apply Hg2|apply good_refl, Hg2].
    intros a u g3 Ha Hok3 Hg3. rewrite list.Forall_forall in Hsubs. specialize (Hsubs a Ha).
    eapply tame_mono_at; [eapply (ref_assign_spec g3 r)|intros; by eapply good_trans].
    + done.
    + by apply (local_good _ _ r Hg3).
    + eapply rights_framed; [apply Hg3|done|done].
    + apply access_spec; [done|done|by apply (local_good _ _ r Hg3)].
  - intros [] g3 [Hg3 _]. cbn. split; [by eapply good_trans|]. destruct Hf2 as [Hl2 Hn2]. split.
    + split; [by apply (local_good _ _ r Hg3)|done].
    + eapply rights_framed; [apply Hg3|done|done].
Qed.

(** Reading the referenced value. *)
Lemma with_readable {A} g (body : nat -> M (global W) A) :
  ok g -> (forall r g, ok g -> local_ref g r -> tm g (body r) any) ->
  tm g (with_ref (readable (to_ref (Reference_expression_methods name subs fmt))) body) any.
Proof.
  intros Hok Hbody. eapply with_ref_rights; [done|apply readable_spec; [done|by eapply fresh_weaken, reference_to_ref]|]. auto.
Qed.

Lemma Reference_expression_tame : tame_methods (Reference_expression_methods name subs fmt).
Proof.
  assert (Hl : forall g, ok g -> tm g (to_long (Reference_expression_methods name subs fmt)) any).
  { intros g Hok. apply tame_in_context_at, with_readable; [done|]. intros r g1 Hok1 Hlr.
    apply then_tame; [by apply ref_is_null_spec; [|apply Hlr]|]. intros [] g2 Hg2; [apply tame_throw_at, Hg2|].
    apply reads_any; [apply ref_long_reads|apply Hg2]. }
  assert (Hd : forall g, ok g -> tm g (to_double (Reference_expression_methods name subs fmt)) any).
  { intros g Hok. apply tame_in_context_at, with_readable; [done|]. intros r g1 Hok1 Hlr.
    apply then_tame; [by apply ref_is_null_spec; [|apply Hlr]|]. intros [] g2 Hg2; [apply tame_throw_at, Hg2|].
    apply reads_any; [apply ref_double_reads|apply Hg2]. }
  assert (Hfmt : forall g v s, ok g -> tm g (format_or fmt v s) any).
  { intros g v s Hok. unfold format_or. destruct fmt; [by apply tame_ret_at|]. apply reads_any; [apply reads_lift|done]. }
  split; [exact Hl|exact Hd| |exact reference_to_ref|].
  - intros g Hok. apply with_readable; [done|]. intros r g1 Hok1 Hlr. apply reads_then; [apply ref_type_reads|done|]. intros t.
    assert (Hnum : tm g1 (lres ← to_long (Reference_expression_methods name subs fmt); dres ← to_double (Reference_expression_methods name subs fmt);
              if same_value lres dres then format_or fmt (Fmt_long lres) (pretty lres) else format_or fmt (Fmt_double dres) (print_double dres)) any).
    { apply then_tame; [by apply Hl|]. intros v g2 Hg2. apply then_tame; [apply Hd, Hg2|]. intros f g3 Hg3.
      destruct (same_value v f); apply Hfmt, Hg3. }
    destruct t as [|? sub ? ? ?| | |]; try exact Hnum. destruct sub; try by apply tame_throw_at.
    destruct (is_char _); [|by apply tame_ret_at].
    apply then_tame; [by apply ref_get_spec|]. intros a g2 Hg2. apply then_tame; [apply reads_any; [apply load_string_reads|apply Hg2]|].
    intros s' g3 Hg3. apply Hfmt, Hg3.
  - intros b t g Hok. apply with_readable; [done|]. intros r g1 Hok1 Hlr.
    apply then_tame; [by apply ref_is_null_spec; [|apply Hlr]|]. intros [] g2 Hg2; [apply tame_throw_at, Hg2|].
    destruct subs as [|a l].
    + apply reads_then; [apply ref_type_reads|apply Hg2|]. intros t'. destruct (_ =? _); [|apply tame_throw_at, Hg2].
      apply then_tame; [apply ref_get_spec; [apply Hg2|by apply (local_good _ _ r Hg2)]|]. intros from g3 Hg3.
      apply then_tame; [apply on_mem_spec, Hg3|]. intros [] g4 Hg4. apply tame_ret_at; [apply Hg4|done].
    + apply reads_then; [apply reads_lift|apply Hg2|]. intros T. apply reads_then; [apply ref_scalar_value_reads|apply Hg2|]. intros v.
      apply then_tame; [apply on_mem_spec, Hg2|]. intros [] g4 Hg4. apply tame_ret_at; [apply Hg4|done].
Qed.

End reference.

(** ** Operations *)

Lemma evalp_to_ref_spec v op r g : ok g -> tm g (evalp_to_ref v op r) (fresh_with false false g).
Proof.
  intros Hok. apply reads_then; [apply ref_type_reads|done|]. intros t. apply reads_then; [apply reads_lift|done|]. intros T.
  apply reads_then; [apply ref_scalar_value_reads|done|]. intros n. apply reads_then; [apply reads_lift|done|]. intros z.
  eapply tame_bind_at; [by apply on_mem_spec|]. intros p g1 Hg1 _. eapply tame_bind_at; [apply on_mem_spec, Hg1|]. intros [] g2 Hg2 _. cbn.
  assert (Hg02 : good None g g2) by by eapply good_trans.
  eapply tame_mono_at; [apply new_ref_spec, Hg2|]. intros r' g3 _ Hf. by eapply fresh_step.
Qed.

Lemma operation_step_spec computed op e g :
  tame_methods e -> ok g -> local_ref g computed -> has_rights g computed true false -> tm g (operation_step computed op e) any.
Proof.
  intros He Hok Hl Hr. apply reads_then; [apply ref_type_reads|done|]. intros t. destruct t; try by apply tame_throw_at.
  apply wp_with_ref. eapply wp_mono; [apply readable_spec; [done|by eapply fresh_weaken, tame_to_ref]| |done].
  intros o g1 [Hg1 [[Hlo Hno] _]].
  assert (Hbody : tm g1 (T ← lift (operand_type (Scalar_datatype m_attributes m_kind m_size m_align m_dense_size m_copy m_destroy));
            v ← ref_scalar_value T computed;
            ref_assign computed (readable (with_ref (ref_copy true false o) (evalp_to_ref v op)))) any).
  { apply reads_then; [apply reads_lift|apply Hg1|]. intros T. apply reads_then; [apply ref_scalar_value_reads|apply Hg1|]. intros v.
    eapply ref_assign_spec; [apply Hg1|by apply (local_good _ _ computed Hg1)|eapply rights_framed; [apply Hg1|done|done]|].
    apply readable_spec; [apply Hg1|]. eapply fresh_weaken, with_ref_with; [apply Hg1|eapply fresh_weaken, ref_copy_with; [apply Hg1|apply Hlo]|].
    intros r g2 Hok2 _. by apply evalp_to_ref_spec. }
  eapply wp_mono; [exact Hbody| |].
  - intros [] g2 [Hg2 _]. destruct (local_good _ _ o Hg2 Hlo) as [He2 Hns]. split_and!; [apply Hg2|done|]. intros g3 Hrem. split; [|done].
    eapply removed_good; [apply Hok|exact (good_trans None _ _ _ Hg1 Hg2)|exact Hno|exact Hns|exact Hrem].
  - intros e' g2 Hg2. destruct (local_good _ _ o Hg2 Hlo) as [He2 Hns]. split_and!; [apply Hg2|done|]. intros g3 Hrem.
    eapply removed_good; [apply Hok|exact (good_trans None _ _ _ Hg1 Hg2)|exact Hno|exact Hns|exact Hrem].
Qed.

Lemma Operation_tame first ops :
  tame_methods first -> Forall (fun o => tame_methods o.2) ops -> tame_methods (Operation_methods first ops).
Proof.
  intros Hfirst Hops. rewrite list.Forall_forall in Hops.
  assert (Hr : forall g, ok g -> tm g (to_ref (Operation_methods first ops)) (fresh_with false false g)).
  { intros g Hok. cbn [to_ref Operation_methods].
    eapply with_ref_full; [done|apply readable_spec; [done|by eapply fresh_weaken, tame_to_ref]|].
    intros computed g1 Hok1 Hl1 Hr1.
    eapply (tame_bind_at None True g1 _ _ (fun _ g' => good None g1 g')).
    - apply tame_iter_at; [|done|by apply good_refl]. intros o u g2 Ho Hok2 Hg2.
      eapply tame_mono_at; [apply operation_step_spec; [by apply Hops|done|by apply (local_good _ _ computed Hg2)|]|].
      + eapply rights_framed; [apply Hg2|done|done].
      + intros; by eapply good_trans.
    - intros u g2 Hg2 _. eapply tame_mono_at; [apply ref_copy_with; [apply Hg2|by apply (local_good _ _ computed Hg2)]|].
      intros r g3 _ Hf. by eapply fresh_step. }
  assert (Hv : forall A (read : nat -> M (global W) A) g, ok g -> (forall r, reads (read r)) ->
            tm g (with_ref (readable (to_ref (Operation_methods first ops))) (fun ref_value =>
              n ← ref_is_null ref_value;
              if n : bool then throw (Value_error "Unexpected null value for operation") else read ref_value)) any).
  { intros A read g Hok Hread. eapply with_ref_rights; [done|apply readable_spec; [done|by eapply fresh_weaken, Hr]|].
    intros r g1 Hok1 Hl1 _. apply then_tame; [by apply ref_is_null_spec; [|apply Hl1]|]. intros [] g2 Hg2; [apply tame_throw_at, Hg2|].
    apply reads_any; [apply Hread|apply Hg2]. }
  assert (Hl : forall g, ok g -> tm g (to_long (Operation_methods first ops)) any) by (intros; apply Hv; [done|apply ref_long_reads]).
  assert (Hd : forall g, ok g -> tm g (to_double (Operation_methods first ops)) any) by (intros; apply Hv; [done|apply ref_double_reads]).
  split; try done.
  - intros g Hok. by apply default_to_string_spec.
  - intros b t g Hok. eapply with_ref_rights; [done|apply readable_spec; [done|by eapply fresh_weaken, Hr]|].
    intros r g1 Hok1 Hl1 _. apply reads_then; [apply reads_lift|done|]. intros T. apply reads_then; [apply ref_scalar_value_reads|done|]. intros n.
    apply then_tame; [by apply on_mem_spec|]. intros [] g2 Hg2. apply tame_ret_at; [apply Hg2|done].
Qed.

(** ** Sequences and mappings *)

Lemma element_type_of_spec e g : tame_methods e -> ok g -> tm g (element_type_of e) any.
Proof.
  intros He Hok. apply with_ref_tame; [done|by eapply fresh_weaken, tame_to_ref|]. intros r g1 Hok1 _. by apply reads_any; [apply ref_type_reads|].
Qed.

Lemma Sequence_tame l : Forall tame_methods l -> tame_methods (Sequence_methods l).
Proof.
  intros Hl. rewrite list.Forall_forall in Hl.
  assert (Hcv : forall b t g, ok g -> tm g (copy_value (Sequence_methods l) b t) any).
  { intros b t g Hok. destruct t as [|? sub ? ? ?| |? es ?|]; try by apply tame_throw_at.
    - apply then_tame.
      + apply tame_iter_at; [|done|done]. intros e off g1 He Hok1 _. apply then_tame; [by apply (Hl e He)|]. intros n g2 Hg2.
        apply tame_ret_at; [apply Hg2|done].
      + intros off g1 Hg1. destruct (_ =? _); [apply tame_ret_at; [apply Hg1|done]|apply tame_throw_at, Hg1].
    - apply then_tame.
      + apply tame_iter_at; [|done|done]. intros e i g1 He Hok1 _. destruct (es !! i); [|by apply reads_any; [apply reads_lift|]].
        apply then_tame; [by apply (Hl e He)|]. intros n g2 Hg2. apply tame_ret_at; [apply Hg2|done].
      + intros i g1 Hg1. apply tame_ret_at; [apply Hg1|done]. }
  split; try done.
  - intros g Hok. apply tame_iter_at; [|done|done]. intros e s g1 He Hok1 _. apply then_tame; [by apply (Hl e He)|]. intros s' g2 Hg2.
    apply tame_ret_at; [apply Hg2|done].
  - intros g Hok. destruct l as [|e0 l'] eqn:Hl'.
    + apply reads_then; [apply reads_lift|done|]. intros t. apply with_ref_with; [done|by eapply fresh_weaken, new_ref_spec|].
      intros r g1 Hok1 Hlr. apply ref_copy_with; [done|apply Hlr].
    + rewrite <- Hl' in *. assert (Hne : l <> []) by congruence. clear Hl'. cbn [to_ref Sequence_methods].
      destruct l as [|e1 l2]; [done|].
      eapply tame_bind_at.
      * apply (tame_iter_at None True _ _ any); [|done|done]. intros e ts g1 He Hok1 _.
        apply then_tame; [by apply element_type_of_spec; [apply (Hl e He)|]|]. intros t g2 Hg2. apply tame_ret_at; [apply Hg2|done].
      * intros ts g1 Hg1 _. cbn zeta. eapply tame_mono_at; [|intros r g' _ Hf; by eapply fresh_step].
        apply reads_then; [|apply Hg1|].
        { destruct ts; [apply reads_lift|]. destruct (all_equal _); [apply reads_ret|apply reads_lift]. }
        intros t. apply to_ref_typed_spec; [exact Hcv|apply Hg1].
Qed.

Lemma Mapping_tame l : Forall (fun p => tame_methods p.2) l -> tame_methods (Mapping_methods l).
Proof.
  intros Hl. rewrite list.Forall_forall in Hl.
  assert (Hcv : forall b t g, ok g -> tm g (copy_value (Mapping_methods l) b t) any).
  { intros b t g Hok. destruct t as [| |? ms ?| |]; try by apply tame_throw_at. apply then_tame.
    - apply tame_iter_at; [|done|done]. intros e u g1 He Hok1 _. destruct (list_find _ _) as [[i m]|]; [|by apply tame_throw_at].
      apply then_tame; [by apply (Hl e He)|]. intros n g2 Hg2. apply tame_ret_at; [apply Hg2|done].
    - intros u g1 Hg1. apply tame_ret_at; [apply Hg1|done]. }
  split; try done.
  intros g Hok. cbn [to_ref Mapping_methods]. eapply tame_bind_at.
  - apply (tame_iter_at None True _ _ any); [|done|done]. intros e [[ms disp] al] g1 He Hok1 _.
    eapply with_ref_rights; [done|apply with_ref_with; [done|by eapply fresh_weaken, (tame_to_ref _ (Hl e He))|]|].
    + intros r g2 Hok2 Hlr. apply (ref_copy_with g2 true true); [done|apply Hlr].
    + intros r g2 Hok2 Hlr _. apply reads_then; [apply ref_type_reads|done|]. intros t.
      apply reads_then; [apply reads_lift|done|]. intros p. by apply tame_ret_at.
  - intros [[ms disp] al] g1 Hg1 _. eapply tame_mono_at; [|intros r g' _ Hf; by eapply fresh_step].
    apply reads_then; [apply reads_lift|apply Hg1|]. intros p. apply to_ref_typed_spec; [exact Hcv|apply Hg1].
Qed.

(** ** Every expression *)

Fixpoint methods_of_tame (e : Impl) : tame_methods (methods_of e)
with accessor_of_tame (a : Accessor) : tame_accessor (accessor_of a).
Proof.
  - destruct e as [v|v|first ops|name subs fmt|start vs|l|l].
    + apply Int_literal_tame.
    + apply Float_literal_tame.
    + apply Operation_tame; [apply methods_of_tame|]. induction ops as [|o ops IH]; constructor; [apply methods_of_tame|exact IH].
    + apply Reference_expression_tame. induction subs as [|a subs IH]; constructor; [apply accessor_of_tame|exact IH].
    + apply String_literal_tame. induction vs as [|v vs IH]; constructor; [apply methods_of_tame|exact IH].
    + apply Sequence_tame. induction l as [|x l IH]; constructor; [apply methods_of_tame|exact IH].
    + apply Mapping_tame. induction l as [|x l IH]; constructor; [apply methods_of_tame|exact IH].
  - destruct a as [e|e]; apply methods_of_tame.
Qed.

(** ** Every template *)

Lemma to_size_tame e g : ok g -> tm g (to_size expr_to_long e) any.
Proof.
  intros Hok. apply then_tame; [by apply (tame_to_long _ (methods_of_tame e))|]. intros v g1 Hg1. apply tame_ret_at; [apply Hg1|done].
Qed.

Lemma opt_to_size_tame e g : ok g -> tm g (opt_to_size expr_to_long e) any.
Proof. intros Hok. destruct e; [by apply to_size_tame|by apply reads_any; [apply reads_lift|]]. Qed.

Lemma layout_members_tame {X N} (conv : X -> M (global W) Datatype) (mk : X -> Z -> Datatype -> N) ms g :
  Forall (fun m => forall g, ok g -> tm g (conv m) any) ms -> ok g -> tm g (layout_members conv mk ms) any.
Proof.
  intros Hms Hok. apply then_tame.
  - generalize 0 at 1 as d. generalize 0 as al. revert g Hok.
    induction Hms as [|m ms Hm Hms IH]; intros g Hok al d; simpl; [by apply tame_ret_at|].
    apply then_tame; [by apply Hm|]. intros t g1 Hg1. apply reads_then; [apply reads_lift|apply Hg1|]. intros p.
    apply then_tame; [apply IH, Hg1|]. intros [[ns d'] al'] g2 Hg2. apply tame_ret_at; [apply Hg2|done].
  - intros [[ns d] al] g1 Hg1. apply reads_then; [apply reads_lift|apply Hg1|]. intros b. apply tame_ret_at; [apply Hg1|done].
Qed.

Lemma each_of_tame {X N} (f : X -> M (global W) N) l :
  Forall (fun x => forall g, ok g -> tm g (f x) any) l -> forall g, ok g -> tm g (each_of f l) any.
Proof.
  induction 1 as [|x l Hx _ IH]; intros g Hok; simpl; [by apply tame_ret_at|].
  apply then_tame; [by apply Hx|]. intros n g1 Hg1. apply then_tame; [apply IH, Hg1|]. intros r g2 Hg2. apply tame_ret_at; [apply Hg2|done].
Qed.

Fixpoint evaluate_tame (t : Template) : forall g, ok g -> tm g (evaluate expr_to_long t) any.
Proof.
  assert (Hret : forall A (a : A) g g', good None g g' -> tm g' (mret a) any) by (intros A a g g' Hg; apply tame_ret_at; [apply Hg|done]).
  destruct t as [a k size al|a sub size start ssize|a ms bs|a ms|a sub|a es bs|t]; intros g Hok; cbn [evaluate].
  - apply then_tame; [by apply to_size_tame|]. intros s g1 Hg1. apply then_tame; [apply to_size_tame, Hg1|]. intros x g2 Hg2.
    apply reads_any; [apply reads_lift|apply Hg2].
  - apply then_tame; [by apply evaluate_tame|]. intros t g1 Hg1. apply then_tame; [apply to_size_tame, Hg1|]. intros s g2 Hg2.
    apply then_tame; [apply to_size_tame, Hg2|]. intros x g3 Hg3. apply then_tame; [apply to_size_tame, Hg3|]. intros y g4 Hg4. eapply Hret, Hg4.
  - apply then_tame; [|intros ms' g1 Hg1; apply then_tame; [apply to_size_tame, Hg1|]; intros b g2 Hg2; eapply Hret, Hg2].
    apply each_of_tame; [|done]. induction ms as [|m ms IH]; constructor; [|exact IH]. intros g0 Hok0.
    apply then_tame; [by apply to_size_tame|]. intros d g1 Hg1. apply then_tame; [apply evaluate_tame, Hg1|]. intros t g2 Hg2. eapply Hret, Hg2.
  - apply then_tame; [|intros [ms' b] g1 Hg1; eapply Hret, Hg1]. apply layout_members_tame; [|done].
    induction ms as [|m ms IH]; constructor; [apply evaluate_tame|exact IH].
  - apply then_tame; [by apply evaluate_tame|]. intros t g1 Hg1. eapply Hret, Hg1.
  - assert (Hall : Forall (fun e => forall g, ok g -> tm g (evaluate expr_to_long e.2) any) es).
    { induction es as [|e es IH]; constructor; [apply evaluate_tame|exact IH]. }
    unfold tuple_evaluate. destruct es as [|[[disp|] et] es]; [by apply reads_any; [apply reads_lift|]| |].
    + apply then_tame; [by apply opt_to_size_tame|]. intros b g0 Hg0.
      apply then_tame; [|intros es' g1 Hg1; eapply Hret, Hg1]. apply each_of_tame; [|apply Hg0].
      eapply list.Forall_impl; [exact Hall|]. intros e He g1 Hok1. apply then_tame; [by apply opt_to_size_tame|]. intros d g2 Hg2.
      apply then_tame; [apply He, Hg2|]. intros t g3 Hg3. eapply Hret, Hg3.
    + apply then_tame; [|intros [es' b] g1 Hg1; eapply Hret, Hg1]. by apply layout_members_tame.
  - by eapply Hret, good_refl.
Qed.

End evaluation.
