(* ===== verification/Share.v ===== *)
(** Sharing data with the library: [Data_descriptor_impl::share] of a raw
    pointer and the operations a client runs on descriptors, with what they guarantee. *)

From S2P Require Import Prelude Error Effect ExprSyntax Datatype Layout Memory DenseCopy DenseCopyFacts Access Ref RefInv RefOps RefTheorems RefCopy Numeric Parse Template GlobalContext Eval ContextInv DescriptorInv EvalInv.

Section operations.
  Context {W : Type} {RT : Runtime W}.

Abbreviation G := (M (global W)).

(** [Data_descriptor_impl::share] of a raw pointer: on error the data is given
    back instead of being freed. *)
Definition share_data (name : string) (data : Z) (read write : bool) : G unit :=
  in_context ("Unable to share `" +:+ name +:+ "', ") (
    assert_placeholder name;;
    d ← get_desc name;
    t ← evaluate_in_context (m_type d);
    with_ref (on_store (new_ref false false data free_function t read write)) (fun r =>
      catch (share_ref name r false false;; mret tt) (fun e => ref_release r;; assert_placeholder name;; throw e));;
    assert_placeholder name).

(** [desc.share(desc.ref(), read, write)] *)
Definition access_data (name : string) (read write : bool) : G Z :=
  with_ref (ref name) (fun r => share_ref name r read write).

(** The operations of a client on the descriptors of a context. *)
Inductive ctx_op :=
  | Op_default_type (name : string) (t : Template)
  | Op_metadata (name : string) (metadata : bool)
  | Op_share (name : string) (data : Z) (read write : bool)
  | Op_access (name : string) (read write : bool)
  | Op_release (name : string)
  | Op_reclaim (name : string)
  | Op_event (name : string).

Definition run_op (o : ctx_op) : G Z :=
  match o with
  | Op_default_type name t => desc name;; default_type name t;; mret nullptr
  | Op_metadata name b => desc name;; set_metadata name b;; mret nullptr
  | Op_share name data read write => desc name;; share_data name data read write;; mret nullptr
  | Op_access name read write => desc name;; access_data name read write
  | Op_release name => desc name;; release_desc name;; mret nullptr
  | Op_reclaim name => desc name;; reclaim name
  | Op_event name => notify_event name;; mret nullptr
  end.

End operations.

(** * The invariant *)

Section invariant.
  Context {W : Type} {RT : Runtime W} {PL : Plugins W}.

Implicit Types g : global W.

Abbreviation ok := (ctx_ok None).

Lemma set_meta_ok g name d b :
  ok g -> m_descriptors g !! name = Some d -> m_refs d = [] ->
  let g' := set_descriptors (<[name := mkDescriptor (m_type d) b []]> (m_descriptors g)) g in
  ctx_ok (Some name) g' /\ framed g g' /\ (b = false -> ok g').
Proof.
  intros [Hinv Hh Ho Hdj Hm] Hd Hnil g'.
  assert (Hds : m_descriptors g' = <[name := mkDescriptor (m_type d) b []]> (m_descriptors g)) by done.
  assert (Hold : forall n x r, m_descriptors g' !! n = Some x -> r ∈ m_refs x -> m_descriptors g !! n = Some x).
  { intros n x r Hx Hr. rewrite Hds in Hx; apply lookup_insert_Some in Hx as [[<- <-]|[_ Hx]]; [by apply not_elem_of_nil in Hr|done]. }
  assert (Hok : ctx_ok (Some name) g').
  { split; try done.
    - intros n x r Hx Hr. eapply Hh; [|done]. by eapply Hold.
    - intros n x Hx. rewrite Hds in Hx; apply lookup_insert_Some in Hx as [[<- <-]|[_ Hx]]; [constructor|by eapply Ho].
    - intros n n' x x' r Hx Hx' Hr Hr'. eapply Hdj; [by eapply Hold|by eapply (Hold n')|done|done].
    - intros n x HX Hx. rewrite Hds in Hx; apply lookup_insert_Some in Hx as [[<- <-]|[_ Hx]]; [congruence|by eapply Hm]. }
  split_and!; [apply Hok..| |].
  - split; try done.
    + intros r [He Hs]. split; [done|]. intros (n & x & Hx & Hr). apply Hs. exists n, x. split; [by eapply Hold|done].
    + intros r x Hr _. by exists x.
    + intros n x Hx. destruct (decide (n = name)) as [->|Hne].
      * exists (mkDescriptor (m_type d) b []). unfold g'; simpl. rewrite lookup_insert_eq. simplify_eq. by rewrite Hnil.
      * exists x. unfold g'; simpl. by rewrite lookup_insert_ne.
  - intros ->. destruct Hok as [? ? ? ? _]. split; try done. intros n x _ Hx. rewrite Hds in Hx; apply lookup_insert_Some in Hx as [[<- <-]|[_ Hx]]; [done|].
    by eapply Hm.
Qed.

Lemma set_metadata_spec C g name d b :
  ok g -> m_descriptors g !! name = Some d -> tame_at None C g (set_metadata name b) (fun _ _ => True).
Proof.
  intros Hok Hd. eapply wp_assert_placeholder; [done..|]. eapply wp_get_desc; [done|].
  destruct (m_refs d) as [|? ?] eqn:Hnil; [|by apply tame_throw_at].
  destruct (set_meta_ok g name d b Hok Hd Hnil) as (Hok1 & Hf1 & Hok1').
  apply wp_bind. unfold wp, set_desc, modify. set (g1 := set_descriptors _ g) in *.
  assert (Hd1 : m_descriptors g1 !! name = Some (mkDescriptor (m_type d) b [])) by (unfold g1; simpl; by rewrite lookup_insert_eq).
  apply wp_bind. destruct b.
  - apply wp_with_ref. eapply wp_mono; [by apply (ref_null_exact (Some name) C _ _ _ (fun _ _ => False))| |done].
    intros r g2 (Hg2 & [Hl Hn] & Hs2).
    eapply wp_mono; [apply (hold_spec C g2 name (mkDescriptor (m_type d) true []) true false r (fun _ _ => False)); [apply Hg2|rewrite Hs2; exact Hd1|apply Hl]| |done].
    intros [] g3 [Hg3 (h & Hds3)]. destruct (fr_local _ _ (proj2 Hg3) r Hl) as [He3 Hns3]. split_and!; [apply Hg3|done|].
    intros g4 Hrem. assert (Hg4 : good None g1 g4).
    { eapply removed_good; [apply Hok1| |exact Hn|exact Hns3|exact Hrem]. split; [apply Hg3|]. etrans; [apply Hg2|apply Hg3]. }
    cbn. assert (Hd4 : is_Some (m_descriptors g4 !! name)).
    { destruct (framed_desc _ _ name _ (proj2 Hg4) Hd1) as (d4 & Hd4 & _). by exists d4. }
    destruct Hd4 as [d4 Hd4]. unfold wp, assert_placeholder, mbind, M_bind, get_desc. rewrite Hd4.
    rewrite (ok_has_placeholder g4 name d4) by (apply Hg4 || done). cbn. split; [|done]. split; [apply Hg4|]. etrans; [exact Hf1|apply Hg4].
  - apply wp_ret. cbn. unfold wp, assert_placeholder, mbind, M_bind, get_desc. rewrite Hd1. cbn. split; [|done]. split; auto.
Qed.

Lemma default_type_spec C g name d t :
  ok g -> m_descriptors g !! name = Some d -> tame_at None C g (default_type name t) (fun _ _ => True).
Proof.
  intros Hok Hd. eapply wp_get_desc; [done|]. unfold wp, set_desc, modify. split; [|done]. by eapply set_desc_ok.
Qed.

(** [share] of a raw pointer; only the evaluation of the type can be undefined. *)
Lemma share_data_spec C g name d data read write :
  ok g -> m_descriptors g !! name = Some d -> (evaluate_in_context (m_type d) g = Crashed -> C) ->
  tame_at None C g (share_data name data read write)
    (fun _ g' => exists d', m_descriptors g' !! name = Some d' /\ (length (m_refs d) < length (m_refs d'))%nat).
Proof.
  intros Hok Hd Hev. apply tame_in_context_at. eapply wp_assert_placeholder; [done..|]. eapply wp_get_desc; [done|].
  eapply (tame_bind_at None C g _ _ (fun _ _ => True)).
  { apply wp_crash_apart; [by apply evaluate_tame|done]. }
  intros t g1 Hg1 _. destruct (framed_desc g g1 name d (proj2 Hg1) Hd) as (d1 & Hd1 & Hlen1).
  eapply (tame_bind_at None C g1 _ _ (fun _ g' => exists d', m_descriptors g' !! name = Some d' /\ (length (m_refs d) < length (m_refs d'))%nat)).
  2: { intros [] g2 Hg2 (d2 & Hd2 & Hlen2). unfold tame_at, wp, assert_placeholder, mbind, M_bind, get_desc. rewrite Hd2.
       rewrite (ok_has_placeholder g2 name d2) by (apply Hg2 || done). cbn. split; [apply good_refl, Hg2|by exists d2]. }
  apply wp_with_ref. pose proof (new_ref_spec g1 false false data free_function t read write (proj1 Hg1)) as Hnew.
  assert (Hnc : on_store (new_ref false false data free_function t read write) g1 <> Crashed).
  { unfold on_store, zoom. destruct (new_ref_ok (g_store g1) false false data free_function t read write (ok_store _ _ (proj1 Hg1)))
      as [(e & -> & _)|(st' & c & -> & _)]; done. }
  eapply wp_mono; [apply wp_crash_apart; [exact Hnew|intros; done]| |done].
  intros r g2 [Hg2 [[Hl Hn] _]]. destruct (framed_desc g1 g2 name d1 (proj2 Hg2) Hd1) as (d2 & Hd2 & Hlen2).
  apply wp_catch, wp_bind. eapply wp_mono; [apply (share_ref_spec C g2 name d2 r false false); [apply Hg2|done|done]| |].
  - intros a g3 [Hg3 (d3 & Hd3 & Hlen3)]. cbn. destruct (fr_local _ _ (proj2 Hg3) r Hl) as [He3 Hns3]. split_and!; [apply Hg3|done|].
    intros g4 Hrem. split.
    + eapply removed_good; [apply Hg1|exact (good_trans None _ _ _ Hg2 Hg3)|exact Hn|exact Hns3|exact Hrem].
    + exists d3. destruct Hrem as (st' & -> & _). split; [done|lia].
  - intros e g3 Hg3. apply wp_bind.
    eapply wp_mono; [apply (ref_release_spec C g3 r (fun _ _ => False)); [apply Hg3|by apply (fr_local _ _ (proj2 Hg3))]| |done].
    intros a g4 Hg4. cbn. assert (Hg24 : good None g2 g4) by exact (good_trans None _ _ _ Hg3 Hg4).
    destruct (framed_desc g2 g4 name d2 (proj2 Hg24) Hd2) as (d4 & Hd4 & _). eapply wp_assert_placeholder; [apply Hg4|done|]. apply wp_throw.
    destruct (fr_local _ _ (proj2 Hg24) r Hl) as [He4 Hns4]. split_and!; [apply Hg4|done|]. intros g5 Hrem.
    eapply removed_good; [apply Hg1|exact (good_trans None _ _ _ Hg2 Hg24)|exact Hn|exact Hns4|exact Hrem].
Qed.

Lemma access_data_spec C g name d read write :
  ok g -> m_descriptors g !! name = Some d -> tame_at None C g (access_data name read write) (fun _ _ => True).
Proof.
  intros Hok Hd. apply wp_with_ref. eapply wp_mono; [by eapply ref_spec| |done]. intros r g1 [Hg1 [Hl Hn]].
  destruct (framed_desc g g1 name d (proj2 Hg1) Hd) as (d1 & Hd1 & _).
  eapply wp_mono; [apply (share_ref_spec C g1 name d1 r read write); [apply Hg1|done|done]| |].
  - intros a g2 [Hg2 _]. destruct (fr_local _ _ (proj2 Hg2) r Hl) as [He Hns]. split_and!; [apply Hg2|done|]. intros g3 Hrem. split; [|done].
    eapply removed_good; [apply Hok|exact (good_trans None _ _ _ Hg1 Hg2)|exact Hn|exact Hns|exact Hrem].
  - intros e g2 Hg2. destruct (fr_local _ _ (proj2 Hg2) r Hl) as [He Hns]. split_and!; [apply Hg2|done|]. intros g3 Hrem.
    eapply removed_good; [apply Hok|exact (good_trans None _ _ _ Hg1 Hg2)|exact Hn|exact Hns|exact Hrem].
Qed.

Definition with_desc (name : string) g : global W :=
  match m_descriptors g !! name with
  | Some _ => g
  | None => set_descriptors (<[name := empty_descriptor]> (m_descriptors g)) g
  end.

Definition descriptor_of (name : string) g : Descriptor := default empty_descriptor (m_descriptors g !! name).

Lemma desc_runs name g : desc name g = Done tt (with_desc name g).
Proof. done. Qed.

Lemma with_desc_lookup name g : m_descriptors (with_desc name g) !! name = Some (descriptor_of name g).
Proof. unfold with_desc, descriptor_of. destruct (m_descriptors g !! name) eqn:Hd; [done|]. simpl. by rewrite lookup_insert_eq. Qed.

Lemma with_desc_good name g : ok g -> good None g (with_desc name g).
Proof. intros Hok. pose proof (desc_spec True g name None Hok) as H. unfold tame_at, wp in H. rewrite desc_runs in H. apply H. Qed.

(** What can be undefined in an operation is the evaluation of a type, or the
    copy of the metadata that is reclaimed. *)
Definition defined (o : ctx_op) g : Prop :=
  match o with
  | Op_share name _ _ _ => evaluate_in_context (m_type (descriptor_of name g)) (with_desc name g) <> Crashed
  | Op_reclaim name => m_metadata (descriptor_of name g) = false
  | _ => True
  end.

(** A descriptor operation after [desc]. *)
Lemma after_desc {A} C g name (m : M (global W) A) Q E :
  wp C m Q E (with_desc name g) -> wp C (desc name;; m) Q E g.
Proof. done. Qed.

Lemma ret_after {A} C (m : M (global W) A) (P : global W -> Prop) (E : exn -> global W -> Prop) g :
  wp C m (fun _ => P) E g -> wp C (m;; mret nullptr) (fun _ => P) E g.
Proof. intros H. apply wp_bind. eapply wp_mono; [exact H|done..]. Qed.

(** The placeholders of the metadata. *)
Definition placeholders g : Prop := forall n d, m_descriptors g !! n = Some d -> m_metadata d = true -> m_refs d <> [].

(** The store of references is consistent, and the stacks hold references that
    exist, each once and on one stack only. *)
Definition consistent g : Prop :=
  inv (g_store g) /\
  (forall n d r, m_descriptors g !! n = Some d -> r ∈ m_refs d -> is_Some (refs (g_store g) !! r)) /\
  (forall n n' d d' r, m_descriptors g !! n = Some d -> m_descriptors g !! n' = Some d' -> r ∈ m_refs d -> r ∈ m_refs d' -> n = n') /\
  (forall n d, m_descriptors g !! n = Some d -> NoDup (m_refs d)).

Lemma ok_consistent X g : ctx_ok X g -> consistent g.
Proof. intros [Hinv Hh Ho Hd _]. split_and!; [exact Hinv|exact Hh|exact Hd|exact Ho]. Qed.

Lemma ok_iff g : ok g <-> consistent g /\ placeholders g.
Proof.
  split.
  - intros Hok. split; [by apply (ok_consistent None)|]. intros n d. by apply (ok_metadata _ _ Hok).
  - intros [(Hinv & Hh & Hd & Ho) Hp]. split; [exact Hinv|exact Hh|exact Ho|exact Hd|]. intros n d _. apply Hp.
Qed.

(** The operation reclaims a metadata. *)
Definition copies_metadata (o : ctx_op) g : Prop := exists name, o = Op_reclaim name /\ m_metadata (descriptor_of name g) = true.

Lemma run_op_spec (C : Prop) g o :
  ok g -> (~ defined o g -> C) ->
  wp C (run_op o) (fun _ g' => ok g') (fun _ g' => consistent g' /\ (placeholders g' \/ copies_metadata o g)) g.
Proof.
  intros Hok HC.
  assert (Hgood : forall g', ok g' -> consistent g' /\ (placeholders g' \/ copies_metadata o g)) by (intros g' [? ?]%ok_iff; auto).
  assert (Hfin : forall A name (m : M (global W) A) Q, tame_at None C (with_desc name g) m Q ->
            wp C m (fun _ => ok) (fun _ g' => consistent g' /\ (placeholders g' \/ copies_metadata o g)) (with_desc name g)).
  { intros A name m Q Hm. eapply wp_mono; [exact Hm| |]; intros; [apply H|apply Hgood, H]. }
  destruct o as [name t|name b|name data read write|name read write|name|name|name]; cbn [run_op].
  1-6: assert (Hok1 : ok (with_desc name g)) by (by apply with_desc_good); pose proof (with_desc_lookup name g) as Hd1.
  - apply after_desc, ret_after. eapply Hfin, default_type_spec; done.
  - apply after_desc, ret_after. eapply Hfin, set_metadata_spec; done.
  - apply after_desc, ret_after. eapply Hfin, share_data_spec; [done..|]. intros Hc. apply HC. simpl. by intros [].
  - apply after_desc. eapply Hfin, access_data_spec; done.
  - apply after_desc, ret_after. eapply wp_mono; [by eapply release_desc_spec|..]; intros ? ? [? _]; [done|by apply Hgood].
  - apply after_desc. eapply wp_mono; [eapply (reclaim_spec C); [done|done|]|..].
    + intros Hm g1 r _. apply HC. simpl. congruence.
    + by intros ? ? [? _].
    + intros e g' [[[Hm Hc]|?] _]; [|by apply Hgood]. split; [by apply (ok_consistent (Some name))|by right; exists name].
  - apply ret_after. eapply wp_mono; [by apply (notify_named_spec C)|..]; intros; [apply H|apply Hgood, H].
Qed.

(** The states of a context that a program reaches by calling operations that
    return or throw; the state after a [reclaim] that has lost the placeholder of
    a metadata, because the copy of the data threw, is left out. *)
Definition initial g : Prop := g_store g = empty_store /\ m_descriptors g = ∅.

Inductive ctx_step g : global W -> Prop :=
  | step_returns o a g' : run_op o g = Done a g' -> ctx_step g g'
  | step_throws o e g' : run_op o g = Thrown e g' -> defined o g \/ placeholders g' -> ctx_step g g'.

Definition ctx_reachable g : Prop := exists g0, initial g0 /\ rtc ctx_step g0 g.

Lemma initial_ok g : initial g -> ok g.
Proof.
  intros [Hst Hds]. split; rewrite ?Hst, ?Hds; [apply inv_empty|..]; intros n; intros; by rewrite lookup_empty in *.
Qed.

Lemma ctx_step_ok g g' : ctx_step g g' -> ok g -> ok g'.
Proof.
  intros Hstep Hok. destruct Hstep as [o a g' Hrun|o e g' Hrun Hdef]; pose proof (run_op_spec True g o Hok ltac:(done)) as H;
    unfold wp in H; rewrite Hrun in H; [done|]. apply ok_iff. split; [apply H|]. destruct H as [_ [?|(name & -> & Hm)]]; [done|]. destruct Hdef as [Hdef|?]; [|done]. simpl in Hdef. congruence.
Qed.

Lemma ctx_reachable_ok g : ctx_reachable g -> ok g.
Proof.
  intros (g0 & Hinit & Hsteps). apply initial_ok in Hinit. induction Hsteps as [|g1 g2 g3 Hstep _ IH]; [done|]. by apply IH, (ctx_step_ok g1).
Qed.

(** * Theorems *)

(** C4: whatever well-behaved plugins do when they are notified, in every state a
    program reaches through the descriptors by operations that return, or throw
    without losing the placeholder of a metadata, the store of references is
    consistent, each holder is on exactly one stack and still exists, and a
    metadata descriptor keeps a placeholder.  The only operation whose exception
    can lose a placeholder is [reclaim] of a metadata, whose copy may throw after
    the placeholder is popped; in the state it leaves, as after any exception, all
    the rest still holds. *)
Theorem context_invariant g :
  ctx_reachable g ->
  consistent g /\ placeholders g /\
  forall o e g', run_op o g = Thrown e g' ->
    consistent g' /\ (placeholders g' \/ copies_metadata o g).
Proof.
  intros Hr. pose proof (ctx_reachable_ok g Hr) as Hok. pose proof (proj1 (ok_iff g) Hok) as [Hc Hp]. split_and!; [done..|].
  intros o e g' Hrun. pose proof (run_op_spec True g o Hok ltac:(done)) as H. unfold wp in H. by rewrite Hrun in H.
Qed.


End invariant.
