(* ===== verification/ShareFacts.v ===== *)
(** What sharing and reclaiming do, when the plugins that are notified only
    observe: the stack grows by one holder of the shared data, and reclaiming
    gives the same address back without freeing it. *)

From S2P Require Import Prelude Error Effect ExprSyntax Datatype Layout Memory DenseCopy DenseCopyFacts Access Ref RefInv RefOps RefTheorems RefCopy Numeric Parse Template GlobalContext Eval ContextInv DescriptorInv EvalInv Share.

(** Plugins that look at the data and change their own state only. *)
Class Observers (W : Type) {P : Platform W} : Prop := {
  observe : forall h name arg g, exists w, invoke h name arg g = Done tt (set_world w g);
  observe_null : forall f arg st, notify f arg st = Ret st
}.

(** Observers are well-behaved plugins. *)
#[export] Instance observers_plugins {W} {P : Platform W} {OB : Observers W} : Plugins W.
Proof.
  split. intros h name arg g Hok _. unfold tame_at, wp. destruct (observe h name arg g) as [w ->].
  split; [|done]. destruct Hok as [? ? ? ? ?]. split; split; try done; eauto.
Qed.

(** No reference. *)
Abbreviation nothing := (fun _ : nat => False).

Section facts.
  Context {W : Type} {P : Platform W} {OB : Observers W}.

Implicit Types g : global W.

(** The references other than those of [X] are as they were, and so is the data
    they are linked to; the stacks are considered apart. *)
Record calm (X : nat -> Prop) g g' : Prop := {
  cm_inv : inv (g_store g');
  cm_next : (next (g_store g) <= next (g_store g'))%nat;
  cm_refs : forall r x, ~ X r -> refs (g_store g) !! r = Some x -> refs (g_store g') !! r = Some x;
  cm_datas : forall d dd, (d < next (g_store g))%nat -> datas (g_store g') !! d = Some dd -> datas (g_store g) !! d = Some dd;
  cm_mem : g_mem g' = g_mem g;
  cm_callbacks : m_callbacks g' = m_callbacks g
}.

Lemma calm_refl g : inv (g_store g) -> calm nothing g g.
Proof. by intros Hinv. Qed.

Lemma calm_trans X Y g1 g2 g3 : calm X g1 g2 -> calm Y g2 g3 -> calm (fun r => X r \/ Y r) g1 g3.
Proof.
  intros [I1 N1 R1 D1 M1 C1] [I2 N2 R2 D2 M2 C2]. split; [done|lia| | |congruence..].
  - intros r x HX Hr. apply R2; [tauto|]. apply R1; [tauto|done].
  - intros d dd Hd Hdd. apply D1; [done|]. apply D2; [lia|done].
Qed.

Lemma calm_weaken X Y g g' : calm X g g' -> (forall r, is_Some (refs (g_store g) !! r) -> X r -> Y r) -> calm Y g g'.
Proof. intros [? ? R ? ? ?] HXY. split; try done. intros r x HY Hr. apply R; [|done]. intros HX. apply HY, HXY; [by exists x|done]. Qed.

Lemma calm_ref g g' r x : calm nothing g g' -> refs (g_store g) !! r = Some x -> refs (g_store g') !! r = Some x.
Proof. intros C. apply (cm_refs _ _ _ C). tauto. Qed.

Lemma calm_step g1 g2 g3 : calm nothing g1 g2 -> calm nothing g2 g3 -> calm nothing g1 g3.
Proof. intros C1 C2. eapply calm_weaken; [by eapply calm_trans|]. by intros r _ [|]. Qed.

(** A reference linked to data. *)
Definition links g r d dd : Prop :=
  exists x, refs (g_store g) !! r = Some x /\ m_content x = Some d /\ datas (g_store g) !! d = Some dd.

Lemma calm_held X g g' r x d dd : inv (g_store g) -> calm X g g' -> ~ X r ->
  refs (g_store g) !! r = Some x -> m_content x = Some d -> datas (g_store g) !! d = Some dd ->
  refs (g_store g') !! r = Some x /\ datas (g_store g') !! d = Some dd.
Proof.
  intros [Hwf _] [Hinv' Hn Hr Hd _ _] HX Hx Hc Hdd. specialize (Hr r x HX Hx). split; [done|].
  destruct (wf_content _ (proj1 Hinv') _ _ _ Hr Hc) as [dd' Hdd']. rewrite Hdd'. f_equal.
  apply Hd in Hdd'; [congruence|]. apply (wf_next_datas _ Hwf). by exists dd.
Qed.

Lemma calm_links X g g' r d dd : inv (g_store g) -> calm X g g' -> ~ X r -> links g r d dd -> links g' r d dd.
Proof. intros Hinv C HX (x & Hx & Hc & Hdd). exists x. by destruct (calm_held X g g' r x d dd Hinv C HX Hx Hc Hdd). Qed.

Lemma links_exists g r d dd : links g r d dd -> exists_ref g r.
Proof. intros (x & Hx & _). by exists x. Qed.

(** ** References *)

Lemma copy_runs g R V r :
  inv (g_store g) -> exists_ref g r ->
  exists g', ref_copy R V r g = Done (next (g_store g)) g' /\ calm nothing g g' /\ m_descriptors g' = m_descriptors g /\
    exists_ref g' (next (g_store g)) /\
    (R = false -> V = false -> forall d dd, links g r d dd -> data_address dd <> nullptr -> links g' (next (g_store g)) d dd).
Proof.
  intros Hinv [x Hx]. unfold ref_copy, on_store, zoom.
  destruct (new_copy_ok (g_store g) R V r x Hinv Hx) as (st' & c & -> & Hst & Hrefs & Hn & Hds & Hc). destruct (Hst Hinv) as [Hinv' _].
  exists (set_store st' g). split; [done|].
  assert (Hcalm : calm nothing g (set_store st' g)).
  { split; simpl; try done; [lia| |].
    - intros r' y _ Hy. rewrite Hrefs, lookup_insert_ne; [done|]. intros <-. by apply (fresh_ref _ _ _ Hinv Hy).
    - intros d dd _ Hd. by apply (lookup_weaken _ _ _ _ Hd). }
  split_and!; [done|done|unfold exists_ref; simpl; by rewrite Hrefs, lookup_insert_eq|].
  intros -> -> d dd Hl Hnn. pose proof Hl as (x' & Hx' & Hxc & Hd). simplify_eq.
  destruct (linked_points_to (g_store g) r x d Hinv Hx Hxc) as (dd' & b & Hpt). pose proof Hpt as (_ & _ & Hd' & _). simplify_eq.
  rewrite (Hc d dd b Hpt Hnn) in Hrefs. simpl in Hrefs.
  exists (mkReference false false (Some d)). split; [simpl; by rewrite Hrefs, lookup_insert_eq|]. split; [done|].
  eapply calm_links in Hl as (y & Hy & Hyc & Hyd); [exact Hyd|done|exact Hcalm|tauto].
Qed.

Lemma destroy_runs g r :
  inv (g_store g) -> exists_ref g r ->
  exists g', ref_destroy r g = Done tt g' /\ calm (eq r) g g' /\ m_descriptors g' = m_descriptors g.
Proof.
  intros Hinv [x Hx]. unfold ref_destroy, unit_store, on_store, zoom.
  destruct (delete_ref_ok (g_store g) r x Hinv Hx) as (st' & -> & Hst & Hrefs & Hn & Hds). destruct (Hst Hinv) as [Hinv' _].
  exists (set_store st' g). split_and!; [done| |done]. split; simpl; try done; [lia| |].
  - intros r' y Hne Hy. by rewrite Hrefs, lookup_delete_ne.
  - intros d dd _ Hd. by apply (lookup_weaken _ _ _ _ Hd).
Qed.

Lemma is_null_runs g r d dd : links g r d dd -> data_address dd <> nullptr -> ref_is_null r g = Done false g.
Proof.
  intros (x & Hx & Hc & Hd) Hnn. unfold ref_is_null, on_store, zoom, is_null. rewrite Hx; cbn [deref mbind outcome_bind].
  rewrite Hc, Hd; cbn [deref mbind outcome_bind]. destruct (Z.eqb_spec (data_address dd) nullptr); [done|]. by destruct g.
Qed.

(** A block with a temporary reference that does not outlive it. *)
Lemma with_ref_calm {A} g g1 g2 (mk : M (global W) nat) (body : nat -> M (global W) A) r a :
  inv (g_store g) -> mk g = Done r g1 -> calm nothing g g1 -> (next (g_store g) <= r)%nat -> exists_ref g1 r ->
  body r g1 = Done a g2 -> calm nothing g1 g2 ->
  exists g3, with_ref mk body g = Done a g3 /\ calm nothing g g3 /\ m_descriptors g3 = m_descriptors g2 /\
    ref_destroy r g2 = Done tt g3 /\ calm (eq r) g2 g3.
Proof.
  intros Hinv Hmk C1 Hn [x Hx] Hbody C2.
  destruct (destroy_runs g2 r) as (g3 & Hrun & C3 & Hds3); [apply C2|exists x; by apply (calm_ref g1 g2 r x C2)|].
  exists g3. split; [|split_and!; [|done..]].
  - unfold with_ref, mbind, M_bind. rewrite Hmk. unfold finally. by rewrite Hbody, Hrun.
  - eapply calm_weaken; [eapply calm_trans; [eapply calm_trans; [exact C1|exact C2]|exact C3]|].
    intros r' Hr' [[[]|[]]|<-]. apply (wf_next_refs _ (proj1 Hinv)) in Hr'. lia.
Qed.

Lemma with_ref_runs {A} g g1 g2 (mk : M (global W) nat) (body : nat -> M (global W) A) r a :
  inv (g_store g) -> mk g = Done r g1 -> calm nothing g g1 -> (next (g_store g) <= r)%nat -> exists_ref g1 r ->
  body r g1 = Done a g2 -> calm nothing g1 g2 ->
  exists g3, with_ref mk body g = Done a g3 /\ calm nothing g g3 /\ m_descriptors g3 = m_descriptors g2 /\
    (forall h d dd, h <> r -> links g2 h d dd -> links g3 h d dd).
Proof.
  intros Hinv Hmk C1 Hn He Hbody C2. destruct (with_ref_calm g g1 g2 mk body r a Hinv Hmk C1 Hn He Hbody C2) as (g3 & Hrun & C3 & Hds3 & _ & C4).
  exists g3. split_and!; try done. intros h d dd Hne Hl. eapply calm_links; [apply C2|exact C4|by apply not_eq_sym|done].
Qed.

(** ** Notifications *)

Lemma call_runs g k name r c :
  inv (g_store g) -> registered k c.1 g = true -> (forall x, r = Some x -> exists_ref g x) ->
  exists g', call k name r c g = Done tt g' /\ calm nothing g g' /\ m_descriptors g' = m_descriptors g.
Proof.
  intros Hinv Hreg Hr. unfold call, mbind, M_bind. unfold gets. rewrite Hreg. cbn. destruct r as [r|].
  - destruct (copy_runs g false false r Hinv (Hr r eq_refl)) as (g1 & Hrun & C1 & Hds1 & He1 & _).
    destruct (observe c.2 name (Some (next (g_store g))) g1) as [w Hw].
    destruct (with_ref_runs g g1 (set_world w g1) (ref_copy false false r) (fun arg => invoke c.2 name (Some arg)) (next (g_store g)) tt)
      as (g3 & Hrun3 & C3 & Hds3 & _); try done.
    { split; try done; apply C1. }
    exists g3. split_and!; [done|done|]. rewrite Hds3. simpl. done.
  - destruct (observe c.2 name None g) as [w ->]. exists (set_world w g). by split_and!.
Qed.

Lemma call_all_runs k name r cs : forall g,
  inv (g_store g) -> (forall c, c ∈ cs -> registered k c.1 g = true) -> (forall x, r = Some x -> exists_ref g x) ->
  exists g', call_all k name r cs g = Done [] g' /\ calm nothing g g' /\ m_descriptors g' = m_descriptors g.
Proof.
  unfold call_all. induction cs as [|c cs IH]; intros g Hinv Hreg Hr; simpl.
  { exists g. split_and!; try done. }
  destruct (call_runs g k name r c Hinv) as (g1 & Hrun & C1 & Hds1); [apply Hreg, list_elem_of_here|done|].
  destruct (IH g1) as (g2 & Hrun2 & C2 & Hds2); [apply C1| | |].
  - intros c' Hc'. unfold registered. rewrite (cm_callbacks _ _ _ C1). apply Hreg. by apply list_elem_of_further.
  - intros x Hx. destruct (Hr x Hx) as [y Hy]. exists y. by apply (calm_ref g g1 x y C1).
  - exists g2. split_and!; [|by eapply calm_step|congruence].
    unfold mbind at 1, M_bind at 1, catch at 1. unfold mbind at 1, M_bind at 1. rewrite Hrun. cbn. exact Hrun2.
Qed.

Lemma notify_runs g k msg name r :
  inv (g_store g) -> (forall x, r = Some x -> exists_ref g x) ->
  exists g', notify_named k msg name r g = Done tt g' /\ calm nothing g g' /\ m_descriptors g' = m_descriptors g.
Proof.
  intros Hinv Hr. destruct (call_all_runs k name r (gather name (m_callbacks g k)) g Hinv) as (g1 & Hrun & C1 & Hds1);
    [intros c; apply gather_registered|done|].
  exists g1. split_and!; try done. unfold notify_named, registry, gets, mbind, M_bind. by rewrite Hrun.
Qed.

(** ** Stacks *)

Lemma set_descriptors_calm g ds : inv (g_store g) -> calm nothing g (set_descriptors ds g).
Proof. by intros Hinv. Qed.

Lemma push_runs g name d h :
  m_descriptors g !! name = Some d ->
  push name h g = Done tt (set_descriptors (<[name := mkDescriptor (m_type d) (m_metadata d) (h :: m_refs d)]> (m_descriptors g)) g).
Proof. intros Hd. unfold push, get_desc, set_desc, modify, mbind, M_bind. by rewrite Hd. Qed.

Lemma hold_runs g name d r dt dd :
  inv (g_store g) -> m_descriptors g !! name = Some d -> links g r dt dd -> data_address dd <> nullptr ->
  exists g' h, hold name false false r g = Done tt g' /\ calm nothing g g' /\
    m_descriptors g' = <[name := mkDescriptor (m_type d) (m_metadata d) (h :: m_refs d)]> (m_descriptors g) /\ links g' h dt dd /\
    (next (g_store g) <= h)%nat.
Proof.
  intros Hinv Hd Hl Hnn.
  destruct (copy_runs g false false r Hinv (links_exists _ _ _ _ Hl)) as (g1 & Hrun1 & C1 & Hds1 & He1 & Hl1).
  specialize (Hl1 eq_refl eq_refl dt dd Hl Hnn). pose proof (cm_inv _ _ _ C1) as Hinv1.
  destruct (copy_runs g1 false false (next (g_store g)) Hinv1 He1) as (g2 & Hrun2 & C2 & Hds2 & He2 & Hl2).
  specialize (Hl2 eq_refl eq_refl dt dd Hl1 Hnn). set (h := next (g_store g1)) in *.
  set (g2' := set_descriptors (<[name := mkDescriptor (m_type d) (m_metadata d) (h :: m_refs d)]> (m_descriptors g2)) g2).
  assert (C2' : calm nothing g1 g2').
  { eapply calm_step; [exact C2|]. apply set_descriptors_calm, C2. }
  destruct (with_ref_runs g g1 g2' (ref_copy false false r) (fun t => h ← ref_copy false false t; push name h) (next (g_store g)) tt)
    as (g3 & Hrun3 & C3 & Hds3 & Hl3); try done.
  { unfold mbind, M_bind. rewrite Hrun2. apply push_runs. by rewrite Hds2, Hds1. }
  exists g3, h. split_and!; [done|done| | |by apply (cm_next _ _ _ C1)].
  - rewrite Hds3. unfold g2'. simpl. by rewrite Hds2, Hds1.
  - apply Hl3; [|done]. intros Heq. pose proof (wf_next_refs _ (proj1 Hinv1) (next (g_store g)) He1). unfold h in Heq. lia.
Qed.

Lemma assert_runs g name d :
  m_descriptors g !! name = Some d -> (m_metadata d = false \/ m_refs d <> []) -> assert_placeholder name g = Done tt g.
Proof.
  intros Hd Hm. unfold assert_placeholder, get_desc, mbind, M_bind. rewrite Hd.
  assert (has_placeholder d = true) as ->; [|done]. unfold has_placeholder. destruct Hm as [-> |Hne]; [done|].
  rewrite bool_decide_eq_false_2 by done. apply orb_true_r.
Qed.

Lemma ref_runs g name d top rs :
  m_descriptors g !! name = Some d -> m_refs d = top :: rs -> ref name g = ref_copy false false top g.
Proof.
  intros Hd Hrs. unfold ref. unfold mbind at 1, M_bind at 1. rewrite (assert_runs g name d) by (done || right; by rewrite Hrs).
  unfold mbind at 1, M_bind at 1, get_desc at 1. rewrite Hd. rewrite bool_decide_eq_false_2 by (by rewrite Hrs).
  unfold mbind at 1, M_bind at 1. cbn. unfold mbind at 1, M_bind at 1. rewrite (assert_runs g name d) by (done || right; by rewrite Hrs).
  unfold mbind at 1, M_bind at 1, get_desc at 1. rewrite Hd, Hrs. done.
Qed.

(** Borrowing the top of the stack. *)
Lemma with_top_runs {A} g name d top rs dt dd (body : nat -> M (global W) A) (Q : A -> Prop) :
  inv (g_store g) -> m_descriptors g !! name = Some d -> m_refs d = top :: rs -> links g top dt dd -> data_address dd <> nullptr ->
  (forall r g1, inv (g_store g1) -> m_descriptors g1 = m_descriptors g -> calm nothing g g1 -> links g1 r dt dd ->
     exists a g2, body r g1 = Done a g2 /\ calm nothing g1 g2 /\ m_descriptors g2 = m_descriptors g /\ Q a) ->
  exists a g3, with_ref (ref name) body g = Done a g3 /\ calm nothing g g3 /\ m_descriptors g3 = m_descriptors g /\ Q a.
Proof.
  intros Hinv Hd Hrs Hl Hnn Hbody.
  destruct (copy_runs g false false top Hinv (links_exists _ _ _ _ Hl)) as (g1 & Hrun1 & C1 & Hds1 & He1 & Hl1).
  specialize (Hl1 eq_refl eq_refl dt dd Hl Hnn).
  destruct (Hbody (next (g_store g)) g1) as (a & g2 & Hrun2 & C2 & Hds2 & HQ); [apply C1|done..|].
  destruct (with_ref_runs g g1 g2 (ref name) body (next (g_store g)) a) as (g3 & Hrun3 & C3 & Hds3 & _); try done.
  { by rewrite (ref_runs g name d top rs). }
  exists a, g3. split_and!; [done|done|congruence|done].
Qed.

(** ** Sharing a reference without rights *)

Lemma share_ref_runs g name d r dt dd :
  inv (g_store g) -> m_descriptors g !! name = Some d -> m_metadata d = false -> links g r dt dd -> data_address dd <> nullptr ->
  exists g' h, share_ref name r false false g = Done nullptr g' /\ calm nothing g g' /\
    m_descriptors g' = <[name := mkDescriptor (m_type d) false (h :: m_refs d)]> (m_descriptors g) /\ links g' h dt dd /\
    (next (g_store g) <= h)%nat.
Proof.
  intros Hinv Hd Hm Hl Hnn.
  destruct (hold_runs g name d r dt dd Hinv Hd Hl Hnn) as (g1 & h & Hrun1 & C1 & Hds1 & Hh1 & Hhn). rewrite Hm in Hds1.
  set (d1 := mkDescriptor (m_type d) false (h :: m_refs d)) in *.
  assert (Hd1 : m_descriptors g1 !! name = Some d1) by (by rewrite Hds1, lookup_insert_eq).
  assert (Hl1 : links g1 r dt dd) by (eapply calm_links; [exact Hinv|exact C1|tauto|done]).
  destruct (with_top_runs g1 name d1 h (m_refs d) dt dd ref_is_null (eq false)) as (n & g2 & Hrun2 & C2 & Hds2 & <-); [apply C1|done..| |].
  { intros r' g' Hinv' Hds' C' Hl'. exists false, g'. rewrite (is_null_runs g' r' dt dd) by done. split_and!; [done|by apply calm_refl|done|done]. }
  assert (Hh2 : links g2 h dt dd) by (eapply calm_links; [apply C1|exact C2|tauto|done]).
  destruct (with_top_runs g2 name d1 h (m_refs d) dt dd (notify_data name) (eq tt)) as (u & g3 & Hrun3 & C3 & Hds3 & <-);
    [apply C2|by rewrite Hds2|done..| |].
  { intros r' g' Hinv' Hds' C' Hl'. destruct (notify_runs g' On_data "while sharing" name (Some r') Hinv') as (g'' & Hrun & C'' & Hds'').
    - intros x [= <-]. by eapply links_exists.
    - exists tt, g''. split_and!; [done|done|congruence|done]. }
  exists g3, h. split_and!.
  - unfold share_ref, in_context, catch at 1. unfold mbind at 1, M_bind at 1. rewrite (assert_runs g name d) by auto.
    unfold mbind at 1, M_bind at 1, get_desc at 1. rewrite Hd, Hm. unfold mbind at 1, M_bind at 1. cbn -[hold with_ref catch mbind].
    unfold mbind at 1, M_bind at 1. cbn -[hold with_ref catch mbind]. unfold mbind at 1, M_bind at 1. rewrite Hrun1.
    unfold mbind at 1, M_bind at 1. rewrite (is_null_runs g1 r dt dd) by done. cbn -[with_ref catch mbind].
    unfold mbind at 1, M_bind at 1. unfold mbind at 1, M_bind at 1. rewrite Hrun2. cbn -[with_ref catch mbind].
    unfold mbind at 1, M_bind at 1. unfold catch at 1. rewrite Hrun3. unfold mbind at 1, M_bind at 1.
    rewrite (assert_runs g3 name d1) by (rewrite ?Hds3, ?Hds2; auto). done.
  - eapply calm_step; [exact C1|]. by eapply calm_step.
  - by rewrite Hds3, Hds2.
  - eapply calm_links; [apply C2|exact C3|tauto|done].
  - done.
Qed.

(** ** Reclaiming *)

Lemma pop_runs g name d h rs :
  inv (g_store g) -> m_descriptors g !! name = Some d -> m_refs d = h :: rs -> exists_ref g h ->
  exists g', pop name g = Done tt g' /\ calm (eq h) g g' /\
    m_descriptors g' = <[name := mkDescriptor (m_type d) (m_metadata d) rs]> (m_descriptors g).
Proof.
  intros Hinv Hd Hrs Hh. set (g1 := set_descriptors (<[name := mkDescriptor (m_type d) (m_metadata d) rs]> (m_descriptors g)) g).
  destruct (destroy_runs g1 h Hinv Hh) as (g2 & Hrun & C2 & Hds2). exists g2. split_and!; [| |done].
  - unfold pop, mbind, M_bind, get_desc, set_desc, modify. rewrite Hd, Hrs. exact Hrun.
  - eapply calm_weaken; [eapply calm_trans; [by apply (set_descriptors_calm g)|exact C2]|]. by intros r _ [[]|?].
Qed.

(** The fate of a buffer whose data was given back. *)
Definition given_back g b : Prop :=
  match buffers (g_store g) !! b with Some y => m_deallocator y = None | None => b ∉ freed_ids (g_store g) end.

(** The links other than those of [h] and those to the data [dt] are kept. *)
Definition keeps_links (h dt : nat) g g' : Prop := forall h' y d' dd', h' <> h -> d' <> dt ->
  refs (g_store g) !! h' = Some y -> m_content y = Some d' -> datas (g_store g) !! d' = Some dd' ->
  refs (g_store g') !! h' = Some y /\ datas (g_store g') !! d' = Some dd'.

Lemma keeps_links_links h dt g g' h' d' dd' : keeps_links h dt g g' -> h' <> h -> d' <> dt -> links g h' d' dd' -> links g' h' d' dd'.
Proof. intros Hk Hh Hd (y & Hy & Hc & Hdd). destruct (Hk h' y d' dd' Hh Hd Hy Hc Hdd). by exists y. Qed.

(** [release] on a local reference, and the destruction of that reference. *)
Lemma release_runs g r dt dd :
  inv (g_store g) -> links g r dt dd -> data_address dd <> nullptr ->
  exists g', finally (ref_release r) (ref_destroy r) g = Done (data_address dd) g' /\ m_descriptors g' = m_descriptors g /\
    given_back g' (data_buffer dd) /\ inv (g_store g') /\ keeps_links r dt g g'.
Proof.
  intros Hinv (x & Hx & Hc & Hd) Hnn. destruct (linked_points_to (g_store g) r x dt Hinv Hx Hc) as (dd' & b & Hpt).
  pose proof Hpt as (_ & _ & Hd' & Hb). simplify_eq. unfold finally, ref_release, on_store, zoom.
  assert (Hfuel : (size (m_notifications b) <= notification_count r (g_store g))%nat) by (unfold notification_count; by rewrite Hx, Hc, Hd, Hb).
  destruct (release_ok notify begin begin_Some begin_None r (notification_count r (g_store g)) (g_store g) x dt dd b)
    as (st' & Hrel & Hinv' & _ & Hr' & _ & Hfate & _); [apply all_quiet|done..|].
  destruct (release_silent notify begin (notification_count r (g_store g)) r (g_store g) x dt (data_address dd) st' observe_null Hinv Hx Hc) as [Hrefs Hdatas]; [| |done|].
  { unfold is_null. rewrite Hx; simpl. rewrite Hc; simpl. rewrite Hd; simpl. by destruct (Z.eqb_spec (data_address dd) nullptr). }
  { intros st1 H1. destruct (notify_all_ok notify begin begin_Some begin_None r (all_quiet r) _ (g_store g) x dt dd b Hinv Hpt Hnn Hfuel)
      as (st1' & b1 & H1' & Hst1 & _). rewrite H1 in H1'. injection H1' as ->. by apply Hst1. }
  rewrite Hrel. destruct (delete_ref_ok st' r _ Hinv' Hr') as (st2 & Hdel & Hst2 & Hrefs2 & _ & Hds2). destruct (Hst2 Hinv') as [Hinv2 _].
  pose proof Hdel as Hdel2. unfold delete_ref, reset in Hdel2. rewrite Hr' in Hdel2. simpl in Hdel2. injection Hdel2 as Heq.
  unfold ref_destroy, unit_store, on_store, zoom. simpl. rewrite Hdel. simpl.
  eexists. split; [done|]. split; [done|]. split; [unfold given_back; simpl; rewrite <- Heq; exact Hfate|]. split; [exact Hinv2|].
  intros h' y d' z Hh Hne Hy Hyc Hyd. simpl in *.
  assert (Hy' : refs st2 !! h' = Some y) by (rewrite Hrefs2, Hrefs, !lookup_delete_ne, lookup_insert_ne; done).
  split; [exact Hy'|]. simpl. destruct (wf_content _ (proj1 Hinv2) _ _ _ Hy' Hyc) as [z' Hz']. rewrite Hz'. f_equal.
  apply (lookup_weaken _ _ _ _ Hz') in Hds2. apply Hdatas in Hds2; [congruence|done].
Qed.

Lemma release_desc_runs g name d h rs dt dd :
  inv (g_store g) -> m_descriptors g !! name = Some d -> m_metadata d = false -> m_refs d = h :: rs ->
  links g h dt dd -> data_address dd <> nullptr ->
  exists g', release_desc name g = Done tt g' /\ calm (eq h) g g' /\
    m_descriptors g' = <[name := mkDescriptor (m_type d) false rs]> (m_descriptors g).
Proof.
  intros Hinv Hd Hm Hrs Hl Hnn.
  destruct (with_top_runs g name d h rs dt dd (notify_data_remove name) (eq tt)) as (u & g1 & Hrun1 & C1 & Hds1 & <-); [done..| |].
  { intros r' g' Hinv' Hds' C' Hl'. destruct (notify_runs g' On_data_remove "while removing" name (Some r') Hinv') as (g'' & Hrun & C'' & Hds'').
    - intros x [= <-]. by eapply links_exists.
    - exists tt, g''. split_and!; [done|done|congruence|done]. }
  assert (Hl1 : links g1 h dt dd) by (eapply calm_links; [exact Hinv|exact C1|tauto|done]). pose proof (cm_inv _ _ _ C1) as Hinv1.
  assert (Hd1 : m_descriptors g1 !! name = Some d) by (by rewrite Hds1).
  destruct (copy_runs g1 false false h Hinv1 (links_exists _ _ _ _ Hl1)) as (g2 & Hrun2 & C2 & Hds2 & [y He2] & _).
  set (o := next (g_store g1)) in *. pose proof (wf_next_refs _ (proj1 Hinv1) h (links_exists _ _ _ _ Hl1)) as Hlt.
  assert (Hh2 : exists_ref g2 h) by (destruct (links_exists _ _ _ _ Hl1) as [z Hz]; exists z; by apply (calm_ref g1 g2 h z C2)).
  destruct (pop_runs g2 name d h rs (cm_inv _ _ _ C2)) as (g3 & Hrun3 & C3 & Hds3); [by rewrite Hds2|done|done|].
  set (d3 := mkDescriptor (m_type d) (m_metadata d) rs) in *.
  assert (Hd3 : m_descriptors g3 !! name = Some d3) by (by rewrite Hds3, lookup_insert_eq).
  destruct (destroy_runs g3 o (cm_inv _ _ _ C3)) as (g4 & Hrun4 & C4 & Hds4).
  { exists y. apply (cm_refs _ _ _ C3); [unfold o; lia|done]. }
  exists g4. split_and!.
  - unfold release_desc, in_context, catch. unfold mbind at 1, M_bind at 1. rewrite (assert_runs g name d) by auto.
    unfold mbind at 1, M_bind at 1, get_desc at 1. rewrite Hd.
    assert (not_shared d = false) as ->.
    { unfold not_shared. rewrite Hm, andb_false_r, orb_false_r. apply bool_decide_eq_false_2. by rewrite Hrs. }
    unfold mbind at 1, M_bind at 1. cbn -[with_ref mbind]. unfold mbind at 1, M_bind at 1. rewrite Hrun1.
    unfold with_ref at 1. unfold mbind at 1, M_bind at 1. rewrite (ref_runs g1 name d h rs) by done. rewrite Hrun2.
    unfold finally. unfold mbind at 1, M_bind at 1. rewrite Hrun3. unfold mbind at 1, M_bind at 1.
    unfold keep_metadata. unfold mbind at 1, M_bind at 1, get_desc at 1. rewrite Hd3.
    assert (Hm3 : m_metadata d3 = false) by exact Hm. rewrite Hm3. cbn -[assert_placeholder].
    rewrite (assert_runs g3 name d3) by auto. by rewrite Hrun4.
  - eapply calm_weaken; [eapply calm_trans; [eapply calm_trans; [exact C1|exact C2]|eapply calm_trans; [exact C3|exact C4]]|].
    intros r Hr [[[]|[]]|[<-|<-]]; [done|]. apply (wf_next_refs _ (proj1 Hinv)) in Hr. pose proof (cm_next _ _ _ C1). unfold o in Hr. lia.
  - rewrite Hds4, Hds3, Hds2, Hds1. unfold d3. by rewrite Hm.
Qed.

Lemma reclaim_runs g name d h rs dt dd :
  inv (g_store g) -> m_descriptors g !! name = Some d -> m_metadata d = false -> m_refs d = h :: rs ->
  links g h dt dd -> data_address dd <> nullptr ->
  exists g', reclaim name g = Done (data_address dd) g' /\
    m_descriptors g' = <[name := mkDescriptor (m_type d) false rs]> (m_descriptors g) /\ given_back g' (data_buffer dd) /\
    inv (g_store g') /\ keeps_links h dt g g'.
Proof.
  intros Hinv Hd Hm Hrs Hl Hnn.
  destruct (with_top_runs g name d h rs dt dd (notify_data_remove name) (eq tt)) as (u & g1 & Hrun1 & C1 & Hds1 & <-); [done..| |].
  { intros r' g' Hinv' Hds' C' Hl'. destruct (notify_runs g' On_data_remove "while removing" name (Some r') Hinv') as (g'' & Hrun & C'' & Hds'').
    - intros x [= <-]. by eapply links_exists.
    - exists tt, g''. split_and!; [done|done|congruence|done]. }
  assert (Hl1 : links g1 h dt dd) by (eapply calm_links; [exact Hinv|exact C1|tauto|done]). pose proof (cm_inv _ _ _ C1) as Hinv1.
  assert (Hd1 : m_descriptors g1 !! name = Some d) by (by rewrite Hds1).
  destruct (copy_runs g1 false false h Hinv1 (links_exists _ _ _ _ Hl1)) as (g2 & Hrun2 & C2 & Hds2 & He2 & Hl2).
  specialize (Hl2 eq_refl eq_refl dt dd Hl1 Hnn). pose proof (cm_inv _ _ _ C2) as Hinv2. set (o := next (g_store g1)) in *.
  assert (Hh2 : links g2 h dt dd) by (eapply calm_links; [exact Hinv1|exact C2|tauto|done]).
  assert (Hne : h <> o).
  { pose proof (wf_next_refs _ (proj1 Hinv1) h (links_exists _ _ _ _ Hl1)). unfold o. lia. }
  destruct (pop_runs g2 name d h rs Hinv2) as (g3 & Hrun3 & C3 & Hds3); [by rewrite Hds2|done|by eapply links_exists|].
  assert (Ho3 : links g3 o dt dd) by (eapply calm_links; [exact Hinv2|exact C3|done|done]).
  set (d3 := mkDescriptor (m_type d) (m_metadata d) rs) in *.
  assert (Hd3 : m_descriptors g3 !! name = Some d3) by (by rewrite Hds3, lookup_insert_eq).
  destruct (release_runs g3 o dt dd (cm_inv _ _ _ C3) Ho3 Hnn) as (g4 & Hrun4 & Hds4 & Hback & Hinv4 & Hkeep).
  exists g4. split; [|split; [by rewrite Hds4, Hds3, Hds2, Hds1, <- Hm|split; [exact Hback|split; [exact Hinv4|]]]].
  2: { intros h' y d' dd' Hh' Hd' Hy Hyc Hyd. destruct (calm_held _ g g1 h' y d' dd' Hinv C1 ltac:(tauto) Hy Hyc Hyd) as [Hy1 Hyd1].
       destruct (calm_held _ g1 g2 h' y d' dd' Hinv1 C2 ltac:(tauto) Hy1 Hyc Hyd1) as [Hy2 Hyd2].
       destruct (calm_held _ g2 g3 h' y d' dd' Hinv2 C3 ltac:(congruence) Hy2 Hyc Hyd2) as [Hy3 Hyd3].
       apply Hkeep; [|done..]. pose proof (wf_next_refs _ (proj1 Hinv1) h' ltac:(by eexists)). unfold o. lia. }
  unfold reclaim, in_context, catch. unfold mbind at 1, M_bind at 1. rewrite (assert_runs g name d) by auto.
  unfold mbind at 1, M_bind at 1, get_desc at 1. rewrite Hd.
  assert (not_shared d = false) as ->.
  { unfold not_shared. rewrite Hm, andb_false_r, orb_false_r. apply bool_decide_eq_false_2. by rewrite Hrs. }
  unfold mbind at 1, M_bind at 1. cbn -[with_ref mbind]. unfold mbind at 1, M_bind at 1. rewrite Hrun1.
  unfold with_ref at 1. unfold mbind at 1, M_bind at 1. rewrite (ref_runs g1 name d h rs) by done. rewrite Hrun2.
  unfold finally in *. unfold mbind at 1, M_bind at 1. rewrite Hrun3. unfold mbind at 1, M_bind at 1.
  unfold keep_metadata. unfold mbind at 1, M_bind at 1, get_desc at 1. rewrite Hd3.
  assert (Hm3 : m_metadata d3 = false) by exact Hm. rewrite Hm3. cbn -[mbind assert_placeholder].
  unfold mbind at 1, M_bind at 1. rewrite (assert_runs g3 name d3) by auto.
  destruct (ref_release o g3) as [a g5|e g5|]; [|by destruct (ref_destroy o g5)|done]. by destruct (ref_destroy o g5); simplify_eq.
Qed.

End facts.

(** * Theorems *)

Section theorems.
  Context {W : Type} {RT : Runtime W} {OB : Observers W}.

Implicit Types g : global W.

(** A type that can be evaluated in the context, its [$] references included:
    the evaluation gives [t] and leaves the stacks, the memory and the
    references of others as they are. *)
Definition evaluates_to g (type : Template) (t : Datatype) : Prop :=
  exists g', evaluate_in_context type g = Done t g' /\ calm nothing g g' /\ m_descriptors g' = m_descriptors g.

Lemma evaluates_pure g type t : inv (g_store g) -> evaluate_in_context type g = Done t g -> evaluates_to g type t.
Proof. intros Hinv Hev. exists g. split_and!; [done|by apply calm_refl|done]. Qed.

Lemma evaluates_here g type t g' :
  ctx_ok None g -> evaluate_in_context type g = Done t g' -> refs (g_store g') = refs (g_store g) -> datas (g_store g') = datas (g_store g) ->
  (next (g_store g) <= next (g_store g'))%nat -> g_mem g' = g_mem g -> m_callbacks g' = m_callbacks g -> m_descriptors g' = m_descriptors g ->
  evaluates_to g type t.
Proof.
  intros Hok Hev Hr Hd Hn Hm Hc Hds. exists g'. split_and!; [done| |done]. pose proof (evaluate_tame type g Hok) as Ht.
  unfold tame_at, wp in Ht. unfold evaluate_in_context in Hev. rewrite Hev in Ht. destruct Ht as [[Hok' _] _].
  split; [apply Hok'|done|intros r x _; by rewrite Hr|intros d dd _; by rewrite Hd|done|done].
Qed.

Lemma share_data_runs gi name d t data read write :
  inv (g_store gi) -> m_descriptors gi !! name = Some d -> m_metadata d = false ->
  evaluates_to gi (m_type d) t -> data <> nullptr ->
  exists g' h dt b, share_data name data read write gi = Done tt g' /\ calm nothing gi g' /\
    m_descriptors g' = <[name := mkDescriptor (m_type d) false (h :: m_refs d)]> (m_descriptors gi) /\
    links g' h dt (mkData b data t) /\ (next (g_store gi) <= h)%nat /\ (next (g_store gi) <= dt)%nat.
Proof.
  intros Hinvi Hdi Hm (g & Hev & Ci & Di) Hnn. pose proof (cm_inv _ _ _ Ci) as Hinv. pose proof (cm_next _ _ _ Ci) as Hni.
  assert (Hd : m_descriptors g !! name = Some d) by (by rewrite Di).
  destruct (new_ref_ok (g_store g) false false data free_function t read write Hinv)
    as [(e & _ & _ & Hnull)|(st1 & c & Hrun1 & Hst1 & Hn1 & Hrefs1 & Hdold & Hnew)]; [done|].
  destruct (Hst1 Hinv) as [Hinv1 _]. destruct (Hnew Hnn) as (dt & b & -> & Hdt & _ & Hfresh); [by left|by left|].
  set (g1 := set_store st1 g). set (r := next (g_store g)) in *.
  assert (C1 : calm (fun _ => False) g g1).
  { split; simpl; try done; [lia|]. intros r' x _ Hx. rewrite Hrefs1, lookup_insert_ne; [done|]. intros <-. by apply (fresh_ref _ _ _ Hinv Hx). }
  assert (Hl1 : links g1 r dt (mkData b data t)).
  { exists (mkReference false false (Some dt)). split_and!; [simpl; by rewrite Hrefs1, lookup_insert_eq|done|done]. }
  destruct (share_ref_runs g1 name d r dt (mkData b data t) Hinv1 Hd Hm Hl1 Hnn) as (g2 & h & Hrun2 & C2 & Hds2 & Hh2 & Hhn).
  set (body := fun r => catch (share_ref name r false false;; mret tt) (fun e => ref_release r;; assert_placeholder name;; @throw (global W) unit e)).
  assert (Hbody : body r g1 = Done tt g2).
  { unfold body, catch, mbind, M_bind. by rewrite Hrun2. }
  destruct (with_ref_runs g g1 g2 (on_store (new_ref false false data free_function t read write)) body r tt)
    as (g3 & Hrun3 & C3 & Hds3 & Hl3); try done.
  { unfold on_store, zoom. by rewrite Hrun1. }
  { eapply links_exists, Hl1. }
  assert (Hne : h <> r).
  { simpl in Hhn. lia. }
  set (d3 := mkDescriptor (m_type d) false (h :: m_refs d)) in *.
  assert (Hd3 : m_descriptors g3 = <[name := d3]> (m_descriptors g)) by (by rewrite Hds3, Hds2).
  exists g3, h, dt, b. split; [|split; [by apply (calm_step gi g g3)|split; [by rewrite Hd3, Di|split; [by apply Hl3|simpl in Hhn; lia]]]].
  unfold share_data, in_context, catch at 1. unfold mbind at 1, M_bind at 1. rewrite (assert_runs gi name d) by auto.
  unfold mbind at 1, M_bind at 1, get_desc at 1. rewrite Hdi. unfold mbind at 1, M_bind at 1. rewrite Hev.
  unfold mbind at 1, M_bind at 1. fold body. rewrite Hrun3.
  rewrite (assert_runs g3 name d3); [done|by rewrite Hd3, lookup_insert_eq|by left].
Qed.

(** C2: data that is shared under a name that is not a metadata and then reclaimed
    comes back, when the plugins that are notified only observe: if the address
    is not null and the type of the descriptor can be evaluated, [$] references
    included, [share] succeeds and puts one holder of the data on the stack,
    [reclaim] returns the address that was shared, the stacks are as before, and
    the library neither has freed the data nor ever will. *)
Theorem share_reclaim_round_trip g name d t data read write :
  ctx_reachable g -> m_descriptors g !! name = Some d -> m_metadata d = false ->
  evaluates_to g (m_type d) t -> data <> nullptr ->
  exists g1 g2 h b, share_data name data read write g = Done tt g1 /\
    m_descriptors g1 = <[name := mkDescriptor (m_type d) false (h :: m_refs d)]> (m_descriptors g) /\
    (exists x dt, refs (g_store g1) !! h = Some x /\ m_content x = Some dt /\ datas (g_store g1) !! dt = Some (mkData b data t)) /\
    reclaim name g1 = Done data g2 /\ m_descriptors g2 = m_descriptors g /\
    match buffers (g_store g2) !! b with Some y => m_deallocator y = None | None => b ∉ freed_ids (g_store g2) end.
Proof.
  intros Hreach Hd Hm Hev Hnn. pose proof (ok_store _ _ (ctx_reachable_ok g Hreach)) as Hinv.
  destruct (share_data_runs g name d t data read write Hinv Hd Hm Hev Hnn) as (g1 & h & dt & b & Hrun1 & C1 & Hds1 & Hl1 & _). pose proof (cm_inv _ _ _ C1) as Hinv1.
  destruct (reclaim_runs g1 name (mkDescriptor (m_type d) false (h :: m_refs d)) h (m_refs d) dt (mkData b data t) Hinv1)
    as (g2 & Hrun2 & Hds2 & Hback & _); try done.
  { by rewrite Hds1, lookup_insert_eq. }
  exists g1, g2, h, b. split_and!; try done.
  - destruct Hl1 as (x & Hx & Hc & Hdt). by exists x, dt.
  - rewrite Hds2, Hds1, insert_insert_eq. simpl. rewrite <- Hm. apply insert_id. rewrite Hd. by destruct d.
Qed.

End theorems.

(** * A small program *)

#[local] Existing Instance quiet_runtime.

#[local] Instance quiet_observers {W} : Observers W.
Proof. split; [|done]. intros h name arg g. exists (g_world g). by destruct g. Defined.

Definition state_after {A} (o : exec (global unit) A) : global unit := match o with Done _ g | Thrown _ g => g | Crashed => empty_global end.

(** A descriptor [n] of type [int], data shared at address 4096. *)
Definition int_template : Template := Datatype_as_template demo_type.
Definition demo_g1 : global unit := state_after (run_op (Op_default_type "n" int_template) empty_global).
Definition demo_g2 : global unit := state_after (run_op (Op_share "n" 4096 true true) demo_g1).

Lemma demo_g1_reachable : ctx_reachable demo_g1.
Proof.
  exists empty_global. split; [done|]. eapply rtc_l; [|apply rtc_refl]. eapply (step_returns _ (Op_default_type "n" int_template) nullptr). by vm_compute.
Defined.

Lemma demo_g2_reachable : ctx_reachable demo_g2.
Proof.
  exists empty_global. split; [done|].
  eapply rtc_l; [eapply (step_returns _ (Op_default_type "n" int_template) nullptr demo_g1); by vm_compute|].
  eapply rtc_l; [eapply (step_returns _ (Op_share "n" 4096 true true) nullptr demo_g2); by vm_compute|]. apply rtc_refl.
Defined.

Lemma context_invariant_witness :
  consistent demo_g2 /\ placeholders demo_g2 /\
  forall o e g', run_op o demo_g2 = Thrown e g' -> consistent g' /\ (placeholders g' \/ copies_metadata o demo_g2).
Proof. apply (context_invariant demo_g2 demo_g2_reachable). Defined.


Lemma share_reclaim_round_trip_witness :
  exists g1 g2 h b, share_data "n" 4096 true true demo_g1 = Done tt g1 /\
    m_descriptors g1 = <["n" := mkDescriptor int_template false [h]]> (m_descriptors demo_g1) /\
    (exists x dt, refs (g_store g1) !! h = Some x /\ m_content x = Some dt /\ datas (g_store g1) !! dt = Some (mkData b 4096 demo_type)) /\
    reclaim "n" g1 = Done 4096 g2 /\ m_descriptors g2 = m_descriptors demo_g1 /\
    match buffers (g_store g2) !! b with Some y => m_deallocator y = None | None => b ∉ freed_ids (g_store g2) end.
Proof.
  apply (share_reclaim_round_trip demo_g1 "n" (mkDescriptor int_template false []) demo_type 4096 true true demo_g1_reachable);
    [by vm_compute|done| |done].
  apply evaluates_pure; [apply (ok_store _ _ (ctx_reachable_ok _ demo_g1_reachable))|by vm_compute].
Defined.
