(* ===== verification/MetadataFacts.v ===== *)
(** Metadata outlives the data it was shared from: when metadata is reclaimed, the
    library keeps a copy of it that can be read. *)

From S2P Require Import Prelude Error Effect ExprSyntax Datatype Layout Memory DenseCopy DenseCopyFacts RoundTrip Access Ref RefInv RefOps RefTheorems RefCopy Numeric Parse Template GlobalContext Eval ContextInv DescriptorInv EvalInv Share ShareFacts.

(** * Read locks *)

(** No buffer got more read locks. *)
Record steady (st st' : store) : Prop := {
  sd_next : (next st <= next st')%nat;
  sd_locks : forall b y', (b < next st)%nat -> buffers st' !! b = Some y' ->
    exists y, buffers st !! b = Some y /\ m_read_locks y' <= m_read_locks y
}.

#[export] Instance steady_refl : Reflexive steady.
Proof. intros st. split; [done|]. intros b y _ Hy. by exists y. Qed.

#[export] Instance steady_trans : Transitive steady.
Proof.
  intros st1 st2 st3 [N1 L1] [N2 L2]. split; [lia|]. intros b y3 Hb H3. destruct (L2 b y3 ltac:(lia) H3) as (y2 & H2 & Hle2).
  destruct (L1 b y2 Hb H2) as (y1 & H1 & Hle1). exists y1. split; [done|lia].
Qed.

(** Fewer buffers, with fewer locks. *)
Lemma steady_sub st st' : (next st <= next st')%nat ->
  (forall b y', buffers st' !! b = Some y' -> exists y, buffers st !! b = Some y /\ m_read_locks y' <= m_read_locks y) -> steady st st'.
Proof. intros Hn Hb. split; [done|]. intros b y' _. apply Hb. Qed.

Lemma steady_buffers st st' : (next st <= next st')%nat -> buffers st' = buffers st -> steady st st'.
Proof. intros Hn Hb. apply steady_sub; [done|]. intros b y' Hy. rewrite Hb in Hy. by exists y'. Qed.

Lemma collect_steady d st st' : collect d st = Ret st' -> steady st st'.
Proof.
  unfold collect. case_bool_decide; [by intros [= <-]|]. destruct (datas st !! d) as [x|]; [|done]. simpl.
  case_bool_decide; [intros [= <-]; by apply steady_buffers|]. unfold destroy_buffer. simpl.
  destruct (buffers st !! data_buffer x) as [y|]; [|done]. simpl. repeat (destruct (negb _); [done|]). intros [= <-].
  apply steady_sub; [done|]. simpl. intros b y' [_ Hy]%lookup_delete_Some. by exists y'.
Qed.

(** One buffer changed. *)
Lemma steady_insert st b y y' : buffers st !! b = Some y -> m_read_locks y' <= m_read_locks y -> steady st (set_buffers <[b := y']> st).
Proof.
  intros Hb Hle. apply steady_sub; [done|]. simpl. intros b' z [[<- <-]|[_ Hz]]%lookup_insert_Some; [by exists y|by exists z].
Qed.

Lemma set_content_steady r c st : steady st (set_content r c st).
Proof. by apply steady_buffers. Qed.

Lemma unlink_steady r st st' : unlink r st = Ret st' -> steady st st'.
Proof.
  unfold unlink. destruct (refs st !! r) as [x|]; [|done]. simpl. destruct (m_content x) as [d|]; [|done]. simpl.
  destruct (datas st !! d) as [dd|]; [|done]. simpl. destruct (buffers st !! data_buffer dd) as [b|] eqn:Hb; [|done]. simpl.
  intros Hc%collect_steady. etrans; [|exact Hc]. etrans; [|apply set_content_steady]. apply (steady_insert st _ b); [done|].
  simpl. unfold read_lock. destruct (ref_W x); lia.
Qed.

Lemma delete_ref_steady r st st' : delete_ref r st = Ret st' -> steady st st'.
Proof.
  unfold delete_ref, reset. destruct (refs st !! r) as [x|]; [|done]. simpl. destruct (m_content x) as [d|].
  - destruct (unlink r st) as [st1| |] eqn:Hu; [|done..]. simpl. intros [= <-]. etrans; [by eapply unlink_steady|]. by apply steady_buffers.
  - simpl. intros [= <-]. by apply steady_buffers.
Qed.

Lemma link_steady r x c st st' : refs st !! r = Some x -> ref_W x = false -> link r c st = Ret st' -> steady st st'.
Proof.
  intros Hx HW. unfold link. rewrite Hx; simpl. case_bool_decide; [done|]. destruct c as [d|]; [|by intros [= <-]].
  destruct (datas st !! d) as [dd|]; [|done]. simpl. destruct (_ =? _); [apply collect_steady|].
  destruct (buffers st !! data_buffer dd) as [b|] eqn:Hb; [|done]. simpl. destruct (_ || _); [apply collect_steady|]. intros [= <-].
  etrans; [|apply set_content_steady]. apply (steady_insert st _ b); [done|]. simpl. unfold read_lock. rewrite HW. lia.
Qed.

Lemma new_copy_steady R r st n st' : new_copy R false r st = Ret (n, st') -> steady st st'.
Proof.
  unfold new_copy, new_null. destruct (get_content _ r) as [c| |]; [|done..]. cbn [mbind outcome_bind].
  destruct (link _ _ _) as [st1| |] eqn:Hl; [|done..]. simpl. intros [= <- <-].
  etrans; [|eapply (link_steady (next st) (mkReference R false None) c); [|done|exact Hl]; simpl; by rewrite lookup_insert_eq]. apply steady_buffers; simpl; [lia|done].
Qed.

(** ** Operations *)

Section operations.
  Context {W : Type} {P : Platform W} {OB : Observers W}.

Implicit Types g : global W.

(** Wherever the operation stops, it was steady. *)
Definition steadily {A} (m : M (global W) A) : Prop := forall g,
  match m g with Done _ g' | Thrown _ g' => steady (g_store g) (g_store g') | Crashed => True end.

Lemma steadily_bind {A B} (m : M (global W) A) (f : A -> M (global W) B) : steadily m -> (forall a, steadily (f a)) -> steadily (m ≫= f).
Proof.
  intros Hm Hf g. specialize (Hm g). unfold mbind, M_bind. destruct (m g) as [a g1|e g1|]; [|done..].
  specialize (Hf a g1). destruct (f a g1); [by etrans..|done].
Qed.

Lemma steadily_catch {A} (m : M (global W) A) h : steadily m -> (forall e, steadily (h e)) -> steadily (catch m h).
Proof.
  intros Hm Hh g. specialize (Hm g). unfold catch. destruct (m g) as [a g1|e g1|]; [done| |done].
  specialize (Hh e g1). destruct (h e g1); [by etrans..|done].
Qed.

Lemma steadily_finally {A} (m : M (global W) A) d : steadily m -> steadily d -> steadily (finally m d).
Proof.
  intros Hm Hd g. specialize (Hm g). unfold finally. destruct (m g) as [a g1|e g1|]; [| |done];
    specialize (Hd g1); destruct (d g1); try done; (etrans; [exact Hm|exact Hd]).
Qed.

Lemma steadily_same {A} (m : M (global W) A) :
  (forall g, match m g with Done _ g' | Thrown _ g' => g_store g' = g_store g | Crashed => True end) -> steadily m.
Proof. intros H g. specialize (H g). destruct (m g); [by rewrite H..|done]. Qed.

Lemma steadily_iter {A B} (f : A -> B -> M (global W) B) l : (forall x b, steadily (f x b)) -> forall b, steadily (iter f l b).
Proof. intros Hf. induction l as [|x l IH]; intros b; simpl; [by apply steadily_same|]. apply steadily_bind; [done|]. intros b'. apply IH. Qed.

Lemma ref_destroy_steadily r : steadily (ref_destroy r).
Proof.
  intros g. unfold ref_destroy, unit_store, on_store, zoom. destruct (delete_ref r (g_store g)) as [st| |] eqn:Hd; [|apply steady_refl|done].
  by apply delete_ref_steady in Hd.
Qed.

Lemma ref_copy_steadily R r : steadily (ref_copy R false r).
Proof.
  intros g. unfold ref_copy, on_store, zoom. destruct (new_copy R false r (g_store g)) as [[n st]| |] eqn:Hc; [|apply steady_refl|done].
  by apply new_copy_steady in Hc.
Qed.

Lemma with_ref_steadily {A} mk (body : nat -> M (global W) A) : steadily mk -> (forall r, steadily (body r)) -> steadily (with_ref mk body).
Proof. intros Hmk Hb. apply steadily_bind; [done|]. intros r. apply steadily_finally; [done|apply ref_destroy_steadily]. Qed.

Lemma invoke_steadily h name arg : steadily (invoke h name arg).
Proof. intros g. destruct (observe h name arg g) as [w ->]. done. Qed.

Lemma notify_steadily k msg name r : steadily (notify_named k msg name r).
Proof.
  apply steadily_bind; [by apply steadily_same|]. intros reg. apply steadily_bind; [|intros; apply steadily_same; intros g; unfold lift; by destruct (rethrow_all_with_simple_context _ _)].
  apply steadily_iter. intros c errors. apply steadily_catch; [|intros; by apply steadily_same].
  apply steadily_bind; [|intros; by apply steadily_same]. apply steadily_bind; [by apply steadily_same|]. intros ok.
  apply steadily_bind; [apply steadily_same; intros g; by destruct ok|]. intros _. destruct r; [|apply invoke_steadily].
  apply with_ref_steadily; [apply ref_copy_steadily|]. intros. apply invoke_steadily.
Qed.

End operations.

(** * Readable references *)

Section readable.
  Context {W : Type} {P : Platform W} {OB : Observers W}.

Implicit Types g : global W.

(** A buffer that nothing prevents from being read. *)
Definition unlocked g (b : nat) : Prop := exists y, buffers (g_store g) !! b = Some y /\ m_read_locks y = 0.

(** A reference that can read when [R], linked to data. *)
Definition holder g (r : nat) (R : bool) (d : nat) (dd : Referenced_data) : Prop :=
  refs (g_store g) !! r = Some (mkReference R false (Some d)) /\ datas (g_store g) !! d = Some dd.

Lemma holds_links g r R d dd : holder g r R d dd -> links g r d dd.
Proof. intros [Hr Hd]. by eexists. Qed.

Lemma calm_holds X g g' r R d dd : inv (g_store g) -> calm X g g' -> ~ X r -> holder g r R d dd -> holder g' r R d dd.
Proof. intros Hinv C HX [Hr Hd]. by apply (calm_held X g g' r _ d dd Hinv C HX Hr). Qed.

Lemma unlocked_kept g g' r d dd :
  inv (g_store g) -> inv (g_store g') -> steady (g_store g) (g_store g') -> unlocked g (data_buffer dd) -> links g' r d dd -> unlocked g' (data_buffer dd).
Proof.
  intros [Hwf _] [Hwf' _] Hst (y & Hy & H0) (x & _ & _ & Hd). destruct (wf_data _ Hwf' _ _ Hd) as [y' Hy']. exists y'. split; [done|].
  destruct (sd_locks _ _ Hst (data_buffer dd) y') as (z & Hz & Hle); [apply (wf_next_buffers _ Hwf); by exists y|done|].
  destruct (wf_locks _ Hwf' _ _ Hy') as (iw & ir & _ & Hir & _ & Hrl & _). unfold writers in Hrl. pose proof (count_nonneg (into (datas (g_store g')) (data_buffer dd) ref_W) (refs (g_store g'))).
  simplify_eq. lia.
Qed.

Lemma copy_holds g R r d dd :
  inv (g_store g) -> links g r d dd -> data_address dd <> nullptr -> (R = true -> unlocked g (data_buffer dd)) ->
  exists g', ref_copy R false r g = Done (next (g_store g)) g' /\ calm nothing g g' /\ steady (g_store g) (g_store g') /\
    m_descriptors g' = m_descriptors g /\ holder g' (next (g_store g)) R d dd.
Proof.
  intros Hinv Hl Hnn Hun. destruct (copy_runs g R false r Hinv (links_exists _ _ _ _ Hl)) as (g' & Hrun & C & Hds & _ & _).
  exists g'. pose proof (ref_copy_steadily R r g) as Hst. rewrite Hrun in Hst. split_and!; try done. revert Hrun. unfold ref_copy, on_store, zoom.
  destruct Hl as (x & Hx & Hc & Hd). destruct (linked_points_to (g_store g) r x d Hinv Hx Hc) as (dd' & b & Hpt).
  pose proof Hpt as (_ & _ & Hd' & Hb). simplify_eq.
  destruct (new_copy_ok (g_store g) R false r x Hinv Hx) as (st' & c & -> & _ & Hrefs & _ & _ & Hcont). intros [= <-].
  rewrite (Hcont d dd b Hpt Hnn) in Hrefs.
  assert (Hgr : granted (mkReference R false None) b = true).
  { unfold granted. simpl. destruct R; [|done]. destruct (Hun eq_refl) as (y & Hy & H0). simplify_eq. by rewrite H0. }
  rewrite Hgr in Hrefs. assert (Hr' : refs st' !! next (g_store g) = Some (mkReference R false (Some d))) by (by rewrite Hrefs, lookup_insert_eq).
  split; [done|]. destruct (wf_content st' (proj1 (cm_inv _ _ _ C)) _ _ d Hr' eq_refl) as [z Hz]. simpl. rewrite Hz. f_equal.
  apply (cm_datas _ _ _ C) in Hz; [congruence|]. apply (wf_next_datas _ (proj1 Hinv)). by exists dd.
Qed.

(** A block with a temporary copy of a reference. *)
Lemma with_copy_runs {A} g R r d dd (body : nat -> M (global W) A) (Q : A -> Prop) :
  inv (g_store g) -> links g r d dd -> data_address dd <> nullptr -> (R = true -> unlocked g (data_buffer dd)) ->
  (forall n g1, calm nothing g g1 -> steady (g_store g) (g_store g1) -> m_descriptors g1 = m_descriptors g -> holder g1 n R d dd -> (next (g_store g) <= n)%nat ->
     exists a g2, body n g1 = Done a g2 /\ calm nothing g1 g2 /\ steady (g_store g1) (g_store g2) /\ m_descriptors g2 = m_descriptors g1 /\ Q a) ->
  exists a g3, with_ref (ref_copy R false r) body g = Done a g3 /\ calm nothing g g3 /\ steady (g_store g) (g_store g3) /\
    m_descriptors g3 = m_descriptors g /\ Q a.
Proof.
  intros Hinv Hl Hnn Hun Hbody. destruct (copy_holds g R r d dd Hinv Hl Hnn Hun) as (g1 & Hrun1 & C1 & S1 & D1 & Hh).
  destruct (Hbody (next (g_store g)) g1) as (a & g2 & Hrun2 & C2 & S2 & D2 & HQ); [done..|].
  destruct (with_ref_calm g g1 g2 (ref_copy R false r) body (next (g_store g)) a) as (g3 & Hrun3 & C3 & D3 & Hrun4 & _); try done.
  { by eapply links_exists, holds_links. }
  exists a, g3. split_and!; [done|done| |congruence|done]. pose proof (ref_destroy_steadily (next (g_store g)) g2) as S3. rewrite Hrun4 in S3.
  by do 2 (etrans; [eassumption|]).
Qed.

(** ** Holders *)

Lemma hold_holds g name d R r dt dd :
  inv (g_store g) -> m_descriptors g !! name = Some d -> links g r dt dd -> data_address dd <> nullptr -> (R = true -> unlocked g (data_buffer dd)) ->
  exists g' h, hold name R false r g = Done tt g' /\ calm nothing g g' /\ steady (g_store g) (g_store g') /\
    m_descriptors g' = <[name := mkDescriptor (m_type d) (m_metadata d) (h :: m_refs d)]> (m_descriptors g) /\ holder g' h R dt dd /\
    (next (g_store g) <= h)%nat.
Proof.
  intros Hinv Hd Hl Hnn Hun. destruct (copy_holds g false r dt dd Hinv Hl Hnn) as (g1 & Hrun1 & C1 & S1 & D1 & Hh1); [done|].
  pose proof (cm_inv _ _ _ C1) as Hinv1. pose proof (holds_links _ _ _ _ _ Hh1) as Hl1.
  destruct (copy_holds g1 R (next (g_store g)) dt dd Hinv1 Hl1 Hnn) as (g2 & Hrun2 & C2 & S2 & D2 & Hh2).
  { intros HR. by apply (unlocked_kept g g1 (next (g_store g)) dt dd Hinv Hinv1 S1 (Hun HR)). }
  set (h := next (g_store g1)) in *.
  set (g2' := set_descriptors (<[name := mkDescriptor (m_type d) (m_metadata d) (h :: m_refs d)]> (m_descriptors g2)) g2).
  assert (C2' : calm nothing g1 g2') by (eapply calm_step; [exact C2|apply set_descriptors_calm, C2]).
  destruct (with_ref_calm g g1 g2' (ref_copy false false r) (fun t => h ← ref_copy R false t; push name h) (next (g_store g)) tt)
    as (g3 & Hrun3 & C3 & D3 & Hrun4 & C4); try done.
  { by eapply links_exists. }
  { unfold mbind, M_bind. rewrite Hrun2. apply push_runs. by rewrite D2, D1. }
  assert (Hlt : (next (g_store g) < h)%nat) by (apply (wf_next_refs _ (proj1 Hinv1)); by eapply links_exists).
  exists g3, h. split_and!; [done|done| | | |lia].
  - pose proof (ref_destroy_steadily (next (g_store g)) g2') as S4. rewrite Hrun4 in S4. by do 2 (etrans; [eassumption|]).
  - rewrite D3. unfold g2'. simpl. by rewrite D2, D1.
  - eapply (calm_holds _ g2'); [apply C2'|exact C4|lia|done].
Qed.

(** A copy of [r] is not null, and gives the address of the data. *)
Lemma with_copy_is_null g R r d dd :
  inv (g_store g) -> links g r d dd -> data_address dd <> nullptr -> (R = true -> unlocked g (data_buffer dd)) ->
  exists g', with_ref (ref_copy R false r) ref_is_null g = Done false g' /\ calm nothing g g' /\ steady (g_store g) (g_store g') /\ m_descriptors g' = m_descriptors g.
Proof.
  intros Hinv Hl Hnn Hun. destruct (with_copy_runs g R r d dd ref_is_null (eq false) Hinv Hl Hnn Hun) as (a & g' & Hrun & C & S & D & <-).
  - intros n g1 C1 _ _ Hh _. exists false, g1. rewrite (is_null_runs g1 n d dd) by (done || by eapply holds_links).
    split_and!; [done|apply calm_refl, C1|reflexivity|done..].
  - by exists g'.
Qed.

Lemma get_nothrow_runs g r d dd : links g r d dd -> data_address dd <> nullptr -> ref_get_nothrow r g = Done (data_address dd) g.
Proof.
  intros (x & Hx & Hc & Hd) Hnn. unfold ref_get_nothrow, on_store, zoom, get_nothrow, is_null. rewrite Hx; cbn [deref mbind outcome_bind].
  rewrite Hc, Hd; cbn [deref mbind outcome_bind]. destruct (Z.eqb_spec (data_address dd) nullptr); [done|]. cbn [deref mbind outcome_bind].
  rewrite Hx; cbn [deref mbind outcome_bind]. rewrite Hc; cbn [deref mbind outcome_bind]. rewrite Hd; cbn [deref mbind outcome_bind]. by destruct g.
Qed.

Lemma with_copy_get g R r d dd :
  inv (g_store g) -> links g r d dd -> data_address dd <> nullptr -> (R = true -> unlocked g (data_buffer dd)) ->
  exists g', with_ref (ref_copy R false r) ref_get_nothrow g = Done (data_address dd) g' /\ calm nothing g g' /\ steady (g_store g) (g_store g') /\
    m_descriptors g' = m_descriptors g.
Proof.
  intros Hinv Hl Hnn Hun. destruct (with_copy_runs g R r d dd ref_get_nothrow (eq (data_address dd)) Hinv Hl Hnn Hun) as (a & g' & Hrun & C & S & D & <-).
  - intros n g1 C1 _ _ Hh _. exists (data_address dd), g1. rewrite (get_nothrow_runs g1 n d dd) by (done || by eapply holds_links).
    split_and!; [done|apply calm_refl, C1|reflexivity|done..].
  - by exists g'.
Qed.

(** Borrowing the top of the stack to notify of it. *)
Lemma with_top_notify g name d top rs dt dd k msg :
  inv (g_store g) -> m_descriptors g !! name = Some d -> m_refs d = top :: rs -> links g top dt dd -> data_address dd <> nullptr ->
  exists g', with_ref (ref name) (fun r => notify_named k msg name (Some r)) g = Done tt g' /\ calm nothing g g' /\ steady (g_store g) (g_store g') /\
    m_descriptors g' = m_descriptors g.
Proof.
  intros Hinv Hd Hrs Hl Hnn.
  destruct (with_copy_runs g false top dt dd (fun r => notify_named k msg name (Some r)) (eq tt) Hinv Hl Hnn) as (u & g' & Hrun & C & S & D & <-); [done| |].
  - intros n g1 C1 _ _ Hh _. destruct (notify_runs g1 k msg name (Some n) (cm_inv _ _ _ C1)) as (g2 & Hrun2 & C2 & D2).
    { intros x [= <-]. by eapply links_exists, holds_links. }
    exists tt, g2. pose proof (notify_steadily k msg name (Some n) g1) as S2. rewrite Hrun2 in S2. by split_and!.
  - exists g'. split_and!; try done. rewrite <- Hrun. unfold with_ref, mbind, M_bind. by rewrite (ref_runs g name d top rs).
Qed.

(** ** Sharing *)

(** The place that the result of [share] comes from. *)
Definition shared_result (R : bool) (dd : Referenced_data) : Z := if R then data_address dd else nullptr.

Lemma share_metadata_runs g name d R r dt dd :
  inv (g_store g) -> m_descriptors g !! name = Some d -> m_metadata d = true -> m_refs d <> [] ->
  links g r dt dd -> data_address dd <> nullptr -> unlocked g (data_buffer dd) ->
  exists g' h, share_ref name r R false g = Done (shared_result R dd) g' /\ calm nothing g g' /\ steady (g_store g) (g_store g') /\
    m_descriptors g' = <[name := mkDescriptor (m_type d) true (h :: m_refs d)]> (m_descriptors g) /\ holder g' h R dt dd /\ (next (g_store g) <= h)%nat.
Proof.
  intros Hinv Hd Hm Hne Hl Hnn Hun.
  destruct (with_copy_is_null g true r dt dd Hinv Hl Hnn) as (g1 & Hrun1 & C1 & S1 & D1); [done|]. pose proof (cm_inv _ _ _ C1) as Hinv1.
  assert (Hl1 : links g1 r dt dd) by (eapply calm_links; [exact Hinv|exact C1|tauto|done]).
  assert (Hun1 : unlocked g1 (data_buffer dd)) by (by apply (unlocked_kept g g1 r dt dd Hinv Hinv1 S1 Hun)).
  assert (Hres : exists g2, (if R || false then with_ref (ref_copy R false r) ref_get_nothrow else mret nullptr) g1 = Done (shared_result R dd) g2 /\
            calm nothing g1 g2 /\ steady (g_store g1) (g_store g2) /\ m_descriptors g2 = m_descriptors g1).
  { destruct R; [by apply (with_copy_get g1 true r dt dd)|]. exists g1. split_and!; [done|by apply calm_refl|reflexivity|done]. }
  destruct Hres as (g2 & Hrun2 & C2 & S2 & D2). pose proof (cm_inv _ _ _ C2) as Hinv2.
  assert (Hl2 : links g2 r dt dd) by (eapply calm_links; [exact Hinv1|exact C2|tauto|done]).
  assert (Hun2 : unlocked g2 (data_buffer dd)) by (by apply (unlocked_kept g1 g2 r dt dd Hinv1 Hinv2 S2 Hun1)).
  destruct (hold_holds g2 name d R r dt dd Hinv2) as (g3 & h & Hrun3 & C3 & S3 & D3 & Hh3 & Hlt); try done; [by rewrite D2, D1|].
  rewrite Hm in D3. set (d3 := mkDescriptor (m_type d) true (h :: m_refs d)) in *. pose proof (cm_inv _ _ _ C3) as Hinv3.
  assert (Hd3 : m_descriptors g3 !! name = Some d3) by (by rewrite D3, lookup_insert_eq).
  assert (Hl3 : links g3 r dt dd) by (eapply calm_links; [exact Hinv2|exact C3|tauto|done]).
  destruct (with_copy_is_null g3 false h dt dd Hinv3) as (g4 & Hrun4 & C4 & S4 & D4); [by eapply holds_links|done|done|].
  assert (Hh4 : holder g4 h R dt dd) by (eapply calm_holds; [exact Hinv3|exact C4|tauto|done]).
  destruct (with_top_notify g4 name d3 h (m_refs d) dt dd On_data "while sharing") as (g5 & Hrun5 & C5 & S5 & D5); try done; [apply C4|by rewrite D4|by eapply holds_links|].
  pose proof (cm_next _ _ _ C1). pose proof (cm_next _ _ _ C2).
  exists g5, h. split_and!; [|by do 4 (eapply calm_step; [eassumption|])|by do 4 (etrans; [eassumption|])|by rewrite D5, D4, D3, D2, D1| |lia].
  2: { eapply calm_holds; [apply C4|exact C5|tauto|done]. }
  unfold share_ref, in_context, catch at 1. unfold mbind at 1, M_bind at 1. rewrite (assert_runs g name d) by auto.
  unfold mbind at 1, M_bind at 1, get_desc at 1. rewrite Hd, Hm. unfold mbind at 1, M_bind at 1. unfold mbind at 1, M_bind at 1. rewrite Hrun1.
  unfold mbind at 1, M_bind at 1. cbn -[with_ref mbind hold ref_is_null ref notify_data assert_placeholder orb]. rewrite Hrun2.
  unfold mbind at 1, M_bind at 1. rewrite Hrun3. unfold mbind at 1, M_bind at 1. rewrite (is_null_runs g3 r dt dd) by done.
  cbn -[with_ref mbind ref_is_null ref notify_data assert_placeholder pop]. unfold mbind at 1, M_bind at 1. unfold mbind at 1, M_bind at 1.
  assert (Href : with_ref (ref name) ref_is_null g3 = Done false g4).
  { rewrite <- Hrun4. unfold with_ref, mbind, M_bind. by rewrite (ref_runs g3 name d3 h (m_refs d)). }
  rewrite Href. cbn -[with_ref mbind ref_is_null ref notify_data assert_placeholder pop].
  unfold mbind at 1, M_bind at 1, catch. unfold notify_data. rewrite Hrun5. unfold mbind, M_bind.
  rewrite (assert_runs g5 name d3); [done|by rewrite D5, D4|by right].
Qed.

(** ** Deep copies *)

(** Data that can be copied. *)
Record copyable g (dd : Referenced_data) : Prop := {
  cp_address : data_address dd <> nullptr;
  cp_type : copy_ok (data_type dd) = true;
  cp_packed : 0 < packed_size (data_type dd);
  cp_size : 0 < buffersize (data_type dd);
  cp_fits : packed_size (data_type dd) + (alignment (data_type dd) - 1) < size_modulus;
  cp_allocated : allocated (g_mem g) (data_address dd) (buffersize (data_type dd))
}.

(** [p] holds a copy of the data in [g], of type [t], apart from what was allocated. *)
Record copied g g' (dd : Referenced_data) (p : Z) (t : Datatype) : Prop := {
  cd_type : densify (data_type dd) = Ret t;
  cd_address : p <> nullptr;
  cd_moved : moved (g_mem g) (g_mem g') p (data_address dd) (moves (data_type dd));
  cd_kept : forall z, is_Some (g_mem g !! z) -> g_mem g' !! z = g_mem g !! z;
  cd_fresh : forall z, p <= z < p + buffersize t -> g_mem g !! z = None
}.

Lemma calm_set_mem X g g' m : calm X g g' -> calm X (set_mem m g) (set_mem m g').
Proof. by intros []. Qed.

Lemma new_ref_calm g data free t readable writable :
  data <> nullptr -> inv (g_store g) -> calm nothing g (set_store (with_new_ref data free t readable writable (g_store g)) g).
Proof.
  intros Hnn Hinv. destruct (new_ref_ok (g_store g) false false data free t readable writable Hinv)
    as [(e & _ & _ & Hnull)|(st' & c & Hrun & Hst & Hn & Hrefs & Hd & _)]; [done|].
  rewrite new_ref_runs in Hrun by done. injection Hrun as <-. destruct (Hst Hinv) as [Hinv' _]. split; try done; [simpl; lia|].
  intros r x _ Hx. simpl. rewrite lookup_insert_ne; [done|]. intros <-. by apply (fresh_ref _ _ _ Hinv Hx).
Qed.

Lemma new_ref_steady data free t readable writable st : steady st (with_new_ref data free t readable writable st).
Proof.
  split; [simpl; lia|]. intros b y' Hb Hy. simpl in Hy. rewrite lookup_insert_ne in Hy by lia. by exists y'.
Qed.

Lemma deep_copy_runs g o dt dd :
  inv (g_store g) -> links g o dt dd -> copyable g dd -> unlocked g (data_buffer dd) ->
  exists g' r d b p t, ref_deep_copy o g = Done r g' /\ copied g g' dd p t /\ calm nothing (set_mem (g_mem g') g) g' /\
    m_descriptors g' = m_descriptors g /\ holder g' r false d (mkData b p t) /\ unlocked g' b /\ (next (g_store g) <= r)%nat /\ (next (g_store g) <= d)%nat.
Proof.
  intros Hinv Hl [Hnn Hok Hpk Hsz Hfit Hal] Hun. destruct (copy_holds g true o dt dd Hinv Hl Hnn) as (g1 & Hrun1 & C1 & S1 & D1 & [Hq Hdt]); [done|].
  set (q := next (g_store g)) in *. pose proof (cm_inv _ _ _ C1) as Hinv1. pose proof (cm_mem _ _ _ C1) as HM1.
  destruct (linked_points_to (g_store g1) q _ dt Hinv1 Hq eq_refl) as (dd' & y & Hpt). pose proof Hpt as (_ & _ & Hdt' & _). assert (dd' = dd) as -> by congruence.
  destruct (do_copy_spec run_copy q (g_mem g1) (g_store g1) _ dt dd y Hinv1 Hpt Hnn Hok Hpk Hsz Hfit) as (m' & st' & t' & p & d' & b' & z & Hcopy & Hinv2 & Hden & _ & Hr' & Hd' & _ & _ & _ & _ & Hmv & Hkeep & Hfr & Hst' & Hpn).
  { by rewrite HM1. }
  subst st'. set (r := next (g_store g1)) in *. set (st' := with_new_ref p p t' true true (g_store g1)) in *.
  simpl in Hr'. rewrite lookup_insert_eq in Hr'. injection Hr' as <-. simpl in Hd'. rewrite lookup_insert_eq in Hd'. injection Hd' as <-.
  set (g2 := set_store st' (set_mem m' g1)).
  assert (C2 : calm nothing (set_mem m' g1) g2) by (by apply (new_ref_calm (set_mem m' g1))).
  assert (Hqr : (q < r)%nat) by (apply (wf_next_refs _ (proj1 Hinv1)); by eexists).
  destruct (destroy_runs g2 q) as (g3 & Hrun3 & C3 & D3); [done|exists (mkReference true false (Some dt)); simpl; rewrite lookup_insert_ne by lia; done|].
  pose proof (ref_destroy_steadily q g2) as S3. rewrite Hrun3 in S3. pose proof (cm_mem _ _ _ C3) as HM3. simpl in HM3.
  assert (Hh2 : holder g2 r false (S (S r)) (mkData (S r) p t')) by (split; simpl; by rewrite lookup_insert_eq).
  assert (Hh3 : holder g3 r false (S (S r)) (mkData (S r) p t')) by (apply (calm_holds (eq q) g2 g3); [exact Hinv2|exact C3|lia|done]).
  exists g3, r, (S (S r)), (S r), p, t'. split_and!; try done; try (unfold r; pose proof (cm_next _ _ _ C1); lia).
  - unfold ref_deep_copy, with_ref, mbind, M_bind. rewrite Hrun1. unfold finally, zoom. cbn [fst snd]. rewrite Hcopy. cbn [mbind outcome_bind fst snd].
    change (set_store st' (set_mem m' g1)) with g2. by rewrite Hrun3.
  - split; try done; rewrite ?HM3; rewrite <- HM1; [exact Hmv|exact Hkeep|exact Hfr].
  - rewrite HM3. eapply calm_weaken; [eapply calm_trans; [eapply calm_trans; [by apply calm_set_mem|exact C2]|exact C3]|].
    intros k Hk [[[]|[]]|<-]. apply (wf_next_refs _ (proj1 Hinv)) in Hk. unfold q in Hk. lia.
  - rewrite D3. unfold g2. simpl. done.
  - apply (unlocked_kept g2 g3 r (S (S r)) (mkData (S r) p t')); [done|apply C3|done| |by eapply holds_links].
    exists (mkBuffer (Some (mkDeallocator p t' p)) 0 0 ∅). split; [simpl; by rewrite lookup_insert_eq|done].
Qed.

(** ** Reclaiming *)

Lemma pop_steadily name : steadily (W := W) (pop name).
Proof.
  apply steadily_bind; [apply steadily_same; intros g; unfold get_desc; by destruct (_ !! _)|]. intros d. destruct (m_refs d); [by apply steadily_same|].
  apply steadily_bind; [by apply steadily_same|]. intros _. apply ref_destroy_steadily.
Qed.

Lemma release_mem r a g g' : finally (ref_release r) (ref_destroy r) g = Done a g' -> g_mem g' = g_mem g.
Proof.
  unfold finally, ref_release, ref_destroy, unit_store, on_store, zoom. destruct (release _ _ _ _ _) as [[v st]|e|]; [| |done].
  - destruct (st ← _; Ret (tt, st)) as [[u st']| |]; [|done..]. by intros [= _ <-].
  - by destruct (st ← _; Ret (tt, st)) as [[u st']| |].
Qed.

(** A holder is popped while [o] is linked to data that can be read. *)
Lemma pop_top g name d h rs o dt dd :
  inv (g_store g) -> m_descriptors g !! name = Some d -> m_refs d = h :: rs -> exists_ref g h -> h <> o -> links g o dt dd -> unlocked g (data_buffer dd) ->
  exists g', pop name g = Done tt g' /\ calm (eq h) g g' /\ m_descriptors g' = <[name := mkDescriptor (m_type d) (m_metadata d) rs]> (m_descriptors g) /\
    links g' o dt dd /\ unlocked g' (data_buffer dd).
Proof.
  intros Hinv Hd Hrs Hh Hne Hl Hun. destruct (pop_runs g name d h rs Hinv Hd Hrs Hh) as (g' & Hrun & C & D). exists g'.
  assert (Hl' : links g' o dt dd) by (eapply calm_links; [exact Hinv|exact C|done|done]).
  pose proof (pop_steadily name g) as S. rewrite Hrun in S. split_and!; try done. apply (unlocked_kept g g' o dt dd Hinv); try done. apply C.
Qed.

(** The copy replaces the placeholder. *)
Lemma keep_copy_runs g name d o dt dd :
  inv (g_store g) -> m_descriptors g !! name = Some d -> links g o dt dd -> copyable g dd -> unlocked g (data_buffer dd) ->
  exists g' h d' b q t, with_ref (ref_deep_copy o) (hold name true false) g = Done tt g' /\ copied g g' dd q t /\ inv (g_store g') /\
    m_descriptors g' = <[name := mkDescriptor (m_type d) (m_metadata d) (h :: m_refs d)]> (m_descriptors g) /\
    holder g' h true d' (mkData b q t) /\ links g' o dt dd /\ (next (g_store g) <= h)%nat /\ (next (g_store g) <= d')%nat.
Proof.
  intros Hinv Hd Hl Hcp Hun. destruct (deep_copy_runs g o dt dd Hinv Hl Hcp Hun) as (g1 & r & d' & b & q & t & Hrun1 & Hcd & C1 & D1 & Hr1 & Hun1 & Hfr & Hfd).
  pose proof (cm_inv _ _ _ C1) as Hinv1. pose proof (cd_address _ _ _ _ _ Hcd) as Hq.
  assert (Hlt : (o < next (g_store g))%nat) by (apply (wf_next_refs _ (proj1 Hinv)); by eapply links_exists).
  assert (Hl1 : links g1 o dt dd) by (apply (calm_links nothing (set_mem (g_mem g1) g) g1); [exact Hinv|exact C1|tauto|exact Hl]).
  destruct (hold_holds g1 name d true r d' (mkData b q t) Hinv1) as (g2 & h & Hrun2 & C2 & _ & D2 & Hh2 & Hfh); [by rewrite D1|by eapply holds_links|done|done|].
  assert (Hrh : (r < next (g_store g1))%nat) by (apply (wf_next_refs _ (proj1 Hinv1)); by eapply links_exists, holds_links).
  destruct (destroy_runs g2 r) as (g3 & Hrun3 & C3 & D3); [apply C2| |].
  { destruct Hr1 as [Hr1 _]. eexists. by apply (calm_ref g1 g2 r _ C2 Hr1). }
  pose proof (cm_mem _ _ _ C2). pose proof (cm_mem _ _ _ C3). pose proof (cm_next _ _ _ C1) as Hnx. simpl in Hnx.
  exists g3, h, d', b, q, t. split_and!; [| |apply C3|by rewrite D3, D2, D1| | |lia|done].
  - unfold with_ref, mbind, M_bind. rewrite Hrun1. unfold finally. by rewrite Hrun2, Hrun3.
  - destruct Hcd as [? ? Hmv Hk ?]. assert (HM : g_mem g3 = g_mem g1) by congruence. split; try done; by rewrite HM.
  - eapply calm_holds; [apply C2|exact C3|lia|done].
  - eapply calm_links; [apply C2|exact C3|lia|]. eapply calm_links; [exact Hinv1|exact C2|tauto|done].
Qed.

Lemma reclaim_metadata_runs g name d h p dt dd :
  inv (g_store g) -> m_descriptors g !! name = Some d -> m_metadata d = true -> m_refs d = [h; p] -> h <> p -> exists_ref g p ->
  links g h dt dd -> copyable g dd -> unlocked g (data_buffer dd) ->
  exists g' h' d' b q t, reclaim name g = Done (data_address dd) g' /\ copied g g' dd q t /\ inv (g_store g') /\ given_back g' (data_buffer dd) /\
    m_descriptors g' = <[name := mkDescriptor (m_type d) true [h']]> (m_descriptors g) /\ holder g' h' true d' (mkData b q t).
Proof.
  intros Hinv Hd Hm Hrs Hhp [px Hp] Hl Hcp Hun. pose proof (cp_address _ _ Hcp) as Hnn.
  destruct (with_top_notify g name d h [p] dt dd On_data_remove "while removing" Hinv Hd Hrs Hl Hnn) as (g1 & Hrun1 & C1 & S1 & D1).
  pose proof (cm_inv _ _ _ C1) as Hinv1. assert (Hd1 : m_descriptors g1 !! name = Some d) by (by rewrite D1).
  assert (Hl1 : links g1 h dt dd) by (eapply calm_links; [exact Hinv|exact C1|tauto|done]).
  pose proof (unlocked_kept g g1 h dt dd Hinv Hinv1 S1 Hun Hl1) as Hun1.
  destruct (copy_holds g1 false h dt dd Hinv1 Hl1 Hnn) as (g2 & Hrun2 & C2 & S2 & D2 & Ho2); [done|]. set (o := next (g_store g1)) in *.
  pose proof (cm_inv _ _ _ C2) as Hinv2. apply holds_links in Ho2. pose proof (unlocked_kept g1 g2 o dt dd Hinv1 Hinv2 S2 Hun1 Ho2) as Hun2.
  pose proof (calm_ref g g1 p px C1 Hp) as Hp1. pose proof (calm_ref g1 g2 p px C2 Hp1) as Hp2.
  assert (Hho : (h < o)%nat) by (apply (wf_next_refs _ (proj1 Hinv1)); by eapply links_exists).
  assert (Hpo : (p < o)%nat) by (apply (wf_next_refs _ (proj1 Hinv1)); by eexists).
  destruct (pop_top g2 name d h [p] o dt dd Hinv2) as (g3 & Hrun3 & C3 & D3 & Ho3 & Hun3); try done; [by rewrite D2| |lia|].
  { eapply links_exists, (calm_links _ g1 g2); [exact Hinv1|exact C2|tauto|exact Hl1]. }
  set (d3 := mkDescriptor (m_type d) (m_metadata d) [p]) in *. assert (Hd3 : m_descriptors g3 !! name = Some d3) by (by rewrite D3, lookup_insert_eq).
  destruct (pop_top g3 name d3 p [] o dt dd (cm_inv _ _ _ C3)) as (g4 & Hrun4 & C4 & D4 & Ho4 & Hun4); try done; [|lia|].
  { exists px. by apply (cm_refs _ _ _ C3). }
  set (d4 := mkDescriptor (m_type d3) (m_metadata d3) []) in *. assert (Hd4 : m_descriptors g4 !! name = Some d4) by (by rewrite D4, lookup_insert_eq).
  assert (HM : g_mem g4 = g_mem g) by (by rewrite (cm_mem _ _ _ C4), (cm_mem _ _ _ C3), (cm_mem _ _ _ C2), (cm_mem _ _ _ C1)).
  assert (Hcp4 : copyable g4 dd) by (destruct Hcp; split; try done; by rewrite HM).
  destruct (keep_copy_runs g4 name d4 o dt dd (cm_inv _ _ _ C4) Hd4 Ho4 Hcp4 Hun4) as (g5 & h' & d' & b & q & t & Hrun5 & Hcd & Hinv5 & D5 & Hh5 & Ho5 & Hfh & Hfd).
  set (d5 := mkDescriptor (m_type d4) (m_metadata d4) [h']) in *. assert (Hd5 : m_descriptors g5 !! name = Some d5) by (by rewrite D5, lookup_insert_eq).
  destruct (release_runs g5 o dt dd Hinv5 Ho5 Hnn) as (g6 & Hrun6 & D6 & Hback & Hinv6 & Hkeep).
  pose proof (release_mem _ _ _ _ Hrun6) as HM6.
  exists g6, h', d', b, q, t. split_and!; try done.
  - unfold reclaim, in_context, catch. unfold mbind at 1, M_bind at 1. rewrite (assert_runs g name d) by (done || right; by rewrite Hrs).
    unfold mbind at 1, M_bind at 1, get_desc at 1. rewrite Hd.
    assert (not_shared d = false) as -> by (unfold not_shared; by rewrite Hrs).
    unfold mbind at 1, M_bind at 1. cbn -[with_ref mbind]. unfold mbind at 1, M_bind at 1. unfold notify_data_remove. rewrite Hrun1.
    unfold with_ref at 1. unfold mbind at 1, M_bind at 1. rewrite (ref_runs g1 name d h [p]) by done. rewrite Hrun2.
    unfold finally in *. unfold mbind at 1, M_bind at 1. rewrite Hrun3. unfold mbind at 1, M_bind at 1.
    unfold keep_metadata. unfold mbind at 1, M_bind at 1, get_desc at 1. rewrite Hd3.
    assert (Hm3 : m_metadata d3 = true) by exact Hm. rewrite Hm3. cbn -[mbind assert_placeholder with_ref pop hold ref_deep_copy ref_release ref_destroy].
    unfold mbind at 1, M_bind at 1. rewrite Hrun4. rewrite Hrun5.
    unfold mbind at 1, M_bind at 1. rewrite (assert_runs g5 name d5) by (done || by right).
    destruct (ref_release o g5) as [a g7|e g7|]; [|by destruct (ref_destroy o g7)|done]. by destruct (ref_destroy o g7); simplify_eq.
  - destruct Hcd as [? ? Hmv Hk ?]. split; try done; rewrite ?HM6; rewrite <- HM; done.
  - rewrite D6, D5, D4, D3, D2, D1, !insert_insert_eq. unfold d4, d3. simpl. by rewrite Hm.
  - destruct Hh5 as [Hh5 Hdd5]. apply (Hkeep h' _ d'); [|..|done|done|done].
    + pose proof (cm_next _ _ _ C4). pose proof (cm_next _ _ _ C3). pose proof (wf_next_refs _ (proj1 Hinv2) o (links_exists _ _ _ _ Ho2)). lia.
    + destruct Ho4 as (z & _ & _ & Hz). pose proof (wf_next_datas _ (proj1 (cm_inv _ _ _ C4)) dt ltac:(by eexists)). lia.
Qed.

End readable.

(** * Theorems *)

Section theorems.
  Context {W : Type} {RT : Runtime W} {OB : Observers W}.

Implicit Types g : global W.

(** A new reference to readable data that is shared while it lives. *)
Lemma with_new_shared {A} g name d R data free t writable (body : nat -> M (global W) A) (a : A) :
  inv (g_store g) -> m_descriptors g !! name = Some d -> m_metadata d = true -> m_refs d <> [] -> data <> nullptr ->
  (forall r g1 g2, share_ref name r R false g1 = Done (shared_result R (mkData (S r) data t)) g2 -> body r g1 = Done a g2) ->
  exists g' h dt b, with_ref (on_store (new_ref false false data free t true writable)) body g = Done a g' /\ calm nothing g g' /\
    m_descriptors g' = <[name := mkDescriptor (m_type d) true (h :: m_refs d)]> (m_descriptors g) /\
    holder g' h R dt (mkData b data t) /\ unlocked g' b /\ (next (g_store g) <= h)%nat.
Proof.
  intros Hinv Hd Hm Hne Hnn Hbody. set (r := next (g_store g)). set (g1 := set_store (with_new_ref data free t true writable (g_store g)) g).
  assert (C1 : calm nothing g g1) by (by apply new_ref_calm). pose proof (cm_inv _ _ _ C1) as Hinv1.
  assert (Hh1 : holder g1 r false (S (S r)) (mkData (S r) data t)) by (split; simpl; by rewrite lookup_insert_eq).
  assert (Hun1 : unlocked g1 (S r)).
  { eexists. split; [simpl; by rewrite lookup_insert_eq|done]. }
  destruct (share_metadata_runs g1 name d R r (S (S r)) (mkData (S r) data t) Hinv1) as (g2 & h & Hrun2 & C2 & S2 & D2 & Hh2 & Hfh); try done; [by eapply holds_links|].
  destruct (with_ref_calm g g1 g2 (on_store (new_ref false false data free t true writable)) body r a)
    as (g3 & Hrun3 & C3 & D3 & Hrun4 & C4); try done; [unfold on_store, zoom; by rewrite new_ref_runs|by eapply links_exists, holds_links|by apply Hbody|].
  pose proof (ref_destroy_steadily r g2) as S4. rewrite Hrun4 in S4. simpl in Hfh.
  assert (Hh3 : holder g3 h R (S (S r)) (mkData (S r) data t)) by (eapply calm_holds; [apply C2|exact C4|unfold r; lia|done]).
  exists g3, h, (S (S r)), (S r). split_and!; try done; [by rewrite D3, D2| |unfold r in *; lia].
  apply (unlocked_kept g1 g3 h (S (S r)) (mkData (S r) data t) Hinv1); try done; [apply C3|by etrans|by eapply holds_links].
Qed.

Lemma share_metadata_data_runs gi name d t data write :
  inv (g_store gi) -> m_descriptors gi !! name = Some d -> m_metadata d = true -> m_refs d <> [] ->
  evaluates_to gi (m_type d) t -> data <> nullptr ->
  exists g' h dt b, share_data name data true write gi = Done tt g' /\ calm nothing gi g' /\
    m_descriptors g' = <[name := mkDescriptor (m_type d) true (h :: m_refs d)]> (m_descriptors gi) /\
    holder g' h false dt (mkData b data t) /\ unlocked g' b /\ (next (g_store gi) <= h)%nat.
Proof.
  intros Hinvi Hdi Hm Hne (g & Hev & Ci & Di) Hnn. pose proof (cm_inv _ _ _ Ci) as Hinv. pose proof (cm_next _ _ _ Ci) as Hni.
  assert (Hd : m_descriptors g !! name = Some d) by (by rewrite Di).
  destruct (with_new_shared g name d false data free_function t write
    (fun r => catch (share_ref name r false false;; mret tt) (fun e => ref_release r;; assert_placeholder name;; throw e)) tt Hinv Hd Hm Hne Hnn)
    as (g' & h & dt & b & Hrun & C & D & Hh & Hun & Hfh).
  { intros r g1 g2 Hsh. unfold catch, mbind, M_bind. by rewrite Hsh. }
  exists g', h, dt, b. split_and!; try done; [|by apply (calm_step gi g g')|by rewrite D, Di|lia].
  unfold share_data, in_context, catch at 1. unfold mbind at 1, M_bind at 1. rewrite (assert_runs gi name d) by auto.
  unfold mbind at 1, M_bind at 1, get_desc at 1. rewrite Hdi. unfold mbind at 1, M_bind at 1. rewrite Hev. unfold mbind at 1, M_bind at 1. rewrite Hrun.
  rewrite (assert_runs g' name (mkDescriptor (m_type d) true (h :: m_refs d))); [done|by rewrite D, lookup_insert_eq|by right].
Qed.


End theorems.

(** * A metadata descriptor *)

#[local] Existing Instance quiet_runtime.
#[local] Existing Instance quiet_observers.

(** A metadata [n] of type [int], in a memory with four bytes at address 4096. *)
Definition metadata_g0 : global unit := set_mem demo_memory empty_global.
Definition metadata_g1 : global unit := state_after (run_op (Op_metadata "n" true) metadata_g0).
Definition metadata_g2 : global unit := state_after (run_op (Op_default_type "n" int_template) metadata_g1).

Lemma metadata_g2_reachable : ctx_reachable metadata_g2.
Proof.
  exists metadata_g0. split; [done|].
  eapply rtc_l; [eapply (step_returns _ (Op_metadata "n" true) nullptr metadata_g1); by vm_compute|].
  eapply rtc_l; [eapply (step_returns _ (Op_default_type "n" int_template) nullptr metadata_g2); by vm_compute|]. apply rtc_refl.
Defined.

