(* ===== verification/Logger.v ===== *)
(** Loggers: [pdi/src/logger.cxx].

    A [Logger] is known by its address; loggers point to their parent and to the
    loggers that observe their pattern.  Of the spdlog logger, what the code sets
    is kept: its sinks, level and pattern.  What is written is not modelled. *)

From S2P Require Import Prelude Error Effect ExprSyntax Datatype Layout Memory DenseCopy Access Ref RefInv RefOps RefTheorems RefCopy Numeric Parse Yaml Template GlobalContext Eval.
From Stdlib Require Import Ascii.

(** * State *)

Inductive level_enum := lv_trace | lv_debug | lv_info | lv_warn | lv_err | lv_off.

Inductive Sink := File_sink (filename : string) | Console_sink.

Record Spdlog := mkSpdlog {
  sp_name : string;
  sp_sinks : list Sink;
  sp_level : level_enum;
  sp_pattern : string
}.

(** [m_logger] is null until [setup]. *)
Record Logger := mkLogger {
  m_logger : option Spdlog;
  m_default_pattern_observers : list nat;
  m_pattern_blocks : list string;
  m_pattern : string;
  m_pattern_from_config : bool;
  m_parent_logger : option nat
}.

Definition new_logger : Logger := mkLogger None [] [] "[%T][%n] *** %^%l%$: %v" false None.

Abbreviation loggers := (gmap nat Logger).
Abbreviation L := (M loggers).

Definition get_logger (l : nat) : L Logger := fun ls => match ls !! l with Some x => Done x ls | None => Crashed end.
Definition update_logger (l : nat) (f : Logger -> Logger) : L unit := x ← get_logger l; modify <[l := f x]>.

Definition with_spdlog (o : option Spdlog) (x : Logger) : Logger :=
  mkLogger o (m_default_pattern_observers x) (m_pattern_blocks x) (m_pattern x) (m_pattern_from_config x) (m_parent_logger x).
Definition with_observers (os : list nat) (x : Logger) : Logger :=
  mkLogger (m_logger x) os (m_pattern_blocks x) (m_pattern x) (m_pattern_from_config x) (m_parent_logger x).
Definition with_blocks (bs : list string) (x : Logger) : Logger :=
  mkLogger (m_logger x) (m_default_pattern_observers x) bs (m_pattern x) (m_pattern_from_config x) (m_parent_logger x).
Definition with_pattern (p : string) (x : Logger) : Logger :=
  mkLogger (m_logger x) (m_default_pattern_observers x) (m_pattern_blocks x) p (m_pattern_from_config x) (m_parent_logger x).
Definition with_from_config (b : bool) (x : Logger) : Logger :=
  mkLogger (m_logger x) (m_default_pattern_observers x) (m_pattern_blocks x) (m_pattern x) b (m_parent_logger x).
Definition with_parent (p : option nat) (x : Logger) : Logger :=
  mkLogger (m_logger x) (m_default_pattern_observers x) (m_pattern_blocks x) (m_pattern x) (m_pattern_from_config x) p.

(** The constructor of a logger that is not set up: an address no logger has had. *)
Definition create_logger : L nat :=
  l ← gets (map_fold (fun l _ n => Nat.max (S l) n) O);
  modify <[l := new_logger]>;;
  mret l.

(** A call on [m_logger]. *)
Definition on_spdlog (l : nat) (f : Spdlog -> Spdlog) : L unit :=
  x ← get_logger l;
  match m_logger x with None => lift Crash | Some s => update_logger l (with_spdlog (Some (f s))) end.

Definition set_pattern (p : string) (s : Spdlog) : Spdlog := mkSpdlog (sp_name s) (sp_sinks s) (sp_level s) p.
Definition set_level (v : level_enum) (s : Spdlog) : Spdlog := mkSpdlog (sp_name s) (sp_sinks s) v (sp_pattern s).

(** * Configuration *)

Definition select_log_sinks (logger_name : string) (logging_tree : PC_tree) : outcome Spdlog :=
  let output_tree := get_key logging_tree "output" in
  files ← (if negb (PC_status (get_key output_tree "file"))
           then filename ← Yaml.to_string (get_key output_tree "file"); Ret [File_sink filename] else Ret []);
  let console := get_key output_tree "console" in
  let consoles :=
    if (negb (PC_status console) || bool_decide (files = [])) && negb (bool_decide (to_string_default console "on" = "off"))
    then [Console_sink] else [] in
  Ret (mkSpdlog logger_name (files ++ consoles) lv_info "%+").

Definition level_map : list (string * level_enum) :=
  [("trace", lv_trace); ("debug", lv_debug); ("info", lv_info); ("warn", lv_warn); ("error", lv_err); ("off", lv_off)].

Definition find_level (level_str : string) : option level_enum :=
  snd ∘ snd <$> list_find (fun p => fst p = level_str) level_map.

(** The level to set, if any; a warning for an unknown level is only written. *)
Definition read_log_level (logging_tree : PC_tree) : outcome (option level_enum) :=
  let level_tree := get_key logging_tree "level" in
  if negb (PC_status level_tree) then level_str ← Yaml.to_string level_tree; Ret (find_level level_str)
  else match Yaml.to_string logging_tree with Ret level_str => Ret (find_level level_str) | _ => Ret None end.

(** * References in patterns *)

(** The parts before and after the first [%{]. *)
Fixpoint find_reference (s : string) : option (string * string) :=
  match s with
  | EmptyString => None
  | String c rest =>
      if at_char s "%" && at_char rest open_brace then Some ("", rest)
      else '(before, after) ← find_reference rest; Some (String c before, after)
  end.

(** [evaluate_refs_in_pattern] without a context: the references are removed. *)
Fixpoint evaluate_refs_in_pattern (fuel : nat) (pattern : string) : outcome string :=
  match fuel with
  | O => Crash
  | S fuel =>
      match find_reference pattern with
      | None => Ret pattern
      | Some (before, after) =>
          let reference_str := String "$" after in
          '(_, rest) ← parse_reference (fuel_for reference_str) reference_str;
          evaluate_refs_in_pattern fuel (before +:+ rest)
      end
  end.

Definition pattern_fuel (pattern : string) : nat := S (String.length pattern).
Definition plain_pattern (pattern : string) : outcome string := evaluate_refs_in_pattern (pattern_fuel pattern) pattern.

(** * Patterns *)

Definition build_pattern (blocks : list string) : string := foldr String.append "[%n] *** %^%l%$: %v" blocks.

(** [Logger::default_pattern]: observers form a tree, and [fuel] bounds its height. *)
Fixpoint default_pattern (fuel : nat) (pattern : string) (l : nat) : L unit :=
  match fuel with
  | O => lift Crash
  | S fuel =>
      x ← get_logger l;
      if m_pattern_from_config x then mret tt
      else
        update_logger l (with_pattern pattern);;
        p ← lift (plain_pattern pattern);
        on_spdlog l (set_pattern p);;
        iter (fun observer _ => default_pattern fuel pattern observer) (m_default_pattern_observers x) tt
  end.

(** As many levels as there are loggers. *)
Definition inherit_pattern (pattern : string) (l : nat) : L unit := n ← gets size; default_pattern n pattern l.

Definition add_pattern_block (block : string) (l : nat) : L unit :=
  update_logger l (fun x => with_blocks (m_pattern_blocks x ++ ["[" +:+ block +:+ "]"]) x);;
  update_logger l (fun x => with_pattern (build_pattern (m_pattern_blocks x)) x);;
  x ← get_logger l;
  inherit_pattern (m_pattern x) l.

(** The part of [setup] common to both forms. *)
Definition setup (logger_name : string) (config : PC_tree) (level : level_enum) (l : nat) : L unit :=
  s ← lift (select_log_sinks logger_name config);
  update_logger l (with_spdlog (Some s));;
  on_spdlog l (set_level level);;
  o ← lift (read_log_level config);
  (match o with Some v => on_spdlog l (set_level v) | None => mret tt end);;
  add_pattern_block "%T" l;;
  (let pattern_tree := get_key config "pattern" in
   if negb (PC_status pattern_tree) then
     p ← lift (Yaml.to_string pattern_tree);
     update_logger l (with_pattern p);;
     x ← get_logger l;
     iter (fun observer _ => inherit_pattern p observer) (m_default_pattern_observers x) tt;;
     update_logger l (with_from_config true)
   else mret tt);;
  x ← get_logger l;
  p ← lift (plain_pattern (m_pattern x));
  on_spdlog l (set_pattern p).

Definition logger_level (l : nat) : L level_enum :=
  x ← get_logger l; match m_logger x with Some s => mret (sp_level s) | None => lift Crash end.

(** [setup] with a parent *)
Definition setup_child (parent : nat) (logger_name : string) (config : PC_tree) (l : nat) : L unit :=
  update_logger l (with_parent (Some parent));;
  v ← logger_level parent;
  setup logger_name config v l;;
  update_logger parent (fun x => with_observers (m_default_pattern_observers x ++ [l]) x);;
  x ← get_logger parent;
  inherit_pattern (m_pattern x) l.

(** [Logger::pattern] *)
Definition pattern (pattern_str : string) (l : nat) : L unit :=
  update_logger l (with_pattern pattern_str);;
  on_spdlog l (set_pattern pattern_str);;
  x ← get_logger l;
  iter (fun observer _ => inherit_pattern pattern_str observer) (m_default_pattern_observers x) tt;;
  p ← lift (plain_pattern pattern_str);
  on_spdlog l (set_pattern p).

(** The logger without a parent above [l]. *)
Fixpoint to_root {A} (fuel : nat) (f : nat -> L A) (l : nat) : L A :=
  match fuel with
  | O => lift Crash
  | S fuel => x ← get_logger l; match m_parent_logger x with Some p => to_root fuel f p | None => f l end
  end.

Definition at_root {A} (f : nat -> L A) (l : nat) : L A := n ← gets size; to_root n f l.

Definition global_pattern (pattern_str : string) (l : nat) : L unit := at_root (pattern pattern_str) l.
Definition add_pattern_global_block (block : string) (l : nat) : L unit := at_root (add_pattern_block block) l.

(** * With a context *)

(** The plugins' state holds the loggers. *)
Class LoggerHost (W : Type) := {
  loggers_of : W -> loggers;
  set_loggers : loggers -> W -> W;
  loggers_set : forall ls w, loggers_of (set_loggers ls w) = ls
}.

Section context.
  Context {W : Type} {RT : Runtime W} {LH : LoggerHost W}.

Abbreviation G := (M (global W)).

Definition on_loggers {A} (m : L A) : G A := fun g =>
  match m (loggers_of (g_world g)) with
  | Done a ls => Done a (set_world (set_loggers ls (g_world g)) g)
  | Thrown e ls => Thrown e (set_world (set_loggers ls (g_world g)) g)
  | Crashed => Crashed
  end.

(** [evaluate_refs_in_pattern]: the references are replaced by their value, in
    which references are looked for again; [fuel] bounds the number of turns. *)
Fixpoint evaluate_refs_in_context (fuel : nat) (pattern : string) : G string :=
  match fuel with
  | O => lift Crash
  | S fuel =>
      match find_reference pattern with
      | None => mret pattern
      | Some (before, after) =>
          let reference_str := String "$" after in
          '(e, rest) ← lift (parse_reference (fuel_for reference_str) reference_str);
          value ← expr_to_string e;
          evaluate_refs_in_context fuel (before +:+ value +:+ rest)
      end
  end.

(** [Logger::evaluate_pattern]; [turns] is the bound on the loop. *)
Fixpoint evaluate_pattern (turns fuel : nat) (l : nat) : G unit :=
  match fuel with
  | O => lift Crash
  | S fuel =>
      x ← on_loggers (get_logger l);
      p ← evaluate_refs_in_context turns (m_pattern x);
      on_loggers (on_spdlog l (set_pattern p));;
      x ← on_loggers (get_logger l);
      iter (fun observer _ => evaluate_pattern turns fuel observer) (m_default_pattern_observers x) tt
  end.

Definition evaluate_global_pattern (turns : nat) (l : nat) : G unit :=
  n ← on_loggers (gets size);
  root ← on_loggers (at_root mret l);
  evaluate_pattern turns n root.

End context.
