(* ===== verification/LoggerFacts.v ===== *)
(** What loggers guarantee: patterns are evaluated in finite time, and a global
    pattern reaches every logger that inherits it. *)

From S2P Require Import Prelude Error Effect ExprSyntax Datatype Layout Memory DenseCopy Access Ref RefInv RefOps RefTheorems RefCopy Numeric Parse Yaml Template GlobalContext Eval ParseFacts Logger.
From Stdlib Require Import Ascii.

(** * References in patterns *)

Lemma find_reference_len s before after : find_reference s = Some (before, after) -> len s = (len before + S (len after))%nat.
Proof.
  revert before. induction s as [|c s IH]; intros before; simpl; [done|].
  destruct (at_char (String c s) "%"%char && at_char s open_brace); [by intros [= <- <-]|].
  destruct (find_reference s) as [[b a]|]; [|done]. intros [= <- <-]. simpl. by rewrite (IH b eq_refl).
Qed.

Lemma len_append a b : len (a +:+ b) = (len a + len b)%nat.
Proof. induction a as [|c a IH]; simpl; [done|]. by rewrite IH. Qed.

Lemma evaluate_refs_ok fuel : forall s, (len s < fuel)%nat ->
  evaluate_refs_in_pattern fuel s <> Crash /\ forall r, evaluate_refs_in_pattern fuel s = Ret r -> find_reference r = None.
Proof.
  induction fuel as [|fuel IH]; intros s Hs; [lia|]. cbn [evaluate_refs_in_pattern].
  destruct (find_reference s) as [[before after]|] eqn:Hf; [|by split; [|intros r [= <-]]].
  pose proof (find_reference_len _ _ _ Hf) as Hlen. set (ref := String _ after).
  destruct (parse_fuel (fuel_for ref)) as (_ & _ & _ & Hp & _). specialize (Hp ref ltac:(unfold fuel_for; lia)).
  destruct (parse_reference (fuel_for ref) ref) as [[e rest]| |]; simpl in Hp |- *; [|by split|done].
  apply suf_len in Hp. simpl in Hp. apply IH. rewrite len_append. lia.
Qed.

(** A pattern is evaluated without a context in finite time: every turn
    of the loop shortens it, and no reference is left when it returns. *)
Theorem plain_pattern_terminates s :
  plain_pattern s <> Crash /\ forall r, plain_pattern s = Ret r -> find_reference r = None.
Proof. apply evaluate_refs_ok. unfold pattern_fuel. lia. Qed.

(** * The tree of loggers *)

(** Observers are younger than the logger they observe, which is their parent,
    and every logger is set up. *)
Record family (ls : loggers) : Prop := {
  fam_observers : forall l x o, ls !! l = Some x -> o ∈ m_default_pattern_observers x ->
    (l < o)%nat /\ exists y, ls !! o = Some y /\ m_parent_logger y = Some l;
  fam_parent : forall l x p, ls !! l = Some x -> m_parent_logger x = Some p -> (p < l)%nat /\ is_Some (ls !! p);
  fam_setup : forall l x, ls !! l = Some x -> is_Some (m_logger x)
}.

(** The loggers that take the default pattern of [l]. *)
Inductive inherits (ls : loggers) : nat -> nat -> Prop :=
  | inherits_self l x : ls !! l = Some x -> m_pattern_from_config x = false -> inherits ls l l
  | inherits_observer l x o c :
      ls !! l = Some x -> m_pattern_from_config x = false -> o ∈ m_default_pattern_observers x -> inherits ls o c -> inherits ls l c.

(** The number of loggers from [l] on. *)
Definition younger (ls : loggers) (l : nat) : nat := size (filter (fun '(i, _) => (l <= i)%nat) ls).

Lemma younger_lt ls l x o : ls !! l = Some x -> (l < o)%nat -> (younger ls o < younger ls l)%nat.
Proof.
  intros Hl Ho. unfold younger. rewrite <- !size_dom. apply subset_size. split.
  - intros i. rewrite !elem_of_dom. intros [y [Hy Hi]%map_lookup_filter_Some]. exists y. apply map_lookup_filter_Some. split; [done|lia].
  - intros H. assert (Hin : l ∈ dom (filter (fun '(i, _) => (l <= i)%nat) ls)).
    { apply elem_of_dom. exists x. by apply map_lookup_filter_Some. }
    apply H, elem_of_dom in Hin as [y [_ Hi]%map_lookup_filter_Some]. lia.
Qed.

Lemma younger_le ls l : (younger ls l <= size ls)%nat.
Proof.
  unfold younger. rewrite <- !size_dom. apply subseteq_size. intros i. rewrite !elem_of_dom. intros [y [Hy _]%map_lookup_filter_Some]. by exists y.
Qed.

(** ** The shape of the tree *)

(** What the relations between loggers depend on. *)
Definition shape (x : Logger) : list nat * option nat * bool * bool :=
  (m_default_pattern_observers x, m_parent_logger x, m_pattern_from_config x, bool_decide (is_Some (m_logger x))).

Definition alike (ls ls' : loggers) : Prop := shape <$> ls = shape <$> ls'.

#[local] Instance alike_equiv : Equivalence alike.
Proof. split; unfold alike; [done|by intros ? ? ?|intros ? ? ? H1 H2; congruence]. Qed.

Lemma alike_lookup ls ls' l x : alike ls ls' -> ls !! l = Some x -> exists x', ls' !! l = Some x' /\ shape x' = shape x.
Proof.
  intros Ha Hl. apply (f_equal (fun m => m !! l)) in Ha. rewrite !lookup_fmap, Hl in Ha. simpl in Ha.
  destruct (ls' !! l) as [x'|] eqn:Hx'; simpl in Ha; [|done]. exists x'. split; [done|]. congruence.
Qed.

Lemma insert_alike ls l x x' : ls !! l = Some x -> shape x' = shape x -> alike ls (<[l := x']> ls).
Proof. intros Hl Hs. unfold alike. rewrite fmap_insert, Hs, <- fmap_insert. by rewrite insert_id. Qed.

Lemma alike_family ls ls' : alike ls ls' -> family ls -> family ls'.
Proof.
  intros Ha [Fo Fp Fs]. assert (Hb : alike ls' ls) by (by symmetry). split.
  - intros l x' o Hl Ho. destruct (alike_lookup _ _ _ _ Hb Hl) as (x & Hx & [= Hobs _ _ _]). rewrite <- Hobs in Ho.
    destruct (Fo l x o Hx Ho) as (Hlt & y & Hy & Hp). split; [done|]. destruct (alike_lookup _ _ _ _ Ha Hy) as (y' & Hy' & [= _ Hpar _ _]).
    exists y'. split; [done|congruence].
  - intros l x' p' Hl Hp. destruct (alike_lookup _ _ _ _ Hb Hl) as (x & Hx & [= _ Hpar _ _]). rewrite <- Hpar in Hp.
    destruct (Fp l x p' Hx Hp) as [Hlt [y Hy]]. split; [done|]. destruct (alike_lookup _ _ _ _ Ha Hy) as (y' & Hy' & _). by exists y'.
  - intros l x' Hl. destruct (alike_lookup _ _ _ _ Hb Hl) as (x & Hx & [= _ _ _ Hs]). apply (bool_decide_eq_true_1 (is_Some (m_logger x'))).
    rewrite <- Hs. apply bool_decide_eq_true_2. by apply (Fs l).
Qed.

Lemma alike_inherits_1 ls ls' l c : alike ls ls' -> inherits ls l c -> inherits ls' l c.
Proof.
  intros Ha H. induction H as [l x Hl Hf|l x o c Hl Hf Ho _ IH]; destruct (alike_lookup _ _ _ _ Ha Hl) as (x' & Hx' & [= Hobs _ Hc _]).
  - apply (inherits_self ls' l x'); [done|congruence].
  - apply (inherits_observer ls' l x' o c); [done|congruence|by rewrite Hobs|done].
Qed.

Lemma alike_inherits ls ls' l c : alike ls ls' -> inherits ls l c <-> inherits ls' l c.
Proof. intros Ha. split; apply alike_inherits_1; [done|by symmetry]. Qed.

Lemma alike_younger ls ls' l : alike ls ls' -> younger ls' l = younger ls l.
Proof.
  intros Ha. assert (Hb : alike ls' ls) by (by symmetry). unfold younger. rewrite <- !size_dom. f_equal. apply set_eq. intros i. rewrite !elem_of_dom.
  split; intros [y [Hy Hi]%map_lookup_filter_Some].
  - destruct (alike_lookup _ _ _ _ Hb Hy) as (x & Hx & _). exists x. by apply map_lookup_filter_Some.
  - destruct (alike_lookup _ _ _ _ Ha Hy) as (x & Hx & _). exists x. by apply map_lookup_filter_Some.
Qed.

Section paint.
  Context (p q : string).

(** A logger with its pattern [p] set, which evaluates to [q]. *)
Definition paint (x : Logger) : Logger := with_pattern p (with_spdlog (set_pattern q <$> m_logger x) x).

Lemma paint_paint x : paint (paint x) = paint x.
Proof. destruct x as [[s|] ? ? ? ? ?]; done. Qed.

Lemma shape_paint x : shape (paint x) = shape x.
Proof. destruct x as [[s|] ? ? ? ? ?]; done. Qed.

(** Some loggers were painted. *)
Definition ahead (ls ls' : loggers) : Prop := forall c, ls' !! c = ls !! c \/ ls' !! c = paint <$> ls !! c.

#[local] Instance ahead_refl : Reflexive ahead.
Proof. intros ls c. by left. Qed.

#[local] Instance ahead_trans : Transitive ahead.
Proof.
  intros l1 l2 l3 H12 H23 c. destruct (H12 c) as [E12|E12], (H23 c) as [E23|E23]; rewrite E23, ?E12; auto.
  right. destruct (l1 !! c); simpl; [by rewrite paint_paint|done].
Qed.

Lemma ahead_alike ls ls' : ahead ls ls' -> alike ls ls'.
Proof.
  intros Ha. apply map_eq. intros c. rewrite !lookup_fmap. destruct (Ha c) as [->| ->]; [done|]. destruct (ls !! c) as [x|]; simpl; [|done].
  by rewrite shape_paint.
Qed.

(** What a painted logger stays. *)
Lemma ahead_painted ls ls1 ls2 c : ahead ls ls1 -> ahead ls1 ls2 -> ls1 !! c = paint <$> ls !! c -> ls2 !! c = paint <$> ls !! c.
Proof. intros _ H2 E. destruct (H2 c) as [->| ->]; [done|]. rewrite E. destruct (ls !! c); simpl; [by rewrite paint_paint|done]. Qed.

(** [ls'] is [ls] with exactly the loggers that inherit from [l] painted. *)
Definition painted_from (l : nat) (ls ls' : loggers) : Prop :=
  ahead ls ls' /\ forall c, (inherits ls l c -> ls' !! c = paint <$> ls !! c) /\ (~ inherits ls l c -> ls' !! c = ls !! c).

Lemma update_runs l f x ls : ls !! l = Some x -> update_logger l f ls = Done tt (<[l := f x]> ls).
Proof. intros Hl. unfold update_logger, get_logger, mbind, M_bind. by rewrite Hl. Qed.

Lemma on_spdlog_runs l f x s ls :
  ls !! l = Some x -> m_logger x = Some s -> on_spdlog l f ls = Done tt (<[l := with_spdlog (Some (f s)) x]> ls).
Proof. intros Hl Hs. unfold on_spdlog, get_logger, mbind at 1, M_bind at 1. rewrite Hl, Hs. by apply update_runs. Qed.

Lemma iter_inherit (step : nat -> M loggers unit) os : forall ls,
  family ls ->
  (forall o ls', o ∈ os -> family ls' -> ahead ls ls' -> exists ls'', step o ls' = Done tt ls'' /\ painted_from o ls' ls'') ->
  exists ls', iter (fun observer _ => step observer) os tt ls = Done tt ls' /\ ahead ls ls' /\
    forall c, (forall o, o ∈ os -> inherits ls o c -> ls' !! c = paint <$> ls !! c) /\ ((forall o, o ∈ os -> ~ inherits ls o c) -> ls' !! c = ls !! c).
Proof.
  induction os as [|o os IH]; intros ls Hfam Hrun.
  { exists ls. split_and!; [done|done|]. intros c. split; [by intros o ?%not_elem_of_nil|done]. }
  destruct (Hrun o ls) as (ls1 & Hrun1 & Ha1 & Hc1); [apply list_elem_of_here|done|reflexivity|].
  assert (Hfam1 : family ls1) by (eapply alike_family; [by apply ahead_alike|done]).
  destruct (IH ls1 Hfam1) as (ls2 & Hrun2 & Ha2 & Hc2).
  { intros o' ls' Ho' Hfam' Ha'. apply Hrun; [by apply list_elem_of_further|done|by etrans]. }
  exists ls2. split_and!; [|by etrans|].
  - simpl. unfold mbind, M_bind. rewrite Hrun1. exact Hrun2.
  - intros c. destruct (Hc1 c) as [Hp1 Hk1], (Hc2 c) as [Hp2 Hk2]. split.
    + intros o' [->|Ho']%elem_of_cons Hi; [by apply (ahead_painted ls ls1 ls2 c Ha1 Ha2), Hp1|].
      rewrite (Hp2 o' Ho') by (apply (alike_inherits ls ls1); [by apply ahead_alike|done]). destruct (Ha1 c) as [->| ->]; [done|].
      destruct (ls !! c); simpl; [by rewrite paint_paint|done].
    + intros Hn. rewrite Hk2; [apply Hk1, Hn, list_elem_of_here|]. intros o' Ho' Hi. apply (Hn o'); [by apply list_elem_of_further|].
      apply (alike_inherits ls ls1); [by apply ahead_alike|done].
Qed.

Context (Hq : plain_pattern p = Ret q).

Lemma default_pattern_runs fuel : forall l ls,
  family ls -> is_Some (ls !! l) -> (younger ls l <= fuel)%nat ->
  exists ls', default_pattern fuel p l ls = Done tt ls' /\ painted_from l ls ls'.
Proof.
  induction fuel as [|fuel IH]; intros l ls Hfam [x Hx] Hfuel; pose proof (younger_lt ls l x (S l) Hx ltac:(lia)); [lia|].
  cbn [default_pattern]. unfold mbind at 1, M_bind at 1. unfold get_logger at 1. rewrite Hx.
  destruct (m_pattern_from_config x) eqn:Hc.
  { exists ls. split; [done|]. split; [reflexivity|]. intros c. split; [|done]. intros Hi. exfalso. inversion Hi; congruence. }
  destruct (fam_setup _ Hfam l x Hx) as [s Hs].
  set (ls1 := <[l := paint x]> ls).
  assert (Ha1 : ahead ls ls1).
  { intros c. unfold ls1. destruct (decide (l = c)) as [<-|Hne]; [right; by rewrite lookup_insert_eq, Hx|left; by rewrite lookup_insert_ne]. }
  assert (Hfam1 : family ls1) by (eapply alike_family; [by apply ahead_alike|done]).
  destruct (iter_inherit (default_pattern fuel p) (m_default_pattern_observers x) ls1 Hfam1) as (ls2 & Hrun & Ha2 & Hc2).
  { intros o ls' Ho Hfam' Ha'. destruct (fam_observers _ Hfam l x o Hx Ho) as (Hlt & y & Hy & _).
    assert (Ha : ahead ls ls') by (by etrans). destruct (alike_lookup _ _ _ _ (ahead_alike _ _ Ha) Hy) as (y' & Hy' & _).
    apply IH; [done|by exists y'|]. rewrite (alike_younger ls ls' o (ahead_alike _ _ Ha)). pose proof (younger_lt ls l x o Hx Hlt). lia. }
  exists ls2. split; [|split].
  - unfold mbind at 1, M_bind at 1. rewrite (update_runs l _ x) by done. unfold mbind at 1, M_bind at 1. unfold lift. rewrite Hq.
    unfold mbind at 1, M_bind at 1. rewrite (on_spdlog_runs l _ (with_pattern p x) s) by (by rewrite ?lookup_insert_eq).
    rewrite insert_insert_eq. replace (with_spdlog (Some (set_pattern q s)) (with_pattern p x)) with (paint x) by (unfold paint; by rewrite Hs).
    exact Hrun.
  - by etrans.
  - assert (Hl1 : ls1 !! l = Some (paint x)) by apply lookup_insert_eq.
    intros c. destruct (Hc2 c) as [Hp2 Hk2]. split.
    + intros Hi. inversion Hi as [l' x' Hl' _|l' x' o c' Hl' _ Ho Hi']; simplify_eq.
      * destruct (Ha2 c) as [->| ->]; rewrite Hl1, Hx; simpl; [done|by rewrite paint_paint].
      * rewrite (Hp2 o Ho) by (apply (alike_inherits ls ls1); [by apply ahead_alike|done]). destruct (Ha1 c) as [->| ->]; [done|].
        destruct (ls !! c); simpl; [by rewrite paint_paint|done].
    + intros Hn. rewrite Hk2.
      * unfold ls1. rewrite lookup_insert_ne; [done|]. intros <-. by apply Hn, (inherits_self ls l x).
      * intros o Ho Hi. apply Hn, (inherits_observer ls l x o c); try done. apply (alike_inherits ls ls1); [by apply ahead_alike|done].
Qed.

Lemma inherit_pattern_runs l ls :
  family ls -> is_Some (ls !! l) -> exists ls', inherit_pattern p l ls = Done tt ls' /\ painted_from l ls ls'.
Proof. intros Hfam Hl. unfold inherit_pattern, gets, mbind, M_bind. apply default_pattern_runs; [done..|apply younger_le]. Qed.

End paint.

(** ** The root *)

Inductive root_of (ls : loggers) : nat -> nat -> Prop :=
  | root_here l x : ls !! l = Some x -> m_parent_logger x = None -> root_of ls l l
  | root_above l x p r : ls !! l = Some x -> m_parent_logger x = Some p -> root_of ls p r -> root_of ls l r.

(** The number of loggers up to [l]. *)
Definition older (ls : loggers) (l : nat) : nat := size (filter (fun '(i, _) => (i <= l)%nat) ls).

Lemma older_lt ls l x p : ls !! l = Some x -> (p < l)%nat -> (older ls p < older ls l)%nat.
Proof.
  intros Hl Hp. unfold older. rewrite <- !size_dom. apply subset_size. split.
  - intros i. rewrite !elem_of_dom. intros [y [Hy Hi]%map_lookup_filter_Some]. exists y. apply map_lookup_filter_Some. split; [done|lia].
  - intros H. assert (Hin : l ∈ dom (filter (fun '(i, _) => (i <= l)%nat) ls)).
    { apply elem_of_dom. exists x. by apply map_lookup_filter_Some. }
    apply H, elem_of_dom in Hin as [y [_ Hi]%map_lookup_filter_Some]. lia.
Qed.

Lemma older_le ls l : (older ls l <= size ls)%nat.
Proof.
  unfold older. rewrite <- !size_dom. apply subseteq_size. intros i. rewrite !elem_of_dom. intros [y [Hy _]%map_lookup_filter_Some]. by exists y.
Qed.

Lemma older_pos ls l x : ls !! l = Some x -> (0 < older ls l)%nat.
Proof.
  intros Hl. unfold older. apply Nat.neq_0_lt_0. intros H%map_size_empty_iff.
  assert (Hin : filter (fun '(i, _) => (i <= l)%nat) ls !! l = Some x) by (by apply map_lookup_filter_Some). rewrite H in Hin. by rewrite lookup_empty in Hin.
Qed.

Lemma to_root_runs {A} (f : nat -> M loggers A) ls fuel : family ls -> forall l,
  is_Some (ls !! l) -> (older ls l <= fuel)%nat -> exists r, root_of ls l r /\ is_Some (ls !! r) /\ to_root fuel f l ls = f r ls.
Proof.
  intros Hfam. induction fuel as [|fuel IH]; intros l [x Hx] Hfuel; pose proof (older_pos ls l x Hx); [lia|].
  cbn [to_root]. unfold mbind, M_bind, get_logger. rewrite Hx. destruct (m_parent_logger x) as [p|] eqn:Hp.
  - destruct (fam_parent _ Hfam l x p Hx Hp) as [Hlt Hs]. pose proof (older_lt ls l x p Hx Hlt).
    destruct (IH p Hs ltac:(lia)) as (r & Hr & Hsr & Hrun). exists r. split_and!; [by eapply root_above|done..].
  - exists l. split_and!; [by eapply root_here|by exists x|done].
Qed.

Lemma at_root_runs {A} (f : nat -> M loggers A) ls l :
  family ls -> is_Some (ls !! l) -> exists r, root_of ls l r /\ is_Some (ls !! r) /\ at_root f l ls = f r ls.
Proof. intros Hfam Hl. unfold at_root, gets, mbind, M_bind. apply to_root_runs; [done..|apply older_le]. Qed.

(** ** Setting the pattern *)

(** The loggers that a pattern set on [r] reaches. *)
Definition reached (ls : loggers) (r c : nat) : Prop :=
  c = r \/ exists x o, ls !! r = Some x /\ o ∈ m_default_pattern_observers x /\ inherits ls o c.

Lemma observers_inherit p q ls os : plain_pattern p = Ret q -> family ls -> (forall o, o ∈ os -> is_Some (ls !! o)) ->
  exists ls', iter (fun observer _ => inherit_pattern p observer) os tt ls = Done tt ls' /\ ahead p q ls ls' /\
    forall c, (forall o, o ∈ os -> inherits ls o c -> ls' !! c = paint p q <$> ls !! c) /\ ((forall o, o ∈ os -> ~ inherits ls o c) -> ls' !! c = ls !! c).
Proof.
  intros Hq Hfam Hos. apply iter_inherit; [done|]. intros o ls' Ho Hfam' Ha. apply inherit_pattern_runs; [done..|].
  destruct (Hos o Ho) as [y Hy]. destruct (alike_lookup _ _ _ _ (ahead_alike _ _ _ _ Ha) Hy) as (y' & Hy' & _). by exists y'.
Qed.

(** An observer of [r] inherits nothing to the loggers before it. *)
Lemma inherits_later ls l c : family ls -> inherits ls l c -> (l <= c)%nat.
Proof.
  intros Hfam H. induction H as [|l x o c Hl _ Ho _ IH]; [done|]. destruct (fam_observers _ Hfam l x o Hl Ho) as [? _]. lia.
Qed.

Lemma pattern_runs p q r ls :
  plain_pattern p = Ret q -> family ls -> is_Some (ls !! r) ->
  exists ls', pattern p r ls = Done tt ls' /\ alike ls ls' /\
    forall c, (reached ls r c -> ls' !! c = paint p q <$> ls !! c) /\ (~ reached ls r c -> ls' !! c = ls !! c).
Proof.
  intros Hq Hfam [x Hx]. destruct (fam_setup _ Hfam r x Hx) as [s Hs].
  set (x1 := with_spdlog (Some (set_pattern p s)) (with_pattern p x)). set (ls1 := <[r := x1]> ls).
  assert (Hsh : shape x1 = shape x) by (destruct x; simpl in *; by subst).
  assert (Hpx : paint p q x1 = paint p q x) by (destruct x; simpl in *; by subst).
  assert (Hal1 : alike ls ls1) by (by eapply insert_alike). assert (Hfam1 : family ls1) by (by eapply alike_family).
  assert (Hr1 : ls1 !! r = Some x1) by apply lookup_insert_eq.
  destruct (observers_inherit p q ls1 (m_default_pattern_observers x) Hq Hfam1) as (ls2 & Hrun & Ha2 & Hc2).
  { intros o Ho. destruct (fam_observers _ Hfam1 r x1 o Hr1 Ho) as (_ & y & Hy & _). by exists y. }
  assert (Hr2 : ls2 !! r = Some x1).
  { destruct (Hc2 r) as [_ Hk]. rewrite Hk; [done|]. intros o Ho Hi. pose proof (inherits_later _ _ _ Hfam1 Hi).
    destruct (fam_observers _ Hfam r x o Hx Ho) as [? _]. lia. }
  assert (Hfin : with_spdlog (Some (set_pattern q (set_pattern p s))) x1 = paint p q x) by (destruct x; simpl in *; by subst).
  exists (<[r := paint p q x]> ls2). split_and!.
  - unfold pattern, mbind at 1, M_bind at 1. rewrite (update_runs r _ x) by done. unfold mbind at 1, M_bind at 1.
    rewrite (on_spdlog_runs r _ (with_pattern p x) s), insert_insert_eq by (by rewrite ?lookup_insert_eq). fold x1 ls1.
    unfold mbind at 1, M_bind at 1. unfold get_logger at 1. rewrite Hr1. unfold mbind at 1, M_bind at 1.
    change (m_default_pattern_observers x1) with (m_default_pattern_observers x). rewrite Hrun.
    unfold mbind at 1, M_bind at 1. unfold lift. rewrite Hq. rewrite (on_spdlog_runs r _ x1 (set_pattern p s)) by done. by rewrite Hfin.
  - etrans; [exact Hal1|]. etrans; [by eapply (ahead_alike p q)|]. eapply insert_alike; [exact Hr2|]. by rewrite shape_paint, Hsh.
  - intros c. destruct (Hc2 c) as [Hp Hk]. destruct (decide (r = c)) as [<-|Hne].
    { rewrite lookup_insert_eq, Hx. split; [done|]. intros []. by left. }
    assert (Hsame : ls1 !! c = ls !! c) by (unfold ls1; by rewrite lookup_insert_ne). rewrite lookup_insert_ne, <- Hsame by done. split.
    + intros [->|(x' & o & Hx' & Ho & Hi)]; [done|]. simplify_eq. apply (Hp o Ho). by apply (alike_inherits ls ls1).
    + intros Hn. apply Hk. intros o Ho Hi. apply Hn. right. exists x, o. split_and!; [done..|]. by apply (alike_inherits ls ls1).
Qed.

(** Setting the global pattern through any logger of a family of loggers
    changes the pattern of the root and of exactly the loggers that inherit from it,
    those whose pattern and whose ancestors' pattern do not come from the
    configuration; their sinks get the pattern without its references. *)
Theorem global_pattern_is_inherited p q l ls :
  family ls -> is_Some (ls !! l) -> plain_pattern p = Ret q ->
  exists r ls', root_of ls l r /\ global_pattern p l ls = Done tt ls' /\ family ls' /\
    (forall c x, reached ls r c -> ls !! c = Some x ->
       exists y, ls' !! c = Some y /\ m_pattern y = p /\ sp_pattern <$> m_logger y = Some q) /\
    (forall c, ~ reached ls r c -> ls' !! c = ls !! c).
Proof.
  intros Hfam Hl Hq. destruct (at_root_runs (pattern p) ls l Hfam Hl) as (r & Hroot & Hr & Hrun).
  destruct (pattern_runs p q r ls Hq Hfam Hr) as (ls' & Hp & Hal & Hc). exists r, ls'. split_and!; [done| |by eapply alike_family| |].
  - unfold global_pattern. by rewrite Hrun.
  - intros c x Hre Hx. destruct (Hc c) as [Hpaint _]. specialize (Hpaint Hre). rewrite Hx in Hpaint. exists (paint p q x).
    split_and!; [done|done|]. destruct (fam_setup _ Hfam c x Hx) as [s Hs]. simpl. by rewrite Hs.
  - intros c Hn. by apply Hc.
Qed.

(** ** A family *)

Definition familyb (ls : loggers) : bool :=
  forallb (fun '(l, x) =>
    forallb (fun o => (l <? o)%nat && match ls !! o with Some y => bool_decide (m_parent_logger y = Some l) | None => false end)
      (m_default_pattern_observers x)
    && match m_parent_logger x with Some p => (p <? l)%nat && bool_decide (is_Some (ls !! p)) | None => true end
    && bool_decide (is_Some (m_logger x))) (map_to_list ls).

Lemma familyb_ok ls : familyb ls = true -> family ls.
Proof.
  unfold familyb. intros H. rewrite forallb_Forall, list.Forall_forall in H.
  assert (Hall : forall l x, ls !! l = Some x -> _) by (intros l x Hl; exact (H (l, x) (proj2 (elem_of_map_to_list ls l x) Hl))). clear H. split.
  - intros l x o Hl Ho. specialize (Hall l x Hl). simpl in Hall. apply andb_true_iff in Hall as [[Hobs _]%andb_true_iff _].
    rewrite forallb_Forall, list.Forall_forall in Hobs. specialize (Hobs o Ho). simpl in Hobs. apply andb_true_iff in Hobs as [Hlt Hy].
    apply Nat.ltb_lt in Hlt. split; [done|]. destruct (ls !! o) as [y|]; [|done]. exists y. split; [done|]. by apply bool_decide_eq_true_1 in Hy.
  - intros l x p Hl Hp. specialize (Hall l x Hl). simpl in Hall. apply andb_true_iff in Hall as [[_ Hpar]%andb_true_iff _]. rewrite Hp in Hpar.
    apply andb_true_iff in Hpar as [Hlt Hs]. apply Nat.ltb_lt in Hlt. by apply bool_decide_eq_true_1 in Hs.
  - intros l x Hl. specialize (Hall l x Hl). simpl in Hall. apply andb_true_iff in Hall as [_ Hs]. by apply bool_decide_eq_true_1 in Hs.
Qed.

(** The logger of the library, that of a plugin, and that of a plugin with a
    pattern of its own. *)
Definition tree_with (l : list (string * string)) : PC_tree :=
  tree_of (YMapping no_region (map (fun p => (YScalar no_region p.1, YScalar no_region p.2)) l)).

Definition demo_loggers : loggers :=
  match (modify <[0%nat := new_logger]>;; setup "PDI" (tree_with [("level", "warn")]) lv_info 0;;
         modify <[1%nat := new_logger]>;; setup_child 0 "Trace" (tree_with []) 1;;
         modify <[2%nat := new_logger]>;; setup_child 0 "MPI" (tree_with [("pattern", "%v")]) 2) ∅
  with Done _ ls => ls | _ => ∅ end.

Example demo_patterns :
  (m_pattern <$> demo_loggers !! 1%nat) = Some "[%T][%n] *** %^%l%$: %v" /\ (m_pattern <$> demo_loggers !! 2%nat) = Some "%v" /\
  (m_logger <$> demo_loggers !! 1%nat) = Some (Some (mkSpdlog "Trace" [Console_sink] lv_warn "[%T][%n] *** %^%l%$: %v")).
Proof. split_and!; vm_compute; reflexivity. Qed.

Lemma global_pattern_is_inherited_witness :
  plain_pattern "%{rank}: %v" = Ret ": %v" /\
  exists r ls', root_of demo_loggers 1 r /\ global_pattern "%{rank}: %v" 1 demo_loggers = Done tt ls' /\ family ls' /\
    (forall c x, reached demo_loggers r c -> demo_loggers !! c = Some x ->
       exists y, ls' !! c = Some y /\ m_pattern y = "%{rank}: %v" /\ sp_pattern <$> m_logger y = Some ": %v") /\
    (forall c, ~ reached demo_loggers r c -> ls' !! c = demo_loggers !! c).
Proof.
  split; [by vm_compute|]. apply (global_pattern_is_inherited "%{rank}: %v" ": %v" 1 demo_loggers).
  - apply familyb_ok. by vm_compute.
  - exists (default new_logger (demo_loggers !! 1%nat)). by vm_compute.
  - by vm_compute.
Defined.

(** A pattern block added to a logger whose pattern comes from the
    configuration replaces that pattern: the sinks keep the configured one until
    the pattern is evaluated, and then show the built one. *)
Theorem added_block_replaces_configured_pattern ls l x block :
  ls !! l = Some x -> m_pattern_from_config x = true ->
  exists ls' x', add_pattern_block block l ls = Done tt ls' /\ ls' !! l = Some x' /\
    m_pattern x' = build_pattern (m_pattern_blocks x ++ ["[" +:+ block +:+ "]"]) /\ m_logger x' = m_logger x /\
    m_pattern_from_config x' = true.
Proof.
  intros Hx Hc. set (bs := m_pattern_blocks x ++ ["[" +:+ block +:+ "]"]). set (x1 := with_pattern (build_pattern bs) (with_blocks bs x)).
  exists (<[l := x1]> ls), x1. split; [|by rewrite lookup_insert_eq].
  unfold add_pattern_block, mbind at 1, M_bind at 1. rewrite (update_runs l _ x) by done. unfold mbind at 1, M_bind at 1.
  rewrite (update_runs l _ (with_blocks bs x)), insert_insert_eq by (by rewrite lookup_insert_eq). simpl. fold bs x1.
  unfold mbind at 1, M_bind at 1. unfold get_logger. rewrite lookup_insert_eq. unfold inherit_pattern, gets, mbind, M_bind.
  destruct (size (<[l:=x1]> ls)) as [|n] eqn:Hn.
  { apply map_size_empty_iff in Hn. apply (f_equal (fun m => m !! l)) in Hn. by rewrite lookup_insert_eq, lookup_empty in Hn. }
  cbn [default_pattern]. unfold mbind, M_bind, get_logger. rewrite lookup_insert_eq. simpl. by rewrite Hc.
Qed.

Lemma added_block_replaces_configured_pattern_witness :
  exists ls' x', add_pattern_block "MPI 0" 2 demo_loggers = Done tt ls' /\ ls' !! 2%nat = Some x' /\
    m_pattern x' = "[%T][MPI 0][%n] *** %^%l%$: %v" /\
    m_logger x' = Some (mkSpdlog "MPI" [Console_sink] lv_warn "%v") /\ m_pattern_from_config x' = true.
Proof.
  assert (Hx : demo_loggers !! 2%nat = Some (mkLogger (Some (mkSpdlog "MPI" [Console_sink] lv_warn "%v")) [] ["[%T]"] "%v" true (Some 0%nat)))
    by (by vm_compute).
  exact (added_block_replaces_configured_pattern demo_loggers 2 _ "MPI 0" Hx eq_refl).
Defined.
