(* ===== verification/Postorder.v ===== *)
(** Depth-first exploration, abstractly.

    The included files and the plugins are both visited depth first: what a node
    needs comes before it, a node that is done is skipped, and a node that is
    being visited must not be met again.  [postorder] says what such a visit
    adds to the list of the nodes that are done; its lemmas are the cases of the
    visit. *)

From S2P Require Import Prelude.

Section postorder.
  Context {X K : Type} (key : X -> K) (needs : X -> K -> Prop).

Implicit Types (new : list X) (roots : K -> Prop).

(** Visiting [roots] adds [new], when the nodes of [finished] are done and those
    of [busy] are being visited. *)
Record postorder (finished busy : K -> Prop) (roots : K -> Prop) (new : list X) : Prop := {
  po_once : NoDup (map key new);
  po_new : forall x, x ∈ new -> ~ finished (key x) /\ ~ busy (key x);
  po_before : forall l1 x l2 k, new = l1 ++ x :: l2 -> needs x k -> k ∈ map key l1 \/ finished k;
  po_all : forall k, roots k -> k ∈ map key new \/ finished k;
  po_needed : forall x, x ∈ new -> roots (key x) \/ exists y, y ∈ new /\ needs y (key x)
}.

(** Nothing to visit, or only nodes that are done. *)
Lemma postorder_nil finished busy roots : (forall k, roots k -> finished k) -> postorder finished busy roots [].
Proof.
  intros Hroots. split.
  - constructor.
  - intros x Hx. by apply not_elem_of_nil in Hx.
  - intros l1 x l2 k H. by destruct l1.
  - auto.
  - intros x Hx. by apply not_elem_of_nil in Hx.
Qed.

(** One visit after another. *)
Lemma postorder_app finished finished' busy busy' roots1 roots2 roots new1 new2 :
  postorder finished busy roots1 new1 -> postorder finished' busy' roots2 new2 ->
  (forall k, finished' k <-> k ∈ map key new1 \/ finished k) -> (forall k, busy k -> busy' k) -> (forall k, roots k <-> roots1 k \/ roots2 k) ->
  postorder finished busy roots (new1 ++ new2).
Proof.
  intros [O1 N1 B1 A1 D1] [O2 N2 B2 A2 D2] Hf Hb Hr. split.
  - rewrite map_app. apply list.NoDup_app. split_and!; try done. intros k H1 (x & -> & Hx)%list_elem_of_fmap. destruct (N2 x Hx) as [Hn _]. apply Hn, Hf. by left.
  - intros x [Hx|Hx]%elem_of_app; [by apply N1|]. destruct (N2 x Hx) as [Hnf Hnb]. rewrite Hf in Hnf. split; [tauto|auto].
  - intros l1 x l2 k Heq Hk. apply app_eq_app in Heq as (m & [[-> Heq]|[-> Heq]]).
    + destruct m as [|y m]; simpl in Heq.
      * destruct (B2 [] x l2 k) as [H%not_elem_of_nil|H]; [by rewrite <- Heq|done|done|]. apply Hf in H. by rewrite app_nil_r in H.
      * injection Heq as <- ->. by apply (B1 l1 x m k).
    + rewrite map_app, elem_of_app. destruct (B2 m x l2 k Heq Hk) as [H|H%Hf]; tauto.
  - intros k. rewrite map_app, elem_of_app. intros [H|H]%Hr; [destruct (A1 k H)|destruct (A2 k H) as [?|?%Hf]]; tauto.
  - intros x. rewrite Hr. setoid_rewrite elem_of_app. intros [Hx|Hx]; [destruct (D1 x Hx) as [?|(y & ? & ?)]|destruct (D2 x Hx) as [?|(y & ? & ?)]]; eauto.
Qed.

(** A node after what it needs. *)
Lemma postorder_visit finished busy x new :
  ~ finished (key x) -> ~ busy (key x) ->
  postorder finished (fun k => k = key x \/ busy k) (needs x) new ->
  postorder finished busy (fun k => k = key x) (new ++ [x]).
Proof.
  intros Hf Hb [O N B A D]. split.
  - rewrite map_app. apply list.NoDup_app. split_and!; [done| |apply NoDup_singleton].
    intros k (y & -> & Hy)%list_elem_of_fmap Hk%list_elem_of_singleton. destruct (N y Hy) as [_ Hn]. apply Hn. by left.
  - intros y. rewrite elem_of_app, list_elem_of_singleton. intros [Hy| ->]; [|done]. destruct (N y Hy) as [H1 H2]. split; [done|auto].
  - intros l1 y l2 k Heq Hk. destruct l2 as [|z l2 _] using rev_ind.
    + apply app_inj_tail in Heq as [<- <-]. by apply A.
    + rewrite app_comm_cons, app_assoc in Heq. apply app_inj_tail in Heq as [-> _]. by eapply B.
  - intros k ->. left. rewrite map_app, elem_of_app. right. apply list_elem_of_here.
  - intros y. setoid_rewrite elem_of_app. setoid_rewrite list_elem_of_singleton. intros [Hy| ->]; [right|by left].
    destruct (D y Hy) as [H|(z & Hz & H)]; [exists x|exists z]; auto.
Qed.

Lemma postorder_roots finished busy roots roots' new :
  (forall k, roots k <-> roots' k) -> postorder finished busy roots new -> postorder finished busy roots' new.
Proof. intros H [O N B A D]. split; try done; [intros k Hk; by apply A, H|]. intros x Hx. rewrite <- H. by apply D. Qed.

End postorder.
