(* ===== verification/Includes.v ===== *)
(** The configuration and the files it includes.

    Models [Include_path] and [get_includes] of [pdi/src/global_context.cxx].
    Reading a file and selecting a subtree by a general path are paraconf's:
    parameters. *)

From S2P Require Import Prelude Error ExprSyntax Numeric Parse Yaml Postorder.
From Stdlib Require Import Ascii.

(** [PC_parse_path] and [PC_get(tree, ypath)] *)
Class Files := {
  PC_parse_path : string -> PC_tree;
  PC_get : PC_tree -> string -> PC_tree
}.

(** * Include paths *)

Record Include_path := mkInclude { m_file_path : string; m_ypath : string }.

(** The components of a [std::filesystem::path], which compares them one by one:
    repeated slashes count for one, a final slash adds an empty component. *)
Fixpoint path_components (started : bool) (cur : string) (s : string) : list string :=
  match s with
  | EmptyString => if started then [cur] else []
  | String c s =>
      if bool_decide (c = "/"%char) then
        match cur with
        | EmptyString => path_components started "" s
        | _ => cur :: path_components true "" s
        end
      else path_components true (cur +:+ String c "") s
  end.

Definition has_root (s : string) : bool := match s with String c _ => bool_decide (c = "/"%char) | EmptyString => false end.

(** What [operator<=>] compares. *)
Definition path_key (p : Include_path) : bool * list string * string :=
  (has_root (m_file_path p), path_components false "" (m_file_path p), m_ypath p).

Abbreviation key := (bool * list string * string)%type.

(** The constructor of [Include_path]: the two keys of a mapping, or a file. *)
Definition include_path (include_directive : PC_tree) : outcome Include_path :=
  if is_map include_directive then
    '(file, subtree) ← each_pair include_directive (fun key_tree value_tree (acc : option string * option string) =>
      k ← to_string key_tree;
      value ← to_string value_tree;
      if bool_decide (k = "file") then Ret (Some value, acc.2)
      else if bool_decide (k = "subtree") then Ret (acc.1, Some value)
      else spectree_error key_tree ("unexpected key in include directive: `" +:+ k +:+ "', only `file' and `subtree' allowed")) (None, None);
    match file, subtree with
    | None, _ => spectree_error include_directive "missing `'file` key in include directive"
    | _, None => spectree_error include_directive "missing `'subtree` key in include directive"
    | Some f, Some y => Ret (mkInclude f y)
    end
  else f ← to_string include_directive; Ret (mkInclude f "").

Section includes.
  Context {F : Files}.

(** [Include_path::pc_tree] *)
Definition pc_tree (p : Include_path) : outcome PC_tree :=
  let result := PC_parse_path (m_file_path p) in
  if PC_status result then Throw (System_error ("Unable to include file `" +:+ m_file_path p +:+ "': " +:+ PC_errmsg result))
  else
    let result := PC_get result (m_ypath p) in
    if PC_status result then
      Throw (System_error ("Unable to include subtree `" +:+ m_ypath p +:+ "' from file `" +:+ m_file_path p +:+ "': " +:+ PC_errmsg result))
    else Ret result.

(** [catch (const Spectree_error&)] *)
Definition in_include {A} (p : Include_path) (m : outcome A) : outcome A :=
  match m with
  | Throw (Spectree_error loc w) =>
      Throw (rethrow_with_simple_context (Spectree_error loc w) ("included from (" +:+ m_file_path p +:+ ")" +:+ m_ypath p))
  | o => o
  end.

(** The three sets and lists [get_includes] updates. *)
Record includes := mkIncludes {
  parents : list key;
  result_path : list key;
  result : list PC_tree
}.

(** One include directive; [rec] is the recursive call. *)
Definition include_one (rec : PC_tree -> includes -> outcome includes) (include_directive : PC_tree) (s : includes) : outcome includes :=
  subconf_path ← include_path include_directive;
  let k := path_key subconf_path in
  if bool_decide (k ∈ parents s) then
    spectree_error include_directive ("Circular include of `(" +:+ m_file_path subconf_path +:+ ")" +:+ m_ypath subconf_path +:+ "'")
  else if bool_decide (k ∈ result_path s) then Ret s
  else
    s ← in_include subconf_path (tree ← pc_tree subconf_path; rec tree (mkIncludes (k :: parents s) (result_path s) (result s)));
    Ret (mkIncludes (filter (fun k' => k' <> k) (parents s)) (k :: result_path s) (result s)).

(** [get_includes(logger, conf, parents, result_path, result)] *)
Fixpoint get_includes_rec (fuel : nat) (conf : PC_tree) (s : includes) : outcome includes :=
  match fuel with
  | O => Crash
  | S fuel =>
      let inc_tree := get_key conf "include" in
      s ← (if PC_status inc_tree then Ret s else opt_each inc_tree (include_one (get_includes_rec fuel)) s);
      Ret (mkIncludes (parents s) (result_path s) (result s ++ [conf]))
  end.

(** [get_includes(logger, conf)] *)
Definition get_includes (fuel : nat) (conf : PC_tree) : outcome (list PC_tree) :=
  s ← get_includes_rec fuel conf (mkIncludes [] [] []); Ret (result s).

End includes.

(** * Lemmas *)

Section facts.
  Context {F : Files}.

(** The include directives of a configuration, in order. *)
Definition directives (conf : PC_tree) : list PC_tree :=
  let inc_tree := get_key conf "include" in
  if PC_status inc_tree then []
  else if PC_status (get_item inc_tree 0) then [inc_tree]
  else map (get_item inc_tree) (seq 0 (PC_len inc_tree)).

Lemma for_each_map {A B S} (g : A -> B) (f : B -> S -> outcome S) l s : for_each (fun i => f (g i)) l s = for_each f (map g l) s.
Proof. revert s. induction l as [|x l IH]; intros s; simpl; [done|]. destruct (f (g x) s); simpl; [apply IH|done..]. Qed.

Lemma include_loop {S} (f : PC_tree -> S -> outcome S) conf s :
  (if PC_status (get_key conf "include") then Ret s else opt_each (get_key conf "include") f s) = for_each f (directives conf) s.
Proof.
  unfold directives, opt_each. set (inc := get_key conf "include"). destruct (PC_status inc) eqn:Hs; [done|].
  destruct (PC_status (get_item inc 0)); simpl.
  - by destruct (f inc s).
  - unfold each, len. rewrite Hs. simpl. apply for_each_map.
Qed.

Abbreviation keys new := (map (fun x => path_key (fst x)) (new)).

(** The files the directives [ds] name; an included file needs those its own
    directives name. *)
Definition named_by (ds : list PC_tree) (k : key) : Prop := exists d q, d ∈ ds /\ include_path d = Ret q /\ k = path_key q.
Definition needs_file (x : Include_path * PC_tree) : key -> Prop := named_by (directives x.2).

(** The directives can be read. *)
Definition readable_in (ds : list PC_tree) : Prop := forall d, d ∈ ds -> exists q, include_path d = Ret q.

(** [new] lists the files that following the directives [ds] adds, with their
    trees, when those of [rp] have been included already and those of [pa] are
    being included. *)
Record explores (rp pa : list key) (ds : list PC_tree) (new : list (Include_path * PC_tree)) : Prop := {
  ex_order : postorder (fun x => path_key x.1) needs_file (fun k => k ∈ rp) (fun k => k ∈ pa) (named_by ds) new;
  ex_loaded : forall p t, (p, t) ∈ new -> pc_tree p = Ret t /\ readable_in (directives t);
  ex_read : readable_in ds
}.

Lemma explores_nil rp pa : explores rp pa [] [].
Proof.
  split.
  - apply postorder_nil. by intros k (d & q & ?%not_elem_of_nil & _).
  - by intros p t ?%not_elem_of_nil.
  - by intros d ?%not_elem_of_nil.
Qed.

Lemma readable_one d p : include_path d = Ret p -> readable_in [d].
Proof. intros Hp d' ->%list_elem_of_singleton. by exists p. Qed.

Lemma named_by_one d p k : include_path d = Ret p -> named_by [d] k <-> k = path_key p.
Proof.
  intros Hp. split; [intros (d' & q & ->%list_elem_of_singleton & Hq & ->); congruence|]. intros ->. exists d, p. by split; [apply list_elem_of_here|].
Qed.

Lemma explores_skip rp pa d p : include_path d = Ret p -> path_key p ∈ rp -> explores rp pa [d] [].
Proof.
  intros Hp Hin. split; [|by intros ? ? ?%not_elem_of_nil|by eapply readable_one].
  apply postorder_nil. by intros k ->%(named_by_one d p).
Qed.

Lemma explores_app rp rp' pa d ds new1 new2 :
  explores rp pa [d] new1 -> explores rp' pa ds new2 -> (forall k, k ∈ rp' <-> k ∈ keys new1 \/ k ∈ rp) ->
  explores rp pa (d :: ds) (new1 ++ new2).
Proof.
  intros [P1 L1 R1] [P2 L2 R2] Hrp. split.
  - eapply postorder_app; [exact P1|exact P2|done|done|]. intros k. unfold named_by. split.
    + intros (d' & q & [->|Hd]%elem_of_cons & Hq & ->); [left|right]; eexists _, _; (split; [|done]); [apply list_elem_of_here|done].
    + intros [(d' & q & ->%list_elem_of_singleton & Hq & ->)|(d' & q & Hd & Hq & ->)]; eexists _, _; (split; [|done]); [apply list_elem_of_here|by apply list_elem_of_further].
  - intros p t [H|H]%elem_of_app; auto.
  - intros d' [->|H]%elem_of_cons; [apply R1, list_elem_of_here|by apply R2].
Qed.

Lemma explores_load rp pa d p t new :
  include_path d = Ret p -> path_key p ∉ pa -> path_key p ∉ rp -> pc_tree p = Ret t ->
  explores rp (path_key p :: pa) (directives t) new -> explores rp pa [d] (new ++ [(p, t)]).
Proof.
  intros Hp Hpa Hrp Ht [P L R]. split.
  - eapply postorder_roots; [intros k; symmetry; by apply named_by_one|]. apply (postorder_visit (fun x => path_key x.1) needs_file _ _ (p, t)); [done|done|].
    destruct P as [O N B A D]. split; try done. intros x Hx. destruct (N x Hx) as [H1 H2]. rewrite elem_of_cons in H2. by split.
  - intros p' t' [H|[= -> ->]%list_elem_of_singleton]%elem_of_app; auto.
  - by eapply readable_one.
Qed.

(** What a successful run of [get_includes] has added to its three variables. *)
Definition explored (ds : list PC_tree) (last : list PC_tree) (s s' : includes) : Prop :=
  exists new, explores (result_path s) (parents s) ds new /\ parents s' = parents s /\
    (forall k, k ∈ result_path s' <-> k ∈ keys new \/ k ∈ result_path s) /\
    result s' = result s ++ map snd new ++ last.

Lemma in_include_Ret {A} p (m : outcome A) a : in_include p m = Ret a -> m = Ret a.
Proof. destruct m as [|[]|]; simpl; congruence. Qed.

Lemma filter_cons_fresh (k : key) l : k ∉ l -> filter (fun k' => k' <> k) (k :: l) = l.
Proof.
  intros Hk. rewrite filter_cons_False by (intros H; by apply H). induction l as [|x l IH]; [done|].
  rewrite not_elem_of_cons in Hk. destruct Hk as [Hne Hk]. rewrite filter_cons_True by congruence. by rewrite IH.
Qed.

Lemma include_one_explores rec d s s' :
  (forall t s s', rec t s = Ret s' -> explored (directives t) [t] s s') ->
  include_one rec d s = Ret s' -> explored [d] [] s s'.
Proof.
  intros Hrec Hrun. unfold include_one in Hrun. inv_ret. rename a into p, H into Hp.
  case_bool_decide as Hpa; [done|]. case_bool_decide as Hrp.
  - inv_ret. exists []. split; [by eapply explores_skip|]. split_and!; [done| |by rewrite !app_nil_r].
    intros k. split; [by right|]. by intros [H%not_elem_of_nil|H].
  - inv_ret. rename a into s1. apply in_include_Ret in H. inv_ret. rename a into t, H0 into Ht.
    apply Hrec in H as (new & Hex & Hpar & Hres & Hout). simpl in *.
    exists (new ++ [(p, t)]). split; [by eapply explores_load|]. simpl. split_and!.
    + rewrite Hpar. by apply filter_cons_fresh.
    + intros k. rewrite map_app, elem_of_app, elem_of_cons, Hres. simpl. rewrite list_elem_of_singleton. tauto.
    + by rewrite Hout, map_app, app_nil_r.
Qed.

Lemma include_all_explores rec ds s s' :
  (forall t s s', rec t s = Ret s' -> explored (directives t) [t] s s') ->
  for_each (include_one rec) ds s = Ret s' -> explored ds [] s s'.
Proof.
  intros Hrec. revert s. induction ds as [|d ds IH]; intros s Hrun; simpl in Hrun; inv_ret.
  - exists []. split; [apply explores_nil|]. split_and!; [done| |by rewrite !app_nil_r]. intros k. split; [by right|]. by intros [H%not_elem_of_nil|H].
  - apply include_one_explores in H as (new1 & E1 & P1 & R1 & O1); [|done]. apply IH in Hrun as (new2 & E2 & P2 & R2 & O2).
    rewrite P1 in E2. exists (new1 ++ new2). split; [by eapply explores_app|]. split_and!.
    + congruence.
    + intros k. rewrite R2, R1, map_app, elem_of_app. tauto.
    + rewrite O2, O1, map_app, !app_nil_r. by rewrite app_assoc.
Qed.

Lemma get_includes_rec_explores fuel conf s s' : get_includes_rec fuel conf s = Ret s' -> explored (directives conf) [conf] s s'.
Proof.
  revert conf s s'. induction fuel as [|fuel IH]; intros conf s s' Hrun; [done|]. cbn [get_includes_rec] in Hrun.
  rewrite include_loop in Hrun. inv_ret. apply include_all_explores in H as (new & E & P & R & O); [|done].
  exists new. split_and!; try done. simpl. by rewrite O, app_nil_r, app_assoc.
Qed.

(** ** Termination *)

(** Every include directive of [conf] and of the files that can be loaded names
    one of the paths [U]. *)
Definition names_only (U : list key) (conf : PC_tree) : Prop :=
  forall t d p, t = conf \/ (exists q, pc_tree q = Ret t) -> d ∈ directives t -> include_path d = Ret p -> path_key p ∈ U.

Lemma to_string_no_crash t : to_string t <> Crash.
Proof. unfold to_string, do_pc. by destruct (PC_string t). Qed.

Lemma for_each_no_crash {A S} (f : A -> S -> outcome S) l s : (forall x s, f x s <> Crash) -> for_each f l s <> Crash.
Proof. intros Hf. revert s. induction l as [|x l IH]; intros s; simpl; [done|]. specialize (Hf x s). destruct (f x s); simpl; [apply IH|done..]. Qed.

Lemma include_path_no_crash d : include_path d <> Crash.
Proof.
  unfold include_path. destruct (is_map d).
  - assert (H : forall f (s : option string * option string), (forall x y s, f x y s <> Crash) -> each_pair d f s <> Crash).
    { intros f s Hf. unfold each_pair, len, do_pc. destruct (PC_status d); simpl; [done|]. by apply for_each_no_crash. }
    match goal with |- mbind _ (each_pair d ?f ?s) <> _ => specialize (H f s); destruct (each_pair d f s) as [[[fl|] [y|]]|e|] end; simpl; try done.
    exfalso. apply H; [|done]. intros x y acc. pose proof (to_string_no_crash x). pose proof (to_string_no_crash y).
    destruct (to_string x); simpl; [|done..]. destruct (to_string y); simpl; [|done..]. by repeat case_bool_decide.
  - pose proof (to_string_no_crash d). by destruct (to_string d).
Qed.

Lemma pc_tree_no_crash p : pc_tree p <> Crash.
Proof. unfold pc_tree. destruct (PC_status _); [done|]. by destruct (PC_status _). Qed.

Lemma in_include_crash {A} p (m : outcome A) : in_include p m = Crash -> m = Crash.
Proof. by destruct m as [|[]|]. Qed.

Lemma get_includes_rec_no_crash U fuel conf s :
  (forall t, t = conf \/ (exists q, pc_tree q = Ret t) -> names_only U t) ->
  NoDup (parents s) -> parents s ⊆ U -> (length U < fuel + length (parents s))%nat -> get_includes_rec fuel conf s <> Crash.
Proof.
  revert conf s. induction fuel as [|fuel IH]; intros conf s HU Hnd Hsub Hlen.
  { pose proof (submseteq_length _ _ (NoDup_submseteq _ _ Hnd Hsub)). lia. }
  cbn [get_includes_rec]. rewrite include_loop.
  enough (H : for_each (include_one (get_includes_rec fuel)) (directives conf) s <> Crash) by (by destruct (for_each _ _ s)).
  assert (Hds : forall d p, d ∈ directives conf -> include_path d = Ret p -> path_key p ∈ U).
  { intros d p. apply (HU conf); by left. }
  revert s Hnd Hsub Hlen. induction (directives conf) as [|d ds IHds]; intros s Hnd Hsub Hlen; simpl; [done|].
  assert (H1 : include_one (get_includes_rec fuel) d s <> Crash).
  { unfold include_one. pose proof (include_path_no_crash d) as Hp. destruct (include_path d) as [p|e|] eqn:Hpath; simpl; [|done..].
    case_bool_decide as Hpa; [done|]. case_bool_decide; [done|].
    enough (H1 : (tree ← pc_tree p; get_includes_rec fuel tree (mkIncludes (path_key p :: parents s) (result_path s) (result s))) <> Crash).
    { destruct (in_include p _) eqn:He; [done..|]. by apply in_include_crash in He. }
    pose proof (pc_tree_no_crash p). destruct (pc_tree p) as [t|e|] eqn:Ht; simpl; [|done..]. apply IH; simpl.
    - intros t' [->|Ht']; apply HU; right; eauto.
    - by constructor.
    - intros k [->|Hk]%elem_of_cons; [|by apply Hsub]. eapply Hds; [apply list_elem_of_here|done].
    - lia. }
  destruct (include_one _ d s) as [s1|e|] eqn:Hone; simpl; [|done..].
  apply include_one_explores in Hone as (new & _ & Hpar & _); [|intros ? ? ?; apply get_includes_rec_explores].
  apply IHds; rewrite ?Hpar; try done. intros d' p Hd'. by apply Hds, list_elem_of_further.
Qed.

(** ** Success *)

(** The directives of [t] can be followed, to paths ranked below [r]. *)
Definition follows (rank : key -> nat) (r : nat) (t : PC_tree) : Prop :=
  forall d, d ∈ directives t -> exists q t', include_path d = Ret q /\ pc_tree q = Ret t' /\ (rank (path_key q) < r)%nat.

Lemma get_includes_rec_succeeds rank fuel r conf s :
  (forall q t, pc_tree q = Ret t -> follows rank (rank (path_key q)) t) ->
  follows rank r conf -> (forall k, k ∈ parents s -> (r <= rank k)%nat) ->
  get_includes_rec fuel conf s <> Crash -> exists s', get_includes_rec fuel conf s = Ret s'.
Proof.
  intros Hall. revert r conf s. induction fuel as [|fuel IH]; intros r conf s Hf Hpar Hc; [done|].
  cbn [get_includes_rec] in *. rewrite include_loop in *. unfold follows in Hf.
  revert s Hpar Hc. induction (directives conf) as [|d ds IHds]; intros s Hpar Hc; simpl in *; [by eexists|].
  destruct (Hf d) as (q & t' & Hq & Ht' & Hr); [apply list_elem_of_here|].
  assert (Hone : exists s1, include_one (get_includes_rec fuel) d s = Ret s1).
  { unfold include_one in *. rewrite Hq in *. simpl in *. rewrite Ht' in *. simpl in *.
    case_bool_decide as Hin; [specialize (Hpar _ Hin); lia|]. case_bool_decide; [by eexists|].
    edestruct (IH (rank (path_key q)) t' (mkIncludes (path_key q :: parents s) (result_path s) (result s))) as [s1 Hs1].
    - by apply Hall.
    - simpl. intros k [->|Hk]%elem_of_cons; [done|]. specialize (Hpar _ Hk). lia.
    - intros Hcr. apply Hc. by rewrite Hcr.
    - rewrite Hs1. simpl. by eexists. }
  destruct Hone as [s1 Hone]. rewrite Hone in *. simpl in *.
  apply include_one_explores in Hone as (new & _ & Hpar1 & _); [|intros ? ? ?; apply get_includes_rec_explores].
  apply IHds; [|by rewrite Hpar1|done]. intros d' Hd'. by apply Hf, list_elem_of_further.
Qed.

Lemma names_only_loaded U conf t : names_only U conf -> t = conf \/ (exists q, pc_tree q = Ret t) -> names_only U t.
Proof. intros HU Ht t' d p [->|Ht']; apply HU; auto. Qed.

Lemma get_includes_no_crash U conf fuel : names_only U conf -> (length U < fuel)%nat -> get_includes_rec fuel conf (mkIncludes [] [] []) <> Crash.
Proof.
  intros HU Hlen. apply (get_includes_rec_no_crash U); simpl; [intros t; by apply names_only_loaded|constructor|by intros k ?%not_elem_of_nil|lia].
Qed.

(** * Theorems *)

(** C35: the files of a configuration come in an order that respects includes:
    [get_includes] terminates, and when it succeeds it returns each included file
    once, after every file it includes itself, and the configuration last;
    nothing is left out and nothing is added. *)
Theorem includes_are_ordered U conf fuel :
  names_only U conf -> (length U < fuel)%nat ->
  match get_includes fuel conf with
  | Ret l =>
      exists files, l = map snd files ++ [conf] /\ NoDup (keys files) /\
        (forall p t, (p, t) ∈ files -> pc_tree p = Ret t) /\
        (forall l1 p t l2 d, files = l1 ++ (p, t) :: l2 -> d ∈ directives t -> exists q, include_path d = Ret q /\ path_key q ∈ keys l1) /\
        (forall d, d ∈ directives conf -> exists q, include_path d = Ret q /\ path_key q ∈ keys files) /\
        (forall p t, (p, t) ∈ files ->
           exists d q, include_path d = Ret q /\ path_key q = path_key p /\ (d ∈ directives conf \/ exists p' t', (p', t') ∈ files /\ d ∈ directives t'))
  | Throw _ => True
  | Crash => False
  end.
Proof.
  intros HU Hlen. pose proof (get_includes_no_crash U conf fuel HU Hlen) as Hc. unfold get_includes.
  destruct (get_includes_rec fuel conf _) as [s|e|] eqn:Hrun; simpl; [|done..].
  apply get_includes_rec_explores in Hrun as (new & [[O N B A D] L R] & _ & _ & Hout). exists new. split_and!; try done.
  - intros p t H. by apply L.
  - intros l1 p t l2 d Heq Hd. assert (Hin : (p, t) ∈ new) by (rewrite Heq; set_solver). destruct (L p t Hin) as [_ Hr]. destruct (Hr d Hd) as [q Hq].
    exists q. split; [done|]. destruct (B l1 (p, t) l2 (path_key q) Heq) as [H|H%not_elem_of_nil]; [by exists d, q|done..].
  - intros d Hd. destruct (R d Hd) as [q Hq]. exists q. split; [done|]. destruct (A (path_key q)) as [H|H%not_elem_of_nil]; [by exists d, q|done..].
  - intros p t H. destruct (D (p, t) H) as [(d & q & Hd & Hq & Hk)|([q' t'] & Hy & d & q & Hd & Hq & Hk)]; exists d, q; eauto 10.
Qed.

(** C36: includes without a cycle always load: when the include directives can
    all be read and their files rank lower and lower, [get_includes] succeeds. *)
Theorem acyclic_includes_load U rank conf fuel :
  names_only U conf -> (length U < fuel)%nat ->
  (forall q t, pc_tree q = Ret t -> follows rank (rank (path_key q)) t) ->
  (exists r, follows rank r conf) ->
  exists l, get_includes fuel conf = Ret l.
Proof.
  intros HU Hlen Hall [r Hconf]. unfold get_includes.
  destruct (get_includes_rec_succeeds rank fuel r conf (mkIncludes [] [] []) Hall Hconf) as [s ->]; [by intros k ?%not_elem_of_nil|by eapply get_includes_no_crash|].
  by eexists.
Qed.

End facts.

(** * Example: a diamond of four files *)

Definition demo_region : Yaml_region := {| m_file := ""; m_start_mark := {| line := 0; column := 0 |}; m_end_mark := {| line := 0; column := 0 |} |}.
Definition yscalar (s : string) : yaml := YScalar demo_region s.
Definition conf_including (files : list string) : PC_tree :=
  tree_of (YMapping demo_region [(yscalar "include", YSequence demo_region (map yscalar files))]).
Definition leaf_conf (name : string) : PC_tree := tree_of (YMapping demo_region [(yscalar "name", yscalar name)]).

Definition diamond (file : string) : PC_tree :=
  if bool_decide (file = "left.yml") then conf_including ["base.yml"]
  else if bool_decide (file = "right.yml") then conf_including ["base.yml"; "left.yml"]
  else if bool_decide (file = "base.yml") then leaf_conf "base"
  else tree_error "no such file" (yscalar file).

Definition diamond_files : Files := {| PC_parse_path := diamond; PC_get := fun t y => if bool_decide (y = EmptyString) then t else tree_error y (pc_node t) |}.
Definition main_conf : PC_tree := conf_including ["left.yml"; "right.yml"].
Definition diamond_key (file : string) : key := path_key (mkInclude file "").
Definition diamond_rank (k : key) : nat :=
  if bool_decide (k = diamond_key "right.yml") then 2 else if bool_decide (k = diamond_key "left.yml") then 1 else 0.

Lemma diamond_loads q t : @pc_tree diamond_files q = Ret t ->
  (q = mkInclude "left.yml" "" /\ t = conf_including ["base.yml"]) \/
  (q = mkInclude "right.yml" "" /\ t = conf_including ["base.yml"; "left.yml"]) \/
  (q = mkInclude "base.yml" "" /\ t = leaf_conf "base").
Proof.
  destruct q as [f y]. unfold pc_tree. simpl. unfold diamond. repeat case_bool_decide; simpl; intros Ht; inversion Ht; subst; auto.
Defined.

Lemma diamond_names : @names_only diamond_files (map diamond_key ["left.yml"; "right.yml"; "base.yml"]) main_conf.
Proof.
  intros t d p Ht Hd Hp. assert (Hc : t ∈ [main_conf; conf_including ["base.yml"]; conf_including ["base.yml"; "left.yml"]; leaf_conf "base"]).
  { destruct Ht as [->|[q [[_ ->]|[[_ ->]|[_ ->]]]%diamond_loads]]; set_solver. }
  repeat (apply elem_of_cons in Hc as [->|Hc]; [vm_compute in Hd|]); [..|by apply not_elem_of_nil in Hc];
    repeat (apply elem_of_cons in Hd as [->|Hd]; [vm_compute in Hp; injection Hp as <-; vm_compute; set_solver|]); by apply not_elem_of_nil in Hd.
Defined.

Lemma diamond_follows q t : @pc_tree diamond_files q = Ret t -> @follows diamond_files diamond_rank (diamond_rank (path_key q)) t.
Proof.
  intros [[-> ->]|[[-> ->]|[-> ->]]]%diamond_loads d Hd; vm_compute in Hd;
    repeat (apply elem_of_cons in Hd as [->|Hd]; [do 2 eexists; split_and!; [vm_compute; reflexivity..|vm_compute; lia]|]); by apply not_elem_of_nil in Hd.
Defined.

Lemma includes_are_ordered_witness :
  exists files, @get_includes diamond_files 4 main_conf = Ret (map snd files ++ [main_conf]) /\ NoDup (map (fun x => path_key x.1) files) /\
    (forall l1 p t l2 d, files = l1 ++ (p, t) :: l2 -> d ∈ directives t ->
       exists q, include_path d = Ret q /\ path_key q ∈ map (fun x => path_key x.1) l1).
Proof.
  pose proof (@includes_are_ordered diamond_files _ main_conf 4 diamond_names ltac:(vm_compute; lia)) as H.
  assert (E : @get_includes diamond_files 4 main_conf =
    Ret [leaf_conf "base"; conf_including ["base.yml"]; conf_including ["base.yml"; "left.yml"]; main_conf]) by (by vm_compute).
  rewrite E in *. destruct H as (files & Hl & Hnd & _ & Hbefore & _). exists files. split; [by rewrite Hl|]. by split.
Defined.

Lemma acyclic_includes_load_witness : exists l, @get_includes diamond_files 4 main_conf = Ret l.
Proof.
  apply (@acyclic_includes_load diamond_files (map diamond_key ["left.yml"; "right.yml"; "base.yml"]) diamond_rank main_conf 4 diamond_names).
  - vm_compute. lia.
  - apply diamond_follows.
  - exists 3%nat. intros d Hd. vm_compute in Hd.
    repeat (apply elem_of_cons in Hd as [->|Hd]; [do 2 eexists; split_and!; [vm_compute; reflexivity..|vm_compute; lia]|]). by apply not_elem_of_nil in Hd.
Defined.
