(* ===== verification/StringTools.v ===== *)
(** Lists of strings in one string: [string_array_parse] of
    [pdi/src/string_tools.cxx], which reads [PDI_PLUGIN_PATH].

    Elements are separated by colons; a backslash escapes a colon or another
    backslash, and nothing else. *)

From S2P Require Import Prelude Error.
From Stdlib Require Import Ascii.

Definition backslash : ascii := ascii_of_nat 92.
Definition colon : ascii := ":"%char.

(** The loop: [front] and [back] are the elements of [result], [back] the last
    one; a part without special character is appended one character at a time. *)
Fixpoint string_array_loop (front : list string) (back : string) (unescaped : string) : outcome (list string) :=
  match unescaped with
  | EmptyString => Ret (front ++ [back])
  | String c rest =>
      if bool_decide (c = colon) then string_array_loop (front ++ [back]) "" rest
      else if bool_decide (c = backslash) then
        match rest with
        | EmptyString => Throw (Value_error ("Unable to escape content ending in " +:+ String backslash ""))
        | String e rest =>
            if bool_decide (e = backslash \/ e = colon) then string_array_loop front (back +:+ String e "") rest
            else Throw (Value_error ("Unable to escape `" +:+ back +:+ String e "" +:+ "'"))
        end
      else string_array_loop front (back +:+ String c "") rest
  end.

Definition string_array_parse (unescaped : string) : outcome (list string) := string_array_loop [] "" unescaped.

(** * The inverse *)

Fixpoint escape (s : string) : string :=
  match s with
  | EmptyString => EmptyString
  | String c s => if bool_decide (c = backslash \/ c = colon) then String backslash (String c (escape s)) else String c (escape s)
  end.

Fixpoint print_array (l : list string) : string :=
  match l with
  | [] => ""
  | [s] => escape s
  | s :: l => escape s +:+ String colon (print_array l)
  end.

Lemma loop_escape front back s rest :
  string_array_loop front back (escape s +:+ rest) = string_array_loop front (back +:+ s) rest.
Proof.
  revert back. induction s as [|c s IH]; intros back; [by rewrite string_app_nil_r|]. cbn [escape].
  assert (Happ : back +:+ String c s = (back +:+ String c "") +:+ s) by (by rewrite string_app_assoc). rewrite Happ, <- IH.
  case_bool_decide as Hc; rewrite !string_app_String; cbn [string_array_loop].
  - rewrite bool_decide_false by done. rewrite bool_decide_true by done. by rewrite bool_decide_true.
  - rewrite bool_decide_false by (intros ->; tauto). by rewrite bool_decide_false by (intros ->; tauto).
Qed.

Lemma loop_print l front : l <> [] -> string_array_loop front "" (print_array l) = Ret (front ++ l).
Proof.
  revert front. induction l as [|s l IH]; intros front Hne; [done|]. destruct l as [|s' l].
  - cbn [print_array]. rewrite <- (string_app_nil_r (escape s)), loop_escape. done.
  - change (print_array (s :: s' :: l)) with (escape s +:+ String colon (print_array (s' :: l))). rewrite loop_escape.
    cbn [string_array_loop]. rewrite bool_decide_true by done. rewrite IH by done. by rewrite <- app_assoc.
Qed.

(** What the loop read, given what it returns. *)
Lemma loop_inv front back s l :
  string_array_loop front back s = Ret l -> exists x l', l = front ++ (back +:+ x) :: l' /\ s = print_array (x :: l').
Proof.
  enough (H : forall n front back s l, (String.length s <= n)%nat -> string_array_loop front back s = Ret l ->
    exists x l', l = front ++ (back +:+ x) :: l' /\ s = print_array (x :: l')) by (by apply (H (String.length s))).
  intros n. induction n as [|n IH]; intros f b s0 l0 Hlen Hrun; (destruct s0 as [|c s0]; simpl in Hlen; [|try lia]).
  1-2: injection Hrun as <-; exists "", []; by rewrite string_app_nil_r.
  cbn [string_array_loop] in Hrun. case_bool_decide as Hc; [|case_bool_decide as Hb].
  - apply IH in Hrun as (x & l' & -> & ->); [|lia]. exists "", (x :: l'). rewrite string_app_nil_r, <- app_assoc. split; [done|]. by rewrite Hc.
  - destruct s0 as [|e s0]; [done|]. simpl in Hlen. case_bool_decide as He; [|done].
    apply IH in Hrun as (x & l' & -> & ->); [|lia]. exists (String e x), l'. rewrite string_app_assoc. split; [done|].
    subst c. destruct l'; cbn [print_array escape]; by rewrite bool_decide_true.
  - apply IH in Hrun as (x & l' & -> & ->); [|lia]. exists (String c x), l'. rewrite string_app_assoc. split; [done|].
    destruct l'; cbn [print_array escape]; by rewrite bool_decide_false by (intros [->| ->]; done).
Qed.

(** A list of strings is read from exactly one string: [string_array_parse]
    returns a list exactly on the string that writes its elements, with their
    colons and backslashes escaped, separated by colons; it never returns an
    empty list. *)
Theorem string_array_round_trip s l : string_array_parse s = Ret l <-> l <> [] /\ s = print_array l.
Proof.
  split.
  - intros (x & l' & -> & ->)%loop_inv. by split.
  - intros [Hne ->]. by apply (loop_print l []).
Qed.
