(* ===== verification/PluginStore.v ===== *)
(** Loading the plugins.

    Models [pdi/src/plugin_store.cxx].  The dynamic loader, the environment and
    the plugins themselves are outside the library: parameters.  A plugin acts
    on the context when it is constructed, and its logger is set up before, so the
    store and the context are the two parts of the state. *)

From S2P Require Import Prelude Error Effect ExprSyntax Datatype Layout Memory DenseCopy Access Ref RefInv RefOps RefTheorems RefCopy Numeric Parse Yaml Template GlobalContext Logger Postorder StringTools.
From Stdlib Require Import Ascii.

(** The system: the environment variable, the default path of the build and the
    location of [libpdi.so]; [dlsym] finds a symbol in a handle, [None] standing
    for the null handle; [dlopen] gives a handle or the text of [dlerror]. *)
Class System := {
  env_plugin_path : option string;
  PDI_DEFAULT_PLUGIN_PATH : string;
  libpdi_fname : option string;
  dlsym : option Z -> string -> bool;
  dlopen : string -> Z + string;
  dlerror : string
}.

(** The code of a plugin: its pretty name, what it requires, what must come before
    it when it is there, and its constructor. *)
Class Plugin_code (W : Type) := {
  plugin_pretty_name : string -> string;
  plugin_deps : string -> list string * list string;
  plugin_ctr : string -> PC_tree -> M (global W) unit
}.

Inductive Init_state := PRELOADED | LOADING | LOADED.

#[export] Instance Init_state_eq_dec : EqDecision Init_state.
Proof. solve_decision. Defined.

Record Stored_plugin := mkStored {
  m_config : PC_tree;
  m_dependencies : list string;
  m_loaded_plugin : bool;
  m_state : Init_state
}.

(** [m_plugins] is in the order of its keys; [constructed] records the order in
    which the constructors were called. *)
Record plugin_store (W : Type) := mkPlugins {
  m_plugin_path : list string;
  m_plugins : list (string * Stored_plugin);
  constructed : list string;
  ps_context : global W
}.
Arguments mkPlugins {W} _ _ _ _.
Arguments m_plugin_path {W} _.
Arguments m_plugins {W} _.
Arguments constructed {W} _.
Arguments ps_context {W} _.

(** [std::map] *)
Fixpoint find {A} (name : string) (l : list (string * A)) : option A :=
  match l with [] => None | (k, v) :: l => if bool_decide (k = name) then Some v else find name l end.

Fixpoint map_emplace {A} (name : string) (v : A) (l : list (string * A)) : list (string * A) :=
  match l with
  | [] => [(name, v)]
  | (k, v') :: l =>
      if bool_decide (k = name) then (k, v') :: l
      else if String.ltb name k then (name, v) :: (k, v') :: l
      else (k, v') :: map_emplace name v l
  end.

Fixpoint update {A} (name : string) (f : A -> A) (l : list (string * A)) : list (string * A) :=
  match l with [] => [] | (k, v) :: l => if bool_decide (k = name) then (k, f v) :: l else (k, v) :: update name f l end.

Section store.
  Context {W : Type} {SY : System} {PC : Plugin_code W} {LH : LoggerHost W}.

Abbreviation PS := (M (plugin_store W)).

(** An operation on the context in the state with the plugins. *)
Definition on_context {A} (m : M (global W) A) : PS A := fun s =>
  let back g := mkPlugins (m_plugin_path s) (m_plugins s) (constructed s) g in
  match m (ps_context s) with Done a g => Done a (back g) | Thrown e g => Thrown e (back g) | Crashed => Crashed end.

Definition set_plugins (f : list (string * Stored_plugin) -> list (string * Stored_plugin)) (s : plugin_store W) : plugin_store W :=
  mkPlugins (m_plugin_path s) (f (m_plugins s)) (constructed s) (ps_context s).

Definition set_state (name : string) (st : Init_state) : PS unit :=
  modify (set_plugins (update name (fun p => mkStored (m_config p) (m_dependencies p) (m_loaded_plugin p) st))).

Definition push_dependency (name dep : string) : PS unit :=
  modify (set_plugins (update name (fun p => mkStored (m_config p) (m_dependencies p ++ [dep]) (m_loaded_plugin p) (m_state p)))).

(** [m_loaded_plugin = m_ctr(m_ctx, m_config)] *)
Definition construct (name : string) (config : PC_tree) : PS unit := fun s =>
  let order := constructed s ++ [name] in
  match plugin_ctr name config (ps_context s) with
  | Done _ g =>
      Done tt (mkPlugins (m_plugin_path s) (update name (fun p => mkStored (m_config p) (m_dependencies p) true (m_state p)) (m_plugins s)) order g)
  | Thrown e g => Thrown e (mkPlugins (m_plugin_path s) (m_plugins s) order g)
  | Crashed => Crashed
  end.

Definition lookup_plugin (name : string) : PS (option Stored_plugin) := gets (fun s => find name (m_plugins s)).

(** One required plugin, and one that must come before when it is there; [rec] is
    the recursive call. *)
Definition require (rec : string -> PS unit) (m_name req_plugin : string) : PS unit :=
  found ← lookup_plugin req_plugin;
  match found with
  | None => throw (System_error ("Error while loading plugin `" +:+ m_name +:+ "': required plugin `" +:+ req_plugin +:+ "' is not loaded"))
  | Some _ => push_dependency m_name req_plugin;; rec req_plugin
  end.

Definition precede (rec : string -> PS unit) (m_name pre_plugin : string) : PS unit :=
  found ← lookup_plugin pre_plugin;
  match found with
  | None => mret tt
  | Some _ => push_dependency m_name pre_plugin;; rec pre_plugin
  end.

(** [Stored_plugin::ensure_loaded] *)
Fixpoint ensure_loaded (fuel : nat) (m_name : string) : PS unit :=
  match fuel with
  | O => fun _ => Crashed
  | S fuel =>
      this ← lookup_plugin m_name;
      match this with
      | None => fun _ => Crashed
      | Some this =>
          match m_state this with
          | LOADED => mret tt
          | LOADING => throw (Impl_error "Error while initializing plugin: circular dependency between plugins")
          | PRELOADED =>
              set_state m_name LOADING;;
              iter (fun req _ => require (ensure_loaded fuel) m_name req) (plugin_deps m_name).1 tt;;
              iter (fun pre _ => precede (ensure_loaded fuel) m_name pre) (plugin_deps m_name).2 tt;;
              set_state m_name LOADED;;
              construct m_name (m_config this)
          end
      end
  end.

(** ** Paths *)

(** [initialize_path] *)
Definition path_from_env : outcome (list string) :=
  match env_plugin_path with Some v => string_array_parse v | None => Ret [] end.

Definition path_from_conf (conf : PC_tree) : outcome (list string) :=
  let plugin_path_node := get_key conf "plugin_path" in
  if PC_status plugin_path_node then Ret []
  else if is_list plugin_path_node then
    n ← len plugin_path_node;
    for_each (fun i acc => p ← to_string (get_item plugin_path_node i); Ret (acc ++ [p])) (seq 0 n) []
  else if is_scalar plugin_path_node then p ← to_string plugin_path_node; Ret [p]
  else spectree_error plugin_path_node "plugin_path must be a single path or an array of paths".

Definition is_absolute (path : string) : bool := match path with String c _ => bool_decide (c = "/"%char) | EmptyString => false end.

(** [path.substr(0, path.find_last_of('/'))]: all of it without a slash. *)
Fixpoint dirname_of (s : string) : option string :=
  match s with
  | EmptyString => None
  | String c s =>
      match dirname_of s with
      | Some d => Some (String c d)
      | None => if bool_decide (c = "/"%char) then Some "" else None
      end
  end.

Definition path_from_library : list string :=
  if is_absolute PDI_DEFAULT_PLUGIN_PATH then [PDI_DEFAULT_PLUGIN_PATH]
  else match libpdi_fname with
       | Some path => [default path (dirname_of path) +:+ "/" +:+ PDI_DEFAULT_PLUGIN_PATH]
       | None => []
       end.

Definition initialize_path (confs : list PC_tree) : PS unit :=
  env ← lift path_from_env;
  yaml ← lift (for_each (fun conf acc => p ← path_from_conf conf; Ret (acc ++ p)) confs []);
  modify (fun s => mkPlugins (m_plugin_path s ++ env ++ yaml ++ path_from_library) (m_plugins s) (constructed s) (ps_context s)).

(** ** Opening a library *)

Definition libname (plugin_name : string) : string := "libpdi_" +:+ plugin_name +:+ "_plugin.so".

(** The names [plugin_dlopen] tries, with the text it adds to an error. *)
Definition candidates (plugin_name : string) (path : list string) : list (string * string) :=
  map (fun p => (p +:+ "/" +:+ libname plugin_name, "")) path
  ++ (if is_absolute PDI_DEFAULT_PLUGIN_PATH then [] else [(PDI_DEFAULT_PLUGIN_PATH +:+ "/" +:+ libname plugin_name, "relative to system path ")])
  ++ [(libname plugin_name, "from system path ")].

Fixpoint try_open (l : list (string * string)) (load_errors : list string) : Z + list string :=
  match l with
  | [] => inr load_errors
  | (name, origin) :: l =>
      match dlopen name with
      | inl handle => inl handle
      | inr error_msg => try_open l (load_errors ++ [newline +:+ "  * unable to load `" +:+ name +:+ "' " +:+ origin +:+ error_msg])
      end
  end.

(** [Plugin_store::plugin_dlopen] *)
Definition plugin_dlopen (plugin_name : string) (path : list string) : outcome Z :=
  match try_open (candidates plugin_name path) [] with
  | inl handle => Ret handle
  | inr load_errors => Throw (Plugin_error ("Unable to load plugin `" +:+ plugin_name +:+ "': " +:+ join ", " load_errors))
  end.

(** The constructor of [Stored_plugin]; [core] is the logger of the context.  Without
    its last symbol it calls a null pointer. *)
Definition make_stored (core : nat) (name : string) (conf : PC_tree) : PS Stored_plugin :=
  logger ← on_context (on_loggers create_logger);
  let symbol suffix := "PDI_plugin_" +:+ name +:+ suffix in
  let m_ctr := dlsym None (symbol "_loader") in
  let m_deps := dlsym None (symbol "_dependencies") in
  let pretty_name_f := dlsym None (symbol "_pretty_name") in
  path ← gets m_plugin_path;
  lib_handle ← lift (if negb m_ctr || negb m_deps then h ← plugin_dlopen name path; Ret (Some h) else Ret None);
  if negb (m_ctr || dlsym lib_handle (symbol "_loader")) then
    throw (Plugin_error ("Unable to load plugin constructor for `" +:+ name +:+ "': " +:+ dlerror))
  else if negb (m_deps || dlsym lib_handle (symbol "_dependencies")) then
    throw (Plugin_error ("Unable to load plugin dependencies for `" +:+ name +:+ "': " +:+ dlerror))
  else if negb (pretty_name_f || dlsym lib_handle (symbol "_pretty_name")) then lift Crash
  else
    on_context (on_loggers (setup_child core (plugin_pretty_name name) (get_key conf "logging") logger));;
    mret (mkStored conf [] false PRELOADED).

(** ** All the plugins *)

(** One plugin of a configuration, and all of them *)
Definition preload_one (core : nat) (plugins : PC_tree) (plugin_id : nat) : PS unit :=
  plugin_name ← lift (Yaml.to_string (get_nth_key plugins plugin_id));
  found ← lookup_plugin plugin_name;
  match found with
  | Some _ => lift (spectree_error plugins ("Duplicate load of plugin " +:+ plugin_name))
  | None =>
      p ← make_stored core plugin_name (get_nth_value plugins plugin_id);
      modify (set_plugins (map_emplace plugin_name p))
  end.

Definition preload (core : nat) (conf : PC_tree) : PS unit :=
  let plugins := get_key conf "plugins" in
  iter (fun plugin_id _ => preload_one core plugins plugin_id) (seq 0 (len_default plugins 0)) tt.

(** The loop over [m_plugins] that collects the errors; the recursion of
    [ensure_loaded] is no deeper than the number of plugins. *)
Definition load_one (name : string) (errors : list exn) : PS (list exn) :=
  n ← gets (fun s => length (m_plugins s));
  catch (ensure_loaded (S n) name;; mret errors)
    (fun e => mret (errors ++ [rethrow_with_simple_context e ("while loading plugin `" +:+ name +:+ "', ")])).

Definition load_all (names : list string) : PS (list exn) := iter load_one names [].

(** [Plugin_store::load_plugins] *)
Definition load_plugins (core : nat) (confs : list PC_tree) : PS unit :=
  initialize_path confs;;
  iter (fun conf _ => preload core conf) confs tt;;
  names ← gets (fun s => map fst (m_plugins s));
  errors ← load_all names;
  lift (rethrow_all_with_simple_context errors "").

End store.
