(* ===== verification/PluginStoreFacts.v ===== *)
(** The order in which plugins are loaded. *)

From S2P Require Import Prelude Error Effect ExprSyntax Datatype Layout Memory DenseCopy Access Ref RefInv RefOps RefTheorems RefCopy Numeric Parse Yaml Template GlobalContext Logger Postorder StringTools PluginStore.

(** * Maps *)

Lemma find_update {A} (f : A -> A) n k l : find k (update n f l) = if bool_decide (k = n) then f <$> find k l else find k l.
Proof.
  induction l as [|[x v] l IH]; cbn [update find]; [by case_bool_decide|].
  repeat (case_bool_decide; subst; cbn [find]; try done); rewrite ?IH; by repeat case_bool_decide.
Qed.

Lemma update_names {A} (f : A -> A) n l : map fst (update n f l) = map fst l.
Proof. induction l as [|[x v] l IH]; cbn [update]; [done|]. case_bool_decide; simpl; [done|]. by rewrite IH. Qed.

Lemma find_is_Some {A} n (l : list (string * A)) : is_Some (find n l) <-> n ∈ map fst l.
Proof.
  induction l as [|[x v] l IH]; cbn [find map fst].
  - split; [by intros []|by intros ?%not_elem_of_nil].
  - rewrite elem_of_cons, <- IH. case_bool_decide; [subst; split; [by left|by eexists]|]. split; [by right|]. by intros [?|?].
Qed.

Lemma find_elem {A} n v (l : list (string * A)) : find n l = Some v -> (n, v) ∈ l.
Proof.
  induction l as [|[x w] l IH]; cbn [find]; [done|]. case_bool_decide; [intros [= ->]; subst; apply list_elem_of_here|]. intros Hf. by apply list_elem_of_further, IH.
Qed.

Lemma map_emplace_fresh {A} n (v : A) l : n ∉ map fst l -> map_emplace n v l ≡ₚ (n, v) :: l.
Proof.
  induction l as [|[k w] l IH]; cbn [map_emplace map fst]; intros Hn; [done|]. rewrite not_elem_of_cons in Hn. destruct Hn as [Hne Hn].
  rewrite bool_decide_false by congruence. destruct (String.ltb n k); [done|]. rewrite IH by done. apply Permutation_swap.
Qed.

Lemma bind_done {A B S} (m : M S A) (f : A -> M S B) (s : S) b (s' : S) :
  (m ≫= f) s = Done b s' -> exists a s1, m s = Done a s1 /\ f a s1 = Done b s'.
Proof. unfold mbind, M_bind. destruct (m s) as [a s1|e s1|]; [eauto|done..]. Qed.

Lemma iter_invariant {X S} (P : S -> Prop) (f : X -> M S unit) l (s s' : S) :
  (forall x s s', f x s = Done tt s' -> P s -> P s') -> iter (fun x _ => f x) l tt s = Done tt s' -> P s -> P s'.
Proof.
  intros Hf. revert s. induction l as [|x l IH]; intros s Hrun Hs; simpl in Hrun; [by injection Hrun as <-|].
  apply bind_done in Hrun as ([] & s1 & H1 & Hrun). eauto.
Qed.

(** Filters that select less. *)
Lemma filter_length_mono {X} (P Q : X -> Prop) `{forall x, Decision (P x), forall x, Decision (Q x)} l :
  (forall x, x ∈ l -> P x -> Q x) -> (length (filter P l) <= length (filter Q l))%nat.
Proof.
  induction l as [|x l IH]; intros HPQ; [done|]. assert (Hx := HPQ x (list_elem_of_here _ _)).
  specialize (IH (fun y Hy => HPQ y (list_elem_of_further _ _ _ Hy))). rewrite !filter_cons. repeat case_decide; simpl; [lia|tauto|lia|lia].
Qed.

Lemma filter_length_lt {X} (y : X) (P Q : X -> Prop) `{forall x, Decision (P x), forall x, Decision (Q x)} l :
  y ∈ l -> (forall x, x ∈ l -> P x -> Q x) -> Q y -> ~ P y -> (length (filter P l) < length (filter Q l))%nat.
Proof.
  intros Hy HPQ HQ HP. induction l as [|x l IH]; [by apply not_elem_of_nil in Hy|].
  assert (Hrest : forall x, x ∈ l -> P x -> Q x) by (intros z Hz; by apply HPQ, list_elem_of_further).
  rewrite !filter_cons. apply elem_of_cons in Hy as [<-|Hy].
  - rewrite (decide_False (P := P y)) by done. rewrite (decide_True (P := Q y)) by done. simpl. pose proof (filter_length_mono P Q l Hrest). lia.
  - specialize (IH Hy Hrest). assert (Hx := HPQ x (list_elem_of_here _ _)). repeat case_decide; simpl; [lia|tauto|lia|lia].
Qed.

Section facts.
  Context {W : Type} {SY : System} {PC : Plugin_code W} {LH : LoggerHost W}.

Implicit Types s : plugin_store W.

(** * States of the plugins *)

Definition names_of s : list string := map fst (m_plugins s).
Definition state_of_plugin s (n : string) : option Init_state := m_state <$> find n (m_plugins s).
Definition finished s (n : string) : Prop := state_of_plugin s n = Some LOADED.
Definition busy s (n : string) : Prop := state_of_plugin s n = Some LOADING.

(** What must be loaded before a plugin, among those of [D]. *)
Definition needs (D : list string) (n k : string) : Prop := (k ∈ (plugin_deps n).1 \/ k ∈ (plugin_deps n).2) /\ k ∈ D.

(** A step that loads the plugins [new] for the sake of [roots]. *)
Record loads (roots : string -> Prop) s s' (new : list string) : Prop := {
  ld_names : names_of s' = names_of s;
  ld_order : constructed s' = constructed s ++ new;
  ld_post : postorder id (needs (names_of s)) (finished s) (busy s) roots new;
  ld_finished : forall k, finished s' k <-> k ∈ map id new \/ finished s k;
  ld_busy : forall k, busy s' k <-> busy s k;
  ld_required : forall x r, x ∈ new -> r ∈ (plugin_deps x).1 -> r ∈ names_of s
}.

(** A step that leaves the states and the order as they are. *)
Definition unmoved s s' : Prop :=
  names_of s' = names_of s /\ constructed s' = constructed s /\ forall k, state_of_plugin s' k = state_of_plugin s k.

Lemma unmoved_loads roots s s' : unmoved s s' -> (forall k, roots k -> finished s k) -> loads roots s s' [].
Proof.
  intros (Hn & Ho & Hst) Hr. split; try done.
  - by rewrite Ho, app_nil_r.
  - by apply postorder_nil.
  - intros k. unfold finished. rewrite Hst. simpl. rewrite elem_of_nil. tauto.
  - intros k. unfold busy. by rewrite Hst.
  - by intros x r ?%not_elem_of_nil.
Qed.

Lemma loads_from_unmoved roots s s1 s' new : unmoved s s1 -> loads roots s1 s' new -> loads roots s s' new.
Proof.
  intros (Hn & Ho & Hst) [N O P Fi B R]. assert (Hf : forall k, finished s1 k <-> finished s k) by (intros k; unfold finished; by rewrite Hst).
  assert (Hb : forall k, busy s1 k <-> busy s k) by (intros k; unfold busy; by rewrite Hst). rewrite Hn in *. split; try congruence.
  - destruct P as [P1 P2 P3 P4 P5]. split; try done.
    + intros x Hx. rewrite <- Hf, <- Hb. auto.
    + intros l1 x l2 k Heq Hk. rewrite <- Hf. eauto.
    + intros k Hk. rewrite <- Hf. auto.
  - intros k. by rewrite Fi, Hf.
  - intros k. by rewrite B.
  - done.
Qed.

Lemma loads_app roots1 roots2 s s1 s2 new1 new2 :
  loads roots1 s s1 new1 -> loads roots2 s1 s2 new2 -> loads (fun k => roots1 k \/ roots2 k) s s2 (new1 ++ new2).
Proof.
  intros [N1 O1 P1 F1 B1 R1] [N2 O2 P2 F2 B2 R2]. rewrite N1 in *. split; try congruence.
  - by rewrite O2, O1, app_assoc.
  - eapply postorder_app; [exact P1|exact P2|exact F1| |done]. intros k. by rewrite B1.
  - intros k. rewrite F2, F1, map_app, elem_of_app. tauto.
  - intros k. by rewrite B2, B1.
  - intros x r [?|?]%elem_of_app; eauto.
Qed.

Lemma loads_roots roots roots' s s' new : (forall k, roots k <-> roots' k) -> loads roots s s' new -> loads roots' s s' new.
Proof. intros H [N O P Fi B R]. split; try done. by eapply postorder_roots. Qed.

(** ** The elementary steps *)

Lemma set_state_run n st s :
  exists s', set_state n st s = Done tt s' /\ names_of s' = names_of s /\ constructed s' = constructed s /\ ps_context s' = ps_context s /\
    forall k, state_of_plugin s' k = if bool_decide (k = n) then (fun _ => st) <$> state_of_plugin s k else state_of_plugin s k.
Proof.
  eexists. split; [done|]. unfold names_of, state_of_plugin; simpl. rewrite update_names. split_and!; try done.
  intros k. rewrite find_update. case_bool_decide; [|done]. by destruct (find k (m_plugins s)).
Qed.

Lemma push_dependency_run n d s : exists s', push_dependency n d s = Done tt s' /\ unmoved s s' /\ ps_context s' = ps_context s.
Proof.
  eexists. split; [done|]. split; [|done]. unfold unmoved, names_of, state_of_plugin; simpl. rewrite update_names. split_and!; try done.
  intros k. rewrite find_update. case_bool_decide; [|done]. by destruct (find k (m_plugins s)).
Qed.

Lemma construct_run n c s :
  match construct n c s with
  | Done _ s' | Thrown _ s' => names_of s' = names_of s /\ constructed s' = constructed s ++ [n] /\ forall k, state_of_plugin s' k = state_of_plugin s k
  | Crashed => plugin_ctr n c (ps_context s) = Crashed
  end.
Proof.
  unfold construct, names_of, state_of_plugin. destruct (plugin_ctr n c (ps_context s)); simpl; rewrite ?update_names; [split_and!; try done|by split_and!|done].
  intros k. rewrite find_update. case_bool_decide; [|done]. by destruct (find k (m_plugins s)).
Qed.

(** ** Visiting a plugin *)

(** A loop whose steps each load something, among the names [D]. *)
Lemma iter_loads D (f : string -> M (plugin_store W) unit) (root : string -> string -> Prop) (P : string -> Prop) l s s' :
  (forall x s s', names_of s = D -> f x s = Done tt s' -> P x /\ exists new, loads (root x) s s' new) ->
  names_of s = D -> iter (fun x _ => f x) l tt s = Done tt s' ->
  (forall x, x ∈ l -> P x) /\ exists new, loads (fun k => exists x, x ∈ l /\ root x k) s s' new.
Proof.
  intros Hf. revert s. induction l as [|x l IH]; intros s HD Hrun; simpl in Hrun.
  - injection Hrun as <-. split; [by intros x ?%not_elem_of_nil|]. exists []. apply unmoved_loads; [done|]. by intros k (x & ?%not_elem_of_nil & _).
  - apply bind_done in Hrun as ([] & s1 & H1 & H2). apply Hf in H1 as [Hx [new1 L1]]; [|done].
    apply IH in H2 as [Hl [new2 L2]]; [|by rewrite (ld_names _ _ _ _ L1)]. split; [by intros y [->|Hy]%elem_of_cons; auto|].
    exists (new1 ++ new2). eapply loads_roots; [|by eapply loads_app]. intros k. split.
    + intros [H|(y & Hy & H)]; [exists x|exists y]; (split; [|done]); [apply list_elem_of_here|by apply list_elem_of_further].
    + intros (y & [->|Hy]%elem_of_cons & H); eauto.
Qed.

Lemma require_loads rec n r s s' :
  (forall x s s', rec x s = Done tt s' -> exists new, loads (eq x) s s' new) ->
  require rec n r s = Done tt s' -> r ∈ names_of s /\ exists new, loads (eq r) s s' new.
Proof.
  intros Hrec Hrun. unfold require in Hrun. apply bind_done in Hrun as (o & s1 & [= <- <-] & Hrun).
  destruct (find r (m_plugins s)) as [p|] eqn:Hp; [|done]. split; [apply find_is_Some; by exists p|].
  destruct (push_dependency_run n r s) as (s1 & H1 & Hu & _). unfold mbind, M_bind in Hrun. rewrite H1 in Hrun.
  apply Hrec in Hrun as [new Hl]. exists new. by eapply loads_from_unmoved.
Qed.

Lemma precede_loads rec n r s s' :
  (forall x s s', rec x s = Done tt s' -> exists new, loads (eq x) s s' new) ->
  precede rec n r s = Done tt s' -> exists new, loads (fun k => k = r /\ r ∈ names_of s) s s' new.
Proof.
  intros Hrec Hrun. unfold precede in Hrun. apply bind_done in Hrun as (o & s1 & [= <- <-] & Hrun).
  destruct (find r (m_plugins s)) as [p|] eqn:Hp.
  - destruct (push_dependency_run n r s) as (s1 & H1 & Hu & _). unfold mbind, M_bind in Hrun. rewrite H1 in Hrun.
    apply Hrec in Hrun as [new Hl]. exists new. eapply loads_roots; [|by eapply loads_from_unmoved].
    intros k. split; [intros ->; split; [done|]; apply find_is_Some; by exists p|by intros [-> _]].
  - injection Hrun as <-. exists []. apply unmoved_loads; [done|]. intros k [-> Hin]. apply find_is_Some in Hin as [? ?]. congruence.
Qed.

(** A plugin is marked, what it needs is loaded, and then it is itself. *)
Lemma loads_visit n s s1 s3 s' new roots :
  state_of_plugin s n = Some PRELOADED -> names_of s1 = names_of s -> constructed s1 = constructed s ->
  (forall k, state_of_plugin s1 k = if bool_decide (k = n) then (fun _ => LOADING) <$> state_of_plugin s k else state_of_plugin s k) ->
  loads roots s1 s3 new -> (forall k, roots k <-> needs (names_of s) n k) -> (forall r, r ∈ (plugin_deps n).1 -> r ∈ names_of s) ->
  names_of s' = names_of s3 -> constructed s' = constructed s3 ++ [n] ->
  (forall k, state_of_plugin s' k = if bool_decide (k = n) then Some LOADED else state_of_plugin s3 k) ->
  loads (eq n) s s' (new ++ [n]).
Proof.
  intros Hst N1 O1 St1 [NL OL PL FL BL RL] Hroots Hreq N5 O5 St5. rewrite N1 in *.
  assert (Hf1 : forall k, finished s1 k <-> finished s k).
  { intros k. unfold finished. rewrite St1. case_bool_decide as Hk; [|done]. subst k. rewrite Hst. by split. }
  assert (Hb1 : forall k, busy s1 k <-> k = n \/ busy s k).
  { intros k. unfold busy. rewrite St1. case_bool_decide as Hk; [|naive_solver]. subst k. rewrite Hst. naive_solver. }
  assert (Hnb : ~ finished s n /\ ~ busy s n) by (unfold finished, busy; rewrite Hst; by split).
  split.
  - congruence.
  - by rewrite O5, OL, O1, app_assoc.
  - eapply postorder_roots; [|apply (postorder_visit id (needs (names_of s)) (finished s) (busy s) n new)]; [naive_solver|apply Hnb|apply Hnb|].
    destruct PL as [P1 P2 P3 P4 P5]. split; [done|..].
    + intros x Hx. rewrite <- Hf1, <- Hb1. auto.
    + intros l1 x l2 k Heq Hk. rewrite <- Hf1. eauto.
    + intros k Hk. rewrite <- Hf1. by apply P4, Hroots.
    + intros x Hx. rewrite <- Hroots. auto.
  - intros k. rewrite map_app, elem_of_app, <- Hf1. simpl. rewrite list_elem_of_singleton. unfold finished in *. rewrite St5.
    case_bool_decide as Hk; [subst k; tauto|rewrite FL; unfold id; tauto].
  - intros k. unfold busy in *. rewrite St5. case_bool_decide as Hk; [subst k; naive_solver|rewrite BL, Hb1; naive_solver].
  - intros x r [Hx|Hx%list_elem_of_singleton]%elem_of_app Hr; [eauto|subst x; by apply Hreq].
Qed.

Lemma state_of_present s n : n ∈ names_of s -> is_Some (state_of_plugin s n).
Proof. intros [p Hp]%find_is_Some. unfold state_of_plugin. rewrite Hp. by eexists. Qed.

Lemma ensure_loaded_loads fuel n s s' : ensure_loaded fuel n s = Done tt s' -> exists new, loads (eq n) s s' new.
Proof.
  revert n s s'. induction fuel as [|fuel IH]; intros n s s' Hrun; [done|]. cbn [ensure_loaded] in Hrun.
  apply bind_done in Hrun as (o & s0 & [= <- <-] & Hrun). destruct (find n (m_plugins s)) as [p|] eqn:Hp; [|done].
  assert (Hst : state_of_plugin s n = Some (m_state p)) by (unfold state_of_plugin; by rewrite Hp).
  destruct (m_state p) eqn:Hs; [|done|injection Hrun as <-; exists []; apply unmoved_loads; [done|by intros k <-]].
  apply bind_done in Hrun as ([] & s1 & H1 & Hrun). apply bind_done in Hrun as ([] & s2 & H2 & Hrun).
  apply bind_done in Hrun as ([] & s3 & H3 & Hrun). apply bind_done in Hrun as ([] & s4 & H4 & Hrun).
  destruct (set_state_run n LOADING s) as (s1' & E1 & N1 & O1 & _ & St1). rewrite E1 in H1. injection H1 as ->.
  eapply (iter_loads (names_of s) _ (fun r k => r = k) (fun r => r ∈ names_of s)) in H2 as [Hreq [new1 L1]]; [| |done].
  2: { intros r t t' HD Hr. rewrite <- HD. by apply require_loads in Hr. }
  eapply (iter_loads (names_of s) _ (fun r k => k = r /\ r ∈ names_of s) (fun _ => True)) in H3 as [_ [new2 L2]]; [| |by rewrite (ld_names _ _ _ _ L1)].
  2: { intros r t t' HD Hr. split; [done|]. rewrite <- HD. by eapply precede_loads. }
  pose proof (loads_app _ _ _ _ _ _ _ L1 L2) as L. clear L1 L2.
  destruct (set_state_run n LOADED s3) as (s4' & E4 & N4 & O4 & _ & St4). rewrite E4 in H4. injection H4 as ->.
  pose proof (construct_run n (m_config p) s4) as Hc. rewrite Hrun in Hc. destruct Hc as (N5 & O5 & St5).
  exists ((new1 ++ new2) ++ [n]). eapply (loads_visit n s s1 s3 s'); try done; try congruence.
  - intros k. unfold needs. split.
    + intros [(r & Hr & <-)|(r & Hr & -> & HD)]; split; auto.
    + intros [[Hk|Hk] HD]; [left|right]; eauto.
  - intros k. rewrite St5, St4. case_bool_decide as Hk; [subst k|done]. destruct (state_of_present s3 n) as [q ->]; [|done].
    rewrite (ld_names _ _ _ _ L), N1. apply find_is_Some. by exists p.
Qed.

(** * Loading all the plugins *)

Lemma load_all_step names errors s errors' s' :
  iter load_one names errors s = Done errors' s' ->
  errors' = [] -> errors = [] /\ exists new, loads (fun k => k ∈ names) s s' new.
Proof.
  intros Hrun ->. revert errors s Hrun. induction names as [|n names IH]; intros errors s Hrun; cbn [iter] in Hrun.
  - injection Hrun as -> <-. split; [done|]. exists []. apply unmoved_loads; [done|]. by intros k ?%not_elem_of_nil.
  - apply bind_done in Hrun as (e1 & s1 & H1 & Hrun). apply IH in Hrun as [-> [new2 L2]].
    apply bind_done in H1 as (len & s0 & [= <- <-] & H1). unfold catch in H1.
    destruct ((ensure_loaded (S (length (m_plugins s))) n;; mret errors) s) as [e s0|e s0|] eqn:H0; [|cbv [mret M_ret] in H1; injection H1 as H1 _; by destruct errors|done].
    injection H1 as -> ->. apply bind_done in H0 as ([] & s2 & H0 & Hret). injection Hret as -> <-. split; [done|].
    apply ensure_loaded_loads in H0 as [new1 L1]. exists (new1 ++ new2). eapply loads_roots; [|by eapply loads_app].
    intros k. rewrite elem_of_cons. naive_solver.
Qed.

(** Every plugin is waiting and each name is there once. *)
Definition all_preloaded s : Prop :=
  NoDup (names_of s) /\ constructed s = [] /\ forall n p, (n, p) ∈ m_plugins s -> m_state p = PRELOADED.

Lemma preloaded_unfinished s : all_preloaded s -> forall k, ~ finished s k.
Proof.
  intros (_ & _ & Hst) k. unfold finished, state_of_plugin. destruct (find k (m_plugins s)) as [p|] eqn:Hf; [|done]. apply find_elem, Hst in Hf. simpl. by rewrite Hf.
Qed.

(** Operations on the context leave the store of the plugins alone. *)
Lemma on_context_done {A} (m : M (global W) A) s a s' :
  on_context m s = Done a s' -> m_plugins s' = m_plugins s /\ constructed s' = constructed s.
Proof. unfold on_context. destruct (m (ps_context s)); by intros [= _ <-] || done. Qed.

Lemma lift_done {S A} (o : outcome A) (s : S) (a : A) (s' : S) : lift o s = Done a s' -> o = Ret a /\ s' = s.
Proof. unfold lift. destruct o; by intros [= -> ->] || done. Qed.

(** A new plugin waits; its logger is set up in the context. *)
Lemma make_stored_done core name conf s p s' :
  make_stored core name conf s = Done p s' -> m_plugins s' = m_plugins s /\ constructed s' = constructed s /\ m_state p = PRELOADED.
Proof.
  intros Hrun. apply bind_done in Hrun as (l & s1 & H1 & Hrun). apply on_context_done in H1 as [P1 C1]. cbv zeta in Hrun.
  apply bind_done in Hrun as (path & s2 & [= <- <-] & Hrun). apply bind_done in Hrun as (h & s2 & H2 & Hrun). apply lift_done in H2 as [_ ->].
  repeat (destruct (negb _) in Hrun; [done|]). apply bind_done in Hrun as ([] & s3 & H3 & [= <- <-]). apply on_context_done in H3 as [P3 C3].
  split_and!; congruence || done.
Qed.

Lemma preload_one_spec core plugins i s s' :
  preload_one core plugins i s = Done tt s' -> all_preloaded s -> all_preloaded s'.
Proof.
  intros Hrun (Hnd & Hc & Hst). apply bind_done in Hrun as (name & s0 & H0 & Hrun). apply lift_done in H0 as [_ ->].
  apply bind_done in Hrun as (o & s0 & [= <- <-] & Hrun). destruct (find name (m_plugins s)) as [p|] eqn:Hf; [done|].
  apply bind_done in Hrun as (p & s0 & H0 & Hrun). apply make_stored_done in H0 as (P0 & C0 & Hp). injection Hrun as <-.
  assert (Hn : name ∉ names_of s) by (intros [q Hq]%find_is_Some; congruence). pose proof (map_emplace_fresh name p (m_plugins s) Hn) as Hperm.
  unfold all_preloaded, names_of; simpl. rewrite P0, C0. split_and!; [|done|].
  - rewrite Hperm. by constructor.
  - intros n q. rewrite Hperm. intros [[= -> ->]|Hin]%elem_of_cons; [done|by eapply Hst].
Qed.

Lemma load_plugins_loads core confs s s' :
  load_plugins core confs s = Done tt s' -> m_plugins s = [] -> constructed s = [] ->
  exists s1 new, all_preloaded s1 /\ loads (fun k => k ∈ names_of s1) s1 s' new.
Proof.
  intros Hrun Hp Hc. unfold load_plugins in Hrun. apply bind_done in Hrun as ([] & s0 & H0 & Hrun).
  assert (Hinit : all_preloaded s0).
  { unfold initialize_path in H0. apply bind_done in H0 as (env & t & H1 & H0). unfold lift in H1. destruct path_from_env; [|done..]. injection H1 as _ <-.
    apply bind_done in H0 as (ys & t & H1 & H0). unfold lift in H1. destruct (for_each _ confs []); [|done..]. injection H1 as _ <-. injection H0 as <-.
    unfold all_preloaded, names_of. simpl. rewrite Hp, Hc. split_and!; [constructor|done|by intros n p ?%not_elem_of_nil]. }
  apply bind_done in Hrun as ([] & s1 & H1 & Hrun). apply (iter_invariant all_preloaded) in H1; [| |done].
  2: { intros conf t t' Ht. unfold preload in Ht. eapply iter_invariant; [|exact Ht]. intros i u u'. apply (preload_one_spec core). }
  apply bind_done in Hrun as (names & t & [= <- <-] & Hrun). apply bind_done in Hrun as (errors & s2 & H2 & Hrun).
  unfold lift in Hrun. destruct (rethrow_all_with_simple_context errors "") as [[]|e|] eqn:He; [|done..]. injection Hrun as <-.
  apply rethrow_all_Ret in He. apply load_all_step in H2 as [_ [new Hl]]; [|done]. by exists s1, new.
Qed.

Lemma plugin_names_in_order s s' new :
  all_preloaded s -> loads (fun k => k ∈ names_of s) s s' new ->
  constructed s' = new /\ NoDup new /\ (forall n, n ∈ new <-> n ∈ names_of s').
Proof.
  intros Hpre [N O P Fi B R]. pose proof (preloaded_unfinished s Hpre) as Hnone. destruct Hpre as (Hnd & Hc & Hst).
  destruct P as [P1 P2 P3 P4 P5]. rewrite map_id in P1.
  split_and!; [by rewrite O, Hc|done|]. intros n. rewrite N. split.
  - intros Hn. destruct (P5 n Hn) as [?|(y & _ & _ & ?)]; done.
  - intros Hn. destruct (P4 n Hn) as [H|H]; [by rewrite map_id in H|by apply Hnone in H].
Qed.

(** ** Success *)

(** The plugins that wait, whose number decreases along the recursion. *)
Definition waiting s : nat := length (filter (fun n => state_of_plugin s n = Some PRELOADED) (names_of s)).

Lemma loads_waiting roots s s' new : loads roots s s' new -> (waiting s' <= waiting s)%nat.
Proof.
  intros [N _ _ Fi B _]. unfold waiting. rewrite N. apply filter_length_mono. intros n Hn Hp.
  destruct (state_of_present s n Hn) as [[]  Hs]; [done|..]; exfalso.
  - assert (H : busy s' n) by (by apply B). unfold busy in H. congruence.
  - assert (H : finished s' n) by (apply Fi; by right). unfold finished in H. congruence.
Qed.

Lemma push_keeps n r s :
  exists s', push_dependency n r s = Done tt s' /\ unmoved s s' /\ names_of s' = names_of s /\ (forall k, busy s' k <-> busy s k) /\ waiting s' = waiting s.
Proof.
  destruct (push_dependency_run n r s) as (s' & Hrun & Hu & _). pose proof Hu as (Hn & _ & Hst). exists s'.
  split; [done|]. split; [exact Hu|]. split; [done|]. split.
  - intros k. unfold busy. by rewrite Hst.
  - unfold waiting. rewrite Hn. erewrite list_filter_iff; [done|]. intros k. by rewrite Hst.
Qed.

Section success.
  Context (D : list string) (rank : string -> nat).
  Context (Hrank : forall n k, needs D n k -> (rank k < rank n)%nat).
  Context (Hreq : forall n r, n ∈ D -> r ∈ (plugin_deps n).1 -> r ∈ D).
  Context (Hctr : forall n c g, exists g', plugin_ctr n c g = Done tt g').

(** A loop whose steps succeed as long as nothing is waited for in vain. *)
Lemma iter_succeeds (f : string -> M (plugin_store W) unit) (root : string -> string -> Prop) l s :
  names_of s = D ->
  (forall x t, x ∈ l -> names_of t = D -> (forall k, busy t k <-> busy s k) -> (waiting t <= waiting s)%nat ->
     exists t' new, f x t = Done tt t' /\ loads (root x) t t' new) ->
  exists s', iter (fun x _ => f x) l tt s = Done tt s' /\ names_of s' = D /\ (forall k, busy s' k <-> busy s k) /\ (waiting s' <= waiting s)%nat.
Proof.
  intros HD Hf. enough (H : forall t, names_of t = D -> (forall k, busy t k <-> busy s k) -> (waiting t <= waiting s)%nat ->
    exists s', iter (fun x _ => f x) l tt t = Done tt s' /\ names_of s' = D /\ (forall k, busy s' k <-> busy s k) /\ (waiting s' <= waiting s)%nat) by (by apply H).
  induction l as [|x l IH]; intros t HDt Hb Hw; [by exists t|]. cbn [iter].
  destruct (Hf x t) as (t' & new & Hrun & Hl); [apply list_elem_of_here|done..|]. unfold mbind, M_bind. rewrite Hrun.
  pose proof (loads_waiting _ _ _ _ Hl). apply IH; [|by rewrite (ld_names _ _ _ _ Hl)| |lia].
  - intros y u Hy. by apply Hf, list_elem_of_further.
  - intros k. by rewrite (ld_busy _ _ _ _ Hl).
Qed.

Lemma ensure_loaded_succeeds fuel n s :
  names_of s = D -> n ∈ D -> (waiting s < fuel)%nat -> (forall k, busy s k -> (rank n < rank k)%nat) ->
  exists s', ensure_loaded fuel n s = Done tt s'.
Proof.
  revert n s. induction fuel as [|fuel IH]; intros n s HD Hn Hw Hb; [lia|]. cbn [ensure_loaded].
  unfold mbind at 1, M_bind at 1, lookup_plugin at 1, gets. rewrite <- HD in Hn. destruct (proj2 (find_is_Some n (m_plugins s)) Hn) as [p Hp]. rewrite Hp.
  assert (Hst : state_of_plugin s n = Some (m_state p)) by (unfold state_of_plugin; by rewrite Hp).
  destruct (m_state p) eqn:Hs; [|specialize (Hb n Hst); lia|by exists s].
  destruct (set_state_run n LOADING s) as (s1 & E1 & N1 & O1 & _ & St1). unfold mbind at 1, M_bind at 1. rewrite E1.
  assert (Hb1 : forall k, busy s1 k <-> k = n \/ busy s k).
  { intros k. unfold busy. rewrite St1. case_bool_decide as Hk; [|naive_solver]. subst k. rewrite Hst. naive_solver. }
  assert (Hw1 : (waiting s1 < waiting s)%nat).
  { unfold waiting. rewrite N1. apply (filter_length_lt n); [done| |done|].
    - intros k _. rewrite St1. case_bool_decide; [|done]. by destruct (state_of_plugin s k).
    - rewrite St1, bool_decide_true, Hst by done. by intros [=]. }
  assert (Hsub : forall k t, names_of t = D -> (forall k, busy t k <-> busy s1 k) -> (waiting t <= waiting s1)%nat -> needs D n k ->
    exists t' new, ensure_loaded fuel k t = Done tt t' /\ loads (eq k) t t' new).
  { intros k t HDt Hbt Hwt Hk. destruct (IH k t) as [t' Ht']; [done|apply Hk|lia| |].
    - intros k' [->|Hk']%Hbt%Hb1; [by apply Hrank|]. specialize (Hb _ Hk'). specialize (Hrank _ _ Hk). lia.
    - destruct (ensure_loaded_loads _ _ _ _ Ht') as [new Hl]. by exists t', new. }
  assert (HD1 : names_of s1 = D) by congruence.
  destruct (iter_succeeds (require (ensure_loaded fuel) n) (fun r k => r = k) (plugin_deps n).1 s1 HD1) as (s2 & E2 & N2 & B2 & W2).
  { intros r t Hr HDt Hbt Hwt. assert (HrD : r ∈ D) by (apply (Hreq n); congruence).
    unfold require, lookup_plugin, gets, mbind at 1, M_bind at 1. pose proof HrD as Hf. rewrite <- HDt in Hf. apply find_is_Some in Hf as [q Hq]. rewrite Hq.
    destruct (push_keeps n r t) as (t1 & Et & Hu & Hun & Hub & Huw). unfold mbind, M_bind. rewrite Et.
    destruct (Hsub r t1) as (t' & new & Hrun & Hl); [congruence|intros k; by rewrite Hub|lia|by split; [left|]|].
    exists t', new. split; [done|]. by eapply loads_from_unmoved. }
  unfold mbind at 1, M_bind at 1. rewrite E2.
  destruct (iter_succeeds (precede (ensure_loaded fuel) n) (fun r k => k = r /\ r ∈ D) (plugin_deps n).2 s2 N2) as (s3 & E3 & N3 & B3 & W3).
  { intros r t Hr HDt Hbt Hwt. unfold precede, lookup_plugin, gets, mbind at 1, M_bind at 1. destruct (find r (m_plugins t)) as [q|] eqn:Hq.
    - assert (HrD : r ∈ D) by (rewrite <- HDt; apply find_is_Some; by exists q).
      destruct (push_keeps n r t) as (t1 & Et & Hu & Hun & Hub & Huw). unfold mbind, M_bind. rewrite Et.
      destruct (Hsub r t1) as (t' & new & Hrun & Hl); [congruence|intros k; by rewrite Hub, Hbt|lia|by split; [right|]|].
      exists t', new. split; [done|]. eapply loads_roots; [|by eapply loads_from_unmoved]. naive_solver.
    - exists t, []. split; [done|]. apply unmoved_loads; [done|]. intros k [-> Hk]. rewrite <- HDt in Hk. apply find_is_Some in Hk as [? ?]. congruence. }
  unfold mbind at 1, M_bind at 1. rewrite E3.
  destruct (set_state_run n LOADED s3) as (s4 & E4 & _). unfold mbind at 1, M_bind at 1. rewrite E4.
  unfold construct. destruct (Hctr n (m_config p) (ps_context s4)) as [g' ->]. by eexists.
Qed.

End success.

(** * Theorems *)

(** C37: when the plugins load, each one of the configuration has been constructed
    exactly once, and after every plugin it requires, which is there, and every
    plugin it wants before it when that one is there. *)
Theorem plugins_load_in_order core confs s s' :
  m_plugins s = [] -> constructed s = [] -> load_plugins core confs s = Done tt s' ->
  NoDup (constructed s') /\
  (forall n, n ∈ constructed s' <-> n ∈ map fst (m_plugins s')) /\
  (forall n p, find n (m_plugins s') = Some p -> m_state p = LOADED) /\
  (forall l1 n l2 k, constructed s' = l1 ++ n :: l2 ->
     k ∈ (plugin_deps n).1 \/ (k ∈ (plugin_deps n).2 /\ k ∈ map fst (m_plugins s')) -> k ∈ l1).
Proof.
  intros Hp Hc Hrun. destruct (load_plugins_loads core confs s s' Hrun Hp Hc) as (s1 & new & Hpre & Hl).
  destruct (plugin_names_in_order s1 s' new Hpre Hl) as (-> & Hnd & Hin). pose proof (preloaded_unfinished s1 Hpre) as Hnone. destruct Hl as [N O P Fi B R].
  fold (names_of s'). destruct P as [P1 P2 P3 P4 P5].
  split_and!; try done.
  - intros n p Hf. assert (Hn : finished s' n).
    { apply Fi. left. rewrite map_id. apply Hin. unfold names_of. apply find_is_Some. by exists p. }
    unfold finished, state_of_plugin in Hn. rewrite Hf in Hn. by injection Hn.
  - intros l1 n l2 k Heq Hk. destruct (P3 l1 n l2 k Heq) as [H|H]; [|by rewrite map_id in H|by apply Hnone in H].
    rewrite N in Hk. destruct Hk as [Hk|[Hk HD]]; (split; [auto|]); [|done]. apply (R n); [|done]. rewrite Heq. set_solver.
Qed.

Lemma load_all_succeeds rank s names :
  (forall n k, needs (names_of s) n k -> (rank k < rank n)%nat) ->
  (forall n r, n ∈ names_of s -> r ∈ (plugin_deps n).1 -> r ∈ names_of s) ->
  (forall n c g, exists g', plugin_ctr n c g = Done tt g') ->
  (forall k, k ∈ names -> k ∈ names_of s) -> (forall k, ~ busy s k) ->
  exists s', load_all names s = Done [] s'.
Proof.
  intros Hrank Hreq Hctr. unfold load_all. remember (names_of s) as D eqn:HD. symmetry in HD. revert s HD.
  induction names as [|n names IH]; intros s HD Hin Hb; [by exists s|]. cbn [iter].
  destruct (ensure_loaded_succeeds D rank Hrank Hreq Hctr (S (length (m_plugins s))) n s) as [s1 Hrun]; [done|apply Hin, list_elem_of_here| |by intros k ?%Hb|].
  { unfold waiting. pose proof (length_filter (fun n => state_of_plugin s n = Some PRELOADED) (names_of s)) as Hlen.
    unfold names_of in Hlen at 2. rewrite length_map in Hlen. lia. }
  assert (Hstep : load_one n [] s = Done [] s1).
  { unfold load_one, gets, catch, mbind, M_bind. by rewrite Hrun. }
  unfold mbind at 1, M_bind at 1. rewrite Hstep. destruct (ensure_loaded_loads _ _ _ _ Hrun) as [new Hl].
  apply IH; [by rewrite (ld_names _ _ _ _ Hl)| |].
  - intros k Hk. by apply Hin, list_elem_of_further.
  - intros k. by rewrite (ld_busy _ _ _ _ Hl).
Qed.

(** C38: plugins whose dependencies have no cycle all load: when the required ones
    are there and the constructors return, loading terminates without an error,
    whatever the order of the plugins in the configuration. *)
Theorem acyclic_plugins_load rank s :
  all_preloaded s ->
  (forall n k, needs (names_of s) n k -> (rank k < rank n)%nat) ->
  (forall n r, n ∈ names_of s -> r ∈ (plugin_deps n).1 -> r ∈ names_of s) ->
  (forall n c g, exists g', plugin_ctr n c g = Done tt g') ->
  exists s', load_all (map fst (m_plugins s)) s = Done [] s'.
Proof.
  intros (_ & _ & Hst) Hrank Hreq Hctr. apply (load_all_succeeds rank); try done.
  intros k. unfold busy, state_of_plugin. destruct (find k (m_plugins s)) as [p|] eqn:Hf; [|done]. apply find_elem, Hst in Hf. simpl. by rewrite Hf.
Qed.

End facts.

(** * Examples *)

(** Plugins linked into the program: [mpi] must come before [hdf5] when it is there,
    [trace] requires both; [broken] requires a plugin that is not there. *)
Definition linked_system : System :=
  {| env_plugin_path := None; PDI_DEFAULT_PLUGIN_PATH := "/usr/lib/pdi"; libpdi_fname := None;
     dlsym := fun _ _ => true; dlopen := fun _ => inl 1; dlerror := "" |}.

Definition demo_deps (n : string) : list string * list string :=
  if bool_decide (n = "hdf5") then ([], ["mpi"; "absent"])
  else if bool_decide (n = "trace") then (["hdf5"; "mpi"], [])
  else if bool_decide (n = "user") then (["broken"], [])
  else if bool_decide (n = "broken") then (["missing"], []) else ([], []).

Definition demo_plugins : Plugin_code loggers := {| plugin_pretty_name := id; plugin_deps := demo_deps; plugin_ctr := fun _ _ g => Done tt g |}.
#[local] Instance plain_loggers : LoggerHost loggers := {| loggers_of := id; set_loggers := fun ls _ => ls; loggers_set := fun _ _ => eq_refl |}.

Definition plain_region : Yaml_region := {| m_file := ""; m_start_mark := {| line := 0; column := 0 |}; m_end_mark := {| line := 0; column := 0 |} |}.
Definition plugins_conf (names : list string) : PC_tree :=
  tree_of (YMapping plain_region [(YScalar plain_region "plugins", YMapping plain_region (map (fun n => (YScalar plain_region n, YScalar plain_region "")) names))]).

(** The logger of the context is set up at address 0. *)
Definition plain_global : global loggers :=
  mkGlobal empty_store ∅ ∅ ∅ (fun _ => mkRegistry [] []) 0 {[0%nat := with_spdlog (Some (mkSpdlog "PDI" [Console_sink] lv_info "%+")) new_logger]}.
Definition no_plugins : plugin_store loggers := mkPlugins [] [] [] plain_global.
Definition preloaded (names : list string) : plugin_store loggers :=
  mkPlugins [] (map (fun n => (n, mkStored (plugins_conf []) [] false PRELOADED)) names) [] plain_global.

(** The constructors called, in order, and the errors. *)
Definition demo_order {A} (o : exec (plugin_store loggers) A) : list string := match o with Done _ s | Thrown _ s => constructed s | Crashed => [] end.
Definition demo_store : plugin_store loggers :=
  match @load_plugins loggers linked_system demo_plugins plain_loggers 0 [plugins_conf ["trace"; "hdf5"; "mpi"]] no_plugins with Done _ s => s | _ => no_plugins end.

Lemma plugins_load_in_order_witness :
  constructed demo_store = ["mpi"; "hdf5"; "trace"] /\
  forall l1 n l2 k, constructed demo_store = l1 ++ n :: l2 -> k ∈ (demo_deps n).1 \/ (k ∈ (demo_deps n).2 /\ k ∈ map fst (m_plugins demo_store)) -> k ∈ l1.
Proof.
  split; [by vm_compute|].
  apply (@plugins_load_in_order loggers linked_system demo_plugins plain_loggers 0 [plugins_conf ["trace"; "hdf5"; "mpi"]] no_plugins demo_store); by vm_compute.
Defined.

Definition demo_rank (n : string) : nat :=
  if bool_decide (n = "trace") then 2 else if bool_decide (n = "hdf5") then 1 else 0.

Lemma acyclic_plugins_load_witness : exists s', @load_all loggers demo_plugins ["hdf5"; "mpi"; "trace"] (preloaded ["hdf5"; "mpi"; "trace"]) = Done [] s'.
Proof.
  apply (@acyclic_plugins_load loggers demo_plugins demo_rank (preloaded ["hdf5"; "mpi"; "trace"])).
  - split; [|split; [done|]].
    + vm_compute. repeat (constructor; [set_solver|]). constructor.
    + intros n p. cbn [preloaded m_plugins map]. rewrite !elem_of_cons. intros [[= _ ->]|[[= _ ->]|[[= _ ->]|?%not_elem_of_nil]]]; done.
  - intros n k [Hk HD]. cbn in HD. rewrite !elem_of_cons in HD. unfold demo_plugins, demo_deps, plugin_deps in Hk.
    repeat (case_bool_decide; [subst n|]); cbn in Hk; rewrite ?elem_of_cons, ?elem_of_nil in Hk;
      destruct HD as [->|[->|[->|?%not_elem_of_nil]]]; try done; try (vm_compute; lia); naive_solver.
  - intros n r Hn Hr. change (n ∈ ["hdf5"; "mpi"; "trace"]) in Hn. change (r ∈ ["hdf5"; "mpi"; "trace"]). change (r ∈ (demo_deps n).1) in Hr.
    rewrite !elem_of_cons in Hn. destruct Hn as [->|[->|[->|?%not_elem_of_nil]]]; [change (r ∈ @nil string) in Hr|change (r ∈ @nil string) in Hr|change (r ∈ ["hdf5"; "mpi"]) in Hr|done]; set_solver.
  - intros n c g. by exists g.
Defined.

(** After a plugin fails it stays marked as being loaded, so another plugin that
    requires it reports a circular dependency that does not exist. *)
Theorem failed_plugin_looks_circular :
  exists s', @load_all loggers demo_plugins ["broken"; "user"] (preloaded ["broken"; "user"]) =
    Done [System_error "while loading plugin `broken', Error while loading plugin `broken': required plugin `missing' is not loaded";
          Impl_error "while loading plugin `user', Error while initializing plugin: circular dependency between plugins"] s' /\
  (demo_deps "broken" = (["missing"], []) /\ demo_deps "user" = (["broken"], [])).
Proof. eexists. split; [vm_compute; reflexivity|done]. Qed.
