(* ===== verification/Init.v ===== *)
(** Building the global context from a configuration.

    Models [load_data] and the constructor of [Global_context]
    ([pdi/src/global_context.cxx]).  The state is the context and its plugin
    store; what the loggers write is not modelled, only how they are set up. *)

From S2P Require Import Prelude Error Effect ExprSyntax Datatype Layout Memory DenseCopy Access Ref RefInv RefOps RefTheorems RefCopy Numeric Parse Yaml Template GlobalContext Eval Logger Includes StringTools PluginStore.

Section init.
  Context {W : Type} {RT : Runtime W} {FI : Files} {SY : System} {PC : Plugin_code W} {LH : LoggerHost W}.

(** Bounds on the nesting of includes and of types and on the references of a
    pattern, and the Fortran kinds of the build. *)
Context (include_fuel type_fuel pattern_turns : nat) (fortran : option Fortran_kinds).

(** [to_string(optional<Yaml_region>)], between quotes when there is one *)
Definition region_text (before : string) (r : option Yaml_region) : string :=
  match r with Some r => before +:+ format_region r +:+ "'" | None => "" end.

Abbreviation locations := (gmap string (option Yaml_region)).

(** One entry of [load_data] *)
Definition load_entry (node : PC_tree) (is_metadata : bool) (i : nat) (def_location : locations) : M (global W) locations :=
  let key_node := get_nth_key node i in
  let value_node := get_nth_value node i in
  data_name ← lift (Yaml.to_string key_node);
  match def_location !! data_name with
  | Some region => lift (spectree_error key_node ("redefinition of '" +:+ data_name +:+ "'" +:+ region_text " previously defined in `" region))
  | None =>
      desc data_name;;
      set_metadata data_name is_metadata;;
      parsers ← gets m_datatype_parsers;
      t ← lift (datatype parsers type_fuel value_node);
      default_type data_name t;;
      mret (<[data_name := make_region value_node]> def_location)
  end.

(** [load_data] *)
Definition load_data (node : PC_tree) (is_metadata : bool) (def_location : locations) : M (global W) locations :=
  n ← lift (len node);
  iter (load_entry node is_metadata) (seq 0 n) def_location.

(** The subtrees [key] of the configurations that have one. *)
Definition load_section (key : string) (is_metadata : bool) (confs : list PC_tree) (def_location : locations) : M (global W) locations :=
  iter (fun conf loc => let node := get_key conf key in if PC_status node then mret loc else load_data node is_metadata loc) confs def_location.

(** The constructor of [Global_context] *)
Definition Global_context (conf : PC_tree) : M (plugin_store W) unit :=
  logger ← on_context (on_loggers (l ← create_logger; setup "PDI" (get_key conf "logging") lv_info l;; mret l));
  confs ← lift (get_includes include_fuel conf);
  on_context (
    ps ← gets m_datatype_parsers;
    ps ← lift (load_basic_datatypes fortran ps);
    ps ← lift (for_each (fun conf => load_user_datatypes (get_key conf "types")) confs ps);
    modify (set_parsers ps));;
  load_plugins logger confs;;
  on_context (
    n ← on_loggers (gets size);
    evaluate_pattern pattern_turns n logger;;
    loc ← load_section "metadata" true confs ∅;
    load_section "data" false confs loc;;
    notify_init).

End init.
