(* ===== verification/Api.v ===== *)
(** The C interface.

    Models [pdi/src/pdi.cxx]: the error context, the transactions and the
    functions a simulation code calls.  A C function returns a status, unless
    its error handler exits the program.  What is logged is not modelled, nor is the
    message [build_verbosemsg] prepares, which nothing reads; callbacks act on the
    context and not on the transaction in progress. *)

From S2P Require Import Prelude Error Effect ExprSyntax Datatype Layout Memory DenseCopy Access Ref RefInv RefOps RefTheorems RefCopy Numeric Parse Yaml Template GlobalContext Eval Logger Includes StringTools PluginStore Init Share.

(** * State *)

(** The handlers of the library, and a user's function with its context. *)
Inductive errhandler := PDI_ASSERT_HANDLER | PDI_WARN_HANDLER | PDI_NULL_HANDLER | User_handler (func context : Z).

(** [a_store] holds the context that [s_context] points to, and the memory that
    outlives it. *)
Record api (W : Type) := mkApi {
  a_store : plugin_store W;
  s_context : bool;
  handler : errhandler;
  errmsg : string;
  g_transaction : string;
  g_transaction_status : PDI_status_t;
  g_transaction_data : list string
}.
Arguments mkApi {W} _ _ _ _ _ _ _.
Arguments a_store {W} _.
Arguments s_context {W} _.
Arguments handler {W} _.
Arguments errmsg {W} _.
Arguments g_transaction {W} _.
Arguments g_transaction_status {W} _.
Arguments g_transaction_data {W} _.

(** How a call ends: it returns, an exception leaves it, the program exits, or the
    behaviour is undefined. *)
Inductive called (S A : Type) : Type :=
  | Returned (a : A) (s : S)
  | Raised (e : exn) (s : S)
  | Exited (code : PDI_status_t) (s : S)
  | Undefined.
Arguments Returned {S A} a s.
Arguments Raised {S A} e s.
Arguments Exited {S A} code s.
Arguments Undefined {S A}.

Definition C (S A : Type) : Type := S -> called S A.

#[export] Instance C_ret S : MRet (C S) := fun A a s => Returned a s.
#[export] Instance C_bind S : MBind (C S) := fun A B f m s =>
  match m s with Returned a s => f a s | Raised e s => Raised e s | Exited c s => Exited c s | Undefined => Undefined end.

(** The functions of the user's handlers, and the destructors of the plugins.  A
    handler is code of the program, called from inside the library: it may change
    the world, call the library back, exit, or let an exception through. *)
Class Program (W : Type) := {
  handle : Z -> Z -> PDI_status_t -> string -> C (api W) unit;
  unload_plugins : M (global W) unit
}.

Definition PDI_IN : Z := 1.
Definition PDI_OUT : Z := 2.

(** [access & flag] as a condition *)
Definition has (access flag : Z) : bool := negb (Z.land access flag =? 0).

Section api.
  Context {W : Type} {RT : Runtime W} {FI : Files} {SY : System} {PC : Plugin_code W} {LH : LoggerHost W} {PR : Program W}.
  Context (include_fuel type_fuel pattern_turns : nat) (fortran : option Fortran_kinds).

Implicit Types s : api W.

Abbreviation P := (C (api W)).

Definition set_a_store (ps : plugin_store W) (init : bool) s : api W :=
  mkApi ps init (handler s) (errmsg s) (g_transaction s) (g_transaction_status s) (g_transaction_data s).
Definition set_context (g : global W) (ps : plugin_store W) : plugin_store W :=
  mkPlugins (m_plugin_path ps) (m_plugins ps) (constructed ps) g.
Definition set_errmsg (msg : string) s : api W :=
  mkApi (a_store s) (s_context s) (handler s) msg (g_transaction s) (g_transaction_status s) (g_transaction_data s).
Definition set_transaction (name : string) (st : PDI_status_t) (data : list string) s : api W :=
  mkApi (a_store s) (s_context s) (handler s) (errmsg s) name st data.

Definition raise {A} (e : exn) : P A := fun s => Raised e s.
Definition state : P (api W) := fun s => Returned s s.
Definition update_state (f : api W -> api W) : P unit := fun s => Returned tt (f s).

(** [Global_context::context()] *)
Definition context : P unit := fun s => if s_context s then Returned tt s else Raised (State_error "PDI not initialized") s.

(** An operation on the context. *)
Definition in_ctx {A} (m : M (global W) A) : P A := fun s =>
  if s_context s then
    match m (ps_context (a_store s)) with
    | Done a g => Returned a (set_a_store (set_context g (a_store s)) true s)
    | Thrown e g => Raised e (set_a_store (set_context g (a_store s)) true s)
    | Crashed => Undefined
    end
  else Raised (State_error "PDI not initialized") s.

(** * Errors *)

(** The message the three forms of [return_err] store. *)
Definition message (e : exn) : string :=
  match status e with
  | Some _ => full_msg e
  | None => match what e with Some w => w | None => "Unexpected error" end
  end.

(** The call of the handler: [assert_status] exits on an error. *)
Definition call_handler (st : PDI_status_t) (msg : string) : P PDI_status_t := fun s =>
  match handler s with
  | PDI_NULL_HANDLER | PDI_WARN_HANDLER => Returned st s
  | PDI_ASSERT_HANDLER => if is_error st then Exited st s else Returned st s
  | User_handler func ctx => (handle func ctx st msg;; mret st) s
  end.

(** [Error_context::return_err] *)
Definition return_err (e : exn) : P PDI_status_t := fun s =>
  let s := set_errmsg (message e) s in call_handler (caught_status e) (message e) s.

(** [try { body } catch (const Error& e) {...} catch (const exception& e) {...} catch (...) {...}] *)
Definition guarded {A} (body : P A) (handler : exn -> P A) : P A := fun s =>
  match body s with Raised e s => handler e s | o => o end.

Definition checked (body : P PDI_status_t) : P PDI_status_t := guarded body return_err.

Definition PDI_errmsg : P string := fun s => Returned (errmsg s) s.

Definition PDI_errhandler (new_handler : errhandler) : P errhandler := fun s =>
  Returned (handler s)
    (mkApi (a_store s) (s_context s) new_handler (errmsg s) (g_transaction s) (g_transaction_status s) (g_transaction_data s)).

(** * The context *)

(** The machine a new context starts in. *)
Definition fresh_context (g : global W) : global W :=
  mkGlobal (g_store g) (g_mem g) ∅ ∅ (fun _ => mkRegistry [] []) (next_iterator g) (g_world g).

(** [~Global_context]: the callbacks, the plugins, the descriptors. *)
Definition destroy_context : M (global W) unit :=
  modify (fun g => set_callbacks (fun _ => mkRegistry [] []) (next_iterator g) g);;
  unload_plugins;;
  names ← gets (fun g => map fst (map_to_list (m_descriptors g)));
  iter (fun name _ => destroy_desc name;; mret tt) names tt.

(** The objects of [g'], in the machine of [g]. *)
Definition with_machine (g g' : global W) : global W :=
  mkGlobal (g_store g) (g_mem g) (m_datatype_parsers g') (m_descriptors g') (m_callbacks g') (next_iterator g) (g_world g).

(** [s_context.reset()] *)
Definition reset_context (s : api W) : called (api W) unit :=
  if s_context s then
    match destroy_context (ps_context (a_store s)) with
    | Done _ g => Returned tt (set_a_store (mkPlugins [] [] [] (fresh_context g)) false s)
    | Thrown _ _ | Crashed => Undefined
    end
  else Returned tt s.

(** [Global_context::init]: the new context is built, then the old one is
    destroyed; a constructor that throws leaves the old one, in the machine it
    has changed. *)
Definition init (conf : PC_tree) : P unit := fun s =>
  let old := a_store s in
  match Global_context include_fuel type_fuel pattern_turns fortran conf (mkPlugins [] [] [] (fresh_context (ps_context old))) with
  | Crashed => Undefined
  | Thrown e ps => Raised e (set_a_store (set_context (with_machine (ps_context ps) (ps_context old)) old) (s_context s) s)
  | Done _ ps =>
      match reset_context (set_a_store (set_context (with_machine (ps_context ps) (ps_context old)) old) (s_context s) s) with
      | Returned _ s => Returned tt (set_a_store (set_context (with_machine (ps_context (a_store s)) (ps_context ps)) ps) true s)
      | _ => Undefined
      end
  end.

(** * The functions *)

Definition PDI_init (conf : PC_tree) : P PDI_status_t := checked (
  update_state (fun s => set_transaction "" (g_transaction_status s) [] s);;
  init conf;;
  in_ctx (notify_event "pdi_start_timer");;
  mret PDI_OK).

Definition PDI_finalize : P PDI_status_t := checked (
  update_state (fun s => set_transaction "" (g_transaction_status s) [] s);;
  in_ctx (notify_event "pdi_stop_timer");;
  reset_context;;
  mret PDI_OK).

(** [PDI_VERSION_MAJOR], [PDI_VERSION_MINOR] and [PDI_VERSION_PATCH] come from the
    build. *)
Definition version_number (major minor patch : Z) : Z := Z.lor (Z.lor (Z.shiftl major 24) (Z.shiftl minor 16)) (Z.shiftl patch 8).

Definition version_text (major minor patch : Z) : string := pretty major +:+ "." +:+ pretty minor +:+ "." +:+ pretty patch.

Definition PDI_version (major minor patch : Z) (expected : Z) : P PDI_status_t := checked (
  let MASK := 255 in
  let expected_major := Z.land (Z.shiftr expected 24) MASK in
  let expected_minor := Z.land (Z.shiftr expected 16) MASK in
  let expected_patch := Z.land (Z.shiftr expected 8) MASK in
  (if negb (expected =? 0) && (negb (expected_major =? major) || (expected_minor >? minor)) then
     raise (Plugin_error ("Invalid PDI API version: " +:+ version_text expected_major expected_minor expected_patch
                          +:+ ", PDI provided version is " +:+ version_text major minor patch))
   else mret tt);;
  context;;
  mret PDI_OK).

Definition PDI_event (name : string) : P PDI_status_t := checked (in_ctx (notify_event name);; mret PDI_OK).

Definition PDI_share (name : string) (buffer access : Z) : P PDI_status_t := checked (
  in_ctx (desc name;; share_data name buffer (has access PDI_OUT) (has access PDI_IN));;
  mret PDI_OK).

(** The buffer is written only when the call succeeds. *)
Definition PDI_access (name : string) (inout : Z) : P (PDI_status_t * option Z) := guarded (
  p ← in_ctx (desc name;; access_data name (has inout PDI_IN) (has inout PDI_OUT));
  mret (PDI_OK, Some p)) (fun e => st ← return_err e; mret (st, None)).

Definition PDI_release (name : string) : P PDI_status_t := checked (in_ctx (desc name;; release_desc name);; mret PDI_OK).

Definition PDI_reclaim (name : string) : P PDI_status_t := checked (in_ctx (desc name;; reclaim name);; mret PDI_OK).

(** The first error of a transaction is kept. *)
Definition note_error (st : PDI_status_t) : P unit := update_state (fun s =>
  if negb (bool_decide (g_transaction s = EmptyString)) && negb (is_error (g_transaction_status s))
  then set_transaction (g_transaction s) st (g_transaction_data s) s else s).

Definition PDI_expose (name : string) (data access : Z) : P PDI_status_t := guarded (
  status ← PDI_share name data access;
  if is_error status then note_error status;; mret status
  else
    s ← state;
    if negb (bool_decide (g_transaction s = EmptyString)) then
      update_state (fun s => set_transaction (g_transaction s) (g_transaction_status s) (g_transaction_data s ++ [name]) s);; mret PDI_OK
    else
      status ← PDI_reclaim name;
      if is_error status then mret status else mret PDI_OK)
  (fun e => status ← return_err e; note_error status;; mret status).

Definition first_error (status r_status : PDI_status_t) : PDI_status_t := if is_error status then status else r_status.

(** The loop that shares the data after the first one. *)
Fixpoint share_rest (items : list (string * Z * Z)) (transaction_data : list string) : P (PDI_status_t * list string) :=
  match items with
  | [] => mret (PDI_OK, transaction_data)
  | (v_name, v_data, v_access) :: items =>
      context;;
      status ← PDI_share v_name v_data v_access;
      if is_error status then mret (status, transaction_data) else share_rest items (transaction_data ++ [v_name])
  end.

(** The loop that reclaims the data; [names] is in the order of the reclaims. *)
Fixpoint reclaim_all (names : list string) (status : PDI_status_t) : P PDI_status_t :=
  match names with
  | [] => mret status
  | n :: names => context;; r_status ← PDI_reclaim n; reclaim_all names (first_error status r_status)
  end.

Definition PDI_multi_expose (event_name name : string) (data access : Z) (items : list (string * Z * Z)) : P PDI_status_t := checked (
  status ← PDI_share name data access;
  if is_error status then mret status
  else
    '(status, transaction_data) ← share_rest items [name];
    status ← (if is_error status then mret status else context;; PDI_event event_name);
    reclaim_all (reverse transaction_data) status).

Definition PDI_transaction_begin (name : string) : P PDI_status_t := checked (
  s ← state;
  if negb (bool_decide (g_transaction s = EmptyString)) then
    raise (State_error "Transaction already in progress, cannot start a new one")
  else update_state (fun s => set_transaction name PDI_OK (g_transaction_data s) s);; mret PDI_OK).

Definition set_status (st : PDI_status_t) : P unit :=
  update_state (fun s => set_transaction (g_transaction s) st (g_transaction_data s) s).

(** The reclaims at the end of a transaction *)
Fixpoint end_reclaims (names : list string) : P unit :=
  match names with
  | [] => mret tt
  | n :: names => r_status ← PDI_reclaim n; s ← state; set_status (first_error (g_transaction_status s) r_status);; end_reclaims names
  end.

Definition PDI_transaction_end : P PDI_status_t := guarded (
  s ← state;
  if bool_decide (g_transaction s = EmptyString) then raise (State_error "No transaction in progress, cannot end one")
  else
    (if is_error (g_transaction_status s) then mret tt else st ← PDI_event (g_transaction s); set_status st);;
    s ← state;
    end_reclaims (reverse (g_transaction_data s));;
    update_state (fun s => set_transaction "" (g_transaction_status s) [] s);;
    s ← state;
    mret (g_transaction_status s))
  (fun e => status ← return_err e; s ← state; set_status (first_error (g_transaction_status s) status);; s ← state; mret (g_transaction_status s)).

End api.
