(* ===== verification/ApiFacts.v ===== *)
(** What the C interface promises: the exceptions of the library stay inside it
    and a transaction is a [PDI_multi_expose] cut into calls. *)

From S2P Require Import Prelude Error Effect ExprSyntax Datatype Layout Memory DenseCopy Access Ref RefInv RefOps RefTheorems RefCopy Numeric Parse Yaml Template GlobalContext Eval Includes StringTools PluginStore Init ContextInv DescriptorInv EvalInv Share ShareFacts Api.

Section facts.
  Context {W : Type} {RT : Runtime W} {FI : Files} {SY : System} {PC : Plugin_code W} {PR : Program W}.

Implicit Types s : api W.

(** The same end with other transaction variables. *)
Definition retag (t : string) (st : PDI_status_t) (l : list string) {A} (o : called (api W) A) : called (api W) A :=
  match o with
  | Returned a s => Returned a (set_transaction t st l s)
  | Raised e s => Raised e (set_transaction t st l s)
  | Exited c s => Exited c (set_transaction t st l s)
  | Undefined => Undefined
  end.

(** A call that does not use the transaction variables. *)
Definition blind {A} (m : C (api W) A) : Prop := forall t st l s, m (set_transaction t st l s) = retag t st l (m s).

(** What is asked of the handlers of the program: they return or exit, neither
    read nor change the transaction in progress, and neither create nor destroy
    the context. *)
Class Handlers : Prop := {
  handle_returns : forall func ctx st msg s e s', handle func ctx st msg s <> Raised e s';
  handle_blind : forall func ctx st msg, blind (handle func ctx st msg);
  handle_keeps : forall func ctx st msg s s', handle func ctx st msg s = Returned tt s' -> s_context s' = s_context s
}.

(** A handler that only changes the world, as a function that counts or prints
    the errors does. *)
Definition changes_world (f : W -> W) : C (api W) unit := fun s =>
  let g := ps_context (a_store s) in
  Returned tt (set_a_store (set_context (set_world (f (g_world g)) g) (a_store s)) (s_context s) s).

Lemma world_handlers (f : Z -> Z -> PDI_status_t -> string -> W -> W) :
  (forall func ctx st msg, handle func ctx st msg = changes_world (f func ctx st msg)) -> Handlers.
Proof.
  intros Hf. split; intros func ctx st msg; rewrite Hf; [done| |].
  - by intros t st' l s.
  - by intros s s' [= <-].
Qed.

Context {HD : Handlers}.

(** * Exceptions *)

(** No exception leaves. *)
Definition contains {A} (m : C (api W) A) : Prop := forall s e s', m s <> Raised e s'.

Lemma contains_return_err e : contains (return_err e).
Proof.
  intros s e' s'. unfold return_err, call_handler. destruct (handler _) as [| | |func ctx]; try done; [by destruct (is_error _)|].
  unfold mbind, C_bind. pose proof (handle_returns func ctx (caught_status e) (message e) (set_errmsg (message e) s)) as H.
  destruct (handle _ _ _ _ _) as [[]|e0 s0| |] eqn:Hh; try done. by destruct (H e0 s0).
Qed.

Lemma contains_checked body : contains (checked body).
Proof.
  intros s e s'. unfold checked, guarded. destruct (body s) as [|e0 s0| |]; try done. apply contains_return_err.
Qed.

(** * Transactions *)

Lemma blind_bind {A B} (m : C (api W) A) (k : A -> C (api W) B) : blind m -> (forall a, blind (k a)) -> blind (m ≫= k).
Proof. intros Hm Hk t st l s. unfold mbind, C_bind. rewrite Hm. destruct (m s); simpl; [apply Hk|done..]. Qed.

Lemma blind_in_ctx {A} (m : M (global W) A) : blind (in_ctx m).
Proof. intros t st l s. unfold in_ctx; simpl. by destruct (s_context s); [destruct (m _)|]. Qed.

Lemma blind_checked body : blind body -> blind (checked body).
Proof.
  intros Hb t st l s. unfold checked, guarded. rewrite Hb. destruct (body s); simpl; try done.
  unfold return_err, call_handler; simpl. destruct (handler _); try done; [by destruct (is_error _)|].
  unfold mbind, C_bind. change (set_errmsg ?m (set_transaction t st l ?s)) with (set_transaction t st l (set_errmsg m s)).
  rewrite handle_blind. by destruct (handle _ _ _ _ _).
Qed.

Lemma blind_call {A} (m : M (global W) A) : blind (checked (in_ctx m;; mret PDI_OK)).
Proof. apply blind_checked, blind_bind; [apply blind_in_ctx|]. by intros ? ? ? ? ?. Qed.

Lemma share_blind n d a : blind (PDI_share n d a).
Proof. apply blind_call. Qed.
Lemma event_blind n : blind (PDI_event n).
Proof. apply blind_call. Qed.
Lemma reclaim_blind n : blind (PDI_reclaim n).
Proof. apply blind_call. Qed.

(** A call keeps the context. *)
Lemma call_keeps_context {A} (m : M (global W) A) s st s' :
  s_context s = true -> checked (in_ctx m;; mret PDI_OK) s = Returned st s' -> s_context s' = true.
Proof.
  intros Hc. unfold checked, guarded, mbind, C_bind, in_ctx. rewrite Hc. destruct (m _); simpl; [by intros [= _ <-]| |done].
  unfold return_err, call_handler; simpl. destruct (handler s); try (by intros [= _ <-]); [by destruct (is_error _); [|intros [= _ <-]]|].
  unfold mbind, C_bind. destruct (handle _ _ _ _ _) as [[] sh| | |] eqn:Hh; try done. intros [= _ <-]. by rewrite (handle_keeps _ _ _ _ _ _ Hh).
Qed.

(** The calls of a transaction. *)
Fixpoint expose_all (items : list (string * Z * Z)) : C (api W) unit :=
  match items with [] => mret tt | (n, d, a) :: items => PDI_expose n d a;; expose_all items end.

Definition as_transaction (event_name : string) (items : list (string * Z * Z)) : C (api W) PDI_status_t :=
  PDI_transaction_begin event_name;; expose_all items;; PDI_transaction_end.

(** Exposing is sharing while a transaction is in progress. *)
Lemma expose_all_shares ev items : forall done s l s1, ev <> EmptyString -> s_context s = true ->
  share_rest items done s = Returned (PDI_OK, l) s1 ->
  expose_all items (set_transaction ev PDI_OK done s) = Returned tt (set_transaction ev PDI_OK l s1) /\ s_context s1 = true.
Proof.
  induction items as [|[[n d] a] items IH]; intros done s l s1 Hev Hc; simpl.
  { intros [= <- <-]. done. }
  unfold mbind at 1, C_bind at 1, context. rewrite Hc. unfold mbind at 1, C_bind at 1.
  destruct (PDI_share n d a s) as [st s2| | |] eqn:Hs; try done. destruct (is_error st) eqn:He; [by intros [= -> _ _]|].
  intros Hrest. destruct (IH (done ++ [n]) s2 l s1 Hev) as [IH1 IH2]; [by eapply call_keeps_context|done|]. split; [|done].
  rewrite <- IH1. unfold mbind at 1, C_bind at 1, PDI_expose, guarded. unfold mbind at 1, C_bind at 1.
  rewrite share_blind, Hs; simpl.
  rewrite He. unfold mbind at 1, C_bind at 1, state; simpl. by rewrite bool_decide_eq_false_2 by done.
Qed.

(** Two ends alike: the transaction variables are reset in the first one. *)
Inductive same_end : called (api W) PDI_status_t -> called (api W) PDI_status_t -> Prop :=
  | same_returned st s : same_end (Returned st (set_transaction "" st [] s)) (Returned st s)
  | same_exited c s s' : same_end (Exited c s) (Exited c s')
  | same_undefined : same_end Undefined Undefined.

Lemma end_reclaims_step ev l n names st s :
  end_reclaims (n :: names) (set_transaction ev st l s) =
  match PDI_reclaim n s with
  | Returned r s' => end_reclaims names (set_transaction ev (first_error st r) l s')
  | Raised e s' => Raised e (set_transaction ev st l s')
  | Exited c s' => Exited c (set_transaction ev st l s')
  | Undefined => Undefined
  end.
Proof. simpl. unfold mbind at 1, C_bind at 1. rewrite reclaim_blind. by destruct (PDI_reclaim n s). Qed.

(** The reclaims of a transaction are those of a [PDI_multi_expose]. *)
Lemma end_reclaims_all ev l names : forall st s, s_context s = true ->
  match reclaim_all names st s with
  | Returned st' s' => end_reclaims names (set_transaction ev st l s) = Returned tt (set_transaction ev st' l s')
  | Raised _ _ => False
  | Exited c _ => exists s', end_reclaims names (set_transaction ev st l s) = Exited c s'
  | Undefined => end_reclaims names (set_transaction ev st l s) = Undefined
  end.
Proof.
  induction names as [|n names IH]; intros st s Hc; [done|]. rewrite end_reclaims_step. cbn [reclaim_all].
  unfold mbind at 1, C_bind at 1, context. rewrite Hc. unfold mbind at 1, C_bind at 1. pose proof (contains_checked _ s : forall e s', PDI_reclaim n s <> Raised e s') as Hraise.
  destruct (PDI_reclaim n s) as [r s'|e s'|c s'|] eqn:Hr; try done; [|by destruct (Hraise e s')|by eexists].
  apply (IH (first_error st r) s'). by eapply call_keeps_context.
Qed.

Lemma transaction_begin_runs ev s :
  g_transaction s = EmptyString -> PDI_transaction_begin ev s = Returned PDI_OK (set_transaction ev PDI_OK (g_transaction_data s) s).
Proof. intros Ht. unfold PDI_transaction_begin, checked, guarded, mbind, C_bind, state. rewrite Ht. by rewrite bool_decide_eq_true_2. Qed.

(** The event and the reclaims that end a transaction whose data is all shared. *)
Lemma transaction_end_runs ev l s : ev <> EmptyString -> s_context s = true ->
  same_end (PDI_transaction_end (set_transaction ev PDI_OK l s))
    ((status ← (context;; PDI_event ev); reclaim_all (reverse l) status) s).
Proof.
  intros Hev Hc. unfold PDI_transaction_end, guarded. unfold mbind at 1, C_bind at 1, state at 1. cbn [g_transaction set_transaction].
  rewrite bool_decide_eq_false_2 by done. cbn -[PDI_event end_reclaims reclaim_all]. unfold mbind, C_bind, context. change (is_error PDI_OK) with false. cbv iota beta. rewrite Hc, event_blind.
  pose proof (contains_checked _ s : forall e s', PDI_event ev s <> Raised e s') as Hraise. destruct (PDI_event ev s) as [st s2|e s2|c s2|] eqn:He; [|by destruct (Hraise e s2)|constructor..].
  pose proof (end_reclaims_all ev l (reverse l) st s2 (call_keeps_context _ _ _ _ Hc He)) as Hr.
  destruct (reclaim_all (reverse l) st s2) as [st' s'|e s'|c s'|]; [|done|destruct Hr as [s'' Hr]|];
    unfold set_status, update_state, state, set_transaction in *; cbn -[end_reclaims reclaim_all reverse]; rewrite Hr.
  - apply (same_returned st' s').
  - constructor.
  - constructor.
Qed.

(** C8: a transaction is a [PDI_multi_expose] cut into calls: when the data can be
    shared, beginning a transaction, exposing the data and ending it has the same
    effect and the same status as exposing it all at once, whatever the event and
    the reclaims do, with any handler that returns or exits and leaves the
    transaction and the existence of the context alone; no transaction is in
    progress afterwards. *)
Theorem transaction_is_multi_expose ev name data access items s l s1 :
  ev <> EmptyString -> s_context s = true -> g_transaction s = EmptyString -> g_transaction_data s = [] ->
  share_rest ((name, data, access) :: items) [] s = Returned (PDI_OK, l) s1 ->
  same_end (as_transaction ev ((name, data, access) :: items) s) (PDI_multi_expose ev name data access items s).
Proof.
  intros Hev Hc Ht Hd Hshare.
  destruct (expose_all_shares ev _ [] s l s1 Hev Hc Hshare) as [Hexp Hc1].
  assert (Hmulti : PDI_multi_expose ev name data access items s = checked (status ← (context;; PDI_event ev); reclaim_all (reverse l) status) s1).
  { cbn [share_rest] in Hshare. unfold mbind at 1, C_bind at 1, context at 1 in Hshare. rewrite Hc in Hshare.
    unfold mbind at 1, C_bind at 1 in Hshare. unfold PDI_multi_expose, checked, guarded. unfold mbind at 1, C_bind at 1.
    destruct (PDI_share name data access s) as [st s2| | |]; try done. destruct (is_error st) eqn:He; [by injection Hshare as -> _|].
    change ([] ++ [name]) with [name] in Hshare. unfold mbind at 1, C_bind at 1. by rewrite Hshare. }
  pose proof (transaction_end_runs ev l s1 Hev Hc1) as Hend. rewrite Hmulti. unfold checked, guarded.
  replace (as_transaction ev ((name, data, access) :: items) s) with (PDI_transaction_end (set_transaction ev PDI_OK l s1)).
  - destruct ((status ← (context;; PDI_event ev); reclaim_all (reverse l) status) s1); [exact Hend|inversion Hend|exact Hend..].
  - unfold as_transaction, mbind, C_bind. by rewrite (transaction_begin_runs ev s Ht), Hd, Hexp.
Qed.

End facts.
