(* ===== verification/ExposeFacts.v ===== *)
(** Data exposed together comes back: [PDI_multi_expose] pushes a holder of each
    piece of data, triggers the event and pops the holders, so that the stacks are
    as before, when the plugins only observe. *)

From S2P Require Import Prelude Error Effect ExprSyntax Datatype Layout Memory DenseCopy Access Ref RefInv RefOps RefTheorems RefCopy Numeric Parse Yaml Template GlobalContext Eval Includes StringTools PluginStore Init ContextInv DescriptorInv EvalInv Share ShareFacts Api ApiFacts.

Section pile.
  Context {W : Type} {P : Platform W} {OB : Observers W}.

Implicit Types g : global W.

(** Data on a stack: the name, the holder, and what the holder is linked to. *)
Record shared := mkShared { sh_name : string; sh_holder : nat; sh_data : nat; sh_content : Referenced_data }.

Definition push_holder (x : shared) (ds : gmap string Descriptor) : gmap string Descriptor :=
  alter (fun d => mkDescriptor (m_type d) (m_metadata d) (sh_holder x :: m_refs d)) (sh_name x) ds.

(** The descriptors are those of [base] with the data of [xs] pushed, the last one first. *)
Record pile (base : gmap string Descriptor) (xs : list shared) g : Prop := {
  pile_inv : inv (g_store g);
  pile_descriptors : m_descriptors g = foldr push_holder base xs;
  pile_holders : NoDup (map sh_holder xs);
  pile_datas : NoDup (map sh_data xs);
  pile_links : forall x, x ∈ xs -> links g (sh_holder x) (sh_data x) (sh_content x) /\ data_address (sh_content x) <> nullptr;
  pile_names : forall x, x ∈ xs -> exists d, base !! sh_name x = Some d /\ m_metadata d = false
}.

Lemma push_lookup_eq x ds d :
  ds !! sh_name x = Some d -> push_holder x ds !! sh_name x = Some (mkDescriptor (m_type d) (m_metadata d) (sh_holder x :: m_refs d)).
Proof. intros Hd. unfold push_holder. by rewrite lookup_alter_eq, Hd. Qed.

Lemma push_lookup_ne x ds n : sh_name x <> n -> push_holder x ds !! n = ds !! n.
Proof. intros Hne. unfold push_holder. by rewrite lookup_alter_ne. Qed.

Lemma pushed_lookup base xs name d :
  base !! name = Some d -> exists rs, foldr push_holder base xs !! name = Some (mkDescriptor (m_type d) (m_metadata d) rs).
Proof.
  intros Hd. induction xs as [|x xs [rs IH]]; simpl; [exists (m_refs d); by destruct d|].
  destruct (decide (sh_name x = name)) as [<-|Hne].
  - exists (sh_holder x :: rs). by rewrite (push_lookup_eq _ _ _ IH).
  - exists rs. by rewrite push_lookup_ne.
Qed.

Lemma links_below g h dt dd : inv (g_store g) -> links g h dt dd -> (h < next (g_store g))%nat /\ (dt < next (g_store g))%nat.
Proof.
  intros [Hwf _] (x & Hx & _ & Hd). split; [apply (wf_next_refs _ Hwf)|apply (wf_next_datas _ Hwf)]; by eexists.
Qed.

(** ** What the library does to a pile *)

Lemma pile_calm base xs g g' : pile base xs g -> calm nothing g g' -> m_descriptors g' = m_descriptors g -> pile base xs g'.
Proof.
  intros [Hinv Hds Hh Hd Hl Hn] C Hds'. split; try done; [apply C|congruence|].
  intros x Hx. destruct (Hl x Hx) as [Hlx Hnn]. split; [|done]. eapply calm_links; [exact Hinv|exact C|tauto|done].
Qed.

Lemma pile_event base xs g name : pile base xs g -> exists g', notify_event name g = Done tt g' /\ pile base xs g'.
Proof.
  intros Hp. destruct (notify_runs g On_event "while triggering" name None (pile_inv _ _ _ Hp)) as (g' & Hrun & C & Hds); [done|].
  exists g'. split; [done|]. by eapply pile_calm.
Qed.

Lemma pile_push base xs g g' x :
  pile base xs g -> calm nothing g g' -> m_descriptors g' = push_holder x (m_descriptors g) ->
  links g' (sh_holder x) (sh_data x) (sh_content x) -> data_address (sh_content x) <> nullptr ->
  (next (g_store g) <= sh_holder x)%nat -> (next (g_store g) <= sh_data x)%nat ->
  (exists d, base !! sh_name x = Some d /\ m_metadata d = false) -> pile base (x :: xs) g'.
Proof.
  intros [Hinv Hds Hh Hd Hl Hn] C Hds' Hlx Hnn Hfh Hfd Hnx.
  assert (Hbelow : forall y, y ∈ xs -> (sh_holder y < next (g_store g))%nat /\ (sh_data y < next (g_store g))%nat).
  { intros y Hy. destruct (Hl y Hy) as [Hly _]. by eapply links_below. }
  split; simpl; [apply C|by rewrite Hds', Hds|constructor; [|done]|constructor; [|done]| |].
  - intros (y & Heq & Hy)%list_elem_of_fmap. specialize (Hbelow y Hy). lia.
  - intros (y & Heq & Hy)%list_elem_of_fmap. specialize (Hbelow y Hy). lia.
  - intros y [-> |Hy]%elem_of_cons; [done|]. destruct (Hl y Hy). split; [|done]. eapply calm_links; [exact Hinv|exact C|tauto|done].
  - intros y [-> |Hy]%elem_of_cons; auto.
Qed.

Lemma pile_reclaim base x xs g :
  pile base (x :: xs) g -> exists a g', reclaim (sh_name x) g = Done a g' /\ pile base xs g'.
Proof.
  intros [Hinv Hds Hh Hd Hl Hn]. simpl in Hds. apply list.NoDup_cons in Hh as [Hxh Hh]. apply list.NoDup_cons in Hd as [Hxd Hd].
  destruct (Hn x (list_elem_of_here _ _)) as (d & Hbase & Hm). destruct (Hl x (list_elem_of_here _ _)) as [Hlx Hnn].
  destruct (pushed_lookup base xs (sh_name x) d Hbase) as [rs Hrs].
  set (d1 := mkDescriptor (m_type d) (m_metadata d) (sh_holder x :: rs)).
  assert (Hd1 : m_descriptors g !! sh_name x = Some d1) by (by rewrite Hds, (push_lookup_eq _ _ _ Hrs)).
  destruct (reclaim_runs g (sh_name x) d1 (sh_holder x) rs (sh_data x) (sh_content x)) as (g' & Hrun & Hds' & _ & Hinv' & Hkeep); try done.
  exists (data_address (sh_content x)), g'. split; [done|]. split; try done.
  - rewrite Hds', Hds. apply map_eq. intros n. destruct (decide (sh_name x = n)) as [<-|Hne].
    + rewrite lookup_insert_eq, Hrs. by rewrite <- Hm.
    + by rewrite lookup_insert_ne, push_lookup_ne.
  - intros y Hy. destruct (Hl y (list_elem_of_further _ _ _ Hy)) as [Hly Hny]. split; [|done]. apply (keeps_links_links _ _ _ _ _ _ _ Hkeep); [| |done].
    + intros Heq. apply Hxh. rewrite <- Heq. by apply list_elem_of_fmap_2.
    + intros Heq. apply Hxd. rewrite <- Heq. by apply list_elem_of_fmap_2.
  - intros y Hy. apply Hn. by apply list_elem_of_further.
Qed.

End pile.

Section expose.
  Context {W : Type} {RT : Runtime W} {OB : Observers W} {PR : Program W}.

Implicit Types (g : global W) (s : api W).

(** The context, and the rest of the state that a successful call keeps. *)
Definition ctx_of s : global W := ps_context (a_store s).

Definition keeps s s' : Prop := s_context s' = true /\ errmsg s' = errmsg s /\ handler s' = handler s /\ g_transaction s' = g_transaction s.

Lemma keeps_trans s1 s2 s3 : keeps s1 s2 -> keeps s2 s3 -> keeps s1 s3.
Proof. unfold keeps. intros (? & ? & ? & ?) (? & ? & ? & ?). split_and!; congruence. Qed.

(** A call whose operation succeeds. *)
Lemma call_succeeds {A} (m : M (global W) A) s a g' :
  s_context s = true -> m (ctx_of s) = Done a g' ->
  exists s', checked (in_ctx m;; mret PDI_OK) s = Returned PDI_OK s' /\ ctx_of s' = g' /\ keeps s s'.
Proof. intros Hc Hm. unfold checked, guarded, mbind, C_bind, in_ctx. rewrite Hc. unfold ctx_of in Hm. rewrite Hm. by eexists. Qed.

Lemma desc_known g n d {A} (m : M (global W) A) : m_descriptors g !! n = Some d -> (desc n;; m) g = m g.
Proof. intros Hd. unfold mbind, M_bind, desc. by rewrite Hd. Qed.

(** Data that can be exposed: its address is not null, its descriptor is not a
    metadata and its type can be evaluated when its turn comes, after the data
    that precedes it is shared; then [K] holds. *)
Fixpoint exposable (items : list (string * Z * Z)) (K : api W -> Prop) s : Prop :=
  match items with
  | [] => K s
  | (n, p, a) :: items =>
      p <> nullptr /\
      (exists d t, m_descriptors (ctx_of s) !! n = Some d /\ m_metadata d = false /\ evaluates_to (ctx_of s) (m_type d) t) /\
      forall s', PDI_share n p a s = Returned PDI_OK s' -> exposable items K s'
  end.

Lemma pushed_base base xs name d :
  foldr push_holder base xs !! name = Some d ->
  exists d', base !! name = Some d' /\ m_type d' = m_type d /\ m_metadata d' = m_metadata d.
Proof.
  revert d. induction xs as [|x xs IH]; simpl; intros d Hd; [by exists d|].
  unfold push_holder in Hd. destruct (decide (sh_name x = name)) as [<-|Hne].
  - rewrite lookup_alter_eq in Hd. apply fmap_Some in Hd as (d0 & Hd0 & ->). by destruct (IH d0 Hd0) as (d' & ? & ? & ?); exists d'.
  - rewrite lookup_alter_ne in Hd by done. by apply IH.
Qed.

Lemma pile_share base xs n p a s :
  s_context s = true -> pile base xs (ctx_of s) -> p <> nullptr ->
  (exists d t, m_descriptors (ctx_of s) !! n = Some d /\ m_metadata d = false /\ evaluates_to (ctx_of s) (m_type d) t) ->
  exists x s', PDI_share n p a s = Returned PDI_OK s' /\ sh_name x = n /\ pile base (x :: xs) (ctx_of s') /\ keeps s s'.
Proof.
  intros Hc Hp Hnn (d & t & Hrs & Hm & Hev). pose proof Hrs as Hbase. rewrite (pile_descriptors _ _ _ Hp) in Hbase.
  destruct (pushed_base base xs n d Hbase) as (d0 & Hd0 & _ & Hm0).
  destruct (share_data_runs (ctx_of s) n d t p (has a PDI_OUT) (has a PDI_IN) (pile_inv _ _ _ Hp) Hrs)
    as (g' & h & dt & b & Hrun & C & Hds & Hl & Hfh & Hfd); try done.
  set (x := mkShared n h dt (mkData b p t)).
  destruct (call_succeeds (desc n;; share_data n p (has a PDI_OUT) (has a PDI_IN)) s tt g' Hc) as (s' & Hs' & <- & Hk).
  { by erewrite desc_known. }
  exists x, s'. split_and!; [done|done| |done]. apply (pile_push base xs (ctx_of s)); try done; [|exists d0; split; [done|congruence]].
  rewrite Hds. apply map_eq. intros n'. destruct (decide (n = n')) as [<-|Hne].
  - rewrite lookup_insert_eq. symmetry. rewrite <- Hm. exact (push_lookup_eq x _ _ Hrs).
  - by rewrite lookup_insert_ne, push_lookup_ne.
Qed.

Lemma pile_share_rest base items K : forall xs names s,
  s_context s = true -> pile base xs (ctx_of s) -> map sh_name xs = reverse names -> exposable items K s ->
  exists ys l s', share_rest items names s = Returned (PDI_OK, l) s' /\ pile base ys (ctx_of s') /\ map sh_name ys = reverse l /\ keeps s s' /\ K s'.
Proof.
  induction items as [|[[n p] a] items IH]; intros xs names s Hc Hp Hnames Hall; simpl.
  { exists xs, names, s. by split_and!. }
  destruct Hall as (Hnn & Hitem & Hall).
  destruct (pile_share base xs n p a s Hc Hp Hnn Hitem) as (x & s1 & Hrun & Hx & Hp1 & Hk1).
  destruct (IH (x :: xs) (names ++ [n]) s1) as (ys & l & s2 & Hrun2 & Hp2 & Hl & Hk2 & HK); [apply Hk1|done| |by apply Hall|].
  { simpl. by rewrite Hx, Hnames, reverse_snoc. }
  exists ys, l, s2. split_and!; [|done|done|by eapply keeps_trans|done].
  unfold mbind at 1, C_bind at 1, context. rewrite Hc. unfold mbind at 1, C_bind at 1. by rewrite Hrun.
Qed.

Lemma share_rest_app more items : forall names s l s',
  share_rest items names s = Returned (PDI_OK, l) s' -> share_rest (items ++ more) names s = share_rest more l s'.
Proof.
  induction items as [|[[n p] a] items IH]; intros names s l s'; simpl; [by intros [= <- <-]|].
  unfold mbind at 1 3, C_bind at 1 3. destruct (context s); try done. unfold mbind at 1 2, C_bind at 1 2.
  destruct (PDI_share _ _ _ _) as [st s1| | |]; try done. destruct (is_error st) eqn:He; [by intros [= -> _ _]|]. apply IH.
Qed.

(** The reclaims return the first error. *)
Lemma pile_reclaim_all base xs st : is_error st = true \/ st = PDI_OK -> forall s,
  s_context s = true -> pile base xs (ctx_of s) ->
  exists s', reclaim_all (map sh_name xs) st s = Returned st s' /\ pile base [] (ctx_of s') /\ keeps s s'.
Proof.
  intros Hst. induction xs as [|x xs IH]; intros s Hc Hp; simpl.
  { exists s. by split_and!. }
  destruct (pile_reclaim base x xs (ctx_of s) Hp) as (a & g' & Hrun & Hp').
  destruct (pile_names _ _ _ Hp x (list_elem_of_here _ _)) as (d & Hbase & _).
  destruct (pushed_lookup base (x :: xs) (sh_name x) d Hbase) as [rs Hrs]. rewrite <- (pile_descriptors _ _ _ Hp) in Hrs.
  destruct (call_succeeds (desc (sh_name x);; reclaim (sh_name x)) s a g' Hc) as (s1 & Hs1 & <- & Hk1).
  { by erewrite desc_known. }
  destruct (IH s1) as (s2 & Hrun2 & Hp2 & Hk2); [apply Hk1|done|].
  exists s2. split_and!; [|done|by eapply keeps_trans].
  unfold mbind at 1, C_bind at 1, context. rewrite Hc. unfold mbind at 1, C_bind at 1. unfold PDI_reclaim. rewrite Hs1.
  replace (first_error st PDI_OK) with st; [done|]. unfold first_error. by destruct Hst as [-> | ->].
Qed.

Lemma pile_nothing s : ctx_reachable (ctx_of s) -> pile (m_descriptors (ctx_of s)) [] (ctx_of s).
Proof.
  intros Hreach. split; simpl; try done; [apply (ok_store _ _ (ctx_reachable_ok _ Hreach))|constructor..| |]; by intros x Hx%not_elem_of_nil.
Qed.

(** C7: data exposed together comes back, when the plugins only observe: if no
    address is null, none of the names is a metadata and the type of each piece of
    data, [$] references included, can be evaluated when its turn comes,
    [PDI_multi_expose] succeeds, every stack of the context is as it was before
    the call, the references are consistent, and neither the error message nor a
    transaction in progress changes. *)
Theorem multi_expose_round_trip ev name data access items s :
  s_context s = true -> ctx_reachable (ctx_of s) ->
  exposable ((name, data, access) :: items) (fun _ => True) s ->
  exists s', PDI_multi_expose ev name data access items s = Returned PDI_OK s' /\
    m_descriptors (ctx_of s') = m_descriptors (ctx_of s) /\ inv (g_store (ctx_of s')) /\
    s_context s' = true /\ errmsg s' = errmsg s /\ g_transaction s' = g_transaction s.
Proof.
  intros Hc Hreach (Hnn & Hitem & Hall). set (base := m_descriptors (ctx_of s)) in *. pose proof (pile_nothing s Hreach) as Hp.
  destruct (pile_share base [] name data access s Hc Hp Hnn Hitem) as (x & s1 & Hrun1 & Hx & Hp1 & Hk1).
  destruct (pile_share_rest base items (fun _ => True) [x] [name] s1) as (ys & l & s2 & Hrun2 & Hp2 & Hl & Hk2 & _); [apply Hk1|done|by simpl; rewrite Hx|by apply Hall|].
  destruct (pile_event base ys (ctx_of s2) ev Hp2) as (g3 & Hev & Hp3).
  assert (Hc2 : s_context s2 = true) by apply Hk2.
  destruct (call_succeeds (notify_event ev) s2 tt g3 Hc2 Hev) as (s3 & Hrun3 & <- & Hk3).
  destruct (pile_reclaim_all base ys PDI_OK ltac:(by right) s3) as (s4 & Hrun4 & Hp4 & Hk4); [apply Hk3|done|].
  destruct (keeps_trans _ _ _ (keeps_trans _ _ _ Hk1 Hk2) (keeps_trans _ _ _ Hk3 Hk4)) as (Hc4 & He4 & _ & Ht4).
  exists s4. split_and!; try done; [|apply Hp4..].
  unfold PDI_multi_expose, checked, guarded. unfold mbind at 1, C_bind at 1. rewrite Hrun1.
  change (is_error PDI_OK) with false. cbv iota. unfold mbind at 1, C_bind at 1. rewrite Hrun2.
  change (is_error PDI_OK) with false. cbv iota. unfold mbind, C_bind, context. rewrite Hc2. unfold PDI_event. fold (ctx_of s2).
  rewrite Hrun3, <- Hl, Hrun4. done.
Qed.

(** ** Data that can not be shared *)

(** The call fails with [st] and leaves the stacks and the references as they
    were. *)
Definition share_fails n p a (st : PDI_status_t) s : Prop :=
  exists s', PDI_share n p a s = Returned st s' /\ is_error st = true /\ calm nothing (ctx_of s) (ctx_of s') /\
    m_descriptors (ctx_of s') = m_descriptors (ctx_of s) /\ s_context s' = true /\ g_transaction s' = g_transaction s.

(** So does sharing a null address for data that has bytes, unless the handler
    exits. *)
Lemma null_share_fails n a d t s :
  s_context s = true -> handler s = PDI_NULL_HANDLER \/ handler s = PDI_WARN_HANDLER ->
  inv (g_store (ctx_of s)) -> m_descriptors (ctx_of s) !! n = Some d -> m_metadata d = false -> evaluates_to (ctx_of s) (m_type d) t ->
  datasize t <> 0 -> has a PDI_OUT || has a PDI_IN = true -> share_fails n nullptr a PDI_ERR_TYPE s.
Proof.
  intros Hc Hh Hinv Hd Hm (g1 & Hev & C1 & D1) Hsz Ha.
  set (e := rethrow_with_simple_context (Type_error "Referencing null data with non-null size") ("Unable to share `" +:+ n +:+ "', ")).
  assert (Hrun : (desc n;; share_data n nullptr (has a PDI_OUT) (has a PDI_IN)) (ctx_of s) = Thrown e g1).
  { rewrite (desc_known _ _ _ _ Hd). unfold share_data, in_context, catch at 1. unfold mbind at 1, M_bind at 1.
    rewrite (assert_runs (ctx_of s) n d) by auto. unfold mbind at 1, M_bind at 1, get_desc at 1. rewrite Hd.
    unfold mbind at 1, M_bind at 1. rewrite Hev. unfold mbind at 1, M_bind at 1. unfold with_ref, mbind, M_bind, on_store, zoom, new_ref.
    destruct (Z.eqb_spec (datasize t) 0) as [|_]; [done|]. by rewrite Ha. }
  eexists. unfold PDI_share, checked, guarded. unfold mbind at 1, C_bind at 1, in_ctx. rewrite Hc. unfold ctx_of in Hrun. rewrite Hrun.
  unfold return_err, call_handler. cbn [set_errmsg handler set_a_store]. destruct Hh as [-> | ->]; (split; [reflexivity|]); by split_and!.
Qed.

(** C9: when pieces of data can be shared and then one can not, its [PDI_share]
    returning an error with the stacks and the references as they were (as for a null
    address), what [PDI_multi_expose] has done is undone, with plugins that only
    observe: the data before it, at addresses that are not null and under names that are no
    metadata, is reclaimed, so
    that every stack is as it was, the references are consistent and a transaction
    in progress is the same; the call returns the status of the failure, the
    data after it is not looked at, and the event is not triggered (whatever its
    name, the call does the same). *)
Theorem failed_multi_expose_is_undone ev name data access items n p a st rest s :
  s_context s = true -> ctx_reachable (ctx_of s) ->
  exposable ((name, data, access) :: items) (share_fails n p a st) s ->
  exists s', (forall ev', PDI_multi_expose ev' name data access (items ++ (n, p, a) :: rest) s
                          = PDI_multi_expose ev name data access (items ++ [(n, p, a)]) s) /\
    PDI_multi_expose ev name data access (items ++ [(n, p, a)]) s = Returned st s' /\
    m_descriptors (ctx_of s') = m_descriptors (ctx_of s) /\ inv (g_store (ctx_of s')) /\
    s_context s' = true /\ g_transaction s' = g_transaction s.
Proof.
  intros Hc Hreach (Hnn & Hitem & Hall). set (base := m_descriptors (ctx_of s)) in *. pose proof (pile_nothing s Hreach) as Hp.
  destruct (pile_share base [] name data access s Hc Hp Hnn Hitem) as (x & s1 & Hrun1 & Hx & Hp1 & Hk1).
  destruct (pile_share_rest base items (share_fails n p a st) [x] [name] s1)
    as (ys & l & s2 & Hrun2 & Hp2 & Hl & Hk2 & s3 & Hfail & Hst & C3 & D3 & Hc3 & Ht3); [apply Hk1|done|by simpl; rewrite Hx|by apply Hall|].
  pose proof (pile_calm base ys _ _ Hp2 C3 D3) as Hp3. assert (Hc2 : s_context s2 = true) by apply Hk2.
  destruct (pile_reclaim_all base ys st (or_introl Hst) s3 Hc3 Hp3) as (s4 & Hrun4 & Hp4 & Hc4 & _ & _ & Ht4).
  destruct (keeps_trans _ _ _ Hk1 Hk2) as (_ & _ & _ & Ht12).
  assert (Hrun : forall ev' rest', PDI_multi_expose ev' name data access (items ++ (n, p, a) :: rest') s = Returned st s4).
  { intros ev' rest'. unfold PDI_multi_expose, checked, guarded. unfold mbind at 1, C_bind at 1. rewrite Hrun1.
    change (is_error PDI_OK) with false. cbv iota. unfold mbind at 1, C_bind at 1. rewrite (share_rest_app _ _ _ _ _ _ Hrun2). cbn [share_rest].
    unfold mbind at 1, C_bind at 1, context at 1. rewrite Hc2. unfold mbind at 1, C_bind at 1. rewrite Hfail, Hst.
    unfold mret at 1, C_ret at 1. rewrite Hst. unfold mbind, C_bind, mret, C_ret. by rewrite <- Hl, Hrun4. }
  exists s4. split_and!; [intros ev'; by rewrite !Hrun|by rewrite Hrun|apply Hp4|apply Hp4|done|congruence].
Qed.

End expose.

(** * Witnesses *)

#[local] Existing Instance quiet_runtime.
#[local] Existing Instance quiet_observers.
#[local] Instance no_program : Program unit := {| handle := fun _ _ _ _ => mret tt; unload_plugins := mret tt |}.
#[local] Instance no_handlers : Handlers.
Proof. split; [done..|]. by intros ? ? ? ? s s' [= <-]. Qed.

(** An [int] [n], which is 3 in the memory of the program, and an array [m] of [$n] integers. *)
Definition sized_array : Template :=
  Array_template [] int_template (Reference_expression "n" [] "") (Int_literal 0) (Reference_expression "n" [] "").
Definition sized_g0 : global unit := set_mem (bytes_at 4096 [3; 0; 0; 0]) empty_global.
Definition sized_g1 : global unit := state_after (run_op (Op_default_type "n" int_template) sized_g0).
Definition sized_g2 : global unit := state_after (run_op (Op_default_type "m" sized_array) sized_g1).

Lemma sized_g2_reachable : ctx_reachable sized_g2.
Proof.
  exists sized_g0. split; [done|].
  eapply rtc_l; [eapply (step_returns _ (Op_default_type "n" int_template) nullptr sized_g1); by vm_compute|].
  eapply rtc_l; [eapply (step_returns _ (Op_default_type "m" sized_array) nullptr sized_g2); by vm_compute|]. apply rtc_refl.
Defined.

Definition demo_api : api unit := mkApi (mkPlugins [] [] [] sized_g2) true PDI_NULL_HANDLER "" "" PDI_OK [].

(** [n] is shared: [m] has three elements. *)
Definition after_call {A} (o : called (api unit) A) : api unit :=
  match o with Returned _ s | Raised _ s | Exited _ s => s | Undefined => demo_api end.
Definition n_shared : api unit := after_call (PDI_share "n" 4096 3 demo_api).
Definition three_ints : Datatype := Array_datatype [] demo_type 3 0 3.

Lemma n_shared_ok : PDI_share "n" 4096 3 demo_api = Returned PDI_OK n_shared.
Proof. by vm_compute. Qed.

Lemma n_shared_reachable : ctx_reachable (ctx_of n_shared).
Proof.
  destruct sized_g2_reachable as (g0 & Hi & Hs). exists g0. split; [exact Hi|]. eapply rtc_r; [exact Hs|].
  eapply (step_returns _ (Op_share "n" 4096 true true) nullptr). by vm_compute.
Qed.

Lemma n_evaluates : evaluates_to sized_g2 int_template demo_type.
Proof. apply evaluates_pure; [apply (ok_store _ _ (ctx_reachable_ok _ sized_g2_reachable))|by vm_compute]. Qed.

Lemma m_evaluates : evaluates_to (ctx_of n_shared) sized_array three_ints.
Proof.
  apply (evaluates_here _ _ _ (state_after (evaluate_in_context sized_array (ctx_of n_shared)))); [exact (ctx_reachable_ok _ n_shared_reachable)| | | | | | |].
  all: vm_compute; first [reflexivity|lia].
Qed.

Lemma returned_same {S A} (a a' : A) (s s' : S) : Returned a s = Returned a' s' -> s' = s.
Proof. by intros [= _ <-]. Qed.

(** [n] and what can be done after it. *)
Lemma n_then K items : exposable items K n_shared -> exposable (("n", 4096, 3) :: items) K demo_api.
Proof.
  intros H. split; [done|]. split.
  - exists (mkDescriptor int_template false []), demo_type. split; [by vm_compute|]. split; [done|]. unfold ctx_of, demo_api. cbn [a_store ps_context m_type]. exact n_evaluates.
  - intros s' Hs'. rewrite n_shared_ok in Hs'. rewrite (returned_same _ _ _ _ Hs'). exact H.
Qed.

Lemma multi_expose_round_trip_witness :
  exists s', PDI_multi_expose "ev" "n" 4096 3 [("m", 8192, 1)] demo_api = Returned PDI_OK s' /\
    m_descriptors (ctx_of s') = m_descriptors sized_g2 /\ inv (g_store (ctx_of s')) /\
    s_context s' = true /\ errmsg s' = "" /\ g_transaction s' = "".
Proof.
  apply (multi_expose_round_trip "ev" "n" 4096 3 [("m", 8192, 1)] demo_api); [done|exact sized_g2_reachable|].
  apply n_then. split; [done|]. split; [|done].
  exists (mkDescriptor sized_array false []), three_ints. split; [by vm_compute|]. split; [done|]. cbn [m_type]. exact m_evaluates.
Defined.

Lemma failed_multi_expose_is_undone_witness :
  exists s', (forall ev', PDI_multi_expose ev' "n" 4096 3 ([] ++ [("m", nullptr, 1); ("n", 8192, 1)]) demo_api
                          = PDI_multi_expose "ev" "n" 4096 3 ([] ++ [("m", nullptr, 1)]) demo_api) /\
    PDI_multi_expose "ev" "n" 4096 3 ([] ++ [("m", nullptr, 1)]) demo_api = Returned PDI_ERR_TYPE s' /\
    m_descriptors (ctx_of s') = m_descriptors sized_g2 /\ inv (g_store (ctx_of s')) /\
    s_context s' = true /\ g_transaction s' = "".
Proof.
  apply (failed_multi_expose_is_undone "ev" "n" 4096 3 [] "m" nullptr 1 PDI_ERR_TYPE [("n", 8192, 1)] demo_api); [done|exact sized_g2_reachable|].
  apply n_then. cbn [exposable]. apply (null_share_fails "m" 1 (mkDescriptor sized_array false []) three_ints n_shared).
  - vm_compute. reflexivity.
  - left. vm_compute. reflexivity.
  - exact (ok_store _ _ (ctx_reachable_ok _ n_shared_reachable)).
  - vm_compute. reflexivity.
  - reflexivity.
  - cbn [m_type]. exact m_evaluates.
  - vm_compute. discriminate.
  - reflexivity.
Defined.

Definition demo_shared : api unit := after_call (share_rest [("n", 4096, 3); ("m", 8192, 1)] [] demo_api).

Lemma transaction_is_multi_expose_witness :
  same_end (as_transaction "ev" [("n", 4096, 3); ("m", 8192, 1)] demo_api) (PDI_multi_expose "ev" "n" 4096 3 [("m", 8192, 1)] demo_api).
Proof.
  apply (transaction_is_multi_expose "ev" "n" 4096 3 [("m", 8192, 1)] demo_api ["n"; "m"] demo_shared); [done|done|done|done|by vm_compute].
Defined.
