(* ===== verification/Serialize.v ===== *)
(** The Serialize plugin.

    Models [plugins/serialize/serialize.cxx]: the type of serialized data, the
    copies to and from it, which follow pointers, and the callbacks that share a
    serialized copy next to the data and bring it back.  A type of another class
    than the five of the library does not exist here. *)

From S2P Require Import Prelude Error Effect ExprSyntax Datatype Layout Memory DenseCopy DenseCopyFacts Access Ref RefInv RefOps RefTheorems RefCopy Numeric Parse Yaml Template GlobalContext Eval.

(** * The serialized type *)

(** The loop over the members of a record or the elements of a tuple: the result
    is the serialized components, the offset, the alignment and the buffer size. *)
Definition serialize_components {M N} (conv : M -> outcome Datatype) (mk : M -> Z -> Datatype -> N) :
    list M -> Z -> Z -> Z -> outcome (list N * Z * Z * Z) :=
  fix go ms offset align serialized_buffersize :=
    match ms with
    | [] => Ret ([], offset, align, serialized_buffersize)
    | m :: ms =>
        serialized_type ← conv m;
        spacing ← padding (alignment serialized_type) offset;
        let offset := offset +s spacing in
        let serialized_buffersize := serialized_buffersize +s spacing in
        '(ns, offset', align', buffersize') ←
          go ms (offset +s buffersize serialized_type) (Z.max align (alignment serialized_type))
             (serialized_buffersize +s buffersize serialized_type);
        Ret (mk m offset serialized_type :: ns, offset', align', buffersize')
    end.

Definition serialize_record (rec : Datatype -> outcome Datatype) (a : Attributes_map) (members : list (Member Datatype)) : outcome Datatype :=
  '(ms, offset, align, b) ← serialize_components (fun m => rec (member_type m)) set_member members 0 0 0;
  spacing ← padding align offset;
  Ret (Record_datatype a ms (b +s spacing)).

Definition serialize_tuple (rec : Datatype -> outcome Datatype) (a : Attributes_map) (elements : list (Element Datatype)) : outcome Datatype :=
  '(es, offset, align, b) ← serialize_components (fun e => rec (element_type e)) set_element elements 0 0 0;
  spacing ← padding align offset;
  Ret (Tuple_datatype a es (b +s spacing)).

Arguments serialize_record rec a members /.
Arguments serialize_tuple rec a elements /.

(** [serialize_type]: arrays lose what is outside their window, pointers are
    replaced by what they point to. *)
Fixpoint serialize_type (t : Datatype) : outcome Datatype :=
  match t with
  | Scalar_datatype _ _ _ _ _ _ _ => Ret t
  | Array_datatype a sub _ _ subsize => sub' ← serialize_type sub; Ret (make_array sub' subsize a)
  | Record_datatype a members _ => serialize_record serialize_type a members
  | Pointer_datatype _ sub _ _ => serialize_type sub
  | Tuple_datatype a elements _ => serialize_tuple serialize_type a elements
  end.

(** The members or elements of a serialized record or tuple; another class would
    be a null pointer. *)
Definition members_of (t : Datatype) : outcome (list (Member Datatype)) :=
  match t with Record_datatype _ ms _ => Ret ms | _ => Crash end.
Definition elements_of (t : Datatype) : outcome (list (Element Datatype)) :=
  match t with Tuple_datatype _ es _ => Ret es | _ => Crash end.

(** * The copies

    Each returns the number of bytes copied. *)

Abbreviation copier := (Datatype -> mem -> Z -> Z -> outcome (mem * Z)).

Definition serialize_elements (bs : Z) (copy : mem -> Z -> Z -> outcome (mem * Z)) : nat -> Z -> mem -> Z -> Z -> outcome (mem * Z) :=
  fix loop n all_bytes_copied m to from :=
    match n with
    | O => Ret (m, all_bytes_copied)
    | S n => '(m, bytes_copied) ← copy m to from; loop n (all_bytes_copied +s bytes_copied) m (to + bytes_copied) (from + bs)
    end.

(** The components of a record or tuple: component [i] goes to the place of
    component [i] of the serialized type. *)
Definition serialize_parts {M} (offset : M -> Z) (copy : M -> mem -> Z -> Z -> outcome (mem * Z)) (original_to from : Z) :
    list M -> list M -> Z -> mem -> outcome (mem * Z) :=
  fix loop ms ms' all_bytes_copied m :=
    match ms, ms' with
    | [], _ => Ret (m, all_bytes_copied)
    | _ :: _, [] => Crash
    | mb :: ms, mb' :: ms' =>
        '(m, bytes_copied) ← copy mb m (original_to + offset mb') (from + offset mb);
        loop ms ms' (all_bytes_copied +s bytes_copied) m
    end.

Definition serialize_array_copy (rec : copier) (sub : Datatype) (start subsize : Z) (m : mem) (to from : Z) : outcome (mem * Z) :=
  let subtype_buffersize := buffersize sub in
  let from := from + (start *s subtype_buffersize) in
  serialized_subtype ← serialize_type sub;
  to ← std_align (alignment serialized_subtype) 0 to (alignment serialized_subtype);
  serialize_elements subtype_buffersize (rec sub) (Z.to_nat subsize) 0 m to from.

Definition serialize_record_copy (rec : copier) (t : Datatype) (members : list (Member Datatype)) (m : mem) (to from : Z) : outcome (mem * Z) :=
  t' ← serialize_type t; ms' ← members_of t';
  serialize_parts member_displacement (fun mb => rec (member_type mb)) to from members ms' 0 m.

Definition serialize_tuple_copy (rec : copier) (t : Datatype) (elements : list (Element Datatype)) (m : mem) (to from : Z) : outcome (mem * Z) :=
  t' ← serialize_type t; es' ← elements_of t';
  serialize_parts element_offset (fun e => rec (element_type e)) to from elements es' 0 m.

Arguments serialize_array_copy rec sub start subsize m to from /.
Arguments serialize_record_copy rec t members m to from /.
Arguments serialize_tuple_copy rec t elements m to from /.

Fixpoint serialize_copy (t : Datatype) (m : mem) (to from : Z) : outcome (mem * Z) :=
  match t with
  | Scalar_datatype _ _ _ _ _ _ _ => m ← memcpy m to from (buffersize t); Ret (m, buffersize t)
  | Array_datatype _ sub _ start subsize => serialize_array_copy serialize_copy sub start subsize m to from
  | Record_datatype _ members _ => serialize_record_copy serialize_copy t members m to from
  | Pointer_datatype _ sub _ _ => q ← load_pointer m from; serialize_copy sub m to q
  | Tuple_datatype _ elements _ => serialize_tuple_copy serialize_copy t elements m to from
  end.

(** The index of this loop is an [int]. *)
Definition deserialize_elements (bs : Z) (copy : mem -> Z -> Z -> outcome (mem * Z)) : nat -> Z -> Z -> mem -> Z -> Z -> outcome (mem * Z) :=
  fix loop n subtype_no all_bytes_copied m to from :=
    match n with
    | O => Ret (m, all_bytes_copied)
    | S n =>
        '(m, bytes_copied) ← copy m to from;
        subtype_no ← int_incr subtype_no;
        loop n subtype_no (all_bytes_copied +s bytes_copied) m (to + bs) (from + bytes_copied)
    end.

Definition deserialize_parts {M} (offset : M -> Z) (copy : M -> mem -> Z -> Z -> outcome (mem * Z)) (to from : Z) :
    list M -> list M -> Z -> mem -> outcome (mem * Z) :=
  fix loop ms ms' all_bytes_copied m :=
    match ms, ms' with
    | [], _ => Ret (m, all_bytes_copied)
    | _ :: _, [] => Crash
    | mb :: ms, mb' :: ms' =>
        '(m, bytes_copied) ← copy mb m (to + offset mb) (from + offset mb');
        loop ms ms' (all_bytes_copied +s bytes_copied) m
    end.

Definition deserialize_array_copy (rec : copier) (sub : Datatype) (start subsize : Z) (m : mem) (to from : Z) : outcome (mem * Z) :=
  _ ← serialize_type sub;
  deserialize_elements (buffersize sub) (rec sub) (Z.to_nat subsize) 0 0 m (to + (start *s buffersize sub)) from.

Definition deserialize_record_copy (rec : copier) (t : Datatype) (members : list (Member Datatype)) (m : mem) (to from : Z) : outcome (mem * Z) :=
  t' ← serialize_type t; ms' ← members_of t';
  deserialize_parts member_displacement (fun mb => rec (member_type mb)) to from members ms' 0 m.

Definition deserialize_tuple_copy (rec : copier) (t : Datatype) (elements : list (Element Datatype)) (m : mem) (to from : Z) : outcome (mem * Z) :=
  t' ← serialize_type t; es' ← elements_of t';
  deserialize_parts element_offset (fun e => rec (element_type e)) to from elements es' 0 m.

Arguments deserialize_array_copy rec sub start subsize m to from /.
Arguments deserialize_record_copy rec t members m to from /.
Arguments deserialize_tuple_copy rec t elements m to from /.

Fixpoint deserialize_copy (t : Datatype) (m : mem) (to from : Z) : outcome (mem * Z) :=
  match t with
  | Scalar_datatype _ _ _ _ _ _ _ => m ← memcpy m to from (buffersize t); Ret (m, buffersize t)
  | Array_datatype _ sub _ start subsize => deserialize_array_copy deserialize_copy sub start subsize m to from
  | Record_datatype _ members _ => deserialize_record_copy deserialize_copy t members m to from
  | Pointer_datatype _ sub _ _ => q ← load_pointer m to; deserialize_copy sub m q from
  | Tuple_datatype _ elements _ => deserialize_tuple_copy deserialize_copy t elements m to from
  end.
