(* ===== verification/SerializeFacts.v ===== *)
(** What the Serialize plugin promises: the serialized type is a packed structure
    without pointers, copying gathers the data and copying back scatters it, so
    that a round trip restores the data, pointed data included. *)

From S2P Require Import Prelude Error ExprSyntax Datatype Layout Memory DenseCopy DenseCopyFacts RoundTrip Serialize.

(** * The reference layout *)

Fixpoint ser_align (t : Datatype) : Z :=
  match t with
  | Scalar_datatype _ _ _ al _ _ _ => al
  | Array_datatype _ sub _ _ _ | Pointer_datatype _ sub _ _ => ser_align sub
  | Record_datatype _ ms _ => foldl (fun r m => Z.max r (ser_align (member_type m))) 1 ms
  | Tuple_datatype _ es _ => foldl (fun r e => Z.max r (ser_align (element_type e))) 1 es
  end.

Fixpoint ser_size (t : Datatype) : Z :=
  match t with
  | Scalar_datatype _ _ _ _ ds _ _ => ds
  | Array_datatype _ sub _ _ ss => ss * ser_size sub
  | Pointer_datatype _ sub _ _ => ser_size sub
  | Record_datatype _ ms _ => align_up (ser_align t) (pack_end 0 (map (fun m => (ser_align (member_type m), ser_size (member_type m))) ms))
  | Tuple_datatype _ es _ => align_up (ser_align t) (pack_end 0 (map (fun e => (ser_align (element_type e), ser_size (element_type e))) es))
  end.

(** The types that can be serialized: powers of two as alignments, records and
    tuples with components, and sizes in the range of [size_t]. *)
Fixpoint wf_serial (t : Datatype) : bool :=
  match t with
  | Scalar_datatype _ _ _ al ds _ _ => bool_decide (is_size al) && ispow2 al && bool_decide (is_size ds)
  | Array_datatype _ sub _ _ ss => wf_serial sub && (0 <=? ss) && bool_decide (is_size (ser_size t))
  | Pointer_datatype _ sub _ _ => wf_serial sub
  | Record_datatype _ ms _ =>
      forallb (fun m => wf_serial (member_type m)) ms && negb (bool_decide (ms = [])) && bool_decide (is_size (ser_size t))
  | Tuple_datatype _ es _ =>
      forallb (fun e => wf_serial (element_type e)) es && negb (bool_decide (es = [])) && bool_decide (is_size (ser_size t))
  end.

Fixpoint pointer_free (t : Datatype) : bool :=
  match t with
  | Scalar_datatype _ _ _ _ _ _ _ => true
  | Array_datatype _ sub _ _ _ => pointer_free sub
  | Pointer_datatype _ _ _ _ => false
  | Record_datatype _ ms _ => forallb (fun m => pointer_free (member_type m)) ms
  | Tuple_datatype _ es _ => forallb (fun e => pointer_free (element_type e)) es
  end.

(** What is proved of the serialized type. *)
Record serialized (t t' : Datatype) : Prop := {
  sd_run : serialize_type t = Ret t';
  sd_size : buffersize t' = ser_size t;
  sd_align : alignment t' = ser_align t;
  sd_again : serialize_type t' = Ret t';
  sd_flat : pointer_free t' = true
}.

Lemma wf_serial_size t : wf_serial t = true -> 0 <= ser_size t < size_modulus.
Proof.
  induction t as [a k s al ds c d|a t s st ss IH|a ms b IH|a es b IH|a t c d IH] using Datatype_nested_ind;
    simpl; intros Hwf; bools; unfold is_size in *; auto.
Qed.

Lemma wf_serial_align t : wf_serial t = true -> pow2 (ser_align t).
Proof.
  induction t as [a k s al ds c d|a t s st ss IH|a ms b IH|a es b IH|a t c d IH] using Datatype_nested_ind;
    simpl; intros Hwf; bools; auto.
  - by apply ispow2_pow2.
  - apply foldl_max_pow2; [apply pow2_1|]. rewrite list.Forall_forall in *. auto.
  - apply foldl_max_pow2; [apply pow2_1|]. rewrite list.Forall_forall in *. auto.
Qed.

(** ** The loop over components *)

Lemma serialize_components_ok {M N} (conv : M -> outcome Datatype) (mk : M -> Z -> Datatype -> N) ms ts : forall d al,
  Forall2 (fun m t => conv m = Ret t) ms ts -> Forall comp_ok (map comp ts) -> 0 <= d -> pack_end d (map comp ts) < size_modulus ->
  serialize_components conv mk ms d al d =
    Ret (placed mk ms ts d, pack_end d (map comp ts), foldl Z.max al (map alignment ts), pack_end d (map comp ts)).
Proof.
  intros d al Hconv. revert d al. induction Hconv as [|m t ms ts Hm Hms IH]; intros d al Hok Hd Hfit; simpl in *; [done|].
  apply list.Forall_cons in Hok as [[Ha Hs] Hok]; simpl in *.
  pose proof (align_up_ge (alignment t) d ltac:(eauto with pdi)) as Hge.
  pose proof (pack_end_ge _ _ Hok : _ <= pack_end (align_up (alignment t) d + buffersize t) _) as Hge'.
  destruct (padding_ok (alignment t) d) as (p & Hp & Hadd); [done..|lia|].
  rewrite Hm; simpl. rewrite Hp; simpl. rewrite Hadd. rewrite size_add_small by (unfold is_size; lia).
  rewrite IH by (done || lia). reflexivity.
Qed.

Lemma foldl_max_0_1 l : l <> [] -> Forall (fun x => 1 <= x) l -> foldl Z.max 0 l = foldl Z.max 1 l.
Proof. intros Hne Hl. destruct Hl as [|x l Hx Hl]; [done|]. simpl. by replace (Z.max 0 x) with (Z.max 1 x) by lia. Qed.

Section composite.
  Context {M : Type} (offset : M -> Z) (type : M -> Datatype) (mk : M -> Z -> Datatype -> M).
  Context (offset_mk : forall m o t, offset (mk m o t) = o).
  Context (type_mk : forall m o t, type (mk m o t) = t).
  Context (mk_mk : forall m o t, mk (mk m o t) o t = mk m o t).

Definition ser_comps (ms : list M) : list (Z * Z) := map (fun m => (ser_align (type m), ser_size (type m))) ms.
Definition ser_max (ms : list M) : Z := foldl (fun r m => Z.max r (ser_align (type m))) 1 ms.

Definition serialize_composite (ms : list M) : outcome (list M * Z) :=
  '(ms', offset, align, b) ← serialize_components (fun m => serialize_type (type m)) mk ms 0 0 0;
  spacing ← padding align offset; Ret (ms', b +s spacing).

(** The serialized components are at the reference offsets, and serializing
    them again gives them back. *)
Lemma serialize_composite_ok ms :
  Forall (fun m => wf_serial (type m) = true /\ exists t', serialized (type m) t') ms -> ms <> [] ->
  align_up (ser_max ms) (pack_end 0 (ser_comps ms)) < size_modulus ->
  exists ms', serialize_composite ms = Ret (ms', align_up (ser_max ms) (pack_end 0 (ser_comps ms))) /\
    serialize_composite ms' = Ret (ms', align_up (ser_max ms) (pack_end 0 (ser_comps ms))) /\
    map offset ms' = pack_offsets 0 (ser_comps ms) /\ max_alignment type ms' = ser_max ms /\
    Forall2 (fun m m' => serialized (type m) (type m')) ms ms' /\ Forall (fun m => pointer_free (type m) = true) ms'.
Proof.
  intros Hms Hne Hfit.
  assert (Hwf : Forall (fun m => wf_serial (type m) = true) ms) by (eapply list.Forall_impl; [exact Hms|]; by intros ? [? _]).
  destruct (Forall_exists_Forall2 (fun m t => serialized (type m) t) ms) as [ts Hts].
  { eapply list.Forall_impl; [exact Hms|]. by intros ? [_ ?]. }
  assert (Hlen : length ms = length ts) by by eapply Forall2_length.
  assert (Hcomp : map comp ts = ser_comps ms).
  { clear -Hts. induction Hts as [|m t ms ts [_ Hs Ha _ _] Hts IH]; simpl; [done|]. unfold comp at 1. by rewrite Hs, Ha, IH. }
  assert (Hal : map alignment ts = map (fun m => ser_align (type m)) ms).
  { apply (f_equal (map fst)) in Hcomp. unfold ser_comps in Hcomp. by rewrite !map_map in Hcomp. }
  assert (Hpow : Forall (fun m => pow2 (ser_align (type m))) ms).
  { eapply list.Forall_impl; [exact Hwf|]. intros m. apply wf_serial_align. }
  assert (Hok : Forall comp_ok (map comp ts)).
  { rewrite Hcomp. apply Forall_map. eapply list.Forall_impl; [exact Hwf|]. intros m Hm. split; [by apply wf_serial_align|by apply wf_serial_size]. }
  assert (Hmax : foldl Z.max 0 (map alignment ts) = ser_max ms).
  { rewrite Hal, foldl_max_0_1; [symmetry; apply foldl_max_map|by destruct ms|]. apply Forall_map. eapply list.Forall_impl; [exact Hpow|].
    intros m Hm. pose proof (pow2_pos _ Hm). simpl. lia. }
  assert (Hpmax : pow2 (ser_max ms)) by (apply foldl_max_pow2; [apply pow2_1|done]).
  pose proof (pack_end_ge 0 _ Hok) as Hge. rewrite Hcomp in Hge. pose proof (align_up_ge _ (pack_end 0 (ser_comps ms)) (pow2_pos _ Hpmax)) as Hge'.
  destruct (padding_ok (ser_max ms) (pack_end 0 (ser_comps ms))) as (sp & Hsp & Hadd); [done..|].
  exists (placed mk ms ts 0). pose proof (placed_types type mk type_mk ms ts 0 Hlen) as Htypes.
  assert (Hrun : forall l, Forall2 (fun m t => serialize_type (type m) = Ret t) l ts -> placed mk l ts 0 = placed mk ms ts 0 ->
    serialize_composite l = Ret (placed mk ms ts 0, align_up (ser_max ms) (pack_end 0 (ser_comps ms)))).
  { intros l Hl Hpl. unfold serialize_composite. rewrite (serialize_components_ok _ mk l ts 0 0 Hl Hok) by (rewrite ?Hcomp; lia).
    simpl. rewrite Hpl, Hmax, Hcomp, Hsp; simpl. by rewrite Hadd. }
  split_and!.
  - apply Hrun; [|done]. eapply list.Forall2_impl; [exact Hts|]. by intros m t [? _ _ _ _].
  - apply Hrun; [|by apply placed_placed]. rewrite <- Htypes at 2. apply Forall2_fmap_r, Forall_Forall2_diag.
    apply (Forall_map type (fun t => serialize_type t = Ret t)). rewrite Htypes.
    clear -Hts. induction Hts as [|m t ms ts [_ _ _ ? _] Hts IH]; by constructor.
  - rewrite (placed_offsets offset mk offset_mk) by done. by rewrite Hcomp.
  - unfold max_alignment. rewrite (foldl_max_map (fun m => alignment (type m))), <- (map_map type alignment), Htypes, Hal. symmetry. apply foldl_max_map.
  - rewrite <- Htypes in Hts. by apply Forall2_fmap_r in Hts.
  - apply (Forall_map type (fun t => pointer_free t = true)). rewrite Htypes.
    clear -Hts. induction Hts as [|m t ms ts [_ _ _ _ ?] Hts IH]; by constructor.
Qed.

End composite.

Lemma serialize_type_record a ms b :
  serialize_type (Record_datatype a ms b) = ('(ms', b') ← serialize_composite member_type set_member ms; Ret (Record_datatype a ms' b')).
Proof.
  simpl. unfold serialize_composite. destruct (serialize_components _ _ ms 0 0 0) as [[[[ns o] al] b']|e|]; simpl; [|done..].
  by destruct (padding al o).
Qed.

Lemma serialize_type_tuple a es b :
  serialize_type (Tuple_datatype a es b) = ('(es', b') ← serialize_composite element_type set_element es; Ret (Tuple_datatype a es' b')).
Proof.
  simpl. unfold serialize_composite. destruct (serialize_components _ _ es 0 0 0) as [[[[ns o] al] b']|e|]; simpl; [|done..].
  by destruct (padding al o).
Qed.

Lemma serialize_type_ok t : wf_serial t = true -> exists t', serialized t t'.
Proof.
  induction t as [a k s al ds c d|a t s st ss IH|a ms b IH|a es b IH|a t c d IH] using Datatype_nested_ind; intros Hwf.
  - by eexists.
  - simpl in Hwf. bools. destruct (IH H) as [t' [Hr Hs Ha Hg Hf]]. exists (make_array t' ss a).
    split; simpl; [by rewrite Hr| |done|by rewrite Hg|done]. rewrite Hs. by apply size_mul_small.
  - simpl in Hwf. bools. unfold is_size in *.
    destruct (serialize_composite_ok member_displacement member_type set_member ltac:(done) ltac:(done) ltac:(done) ms) as (ms' & Hr & Hg & _ & Ha & _ & Hf); [|done|match goal with H : 0 <= _ < size_modulus |- _ => exact (proj2 H) end|].
    { rewrite list.Forall_forall in *. auto. }
    exists (Record_datatype a ms' (ser_size (Record_datatype a ms b))). split; [..|by apply forallb_Forall]; rewrite ?serialize_type_record; [by rewrite Hr|done|exact Ha|by rewrite Hg].
  - simpl in Hwf. bools. unfold is_size in *.
    destruct (serialize_composite_ok element_offset element_type set_element ltac:(done) ltac:(done) ltac:(done) es) as (es' & Hr & Hg & _ & Ha & _ & Hf); [|done|match goal with H : 0 <= _ < size_modulus |- _ => exact (proj2 H) end|].
    { rewrite list.Forall_forall in *. auto. }
    exists (Tuple_datatype a es' (ser_size (Tuple_datatype a es b))). split; [..|by apply forallb_Forall]; rewrite ?serialize_type_tuple; [by rewrite Hr|done|exact Ha|by rewrite Hg].
  - simpl in Hwf. destruct (IH Hwf) as [t' [Hr Hs Ha Hg Hf]]. by exists t'.
Qed.

(** * What a copy touches *)

(** The number of bytes copied. *)
Fixpoint ser_bytes (t : Datatype) : Z :=
  match t with
  | Scalar_datatype _ _ _ _ ds _ _ => ds
  | Array_datatype _ sub _ _ ss => ss * ser_bytes sub
  | Pointer_datatype _ sub _ _ => ser_bytes sub
  | Record_datatype _ ms _ => foldr (fun m r => ser_bytes (member_type m) + r) 0 ms
  | Tuple_datatype _ es _ => foldr (fun e r => ser_bytes (element_type e) + r) 0 es
  end.

(** The elements of arrays have no padding: the copies step over as many bytes as
    they copied. *)
Fixpoint solid (t : Datatype) : bool :=
  match t with
  | Scalar_datatype _ _ _ _ _ _ _ => true
  | Array_datatype _ sub _ st ss =>
      solid sub && (ser_bytes sub =? ser_size sub) && (ser_size sub mod ser_align sub =? 0)
      && bool_decide (is_size (st * buffersize sub)) && (ss <=? int_max)
  | Pointer_datatype _ sub _ _ => solid sub
  | Record_datatype _ ms _ => forallb (fun m => solid (member_type m)) ms
  | Tuple_datatype _ es _ => forallb (fun e => solid (element_type e)) es
  end.

(** A pointer that is followed, and a block of [n] bytes copied between address
    [a] and offset [d] of the serialized buffer. *)
Inductive piece := Cell (a : Z) | Block (a d n : Z).

(** [P] holds of the components of a record or tuple. *)
Definition all_parts {M} (offset : M -> Z) (f : M -> Z -> Z -> Prop) (d p : Z) : list M -> list Z -> Prop :=
  fix go ms os :=
    match ms, os with
    | mb :: ms, o :: os => f mb (d + o) (p + offset mb) /\ go ms os
    | _, _ => True
    end.

(** [P] holds of every piece of the data of type [t] at [p], serialized at offset [d]. *)
Fixpoint touches (t : Datatype) (m : mem) (P : piece -> Prop) (d p : Z) : Prop :=
  match t with
  | Scalar_datatype _ _ _ _ ds _ _ => P (Block p d ds)
  | Array_datatype _ sub _ st ss =>
      forall k, 0 <= k < ss -> touches sub m P (d + k * ser_size sub) (p + (st + k) * buffersize sub)
  | Pointer_datatype _ sub _ _ => exists q, load_pointer m p = Ret q /\ P (Cell p) /\ touches sub m P d q
  | Record_datatype _ ms _ =>
      all_parts member_displacement (fun mb => touches (member_type mb) m P) d p ms (pack_offsets 0 (ser_comps member_type ms))
  | Tuple_datatype _ es _ =>
      all_parts element_offset (fun e => touches (element_type e) m P) d p es (pack_offsets 0 (ser_comps element_type es))
  end.

(** A component: its type, its offset in the serialized buffer and its address. *)
Abbreviation part := (Datatype * Z * Z)%type.

Definition touch (m : mem) (P : piece -> Prop) (x : part) : Prop := touches x.1.1 m P x.1.2 x.2.

Definition elements_at (sub : Datatype) (st ss d p : Z) : list part :=
  map (fun k => (sub, d + k * ser_size sub, p + (st + k) * buffersize sub)) (seqZ 0 ss).

Definition components_at {M} (offset : M -> Z) (type : M -> Datatype) (d p : Z) : list M -> list Z -> list part :=
  zip_with (fun mb o => (type mb, d + o, p + offset mb)).

(** The parts of an array, a record or a tuple. *)
Definition parts (t : Datatype) (d p : Z) : list part :=
  match t with
  | Array_datatype _ sub _ st ss => elements_at sub st ss d p
  | Record_datatype _ ms _ => components_at member_displacement member_type d p ms (pack_offsets 0 (ser_comps member_type ms))
  | Tuple_datatype _ es _ => components_at element_offset element_type d p es (pack_offsets 0 (ser_comps element_type es))
  | _ => []
  end.

Definition composite (t : Datatype) : bool :=
  match t with Array_datatype _ _ _ _ _ | Record_datatype _ _ _ | Tuple_datatype _ _ _ => true | _ => false end.

Lemma all_parts_Forall {M} (offset : M -> Z) (type : M -> Datatype) m P d p ms os :
  all_parts offset (fun mb => touches (type mb) m P) d p ms os <-> Forall (touch m P) (components_at offset type d p ms os).
Proof.
  revert os. induction ms as [|mb ms IH]; intros [|o os]; simpl; try (split; [constructor|done]).
  rewrite IH, list.Forall_cons. done.
Qed.

Lemma touches_parts t m P d p : composite t = true -> touches t m P d p <-> Forall (touch m P) (parts t d p).
Proof.
  destruct t as [| a sub s st ss| a ms b| a es b|]; try done; intros _.
  - simpl. unfold elements_at. rewrite Forall_map, list.Forall_forall. split; intros H k Hk; apply H; rewrite elem_of_seqZ in *; lia.
  - apply all_parts_Forall.
  - apply all_parts_Forall.
Qed.

(** The types of the parts are smaller: an induction on types that sees arrays,
    records and tuples alike. *)
Lemma parts_types t d p x : x ∈ parts t d p ->
  match t with
  | Array_datatype _ sub _ _ _ => x.1.1 = sub
  | Record_datatype _ ms _ => exists mb, mb ∈ ms /\ x.1.1 = member_type mb
  | Tuple_datatype _ es _ => exists e, e ∈ es /\ x.1.1 = element_type e
  | _ => False
  end.
Proof.
  destruct t as [| a sub s st ss| a ms b| a es b|]; simpl; try (by intros ?%not_elem_of_nil).
  - by intros (k & -> & _)%list_elem_of_fmap.
  - intros (mb & o & -> & Hmb & _)%elem_of_zip_with. by exists mb.
  - intros (e & o & -> & He & _)%elem_of_zip_with. by exists e.
Qed.

Lemma parts_ind (Q : Datatype -> Prop) :
  (forall a k s al ds c d, Q (Scalar_datatype a k s al ds c d)) ->
  (forall a sub c d, Q sub -> Q (Pointer_datatype a sub c d)) ->
  (forall t, composite t = true -> (forall d p x, x ∈ parts t d p -> Q x.1.1) -> Q t) -> forall t, Q t.
Proof.
  intros Hs Hp Hc t.
  induction t as [a k s al ds c d|a t s st ss IH|a ms b IH|a es b IH|a t c d IH] using Datatype_nested_ind; auto; apply Hc; try done;
    intros d p x Hx; apply parts_types in Hx; [by rewrite Hx|..]; destruct Hx as (y & Hy & ->); rewrite list.Forall_forall in IH; auto.
Qed.

Lemma parts_ok t d p x : wf_serial t = true -> solid t = true -> x ∈ parts t d p -> wf_serial x.1.1 = true /\ solid x.1.1 = true.
Proof.
  intros Hwf Hso Hx. apply parts_types in Hx. destruct t as [| a sub s st ss| a ms b| a es b|]; try done; simpl in *; bools.
  - by rewrite Hx.
  - destruct Hx as (mb & Hmb & ->). rewrite list.Forall_forall in *. auto.
  - destruct Hx as (e & He & ->). rewrite list.Forall_forall in *. auto.
Qed.

Lemma parts_wf t d p x : wf_serial t = true -> x ∈ parts t d p -> wf_serial x.1.1 = true.
Proof.
  intros Hwf Hx. apply parts_types in Hx. destruct t as [| a sub s st ss| a ms b| a es b|]; try done; simpl in *; bools.
  - by rewrite Hx.
  - destruct Hx as (mb & Hmb & ->). rewrite list.Forall_forall in *. auto.
  - destruct Hx as (e & He & ->). rewrite list.Forall_forall in *. auto.
Qed.

(** ** Reasoning on what is touched *)

Lemma touches_impl t : forall m (P Q : piece -> Prop) d p, (forall x, P x -> Q x) -> touches t m P d p -> touches t m Q d p.
Proof.
  induction t as [a k s al ds c dd|a sub c dd IH|t Ht IH] using parts_ind; intros m P Q d p HPQ.
  - apply HPQ.
  - intros (q & Hq & Hc & Hs). exists q. split_and!; eauto.
  - rewrite !touches_parts, !list.Forall_forall by done. intros H x Hx. apply (IH d p x Hx m P Q); auto. by apply H.
Qed.

Lemma touches_and t : forall m P Q d p, touches t m P d p -> touches t m Q d p -> touches t m (fun x => P x /\ Q x) d p.
Proof.
  induction t as [a k s al ds c dd|a sub c dd IH|t Ht IH] using parts_ind; intros m P Q d p.
  - by split.
  - intros (q & Hq & Hc & Hs) (q' & Hq' & Hc' & Hs'). exists q. rewrite Hq in Hq'. injection Hq' as <-. split_and!; eauto.
  - rewrite !touches_parts, !list.Forall_forall by done. intros H1 H2 x Hx. apply (IH d p x Hx); auto; [by apply H1|by apply H2].
Qed.

(** The pointers are the same in [m'] as in [m]. *)
Definition same_cell (m m' : mem) (x : piece) : Prop :=
  match x with Cell a => forall i, 0 <= i < 8 -> m' !! (a + i) = m !! (a + i) | Block _ _ _ => True end.

Lemma load_agree m m' n : forall a, (forall i, 0 <= i < Z.of_nat n -> m' !! (a + i) = m !! (a + i)) -> load m' a n = load m a n.
Proof.
  induction n as [|n IH]; intros a H; [done|]. cbn [load]. pose proof (H 0 ltac:(lia)) as H0. rewrite Z.add_0_r in H0. rewrite H0.
  rewrite (IH (a + 1)); [done|]. intros i Hi. specialize (H (1 + i) ltac:(lia)). by rewrite Z.add_assoc in H.
Qed.

Lemma touches_stable t : forall m m' P d p, touches t m (fun x => P x /\ same_cell m m' x) d p -> touches t m' P d p.
Proof.
  induction t as [a k s al ds c dd|a sub c dd IH|t Ht IH] using parts_ind; intros m m' P d p.
  - by intros [? _].
  - intros (q & Hq & [Hc Hsame] & Hs). exists q. split_and!; eauto. unfold load_pointer in *. by rewrite (load_agree m m').
  - rewrite !touches_parts, !list.Forall_forall by done. intros H x Hx. apply (IH d p x Hx m). by apply H.
Qed.

(** ** The order of the parts *)

Fixpoint in_order (lo : Z) (ps : list part) (hi : Z) : Prop :=
  match ps with [] => lo <= hi | x :: ps => lo <= x.1.2 /\ in_order (x.1.2 + ser_size x.1.1) ps hi end.

Definition bytes_of (ps : list part) : Z := foldr (fun x r => ser_bytes x.1.1 + r) 0 ps.

Lemma elements_in_order sub st d p n : 0 <= ser_size sub -> forall k,
  in_order (d + k * ser_size sub) (map (fun k => (sub, d + k * ser_size sub, p + (st + k) * buffersize sub)) (seqZ k (Z.of_nat n)))
    (d + (k + Z.of_nat n) * ser_size sub).
Proof.
  intros Hs. induction n as [|n IH]; intros k; [rewrite seqZ_nil by lia; simpl; nia|].
  rewrite seqZ_cons by lia. simpl. split; [lia|]. specialize (IH (k + 1)).
  replace (Z.pred (Z.of_nat (S n))) with (Z.of_nat n) by lia. replace (Z.succ k) with (k + 1) by lia.
  replace (d + k * ser_size sub + ser_size sub) with (d + (k + 1) * ser_size sub) by lia.
  replace (d + (k + Z.of_nat (S n)) * ser_size sub) with (d + (k + 1 + Z.of_nat n) * ser_size sub) by lia. exact IH.
Qed.

Lemma components_in_order {M} (offset : M -> Z) (type : M -> Datatype) d p ms : Forall (fun m => wf_serial (type m) = true) ms -> forall o,
  in_order (d + o) (components_at offset type d p ms (pack_offsets o (ser_comps type ms))) (d + pack_end o (ser_comps type ms)).
Proof.
  intros Hms. induction Hms as [|mb ms Hmb Hms IH]; intros o; simpl; [lia|].
  pose proof (align_up_ge _ o (pow2_pos _ (wf_serial_align _ Hmb))). split; [lia|]. rewrite <- Z.add_assoc. apply IH.
Qed.

Lemma in_order_widen ps : forall lo lo' hi hi', in_order lo ps hi -> lo' <= lo -> hi <= hi' -> in_order lo' ps hi'.
Proof. induction ps as [|x ps IH]; intros lo lo' hi hi'; simpl; [lia|]. intros [H1 H2] ? ?. split; [lia|]. eapply IH; [exact H2|lia..]. Qed.

Lemma composite_pack_le {M} (type : M -> Datatype) ms :
  Forall (fun m => wf_serial (type m) = true) ms -> pack_end 0 (ser_comps type ms) <= align_up (ser_max type ms) (pack_end 0 (ser_comps type ms)).
Proof.
  intros Hms. apply align_up_ge, pow2_pos, foldl_max_pow2; [apply pow2_1|]. eapply list.Forall_impl; [exact Hms|]. intros m. apply wf_serial_align.
Qed.

Lemma parts_in_order t d p : wf_serial t = true -> composite t = true -> in_order d (parts t d p) (d + ser_size t).
Proof.
  destruct t as [| a sub s st ss| a ms b| a es b|]; try done; intros Hwf _; simpl in Hwf; bools; simpl.
  - pose proof (wf_serial_size _ H) as Hs. pose proof (elements_in_order sub st d p (Z.to_nat ss) (proj1 Hs) 0) as Ho.
    rewrite Z2Nat.id in Ho by done. rewrite Z.mul_0_l, Z.add_0_r, Z.add_0_l in Ho. exact Ho.
  - eapply in_order_widen; [by apply (components_in_order member_displacement)|lia|]. apply Z.add_le_mono_l. by apply (composite_pack_le member_type).
  - eapply in_order_widen; [by apply (components_in_order element_offset)|lia|]. apply Z.add_le_mono_l. by apply (composite_pack_le element_type).
Qed.

Lemma in_order_bounds ps x : forall lo hi,
  Forall (fun x => 0 <= ser_size x.1.1) ps -> in_order lo ps hi -> x ∈ ps -> lo <= x.1.2 /\ x.1.2 + ser_size x.1.1 <= hi.
Proof.
  induction ps as [|y ps IH]; intros lo hi Hs; simpl; [by intros _ ?%not_elem_of_nil|]. apply list.Forall_cons in Hs as [Hy Hs].
  intros [Hlo Ho] [-> |Hx]%elem_of_cons.
  - split; [done|]. clear -Ho Hs. revert Ho. generalize (y.1.2 + ser_size y.1.1). induction Hs as [|z ps Hz Hs IH]; intros v; simpl; [done|].
    intros [? Hv]. specialize (IH _ Hv). lia.
  - destruct (IH _ _ Hs Ho Hx). lia.
Qed.

Lemma in_order_head t d p ps lo hi :
  Forall (fun x : part => wf_serial x.1.1 = true) ps -> in_order lo ((t, d, p) :: ps) hi -> lo <= d /\ d + ser_size t <= hi.
Proof.
  intros Hwf [Hlo Ho]. simpl in *. split; [done|]. destruct Hwf as [|y ps Hy Hwf]; [done|].
  destruct (in_order_bounds (y :: ps) y (d + ser_size t) hi) as [? ?]; [|done|apply list_elem_of_here|].
  - constructor; [by apply wf_serial_size|]. eapply list.Forall_impl; [exact Hwf|]. intros z Hz. by apply wf_serial_size.
  - pose proof (wf_serial_size _ Hy). lia.
Qed.

Lemma parts_aligned t d p b x : wf_serial t = true -> solid t = true -> (ser_align t | b + d) -> x ∈ parts t d p -> (ser_align x.1.1 | b + x.1.2).
Proof.
  assert (Hcomp : forall {M} (offset : M -> Z) (type : M -> Datatype) ms,
    Forall (fun m => wf_serial (type m) = true) ms -> (ser_max type ms | b + d) ->
    x ∈ components_at offset type d p ms (pack_offsets 0 (ser_comps type ms)) -> (ser_align x.1.1 | b + x.1.2)).
  { intros M offset type ms Hms Hb Hx.
    assert (Hpow : Forall (fun m => pow2 (ser_align (type m))) ms) by (eapply list.Forall_impl; [exact Hms|]; intros m; apply wf_serial_align).
    assert (Hdiv : exists o mb, mb ∈ ms /\ x = (type mb, d + o, p + offset mb) /\ (ser_align (type mb) | o)).
    { clear Hb Hms. revert Hx. generalize 0. induction Hpow as [|mb ms Hmb Hpow IH]; intros o; simpl; [by intros ?%not_elem_of_nil|].
      intros [-> |Hx]%elem_of_cons.
      - exists (align_up (ser_align (type mb)) o), mb. split_and!; [apply list_elem_of_here|done|apply align_up_divide; by apply pow2_pos].
      - destruct (IH _ Hx) as (o' & mb' & Hin & Heq & Hd). exists o', mb'. split_and!; [by apply list_elem_of_further|done|done]. }
    destruct Hdiv as (o & mb & Hin & -> & Hd). simpl. rewrite Z.add_assoc. apply Z.divide_add_r; [|done].
    etrans; [|exact Hb]. by apply (foldl_max_divide (fun m => ser_align (type m))). }
  destruct t as [| a sub s st ss| a ms b'| a es b'|]; simpl; try (by intros _ _ _ ?%not_elem_of_nil); intros Hwf Hso Hb; bools.
  - intros (k & -> & _)%list_elem_of_fmap. simpl. rewrite Z.add_assoc. apply Z.divide_add_r; [done|]. apply Z.divide_mul_r.
    apply Z.mod_divide; [|done]. pose proof (pow2_pos _ (wf_serial_align sub ltac:(done))). lia.
  - by apply (Hcomp _ member_displacement member_type ms).
  - by apply (Hcomp _ element_offset element_type es).
Qed.

(** The blocks are inside the window of the data. *)
Definition in_window (lo size : Z) (x : piece) : Prop :=
  match x with Cell _ => True | Block _ d n => 0 <= n /\ lo <= d /\ d + n <= lo + size end.

Lemma touches_window t : forall m P d p, wf_serial t = true -> touches t m P d p -> touches t m (in_window d (ser_size t)) d p.
Proof.
  induction t as [a k s al ds c dd|a sub c dd IH|t Ht IH] using parts_ind; intros m P d p Hwf.
  - intros _. pose proof (wf_serial_size _ Hwf) as Hs. simpl in *. lia.
  - intros (q & Hq & _ & Hs). exists q. split_and!; [done..|]. by apply (IH m P d q).
  - rewrite !touches_parts, !list.Forall_forall by done. intros H x Hx. pose proof (parts_wf _ _ _ _ Hwf Hx) as Hwx.
    destruct (in_order_bounds (parts t d p) x d (d + ser_size t)) as [Hlo Hhi]; [|by apply parts_in_order|done|].
    { rewrite list.Forall_forall. intros y Hy. apply wf_serial_size. by apply (parts_wf t d p y). }
    eapply touches_impl; [|apply (IH d p x Hx m P x.1.2 x.2 Hwx); by apply H]. intros [|a' d' n']; simpl; [done|lia].
Qed.

Lemma ser_bytes_le t : wf_serial t = true -> 0 <= ser_bytes t <= ser_size t.
Proof.
  assert (Hcomp : forall {M} (type : M -> Datatype) ms,
    Forall (fun m => wf_serial (type m) = true -> 0 <= ser_bytes (type m) <= ser_size (type m)) ms ->
    Forall (fun m => wf_serial (type m) = true) ms -> forall o,
    0 <= foldr (fun m r => ser_bytes (type m) + r) 0 ms /\ o + foldr (fun m r => ser_bytes (type m) + r) 0 ms <= pack_end o (ser_comps type ms)).
  { intros M type ms IH Hwf. induction Hwf as [|mb ms Hmb Hms IHms]; intros o; simpl; [lia|]. apply list.Forall_cons in IH as [IHmb IH].
    specialize (IHmb Hmb). pose proof (align_up_ge _ o (pow2_pos _ (wf_serial_align _ Hmb))).
    destruct (IHms IH (align_up (ser_align (type mb)) o + ser_size (type mb))). lia. }
  induction t as [a k s al ds c d|a t s st ss IH|a ms b IH|a es b IH|a t c d IH] using Datatype_nested_ind; intros Hwf; simpl in *; bools.
  - unfold is_size in *. lia.
  - specialize (IH H). nia.
  - destruct (Hcomp _ member_type ms IH H 0). pose proof (composite_pack_le member_type ms H). unfold ser_max in *. unfold ser_comps in *. lia.
  - destruct (Hcomp _ element_type es IH H 0). pose proof (composite_pack_le element_type es H). unfold ser_max in *. unfold ser_comps in *. lia.
  - auto.
Qed.

(** * Gathering *)

(** The data can be read and is apart from the [n] bytes at [a]. *)
Definition in_reach (m : mem) (a n : Z) (x : piece) : Prop :=
  match x with Cell c => disjoint_ranges c 8 a n | Block b _ k => allocated m b k /\ disjoint_ranges b k a n end.

(** A block of [m] is at its place of the buffer in [m']. *)
Definition gathered (m m' : mem) (buf : Z) (x : piece) : Prop :=
  match x with Cell _ => True | Block a d n => forall i, 0 <= i < n -> m' !! (buf + d + i) = m !! (a + i) end.

Definition gathers (t : Datatype) : Prop := forall m buf d p,
  (ser_align t | buf + d) -> allocated m (buf + d) (ser_size t) -> touches t m (in_reach m (buf + d) (ser_size t)) d p ->
  exists m', serialize_copy t m (buf + d) p = Ret (m', ser_bytes t) /\ same_alloc m m' /\
    frame m m' (buf + d) (ser_size t) /\ touches t m (gathered m m' buf) d p.

(** Copying the parts one after the other, each copying the bytes of its type. *)
Inductive runs (copy : Datatype -> mem -> Z -> Z -> outcome (mem * Z)) (buf : Z) : list part -> mem -> mem -> Prop :=
  | runs_nil m : runs copy buf [] m m
  | runs_cons t d p ps m m1 m2 :
      copy t m (buf + d) p = Ret (m1, ser_bytes t) -> runs copy buf ps m1 m2 -> runs copy buf ((t, d, p) :: ps) m m2.

Lemma in_reach_same_cell m m' a n x : in_reach m a n x -> frame m m' a n -> same_cell m m' x.
Proof. destruct x as [c|b d k]; simpl; [|done]. intros Hd Hf i Hi. apply Hf. unfold disjoint_ranges in Hd. lia. Qed.

Lemma in_reach_same_alloc m m' a n x : same_alloc m m' -> in_reach m a n x -> in_reach m' a n x.
Proof. destruct x as [c|b d k]; simpl; [done|]. intros Hs [Ha Hd]. split; [by eapply allocated_same|done]. Qed.

Lemma in_reach_sub m a n a' n' x : in_reach m a n x -> a <= a' -> a' + n' <= a + n -> in_reach m a' n' x.
Proof. destruct x as [c|b d k]; simpl; unfold disjoint_ranges; [lia|]. intros [? ?] ? ?. split; [done|lia]. Qed.

(** What is read outside a window does not see what is written inside it. *)
Lemma touches_frame t m m' P a n d p :
  touches t m (in_reach m a n) d p -> frame m m' a n -> touches t m P d p -> touches t m' P d p.
Proof.
  intros Hr Hf HP. apply (touches_stable t m m'). eapply touches_impl; [|apply (touches_and t m (in_reach m a n) P d p Hr HP)].
  intros x [Hx ?]. split; [done|]. by eapply in_reach_same_cell.
Qed.

Lemma frame_sym m m' a n : frame m m' a n -> frame m' m a n.
Proof. intros Hf x Hx. symmetry. by apply Hf. Qed.

Lemma gather_parts buf a n ps : forall lo hi m,
  Forall (fun x => gathers x.1.1 /\ wf_serial x.1.1 = true /\ (ser_align x.1.1 | buf + x.1.2)) ps ->
  in_order lo ps hi -> a <= buf + lo -> buf + hi <= a + n -> allocated m a n -> Forall (touch m (in_reach m a n)) ps ->
  exists m', runs serialize_copy buf ps m m' /\ same_alloc m m' /\ frame m m' (buf + lo) (hi - lo) /\ Forall (touch m (gathered m m' buf)) ps.
Proof.
  induction ps as [|[[t d] p] ps IH]; intros lo hi m Hps Ho Ha Hn Hall Hr; simpl in Ho.
  { exists m. split_and!; [constructor|done|apply frame_refl|constructor]. }
  apply list.Forall_cons in Hps as [(Hg & Hwf & Hal) Hps]. apply list.Forall_cons in Hr as [Hrx Hr]. destruct Ho as [Hlo Ho]. unfold touch in Hrx. simpl in *.
  assert (Hwfs : Forall (fun x => wf_serial x.1.1 = true) ps) by (eapply list.Forall_impl; [exact Hps|]; by intros x (_ & ? & _)).
  pose proof (proj2 (in_order_head t d p ps lo hi Hwfs (conj Hlo Ho))) as Hend.
  pose proof (wf_serial_size _ Hwf) as Hsz.
  destruct (Hg m buf d p) as (m1 & Hrun & Hsa & Hf & Hgx); [done|eapply allocated_sub; [exact Hall|lia..]| |].
  { eapply touches_impl; [|exact Hrx]. intros x Hx. eapply in_reach_sub; [exact Hx|lia..]. }
  assert (Hfw : frame m m1 a n) by (eapply frame_widen; [exact Hf|lia..]).
  destruct (IH (d + ser_size t) hi m1 Hps Ho) as (m2 & Hruns & Hsa2 & Hf2 & Hg2); [lia|lia|by rewrite <- Hsa| |].
  { rewrite list.Forall_forall in *. intros y Hy. specialize (Hr y Hy). eapply touches_frame; [exact Hr|exact Hfw|].
    eapply touches_impl; [|exact Hr]. intros x. by apply in_reach_same_alloc. }
  exists m2. split_and!; [by econstructor|by etrans| |].
  - intros x Hx. rewrite Hf2, Hf by lia. done.
  - constructor.
    + eapply touches_impl; [|apply (touches_and t m (gathered m m1 buf) (in_window d (ser_size t)) d p Hgx); by eapply touches_window].
      intros [c|b d' k]; simpl; [done|]. intros [Hx Hw] i Hi. rewrite Hf2 by lia. by apply Hx.
    + rewrite list.Forall_forall in *. intros y Hy. specialize (Hg2 y Hy). specialize (Hr y Hy). unfold touch in *.
      assert (Hr1 : touches y.1.1 m1 (in_reach m a n) y.1.2 y.2) by (by eapply touches_frame).
      pose proof (touches_and _ _ _ _ _ _ Hr1 Hg2) as Hboth. eapply (touches_frame _ m1 m _ a n); [|by apply frame_sym|].
      * eapply touches_impl; [|exact Hr1]. intros x. by apply in_reach_same_alloc.
      * eapply touches_impl; [|exact Hboth]. intros [c|b d' k]; simpl; [done|]. intros [[_ Hd] Hx] i Hi. rewrite Hx by done. apply Hfw. unfold disjoint_ranges in Hd. lia.
Qed.

(** The loop over the elements of an array *)
Lemma serialize_elements_run buf sub st d p n : ser_bytes sub = ser_size sub -> 0 <= ser_size sub -> forall k all m m',
  0 <= all -> all + Z.of_nat n * ser_bytes sub < size_modulus ->
  runs serialize_copy buf (map (fun k => (sub, d + k * ser_size sub, p + (st + k) * buffersize sub)) (seqZ k (Z.of_nat n))) m m' ->
  serialize_elements (buffersize sub) (serialize_copy sub) n all m (buf + d + k * ser_size sub) (p + (st + k) * buffersize sub)
  = Ret (m', all + Z.of_nat n * ser_bytes sub).
Proof.
  intros Hb Hs. induction n as [|n IH]; intros k all m m' Hall Hfit Hruns.
  { rewrite seqZ_nil in Hruns by lia. inversion Hruns; subst. simpl. by rewrite Z.add_0_r. }
  rewrite seqZ_cons in Hruns by lia. simpl in Hruns. inversion Hruns as [|t d0 p0 ps m0 m1 m2 Hrun Hrest]; subst.
  replace (Z.pred (Z.of_nat (S n))) with (Z.of_nat n) in Hrest by lia. replace (Z.succ k) with (k + 1) in Hrest by lia.
  cbn [serialize_elements]. rewrite Z.add_assoc in Hrun. rewrite Hrun; simpl. rewrite size_add_small by (unfold is_size; lia).
  replace (buf + d + k * ser_size sub + ser_bytes sub) with (buf + d + (k + 1) * ser_size sub) by lia.
  replace (p + (st + k) * buffersize sub + buffersize sub) with (p + (st + (k + 1)) * buffersize sub) by lia.
  rewrite (IH (k + 1) (all + ser_bytes sub) m1 m') by (done || lia). f_equal. f_equal. lia.
Qed.

(** The loop over the components of a record or tuple *)
Lemma serialize_parts_run {M} (offset : M -> Z) (type : M -> Datatype) buf d p ms : forall ms' all m m',
  Forall (fun mb => 0 <= ser_bytes (type mb)) ms -> 0 <= all -> length ms = length ms' ->
  all + foldr (fun mb r => ser_bytes (type mb) + r) 0 ms < size_modulus ->
  runs serialize_copy buf (components_at offset type d p ms (map offset ms')) m m' ->
  serialize_parts offset (fun mb => serialize_copy (type mb)) (buf + d) p ms ms' all m
  = Ret (m', all + foldr (fun mb r => ser_bytes (type mb) + r) 0 ms).
Proof.
  induction ms as [|mb ms IH]; intros [|mb' ms'] all m m' Hpos Hall Hlen Hfit Hruns; simpl in *; try done; inversion Hruns as [|t d0 p0 ps m0 m1 m2 Hrun Hrest]; subst.
  { by rewrite Z.add_0_r. }
  apply list.Forall_cons in Hpos as [Hb Hpos].
  assert (Hsum : 0 <= foldr (fun mb r => ser_bytes (type mb) + r) 0 ms) by (clear -Hpos; induction Hpos; simpl; lia).
  rewrite Z.add_assoc in Hrun. rewrite Hrun; simpl. rewrite size_add_small by (unfold is_size; lia).
  rewrite (IH ms' (all + ser_bytes (type mb)) m1 m') by (done || lia). f_equal. f_equal. lia.
Qed.

Lemma serialize_type_offsets {M} (offset : M -> Z) (type : M -> Datatype) (mk : M -> Z -> Datatype -> M) ms :
  (forall m o t, offset (mk m o t) = o) -> (forall m o t, type (mk m o t) = t) -> (forall m o t, mk (mk m o t) o t = mk m o t) ->
  Forall (fun m => wf_serial (type m) = true) ms -> ms <> [] -> align_up (ser_max type ms) (pack_end 0 (ser_comps type ms)) < size_modulus ->
  exists ms' b, serialize_composite type mk ms = Ret (ms', b) /\ map offset ms' = pack_offsets 0 (ser_comps type ms) /\ length ms = length ms'.
Proof.
  intros H1 H2 H3 Hwf Hne Hfit. destruct (serialize_composite_ok offset type mk H1 H2 H3 ms) as (ms' & Hr & _ & Ho & _ & Hall & _); [|done..|].
  - rewrite list.Forall_forall in *. intros m Hm. split; [auto|]. apply serialize_type_ok. auto.
  - eexists _, _. split_and!; [exact Hr|done|by eapply Forall2_length].
Qed.

(** Running the copies of the parts is copying the whole. *)
Lemma serialize_copy_runs t m m' buf d p :
  wf_serial t = true -> solid t = true -> composite t = true -> (ser_align t | buf + d) ->
  runs serialize_copy buf (parts t d p) m m' -> serialize_copy t m (buf + d) p = Ret (m', ser_bytes t).
Proof.
  intros Hwf Hso Hc Hal Hruns. pose proof (ser_bytes_le t Hwf) as Hb. pose proof (wf_serial_size t Hwf) as Hs.
  destruct t as [| a sub s st ss| a ms b| a es b|]; try done; simpl in Hwf, Hso; bools.
  - pose proof (wf_serial_size sub ltac:(done)) as Hss. destruct (serialize_type_ok sub ltac:(done)) as [t' [Hr Hsz Ha _ _]].
    cbn [serialize_copy]. unfold serialize_array_copy. rewrite Hr; simpl. rewrite Ha, std_align_ok by (by apply wf_serial_align).
    simpl in Hal. rewrite align_up_id by (done || by apply pow2_pos, wf_serial_align). simpl. rewrite size_mul_small by done.
    pose proof (serialize_elements_run buf sub st d p (Z.to_nat ss) ltac:(done) (proj1 Hss) 0 0 m m') as Hrun.
    rewrite Z2Nat.id, Z.mul_0_l, !Z.add_0_r, !Z.add_0_l in Hrun by done. simpl in Hb, Hs. apply Hrun; [lia|lia|exact Hruns].
  - unfold is_size in *. destruct (serialize_type_offsets member_displacement member_type set_member ms) as (ms' & b' & Hr & Ho & Hlen); try done; [simpl in Hs; unfold ser_max, ser_comps; lia|].
    change (serialize_copy (Record_datatype a ms b) m (buf + d) p) with
      (t' ← serialize_type (Record_datatype a ms b); ms' ← members_of t'; serialize_parts member_displacement (fun mb => serialize_copy (member_type mb)) (buf + d) p ms ms' 0 m).
    rewrite serialize_type_record, Hr. simpl in Hruns. rewrite <- Ho in Hruns. simpl.
    apply (serialize_parts_run member_displacement member_type buf d p ms ms' 0 m m'); [|lia|done|simpl in *; lia|done].
    eapply list.Forall_impl; [exact H|]. intros mb Hmb. by apply ser_bytes_le.
  - unfold is_size in *. destruct (serialize_type_offsets element_offset element_type set_element es) as (es' & b' & Hr & Ho & Hlen); try done; [simpl in Hs; unfold ser_max, ser_comps; lia|].
    change (serialize_copy (Tuple_datatype a es b) m (buf + d) p) with
      (t' ← serialize_type (Tuple_datatype a es b); es' ← elements_of t'; serialize_parts element_offset (fun e => serialize_copy (element_type e)) (buf + d) p es es' 0 m).
    rewrite serialize_type_tuple, Hr. simpl in Hruns. rewrite <- Ho in Hruns. simpl.
    apply (serialize_parts_run element_offset element_type buf d p es es' 0 m m'); [|lia|done|simpl in *; lia|done].
    eapply list.Forall_impl; [exact H|]. intros e He. by apply ser_bytes_le.
Qed.

Lemma gathers_ok t : wf_serial t = true -> solid t = true -> gathers t.
Proof.
  induction t as [a k s al ds c dd|a sub c dd IH|t Ht IH] using parts_ind; intros Hwf Hso m buf d p Hal Hbuf Hr.
  - simpl in Hr, Hbuf. destruct Hr as [Hp Hd]. pose proof (wf_serial_size _ Hwf) as Hs. simpl in Hs.
    destruct (memcpy_ok m (buf + d) p ds) as (m' & Hc & Hsa & Hf & Hm'); [lia|done|done|unfold disjoint_ranges in *; lia|].
    exists m'. simpl. rewrite Hc. split_and!; [done..|exact Hm'].
  - simpl in Hr, Hbuf, Hal. destruct Hr as (q & Hq & Hcell & Hs). destruct (IH Hwf Hso m buf d q Hal Hbuf Hs) as (m' & Hrun & Hsa & Hf & Hg).
    exists m'. simpl. rewrite Hq; simpl. split_and!; [done..|]. by exists q.
  - destruct (gather_parts buf (buf + d) (ser_size t) (parts t d p) d (d + ser_size t) m) as (m' & Hruns & Hsa & Hf & Hg).
    + rewrite list.Forall_forall. intros x Hx. destruct (parts_ok t d p x Hwf Hso Hx). split_and!; [by apply (IH d p x Hx)|done|].
      by apply (parts_aligned t d p).
    + by apply parts_in_order.
    + lia.
    + lia.
    + done.
    + by apply touches_parts.
    + exists m'. split_and!; [by apply serialize_copy_runs|done| |by apply touches_parts]. eapply frame_widen; [exact Hf|lia..].
Qed.

(** * Scattering *)

(** An address outside the block. *)
Definition misses (x : Z) (b : piece) : Prop :=
  match b with Cell _ => True | Block a _ n => ~ (a <= x < a + n) end.

(** Blocks at different offsets are at different addresses, and blocks are not
    where pointers are. *)
Definition apart (x y : piece) : Prop :=
  match x, y with
  | Block a d n, Block a' d' n' => d = d' \/ disjoint_ranges a n a' n'
  | Block a _ n, Cell c | Cell c, Block a _ n => disjoint_ranges a n c 8
  | Cell _, Cell _ => True
  end.

Definition separate (t : Datatype) (m : mem) (d p : Z) : Prop := touches t m (fun x => touches t m (apart x) d p) d p.

(** A block of [m'] is what [m] has at its place of the buffer. *)
Definition scattered (m m' : mem) (buf : Z) (x : piece) : Prop :=
  match x with Cell _ => True | Block a d n => forall i, 0 <= i < n -> m' !! (a + i) = m !! (buf + d + i) end.

Definition scatters (t : Datatype) : Prop := forall m buf d p,
  allocated m (buf + d) (ser_size t) -> touches t m (in_reach m (buf + d) (ser_size t)) d p -> separate t m d p ->
  exists m', deserialize_copy t m p (buf + d) = Ret (m', ser_bytes t) /\ same_alloc m m' /\
    (forall x, touches t m (misses x) d p -> m' !! x = m !! x) /\ touches t m (scattered m m' buf) d p.

Abbreviation copy_back := (fun t m a p => deserialize_copy t m p a).

Lemma same_cell_sym m m' x : same_cell m m' x -> same_cell m' m x.
Proof. destruct x; simpl; [|done]. intros H i Hi. symmetry. auto. Qed.

Lemma touches_same t m m' P d p : touches t m (same_cell m m') d p -> touches t m P d p <-> touches t m' P d p.
Proof.
  intros Hs. assert (Hfor : forall Q, touches t m Q d p -> touches t m' Q d p).
  { intros Q HQ. apply (touches_stable t m m'). by apply touches_and. }
  split; [apply Hfor|]. intros HP. apply (touches_stable t m' m). apply touches_and; [done|].
  eapply touches_impl; [|apply Hfor, Hs]. apply same_cell_sym.
Qed.

(** Pieces apart from what was written keep their pointers. *)
Lemma apart_same_cell t m m1 d p x :
  (forall a, touches t m (misses a) d p -> m1 !! a = m !! a) -> touches t m (apart x) d p -> same_cell m m1 x.
Proof.
  destruct x as [c|a d' n]; simpl; [|done]. intros Hf Ha i Hi. apply Hf. eapply touches_impl; [|exact Ha].
  intros [c'|a' d'' n']; simpl; [done|]. unfold disjoint_ranges. lia.
Qed.

Lemma in_reach_misses m a n x y : a <= x < a + n -> in_reach m a n y -> misses x y.
Proof. destruct y as [c|b d k]; simpl; [done|]. unfold disjoint_ranges. lia. Qed.

Definition all_apart (m : mem) (ps : list part) : Prop := Forall (touch m (fun b => Forall (touch m (apart b)) ps)) ps.

(** What part [x] writes is not seen by part [y]. *)
Lemma unseen m m1 x ps y :
  (forall a, touch m (misses a) x -> m1 !! a = m !! a) -> all_apart m (x :: ps) -> y ∈ x :: ps -> touch m (same_cell m m1) y.
Proof.
  intros Hf Ha Hy. unfold all_apart in Ha. rewrite list.Forall_forall in Ha. eapply touches_impl; [|exact (Ha y Hy)].
  intros b Hb. apply list.Forall_cons in Hb as [Hb _]. by eapply apart_same_cell.
Qed.

Lemma all_apart_tail m m1 x ps :
  (forall a, touch m (misses a) x -> m1 !! a = m !! a) -> all_apart m (x :: ps) -> all_apart m1 ps.
Proof.
  intros Hf Ha. unfold all_apart in *. apply list.Forall_forall. intros y Hy.
  apply (touches_same _ m m1); [eapply unseen; [done..|by apply list_elem_of_further]|].
  rewrite list.Forall_forall in Ha. eapply touches_impl; [|exact (Ha y (list_elem_of_further _ _ _ Hy))].
  intros b Hb. apply list.Forall_cons in Hb as [_ Hb]. rewrite list.Forall_forall in *. intros z Hz.
  apply (touches_same _ m m1); [|by apply Hb]. eapply unseen; [done| |by apply list_elem_of_further].
  unfold all_apart. by rewrite list.Forall_forall.
Qed.

(** A block of a part is not overwritten by the following parts. *)
Lemma later_parts_miss m t d ps hi a d' n i :
  Forall (fun x => wf_serial x.1.1 = true) ps -> in_order (d + ser_size t) ps hi -> in_window d (ser_size t) (Block a d' n) -> 0 <= i < n ->
  Forall (touch m (apart (Block a d' n))) ps -> Forall (touch m (misses (a + i))) ps.
Proof.
  intros Hwf Ho Hw Hi Ha. rewrite list.Forall_forall in *. intros y Hy.
  destruct (in_order_bounds ps y (d + ser_size t) hi) as [Hlo _]; [|done..|].
  { rewrite list.Forall_forall. intros z Hz. by apply wf_serial_size, Hwf. }
  pose proof (touches_window _ _ _ _ _ (Hwf y Hy) (Ha y Hy)) as Hwin. eapply touches_impl; [|exact (touches_and _ _ _ _ _ _ (Ha y Hy) Hwin)].
  intros [c|b e k]; simpl; [done|]. simpl in Hw. unfold disjoint_ranges. lia.
Qed.

Lemma scatter_parts buf a n ps : forall lo hi m,
  Forall (fun x => scatters x.1.1) ps -> Forall (fun x => wf_serial x.1.1 = true) ps ->
  in_order lo ps hi -> a <= buf + lo -> buf + hi <= a + n -> allocated m a n -> Forall (touch m (in_reach m a n)) ps -> all_apart m ps ->
  exists m', runs copy_back buf ps m m' /\ same_alloc m m' /\
    (forall x, Forall (touch m (misses x)) ps -> m' !! x = m !! x) /\ Forall (touch m (scattered m m' buf)) ps.
Proof.
  induction ps as [|[[t d] p] ps IH]; intros lo hi m Hps Hwfs Ho Ha Hn Hall Hr Hap.
  { exists m. split_and!; [constructor|done|done|constructor]. }
  apply list.Forall_cons in Hps as [Hg Hps]. apply list.Forall_cons in Hwfs as [Hwf Hwfs]. simpl in Hg, Hwf.
  pose proof (in_order_head _ _ _ _ _ _ Hwfs Ho) as [Hlo Hend]. destruct Ho as [_ Ho]. simpl in Ho. pose proof (wf_serial_size _ Hwf) as Hsz.
  pose proof (Forall_inv Hr) as Hrx. pose proof (Forall_inv Hap) as Hapx. unfold touch in Hrx, Hapx. simpl in Hrx, Hapx.
  destruct (Hg m buf d p) as (m1 & Hrun & Hsa & Hf & Hgx); [eapply allocated_sub; [exact Hall|lia..]| | |].
  { eapply touches_impl; [|exact Hrx]. intros x Hx. eapply in_reach_sub; [exact Hx|lia..]. }
  { eapply touches_impl; [|exact Hapx]. intros b Hb. apply Forall_inv in Hb. exact Hb. }
  assert (Hsame : forall y, y ∈ ps -> touch m (same_cell m m1) y).
  { intros y Hy. apply (unseen m m1 (t, d, p) ps y Hf Hap). by apply list_elem_of_further. }
  assert (Hbuf : forall x, a <= x < a + n -> m1 !! x = m !! x).
  { intros x Hx. apply Hf. eapply touches_impl; [|exact Hrx]. intros y. by apply in_reach_misses. }
  destruct (IH (d + ser_size t) hi m1 Hps Hwfs Ho) as (m2 & Hruns & Hsa2 & Hf2 & Hg2); [lia|lia|by rewrite <- Hsa| |by apply (all_apart_tail m m1 (t, d, p) ps Hf Hap)|].
  { apply Forall_inv_tail in Hr. rewrite list.Forall_forall in *. intros y Hy. apply (touches_same _ m m1); [by apply Hsame|].
    eapply touches_impl; [|exact (Hr y Hy)]. intros x. by apply in_reach_same_alloc. }
  assert (Hback : forall P, Forall (touch m P) ps <-> Forall (touch m1 P) ps).
  { intros P. rewrite !list.Forall_forall. split; intros H y Hy; [apply (touches_same _ m m1)|apply (touches_same _ m m1)]; try (by apply Hsame); by apply H. }
  exists m2. split_and!; [by econstructor|by etrans| |].
  - intros x Hx. apply list.Forall_cons in Hx as [Hx1 Hx2]. rewrite Hf2 by (by apply Hback). by apply Hf.
  - constructor.
    + pose proof (touches_window _ _ _ _ _ Hwf Hgx) as Hw. eapply touches_impl; [|exact (touches_and _ _ _ _ _ _ (touches_and _ _ _ _ _ _ Hgx Hw) Hapx)].
      intros [c|b d' k]; [done|]. intros [[Hx Hwx] Hb] i Hi. simpl in Hx. rewrite Hf2; [by apply Hx|].
      apply Hback. apply Forall_inv_tail in Hb. eapply later_parts_miss; [exact Hwfs|exact Ho|exact Hwx|exact Hi|exact Hb].
    + rewrite list.Forall_forall in *. intros y Hy. specialize (Hg2 y Hy). unfold touch in Hg2. pose proof (touches_window _ _ _ _ _ (Hwfs y Hy) Hg2) as Hw.
      apply (touches_same _ m m1); [by apply Hsame|]. eapply touches_impl; [|exact (touches_and _ _ _ _ _ _ Hg2 Hw)].
      destruct (in_order_bounds ps y (d + ser_size t) hi) as [Hylo Hyhi]; [|done..|].
      { rewrite list.Forall_forall. intros z Hz. by apply wf_serial_size, Hwfs. }
      intros [c|b d' k]; simpl; [done|]. intros [Hx Hwx] i Hi. rewrite Hx by done. apply Hbuf. lia.
Qed.

Lemma deserialize_elements_run buf sub st d p n : ser_bytes sub = ser_size sub -> 0 <= ser_size sub -> forall k all m m',
  k + Z.of_nat n <= int_max -> 0 <= all -> all + Z.of_nat n * ser_bytes sub < size_modulus ->
  runs copy_back buf (map (fun k => (sub, d + k * ser_size sub, p + (st + k) * buffersize sub)) (seqZ k (Z.of_nat n))) m m' ->
  deserialize_elements (buffersize sub) (deserialize_copy sub) n k all m (p + (st + k) * buffersize sub) (buf + d + k * ser_size sub)
  = Ret (m', all + Z.of_nat n * ser_bytes sub).
Proof.
  intros Hb Hs. induction n as [|n IH]; intros k all m m' Hk Hall Hfit Hruns.
  { rewrite seqZ_nil in Hruns by lia. inversion Hruns; subst. simpl. by rewrite Z.add_0_r. }
  rewrite seqZ_cons in Hruns by lia. simpl in Hruns. inversion Hruns as [|t d0 p0 ps m0 m1 m2 Hrun Hrest]; subst.
  replace (Z.pred (Z.of_nat (S n))) with (Z.of_nat n) in Hrest by lia. replace (Z.succ k) with (k + 1) in Hrest by lia.
  cbn [deserialize_elements]. rewrite Z.add_assoc in Hrun. rewrite Hrun; simpl. rewrite size_add_small by (unfold is_size; lia).
  unfold int_incr. destruct (Z.eqb_spec k int_max); [lia|]. simpl.
  replace (buf + d + k * ser_size sub + ser_bytes sub) with (buf + d + (k + 1) * ser_size sub) by lia.
  replace (p + (st + k) * buffersize sub + buffersize sub) with (p + (st + (k + 1)) * buffersize sub) by lia.
  rewrite (IH (k + 1) (all + ser_bytes sub) m1 m') by (done || lia). f_equal. f_equal. lia.
Qed.

Lemma deserialize_parts_run {M} (offset : M -> Z) (type : M -> Datatype) buf d p ms : forall ms' all m m',
  Forall (fun mb => 0 <= ser_bytes (type mb)) ms -> 0 <= all -> length ms = length ms' ->
  all + foldr (fun mb r => ser_bytes (type mb) + r) 0 ms < size_modulus ->
  runs copy_back buf (components_at offset type d p ms (map offset ms')) m m' ->
  deserialize_parts offset (fun mb => deserialize_copy (type mb)) p (buf + d) ms ms' all m
  = Ret (m', all + foldr (fun mb r => ser_bytes (type mb) + r) 0 ms).
Proof.
  induction ms as [|mb ms IH]; intros [|mb' ms'] all m m' Hpos Hall Hlen Hfit Hruns; simpl in *; try done; inversion Hruns as [|t d0 p0 ps m0 m1 m2 Hrun Hrest]; subst.
  { by rewrite Z.add_0_r. }
  apply list.Forall_cons in Hpos as [Hb Hpos].
  assert (Hsum : 0 <= foldr (fun mb r => ser_bytes (type mb) + r) 0 ms) by (clear -Hpos; induction Hpos; simpl; lia).
  rewrite Z.add_assoc in Hrun. rewrite Hrun; simpl. rewrite size_add_small by (unfold is_size; lia).
  rewrite (IH ms' (all + ser_bytes (type mb)) m1 m') by (done || lia). f_equal. f_equal. lia.
Qed.

Lemma deserialize_copy_runs t m m' buf d p :
  wf_serial t = true -> solid t = true -> composite t = true ->
  runs copy_back buf (parts t d p) m m' -> deserialize_copy t m p (buf + d) = Ret (m', ser_bytes t).
Proof.
  intros Hwf Hso Hc Hruns. pose proof (ser_bytes_le t Hwf) as Hb. pose proof (wf_serial_size t Hwf) as Hs.
  destruct t as [| a sub s st ss| a ms b| a es b|]; try done; simpl in Hwf, Hso; bools.
  - pose proof (wf_serial_size sub ltac:(done)) as Hss. destruct (serialize_type_ok sub ltac:(done)) as [t' [Hr _ _ _ _]].
    cbn [deserialize_copy]. unfold deserialize_array_copy. rewrite Hr; simpl. rewrite size_mul_small by done.
    pose proof (deserialize_elements_run buf sub st d p (Z.to_nat ss) ltac:(done) (proj1 Hss) 0 0 m m') as Hrun.
    rewrite Z2Nat.id, Z.mul_0_l, !Z.add_0_r, !Z.add_0_l in Hrun by done. simpl in Hb, Hs. apply Hrun; [lia|lia|lia|exact Hruns].
  - unfold is_size in *. destruct (serialize_type_offsets member_displacement member_type set_member ms) as (ms' & b' & Hr & Ho & Hlen); try done; [simpl in Hs; unfold ser_max, ser_comps; lia|].
    change (deserialize_copy (Record_datatype a ms b) m p (buf + d)) with
      (t' ← serialize_type (Record_datatype a ms b); ms' ← members_of t'; deserialize_parts member_displacement (fun mb => deserialize_copy (member_type mb)) p (buf + d) ms ms' 0 m).
    rewrite serialize_type_record, Hr. simpl in Hruns. rewrite <- Ho in Hruns. simpl.
    apply (deserialize_parts_run member_displacement member_type buf d p ms ms' 0 m m'); [|lia|done|simpl in *; lia|done].
    eapply list.Forall_impl; [exact H|]. intros mb Hmb. by apply ser_bytes_le.
  - unfold is_size in *. destruct (serialize_type_offsets element_offset element_type set_element es) as (es' & b' & Hr & Ho & Hlen); try done; [simpl in Hs; unfold ser_max, ser_comps; lia|].
    change (deserialize_copy (Tuple_datatype a es b) m p (buf + d)) with
      (t' ← serialize_type (Tuple_datatype a es b); es' ← elements_of t'; deserialize_parts element_offset (fun e => deserialize_copy (element_type e)) p (buf + d) es es' 0 m).
    rewrite serialize_type_tuple, Hr. simpl in Hruns. rewrite <- Ho in Hruns. simpl.
    apply (deserialize_parts_run element_offset element_type buf d p es es' 0 m m'); [|lia|done|simpl in *; lia|done].
    eapply list.Forall_impl; [exact H|]. intros e He. by apply ser_bytes_le.
Qed.

Lemma separate_parts t m d p : composite t = true -> separate t m d p -> all_apart m (parts t d p).
Proof.
  intros Hc Hs. unfold separate in Hs. rewrite touches_parts in Hs by done. unfold all_apart. eapply list.Forall_impl; [exact Hs|].
  intros x Hx. eapply touches_impl; [|exact Hx]. intros b. by rewrite touches_parts.
Qed.

Lemma scatters_ok t : wf_serial t = true -> solid t = true -> scatters t.
Proof.
  induction t as [a k s al ds c dd|a sub c dd IH|t Ht IH] using parts_ind; intros Hwf Hso m buf d p Hbuf Hr Hsep.
  - simpl in Hr, Hbuf. destruct Hr as [Hp Hd]. pose proof (wf_serial_size _ Hwf) as Hs. simpl in Hs.
    destruct (memcpy_ok m p (buf + d) ds) as (m' & Hc & Hsa & Hf & Hm'); [lia|done|done|unfold disjoint_ranges in *; lia|].
    exists m'. simpl. rewrite Hc. split_and!; [done..| |exact Hm']. intros x Hx. apply Hf. lia.
  - simpl in Hr, Hbuf. destruct Hr as (q & Hq & Hcell & Hs).
    assert (Hsub : separate sub m d q).
    { destruct Hsep as (q' & Hq' & _ & Hs'). rewrite Hq in Hq'. injection Hq' as <-. eapply touches_impl; [|exact Hs'].
      intros x (q' & Hq' & _ & Hx). rewrite Hq in Hq'. by injection Hq' as <-. }
    destruct (IH Hwf Hso m buf d q Hbuf Hs Hsub) as (m' & Hrun & Hsa & Hf & Hg).
    exists m'. simpl. rewrite Hq; simpl. split_and!; [done..| |by exists q]. intros x (q' & [= <-] & _ & Hx). by apply Hf.
  - destruct (scatter_parts buf (buf + d) (ser_size t) (parts t d p) d (d + ser_size t) m) as (m' & Hruns & Hsa & Hf & Hg).
    + rewrite list.Forall_forall. intros x Hx. destruct (parts_ok t d p x Hwf Hso Hx). by apply (IH d p x Hx).
    + rewrite list.Forall_forall. intros x. by apply parts_wf.
    + by apply parts_in_order.
    + lia.
    + lia.
    + done.
    + by apply touches_parts.
    + by apply separate_parts.
    + exists m'. split_and!; [by apply deserialize_copy_runs|done| |by apply touches_parts].
      intros x Hx. apply Hf. by apply touches_parts.
Qed.

(** * The number of bytes *)

(** Scalars that are as large in dense form as in memory. *)
Fixpoint even_scalars (t : Datatype) : bool :=
  match t with
  | Scalar_datatype _ _ s _ ds _ _ => s =? ds
  | Array_datatype _ sub _ _ _ | Pointer_datatype _ sub _ _ => even_scalars sub
  | Record_datatype _ ms _ => forallb (fun m => even_scalars (member_type m)) ms
  | Tuple_datatype _ es _ => forallb (fun e => even_scalars (element_type e)) es
  end.

Lemma sum_datasize {M} (type : M -> Datatype) ms ms' : forall r,
  Forall2 (fun m m' => datasize (type m') = ser_bytes (type m) /\ 0 <= ser_bytes (type m)) ms ms' ->
  0 <= r -> r + foldr (fun m r => ser_bytes (type m) + r) 0 ms < size_modulus ->
  foldl (fun result m => result +s datasize (type m)) r ms' = r + foldr (fun m r => ser_bytes (type m) + r) 0 ms.
Proof.
  intros r H. revert r. induction H as [|m m' ms ms' [Hm Hpos] Hms IH]; intros r Hr Hfit; simpl in *; [lia|].
  assert (0 <= foldr (fun m r => ser_bytes (type m) + r) 0 ms) by (clear -Hms; induction Hms as [|? ? ? ? [? ?]]; simpl; lia).
  rewrite Hm, size_add_small by (unfold is_size; lia). rewrite IH by lia. lia.
Qed.

Lemma serialized_datasize t t' : wf_serial t = true -> even_scalars t = true -> serialize_type t = Ret t' -> datasize t' = ser_bytes t.
Proof.
  assert (Hcomp : forall {M} (offset : M -> Z) (type : M -> Datatype) (mk : M -> Z -> Datatype -> M) ms ms' b,
    (forall m o t, offset (mk m o t) = o) -> (forall m o t, type (mk m o t) = t) -> (forall m o t, mk (mk m o t) o t = mk m o t) ->
    Forall (fun m => forall t', wf_serial (type m) = true -> even_scalars (type m) = true -> serialize_type (type m) = Ret t' -> datasize t' = ser_bytes (type m)) ms ->
    Forall (fun m => wf_serial (type m) = true) ms -> Forall (fun m => even_scalars (type m) = true) ms -> ms <> [] ->
    align_up (ser_max type ms) (pack_end 0 (ser_comps type ms)) < size_modulus -> foldr (fun m r => ser_bytes (type m) + r) 0 ms < size_modulus ->
    serialize_composite type mk ms = Ret (ms', b) ->
    foldl (fun result m => result +s datasize (type m)) 0 ms' = foldr (fun m r => ser_bytes (type m) + r) 0 ms).
  { intros M offset type mk ms ms' b H1 H2 H3 IH Hwf He Hne Hfit Hb Hrun.
    destruct (serialize_composite_ok offset type mk H1 H2 H3 ms) as (ms'' & Hr & _ & _ & _ & Hall & _); [|done..|].
    - rewrite list.Forall_forall in *. intros m Hm. split; [auto|]. apply serialize_type_ok. auto.
    - rewrite Hr in Hrun. injection Hrun as -> _. rewrite (sum_datasize type ms ms' 0); [lia| |lia|lia].
      clear -IH Hwf He Hall. induction Hall as [|m m' ms ms' [Hr _ _ _ _] Hall IHall]; constructor;
        apply list.Forall_cons in IH as [? ?], Hwf as [? ?], He as [? ?]; [|auto]. split; [auto|by apply ser_bytes_le]. }
  revert t'. induction t as [a k s al ds c d|a t s st ss IH|a ms b IH|a es b IH|a t c d IH] using Datatype_nested_ind; intros t' Hwf He Hr;
    pose proof (ser_bytes_le _ Hwf) as Hb; pose proof (wf_serial_size _ Hwf) as Hs.
  - simpl in *. injection Hr as <-. simpl. lia.
  - simpl in *. bools. destruct (serialize_type_ok t H) as [t1 [Hr1 _ _ _ _]]. rewrite Hr1 in Hr. injection Hr as <-. simpl.
    rewrite (IH t1) by done. pose proof (ser_bytes_le _ H). apply size_mul_small. unfold is_size. lia.
  - rewrite serialize_type_record in Hr. destruct (serialize_composite member_type set_member ms) as [[ms' b']| |] eqn:Hc; try done.
    injection Hr as <-. simpl in *. bools. by apply (Hcomp _ member_displacement member_type set_member ms ms' b'); try done; unfold ser_max, ser_comps; lia.
  - rewrite serialize_type_tuple in Hr. destruct (serialize_composite element_type set_element es) as [[es' b']| |] eqn:Hc; try done.
    injection Hr as <-. simpl in *. bools. by apply (Hcomp _ element_offset element_type set_element es es' b'); try done; unfold ser_max, ser_comps; lia.
  - simpl in *. auto.
Qed.

(** ** What the copies return *)

(** A copy that returns has copied [n] bytes. *)
Definition counts (copy : mem -> Z -> Z -> outcome (mem * Z)) (n : Z) : Prop :=
  forall m to from m' k, copy m to from = Ret (m', k) -> k = n.

Lemma serialize_elements_count bs copy b n : counts copy b -> 0 <= b -> forall all m to from m' k,
  0 <= all -> all + Z.of_nat n * b < size_modulus -> serialize_elements bs copy n all m to from = Ret (m', k) -> k = all + Z.of_nat n * b.
Proof.
  intros Hc Hb. induction n as [|n IH]; intros all m to from m' k Hall Hfit; cbn [serialize_elements]; [intros [= _ <-]; lia|].
  destruct (copy m to from) as [[m1 c]| |] eqn:Hrun; [|done..]. apply Hc in Hrun as ->. cbn [mbind outcome_bind].
  rewrite size_add_small by (unfold is_size; nia). intros Hk. apply IH in Hk; nia.
Qed.

Lemma deserialize_elements_count bs copy b n : counts copy b -> 0 <= b -> forall i all m to from m' k,
  0 <= all -> all + Z.of_nat n * b < size_modulus -> deserialize_elements bs copy n i all m to from = Ret (m', k) -> k = all + Z.of_nat n * b.
Proof.
  intros Hc Hb. induction n as [|n IH]; intros i all m to from m' k Hall Hfit; cbn [deserialize_elements]; [intros [= _ <-]; lia|].
  destruct (copy m to from) as [[m1 c]| |] eqn:Hrun; [|done..]. apply Hc in Hrun as ->. cbn [mbind outcome_bind].
  destruct (int_incr i) as [i'| |]; [|done..]. cbn [mbind outcome_bind]. rewrite size_add_small by (unfold is_size; nia). intros Hk. apply IH in Hk; nia.
Qed.

Section parts_count.
  Context {M : Type} (offset : M -> Z) (copy : M -> mem -> Z -> Z -> outcome (mem * Z)) (bytes : M -> Z).

Abbreviation total ms := (foldr (fun mb r => bytes mb + r) 0 ms).

Lemma parts_count ms : Forall (fun mb => counts (copy mb) (bytes mb) /\ 0 <= bytes mb) ms -> forall to from ms' all m m' k,
  0 <= all -> all + total ms < size_modulus ->
  serialize_parts offset copy to from ms ms' all m = Ret (m', k) \/ deserialize_parts offset copy to from ms ms' all m = Ret (m', k) -> k = all + total ms.
Proof.
  intros Hms to from. induction Hms as [|mb ms [Hc Hb] Hms IH]; intros ms' all m m' k Hall Hfit; cbn [serialize_parts deserialize_parts foldr] in *.
  { intros [[= _ <-]|[= _ <-]]; lia. }
  assert (0 <= total ms) by (clear -Hms; induction Hms as [|? ? [_ ?] _ ?]; simpl; lia).
  destruct ms' as [|mb' ms']; [by intros [?|?]|]. intros [Hrun|Hrun].
  - destruct (copy mb m (to + offset mb') (from + offset mb)) as [[m1 c]| |] eqn:Hcp; [|done..]. apply Hc in Hcp as ->. cbn [mbind outcome_bind] in Hrun.
    rewrite size_add_small in Hrun by (unfold is_size; lia). eapply or_introl, IH in Hrun; lia.
  - destruct (copy mb m (to + offset mb) (from + offset mb')) as [[m1 c]| |] eqn:Hcp; [|done..]. apply Hc in Hcp as ->. cbn [mbind outcome_bind] in Hrun.
    rewrite size_add_small in Hrun by (unfold is_size; lia). eapply or_intror, IH in Hrun; lia.
Qed.

End parts_count.

(** A record or a tuple, whose serialized components are given by [o]. *)
Lemma composite_count {M} (offset : M -> Z) (type : M -> Datatype) (o : outcome (list M)) ms :
  Forall (fun mb => wf_serial (type mb) = true -> counts (serialize_copy (type mb)) (ser_bytes (type mb)) /\ counts (deserialize_copy (type mb)) (ser_bytes (type mb))) ms ->
  Forall (fun mb => wf_serial (type mb) = true) ms -> foldr (fun mb r => ser_bytes (type mb) + r) 0 ms < size_modulus ->
  counts (fun m to from => ms' ← o; serialize_parts offset (fun mb => serialize_copy (type mb)) to from ms ms' 0 m) (foldr (fun mb r => ser_bytes (type mb) + r) 0 ms) /\
  counts (fun m to from => ms' ← o; deserialize_parts offset (fun mb => deserialize_copy (type mb)) to from ms ms' 0 m) (foldr (fun mb r => ser_bytes (type mb) + r) 0 ms).
Proof.
  intros IH Hwf Hfit. rewrite list.Forall_forall in IH, Hwf. split; intros m to from m' n; (destruct o as [ms'| |]; [|done..]); cbn [mbind outcome_bind]; intros Hk.
  - eapply or_introl, (parts_count offset (fun mb => serialize_copy (type mb)) (fun mb => ser_bytes (type mb))) in Hk; [lia| |lia|lia].
    apply list.Forall_forall. intros mb Hmb. split; [by apply IH; [|apply Hwf]|]. by apply ser_bytes_le, Hwf.
  - eapply or_intror, (parts_count offset (fun mb => deserialize_copy (type mb)) (fun mb => ser_bytes (type mb))) in Hk; [lia| |lia|lia].
    apply list.Forall_forall. intros mb Hmb. split; [by apply IH; [|apply Hwf]|]. by apply ser_bytes_le, Hwf.
Qed.

Lemma copies_count t : wf_serial t = true -> counts (serialize_copy t) (ser_bytes t) /\ counts (deserialize_copy t) (ser_bytes t).
Proof.
  induction t as [a k s al ds c d|a t s st ss IH|a ms b IH|a es b IH|a t c d IH] using Datatype_nested_ind; intros Hwf;
    pose proof (ser_bytes_le _ Hwf) as Hb; pose proof (wf_serial_size _ Hwf) as Hs; simpl in Hwf, Hb, Hs; bools.
  - split; intros m to from m' n; simpl; (destruct (memcpy m to from ds); [|done..]); by intros [= _ <-].
  - destruct (IH H) as [Hc1 Hc2]. pose proof (ser_bytes_le _ H) as Hbt.
    split; intros m to from m' n; simpl; (destruct (serialize_type t) as [t'| |]; [|done..]); cbn [mbind outcome_bind].
    + destruct (std_align _ _ _ _) as [q| |]; [|done..]. cbn [mbind outcome_bind]. intros Hk.
      apply (serialize_elements_count _ _ (ser_bytes t)) in Hk; [|done|lia..|]; rewrite ?Z2Nat.id in * by done; lia.
    + intros Hk. apply (deserialize_elements_count _ _ (ser_bytes t)) in Hk; [|done|lia..|]; rewrite ?Z2Nat.id in * by done; lia.
  - destruct (composite_count member_displacement member_type (t' ← serialize_type (Record_datatype a ms b); members_of t') ms IH) as [Hc1 Hc2]; [done|lia|].
    split; intros m to from m' n Hk; [apply (Hc1 m to from m')|apply (Hc2 m to from m')]; rewrite <- Hk; by destruct (serialize_type (Record_datatype a ms b)) eqn:Hst; cbn in Hst |- *; rewrite Hst.
  - destruct (composite_count element_offset element_type (t' ← serialize_type (Tuple_datatype a es b); elements_of t') es IH) as [Hc1 Hc2]; [done|lia|].
    split; intros m to from m' n Hk; [apply (Hc1 m to from m')|apply (Hc2 m to from m')]; rewrite <- Hk; by destruct (serialize_type (Tuple_datatype a es b)) eqn:Hst; cbn in Hst |- *; rewrite Hst.
  - destruct (IH Hwf) as [Hc1 Hc2]. split; intros m to from m' n; simpl; (destruct (load_pointer m _) as [q| |]; [|done..]); cbn [mbind outcome_bind]; [apply Hc1|apply Hc2].
Qed.

(** * Theorems *)

(** C32: [serialize_type] succeeds on every type whose sizes fit, whose alignments
    are powers of two and whose records and tuples have components; its result has no
    pointers, the size and alignment of the packed reference layout, and is left as it
    is when serialized again; and when the scalars are as large in dense form as in
    memory its data size is what [serialize_copy] and [deserialize_copy] return
    whenever they return, which is what the plugin checks. *)
Theorem serialize_type_correct t :
  wf_serial t = true ->
  exists t', serialize_type t = Ret t' /\ pointer_free t' = true /\ buffersize t' = ser_size t /\ alignment t' = ser_align t /\
    serialize_type t' = Ret t' /\
    (even_scalars t = true -> forall m to from m' n,
       serialize_copy t m to from = Ret (m', n) \/ deserialize_copy t m to from = Ret (m', n) -> n = datasize t').
Proof.
  intros Hwf. destruct (serialize_type_ok t Hwf) as [t' [Hr Hs Ha Hg Hf]]. exists t'. split_and!; [done..|].
  intros He m to from m' n Hn. destruct (copies_count t Hwf) as [H1 H2]. rewrite (serialized_datasize t t' Hwf He Hr).
  destruct Hn as [Hn|Hn]; [by apply H1 in Hn|by apply H2 in Hn].
Qed.

(** What is at a block in [m] is there in [m']. *)
Definition recovered (m m' : mem) (x : piece) : Prop :=
  match x with Cell _ => True | Block a _ n => forall i, 0 <= i < n -> m' !! (a + i) = m !! (a + i) end.

(** C31: for a type whose arrays have elements without padding ([solid]; the bytes of
    the element are its size in the serialized layout, a multiple of its alignment),
    serializing into an aligned buffer, then deserializing what is in the buffer,
    restores the data: [serialize_copy] changes nothing outside the buffer, and
    whatever happens to the data meanwhile, as long as the buffer and the pointers
    are kept, [deserialize_copy] writes back every byte the data had, following the
    pointers, and nothing else.  The buffer and the data, pointed data included, are
    allocated and apart from each other. *)
Theorem serialize_round_trip t m buf p :
  wf_serial t = true -> solid t = true -> (ser_align t | buf) -> allocated m buf (ser_size t) ->
  touches t m (in_reach m buf (ser_size t)) 0 p -> separate t m 0 p ->
  exists m1, serialize_copy t m buf p = Ret (m1, ser_bytes t) /\ frame m m1 buf (ser_size t) /\
    forall m2, same_alloc m1 m2 -> recovered m1 m2 (Block buf 0 (ser_size t)) -> touches t m (same_cell m m2) 0 p ->
      exists m3, deserialize_copy t m2 p buf = Ret (m3, ser_bytes t) /\ touches t m (recovered m m3) 0 p /\
        forall x, touches t m (misses x) 0 p -> m3 !! x = m2 !! x.
Proof.
  intros Hwf Hso Hal Hbuf Hr Hsep.
  destruct (gathers_ok t Hwf Hso m buf 0 p) as (m1 & Hrun & Hsa & Hf & Hg); rewrite ?Z.add_0_r in *; [done..|].
  exists m1. split_and!; [done..|]. intros m2 Hsa2 Hb2 Hc2.
  assert (Hr2 : touches t m2 (in_reach m2 buf (ser_size t)) 0 p).
  { apply (touches_same t m m2); [done|]. eapply touches_impl; [|exact Hr]. intros x. apply in_reach_same_alloc. by etrans. }
  assert (Hsep2 : separate t m2 0 p).
  { apply (touches_same t m m2); [done|]. eapply touches_impl; [|exact Hsep]. intros x. by apply (touches_same t m m2). }
  destruct (scatters_ok t Hwf Hso m2 buf 0 p) as (m3 & Hrun3 & _ & Hf3 & Hs3); rewrite ?Z.add_0_r in *; [|done..|].
  { rewrite <- Hsa2, <- Hsa. exact Hbuf. }
  exists m3. split_and!; [done| |].
  - apply (touches_same t m m2) in Hs3; [|done]. pose proof (touches_window _ _ _ _ _ Hwf Hr) as Hw.
    eapply touches_impl; [|exact (touches_and _ _ _ _ _ _ (touches_and _ _ _ _ _ _ Hs3 Hg) Hw)].
    intros [c|a d n]; simpl; [done|]. intros [[Hx Hy] Hwin] i Hi. rewrite Hx, <- Hy by done. simpl in Hb2.
    specialize (Hb2 (d + i)). rewrite Z.add_assoc in Hb2. apply Hb2. lia.
  - intros x Hx. apply Hf3. by apply (touches_same t m m2).
Qed.

(** The elements of an array are serialized one after the other by the
    number of bytes copied, so that on an array of padded records the second
    record starts inside the first one and overwrites its integer, although the
    count of bytes that the plugin checks is right. *)
Theorem serialize_corrupts_padded_records :
  serialize_type padded_array = Ret padded_array /\
  exists m', serialize_copy padded_array padded_array_memory 128 64 = Ret (m', datasize padded_array) /\
    padded_array_memory !! (64 + 5) = Some 6 /\ m' !! (128 + 5) = Some 9.
Proof. split; [by vm_compute|]. eexists. split; [by vm_compute|]. split; by vm_compute. Qed.

(** ** A record with a pointer *)

Definition small_int : Datatype := Scalar_datatype [] SIGNED 4 4 4 None None.

(** An integer and a pointer to the middle two of four integers. *)
Definition linked_record : Datatype :=
  Record_datatype []
    [mkMember 0 small_int "n"; mkMember 8 (Pointer_datatype [] (Array_datatype [] small_int 4 1 2) None None) "p"] 16.

Definition linked_memory : mem :=
  bytes_at 64 [1; 2; 3; 4; 0; 0; 0; 0; 96; 0; 0; 0; 0; 0; 0; 0] ∪ bytes_at 96 (seqZ 10 16) ∪ bytes_at 128 (replicate 12 0).

Lemma linked_pieces (P : piece -> Prop) :
  P (Block 64 0 4) -> P (Cell 72) -> P (Block 100 4 4) -> P (Block 104 8 4) -> touches linked_record linked_memory P 0 64.
Proof.
  intros H1 H2 H3 H4. split; [exact H1|]. split; [|done]. exists 96. split; [by vm_compute|]. split; [exact H2|].
  intros k Hk. assert (k = 0 \/ k = 1) as [-> | ->] by lia; [exact H3|exact H4].
Qed.

Lemma serialize_type_correct_witness :
  wf_serial linked_record = true /\ ser_size linked_record = 12 /\
  exists t', serialize_type linked_record = Ret t' /\ pointer_free t' = true /\ buffersize t' = 12 /\ alignment t' = 4 /\
    serialize_type t' = Ret t' /\
    (even_scalars linked_record = true -> forall m to from m' n,
       serialize_copy linked_record m to from = Ret (m', n) \/ deserialize_copy linked_record m to from = Ret (m', n) -> n = datasize t').
Proof. split; [by vm_compute|]. split; [by vm_compute|]. apply (serialize_type_correct linked_record). by vm_compute. Defined.

Lemma serialize_round_trip_witness :
  wf_serial linked_record = true /\
  exists m1, serialize_copy linked_record linked_memory 128 64 = Ret (m1, 12) /\ frame linked_memory m1 128 12 /\
    forall m2, same_alloc m1 m2 -> recovered m1 m2 (Block 128 0 12) -> touches linked_record linked_memory (same_cell linked_memory m2) 0 64 ->
      exists m3, deserialize_copy linked_record m2 64 128 = Ret (m3, 12) /\ touches linked_record linked_memory (recovered linked_memory m3) 0 64 /\
        forall x, touches linked_record linked_memory (misses x) 0 64 -> m3 !! x = m2 !! x.
Proof.
  split; [by vm_compute|]. apply (serialize_round_trip linked_record linked_memory 128 64).
  - by vm_compute.
  - by vm_compute.
  - by exists 32.
  - apply allocatedb_ok. by vm_compute.
  - apply linked_pieces; simpl; unfold disjoint_ranges; try (split; [apply allocatedb_ok; by vm_compute|]); vm_compute; intuition congruence.
  - apply linked_pieces; apply linked_pieces; simpl; unfold disjoint_ranges; lia.
Defined.
