(* ===== verification/SerializePlugin.v ===== *)
(** The callbacks of the Serialize plugin ([plugins/serialize/serialize.cxx]): sharing
    a serialized copy next to the data, and bringing it back when the data goes. *)

From S2P Require Import Prelude Error Effect ExprSyntax Datatype Layout Memory DenseCopy DenseCopyFacts Access Ref RefInv RefOps RefTheorems RefCopy Numeric Parse Yaml Template GlobalContext Eval Serialize Includes StringTools PluginStore Init Share Api.

(** The members of [serialize_plugin]; the entries of the vector are the name, the
    iterator that the function erases and the rights. *)
Record serialize_plugin := mkSerialize {
  m_desc_to_serialize : gmap string string;
  m_serialized_remove_callback : list (string * nat * Z)
}.

(** The plugins include this one, whose lambdas have handles. *)
Class SerializeHost (W : Type) := {
  serialize_state : W -> serialize_plugin;
  set_serialize_state : serialize_plugin -> W -> W;
  on_share_serialized : Z;
  on_release_serialized : Z;
  state_set : forall s w, serialize_state (set_serialize_state s w) = s
}.

Definition PDI_INOUT : Z := Z.lor PDI_IN PDI_OUT.

(** [[](void* p) { operator delete (p); }] *)
Definition delete_serialized : Z := -5.

Section handlers.
  Context {W : Type} {RT : Runtime W} {SH : SerializeHost W}.

Abbreviation G := (M (global W)).

Definition plugin : G serialize_plugin := gets (fun g => serialize_state (g_world g)).
Definition set_plugin (s : serialize_plugin) : G unit := modify (fun g => set_world (set_serialize_state s (g_world g)) g).

(** [m_desc_to_serialize[desc_name]], which adds what it does not find. *)
Definition serialized_name_of (desc_name : string) : G string :=
  s ← plugin;
  match m_desc_to_serialize s !! desc_name with
  | Some name => mret name
  | None => set_plugin (mkSerialize (<[desc_name := ""]> (m_desc_to_serialize s)) (m_serialized_remove_callback s));; mret ""
  end.

Definition new_serialized (serialized_type : Datatype) (readable writable : bool) : G nat :=
  p ← on_mem (fun m => Ret (operator_new m (buffersize serialized_type)));
  on_store (new_ref false false p delete_serialized serialized_type readable writable).

(** Sharing the copy, and registering its removal. *)
Definition share_copy (desc_name serialized_name : string) (serialized_ref : nat) (read : bool) (inout : Z) : G unit :=
  desc serialized_name;;
  with_ref (ref_copy false false serialized_ref) (fun arg => share_ref serialized_name arg read false);;
  remove_callback ← on_data_remove on_release_serialized desc_name;
  s ← plugin;
  set_plugin (mkSerialize (m_desc_to_serialize s) (m_serialized_remove_callback s ++ [(serialized_name, remove_callback, inout)])).

(** The copy through [from_ref], which can be read; [eol] ends the message. *)
Definition copy_to_serialized (desc_name eol : string) (type serialized_type : Datatype) (serialized_ref from_ref : nat) : G unit :=
  bytes_copied ← with_ref (ref_copy false true serialized_ref) (fun w =>
    to ← ref_get w; from ← ref_get from_ref; on_mem (fun m => '(m, n) ← serialize_copy type m to from; Ret (n, m)));
  if negb (bytes_copied =? datasize serialized_type) then
    throw (Value_error ("Serialize plugin: `" +:+ desc_name +:+ "' Serialized " +:+ pretty bytes_copied +:+ " B of "
                        +:+ pretty (buffersize serialized_type) +:+ " B" +:+ eol))
  else mret tt.

Definition share_readable (desc_name serialized_name : string) (type serialized_type : Datatype) (from_ref : nat) (read : bool) (inout : Z) : G unit :=
  with_ref (new_serialized serialized_type true true) (fun serialized_ref =>
    copy_to_serialized desc_name (if read then " " else "") type serialized_type serialized_ref from_ref;;
    share_copy desc_name serialized_name serialized_ref read inout).

Definition share_serialized (desc_name : string) (ref : nat) : G unit :=
  timed "serialize" (
    serialized_name ← serialized_name_of desc_name;
    type ← ref_type ref;
    serialized_type ← lift (serialize_type type);
    with_ref (ref_copy true true ref) (fun ref_rw =>
      n ← ref_is_null ref_rw;
      if negb n then share_readable desc_name serialized_name type serialized_type ref_rw false PDI_INOUT
      else with_ref (ref_copy true false ref) (fun ref_r =>
        n ← ref_is_null ref_r;
        if negb n then share_readable desc_name serialized_name type serialized_type ref_r true PDI_OUT
        else with_ref (ref_copy false true ref) (fun ref_w =>
          n ← ref_is_null ref_w;
          if negb n then
            with_ref (new_serialized serialized_type false true) (fun serialized_ref =>
              share_copy desc_name serialized_name serialized_ref false PDI_IN)
          else mret tt)))).

(** The last entry of that name. *)
Fixpoint last_entry (serialized_name : string) (i : nat) (l : list (string * nat * Z)) : option (nat * nat * Z) :=
  match l with
  | [] => None
  | (name, it, inout) :: l =>
      match last_entry serialized_name (S i) l with
      | Some x => Some x
      | None => if bool_decide (name = serialized_name) then Some (i, it, inout) else None
      end
  end.

(** Writing the serialized data back. *)
Definition copy_from_serialized (desc_name serialized_name : string) (ref : nat) : G unit :=
  with_ref (ref_copy false true ref) (fun ref_w =>
    n ← ref_is_null ref_w;
    if n : bool then throw (Permission_error ("Serialize plugin: Cannot get write access to data: " +:+ desc_name))
    else
      desc serialized_name;;
      with_ref (with_ref (GlobalContext.ref serialized_name) (ref_copy false true)) (fun serialized_ref =>
        n ← ref_is_null serialized_ref;
        if n : bool then throw (Permission_error ("Serialize plugin: Cannot get write access to serialized data: " +:+ serialized_name))
        else
          type ← ref_type ref;
          to ← ref_get ref_w; from ← ref_get serialized_ref;
          bytes_copied ← on_mem (fun m => '(m, n) ← deserialize_copy type m to from; Ret (n, m));
          serialized_type ← ref_type serialized_ref;
          if negb (bytes_copied =? datasize serialized_type) then
            throw (Value_error ("Serialize plugin: `" +:+ desc_name +:+ "' Deserialized " +:+ pretty bytes_copied +:+ " B of "
                                +:+ pretty (datasize serialized_type) +:+ " B"))
          else mret tt)).

Definition release_serialized (desc_name : string) (ref : nat) : G unit :=
  serialized_name ← serialized_name_of desc_name;
  s ← plugin;
  match last_entry serialized_name 0 (m_serialized_remove_callback s) with
  | None => throw (Value_error ("Serialize plugin: Cannot release not shared serialized data: " +:+ serialized_name))
  | Some (i, it, inout) =>
      remove_callback On_data_remove it;;
      (if has inout PDI_IN then copy_from_serialized desc_name serialized_name ref else mret tt);;
      desc serialized_name;; release_desc serialized_name;;
      s ← plugin;
      assert (i <? length (m_serialized_remove_callback s))%nat;;
      set_plugin (mkSerialize (m_desc_to_serialize s) (delete i (m_serialized_remove_callback s)))
  end.

Definition load_config (config : PC_tree) : G unit :=
  n ← lift (len config);
  iter (fun i _ =>
    desc_name ← lift (Yaml.to_string (get_nth_key config i));
    serialized_name ← lift (Yaml.to_string (get_nth_value config i));
    s ← plugin;
    set_plugin (mkSerialize (match m_desc_to_serialize s !! desc_name with
                             | Some _ => m_desc_to_serialize s
                             | None => <[desc_name := serialized_name]> (m_desc_to_serialize s)
                             end) (m_serialized_remove_callback s));;
    on_data on_share_serialized desc_name;; mret tt) (seq 0 n) tt.

End handlers.
