(* ===== verification/SerializeRun.v ===== *)
(** Runs of the Serialize plugin in a context where it is the only plugin. *)

From S2P Require Import Prelude Error Effect ExprSyntax Datatype Layout Memory DenseCopy DenseCopyFacts RoundTrip Access Ref RefInv RefOps RefTheorems RefCopy Numeric Parse Yaml Template GlobalContext Eval Serialize SerializeFacts Includes StringTools PluginStore Init Share Api SerializePlugin.

#[export] Instance serialize_host : SerializeHost serialize_plugin := {|
  serialize_state := id;
  set_serialize_state := fun s _ => s;
  on_share_serialized := 1;
  on_release_serialized := 2;
  state_set := fun s w => eq_refl
|}.

(** The callbacks of the plugin, which call the library, which calls them: [depth]
    bounds the nesting. *)
Fixpoint serialize_callbacks (depth : nat) (callback : Z) (name : string) (arg : option nat) : M (global serialize_plugin) unit :=
  match depth, arg with
  | S depth, Some r =>
      if callback =? on_share_serialized then share_serialized (RT := runtime_with even_allocator (serialize_callbacks depth)) name r
      else if callback =? on_release_serialized then release_serialized (RT := runtime_with even_allocator (serialize_callbacks depth)) name r
      else lift Crash
  | _, _ => lift Crash
  end.

#[export] Instance serialize_runtime : Runtime serialize_plugin := runtime_with even_allocator (serialize_callbacks 4).

(** * A run *)

Definition config_tree : PC_tree := mkTree None (YMapping no_region [(YScalar no_region "data", YScalar no_region "copy")]).

Definition linked_descriptor : Descriptor := mkDescriptor (Datatype_as_template linked_record) false [].

Definition serialize_global : global serialize_plugin :=
  mkGlobal empty_store (bytes_at 64 [1; 2; 3; 4; 0; 0; 0; 0; 96; 0; 0; 0; 0; 0; 0; 0] ∪ bytes_at 96 (seqZ 10 16)) ∅
    {["data" := linked_descriptor]} (fun _ => mkRegistry [] []) 0 (mkSerialize ∅ []).

Definition state_of {A} (o : exec (global serialize_plugin) A) : global serialize_plugin :=
  match o with Done _ g | Thrown _ g => g | Crashed => serialize_global end.
Definition result_of {A} (o : exec (global serialize_plugin) A) : option A := match o with Done a _ => Some a | _ => None end.

(** The plugin is loaded and the data is shared for reading and writing. *)
Definition shared_run : exec (global serialize_plugin) unit := (load_config config_tree;; share_data "data" 64 true true) serialize_global.
Definition shared_global : global serialize_plugin := state_of shared_run.

(** The serialized copy, at address 112, is overwritten, and the data reclaimed. *)
Definition written_memory : mem := default ∅ (Memory.store (g_mem shared_global) 112 (seqZ 30 12)).
Definition reclaimed_run : exec (global serialize_plugin) Z := reclaim "data" (set_mem written_memory shared_global).
Definition reclaimed_global : global serialize_plugin := state_of reclaimed_run.

(** What is written to the copy comes to the data, pointed data included, and the
    copy is gone. *)
Example written_copy_comes_back :
  result_of shared_run = Some tt /\ load (g_mem shared_global) 112 12 = Some [1; 2; 3; 4; 14; 15; 16; 17; 18; 19; 20; 21] /\
  result_of reclaimed_run = Some 64 /\
  load (g_mem reclaimed_global) 64 4 = Some (seqZ 30 4) /\ load (g_mem reclaimed_global) 100 8 = Some (seqZ 34 8) /\
  m_refs <$> m_descriptors reclaimed_global !! "copy" = Some [] /\ m_serialized_remove_callback (g_world reclaimed_global) = [].
Proof. split_and!; vm_compute; reflexivity. Qed.

Definition accessed_run : exec (global serialize_plugin) Z := access_data "data" true false shared_global.

(** The plugin registers one removal callback per share of the same data,
    and each of them erases the last one: after an ordinary access to shared data,
    the first callback erases the second one, which the library then calls. *)
Theorem nested_access_calls_an_erased_callback :
  result_of accessed_run = Some 64 /\
  named (m_callbacks (state_of accessed_run) On_data_remove) =
    [(1%nat, "data", on_release_serialized); (2%nat, "data", on_release_serialized)] /\
  release_desc "data" (state_of accessed_run) = Crashed.
Proof. split_and!; vm_compute; reflexivity. Qed.
