(* ===== verification/Contexts.v ===== *)
(** What a plugin is given: the interface [Context] of [pdi/include/pdi/context.h],
    the two classes that implement it, the iterators over the descriptors of
    [pdi/src/context.cxx], and the proxy of [pdi/src/context_proxy.cxx].

    The interface is a class; a client is written and proved against it, and both
    implementations satisfy its laws. *)

From S2P Require Import Prelude Error Effect ExprSyntax Datatype Layout Memory DenseCopy Access Ref RefInv RefOps RefTheorems RefCopy Numeric Parse Yaml Template GlobalContext Eval Logger.

(** * Iterators *)

(** [Context::Iterator]: the key of the descriptor it is on; [None] is [end()].  It
    stays valid as long as the table is not rebuilt. *)
Abbreviation Iterator := (option string).

(** The order in which the table is traversed. *)
Class Traversal := {
  traversal : gmap string Descriptor -> list string;
  traversal_keys : forall ds, traversal ds ≡ₚ elements (dom ds)
}.

(** The key that follows [name]. *)
Fixpoint after (name : string) (l : list string) : Iterator :=
  match l with
  | [] => None
  | k :: l => if bool_decide (k = name) then head l else after name l
  end.

Section iterators.
  Context {W : Type} {TR : Traversal}.

Abbreviation G := (M (global W)).

(** [operator*]: the end must not be dereferenced. *)
Definition it_deref (it : Iterator) : G string := lift (deref it).

(** [operator++] *)
Definition it_next (it : Iterator) : G Iterator :=
  name ← it_deref it; gets (fun g => after name (traversal (m_descriptors g))).

(** [operator!=] *)
Definition it_neq (it o : Iterator) : bool := negb (bool_decide (it = o)).

End iterators.

(** * The interface *)

(** The virtual functions of [Context]; [C] is the type of the object. *)
Class Context_ops (W C : Type) := {
  ctx_desc : C -> string -> M (global W) unit;
  ctx_begin : C -> M (global W) Iterator;
  ctx_end : C -> M (global W) Iterator;
  ctx_find : C -> string -> M (global W) Iterator;
  ctx_event : C -> string -> M (global W) unit;
  ctx_logger : C -> nat;
  ctx_datatype : C -> PC_tree -> M (global W) Template;
  ctx_add_datatype : C -> string -> Parser -> M (global W) unit;
  ctx_on_init : C -> Z -> M (global W) nat;
  ctx_on_data : C -> Z -> string -> M (global W) nat;
  ctx_on_data_remove : C -> Z -> string -> M (global W) nat;
  ctx_on_event : C -> Z -> string -> M (global W) nat;
  ctx_on_missing_data : C -> Z -> string -> M (global W) nat
}.

(** ** The global context *)

Record Global_context_object := mkGlobalContext { m_logger_of_context : nat }.

Section global.
  Context {W : Type} {RT : Runtime W} {TR : Traversal}.
  Context (type_fuel : nat).

Definition global_begin : M (global W) Iterator := gets (fun g => head (traversal (m_descriptors g))).
Definition global_end : M (global W) Iterator := mret None.
Definition global_find (name : string) : M (global W) Iterator :=
  gets (fun g => match m_descriptors g !! name with Some _ => Some name | None => None end).

Definition global_datatype (node : PC_tree) : M (global W) Template := ps ← gets m_datatype_parsers; lift (datatype ps type_fuel node).
Definition global_add_datatype (name : string) (parser : Parser) : M (global W) unit :=
  ps ← gets m_datatype_parsers; ps ← lift (add_datatype name parser ps); modify (set_parsers ps).

(** The names of descriptors and events are C strings. *)
Definition Global_context_ops : Context_ops W Global_context_object := {|
  ctx_desc := fun _ name => desc (c_str name);
  ctx_begin := fun _ => global_begin;
  ctx_end := fun _ => global_end;
  ctx_find := fun _ => global_find;
  ctx_event := fun _ name => notify_event (c_str name);
  ctx_logger := m_logger_of_context;
  ctx_datatype := fun _ => global_datatype;
  ctx_add_datatype := fun _ => global_add_datatype;
  ctx_on_init := fun _ => on_init;
  ctx_on_data := fun _ => on_data;
  ctx_on_data_remove := fun _ => on_data_remove;
  ctx_on_event := fun _ => on_event;
  ctx_on_missing_data := fun _ => on_missing_data
|}.

End global.

(** ** The proxy *)

Record Context_proxy (C : Type) := mkProxy {
  m_real_context : C;
  m_plugin_logger : nat
}.
Arguments mkProxy {C} _ _.
Arguments m_real_context {C} _.
Arguments m_plugin_logger {C} _.

Section proxy.
  Context {W C : Type} {LH : LoggerHost W} {CX : Context_ops W C}.

(** Each function is that of the real context, except [logger]. *)
Definition Context_proxy_ops : Context_ops W (Context_proxy C) := {|
  ctx_desc := fun p => ctx_desc (m_real_context p);
  ctx_begin := fun p => ctx_begin (m_real_context p);
  ctx_end := fun p => ctx_end (m_real_context p);
  ctx_find := fun p => ctx_find (m_real_context p);
  ctx_event := fun p => ctx_event (m_real_context p);
  ctx_logger := m_plugin_logger;
  ctx_datatype := fun p => ctx_datatype (m_real_context p);
  ctx_add_datatype := fun p => ctx_add_datatype (m_real_context p);
  ctx_on_init := fun p => ctx_on_init (m_real_context p);
  ctx_on_data := fun p => ctx_on_data (m_real_context p);
  ctx_on_data_remove := fun p => ctx_on_data_remove (m_real_context p);
  ctx_on_event := fun p => ctx_on_event (m_real_context p);
  ctx_on_missing_data := fun p => ctx_on_missing_data (m_real_context p)
|}.

#[export] Existing Instance Context_proxy_ops.

(** [Context_proxy::pdi_core_logger] and [Context_proxy::setup_logger] *)
Definition pdi_core_logger (p : Context_proxy C) : nat := ctx_logger (m_real_context p).
Definition setup_logger (p : Context_proxy C) (logger_name : string) (logging_tree : PC_tree) : M (global W) unit :=
  on_loggers (setup_child (pdi_core_logger p) logger_name logging_tree (m_plugin_logger p)).

End proxy.

(** * A client *)

Section client.
  Context {W C : Type} {TR : Traversal} {CX : Context_ops W C}.

(** [for (auto it = ctx.begin(); it != ctx.end(); ++it)] with a body on each descriptor *)
Fixpoint for_each_descriptor {B} (fuel : nat) (ctx : C) (body : string -> B -> M (global W) B) (it : Iterator) (b : B) : M (global W) B :=
  last ← ctx_end ctx;
  if it_neq it last then
    match fuel with
    | O => lift Crash
    | S fuel => name ← it_deref it; b ← body name b; it ← it_next it; for_each_descriptor fuel ctx body it b
    end
  else mret b.

Definition each_descriptor {B} (ctx : C) (body : string -> B -> M (global W) B) (b : B) : M (global W) B :=
  n ← gets (fun g => size (m_descriptors g)); it ← ctx_begin ctx; for_each_descriptor n ctx body it b.

End client.

(** * Laws *)

(** What a plugin can rely on, whichever class its context has. *)
Class Context_laws (W C : Type) {TR : Traversal} {CX : Context_ops W C} : Prop := {
  law_desc : forall ctx name g, exists g', ctx_desc ctx name g = Done tt g' /\ is_Some (m_descriptors g' !! c_str name) /\
    (forall k d, m_descriptors g !! k = Some d -> m_descriptors g' !! k = Some d);
  law_find : forall ctx name g, ctx_find ctx name g = Done (match m_descriptors g !! name with Some _ => Some name | None => None end) g;
  law_begin : forall ctx g, ctx_begin ctx g = Done (head (traversal (m_descriptors g))) g;
  law_end : forall ctx g, ctx_end ctx g = Done None g
}.

Section laws.
  Context {W : Type} {TR : Traversal}.

#[export] Instance global_laws {RT : Runtime W} type_fuel : Context_laws W Global_context_object (CX := Global_context_ops type_fuel).
Proof.
  split; [|done..]. intros ctx name g. eexists. split; [reflexivity|]. cbn. destruct (m_descriptors g !! c_str name) as [d|] eqn:Hd.
  - rewrite Hd. by split.
  - simpl. rewrite lookup_insert_eq. split; [by eexists|]. intros k d Hk. rewrite lookup_insert_ne; [done|]. by intros <-; rewrite Hd in Hk.
Qed.

#[export] Instance proxy_laws {C} {CX : Context_ops W C} {CL : Context_laws W C} : Context_laws W (Context_proxy C).
Proof. split; intros ctx; [apply (law_desc (m_real_context ctx))|apply (law_find (m_real_context ctx))|apply (law_begin (m_real_context ctx))|apply (law_end (m_real_context ctx))]. Qed.

Context {C : Type} {CX : Context_ops W C} {CL : Context_laws W C}.

Implicit Types g : global W.

Lemma after_step done name rest : NoDup (done ++ name :: rest) -> after name (done ++ name :: rest) = head rest.
Proof.
  induction done as [|k done IH]; simpl; intros H; [by rewrite bool_decide_eq_true_2|].
  apply list.NoDup_cons in H as [Hk H]. rewrite bool_decide_eq_false_2; [by apply IH|]. intros ->. apply Hk. rewrite elem_of_app, elem_of_cons. auto.
Qed.

Lemma traversal_nodup ds : NoDup (traversal ds).
Proof. rewrite traversal_keys. apply NoDup_elements. Qed.

(** A body that leaves the table as it is. *)
Definition keeps_table {B} (body : string -> B -> M (global W) B) : Prop := forall name b g,
  match body name b g with Done _ g' => m_descriptors g' = m_descriptors g | _ => True end.

Lemma loop_is_iteration {B} ctx (body : string -> B -> M (global W) B) ds :
  keeps_table body -> forall rest done fuel it b g,
  m_descriptors g = ds -> traversal ds = done ++ rest -> it = head rest -> (length rest <= fuel)%nat ->
  for_each_descriptor fuel ctx body it b g = iter body rest b g.
Proof.
  intros Hbody. induction rest as [|name rest IH]; intros done fuel it b g Hds Hl Hit Hf; subst it.
  - destruct fuel; simpl; unfold mbind, M_bind; by rewrite law_end.
  - destruct fuel as [|fuel]; [simpl in Hf; lia|]. simpl. unfold mbind, M_bind. rewrite law_end. simpl.
    pose proof (Hbody name b g) as Hk. destruct (body name b g) as [b' g'|e g'|]; [|done..].
    unfold it_next, it_deref, mbind, M_bind, gets. simpl. rewrite Hk, Hds, Hl, after_step by (rewrite <- Hl; apply traversal_nodup).
    apply (IH (done ++ [name])); [congruence|by rewrite <- app_assoc|done|simpl in Hf; lia].
Qed.

(** Through any context, the global one or the proxy that a plugin is given, a
    loop from [begin] to [end] whose body adds no descriptor ends, and calls its body
    for each descriptor exactly once, those that [find] finds. *)
Theorem iteration_visits_every_descriptor {B} ctx (body : string -> B -> M (global W) B) b g :
  keeps_table body ->
  exists names, each_descriptor ctx body b g = iter body names b g /\ NoDup names /\
    forall name, name ∈ names <-> ctx_find ctx name g = Done (Some name) g.
Proof.
  intros Hbody. exists (traversal (m_descriptors g)). split_and!; [|apply traversal_nodup|].
  - unfold each_descriptor, mbind, M_bind, gets. rewrite law_begin. apply (loop_is_iteration ctx body (m_descriptors g) Hbody _ []); try done.
    rewrite traversal_keys. by rewrite <- size_dom.
  - intros name. rewrite law_find, traversal_keys, elem_of_elements, elem_of_dom. destruct (m_descriptors g !! name) as [d|]; [by split; eauto|].
    split; [by intros [? ?]|by intros [= ]].
Qed.

End laws.

(** * Witness *)

#[local] Existing Instance quiet_runtime.
#[local] Instance sorted_traversal : Traversal := {| traversal ds := elements (dom ds); traversal_keys ds := reflexivity _ |}.
#[local] Instance demo_ops : Context_ops unit Global_context_object := Global_context_ops 9.
#[local] Instance demo_laws : Context_laws unit Global_context_object := global_laws 9.

(** The context of a plugin, after it has asked for two descriptors. *)
Definition plugin_context : Context_proxy Global_context_object := mkProxy (mkGlobalContext 0) 1.
Definition two_descriptors : global unit :=
  match (ctx_desc plugin_context "a";; ctx_desc plugin_context "b") empty_global with Done _ g => g | _ => empty_global end.

Lemma iteration_visits_every_descriptor_witness :
  exists names, each_descriptor plugin_context (fun name l => mret (l ++ [name])) [] two_descriptors = iter (fun name l => mret (l ++ [name])) names [] two_descriptors /\
    NoDup names /\ "a" ∈ names /\ "b" ∈ names /\ "c" ∉ names.
Proof.
  destruct (iteration_visits_every_descriptor plugin_context (fun name l => mret (l ++ [name])) [] two_descriptors) as (names & Hrun & Hnd & Hn); [done|].
  exists names. rewrite !Hn. split_and!; [exact Hrun|exact Hnd|by vm_compute..].
Defined.
