(* ===== verification/SetValue.v ===== *)
(** The Set-value plugin: [plugins/set_value].

    A trigger is a list of operations read from the specification tree; triggers
    run when the plugin is initialized, at events, when data is shared, and when
    the plugin is destroyed.  [Share_operation::m_data_to_release] is written and
    never read, and is left out. *)

From S2P Require Import Prelude Error Effect ExprSyntax Datatype Layout Memory DenseCopy Access Ref RefInv RefOps RefTheorems RefCopy Numeric Parse Yaml Template GlobalContext Eval Logger.

(** * Operations *)

Inductive Operation :=
  | Set_operation (m_data_to_set : list (string * PC_tree))
  | Share_operation (m_data_to_share : list (string * PC_tree))
  | Expose_operation (m_data_to_expose : list (string * PC_tree))
  | Event_operation (m_event_to_call : string)
  | Release_operation (m_data_to_release : list string)
  | Logger_operation (m_level : option Impl) (m_pattern : string) (m_evaluate : bool).

(** [Expression{tree}] *)
Definition parse_tree (t : PC_tree) : outcome Impl := if PC_status t then spectree_error t (PC_errmsg t) else parse_node (pc_node t).

(** The constructors of the set, share and expose operations. *)
Definition list_of_values (t : PC_tree) : outcome (list (string * PC_tree)) :=
  n ← len t;
  for_each (fun i r =>
    let value_element := get_item t i in
    data_name ← Yaml.to_string (get_nth_key value_element 0);
    Ret (r ++ [(data_name, get_nth_value value_element 0)])) (seq 0 n) [].

Definition list_of_names (t : PC_tree) : outcome (list string) :=
  n ← len t; for_each (fun i r => name ← Yaml.to_string (get_item t i); Ret (r ++ [name])) (seq 0 n) [].

Section plugin.
  Context {W : Type} {RT : Runtime W} {LH : LoggerHost W}.

Abbreviation G := (M (global W)).

Definition make_logger_operation (logger_node : PC_tree) : G Operation :=
  let level_node := get_key logger_node "level" in
  m_level ← (if negb (PC_status level_node) then e ← lift (parse_tree level_node); mret (Some e) else mret None);
  let pattern_node := get_key logger_node "pattern" in
  m_pattern ← (if negb (PC_status pattern_node) then lift (Yaml.to_string pattern_node) else mret "");
  let evaluate_node := get_key logger_node "evaluate" in
  m_evaluate ← (if negb (PC_status evaluate_node) then
                  e ← lift (parse_tree evaluate_node); v ← expr_to_long e; mret (negb (v =? 0))
                else mret false);
  mret (Logger_operation m_level m_pattern m_evaluate).

Definition make_operation (value_map : PC_tree) : G Operation :=
  operation ← lift (Yaml.to_string (get_nth_key value_map 0));
  let operation_value := get_nth_value value_map 0 in
  if bool_decide (operation = "set") then l ← lift (list_of_values operation_value); mret (Set_operation l)
  else if bool_decide (operation = "share") then l ← lift (list_of_values operation_value); mret (Share_operation l)
  else if bool_decide (operation = "expose") then l ← lift (list_of_values operation_value); mret (Expose_operation l)
  else if bool_decide (operation = "event") then e ← lift (Yaml.to_string operation_value); mret (Event_operation e)
  else if bool_decide (operation = "release") then l ← lift (list_of_names operation_value); mret (Release_operation l)
  else if bool_decide (operation = "logger") then make_logger_operation operation_value
  else lift (spectree_error (get_nth_key value_map 0) ("Unknown operation: " +:+ operation)).

(** [Trigger::Trigger] *)
Definition make_trigger (operation_list_node : PC_tree) : G (list Operation) :=
  if negb (is_list operation_list_node) then lift (spectree_error operation_list_node "Operations must be defined as a list")
  else
    n ← lift (len operation_list_node);
    iter (fun i ops => o ← make_operation (get_item operation_list_node i); mret (ops ++ [o])) (seq 0 n) [].

(** ** Execution *)

(** [Expression{tree}.to_ref(context(), type)]: the expression comes first. *)
Definition value_ref (t : PC_tree) (get_type : G Datatype) : G nat :=
  e ← lift (parse_tree t); type ← get_type; to_ref_typed (copy_value (methods_of e)) type.

Definition set_one (data_to_set : string * PC_tree) : G unit :=
  desc data_to_set.1;;
  with_ref (GlobalContext.ref data_to_set.1) (fun existing_ref =>
    with_ref (readable (value_ref data_to_set.2 (ref_type existing_ref))) (fun value_ref =>
      with_ref (ref_copy false true existing_ref) (fun existing_ref_w =>
        n ← ref_is_null existing_ref_w;
        if n : bool then throw (Permission_error ("Cannot get write access for `" +:+ data_to_set.1 +:+ "' to set values"))
        else
          existing_type ← ref_type existing_ref_w;
          value_type ← ref_type value_ref;
          if negb (buffersize existing_type =? buffersize value_type) then
            throw (Value_error ("Cannot set value to exisitng reference. Existing buffersize = " +:+ pretty (buffersize existing_type)
                                +:+ ", value buffersize = " +:+ pretty (buffersize value_type)))
          else
            to ← ref_get existing_ref_w;
            from ← ref_get value_ref;
            unit_mem (fun m => memcpy m to from (buffersize existing_type))))).

(** [data_desc.default_type()->evaluate(context())] *)
Definition default_type_of (name : string) : G Datatype := d ← get_desc name; evaluate_in_context (m_type d).

(** Sharing the value of the expression, of the type of the descriptor. *)
Definition share_value (data_to_share : string * PC_tree) : G unit :=
  desc data_to_share.1;;
  with_ref (value_ref data_to_share.2 (default_type_of data_to_share.1)) (fun value_ref =>
    with_ref (ref_copy false false value_ref) (fun arg => share_ref data_to_share.1 arg false false);; mret tt).

Definition expose_value (data_to_expose : string * PC_tree) : G unit :=
  desc data_to_expose.1;;
  with_ref (value_ref data_to_expose.2 (default_type_of data_to_expose.1)) (fun value_ref =>
    with_ref (ref_copy false false value_ref) (fun arg => share_ref data_to_expose.1 arg false false);;
    desc data_to_expose.1;; release_desc data_to_expose.1).

Definition release_one (data_to_release : string) : G unit := desc data_to_release;; release_desc data_to_release.

(** The logger of the plugin and that of the library; the evaluation of patterns
    is bounded by [turns]. *)
Context (logger core_logger turns : nat).

Definition logger_execute (m_level : option Impl) (m_pattern : string) (m_evaluate : bool) : G unit :=
  (match m_level with
   | Some e =>
       level_str ← expr_to_string e;
       match find_level level_str with Some v => on_loggers (on_spdlog core_logger (set_level v)) | None => mret tt end
   | None => mret tt
   end);;
  (if negb (bool_decide (m_pattern = "")) then
     on_loggers (global_pattern m_pattern logger);; evaluate_global_pattern turns logger
   else mret tt);;
  (if m_evaluate then evaluate_global_pattern turns logger else mret tt).

Definition each_do {A} (f : A -> G unit) (l : list A) : G unit := iter (fun x _ => f x) l tt.

(** [Operation::execute] *)
Definition execute_operation (o : Operation) : G unit :=
  match o with
  | Set_operation l => each_do set_one l
  | Share_operation l => each_do share_value l
  | Expose_operation l => each_do expose_value l
  | Event_operation name => notify_event name
  | Release_operation l => each_do release_one l
  | Logger_operation lv p e => logger_execute lv p e
  end.

(** [Trigger::execute] *)
Definition execute (trigger : list Operation) : G unit := each_do execute_operation trigger.

End plugin.

(** * The plugin *)

Record set_value_plugin := mkSetValue {
  m_triggers_list : list (list Operation);
  m_trigger_on_finalize : list (list Operation)
}.

(** The lambdas of the plugin: the handle of the one that executes trigger [i]. *)
Class SetValueHost (W : Type) := {
  set_value_state : W -> set_value_plugin;
  set_set_value_state : set_value_plugin -> W -> W;
  on_trigger : nat -> Z;
  set_value_logger : nat
}.

Section set_value.
  Context {W : Type} {RT : Runtime W} {LH : LoggerHost W} {SV : SetValueHost W} (core_logger turns : nat).

Abbreviation G := (M (global W)).

Definition set_value_get : G set_value_plugin := gets (fun g => set_value_state (g_world g)).
Definition set_value_put (s : set_value_plugin) : G unit := modify (fun g => set_world (set_set_value_state s (g_world g)) g).

(** A new trigger at the end of the list. *)
Definition push_trigger (node : PC_tree) : G nat :=
  t ← make_trigger node;
  s ← set_value_get;
  set_value_put (mkSetValue (m_triggers_list s ++ [t]) (m_trigger_on_finalize s));;
  mret (length (m_triggers_list s)).

(** What the lambda of trigger [i] does. *)
Definition run_trigger (i : nat) : G unit :=
  s ← set_value_get;
  match m_triggers_list s !! i with Some t => execute set_value_logger core_logger turns t | None => lift Crash end.

Definition load_triggers (add : Z -> string -> G nat) (node : PC_tree) : G unit :=
  if negb (PC_status node) then
    n ← lift (len node);
    iter (fun i _ =>
      name ← lift (Yaml.to_string (get_nth_key node i));
      t ← push_trigger (get_nth_value node i);
      add (on_trigger t) name;; mret tt) (seq 0 n) tt
  else mret tt.

Definition load_config (config : PC_tree) : G unit :=
  (let on_init := get_key config "on_init" in
   if negb (PC_status on_init) then i ← push_trigger on_init; run_trigger i else mret tt);;
  load_triggers on_event (get_key config "on_event");;
  load_triggers on_data (get_key config "on_data");;
  (let on_finalize := get_key config "on_finalize" in
   if negb (PC_status on_finalize) then
     t ← make_trigger on_finalize;
     s ← set_value_get;
     set_value_put (mkSetValue (m_triggers_list s) (m_trigger_on_finalize s ++ [t]))
   else mret tt).

(** The destructor. *)
Definition finalize : G unit :=
  s ← set_value_get; each_do (execute set_value_logger core_logger turns) (m_trigger_on_finalize s).

End set_value.
