(* ===== verification/SetValueFacts.v ===== *)
(** The Set-value plugin keeps the invariant of the context: the contract that
    the library asks of its plugins, for the triggers that release nothing, and the
    invariant itself for all of them. *)

From S2P Require Import Prelude Error Effect ExprSyntax Datatype Layout Memory DenseCopy DenseCopyFacts Access Ref RefInv RefOps RefTheorems RefCopy Numeric Parse Yaml Template GlobalContext Eval ContextInv DescriptorInv EvalInv Share Logger SetValue.

Section keeping.
  Context {W : Type} {RT : Runtime W} {PL : Plugins W}.

Implicit Types g : global W.

Abbreviation ok := (ctx_ok None).
Abbreviation any := (fun _ _ => True).
Abbreviation tm := (tame_at None True).

(** ** Operations that keep the references of others but may shorten stacks *)

Definition keeping {A} (m : M (global W) A) : Prop :=
  forall g, ok g -> wp True m (fun _ g' => ok g' /\ kept g g') (fun _ g' => ok g' /\ kept g g') g.

Lemma kept_refl g : kept g g.
Proof. by split. Qed.

Lemma tame_keeping {A} (m : M (global W) A) Q : (forall g, ok g -> tm g m (Q g)) -> keeping m.
Proof. intros Hm g Hok. eapply wp_mono; [by apply Hm|..]; [intros a g' [[? ?] _]|intros e g' [? ?]]; split; try done; by apply framed_kept. Qed.

Lemma keeping_ret {A} (a : A) : keeping (mret a).
Proof. intros g Hok. split; [done|apply kept_refl]. Qed.

Lemma keeping_at {A B} g (m : M (global W) A) (f : A -> M (global W) B) :
  wp True m (fun _ g' => ok g' /\ kept g g') (fun _ g' => ok g' /\ kept g g') g -> (forall a, keeping (f a)) ->
  wp True (m ≫= f) (fun _ g' => ok g' /\ kept g g') (fun _ g' => ok g' /\ kept g g') g.
Proof.
  intros Hm Hf. apply wp_bind. eapply wp_mono; [exact Hm| |done]. intros a g' [Hok' Hk].
  eapply wp_mono; [by apply Hf|..]; [intros b g'' [? Hk']|intros e g'' [? Hk']]; (split; [done|exact (kept_trans _ _ _ Hk Hk')]).
Qed.

Lemma keeping_bind {A B} (m : M (global W) A) (f : A -> M (global W) B) : keeping m -> (forall a, keeping (f a)) -> keeping (m ≫= f).
Proof. intros Hm Hf g Hok. apply keeping_at; [by apply Hm|done]. Qed.

Lemma keeping_each {A} (f : A -> M (global W) unit) l : (forall x, x ∈ l -> keeping (f x)) -> keeping (each_do f l).
Proof.
  unfold each_do. induction l as [|x l IH]; intros Hf; simpl; [apply keeping_ret|].
  apply keeping_bind; [apply Hf, list_elem_of_here|]. intros []. apply IH. intros y Hy. by apply Hf, list_elem_of_further.
Qed.

(** A block with a new reference. *)
Lemma keeping_with_ref {A} g mk (body : nat -> M (global W) A) :
  ok g -> tm g mk (fresh_local g) ->
  (forall r g1, good None g g1 -> local_ref g1 r ->
     wp True (body r) (fun _ g' => ok g' /\ kept g1 g') (fun _ g' => ok g' /\ kept g1 g') g1) ->
  wp True (with_ref mk body) (fun _ g' => ok g' /\ kept g g') (fun _ g' => ok g' /\ kept g g') g.
Proof.
  intros Hok Hmk Hbody. apply wp_with_ref. eapply wp_mono; [exact Hmk| |intros e g' [? ?]; split; [done|by apply framed_kept]].
  intros r g1 [[Hok1 Hf1] [Hl Hn]].
  assert (Hend : forall g2, ok g2 /\ kept g1 g2 ->
    inv (g_store g2) /\ exists_ref g2 r /\ forall g3, removed r g2 g3 -> ok g3 /\ kept g g3).
  { intros g2 [Hok2 Hk2]. destruct (kp_local _ _ Hk2 r Hl) as [He Hns]. split_and!; [apply Hok2|done|]. intros g3 Hrem. split; [by eapply removed_ok|].
    eapply removed_kept; [apply Hok| |exact Hn|exact Hrem]. exact (kept_trans _ _ _ (framed_kept _ _ Hf1) Hk2). }
  eapply wp_mono; [by apply (Hbody r g1)|..]; intros; by apply Hend.
Qed.

(** ** The operations *)

Lemma lift_tame {A} (o : outcome A) g : ok g -> tm g (lift o) any.
Proof. intros Hok. apply reads_any; [apply reads_lift|done]. Qed.

Lemma set_world_good g w : ok g -> good None g (set_world w g).
Proof. intros [? ? ? ? ?]. split; split; try done; eauto. Qed.

Lemma value_ref_tame t get_type g : ok g -> (forall g', good None g g' -> tm g' get_type any) -> tm g (value_ref t get_type) (fresh_with false false g).
Proof.
  intros Hok Hty. eapply tame_bind_at; [by apply lift_tame|]. intros e g1 Hg1 _. eapply tame_bind_at; [by apply Hty|]. intros type g2 Hg2 _.
  assert (Hg : good None g g2) by (by eapply good_trans).
  eapply tame_mono_at; [apply to_ref_typed_spec; [apply (tame_copy_value _ (methods_of_tame e))|apply Hg2]|]. intros r g' _. by eapply fresh_step.
Qed.

Lemma default_type_of_tame name g : ok g -> is_Some (m_descriptors g !! name) -> tm g (default_type_of name) any.
Proof. intros Hok [d Hd]. eapply wp_get_desc; [done|]. by apply evaluate_tame. Qed.

Lemma desc_kept g g' name : good None g g' -> is_Some (m_descriptors g !! name) -> is_Some (m_descriptors g' !! name).
Proof. intros [_ Hf] [d Hd]. destruct (framed_desc _ _ name d Hf Hd) as (d' & Hd' & _). by exists d'. Qed.

(** A block with a new reference, which keeps the references made before it. *)
Lemma with_ref_inside {A} g mk (body : nat -> M (global W) A) :
  ok g -> tm g mk (fresh_local g) -> (forall r g1, good None g g1 -> local_ref g1 r -> tm g1 (body r) any) -> tm g (with_ref mk body) any.
Proof.
  intros Hok Hmk Hbody. apply wp_with_ref. eapply wp_mono; [exact Hmk| |done]. intros r g1 [Hg1 [Hl Hn]].
  assert (Hend : forall g2, good None g1 g2 -> inv (g_store g2) /\ exists_ref g2 r /\ forall g3, removed r g2 g3 -> good None g g3).
  { intros g2 Hg2. destruct (fr_local _ _ (proj2 Hg2) r Hl) as [He Hns]. split_and!; [apply Hg2|done|]. intros g3 Hrem.
    eapply removed_good; [apply Hok|exact (good_trans None _ _ _ Hg1 Hg2)|exact Hn|exact Hns|exact Hrem]. }
  eapply wp_mono; [by apply (Hbody r g1)|..].
  - intros b g2 [Hg2 _]. destruct (Hend g2 Hg2) as (? & ? & Hr). split_and!; [done..|]. intros g3 Hrem. split; [by apply Hr|done].
  - intros e g2 Hg2. by apply Hend.
Qed.

Lemma share_arg_tame g name r : ok g -> is_Some (m_descriptors g !! name) -> local_ref g r ->
  tm g (with_ref (ref_copy false false r) (fun arg => share_ref name arg false false)) any.
Proof.
  intros Hok Hd Hl. apply with_ref_inside; [done|apply ref_copy_spec; [done|apply Hl]|]. intros a g1 Hg1 Hla.
  destruct (desc_kept _ _ _ Hg1 Hd) as [d1 Hd1]. eapply tame_mono_at; [apply (share_ref_spec True g1 name d1 a false false); [apply Hg1|done..]|done].
Qed.

Lemma set_one_tame x g : ok g -> tm g (set_one x) any.
Proof.
  intros Hok. eapply tame_bind_at; [by apply desc_spec|]. intros [] g1 Hg1 [[d Hd] _]. cbn beta.
  apply with_ref_inside; [apply Hg1|eapply ref_spec; [apply Hg1|exact Hd]|]. intros existing g2 Hg2 Hl2.
  apply with_ref_inside; [apply Hg2| |].
  { eapply fresh_weaken, readable_spec; [apply Hg2|]. eapply fresh_weaken, value_ref_tame; [apply Hg2|].
    intros g' Hg'. apply reads_any; [apply ref_type_reads|apply Hg']. }
  intros value g3 Hg3 Hl3. pose proof (local_good _ _ _ Hg3 Hl2) as Hl2'.
  apply with_ref_inside; [apply Hg3|apply ref_copy_spec; [apply Hg3|apply Hl2']|]. intros w g4 Hg4 Hl4.
  apply then_tame; [apply ref_is_null_spec; [apply Hg4|apply Hl4]|]. intros [] g5 Hg5; [apply tame_throw_at, Hg5|].
  apply reads_then; [apply ref_type_reads|apply Hg5|]. intros te. apply reads_then; [apply ref_type_reads|apply Hg5|]. intros tv.
  destruct (negb _); [apply tame_throw_at, Hg5|].
  apply then_tame; [apply ref_get_spec; [apply Hg5|by apply (local_good _ _ _ Hg5)]|]. intros to g6 Hg6.
  apply then_tame; [apply ref_get_spec; [apply Hg6|]|]. { by apply (local_good _ _ _ Hg6), (local_good _ _ _ Hg5), (local_good _ _ _ Hg4). }
  intros from g7 Hg7. apply on_mem_spec, Hg7.
Qed.

Lemma shared_value_tame x g : ok g -> is_Some (m_descriptors g !! x.1) -> tm g (value_ref x.2 (default_type_of x.1)) (fresh_local g).
Proof.
  intros Hok Hd. eapply fresh_weaken, value_ref_tame; [done|]. intros g' Hg'. apply default_type_of_tame; [apply Hg'|by eapply desc_kept].
Qed.

Lemma share_value_tame x g : ok g -> tm g (share_value x) any.
Proof.
  intros Hok. eapply tame_bind_at; [by apply desc_spec|]. intros [] g1 Hg1 [Hd _]. cbn beta.
  apply with_ref_inside; [apply Hg1|apply shared_value_tame; [apply Hg1|done]|]. intros v g2 Hg2 Hl2.
  apply then_tame; [apply share_arg_tame; [apply Hg2|by eapply desc_kept|done]|]. intros a g3 Hg3. apply tame_ret_at; [apply Hg3|done].
Qed.

(** What is done with a descriptor that [desc] returned. *)
Lemma keeping_desc {A} name (m : M (global W) A) :
  (forall g d, ok g -> m_descriptors g !! name = Some d -> wp True m (fun _ g' => ok g' /\ kept g g') (fun _ g' => ok g' /\ kept g g') g) ->
  keeping (desc name;; m).
Proof.
  intros Hm g Hok. apply wp_bind. eapply wp_mono; [by apply (desc_spec True g name None)| |intros e g' [? ?]; split; [done|by apply framed_kept]].
  intros [] g1 [[Hok1 Hf1] [[d Hd] _]]. cbn beta. apply framed_kept in Hf1.
  eapply wp_mono; [by apply (Hm g1 d)|..]; [intros a g2 [? Hk]|intros e g2 [? Hk]]; (split; [done|exact (kept_trans _ _ _ Hf1 Hk)]).
Qed.

Lemma release_one_keeping name : keeping (release_one name).
Proof. apply keeping_desc. intros g d Hok Hd. by eapply release_desc_spec. Qed.

Lemma expose_value_keeping x : keeping (expose_value x).
Proof.
  apply keeping_desc. intros g d Hok Hd. apply keeping_with_ref; [done|apply shared_value_tame; [done|by exists d]|].
  intros v g1 Hg1 Hl1. apply keeping_at; [|intros _; apply release_one_keeping].
  eapply wp_mono; [apply (share_arg_tame g1 x.1 v); [apply Hg1|eapply desc_kept; [exact Hg1|by exists d]|done]|..];
    [intros a g2 [[? ?] _]|intros e g2 [? ?]]; (split; [done|by apply framed_kept]).
Qed.

Lemma notify_event_tame name g : ok g -> tm g (notify_event name) any.
Proof. intros Hok. by apply notify_named_spec. Qed.

(** ** Loggers *)

Context {LH : LoggerHost W}.

Lemma on_loggers_tame {A} (m : M loggers A) g : ok g -> tm g (on_loggers m) any.
Proof. intros Hok. unfold tame_at, wp, on_loggers. destruct (m _) as [a ls|e ls|]; [split; [|done]|..|done]; by apply set_world_good. Qed.

Lemma evaluate_refs_tame turns : forall pattern g, ok g -> tm g (evaluate_refs_in_context turns pattern) any.
Proof.
  induction turns as [|turns IH]; intros pattern g Hok; cbn [evaluate_refs_in_context]; [by apply lift_tame|].
  destruct (find_reference pattern) as [[before after]|]; [|by apply tame_ret_at].
  apply then_tame; [by apply lift_tame|]. intros [e rest] g1 Hg1.
  apply then_tame; [apply (tame_to_string _ (methods_of_tame e)), Hg1|]. intros v g2 Hg2. apply IH, Hg2.
Qed.

Lemma evaluate_pattern_tame turns fuel : forall l g, ok g -> tm g (evaluate_pattern turns fuel l) any.
Proof.
  induction fuel as [|fuel IH]; intros l g Hok; cbn [evaluate_pattern]; [by apply lift_tame|].
  apply then_tame; [by apply on_loggers_tame|]. intros x g1 Hg1. apply then_tame; [apply evaluate_refs_tame, Hg1|]. intros p g2 Hg2.
  apply then_tame; [apply on_loggers_tame, Hg2|]. intros [] g3 Hg3. apply then_tame; [apply on_loggers_tame, Hg3|]. intros y g4 Hg4.
  apply (tame_iter_at None True _ _ any); [|apply Hg4|done]. intros o [] g5 _ Hok5 _. by apply IH.
Qed.

Lemma evaluate_global_pattern_tame turns l g : ok g -> tm g (evaluate_global_pattern turns l) any.
Proof.
  intros Hok. apply then_tame; [by apply on_loggers_tame|]. intros n g1 Hg1. apply then_tame; [apply on_loggers_tame, Hg1|].
  intros r g2 Hg2. apply evaluate_pattern_tame, Hg2.
Qed.

Context (logger core_logger turns : nat).

Lemma logger_execute_tame lv p e g : ok g -> tm g (logger_execute logger core_logger turns lv p e) any.
Proof.
  intros Hok. apply then_tame.
  { destruct lv as [x|]; [|by apply tame_ret_at]. apply then_tame; [by apply (tame_to_string _ (methods_of_tame x))|].
    intros s g1 Hg1. destruct (find_level s); [apply on_loggers_tame, Hg1|apply tame_ret_at; [apply Hg1|done]]. }
  intros [] g1 Hg1. apply then_tame.
  { destruct (negb _); [|apply tame_ret_at; [apply Hg1|done]]. apply then_tame; [apply on_loggers_tame, Hg1|].
    intros [] g2 Hg2. apply evaluate_global_pattern_tame, Hg2. }
  intros [] g2 Hg2. destruct e; [apply evaluate_global_pattern_tame, Hg2|apply tame_ret_at; [apply Hg2|done]].
Qed.

(** ** Triggers *)

(** An operation that releases no data. *)
Definition releases_nothing (o : Operation) : bool :=
  match o with Expose_operation _ | Release_operation _ => false | _ => true end.

Lemma each_tame {A} (f : A -> M (global W) unit) l g : (forall x g, ok g -> tm g (f x) any) -> ok g -> tm g (each_do f l) any.
Proof. intros Hf Hok. apply (tame_iter_at None True _ _ any); [|done|done]. intros x [] g' _ Hok' _. by apply Hf. Qed.

Lemma execute_operation_tame o g :
  releases_nothing o = true -> ok g -> tm g (execute_operation logger core_logger turns o) any.
Proof.
  intros Ho Hok. destruct o as [l|l|l|name|l|lv p e]; try done; simpl.
  - apply each_tame; [|done]. intros. by apply set_one_tame.
  - apply each_tame; [|done]. intros. by apply share_value_tame.
  - by apply notify_event_tame.
  - by apply logger_execute_tame.
Qed.

Lemma execute_operation_keeping o : keeping (execute_operation logger core_logger turns o).
Proof.
  destruct (releases_nothing o) eqn:Ho.
  { apply (tame_keeping _ (fun _ => any)). intros g Hok. by apply execute_operation_tame. }
  destruct o as [l|l|l|name|l|lv p e]; try done; simpl; apply keeping_each; intros; [apply expose_value_keeping|apply release_one_keeping].
Qed.

(** C34: a trigger of the Set-value plugin that does not run into undefined behaviour
    (its expressions read the memory of the program, which may be anything) ends,
    returning or throwing, in a consistent context, and keeps the local references,
    the descriptors and the callbacks of the others, whatever well-behaved plugins do
    within it; and when it neither exposes nor releases data it meets the contract
    that the library asks of its plugins ([Plugins]): no stack gets shorter either. *)
Theorem set_value_triggers_are_well_behaved trigger g :
  ctx_ok None g -> execute logger core_logger turns trigger g <> Crashed ->
  (exists g', final (execute logger core_logger turns trigger g) = Some g' /\ ctx_ok None g' /\ kept g g') /\
  (forallb releases_nothing trigger = true -> tame_at None False g (execute logger core_logger turns trigger) (fun _ _ => True)).
Proof.
  intros Hok Hnc. split.
  - pose proof (keeping_each (execute_operation logger core_logger turns) trigger ltac:(intros; apply execute_operation_keeping) g Hok) as H.
    unfold wp, execute in *. destruct (each_do _ _ g) as [a g'|e g'|]; [by exists g'..|done].
  - intros Ht. rewrite forallb_Forall, list.Forall_forall in Ht.
    assert (H : tm g (execute logger core_logger turns trigger) any).
    { apply (tame_iter_at None True _ _ any); [|done|done]. intros o [] g' Ho Hok' _. apply execute_operation_tame; [by apply Ht|done]. }
    unfold tame_at, wp in *. by destruct (execute _ _ _ _ g).
Qed.

End keeping.
