(* ===== verification/SetValueRun.v ===== *)
(** A run of the Set-value plugin in a context where it is the only plugin, and the
    instances of its theorems. *)

From S2P Require Import Prelude Error Effect ExprSyntax Datatype Layout Memory DenseCopy DenseCopyFacts Access Ref RefInv RefOps RefTheorems RefCopy Numeric Parse Yaml Template GlobalContext Eval ContextInv DescriptorInv EvalInv Share ShareFacts Logger LoggerFacts SetValue SetValueFacts.

Abbreviation world := (loggers * set_value_plugin)%type.

#[local] Instance logger_host : LoggerHost world := {|
  loggers_of := fst;
  set_loggers := fun ls w => (ls, w.2);
  loggers_set := fun ls w => eq_refl
|}.

#[local] Instance set_value_host : SetValueHost world := {|
  set_value_state := snd;
  set_set_value_state := fun s w => (w.1, s);
  on_trigger := fun i => Z.of_nat i;
  set_value_logger := 1%nat
|}.

(** The callbacks of the plugin; [depth] bounds the nesting. *)
Fixpoint set_value_callbacks (depth : nat) (callback : Z) (name : string) (arg : option nat) : M (global world) unit :=
  match depth with
  | O => lift Crash
  | S depth => run_trigger (RT := runtime_with even_allocator (set_value_callbacks depth)) 0 9 (Z.to_nat callback)
  end.

#[local] Instance set_value_runtime : Runtime world := runtime_with even_allocator (set_value_callbacks 4).

Definition scalar_tree (s : string) : yaml := YScalar no_region s.
Definition one_pair (k : string) (v : yaml) : yaml := YMapping no_region [(scalar_tree k, v)].
Definition sequence_of (l : list yaml) : yaml := YSequence no_region l.

(** [on_init] shares 5 as [n], the event [double] doubles it, finalization releases it. *)
Definition set_value_config : PC_tree :=
  tree_of (YMapping no_region
    [(scalar_tree "on_init", sequence_of [one_pair "share" (sequence_of [one_pair "n" (scalar_tree "5")])]);
     (scalar_tree "on_event", one_pair "double" (sequence_of [one_pair "set" (sequence_of [one_pair "n" (scalar_tree "2*$n")])]));
     (scalar_tree "on_finalize", sequence_of [one_pair "release" (sequence_of [scalar_tree "n"])])]).

Definition set_value_start : global world :=
  mkGlobal empty_store ∅ ∅ {["n" := mkDescriptor int_template false []]} (fun _ => mkRegistry [] []) 0 (demo_loggers, mkSetValue [] []).

Definition read_n : M (global world) Z := expr_to_long (Reference_expression "n" [] "").

Definition outcome_of {A} (o : exec (global world) A) : option A := match o with Done a _ => Some a | _ => None end.

Example set_value_run :
  outcome_of ((load_config 0 9 set_value_config;; a ← read_n; notify_event "double";; notify_event "double";; b ← read_n;
               finalize 0 9;; d ← get_desc "n"; mret (a, b, m_refs d)) set_value_start) = Some (5, 20, []).
Proof. vm_compute. reflexivity. Qed.

(** * Instances *)

Lemma set_value_start_ok : ctx_ok None set_value_start.
Proof.
  assert (Hd : forall n d, m_descriptors set_value_start !! n = Some d -> m_refs d = [] /\ m_metadata d = false).
  { intros n d Hn. simpl in Hn. by apply lookup_singleton_Some in Hn as [<- <-]. }
  split; [apply inv_empty|..].
  - intros n d r Hn Hr. destruct (Hd n d Hn) as [Hnil _]. rewrite Hnil in Hr. by apply not_elem_of_nil in Hr.
  - intros n d Hn. destruct (Hd n d Hn) as [-> _]. constructor.
  - intros n n' d d' r Hn _ Hr. destruct (Hd n d Hn) as [Hnil _]. rewrite Hnil in Hr. by apply not_elem_of_nil in Hr.
  - intros n d _ Hn Hm. destruct (Hd n d Hn) as [_ Hf]. congruence.
Defined.

Definition share_five : list Operation := [Share_operation [("n", tree_of (scalar_tree "5"))]].

Definition stops {S A} (o : exec S A) : bool := match o with Crashed => false | _ => true end.

Lemma stops_somewhere {S A} (o : exec S A) : stops o = true -> o <> Crashed.
Proof. by destruct o. Qed.

Lemma set_value_triggers_are_well_behaved_witness :
  tame_at None False set_value_start (execute (RT := quiet_runtime) 1 0 9 share_five) (fun _ _ => True) /\
  exists g', final (execute (RT := quiet_runtime) 1 0 9 (share_five ++ [Release_operation ["n"; "n"]]) set_value_start) = Some g' /\
    ctx_ok None g' /\ kept set_value_start g'.
Proof.
  split.
  - destruct (set_value_triggers_are_well_behaved (RT := quiet_runtime) (PL := observers_plugins (OB := quiet_observers)) 1 0 9 share_five set_value_start) as [_ H];
      [exact set_value_start_ok|apply stops_somewhere; vm_compute; reflexivity|exact (H eq_refl)].
  - destruct (set_value_triggers_are_well_behaved (RT := quiet_runtime) (PL := observers_plugins (OB := quiet_observers)) 1 0 9
                (share_five ++ [Release_operation ["n"; "n"]]) set_value_start) as [H _];
      [exact set_value_start_ok|apply stops_somewhere; vm_compute; reflexivity|exact H].
Defined.
