(* ===== verification/UserCode.v ===== *)
(** The User-code plugin: [plugins/user_code/user_code.cxx].

    A trigger exposes aliases of expressions, calls a function of the program when
    its condition holds, and stops exposing the aliases.  The function and the
    dynamic loader that finds it are parameters. *)

From S2P Require Import Prelude Error Effect ExprSyntax Datatype Layout Memory DenseCopy Access Ref RefInv RefOps RefTheorems RefCopy Numeric Parse Yaml Template GlobalContext Eval SetValue.

(** [m_fct] is the function found under that name. *)
Record Trigger := mkTrigger {
  m_fct : string;
  m_aliases : list (string * Impl);
  m_when : Impl
}.

(** The program: the symbols the loader finds among the loaded libraries or in
    the main executable, the text of [dlerror], and what a
    function does; the lambdas of the plugin have handles. *)
Class UserProgram (W : Type) := {
  dlsym_default : string -> bool;
  dlopen_main : bool;
  dlsym_main : string -> bool;
  dlerror : string;
  call_function : string -> M (global W) unit;
  user_triggers : W -> list Trigger;
  set_user_triggers : list Trigger -> W -> W;
  on_user_trigger : nat -> Z
}.

Section plugin.
  Context {W : Type} {RT : Runtime W} {UP : UserProgram W}.

Abbreviation G := (M (global W)).

(** ** Calling *)

(** Destructors that run when a block throws. *)
Definition on_throw {A} (m : G A) (destructor : G unit) : G A := fun g =>
  match m g with
  | Thrown e g => match destructor g with Done _ g => Thrown e g | Thrown _ _ | Crashed => Crashed end
  | o => o
  end.

(** [ExposedAlias::ExposedAlias] *)
Definition expose_alias (alias : string * Impl) : G unit :=
  desc alias.1;;
  in_context ("Could not alias `" +:+ alias.1 +:+ "' because ")
    (with_ref (expr_to_ref alias.2) (fun r => share_ref alias.1 r false false);; mret tt).

(** The destructor of the vector of exposed aliases. *)
Definition release_aliases (exposed : list string) : G unit := each_do release_desc exposed.

(** The aliases are exposed one after the other; those that are in the vector are
    released when the block ends, returning or throwing. *)
Fixpoint with_aliases (aliases : list (string * Impl)) (exposed : list string) (body : G unit) : G unit :=
  match aliases with
  | [] => finally body (release_aliases exposed)
  | alias :: aliases => on_throw (expose_alias alias) (release_aliases exposed);; with_aliases aliases (exposed ++ [alias.1]) body
  end.

(** [Trigger::call]: exceptions of the function are logged. *)
Definition call_trigger (t : Trigger) : G unit :=
  timed "user_code" (with_aliases (m_aliases t) [] (
    catch (v ← expr_to_long (m_when t); if negb (v =? 0) then call_function (m_fct t) else mret tt) (fun _ => mret tt))).

(** ** Configuration *)

(** [Trigger::Trigger] *)
Definition make_user_trigger (funcname : string) (params : PC_tree) (when_exp : Impl) : outcome Trigger :=
  found ← (if dlsym_default funcname then Ret true
           else if negb dlopen_main then Throw (System_error ("Unable to dlopen the main executable: " +:+ dlerror))
           else Ret (dlsym_main funcname));
  if negb found then Throw (System_error ("Unable to load user function `" +:+ funcname +:+ "': " +:+ dlerror))
  else
    aliases ← (if negb (PC_status (get_nth_key params 0)) then
                 each_pair params (fun alias var r =>
                   name ← Yaml.to_string alias; v ← Yaml.to_string var; e ← parse_expression v; Ret (r ++ [(name, e)])) []
               else Ret []);
    Ret (mkTrigger funcname aliases when_exp).

(** [opt_each] on a list or a single node, with effects. *)
Definition opt_each_do (t : PC_tree) (operation : PC_tree -> G unit) : G unit :=
  if negb (PC_status (get_item t 0)) then n ← lift (len t); each_do (fun i => operation (get_item t i)) (seq 0 n) else operation t.

Definition push_user_trigger (t : Trigger) : G Z := fun g =>
  let l := user_triggers (g_world g) in Done (on_user_trigger (length l)) (set_world (set_user_triggers (l ++ [t]) (g_world g)) g).

(** The functions of one node, registered by [add] under the name of [name_node]. *)
Definition register_functions (add : Z -> string -> G nat) (name_node one : PC_tree) : G unit :=
  let when := get_key one "when" in
  when_exp ← (if negb (PC_status when) then e ← lift (parse_tree when); lift (Yaml.to_string when);; mret e else mret (Int_literal 1));
  each_do (fun i =>
    function_name ← lift (Yaml.to_string (get_nth_key one i));
    if bool_decide (function_name = "when") then mret tt
    else
      t ← lift (make_user_trigger function_name (get_key one function_name) when_exp);
      h ← push_user_trigger t;
      name ← lift (Yaml.to_string name_node);
      add h name;; mret tt) (seq 0 (len_default one 0)).

Definition load_section (add : Z -> string -> G nat) (node : PC_tree) : G unit :=
  if PC_status node then mret tt
  else if is_list node then
    each_do (fun i =>
      let item := get_item node i in
      let name_node := get_nth_key item 0 in
      name ← lift (Yaml.to_string name_node);
      opt_each_do (get_key item name) (register_functions add name_node)) (seq 0 (len_default node 0))
  else if is_map node then
    n ← lift (len node);
    each_do (fun i => opt_each_do (get_nth_value node i) (register_functions add (get_nth_key node i))) (seq 0 n)
  else mret tt.

(** The constructor of the plugin. *)
Definition user_code_plugin (conf : PC_tree) : G unit :=
  load_section on_event (get_key conf "on_event");;
  load_section on_data (get_key conf "on_data").

(** What the lambda of trigger [i] does. *)
Definition run_user_trigger (i : nat) : G unit :=
  l ← gets (fun g => user_triggers (g_world g));
  match l !! i with Some t => call_trigger t | None => lift Crash end.

End plugin.
