(* ===== verification/UserCodeFacts.v ===== *)
(** The User-code plugin: it keeps the context consistent, and the aliases of a
    function are exposed exactly while it runs. *)

From S2P Require Import Prelude Error Effect ExprSyntax Datatype Layout Memory DenseCopy DenseCopyFacts Access Ref RefInv RefOps RefTheorems RefCopy Numeric Parse Yaml Template GlobalContext Eval ContextInv DescriptorInv EvalInv Share ShareFacts Logger SetValue SetValueFacts UserCode.

(** * The invariant *)

Section keeping.
  Context {W : Type} {RT : Runtime W} {PL : Plugins W} {UP : UserProgram W}.

Implicit Types g : global W.

Abbreviation ok := (ctx_ok None).

Lemma keeping_finally {A} (m : M (global W) A) d : keeping m -> keeping d -> keeping (finally m d).
Proof.
  intros Hm Hd g Hok. specialize (Hm g Hok). unfold wp, finally in *.
  destruct (m g) as [a g1|e g1|]; [| |done]; destruct Hm as [Hok1 Hk1]; specialize (Hd g1 Hok1); unfold wp in Hd;
    destruct (d g1) as [u g2|e2 g2|]; try done; destruct Hd as [? Hk2]; (split; [done|exact (kept_trans _ _ _ Hk1 Hk2)]).
Qed.

Lemma keeping_on_throw {A} (m : M (global W) A) d : keeping m -> keeping d -> keeping (on_throw m d).
Proof.
  intros Hm Hd g Hok. specialize (Hm g Hok). unfold wp, on_throw in *.
  destruct (m g) as [a g1|e g1|]; [done| |done]. destruct Hm as [Hok1 Hk1]. specialize (Hd g1 Hok1). unfold wp in Hd.
  destruct (d g1) as [u g2|e2 g2|]; try done. destruct Hd as [? Hk2]. split; [done|exact (kept_trans _ _ _ Hk1 Hk2)].
Qed.

Lemma keeping_catch {A} (m : M (global W) A) h : keeping m -> (forall e, keeping (h e)) -> keeping (catch m h).
Proof.
  intros Hm Hh g Hok. specialize (Hm g Hok). unfold wp, catch in *. destruct (m g) as [a g1|e g1|]; [done| |done].
  destruct Hm as [Hok1 Hk1]. specialize (Hh e g1 Hok1). unfold wp in Hh.
  destruct (h e g1) as [b g2|e2 g2|]; try done; destruct Hh as [? Hk2]; (split; [done|exact (kept_trans _ _ _ Hk1 Hk2)]).
Qed.

Lemma release_desc_keeping name : keeping (release_desc name).
Proof.
  intros g Hok. destruct (m_descriptors g !! name) as [d|] eqn:Hd; [by eapply release_desc_spec|].
  unfold wp, release_desc, in_context, catch, assert_placeholder, mbind, M_bind, get_desc. by rewrite Hd.
Qed.

Lemma expose_alias_keeping a : keeping (expose_alias a).
Proof.
  apply keeping_desc. intros g d Hok Hd. apply wp_in_context. apply keeping_at; [|intros; apply keeping_ret].
  apply keeping_with_ref; [done|eapply fresh_weaken, (tame_to_ref _ (methods_of_tame a.2)); done|]. intros r g1 Hg1 Hl.
  destruct (framed_desc _ _ a.1 d (proj2 Hg1) Hd) as (d1 & Hd1 & _).
  eapply wp_mono; [apply (share_ref_spec True g1 a.1 d1 r false false); [apply Hg1|done|done]|..];
    [intros b g2 [[? ?] _]|intros e g2 [? ?]]; (split; [done|by apply framed_kept]).
Qed.

Lemma with_aliases_keeping l body : keeping body -> forall exposed, keeping (with_aliases l exposed body).
Proof.
  intros Hb. assert (Hrel : forall exposed, keeping (release_aliases exposed)).
  { intros exposed. apply keeping_each. intros. apply release_desc_keeping. }
  induction l as [|a l IH]; intros exposed; simpl; [by apply keeping_finally|].
  apply keeping_bind; [apply keeping_on_throw; [apply expose_alias_keeping|done]|]. intros []. apply IH.
Qed.

Lemma timed_keeping {A} name (m : M (global W) A) : keeping m -> keeping (timed name m).
Proof.
  intros Hm. assert (Hev : forall n, keeping (notify_event n)).
  { intros n. apply (tame_keeping _ (fun _ _ _ => True)). intros g Hok. by apply notify_event_tame. }
  apply keeping_bind; [apply Hev|]. intros []. by apply keeping_finally.
Qed.

(** Calling a function of the program through the User-code plugin keeps
    the context consistent, and the references, descriptors and callbacks of the
    others, when the function itself does, wherever the call stops. *)
Theorem user_code_keeps_the_invariant t g :
  (forall f, keeping (call_function f)) -> ctx_ok None g ->
  match final (call_trigger t g) with Some g' => ctx_ok None g' /\ kept g g' | None => True end.
Proof.
  intros Hf Hok.
  assert (Hk : keeping (call_trigger t)).
  { apply timed_keeping, with_aliases_keeping, keeping_catch; [|intros; apply keeping_ret]. apply keeping_bind.
    - apply (tame_keeping _ (fun _ _ _ => True)). intros g' Hok'. by apply (tame_to_long _ (methods_of_tame (m_when t))).
    - intros v. destruct (negb _); [apply Hf|apply keeping_ret]. }
  specialize (Hk g Hok). unfold wp in Hk. by destruct (call_trigger t g).
Qed.

End keeping.

(** * Aliases *)

Section aliases.
  Context {W : Type} {RT : Runtime W} {OB : Observers W} {UP : UserProgram W}.

Implicit Types g : global W.

(** The top of the stack of [name] is linked to data [dt]. *)
Definition top_links g (name : string) (dt : nat) (dd : Referenced_data) : Prop :=
  exists d h rs, m_descriptors g !! name = Some d /\ m_refs d = h :: rs /\ links g h dt dd /\ data_address dd <> nullptr.

(** An alias of the data of a descriptor. *)
Definition alias_of (a : string * string) : string * Impl := (a.1, Reference_expression a.2 [] "").

(** The function sees the data of [a.2] under the name [a.1]. *)
Definition aliased g g1 (a : string * string) : Prop := exists dt dd, top_links g a.2 dt dd /\ top_links g1 a.1 dt dd.

Lemma expose_alias_runs g n x dn dt dd :
  inv (g_store g) -> m_descriptors g !! n = Some dn -> m_metadata dn = false -> top_links g x dt dd ->
  exists g' h, expose_alias (alias_of (n, x)) g = Done tt g' /\ calm nothing g g' /\
    m_descriptors g' = <[n := mkDescriptor (m_type dn) false (h :: m_refs dn)]> (m_descriptors g) /\ links g' h dt dd /\
    (next (g_store g) <= h)%nat.
Proof.
  intros Hinv Hn Hm (dx & top & rs & Hx & Hrs & Hl & Hnn).
  destruct (copy_runs g false false top Hinv (links_exists _ _ _ _ Hl)) as (g1 & Hrun1 & C1 & Hds1 & He1 & Hl1).
  specialize (Hl1 eq_refl eq_refl dt dd Hl Hnn).
  destruct (share_ref_runs g1 n dn (next (g_store g)) dt dd) as (g2 & h & Hrun2 & C2 & Hds2 & Hh & Hlt); [apply C1|by rewrite Hds1|done..|].
  assert (Hto : expr_to_ref (Reference_expression x [] "") g = Done (next (g_store g)) g1).
  { unfold expr_to_ref. cbn -[ref]. unfold mbind, M_bind, desc. rewrite Hx. rewrite (ref_runs g x dx top rs) by done. rewrite Hrun1. done. }
  destruct (with_ref_runs g g1 g2 (expr_to_ref (Reference_expression x [] "")) (fun r => share_ref n r false false) (next (g_store g)) nullptr)
    as (g3 & Hrun3 & C3 & Hds3 & Hl3); try done.
  pose proof (wf_next_refs _ (proj1 (cm_inv _ _ _ C1)) _ He1).
  exists g3, h. split_and!; [|done|by rewrite Hds3, Hds2, Hds1|apply Hl3; [lia|done]|pose proof (cm_next _ _ _ C1); lia].
  unfold expose_alias, alias_of. cbn -[with_ref expr_to_ref share_ref]. unfold mbind at 1, M_bind at 1, desc. rewrite Hn.
  unfold in_context, catch, mbind, M_bind. by rewrite Hrun3.
Qed.

(** The descriptors are those of [base], with a holder pushed for each alias. *)
Record raised (base : gmap string Descriptor) (xs : list (string * nat)) g : Prop := {
  rs_inv : inv (g_store g);
  rs_names : NoDup xs.*1;
  rs_holders : NoDup xs.*2;
  rs_pushed : forall n h, (n, h) ∈ xs -> exists d dt dd, base !! n = Some d /\ m_metadata d = false /\
    m_descriptors g !! n = Some (mkDescriptor (m_type d) false (h :: m_refs d)) /\ links g h dt dd /\ data_address dd <> nullptr;
  rs_rest : forall n, n ∉ xs.*1 -> m_descriptors g !! n = base !! n
}.

(** The references, the descriptors and the callbacks are as they were; the memory
    and the state of the plugins may be others. *)
Definition respects g g' : Prop := calm nothing g (set_mem (g_mem g) g') /\ m_descriptors g' = m_descriptors g.

Lemma respects_refl g : inv (g_store g) -> respects g g.
Proof. intros Hinv. split; [|done]. by destruct g. Qed.

Lemma respects_trans g1 g2 g3 : respects g1 g2 -> respects g2 g3 -> respects g1 g3.
Proof.
  intros [[I1 N1 R1 A1 _ B1] D1] [[I2 N2 R2 A2 _ B2] D2]. simpl in *.
  split; [|congruence]. split; simpl; [done|lia|auto| |done|congruence]. intros d dd Hd H. apply A1; [done|]. apply A2; [lia|done].
Qed.

Lemma respects_links g g' h d dd : inv (g_store g) -> respects g g' -> links g h d dd -> links g' h d dd.
Proof. intros Hinv [C _] Hl. exact (calm_links nothing g _ h d dd Hinv C (fun H => H) Hl). Qed.

Lemma raised_respects base xs g g' : raised base xs g -> respects g g' -> raised base xs g'.
Proof.
  intros [Hinv Hn Hh Hp Hr] Hg. pose proof Hg as [C Hds]. split; try done; [exact (cm_inv _ _ _ C)| |by intros n; rewrite Hds; apply Hr].
  intros n h Hin. destruct (Hp n h Hin) as (d & dt & dd & Hb & Hm & Hd & Hl & Hnn). exists d, dt, dd. rewrite Hds. split_and!; try done.
  by apply (respects_links g).
Qed.

(** Releasing the aliases in the order of the vector. *)
Lemma release_aliases_runs base xs : forall g, raised base xs g ->
  exists g', release_aliases xs.*1 g = Done tt g' /\ inv (g_store g') /\ m_descriptors g' = base /\ g_mem g' = g_mem g.
Proof.
  induction xs as [|[n h] xs IH]; intros g [Hinv Hn Hh Hp Hr].
  { exists g. split_and!; [done..| |done]. apply map_eq. intros n. apply Hr. by apply not_elem_of_nil. }
  destruct (Hp n h (list_elem_of_here _ _)) as (d & dt & dd & Hb & Hm & Hd & Hl & Hnn).
  destruct (release_desc_runs g n _ h (m_refs d) dt dd Hinv Hd) as (g1 & Hrun & C & Hds); try done.
  simpl in Hn, Hh. apply list.NoDup_cons in Hn as [Hnn' Hn], Hh as [Hhh Hh].
  destruct (IH g1) as (g2 & Hrun2 & Hinv2 & Hds2 & Hm2).
  - split; try done; [apply C| |].
    + intros n' h' Hin. destruct (Hp n' h' (list_elem_of_further _ _ _ Hin)) as (d' & dt' & dd' & Hb' & Hm' & Hd' & Hl' & Hnn2).
      exists d', dt', dd'. split_and!; try done.
      * rewrite Hds, lookup_insert_ne; [done|]. intros <-. apply Hnn'. by apply (list_elem_of_fmap_2 fst xs (n, h')).
      * eapply calm_links; [exact Hinv|exact C| |done]. intros <-. apply Hhh. by apply (list_elem_of_fmap_2 snd xs (n', h)).
    + intros n' Hn'. rewrite Hds. destruct (decide (n = n')) as [<-|Hne].
      * rewrite lookup_insert_eq, Hb. simpl. rewrite <- Hm. by destruct d.
      * rewrite lookup_insert_ne by done. apply Hr. simpl. rewrite not_elem_of_cons. by split.
  - exists g2. split_and!; [|done..|by rewrite Hm2, (cm_mem _ _ _ C)]. unfold release_aliases, each_do. simpl. unfold mbind, M_bind. rewrite Hrun. exact Hrun2.
Qed.

Lemma raised_push base xs g g' n h d dt dd :
  raised base xs g -> n ∉ xs.*1 -> base !! n = Some d -> m_metadata d = false -> calm nothing g g' ->
  m_descriptors g' = <[n := mkDescriptor (m_type d) false (h :: m_refs d)]> (m_descriptors g) -> links g' h dt dd ->
  data_address dd <> nullptr -> (next (g_store g) <= h)%nat -> raised base (xs ++ [(n, h)]) g'.
Proof.
  intros [Hinv Hn Hh Hp Hr] Hnew Hb Hm C Hds Hl Hnn Hlt. split; [apply C|..].
  - rewrite fmap_app. apply list.NoDup_app. split_and!; [done| |apply NoDup_singleton]. simpl. intros n' Hn' [-> |[]%not_elem_of_nil]%elem_of_cons. done.
  - rewrite fmap_app. apply list.NoDup_app. split_and!; [done| |apply NoDup_singleton]. simpl.
    intros h' (y & -> & Hy)%list_elem_of_fmap [Heq|[]%not_elem_of_nil]%elem_of_cons. destruct y as [n' h']. simpl in Heq. subst h'.
    destruct (Hp n' h Hy) as (_ & dt' & dd' & _ & _ & _ & Hl' & _). pose proof (wf_next_refs _ (proj1 Hinv) h (links_exists _ _ _ _ Hl')). lia.
  - intros n' h' [Hin|[= -> ->]%list_elem_of_singleton]%elem_of_app.
    + destruct (Hp n' h' Hin) as (d' & dt' & dd' & Hb' & Hm' & Hd' & Hl' & Hnn'). exists d', dt', dd'. split_and!; try done.
      * rewrite Hds, lookup_insert_ne; [done|]. intros <-. apply Hnew. by apply (list_elem_of_fmap_2 fst xs (n, h')).
      * eapply calm_links; [exact Hinv|exact C|tauto|done].
    + exists d, dt, dd. rewrite Hds, lookup_insert_eq. by split_and!.
  - intros n' Hn'. rewrite fmap_app, not_elem_of_app in Hn'. destruct Hn' as [Hn1 Hn2]. rewrite Hds, lookup_insert_ne; [by apply Hr|].
    intros <-. apply Hn2. apply list_elem_of_here.
Qed.

(** Aliases with distinct names, of descriptors that are not aliases themselves. *)
Record exposable_aliases (l : list (string * string)) g : Prop := {
  ea_names : NoDup l.*1;
  ea_apart : forall a, a ∈ l -> a.2 ∉ l.*1;
  ea_target : forall a, a ∈ l -> exists d, m_descriptors g !! a.1 = Some d /\ m_metadata d = false;
  ea_source : forall a, a ∈ l -> exists dt dd, top_links g a.2 dt dd
}.

(** What is exposed so far. *)
Definition exposed_so_far g0 (done : list (string * string)) (xs : list (string * nat)) g : Prop :=
  calm nothing g0 g /\ raised (m_descriptors g0) xs g /\ xs.*1 = done.*1 /\ Forall (aliased g0 g) done.

Lemma aliased_step g0 g g' n d h done :
  calm nothing g g' -> inv (g_store g) -> m_descriptors g' = <[n := mkDescriptor (m_type d) false (h :: m_refs d)]> (m_descriptors g) ->
  n ∉ done.*1 -> Forall (aliased g0 g) done -> Forall (aliased g0 g') done.
Proof.
  intros C Hinv Hds Hn Hall. rewrite list.Forall_forall in *. intros a Ha. destruct (Hall a Ha) as (dt & dd & Hsrc & (dn & hn & rs & Hdn & Hrs & Hl & Hnn)).
  exists dt, dd. split; [done|]. exists dn, hn, rs. split_and!; try done.
  - rewrite Hds, lookup_insert_ne; [done|]. intros ->. apply Hn. by apply list_elem_of_fmap_2.
  - eapply calm_links; [exact Hinv|exact C|tauto|done].
Qed.

Lemma with_aliases_runs g0 body : inv (g_store g0) -> forall l done xs g,
  exposable_aliases (done ++ l) g0 -> exposed_so_far g0 done xs g ->
  exists g1, inv (g_store g1) /\ calm nothing g0 g1 /\ Forall (aliased g0 g1) (done ++ l) /\
    forall g2, body g1 = Done tt g2 -> respects g1 g2 ->
      exists g', with_aliases (map alias_of l) done.*1 body g = Done tt g' /\ inv (g_store g') /\ m_descriptors g' = m_descriptors g0 /\ g_mem g' = g_mem g2.
Proof.
  intros Hinv0. induction l as [|[n x] l IH]; intros done xs g Hex (C & Hra & Hnames & Hal); simpl.
  { rewrite app_nil_r in *. exists g. split_and!; [apply C|done..|]. intros g2 Hrun Hg2.
    destruct (release_aliases_runs (m_descriptors g0) xs g2) as (g3 & Hrun3 & Hinv3 & Hds3 & Hm3); [by eapply raised_respects|].
    rewrite Hnames in Hrun3. exists g3. unfold finally. by rewrite Hrun, Hrun3. }
  assert (Hin : (n, x) ∈ done ++ (n, x) :: l) by (apply elem_of_app; right; apply list_elem_of_here).
  destruct (ea_target _ _ Hex _ Hin) as (d & Hd & Hm), (ea_source _ _ Hex _ Hin) as (dt & dd & Hsrc). simpl in *.
  assert (Hnew : n ∉ done.*1).
  { pose proof (ea_names _ _ Hex) as Hnd. rewrite fmap_app in Hnd. apply list.NoDup_app in Hnd as (_ & Hdis & _). intros Hn. by apply (Hdis n Hn), list_elem_of_here. }
  assert (Hg : m_descriptors g !! n = Some d) by (rewrite (rs_rest _ _ _ Hra); [done|by rewrite Hnames]).
  assert (Hsrc' : top_links g x dt dd).
  { destruct Hsrc as (dx & top & rs & Hdx & Hrs & Hl & Hnn). exists dx, top, rs. split_and!; try done.
    - rewrite (rs_rest _ _ _ Hra); [done|]. rewrite Hnames. intros Hx. apply (ea_apart _ _ Hex _ Hin). simpl. rewrite fmap_app. apply elem_of_app. by left.
    - eapply calm_links; [exact Hinv0|exact C|tauto|done]. }
  destruct (expose_alias_runs g n x d dt dd (rs_inv _ _ _ Hra) Hg Hm Hsrc') as (g1 & h & Hrun1 & C1 & Hds1 & Hl1 & Hlt).
  assert (Hnn : data_address dd <> nullptr) by (by destruct Hsrc as (? & ? & ? & ? & ? & ? & ?)).
  destruct (IH (done ++ [(n, x)]) (xs ++ [(n, h)]) g1) as (g' & Hinv' & C' & Hall' & Hbody).
  - by rewrite <- app_assoc.
  - split_and!; [by eapply calm_step| | |].
    + eapply raised_push; try done. by rewrite Hnames.
    + by rewrite !fmap_app, Hnames.
    + apply Forall_app. split; [by eapply (aliased_step g0 g g1 n d h done C1 (rs_inv _ _ _ Hra))|].
      constructor; [|constructor]. exists dt, dd. split; [done|]. exists (mkDescriptor (m_type d) false (h :: m_refs d)), h, (m_refs d).
      rewrite Hds1, lookup_insert_eq. by split_and!.
  - exists g'. rewrite <- app_assoc in Hall'. split_and!; [done..|]. intros g2 Hb Hg2. destruct (Hbody g2 Hb Hg2) as (g3 & Hrun & H3).
    exists g3. split; [|done]. rewrite fmap_app in Hrun. unfold mbind, M_bind, on_throw. rewrite Hrun1. exact Hrun.
Qed.

Lemma top_links_calm g g' x dt dd :
  inv (g_store g) -> calm nothing g g' -> m_descriptors g' = m_descriptors g -> top_links g x dt dd -> top_links g' x dt dd.
Proof.
  intros Hinv C Hds (d & h & rs & Hd & Hrs & Hl & Hnn). exists d, h, rs. rewrite Hds. split_and!; try done.
  eapply calm_links; [exact Hinv|exact C|tauto|done].
Qed.

Lemma top_links_unique g x dt dd dt' dd' : top_links g x dt dd -> top_links g x dt' dd' -> dt = dt' /\ dd = dd'.
Proof.
  intros (d & h & rs & Hd & Hrs & (y & Hy & Hc & Hdt) & _) (d' & h' & rs' & Hd' & Hrs' & (y' & Hy' & Hc' & Hdt') & _). assert (d = d') as <- by congruence. assert (h = h') as <- by congruence. assert (y = y') as <- by congruence. assert (dt = dt') as <- by congruence. split; congruence.
Qed.

(** C33: the function of a trigger whose aliases are plain [$] references, with
    distinct names that are neither metadata nor aliased themselves, to data that is
    there; the other plugins observe.  The condition is evaluated in a state where
    every alias is on top of the stack of its name and linked to the data of the
    descriptor it stands for; the function is called, in the state after that, exactly
    when the condition is not zero, and its exceptions are swallowed; what it wrote to
    memory stays, and afterwards the stacks of all the descriptors are what they were
    before the trigger.  The condition and the function may change the memory and the
    state of the plugins, but give references and stacks back as they found them. *)
Theorem aliases_are_exposed_during_the_call f l when g :
  inv (g_store g) -> exposable_aliases l g ->
  exists g1, inv (g_store g1) /\ calm nothing g g1 /\ Forall (aliased g g1) l /\
    forall c g2 g3, expr_to_long when g1 = Done c g2 -> respects g1 g2 ->
      (if c =? 0 then Some g2 else final (call_function f g2)) = Some g3 -> respects g2 g3 ->
      Forall (aliased g g2) l /\
      exists g', call_trigger (mkTrigger f (map alias_of l) when) g = Done tt g' /\ inv (g_store g') /\
        m_descriptors g' = m_descriptors g /\ g_mem g' = g_mem g3.
Proof.
  intros Hinv Hex.
  destruct (notify_runs g On_event "while triggering" "user_code_start_timer" None Hinv) as (g0 & Hrun0 & C0 & Hds0); [done|].
  pose proof (cm_inv _ _ _ C0) as Hinv0.
  set (body := catch (c ← expr_to_long when; if negb (c =? 0) then call_function f else mret tt) (fun _ => mret tt)).
  destruct (with_aliases_runs g0 body Hinv0 l [] [] g0) as (g1 & Hinv1 & C1 & Hall & Hbody).
  { destruct Hex as [H1 H2 H3 H4]. split; [done|done|by rewrite Hds0|]. intros a Ha. destruct (H4 a Ha) as (dt & dd & Ht).
    exists dt, dd. by apply (top_links_calm g g0). }
  { split_and!; [by apply calm_refl| |done|constructor]. split; [done|constructor|constructor|by intros ? ? ?%not_elem_of_nil|done]. }
  assert (Hall1 : Forall (aliased g g1) l).
  { simpl in Hall. rewrite list.Forall_forall in *. intros a Ha. destruct (Hall a Ha) as (dt & dd & Hsrc & Htop), (ea_source _ _ Hex a Ha) as (dt' & dd' & Hg).
    destruct (top_links_unique g0 a.2 dt dd dt' dd' Hsrc) as [-> ->]; [by apply (top_links_calm g g0)|]. by exists dt', dd'. }
  exists g1. split_and!; [done|by eapply calm_step|done|]. intros c g2 g3 Hc R2 Hf R3. split.
  { eapply list.Forall_impl; [exact Hall1|]. intros a (dt & dd & Hsrc & d & h & rs & Hd & Hrs & Hl & Hnn). exists dt, dd. split; [done|].
    exists d, h, rs. split_and!; [by rewrite (proj2 R2)|done|by apply (respects_links g1)|done]. }
  destruct (Hbody g3) as (g4 & Hrun4 & Hinv4 & Hds4 & Hm4); [|by eapply respects_trans|].
  { unfold body, catch, mbind, M_bind. rewrite Hc. destruct (c =? 0); simpl; [by injection Hf as <-|].
    destruct (call_function f g2) as [[] g'|e g'|]; [| |done]; by injection Hf as <-. }
  destruct (notify_runs g4 On_event "while triggering" "user_code_stop_timer" None Hinv4) as (g5 & Hrun5 & C5 & Hds5); [done|].
  exists g5. split_and!; [|apply C5|by rewrite Hds5, Hds4, Hds0|by rewrite (cm_mem _ _ _ C5)].
  unfold call_trigger, timed, finally. unfold mbind at 1, M_bind at 1.
  change (notify_event ("user_code" +:+ "_start_timer")) with (notify_named (W := W) On_event "while triggering" "user_code_start_timer" None).
  change (notify_event ("user_code" +:+ "_stop_timer")) with (notify_named (W := W) On_event "while triggering" "user_code_stop_timer" None).
  rewrite Hrun0. cbn [m_aliases m_when m_fct]. fold body. change ([].*1) with (@nil string) in Hrun4. by rewrite Hrun4, Hrun5.
Qed.

End aliases.

(** * Instances *)

#[local] Existing Instance quiet_runtime.
#[local] Existing Instance quiet_observers.

(** [write] writes to the memory of the program. *)
#[local] Instance idle_program : UserProgram unit := {|
  dlsym_default := fun _ => true;
  dlopen_main := true;
  dlsym_main := fun _ => true;
  dlerror := "";
  call_function := fun f => if bool_decide (f = "write") then modify (fun g => set_mem (<[4096 := 9]> (g_mem g)) g) else mret tt;
  user_triggers := fun _ => [];
  set_user_triggers := fun _ w => w;
  on_user_trigger := Z.of_nat
|}.

(** [n] is shared at address 4096, and [alias] is not shared. *)
Definition alias_g : global unit := state_after (run_op (Op_default_type "alias" int_template) demo_g2).

Lemma alias_g_reachable : ctx_reachable alias_g.
Proof.
  destruct demo_g2_reachable as (g0 & Hinit & Hsteps). exists g0. split; [done|]. eapply rtc_r; [exact Hsteps|].
  eapply (step_returns _ (Op_default_type "alias" int_template) nullptr). by vm_compute.
Defined.

Lemma alias_exposable : exposable_aliases [("alias", "n")] alias_g.
Proof.
  split.
  - apply NoDup_singleton.
  - intros a ->%list_elem_of_singleton. simpl. by intros [=]%list_elem_of_singleton.
  - intros a ->%list_elem_of_singleton. eexists. split; [by vm_compute|done].
  - intros a ->%list_elem_of_singleton. simpl. eexists _, _, _, _, _. split; [by vm_compute|]. split; [done|].
    split; [eexists; split; [by vm_compute|]; split; [done|by vm_compute]|by vm_compute].
Defined.

Lemma aliases_are_exposed_during_the_call_witness :
  exists g', call_trigger (mkTrigger "write" (map alias_of [("alias", "n")]) (Int_literal 1)) alias_g = Done tt g' /\
    m_descriptors g' = m_descriptors alias_g /\ g_mem g' !! 4096 = Some 9.
Proof.
  destruct (aliases_are_exposed_during_the_call "write" [("alias", "n")] (Int_literal 1) alias_g) as (g1 & Hinv1 & _ & _ & H);
    [apply (ok_store None), ctx_reachable_ok, alias_g_reachable|exact alias_exposable|].
  destruct (H 1 g1 (set_mem (<[4096 := 9]> (g_mem g1)) g1)) as (_ & g' & Hrun & _ & Hds & Hm).
  - reflexivity.
  - by apply respects_refl.
  - reflexivity.
  - split; [|reflexivity]. destruct (calm_refl g1 Hinv1) as [? ? ? ? ? ?]. by split.
  - exists g'. split; [exact Hrun|]. split; [exact Hds|]. rewrite Hm. apply lookup_insert_eq.
Defined.

Lemma user_code_keeps_the_invariant_witness :
  match final (call_trigger (mkTrigger "f" (map alias_of [("alias", "n")]) (Int_literal 1)) alias_g) with
  | Some g' => ctx_ok None g' /\ kept alias_g g'
  | None => True
  end.
Proof.
  apply (user_code_keeps_the_invariant (mkTrigger "f" (map alias_of [("alias", "n")]) (Int_literal 1)) alias_g).
  - intros f. change (call_function f) with ((if bool_decide (f = "write") then modify (fun g => set_mem (<[4096 := 9]> (g_mem g)) g) else mret tt) : M (global unit) unit).
    case_bool_decide; [|exact (keeping_ret tt)]. intros g Hok. split; [by destruct Hok; split|]. by split.
  - apply ctx_reachable_ok, alias_g_reachable.
Defined.
