(* ===== verification/Json.v ===== *)
(** The JSON plugin: [plugins/json/json.cxx].

    Data that is shared is written as a JSON document at the end of the array that
    a file holds.  Of the JSON library, the values and the two operations that
    build them are modelled; their text, the files and their access rights are
    parameters. *)

From S2P Require Import Prelude Error Effect ExprSyntax Datatype Layout Memory DenseCopy Access Ref RefInv RefOps RefTheorems RefCopy Numeric Parse Yaml Template GlobalContext Eval SetValue.
From Stdlib Require Import Ascii.

(** * JSON values *)

(** The members of an object are sorted by their keys. *)
Inductive json :=
  | J_null
  | J_string (s : string)
  | J_integer (v : Z)
  | J_unsigned (v : Z)
  | J_float (v : spec_float)
  | J_array (l : list json)
  | J_object (l : list (string * json)).

Definition type_name (j : json) : string :=
  match j with
  | J_null => "null" | J_object _ => "object" | J_array _ => "array" | J_string _ => "string"
  | J_integer _ | J_unsigned _ | J_float _ => "number"
  end.

(** [basic_json::emplace_back] *)
Definition emplace_back (j v : json) : outcome json :=
  match j with
  | J_null => Ret (J_array [v])
  | J_array l => Ret (J_array (l ++ [v]))
  | _ => Throw (Std_exception ("[json.exception.type_error.311] cannot use emplace_back() with " +:+ type_name j))
  end.

(** [m[key] = v] for a [std::map]. *)
Fixpoint map_assign (key : string) (v : json) (m : list (string * json)) : list (string * json) :=
  match m with
  | [] => [(key, v)]
  | (k, x) :: m =>
      match String.compare key k with
      | Lt => (key, v) :: (k, x) :: m
      | Eq => (k, v) :: m
      | Gt => (k, x) :: map_assign key v m
      end
  end.

(** [j[key] = v], with [basic_json::operator[]]. *)
Definition assign_member (j : json) (key : string) (v : json) : outcome json :=
  match j with
  | J_null => Ret (J_object [(key, v)])
  | J_object m => Ret (J_object (map_assign key v m))
  | _ => Throw (Std_exception ("[json.exception.type_error.305] cannot use operator[] with a string argument with " +:+ type_name j))
  end.

(** * The configuration *)

(** [m_data_to_path_map]: conditions and file names. *)
Abbreviation Paths := (gmap string (list (Impl * Impl))).

Definition add_path (name : string) (entry : Impl * Impl) (paths : Paths) : Paths :=
  match paths !! name with
  | Some l => <[name := l ++ [entry]]> paths
  | None => <[name := [entry]]> paths
  end.

(** The first loop over an element with a file. *)
Definition read_when (elem_tree : PC_tree) : outcome Impl :=
  each_pair elem_tree (fun key_tree value_tree default_when =>
    key ← Yaml.to_string key_tree;
    if bool_decide (key = "when") then v ← Yaml.to_string value_tree; parse_expression v
    else if negb (bool_decide (key = "file")) && negb (bool_decide (key = "write")) then
      spectree_error key_tree ("Unknown keyword '" +:+ key +:+ "' encountered while expecting file, when, or write")
    else Ret default_when) (Int_literal 1).

(** The second one. *)
Definition read_write (elem_tree : PC_tree) (default_when filepath : Impl) (paths : Paths) : outcome Paths :=
  each_pair elem_tree (fun key_tree _ paths =>
    key ← Yaml.to_string key_tree;
    if bool_decide (key = "write") then
      let write_tree := get_key elem_tree "write" in
      if negb (PC_status (get_item write_tree 0)) then
        each write_tree (fun tree paths => name ← Yaml.to_string tree; Ret (add_path name (default_when, filepath) paths)) paths
      else spectree_error key_tree "Unknown write method. Please use [var1, var2, ...]"
    else Ret paths) paths.

Definition read_element (elem_tree : PC_tree) (paths : Paths) : outcome Paths :=
  first ← Yaml.to_string (get_nth_key elem_tree 0);
  if bool_decide (first = "file") then
    f ← Yaml.to_string (get_key elem_tree "file");
    filepath ← parse_expression f;
    default_when ← read_when elem_tree;
    read_write elem_tree default_when filepath paths
  else
    f ← Yaml.to_string (get_nth_value elem_tree 0);
    filepath ← parse_expression f;
    Ret (add_path first (Int_literal 1, filepath) paths).

Definition read_config_tree (spec_tree : PC_tree) : outcome Paths :=
  if PC_status spec_tree then Ret ∅ else opt_each spec_tree read_element ∅.

(** * The plugin *)

(** The plugins include this one.  [dump] is the text of a value with an indent of
    4; a file that can be opened for reading and writing has a content, and others
    may be created; [traversal] is the order of an [unordered_map]. *)
Class JsonHost (W : Type) := {
  json_paths : W -> Paths;
  set_json_paths : Paths -> W -> W;
  on_json_data : Z;
  traversal : Paths -> list string;
  dump : json -> outcome string;
  open_in_out : string -> W -> option string;
  can_create : string -> W -> bool;
  write_file : string -> string -> W -> W
}.

Section plugin.
  Context {W : Type} {RT : Runtime W} {JH : JsonHost W}.

Abbreviation G := (M (global W)).

(** ** Values *)

Definition ref_dereference (r : nat) : G nat := ref_is_null r;; m ← gets g_mem; on_store (dereference_ref m r).

(** [for (int i = 0; i < n; i++)], where [n] is a [size_t]. *)
Definition for_int {B} (n : Z) (f : Z -> B -> G B) (b : B) : G B :=
  b ← iter f (seqZ 0 (Z.min n (2 ^ 31))) b; assert (n <? 2 ^ 31);; mret b.

Definition char_string (v : Z) : string := string_of_bytes [v mod 256].

Definition as_double (n : cnum) : outcome spec_float := n ← convert CDouble n; match n with NDouble f => Ret f | _ => Crash end.

Definition write_scalar_to_json (reference : nat) : G json :=
  t ← ref_type reference;
  match t with
  | Scalar_datatype _ k _ _ _ _ _ =>
      let size := buffersize t in
      match k with
      | UNSIGNED =>
          if size =? 1 then n ← ref_scalar_value (CInt true 1) reference; mret (J_string (char_string (int_value n)))
          else if bool_decide (size ∈ [2; 4; 8]) then n ← ref_scalar_value (CInt false size) reference; mret (J_unsigned (int_value n))
          else throw (Type_error "Unknown size of unsigned integer datatype")
      | SIGNED =>
          if bool_decide (size ∈ [1; 2; 4; 8]) then n ← ref_scalar_value (CInt true size) reference; mret (J_integer (int_value n))
          else throw (Type_error "Unknown size of signed integer datatype")
      | FLOAT =>
          if size =? 4 then n ← ref_scalar_value CFloat reference; f ← lift (as_double n); mret (J_float f)
          else if size =? 8 then n ← ref_scalar_value CDouble reference; f ← lift (as_double n); mret (J_float f)
          else throw (Type_error "Unknown size of float datatype")
      | UNKNOWN => throw (Type_error "Unknown datatype to get value")
      end
  | _ => lift Crash
  end.

Definition is_unsigned_byte (t : Datatype) : bool :=
  match t with Scalar_datatype _ UNSIGNED _ _ _ _ _ => buffersize t =? 1 | _ => false end.

(** The characters of an array. *)
Definition write_chars (size : Z) (reference : nat) : G json :=
  str ← for_int size (fun i str =>
    with_part (ref_index i reference) (fun r => a ← ref_get r; c ← load_string a 1; mret (str +:+ c))) "";
  lift (emplace_back J_null (J_string str)).

Fixpoint write_array_to_json (fuel : nat) (reference : nat) : G json :=
  match fuel with
  | O => lift Crash
  | S fuel =>
      t ← ref_type reference;
      match t with
      | Array_datatype _ sub size _ _ =>
          if is_unsigned_byte sub then write_chars size reference
          else
            for_int size (fun i json_data =>
              v ← with_part (ref_index i reference) (fun r =>
                match sub with
                | Scalar_datatype _ _ _ _ _ _ _ => write_scalar_to_json r
                | Array_datatype _ _ _ _ _ => write_array_to_json fuel r
                | Record_datatype _ _ _ => write_record_to_json fuel r
                | Pointer_datatype _ _ _ _ => write_pointer_to_json fuel r
                | Tuple_datatype _ _ _ => write_tuple_to_json fuel r
                end);
              lift (emplace_back json_data v)) J_null
      | _ => lift Crash
      end
  end
with write_record_to_json (fuel : nat) (reference : nat) : G json :=
  match fuel with
  | O => lift Crash
  | S fuel =>
      t ← ref_type reference;
      match t with
      | Record_datatype _ ms _ =>
          iter (fun mb json_data =>
            v ← match member_type mb with
                | Scalar_datatype _ _ _ _ _ _ _ => with_part (ref_member (member_name mb) reference) write_scalar_to_json
                | Array_datatype _ _ _ _ _ => with_part (ref_member (member_name mb) reference) (write_array_to_json fuel)
                | Pointer_datatype _ _ _ _ => with_part (ref_member (member_name mb) reference) (write_pointer_to_json fuel)
                | Tuple_datatype _ _ _ => with_part (ref_member (member_name mb) reference) (write_tuple_to_json fuel)
                | Record_datatype _ _ _ => throw (Type_error "Unknown member datatype passed to json")
                end;
            lift (assign_member json_data (member_name mb) v)) ms J_null
      | _ => lift Crash
      end
  end
with write_tuple_to_json (fuel : nat) (reference : nat) : G json :=
  match fuel with
  | O => lift Crash
  | S fuel =>
      t ← ref_type reference;
      match t with
      | Tuple_datatype _ es _ =>
          for_int (vsize es) (fun i json_data =>
            e ← lift (vector_at es i);
            v ← with_part (ref_index i reference) (fun r =>
              match element_type e with
              | Scalar_datatype _ _ _ _ _ _ _ => write_scalar_to_json r
              | Array_datatype _ _ _ _ _ => write_array_to_json fuel r
              | Pointer_datatype _ _ _ _ => write_pointer_to_json fuel r
              | Record_datatype _ _ _ => write_record_to_json fuel r
              | Tuple_datatype _ _ _ =>
                  throw (Type_error "Unknown tuple subtype passed to json, currently supprting scalar and array subtypes.")
              end);
            lift (emplace_back json_data v)) J_null
      | _ => lift Crash
      end
  end
with write_pointer_to_json (fuel : nat) (reference : nat) : G json :=
  match fuel with
  | O => lift Crash
  | S fuel =>
      with_ref (ref_dereference reference) (fun dereferenced_ref =>
        n ← ref_is_null dereferenced_ref;
        if n : bool then throw (Value_error "Can't dereference with read permissions")
        else with_ref (ref_copy true false dereferenced_ref) (choose_type_and_dump_to_json fuel))
  end
with choose_type_and_dump_to_json (fuel : nat) (reference : nat) : G json :=
  match fuel with
  | O => lift Crash
  | S fuel =>
      t ← ref_type reference;
      match t with
      | Scalar_datatype _ _ _ _ _ _ _ => write_scalar_to_json reference
      | Array_datatype _ _ _ _ _ => write_array_to_json fuel reference
      | Record_datatype _ _ _ => write_record_to_json fuel reference
      | Tuple_datatype _ _ _ => write_tuple_to_json fuel reference
      | Pointer_datatype _ _ _ _ => write_pointer_to_json fuel reference
      end
  end.

(** The levels of a type; each takes at most two calls. *)
Fixpoint depth (t : Datatype) : nat :=
  match t with
  | Scalar_datatype _ _ _ _ _ _ _ => 1
  | Array_datatype _ sub _ _ _ | Pointer_datatype _ sub _ _ => S (depth sub)
  | Record_datatype _ ms _ => S (foldr (fun m n => Nat.max (depth (member_type m)) n) O ms)
  | Tuple_datatype _ es _ => S (foldr (fun e n => Nat.max (depth (element_type e)) n) O es)
  end.

Definition dump_to_json (reference : nat) : G json :=
  t ← ref_type reference; choose_type_and_dump_to_json (2 * depth t) reference.

(** ** Files *)

(** [json_file << head << json_data.dump(4) << "\n]"] after [before]: what was
    written stays when [dump] throws. *)
Definition write_document (filepath before head : string) (json_data : json) : G unit :=
  modify (fun g => set_world (write_file filepath (before +:+ head) (g_world g)) g);;
  text ← lift (dump json_data);
  modify (fun g => set_world (write_file filepath (before +:+ head +:+ text +:+ newline +:+ "]") (g_world g)) g).

(** The character that [seekg(-1, end)] and [get] read. *)
Definition last_char (content : string) : option ascii := String.get (String.length content - 1) content.

(** Case 1 creates the file, case 2 appends to the array: an empty file has no last
    character to read, and [seekp(-2, end)] fails on a file of one character. *)
Definition write_json_file (filepath : string) (json_data : json) : G unit :=
  w ← gets g_world;
  match open_in_out filepath w with
  | None =>
      if can_create filepath w then write_document filepath "" ("[" +:+ newline) json_data
      else lift (dump json_data);; mret tt
  | Some content =>
      match last_char content with
      | None => lift Crash
      | Some c =>
          if bool_decide (c = "]"%char) then
            if (String.length content <? 2)%nat then lift (dump json_data);; mret tt
            else write_document filepath (String.substring 0 (String.length content - 2) content) ("," +:+ newline) json_data
          else mret tt
      end
  end.

(** [m_data_to_path_map[data_name]], which adds what it does not find. *)
Definition paths_of (data_name : string) : G (list (Impl * Impl)) := fun g =>
  let paths := json_paths (g_world g) in
  match paths !! data_name with
  | Some l => Done l g
  | None => Done [] (set_world (set_json_paths (<[data_name := []]> paths) (g_world g)) g)
  end.

(** One iteration of [write_data]. *)
Definition write_entry (data_name : string) (reference : nat) (entry : Impl * Impl) : G unit :=
  c ← expr_to_long entry.1;
  if c =? 0 then mret tt
  else
    filepath ← expr_to_string entry.2;
    ref_is_null reference;;
    v ← dump_to_json reference;
    json_data ← lift (assign_member J_null data_name v);
    write_json_file filepath json_data.

Definition write_data (data_name : string) (reference : nat) : G unit :=
  timed "json" (entries ← paths_of data_name; each_do (write_entry data_name reference) entries).

(** The callback, whose reference is converted to a [Ref_r]. *)
Definition write_shared (data_name : string) (ref : nat) : G unit := with_ref (ref_copy true false ref) (write_data data_name).

(** The constructor. *)
Definition json_plugin (spec_tree : PC_tree) : G unit :=
  paths ← lift (read_config_tree spec_tree);
  modify (fun g => set_world (set_json_paths paths (g_world g)) g);;
  each_do (fun name => on_data on_json_data name;; mret tt) (traversal paths).

End plugin.
