(* ===== verification/JsonFacts.v ===== *)
(** What the JSON plugin writes: the value of the data, whatever references it
    takes to read it, at the end of the array that the file holds. *)

From S2P Require Import Prelude Error Effect ExprSyntax Datatype Layout Memory DenseCopy DenseCopyFacts Access Ref RefInv RefOps RefTheorems RefCopy Numeric Parse Yaml Template GlobalContext Eval ContextInv DescriptorInv EvalInv Share ShareFacts MetadataFacts SetValue Json.
From Stdlib Require Import Ascii.

(** * The JSON value of data in memory *)

(** A number; a byte is a character. *)
Definition num_json (n : cnum) : option json :=
  match n with
  | NInt true _ v => Some (J_integer v)
  | NInt false w v => Some (if w =? 1 then J_string (char_string v) else J_unsigned v)
  | NFloat f => Some (J_float (float_of_float true (float_of_float false f)))
  | NDouble f => Some (J_float (float_of_float true (float_of_float true f)))
  | NBool _ => None
  end.

Definition returned {A} (o : outcome A) : option A := match o with Ret a => Some a | _ => None end.

Definition scalar_json (m : mem) (t : Datatype) (k : Scalar_kind) (a : Z) : option json :=
  c ← returned (stored_type k (buffersize t)); n ← returned (read_as c m a); num_json n.

(** No element is no array, and no member no object. *)
Definition array_json (l : list json) : json := match l with [] => J_null | _ => J_array l end.
Definition object_json (l : list (string * json)) : json :=
  match l with [] => J_null | _ => J_object (foldl (fun m kv => map_assign kv.1 kv.2 m) [] l) end.

Definition is_record (t : Datatype) : bool := match t with Record_datatype _ _ _ => true | _ => false end.
Definition is_tuple (t : Datatype) : bool := match t with Tuple_datatype _ _ _ => true | _ => false end.

(** A part of the data at an address. *)
Definition at_part {A} (p : Z) (v : option A) : option A := if p =? nullptr then None else v.

(** The value of the data of type [t] at [a]: all the elements of arrays that have
    no others, the members of records with distinct names, except records. *)
Fixpoint json_of (m : mem) (t : Datatype) (a : Z) : option json :=
  match t with
  | Scalar_datatype _ k _ _ _ _ _ => scalar_json m t k a
  | Array_datatype _ sub size start subsize =>
      if negb (size =? subsize) || negb (size <? 2 ^ 31) then None
      else if is_unsigned_byte sub then
        cs ← mapM (fun i => let p := a + (buffersize sub *s (start +s i)) in at_part p (load m p 1)) (seqZ 0 size);
        Some (J_array [J_string (string_of_bytes (concat cs))])
      else
        l ← mapM (fun i => let p := a + (buffersize sub *s (start +s i)) in at_part p (json_of m sub p)) (seqZ 0 size);
        Some (array_json l)
  | Record_datatype _ ms _ =>
      if negb (bool_decide (NoDup (member_name <$> ms))) then None
      else
        l ← mapM (fun mb => let p := a + member_displacement mb in
                   if is_record (member_type mb) then None
                   else v ← at_part p (json_of m (member_type mb) p); Some (member_name mb, v)) ms;
        Some (object_json l)
  | Tuple_datatype _ es _ =>
      if negb (vsize es <? 2 ^ 31) then None
      else
        l ← mapM (fun e => let p := a + element_offset e in
                   if is_tuple (element_type e) then None else at_part p (json_of m (element_type e) p)) es;
        Some (array_json l)
  | Pointer_datatype _ sub _ _ => p ← returned (load_pointer m a); at_part p (json_of m sub p)
  end.

(** The value is the same in a larger memory. *)
Lemma load_grows m m' a n bs : m ⊆ m' -> load m a n = Some bs -> load m' a n = Some bs.
Proof.
  intros Hm. revert a bs. induction n as [|n IH]; intros a bs; simpl; [done|].
  destruct (m !! a) as [b|] eqn:Hb; [|done]. rewrite (lookup_weaken _ _ _ _ Hb Hm). simpl.
  destruct (load m (a + 1) n) eqn:Hl; [|done]. by rewrite (IH _ _ Hl).
Qed.

Lemma scalar_json_grows m m' t k a j : m ⊆ m' -> scalar_json m t k a = Some j -> scalar_json m' t k a = Some j.
Proof.
  intros Hm. unfold scalar_json. destruct (returned (stored_type k (buffersize t))) as [c|]; [|done]. simpl. unfold read_as, load_bits.
  destruct (load m a (Z.to_nat (sizeof c))) eqn:Hl; [|done]. by rewrite (load_grows m m' _ _ _ Hm Hl).
Qed.

Lemma scalar_value_grows m m' T t a n : m ⊆ m' -> scalar_value T t m a = Ret n -> scalar_value T t m' a = Ret n.
Proof.
  intros Hm. unfold scalar_value. destruct t as [at_ k s al ds c d| | | |]; try done. destruct (stored_type k _) as [c'|e|]; [|done..].
  cbn [mbind outcome_bind]. unfold read_as, load_bits. destruct (load m a (Z.to_nat (sizeof c'))) eqn:Hl; [|done].
  by rewrite (load_grows m m' _ _ _ Hm Hl).
Qed.

Lemma mapM_grows {A B} (f f' : A -> option B) l bs :
  Forall (fun x => forall y, f x = Some y -> f' x = Some y) l -> mapM f l = Some bs -> mapM f' l = Some bs.
Proof.
  intros Hf. revert bs. induction Hf as [|x l Hx _ IH]; intros bs; [done|]. simpl.
  destruct (f x) as [y|] eqn:Hy; [|done]. rewrite (Hx _ eq_refl). simpl. destruct (mapM f l); [|done]. by rewrite (IH _ eq_refl).
Qed.

Lemma at_part_grows {A} p (v v' : option A) : (forall y, v = Some y -> v' = Some y) -> forall y, at_part p v = Some y -> at_part p v' = Some y.
Proof. unfold at_part. by destruct (p =? nullptr). Qed.

Lemma bind_grows {A B} (v v' : option A) (f : A -> option B) :
  (forall y, v = Some y -> v' = Some y) -> forall z, v ≫= f = Some z -> v' ≫= f = Some z.
Proof. intros Hv z. destruct v as [y|]; [|done]. by rewrite (Hv y eq_refl). Qed.

Lemma json_of_grows m m' t : m ⊆ m' -> forall a j, json_of m t a = Some j -> json_of m' t a = Some j.
Proof.
  intros Hm. induction t as [a k s al ds c d|a sub n st ss IH|a ms b IH|a es b IH|a sub c d IH] using Datatype_nested_ind; intros p j.
  - by apply scalar_json_grows.
  - cbn [json_of]. destruct (_ || _); [done|]. destruct (is_unsigned_byte sub); apply bind_grows; intros y; apply mapM_grows, list.Forall_forall; intros i _.
    + intros bs. cbv zeta. apply at_part_grows. intros bs'. exact (load_grows m m' _ _ _ Hm).
    + intros v. cbv zeta. apply at_part_grows. intros v'. exact (IH _ _).
  - cbn [json_of]. destruct (negb _); [done|]. apply bind_grows. intros y. apply mapM_grows. apply (list.Forall_impl _ _ _ IH). intros mb Hmb y'. cbv zeta.
    destruct (is_record _); [done|]. apply bind_grows, at_part_grows. intros v. exact (Hmb _ _).
  - cbn [json_of]. destruct (negb _); [done|]. apply bind_grows. intros y. apply mapM_grows. apply (list.Forall_impl _ _ _ IH). intros e He y'. cbv zeta.
    destruct (is_tuple _); [done|]. apply at_part_grows. intros v. exact (He _ _).
  - cbn [json_of]. unfold load_pointer. destruct (load m p 8) eqn:Hl; [|done]. rewrite (load_grows m m' _ _ _ Hm Hl). cbn [returned mbind option_bind].
    apply at_part_grows. intros v. exact (IH _ _).
Qed.

(** * References that read *)

Section references.
  Context {W : Type} {RT : Runtime W}.

Implicit Types g : global W.

(** [r] is a [Ref_r] linked to data of type [t] at [a]. *)
Definition reads_data g (r : nat) (t : Datatype) (a : Z) : Prop :=
  exists x d b, refs (g_store g) !! r = Some x /\ ref_R x = true /\ ref_W x = false /\ m_content x = Some d /\
    datas (g_store g) !! d = Some (mkData b a t) /\ a <> nullptr.

(** Nothing but temporary references came and went. *)
Definition quietly g g' : Prop := calm nothing g g' /\ m_descriptors g' = m_descriptors g /\ g_world g' = g_world g.

Lemma quietly_refl g : inv (g_store g) -> quietly g g.
Proof. intros Hinv. split_and!; [by apply calm_refl|done..]. Qed.

Lemma quietly_trans g1 g2 g3 : quietly g1 g2 -> quietly g2 g3 -> quietly g1 g3.
Proof. intros (C1 & D1 & W1) (C2 & D2 & W2). split_and!; [by eapply calm_step|congruence..]. Qed.

Lemma quietly_inv g g' : quietly g g' -> inv (g_store g').
Proof. intros [C _]. apply C. Qed.

Lemma quietly_mem g g' : quietly g g' -> g_mem g' = g_mem g.
Proof. intros [C _]. apply C. Qed.

Lemma reads_quietly g g' r t a : inv (g_store g) -> quietly g g' -> reads_data g r t a -> reads_data g' r t a.
Proof.
  intros Hinv [C _] (x & d & b & Hx & HR & HV & Hc & Hd & Hnn). exists x, d, b.
  destruct (calm_links nothing g g' r d (mkData b a t) Hinv C) as (y & Hy & _ & Hyd); [tauto|by exists x|].
  pose proof (calm_ref g g' r x C Hx). split_and!; done.
Qed.

(** New objects may be in memory as well. *)
Definition preserved g g' : Prop := calm nothing g (set_mem (g_mem g) g') /\ g_mem g ⊆ g_mem g' /\ m_descriptors g' = m_descriptors g.
Definition mildly g g' : Prop := preserved g g' /\ g_world g' = g_world g.

Lemma calm_preserved g g' : calm nothing g g' -> m_descriptors g' = m_descriptors g -> preserved g g'.
Proof. intros [Hi Hn Hr Hd Hm Hc] D. split_and!; [by split| |done]. by rewrite Hm. Qed.

Lemma quietly_mildly g g' : quietly g g' -> mildly g g'.
Proof. intros (C & D & Hw). split; [by apply calm_preserved|done]. Qed.

Lemma preserved_inv g g' : preserved g g' -> inv (g_store g').
Proof. intros [C _]. exact (cm_inv _ _ _ C). Qed.

Lemma preserved_trans g1 g2 g3 : preserved g1 g2 -> preserved g2 g3 -> preserved g1 g3.
Proof.
  intros ([I1 N1 R1 A1 _ B1] & M1 & D1) ([I2 N2 R2 A2 _ B2] & M2 & D2). simpl in *.
  split_and!; [|by etransitivity|congruence]. split; simpl; [done|lia|auto| |done|congruence]. intros d dd Hd H. apply A1; [done|]. apply A2; [lia|done].
Qed.

Lemma reads_preserved g g' r t a : inv (g_store g) -> preserved g g' -> reads_data g r t a -> reads_data g' r t a.
Proof.
  intros Hinv (C & _) (x & d & b & Hx & HR & HV & Hc & Hd & Hnn). exists x, d, b.
  destruct (calm_links nothing g _ r d (mkData b a t) Hinv C) as (y & Hy & _ & Hyd); [tauto|by exists x|].
  pose proof (calm_ref g _ r x C Hx). split_and!; done.
Qed.

Lemma reads_links g r t a : reads_data g r t a -> exists d dd, links g r d dd /\ data_address dd = a /\ data_type dd = t /\ a <> nullptr.
Proof. intros (x & d & b & Hx & _ & _ & Hc & Hd & Hnn). exists d, (mkData b a t). split_and!; [by exists x|done..]. Qed.

Lemma on_store_frame {A} (f : store -> outcome (A * store)) g a g' :
  on_store f g = Done a g' -> m_descriptors g' = m_descriptors g /\ g_world g' = g_world g.
Proof. unfold on_store, zoom. destruct (f _) as [[b st]|e|]; [|done..]. by intros [= _ <-]. Qed.

(** A block with a temporary reference. *)
Lemma with_ref_world {A} g g1 g2 g3 (mk : M (global W) nat) (body : nat -> M (global W) A) r v :
  mk g = Done r g1 -> body r g1 = Done v g2 -> with_ref mk body g = Done v g3 -> g_world g3 = g_world g2.
Proof.
  intros Hmk Hbody. unfold with_ref, mbind, M_bind. rewrite Hmk. unfold finally. rewrite Hbody.
  destruct (ref_destroy r g2) as [u g'|e g'|] eqn:Hd; [|done..]. intros [= <-].
  unfold ref_destroy, unit_store in Hd. by apply on_store_frame in Hd as [_ ->].
Qed.

(** The memory may have grown in the block: what happens does not look at it. *)
Lemma ref_destroy_mem g g' m r : ref_destroy r g = Done tt g' -> ref_destroy r (set_mem m g) = Done tt (set_mem m g').
Proof.
  unfold ref_destroy, unit_store, on_store, zoom. simpl. destruct (delete_ref r (g_store g)) as [st|e|]; [|done..]. by intros [= <-].
Qed.

Lemma with_ref_preserved {A} g g1 g2 (mk : M (global W) nat) (body : nat -> M (global W) A) r v :
  inv (g_store g) -> mk g = Done r g1 -> quietly g g1 -> (next (g_store g) <= r)%nat -> exists_ref g1 r ->
  body r g1 = Done v g2 -> preserved g1 g2 -> exists g3, with_ref mk body g = Done v g3 /\ preserved g g3 /\ g_world g3 = g_world g2.
Proof.
  intros Hinv Hmk (C1 & D1 & W1) Hn He Hbody (C2 & M2 & D2).
  destruct (with_ref_calm g g1 (set_mem (g_mem g1) g2) mk (fun _ _ => Done v (set_mem (g_mem g1) g2)) r v Hinv Hmk C1 Hn He eq_refl C2)
    as (g3 & _ & C3 & D3 & Hdel & C4).
  pose proof (ref_destroy_mem _ _ (g_mem g2) _ Hdel) as Hdel2. replace (set_mem (g_mem g2) (set_mem (g_mem g1) g2)) with g2 in Hdel2 by (by destruct g2).
  assert (Hrun : with_ref mk body g = Done v (set_mem (g_mem g2) g3)).
  { unfold with_ref, mbind, M_bind. rewrite Hmk. unfold finally. by rewrite Hbody, Hdel2. }
  eexists. split; [exact Hrun|]. split; [|by apply (with_ref_world g g1 g2 _ mk body r v)].
  split_and!; [|simpl; by rewrite <- (cm_mem _ _ _ C1)|simpl; rewrite D3; simpl; congruence]. destruct C3 as [I3 N3 R3 A3 _ B3]. by split.
Qed.

Lemma with_ref_quietly {A} g g1 g2 (mk : M (global W) nat) (body : nat -> M (global W) A) r v :
  inv (g_store g) -> mk g = Done r g1 -> quietly g g1 -> (next (g_store g) <= r)%nat -> exists_ref g1 r ->
  body r g1 = Done v g2 -> quietly g1 g2 -> exists g3, with_ref mk body g = Done v g3 /\ quietly g g3.
Proof.
  intros Hinv Hmk (C1 & D1 & W1) Hn He Hbody (C2 & D2 & W2).
  destruct (with_ref_runs g g1 g2 mk body r v Hinv Hmk C1 Hn He Hbody C2) as (g3 & Hrun & C3 & D3 & _).
  exists g3. split; [done|]. split_and!; [done|congruence|]. rewrite (with_ref_world g g1 g2 g3 mk body r v); [congruence|done..].
Qed.

(** A buffer that a reference reads grants reading to others. *)
Lemma reader_unlocks st r x d dd b :
  inv st -> points_to st r x d dd b -> ref_R x = true -> ref_W x = false -> m_read_locks b = 0.
Proof.
  intros [Hwf _] (Hr & Hc & Hd & Hb) HR HV. destruct (wf_locks _ Hwf _ _ Hb) as (iw & ir & _ & Hir & _ & Hrl & Hex & Hrd).
  unfold writers, users, readers in *.
  assert (HRd : into (datas st) (data_buffer dd) ref_R x = true) by (by rewrite (into_at _ d dd)).
  assert (HU : into (datas st) (data_buffer dd) is_user x = true) by (rewrite (into_at _ d dd) by done; unfold is_user; by rewrite HR).
  assert (ir = 0) as ->.
  { destruct Hir as [|Hone]; [done|]. by rewrite (count_zero_inv _ _ r x (Hrd Hone) Hr) in HRd. }
  rewrite Hrl. destruct Hex as [->|(Hw & Hu & _)]; [done|]. exfalso.
  pose proof (count_delete (into (datas st) (data_buffer dd) is_user) (refs st) r) as Hdu.
  pose proof (count_delete (into (datas st) (data_buffer dd) ref_W) (refs st) r) as Hdw.
  rewrite Hr in Hdu, Hdw. unfold RefInv.one in Hdu, Hdw. rewrite HU in Hdu. rewrite (into_at _ d dd), HV in Hdw by done.
  assert (count (into (datas st) (data_buffer dd) ref_W) (delete r (refs st)) <= count (into (datas st) (data_buffer dd) is_user) (delete r (refs st))); [|lia].
  apply count_le. intros y. unfold into, is_user. rewrite !andb_true_iff, orb_true_iff. tauto.
Qed.

(** ** Parts *)

Lemma sub_ref_datas st r x d b a t bb empty access p t' :
  inv st -> points_to st r x d (mkData b a t) bb -> a <> nullptr -> access t a = Ret (p, t') -> p <> nullptr ->
  exists st', sub_ref empty access r st = Ret (next st, st') /\ datas st' = <[S (next st) := mkData b p t']> (datas st).
Proof.
  intros Hinv (Hx & Hc & Hd & Hb) Hnn Hacc Hp. unfold sub_ref, is_null. rewrite Hx; cbn [deref mbind outcome_bind].
  rewrite Hc, Hd; cbn [deref mbind outcome_bind data_address data_type data_buffer].
  destruct (Z.eqb_spec a nullptr); [done|]. cbn [mbind outcome_bind]. rewrite Hx; cbn [deref mbind outcome_bind]. rewrite Hc; cbn [deref mbind outcome_bind].
  rewrite Hd; cbn [deref mbind outcome_bind data_address data_type]. rewrite Hacc; cbn [mbind outcome_bind]. unfold new_null, make_data.
  destruct (Z.eqb_spec p nullptr); [done|]. cbn [mbind outcome_bind refs datas buffers freed next]. unfold link. cbn [refs datas buffers freed next].
  rewrite lookup_insert_eq; cbn [deref mbind outcome_bind m_content].
  rewrite lookup_insert_eq; cbn [deref mbind outcome_bind data_address data_buffer]. destruct (Z.eqb_spec p nullptr); [done|].
  simpl in Hb. rewrite Hb; cbn [deref mbind outcome_bind ref_R ref_W andb orb]. eexists. split; [done|]. done.
Qed.

(** A reference to a part of the data that [r] reads. *)
Lemma sub_ref_runs g r t a empty access p t' :
  inv (g_store g) -> reads_data g r t a -> access t a = Ret (p, t') -> p <> nullptr ->
  exists g1 d b, on_store (sub_ref empty access r) g = Done (next (g_store g)) g1 /\ quietly g g1 /\
    refs (g_store g1) !! next (g_store g) = Some (mkReference false false (Some d)) /\ datas (g_store g1) !! d = Some (mkData b p t') /\
    exists x d', refs (g_store g1) !! r = Some x /\ ref_R x = true /\ ref_W x = false /\ m_content x = Some d' /\
      datas (g_store g1) !! d' = Some (mkData b a t).
Proof.
  intros Hinv Hreads Hacc Hp. pose proof Hreads as (x & d & b & Hx & HR & HV & Hc & Hd & Hnn).
  destruct (linked_points_to (g_store g) r x d Hinv Hx Hc) as (dd & bb & Hpt). pose proof Hpt as (_ & _ & Hd' & _).
  assert (dd = mkData b a t) as -> by congruence.
  destruct (sub_ref_datas (g_store g) r x d b a t bb empty access p t' Hinv Hpt Hnn Hacc Hp) as (st' & Hrun & Hds).
  destruct (sub_ref_ok (g_store g) empty access r x Hinv Hx)
    as [(e & He)|(st2 & d0 & dd0 & b0 & data & t0 & Hrun2 & Hst & Hn & (_ & Hc0 & Hd0 & _) & Hac0 & d1 & Hrefs & Hd1)].
  { intros d0 dd0 b0 (_ & Hc0 & Hd0 & _). simplify_eq. simpl. by rewrite Hacc. }
  { congruence. }
  assert (st2 = st') as -> by congruence. assert (d0 = d) as -> by congruence. assert (dd0 = mkData b a t) as -> by congruence.
  simpl in Hac0, Hd1. rewrite Hacc in Hac0. injection Hac0 as <- <-. destruct (Hst Hinv) as [Hinv' _].
  assert (Hlt : forall k y, datas (g_store g) !! k = Some y -> k <> S (next (g_store g))).
  { intros k y Hk ->. pose proof (wf_next_datas _ (proj1 Hinv) (S (next (g_store g))) ltac:(by eexists)). lia. }
  exists (set_store st' g), d1, b. split_and!.
  - unfold on_store, zoom. by rewrite Hrun.
  - split_and!; [|done..]. split; simpl; try done; [lia| |].
    + intros r' y _ Hy. rewrite Hrefs, lookup_insert_ne; [done|]. intros <-. by apply (fresh_ref _ _ _ Hinv Hy).
    + intros k y Hk. rewrite Hds, lookup_insert_ne by lia. done.
  - simpl. by rewrite Hrefs, lookup_insert_eq.
  - done.
  - exists x, d. simpl. split_and!; try done.
    + rewrite Hrefs, lookup_insert_ne; [done|]. intros Heq. by apply (fresh_ref _ _ _ Hinv Hx).
    + rewrite Hds, lookup_insert_ne; [done|]. apply not_eq_sym. by eapply Hlt.
Qed.

(** A [Ref_r] to data that nothing writes, and to data of a buffer that is being
    read. *)
Lemma read_copy_unlocked g q y d b p t bb :
  inv (g_store g) -> refs (g_store g) !! q = Some y -> m_content y = Some d -> datas (g_store g) !! d = Some (mkData b p t) -> p <> nullptr ->
  buffers (g_store g) !! b = Some bb -> m_read_locks bb = 0 ->
  exists g1, ref_copy true false q g = Done (next (g_store g)) g1 /\ quietly g g1 /\ reads_data g1 (next (g_store g)) t p.
Proof.
  intros Hinv Hq Hqc Hd Hp Hbb Hlock.
  destruct (copy_runs g true false q Hinv ltac:(by eexists)) as (g1 & Hrun & C1 & D1 & He1 & _).
  exists g1. revert Hrun. unfold ref_copy. intros Hrun. pose proof (on_store_frame _ _ _ _ Hrun) as [_ HW].
  split; [done|]. split; [done|]. revert Hrun. unfold on_store, zoom.
  destruct (new_copy_ok (g_store g) true false q y Hinv Hq) as (st' & c & -> & Hst & Hrefs & _ & _ & Hcont). intros [= <-].
  rewrite (Hcont d (mkData b p t) bb) in Hrefs by done. unfold granted in Hrefs. simpl in Hrefs. rewrite Hlock in Hrefs. simpl in Hrefs.
  exists (mkReference true false (Some d)), d, b. simpl. rewrite Hrefs, lookup_insert_eq. split_and!; try done.
  destruct (wf_content st' (proj1 (cm_inv _ _ _ C1)) (next (g_store g)) (mkReference true false (Some d)) d) as [w Hw]; [by rewrite Hrefs, lookup_insert_eq|done|].
  rewrite Hw. f_equal. apply (cm_datas _ _ _ C1) in Hw; [congruence|]. apply (wf_next_datas _ (proj1 Hinv)). by eexists.
Qed.

Lemma read_copy_runs g q y d b p t x d' dd :
  inv (g_store g) -> refs (g_store g) !! q = Some y -> m_content y = Some d -> datas (g_store g) !! d = Some (mkData b p t) -> p <> nullptr ->
  (exists r, refs (g_store g) !! r = Some x) -> ref_R x = true -> ref_W x = false -> m_content x = Some d' ->
  datas (g_store g) !! d' = Some dd -> data_buffer dd = b ->
  exists g1, ref_copy true false q g = Done (next (g_store g)) g1 /\ quietly g g1 /\ reads_data g1 (next (g_store g)) t p.
Proof.
  intros Hinv Hq Hqc Hd Hp [r Hr] HR HV Hc Hd' Hb'.
  destruct (linked_points_to (g_store g) r x d' Hinv Hr Hc) as (z' & bb & Hpt'). pose proof Hpt' as (_ & _ & Hz' & Hbb').
  assert (z' = dd) as -> by congruence. apply (read_copy_unlocked g q y d b p t bb); try done; [congruence|].
  by apply (reader_unlocks _ _ _ _ _ _ Hinv Hpt' HR HV).
Qed.

Lemma is_null_reads g r t a : reads_data g r t a -> ref_is_null r g = Done false g.
Proof. intros (d & dd & Hl & Ha & _ & Hnn)%reads_links. apply (is_null_runs g r d dd Hl). congruence. Qed.

(** The temporaries through which a part is read. *)
Lemma part_runs {A} g r t a empty access p t' (body : nat -> M (global W) A) (v : A) :
  inv (g_store g) -> reads_data g r t a -> access (g_mem g) t a = Ret (p, t') -> p <> nullptr ->
  (forall g1 q, quietly g g1 -> reads_data g1 q t' p -> exists g2, body q g1 = Done v g2 /\ quietly g1 g2) ->
  exists g', with_part (ref_is_null r;; m ← gets g_mem; on_store (sub_ref empty (access m) r)) body g = Done v g' /\ quietly g g'.
Proof.
  intros Hinv Hreads Hacc Hp Hbody.
  destruct (sub_ref_runs g r t a empty (access (g_mem g)) p t' Hinv Hreads Hacc Hp)
    as (g1 & d & b & Hrun1 & Q1 & Hq & Hd & x & d' & Hx & HR & HV & Hc & Hd').
  pose proof (quietly_inv _ _ Q1) as Hinv1.
  destruct (read_copy_runs g1 (next (g_store g)) _ d b p t' x d' _ Hinv1 Hq eq_refl Hd Hp ltac:(by eexists) HR HV Hc Hd' eq_refl) as (g2 & Hrun2 & Q2 & Hreads2).
  destruct (Hbody g2 _ (quietly_trans _ _ _ Q1 Q2) Hreads2) as (g3 & Hrun3 & Q3).
  destruct (with_ref_quietly g1 g2 g3 (ref_copy true false (next (g_store g))) body (next (g_store g1)) v Hinv1 Hrun2 Q2) as (g4 & Hrun4 & Q4); [done| |done..|].
  { destruct Hreads2 as (y & _ & _ & Hy & _). by exists y. }
  apply (with_ref_quietly g g1 g4 _ _ (next (g_store g)) v Hinv); [|done|done|by eexists|done..].
  unfold mbind, M_bind. rewrite (is_null_reads g r t a Hreads). unfold gets. done.
Qed.

(** What a reference that reads gives. *)
Lemma ref_type_reads_data g r t a : reads_data g r t a -> ref_type r g = Done t g.
Proof.
  intros (x & d & b & Hx & _ & _ & Hc & Hd & Hnn). unfold ref_type, lift, type. rewrite Hx; cbn [deref mbind outcome_bind].
  rewrite Hc, Hd; cbn [deref mbind outcome_bind data_address data_type]. by destruct (Z.eqb_spec a nullptr).
Qed.

Lemma ref_get_reads_data g r t a : reads_data g r t a -> ref_get r g = Done a g.
Proof.
  intros Hreads. unfold ref_get, mbind, M_bind. rewrite (is_null_reads g r t a Hreads). unfold on_store, zoom, get, is_null.
  destruct Hreads as (x & d & b & Hx & _ & _ & Hc & Hd & Hnn). rewrite Hx; cbn [deref mbind outcome_bind].
  rewrite Hc, Hd; cbn [deref mbind outcome_bind data_address data_type]. destruct (Z.eqb_spec a nullptr); [done|].
  cbn [deref mbind outcome_bind]. rewrite Hx; cbn [deref mbind outcome_bind]. rewrite Hc; cbn [deref mbind outcome_bind].
  rewrite Hd; cbn [deref mbind outcome_bind data_address]. by destruct g.
Qed.

Lemma ref_scalar_value_reads_data g r t a T : reads_data g r t a -> ref_scalar_value T r g = lift (scalar_value T t (g_mem g) a) g.
Proof.
  intros Hreads. unfold ref_scalar_value. unfold mbind at 1, M_bind at 1. rewrite (ref_type_reads_data g r t a Hreads).
  destruct Hreads as (x & d & b & Hx & _ & _ & Hc & Hd & Hnn). unfold mbind, M_bind, ref_data. unfold lift at 1. rewrite Hx; cbn [deref mbind outcome_bind].
  rewrite Hc, Hd; cbn [deref mbind outcome_bind data_address]. done.
Qed.

(** ** Reading a value in an expression *)

Lemma holder_unlocks g h d dd : inv (g_store g) -> holder g h true d dd -> unlocked g (data_buffer dd).
Proof.
  intros Hinv [Hh Hd]. destruct (linked_points_to (g_store g) h _ d Hinv Hh eq_refl) as (dd' & y & Hpt). pose proof Hpt as (_ & _ & Hd' & Hy).
  assert (dd' = dd) as -> by congruence. exists y. split; [done|]. by apply (reader_unlocks _ _ _ _ _ _ Hinv Hpt).
Qed.

Lemma ref_copy_world g R V r n g' : ref_copy R V r g = Done n g' -> g_world g' = g_world g.
Proof. intros H. by apply on_store_frame in H as [_ H]. Qed.

Lemma read_long_runs g name d h rs dt b q t s v :
  inv (g_store g) -> m_descriptors g !! name = Some d -> m_refs d = h :: rs -> holder g h true dt (mkData b q t) -> q <> nullptr ->
  scalar_value (CInt true 8) t (g_mem g) q = Ret (NInt true s v) ->
  exists g', expr_to_long (Reference_expression name [] "") g = Done v g' /\ quietly g g'.
Proof.
  intros Hinv Hd Hrs Hh Hq Hv. pose proof (holds_links _ _ _ _ _ Hh) as Hl. pose proof (holder_unlocks g h dt _ Hinv Hh) as Hun.
  destruct (copy_holds g false h dt _ Hinv Hl Hq) as (g1 & Hrun1 & C1 & S1 & D1 & Hh1); [done|]. set (r := next (g_store g)) in *.
  pose proof (cm_inv _ _ _ C1) as Hinv1. pose proof (holds_links _ _ _ _ _ Hh1) as Hl1.
  destruct (copy_holds g1 true r dt _ Hinv1 Hl1 Hq) as (g2 & Hrun2 & C2 & S2 & D2 & Hh2).
  { intros _. by apply (unlocked_kept g g1 r dt (mkData b q t)). }
  set (to_ref := Eval.to_ref (methods_of (Reference_expression name [] ""))).
  assert (Hto : to_ref g = Done r g1).
  { unfold to_ref. cbn -[ref]. unfold mbind, M_bind, desc. rewrite Hd. rewrite (ref_runs g name d h rs) by done. by rewrite Hrun1. }
  destruct (with_ref_calm g g1 g2 to_ref (ref_copy true false) r (next (g_store g1))) as (g3 & Hrun3 & C3 & D3 & _ & C3'); try done; [by eapply links_exists|].
  assert (Hlt : (r < next (g_store g1))%nat) by (apply (wf_next_refs _ (proj1 Hinv1)); by eapply links_exists).
  set (n := next (g_store g1)) in *. assert (Hh3 : holder g3 n true dt (mkData b q t)) by (eapply calm_holds; [apply C2|exact C3'|lia|done]).
  assert (Hreads : reads_data g3 n t q).
  { destruct Hh3 as [Hn Hdt]. exists (mkReference true false (Some dt)), dt, b. by split_and!. }
  set (body := fun r : nat => (n ← ref_is_null r; if n : bool then throw (Permission_error "Unable to grant access for value reference") else ref_long r) : M (global W) Z).
  assert (Hbody : body n g3 = Done v g3).
  { unfold body. unfold mbind at 1, M_bind at 1. rewrite (is_null_reads g3 n t q Hreads). unfold ref_long. unfold mbind at 1, M_bind at 1.
    rewrite (ref_scalar_value_reads_data g3 n t q _ Hreads). rewrite (cm_mem _ _ _ C3). by rewrite Hv. }
  destruct (with_ref_calm g g3 g3 (readable to_ref) body n v) as (g4 & Hrun4 & C4 & D4 & _); try done.
  { unfold n. pose proof (cm_next _ _ _ C1). lia. }
  { by eapply links_exists, holds_links. }
  { apply calm_refl, C3. }
  assert (W4 : g_world g4 = g_world g).
  { rewrite (with_ref_world g g3 g3 g4 (readable to_ref) body n v Hrun3 Hbody Hrun4), (with_ref_world g g1 g2 g3 to_ref _ r n Hto Hrun2 Hrun3).
    by rewrite (ref_copy_world _ _ _ _ _ _ Hrun2), (ref_copy_world _ _ _ _ _ _ Hrun1). }
  exists g4. split; [|split_and!; [done|by rewrite D4, D3, D2|done]]. unfold expr_to_long. cbn -[with_ref readable]. unfold in_context, catch.
  unfold to_ref, body in Hrun4. cbn -[with_ref readable] in Hrun4. by rewrite Hrun4.
Qed.

End references.

(** * Values *)

Lemma to_int_same s w v : 0 < w -> to_int s w v mod 2 ^ (8 * w) = v mod 2 ^ (8 * w).
Proof.
  intros Hw. unfold to_int. destruct (s && _); [|by rewrite Zmod_mod].
  rewrite Zminus_mod, Zmod_mod, Z_mod_same_full, Z.sub_0_r. apply Zmod_mod.
Qed.

Lemma to_int_idem s s' w v : 0 < w -> to_int s w (to_int s' w v) = to_int s w v.
Proof. intros Hw. rewrite <- (to_int_mod s w (to_int s' w v)), to_int_same by done. by apply to_int_mod. Qed.

Lemma char_string_to_int s v : char_string (to_int s 1 v) = char_string v.
Proof. unfold char_string. change 256 with (2 ^ (8 * 1)). by rewrite to_int_same. Qed.

Section values.
  Context {W : Type} {RT : Runtime W}.

Implicit Types g : global W.

Lemma write_scalar_runs g r att k s al ds c d a j :
  let t := Scalar_datatype att k s al ds c d in
  reads_data g r t a -> json_of (g_mem g) t a = Some j -> write_scalar_to_json r g = Done j g.
Proof.
  intros t Hreads Hj. change (scalar_json (g_mem g) t k a = Some j) in Hj. unfold write_scalar_to_json. unfold mbind at 1, M_bind at 1.
  rewrite (ref_type_reads_data g r t a Hreads). unfold t at 1. cbv zeta. fold t.
  unfold scalar_json in Hj. destruct (stored_type k (buffersize t)) as [ct| |] eqn:Hst; [|done..]. simpl in Hj.
  destruct (read_as ct (g_mem g) a) as [n| |] eqn:Hn; [|done..]. simpl in Hj.
  assert (Hval : forall T, ref_scalar_value T r g = lift (convert T n) g).
  { intros T. rewrite (ref_scalar_value_reads_data g r t a T Hreads). unfold scalar_value, t at 1. fold t. rewrite Hst. cbn [mbind outcome_bind].
    by rewrite Hn. }
  assert (Hread : exists bits, load_bits (g_mem g) a (sizeof ct) = Ret bits /\
            n = match ct with CBool => NBool (negb (bits =? 0)) | CInt s w => NInt s w (to_int s w bits)
                | CFloat => NFloat (decode_float false bits) | CDouble => NDouble (decode_float true bits) end).
  { unfold read_as in Hn. destruct (load_bits _ _ _) as [bits| |]; [|done..]. simpl in Hn. injection Hn as <-. by exists bits. }
  destruct Hread as (bits & _ & Hbits). unfold stored_type in Hst.
  assert (Hw : forall w, w ∈ [1; 2; 4; 8] -> 0 < w) by (intros w ?%is_width_cases; lia).
  destruct k.
  - done.
  - case_bool_decide as Hin; [|done]. injection Hst as <-. subst n. injection Hj as <-. unfold mbind, M_bind. rewrite Hval. simpl. by rewrite to_int_idem by auto.
  - case_bool_decide as Hin; [|done]. injection Hst as <-. subst n. unfold num_json in Hj. change (buffersize t) with ds in *. destruct (Z.eqb_spec ds 1) as [H1|H1]; injection Hj as <-; unfold mbind, M_bind.
    + rewrite Hval. unfold lift. cbn [convert int_value]. by rewrite (char_string_to_int true).
    + rewrite bool_decide_eq_true_2 by (by apply elem_of_cons in Hin as [|]). rewrite Hval. simpl. by rewrite to_int_idem by auto.
  - destruct (Z.eqb_spec (buffersize t) 4); [|destruct (Z.eqb_spec (buffersize t) 8); [|done]];
      injection Hst as <-; subst n; injection Hj as <-; unfold mbind, M_bind; rewrite Hval; done.
Qed.

(** ** Loops *)

(** A loop whose iterations each produce what [spec] says and go [quietly]. *)
Lemma iter_runs {A B C} (f : A -> B -> M (global W) B) (spec : A -> option C) (push : B -> C -> B) (I : B -> Prop) l : forall b cs g,
  inv (g_store g) -> I b -> (forall b c, I b -> I (push b c)) -> mapM spec l = Some cs ->
  (forall x b c g1, x ∈ l -> I b -> quietly g g1 -> spec x = Some c -> exists g2, f x b g1 = Done (push b c) g2 /\ quietly g1 g2) ->
  exists g', iter f l b g = Done (foldl push b cs) g' /\ quietly g g'.
Proof.
  induction l as [|x l IH]; intros b cs g Hinv Hb HI Hcs Hf; simpl in Hcs.
  { injection Hcs as <-. exists g. split; [done|by apply quietly_refl]. }
  destruct (spec x) as [c|] eqn:Hc; [|done]. simpl in Hcs. destruct (mapM spec l) as [cs'|] eqn:Hcs'; [|done]. injection Hcs as <-.
  destruct (Hf x b c g) as (g1 & Hrun1 & Q1); [apply list_elem_of_here|done|by apply quietly_refl|done|].
  destruct (IH (push b c) cs' g1) as (g2 & Hrun2 & Q2); [by eapply quietly_inv|by apply HI|done|done| |].
  { intros y b' c' g' Hy Hb' Q' Hc'. apply Hf; [by apply list_elem_of_further|done|by eapply quietly_trans|done]. }
  exists g2. split; [|by eapply quietly_trans]. simpl. unfold mbind, M_bind. by rewrite Hrun1.
Qed.

Lemma for_int_runs {B C} n (f : Z -> B -> M (global W) B) (spec : Z -> option C) (push : B -> C -> B) (I : B -> Prop) b cs g :
  n < 2 ^ 31 -> inv (g_store g) -> I b -> (forall b c, I b -> I (push b c)) -> mapM spec (seqZ 0 n) = Some cs ->
  (forall x b c g1, 0 <= x < n -> I b -> quietly g g1 -> spec x = Some c -> exists g2, f x b g1 = Done (push b c) g2 /\ quietly g1 g2) ->
  exists g', for_int n f b g = Done (foldl push b cs) g' /\ quietly g g'.
Proof.
  intros Hn Hinv Hb HI Hcs Hf. unfold for_int. rewrite Z.min_l by lia.
  destruct (iter_runs f spec push I (seqZ 0 n) b cs g Hinv Hb HI Hcs) as (g' & Hrun & Q').
  { intros x b' c g1 Hx. apply elem_of_seqZ in Hx. apply Hf. lia. }
  exists g'. split; [|done]. unfold mbind, M_bind. rewrite Hrun. destruct (Z.ltb_spec n (2 ^ 31)); [done|lia].
Qed.

(** Appending to an array under construction. *)
Definition is_growing (j : json) : Prop := match j with J_null | J_array _ => True | _ => False end.
Definition grow (j v : json) : json := match j with J_array l => J_array (l ++ [v]) | _ => J_array [v] end.

Lemma emplace_back_growing j v : is_growing j -> emplace_back j v = Ret (grow j v).
Proof. by destruct j. Qed.

Lemma grow_growing j v : is_growing j -> is_growing (grow j v).
Proof. by destruct j. Qed.

Lemma grow_array l : foldl grow J_null l = array_json l.
Proof.
  assert (Hl : forall l l0, foldl grow (J_array l0) l = J_array (l0 ++ l)).
  { clear. induction l as [|v l IH]; intros l0; simpl; [by rewrite app_nil_r|]. rewrite IH. by rewrite <- app_assoc. }
  destruct l as [|v l]; [done|]. simpl. by rewrite Hl.
Qed.

Definition is_object (j : json) : Prop := match j with J_null | J_object _ => True | _ => False end.
Definition add_member (j : json) (kv : string * json) : json :=
  match j with J_object m => J_object (map_assign kv.1 kv.2 m) | _ => J_object [kv] end.

Lemma assign_member_object j k v : is_object j -> assign_member j k v = Ret (add_member j (k, v)).
Proof. by destruct j. Qed.

Lemma add_member_object j kv : is_object j -> is_object (add_member j kv).
Proof. by destruct j. Qed.

Lemma add_members l : foldl add_member J_null l = object_json l.
Proof.
  assert (Hl : forall l m, foldl add_member (J_object m) l = J_object (foldl (fun m kv => map_assign kv.1 kv.2 m) m l)).
  { clear. induction l as [|v l IH]; intros m; simpl; [done|]. by rewrite IH. }
  destruct l as [|[k v] l]; [done|]. simpl. by rewrite Hl.
Qed.

(** ** Every class of types *)

(** The function that the class of the type chooses. *)
Definition writer (t : Datatype) (fuel r : nat) : M (global W) json :=
  match t with
  | Scalar_datatype _ _ _ _ _ _ _ => write_scalar_to_json r
  | Array_datatype _ _ _ _ _ => write_array_to_json fuel r
  | Record_datatype _ _ _ => write_record_to_json fuel r
  | Tuple_datatype _ _ _ => write_tuple_to_json fuel r
  | Pointer_datatype _ _ _ _ => write_pointer_to_json fuel r
  end.

(** The plugin finds the value of data of this type. *)
Definition written (t : Datatype) : Prop := forall a j g r fuel,
  inv (g_store g) -> reads_data g r t a -> json_of (g_mem g) t a = Some j -> (2 * depth t <= S fuel)%nat ->
  exists g', writer t fuel r g = Done j g' /\ quietly g g'.

Lemma at_part_Some {A} p (v : option A) x : at_part p v = Some x -> p <> nullptr /\ v = Some x.
Proof. unfold at_part. by destruct (Z.eqb_spec p nullptr). Qed.

Lemma choose_writer g r t a fuel : reads_data g r t a -> choose_type_and_dump_to_json (S fuel) r g = writer t fuel r g.
Proof.
  intros Hreads. simpl. unfold mbind, M_bind. rewrite (ref_type_reads_data g r t a Hreads). by destruct t.
Qed.

Lemma string_of_bytes_app l l' : string_of_bytes (l ++ l') = string_of_bytes l +:+ string_of_bytes l'.
Proof. induction l as [|b l IH]; [done|]. simpl. by rewrite string_app_String, IH. Qed.

Lemma chars_string cs : foldl (fun s c => s +:+ string_of_bytes c) "" cs = string_of_bytes (concat cs).
Proof.
  assert (H : forall s, foldl (fun s c => s +:+ string_of_bytes c) s cs = s +:+ string_of_bytes (concat cs)); [|apply H].
  induction cs as [|c cs IH]; intros s; simpl; [by rewrite string_app_nil_r|]. by rewrite IH, string_of_bytes_app, string_app_assoc.
Qed.

Lemma write_chars_runs g r att sub size start a cs :
  let t := Array_datatype att sub size start size in
  inv (g_store g) -> reads_data g r t a -> size < 2 ^ 31 ->
  mapM (fun i => let p := a + (buffersize sub *s (start +s i)) in at_part p (load (g_mem g) p 1)) (seqZ 0 size) = Some cs ->
  exists g', write_chars size r g = Done (J_array [J_string (string_of_bytes (concat cs))]) g' /\ quietly g g'.
Proof.
  intros t Hinv Hreads Hsize Hcs. unfold write_chars.
  destruct (for_int_runs size (fun i str => with_part (ref_index i r) (fun q => p ← ref_get q; c ← load_string p 1; mret (str +:+ c)))
              (fun i => let p := a + (buffersize sub *s (start +s i)) in at_part p (load (g_mem g) p 1))
              (fun s c => s +:+ string_of_bytes c) (fun _ => True) "" cs g) as (g' & Hrun & Q'); [done..| |].
  { intros i b c g1 Hi _ Q1 [Hp Hc]%at_part_Some.
    apply (part_runs g1 r t a _ (fun m t data => index_data t i m data) (a + (buffersize sub *s (start +s i))) sub); [by eapply quietly_inv|by eapply reads_quietly| |done|].
    { simpl. destruct (Z.ltb_spec i size); [done|lia]. }
    intros g2 q Q2 Hq. exists g2. split; [|by apply quietly_refl, (quietly_inv _ _ Q2)].
    unfold mbind, M_bind. rewrite (ref_get_reads_data _ _ _ _ Hq). unfold load_string. rewrite (quietly_mem _ _ Q2), (quietly_mem _ _ Q1).
    change (Z.to_nat 1) with 1%nat. by rewrite Hc. }
  exists g'. split; [|done]. unfold mbind at 1, M_bind at 1. rewrite Hrun. cbn. by rewrite chars_string.
Qed.

Lemma array_written att sub size start subsize : written sub -> written (Array_datatype att sub size start subsize).
Proof.
  intros IH a j g r fuel Hinv Hreads Hj Hfuel. simpl in Hj, Hfuel. destruct fuel as [|fuel]; [lia|].
  destruct (Z.eqb_spec size subsize) as [<-|]; [|done]. simpl in Hj. destruct (Z.ltb_spec size (2 ^ 31)) as [Hsize|]; [|done]. simpl in Hj.
  unfold writer. cbn [write_array_to_json]. unfold mbind at 1, M_bind at 1. rewrite (ref_type_reads_data _ _ _ _ Hreads).
  destruct (is_unsigned_byte sub).
  { destruct (mapM _ _) as [cs|] eqn:Hcs; [|done]. injection Hj as <-. by apply (write_chars_runs g r att sub size start a cs). }
  destruct (mapM _ _) as [l|] eqn:Hl; [|done]. injection Hj as <-. rewrite <- grow_array.
  eapply (for_int_runs size _ _ grow is_growing J_null l g); [done|done|done|apply grow_growing|exact Hl|].
  intros i b v g1 Hi Hb Q1 [Hp Hv]%at_part_Some.
  match goal with |- context [with_part _ ?F] => set (body := F) end.
  destruct (part_runs g1 r (Array_datatype att sub size start size) a ("Cannot access array index from empty Ref: `" +:+ pretty i +:+ "'")
              (fun m t data => index_data t i m data) (a + (buffersize sub *s (start +s i))) sub body v) as (g2 & Hrun & Q2);
    [by eapply quietly_inv|by eapply reads_quietly| |done| |].
  { simpl. destruct (Z.ltb_spec i size); [done|lia]. }
  { intros g2 q Q2 Hq. destruct (IH _ v g2 q fuel (quietly_inv _ _ Q2) Hq) as (g3 & Hrun3 & Q3); [|lia|].
    - by rewrite (quietly_mem _ _ Q2), (quietly_mem _ _ Q1).
    - exists g3. split; [|done]. unfold body. by destruct sub. }
  exists g2. split; [|done]. unfold mbind, M_bind. unfold ref_index, sub_index. rewrite Hrun. unfold lift. by rewrite emplace_back_growing.
Qed.

Lemma find_member_here ms mb : NoDup (member_name <$> ms) -> mb ∈ ms -> find_member ms (member_name mb) = Ret mb.
Proof.
  intros Hnd Hin. unfold find_member. destruct (list_find (fun m => member_name mb = member_name m) ms) as [[i m]|] eqn:Hf.
  - apply list_find_Some in Hf as (Hi & Hname & _). apply list_elem_of_lookup in Hin as [k Hk].
    assert (i = k) as -> by (eapply (NoDup_lookup _ i k (member_name mb)); [exact Hnd|rewrite list_lookup_fmap..]; [by rewrite Hi, Hname|by rewrite Hk]).
    congruence.
  - apply list_find_None in Hf. rewrite list.Forall_forall in Hf. by destruct (Hf mb Hin).
Qed.

Lemma depth_member {X} (f : X -> nat) (l : list X) x : x ∈ l -> (f x <= foldr (fun y n => Nat.max (f y) n) O l)%nat.
Proof. induction l as [|y l IH]; [by intros ?%not_elem_of_nil|]. simpl. intros [->|Hx%IH]%elem_of_cons; lia. Qed.

Lemma with_part_ext {A} part (h h' : nat -> M (global W) A) g : (forall q, h q = h' q) -> with_part part h g = with_part part h' g.
Proof.
  intros Hh. unfold with_part, with_ref, mbind, M_bind, finally. destruct (part g) as [r g1| |]; [|done..].
  destruct (ref_copy true false r g1) as [q g2| |]; [|done..]. by rewrite Hh.
Qed.

Lemma record_written att ms b : Forall (fun m => written (member_type m)) ms -> written (Record_datatype att ms b).
Proof.
  intros IH a j g r fuel Hinv Hreads Hj Hfuel. rewrite list.Forall_forall in IH. simpl in Hj, Hfuel. destruct fuel as [|fuel]; [lia|].
  case_bool_decide as Hnd; [|done]. simpl in Hj. destruct (mapM _ _) as [l|] eqn:Hl; [|done]. injection Hj as <-.
  unfold writer. cbn [write_record_to_json]. unfold mbind at 1, M_bind at 1. rewrite (ref_type_reads_data _ _ _ _ Hreads). rewrite <- add_members.
  eapply (iter_runs _ _ add_member is_object ms J_null l g); [done|done|apply add_member_object|exact Hl|].
  intros mb o kv g1 Hmb Ho Q1 Hkv. cbv beta zeta in Hkv. destruct (is_record (member_type mb)) eqn:Hrec; [done|].
  destruct (at_part _ _) as [v|] eqn:Hv; [|done]. apply at_part_Some in Hv as [Hp Hv]. injection Hkv as <-.
  pose proof (depth_member (fun m => depth (member_type m)) ms mb Hmb) as Hdepth.
  destruct (part_runs g1 r (Record_datatype att ms b) a ("Cannot access member from empty Ref: `" +:+ member_name mb +:+ "'")
              (fun m t data => member_data t (member_name mb) m data) (a + member_displacement mb) (member_type mb)
              (writer (member_type mb) fuel) v) as (g2 & Hrun & Q2); [by eapply quietly_inv|by eapply reads_quietly| |done| |].
  { simpl. by rewrite find_member_here. }
  { intros g2 q Q2 Hq. apply (IH mb Hmb (a + member_displacement mb)); [by eapply quietly_inv|done| |lia].
    by rewrite (quietly_mem _ _ Q2), (quietly_mem _ _ Q1). }
  exists g2. split; [|done]. unfold mbind at 1, M_bind at 1.
  assert (Hbody : forall h, (forall q, h q = writer (member_type mb) fuel q) -> with_part (ref_member (member_name mb) r) h g1 = Done v g2).
  { intros h Hh. rewrite <- Hrun. by apply with_part_ext. }
  clear Hrun. destruct (member_type mb); try done; rewrite Hbody by done; unfold lift; by rewrite assign_member_object.
Qed.

Lemma mapM_indices {X C} (spec : X -> option C) (es : list X) l :
  mapM spec es = Some l -> mapM (fun i => e ← es !! Z.to_nat i; spec e) (seqZ 0 (vsize es)) = Some l.
Proof.
  intros Hl%mapM_Some. apply mapM_Some. pose proof (list.Forall2_length _ _ _ Hl) as Hlen. unfold vsize.
  apply Forall2_same_length_lookup. split; [by rewrite length_seqZ, Nat2Z.id|].
  intros k i c Hi Hc. apply lookup_seqZ in Hi as [-> Hk]. rewrite Z.add_0_l, Nat2Z.id.
  destruct (Forall2_lookup_r _ _ _ _ _ Hl Hc) as (e & He & Hs). by rewrite He.
Qed.

Lemma tuple_written att es b : Forall (fun e => written (element_type e)) es -> written (Tuple_datatype att es b).
Proof.
  intros IH a j g r fuel Hinv Hreads Hj Hfuel. rewrite list.Forall_forall in IH. simpl in Hj, Hfuel. destruct fuel as [|fuel]; [lia|].
  destruct (Z.ltb_spec (vsize es) (2 ^ 31)) as [Hsize|]; [|done]. simpl in Hj. destruct (mapM _ _) as [l|] eqn:Hl; [|done]. injection Hj as <-.
  unfold writer. cbn [write_tuple_to_json]. unfold mbind at 1, M_bind at 1. rewrite (ref_type_reads_data _ _ _ _ Hreads). rewrite <- grow_array.
  apply mapM_indices in Hl.
  eapply (for_int_runs (vsize es) _ _ grow is_growing J_null l g); [done|done|done|apply grow_growing|exact Hl|].
  intros i o v g1 Hi Ho Q1 Hv. cbv beta zeta in Hv. destruct (es !! Z.to_nat i) as [e|] eqn:He; [|done]. cbn [mbind option_bind] in Hv.
  destruct (is_tuple (element_type e)) eqn:Htup; [done|]. apply at_part_Some in Hv as [Hp Hv].
  pose proof (list_elem_of_lookup_2 _ _ _ He) as Hin. pose proof (depth_member (fun e => depth (element_type e)) es e Hin) as Hdepth.
  assert (Hat : vector_at es i = Ret e) by (unfold vector_at; destruct (Z.ltb_spec i 0); [lia|by rewrite He]).
  destruct (part_runs g1 r (Tuple_datatype att es b) a ("Cannot access array index from empty Ref: `" +:+ pretty i +:+ "'")
              (fun m t data => index_data t i m data) (a + element_offset e) (element_type e)
              (writer (element_type e) fuel) v) as (g2 & Hrun & Q2); [by eapply quietly_inv|by eapply reads_quietly| |done| |].
  { simpl. rewrite Hat. destruct (Z.ltb_spec i (vsize es)); [done|lia]. }
  { intros g2 q Q2 Hq. apply (IH e Hin (a + element_offset e)); [by eapply quietly_inv|done| |lia].
    by rewrite (quietly_mem _ _ Q2), (quietly_mem _ _ Q1). }
  exists g2. split; [|done]. unfold mbind at 1, M_bind at 1. rewrite Hat. unfold lift at 1. unfold mbind at 1, M_bind at 1.
  rewrite (with_part_ext _ _ (writer (element_type e) fuel)) by (intros q; by destruct (element_type e)).
  unfold ref_index, sub_index. rewrite Hrun. unfold lift. by rewrite emplace_back_growing.
Qed.

Lemma depth_pos t : (1 <= depth t)%nat.
Proof. destruct t; simpl; lia. Qed.

Lemma pointer_written att sub c d : written sub -> written (Pointer_datatype att sub c d).
Proof.
  intros IH a j g r fuel Hinv Hreads Hj Hfuel. simpl in Hj, Hfuel. pose proof (depth_pos sub). destruct fuel as [|[|fuel]]; [lia..|].
  destruct (load_pointer (g_mem g) a) as [p| |] eqn:Hload; [|done..]. simpl in Hj. apply at_part_Some in Hj as [Hp Hj].
  set (acc := fun (t : Datatype) (data : Z) => if is_pointer t then dereference_data t (g_mem g) data else Throw (Type_error "Cannot dereference a non pointer_type")).
  destruct (sub_ref_runs g r _ a "Cannot dereference an empty Ref" acc p sub Hinv Hreads) as (g1 & k & b & Hrun1 & Q1 & Hq & Hk & x & k' & Hx & HR & HV & Hc & Hk'); [|done|].
  { unfold acc. simpl. by rewrite Hload. }
  pose proof (quietly_inv _ _ Q1) as Hinv1.
  destruct (read_copy_runs g1 (next (g_store g)) _ k b p sub x k' _ Hinv1 Hq eq_refl Hk Hp ltac:(by eexists) HR HV Hc Hk' eq_refl) as (g2 & Hrun2 & Q2 & Hreads2).
  destruct (IH p j g2 (next (g_store g1)) fuel (quietly_inv _ _ Q2) Hreads2) as (g3 & Hrun3 & Q3); [by rewrite (quietly_mem _ _ Q2), (quietly_mem _ _ Q1)|lia|].
  rewrite <- (choose_writer g2 _ sub p fuel Hreads2) in Hrun3.
  destruct (with_ref_quietly g1 g2 g3 (ref_copy true false (next (g_store g))) (choose_type_and_dump_to_json (S fuel)) (next (g_store g1)) j Hinv1 Hrun2 Q2)
    as (g4 & Hrun4 & Q4); [done| |done..|].
  { destruct Hreads2 as (y & _ & _ & Hy & _). by exists y. }
  unfold writer. cbn [write_pointer_to_json].
  apply (with_ref_quietly g g1 g4 _ _ (next (g_store g)) j Hinv); [|done|done|by eexists| |done].
  - unfold ref_dereference, mbind, M_bind. rewrite (is_null_reads _ _ _ _ Hreads). unfold gets. rewrite <- Hrun1. unfold on_store, zoom, dereference_ref.
    destruct Hreads as (y & dy & by_ & Hy & HRy & _ & Hcy & Hdy & Hnn). unfold is_null, type. rewrite Hy; cbn [deref mbind outcome_bind].
    rewrite Hcy, Hdy; cbn [deref mbind outcome_bind data_address data_type]. destruct (Z.eqb_spec a nullptr); [done|].
    cbn [deref mbind outcome_bind]. rewrite Hy; cbn [deref mbind outcome_bind]. rewrite Hcy, Hdy; cbn [deref mbind outcome_bind data_address data_type is_pointer negb].
    destruct (Z.eqb_spec a nullptr); [done|]. cbn [is_pointer negb]. rewrite HRy. done.
  - unfold mbind, M_bind. rewrite (is_null_runs g1 (next (g_store g)) k (mkData b p sub)); [exact Hrun4| |done]. by eexists.
Qed.

Lemma all_written t : written t.
Proof.
  induction t as [att k s al ds c d|att t s st ss IH|att ms b IH|att es b IH|att t c d IH] using Datatype_nested_ind.
  - intros a j g r fuel Hinv Hreads Hj _. exists g. split; [|by apply quietly_refl]. exact (write_scalar_runs g r att k s al ds c d a j Hreads Hj).
  - by apply array_written.
  - by apply record_written.
  - by apply tuple_written.
  - by apply pointer_written.
Qed.

Lemma dump_to_json_runs g r t a j :
  inv (g_store g) -> reads_data g r t a -> json_of (g_mem g) t a = Some j ->
  exists g', dump_to_json r g = Done j g' /\ quietly g g'.
Proof.
  intros Hinv Hreads Hj. unfold dump_to_json. unfold mbind at 1, M_bind at 1. rewrite (ref_type_reads_data _ _ _ _ Hreads).
  assert (exists n, (2 * depth t = S n)%nat) as [n Hn] by (exists (2 * depth t - 1)%nat; pose proof (depth_pos t); lia).
  rewrite Hn, (choose_writer g r t a n Hreads). apply (all_written t a); [done..|lia].
Qed.

End values.

(** * Files *)

(** What the plugin relies on of files: a file that was written is there and can be
    opened, and the others are as they were. *)
Class JsonLaws (W : Type) {JH : JsonHost W} : Prop := {
  open_written : forall p c w, open_in_out p (write_file p c w) = Some c;
  open_other : forall p q c w, p <> q -> open_in_out q (write_file p c w) = open_in_out q w;
  create_other : forall p q c w, p <> q -> can_create q (write_file p c w) = can_create q w;
  paths_written : forall p c w, json_paths (write_file p c w) = json_paths w
}.

(** The array of the documents. *)
Definition array_text (ds : list string) : string :=
  "[" +:+ newline +:+ String.concat ("," +:+ newline) ds +:+ newline +:+ "]".

Lemma concat_snoc sep (ds : list string) d : ds <> [] -> String.concat sep (ds ++ [d]) = String.concat sep ds +:+ sep +:+ d.
Proof.
  induction ds as [|x ds IH]; [done|]. intros _. destruct ds as [|y ds]; [done|].
  change (x +:+ sep +:+ String.concat sep ((y :: ds) ++ [d]) = (x +:+ sep +:+ String.concat sep (y :: ds)) +:+ sep +:+ d).
  rewrite IH by done. by rewrite !string_app_assoc.
Qed.

Lemma substring_app (a b : string) : String.substring 0 (String.length a) (a +:+ b) = a.
Proof. induction a as [|x a IH]; [by destruct b|]. rewrite string_app_String. simpl. by rewrite IH. Qed.

Lemma get_app (a b : string) n : String.get (String.length a + n) (a +:+ b) = String.get n b.
Proof. induction a as [|x a IH]; [done|]. rewrite string_app_String. simpl. by rewrite IH. Qed.

(** What case 2 of [write_data] finds in a file that holds an array. *)
Definition array_front (ds : list string) : string := "[" +:+ newline +:+ String.concat ("," +:+ newline) ds.

Lemma array_text_end ds : array_text ds = array_front ds +:+ (newline +:+ "]").
Proof. unfold array_text, array_front. by rewrite !string_app_assoc. Qed.

Section files.
  Context {W : Type} {RT : Runtime W} {JH : JsonHost W} {JL : JsonLaws W}.

Implicit Types (g : global W) (w : W).

(** The file holds these documents, or is not there yet. *)
Definition holds (p : string) (ds : list string) w : Prop :=
  match ds with
  | [] => open_in_out p w = None /\ can_create p w = true
  | _ => open_in_out p w = Some (array_text ds)
  end.

Lemma holds_other p q c ds w : p <> q -> holds q ds w -> holds q ds (write_file p c w).
Proof. intros Hne. unfold holds. rewrite open_other, create_other by done. done. Qed.

Lemma write_document_runs g p before head j d :
  dump j = Ret d -> exists w, write_document p before head j g = Done tt (set_world w g) /\
    open_in_out p w = Some (before +:+ head +:+ d +:+ newline +:+ "]") /\ json_paths w = json_paths (g_world g) /\
    forall q ds, p <> q -> holds q ds (g_world g) -> holds q ds w.
Proof.
  intros Hd. eexists. split; [|split_and!].
  - unfold write_document, mbind, M_bind, modify. rewrite Hd. simpl. reflexivity.
  - apply open_written.
  - by rewrite !paths_written.
  - intros q ds Hne Hq. by apply holds_other, holds_other.
Qed.

(** Case 2: the last two characters are overwritten. *)
Lemma write_json_file_overwrites g p s c j :
  open_in_out p (g_world g) = Some (s +:+ String c "]") -> write_json_file p j g = write_document p s ("," +:+ newline) j g.
Proof.
  intros Hs. unfold write_json_file, gets. unfold mbind at 1, M_bind at 1. rewrite Hs. unfold last_char. rewrite string_length_app.
  replace (String.length s + String.length (String c "]") - 1)%nat with (String.length s + 1)%nat by (simpl; lia).
  replace (String.length s + String.length (String c "]") - 2)%nat with (String.length s) by (simpl; lia).
  rewrite get_app, substring_app. simpl String.get. cbv iota beta.
  destruct (Nat.ltb_spec (String.length s + String.length (String c "]")) 2) as [Hlt|_]; [simpl in Hlt; lia|done].
Qed.

(** Writing a document appends it. *)
Lemma write_json_file_runs g p ds j d :
  holds p ds (g_world g) -> dump j = Ret d ->
  exists w, write_json_file p j g = Done tt (set_world w g) /\ holds p (ds ++ [d]) w /\ json_paths w = json_paths (g_world g) /\
    forall q ds', p <> q -> holds q ds' (g_world g) -> holds q ds' w.
Proof.
  intros Hp Hd. destruct ds as [|x ds].
  - unfold write_json_file, gets. unfold mbind at 1, M_bind at 1. destruct Hp as [-> ->].
    destruct (write_document_runs g p "" ("[" +:+ newline) j d Hd) as (w & Hrun & Ho & Hpaths & Hq).
    exists w. split_and!; [done| |done|done]. unfold holds. simpl. rewrite Ho. unfold array_text. simpl. done.
  - unfold holds in Hp. rewrite array_text_end in Hp. rewrite (write_json_file_overwrites g p (array_front (x :: ds)) "010" j Hp).
    destruct (write_document_runs g p (array_front (x :: ds)) ("," +:+ newline) j d Hd) as (w & Hrun & Ho & Hpaths & Hq).
    exists w. split_and!; [done| |done|done]. unfold holds. simpl. rewrite Ho. f_equal.
    change (x :: ds ++ [d]) with ((x :: ds) ++ [d]). unfold array_text. rewrite concat_snoc by done. unfold array_front. by rewrite !string_app_assoc.
Qed.

(** ** Failures *)

(** The last character of a file that a failed write leaves. *)
Lemma last_newline s : last_char (s +:+ newline) = Some "010"%char.
Proof.
  unfold last_char. rewrite string_length_app. replace (String.length s + String.length newline - 1)%nat with (String.length s + 0)%nat by (simpl; lia).
  by rewrite get_app.
Qed.

Lemma write_to_damaged_file g p s j : open_in_out p (g_world g) = Some (s +:+ newline) -> write_json_file p j g = Done tt g.
Proof. intros Hs. unfold write_json_file, gets, mbind, M_bind. by rewrite Hs, last_newline. Qed.

(** C17: when the text of a document can not be made, because a string
    in it is not UTF-8, the file keeps what was written before the text, and from
    then on nothing is ever written to it: later documents are lost although the
    writes succeed. *)
Theorem failed_document_blocks_the_file g p ds j e :
  holds p ds (g_world g) -> dump j = Throw e ->
  exists w, write_json_file p j g = Thrown e (set_world w g) /\ (forall ds', ~ holds p ds' w) /\
    forall j', write_json_file p j' (set_world w g) = Done tt (set_world w g).
Proof.
  intros Hp Hj.
  assert (Hdamaged : exists s, write_json_file p j g = Thrown e (set_world (write_file p (s +:+ newline) (g_world g)) g)).
  { destruct ds as [|x ds].
    - unfold write_json_file, gets. unfold mbind at 1, M_bind at 1. destruct Hp as [-> ->].
      exists "[". unfold write_document, mbind, M_bind, modify. by rewrite Hj.
    - unfold holds in Hp. rewrite array_text_end in Hp. rewrite (write_json_file_overwrites g p (array_front (x :: ds)) "010" j Hp).
      exists (array_front (x :: ds) +:+ ","). unfold write_document, mbind, M_bind, modify. rewrite Hj. simpl. by rewrite !string_app_assoc. }
  destruct Hdamaged as [s Hrun]. eexists. split; [exact Hrun|]. set (w := write_file p (s +:+ newline) (g_world g)).
  assert (Hw : open_in_out p w = Some (s +:+ newline)) by apply open_written. split.
  - intros [|x ds'] Hh; [destruct Hh; congruence|]. unfold holds in Hh. rewrite Hw in Hh. injection Hh as Heq.
    pose proof (last_newline s) as Hl. rewrite Heq, array_text_end, <- string_app_assoc in Hl. unfold last_char in Hl.
    rewrite string_length_app in Hl. replace (_ + String.length "]" - 1)%nat with (String.length (array_front (x :: ds') +:+ newline) + 0)%nat in Hl by (simpl; lia).
    rewrite get_app in Hl. done.
  - intros j'. by apply (write_to_damaged_file _ p s).
Qed.

(** A file that holds a JSON array written otherwise, without a line for the
    closing bracket, loses its last character. *)
Lemma foreign_array_is_damaged g p s c j d :
  open_in_out p (g_world g) = Some (s +:+ String c "]") -> dump j = Ret d ->
  exists w, write_json_file p j g = Done tt (set_world w g) /\
    open_in_out p w = Some (s +:+ ("," +:+ newline) +:+ d +:+ newline +:+ "]").
Proof.
  intros Hs Hd. rewrite (write_json_file_overwrites g p s c j Hs).
  destruct (write_document_runs g p s ("," +:+ newline) j d Hd) as (w & Hrun & Ho & _). by exists w.
Qed.

(** * The callback *)

(** The documents of the files that are considered. *)
Definition files_hold (ps : list string) (log : string -> list string) w : Prop := forall p, p ∈ ps -> holds p (log p) w.

(** Appending a document to a file, and to the file of each entry whose condition
    holds. *)
Definition append_to (p d : string) (log : string -> list string) : string -> list string :=
  fun q => if bool_decide (p = q) then log q ++ [d] else log q.

Definition append_all (entries : list (Z * string)) (d : string) (log : string -> list string) : string -> list string :=
  foldl (fun log e => if e.1 =? 0 then log else append_to e.2 d log) log entries.

(** An expression that has the value [v] now and as long as no descriptor changes
    and the references stay: its evaluation leaves nothing but new objects. *)
Definition settled {A} g (m : M (global W) A) (v : A) : Prop :=
  forall g1, preserved g g1 -> exists g2, m g1 = Done v g2 /\ mildly g1 g2.

(** The condition of an entry and, where it holds, the path. *)
Definition entry_settled g (entry : Impl * Impl) (e : Z * string) : Prop :=
  settled g (expr_to_long entry.1) e.1 /\ (e.1 <> 0 -> settled g (expr_to_string entry.2) e.2).

Lemma settled_ret {A} g (v : A) : settled g (mret v) v.
Proof. intros g1 K. exists g1. split; [done|]. by apply quietly_mildly, quietly_refl, (preserved_inv g). Qed.

(** A reference to an integer that is kept for reading, as metadata are. *)
Lemma settled_reference g name d h rs dt b q t s v :
  inv (g_store g) -> m_descriptors g !! name = Some d -> m_refs d = h :: rs -> holder g h true dt (mkData b q t) -> q <> nullptr ->
  scalar_value (CInt true 8) t (g_mem g) q = Ret (NInt true s v) -> settled g (expr_to_long (Reference_expression name [] "")) v.
Proof.
  intros Hinv Hd Hrs Hh Hq Hv g1 K. pose proof K as (C & Hm & D).
  destruct (read_long_runs g1 name d h rs dt b q t s v) as (g2 & Hrun & Q2); try done.
  - by apply (preserved_inv g).
  - by rewrite D.
  - destruct (calm_holds nothing g _ h true dt (mkData b q t) Hinv C) as [Hr Hdt]; [tauto|done|by split].
  - by apply (scalar_value_grows (g_mem g)).
  - exists g2. split; [done|by apply quietly_mildly].
Qed.

Lemma append_holds ps log p d w w' :
  files_hold ps log w -> holds p (log p ++ [d]) w' -> (forall q ds, p <> q -> holds q ds w -> holds q ds w') ->
  files_hold ps (append_to p d log) w'.
Proof.
  intros Hlog Hp Hq q Hin. unfold append_to. case_bool_decide as Heq; [by subst q|]. by apply Hq, Hlog.
Qed.

Lemma settled_preserved {A} g g' (m : M (global W) A) v : preserved g g' -> settled g m v -> settled g' m v.
Proof. intros K H g1 K1. by apply H, (preserved_trans _ g'). Qed.

Lemma entries_preserved g g' entries es : preserved g g' -> Forall2 (entry_settled g) entries es -> Forall2 (entry_settled g') entries es.
Proof.
  intros K H. induction H as [|x y xs ys [Hc Hp] _ IH]; constructor; [|done].
  split; [by apply (settled_preserved g)|]. intros Hy. by apply (settled_preserved g), Hp.
Qed.

Lemma set_world_preserved g w : inv (g_store g) -> preserved g (set_world w g).
Proof. intros. apply calm_preserved; [by split|done]. Qed.

Lemma write_entry_runs g name r t a j d entry e ps log :
  inv (g_store g) -> reads_data g r t a -> json_of (g_mem g) t a = Some j -> dump (J_object [(name, j)]) = Ret d ->
  files_hold ps log (g_world g) -> entry_settled g entry e -> (e.1 <> 0 -> e.2 ∈ ps) ->
  exists g', write_entry name r entry g = Done tt g' /\ preserved g g' /\ files_hold ps (if e.1 =? 0 then log else append_to e.2 d log) (g_world g').
Proof.
  intros Hinv Hreads Hj Hd Hlog [Hcond Hpath] Hin. pose proof (calm_preserved g g (calm_refl g Hinv) eq_refl) as K0.
  destruct (Hcond g K0) as (g1 & Hrun1 & K1 & W1). unfold write_entry. unfold mbind at 1, M_bind at 1. rewrite Hrun1.
  destruct (Z.eqb_spec e.1 0) as [|Hne]; [exists g1; split_and!; [done..|by rewrite W1]|].
  destruct (Hpath Hne g1 K1) as (g2 & Hrun2 & K2 & W2). unfold mbind at 1, M_bind at 1. rewrite Hrun2.
  pose proof (preserved_trans _ _ _ K1 K2) as K12. pose proof (reads_preserved _ _ _ _ _ Hinv K12 Hreads) as Hreads2.
  unfold mbind at 1, M_bind at 1. rewrite (is_null_reads _ _ _ _ Hreads2). unfold mbind at 1, M_bind at 1.
  destruct (dump_to_json_runs g2 r t a j (preserved_inv _ _ K12) Hreads2) as (g3 & Hrun3 & Q3).
  { apply (json_of_grows (g_mem g)); [apply K12|done]. }
  rewrite Hrun3. pose proof (quietly_mildly _ _ Q3) as [K3 W3]. unfold mbind at 1, M_bind at 1. cbn [assign_member lift].
  assert (Hw : g_world g3 = g_world g) by congruence.
  destruct (write_json_file_runs g3 e.2 (log e.2) (J_object [(name, j)]) d) as (w & Hrun & Hp & _ & Hq); [rewrite Hw; by apply Hlog, Hin|done|].
  exists (set_world w g3). split_and!; [done| |].
  - eapply preserved_trans; [exact K12|]. eapply preserved_trans; [exact K3|]. apply set_world_preserved, (preserved_inv _ _ K3).
  - simpl. eapply append_holds; [exact Hlog|exact Hp|]. by rewrite <- Hw.
Qed.

Lemma write_entries_runs name r t a j d ps : forall entries es g log,
  inv (g_store g) -> reads_data g r t a -> json_of (g_mem g) t a = Some j -> dump (J_object [(name, j)]) = Ret d ->
  files_hold ps log (g_world g) -> Forall2 (entry_settled g) entries es -> Forall (fun e => e.1 <> 0 -> e.2 ∈ ps) es ->
  exists g', each_do (write_entry name r) entries g = Done tt g' /\ preserved g g' /\ files_hold ps (append_all es d log) (g_world g').
Proof.
  unfold each_do. induction entries as [|entry entries IH]; intros es g log Hinv Hreads Hj Hd Hlog Hset Hall.
  { apply Forall2_nil_inv_l in Hset as ->. exists g. split_and!; [done|by apply calm_preserved, eq_refl; apply calm_refl|done]. }
  apply Forall2_cons_inv_l in Hset as (e & es' & He & Hset & ->). apply list.Forall_cons in Hall as [Hin Hall].
  destruct (write_entry_runs g name r t a j d entry e ps log) as (g1 & Hrun1 & K1 & Hlog1); [done..|].
  destruct (IH es' g1 (if e.1 =? 0 then log else append_to e.2 d log) (preserved_inv _ _ K1)) as (g2 & Hrun2 & K2 & Hlog2); try done.
  - by apply (reads_preserved g).
  - apply (json_of_grows (g_mem g)); [apply K1|done].
  - by apply (entries_preserved g).
  - exists g2. split_and!; [|by eapply preserved_trans|done]. simpl. unfold mbind, M_bind. by rewrite Hrun1.
Qed.

End files.

(** ** Other plugins *)

(** Plugins that observe, and leave to this one its files and its configuration. *)
Class Bystanders (W : Type) {P : Platform W} {JH : JsonHost W} : Prop := {
  stand_by : forall h name arg g, exists w, invoke h name arg g = Done tt (set_world w g) /\
    json_paths w = json_paths (g_world g) /\
    forall p, open_in_out p w = open_in_out p (g_world g) /\ can_create p w = can_create p (g_world g)
}.

Section callback.
  Context {W : Type} {RT : Runtime W} {JH : JsonHost W} {JL : JsonLaws W} {BY : Bystanders W}.

Implicit Types g : global W.

(** The same files. *)
Definition same_files (w w' : W) : Prop :=
  json_paths w' = json_paths w /\ forall p, open_in_out p w' = open_in_out p w /\ can_create p w' = can_create p w.

#[local] Instance same_files_preorder : PreOrder same_files.
Proof. split; [by intros w|]. intros w1 w2 w3 [P1 F1] [P2 F2]. split; [congruence|]. intros p. destruct (F1 p), (F2 p). split; congruence. Qed.

Lemma same_files_hold ps log w w' : same_files w w' -> files_hold ps log w -> files_hold ps log w'.
Proof. intros [_ F] Hlog p Hp. specialize (Hlog p Hp). unfold holds in *. destruct (F p) as [-> ->]. done. Qed.

Lemma call_event_runs k name cs : forall g, (forall c, c ∈ cs -> registered k c.1 g = true) ->
  exists w, call_all k name None cs g = Done [] (set_world w g) /\ same_files (g_world g) w.
Proof.
  unfold call_all. induction cs as [|c cs IH]; intros g Hreg; simpl.
  { exists (g_world g). split; [by destruct g|done]. }
  destruct (stand_by c.2 name None g) as (w & Hw & HP & HF).
  destruct (IH (set_world w g)) as (w2 & Hrun2 & S2).
  { intros c' Hc'. apply Hreg. by apply list_elem_of_further. }
  exists w2. split; [|by transitivity w]. unfold mbind at 1, M_bind at 1, catch at 1. unfold mbind at 1, M_bind at 1.
  unfold call, mbind at 1, M_bind at 1, gets at 1. rewrite (Hreg c (list_elem_of_here _ _)). unfold assert, mret at 1, M_ret at 1, mbind at 1, M_bind at 1.
  rewrite Hw. exact Hrun2.
Qed.

Lemma notify_event_runs name g : exists w, notify_event name g = Done tt (set_world w g) /\ same_files (g_world g) w.
Proof.
  destruct (call_event_runs On_event name (gather name (m_callbacks g On_event)) g) as (w & Hrun & S).
  { intros c. apply gather_registered. }
  exists w. split; [|done]. unfold notify_event, notify_named, registry, gets, mbind, M_bind. by rewrite Hrun.
Qed.

Lemma set_world_calm g w : inv (g_store g) -> calm nothing g (set_world w g).
Proof. intros. by split. Qed.

(** C16: when data is shared that nobody writes, the JSON plugin appends to
    the array that each of its files holds, in the order of the configuration and
    for each entry whose condition holds, the JSON document of the data under its
    name: the value that the memory has, for the types that have one ([json_of]:
    scalars of a known kind and size, arrays without ghost elements, records with
    distinct names and without a record as a member, tuples without a tuple as an
    element, pointers that are not null).  The conditions and the paths are
    expressions whose value does not change while the entries are written (literals
    and references to metadata are), the text of the document can be made, each
    file was written by the plugin or can be created, and the other plugins leave
    the files alone.  References and descriptors are as they were, and so is the
    memory but for temporary objects. *)
Theorem json_files_accumulate g name ref d dd bb j doc entries es ps log :
  inv (g_store g) -> links g ref d dd -> data_address dd <> nullptr ->
  buffers (g_store g) !! data_buffer dd = Some bb -> m_read_locks bb = 0 ->
  json_of (g_mem g) (data_type dd) (data_address dd) = Some j -> dump (J_object [(name, j)]) = Ret doc ->
  json_paths (g_world g) !! name = Some entries -> Forall2 (entry_settled g) entries es ->
  files_hold ps log (g_world g) -> Forall (fun e => e.1 <> 0 -> e.2 ∈ ps) es ->
  exists g', write_shared name ref g = Done tt g' /\ preserved g g' /\ files_hold ps (append_all es doc log) (g_world g').
Proof.
  intros Hinv (x & Hx & Hc & Hd) Hnn Hbb Hlock Hj Hdoc Hpaths Hset Hlog Hall.
  destruct (read_copy_unlocked g ref x d (data_buffer dd) (data_address dd) (data_type dd) bb) as (g1 & Hrun1 & Q1 & Hreads1);
    [done|done|done|by destruct dd|done..|].
  destruct (notify_event_runs "json_start_timer" g1) as (w2 & Hrun2 & S2). set (g2 := set_world w2 g1) in *.
  pose proof (quietly_mildly _ _ Q1) as [K1 W1]. pose proof (preserved_inv _ _ K1) as Hinv1.
  assert (K2 : preserved g g2) by (eapply preserved_trans; [exact K1|by apply set_world_preserved]).
  assert (S2' : same_files (g_world g) w2) by (by rewrite <- W1).
  destruct (write_entries_runs name (next (g_store g)) (data_type dd) (data_address dd) j doc ps entries es g2 log) as (g3 & Hrun3 & K3 & Hlog3);
    [exact Hinv1|exact Hreads1|by apply (json_of_grows (g_mem g)); [apply K2|]|done|by eapply (same_files_hold _ _ (g_world g))|by apply (entries_preserved g)|done|].
  destruct (notify_event_runs "json_stop_timer" g3) as (w4 & Hrun4 & S4). set (g4 := set_world w4 g3) in *.
  assert (K4 : preserved g1 g4).
  { eapply preserved_trans; [apply (set_world_preserved g1 w2 Hinv1)|]. eapply preserved_trans; [exact K3|]. apply set_world_preserved, (preserved_inv _ _ K3). }
  assert (Hwrite : write_data name (next (g_store g)) g1 = Done tt g4).
  { unfold write_data, timed, finally. unfold mbind at 1, M_bind at 1.
    change ("json" +:+ "_start_timer") with "json_start_timer". rewrite Hrun2. unfold mbind at 1, M_bind at 1, paths_of.
    change (g_world g2) with w2. rewrite (proj1 S2'), Hpaths, Hrun3. change ("json" +:+ "_stop_timer") with "json_stop_timer". by rewrite Hrun4. }
  destruct (with_ref_preserved g g1 g4 (ref_copy true false ref) (write_data name) (next (g_store g)) tt) as (g5 & Hrun5 & K5 & W5); try done.
  { by destruct Hreads1 as (y & _ & _ & Hy & _); exists y. }
  exists g5. split_and!; [done|done|]. rewrite W5. by eapply same_files_hold.
Qed.

End callback.
