(* ===== verification/JsonRun.v ===== *)
(** A run of the JSON plugin in a context where it is the only plugin, and the
    instances of its theorems. *)

From S2P Require Import Prelude Error Effect ExprSyntax Datatype Layout Memory DenseCopy DenseCopyFacts Access Ref RefInv RefOps RefTheorems RefCopy Numeric Parse Yaml Template GlobalContext Eval ContextInv DescriptorInv EvalInv Share ShareFacts Logger SetValue SetValueRun Json JsonFacts.
From Stdlib Require Import Ascii.

(** The configuration of the plugin and the files of a directory in which all can
    be created. *)
Abbreviation directory := (Paths * gmap string string)%type.

(** A text of values; strings must be ASCII. *)
Definition is_ascii (s : string) : bool := forallb (fun c => (nat_of_ascii c <? 128)%nat) (String.list_ascii_of_string s).

Fixpoint print_json (j : json) : outcome string :=
  match j with
  | J_null => Ret "null"
  | J_string s => if is_ascii s then Ret ("'" +:+ s +:+ "'") else Throw (Std_exception "[json.exception.type_error.316] invalid UTF-8 byte")
  | J_integer v | J_unsigned v => Ret (pretty v)
  | J_float f => Ret (print_double f)
  | J_array l => s ← strings_of (fun v => s ← print_json v; Ret (s +:+ " ")) l; Ret ("[ " +:+ s +:+ "]")
  | J_object l => s ← strings_of (fun kv => s ← print_json kv.2; Ret (kv.1 +:+ ": " +:+ s +:+ " ")) l; Ret ("{ " +:+ s +:+ "}")
  end.

#[local] Instance json_host : JsonHost directory := {|
  json_paths := fst;
  set_json_paths := fun ps w => (ps, w.2);
  on_json_data := 0;
  traversal := fun ps => (map_to_list ps).*1;
  dump := print_json;
  open_in_out := fun p w => w.2 !! p;
  can_create := fun _ _ => true;
  write_file := fun p c w => (w.1, <[p := c]> w.2)
|}.

#[local] Instance json_laws : JsonLaws directory.
Proof.
  split; simpl; try done.
  - intros p c w. apply lookup_insert_eq.
  - intros p q c w Hne. by apply lookup_insert_ne.
Defined.

(** * A run *)

(** The callback of the plugin, which has the handle 0; [depth] bounds the nesting. *)
Fixpoint json_callbacks (depth : nat) (callback : Z) (name : string) (arg : option nat) : M (global directory) unit :=
  match depth, arg with
  | S depth, Some ref => write_shared (RT := runtime_with even_allocator (json_callbacks depth)) name ref
  | _, _ => lift Crash
  end.

#[local] Instance json_runtime : Runtime directory := runtime_with even_allocator (json_callbacks 2).

Definition json_config : PC_tree :=
  tree_of (sequence_of
    [one_pair "point" (scalar_tree "a.json");
     YMapping no_region [(scalar_tree "file", scalar_tree "b.json"); (scalar_tree "when", scalar_tree "$n > 0");
                         (scalar_tree "write", sequence_of [scalar_tree "n"; scalar_tree "point"])]]).

(** A record with an integer, an array of characters, and a pointer to an array. *)
Definition int32 : Datatype := Scalar_datatype [] SIGNED 4 4 4 None None.
Definition char8 : Datatype := Scalar_datatype [] UNSIGNED 1 1 1 None None.
Definition int32s (n : Z) : Datatype := Array_datatype [] int32 n 0 n.

Definition point_type : Datatype :=
  Record_datatype [] [mkMember 0 int32 "y"; mkMember 4 (Array_datatype [] char8 2 0 2) "name"; mkMember 8 (Pointer_datatype [] (int32s 2) None None) "p"] 16.

Definition json_memory : mem :=
  bytes_at 4096 [3; 0; 0; 0] ∪
  bytes_at 8192 ([254; 255; 255; 255; 111; 107; 0; 0] ++ [0; 48; 0; 0; 0; 0; 0; 0]) ∪
  bytes_at 12288 [1; 0; 0; 0; 2; 0; 0; 0].

Definition json_start : global directory :=
  mkGlobal empty_store json_memory ∅
    {["n" := mkDescriptor (Datatype_as_template int32) false []; "point" := mkDescriptor (Datatype_as_template point_type) false []]}
    (fun _ => mkRegistry [] []) 0 (∅, ∅).

Definition json_session : M (global directory) unit :=
  json_plugin json_config;;
  share_data "n" 4096 true false;;
  share_data "point" 8192 true false.

(** The documents are in both files, in order. *)
Example json_run :
  match json_session json_start with
  | Done _ g => Some ((g_world g).2 !! "a.json", (g_world g).2 !! "b.json")
  | _ => None
  end = Some (Some (array_text ["{ point: { name: [ 'ok' ] p: [ 1 2 ] y: -2 } }"]),
              Some (array_text ["{ n: 3 }"; "{ point: { name: [ 'ok' ] p: [ 1 2 ] y: -2 } }"])).
Proof. vm_compute. reflexivity. Qed.

(** An array of which only a part is data can not be written. *)
Definition part_type : Datatype := Array_datatype [] int32 4 1 2.

Example partial_arrays_are_refused :
  match with_ref (on_store (new_ref true false 4096 0 part_type true true)) dump_to_json
          (set_mem (bytes_at 4096 (replicate 16 0)) json_start) with
  | Thrown e _ => what e
  | _ => None
  end = Some "Subaccess array index out of range: 2 >= 2".
Proof. vm_compute. reflexivity. Qed.

(** * Instances *)

(** The plugins that are called do nothing. *)
Definition idle_runtime : Runtime directory := quiet_runtime.

#[local] Instance idle_bystanders : Bystanders directory (P := runtime_platform (Runtime := idle_runtime)).
Proof. split. intros h name arg g. exists (g_world g). split; [by destruct g|done]. Defined.

(** [point] is referenced in a context that has one file, for an entry whose
    condition is the metadata [n] and one whose condition does not hold. *)
Definition made (o : outcome (nat * store)) : store := match o with Ret (_, st) => st | _ => empty_store end.
Definition first_store : store := made (new_ref false false 8192 0 point_type true true empty_store).
Definition point_store : store := made (new_ref true false 4096 0 int32 true false first_store).

Definition point_entries : list (Impl * Impl) :=
  [(Reference_expression "n" [] "", String_literal "a.json" []); (Int_literal 0, String_literal "b.json" [])].
Definition point_values : list (Z * string) := [(3, "a.json"); (0, "b.json")].

Definition point_g : global directory :=
  mkGlobal point_store json_memory ∅ {["n" := mkDescriptor (Datatype_as_template int32) true [3%nat]]} (fun _ => mkRegistry [] []) 0
    ({["point" := point_entries]}, {["a.json" := array_text ["{ n: 3 }"]]}).

Definition point_json : json :=
  J_object [("name", J_array [J_string "ok"]); ("p", J_array [J_integer 1; J_integer 2]); ("y", J_integer (-2))].

Definition point_log (p : string) : list string := if bool_decide (p = "a.json") then ["{ n: 3 }"] else [].

Lemma made_inv R V data f t st : inv st -> data <> nullptr -> inv (made (new_ref R V data f t true true st)) /\ inv (made (new_ref R V data f t true false st)).
Proof.
  intros Hinv Hnn. split.
  - destruct (new_ref_ok st R V data f t true true Hinv) as [(e & _ & _ & He)|(st' & c & -> & Hst & _)]; [done|]. by apply Hst.
  - destruct (new_ref_ok st R V data f t true false Hinv) as [(e & _ & _ & He)|(st' & c & -> & Hst & _)]; [done|]. by apply Hst.
Qed.

Lemma point_store_inv : inv point_store.
Proof. unfold point_store. apply made_inv; [|done]. unfold first_store. by apply made_inv; [apply inv_empty|]. Defined.

Lemma point_entries_settled : Forall2 (entry_settled (RT := idle_runtime) point_g) point_entries point_values.
Proof.
  constructor; [|constructor; [|constructor]]; split.
  - apply (settled_reference (RT := idle_runtime) point_g "n" (mkDescriptor (Datatype_as_template int32) true [3%nat]) 3 [] 5 4 4096 int32 8);
      [exact point_store_inv|by vm_compute|done|split; by vm_compute|done|by vm_compute].
  - intros _. apply settled_ret.
  - apply settled_ret.
  - done.
Defined.

Lemma point_log_holds : files_hold ["a.json"] point_log (g_world point_g).
Proof. intros p Hp. apply list_elem_of_singleton in Hp as ->. by vm_compute.
Defined.

Lemma json_files_accumulate_witness :
  exists g', write_shared (RT := idle_runtime) "point" 0 point_g = Done tt g' /\ preserved point_g g' /\
    files_hold ["a.json"] (append_all point_values "{ point: { name: [ 'ok' ] p: [ 1 2 ] y: -2 } }" point_log) (g_world g').
Proof.
  apply (json_files_accumulate (RT := idle_runtime) point_g "point" 0 2 (mkData 1 8192 point_type) (mkBuffer (Some (mkDeallocator 8192 point_type 0)) 0 0 ∅)
           point_json "{ point: { name: [ 'ok' ] p: [ 1 2 ] y: -2 } }" point_entries point_values).
  - exact point_store_inv.
  - exists (mkReference false false (Some 2%nat)). split_and!; by vm_compute.
  - done.
  - by vm_compute.
  - done.
  - by vm_compute.
  - by vm_compute.
  - by vm_compute.
  - exact point_entries_settled.
  - exact point_log_holds.
  - constructor; [intros _; apply list_elem_of_here|]. constructor; [intros Hne; by destruct Hne|constructor].
Defined.

Lemma failed_document_blocks_the_file_witness :
  exists w, write_json_file "a.json" (J_object [("c", J_string (char_string 200))]) point_g
      = Thrown (Std_exception "[json.exception.type_error.316] invalid UTF-8 byte") (set_world w point_g) /\
    (forall ds', ~ holds "a.json" ds' w) /\ forall j', write_json_file "a.json" j' (set_world w point_g) = Done tt (set_world w point_g).
Proof. apply (failed_document_blocks_the_file point_g "a.json" ["{ n: 3 }"]); by vm_compute. Defined.
