(* ===== verification/Timer.v ===== *)
(** The Timer and Trace plugins: [plugins/timer/timer.cxx] and
    [plugins/trace/trace.cxx].

    Timers start and stop at events, in particular at those that surround the
    blocks that other plugins time.  The clock, the conversion of a duration to
    seconds and the output file are parameters; of the Trace plugin, the messages
    it logs are kept. *)

From S2P Require Import Prelude Error Effect ExprSyntax Datatype Layout Memory DenseCopy Access Ref RefInv RefOps RefTheorems RefCopy Numeric Parse Yaml Template GlobalContext Eval SetValue UserCode.

(** * Timers *)

(** [start_time] is in ticks of the clock. *)
Record TimerInfo := mkTimerInfo {
  accumulated_time : spec_float;
  start_time : option Z
}.

Definition no_time : TimerInfo := mkTimerInfo (S754_zero false) None.

Record timer_plugin := mkTimers {
  m_timers : gmap string TimerInfo;
  m_output_path : string
}.

(** [on_start] and [on_stop] are the lambdas that capture the name of a timer;
    [seconds] converts a number of ticks; [shortest] and [line] are the texts of a
    number in a message and of [%s,%f];
    [timer_traversal] is the order of an [unordered_map]. *)
Class TimerHost (W : Type) := {
  timers_of : W -> timer_plugin;
  set_timers : timer_plugin -> W -> W;
  now : W -> Z;
  seconds : Z -> spec_float;
  on_start : string -> Z;
  on_stop : string -> Z;
  timer_traversal : gmap string TimerInfo -> list (string * TimerInfo);
  shortest : spec_float -> string;
  line : string -> spec_float -> string;
  open_append : string -> W -> bool;
  flock_ex : string -> W -> bool;
  append_file : string -> string -> W -> W;
  log_info : string -> W -> W;
  timers_set : forall s w, timers_of (set_timers s w) = s;
  now_set : forall s w, now (set_timers s w) = now w
}.

Section plugin.
  Context {W : Type} {P : Platform W} {TH : TimerHost W}.

Abbreviation G := (M (global W)).

Definition update_world (f : W -> W) : G unit := modify (fun g => set_world (f (g_world g)) g).

Definition set_timer (name : string) (info : TimerInfo) (w : W) : W :=
  set_timers (mkTimers (<[name := info]> (m_timers (timers_of w))) (m_output_path (timers_of w))) w.

(** ** Measuring *)

(** The body of [startTimer]: [m_timers[name]] adds the timer, and a timer that
    runs goes on. *)
Definition started (name : string) (w : W) : W :=
  let timer := default no_time (m_timers (timers_of w) !! name) in
  match start_time timer with
  | Some _ => set_timer name timer w
  | None => set_timer name (mkTimerInfo (accumulated_time timer) (Some (now w))) w
  end.

Definition startTimer (name : string) : G unit := update_world (started name).

Definition double_add (a b : spec_float) : spec_float := SFadd (float_prec true) (float_emax true) a b.

(** The body of [stopTimer] *)
Definition stopped (name : string) (w : W) : W :=
  match m_timers (timers_of w) !! name with
  | Some (mkTimerInfo total (Some start)) => set_timer name (mkTimerInfo (double_add total (seconds (now w - start))) None) w
  | _ => w
  end.

Definition stopTimer (name : string) : G unit := update_world (stopped name).

(** ** Configuration *)

Definition define_timer (timer_name : string) (val : PC_tree) : G unit :=
  if is_map val then
    start_ev ← lift (Yaml.to_string (get_key val "start"));
    on_event (on_start timer_name) start_ev;;
    stop_ev ← lift (Yaml.to_string (get_key val "stop"));
    on_event (on_stop timer_name) stop_ev;; mret tt
  else
    opt_each_do val (fun sub_elem =>
      s ← lift (Yaml.to_string sub_elem);
      on_event (on_start timer_name) (s +:+ "_start_timer");;
      on_event (on_stop timer_name) (s +:+ "_stop_timer");; mret tt).

Definition set_output (item : PC_tree) : G unit :=
  path ← lift (Yaml.to_string (get_key item "output_to"));
  update_world (fun w => set_timers (mkTimers (m_timers (timers_of w)) path) w).

(** An item of a list, and a pair of a mapping. *)
Definition read_item (timer_item : PC_tree) : G unit :=
  timer_name ← lift (Yaml.to_string (get_nth_key timer_item 0));
  if bool_decide (timer_name = "output_to") then set_output timer_item
  else define_timer timer_name (get_key timer_item timer_name).

Definition read_pair (timer_item : PC_tree) (i : nat) : G unit :=
  timer_name ← lift (Yaml.to_string (get_nth_key timer_item i));
  if bool_decide (timer_name = "output_to") then set_output timer_item
  else define_timer timer_name (get_key timer_item timer_name).

(** The constructor. *)
Definition make_timers (spec_tree : PC_tree) : G unit :=
  update_world (set_timers (mkTimers ∅ "cout"));;
  if PC_status spec_tree then mret tt
  else if is_list spec_tree then each_do (fun i => read_item (get_item spec_tree i)) (seq 0 (len_default spec_tree 0))
  else if is_map spec_tree then
    opt_each_do spec_tree (fun timer_item => each_do (read_pair timer_item) (seq 0 (len_default timer_item 0)))
  else mret tt.

(** ** Output *)

(** [output_timer], called by the destructor. *)
Definition output_timer : G unit := update_world (fun w =>
  let timers := timer_traversal (m_timers (timers_of w)) in
  let path := m_output_path (timers_of w) in
  if bool_decide (path = "cout") then
    foldl (fun w t => log_info ("Total time spent for " +:+ t.1 +:+ " : " +:+ shortest (accumulated_time t.2) +:+ " seconds") w) w timers
  else if negb (open_append path w) then w
  else if flock_ex path w then foldl (fun w t => append_file path (line t.1 (accumulated_time t.2)) w) w timers
  else w).

End plugin.

(** * Traces *)

(** The handles of the three lambdas. *)
Class TraceHost (W : Type) := {
  trace_info : string -> W -> W;
  on_trace_data : Z;
  on_trace_remove : Z;
  on_trace_event : Z
}.

Section trace.
  Context {W : Type} {P : Platform W} {TR : TraceHost W}.

Definition trace_message (callback : Z) (name : string) : string :=
  if callback =? on_trace_data then "=>>   data becoming available in the store: " +:+ name
  else if callback =? on_trace_remove then "<<= data stop being available in the store: " +:+ name
  else "!!!                            named event: " +:+ name.

(** The body of the lambdas. *)
Definition trace (callback : Z) (name : string) : M (global W) unit :=
  update_world (trace_info (trace_message callback name)).

(** The constructor. *)
Definition trace_plugin : M (global W) unit :=
  on_data on_trace_data "";;
  on_data_remove on_trace_remove "";;
  on_event on_trace_event "";;
  update_world (trace_info "Welcome!").

End trace.
