(* ===== verification/TimerFacts.v ===== *)
(** What the Timer plugin measures: the duration of the blocks that other plugins
    time, except when they nest. *)

From S2P Require Import Prelude Error Effect ExprSyntax Datatype Layout Memory DenseCopy DenseCopyFacts Access Ref RefInv RefOps RefTheorems RefCopy Numeric Parse Yaml Template GlobalContext Eval ContextInv DescriptorInv SetValue SetValueRun UserCode Timer.

(** The lambdas of the plugin are the functions it calls. *)
Class TimerLambdas (W : Type) {P : Platform W} {TH : TimerHost W} : Prop := {
  start_lambda : forall timer event, invoke (on_start timer) event None = startTimer timer;
  stop_lambda : forall timer event, invoke (on_stop timer) event None = stopTimer timer
}.

Section measure.
  Context {W : Type} {P : Platform W} {TH : TimerHost W} {TL : TimerLambdas W}.

Implicit Types g : global W.

(** The state of a timer; one that was never started has measured nothing. *)
Definition timer_info (timer : string) g : TimerInfo := default no_time (m_timers (timers_of (g_world g)) !! timer).

(** The callbacks of an event are those of the timers [ts], in order. *)
Definition only_calls (event : string) (callback : string -> Z) (ts : list string) g : Prop :=
  (gather event (m_callbacks g On_event)).*2 = callback <$> ts.

Lemma set_timer_same timer info g : timer_info timer (set_world (set_timer timer info (g_world g)) g) = info.
Proof. unfold timer_info, set_timer. simpl. rewrite timers_set. simpl. by rewrite lookup_insert_eq. Qed.

Lemma set_timer_other timer t info g : timer <> t -> timer_info timer (set_world (set_timer t info (g_world g)) g) = timer_info timer g.
Proof. intros Hne. unfold timer_info, set_timer. simpl. rewrite timers_set. simpl. by rewrite lookup_insert_ne. Qed.

(** The timers of an event, one after the other. *)
Definition all_of (f : string -> W -> W) (ts : list string) (w : W) : W := foldl (fun w t => f t w) w ts.

Lemma call_timers event callback f cs : forall ts g,
  (forall c, c ∈ cs -> registered On_event c.1 g = true) -> cs.*2 = callback <$> ts ->
  (forall t, invoke (callback t) event None = update_world (f t)) ->
  call_all On_event event None cs g = Done [] (set_world (all_of f ts (g_world g)) g).
Proof.
  unfold call_all. induction cs as [|c cs IH]; intros ts g Hreg Hcs Hf; destruct ts as [|t ts]; try done.
  { simpl. unfold mret, M_ret. by destruct g. }
  simpl in Hcs. injection Hcs as Hc Hcs. cbn [iter]. unfold mbind at 1, M_bind at 1, catch at 1. unfold mbind at 1, M_bind at 1.
  unfold call, gets. unfold mbind at 1, M_bind at 1. rewrite (Hreg c (list_elem_of_here _ _)). cbn [assert]. unfold mbind at 1, M_bind at 1, mret at 1, M_ret at 1.
  rewrite Hc, Hf. unfold update_world at 1, modify. unfold mret at 1, M_ret at 1. rewrite (IH ts); [done| |done|done].
  intros c' Hc'. apply Hreg. by apply list_elem_of_further.
Qed.

Lemma notify_timers event callback f ts g :
  only_calls event callback ts g -> (forall t, invoke (callback t) event None = update_world (f t)) ->
  notify_event event g = Done tt (set_world (all_of f ts (g_world g)) g).
Proof.
  intros Hc Hf. unfold notify_event, notify_named, registry, gets, mbind, M_bind.
  rewrite (call_timers event callback f (gather event (m_callbacks g On_event)) ts g); [done| |done|done]. intros c. apply gather_registered.
Qed.

(** The effect of the two events on a timer. *)
Lemma started_info timer g :
  timer_info timer (set_world (started timer (g_world g)) g) =
  match start_time (timer_info timer g) with
  | Some _ => timer_info timer g
  | None => mkTimerInfo (accumulated_time (timer_info timer g)) (Some (now (g_world g)))
  end.
Proof. unfold started. fold (timer_info timer g). destruct (start_time _); apply set_timer_same. Qed.

Lemma stopped_info timer g :
  timer_info timer (set_world (stopped timer (g_world g)) g) =
  match start_time (timer_info timer g) with
  | Some start => mkTimerInfo (double_add (accumulated_time (timer_info timer g)) (seconds (now (g_world g) - start))) None
  | None => timer_info timer g
  end.
Proof.
  unfold stopped. destruct (m_timers (timers_of (g_world g)) !! timer) as [[total [start|]]|] eqn:Ht.
  - rewrite set_timer_same. unfold timer_info. by rewrite Ht.
  - unfold timer_info. simpl. by rewrite Ht.
  - unfold timer_info. simpl. by rewrite Ht.
Qed.

(** A timer that is not the one of the event, and the clock. *)
Lemma started_other timer t g : timer <> t -> timer_info timer (set_world (started t (g_world g)) g) = timer_info timer g.
Proof. intros Hne. unfold started. destruct (start_time _); by apply set_timer_other. Qed.

Lemma stopped_other timer t g : timer <> t -> timer_info timer (set_world (stopped t (g_world g)) g) = timer_info timer g.
Proof. intros Hne. unfold stopped. destruct (_ !! t) as [[total [start|]]|]; [by apply set_timer_other|done..]. Qed.

Lemma now_started t w : now (started t w) = now w.
Proof. unfold started. destruct (start_time _); apply now_set. Qed.

Lemma now_stopped t w : now (stopped t w) = now w.
Proof. unfold stopped. destruct (_ !! t) as [[total [start|]]|]; [apply now_set|done..]. Qed.

(** The events start and stop each of their timers once, however often it is named. *)
Lemma started_all_info timer ts : forall g, timer ∈ ts ->
  timer_info timer (set_world (all_of started ts (g_world g)) g) = timer_info timer (set_world (started timer (g_world g)) g).
Proof.
  assert (Hrun : forall ts g, is_Some (start_time (timer_info timer g)) -> timer_info timer (set_world (all_of started ts (g_world g)) g) = timer_info timer g).
  { clear ts. induction ts as [|t ts IH]; intros g Hr; [by destruct g|].
    assert (Hsame : timer_info timer (set_world (started t (g_world g)) g) = timer_info timer g).
    { destruct (decide (timer = t)) as [<-|Hne]; [|by apply started_other]. rewrite started_info. by destruct Hr as [z ->]. }
    specialize (IH (set_world (started t (g_world g)) g)). rewrite Hsame in IH. exact (IH Hr). }
  induction ts as [|t ts IH]; intros g Hin; [by apply not_elem_of_nil in Hin|].
  destruct (decide (timer = t)) as [<-|Hne].
  - apply (Hrun ts (set_world (started timer (g_world g)) g)). rewrite started_info. destruct (start_time (timer_info timer g)) eqn:Hs; [by rewrite Hs; eexists|by eexists].
  - apply elem_of_cons in Hin as [?|Hin]; [done|]. etrans; [exact (IH (set_world (started t (g_world g)) g) Hin)|].
    rewrite !started_info, started_other by done. simpl. by rewrite now_started.
Qed.

Lemma stopped_all_info timer ts : forall g, timer ∈ ts ->
  timer_info timer (set_world (all_of stopped ts (g_world g)) g) = timer_info timer (set_world (stopped timer (g_world g)) g).
Proof.
  assert (Hidle : forall ts g, start_time (timer_info timer g) = None -> timer_info timer (set_world (all_of stopped ts (g_world g)) g) = timer_info timer g).
  { clear ts. induction ts as [|t ts IH]; intros g Hr; [by destruct g|].
    assert (Hsame : timer_info timer (set_world (stopped t (g_world g)) g) = timer_info timer g).
    { destruct (decide (timer = t)) as [<-|Hne]; [|by apply stopped_other]. by rewrite stopped_info, Hr. }
    specialize (IH (set_world (stopped t (g_world g)) g)). rewrite Hsame in IH. exact (IH Hr). }
  induction ts as [|t ts IH]; intros g Hin; [by apply not_elem_of_nil in Hin|].
  destruct (decide (timer = t)) as [<-|Hne].
  - apply (Hidle ts (set_world (stopped timer (g_world g)) g)). rewrite stopped_info. by destruct (start_time (timer_info timer g)) eqn:Hs.
  - apply elem_of_cons in Hin as [?|Hin]; [done|]. etrans; [exact (IH (set_world (stopped t (g_world g)) g) Hin)|].
    rewrite !stopped_info, stopped_other by done. simpl. by rewrite now_stopped.
Qed.

(** A block in which the events of the timers [ts] are those of a plugin's timed
    block: nothing else listens to them. *)
Record timed_by (plugin_name : string) (ts : list string) g g2 : Prop := {
  tb_start : only_calls (plugin_name +:+ "_start_timer") on_start ts g;
  tb_stop : only_calls (plugin_name +:+ "_stop_timer") on_stop ts g2
}.

Definition starting (ts : list string) g : global W := set_world (all_of started ts (g_world g)) g.
Definition stopping (ts : list string) g : global W := set_world (all_of stopped ts (g_world g)) g.

Lemma timed_runs {A} plugin_name ts (m : M (global W) A) g g2 :
  timed_by plugin_name ts g g2 -> final (m (starting ts g)) = Some g2 -> final (timed plugin_name m g) = Some (stopping ts g2).
Proof.
  intros [Hs He] Hm. unfold timed. unfold mbind at 1, M_bind at 1.
  rewrite (notify_timers _ on_start started ts g Hs) by (intros t; apply start_lambda). unfold finally. fold (starting ts g).
  destruct (m _) as [a g'|e g'|]; [| |done]; simpl in Hm; injection Hm as ->;
    by rewrite (notify_timers _ on_stop stopped ts g2 He) by (intros t; apply stop_lambda).
Qed.

(** C30: a timer that is set on the blocks a plugin times and does not run
    accumulates, when such a block runs and does not touch the timer, the time between
    its beginning and its end, whether the block returns or throws, and does not run
    afterwards.  Any number of timers may be set on these blocks; nothing else
    listens to their events.  (A block that times itself again touches the timer.) *)
Theorem timed_block_is_measured {A} plugin_name ts timer (m : M (global W) A) g g2 :
  timed_by plugin_name ts g g2 -> timer ∈ ts -> start_time (timer_info timer g) = None ->
  final (m (starting ts g)) = Some g2 -> timer_info timer g2 = timer_info timer (starting ts g) ->
  exists g', final (timed plugin_name m g) = Some g' /\
    timer_info timer g' = mkTimerInfo (double_add (accumulated_time (timer_info timer g)) (seconds (now (g_world g2) - now (g_world g)))) None.
Proof.
  intros Hby Hin Hidle Hm Hkeep. eexists. split; [by apply (timed_runs plugin_name ts)|].
  unfold stopping. rewrite stopped_all_info, stopped_info, Hkeep by done. unfold starting. by rewrite started_all_info, started_info, Hidle.
Qed.

(** When such a block runs inside another one of the same plugin, the
    start of the inner block is ignored and its end stops the timer: the time
    between the end of the inner block and that of the outer one is not measured,
    and the end of the outer block changes nothing. *)
Theorem nested_blocks_lose_time {A B} plugin_name ts timer (inner : M (global W) A) (rest : M (global W) B) g g2 g3 :
  let g1 := starting ts g in
  let g2' := stopping ts g2 in
  timed_by plugin_name ts g g3 -> timed_by plugin_name ts g1 g2 -> timer ∈ ts -> start_time (timer_info timer g) = None ->
  (exists a, inner (starting ts g1) = Done a g2) ->
  timer_info timer g2 = timer_info timer (starting ts g1) ->
  final (rest g2') = Some g3 -> timer_info timer g3 = timer_info timer g2' ->
  exists g', final (timed plugin_name (timed plugin_name inner;; rest) g) = Some g' /\
    timer_info timer g' = mkTimerInfo (double_add (accumulated_time (timer_info timer g)) (seconds (now (g_world g2) - now (g_world g)))) None.
Proof.
  intros g1 g2' Hout Hin Hts Hidle [a Ha] Hkeep Hrest Hkeep'.
  assert (Hinner : timed plugin_name inner g1 = Done a g2').
  { unfold timed. unfold mbind at 1, M_bind at 1. rewrite (notify_timers _ on_start started ts g1 (tb_start _ _ _ _ Hin)) by (intros t; apply start_lambda).
    unfold finally. fold (starting ts g1). rewrite Ha. by rewrite (notify_timers _ on_stop stopped ts g2 (tb_stop _ _ _ _ Hin)) by (intros t; apply stop_lambda). }
  assert (Hbody : final ((timed plugin_name inner;; rest) (starting ts g)) = Some g3).
  { unfold mbind, M_bind. fold g1. by rewrite Hinner. }
  assert (Hone : timer_info timer g1 = mkTimerInfo (accumulated_time (timer_info timer g)) (Some (now (g_world g)))).
  { unfold g1, starting. by rewrite started_all_info, started_info, Hidle. }
  eexists. split; [by apply (timed_runs plugin_name ts _ g g3)|].
  unfold stopping. rewrite stopped_all_info, stopped_info, Hkeep' by done. unfold g2', stopping. rewrite stopped_all_info, stopped_info, Hkeep by done.
  unfold starting. rewrite started_all_info, started_info, Hone by done. done.
Qed.

End measure.

(** * A run *)

(** The plugin, a clock and what was logged. *)
Record workshop := mkWorkshop { w_timers : timer_plugin; w_clock : Z; w_log : list string }.

(** Seconds of a clock in seconds. *)
#[local] Instance workshop_host : TimerHost workshop := {|
  timers_of := w_timers;
  set_timers := fun s w => mkWorkshop s (w_clock w) (w_log w);
  now := w_clock;
  seconds := float_of_Z true;
  on_start := fun timer => Z.pos (encode timer);
  on_stop := fun timer => Z.neg (encode timer);
  timer_traversal := map_to_list;
  shortest := print_double;
  line := fun name total => name +:+ "," +:+ print_double total;
  open_append := fun _ _ => true;
  flock_ex := fun _ _ => true;
  append_file := fun path text w => mkWorkshop (w_timers w) (w_clock w) (w_log w ++ [path +:+ ": " +:+ text]);
  log_info := fun text w => mkWorkshop (w_timers w) (w_clock w) (w_log w ++ [text]);
  timers_set := fun _ _ => eq_refl;
  now_set := fun _ _ => eq_refl
|}.

Definition timer_callbacks (callback : Z) (event : string) (arg : option nat) : M (global workshop) unit :=
  match callback with
  | Z0 => lift Crash
  | Zpos p => match decode p with Some timer => update_world (started timer) | None => lift Crash end
  | Zneg p => match decode p with Some timer => update_world (stopped timer) | None => lift Crash end
  end.

#[local] Instance workshop_platform : Platform workshop := runtime_platform (Runtime := runtime_with odd_allocator timer_callbacks).

#[local] Instance workshop_lambdas : TimerLambdas workshop.
Proof.
  split; intros timer event.
  - change (timer_callbacks (Z.pos (encode timer)) event None = startTimer timer). unfold timer_callbacks. by rewrite decode_encode.
  - change (timer_callbacks (Z.neg (encode timer)) event None = stopTimer timer). unfold timer_callbacks. by rewrite decode_encode.
Defined.

(** The timers [io] and [all] are set on the blocks of the JSON plugin. *)
Definition timer_config : PC_tree := tree_of (sequence_of [one_pair "io" (scalar_tree "json"); one_pair "all" (scalar_tree "json")]).

Definition workshop_start : global workshop :=
  mkGlobal empty_store ∅ ∅ ∅ (fun _ => mkRegistry [] []) 0 (mkWorkshop (mkTimers ∅ "") 0 []).

Definition workshop_g : global workshop := match make_timers timer_config workshop_start with Done _ g => g | _ => workshop_start end.

(** Time passes. *)
Definition spend (t : Z) : M (global workshop) unit := update_world (fun w => mkWorkshop (w_timers w) (w_clock w + t) (w_log w)).

(** Two blocks of 2 and 3 seconds, then one of 4 seconds inside one of 10. *)
Example timer_run :
  match (timed "json" (spend 2);; spend 7;; timed "json" (spend 3);; output_timer;;
         timed "json" (spend 1;; timed "json" (spend 4);; spend 5);; output_timer) workshop_g with
  | Done _ g => w_log (g_world g)
  | _ => []
  end = ["Total time spent for io : 5 seconds"; "Total time spent for all : 5 seconds";
         "Total time spent for io : 10 seconds"; "Total time spent for all : 10 seconds"].
Proof. vm_compute. reflexivity. Qed.

Definition spent (t : Z) (g : global workshop) : global workshop := match spend t g with Done _ g => g | _ => g end.
Definition both : list string := ["io"; "all"].

Lemma workshop_calls (g g2 : global workshop) :
  m_callbacks g = m_callbacks workshop_g -> m_callbacks g2 = m_callbacks workshop_g -> timed_by "json" both g g2.
Proof. intros Hg Hg2. split; unfold only_calls; rewrite ?Hg, ?Hg2; by vm_compute. Defined.

Lemma timed_block_is_measured_witness :
  exists g', final (timed "json" (spend 2) workshop_g) = Some g' /\
    timer_info "all" g' = mkTimerInfo (double_add (S754_zero false) (float_of_Z true 2)) None.
Proof.
  destruct (timed_block_is_measured "json" both "all" (spend 2) workshop_g (spent 2 (starting both workshop_g))) as (g' & Hrun & Hinfo);
    [by apply workshop_calls|apply list_elem_of_further, list_elem_of_here|by vm_compute..|]. exists g'. split; [exact Hrun|]. rewrite Hinfo. by vm_compute.
Defined.

Lemma nested_blocks_lose_time_witness :
  exists g', final (timed "json" (timed "json" (spend 4);; spend 5) workshop_g) = Some g' /\
    timer_info "io" g' = mkTimerInfo (double_add (S754_zero false) (float_of_Z true 4)) None.
Proof.
  destruct (nested_blocks_lose_time "json" both "io" (spend 4) (spend 5) workshop_g (spent 4 (starting both (starting both workshop_g)))
              (spent 5 (stopping both (spent 4 (starting both (starting both workshop_g)))))) as (g' & Hrun & Hinfo);
    [by apply workshop_calls|by apply workshop_calls|apply list_elem_of_here|by vm_compute|by eexists|by vm_compute..|].
  exists g'. split; [exact Hrun|]. rewrite Hinfo. by vm_compute.
Defined.
