(* ===== verification/EffectEq.v ===== *)
(** Operations that do the same in every state, and the operations of the monad as
    morphisms for that equivalence. *)

From S2P Require Import Prelude Error Effect.
From Stdlib Require Import Setoid Morphisms.

Definition same {S A} (m m' : M S A) : Prop := forall s, m s = m' s.

#[export] Instance same_equivalence S A : Equivalence (@same S A).
Proof. split; [by intros m s|by intros m m' H s|intros m1 m2 m3 H1 H2 s; by rewrite H1]. Qed.

#[export] Instance bind_proper S A B : Proper (pointwise_relation A same ==> same ==> same) (@mbind (M S) _ A B).
Proof. intros f f' Hf m m' Hm s. unfold mbind, M_bind. rewrite Hm. destruct (m' s); [apply Hf|done..]. Qed.

#[export] Instance catch_proper S A : Proper (same ==> pointwise_relation exn same ==> same) (@catch S A).
Proof. intros m m' Hm h h' Hh s. unfold catch. rewrite Hm. destruct (m' s); [done|apply Hh|done]. Qed.

#[export] Instance finally_proper S A : Proper (same ==> same ==> same) (@finally S A).
Proof. intros m m' Hm d d' Hd s. unfold finally. rewrite Hm. destruct (m' s); [by rewrite Hd..|done]. Qed.

#[export] Instance iter_proper S A B : Proper (pointwise_relation A (pointwise_relation B same) ==> eq ==> eq ==> same) (@iter S A B).
Proof.
  intros f f' Hf l _ <- b _ <-. revert b. induction l as [|x l IH]; intros b; [done|].
  cbn [iter]. apply bind_proper; [intros b'; apply IH|apply Hf].
Qed.

(** What follows an operation only runs on what it returns. *)
Lemma bind_same {S A B} (m m' : M S A) (f f' : A -> M S B) s :
  m s = m' s -> (forall a s1, m' s = Done a s1 -> f a s1 = f' a s1) -> (m ≫= f) s = (m' ≫= f') s.
Proof. intros Hm Hf. unfold mbind, M_bind. rewrite Hm. destruct (m' s); [by apply Hf|done..]. Qed.

Lemma finally_same {S A} (m m' : M S A) (d : M S unit) s : m s = m' s -> finally m d s = finally m' d s.
Proof. intros Hm. unfold finally. by rewrite Hm. Qed.

Lemma bind_Done {S A B} (m : M S A) (f : A -> M S B) s b s' :
  (m ≫= f) s = Done b s' -> exists a s1, m s = Done a s1 /\ f a s1 = Done b s'.
Proof. unfold mbind, M_bind. destruct (m s) as [a s1|e s1|]; [|done..]. by exists a, s1. Qed.
