(* ===== verification/Hdf5.v ===== *)
(** The Decl'HDF5 plugin, first part: the HDF5 library as an interface, the types
    and dataspaces of the data ([plugins/decl_hdf5/hdf5_wrapper.cxx]), selections
    ([selection.cxx]) and collision policies ([collision_policy.cxx]).

    The plugin is built for an HDF5 library that is not parallel.  Objects of the
    library that are only values (dataspaces, types, property lists) are values
    here; closing them has no effect. *)

From S2P Require Import Prelude Error Effect ExprSyntax Datatype Layout Memory DenseCopy Access Ref RefInv RefOps RefTheorems RefCopy Numeric Parse Yaml Template GlobalContext Eval SetValue UserCode.
From Stdlib Require Import Ascii.

(** * The HDF5 library *)

Inductive native_type :=
  | H5T_NATIVE_UINT (bytes : Z)
  | H5T_NATIVE_INT (bytes : Z)
  | H5T_NATIVE_FLOAT | H5T_NATIVE_DOUBLE | H5T_NATIVE_LDOUBLE.

Inductive plist_class := H5P_DATASET_XFER | H5P_DATASET_CREATE | H5P_LINK_CREATE | H5P_FILE_ACCESS.

(** The functions that the plugin calls.  A failure, a negative result, is [None]
    or [false]; a dataspace is simple or scalar, and its selection is a block. *)
Class Hdf5 (W : Type) := {
  hspace : Type;
  htype : Type;
  hplist : Type;
  hfile : Type;
  hset : Type;
  hgroup : Type;
  hattr : Type;
  (** types *)
  H5T_native : native_type -> htype;
  H5Tcreate_compound : Z -> htype;
  H5Tinsert : htype -> string -> Z -> htype -> htype;
  H5Tarray_create2 : htype -> list Z -> htype;
  (** dataspaces: dimensions, the start and the end of the selection *)
  H5Screate_simple : list Z -> option hspace;
  H5Screate_scalar : option hspace;
  H5Sselect_hyperslab : hspace -> list Z -> list Z -> option hspace;
  H5Sget_simple_extent_dims : hspace -> option (list Z);
  H5Sget_select_bounds : hspace -> option (list Z * list Z);
  H5Sget_select_npoints : hspace -> option Z;
  H5Sis_simple : hspace -> bool;
  (** property lists; [None] stands for an invalid one *)
  H5Pcreate : plist_class -> option hplist;
  H5Pset_chunk : option hplist -> list Z -> option hplist;
  H5Pset_deflate : option hplist -> Z -> option hplist;
  H5Pset_fletcher32 : option hplist -> option hplist;
  H5Pset_create_intermediate_group : hplist -> option hplist;
  (** the descriptions of the errors on the stack of the library *)
  H5Ewalk2 : global W -> list string;
  (** files; [read_write] and [truncate] are the flags *)
  H5Fopen : string -> forall read_write : bool, hplist -> M (global W) (option hfile);
  H5Fcreate : string -> forall truncate : bool, hplist -> M (global W) (option hfile);
  H5Fclose : hfile -> M (global W) unit;
  H5Ldelete : hfile -> string -> M (global W) bool;
  (** datasets; data is at an address *)
  H5Dopen2 : hfile -> string -> M (global W) (option hset);
  H5Dcreate2 : hfile -> string -> htype -> hspace -> hplist -> hplist -> M (global W) (option hset);
  H5Dclose : hset -> M (global W) unit;
  H5Dget_space : hset -> M (global W) (option hspace);
  H5Dread : hset -> htype -> hspace -> hspace -> hplist -> Z -> M (global W) bool;
  H5Dwrite : hset -> htype -> hspace -> hspace -> hplist -> Z -> M (global W) bool;
  (** attributes of a group or of a dataset *)
  H5Gopen : hfile -> string -> M (global W) (option hgroup);
  H5Gclose : hgroup -> M (global W) unit;
  H5Aopen : hgroup + hset -> string -> M (global W) (option hattr);
  H5Acreate : hgroup + hset -> string -> htype -> hspace -> M (global W) (option hattr);
  H5Aclose : hattr -> M (global W) unit;
  H5Awrite : hattr -> htype -> Z -> M (global W) bool;
  H5Aread : hattr -> htype -> Z -> M (global W) bool
}.

(** [std::toupper] *)
Definition toupper (c : ascii) : ascii :=
  let n := nat_of_ascii c in if ((97 <=? n) && (n <=? 122))%nat then ascii_of_nat (n - 32) else c.

(** * Collision policies *)

Abbreviation Collision_policy := Z (only parsing).

Definition WARNING : Collision_policy := 1.
Definition SKIP : Collision_policy := 2.
Definition REPLACE : Collision_policy := 4.
Definition WRITE_INTO : Collision_policy := 8.
Definition ERROR : Collision_policy := 16.

(** [operator&] *)
Definition policy_has (a b : Collision_policy) : bool := negb (Z.land a b =? 0).

Fixpoint string_map (f : ascii -> ascii) (s : string) : string :=
  match s with EmptyString => EmptyString | String c s => String (f c) (string_map f s) end.

Definition to_collision_policy (collision_policy : string) : outcome Collision_policy :=
  let collision_policy := string_map toupper collision_policy in
  if bool_decide (collision_policy = "SKIP") then Ret SKIP
  else if bool_decide (collision_policy = "SKIP_AND_WARN") then Ret (Z.lor SKIP WARNING)
  else if bool_decide (collision_policy = "REPLACE") then Ret REPLACE
  else if bool_decide (collision_policy = "REPLACE_AND_WARN") then Ret (Z.lor REPLACE WARNING)
  else if bool_decide (collision_policy = "WRITE_INTO") then Ret WRITE_INTO
  else if bool_decide (collision_policy = "WRITE_INTO_AND_WARN") then Ret (Z.lor WRITE_INTO WARNING)
  else if bool_decide (collision_policy = "ERROR") then Ret ERROR
  else Throw (Value_error ("Unknown collision policy: " +:+ collision_policy)).

(** * The configuration of selections *)

(** [m_selection_tree] is the error tree of a default selection. *)
Record Selection := mkSelection {
  m_selection_tree : PC_tree;
  m_size : list Impl;
  m_start : list Impl
}.

Definition no_tree : PC_tree := tree_error "" (YScalar no_region "").

Definition no_selection : Selection := mkSelection no_tree [] [].

(** The list of the expressions of a scalar or of a sequence. *)
Definition expressions (value : PC_tree) (l : list Impl) : outcome (list Impl) :=
  opt_each value (fun t l => s ← Yaml.to_string t; e ← parse_expression s; Ret (l ++ [e])) l.

(** [Selection::Selection] *)
Definition make_selection (tree : PC_tree) : outcome Selection :=
  each_pair tree (fun key_tree value sel =>
    key ← Yaml.to_string key_tree;
    if bool_decide (key = "size") then l ← expressions value (m_size sel); Ret (mkSelection tree l (m_start sel))
    else if bool_decide (key = "start") then l ← expressions value (m_start sel); Ret (mkSelection tree (m_size sel) l)
    else spectree_error key_tree ("Invalid configuration key in selection: `" +:+ key +:+ "'")) (mkSelection tree [] []).

Section hdf5.
  Context {W : Type} {RT : Runtime W} {H5 : Hdf5 W}.

Abbreviation G := (M (global W)).

(** * Errors *)

(** The text that [raii_walker] collects. *)
Definition walked (descs : list string) : string :=
  match descs with
  | [] => ""
  | d :: descs => foldl (fun result desc => result +:+ newline +:+ " * " +:+ desc) d descs
  end.

Definition handle_hdf5_err {A} (message : string) : G A := fun g =>
  let h5_errmsg := walked (H5Ewalk2 g) in
  Thrown (System_error (message +:+ " " +:+ (if bool_decide (h5_errmsg = "") then "HDF5 error" else h5_errmsg))) g.

(** [make_raii_hid], and the tests of results. *)
Definition checked {A} (value : option A) (message : string) : G A :=
  match value with Some x => mret x | None => handle_hdf5_err message end.

Definition check (ok : bool) (message : string) : G unit := if ok then mret tt else handle_hdf5_err message.

(** * Types *)

(** [get_h5_type], with the dimensions of the arrays that were entered. *)
Fixpoint h5_type_in (dims : list Z) (t : Datatype) : outcome htype :=
  let in_dims (base : htype) := match dims with [] => base | _ => H5Tarray_create2 base dims end in
  match t with
  | Record_datatype _ ms b =>
      h ← (fix insert ms h :=
             match ms with
             | [] => Ret h
             | m :: ms => mt ← h5_type_in [] (member_type m); insert ms (H5Tinsert h (member_name m) (member_displacement m) mt)
             end) ms (H5Tcreate_compound b);
      Ret (in_dims h)
  | Array_datatype _ sub size _ _ => h5_type_in (dims ++ [size]) sub
  | Scalar_datatype _ k _ _ _ _ _ =>
      let size := datasize t in
      match k with
      | UNSIGNED =>
          if bool_decide (size ∈ [1; 2; 4; 8]) then Ret (in_dims (H5T_native (H5T_NATIVE_UINT size)))
          else Throw (Type_error ("Invalid size for HDF5 signed: #" +:+ pretty size))
      | SIGNED =>
          if bool_decide (size ∈ [1; 2; 4; 8]) then Ret (in_dims (H5T_native (H5T_NATIVE_INT size)))
          else Throw (Type_error ("Invalid size for HDF5 unsigned: #" +:+ pretty size))
      | FLOAT =>
          if size =? 4 then Ret (in_dims (H5T_native H5T_NATIVE_FLOAT))
          else if size =? 8 then Ret (in_dims (H5T_native H5T_NATIVE_DOUBLE))
          else if size =? 16 then Ret (in_dims (H5T_native H5T_NATIVE_LDOUBLE))
          else Throw (Type_error ("Invalid size for HDF5 float: #" +:+ pretty size))
      | UNKNOWN => Throw (Type_error "Invalid type for HDF5: #0")
      end
  | Tuple_datatype _ _ _ | Pointer_datatype _ _ _ _ => Throw (Impl_error "Unexpected type in HDF5")
  end.

Definition get_h5_type (t : Datatype) : outcome htype := h5_type_in [] t.

(** * Dataspaces *)

(** The loop over the nested arrays: the sizes, the starts and the counts of the
    selection, and the type of the elements. *)
Fixpoint array_extent (is_dense : bool) (t : Datatype) : list Z * list Z * list Z * Datatype :=
  match t with
  | Array_datatype _ sub size start subsize =>
      let '(h5_size, h5_start, h5_subsize, elt) := array_extent is_dense sub in
      if is_dense then (subsize :: h5_size, 0 :: h5_start, subsize :: h5_subsize, elt)
      else (size :: h5_size, start :: h5_start, subsize :: h5_subsize, elt)
  | _ => ([], [], [], t)
  end.

Definition only_top_sparse {A} : G A :=
  throw (Type_error "The top array datatype is the only one that can be sparse in dataset").

Definition space (t : Datatype) (is_dense : bool) : G (hspace * htype) :=
  match t with
  | Array_datatype _ _ _ _ _ =>
      let '(h5_size, h5_start, h5_subsize, elt) := array_extent is_dense t in
      d ← lift (dense elt);
      if negb d then only_top_sparse
      else
        h5_space ← checked (H5Screate_simple h5_size) "";
        h5_space ← checked (H5Sselect_hyperslab h5_space h5_start h5_subsize) "";
        h5_type ← lift (get_h5_type elt);
        mret (h5_space, h5_type)
  | _ =>
      d ← lift (dense t);
      if negb d then only_top_sparse
      else
        h5_space ← checked H5Screate_scalar "";
        h5_type ← lift (get_h5_type t);
        mret (h5_space, h5_type)
  end.

(** * Selections *)

Definition get_rank (s : hspace) : G Z := dims ← checked (H5Sget_simple_extent_dims s) ""; mret (vsize dims).

(** The lambda [end - start + 1] on every dimension. *)
Definition extents (starts ends : list Z) : list Z := zip_with (fun start e => e -s start +s 1) starts ends.

(** The value of an expression as an [hsize_t]. *)
Definition to_hsize (e : Impl) : G Z := v ← expr_to_long e; mret (size_of_long v).

(** The shape of the selection when the configuration has no size. *)
Definition default_shape (sel : Selection) (h5_space : hspace) (rank : Z) (h5_subsize : list Z) (dflt_space : option hspace) : G (list Z) :=
  match dflt_space with
  | None => mret h5_subsize
  | Some dflt =>
      match H5Sget_simple_extent_dims dflt with
      | Some dims =>
          if vsize dims =? rank then
            b ← checked (H5Sget_select_bounds dflt) ""; mret (extents b.1 b.2)
          else if bool_decide (H5Sget_select_npoints h5_space = H5Sget_select_npoints dflt) then mret h5_subsize
          else lift (spectree_error (m_selection_tree sel) ("Invalid default selection: " +:+ pretty (vsize dims) +:+ " selection in " +:+ pretty rank +:+ " array"))
      | None =>
          if bool_decide (H5Sget_select_npoints h5_space = H5Sget_select_npoints dflt) then mret h5_subsize
          else lift (spectree_error (m_selection_tree sel) ("Invalid default selection: -1 selection in " +:+ pretty rank +:+ " array"))
      end
  end.

(** [Selection::apply]: the space with its new selection. *)
Definition apply (sel : Selection) (h5_space : hspace) (dflt_space : option hspace) : G hspace :=
  rank ← get_rank h5_space;
  if rank =? 0 then mret h5_space
  else
    b ← checked (H5Sget_select_bounds h5_space) "";
    let h5_start := b.1 in
    let h5_subsize := extents b.1 b.2 in
    h5_subsize ← (match m_size sel with
                  | [] => default_shape sel h5_space rank h5_subsize dflt_space
                  | _ =>
                      if negb (vsize (m_size sel) =? rank) then
                        lift (spectree_error (get_key (m_selection_tree sel) "size")
                          ("Invalid selection: " +:+ pretty (vsize (m_size sel)) +:+ " selection in " +:+ pretty rank +:+ " array"))
                      else iter (fun e l => v ← to_hsize e; mret (l ++ [v])) (m_size sel) []
                  end);
    h5_start ← (match m_start sel with
                | [] => mret h5_start
                | _ =>
                    if negb (vsize (m_start sel) =? rank) then
                      lift (spectree_error (get_key (m_selection_tree sel) "start")
                        ("Invalid selection: " +:+ pretty (vsize (m_size sel)) +:+ " start in " +:+ pretty rank +:+ " array"))
                    else
                      offsets ← iter (fun e l => v ← to_hsize e; mret (l ++ [v])) (m_start sel) [];
                      mret (zip_with size_add h5_start offsets)
                end);
    checked (H5Sselect_hyperslab h5_space h5_start h5_subsize) "".

End hdf5.
