(* ===== verification/Hdf5Ops.v ===== *)
(** The Decl'HDF5 plugin, second part: the operations on attributes
    ([attribute_op.cxx]), datasets ([dataset_op.cxx]) and files ([file_op.cxx]),
    their configuration, and the callbacks ([decl_hdf5.cxx]). *)

From S2P Require Import Prelude Error Effect ExprSyntax Datatype Layout Memory DenseCopy Access Ref RefInv RefOps RefTheorems RefCopy Numeric Parse Yaml Template GlobalContext Eval SetValue UserCode Hdf5.
From Stdlib Require Import Ascii.

Inductive Direction := READ | WRITE.

#[export] Instance Direction_eq_dec : EqDecision Direction.
Proof. solve_decision. Defined.

(** * Configuration *)

(** [m_object_path] has no value until a key gives one. *)
Record Attribute_op := mkAttribute {
  a_desc : string;
  a_direction : Direction;
  a_name : string;
  a_object_path : option Impl;
  a_value : Impl;
  a_when : Impl
}.

(** [s.find('#')] and the parts before and after. *)
Fixpoint split_at_hash (s : string) : option (string * string) :=
  match s with
  | EmptyString => None
  | String c s =>
      if bool_decide (c = "#"%char) then Some (EmptyString, s)
      else match split_at_hash s with Some (a, b) => Some (String c a, b) | None => None end
  end.

(** [Attribute_op(Direction, PC_tree_t, Expression)] *)
Definition attribute_of_path (direction : Direction) (attr_path_tree : PC_tree) (when : Impl) : outcome Attribute_op :=
  attr_path ← Yaml.to_string attr_path_tree;
  match split_at_hash attr_path with
  | None => spectree_error attr_path_tree "Attribute path must contain `#' sign to separate group/dataset from attribute name"
  | Some (path, name) =>
      e ← parse_expression path;
      v ← parse_expression ("$" +:+ name);
      Ret (mkAttribute name direction name (Some e) v when)
  end.

(** [Attribute_op(Direction, const string&, Expression, PC_tree_t)] *)
Definition attribute_of_tree (direction : Direction) (desc : string) (when : Impl) (tree : PC_tree) : outcome Attribute_op :=
  v ← parse_expression ("$" +:+ desc);
  each_pair tree (fun key_tree value a =>
    key ← Yaml.to_string key_tree;
    if bool_decide (key = "attribute") then
      attr_path ← Yaml.to_string value;
      match split_at_hash attr_path with
      | None => e ← parse_expression attr_path; Ret (mkAttribute (a_desc a) (a_direction a) (a_desc a) (Some e) (a_value a) (a_when a))
      | Some (path, name) => e ← parse_expression path; Ret (mkAttribute (a_desc a) (a_direction a) name (Some e) (a_value a) (a_when a))
      end
    else if bool_decide (key = "when") then
      s ← Yaml.to_string value; e ← parse_expression s;
      Ret (mkAttribute (a_desc a) (a_direction a) (a_name a) (a_object_path a) (a_value a) e)
    else spectree_error key_tree ("Unknown key for HDF5 attribute configuration: `" +:+ key +:+ "'"))
    (mkAttribute desc direction "" None v when).

(** [m_chunking], [m_deflate] and [m_fletcher] may be empty expressions. *)
Record Dataset_op := mkDataset {
  d_collision_policy : Collision_policy;
  d_direction : Direction;
  d_dataset : Impl;
  d_value : string;
  d_when : Impl;
  d_memory_selection : Selection;
  d_dataset_selection : Selection;
  d_chunking : option Impl;
  d_deflate : option Impl;
  d_fletcher : option Impl;
  d_attributes : list Attribute_op
}.

(** [Dataset_op(Direction, string, Expression, Collision_policy)] *)
Definition dataset_of_name (dir : Direction) (name : string) (default_when : Impl) (file_collision_policy : Collision_policy) : outcome Dataset_op :=
  e ← parse_expression name;
  Ret (mkDataset file_collision_policy dir e name default_when no_selection no_selection None None None []).

(** One key of the configuration of a dataset. *)
Definition dataset_key (key_tree value : PC_tree) (d : Dataset_op) : outcome Dataset_op :=
  if PC_status value then Ret d
  else
    key ← Yaml.to_string key_tree;
    if bool_decide (key = "dataset") then
      s ← Yaml.to_string value; e ← parse_expression s;
      Ret (mkDataset (d_collision_policy d) (d_direction d) e (d_value d) (d_when d) (d_memory_selection d) (d_dataset_selection d) (d_chunking d) (d_deflate d) (d_fletcher d) (d_attributes d))
    else if bool_decide (key = "when") then
      s ← Yaml.to_string value; e ← parse_expression s;
      Ret (mkDataset (d_collision_policy d) (d_direction d) (d_dataset d) (d_value d) e (d_memory_selection d) (d_dataset_selection d) (d_chunking d) (d_deflate d) (d_fletcher d) (d_attributes d))
    else if bool_decide (key = "communicator") then
      s ← Yaml.to_string value; spectree_error value ("Used HDF5 is not parallel. Invalid communicator: `" +:+ s +:+ "'")
    else if bool_decide (key = "memory_selection") then
      sel ← make_selection value;
      Ret (mkDataset (d_collision_policy d) (d_direction d) (d_dataset d) (d_value d) (d_when d) sel (d_dataset_selection d) (d_chunking d) (d_deflate d) (d_fletcher d) (d_attributes d))
    else if bool_decide (key = "dataset_selection") then
      sel ← make_selection value;
      Ret (mkDataset (d_collision_policy d) (d_direction d) (d_dataset d) (d_value d) (d_when d) (d_memory_selection d) sel (d_chunking d) (d_deflate d) (d_fletcher d) (d_attributes d))
    else if bool_decide (key = "chunking") then
      e ← parse_tree value;
      Ret (mkDataset (d_collision_policy d) (d_direction d) (d_dataset d) (d_value d) (d_when d) (d_memory_selection d) (d_dataset_selection d) (Some e) (d_deflate d) (d_fletcher d) (d_attributes d))
    else if bool_decide (key = "deflate") then
      e ← parse_tree value;
      Ret (mkDataset (d_collision_policy d) (d_direction d) (d_dataset d) (d_value d) (d_when d) (d_memory_selection d) (d_dataset_selection d) (d_chunking d) (Some e) (d_fletcher d) (d_attributes d))
    else if bool_decide (key = "fletcher") then
      e ← parse_tree value;
      Ret (mkDataset (d_collision_policy d) (d_direction d) (d_dataset d) (d_value d) (d_when d) (d_memory_selection d) (d_dataset_selection d) (d_chunking d) (d_deflate d) (Some e) (d_attributes d))
    else if bool_decide (key = "attributes") then Ret d
    else if bool_decide (key = "mpio") then
      s ← Yaml.to_string value;
      if bool_decide (s ∈ ["INDEPENDENT"; "COLLECTIVE"]) then Ret d
      else spectree_error key_tree ("Not valid mpio value: `" +:+ s +:+ "'. Expecting INDEPENDENT or COLLECTIVE.")
    else if bool_decide (key = "collision_policy") then
      s ← Yaml.to_string value; p ← to_collision_policy s;
      Ret (mkDataset p (d_direction d) (d_dataset d) (d_value d) (d_when d) (d_memory_selection d) (d_dataset_selection d) (d_chunking d) (d_deflate d) (d_fletcher d) (d_attributes d))
    else spectree_error key_tree ("Unknown key for HDF5 dataset configuration: `" +:+ key +:+ "'").

(** [Dataset_op(Direction, string, Expression, PC_tree_t, Collision_policy)] *)
Definition dataset_of_tree (dir : Direction) (name : string) (default_when : Impl) (tree : PC_tree) (file_collision_policy : Collision_policy) :
    outcome Dataset_op :=
  d ← dataset_of_name dir name default_when file_collision_policy;
  d ← each_pair tree dataset_key d;
  let attribute_tree := get_key tree "attributes" in
  if PC_status attribute_tree then Ret d
  else
    l ← each_pair attribute_tree (fun attr_key attr_value l =>
          k ← Yaml.to_string attr_key; s ← Yaml.to_string attr_value; e ← parse_expression s;
          Ret (l ++ [mkAttribute "" dir k (Some (d_dataset d)) e (Int_literal 1)])) [];
    Ret (mkDataset (d_collision_policy d) (d_direction d) (d_dataset d) (d_value d) (d_when d) (d_memory_selection d) (d_dataset_selection d) (d_chunking d) (d_deflate d) (d_fletcher d) l).

(** [Dataset_op::deflate] and [Dataset_op::fletcher] *)
Definition with_deflate (level : Impl) (d : Dataset_op) : Dataset_op :=
  mkDataset (d_collision_policy d) (d_direction d) (d_dataset d) (d_value d) (d_when d) (d_memory_selection d) (d_dataset_selection d) (d_chunking d)
    (match d_deflate d with Some e => Some e | None => Some level end) (d_fletcher d) (d_attributes d).
Definition with_fletcher (value : Impl) (d : Dataset_op) : Dataset_op :=
  mkDataset (d_collision_policy d) (d_direction d) (d_dataset d) (d_value d) (d_when d) (d_memory_selection d) (d_dataset_selection d) (d_chunking d)
    (d_deflate d) (match d_fletcher d with Some e => Some e | None => Some value end) (d_attributes d).

(** A regex is known by its text. *)
Record Dataset_explicit_type := mkExplicit {
  e_definition : string;
  e_begin_line : Z;
  e_end_line : Z;
  e_type : Template
}.

Definition get_msg_err_line (e : Dataset_explicit_type) : string :=
  if e_begin_line e =? e_end_line e then " defined in line " +:+ pretty (e_begin_line e + 1)
  else " defined in lines " +:+ pretty (e_begin_line e + 1) +:+ " - " +:+ pretty (e_end_line e).

Record File_op := mkFile {
  f_collision_policy : Collision_policy;
  f_file : Impl;
  f_event : list string;
  f_datasets : list Dataset_explicit_type;
  f_dset_ops : list Dataset_op;
  f_attr_ops : list Attribute_op;
  f_dset_size_ops : list (string * Impl)
}.

(** The dynamic state of the plugin and the rest of its surroundings: regular
    expressions, the order of an [unordered_map], the initialization of HDF5 and
    its error handler. *)
Class Hdf5Host (W : Type) := {
  h5_events : W -> gmap string (list File_op);
  h5_data : W -> gmap string (list File_op);
  set_h5_events : gmap string (list File_op) -> W -> W;
  set_h5_data : gmap string (list File_op) -> W -> W;
  on_h5_data : Z;
  on_h5_event : Z;
  regex_valid : string -> option string;
  regex_match : string -> string -> bool;
  map_order : list (string * Impl) -> list (string * Impl);
  H5open : M (global W) bool;
  H5close : M (global W) bool;
  H5E_install : M (global W) bool;
  H5E_restore : M (global W) bool;
  h5_type_fuel : nat
}.

(** What pass 1 reads: the file, and the values for its datasets. *)
Record File_options := mkOptions {
  o_file : File_op;
  o_deflate : option Impl;
  o_fletcher : option Impl;
  o_when : Impl
}.

Definition set_file (f : File_op) (o : File_options) : File_options := mkOptions f (o_deflate o) (o_fletcher o) (o_when o).

(** [Subfiling::Subfiling], whose result is only used with a parallel library. *)
Definition check_subfiling (sf_tree : PC_tree) : outcome unit :=
  if is_scalar sf_tree then s ← Yaml.to_string sf_tree; parse_expression s;; Ret tt
  else if is_map sf_tree then
    each_pair sf_tree (fun key_tree value _ =>
      key ← Yaml.to_string key_tree;
      if bool_decide (key ∈ ["policy"; "count"; "stripe_size"]) then parse_tree value;; Ret tt
      else spectree_error key_tree ("Invalid configuration key in subfiling: `" +:+ key +:+ "'")) tt
  else spectree_error sf_tree "subfiling node is not parsed correctly".

(** The dataset and attribute operations, and the sizes to read. *)
Record Transfers := mkTransfers {
  t_dsets : list Dataset_op;
  t_attrs : list Attribute_op;
  t_sizes : list (string * Impl)
}.

Definition add_dset (d : Dataset_op) (t : Transfers) : Transfers := mkTransfers (t_dsets t ++ [d]) (t_attrs t) (t_sizes t).
Definition add_attr (a : Attribute_op) (t : Transfers) : Transfers := mkTransfers (t_dsets t) (t_attrs t ++ [a]) (t_sizes t).

(** [unordered_map::emplace] keeps the first value of a key. *)
Definition add_size (name : string) (e : Impl) (t : Transfers) : Transfers :=
  mkTransfers (t_dsets t) (t_attrs t) (Yaml.emplace name e (t_sizes t)).

Section parse.
  Context {W : Type} {RT : Runtime W} {HH : Hdf5Host W}.

Abbreviation G := (M (global W)).

(** [each] and [opt_each] with effects and a state. *)
Definition each_st {S} (t : PC_tree) (f : PC_tree -> S -> G S) (s : S) : G S :=
  n ← lift (len t); iter (fun i => f (get_item t i)) (seq 0 n) s.
Definition opt_each_st {S} (t : PC_tree) (f : PC_tree -> S -> G S) (s : S) : G S :=
  if negb (PC_status (get_item t 0)) then each_st t f s else f t s.
Definition each_pair_st {S} (t : PC_tree) (f : PC_tree -> PC_tree -> S -> G S) (s : S) : G S :=
  n ← lift (len t); iter (fun i => f (get_nth_key t i) (get_nth_value t i)) (seq 0 n) s.

(** The explicit types of datasets; [std::regex] throws when its text is wrong. *)
Definition read_datasets (value : PC_tree) (f : File_op) : G File_op :=
  each_pair_st value (fun dset_name dset_type f =>
    name ← lift (Yaml.to_string dset_name);
    match regex_valid name with
    | Some err => throw (Std_exception err)
    | None =>
        parsers ← gets m_datatype_parsers;
        t ← lift (datatype parsers h5_type_fuel dset_type);
        mret (mkFile (f_collision_policy f) (f_file f) (f_event f)
                (f_datasets f ++ [mkExplicit name (line (m_start_mark (region (pc_node dset_name)))) (line (m_end_mark (region (pc_node dset_type)))) t])
                (f_dset_ops f) (f_attr_ops f) (f_dset_size_ops f))
    end) f.

(** One key of pass 1. *)
Definition file_key (key_tree value : PC_tree) (o : File_options) : G File_options :=
  let f := o_file o in
  key ← lift (Yaml.to_string key_tree);
  if bool_decide (key = "collision_policy") then
    s ← lift (Yaml.to_string value); p ← lift (to_collision_policy s);
    mret (set_file (mkFile p (f_file f) (f_event f) (f_datasets f) (f_dset_ops f) (f_attr_ops f) (f_dset_size_ops f)) o)
  else if bool_decide (key = "on_event") then
    events ← lift (opt_each value (fun t l => s ← Yaml.to_string t; Ret (l ++ [s])) (f_event f));
    mret (set_file (mkFile (f_collision_policy f) (f_file f) events (f_datasets f) (f_dset_ops f) (f_attr_ops f) (f_dset_size_ops f)) o)
  else if bool_decide (key = "when") then
    s ← lift (Yaml.to_string value); e ← lift (parse_expression s); mret (mkOptions f (o_deflate o) (o_fletcher o) e)
  else if bool_decide (key = "communicator") then
    s ← lift (Yaml.to_string value); lift (spectree_error key_tree ("Used HDF5 is not parallel. Invalid communicator: `" +:+ s +:+ "'"))
  else if bool_decide (key = "datasets") then f ← read_datasets value f; mret (set_file f o)
  else if bool_decide (key = "deflate") then e ← lift (parse_tree value); mret (mkOptions f (Some e) (o_fletcher o) (o_when o))
  else if bool_decide (key = "fletcher") then e ← lift (parse_tree value); mret (mkOptions f (o_deflate o) (Some e) (o_when o))
  else if bool_decide (key = "subfiling") then lift (check_subfiling value);; mret o
  else if bool_decide (key ∈ ["file"; "write"; "read"; "logging"]) then mret o
  else lift (spectree_error key_tree ("Unknown key in HDF5 file configuration: `" +:+ key +:+ "'")).

(** Pass 2: the operations that read. *)
Definition read_reads (o : File_options) (read_tree : PC_tree) (t : Transfers) : outcome Transfers :=
  if negb (PC_status (get_item read_tree 0)) then
    each read_tree (fun tree t =>
      s ← Yaml.to_string tree;
      match split_at_hash s with
      | None => d ← dataset_of_name READ s (o_when o) WRITE_INTO; Ret (add_dset d t)
      | Some _ => a ← attribute_of_path READ tree (o_when o); Ret (add_attr a t)
      end) t
  else if negb (PC_status read_tree) then
    each_pair read_tree (fun name config t =>
      opt_each config (fun value t =>
        if negb (PC_status (get_key value "attribute")) then
          n ← Yaml.to_string name; a ← attribute_of_tree READ n (o_when o) value; Ret (add_attr a t)
        else if negb (PC_status (get_key value "size_of")) then
          n ← Yaml.to_string name; s ← Yaml.to_string (get_key value "size_of"); e ← parse_expression s; Ret (add_size n e t)
        else n ← Yaml.to_string name; d ← dataset_of_tree READ n (o_when o) value WRITE_INTO; Ret (add_dset d t)) t) t
  else Ret t.

(** The file level values of a dataset that was just added. *)
Definition with_file_values (o : File_options) (d : Dataset_op) : G Dataset_op :=
  d ← (match o_deflate o with Some e => v ← expr_to_long e; mret (with_deflate (Int_literal v) d) | None => mret d end);
  match o_fletcher o with Some e => v ← expr_to_long e; mret (with_fletcher (Int_literal v) d) | None => mret d end.

(** Pass 2: the operations that write. *)
Definition read_writes (o : File_options) (write_tree : PC_tree) (t : Transfers) : G Transfers :=
  let policy := f_collision_policy (o_file o) in
  if negb (PC_status (get_item write_tree 0)) then
    each_st write_tree (fun tree t =>
      s ← lift (Yaml.to_string tree);
      match split_at_hash s with
      | None => d ← lift (dataset_of_name WRITE s (o_when o) policy); d ← with_file_values o d; mret (add_dset d t)
      | Some _ => a ← lift (attribute_of_path WRITE tree (o_when o)); mret (add_attr a t)
      end) t
  else if negb (PC_status write_tree) then
    each_pair_st write_tree (fun name config t =>
      if negb (PC_status (get_key config "attribute")) then
        opt_each_st config (fun value t =>
          n ← lift (Yaml.to_string name); a ← lift (attribute_of_tree WRITE n (o_when o) value); mret (add_attr a t)) t
      else
        opt_each_st config (fun value t =>
          n ← lift (Yaml.to_string name); d ← lift (dataset_of_tree WRITE n (o_when o) value policy); d ← with_file_values o d;
          mret (add_dset d t)) t) t
  else mret t.

(** The final pass: without events, one operation on the file for each transfer. *)
Definition with_transfers (f : File_op) (t : Transfers) : File_op :=
  mkFile (f_collision_policy f) (f_file f) (f_event f) (f_datasets f) (t_dsets t) (t_attrs t) (t_sizes t).

Definition split_transfers (f : File_op) (t : Transfers) : list File_op :=
  match f_event f with
  | [] =>
      map (fun d => with_transfers f (mkTransfers [d] [] [])) (t_dsets t) ++
      map (fun a => with_transfers f (mkTransfers [] [a] [])) (t_attrs t) ++
      map (fun s => with_transfers f (mkTransfers [] [] [s])) (map_order (t_sizes t))
  | _ => [with_transfers f t]
  end.

(** [File_op::parse] *)
Definition parse_file (tree : PC_tree) : G (list File_op) :=
  s ← lift (Yaml.to_string (get_key tree "file"));
  e ← lift (parse_expression s);
  o ← each_pair_st tree file_key (mkOptions (mkFile WRITE_INTO e [] [] [] [] []) None None (Int_literal 1));
  t ← lift (read_reads o (get_key tree "read") (mkTransfers [] [] []));
  t ← read_writes o (get_key tree "write") t;
  mret (split_transfers (o_file o) t).

End parse.
