(* ===== verification/Hdf5Exec.v ===== *)
(** The Decl'HDF5 plugin, third part: executing the operations on attributes
    ([attribute_op.cxx]), datasets ([dataset_op.cxx]) and files ([file_op.cxx]), and
    the callbacks of the plugin ([decl_hdf5.cxx]). *)

From S2P Require Import Prelude Error Effect ExprSyntax Datatype Layout Memory DenseCopy Access Ref RefInv RefOps RefTheorems RefCopy Numeric Parse Yaml Template GlobalContext Eval SetValue UserCode Hdf5 Hdf5Ops.
From Stdlib Require Import Ascii.

Section exec.
  Context {W : Type} {RT : Runtime W} {H5 : Hdf5 W} {HH : Hdf5Host W}.

Abbreviation G := (M (global W)).

(** A handle that is closed when the block ends. *)
Definition with_handle {X A} (open : G X) (close : X -> G unit) (body : X -> G A) : G A :=
  x ← open; finally (body x) (close x).

(** * Attributes *)

(** The group or the dataset at a path. *)
Definition open_dest (h5_file : hfile) (object_path : string) : G (hgroup + hset) :=
  g ← H5Gopen h5_file object_path;
  match g with
  | Some g => mret (inl g)
  | None =>
      d ← H5Dopen2 h5_file object_path;
      d ← checked d ("Cannot open attribute destination (" +:+ object_path +:+ "): "); mret (inr d)
  end.

Definition close_dest (dest : hgroup + hset) : G unit := match dest with inl g => H5Gclose g | inr d => H5Dclose d end.

(** [m_object_path.to_string(ctx)]; an empty expression has no implementation. *)
Definition object_path_of (a : Attribute_op) : G string :=
  match a_object_path a with Some e => expr_to_string e | None => lift Crash end.

(** [Attribute_op::do_write] *)
Definition attribute_write (a : Attribute_op) (h5_file : hfile) : G unit :=
  with_ref (readable (expr_to_ref (a_value a))) (fun ref =>
    null ← ref_is_null ref;
    if null : bool then mret tt
    else
      path ← object_path_of a;
      with_handle (open_dest h5_file path) close_dest (fun h5_dest =>
        t ← ref_type ref;
        sp ← space t false;
        with_handle (o ← H5Aopen h5_dest (a_name a);
                     match o with
                     | Some h => mret h
                     | None => o ← H5Acreate h5_dest (a_name a) sp.2 sp.1; checked o ("Cannot open nor create " +:+ a_name a +:+ " attribute: ")
                     end) H5Aclose (fun attr_id =>
          p ← ref_get ref;
          ok ← H5Awrite attr_id sp.2 p;
          check ok ("Cannot write " +:+ a_name a +:+ " attribute value: ")))).

(** A [Ref_w] made from a temporary [Ref]. *)
Definition writable (mk : G nat) : G nat := with_ref mk (ref_copy false true).

(** [Attribute_op::do_read] *)
Definition attribute_read (a : Attribute_op) (h5_file : hfile) : G unit :=
  with_ref (writable (expr_to_ref (a_value a))) (fun ref =>
    null ← ref_is_null ref;
    if null : bool then mret tt
    else
      path ← object_path_of a;
      with_handle (open_dest h5_file path) close_dest (fun h5_dest =>
        t ← ref_type ref;
        sp ← space t false;
        with_handle (o ← H5Aopen h5_dest (a_name a); checked o ("Cannot open " +:+ a_name a +:+ " attribute value: ")) H5Aclose (fun attr_id =>
          p ← ref_get ref;
          ok ← H5Aread attr_id sp.2 p;
          check ok ("Cannot read " +:+ a_name a +:+ " attribute value: ")))).

(** [Attribute_op::execute] *)
Definition attribute_execute (h5_file : hfile) (a : Attribute_op) : G unit :=
  match a_direction a with WRITE => attribute_write a h5_file | READ => attribute_read a h5_file end.

(** * Datasets *)

(** [get_selection]: the sizes, the starts and the counts. *)
Definition get_selection (s : hspace) : G (list Z * list Z * list Z) :=
  size ← checked (H5Sget_simple_extent_dims s) "";
  b ← checked (H5Sget_select_bounds s) "";
  mret (size, b.1, extents b.1 b.2).

(** The description of a selection in the message. *)
Definition describe (sel : list Z * list Z * list Z) : string :=
  let '(size, start, subsize) := sel in
  foldr String.append "" (zip_with (fun n p =>
    " (" +:+ pretty p.1 +:+ "-" +:+ pretty (p.1 +s p.2 -s 1) +:+ "/0-" +:+ pretty (n -s 1) +:+ ")") size (zip start subsize)).

Definition validate_dataspaces (selectree : PC_tree) (h5_mem_space h5_file_space : hspace) (dataset_name : string) : G unit :=
  n_data_pts ← checked (H5Sget_select_npoints h5_mem_space) "";
  n_file_pts ← checked (H5Sget_select_npoints h5_file_space) "";
  if n_data_pts =? n_file_pts then mret tt
  else
    mem ← get_selection h5_mem_space;
    file ← get_selection h5_file_space;
    lift (spectree_error selectree ("Incompatible selections while writing `" +:+ dataset_name +:+ "': [" +:+ describe mem +:+ " ] -> [" +:+ describe file +:+ " ]")).

(** [ctx[name].ref()] *)
Definition shared (name : string) : G nat := desc name;; GlobalContext.ref name.

(** [Dataset_op::do_read] *)
Definition dataset_read (d : Dataset_op) (h5_file : hfile) (read_lst : hplist) : G unit :=
  dataset_name ← expr_to_string (d_dataset d);
  with_ref (writable (shared (d_value d))) (fun ref =>
    null ← ref_is_null ref;
    if null : bool then mret tt
    else
      t ← ref_type ref;
      sp ← space t false;
      h5_mem_space ← apply (d_memory_selection d) sp.1 None;
      with_handle (o ← H5Dopen2 h5_file dataset_name; checked o ("Cannot open `" +:+ dataset_name +:+ "' dataset")) H5Dclose (fun h5_set =>
        o ← H5Dget_space h5_set;
        h5_file_space ← checked o ("Cannot inquire `" +:+ dataset_name +:+ "' dataset dataspace");
        h5_file_space ← apply (d_dataset_selection d) h5_file_space (Some h5_mem_space);
        validate_dataspaces (m_selection_tree (d_dataset_selection d)) h5_mem_space h5_file_space dataset_name;;
        p ← ref_get ref;
        ok ← H5Dread h5_set sp.2 h5_mem_space h5_file_space read_lst p;
        check ok "";;
        each_do (attribute_execute h5_file) (d_attributes d))).

(** ** The creation property list *)

(** [catch (const Type_error&)] *)
Definition on_type_error {A} (m : G A) (handler : G A) : G A :=
  catch m (fun e => match e with Error_impl PDI_ERR_TYPE _ => handler | _ => throw e end).

(** An attribute of the type, or else an option of the dataset. *)
Definition from_attribute {A} (dataset_type : Datatype) (name : string) (op : option Impl) (use : Impl -> G A) (none : A) : G A :=
  on_type_error (e ← lift (attribute dataset_type name); use e) (match op with Some e => use e | None => mret none end).

Definition scalar_hsize (r : nat) : G Z := n ← ref_scalar_value (CInt false 8) r; mret (int_value n).

(** The values of a reference to a scalar, an array or a tuple. *)
Definition chunk_sizes (chunking_ref : nat) : G (list Z) :=
  t ← ref_type chunking_ref;
  let elements (n : Z) :=
    iter (fun i sizes => v ← with_part (ref_index i chunking_ref) scalar_hsize; mret (sizes ++ [v])) (seqZ 0 n) [] in
  match t with
  | Scalar_datatype _ _ _ _ _ _ _ => v ← scalar_hsize chunking_ref; mret [v]
  | Array_datatype _ _ size _ _ => elements size
  | Tuple_datatype _ es _ => elements (vsize es)
  | _ => throw (Type_error "Chunking must be a scalar, an array or a tuple")
  end.

(** Chunking: [chunking_ref] is null when there is neither attribute nor option. *)
Definition set_chunking (d : Dataset_op) (dataset_type : Datatype) (dataset_name : string) (plist : option hplist) : G (option hplist) :=
  with_ref (ref_null true false) (fun chunking_ref =>
    from_attribute dataset_type "decl_hdf5.chunking" (d_chunking d)
      (fun e => with_ref (expr_to_ref e) (fun t => ref_assign chunking_ref (ref_copy true false t))) tt;;
    null ← ref_is_null chunking_ref;
    if null : bool then mret plist
    else
      sizes ← chunk_sizes chunking_ref;
      p ← checked (H5Pset_chunk plist sizes) ("Cannot set `" +:+ dataset_name +:+ "' dataset chunking"); mret (Some p)).

(** The level is an [unsigned int], and [-1] stands for none. *)
Definition set_deflate (d : Dataset_op) (dataset_type : Datatype) (dataset_name : string) (plist : option hplist) : G (option hplist) :=
  level ← from_attribute dataset_type "decl_hdf5.deflate" (d_deflate d) (fun e => v ← expr_to_long e; mret (v mod 2 ^ 32)) (2 ^ 32 - 1);
  if level =? 2 ^ 32 - 1 then mret plist
  else p ← checked (H5Pset_deflate plist level) ("Cannot set `" +:+ dataset_name +:+ "' dataset deflate"); mret (Some p).

Definition set_fletcher (d : Dataset_op) (dataset_type : Datatype) (dataset_name : string) (plist : option hplist) : G (option hplist) :=
  fletcher ← from_attribute dataset_type "decl_hdf5.fletcher" (d_fletcher d) expr_to_long (-1);
  if fletcher =? -1 then mret plist
  else p ← checked (H5Pset_fletcher32 plist) ("Cannot set `" +:+ dataset_name +:+ "' dataset fletcher"); mret (Some p).

Definition dataset_creation_plist (d : Dataset_op) (dataset_type : Datatype) (dataset_name : string) : G (option hplist) :=
  p ← set_chunking d dataset_type dataset_name (H5Pcreate H5P_DATASET_CREATE);
  p ← set_deflate d dataset_type dataset_name p;
  set_fletcher d dataset_type dataset_name p.

(** ** Writing *)

Definition quote : string := String (ascii_of_nat 34) "".

(** The explicit type whose regex matches, if there is only one. *)
Definition find_explicit (dsets : list Dataset_explicit_type) (dataset_name : string) : outcome (option Dataset_explicit_type) :=
  let found := List.filter (fun e => regex_match dataset_name (e_definition e)) dsets in
  match found with
  | [] => Ret None
  | [e] => Ret (Some e)
  | _ =>
      Throw (Error_impl PDI_ERR_INVALIDACTION ("found " +:+ pretty (vsize found) +:+ " regexes in the " +:+ quote +:+ "datasets:" +:+ quote +:+
        " list that match the dataset `" +:+ dataset_name +:+ "' to write:" +:+ newline +:+ " - "
        +:+ join (newline +:+ " - ") (map (fun e => e_definition e +:+ get_msg_err_line e) found)))
  end.

(** The type of the dataset, its dataspace with the selection, and its HDF5 type. *)
Definition file_space (d : Dataset_op) (dsets : list Dataset_explicit_type) (dataset_name : string) (t : Datatype) (h5_mem_space : hspace) :
    G (Datatype * hspace * htype) :=
  dset_found ← lift (find_explicit dsets dataset_name);
  match dset_found with
  | Some e =>
      dataset_type ← evaluate_in_context (e_type e);
      sp ← space dataset_type false;
      h5_file_space ← apply (d_dataset_selection d) sp.1 (Some h5_mem_space);
      mret (dataset_type, h5_file_space, sp.2)
  | None =>
      if negb (bool_decide (m_size (d_dataset_selection d) = [])) then
        lift (spectree_error (m_selection_tree (d_dataset_selection d)) ("Dataset selection is invalid for implicit dataset `" +:+ dataset_name +:+ "'"))
      else sp ← space t true; mret (t, sp.1, sp.2)
  end.

(** What becomes of a dataset that exists; nothing is left to do when it is skipped. *)
Definition dataset_collision (d : Dataset_op) (h5_file : hfile) (dataset_name : string) (create : G (option hset)) (h5_set : hset) : G (option hset) :=
  if policy_has (d_collision_policy d) SKIP then H5Dclose h5_set;; mret None
  else if d_collision_policy d =? REPLACE then
    H5Dclose h5_set;;
    ok ← H5Ldelete h5_file dataset_name;
    check ok "";;
    o ← create;
    match o with
    | Some s => mret (Some s)
    | None => throw (System_error ("Dataset collision `" +:+ dataset_name +:+ "': Cannot create a dataset after deleting old one"))
    end
  else if d_collision_policy d =? ERROR then
    H5Dclose h5_set;; throw (System_error ("Dataset collision `" +:+ dataset_name +:+ "': Dataset already exists"))
  else mret (Some h5_set).

(** [Dataset_op::do_write] *)
Definition dataset_write (d : Dataset_op) (h5_file : hfile) (write_lst : hplist) (dsets : list Dataset_explicit_type) : G unit :=
  dataset_name ← expr_to_string (d_dataset d);
  with_ref (readable (shared (d_value d))) (fun ref =>
    null ← ref_is_null ref;
    if null : bool then mret tt
    else
      t ← ref_type ref;
      sp ← space t false;
      h5_mem_space ← apply (d_memory_selection d) sp.1 None;
      '(dataset_type, h5_file_space, h5_file_type) ← file_space d dsets dataset_name t h5_mem_space;
      validate_dataspaces (m_selection_tree (d_dataset_selection d)) h5_mem_space h5_file_space dataset_name;;
      set_lst ← checked (H5Pcreate H5P_LINK_CREATE) "";
      set_lst ← checked (H5Pset_create_intermediate_group set_lst) "";
      h5_set_raw ← H5Dopen2 h5_file dataset_name;
      dset_plist ← dataset_creation_plist d dataset_type dataset_name;
      dset_plist ← checked dset_plist "";
      let create := H5Dcreate2 h5_file dataset_name h5_file_type h5_file_space set_lst dset_plist in
      h5_set ← (match h5_set_raw with
                | None => o ← create; s ← checked o ""; mret (Some s)
                | Some h5_set => dataset_collision d h5_file dataset_name create h5_set
                end);
      match h5_set with
      | None => mret tt
      | Some h5_set =>
          finally (p ← ref_get ref;
                   ok ← H5Dwrite h5_set sp.2 h5_mem_space h5_file_space write_lst p;
                   check ok "";;
                   each_do (attribute_execute h5_file) (d_attributes d)) (H5Dclose h5_set)
      end).

(** [Dataset_op::execute] *)
Definition dataset_execute (h5_file : hfile) (dsets : list Dataset_explicit_type) (d : Dataset_op) : G unit :=
  xfer_lst ← checked (H5Pcreate H5P_DATASET_XFER) "";
  match d_direction d with READ => dataset_read d h5_file xfer_lst | WRITE => dataset_write d h5_file xfer_lst dsets end.

(** * Files *)

(** The operations whose condition holds; a [Value_error] of a condition is logged. *)
Definition holds_now (when : Impl) : G bool :=
  catch (v ← expr_to_long when; mret (negb (v =? 0)))
    (fun e => match e with Error_impl PDI_ERR_VALUE _ => mret false | _ => throw e end).

Definition selected {X} (when : X -> Impl) (ops : list X) : G (list X) :=
  iter (fun op l => b ← holds_now (when op); mret (if b : bool then l ++ [op] else l)) ops [].

Definition by_direction {X} (dir : X -> Direction) (wanted : Direction) (ops : list X) : list X :=
  List.filter (fun op => bool_decide (dir op = wanted)) ops.

(** What becomes of a file that exists when operations write to it. *)
Definition file_collision (f : File_op) (filename : string) (file_lst : hplist) (h5_file : hfile) : G (option (option hfile)) :=
  if policy_has (f_collision_policy f) SKIP then H5Fclose h5_file;; mret None
  else if policy_has (f_collision_policy f) REPLACE then H5Fclose h5_file;; o ← H5Fcreate filename true file_lst; mret (Some o)
  else if policy_has (f_collision_policy f) ERROR then
    H5Fclose h5_file;; throw (System_error ("Filename collision `" +:+ filename +:+ "': File already exists"))
  else mret (Some (Some h5_file)).

(** Opening the file; [None] when it is skipped. *)
Definition open_file (f : File_op) (writes reads : bool) (filename : string) (file_lst : hplist) : G (option (option hfile)) :=
  if writes && reads then
    name ← expr_to_string (f_file f); o ← H5Fopen name true file_lst; mret (Some o)
  else if writes then
    name ← expr_to_string (f_file f);
    o ← H5Fopen name true file_lst;
    match o with
    | None => o ← H5Fcreate filename false file_lst; mret (Some o)
    | Some h5_file => file_collision f filename file_lst h5_file
    end
  else o ← H5Fopen filename false file_lst; mret (Some o).

(** [*p = v] for a [long]. *)
Definition store_long (p v : Z) : G unit := unit_mem (fun m => write_num m p (NInt true 8 (to_int true 8 v))).

(** The loop over the sizes: it ends when one of the data is not available. *)
Fixpoint read_sizes (h5_file : hfile) (ops : list (string * Impl)) : G unit :=
  match ops with
  | [] => mret tt
  | (name, e) :: ops =>
      dataset_name ← expr_to_string e;
      go ← with_ref (writable (shared name)) (fun ref_w =>
        null ← ref_is_null ref_w;
        if null : bool then mret false
        else
          with_handle (o ← H5Dopen2 h5_file dataset_name; checked o "") H5Dclose (fun dset_id =>
            o ← H5Dget_space dset_id;
            s ← checked o "";
            (if H5Sis_simple s then
               match H5Sget_simple_extent_dims s with
               | None => throw (Std_exception "std::bad_array_new_length")
               | Some dims => each_do (fun iv => p ← ref_get ref_w; store_long (p + 8 * iv.1) iv.2) (zip (seqZ 0 (vsize dims)) dims)
               end
             else p ← ref_get ref_w; store_long p 0);;
            mret true));
      if go : bool then read_sizes h5_file ops else mret tt
  end.

Definition is_nil {X} (l : list X) : bool := match l with [] => true | _ => false end.

(** [File_op::execute] *)
Definition file_execute (f : File_op) : G unit :=
  timed "decl_hdf5" (
    dsets ← selected d_when (f_dset_ops f);
    attrs ← selected a_when (f_attr_ops f);
    let dset_reads := by_direction d_direction READ dsets in
    let dset_writes := by_direction d_direction WRITE dsets in
    let attr_reads := by_direction a_direction READ attrs in
    let attr_writes := by_direction a_direction WRITE attrs in
    if is_nil dset_reads && is_nil dset_writes && is_nil attr_reads && is_nil attr_writes && is_nil (f_dset_size_ops f) then mret tt
    else
      filename ← expr_to_string (f_file f);
      file_lst ← checked (H5Pcreate H5P_FILE_ACCESS) "";
      opened ← open_file f (negb (is_nil dset_writes) || negb (is_nil attr_writes)) (negb (is_nil dset_reads) || negb (is_nil attr_reads)) filename file_lst;
      match opened with
      | None => mret tt
      | Some h5_file_raw =>
          with_handle (checked h5_file_raw ("Cannot open `" +:+ filename +:+ "' file")) H5Fclose (fun h5_file =>
            each_do (dataset_execute h5_file (f_datasets f)) dset_writes;;
            each_do (dataset_execute h5_file (f_datasets f)) dset_reads;;
            each_do (attribute_execute h5_file) attr_writes;;
            each_do (attribute_execute h5_file) attr_reads;;
            read_sizes h5_file (map_order (f_dset_size_ops f)))
      end).

(** * The plugin *)

(** A block with an [Hdf5_error_handler]: an exception of its destructor ends the program. *)
Definition with_error_handler {A} (body : G A) : G A :=
  ok ← H5E_install; check ok "";; finally body (ok ← H5E_restore; check ok "").

Definition add_op (name : string) (op : File_op) (m : gmap string (list File_op)) : gmap string (list File_op) :=
  <[name := default [] (m !! name) ++ [op]]> m.

Definition on_data_ops (f : gmap string (list File_op) -> gmap string (list File_op)) : G unit :=
  modify (fun g => set_world (set_h5_data (f (h5_data (g_world g))) (g_world g)) g).
Definition on_event_ops (f : gmap string (list File_op) -> gmap string (list File_op)) : G unit :=
  modify (fun g => set_world (set_h5_events (f (h5_events (g_world g))) (g_world g)) g).

(** One operation on a file: it waits for events, or for the data it transfers. *)
Definition register_op (op : File_op) : G unit :=
  match f_event op with
  | [] =>
      assert (length (f_dset_ops op) <=? 1)%nat;;
      each_do (fun d => on_data_ops (add_op (d_value d) op)) (f_dset_ops op);;
      each_do (fun a => if bool_decide (a_desc a = "") then mret tt else on_data_ops (add_op (a_desc a) op)) (f_attr_ops op);;
      each_do (fun s => on_data_ops (add_op s.1 op)) (map_order (f_dset_size_ops op))
  | events => each_do (fun evname => on_event_ops (add_op evname op)) events
  end.

(** The constructor. *)
Definition decl_hdf5_plugin (config : PC_tree) : G unit :=
  with_error_handler (
    ok ← H5open;
    check ok "Cannot initialize HDF5 library";;
    opt_each_do config (fun elem => ops ← parse_file elem; each_do register_op ops);;
    on_data on_h5_data "";;
    on_event on_h5_event "";; mret tt).

(** [m_data[name]] and [m_events[event]], which add what they do not find. *)
Definition hdf5_data (name : string) : G unit :=
  with_error_handler (
    on_data_ops (fun m => <[name := default [] (m !! name)]> m);;
    ops ← gets (fun g => default [] (h5_data (g_world g) !! name));
    each_do file_execute ops).

Definition hdf5_event (event : string) : G unit :=
  with_error_handler (
    on_event_ops (fun m => <[event := default [] (m !! event)]> m);;
    ops ← gets (fun g => default [] (h5_events (g_world g) !! event));
    each_do file_execute ops).

(** The destructor, which ends the program when it throws. *)
Definition close_plugin : G unit := ok ← H5close; if ok : bool then mret tt else lift Crash.

End exec.
