(* ===== verification/Hdf5Facts.v ===== *)
(** What the Decl'HDF5 plugin tells HDF5 about data: the points that a memory
    dataspace selects are the elements of the data, at the addresses where the
    library finds them and in their order, and selections shift and resize. *)

From S2P Require Import Prelude Error Effect ExprSyntax Datatype Layout Memory DenseCopy DenseCopyFacts Access Ref RefInv RefOps RefTheorems RefCopy Numeric Parse Yaml Template GlobalContext Eval SetValue UserCode Hdf5 Hdf5Ops Hdf5Exec.

(** * Points of a dataspace *)

Definition product (l : list Z) : Z := foldr Z.mul 1 l.

(** The number of a point, the last coordinate varying fastest. *)
Fixpoint linear (dims point : list Z) : Z :=
  match dims, point with
  | _ :: dims, i :: point => i * product dims + linear dims point
  | _, _ => 0
  end.

(** The points of a block, in that order. *)
Fixpoint points (start count : list Z) : list (list Z) :=
  match start, count with
  | s :: start, c :: count => concat (map (fun i => map (cons (s + i)) (points start count)) (seqZ 0 c))
  | _, _ => [[]]
  end.

(** The addresses of the elements of nested arrays, by access to their elements. *)
Fixpoint elements (m : mem) (t : Datatype) (p : Z) : list Z :=
  match t with
  | Array_datatype _ sub _ _ subsize =>
      concat (map (fun i => match index_data t i m p with Ret (q, _) => elements m sub q | _ => [] end) (seqZ 0 subsize))
  | _ => [p]
  end.

(** The type of the elements, and the extents. *)
Definition leaf (t : Datatype) : Datatype := (array_extent false t).2.
Definition sizes_of (t : Datatype) : list Z := (array_extent false t).1.1.1.
Definition starts_of (t : Datatype) : list Z := (array_extent false t).1.1.2.
Definition counts_of (t : Datatype) : list Z := (array_extent false t).1.2.

Lemma array_extent_eq t : array_extent false t = (sizes_of t, starts_of t, counts_of t, leaf t).
Proof. unfold sizes_of, starts_of, counts_of, leaf. by destruct (array_extent false t) as [[[? ?] ?] ?]. Qed.

Lemma extent_array a sub n s c :
  sizes_of (Array_datatype a sub n s c) = n :: sizes_of sub /\ starts_of (Array_datatype a sub n s c) = s :: starts_of sub /\
  counts_of (Array_datatype a sub n s c) = c :: counts_of sub /\ leaf (Array_datatype a sub n s c) = leaf sub.
Proof. unfold sizes_of, starts_of, counts_of, leaf. simpl. by destruct (array_extent false sub) as [[[? ?] ?] ?]. Qed.

(** A dense dataspace has the shape of what the other one selects. *)
Lemma dense_extent t : array_extent true t = (counts_of t, replicate (length (counts_of t)) 0, counts_of t, leaf t).
Proof.
  induction t as [| a sub IH n s c | | |]; try done.
  destruct (extent_array a sub n s c) as (_ & _ & -> & ->). simpl. by rewrite IH.
Qed.

Lemma extent_lengths t : length (starts_of t) = length (sizes_of t) /\ length (counts_of t) = length (sizes_of t).
Proof.
  induction t as [| a sub IH n s c | | |]; try done.
  destruct (extent_array a sub n s c) as (-> & -> & -> & _). simpl. lia.
Qed.

Lemma leaf_ok t : copy_ok t = true -> copy_ok (leaf t) = true /\ buffersize t = product (sizes_of t) * buffersize (leaf t).
Proof.
  induction t as [| a sub IH n s c | | |]; intros Hok; try (split; [done|]; unfold sizes_of, leaf; simpl; lia).
  destruct (extent_array a sub n s c) as (-> & _ & _ & ->). simpl in Hok. bools. destruct IH as [? Hb]; [done|].
  split; [done|]. simpl. rewrite size_mul_small by done. rewrite Hb. lia.
Qed.

(** Element [i] of an array that is well formed. *)
Lemma array_element a sub n s c i m p :
  copy_ok (Array_datatype a sub n s c) = true -> 0 <= i < c ->
  index_data (Array_datatype a sub n s c) i m p = Ret (p + buffersize sub * (s + i), sub).
Proof.
  intros Hok Hi. assert (Hwf := copy_ok_wf _ Hok). simpl in Hok, Hwf |- *. bools. destruct (Z.ltb_spec i c); [|lia].
  pose proof (buffersize_is_size sub ltac:(done)). unfold is_size in *.
  assert ((s + i) * buffersize sub <= n * buffersize sub) by (apply Z.mul_le_mono_nonneg_r; lia).
  rewrite (size_add_small s) by (unfold is_size; lia). by rewrite size_mul_small by (unfold is_size; nia).
Qed.

(** The selected points of the memory dataspace are the elements of the data. *)
Lemma points_are_elements m t p :
  copy_ok t = true ->
  map (fun c => p + buffersize (leaf t) * linear (sizes_of t) c) (points (starts_of t) (counts_of t)) = elements m t p.
Proof.
  revert p. induction t as [| a sub IH n s c | | |]; intros p Hok; try (cbn; f_equal; lia).
  destruct (extent_array a sub n s c) as (-> & -> & -> & ->). cbn [points elements]. rewrite concat_map, map_map. f_equal.
  apply map_ext_in. intros i Hi%list_elem_of_In%elem_of_seqZ. rewrite array_element by (done || lia).
  assert (Hsub : copy_ok sub = true) by (simpl in Hok; by bools). destruct (leaf_ok sub Hsub) as [_ Hb].
  rewrite map_map, <- IH by done. apply map_ext. intros pt. cbn [linear]. rewrite Hb. ring.
Qed.

Lemma length_concat_const {A} (l : list (list A)) n : Forall (fun x => Z.of_nat (length x) = n) l -> Z.of_nat (length (concat l)) = Z.of_nat (length l) * n.
Proof. induction 1 as [|x l Hx _ IH]; simpl; [done|]. rewrite length_app, Nat2Z.inj_add, IH, Hx. lia. Qed.

Lemma length_points start count :
  length start = length count -> Forall (fun c => 0 <= c) count -> Z.of_nat (length (points start count)) = product count.
Proof.
  revert start. induction count as [|c count IH]; intros [|s start] Hlen Hpos; try done.
  apply list.Forall_cons in Hpos as [Hc Hpos]. cbn [points product foldr]. fold (product count).
  rewrite (length_concat_const _ (product count)).
  - rewrite length_map, length_seqZ. rewrite Z2Nat.id by lia. reflexivity.
  - apply list.Forall_forall. intros l Hl. apply list_elem_of_In, in_map_iff in Hl as (i & <- & _). rewrite length_map. apply IH; [|done]. simpl in Hlen. lia.
Qed.

(** * The dataspaces of the library *)

(** What HDF5 documents of simple dataspaces of at most 32 dimensions, with block
    selections: the dimensions, the start and the count of the selection. *)
Class Dataspaces (W : Type) {H5 : Hdf5 W} := {
  dims_of : hspace -> list Z;
  start_of : hspace -> list Z;
  count_of : hspace -> list Z;
  create_simple : forall dims, (length dims <= 32)%nat -> Forall (fun n => 0 < n) dims -> exists s, H5Screate_simple dims = Some s /\ dims_of s = dims;
  select_block : forall s start count, length start = length (dims_of s) -> length count = length (dims_of s) -> Forall (fun n => 0 < n) count ->
    exists s', H5Sselect_hyperslab s start count = Some s' /\ dims_of s' = dims_of s /\ start_of s' = start /\ count_of s' = count;
  extent_dims : forall s, H5Sget_simple_extent_dims s = Some (dims_of s);
  select_bounds : forall s, dims_of s <> [] -> Forall (fun n => 0 < n) (count_of s) ->
    H5Sget_select_bounds s = Some (start_of s, zip_with (fun a n => a + n - 1) (start_of s) (count_of s));
  select_npoints : forall s, H5Sget_select_npoints s = Some (product (count_of s))
}.

Section dataspaces.
  Context {W : Type} {RT : Runtime W} {H5 : Hdf5 W} {DS : Dataspaces W}.

Implicit Types g : global W.

Lemma checked_Some {A} (x : A) msg g : checked (Some x) msg g = Done x g.
Proof. done. Qed.

(** The dataspace of an array, of either kind. *)
Lemma space_runs t is_dense dims start count elt ht g :
  array_extent is_dense t = (dims, start, count, elt) -> dims <> [] -> length start = length dims -> length count = length dims ->
  (length dims <= 32)%nat -> Forall (fun n => 0 < n) dims -> Forall (fun n => 0 < n) count ->
  dense elt = Ret true -> get_h5_type elt = Ret ht ->
  exists s, space t is_dense g = Done (s, ht) g /\ dims_of s = dims /\ start_of s = start /\ count_of s = count.
Proof.
  intros He Hnil Hs Hc Hrank Hd Hpos Hdense Hty.
  destruct t as [| a sub n st c | | |]; try (simpl in He; by injection He as <- _ _ _).
  destruct (create_simple dims Hrank Hd) as (s0 & H0 & Hd0).
  destruct (select_block s0 start count) as (s & H1 & Hd1 & Hs1 & Hc1); [congruence..|done|].
  exists s. split; [|by rewrite Hd1]. unfold space. rewrite He. unfold mbind, M_bind, lift. rewrite Hdense. simpl.
  by rewrite H0, checked_Some, H1, checked_Some, Hty.
Qed.

(** The array can be given to HDF5: its elements are dense and of an HDF5 type, it
    has at most 32 dimensions, and none of its parts is empty. *)
Definition transferable (t : Datatype) (ht : htype) : Prop :=
  copy_ok t = true /\ counts_of t <> [] /\ (length (counts_of t) <= 32)%nat /\ Forall (fun n => 0 < n) (counts_of t) /\
  dense (leaf t) = Ret true /\ get_h5_type (leaf t) = Ret ht.

Lemma sizes_positive t : copy_ok t = true -> Forall (fun n => 0 < n) (counts_of t) -> Forall (fun n => 0 < n) (sizes_of t).
Proof.
  induction t as [| a sub IH n s c | | |]; intros Hok Hpos; try (by apply list.Forall_nil).
  destruct (extent_array a sub n s c) as (-> & _ & Hc & _). rewrite Hc in Hpos. apply list.Forall_cons in Hpos as [Hc0 Hpos].
  assert (Hwf := copy_ok_wf _ Hok). simpl in Hok, Hwf. bools. unfold is_size in *. apply list.Forall_cons. split; [lia|by apply IH].
Qed.

(** C18: the memory dataspace that the plugin builds for an array selects exactly the
    elements of the data, at the addresses where access by index finds them and in
    the same order; the dataspace of a dataset that is written without an explicit
    type is full, has the shape of that selection, and is compatible with it. *)
Theorem dataspaces_select_the_data t ht g tree name :
  transferable t ht ->
  exists h5_mem_space h5_file_space,
    space t false g = Done (h5_mem_space, ht) g /\ space t true g = Done (h5_file_space, ht) g /\
    (forall m p, map (fun c => p + buffersize (leaf t) * linear (dims_of h5_mem_space) c) (points (start_of h5_mem_space) (count_of h5_mem_space))
                 = elements m t p /\ H5Sget_select_npoints h5_mem_space = Some (Z.of_nat (length (elements m t p)))) /\
    dims_of h5_file_space = count_of h5_mem_space /\ count_of h5_file_space = count_of h5_mem_space /\
    validate_dataspaces tree h5_mem_space h5_file_space name g = Done tt g.
Proof.
  intros (Hok & Hnil & Hrank & Hpos & Hdense & Hty). destruct (extent_lengths t) as [Hls Hlc].
  destruct (space_runs t false (sizes_of t) (starts_of t) (counts_of t) (leaf t) ht g) as (ms & Hms & Hmd & Hmst & Hmc);
    try done; [by rewrite array_extent_eq| |lia|by apply sizes_positive|].
  { intros Heq. rewrite Heq in Hlc. simpl in Hlc. by destruct (counts_of t). }
  destruct (space_runs t true (counts_of t) (replicate (length (counts_of t)) 0) (counts_of t) (leaf t) ht g) as (fs & Hfs & Hfd & _ & Hfc);
    try done; [by rewrite dense_extent|by rewrite length_replicate|].
  exists ms, fs. split; [done|]. split; [done|]. split; [intros m p|split_and!; try congruence].
  - rewrite select_npoints, Hmd, Hmst, Hmc, <- (points_are_elements m t p Hok). split; [done|].
    rewrite length_map, length_points; [done|congruence|]. eapply list.Forall_impl; [exact Hpos|]. simpl. lia.
  - unfold validate_dataspaces. rewrite !select_npoints, Hfc, Hmc. unfold mbind, M_bind. rewrite !checked_Some. by rewrite Z.eqb_refl.
Qed.

(** * Selections *)

(** The values of expressions, evaluated one after the other. *)
Inductive evaluates : list Impl -> global W -> list Z -> global W -> Prop :=
  | evaluates_nil g : evaluates [] g [] g
  | evaluates_cons e es g v g1 vs g2 :
      expr_to_long e g = Done v g1 -> evaluates es g1 vs g2 -> evaluates (e :: es) g (size_of_long v :: vs) g2.

Lemma evaluates_length es g vs g' : evaluates es g vs g' -> length vs = length es.
Proof. induction 1; simpl; congruence. Qed.

Lemma iter_evaluates es g vs g' acc :
  evaluates es g vs g' -> iter (fun e l => v ← to_hsize e; mret (l ++ [v])) es acc g = Done (acc ++ vs) g'.
Proof.
  intros H. revert acc. induction H as [g|e es g v g1 vs g2 He _ IH]; intros acc; [simpl; by rewrite app_nil_r|].
  cbn [iter]. unfold mbind, M_bind, to_hsize. unfold mbind, M_bind. rewrite He. unfold mret, M_ret. unfold to_hsize, mbind, M_bind, mret, M_ret in IH.
  rewrite IH. by rewrite <- app_assoc.
Qed.

Lemma extents_of_bounds start count :
  length start = length count -> Forall (fun s => 0 <= s) start -> Forall (fun n => 0 < n < size_modulus) count ->
  Forall2 (fun s n => s + n <= size_modulus) start count ->
  extents start (zip_with (fun a n => a + n - 1) start count) = count.
Proof.
  intros Hlen Hs Hc Hb. unfold extents. induction Hb as [|s n start count Hsn _ IH]; [done|].
  apply list.Forall_cons in Hs as [Hs0 Hs], Hc as [Hc0 Hc]. simpl. rewrite IH; [|simpl in Hlen; congruence|done..]. f_equal.
  rewrite (size_sub_small (s + n - 1)) by (unfold is_size; lia). rewrite size_add_small by (unfold is_size; lia). lia.
Qed.

(** The space has a selection that fits. *)
Definition selectable (s : hspace) : Prop :=
  dims_of s <> [] /\ length (start_of s) = length (dims_of s) /\ length (count_of s) = length (dims_of s) /\
  Forall (fun a => 0 <= a) (start_of s) /\ Forall (fun n => 0 < n < size_modulus) (count_of s) /\
  Forall2 (fun a n => a + n <= size_modulus) (start_of s) (count_of s).

Lemma selectable_bounds s : selectable s -> H5Sget_select_bounds s = Some (start_of s, zip_with (fun a n => a + n - 1) (start_of s) (count_of s)).
Proof. intros (Hn & _ & _ & _ & Hc & _). apply select_bounds; [done|]. eapply list.Forall_impl; [exact Hc|]. simpl. lia. Qed.

Lemma get_rank_eq s g : get_rank s g = Done (vsize (dims_of s)) g.
Proof. unfold get_rank. by rewrite extent_dims. Qed.

(** A selection whose configuration gives a size and a start for every dimension
    selects the block of those sizes, and its start is relative to that of the
    selection that the dataspace had. *)
Theorem selection_applies sel s dflt sizes starts g g1 g2 :
  selectable s -> m_size sel <> [] -> m_start sel <> [] ->
  length (m_size sel) = length (dims_of s) -> length (m_start sel) = length (dims_of s) ->
  evaluates (m_size sel) g sizes g1 -> evaluates (m_start sel) g1 starts g2 -> Forall (fun n => 0 < n) sizes ->
  exists s', apply sel s dflt g = Done s' g2 /\ dims_of s' = dims_of s /\
    start_of s' = zip_with size_add (start_of s) starts /\ count_of s' = sizes.
Proof.
  intros Hsel Hsz Hst Hlsz Hlst He1 He2 Hpos. pose proof Hsel as (Hn & Hls & Hlc & _).
  pose proof (evaluates_length _ _ _ _ He1). pose proof (evaluates_length _ _ _ _ He2).
  destruct (select_block s (zip_with size_add (start_of s) starts) sizes) as (s' & Hs' & Hd & Hst' & Hc'); [|lia|done|].
  { rewrite length_zip_with. lia. }
  exists s'. split; [|done]. unfold apply. unfold mbind at 1, M_bind at 1. rewrite get_rank_eq.
  assert ((vsize (dims_of s) =? 0) = false) as -> by (unfold vsize; destruct (dims_of s); [done|simpl; lia]).
  unfold mbind at 1, M_bind at 1. rewrite (selectable_bounds s Hsel), checked_Some. cbn [fst snd].
  destruct (m_size sel) as [|e0 es0] eqn:Hm; [done|]. rewrite <- Hm in *. destruct (m_start sel) as [|e1 es1] eqn:Hm1; [done|]. rewrite <- Hm1 in *.
  assert ((vsize (m_size sel) =? vsize (dims_of s)) = true) as -> by (unfold vsize; lia).
  assert ((vsize (m_start sel) =? vsize (dims_of s)) = true) as -> by (unfold vsize; lia). cbn [negb].
  unfold mbind at 1, M_bind at 1. rewrite (iter_evaluates _ _ _ _ [] He1).
  unfold mbind at 1, M_bind at 1. unfold mbind at 1, M_bind at 1. rewrite (iter_evaluates _ _ _ _ [] He2). simpl app.
  unfold mret, M_ret. by rewrite Hs', checked_Some.
Qed.

(** Without a configuration, the selection of a dataset of the same rank takes the
    shape of what is selected in memory. *)
Theorem default_selection_has_the_shape s mem g :
  selectable s -> selectable mem -> length (dims_of mem) = length (dims_of s) ->
  exists s', apply no_selection s (Some mem) g = Done s' g /\ dims_of s' = dims_of s /\ start_of s' = start_of s /\ count_of s' = count_of mem.
Proof.
  intros Hsel Hmem Hlen. pose proof Hsel as (Hn & Hls & _). pose proof Hmem as (_ & Hlsm & Hlm & Hms & Hmc & Hmb).
  destruct (select_block s (start_of s) (count_of mem)) as (s' & Hs' & Hd & Hst' & Hc'); [done|lia| |].
  { eapply list.Forall_impl; [exact Hmc|]. simpl. lia. }
  exists s'. split; [|done]. unfold apply. unfold mbind at 1, M_bind at 1. rewrite get_rank_eq.
  assert ((vsize (dims_of s) =? 0) = false) as -> by (unfold vsize; destruct (dims_of s); [done|simpl; lia]).
  unfold mbind at 1, M_bind at 1. rewrite (selectable_bounds s Hsel), checked_Some. cbn [fst snd m_size m_start no_selection default_shape].
  rewrite extent_dims. assert ((vsize (dims_of mem) =? vsize (dims_of s)) = true) as -> by (unfold vsize; lia).
  unfold mbind, M_bind. rewrite (selectable_bounds mem Hmem), checked_Some. cbn [fst snd]. unfold mret, M_ret.
  rewrite extents_of_bounds by (done || lia). by rewrite Hs', checked_Some.
Qed.

End dataspaces.
