(* ===== verification/Hdf5Guards.v ===== *)
(** What the Decl'HDF5 plugin does not do.  Calls of the HDF5 library are replaced by
    calls that crash when they should not happen, and the plugin does the same: the
    data that is transferred fits, a file that must be kept is not changed. *)

From S2P Require Import Prelude Error Effect EffectEq ExprSyntax Datatype Layout Memory DenseCopy DenseCopyFacts Access Ref RefInv RefOps RefTheorems RefCopy Numeric Parse Yaml Template GlobalContext Eval SetValue UserCode Hdf5 Hdf5Ops Hdf5Exec.
From Stdlib Require Import Setoid Morphisms.

(** * Other versions of the library *)

Section guards.
  Context {W : Type} {RT : Runtime W} {HH : Hdf5Host W}.

(** The library with other functions to change files and to transfer data. *)
Definition with_calls (H5 : Hdf5 W)
    (fcreate : string -> bool -> hplist -> M (global W) (option hfile)) (ldelete : hfile -> string -> M (global W) bool)
    (dcreate : hfile -> string -> htype -> hspace -> hplist -> hplist -> M (global W) (option hset))
    (dread dwrite : hset -> htype -> hspace -> hspace -> hplist -> Z -> M (global W) bool)
    (acreate : hgroup + hset -> string -> htype -> hspace -> M (global W) (option hattr)) (awrite : hattr -> htype -> Z -> M (global W) bool) :
    Hdf5 W := {|
  hspace := hspace; htype := htype; hplist := hplist; hfile := hfile; hset := hset; hgroup := hgroup; hattr := hattr;
  H5T_native := H5T_native; H5Tcreate_compound := H5Tcreate_compound; H5Tinsert := H5Tinsert; H5Tarray_create2 := H5Tarray_create2;
  H5Screate_simple := H5Screate_simple; H5Screate_scalar := H5Screate_scalar; H5Sselect_hyperslab := H5Sselect_hyperslab;
  H5Sget_simple_extent_dims := H5Sget_simple_extent_dims; H5Sget_select_bounds := H5Sget_select_bounds;
  H5Sget_select_npoints := H5Sget_select_npoints; H5Sis_simple := H5Sis_simple;
  H5Pcreate := H5Pcreate; H5Pset_chunk := H5Pset_chunk; H5Pset_deflate := H5Pset_deflate; H5Pset_fletcher32 := H5Pset_fletcher32;
  H5Pset_create_intermediate_group := H5Pset_create_intermediate_group; H5Ewalk2 := H5Ewalk2;
  H5Fopen := H5Fopen; H5Fcreate := fcreate; H5Fclose := H5Fclose; H5Ldelete := ldelete;
  H5Dopen2 := H5Dopen2; H5Dcreate2 := dcreate; H5Dclose := H5Dclose; H5Dget_space := H5Dget_space; H5Dread := dread; H5Dwrite := dwrite;
  H5Gopen := H5Gopen; H5Gclose := H5Gclose; H5Aopen := H5Aopen; H5Acreate := acreate; H5Aclose := H5Aclose;
  H5Awrite := awrite; H5Aread := H5Aread
|}.

(** A dataset with another policy. *)
Definition with_policy (p : Collision_policy) (d : Dataset_op) : Dataset_op :=
  mkDataset p (d_direction d) (d_dataset d) (d_value d) (d_when d) (d_memory_selection d) (d_dataset_selection d) (d_chunking d) (d_deflate d)
    (d_fletcher d) (d_attributes d).

(** ** Blocks *)

#[local] Instance with_ref_proper A : Proper (eq ==> pointwise_relation nat same ==> same) (with_ref (W := W) (A := A)).
Proof. intros mk _ <- f f' Hf. unfold with_ref. apply bind_proper; [|done]. intros r. by apply finally_proper. Qed.

#[local] Instance with_handle_proper X A : Proper (eq ==> eq ==> pointwise_relation X same ==> same) (with_handle (W := W) (X := X) (A := A)).
Proof. intros o _ <- c _ <- f f' Hf. unfold with_handle. apply bind_proper; [|done]. intros x. by apply finally_proper. Qed.

#[local] Instance each_do_proper A : Proper (pointwise_relation A same ==> eq ==> same) (each_do (W := W) (A := A)).
Proof. intros f f' Hf l _ <-. unfold each_do. apply iter_proper; [|done..]. intros x _. apply Hf. Qed.

#[local] Instance timed_proper A : Proper (eq ==> same ==> same) (timed (W := W) (A := A)).
Proof. intros n _ <- m m' Hm. unfold timed. apply bind_proper; [|done]. intros _. by apply finally_proper. Qed.

(** * Transfers *)

Section transfers.
  Context (H5 : Hdf5 W).

Definition same_points (a b : hspace) : bool :=
  match H5Sget_select_npoints a, H5Sget_select_npoints b with Some n, Some k => n =? k | _, _ => false end.

(** Transfers of datasets crash unless both dataspaces select as many points.
    [H5Aread] and [H5Awrite] take no dataspace: attributes are not guarded, since
    the plugin compares nothing before it reads or writes one. *)
Definition matched (transfer : hset -> htype -> hspace -> hspace -> hplist -> Z -> M (global W) bool) :
    hset -> htype -> hspace -> hspace -> hplist -> Z -> M (global W) bool :=
  fun set type mem file plist p g => if same_points mem file then transfer set type mem file plist p g else Crashed.

Definition matching : Hdf5 W := with_calls H5 H5Fcreate H5Ldelete H5Dcreate2 (matched H5Dread) (matched H5Dwrite) H5Acreate H5Awrite.

Lemma validate_matches tree mem file name (g g' : global W) : validate_dataspaces tree mem file name g = Done tt g' -> same_points mem file = true.
Proof.
  unfold validate_dataspaces, same_points, mbind, M_bind, checked, handle_hdf5_err.
  destruct (H5Sget_select_npoints mem) as [n|]; simpl; [|done]. destruct (H5Sget_select_npoints file) as [k|]; simpl; [|done].
  destruct (n =? k); [done|]. destruct (get_selection mem g) as [? ?|? ?|]; [|done..]. destruct (get_selection file _) as [? ?|? ?|]; [|done..].
  unfold lift, spectree_error. done.
Qed.

Lemma matched_read mem file (H : same_points mem file = true) set type plist p :
  H5Dread (Hdf5 := matching) set type mem file plist p = H5Dread (Hdf5 := H5) set type mem file plist p.
Proof. cbn [H5Dread matching with_calls]. unfold matched. by rewrite H. Qed.

Lemma matched_write mem file (H : same_points mem file = true) set type plist p :
  H5Dwrite (Hdf5 := matching) set type mem file plist p = H5Dwrite (Hdf5 := H5) set type mem file plist p.
Proof. cbn [H5Dwrite matching with_calls]. unfold matched. by rewrite H. Qed.

Lemma dataset_write_matched d f l dsets : same (dataset_write (H5 := matching) d f l dsets) (dataset_write (H5 := H5) d f l dsets).
Proof.
  intros g. unfold dataset_write. apply bind_same; [done|]. intros name g1 _.
  apply with_ref_proper; [done|]. intros ref g2. apply bind_same; [done|]. intros [|] g3 _; [done|].
  apply bind_same; [done|]. intros t g4 _. apply bind_same; [done|]. intros sp g5 _. apply bind_same; [done|]. intros mem g6 _.
  apply bind_same; [done|]. intros [[ft file] fht] g7 _. apply bind_same; [done|]. intros [] g8 Hv. apply validate_matches in Hv.
  apply bind_same; [done|]. intros sl g9 _. apply bind_same; [done|]. intros sl2 g10 _. apply bind_same; [done|]. intros raw g11 _.
  apply bind_same; [done|]. intros pl g12 _. apply bind_same; [done|]. intros pl2 g13 _. apply bind_same; [done|]. intros [set|] g14 _; [|done].
  apply finally_same. apply bind_same; [done|]. intros p g15 _. apply bind_same; [|done]. by apply (f_equal (fun m => m g15)), matched_write.
Qed.

Lemma dataset_read_matched d f l : same (dataset_read (H5 := matching) d f l) (dataset_read (H5 := H5) d f l).
Proof.
  intros g. unfold dataset_read. apply bind_same; [done|]. intros name g1 _.
  apply with_ref_proper; [done|]. intros ref g2. apply bind_same; [done|]. intros [|] g3 _; [done|].
  apply bind_same; [done|]. intros t g4 _. apply bind_same; [done|]. intros sp g5 _. apply bind_same; [done|]. intros mem g6 _.
  apply with_handle_proper; [done..|]. intros set g7. apply bind_same; [done|]. intros o g8 _. apply bind_same; [done|]. intros file0 g9 _.
  apply bind_same; [done|]. intros file g10 _. apply bind_same; [done|]. intros [] g11 Hv. apply validate_matches in Hv.
  apply bind_same; [done|]. intros p g12 _. apply bind_same; [|done]. by apply (f_equal (fun m => m g12)), matched_read.
Qed.

Lemma dataset_execute_matched f dsets d : same (dataset_execute (H5 := matching) f dsets d) (dataset_execute (H5 := H5) f dsets d).
Proof.
  unfold dataset_execute. apply bind_proper; [|done]. intros l.
  destruct (d_direction d); [apply dataset_read_matched|apply dataset_write_matched].
Qed.

Lemma file_execute_matched f : same (file_execute (H5 := matching) f) (file_execute (H5 := H5) f).
Proof.
  unfold file_execute. apply timed_proper; [done|]. apply bind_proper; [|done]. intros dsets. apply bind_proper; [|done]. intros attrs.
  cbv zeta. destruct (_ && _); [done|]. apply bind_proper; [|done]. intros filename. apply bind_proper; [|done]. intros fl.
  apply bind_proper; [|done]. intros [raw|]; [|done]. apply with_handle_proper; [done..|]. intros f5.
  apply bind_proper; [|apply each_do_proper; [intros d; apply dataset_execute_matched|done]]. intros _.
  apply bind_proper; [done|]. apply each_do_proper; [intros d; apply dataset_execute_matched|done].
Qed.

End transfers.

(** C19: whenever the plugin transfers a dataset ([H5Dread] or [H5Dwrite]), on data or
    on an event, the dataspaces in memory and in the file select the same number of
    points: it does the same with a library whose transfers of datasets crash when
    they do not.  Nothing is said of attributes, whose size is not checked. *)
Theorem dataset_transfers_fit (H5 : Hdf5 W) :
  (forall name, same (hdf5_data (H5 := matching H5) name) (hdf5_data (H5 := H5) name)) /\
  (forall event, same (hdf5_event (H5 := matching H5) event) (hdf5_event (H5 := H5) event)).
Proof.
  split; intros n; unfold hdf5_data, hdf5_event, with_error_handler.
  all: apply bind_proper; [|done]; intros ok; apply bind_proper; [|done]; intros _; apply finally_proper; [|done].
  all: apply bind_proper; [|done]; intros _; apply bind_proper; [|done]; intros ops; apply each_do_proper; [|done].
  all: intros f; apply file_execute_matched.
Qed.

(** * Files that are kept *)

Section kept.
  Context (H5 : Hdf5 W).

Definition forbidden {A} : M (global W) A := fun _ => Crashed.

(** Nothing can change a file. *)
Definition keeping : Hdf5 W :=
  with_calls H5 (fun _ _ _ => forbidden) (fun _ _ => forbidden) (fun _ _ _ _ _ _ => forbidden) H5Dread (fun _ _ _ _ _ _ => forbidden)
    (fun _ _ _ _ => forbidden) (fun _ _ _ => forbidden).

(** The policies to skip and to fail. *)
Definition keeps (p : Collision_policy) : Prop := policy_has p SKIP = true \/ (policy_has p REPLACE = false /\ policy_has p ERROR = true).

Definition only_writes (f : File_op) : Prop :=
  Forall (fun d => d_direction d = WRITE) (f_dset_ops f) /\ Forall (fun a => a_direction a = WRITE) (f_attr_ops f).

Lemma selected_incl {X} (when : X -> Impl) (ops acc l : list X) (g g' : global W) (P : X -> Prop) :
  Forall P ops -> Forall P acc ->
  iter (fun op l => b ← holds_now (when op); mret (if b : bool then l ++ [op] else l)) ops acc g = Done l g' -> Forall P l.
Proof.
  intros Hops. revert acc g. induction Hops as [|op ops Hop _ IH]; intros acc g Hacc; cbn [iter]; [by intros [= <- <-]|].
  unfold mbind at 1, M_bind at 1. unfold mbind at 1, M_bind at 1. destruct (holds_now (when op) g) as [b g1|e g1|]; [|done..].
  unfold mret, M_ret. apply IH. destruct b; [|done]. apply Forall_app. by split; [|apply list.Forall_singleton].
Qed.

Lemma no_reads {X} (dir : X -> Direction) l : Forall (fun x => dir x = WRITE) l -> by_direction dir READ l = [] /\ by_direction dir WRITE l = l.
Proof. unfold by_direction. induction 1 as [|x l Hx _ [IH1 IH2]]; [done|]. simpl. rewrite Hx, IH1, IH2. by rewrite bool_decide_false. Qed.

Lemma file_collision_kept f name fl h (g : global W) :
  keeps (f_collision_policy f) ->
  file_collision (H5 := keeping) f name fl h g = file_collision (H5 := H5) f name fl h g /\
  (forall o g', file_collision (H5 := H5) f name fl h g = Done o g' -> o = None).
Proof.
  intros Hp. unfold file_collision. destruct Hp as [->|[Hr ->]].
  - split; [done|]. intros o g'. unfold mbind, M_bind. destruct (H5Fclose (Hdf5 := H5) h g); [|done..]. by intros [= <- _].
  - destruct (policy_has _ SKIP).
    + split; [done|]. intros o g'. unfold mbind, M_bind. destruct (H5Fclose (Hdf5 := H5) h g); [|done..]. by intros [= <- _].
    + rewrite Hr. split; [done|]. intros o g'. unfold mbind, M_bind. by destruct (H5Fclose (Hdf5 := H5) h g).
Qed.

(** Opening the file, after the conditions and the name were evaluated. *)
Definition opened (f : File_op) : M (global W) (option hfile) :=
  selected d_when (f_dset_ops f);; selected a_when (f_attr_ops f);; expr_to_string (f_file f);;
  file_lst ← checked (H5Pcreate H5P_FILE_ACCESS) ""; name ← expr_to_string (f_file f); H5Fopen name true file_lst.

Lemma open_file_kept f name fl (g : global W) h g1 :
  keeps (f_collision_policy f) -> (n ← expr_to_string (f_file f); H5Fopen (Hdf5 := H5) n true fl) g = Done (Some h) g1 ->
  open_file (H5 := keeping) f true false name fl g = open_file (H5 := H5) f true false name fl g /\
  (forall o g', open_file (H5 := H5) f true false name fl g = Done o g' -> o = None).
Proof.
  intros Hp (n & g2 & He & Hopen)%bind_Done. unfold open_file. cbn [andb]. unfold mbind, M_bind. rewrite He.
  change (H5Fopen (Hdf5 := keeping) n true fl g2) with (H5Fopen (Hdf5 := H5) n true fl g2). rewrite Hopen. by apply file_collision_kept.
Qed.

(** C20: with a policy to skip or to fail, operations that only write do not change a
    file that can be opened: they do the same with a library in which every function
    that changes a file crashes. *)
Theorem existing_file_is_kept f g g0 h g1 :
  keeps (f_collision_policy f) -> only_writes f ->
  notify_event "decl_hdf5_start_timer" g = Done tt g0 -> opened f g0 = Done (Some h) g1 ->
  file_execute (H5 := keeping) f g = file_execute (H5 := H5) f g.
Proof.
  intros Hp [Hd Ha] Hstart Hopen. unfold file_execute, timed. apply bind_same; [done|]. intros [] g0' H0.
  change (notify_event "decl_hdf5_start_timer" g = Done tt g0') in H0. assert (g0' = g0) as -> by congruence. apply finally_same. clear H0 Hstart.
  apply bind_Done in Hopen as (dsets & g2 & H1 & Hopen), Hopen as (attrs & g3 & H2 & Hopen), Hopen as (filename & g4 & H3 & Hopen).
  apply bind_Done in Hopen as (fl & g5 & H4 & Hopen).
  apply bind_same; [done|]. intros dsets' g2' H1'. rewrite H1 in H1'. injection H1' as <- <-.
  apply bind_same; [done|]. intros attrs' g3' H2'. rewrite H2 in H2'. injection H2' as <- <-. cbv zeta.
  destruct (no_reads d_direction dsets) as [-> ->]; [by eapply selected_incl, H1|].
  destruct (no_reads a_direction attrs) as [-> ->]; [by eapply selected_incl, H2|]. cbn [is_nil andb].
  destruct (_ && _); [done|]. apply bind_same; [done|]. intros filename' g4' H3'. rewrite H3 in H3'. injection H3' as <- <-.
  apply bind_same; [done|]. intros fl' g5' H4'. rewrite H4 in H4'. injection H4' as <- <-.
  cbn [negb orb]. destruct (negb (is_nil dsets) || negb (is_nil attrs)) eqn:Hw.
  - destruct (open_file_kept f filename fl g5 h g1 Hp Hopen) as [Heq Hnone]. apply bind_same; [done|]. intros o g6 Ho. by rewrite (Hnone o g6 Ho).
  - apply orb_false_iff in Hw as [Hw1 Hw2]. destruct dsets; [|discriminate Hw1]. destruct attrs; [|discriminate Hw2].
    apply bind_same; [done|]. intros [raw|] g6 _; [|done]. apply with_handle_proper; [done..|]. intros h'. unfold each_do. cbn [iter].
    do 4 (apply bind_proper; [intros _|done]). done.
Qed.

End kept.

(** A dataset whose policy is to replace and warn is not replaced: what is written
    goes into the existing dataset, as with the policy to write into it. *)
Theorem replace_and_warn_writes_into (H5 : Hdf5 W) d f l dsets :
  same (dataset_write (with_policy (Z.lor REPLACE WARNING) d) f l dsets) (dataset_write (with_policy WRITE_INTO d) f l dsets).
Proof. done. Qed.

End guards.
