(* ===== verification/Hdf5Parse.v ===== *)
(** The operations that the Decl'HDF5 plugin reads from its configuration: each waits
    for events, or transfers one piece of data and waits for that piece. *)

From S2P Require Import Prelude Error Effect EffectEq ExprSyntax Datatype Layout Memory DenseCopy DenseCopyFacts Access Ref RefInv RefOps RefTheorems RefCopy Numeric Parse Yaml Template GlobalContext Eval SetValue UserCode Hdf5 Hdf5Ops Hdf5Exec.

(** The state of the plugin is stored, and a traversal visits every entry once. *)
Class Hdf5HostLaws (W : Type) {HH : Hdf5Host W} := {
  h5_data_set : forall m w, h5_data (set_h5_data m w) = m;
  h5_data_events : forall m w, h5_data (set_h5_events m w) = h5_data w;
  h5_events_set : forall m w, h5_events (set_h5_events m w) = m;
  h5_events_data : forall m w, h5_events (set_h5_data m w) = h5_events w;
  map_order_perm : forall l, map_order l ≡ₚ l
}.

(** * Splitting *)

Definition transfer_count (op : File_op) : nat := (length (f_dset_ops op) + length (f_attr_ops op) + length (f_dset_size_ops op))%nat.

(** An operation that waits for no event has one transfer. *)
Definition well_split (op : File_op) : Prop := f_event op = [] -> transfer_count op = 1%nat.

Section parse_facts.
  Context {W : Type} {RT : Runtime W} {H5 : Hdf5 W} {HH : Hdf5Host W} {HL : Hdf5HostLaws W}.

Implicit Types g : global W.

Lemma split_transfers_ok f t : Forall well_split (split_transfers f t).
Proof.
  unfold split_transfers. destruct (f_event f) eqn:He.
  - rewrite !Forall_app. split_and!; apply list.Forall_forall; intros op Hop; apply list_elem_of_In, in_map_iff in Hop as (x & <- & _); by intros _.
  - apply list.Forall_singleton. unfold well_split. simpl. by rewrite He.
Qed.

Lemma parse_file_split tree g ops g' : parse_file tree g = Done ops g' -> Forall well_split ops.
Proof.
  unfold parse_file. intros (s & g1 & _ & H)%bind_Done. apply bind_Done in H as (e & g2 & _ & H). apply bind_Done in H as (o & g3 & _ & H).
  apply bind_Done in H as (t & g4 & _ & H). apply bind_Done in H as (t' & g5 & _ & H). injection H as <- <-. apply split_transfers_ok.
Qed.

(** * Registration *)

(** The operations that are run when the data [name] is shared, and on an event. *)
Definition waiting g (name : string) : list File_op := default [] (h5_data (g_world g) !! name).
Definition expecting g (event : string) : list File_op := default [] (h5_events (g_world g) !! event).

(** The data that an operation without an event waits for: what it transfers.  An
    attribute whose value is an expression names no data. *)
Definition awaited (op : File_op) : list string :=
  match f_event op with
  | [] => map d_value (f_dset_ops op) ++ filter (fun n => n <> "") (map a_desc (f_attr_ops op)) ++ map fst (f_dset_size_ops op)
  | _ => []
  end.

(** The operations that have [name] among their keys, as often as they have it. *)
Definition listed (keys : File_op -> list string) (name : string) (ops : list File_op) : list File_op :=
  op ← ops; k ← keys op; if bool_decide (k = name) then [op] else [].

(** What was added to both tables. *)
Definition entered g g' (data event : string -> list File_op) : Prop :=
  (forall name, waiting g' name = waiting g name ++ data name) /\ (forall name, expecting g' name = expecting g name ++ event name).

Lemma entered_nothing g : entered g g (fun _ => []) (fun _ => []).
Proof. split; intros name; by rewrite app_nil_r. Qed.

Lemma entered_trans g1 g2 g3 d1 e1 d2 e2 :
  entered g1 g2 d1 e1 -> entered g2 g3 d2 e2 -> entered g1 g3 (fun n => d1 n ++ d2 n) (fun n => e1 n ++ e2 n).
Proof. intros [D1 E1] [D2 E2]. split; intros name; [rewrite D2, D1|rewrite E2, E1]; by rewrite app_assoc. Qed.

Lemma entered_ext g g' d e d' e' : (forall n, d n = d' n) -> (forall n, e n = e' n) -> entered g g' d e -> entered g g' d' e'.
Proof. intros Hd He [D E]. split; intros name; [by rewrite <- Hd|by rewrite <- He]. Qed.

Lemma add_op_lookup n op m name : default [] (add_op n op m !! name) = default [] (m !! name) ++ (if bool_decide (n = name) then [op] else []).
Proof.
  unfold add_op. case_bool_decide as Hn; [subst name; by rewrite lookup_insert_eq|]. by rewrite lookup_insert_ne, app_nil_r.
Qed.

Definition under (names : list string) (op : File_op) (name : string) : list File_op := k ← names; if bool_decide (k = name) then [op] else [].

Lemma under_app l1 l2 op name : under (l1 ++ l2) op name = under l1 op name ++ under l2 op name.
Proof. unfold under. by rewrite bind_app. Qed.

(** Adding one operation under several names. *)
Lemma add_data_ops {X} (key : X -> list string) (add : X -> M (global W) unit) op (l : list X) :
  (forall x g, key x = [] /\ add x g = Done tt g \/ exists n, key x = [n] /\ add x g = on_data_ops (add_op n op) g) ->
  forall g, exists g', each_do add l g = Done tt g' /\ entered g g' (under (l ≫= key) op) (fun _ => []).
Proof.
  intros Hadd. unfold each_do. induction l as [|x l IH]; intros g; [exists g; split; [done|apply entered_nothing]|].
  cbn [iter]. unfold mbind at 1, M_bind at 1. destruct (Hadd x g) as [[Hk ->]|(n & Hk & ->)].
  - destruct (IH g) as (g' & -> & Hg'). exists g'. split; [done|]. by rewrite bind_cons, Hk.
  - unfold on_data_ops at 1, modify. set (g1 := set_world _ g). destruct (IH g1) as (g' & -> & Hg'). exists g'. split; [done|].
    rewrite bind_cons, Hk. eapply entered_ext; [| |eapply (entered_trans g g1 g' (under [n] op) (fun _ => [])); [|exact Hg']]; [intros m; cbn beta; by rewrite under_app|by intros m|].
    split; intros m; unfold waiting, expecting, g1; simpl.
    + rewrite h5_data_set, add_op_lookup. unfold under. simpl. by rewrite app_nil_r.
    + by rewrite h5_events_data, app_nil_r.
Qed.

Lemma add_event_ops op events : forall g,
  exists g', each_do (fun evname => on_event_ops (add_op evname op)) events g = Done tt g' /\ entered g g' (fun _ => []) (under events op).
Proof.
  unfold each_do. induction events as [|n events IH]; intros g; [exists g; split; [done|apply entered_nothing]|].
  cbn [iter]. unfold mbind at 1, M_bind at 1. unfold on_event_ops at 1, modify. set (g1 := set_world _ g).
  destruct (IH g1) as (g' & -> & Hg'). exists g'. split; [done|].
  eapply entered_ext; [| |eapply (entered_trans g g1 g' (fun _ => []) (under [n] op)); [|exact Hg']]; [by intros m|intros m; exact (eq_sym (under_app [n] events op m))|].
  split; intros m; unfold waiting, expecting, g1; simpl.
  - by rewrite h5_data_events, app_nil_r.
  - rewrite h5_events_set, add_op_lookup. unfold under. simpl. by rewrite app_nil_r.
Qed.

Lemma bind_filter (l : list Attribute_op) :
  (l ≫= fun a => if bool_decide (a_desc a = "") then [] else [a_desc a]) = filter (fun n => n <> "") (map a_desc l).
Proof.
  induction l as [|a l IH]; [done|]. rewrite bind_cons, IH. simpl. case_bool_decide as Ha.
  - by rewrite filter_cons_False by tauto.
  - by rewrite filter_cons_True.
Qed.

Lemma bind_single {A B} (f : A -> B) l : (l ≫= fun x => [f x]) = map f l.
Proof. induction l as [|x l IH]; [done|]. by rewrite bind_cons, IH. Qed.

(** A traversal of at most one entry. *)
Lemma map_order_short l : (length l <= 1)%nat -> map_order l = l.
Proof.
  intros Hl. pose proof (map_order_perm l) as Hp. destruct l as [|x [|y l]]; simpl in Hl; [|by apply Permutation_singleton_r in Hp|lia].
  by apply Permutation_nil_r in Hp.
Qed.

Lemma register_op_ok op g : well_split op -> exists g', register_op op g = Done tt g' /\ entered g g' (under (awaited op) op) (under (f_event op) op).
Proof.
  intros Hs. unfold register_op, awaited. destruct (f_event op) as [|e es] eqn:He; [|by apply add_event_ops].
  pose proof (Hs He) as Hc. unfold transfer_count in Hc. assert ((length (f_dset_ops op) <=? 1)%nat = true) as -> by (apply Nat.leb_le; lia).
  unfold mbind at 1, M_bind at 1. cbn [assert mret M_ret].
  destruct (add_data_ops (fun d => [d_value d]) (fun d => on_data_ops (add_op (d_value d) op)) op (f_dset_ops op)) with g as (g1 & H1 & E1); [by right; eexists|].
  unfold mbind at 1, M_bind at 1. rewrite H1.
  destruct (add_data_ops (fun a => if bool_decide (a_desc a = "") then [] else [a_desc a])
              (fun a => if bool_decide (a_desc a = "") then mret tt else on_data_ops (add_op (a_desc a) op)) op (f_attr_ops op)) with g1 as (g2 & H2 & E2).
  { intros a g'. case_bool_decide; [by left|right; by eexists]. }
  unfold mbind at 1, M_bind at 1. rewrite H2. rewrite map_order_short by lia.
  destruct (add_data_ops (fun s => [s.1]) (fun s => on_data_ops (add_op s.1 op)) op (f_dset_size_ops op)) with g2 as (g3 & H3 & E3); [by right; eexists|].
  exists g3. split; [done|]. eapply entered_ext; [| |eapply entered_trans; [exact E1|eapply entered_trans; [exact E2|exact E3]]]; [|done].
  intros n. cbn beta. by rewrite !under_app, bind_filter, !bind_single.
Qed.

(** C21: the operations read from one element of the configuration are all registered,
    in order: no assertion of the plugin fails; what is run when data is shared is,
    after what was run before, the operations without an event that transfer this
    data, and each of them has that one transfer only; what is run on an event is,
    after what was run before, the operations that name the event. *)
Theorem operations_wait_for_their_data tree g ops g1 :
  parse_file tree g = Done ops g1 ->
  exists g2, each_do register_op ops g1 = Done tt g2 /\
    (forall name, waiting g2 name = waiting g1 name ++ listed awaited name ops) /\
    (forall event, expecting g2 event = expecting g1 event ++ listed f_event event ops) /\
    Forall (fun op => f_event op = [] -> transfer_count op = 1%nat) ops.
Proof.
  intros Hp%parse_file_split.
  assert (Hreg : exists g2, each_do register_op ops g1 = Done tt g2 /\ entered g1 g2 (fun n => listed awaited n ops) (fun n => listed f_event n ops)).
  { revert g1. unfold each_do. induction Hp as [|op ops Hop _ IH]; intros g1; [exists g1; split; [done|apply entered_nothing]|].
    destruct (register_op_ok op g1 Hop) as (g2 & Hrun & E1). cbn [iter]. unfold mbind, M_bind. rewrite Hrun. destruct (IH g2) as (g3 & Hrun3 & E2).
    exists g3. split; [done|]. eapply entered_ext; [| |eapply entered_trans; [exact E1|exact E2]]; intros n; done. }
  destruct Hreg as (g2 & Hrun & D & E). exists g2. by split_and!.
Qed.

End parse_facts.
