(* ===== verification/Hdf5Run.v ===== *)
(** An HDF5 library that keeps its files in memory, a run of the Decl'HDF5 plugin
    with it, and the instances of the theorems of the plugin. *)

From S2P Require Import Prelude Error Effect EffectEq ExprSyntax Datatype Layout Memory DenseCopy DenseCopyFacts Access Ref RefInv RefOps RefTheorems RefCopy Numeric Parse Yaml Template GlobalContext Eval ContextInv DescriptorInv EvalInv Share ShareFacts Logger SetValue SetValueRun UserCode Hdf5 Hdf5Ops Hdf5Exec Hdf5Facts Hdf5Guards Hdf5Parse.

(** * A library in memory *)

(** A dataset or an attribute: its dimensions, the size of its elements, and their bytes. *)
Record object := mkObject { o_dims : list Z; o_bytes : Z; o_data : gmap Z (list Z) }.

Record h5world := mkWorld {
  w_events : gmap string (list File_op);
  w_ops : gmap string (list File_op);
  w_files : gmap string (gmap string object)
}.

Abbreviation G := (M (global h5world)).

(** Dimensions, start and count. *)
Abbreviation block := (list Z * list Z * list Z)%type.

Definition on_object (file name : string) (f : object -> option object) : G bool := fun g =>
  let files := w_files (g_world g) in
  match files !! file with
  | Some objects =>
      match objects !! name with
      | Some o =>
          match f o with
          | Some o => Done true (set_world (mkWorld (w_events (g_world g)) (w_ops (g_world g)) (<[file := <[name := o]> objects]> files)) g)
          | None => Crashed
          end
      | None => Done false g
      end
  | None => Done false g
  end.

Definition find_object (file name : string) : G (option object) := gets (fun g => objects ← w_files (g_world g) !! file; objects !! name).

Definition add_object (file name : string) (o : object) : G bool := fun g =>
  let files := w_files (g_world g) in
  match files !! file with
  | Some objects => Done true (set_world (mkWorld (w_events (g_world g)) (w_ops (g_world g)) (<[file := <[name := o]> objects]> files)) g)
  | None => Done false g
  end.

Definition set_files (file : string) (objects : gmap string object) : G unit :=
  modify (fun g => set_world (mkWorld (w_events (g_world g)) (w_ops (g_world g)) (<[file := objects]> (w_files (g_world g)))) g).

(** The places of two selections that are transferred to each other. *)
Definition pairs (mem file : block) : list (Z * Z) :=
  zip (map (linear mem.1.1) (points mem.1.2 mem.2)) (map (linear file.1.1) (points file.1.2 file.2)).

Definition write_points (bytes : Z) (ps : list (Z * Z)) (p : Z) (m : mem) (o : object) : option object :=
  foldr (fun ab acc => o ← acc; bs ← load m (p + bytes * ab.1) (Z.to_nat bytes); Some (mkObject (o_dims o) (o_bytes o) (<[ab.2 := bs]> (o_data o)))) (Some o) ps.

Definition read_points (bytes : Z) (ps : list (Z * Z)) (p : Z) (o : object) (m : mem) : outcome mem :=
  foldr (fun ab acc => m ← acc; deref (Memory.store m (p + bytes * ab.1) (default (replicate (Z.to_nat bytes) 0) (o_data o !! ab.2)))) (Ret m) ps.

Definition read_object (file name : string) (bytes : Z) (ps : list (Z * Z)) (p : Z) : G bool :=
  o ← find_object file name;
  match o with Some o => unit_mem (read_points bytes ps p o);; mret true | None => mret false end.

Definition whole (dims : list Z) : block := (dims, replicate (length dims) 0, dims).

Definition attribute_key (dest : string + string * string) (name : string) : string * string :=
  match dest with inl f => (f, "#" +:+ name) | inr (f, d) => (f, d +:+ "#" +:+ name) end.

(** Groups other than the root do not exist; attributes are objects too. *)
#[local] Instance memory_hdf5 : Hdf5 h5world := {|
  hspace := block; htype := Z; hplist := unit; hfile := string; hset := string * string; hgroup := string; hattr := string * string * list Z;
  H5T_native := fun t => match t with H5T_NATIVE_UINT n | H5T_NATIVE_INT n => n | H5T_NATIVE_FLOAT => 4 | H5T_NATIVE_DOUBLE => 8 | H5T_NATIVE_LDOUBLE => 16 end;
  H5Tcreate_compound := fun n => n; H5Tinsert := fun h _ _ _ => h; H5Tarray_create2 := fun h dims => product dims * h;
  H5Screate_simple := fun dims => if (length dims <=? 32)%nat then Some (whole dims) else None;
  H5Screate_scalar := Some ([], [], []);
  H5Sselect_hyperslab := fun s start count => Some (s.1.1, start, count);
  H5Sget_simple_extent_dims := fun s => Some s.1.1;
  H5Sget_select_bounds := fun s => Some (s.1.2, zip_with (fun a n => a + n - 1) s.1.2 s.2);
  H5Sget_select_npoints := fun s => Some (product s.2);
  H5Sis_simple := fun _ => true;
  H5Pcreate := fun _ => Some tt; H5Pset_chunk := fun p _ => p; H5Pset_deflate := fun p _ => p; H5Pset_fletcher32 := fun p => p;
  H5Pset_create_intermediate_group := Some;
  H5Ewalk2 := fun _ => [];
  H5Fopen := fun name _ _ => gets (fun g => if bool_decide (is_Some (w_files (g_world g) !! name)) then Some name else None);
  H5Fcreate := fun name truncate _ g =>
    if negb truncate && bool_decide (is_Some (w_files (g_world g) !! name)) then Done None g else (set_files name ∅;; mret (Some name)) g;
  H5Fclose := fun _ => mret tt;
  H5Ldelete := fun f name => modify (fun g => set_world (mkWorld (w_events (g_world g)) (w_ops (g_world g)) (alter (delete name) f (w_files (g_world g)))) g);; mret true;
  H5Dopen2 := fun f name => o ← find_object f name; mret (match o with Some _ => Some (f, name) | None => None end);
  H5Dcreate2 := fun f name type s _ _ => ok ← add_object f name (mkObject s.1.1 type ∅); mret (if ok : bool then Some (f, name) else None);
  H5Dclose := fun _ => mret tt;
  H5Dget_space := fun d => o ← find_object d.1 d.2; mret (match o with Some o => Some (whole (o_dims o)) | None => None end);
  H5Dread := fun d type ms fs _ p => read_object d.1 d.2 type (pairs ms fs) p;
  H5Dwrite := fun d type ms fs _ p g => on_object d.1 d.2 (write_points type (pairs ms fs) p (g_mem g)) g;
  H5Gopen := fun f path => mret (if bool_decide (path = "") then Some f else None);
  H5Gclose := fun _ => mret tt;
  H5Aopen := fun dest name =>
    let '(f, key) := attribute_key dest name in o ← find_object f key; mret (match o with Some o => Some (f, key, o_dims o) | None => None end);
  H5Acreate := fun dest name type s =>
    let '(f, key) := attribute_key dest name in
    ok ← add_object f key (mkObject s.1.1 type ∅); mret (if ok : bool then Some (f, key, s.1.1) else None);
  H5Aclose := fun _ => mret tt;
  H5Awrite := fun a type p g => on_object a.1.1 a.1.2 (write_points type (pairs (whole a.2) (whole a.2)) p (g_mem g)) g;
  H5Aread := fun a type p => read_object a.1.1 a.1.2 type (pairs (whole a.2) (whole a.2)) p
|}.

#[local] Instance memory_dataspaces : Dataspaces h5world.
Proof.
  refine (Build_Dataspaces h5world memory_hdf5 (fun s : block => s.1.1) (fun s : block => s.1.2) (fun s : block => s.2) _ _ _ _ _); simpl; try done.
  - intros dims Hlen _. apply Nat.leb_le in Hlen. rewrite Hlen. by exists (whole dims).
  - intros s start count _ _ _. by exists (s.1.1, start, count).
Defined.

#[local] Instance memory_host : Hdf5Host h5world := {|
  h5_events := w_events;
  h5_data := w_ops;
  set_h5_events := fun m w => mkWorld m (w_ops w) (w_files w);
  set_h5_data := fun m w => mkWorld (w_events w) m (w_files w);
  on_h5_data := 0;
  on_h5_event := 1;
  regex_valid := fun _ => None;
  regex_match := fun name regex => bool_decide (name = regex);
  map_order := fun l => l;
  H5open := mret true;
  H5close := mret true;
  H5E_install := mret true;
  H5E_restore := mret true;
  h5_type_fuel := 9%nat
|}.

#[local] Instance memory_host_laws : Hdf5HostLaws h5world.
Proof. by split. Defined.

(** * A run *)

(** The callbacks of the plugin; [depth] bounds their nesting. *)
Fixpoint hdf5_callbacks (depth : nat) (callback : Z) (name : string) (arg : option nat) : M (global h5world) unit :=
  match depth with
  | O => lift Crash
  | S depth =>
      if callback =? 0 then hdf5_data (RT := runtime_with even_allocator (hdf5_callbacks depth)) name
      else hdf5_event (RT := runtime_with even_allocator (hdf5_callbacks depth)) name
  end.

#[local] Instance hdf5_runtime : Runtime h5world := runtime_with even_allocator (hdf5_callbacks 3).

(** A field with ghosts is written when it is shared; the event [load] reads it back
    into a part of an array, and the size of the dataset. *)
Definition mapping_of (l : list (string * yaml)) : yaml := YMapping no_region (map (fun kv => (scalar_tree kv.1, kv.2)) l).

Definition hdf5_config : PC_tree :=
  tree_of (sequence_of
    [mapping_of [("file", scalar_tree "out.h5"); ("collision_policy", scalar_tree "skip");
                 ("write", mapping_of [("field", mapping_of [("dataset", scalar_tree "data")])])];
     mapping_of [("file", scalar_tree "out.h5"); ("on_event", scalar_tree "load");
                 ("read", mapping_of
                    [("copy", mapping_of [("dataset", scalar_tree "data");
                                          ("memory_selection", mapping_of [("size", sequence_of [scalar_tree "2"; scalar_tree "2"]);
                                                                           ("start", sequence_of [scalar_tree "0"; scalar_tree "1"])])]);
                     ("sizes", mapping_of [("size_of", scalar_tree "data")])])]]).

Definition byte : Datatype := Scalar_datatype [] UNSIGNED 1 1 1 None None.
Definition long_type : Datatype := Scalar_datatype [] SIGNED 8 8 8 None None.
Definition array2 (t : Datatype) (n s c n' s' c' : Z) : Datatype := Array_datatype [] (Array_datatype [] t n' s' c') n s c.

Definition field_type : Datatype := array2 byte 4 1 2 3 0 2.
Definition copy_type : Datatype := array2 byte 2 0 2 3 0 3.

Definition hdf5_start : global h5world :=
  mkGlobal empty_store (bytes_at 4096 [0; 0; 0; 11; 12; 0; 21; 22; 0; 0; 0; 0] ∪ bytes_at 8192 (replicate 6 9) ∪ bytes_at 12288 (replicate 16 9)) ∅
    {["field" := mkDescriptor (Datatype_as_template field_type) false []; "copy" := mkDescriptor (Datatype_as_template copy_type) false [];
      "sizes" := mkDescriptor (Datatype_as_template (Array_datatype [] long_type 2 0 2)) false []]}
    (fun _ => mkRegistry [] []) 0 (mkWorld ∅ ∅ ∅).

Definition hdf5_session : M (global h5world) unit :=
  decl_hdf5_plugin hdf5_config;;
  share_data "field" 4096 true false;;
  share_data "copy" 8192 true true;;
  share_data "sizes" 12288 true true;;
  notify_event "load".

Example hdf5_run :
  match hdf5_session hdf5_start with
  | Done _ g => Some (load (g_mem g) 8192 6, load (g_mem g) 12288 16)
  | _ => None
  end = Some (Some [9; 11; 12; 9; 21; 22], Some ([2; 0; 0; 0; 0; 0; 0; 0] ++ [2; 0; 0; 0; 0; 0; 0; 0])).
Proof. vm_compute. reflexivity. Qed.

(** * Instances *)

Lemma dataspaces_select_the_data_witness :
  exists mem_space file_space : hspace,
    space field_type false hdf5_start = Done (mem_space, 1 : htype) hdf5_start /\ space field_type true hdf5_start = Done (file_space, 1 : htype) hdf5_start /\
    (forall m p, map (fun c => p + buffersize (leaf field_type) * linear (dims_of mem_space) c) (points (start_of mem_space) (count_of mem_space))
                 = elements m field_type p /\ H5Sget_select_npoints mem_space = Some (Z.of_nat (length (elements m field_type p)))) /\
    dims_of file_space = count_of mem_space /\ count_of file_space = count_of mem_space /\
    validate_dataspaces no_tree mem_space file_space "data" hdf5_start = Done tt hdf5_start.
Proof.
  apply dataspaces_select_the_data. unfold transferable. split_and!; [by vm_compute|done|vm_compute; lia| |by vm_compute|by vm_compute].
  repeat constructor.
Defined.

Definition part_selection : Selection := mkSelection no_tree [Int_literal 2; Int_literal 1] [Int_literal 0; Int_literal 1].

Definition field_space : hspace (W := h5world) := ([4; 3], [1; 0], [2; 2]).

Lemma selection_applies_witness :
  exists s', apply part_selection field_space None hdf5_start = Done s' hdf5_start /\ dims_of s' = [4; 3] /\ start_of s' = zip_with size_add [1; 0] [0; 1] /\ count_of s' = [2; 1].
Proof.
  destruct (selection_applies part_selection field_space None [2; 1] [0; 1] hdf5_start hdf5_start hdf5_start) as (s' & Hs); try done.
  - unfold selectable. split; [done|]. apply (bool_decide_unpack _). by vm_compute.
  - apply (evaluates_cons (Int_literal 2) _ _ 2 hdf5_start); [done|]. apply (evaluates_cons (Int_literal 1) _ _ 1 hdf5_start); [done|]. constructor.
  - apply (evaluates_cons (Int_literal 0) _ _ 0 hdf5_start); [done|]. apply (evaluates_cons (Int_literal 1) _ _ 1 hdf5_start); [done|]. constructor.
  - repeat constructor.
  - by exists s'.
Defined.

(** The file exists, and an operation would write data that is shared. *)
Definition field_write : Dataset_op := mkDataset WRITE_INTO WRITE (String_literal "data" []) "field" (Int_literal 1) no_selection no_selection None None None [].

Definition skip_op : File_op := mkFile (Z.lor SKIP WARNING) (String_literal "out.h5" []) [] [] [field_write] [] [].

Definition kept_start : global h5world := set_world (mkWorld ∅ ∅ {["out.h5" := ∅]}) hdf5_start.

Lemma existing_file_is_kept_witness : file_execute (H5 := keeping memory_hdf5) skip_op kept_start = file_execute skip_op kept_start.
Proof.
  eapply existing_file_is_kept; [by left|by split; repeat constructor|by vm_compute|by vm_compute].
Defined.

(** One file with a dataset and an attribute. *)
Definition two_writes : PC_tree :=
  tree_of (mapping_of [("file", scalar_tree "out.h5"); ("write", sequence_of [scalar_tree "field"; scalar_tree "field#unit"])]).

Definition two_ops : list File_op := match parse_file two_writes hdf5_start with Done ops _ => ops | _ => [] end.

Lemma operations_wait_for_their_data_witness :
  length two_ops = 2%nat /\ (forall op, head two_ops = Some op -> listed awaited "field" two_ops = [op]) /\
  exists g2, each_do register_op two_ops hdf5_start = Done tt g2 /\
    (forall name, waiting g2 name = waiting hdf5_start name ++ listed awaited name two_ops) /\
    (forall event, expecting g2 event = expecting hdf5_start event ++ listed f_event event two_ops) /\
    Forall (fun op => f_event op = [] -> transfer_count op = 1%nat) two_ops.
Proof.
  split_and!; [by vm_compute|by intros op [= <-]; vm_compute|]. apply (operations_wait_for_their_data two_writes hdf5_start). by vm_compute.
Defined.
