(* ===== verification/Netcdf.v ===== *)
(** The Decl'NetCDF plugin, first part: the netCDF library as an interface, and the
    configuration of attributes, groups, variables and transfers
    ([plugins/decl_netcdf/dnc_attribute.cxx], [dnc_group.cxx], [dnc_variable.cxx],
    [dnc_io.cxx]).

    The plugin is built for a netCDF library that is not parallel. *)

From S2P Require Import Prelude Error Effect ExprSyntax Datatype Layout Memory DenseCopy Access Ref RefInv RefOps RefTheorems RefCopy Numeric Parse Yaml Template GlobalContext Eval SetValue UserCode Hdf5.
From Stdlib Require Import Ascii.

(** * The netCDF library *)

(** Functions have a status, and those with an output return it or a status that is
    not [NC_NOERR]; ids are integers and data is at an address. *)
Class Netcdf (W : Type) := {
  nc_strerror : Z -> string;
  nc_open : string -> forall write : bool, M (global W) (Z + Z);
  nc_create : string -> forall write : bool, M (global W) (Z + Z);
  nc_redef : Z -> M (global W) Z;
  nc_enddef : Z -> M (global W) Z;
  nc_close : Z -> M (global W) Z;
  nc_inq_grp_ncid : Z -> string -> M (global W) (Z + Z);
  nc_def_grp : Z -> string -> M (global W) (Z + Z);
  nc_inq_dimid : Z -> string -> M (global W) (Z + Z);
  nc_inq_dimlen : Z -> Z -> M (global W) (Z + Z);
  nc_def_dim : Z -> string -> Z -> M (global W) (Z + Z);
  nc_inq_typeid : Z -> string -> M (global W) (Z + Z);
  nc_def_compound : Z -> Z -> string -> M (global W) (Z + Z);
  nc_insert_compound : Z -> Z -> string -> Z -> Z -> M (global W) Z;
  nc_insert_array_compound : Z -> Z -> string -> Z -> Z -> list Z -> M (global W) Z;
  nc_inq_varid : Z -> string -> M (global W) (Z + Z);
  nc_def_var : Z -> string -> Z -> list Z -> M (global W) (Z + Z);
  nc_def_var_chunking : Z -> Z -> list Z -> M (global W) Z;
  nc_def_var_deflate : Z -> Z -> Z -> M (global W) Z;
  nc_inq_vartype : Z -> Z -> M (global W) (Z + Z);
  nc_inq_type : Z -> M (global W) (Z + Z);
  nc_inq_varndims : Z -> Z -> M (global W) (Z + Z);
  nc_inq_vardimid : Z -> Z -> M (global W) (Z + list Z);
  nc_get_att : Z -> Z -> string -> Z -> M (global W) Z;
  nc_put_att : Z -> Z -> string -> Z -> Z -> Z -> M (global W) Z;
  nc_del_att : Z -> Z -> string -> M (global W) Z;
  nc_put_var : Z -> Z -> Z -> M (global W) Z;
  nc_put_vara : Z -> Z -> list Z -> list Z -> Z -> M (global W) Z;
  nc_get_var : Z -> Z -> Z -> M (global W) Z;
  nc_get_vara : Z -> Z -> list Z -> list Z -> Z -> M (global W) Z
}.

Definition NC_NOERR : Z := 0.
Definition NC_GLOBAL : Z := -1.
Definition NC_BYTE : Z := 1.
Definition NC_CHAR : Z := 2.
Definition NC_SHORT : Z := 3.
Definition NC_INT : Z := 4.
Definition NC_FLOAT : Z := 5.
Definition NC_DOUBLE : Z := 6.
Definition NC_UBYTE : Z := 7.
Definition NC_USHORT : Z := 8.
Definition NC_UINT : Z := 9.
Definition NC_INT64 : Z := 10.
Definition NC_UINT64 : Z := 11.

Definition nc_scalar_type (t : Datatype) (k : Scalar_kind) : outcome Z :=
  let size := buffersize t in
  match k with
  | SIGNED =>
      if size =? 1 then Ret NC_CHAR else if size =? 2 then Ret NC_SHORT else if size =? 4 then Ret NC_INT else if size =? 8 then Ret NC_INT64
      else Throw (Type_error "Decl_netcdf plugin: Unsupported signed scalar datatype")
  | UNSIGNED => if size =? 1 then Ret NC_CHAR else Throw (Type_error "Decl_netcdf plugin: Unsupported unsigned scalar datatype")
  | FLOAT =>
      if size =? 4 then Ret NC_FLOAT else if size =? 8 then Ret NC_DOUBLE
      else Throw (Type_error "Decl_netcdf plugin: Unsupported float scalar datatype")
  | UNKNOWN => s ← debug_string t; Throw (Type_error ("Decl_netcdf plugin: Unsupported unknown scalar datatype: " +:+ s))
  end.

(** * Paths *)

(** The text before the last slash, if there is one, and the text after it. *)
Fixpoint split_last_slash (s : string) : option string * string :=
  match s with
  | EmptyString => (None, EmptyString)
  | String c s' =>
      match split_last_slash s' with
      | (Some before, after) => (Some (String c before), after)
      | (None, after) => if bool_decide (c = "/"%char) then (Some EmptyString, after) else (None, String c after)
      end
  end.

Definition split_group_and_variable (variable_path : string) : string * string :=
  let '(group_path, variable_name) :=
    match split_last_slash variable_path with (Some group_path, variable_name) => (group_path, variable_name) | (None, _) => ("/", variable_path) end in
  match group_path with
  | String c _ => (if bool_decide (c = "/"%char) then group_path else String "/"%char group_path, variable_name)
  | EmptyString => ("/", variable_name)
  end.

(** The parts between slashes that are not empty; [group] is the part being read. *)
Fixpoint split_groups (group s : string) : list string :=
  let add (l : list string) := match group with EmptyString => l | _ => group :: l end in
  match s with
  | EmptyString => add []
  | String c s => if bool_decide (c = "/"%char) then add (split_groups EmptyString s) else split_groups (group +:+ String c EmptyString) s
  end.

Definition split_to_groups (path : string) : list string := split_groups EmptyString path.

(** * Configuration *)

Record Dnc_attribute := mkNcAttribute { at_name : string; at_value : Impl }.

Record Dnc_group := mkNcGroup { gr_path : string; gr_attributes : list Dnc_attribute }.

(** Without a type or an expression the member is empty. *)
Record Dnc_variable := mkNcVariable {
  v_path : string;
  v_type : option Template;
  v_dimensions_names : list Impl;
  v_attributes : list Dnc_attribute;
  v_deflate : option Impl;
  v_chunking : option Impl
}.

Record Dnc_io := mkNcIo {
  io_variable_path : option Impl;
  io_when : option Impl;
  io_start : list Impl;
  io_subsize : list Impl
}.

Definition string_expression (t : PC_tree) : outcome Impl := s ← Yaml.to_string t; parse_expression s.

(** [Expression{to_string(node)}] where there is a node. *)
Definition opt_expression (t : PC_tree) : outcome (option Impl) := if PC_status t then Ret None else e ← string_expression t; Ret (Some e).

(** The expressions of the items of a node. *)
Definition item_expressions (t : PC_tree) : outcome (list Impl) :=
  n ← len t; for_each (fun i l => e ← string_expression (get_item t i); Ret (l ++ [e])) (seq 0 n) [].

Definition read_attributes (config : PC_tree) : outcome (list Dnc_attribute) :=
  let attributes_node := get_key config "attributes" in
  if PC_status attributes_node then Ret []
  else each_pair attributes_node (fun attr_name attr_value l =>
         n ← Yaml.to_string attr_name; e ← string_expression attr_value; Ret (l ++ [mkNcAttribute n e])) [].

(** [Dnc_group::Dnc_group] *)
Definition make_group (path : string) (config : PC_tree) : outcome Dnc_group := l ← read_attributes config; Ret (mkNcGroup path l).

(** [Dnc_variable::Dnc_variable] *)
Definition make_variable (parsers : Parsers) (fuel : nat) (path : string) (config : PC_tree) (deflate : option Impl) : outcome Dnc_variable :=
  attributes ← read_attributes config;
  let dimensions_node := get_key config "dimensions" in
  dims ← (if negb (PC_status dimensions_node) && is_list dimensions_node then item_expressions dimensions_node else Ret []);
  type ← (if PC_status (get_key config "type") then Ret None else t ← datatype parsers fuel config; Ret (Some t));
  let deflate_node := get_key config "deflate" in
  deflate ← (if PC_status deflate_node then Ret deflate else e ← parse_tree deflate_node; Ret (Some e));
  let chunking_node := get_key config "chunking" in
  chunking ← (if PC_status chunking_node then Ret None else e ← parse_tree chunking_node; Ret (Some e));
  Ret (mkNcVariable path type dims attributes deflate chunking).

(** [Dnc_io::Dnc_io] *)
Definition make_io (config : PC_tree) : outcome Dnc_io :=
  let variable_node := get_key config "variable" in
  path ← (if negb (PC_status variable_node) then opt_expression variable_node else opt_expression (get_key config "size_of"));
  let selection := get_key config "variable_selection" in
  '(start, subsize) ← (
    if PC_status selection then Ret ([], [])
    else
      start ← (let node := get_key selection "start" in if PC_status node then Ret [] else item_expressions node);
      subsize ← (let node := get_key selection "subsize" in if PC_status node then Ret [] else item_expressions node);
      Ret (start, subsize));
  when ← opt_expression (get_key config "when");
  Ret (mkNcIo path when start subsize).

(** ** Evaluation *)

Section netcdf.
  Context {W : Type} {RT : Runtime W}.

Abbreviation G := (M (global W)).

Definition variable_path (io : Dnc_io) : G string := match io_variable_path io with Some e => expr_to_string e | None => mret "" end.

Definition io_holds (io : Dnc_io) : G bool := match io_when io with Some e => v ← expr_to_long e; mret (negb (v =? 0)) | None => mret true end.

(** The values of expressions as [size_t]. *)
Definition to_sizes (es : list Impl) : G (list Z) := iter (fun e l => v ← to_hsize e; mret (l ++ [v])) es [].

Definition get_dims_start (io : Dnc_io) (var_stride : list Z) : G (list Z) :=
  match io_start io with
  | [] => mret (map (fun _ => 0) var_stride)
  | es =>
      if negb (vsize es =? vsize var_stride) then
        throw (Permission_error ("Decl_netcdf plugin: Dimensions of stride and start differ: " +:+ pretty (vsize es) +:+ " != " +:+ pretty (vsize var_stride)))
      else to_sizes es
  end.

Definition get_dims_count (io : Dnc_io) (var_stride : list Z) : G (list Z) :=
  match io_subsize io with
  | [] => mret var_stride
  | es =>
      if negb (vsize es =? vsize var_stride) then
        throw (Permission_error ("Decl_netcdf plugin: Dimensions of stride and subsize differ: " +:+ pretty (vsize es) +:+ " != " +:+ pretty (vsize var_stride)))
      else to_sizes es
  end.

(** [Dnc_variable::type] *)
Definition variable_type (v : Dnc_variable) : G (option Datatype) :=
  match v_type v with Some t => d ← evaluate_in_context t; mret (Some d) | None => mret None end.

Definition dimensions_names (v : Dnc_variable) : G (list string) :=
  iter (fun e l => s ← expr_to_string e; mret (l ++ [s])) (v_dimensions_names v) [].

End netcdf.

(** The dimensions and the type of the elements of nested arrays: the loops over
    array types. *)
Fixpoint array_dims (t : Datatype) : list Z * Datatype :=
  match t with
  | Array_datatype _ sub size _ _ => let '(sizes, elt) := array_dims sub in (size :: sizes, elt)
  | _ => ([], t)
  end.

Definition as_int (n : Z) : Z := to_int true 4 n.
