(* ===== verification/NetcdfFile.v ===== *)
(** The Decl'NetCDF plugin, second part: an open file
    ([plugins/decl_netcdf/dnc_netcdf_file.cxx]).

    A [Dnc_netcdf_file] is a local object: its methods return its new members. *)

From S2P Require Import Prelude Error Effect ExprSyntax Datatype Layout Memory DenseCopy Access Ref RefInv RefOps RefTheorems RefCopy Numeric Parse Yaml Template GlobalContext Eval SetValue UserCode Hdf5 Hdf5Ops Hdf5Exec Netcdf.
From Stdlib Require Import Ascii.

(** The ids of the groups by their path, and of the variables. *)
Record Dnc_netcdf_file := mkNcFile {
  nf_file_id : Z;
  nf_groups : gmap string Z;
  nf_variables : gmap string Z
}.

(** [unordered_map::emplace] *)
Definition map_emplace {A} (k : string) (v : A) (m : gmap string A) : gmap string A := match m !! k with Some _ => m | None => <[k := v]> m end.

Definition add_group (path : string) (id : Z) (nc : Dnc_netcdf_file) : Dnc_netcdf_file :=
  mkNcFile (nf_file_id nc) (map_emplace path id (nf_groups nc)) (nf_variables nc).
Definition add_variable (path : string) (id : Z) (nc : Dnc_netcdf_file) : Dnc_netcdf_file :=
  mkNcFile (nf_file_id nc) (nf_groups nc) (map_emplace path id (nf_variables nc)).

Section file.
  Context {W : Type} {RT : Runtime W} {NC : Netcdf W}.

Abbreviation G := (M (global W)).

(** * Status *)

Definition nc_error {A} (status : Z) (message : string) : G A :=
  throw (Value_error ("in NetCDF, " +:+ message +:+ ": " +:+ nc_strerror status)).

(** [nc_try], with and without an output. *)
Definition nc_value {A} (call : G (Z + A)) (message : string) : G A :=
  r ← call; match r with inr x => mret x | inl status => nc_error status message end.
Definition nc_try (call : G Z) (message : string) : G unit :=
  status ← call; if status =? NC_NOERR then mret tt else nc_error status message.

(** The text of an id in messages. *)
Definition in_id (id : Z) : string := "(nc_id = " +:+ pretty id +:+ ")".
Definition in_ids (id var_id : Z) : string := "(nc_id = " +:+ pretty id +:+ "/" +:+ pretty var_id +:+ ")".

(** * Opening and closing *)

(** The constructor: a file that can not be opened is created, whatever the rights. *)
Definition open_nc_file (filename : string) (write : bool) (communicator : option Impl) : G Dnc_netcdf_file :=
  match communicator with
  | Some _ => throw (System_error "Decl_netcdf plugin: MPI communicator defined, but NetCDF is not parallel")
  | None =>
      r ← nc_open filename write;
      file_id ← (match r with
                 | inl _ => nc_value (nc_create filename write) ("cannot open or create file `" +:+ filename +:+ "'")
                 | inr id =>
                     (if write then nc_try (nc_redef id) "file opened for writing, cannot get define mode" else mret tt);; mret id
                 end);
      mret (mkNcFile file_id {["/" := file_id]} ∅)
  end.

(** The destructor; an exception in it ends the program. *)
Definition close_nc_file (filename : string) (nc : Dnc_netcdf_file) : G unit :=
  nc_try (nc_close (nf_file_id nc)) ("cannot close the file " +:+ filename).

(** * Attributes *)

(** A [Ref_w] or a [Ref_r] made from the value of an attribute. *)
Definition get_attribute (src_id var_id : Z) (a : Dnc_attribute) : G unit :=
  with_ref (writable (expr_to_ref (at_value a))) (fun ref_w =>
    null ← ref_is_null ref_w;
    if null : bool then mret tt
    else
      t ← ref_type ref_w;
      match t with
      | Scalar_datatype _ _ _ _ _ _ _ =>
          p ← ref_get ref_w;
          nc_try (nc_get_att src_id var_id (at_name a) p) ("cannot get attribute `" +:+ at_name a +:+ "' from " +:+ in_ids src_id var_id)
      | Array_datatype _ (Scalar_datatype _ _ _ _ _ _ _) _ _ _ =>
          d ← lift (dense t);
          if negb d then throw (Type_error "Decl_netcdf plugin: Attribute type must be dense (continuous memory)")
          else
            p ← ref_get ref_w;
            status ← nc_get_att src_id var_id (at_name a) p;
            if status =? NC_NOERR then mret tt
            else throw (System_error ("Decl_netcdf plugin: Cannot get attribute `" +:+ at_name a +:+ "' from " +:+ in_ids src_id var_id))
      | Array_datatype _ _ _ _ _ => throw (Type_error "Decl_netcdf plugin: Multi dimensional array for attribute not supported")
      | _ => throw (Type_error "Decl_netcdf plugin: Record datatype for attribute not supported")
      end).

Definition put_attribute (dest_id var_id : Z) (a : Dnc_attribute) : G unit :=
  nc_del_att dest_id var_id (at_name a);;
  with_ref (readable (expr_to_ref (at_value a))) (fun ref_r =>
    null ← ref_is_null ref_r;
    if null : bool then mret tt
    else
      t ← ref_type ref_r;
      let put (elt : Datatype) (k : Scalar_kind) (n : Z) :=
        ty ← lift (nc_scalar_type elt k);
        p ← ref_get ref_r;
        nc_try (nc_put_att dest_id var_id (at_name a) ty n p) ("cannot set attribute `" +:+ at_name a +:+ "' in " +:+ in_ids dest_id var_id) in
      match t with
      | Scalar_datatype _ k _ _ _ _ _ => put t k 1
      | Array_datatype _ (Scalar_datatype _ k _ _ _ _ _ as elt) size _ _ =>
          d ← lift (dense t);
          if negb d then throw (Type_error "Decl_netcdf plugin: Attribute type must be dense (continuous memory)") else put elt k size
      | Array_datatype _ _ _ _ _ => throw (Type_error "Decl_netcdf plugin: Multi dimensional array for attribute not supported")
      | _ => throw (Type_error "Decl_netcdf plugin: Record datatype for attribute not supported")
      end).

(** * Groups *)

(** Following the names of groups from the root, whose id and path are [dest]. *)
Definition walk_groups (step : Z -> string -> G Z) (names : list string) (nc : Dnc_netcdf_file) : G (Z * Dnc_netcdf_file) :=
  '(dest_id, _, nc) ← iter (fun group_name '(dest_id, dest_path, nc) =>
    group_id ← step dest_id group_name;
    let dest_path := dest_path +:+ "/" +:+ group_name in
    mret (group_id, dest_path, add_group dest_path group_id nc)) names (nf_file_id nc, "", nc);
  mret (dest_id, nc).

Definition read_step (dest_id : Z) (group_name : string) : G Z :=
  nc_value (nc_inq_grp_ncid dest_id group_name) ("cannot read `" +:+ group_name +:+ "' group from " +:+ in_id dest_id).

Definition define_step (dest_id : Z) (group_name : string) : G Z :=
  r ← nc_inq_grp_ncid dest_id group_name;
  match r with
  | inr group_id => mret group_id
  | inl _ => nc_value (nc_def_grp dest_id group_name) ("cannot define group " +:+ group_name +:+ " in " +:+ in_id dest_id)
  end.

Definition read_group (group : Dnc_group) (nc : Dnc_netcdf_file) : G Dnc_netcdf_file :=
  '(group_id, nc) ← walk_groups read_step (split_to_groups (gr_path group)) nc;
  each_do (get_attribute group_id NC_GLOBAL) (gr_attributes group);; mret nc.

Definition define_group (group : Dnc_group) (nc : Dnc_netcdf_file) : G Dnc_netcdf_file :=
  '(group_id, nc) ← walk_groups define_step (split_to_groups (gr_path group)) nc;
  each_do (put_attribute group_id NC_GLOBAL) (gr_attributes group);; mret nc.

(** [group_it->second], where [group_it] may be the end of the map. *)
Definition group_id_of (group_path : string) (nc : Dnc_netcdf_file) : G Z :=
  match nf_groups nc !! group_path with Some id => mret id | None => lift Crash end.

(** * Types *)

(** [define_compound_type] of a record, and the types of the other elements; an
    array has the type of its elements. *)
Fixpoint type_id_of (file_id : Z) (t : Datatype) : G Z :=
  match t with
  | Scalar_datatype _ k _ _ _ _ _ => lift (nc_scalar_type t k)
  | Array_datatype _ sub _ _ _ => type_id_of file_id sub
  | Record_datatype _ ms b =>
      compound_type_name ← catch (e ← lift (attribute t "decl_netcdf.type"); expr_to_string e)
        (fun err => match err with
                    | Unknown_exception => throw err
                    | _ => s ← lift (debug_string t); throw (Value_error ("Cannot get `decl_netcdf.type' attribute from: " +:+ s))
                    end);
      r ← nc_inq_typeid file_id compound_type_name;
      match r with
      | inr type_id => mret type_id
      | inl _ =>
          (fix define_members ms :=
             match ms with
             | [] => mret tt
             | m :: ms =>
                 (match (array_dims (member_type m)).2 with
                  | Record_datatype _ _ _ => type_id_of file_id (member_type m);; mret tt
                  | _ => mret tt
                  end);;
                 define_members ms
             end) ms;;
          type_id ← nc_value (nc_def_compound file_id b compound_type_name) "cannot define record type";
          (fix insert_members ms :=
             match ms with
             | [] => mret tt
             | m :: ms =>
                 (match member_type m with
                  | Array_datatype _ _ _ _ _ =>
                      let '(sizes, elt) := array_dims (member_type m) in
                      match elt with
                      | Scalar_datatype _ _ _ _ _ _ _ | Record_datatype _ _ _ =>
                          id ← type_id_of file_id (member_type m);
                          nc_insert_array_compound file_id type_id (member_name m) (member_displacement m) id (map as_int sizes);; mret tt
                      | _ => s ← lift (debug_string elt); throw (Permission_error ("Decl_netcdf plugin: Not supported datatype: " +:+ s))
                      end
                  | Record_datatype _ _ _ | Scalar_datatype _ _ _ _ _ _ _ =>
                      id ← type_id_of file_id (member_type m);
                      nc_insert_compound file_id type_id (member_name m) (member_displacement m) id;; mret tt
                  | _ => s ← lift (debug_string (member_type m)); throw (Permission_error ("Decl_netcdf plugin: Not supported datatype: " +:+ s))
                  end);;
                 insert_members ms
             end) ms;;
          mret type_id
      end
  | Tuple_datatype _ _ _ | Pointer_datatype _ _ _ _ =>
      s ← lift (debug_string t); throw (Permission_error ("Decl_netcdf plugin: Unsupported datatype: " +:+ s))
  end.

(** * Variables *)

Definition read_variable (v : Dnc_variable) (nc : Dnc_netcdf_file) : G Dnc_netcdf_file :=
  match nf_variables nc !! v_path v with
  | Some _ => mret nc
  | None =>
      let '(group_path, variable_name) := split_group_and_variable (v_path v) in
      nc ← (match nf_groups nc !! group_path with
            | Some _ => mret nc
            | None => '(_, nc) ← walk_groups read_step (split_to_groups group_path) nc; mret nc
            end);
      src_id ← group_id_of group_path nc;
      nc_var_id ← nc_value (nc_inq_varid src_id variable_name) ("cannot inquire variable `" +:+ variable_name +:+ "' from " +:+ in_id src_id);
      let nc := add_variable (v_path v) nc_var_id nc in
      each_do (get_attribute src_id nc_var_id) (v_attributes v);; mret nc
  end.

(** The length is passed as an [int]. *)
Definition get_dimension_id (nc_dest_id : Z) (dim_name : string) (size : Z) : G Z :=
  r ← nc_inq_dimid nc_dest_id dim_name;
  match r with
  | inr dim_id => nc_value (nc_inq_dimlen nc_dest_id dim_id) "cannot inquire dimension length";; mret dim_id
  | inl _ => nc_value (nc_def_dim nc_dest_id dim_name (size_of_long (as_int size))) ("cannot define dimension `" +:+ dim_name +:+ "'")
  end.

Definition dimension_ids (dest_id : Z) (v : Dnc_variable) (variable_name : string) (sizes : list Z) : G (list Z) :=
  names ← dimensions_names v;
  names ← (match names with
           | [] => mret (map (fun i => variable_name +:+ "_" +:+ pretty i) (seqZ 0 (vsize sizes)))
           | _ =>
               if negb (vsize sizes =? vsize names) then
                 throw (Value_error ("Decl_netcdf plugin: Variable type dimension (" +:+ pretty (vsize sizes)
                                     +:+ ") != defined variable dimensions (" +:+ pretty (vsize names) +:+ ")"))
               else mret names
           end);
  iter (fun p ids => id ← get_dimension_id dest_id p.1 p.2; mret (ids ++ [id])) (zip names sizes) [].

Definition is_scalar_type (t : Datatype) : bool := match t with Scalar_datatype _ _ _ _ _ _ _ => true | _ => false end.

(** Chunking and compression of a new variable. *)
Definition set_compression (dest_id var_id : Z) (v : Dnc_variable) (t : Datatype) (variable_name : string) : G unit :=
  level ← (match v_deflate v with Some e => n ← expr_to_long e; mret (as_int n) | None => mret 0 end);
  let level := if is_scalar_type t then 0 else level in
  if level =? 0 then mret tt
  else
    (match v_chunking v with
     | None => mret tt
     | Some e =>
         with_ref (readable (expr_to_ref e)) (fun chunking_ref =>
           null ← ref_is_null chunking_ref;
           if null : bool then mret tt
           else
             sizes ← chunk_sizes chunking_ref;
             nc_try (nc_def_var_chunking dest_id var_id sizes) ("cannot define chunking of variable `" +:+ variable_name +:+ "' in " +:+ in_id dest_id))
     end);;
    nc_try (nc_def_var_deflate dest_id var_id level) ("cannot define deflate level of variable `" +:+ variable_name +:+ "' in " +:+ in_id dest_id).

(** A variable that is not in the file. *)
Definition create_variable (dest_id : Z) (v : Dnc_variable) (variable_name : string) (nc : Dnc_netcdf_file) : G Z :=
  t ← variable_type v;
  match t with
  | None => throw (Permission_error ("Decl_netcdf plugin: Variable " +:+ v_path v +:+ ": No type defined"))
  | Some t =>
      d ← lift (dense t);
      if negb d then throw (Permission_error ("Decl_netcdf plugin: Variable " +:+ v_path v +:+ ": Data must be dense (continuous memory)"))
      else
        let '(sizes, elt) := array_dims t in
        type_id ← type_id_of (nf_file_id nc) elt;
        ids ← dimension_ids dest_id v variable_name sizes;
        var_id ← nc_value (nc_def_var dest_id variable_name type_id ids) ("cannot define variable `" +:+ variable_name +:+ "' in " +:+ in_id dest_id);
        set_compression dest_id var_id v t variable_name;;
        mret var_id
  end.

Definition define_variable (v : Dnc_variable) (nc : Dnc_netcdf_file) : G Dnc_netcdf_file :=
  match nf_variables nc !! v_path v with
  | Some _ => mret nc
  | None =>
      let '(group_path, variable_name) := split_group_and_variable (v_path v) in
      nc ← (match nf_groups nc !! group_path with Some _ => mret nc | None => define_group (mkNcGroup group_path []) nc end);
      dest_id ← group_id_of group_path nc;
      r ← nc_inq_varid dest_id variable_name;
      var_id ← (match r with inr var_id => mret var_id | inl _ => create_variable dest_id v variable_name nc end);
      let nc := add_variable (v_path v) var_id nc in
      each_do (put_attribute dest_id var_id) (v_attributes v);; mret nc
  end.

Definition enddef (nc : Dnc_netcdf_file) : G unit := nc_try (nc_enddef (nf_file_id nc)) "cannot end define mode".

(** * Transfers *)

(** The ids of a group and of a variable that were defined or read. *)
Definition find_group (group_path : string) (nc : Dnc_netcdf_file) : outcome Z :=
  match nf_groups nc !! group_path with
  | Some id => Ret id
  | None => Throw (Value_error ("Decl_netcdf plugin: Cannot find group that should be created: " +:+ group_path))
  end.

Definition find_variable_id (path : string) (nc : Dnc_netcdf_file) : outcome Z :=
  match nf_variables nc !! path with
  | Some id => Ret id
  | None => Throw (Value_error ("Decl_netcdf plugin: Cannot find variable that should be created: " +:+ path))
  end.

(** [get_variable_stride(variable.type(), var_stride)]: a null type is no array. *)
Definition variable_stride (v : Dnc_variable) : G (list Z) :=
  t ← variable_type v; mret (match t with Some t => (array_dims t).1 | None => [] end).

Definition put_variable (v : Dnc_variable) (write : Dnc_io) (ref_r : nat) (nc : Dnc_netcdf_file) : G unit :=
  null ← ref_is_null ref_r;
  if null : bool then throw (Permission_error ("Decl_netcdf plugin: Cannot write `" +:+ v_path v +:+ "'. Need read access to write it to file"))
  else
    let '(group_path, variable_name) := split_group_and_variable (v_path v) in
    dest_id ← lift (find_group group_path nc);
    var_id ← lift (find_variable_id (v_path v) nc);
    var_stride ← variable_stride v;
    var_start ← get_dims_start write var_stride;
    var_count ← get_dims_count write var_stride;
    p ← ref_get ref_r;
    match var_stride with
    | [] => nc_try (nc_put_var dest_id var_id p) ("Decl_netcdf plugin: Cannot write `" +:+ variable_name +:+ "' to " +:+ in_id dest_id)
    | _ => nc_try (nc_put_vara dest_id var_id var_start var_count p) ("cannot write `" +:+ variable_name +:+ "' to " +:+ in_id dest_id)
    end.

(** The type of a scalar variable and that of the data. *)
Definition check_scalar_type (t : Datatype) (src_id var_id : Z) (path variable_name : string) : G unit :=
  match t with
  | Scalar_datatype _ k _ _ _ _ _ =>
      var_nc_type ← nc_value (nc_inq_vartype src_id var_id) ("cannot get type of `" +:+ path +:+ "' from file");
      var_nc_type_size ← nc_value (nc_inq_type var_nc_type) ("can not inquire the size of `" +:+ pretty var_nc_type +:+ "'");
      let of_size (what : string) :=
        if datasize t =? var_nc_type_size then mret tt
        else throw (Type_error ("Decl_netcdf plugin: Datatype mismatch" +:+ what +:+ ": read '" +:+ variable_name +:+ "' of size "
                                +:+ pretty var_nc_type_size +:+ " for a buffer of size " +:+ pretty (datasize t))) in
      match k with
      | SIGNED =>
          if bool_decide (var_nc_type ∈ [NC_BYTE; NC_SHORT; NC_INT; NC_INT64]) then of_size " (with size)"
          else throw (Type_error ("Decl_netcdf plugin: Datatype mismatch (with sign): buffer is of signed scalar type while read '" +:+ variable_name
                                  +:+ "' is neither NC_BYTE, NC_SHORT, NC_INT, nor NC_INT64."))
      | UNSIGNED =>
          if bool_decide (var_nc_type ∈ [NC_UBYTE; NC_USHORT; NC_UINT; NC_UINT64]) then of_size ""
          else throw (Type_error ("Decl_netcdf plugin: Datatype mismatch (with sign): buffer is of unsigned scalar type while read '" +:+ variable_name
                                  +:+ "' is neither NC_UBYTE, NC_USHORT, NC_UINT, nor NC_UINT64."))
      | FLOAT => of_size " (with size)"
      | UNKNOWN => throw (Type_error ("Can not read `" +:+ variable_name +:+ "' : buffer has unknown type"))
      end
  | _ => mret tt
  end.

Definition get_variable (v : Dnc_variable) (read : Dnc_io) (ref_w : nat) (nc : Dnc_netcdf_file) : G unit :=
  null ← ref_is_null ref_w;
  if null : bool then throw (Permission_error ("Decl_netcdf plugin: Cannot read `" +:+ v_path v +:+ "'. Need write access to read it from file"))
  else
    var_stride ← variable_stride v;
    var_start ← get_dims_start read var_stride;
    var_count ← get_dims_count read var_stride;
    let '(group_path, variable_name) := split_group_and_variable (v_path v) in
    src_id ← lift (find_group group_path nc);
    var_id ← lift (find_variable_id (v_path v) nc);
    t ← ref_type ref_w;
    check_scalar_type t src_id var_id (v_path v) variable_name;;
    p ← ref_get ref_w;
    match var_stride with
    | [] => nc_try (nc_get_var src_id var_id p) ("cannot read `" +:+ v_path v +:+ "' from file")
    | _ => nc_try (nc_get_vara src_id var_id var_start var_count p) ("cannot read `" +:+ v_path v +:+ "' from file")
    end.

(** [scalar_assign(value)] for a [size_t], through a temporary [Ref_w]. *)
Definition assign_size (mk : G nat) (value : Z) : G unit :=
  with_ref mk (fun r => t ← ref_type r; a ← ref_data r; unit_mem (fun m => scalar_assign t (NInt false 8 value) m a)).

Definition get_sizeof_variable (variable sizeof_var : string) (ref : nat) (nc : Dnc_netcdf_file) : G unit :=
  null ← with_ref (ref_copy false true ref) ref_is_null;
  if null : bool then throw (Permission_error ("Decl_netcdf plugin: Cannot read `" +:+ sizeof_var +:+ "'. Need write access to read it from file"))
  else
    let '(group_path, variable_name) := split_group_and_variable sizeof_var in
    src_id ← lift (find_group group_path nc);
    var_id ← nc_value (nc_inq_varid src_id variable_name) ("cannot inquire variable `" +:+ variable_name +:+ "' from " +:+ in_id src_id);
    var_dim ← nc_value (nc_inq_varndims src_id var_id)
                ("cannot inquire variable dimension counts from (var_id=" +:+ sizeof_var +:+ ", nc_id=" +:+ pretty src_id +:+ ")");
    dimid ← nc_value (nc_inq_vardimid src_id var_id) ("cannot get size of `" +:+ sizeof_var);
    t ← ref_type ref;
    match t with
    | Scalar_datatype _ _ _ _ _ _ _ =>
        if negb (var_dim =? 1) then
          throw (Value_error ("Decl_netcdf plugin: Incoherent data size. Data " +:+ variable +:+ " defined with size=1 , but " +:+ sizeof_var
                              +:+ " has size " +:+ pretty var_dim))
        else
          d ← lift (vector_at dimid 0);
          n ← nc_value (nc_inq_dimlen src_id d) "cannot inquire dimension length";
          assign_size (ref_copy false true ref) n
    | Array_datatype _ _ size _ _ =>
        if negb (var_dim =? size) then
          throw (Value_error ("Decl_netcdf plugin: Incoherent data size. Data " +:+ variable +:+ " defined with size " +:+ pretty size
                              +:+ ", but provided with " +:+ pretty var_dim))
        else
          each_do (fun i =>
            d ← lift (vector_at dimid i);
            n ← nc_value (nc_inq_dimlen src_id d) "cannot inquire dimension length";
            assign_size (writable (ref_index i ref)) n) (seqZ 0 var_dim)
    | _ => throw (Value_error ("Decl_netcdf plugin: Incompatible data type for " +:+ sizeof_var +:+ ". Expecting scalar or array"))
    end.

End file.
