(* ===== verification/NetcdfExec.v ===== *)
(** The Decl'NetCDF plugin, third part: the files of the configuration, what is done
    with them on events and on data ([plugins/decl_netcdf/dnc_file_context.cxx]), and
    the plugin ([decl_netcdf.cxx]). *)

From S2P Require Import Prelude Error Effect ExprSyntax Datatype Layout Memory DenseCopy Access Ref RefInv RefOps RefTheorems RefCopy Numeric Parse Yaml Template GlobalContext Eval SetValue UserCode Hdf5 Hdf5Ops Hdf5Exec Netcdf NetcdfFile.
From Stdlib Require Import Ascii.

(** The entries of an [unordered_map] are in the order in which they were added. *)
Record Dnc_file_context := mkNcContext {
  fc_file_path : Impl;
  fc_communicator : option Impl;
  fc_when : Impl;
  fc_groups : list (string * Dnc_group);
  fc_variables : list (string * Dnc_variable);
  fc_read : list (string * Dnc_io);
  fc_write : list (string * Dnc_io);
  fc_sizeof : list (string * Dnc_io)
}.

(** The files of the plugin; the lambdas capture the file [i]; [unordered] is the
    order in which a map is traversed; [nc_type_fuel] bounds the nesting of types. *)
Class NetcdfHost (W : Type) := {
  nc_files : W -> list Dnc_file_context;
  set_nc_files : list Dnc_file_context -> W -> W;
  on_nc_event : nat -> Z;
  on_nc_data : nat -> Z;
  unordered : forall A, list (string * A) -> list (string * A);
  nc_type_fuel : nat
}.

Definition find_entry {A} (k : string) (l : list (string * A)) : option A :=
  match list_find (fun p => fst p = k) l with Some (_, (_, x)) => Some x | None => None end.

(** * Configuration *)

(** The events of a node. *)
Definition read_events (node : PC_tree) : outcome (list string) :=
  if PC_status node then Ret []
  else if is_list node then n ← len node; for_each (fun i l => s ← Yaml.to_string (get_item node i); Ret (l ++ [s])) (seq 0 n) []
  else s ← Yaml.to_string node; Ret [s].

(** A name or a list of names, each with an empty configuration. *)
Definition empty_ios (node : PC_tree) (ios : list (string * Dnc_io)) : outcome (list (string * Dnc_io)) :=
  if is_scalar node then s ← Yaml.to_string node; io ← make_io no_tree; Ret (Yaml.emplace s io ios)
  else n ← len node; for_each (fun i ios => s ← Yaml.to_string (get_item node i); io ← make_io no_tree; Ret (Yaml.emplace s io ios)) (seq 0 n) ios.

(** What is read, and the sizes that are read. *)
Definition read_nc_reads (node : PC_tree) : outcome (list (string * Dnc_io) * list (string * Dnc_io)) :=
  if PC_status node then Ret ([], [])
  else if is_scalar node || is_list node then ios ← empty_ios node []; Ret (ios, [])
  else each_pair node (fun desc_name read_value acc =>
         read_desc ← Yaml.to_string desc_name;
         io ← make_io read_value;
         if negb (PC_status (get_key read_value "size_of")) then Ret (acc.1, Yaml.emplace read_desc io acc.2)
         else Ret (Yaml.emplace read_desc io acc.1, acc.2)) ([], []).

Definition read_nc_writes (node : PC_tree) : outcome (list (string * Dnc_io)) :=
  if PC_status node then Ret []
  else if is_scalar node || is_list node then empty_ios node []
  else if is_map node then
    each_pair node (fun desc_name write_value ios =>
      Yaml.to_string desc_name;; s ← Yaml.to_string desc_name; io ← make_io write_value; Ret (Yaml.emplace s io ios)) []
  else spectree_error node "write node is not parsed correctly".

(** The members that the constructor reads, and the events. *)
Definition read_file_context (parsers : Parsers) (fuel : nat) (config : PC_tree) : outcome (Dnc_file_context * list string) :=
  let file_node := get_key config "file" in
  if PC_status file_node then spectree_error file_node "Decl_netcdf plugin: `file' node is mandatory"
  else
    file_path ← string_expression file_node;
    communicator ← opt_expression (get_key config "communicator");
    events ← read_events (get_key config "on_event");
    when ← opt_expression (get_key config "when");
    let deflate_node := get_key config "deflate" in
    file_deflate ← (if PC_status deflate_node then Ret None else e ← parse_tree deflate_node; Ret (Some e));
    let groups_node := get_key config "groups" in
    groups ← (if PC_status groups_node then Ret []
              else each_pair groups_node (fun path_node value l =>
                     path ← Yaml.to_string path_node; g ← make_group path value; Ret (Yaml.emplace path g l)) []);
    let variables_node := get_key config "variables" in
    variables ← (if PC_status variables_node then Ret []
                 else each_pair variables_node (fun path_node value l =>
                        path ← Yaml.to_string path_node; v ← make_variable parsers fuel path value file_deflate; Ret (Yaml.emplace path v l)) []);
    '(reads, sizes) ← read_nc_reads (get_key config "read");
    writes ← read_nc_writes (get_key config "write");
    Ret (mkNcContext file_path communicator (default (Int_literal 1) when) groups variables reads writes sizes, events).

(** The names in a [std::set], in their order. *)
Fixpoint set_insert (s : string) (l : list string) : list string :=
  match l with
  | [] => [s]
  | x :: l => match String.compare s x with Lt => s :: x :: l | Eq => x :: l | Gt => x :: set_insert s l end
  end.

Definition desc_triggers (fc : Dnc_file_context) : list string :=
  foldl (fun l s => set_insert s l) [] (map fst (fc_read fc) ++ map fst (fc_write fc) ++ map fst (fc_sizeof fc)).

Section exec.
  Context {W : Type} {RT : Runtime W} {NC : Netcdf W} {NH : NetcdfHost W}.

Abbreviation G := (M (global W)).

(** The constructor of file [i]. *)
Definition make_file_context (i : nat) (config : PC_tree) : G unit :=
  parsers ← gets m_datatype_parsers;
  '(fc, events) ← lift (read_file_context parsers nc_type_fuel config);
  modify (fun g => set_world (set_nc_files (nc_files (g_world g) ++ [fc]) (g_world g)) g);;
  each_do (fun event => on_event (on_nc_event i) event;; mret tt) events;;
  match events with
  | [] => each_do (fun desc_trigger => on_data (on_nc_data i) desc_trigger;; mret tt) (desc_triggers fc)
  | _ => mret tt
  end.

(** The plugin. *)
Definition decl_netcdf_plugin (config : PC_tree) : G unit :=
  if is_list config then n ← lift (len config); each_do (fun i => make_file_context i (get_item config i)) (seq 0 n)
  else make_file_context 0 config.

(** * Variables *)

Definition get_context (i : nat) : G Dnc_file_context :=
  files ← gets (fun g => nc_files (g_world g)); match files !! i with Some fc => mret fc | None => lift Crash end.

Definition set_variables (variables : list (string * Dnc_variable)) (fc : Dnc_file_context) : Dnc_file_context :=
  mkNcContext (fc_file_path fc) (fc_communicator fc) (fc_when fc) (fc_groups fc) variables (fc_read fc) (fc_write fc) (fc_sizeof fc).

(** A [Dnc_variable*]: to a variable of the file, or to one of the temporary list
    [variables_holder]. *)
Inductive variable_ptr := Of_file (key : string) | Of_holder (n : nat).

Definition find_variable (fc : Dnc_file_context) (desc_name path : string) (holder : list Dnc_variable) : G (variable_ptr * list Dnc_variable) :=
  match find_entry path (fc_variables fc) with
  | Some _ => mret (Of_file path, holder)
  | None =>
      match find_entry desc_name (fc_variables fc) with
      | Some _ => mret (Of_file desc_name, holder)
      | None =>
          parsers ← gets m_datatype_parsers;
          v ← lift (make_variable parsers nc_type_fuel (match path with EmptyString => desc_name | _ => path end) no_tree (Some (Int_literal 0)));
          mret (Of_holder (length holder), holder ++ [v])
      end
  end.

Definition variable_at (i : nat) (p : variable_ptr) (holder : list Dnc_variable) : G Dnc_variable :=
  match p with
  | Of_file key => fc ← get_context i; match find_entry key (fc_variables fc) with Some v => mret v | None => lift Crash end
  | Of_holder n => match holder !! n with Some v => mret v | None => lift Crash end
  end.

Definition with_type (t : Datatype) (v : Dnc_variable) : Dnc_variable :=
  mkNcVariable (v_path v) (Some (Datatype_as_template t)) (v_dimensions_names v) (v_attributes v) (v_deflate v) (v_chunking v).

(** [variable->type(type)]: the new list of temporary variables. *)
Definition set_variable_type (i : nat) (p : variable_ptr) (t : Datatype) (holder : list Dnc_variable) : G (list Dnc_variable) :=
  match p with
  | Of_holder n => mret (alter (with_type t) n holder)
  | Of_file key =>
      fc ← get_context i;
      match find_entry key (fc_variables fc) with
      | Some v =>
          modify (fun g => set_world (set_nc_files (<[i := set_variables (Yaml.assign key (with_type t v) (fc_variables fc)) fc]> (nc_files (g_world g))) (g_world g)) g);;
          mret holder
      | None => lift Crash
      end
  end.

(** [if (!variable->type()) variable->type(...)] *)
Definition ensure_type (i : nat) (p : variable_ptr) (type_of_data : G Datatype) (holder : list Dnc_variable) : G (list Dnc_variable) :=
  v ← variable_at i p holder;
  t ← variable_type v;
  match t with Some _ => mret holder | None => t ← type_of_data; set_variable_type i p t holder end.

(** * Execution *)

(** A block with an open file. *)
Definition with_nc_file {A} (fc : Dnc_file_context) (write : bool) (body : Dnc_netcdf_file -> G A) : G A :=
  filename ← expr_to_string (fc_file_path fc);
  nc ← open_nc_file filename write (fc_communicator fc);
  finally (body nc) (close_nc_file filename nc).

Definition all_groups (f : Dnc_group -> Dnc_netcdf_file -> G Dnc_netcdf_file) (fc : Dnc_file_context) (nc : Dnc_netcdf_file) : G Dnc_netcdf_file :=
  iter (fun group nc => f group.2 nc) (unordered _ (fc_groups fc)) nc.

(** The transfer of an entry that is found and holds. *)
Definition when_found (desc_name : string) (ios : list (string * Dnc_io)) (holder : list Dnc_variable)
    (body : Dnc_io -> list Dnc_variable -> G (list Dnc_variable)) : G (list Dnc_variable) :=
  match find_entry desc_name ios with
  | None => mret holder
  | Some io => b ← io_holds io; if b : bool then body io holder else mret holder
  end.

(** [Dnc_file_context::execute(desc_name, ref)] *)
Definition execute_data (i : nat) (desc_name : string) (ref : nat) : G unit :=
  timed "decl_netcdf" (
    fc ← get_context i;
    c ← expr_to_long (fc_when fc);
    if c =? 0 then mret tt
    else
      fc ← get_context i;
      holder ← when_found desc_name (fc_write fc) [] (fun io holder =>
        with_nc_file fc true (fun nc =>
          nc ← all_groups define_group fc nc;
          path ← variable_path io;
          fc ← get_context i;
          '(p, holder) ← find_variable fc desc_name path holder;
          holder ← ensure_type i p (ref_type ref) holder;
          v ← variable_at i p holder;
          nc ← define_variable v nc;
          enddef nc;;
          with_ref (ref_copy true false ref) (fun ref_r => v ← variable_at i p holder; put_variable v io ref_r nc);;
          mret holder));
      fc ← get_context i;
      holder ← when_found desc_name (fc_read fc) holder (fun io holder =>
        with_nc_file fc false (fun nc =>
          nc ← all_groups read_group fc nc;
          path ← variable_path io;
          fc ← get_context i;
          '(p, holder) ← find_variable fc desc_name path holder;
          holder ← ensure_type i p (ref_type ref) holder;
          v ← variable_at i p holder;
          nc ← read_variable v nc;
          with_ref (ref_copy false true ref) (fun ref_w => v ← variable_at i p holder; get_variable v io ref_w nc);;
          mret holder));
      fc ← get_context i;
      when_found desc_name (fc_sizeof fc) holder (fun io holder =>
        with_nc_file fc false (fun nc =>
          dataset_name ← variable_path io;
          with_ref (ref_copy false false ref) (fun r => get_sizeof_variable desc_name dataset_name r nc);;
          mret holder));;
      mret tt).

(** [m_ctx.desc(name).ref()] *)
Definition desc_type (name : string) : G Datatype := with_ref (shared name) ref_type.

(** The variables of the entries [ios], one after the other, each prepared by
    [prepare]: the pointers, the temporary variables and the file. *)
Definition prepare_variables (i : nat) (prepare : Dnc_variable -> Dnc_netcdf_file -> G Dnc_netcdf_file) (ios : list (string * Dnc_io))
    (nc : Dnc_netcdf_file) : G (list variable_ptr * list Dnc_variable * Dnc_netcdf_file) :=
  iter (fun entry '(ptrs, holder, nc) =>
    path ← variable_path entry.2;
    fc ← get_context i;
    '(p, holder) ← find_variable fc entry.1 path holder;
    holder ← ensure_type i p (desc_type entry.1) holder;
    v ← variable_at i p holder;
    nc ← prepare v nc;
    mret (ptrs ++ [p], holder, nc)) ios ([], [], nc).

(** The loops of the transfers: [variables[k]] is undefined out of bounds. *)
Definition transfer_all (i : nat) (transfer : Dnc_variable -> Dnc_io -> nat -> Dnc_netcdf_file -> G unit) (R Wr : bool)
    (ios : list (string * Dnc_io)) (variables : list variable_ptr) (holder : list Dnc_variable) (nc : Dnc_netcdf_file) : G unit :=
  each_do (fun ke : Z * (string * Dnc_io) =>
    p ← lift (vector_at variables ke.1);
    v ← variable_at i p holder;
    with_ref (shared ke.2.1) (fun t => with_ref (ref_copy R Wr t) (fun r => transfer v ke.2.2 r nc))) (zip (seqZ 0 (vsize ios)) ios).

(** The part of [execute()] under the condition. *)
Definition event_transfers (i : nat) (fc : Dnc_file_context) : G unit :=
  let writes := unordered _ (fc_write fc) in
  let reads := unordered _ (fc_read fc) in
  with_nc_file fc (negb (is_nil (fc_write fc))) (fun nc =>
    match fc_write fc with
    | [] =>
        nc ← all_groups read_group fc nc;
        '(to_get, holder, nc) ← prepare_variables i read_variable reads nc;
        each_do (fun size_of =>
          path ← variable_path size_of.2;
          with_ref (shared size_of.1) (fun r => get_sizeof_variable size_of.1 path r nc)) (unordered _ (fc_sizeof fc));;
        transfer_all i get_variable false true reads to_get holder nc
    | _ =>
        nc ← all_groups define_group fc nc;
        '(to_put, holder, nc) ← prepare_variables i define_variable writes nc;
        enddef nc;;
        transfer_all i put_variable true false writes to_put holder nc;;
        transfer_all i get_variable false true reads [] holder nc
    end).

(** [Dnc_file_context::execute()] *)
Definition execute_event (i : nat) : G unit :=
  timed "decl_netcdf" (
    fc ← get_context i;
    c ← expr_to_long (fc_when fc);
    if c =? 0 then mret tt else fc ← get_context i; event_transfers i fc).

End exec.
