(* ===== verification/NetcdfFacts.v ===== *)
(** Properties of the Decl'NetCDF plugin: the group of a variable is found after its
    groups were followed, what is transferred on an event, and which variables keep
    their types. *)

From S2P Require Import Prelude Error Effect EffectEq ExprSyntax Datatype Layout Memory DenseCopy DenseCopyFacts Access Ref RefInv RefOps RefTheorems RefCopy Numeric Parse Yaml Template GlobalContext Eval SetValue UserCode Hdf5 Hdf5Ops Hdf5Exec Hdf5Facts Netcdf NetcdfFile NetcdfExec.
From Stdlib Require Import Ascii.

(** * Paths *)

(** A name of a group or of a variable. *)
Definition no_slash (s : string) : Prop := Forall (fun c => c <> "/"%char) (String.list_ascii_of_string s).
Definition good_name (s : string) : Prop := s <> "" /\ no_slash s.

(** The path of a group: each name after a slash. *)
Definition group_path_of (names : list string) : string := foldr (fun n s => "/" +:+ n +:+ s) "" names.

Lemma no_slash_cons c s : no_slash (String c s) <-> c <> "/"%char /\ no_slash s.
Proof. unfold no_slash. simpl. by rewrite list.Forall_cons. Qed.

Lemma split_last_slash_none s : no_slash s -> split_last_slash s = (None, s).
Proof.
  induction s as [|c s IH]; [done|]. rewrite no_slash_cons. intros [Hc Hs]. simpl. rewrite (IH Hs). by rewrite bool_decide_false.
Qed.

Lemma split_last_slash_app a v : no_slash v -> split_last_slash (a +:+ "/" +:+ v) = (Some a, v).
Proof.
  intros Hv. induction a as [|c a IH].
  - change ("" +:+ "/" +:+ v) with (String "/"%char v). simpl. by rewrite split_last_slash_none.
  - rewrite string_app_String. cbn [split_last_slash]. by rewrite IH.
Qed.

(** Both forms of the path of a variable, with and without the first slash. *)
Lemma split_absolute names v :
  Forall good_name names -> no_slash v ->
  split_group_and_variable (group_path_of names +:+ "/" +:+ v) = (match names with [] => "/" | _ => group_path_of names end, v).
Proof.
  intros Hn Hv. unfold split_group_and_variable. rewrite split_last_slash_app by done. by destruct names.
Qed.

Lemma split_relative n names v :
  good_name n -> no_slash v ->
  split_group_and_variable (n +:+ group_path_of names +:+ "/" +:+ v) = (group_path_of (n :: names), v).
Proof.
  intros [Hne Hn] Hv. unfold split_group_and_variable. rewrite <- string_app_assoc, split_last_slash_app by done.
  destruct n as [|c n]; [done|]. apply no_slash_cons in Hn as [Hc _]. rewrite string_app_String. by rewrite bool_decide_false.
Qed.

Lemma split_in_root v : no_slash v -> split_group_and_variable v = ("/", v).
Proof. intros Hv. unfold split_group_and_variable. by rewrite split_last_slash_none. Qed.

Lemma split_groups_app group n s : no_slash n -> split_groups group (n +:+ s) = split_groups (group +:+ n) s.
Proof.
  revert group. induction n as [|c n IH]; intros group Hn; [by rewrite string_app_nil_r|]. apply no_slash_cons in Hn as [Hc Hn].
  rewrite string_app_String. cbn [split_groups]. rewrite bool_decide_false by done. rewrite IH by done. by rewrite string_app_assoc.
Qed.

(** The names of a path are those that it was made of. *)
Lemma split_group_path names : Forall good_name names -> split_to_groups (group_path_of names) = names.
Proof.
  unfold split_to_groups. intros H.
  assert (Hgen : forall g, (g = "" \/ good_name g) -> split_groups g (group_path_of names) = (if bool_decide (g = "") then [] else [g]) ++ names).
  { induction H as [|n names Hn _ IH]; intros g Hg.
    - simpl. case_bool_decide as Heq; [by rewrite Heq|]. by destruct g.
    - cbn [group_path_of foldr]. fold (group_path_of names). change ("/" +:+ ?x) with (String "/"%char x).
      cbn [split_groups]. rewrite bool_decide_true by done. rewrite (split_groups_app "" n) by apply Hn.
      change ("" +:+ n) with n. rewrite IH by (by right). rewrite (bool_decide_false (n = "")) by apply Hn.
      case_bool_decide as Heq; [by rewrite Heq|]. by destruct g. }
  rewrite Hgen by (by left). done.
Qed.

(** * Groups *)

Section groups.
  Context {W : Type} {RT : Runtime W} {NC : Netcdf W} {NH : NetcdfHost W}.

Implicit Types g : global W.

Lemma map_emplace_found {A} k (v : A) m : is_Some (map_emplace k v m !! k).
Proof. unfold map_emplace. destruct (m !! k) eqn:H; [by rewrite H|]. by rewrite lookup_insert_eq. Qed.

Lemma map_emplace_keeps {A} k k' (v : A) m : is_Some (m !! k') -> is_Some (map_emplace k v m !! k').
Proof. unfold map_emplace. destruct (m !! k) eqn:H; [done|]. intros Hk. rewrite lookup_insert_ne; [done|]. intros ->. rewrite H in Hk. by destruct Hk. Qed.

Lemma group_path_snoc names n : group_path_of (names ++ [n]) = group_path_of names +:+ "/" +:+ n.
Proof.
  induction names as [|m names IH]; [cbn; by rewrite string_app_nil_r|]. cbn [group_path_of foldr app]. fold (group_path_of names).
  unfold group_path_of in IH. rewrite IH. fold (group_path_of names). by rewrite !string_app_assoc.
Qed.

(** The groups that were known stay known. *)
Lemma walk_iter step names done_names dest_id nc g id path nc' g' :
  iter (fun group_name '(dest_id, dest_path, nc) =>
    group_id ← step dest_id group_name;
    let dest_path := dest_path +:+ "/" +:+ group_name in
    mret (group_id, dest_path, add_group dest_path group_id nc)) names (dest_id, group_path_of done_names, nc) g = Done (id, path, nc') g' ->
  path = group_path_of (done_names ++ names) /\
  (forall k, is_Some (nf_groups nc !! k) -> is_Some (nf_groups nc' !! k)) /\
  (is_Some (nf_groups nc !! group_path_of done_names) \/ names <> [] -> is_Some (nf_groups nc' !! path)).
Proof.
  revert done_names dest_id nc g. induction names as [|n names IH]; intros done_names dest_id nc g.
  - cbn [iter]. intros [= -> <- -> ->]. rewrite app_nil_r. split; [done|]. split; [done|]. by intros [?|?].
  - cbn [iter]. unfold mbind at 1, M_bind at 1. unfold mbind at 1, M_bind at 1. destruct (step dest_id n g) as [gid g1|e g1|]; [|done..].
    cbv zeta. unfold mret, M_ret. rewrite <- group_path_snoc. intros (-> & Hk & Hf)%IH. rewrite <- app_assoc in Hf |- *. split; [done|].
    simpl in Hk, Hf. split; [intros k Hs; by apply Hk, map_emplace_keeps|]. intros _. apply Hf. left. apply map_emplace_found.
Qed.

Lemma walk_groups_finds step names nc g id nc' g' :
  walk_groups step names nc g = Done (id, nc') g' ->
  (forall k, is_Some (nf_groups nc !! k) -> is_Some (nf_groups nc' !! k)) /\ (names <> [] -> is_Some (nf_groups nc' !! group_path_of names)).
Proof.
  unfold walk_groups. intros ([[id1 path] nc1] & g1 & Hrun & Hret)%bind_Done. injection Hret as <- <- <-.
  apply (walk_iter step names []) in Hrun as (-> & Hk & Hf). split; [done|]. intros Hn. apply Hf. by right.
Qed.

(** A path that names a variable and its groups in one of the ways that the plugin
    accepts. *)
Inductive variable_in : list string -> string -> string -> Prop :=
  | in_root v : no_slash v -> variable_in [] v v
  | absolute names v : Forall good_name names -> no_slash v -> variable_in names v (group_path_of names +:+ "/" +:+ v)
  | relative n names v : good_name n -> Forall good_name names -> no_slash v -> variable_in (n :: names) v (n +:+ group_path_of names +:+ "/" +:+ v).

Lemma variable_in_split names v path :
  variable_in names v path -> split_group_and_variable path = (match names with [] => "/" | _ => group_path_of names end, v) /\ Forall good_name names.
Proof.
  intros [w Hv|ns w Hn Hv|n ns w Hn Hns Hv].
  - by rewrite split_in_root.
  - by rewrite split_absolute.
  - rewrite split_relative by done. split; [done|]. by apply list.Forall_cons.
Qed.

(** The path of a variable, with or without a slash in front, is split into the
    names of its groups and its own name, and when the groups have been defined or
    read one after the other the group of the variable is found in the file. *)
Theorem group_of_variable_is_found names v path step nc g id nc' g' :
  variable_in names v path -> is_Some (nf_groups nc !! "/") ->
  walk_groups step (split_to_groups (split_group_and_variable path).1) nc g = Done (id, nc') g' ->
  (split_group_and_variable path).2 = v /\ split_to_groups (split_group_and_variable path).1 = names /\
  exists group_id, group_id_of (split_group_and_variable path).1 nc' g' = Done group_id g'.
Proof.
  intros [Hs Hn]%variable_in_split Hroot. rewrite Hs. cbn [fst snd].
  assert (Hnames : split_to_groups (match names with [] => "/" | _ => group_path_of names end) = names).
  { destruct names; [done|by apply split_group_path]. }
  rewrite Hnames. intros [Hk Hf]%walk_groups_finds. split; [done|]. split; [done|].
  assert (Hfound : is_Some (nf_groups nc' !! match names with [] => "/" | _ => group_path_of names end)).
  { destruct names; [by apply Hk|by apply Hf]. }
  destruct Hfound as [gid Hgid]. exists gid. unfold group_id_of. by rewrite Hgid.
Qed.

(** ** Transfers *)

(** A traversal visits every entry. *)
Class NetcdfHostLaws := unordered_perm : forall A (l : list (string * A)), unordered A l ≡ₚ l.

Lemma transfer_none i transfer R Wr ios holder nc g a g' : ios <> [] -> transfer_all i transfer R Wr ios [] holder nc g = Done a g' -> False.
Proof.
  intros Hne. unfold transfer_all. destruct ios as [|e ios]; [done|]. unfold each_do.
  assert (exists l, zip (seqZ 0 (vsize (e :: ios))) (e :: ios) = (0, e) :: l) as [l ->].
  { rewrite seqZ_cons by (unfold vsize; simpl; lia). by eexists. }
  cbn [iter]. by intros (? & ? & (? & ? & Hc & _)%bind_Done & _)%bind_Done.
Qed.

(** On an event, a file with data to write and data to read is never processed to
    the end: the variables to read are looked up in a vector that has none. *)
Theorem mixed_event_never_completes {HL : NetcdfHostLaws} i fc g :
  fc_write fc <> [] -> fc_read fc <> [] -> ~ exists a g', event_transfers i fc g = Done a g'.
Proof.
  intros Hw Hr (a & g' & H). revert H. unfold event_transfers, with_nc_file. intros (name & g1 & _ & H)%bind_Done. apply bind_Done in H as (nc & g2 & _ & H).
  unfold finally in H. destruct (fc_write fc) as [|w ws]; [done|].
  match type of H with match ?m with _ => _ end = _ => destruct m as [b g3|e g3|] eqn:Hbody; [|by destruct (close_nc_file name nc g3)|done] end.
  apply bind_Done in Hbody as (nc1 & g4 & _ & Hbody), Hbody as ([[to_put holder] nc2] & g5 & _ & Hbody), Hbody as (? & g6 & _ & Hbody).
  apply bind_Done in Hbody as (? & g7 & _ & Hbody). apply transfer_none in Hbody; [done|].
  intros Hnil. apply Hr. apply Permutation_nil. rewrite <- (unordered_perm _ (fc_read fc)), Hnil. done.
Qed.

(** Scalars of one byte are written with the type of characters and can not be read
    back, whatever their sign. *)
Theorem written_characters_are_not_read t a k s al ds c d ty src_id var_id path name g g1 n g2 :
  t = Scalar_datatype a k s al ds c d -> buffersize t = 1 -> k = SIGNED \/ k = UNSIGNED ->
  nc_scalar_type t k = Ret ty -> nc_inq_vartype src_id var_id g = Done (inr ty) g1 -> nc_inq_type ty g1 = Done (inr n) g2 ->
  exists msg, check_scalar_type t src_id var_id path name g = Thrown (Type_error msg) g2.
Proof.
  intros Ht Hb Hk Hty Hv Hn. unfold nc_scalar_type in Hty. rewrite Hb in Hty.
  assert (ty = NC_CHAR) as -> by (destruct Hk as [-> | ->]; simpl in Hty; congruence).
  rewrite Ht. unfold check_scalar_type. unfold mbind at 1, M_bind at 1. unfold nc_value at 1, mbind at 1, M_bind at 1. rewrite Hv. unfold mret at 1, M_ret at 1.
  unfold mbind at 1, M_bind at 1. unfold nc_value, mbind at 1, M_bind at 1. rewrite Hn. unfold mret at 1, M_ret at 1.
  destruct Hk as [-> | ->]; eexists; reflexivity.
Qed.

(** ** The extent of a transfer *)

(** The library with other functions to transfer a variable or a part of it. *)
Definition with_transfers (NC0 : Netcdf W) (put_all get_all : Z -> Z -> Z -> M (global W) Z) (put get : Z -> Z -> list Z -> list Z -> Z -> M (global W) Z) : Netcdf W := {|
  nc_strerror := nc_strerror; nc_open := nc_open; nc_create := nc_create; nc_redef := nc_redef; nc_enddef := nc_enddef; nc_close := nc_close;
  nc_inq_grp_ncid := nc_inq_grp_ncid; nc_def_grp := nc_def_grp; nc_inq_dimid := nc_inq_dimid; nc_inq_dimlen := nc_inq_dimlen;
  nc_def_dim := nc_def_dim; nc_inq_typeid := nc_inq_typeid; nc_def_compound := nc_def_compound; nc_insert_compound := nc_insert_compound;
  nc_insert_array_compound := nc_insert_array_compound; nc_inq_varid := nc_inq_varid; nc_def_var := nc_def_var;
  nc_def_var_chunking := nc_def_var_chunking; nc_def_var_deflate := nc_def_var_deflate; nc_inq_vartype := nc_inq_vartype;
  nc_inq_type := nc_inq_type; nc_inq_varndims := nc_inq_varndims; nc_inq_vardimid := nc_inq_vardimid; nc_get_att := nc_get_att;
  nc_put_att := nc_put_att; nc_del_att := nc_del_att; nc_put_var := put_all; nc_put_vara := put; nc_get_var := get_all; nc_get_vara := get
|}.

(** A transfer crashes unless it starts at 0 and its bytes are those of data of type [t]. *)
Definition whole_of (t : Datatype) (call : Z -> Z -> list Z -> list Z -> Z -> M (global W) Z) : Z -> Z -> list Z -> list Z -> Z -> M (global W) Z :=
  fun id var_id start count p g =>
    if forallb (Z.eqb 0) start && (product count * buffersize (array_dims t).2 =? buffersize t) then call id var_id start count p g else Crashed.

(** The whole variable, which has no dimension when this call is right: it crashes
    unless the data has none either and is as large as its element. *)
Definition single_of (t : Datatype) (call : Z -> Z -> Z -> M (global W) Z) : Z -> Z -> Z -> M (global W) Z :=
  fun id var_id p g =>
    if bool_decide ((array_dims t).1 = []) && (buffersize (array_dims t).2 =? buffersize t) then call id var_id p g else Crashed.

Definition exactly (t : Datatype) : Netcdf W :=
  with_transfers NC (single_of t nc_put_var) (single_of t nc_get_var) (whole_of t nc_put_vara) (whole_of t nc_get_vara).

Lemma array_dims_extent t : array_dims t = (sizes_of t, leaf t).
Proof.
  induction t as [| a sub IH n s c | | |]; try done. destruct (extent_array a sub n s c) as (-> & _ & _ & ->). cbn [array_dims]. by rewrite IH.
Qed.

Lemma default_extent t : copy_ok t = true ->
  forallb (Z.eqb 0) (map (fun _ => 0) (array_dims t).1) && (product (array_dims t).1 * buffersize (array_dims t).2 =? buffersize t) = true.
Proof.
  intros Hok. rewrite array_dims_extent. cbn [fst snd]. apply andb_true_iff. split; [by induction (sizes_of t)|].
  destruct (leaf_ok t Hok) as [_ ->]. apply Z.eqb_refl.
Qed.

Lemma whole_put t id var_id p : copy_ok t = true ->
  nc_put_vara (Netcdf := exactly t) id var_id (map (fun _ => 0) (array_dims t).1) (array_dims t).1 p = nc_put_vara id var_id (map (fun _ => 0) (array_dims t).1) (array_dims t).1 p.
Proof. intros Hok. cbn [nc_put_vara exactly with_transfers]. unfold whole_of. by rewrite default_extent. Qed.

Lemma whole_get t id var_id p : copy_ok t = true ->
  nc_get_vara (Netcdf := exactly t) id var_id (map (fun _ => 0) (array_dims t).1) (array_dims t).1 p = nc_get_vara id var_id (map (fun _ => 0) (array_dims t).1) (array_dims t).1 p.
Proof. intros Hok. cbn [nc_get_vara exactly with_transfers]. unfold whole_of. by rewrite default_extent. Qed.

Lemma single_transfer t call id var_id p : copy_ok t = true -> (array_dims t).1 = [] -> single_of t call id var_id p = call id var_id p.
Proof.
  intros Hok Hd. unfold single_of. rewrite bool_decide_true by done.
  pose proof (default_extent t Hok) as H. rewrite Hd in H. cbn [map forallb product foldr andb] in H. unfold product in H. cbn [foldr] in H.
  by rewrite Z.mul_1_l in H; rewrite H.
Qed.

(** C26: a variable of the type of the data, without a selection, is transferred as a
    whole in both directions: the bytes that are read or written are those of the
    data, no more and no less. *)
Theorem default_transfer_is_whole v io t r nc :
  copy_ok t = true -> v_type v = Some (Datatype_as_template t) -> io_start io = [] -> io_subsize io = [] ->
  same (put_variable (NC := exactly t) v io r nc) (put_variable v io r nc) /\ same (get_variable (NC := exactly t) v io r nc) (get_variable v io r nc).
Proof.
  intros Hok Hv Hs Hc.
  assert (Hstride : forall g, variable_stride v g = Done (array_dims t).1 g) by (intros g; unfold variable_stride, variable_type; by rewrite Hv).
  split; intros g.
  - unfold put_variable. apply bind_same; [done|]. intros [|] g1 _; [done|]. destruct (split_group_and_variable (v_path v)) as [gp name].
    apply bind_same; [done|]. intros id g2 _. apply bind_same; [done|]. intros var_id g3 _. apply bind_same; [done|]. intros stride g4 Hst.
    rewrite Hstride in Hst. injection Hst as <- <-. unfold get_dims_start, get_dims_count. rewrite Hs, Hc.
    apply bind_same; [done|]. intros start g5 [= <- <-]. apply bind_same; [done|]. intros count g6 [= <- <-]. apply bind_same; [done|]. intros p g7 _.
    destruct (array_dims t).1 eqn:Hd.
    + unfold nc_try. apply bind_same; [|done]. by apply (f_equal (fun m => m g7)), single_transfer.
    + rewrite <- Hd. unfold nc_try. apply bind_same; [|done]. by apply (f_equal (fun m => m g7)), whole_put.
  - unfold get_variable. apply bind_same; [done|]. intros [|] g1 _; [done|]. apply bind_same; [done|]. intros stride g2 Hst.
    rewrite Hstride in Hst. injection Hst as <- <-. unfold get_dims_start, get_dims_count. rewrite Hs, Hc.
    apply bind_same; [done|]. intros start g3 [= <- <-]. apply bind_same; [done|]. intros count g4 [= <- <-].
    destruct (split_group_and_variable (v_path v)) as [gp name]. apply bind_same; [done|]. intros id g5 _. apply bind_same; [done|]. intros var_id g6 _.
    apply bind_same; [done|]. intros t' g7 _. apply bind_same; [done|]. intros [] g8 _. apply bind_same; [done|]. intros p g9 _.
    destruct (array_dims t).1 eqn:Hd.
    + unfold nc_try. apply bind_same; [|done]. by apply (f_equal (fun m => m g9)), single_transfer.
    + rewrite <- Hd. unfold nc_try. apply bind_same; [|done]. by apply (f_equal (fun m => m g9)), whole_get.
Qed.

End groups.
