(* ===== verification/NetcdfRun.v ===== *)
(** A netCDF library that keeps its files in memory, runs of the Decl'NetCDF plugin
    with it, and the instances of the theorems of the plugin. *)

From S2P Require Import Prelude Error Effect EffectEq ExprSyntax Datatype Layout Memory DenseCopy DenseCopyFacts Access Ref RefInv RefOps RefTheorems RefCopy Numeric Parse Yaml Template GlobalContext Eval ContextInv DescriptorInv EvalInv Share ShareFacts Logger SetValue SetValueRun UserCode Hdf5 Hdf5Ops Hdf5Exec Hdf5Facts Hdf5Guards Hdf5Parse Hdf5Run Netcdf NetcdfFile NetcdfExec NetcdfFacts.

(** * A library in memory *)

Record nc_var := mkVar { var_name : string; var_type : Z; var_dims : list Z; var_data : gmap Z (list Z) }.

(** A group, or the root of a file under its name; the id of a node is its place. *)
Record node := mkNode { node_parent : Z; node_name : string; node_dims : list (string * Z); node_vars : list nc_var }.

Record ncworld := mkNcWorld { nw_files : list Dnc_file_context; nw_nodes : list node }.

Abbreviation G := (M (global ncworld)).

Definition place {A} (P : A -> bool) (l : list A) : Z + Z := match list_find (fun x => P x = true) l with Some (i, _) => inr (Z.of_nat i) | None => inl 1 end.

Definition nodes (g : global ncworld) : list node := nw_nodes (g_world g).

Definition find_node (parent : Z) (name : string) : G (Z + Z) :=
  gets (fun g => place (fun n => (node_parent n =? parent) && bool_decide (node_name n = name)) (nodes g)).

Definition set_nodes (l : list node) (g : global ncworld) : global ncworld := set_world (mkNcWorld (nw_files (g_world g)) l) g.

Definition new_node (parent : Z) (name : string) : G (Z + Z) := fun g =>
  Done (inr (vsize (nodes g))) (set_nodes (nodes g ++ [mkNode parent name [] []]) g).

Definition on_node (id : Z) (f : node -> node * (Z + Z)) : G (Z + Z) := fun g =>
  match nodes g !! Z.to_nat id with
  | Some n => let '(n, r) := f n in Done r (set_nodes (<[Z.to_nat id := n]> (nodes g)) g)
  | None => Done (inl 1) g
  end.

(** The sizes of the basic types. *)
Definition type_size (type : Z) : Z :=
  if bool_decide (type ∈ [1; 2; 7]) then 1 else if bool_decide (type ∈ [3; 8]) then 2 else if bool_decide (type ∈ [4; 5; 9]) then 4 else 8.

Definition var_at (id var_id : Z) (g : global ncworld) : option (node * nc_var) :=
  n ← nodes g !! Z.to_nat id; v ← node_vars n !! Z.to_nat var_id; Some (n, v).

Definition lengths (n : node) (v : nc_var) : list Z := map (fun d => default 0 (snd <$> node_dims n !! Z.to_nat d)) (var_dims v).

Definition put_points (size : Z) (dims start count : list Z) (p : Z) (m : mem) (d : gmap Z (list Z)) : option (gmap Z (list Z)) :=
  foldr (fun kp acc => d ← acc; bs ← load m (p + size * kp.1) (Z.to_nat size); Some (<[linear dims kp.2 := bs]> d)) (Some d)
    (zip (seqZ 0 (product count)) (points start count)).

Definition get_points (size : Z) (dims start count : list Z) (p : Z) (d : gmap Z (list Z)) (m : mem) : outcome mem :=
  foldr (fun kp acc => m ← acc; deref (Memory.store m (p + size * kp.1) (default (replicate (Z.to_nat size) 0) (d !! linear dims kp.2)))) (Ret m)
    (zip (seqZ 0 (product count)) (points start count)).

Definition put_part (id var_id : Z) (part : option (list Z * list Z)) (p : Z) : G Z := fun g =>
  match var_at id var_id g with
  | Some (n, v) =>
      let '(start, count) := default (map (fun _ => 0) (lengths n v), lengths n v) part in
      match put_points (type_size (var_type v)) (lengths n v) start count p (g_mem g) (var_data v) with
      | Some d =>
          let n := mkNode (node_parent n) (node_name n) (node_dims n) (<[Z.to_nat var_id := mkVar (var_name v) (var_type v) (var_dims v) d]> (node_vars n)) in
          Done 0 (set_nodes (<[Z.to_nat id := n]> (nodes g)) g)
      | None => Crashed
      end
  | None => Done 1 g
  end.

Definition get_part (id var_id : Z) (part : option (list Z * list Z)) (p : Z) : G Z := fun g =>
  match var_at id var_id g with
  | Some (n, v) =>
      let '(start, count) := default (map (fun _ => 0) (lengths n v), lengths n v) part in
      (unit_mem (get_points (type_size (var_type v)) (lengths n v) start count p (var_data v));; mret 0) g
  | None => Done 1 g
  end.

(** There are neither compound types nor attributes. *)
#[local] Instance memory_netcdf : Netcdf ncworld := {|
  nc_strerror := fun _ => "error";
  nc_open := fun name _ => find_node (-1) name;
  nc_create := fun name _ => new_node (-1) name;
  nc_redef := fun _ => mret 0;
  nc_enddef := fun _ => mret 0;
  nc_close := fun _ => mret 0;
  nc_inq_grp_ncid := find_node;
  nc_def_grp := new_node;
  nc_inq_dimid := fun id name => on_node id (fun n => (n, place (fun d => bool_decide (d.1 = name)) (node_dims n)));
  nc_inq_dimlen := fun id d => on_node id (fun n => (n, match node_dims n !! Z.to_nat d with Some d => inr d.2 | None => inl 1 end));
  nc_def_dim := fun id name len => on_node id (fun n => (mkNode (node_parent n) (node_name n) (node_dims n ++ [(name, len)]) (node_vars n), inr (vsize (node_dims n))));
  nc_inq_typeid := fun _ _ => mret (inl 1);
  nc_def_compound := fun _ _ _ => mret (inl 1);
  nc_insert_compound := fun _ _ _ _ _ => mret 1;
  nc_insert_array_compound := fun _ _ _ _ _ _ => mret 1;
  nc_inq_varid := fun id name => on_node id (fun n => (n, place (fun v => bool_decide (var_name v = name)) (node_vars n)));
  nc_def_var := fun id name type dims =>
    on_node id (fun n => (mkNode (node_parent n) (node_name n) (node_dims n) (node_vars n ++ [mkVar name type dims ∅]), inr (vsize (node_vars n))));
  nc_def_var_chunking := fun _ _ _ => mret 0;
  nc_def_var_deflate := fun _ _ _ => mret 0;
  nc_inq_vartype := fun id var_id => gets (fun g => match var_at id var_id g with Some (_, v) => inr (var_type v) | None => inl 1 end);
  nc_inq_type := fun type => mret (inr (type_size type));
  nc_inq_varndims := fun id var_id => gets (fun g => match var_at id var_id g with Some (_, v) => inr (vsize (var_dims v)) | None => inl 1 end);
  nc_inq_vardimid := fun id var_id => gets (fun g => match var_at id var_id g with Some (_, v) => inr (var_dims v) | None => inl 1 end);
  nc_get_att := fun _ _ _ _ => mret 1;
  nc_put_att := fun _ _ _ _ _ _ => mret 1;
  nc_del_att := fun _ _ _ => mret 1;
  nc_put_var := fun id var_id p => put_part id var_id None p;
  nc_put_vara := fun id var_id start count p => put_part id var_id (Some (start, count)) p;
  nc_get_var := fun id var_id p => get_part id var_id None p;
  nc_get_vara := fun id var_id start count p => get_part id var_id (Some (start, count)) p
|}.

#[local] Instance memory_nc_host : NetcdfHost ncworld := {|
  nc_files := nw_files;
  set_nc_files := fun l w => mkNcWorld l (nw_nodes w);
  on_nc_event := fun i => 2 * Z.of_nat i;
  on_nc_data := fun i => 2 * Z.of_nat i + 1;
  unordered := fun _ l => l;
  nc_type_fuel := 9%nat
|}.

#[local] Instance memory_nc_laws : NetcdfHostLaws.
Proof. intros A l. done. Defined.

(** * Runs *)

(** The callbacks of the plugin; [depth] bounds their nesting. *)
Fixpoint netcdf_callbacks (depth : nat) (callback : Z) (name : string) (arg : option nat) : M (global ncworld) unit :=
  match depth, arg with
  | S depth, Some r => execute_data (RT := runtime_with even_allocator (netcdf_callbacks depth)) (Z.to_nat (callback / 2)) name r
  | S depth, None => execute_event (RT := runtime_with even_allocator (netcdf_callbacks depth)) (Z.to_nat (callback / 2))
  | O, _ => lift Crash
  end.

#[local] Instance netcdf_runtime : Runtime ncworld := runtime_with even_allocator (netcdf_callbacks 3).

(** [field] is written when it is shared; the event [load] reads a part of it and its
    sizes. *)
Definition netcdf_config (path : string) : PC_tree :=
  tree_of (sequence_of
    [mapping_of [("file", scalar_tree "out.nc"); ("write", mapping_of [("field", mapping_of [("variable", scalar_tree path)])])];
     mapping_of [("file", scalar_tree "out.nc"); ("on_event", scalar_tree "load");
                 ("read", mapping_of
                    [("copy", mapping_of [("variable", scalar_tree path);
                                          ("variable_selection", mapping_of [("start", sequence_of [scalar_tree "1"; scalar_tree "0"]);
                                                                             ("subsize", sequence_of [scalar_tree "1"; scalar_tree "3"])])]);
                     ("sizes", mapping_of [("size_of", scalar_tree path)])])]]).

Definition int16 : Datatype := Scalar_datatype [] SIGNED 2 2 2 None None.
Definition full2 (t : Datatype) (n n' : Z) : Datatype := array2 t n 0 n n' 0 n'.

Definition netcdf_start : global ncworld :=
  mkGlobal empty_store (bytes_at 4096 [1; 0; 2; 0; 3; 0; 4; 0; 5; 0; 6; 0] ∪ bytes_at 8192 (replicate 6 9) ∪ bytes_at 12288 (replicate 16 9)) ∅
    {["field" := mkDescriptor (Datatype_as_template (full2 int16 2 3)) false [];
      "copy" := mkDescriptor (Datatype_as_template (full2 int16 1 3)) false [];
      "sizes" := mkDescriptor (Datatype_as_template (Array_datatype [] long_type 2 0 2)) false []]}
    (fun _ => mkRegistry [] []) 0 (mkNcWorld [] []).

Definition netcdf_session (path : string) : M (global ncworld) unit :=
  decl_netcdf_plugin (netcdf_config path);;
  share_data "field" 4096 true false;;
  share_data "copy" 8192 true true;;
  share_data "sizes" 12288 true true;;
  notify_event "load".

Example netcdf_run :
  match netcdf_session "grp/data" netcdf_start with
  | Done _ g => Some (load (g_mem g) 8192 6, load (g_mem g) 12288 16)
  | _ => None
  end = Some (Some [4; 0; 5; 0; 6; 0], Some ([2; 0; 0; 0; 0; 0; 0; 0] ++ [3; 0; 0; 0; 0; 0; 0; 0])).
Proof. vm_compute. reflexivity. Qed.

(** An empty group name in the path of a variable: the group that is defined is not
    the one that is looked up. *)
Example empty_group_name_crashes : netcdf_session "grp//data" netcdf_start = Crashed.
Proof. vm_compute. reflexivity. Qed.

(** * Instances *)

Definition file_start : global ncworld := set_nodes [mkNode (-1) "out.nc" [] []] netcdf_start.

Definition open_root : Dnc_netcdf_file := mkNcFile 0 {["/" := 0]} ∅.

Lemma good_group : good_name "grp".
Proof. split; [done|]. by repeat constructor. Defined.

Definition grp_defined : exec (global ncworld) (Z * Dnc_netcdf_file) := walk_groups define_step ["grp"] open_root file_start.

Lemma group_of_variable_is_found_witness :
  match grp_defined with
  | Done (_, nc) g =>
      (split_group_and_variable "grp/data").2 = "data" /\ split_to_groups (split_group_and_variable "grp/data").1 = ["grp"] /\
      exists group_id, group_id_of (split_group_and_variable "grp/data").1 nc g = Done group_id g
  | _ => False
  end.
Proof.
  destruct grp_defined as [[id nc] g|e g|] eqn:H; [|by vm_compute in H..].
  apply (group_of_variable_is_found ["grp"] "data" "grp/data" define_step open_root file_start id nc g).
  - apply (relative "grp" [] "data"); [apply good_group|by constructor|by repeat constructor].
  - by eexists.
  - exact H.
Defined.

(** A file with data to write and data to read. *)
Definition no_io : Dnc_io := mkNcIo None None [] [].

Definition mixed : Dnc_file_context :=
  mkNcContext (String_literal "out.nc" []) None (Int_literal 1) [] [] [("copy", no_io)] [("field", no_io)] [].

Lemma mixed_event_never_completes_witness : ~ exists a g', event_transfers 0 mixed netcdf_start = Done a g'.
Proof. by apply (mixed_event_never_completes 0 mixed netcdf_start). Defined.

(** With both pieces of data shared, the run ends in undefined behaviour. *)
Example mixed_event_crashes :
  (share_data "field" 4096 true false;; share_data "copy" 8192 true true;; event_transfers 0 mixed)
    (set_world (mkNcWorld [mixed] []) netcdf_start) = Crashed.
Proof. vm_compute. reflexivity. Qed.

Definition field_variable : Dnc_variable := mkNcVariable "data" (Some (Datatype_as_template (full2 int16 2 3))) [] [] None None.

Lemma default_transfer_is_whole_witness :
  same (put_variable (NC := exactly (full2 int16 2 3)) field_variable no_io 0 open_root) (put_variable field_variable no_io 0 open_root) /\
  same (get_variable (NC := exactly (full2 int16 2 3)) field_variable no_io 0 open_root) (get_variable field_variable no_io 0 open_root).
Proof. apply default_transfer_is_whole; by vm_compute. Defined.
