(* ===== verification/Mpi.v ===== *)
(** The MPI plugin: [plugins/mpi/mpi.cxx].

    The plugin defines the predefined communicators as metadata, declares the
    types of C and Fortran communicators, adds the rank to the messages of the
    logger, and converts communicators between C and Fortran when they are shared.
    The MPI library is a parameter; a C communicator is known by the bits of its
    handle.  What the plugin writes to the log is not modelled. *)

From S2P Require Import Prelude Error Effect ExprSyntax Datatype Layout Memory DenseCopy Access Ref RefInv RefOps RefTheorems RefCopy Numeric Parse Yaml Template GlobalContext Eval Logger SetValue.

(** * The library *)

(** [MPI_Comm] and [MPI_Fint] with their sizes and alignments, the predefined
    communicators, and the conversions between C and Fortran handles. *)
Class Mpi := {
  comm_size : Z;
  comm_align : Z;
  fint_size : Z;
  fint_align : Z;
  fint_signed : bool;
  MPI_COMM_WORLD : Z;
  MPI_COMM_SELF : Z;
  MPI_COMM_NULL : Z;
  MPI_Comm_c2f : Z -> Z;
  MPI_Comm_f2c : Z -> Z;
  MPI_Comm_rank : Z -> Z
}.

(** The lambdas of the plugin, with the name they capture. *)
Inductive Mpi_callback :=
  | C_to_F_data (fortran_comm_desc : string)
  | C_to_F_remove (fortran_comm_desc : string)
  | F_to_C_data (c_comm_desc : string)
  | F_to_C_remove (c_comm_desc : string).

Class MpiHost (W : Type) := {
  mpi_callbacks : W -> list Mpi_callback;
  set_mpi_callbacks : list Mpi_callback -> W -> W;
  on_mpi_callback : nat -> Z;
  mpi_logger : nat
}.

(** A null [std::function]. *)
Definition null_function : Z := -5.

Section plugin.
  Context {W : Type} {RT : Runtime W} {LH : LoggerHost W} {MPI : Mpi} {MH : MpiHost W}.

Abbreviation G := (M (global W)).

(** * Integers of a scalar type *)

(** [sized_set_val] to a reference *)
Definition sized_set_val_to (size : Z) (to : nat) (from : Z) (to_type : Datatype) (kind : Scalar_kind) : G unit :=
  let assign s := p ← ref_get to; unit_mem (fun m => write_num m p (NInt s size (to_int s size from))) in
  match kind with
  | SIGNED => assign true
  | UNSIGNED => assign false
  | _ => text ← lift (debug_string to_type); throw (Type_error ("Integer scalar expected, got:" +:+ newline +:+ text))
  end.

(** [set_val(Ref_w&, T const&)]: other sizes than those of the switch write nothing. *)
Definition set_val_to (to : nat) (from : Z) : G unit :=
  t ← ref_type to;
  match t with
  | Scalar_datatype _ kind _ _ _ _ _ =>
      if bool_decide (buffersize t ∈ [1; 2; 4; 8]) then sized_set_val_to (buffersize t) to from t kind else mret tt
  | _ => text ← lift (debug_string t); throw (Type_error ("Scalar expected, got:" +:+ newline +:+ text))
  end.

(** [sized_set_val] from a reference; the value is assigned to an [MPI_Fint]. *)
Definition sized_set_val_from (size : Z) (from : nat) (from_type : Datatype) (kind : Scalar_kind) : G Z :=
  let value s := p ← ref_get from; m ← gets g_mem; n ← lift (read_as (CInt s size) m p); mret (to_int fint_signed fint_size (int_value n)) in
  match kind with
  | SIGNED => value true
  | UNSIGNED => value false
  | _ => text ← lift (debug_string from_type); throw (Type_error ("Integer scalar expected, got:" +:+ newline +:+ text))
  end.

(** [set_val(T&, Ref_r const&)]: other sizes than those of the switch leave the
    variable as it was. *)
Definition set_val_from (to : option Z) (from : nat) : G (option Z) :=
  t ← ref_type from;
  match t with
  | Scalar_datatype _ kind _ _ _ _ _ =>
      if bool_decide (buffersize t ∈ [1; 2; 4; 8]) then v ← sized_set_val_from (buffersize t) from t kind; mret (Some v) else mret to
  | _ => text ← lift (debug_string t); throw (Type_error ("Scalar expected, got:" +:+ newline +:+ text))
  end.

(** * Handles in memory *)

(** [*static_cast<const MPI_Comm*>(p)] and [*static_cast<const MPI_Fint*>(p)] *)
Definition load_comm (p : Z) : G Z := m ← gets g_mem; lift (load_bits m p comm_size).
Definition load_fint (p : Z) : G Z := m ← gets g_mem; n ← lift (read_as (CInt fint_signed fint_size) m p); mret (int_value n).

(** Assigning through a pointer to [w] bytes. *)
Definition store_value (p w v : Z) : G unit := unit_mem (fun m => store_bits m p w v).

(** [m_mpi_comm_datatype] and [m_mpi_comm_f_datatype] *)
Definition mpi_comm_datatype : outcome Datatype := make_scalar_kind_size_align UNKNOWN comm_size comm_align [].
Definition mpi_comm_f_datatype : outcome Datatype :=
  make_scalar_kind_size_align (if fint_signed then SIGNED else UNSIGNED) fint_size fint_align [].

(** [Ref{new T, ..., type, true, true}] *)
Definition new_handle (size : Z) (type : outcome Datatype) : G nat :=
  t ← lift type;
  p ← on_mem (fun m => Ret (operator_new m size));
  on_store (new_ref false false p delete_value t true true).

(** [*static_cast<T*>(Ref_w{r}.get()) = v] *)
Definition assign_handle (r : nat) (size v : Z) : G unit :=
  with_ref (ref_copy false true r) (fun w => p ← ref_get w; store_value p size v).

(** [ctx.desc(name).share(r, false, false)] *)
Definition share_handle (name : string) (r : nat) : G unit :=
  desc name;; with_ref (ref_copy false false r) (fun arg => share_ref name arg false false);; mret tt.

(** [Ref_r r = ctx.desc(name).ref()] *)
Definition with_handle {A} (name : string) (body : nat -> G A) : G A :=
  with_ref (readable (desc name;; GlobalContext.ref name)) body.

(** * Conversions *)

Definition C_to_F_on_data (fortran_comm_desc c_comm_desc : string) (ref : nat) : G unit :=
  with_ref (new_handle fint_size mpi_comm_f_datatype) (fun fortran_comm_ref =>
    with_ref (ref_copy true false ref) (fun ref_r =>
      n ← ref_is_null ref_r;
      if negb n then
        p ← ref_get ref_r;
        comm ← load_comm p;
        assign_handle fortran_comm_ref fint_size (MPI_Comm_c2f comm);;
        share_handle fortran_comm_desc fortran_comm_ref
      else throw (Permission_error ("Cannot read `" +:+ c_comm_desc +:+ "' data to transtype to fortran communicator")))).

Definition C_to_F_on_data_remove (fortran_comm_desc c_comm_desc : string) (c_comm_ref : nat) : G unit :=
  with_ref (ref_copy false true c_comm_ref) (fun c_comm_ref_w =>
    n ← ref_is_null c_comm_ref_w;
    if negb n then
      with_handle fortran_comm_desc (fun fortran_comm_ref_r =>
        n ← ref_is_null fortran_comm_ref_r;
        if negb n then
          p ← ref_get fortran_comm_ref_r;
          f_comm ← load_fint p;
          q ← ref_get c_comm_ref_w;
          store_value q comm_size (MPI_Comm_f2c f_comm)
        else throw (Permission_error ("Cannot read `" +:+ c_comm_desc +:+ "' data")))
    else mret tt);;
  desc fortran_comm_desc;; release_desc fortran_comm_desc.

(** Using [f_comm] when [set_val] did not assign it is undefined. *)
Definition F_to_C_on_data (c_comm_desc fortran_comm_desc : string) (ref : nat) : G unit :=
  with_ref (new_handle comm_size mpi_comm_datatype) (fun c_comm_ref =>
    with_ref (ref_copy true false ref) (fun ref_r =>
      n ← ref_is_null ref_r;
      if negb n then
        f_comm ← set_val_from None ref_r;
        f_comm ← lift (deref f_comm);
        assign_handle c_comm_ref comm_size (MPI_Comm_f2c f_comm);;
        share_handle c_comm_desc c_comm_ref
      else throw (Permission_error ("Cannot read `" +:+ fortran_comm_desc +:+ "' data to transtype to C communicator")))).

Definition F_to_C_on_data_remove (c_comm_desc fortran_comm_desc : string) (fortran_comm_ref : nat) : G unit :=
  with_ref (ref_copy false true fortran_comm_ref) (fun fortran_comm_ref_w =>
    n ← ref_is_null fortran_comm_ref_w;
    if negb n then
      with_handle c_comm_desc (fun c_comm_ref_r =>
        n ← ref_is_null c_comm_ref_r;
        if negb n then
          p ← ref_get c_comm_ref_r;
          comm ← load_comm p;
          set_val_to fortran_comm_ref_w (MPI_Comm_c2f comm)
        else throw (Permission_error ("Cannot read `" +:+ c_comm_desc +:+ "' data")))
    else mret tt);;
  desc c_comm_desc;; release_desc c_comm_desc.

(** What lambda [i] does with data [ref] of name [name]. *)
Definition run_mpi_callback (i : nat) (name : string) (ref : nat) : G unit :=
  l ← gets (fun g => mpi_callbacks (g_world g));
  match l !! i with
  | Some (C_to_F_data f) => C_to_F_on_data f name ref
  | Some (C_to_F_remove f) => C_to_F_on_data_remove f name ref
  | Some (F_to_C_data c) => F_to_C_on_data c name ref
  | Some (F_to_C_remove c) => F_to_C_on_data_remove c name ref
  | None => lift Crash
  end.

(** ** Registration *)

Definition push_mpi_callback (c : Mpi_callback) : G Z := fun g =>
  let l := mpi_callbacks (g_world g) in
  Done (on_mpi_callback (length l)) (set_world (set_mpi_callbacks (l ++ [c]) (g_world g)) g).

Definition transtype_C_to_F (c_comm_desc fortran_comm_desc : string) : G unit :=
  h ← push_mpi_callback (C_to_F_data fortran_comm_desc);
  on_data h c_comm_desc;;
  h ← push_mpi_callback (C_to_F_remove fortran_comm_desc);
  on_data_remove h c_comm_desc;;
  mret tt.

Definition transtype_F_to_C (fortran_comm_desc c_comm_desc : string) : G unit :=
  h ← push_mpi_callback (F_to_C_data c_comm_desc);
  on_data h fortran_comm_desc;;
  h ← push_mpi_callback (F_to_C_remove c_comm_desc);
  on_data_remove h fortran_comm_desc;;
  mret tt.

(** The pairs of names of a map of the configuration. *)
Definition each_names (t : PC_tree) (f : string -> string -> G unit) : G unit :=
  if negb (PC_status t) then
    each_do (fun i =>
      src ← lift (Yaml.to_string (get_nth_key t i));
      dst ← lift (Yaml.to_string (get_nth_value t i));
      f src dst) (seq 0 (PC_len t))
  else mret tt.

(** One entry of the deprecated key: the type of the source gives the direction. *)
Definition transtype_entry (C_mpi_comm_type : Datatype) (src_desc dst_desc : string) : G unit :=
  desc src_desc;;
  t ← default_type_of src_desc;
  if datatype_eqb t C_mpi_comm_type then transtype_C_to_F src_desc dst_desc else transtype_F_to_C src_desc dst_desc.

Definition MPI_Comm_transtype (tree : PC_tree) (C_mpi_comm_type F_mpi_comm_type : Datatype) : G unit :=
  (let transtype_tree := get_key tree "transtype" in
   if negb (PC_status transtype_tree) && datatype_eqb C_mpi_comm_type F_mpi_comm_type then
     throw (Value_error "Transtype failed, cannot detect the direction of transtype")
   else each_names transtype_tree (transtype_entry C_mpi_comm_type));;
  each_names (get_key tree "Comm_c2f") transtype_C_to_F;;
  each_names (get_key tree "Comm_f2c") transtype_F_to_C.

(** * The plugin *)

(** A local variable of [w] bytes, whose address is taken. *)
Definition with_local {A} (w v : Z) (body : Z -> G A) : G A :=
  p ← on_mem (fun m => Ret (operator_new m w));
  store_value p w v;;
  finally (body p) (modify (fun g => set_mem (foldr delete (g_mem g) (seqZ p w)) g)).

(** The reference is made from [data] without a function to free it. *)
Definition add_predefined (name : string) (data : Z) (type : Datatype) : G unit :=
  desc name;;
  e ← empty name;
  if negb e then throw (Impl_error ("Predefined descriptor already defined `" +:+ name +:+ "'"))
  else
    set_metadata name true;;
    with_ref (on_store (new_ref false false data null_function type true false)) (fun r => share_ref name r true false);;
    reclaim name;; mret tt.

(** The bound on the evaluation of the patterns of the loggers. *)
Context (turns : nat).

Definition set_up_logger : G unit :=
  on_loggers (add_pattern_global_block "MPI %{MPI_COMM_WORLD_rank:06d}" mpi_logger);;
  evaluate_global_pattern turns mpi_logger.

(** [ctx.add_datatype(name, [](...) { return type; })] *)
Definition add_fixed_datatype (name : string) (type : Datatype) : G unit :=
  ps ← gets m_datatype_parsers; ps ← lift (add_datatype name (Parse_fixed type) ps); modify (set_parsers ps).

(** The constructor: the local variables live until it returns or throws. *)
Definition mpi_plugin (config : PC_tree) : G unit :=
  comm_datatype ← lift mpi_comm_datatype;
  comm_f_datatype ← lift mpi_comm_f_datatype;
  with_local 4 (MPI_Comm_rank MPI_COMM_WORLD) (fun world_rank =>
    int_type ← lift (make_scalar_kind_size SIGNED 4 []);
    add_predefined "MPI_COMM_WORLD_rank" world_rank int_type;;
    set_up_logger;;
    add_fixed_datatype "MPI_Comm" comm_datatype;;
    with_local comm_size MPI_COMM_WORLD (fun comm_world =>
      add_predefined "MPI_COMM_WORLD" comm_world comm_datatype;;
      with_local comm_size MPI_COMM_SELF (fun comm_self =>
        add_predefined "MPI_COMM_SELF" comm_self comm_datatype;;
        with_local comm_size MPI_COMM_NULL (fun comm_null =>
          add_predefined "MPI_COMM_NULL" comm_null comm_datatype;;
          add_fixed_datatype "MPI_Comm_f" comm_f_datatype;;
          with_local fint_size (MPI_Comm_c2f MPI_COMM_WORLD) (fun comm_world_f =>
            add_predefined "MPI_COMM_WORLD_F" comm_world_f comm_f_datatype;;
            with_local fint_size (MPI_Comm_c2f MPI_COMM_SELF) (fun comm_self_f =>
              add_predefined "MPI_COMM_SELF_F" comm_self_f comm_f_datatype;;
              with_local fint_size (MPI_Comm_c2f MPI_COMM_NULL) (fun comm_null_f =>
                add_predefined "MPI_COMM_NULL_F" comm_null_f comm_f_datatype;;
                MPI_Comm_transtype config comm_datatype comm_f_datatype))))))).

End plugin.
