(* ===== verification/MpiFacts.v ===== *)
(** The MPI plugin: the predefined values outlive the variables they were made
    from, communicators are converted when they are shared, and the direction of
    the deprecated key is never that of a C communicator. *)

From S2P Require Import Prelude Error Effect ExprSyntax Datatype Layout Memory DenseCopy DenseCopyFacts RoundTrip Access Ref RefInv RefOps RefTheorems RefCopy Numeric Parse Yaml Template GlobalContext Eval ContextInv DescriptorInv EvalInv Share ShareFacts MetadataFacts Logger SetValue Json JsonFacts Mpi.

(** * Values *)

Lemma load_ext m m' a a' n : (forall i, 0 <= i < Z.of_nat n -> m' !! (a' + i) = m !! (a + i)) -> load m' a' n = load m a n.
Proof.
  revert a a'. induction n as [|n IH]; intros a a' H; simpl; [done|].
  pose proof (H 0 ltac:(lia)) as H0. rewrite !Z.add_0_r in H0. rewrite H0. destruct (m !! a); [|done]. simpl.
  rewrite (IH (a + 1) (a' + 1)); [done|]. intros i Hi. rewrite <- !Z.add_assoc. apply H. lia.
Qed.

Lemma load_bits_ext m m' a a' w : 0 <= w -> (forall i, 0 <= i < w -> m' !! (a' + i) = m !! (a + i)) -> load_bits m' a' w = load_bits m a w.
Proof. intros Hw H. unfold load_bits. rewrite (load_ext m m' a a'); [done|]. by rewrite Z2Nat.id. Qed.

Definition is_integer (k : Scalar_kind) : bool := match k with SIGNED | UNSIGNED => true | _ => false end.
Definition is_signed (k : Scalar_kind) : bool := match k with SIGNED => true | _ => false end.

(** A scalar type as the plugin makes them. *)
Definition scalar_of (k : Scalar_kind) (w al : Z) : Datatype := Scalar_datatype [] k w al w None None.

Lemma integer_value k w al m a bits :
  is_integer k = true -> w ∈ [1; 2; 4; 8] -> load_bits m a w = Ret bits ->
  scalar_value (CInt true 8) (scalar_of k w al) m a = Ret (NInt true 8 (to_int true 8 (to_int (is_signed k) w bits))).
Proof.
  intros Hk Hw Hb. unfold scalar_value, scalar_of, stored_type. cbn [buffersize].
  destruct k; try done; rewrite bool_decide_eq_true_2 by done; cbn [mbind outcome_bind]; unfold read_as; cbn [sizeof]; rewrite Hb; done.
Qed.

Section facts.
  Context {W : Type} {RT : Runtime W} {OB : Observers W}.

Implicit Types g : global W.

(** * Predefined values *)

Context {LH : LoggerHost W} {MPI : Mpi} {MH : MpiHost W}.

(** Holding a reference whatever it is linked to. *)
Lemma hold_any g name d R r :
  inv (g_store g) -> m_descriptors g !! name = Some d -> exists_ref g r ->
  exists g' h, hold name R false r g = Done tt g' /\ calm nothing g g' /\
    m_descriptors g' = <[name := mkDescriptor (m_type d) (m_metadata d) (h :: m_refs d)]> (m_descriptors g) /\ exists_ref g' h /\ (next (g_store g) < h)%nat.
Proof.
  intros Hinv Hd Hr. destruct (copy_runs g false false r Hinv Hr) as (g1 & Hrun1 & C1 & D1 & He1 & _). pose proof (cm_inv _ _ _ C1) as Hinv1.
  destruct (copy_runs g1 R false (next (g_store g)) Hinv1 He1) as (g2 & Hrun2 & C2 & D2 & [x Hx] & _). set (h := next (g_store g1)) in *.
  assert (Hlt : (next (g_store g) < h)%nat) by (by apply (wf_next_refs _ (proj1 Hinv1))).
  set (g2' := set_descriptors (<[name := mkDescriptor (m_type d) (m_metadata d) (h :: m_refs d)]> (m_descriptors g2)) g2).
  assert (C2' : calm nothing g1 g2') by (eapply calm_step; [exact C2|apply set_descriptors_calm, C2]).
  destruct (with_ref_calm g g1 g2' (ref_copy false false r) (fun t => h ← ref_copy R false t; push name h) (next (g_store g)) tt)
    as (g3 & Hrun3 & C3 & D3 & _ & C4); try done.
  { unfold mbind, M_bind. rewrite Hrun2. apply push_runs. by rewrite D2, D1. }
  exists g3, h. split_and!; [done|done| | |done].
  - rewrite D3. unfold g2'. simpl. by rewrite D2, D1.
  - exists x. apply (cm_refs _ _ _ C4); [lia|done].
Qed.

(** A new reference that is null. *)
Lemma null_runs g R V :
  inv (g_store g) -> exists g', ref_null R V g = Done (next (g_store g)) g' /\ calm nothing g g' /\ m_descriptors g' = m_descriptors g /\
    exists_ref g' (next (g_store g)).
Proof.
  intros Hinv. unfold ref_null, on_store, zoom. destruct (new_null_ok (g_store g) R V Hinv) as (st1 & -> & H1 & Hr1 & _ & Hd1 & Hb1 & Hn1).
  destruct (H1 Hinv) as [Hinv1 _]. exists (set_store st1 g). split_and!; try done.
  - split; simpl; try done; [lia| |by rewrite Hd1]. intros r x _ Hx. rewrite Hr1, lookup_insert_ne; [done|]. intros <-. by apply (fresh_ref _ _ _ Hinv Hx).
  - unfold exists_ref. simpl. by rewrite Hr1, lookup_insert_eq.
Qed.

(** A descriptor without data becomes a metadata with a placeholder. *)
Lemma set_metadata_runs g name d :
  inv (g_store g) -> m_descriptors g !! name = Some d -> m_metadata d = false -> m_refs d = [] ->
  exists g' p, set_metadata name true g = Done tt g' /\ calm nothing g g' /\
    m_descriptors g' = <[name := mkDescriptor (m_type d) true [p]]> (m_descriptors g) /\ exists_ref g' p.
Proof.
  intros Hinv Hd Hm Hrs. set (d1 := mkDescriptor (m_type d) true []). set (g1 := set_descriptors (<[name := d1]> (m_descriptors g)) g).
  assert (C1 : calm nothing g g1) by (by apply set_descriptors_calm).
  destruct (null_runs g1 false false Hinv) as (g2 & Hrun2 & C2 & D2 & He2). set (r := next (g_store g1)) in *.
  destruct (hold_any g2 name d1 true r (cm_inv _ _ _ C2)) as (g3 & p & Hrun3 & C3 & D3 & [x Hx] & Hlt); [rewrite D2; simpl; by rewrite lookup_insert_eq|done|].
  destruct (with_ref_calm g1 g2 g3 (ref_null false false) (hold name true false) r tt) as (g4 & Hrun4 & C4 & D4 & _ & C5); try done.
  assert (D : m_descriptors g4 = <[name := mkDescriptor (m_type d) true [p]]> (m_descriptors g)).
  { rewrite D4, D3, D2. simpl. by rewrite insert_insert_eq. }
  exists g4, p. split_and!; [|by eapply calm_step|done|].
  - unfold set_metadata. unfold mbind at 1, M_bind at 1. rewrite (assert_runs g name d) by auto. unfold mbind at 1, M_bind at 1, get_desc at 1. rewrite Hd, Hrs.
    unfold mbind at 1, M_bind at 1, set_desc, modify. fold d1. fold g1. unfold mbind at 1, M_bind at 1. rewrite Hrun4.
    rewrite (assert_runs g4 name (mkDescriptor (m_type d) true [p])); [done|by rewrite D, lookup_insert_eq|by right].
  - exists x. apply (cm_refs _ _ _ C5); [|done]. pose proof (wf_next_refs _ (proj1 (cm_inv _ _ _ C2)) r He2). lia.
Qed.

Lemma scalar_copyable g k w al b data :
  copy_ok (scalar_of k w al) = true -> 0 < w -> w + (al - 1) < size_modulus -> data <> nullptr -> allocated (g_mem g) data w ->
  copyable g (mkData b data (scalar_of k w al)).
Proof. intros. by split. Qed.

Lemma densify_scalar k w al : copy_ok (scalar_of k w al) = true -> densify (scalar_of k w al) = Ret (scalar_of k w al).
Proof.
  intros Hok. simpl in Hok. bools. unfold scalar_of. simpl. unfold scalar_densify, make_scalar.
  match goal with H : ispow2 al = true |- _ => rewrite H end. by rewrite andb_false_r.
Qed.

Lemma add_predefined_runs g name k w al data :
  let t := scalar_of k w al in
  inv (g_store g) -> m_descriptors g !! name = None -> copy_ok t = true -> 0 < w -> w + (al - 1) < size_modulus -> data <> nullptr ->
  allocated (g_mem g) data w ->
  exists g' h dt b q, add_predefined name data t g = Done tt g' /\ inv (g_store g') /\ copied g g' (mkData b data t) q t /\
    m_descriptors g' = <[name := mkDescriptor (Datatype_as_template UNDEF_TYPE) true [h]]> (m_descriptors g) /\ holder g' h true dt (mkData b q t).
Proof.
  intros t Hinv Hnone Hok Hw Hfit Hnn Hal. set (d0 := empty_descriptor). set (g0 := set_descriptors (<[name := d0]> (m_descriptors g)) g).
  assert (Hd0 : m_descriptors g0 !! name = Some d0) by (simpl; by rewrite lookup_insert_eq).
  destruct (set_metadata_runs g0 name d0 Hinv Hd0) as (g1 & p & Hrun1 & C1 & D1 & [px Hp1]); [done..|]. set (d1 := mkDescriptor (m_type d0) true [p]) in *.
  pose proof (cm_inv _ _ _ C1) as Hinv1. assert (Hd1 : m_descriptors g1 !! name = Some d1) by (by rewrite D1, lookup_insert_eq).
  destruct (with_new_shared g1 name d1 true data null_function t false (fun r => share_ref name r true false) data Hinv1 Hd1)
    as (g2 & h & dt & b & Hrun2 & C2 & D2 & Hh2 & Hun2 & Hfh); try done.
  set (d2 := mkDescriptor (m_type d1) true [h; p]) in *. assert (Hd2 : m_descriptors g2 !! name = Some d2) by (by rewrite D2, lookup_insert_eq).
  assert (Hlt : (p < next (g_store g1))%nat) by (apply (wf_next_refs _ (proj1 Hinv1)); by eexists).
  assert (HM : g_mem g2 = g_mem g) by (by rewrite (cm_mem _ _ _ C2), (cm_mem _ _ _ C1)).
  destruct (reclaim_metadata_runs g2 name d2 h p dt (mkData b data t)) as (g3 & h' & dt' & b' & q & t' & Hrun3 & Hcd & Hinv3 & _ & D3 & Hh3);
    try done; [apply C2|lia|exists px; by apply (calm_ref g1 g2)|by eapply holds_links| |].
  { apply scalar_copyable; try done. by rewrite HM. }
  assert (t' = t) as ->.
  { pose proof (cd_type _ _ _ _ _ Hcd) as Hden. cbn [data_type] in Hden. unfold t in Hden. rewrite densify_scalar in Hden by done. by injection Hden as <-. }
  exists g3, h', dt', b', q. split_and!; [|done| | |done].
  - unfold add_predefined. unfold mbind at 1, M_bind at 1, desc. rewrite Hnone. fold d0 g0. unfold mbind at 1, M_bind at 1, empty.
    unfold mbind at 1, M_bind at 1. rewrite (assert_runs g0 name d0) by (done || by left). unfold mbind at 1, M_bind at 1, get_desc at 1. rewrite Hd0.
    cbn -[mbind set_metadata with_ref reclaim share_ref]. unfold mbind at 1, M_bind at 1. rewrite Hrun1. unfold mbind at 1, M_bind at 1. rewrite Hrun2.
    unfold mbind at 1, M_bind at 1. by rewrite Hrun3.
  - destruct Hcd as [? ? Hmv Hk Hfr]. rewrite HM in *. by split.
  - rewrite D3, D2, D1. unfold g0, d2, d1. simpl. by rewrite !insert_insert_eq.
Qed.

(** A local variable whose address is not known to the body once it returned. *)
Lemma drop_lookup (m : mem) l z : z ∉ l -> foldr delete m l !! z = m !! z.
Proof. induction l as [|x l IH]; intros Hz; simpl; [done|]. apply not_elem_of_cons in Hz as [Hne Hz]. rewrite lookup_delete_ne by done. by apply IH. Qed.

(** The copy of a scalar, once its source is gone. *)
Lemma copy_without_source (m m' : mem) p q w :
  0 <= w -> (forall z, p <= z < p + w -> is_Some (m !! z)) -> (forall z, q <= z < q + w -> m !! z = None) -> moved m m' q p [(0, 0, w)] ->
  load_bits (foldr delete m' (seqZ p w)) q w = load_bits m p w.
Proof.
  intros Hw Hp Hfr Hmv. unfold moved in Hmv. rewrite list.Forall_cons in Hmv. destruct Hmv as [Hmv _]. apply load_bits_ext; [done|]. intros i Hi.
  rewrite drop_lookup; [specialize (Hmv i Hi); by rewrite !Z.add_0_r in Hmv|]. rewrite elem_of_seqZ. intros Hin.
  destruct (Hp (q + i) Hin) as [x Hx]. rewrite (Hfr (q + i)) in Hx by lia. done.
Qed.

(** C27: a value that the MPI plugin predefines from a local variable, as it does
    with the rank and the communicators, stays available when the variable is gone:
    the metadata is defined, its reader holds the bytes of the variable, whatever its
    kind, and neither the other descriptors nor the memory of the others change; an
    expression that refers to an integer of 1, 2, 4 or 8 bytes, as the rank and the
    Fortran handles are, evaluates to the value of the variable.  The name is new, the
    type of the scalar can be copied, and the other plugins only observe. *)
Theorem predefined_value_outlives_its_variable g name k w al v :
  inv (g_store g) -> m_descriptors g !! name = None -> 0 < w ->
  copy_ok (scalar_of k w al) = true -> w + (al - 1) < size_modulus ->
  exists g' h dt b q, with_local w v (fun p => add_predefined name p (scalar_of k w al)) g = Done tt g' /\
    m_descriptors g' = <[name := mkDescriptor (Datatype_as_template UNDEF_TYPE) true [h]]> (m_descriptors g) /\
    holder g' h true dt (mkData b q (scalar_of k w al)) /\ load_bits (g_mem g') q w = Ret (v mod 2 ^ (8 * w)) /\
    (forall z, is_Some (g_mem g !! z) -> g_mem g' !! z = g_mem g !! z) /\
    (is_integer k = true -> w ∈ [1; 2; 4; 8] ->
       exists g'', expr_to_long (Reference_expression name [] "") g' = Done (to_int true 8 (to_int (is_signed k) w v)) g'' /\ quietly g' g'').
Proof.
  intros Hinv Hnone Hw0 Hok Hfit.
  unfold with_local. unfold mbind at 1, M_bind at 1, on_mem, zoom. destruct (operator_new (g_mem g) w) as [p m1] eqn:Hnew.
  pose proof (new_fresh (g_mem g) w) as Hfresh. pose proof (new_allocated (g_mem g) w) as Hall. pose proof (new_frame (g_mem g) w) as Hframe.
  pose proof (new_positive (g_mem g) w) as Hpos. rewrite Hnew in Hfresh, Hall, Hframe, Hpos. simpl in Hfresh, Hall, Hframe, Hpos.
  destruct (load_store_bits m1 p w v) as (m2 & Hst & Hld & Hf2 & Hsa); [lia|done|].
  unfold mbind at 1, M_bind at 1, store_value, unit_mem, on_mem, zoom. simpl. rewrite Hst. cbn [mbind outcome_bind]. set (g1 := set_mem m2 (set_mem m1 g)).
  destruct (add_predefined_runs g1 name k w al p Hinv Hnone Hok Hw0 Hfit) as (g2 & h & dt & b & q & Hrun2 & Hinv2 & Hcd & D2 & Hh2);
    [unfold nullptr; lia|simpl; by rewrite <- Hsa|].
  destruct Hcd as [_ Hq Hmv Hkept Hfr]. simpl in Hmv, Hkept, Hfr. unfold finally. rewrite Hrun2. unfold modify.
  set (m3 := foldr delete (g_mem g2) (seqZ p w)). set (g3 := set_mem m3 g2).
  assert (Hp2 : forall z, p <= z < p + w -> is_Some (m2 !! z)) by (intros z Hz; apply Hsa; by apply Hall).
  assert (Hval : load_bits m3 q w = Ret (v mod 2 ^ (8 * w))).
  { unfold m3. rewrite (copy_without_source m2 (g_mem g2) p q w); (done || lia). }
  exists g3, h, dt, b, q. split_and!; [done|exact D2|done|done| |].
  - intros z Hz. simpl. unfold m3.
    assert (Hnp : ~ (p <= z < p + w)) by (intros Hin; destruct Hz as [x Hx]; rewrite (Hfresh z Hin) in Hx; done).
    rewrite drop_lookup by (by rewrite elem_of_seqZ). rewrite Hkept; [by rewrite Hf2, Hframe|]. rewrite Hf2, Hframe by done. done.
  - intros Hk Hw. apply (read_long_runs g3 name (mkDescriptor (Datatype_as_template UNDEF_TYPE) true [h]) h [] dt b q (scalar_of k w al) 8); try done.
    + simpl. by rewrite D2, lookup_insert_eq.
    + rewrite (integer_value k w al (g_mem g3) q _ Hk Hw Hval). by rewrite to_int_mod.
Qed.

End facts.

(** * Conversions *)

Section conversions.
  Context {W : Type} {RT : Runtime W} {OB : Observers W} {LH : LoggerHost W} {MPI : Mpi} {MH : MpiHost W}.

Implicit Types g : global W.

(** What is read does not depend on new memory. *)
Lemma load_kept m m' a n bs : (forall z, is_Some (m !! z) -> m' !! z = m !! z) -> load m a n = Some bs -> load m' a n = Some bs.
Proof.
  intros Hk. revert a bs. induction n as [|n IH]; intros a bs; simpl; [done|]. destruct (m !! a) as [x|] eqn:Hx; [|done]. simpl.
  rewrite (Hk a), Hx by (by eexists). destruct (load m (a + 1) n) as [l|] eqn:Hl; [|done]. simpl. by rewrite (IH _ _ Hl).
Qed.

Lemma load_bits_kept m m' a w v : (forall z, is_Some (m !! z) -> m' !! z = m !! z) -> load_bits m a w = Ret v -> load_bits m' a w = Ret v.
Proof. unfold load_bits. intros Hk. destruct (load m a _) as [bs|] eqn:Hl; [|done]. by rewrite (load_kept m m' a _ bs Hk Hl). Qed.

(** ** Writing through a reference *)

(** A reference to data that nothing uses. *)
Definition unused g (r dt b : nat) (p : Z) (t : Datatype) : Prop :=
  holder g r false dt (mkData b p t) /\ exists y, buffers (g_store g) !! b = Some y /\ m_write_locks y = 0.

Lemma copy_granted g R V r x d dd y :
  inv (g_store g) -> points_to (g_store g) r x d dd y -> data_address dd <> nullptr -> granted (mkReference R V None) y = true ->
  exists g', ref_copy R V r g = Done (next (g_store g)) g' /\ calm nothing g g' /\ m_descriptors g' = m_descriptors g /\
    refs (g_store g') !! next (g_store g) = Some (mkReference R V (Some d)) /\ datas (g_store g') = datas (g_store g) /\
    buffers (g_store g') = <[data_buffer dd := buffer_locks y (if V then 1 else 0) (if R || V then 1 else 0)]> (buffers (g_store g)).
Proof.
  intros Hinv (Hx & Hc & Hd & Hy) Hnn Hgr. destruct (copy_runs g R V r Hinv ltac:(by exists x)) as (g' & Hrun & C & D & _ & _).
  pose proof (fresh_ref _ _ _ Hinv Hx) as Hne. exists g'. split_and!; try done; revert Hrun; unfold ref_copy, on_store, zoom, new_copy, new_null, get_content;
    cbn [refs datas buffers freed next mbind outcome_bind]; rewrite lookup_insert_ne by done;
    rewrite Hx; cbn [deref mbind outcome_bind]; rewrite Hc, Hd; cbn [deref mbind outcome_bind];
    (destruct (Z.eqb_spec (data_address dd) nullptr); [done|]); cbn [mbind outcome_bind]; unfold link; cbn [refs datas buffers freed next];
    rewrite lookup_insert_eq; cbn [deref mbind outcome_bind m_content bool_decide]; rewrite Hd; cbn [deref mbind outcome_bind];
    (destruct (Z.eqb_spec (data_address dd) nullptr); [done|]); rewrite Hy; cbn [deref mbind outcome_bind ref_R ref_W];
    unfold granted in Hgr; apply negb_true_iff in Hgr; cbn [ref_R ref_W] in Hgr; rewrite Hgr; intros [= <-]; simpl.
  - rewrite lookup_alter_eq, lookup_insert_eq. done.
  - done.
  - done.
Qed.

Lemma get_runs g r d dd : links g r d dd -> data_address dd <> nullptr -> ref_get r g = Done (data_address dd) g.
Proof.
  intros Hl Hnn. unfold ref_get, mbind, M_bind. rewrite (is_null_runs g r d dd Hl Hnn). destruct Hl as (x & Hx & Hc & Hd).
  unfold on_store, zoom, get, is_null. rewrite Hx; cbn [deref mbind outcome_bind]. rewrite Hc, Hd; cbn [deref mbind outcome_bind].
  destruct (Z.eqb_spec (data_address dd) nullptr); [done|]. cbn [deref mbind outcome_bind].
  rewrite Hx; cbn [deref mbind outcome_bind]. rewrite Hc; cbn [deref mbind outcome_bind]. rewrite Hd; cbn [deref mbind outcome_bind]. by destruct g.
Qed.

Lemma assign_handle_runs g r dt b p t size v m' :
  inv (g_store g) -> unused g r dt b p t -> p <> nullptr -> store_bits (g_mem g) p size v = Ret m' ->
  exists g', assign_handle r size v g = Done tt g' /\ calm nothing (set_mem m' g) g' /\ m_descriptors g' = m_descriptors g.
Proof.
  intros Hinv [[Hr Hdt] (y & Hy & Hw)] Hp Hst. destruct (linked_points_to (g_store g) r _ dt Hinv Hr eq_refl) as (dd & y' & Hpt).
  pose proof Hpt as (_ & _ & Hdt' & Hy'). assert (dd = mkData b p t) as -> by congruence. simpl in Hy'. assert (y' = y) as -> by congruence.
  destruct (copy_granted g false true r _ dt _ y Hinv Hpt Hp) as (g1 & Hrun1 & C1 & D1 & Hn & Hds1 & _); [unfold granted; simpl; by rewrite Hw|].
  set (n := next (g_store g)) in *. pose proof (cm_inv _ _ _ C1) as Hinv1.
  assert (Hl1 : links g1 n dt (mkData b p t)) by (exists (mkReference false true (Some dt)); by rewrite Hds1).
  set (g2 := set_mem m' g1). destruct (destroy_runs g2 n) as (g3 & Hrun3 & C3 & D3); [exact Hinv1|by eexists|].
  exists g3. split_and!; [| |by rewrite D3].
  - unfold assign_handle, with_ref. unfold mbind at 1, M_bind at 1. rewrite Hrun1. unfold finally, mbind, M_bind. rewrite (get_runs g1 n dt _ Hl1 Hp).
    unfold store_value, unit_mem, on_mem, zoom. rewrite (cm_mem _ _ _ C1). cbn [data_address]. rewrite Hst. cbn [mbind outcome_bind]. fold g2. by rewrite Hrun3.
  - eapply calm_weaken; [eapply calm_trans; [by apply (calm_set_mem _ g g1 m')|exact C3]|].
    intros k Hk [[]|<-]. simpl in Hk. apply (wf_next_refs _ (proj1 Hinv)) in Hk. unfold n in Hk. lia.
Qed.

Lemma share_handle_runs g name d r dt dd :
  inv (g_store g) -> m_descriptors (with_desc name g) !! name = Some d -> m_metadata d = false -> links g r dt dd -> data_address dd <> nullptr ->
  exists g' h, share_handle name r g = Done tt g' /\ calm nothing g g' /\
    m_descriptors g' = <[name := mkDescriptor (m_type d) false (h :: m_refs d)]> (m_descriptors (with_desc name g)) /\ links g' h dt dd /\
    (next (g_store g) < h)%nat.
Proof.
  intros Hinv Hd Hm Hl Hnn. set (g0 := with_desc name g) in *.
  assert (Hst : g_store g0 = g_store g) by (unfold g0, with_desc; by destruct (m_descriptors g !! name)).
  assert (C0 : calm nothing g g0) by (unfold g0, with_desc; destruct (m_descriptors g !! name); [by apply calm_refl|by apply set_descriptors_calm]).
  assert (Hl0 : links g0 r dt dd) by (eapply calm_links; [exact Hinv|exact C0|tauto|done]). pose proof (cm_inv _ _ _ C0) as Hinv0.
  destruct (copy_holds g0 false r dt dd Hinv0 Hl0 Hnn) as (g1 & Hrun1 & C1 & _ & D1 & Hh1); [done|].
  pose proof (wf_next_refs _ (proj1 (cm_inv _ _ _ C1)) _ (links_exists _ _ _ _ (holds_links _ _ _ _ _ Hh1))) as Hlt.
  destruct (share_ref_runs g1 name d (next (g_store g0)) dt dd) as (g2 & h & Hrun2 & C2 & D2 & Hl2 & Hfh); try done; [apply C1|by rewrite D1|by eapply holds_links|].
  destruct (with_ref_calm g0 g1 g2 (ref_copy false false r) (fun arg => share_ref name arg false false) (next (g_store g0)) nullptr)
    as (g3 & Hrun3 & C3 & D3 & _ & C4); try done; [by eapply links_exists, holds_links|].
  exists g3, h. split_and!; [|exact (calm_step g g0 g3 C0 C3)|by rewrite D3, D2, D1| |rewrite Hst in Hlt; lia].
  - unfold share_handle. unfold mbind at 1, M_bind at 1. rewrite desc_runs. fold g0. unfold mbind, M_bind. by rewrite Hrun3.
  - eapply calm_links; [apply C2|exact C4|lia|done].
Qed.

(** ** Converting *)

(** The common structure of the two callbacks: a new handle gets the value that is
    computed from the data, and is shared. *)
Definition convert_handle (size : Z) (type : outcome Datatype) (name : string) (ref : nat) (value : nat -> M (global W) Z) (e : exn) : M (global W) unit :=
  with_ref (new_handle size type) (fun handle =>
    with_ref (ref_copy true false ref) (fun ref_r =>
      n ← ref_is_null ref_r;
      if negb n then v ← value ref_r; assign_handle handle size v;; share_handle name handle else throw e)).

Lemma new_handle_runs g size t :
  inv (g_store g) -> 0 < size ->
  exists p m, let g' := set_store (with_new_ref p delete_value t true true (g_store g)) (set_mem m g) in
    new_handle size (Ret t) g = Done (next (g_store g)) g' /\ p <> nullptr /\ allocated m p size /\
    (forall z, p <= z < p + size -> g_mem g !! z = None) /\ (forall z, is_Some (g_mem g !! z) -> m !! z = g_mem g !! z) /\ calm nothing (set_mem m g) g'.
Proof.
  intros Hinv Hsize. destruct (operator_new (g_mem g) size) as [p m1] eqn:Hnew.
  pose proof (new_fresh (g_mem g) size) as Hfresh. pose proof (new_allocated (g_mem g) size) as Hall. pose proof (new_frame (g_mem g) size) as Hframe.
  pose proof (new_positive (g_mem g) size) as Hpos. rewrite Hnew in Hfresh, Hall, Hframe, Hpos. simpl in Hfresh, Hall, Hframe, Hpos.
  assert (Hp : p <> nullptr) by (unfold nullptr; lia). exists p, m1. cbv zeta. split_and!; try done.
  - unfold new_handle, mbind, M_bind. cbn [lift]. unfold on_mem, zoom at 1. rewrite Hnew. unfold on_store, zoom. by rewrite new_ref_runs.
  - intros z [x Hx]. apply Hframe. intros Hz. by rewrite (Hfresh z Hz) in Hx.
  - by apply (new_ref_calm (set_mem m1 g)).
Qed.

Lemma convert_handle_runs g size t name d ref dt b a u v value e :
  inv (g_store g) -> links g ref dt (mkData b a u) -> a <> nullptr -> unlocked g b -> 0 < size ->
  m_descriptors (with_desc name g) !! name = Some d -> m_metadata d = false ->
  (forall r g1, reads_data g1 r u a -> (forall z, is_Some (g_mem g !! z) -> g_mem g1 !! z = g_mem g !! z) -> value r g1 = Done v g1) ->
  exists g' h dt' b' p, convert_handle size (Ret t) name ref value e g = Done tt g' /\ inv (g_store g') /\
    m_descriptors g' = <[name := mkDescriptor (m_type d) false (h :: m_refs d)]> (m_descriptors (with_desc name g)) /\
    links g' h dt' (mkData b' p t) /\ load_bits (g_mem g') p size = Ret (v mod 2 ^ (8 * size)) /\
    (forall z, is_Some (g_mem g !! z) -> g_mem g' !! z = g_mem g !! z).
Proof.
  intros Hinv Hl Ha Hun Hsize Hd Hm Hval.
  destruct (new_handle_runs g size t Hinv Hsize) as (p & m1 & Hnew & Hp & Hall & Hfresh & Hkeep & C1). set (r := next (g_store g)) in *.
  set (gm := set_mem m1 g) in *. set (g1 := set_store (with_new_ref p delete_value t true true (g_store g)) gm) in *. pose proof (cm_inv _ _ _ C1) as Hinv1.
  assert (Hr1 : holder g1 r false (S (S r)) (mkData (S r) p t)) by (split; simpl; by rewrite lookup_insert_eq).
  assert (Hl1 : links g1 ref dt (mkData b a u)) by (apply (calm_links nothing gm g1); [exact Hinv|exact C1|tauto|exact Hl]).
  destruct Hl1 as (x & Hx1 & Hxc & Hdt1). destruct (linked_points_to (g_store g1) ref x dt Hinv1 Hx1 Hxc) as (dd & y & Hpt).
  pose proof Hpt as (_ & _ & Hdt1' & Hy1). assert (dd = mkData b a u) as -> by congruence. cbn [data_buffer] in Hy1.
  assert (Hbr : (b < r)%nat).
  { destruct Hun as (z & Hz & _). apply (wf_next_buffers _ (proj1 Hinv)). by eexists. }
  assert (Hy0 : m_read_locks y = 0).
  { destruct Hun as (z & Hz & Hz0). simpl in Hy1. rewrite lookup_insert_ne in Hy1 by lia. congruence. }
  destruct (copy_granted g1 true false ref x dt _ y Hinv1 Hpt Ha) as (g2 & Hrun2 & C2 & D2 & Hn2 & Hds2 & Hbs2); [unfold granted; simpl; by rewrite Hy0|].
  set (n := next (g_store g1)) in *. pose proof (cm_inv _ _ _ C2) as Hinv2. cbn [data_buffer] in Hbs2.
  assert (Hreads : reads_data g2 n u a) by (exists (mkReference true false (Some dt)), dt, b; rewrite Hds2; by split_and!).
  assert (Hr2 : holder g2 r false (S (S r)) (mkData (S r) p t)) by (apply (calm_holds nothing g1 g2); [exact Hinv1|exact C2|tauto|done]).
  assert (Hunused : unused g2 r (S (S r)) (S r) p t).
  { split; [done|]. rewrite Hbs2. rewrite lookup_insert_ne by lia. simpl. rewrite lookup_insert_eq. by eexists. }
  destruct (load_store_bits m1 p size v) as (m2 & Hst & Hld & Hf2 & Hsa); [lia|done|].
  assert (HM2 : g_mem g2 = m1) by (by rewrite (cm_mem _ _ _ C2), (cm_mem _ _ _ C1)).
  destruct (assign_handle_runs g2 r (S (S r)) (S r) p t size v m2 Hinv2 Hunused Hp) as (g3 & Hrun3 & C3 & D3); [by rewrite HM2|].
  pose proof (cm_inv _ _ _ C3) as Hinv3. pose proof (cm_mem _ _ _ C3) as HM3. simpl in HM3.
  assert (Hr3 : holder g3 r false (S (S r)) (mkData (S r) p t)) by (apply (calm_holds nothing (set_mem m2 g2) g3); [exact Hinv2|exact C3|tauto|done]).
  assert (D : m_descriptors g3 = m_descriptors g) by (by rewrite D3, D2).
  assert (Hwd : m_descriptors (with_desc name g3) = m_descriptors (with_desc name g)).
  { unfold with_desc. rewrite D. destruct (m_descriptors g !! name); simpl; by rewrite ?D. }
  destruct (share_handle_runs g3 name d r (S (S r)) (mkData (S r) p t) Hinv3) as (g4 & h & Hrun4 & C4 & D4 & Hl4 & Hfh);
    [by rewrite Hwd|done|by eapply holds_links|done|].
  assert (Hcalm : calm nothing (set_mem m2 g1) g4) by (eapply calm_step; [exact (calm_set_mem _ g1 g2 m2 C2)|by eapply calm_step]).
  assert (Hrn : (r < n)%nat) by (apply (wf_next_refs _ (proj1 Hinv1)); by eapply links_exists, holds_links).
  destruct (destroy_runs g4 n) as (g5 & Hrun5 & C5 & D5); [apply C4|eexists; apply (calm_ref g3 g4), (calm_ref (set_mem m2 g2) g3); done|].
  destruct (destroy_runs g5 r) as (g6 & Hrun6 & C6 & D6); [apply C5| |].
  { eexists. apply (cm_refs _ _ _ C5); [lia|]. apply (calm_ref g3 g4 r _ C4). apply Hr3. }
  pose proof (cm_next _ _ _ C2). pose proof (cm_next _ _ _ C3) as Hn3. simpl in Hn3.
  pose proof (wf_next_refs _ (proj1 Hinv2) n ltac:(by eexists)).
  assert (HM : g_mem g6 = m2) by (by rewrite (cm_mem _ _ _ C6), (cm_mem _ _ _ C5), (cm_mem _ _ _ C4)).
  exists g6, h, (S (S r)), (S r), p. split_and!; [|apply C6|by rewrite D6, D5, D4, Hwd| |by rewrite HM|].
  - unfold convert_handle, with_ref at 1. unfold mbind at 1, M_bind at 1. rewrite Hnew.
    unfold finally at 1. unfold with_ref at 1. unfold mbind at 1, M_bind at 1. rewrite Hrun2. unfold finally at 1.
    unfold mbind at 1, M_bind at 1. rewrite (is_null_reads g2 n u a Hreads). cbn [negb]. unfold mbind at 1, M_bind at 1.
    rewrite (Hval n g2 Hreads) by (by rewrite HM2). unfold mbind at 1, M_bind at 1. by rewrite Hrun3, Hrun4, Hrun5, Hrun6.
  - eapply calm_links; [apply C5|exact C6|lia|]. eapply calm_links; [apply C4|exact C5|lia|done].
  - intros z Hz. rewrite HM, Hf2; [by apply Hkeep|]. intros Hin. destruct Hz as [w Hw]. by rewrite (Hfresh z Hin) in Hw.
Qed.

Lemma C_to_F_converts f name ref g :
  C_to_F_on_data f name ref g = convert_handle fint_size mpi_comm_f_datatype f ref (fun r => p ← ref_get r; comm ← load_comm p; mret (MPI_Comm_c2f comm))
    (Permission_error ("Cannot read `" +:+ name +:+ "' data to transtype to fortran communicator")) g.
Proof.
  unfold C_to_F_on_data, convert_handle, with_ref, mbind, M_bind, finally. destruct (new_handle _ _ g) as [h g1|e g1|]; [|done..].
  destruct (ref_copy true false ref g1) as [r g2|e g2|]; [|done..]. destruct (ref_is_null r g2) as [n g3|e g3|]; [|done..]. destruct n; [done|]. simpl.
  destruct (ref_get r g3) as [p g4|e g4|]; [|done..]. by destruct (load_comm p g4).
Qed.

Lemma F_to_C_converts c name ref g :
  F_to_C_on_data c name ref g = convert_handle comm_size mpi_comm_datatype c ref (fun r => f ← set_val_from None r; f ← lift (deref f); mret (MPI_Comm_f2c f))
    (Permission_error ("Cannot read `" +:+ name +:+ "' data to transtype to C communicator")) g.
Proof.
  unfold F_to_C_on_data, convert_handle, with_ref, mbind, M_bind, finally. destruct (new_handle _ _ g) as [h g1|e g1|]; [|done..].
  destruct (ref_copy true false ref g1) as [r g2|e g2|]; [|done..]. destruct (ref_is_null r g2) as [n g3|e g3|]; [|done..]. destruct n; [done|]. simpl.
  destruct (set_val_from None r g3) as [[p|] g4|e g4|]; done.
Qed.

Lemma load_comm_runs g0 g1 r u a c :
  load_bits (g_mem g0) a comm_size = Ret c -> reads_data g1 r u a -> (forall z, is_Some (g_mem g0 !! z) -> g_mem g1 !! z = g_mem g0 !! z) ->
  (p ← ref_get r; comm ← load_comm p; mret (MPI_Comm_c2f comm)) g1 = Done (MPI_Comm_c2f c) g1.
Proof.
  intros Hc Hreads Hk. unfold mbind, M_bind. rewrite (ref_get_reads_data g1 r u a Hreads). unfold load_comm, mbind, M_bind, gets.
  by rewrite (load_bits_kept _ _ _ _ _ Hk Hc).
Qed.

(** An integer that is read from the data. *)
Lemma set_val_from_runs g0 g1 r k w al a bits o :
  is_integer k = true -> w ∈ [1; 2; 4; 8] -> load_bits (g_mem g0) a w = Ret bits -> reads_data g1 r (scalar_of k w al) a ->
  (forall z, is_Some (g_mem g0 !! z) -> g_mem g1 !! z = g_mem g0 !! z) ->
  set_val_from o r g1 = Done (Some (to_int fint_signed fint_size (to_int (is_signed k) w bits))) g1.
Proof.
  intros Hk Hw Hb Hreads Hkeep. unfold set_val_from. unfold mbind at 1, M_bind at 1. rewrite (ref_type_reads_data g1 r _ a Hreads). unfold scalar_of at 1.
  change (buffersize (scalar_of k w al)) with w. rewrite bool_decide_eq_true_2 by done. unfold mbind at 1, M_bind at 1, sized_set_val_from.
  destruct k; try done; unfold mbind, M_bind; rewrite (ref_get_reads_data g1 r _ a Hreads); unfold gets, lift, read_as; cbn [sizeof];
    rewrite (load_bits_kept _ _ _ _ _ Hkeep Hb); done.
Qed.

(** C28: when a C communicator that can be read is shared under a name that is
    converted to Fortran, the Fortran name gets a holder of a new handle, equal to
    the Fortran handle of the communicator; and when a Fortran handle stored as an
    integer of 1, 2, 4 or 8 bytes is shared under a name that is converted to C, the
    C name gets a holder of the C communicator of that handle.  The data that was
    shared, the rest of the memory and the other stacks are as before.  The other name
    is not a metadata and the other plugins only observe. *)
Theorem shared_communicators_are_converted g name dst ref dt b a u d :
  inv (g_store g) -> links g ref dt (mkData b a u) -> a <> nullptr -> unlocked g b ->
  m_descriptors (with_desc dst g) !! dst = Some d -> m_metadata d = false -> 0 < fint_size -> 0 < comm_size ->
  let published g' h dt' b' p t :=
    inv (g_store g') /\ links g' h dt' (mkData b' p t) /\
    m_descriptors g' = <[dst := mkDescriptor (m_type d) false (h :: m_refs d)]> (m_descriptors (with_desc dst g)) /\
    (forall z, is_Some (g_mem g !! z) -> g_mem g' !! z = g_mem g !! z) in
  (forall c t, load_bits (g_mem g) a comm_size = Ret c -> mpi_comm_f_datatype = Ret t ->
     exists g' h dt' b' p, C_to_F_on_data dst name ref g = Done tt g' /\ published g' h dt' b' p t /\
       load_fint p g' = Done (to_int fint_signed fint_size (MPI_Comm_c2f c)) g') /\
  (forall k w al bits t, u = scalar_of k w al -> is_integer k = true -> w ∈ [1; 2; 4; 8] -> load_bits (g_mem g) a w = Ret bits -> mpi_comm_datatype = Ret t ->
     exists g' h dt' b' p, F_to_C_on_data dst name ref g = Done tt g' /\ published g' h dt' b' p t /\
       load_comm p g' = Done (MPI_Comm_f2c (to_int fint_signed fint_size (to_int (is_signed k) w bits)) mod 2 ^ (8 * comm_size)) g').
Proof.
  intros Hinv Hl Ha Hun Hd Hm Hfs Hcs published. split.
  - intros c t Hc Ht.
    destruct (convert_handle_runs g fint_size t dst d ref dt b a u (MPI_Comm_c2f c) (fun r => p ← ref_get r; comm ← load_comm p; mret (MPI_Comm_c2f comm))
      (Permission_error ("Cannot read `" +:+ name +:+ "' data to transtype to fortran communicator"))) as (g' & h & dt' & b' & p & Hrun & Hinv' & D & Hl' & Hld & Hk); try done.
    { intros r g1 Hreads Hkp. by apply (load_comm_runs g g1 r u a c). }
    exists g', h, dt', b', p. split_and!; [by rewrite C_to_F_converts, Ht|done|]. unfold load_fint, mbind, M_bind, gets, lift, read_as. cbn [sizeof].
    rewrite Hld. cbn [mbind outcome_bind int_value]. by rewrite to_int_mod.
  - intros k w al bits t -> Hk Hw Hb Ht.
    destruct (convert_handle_runs g comm_size t dst d ref dt b a (scalar_of k w al) (MPI_Comm_f2c (to_int fint_signed fint_size (to_int (is_signed k) w bits)))
      (fun r => f ← set_val_from None r; f ← lift (deref f); mret (MPI_Comm_f2c f))
      (Permission_error ("Cannot read `" +:+ name +:+ "' data to transtype to C communicator"))) as (g' & h & dt' & b' & p & Hrun & Hinv' & D & Hl' & Hld & Hkp); try done.
    { intros r g1 Hreads Hkp. unfold mbind at 1, M_bind at 1. by rewrite (set_val_from_runs g g1 r k w al a bits None Hk Hw Hb Hreads Hkp). }
    exists g', h, dt', b', p. split_and!; [by rewrite F_to_C_converts, Ht|done|]. unfold load_comm, mbind, M_bind, gets. by rewrite Hld.
Qed.

(** ** The deprecated key *)

(** The plugins are loaded before the data is declared, so that when the
    plugin reads its deprecated key the source of a conversion has no type yet:
    whatever its type will be, the entry registers the conversion from Fortran to
    C.  That conversion refuses a C communicator when one is shared. *)
Theorem deprecated_key_never_converts_to_fortran g src dst ct :
  mpi_comm_datatype = Ret ct -> comm_size ∈ [1; 2; 4; 8] -> m_descriptors g !! src = None ->
  transtype_entry ct src dst g = transtype_F_to_C src dst (with_desc src g) /\
  forall g' r a, reads_data g' r ct a -> exists msg, set_val_from None r g' = Thrown (Type_error msg) g'.
Proof.
  intros Hct Hw Hnone. assert (Hw0 : 0 < comm_size) by (apply is_width_cases in Hw; lia).
  unfold mpi_comm_datatype, make_scalar_kind_size_align, make_scalar in Hct. destruct (_ && _); [done|]. injection Hct as <-. split.
  - unfold transtype_entry. unfold mbind at 1, M_bind at 1. rewrite desc_runs. set (g0 := with_desc src g).
    assert (Hd : m_descriptors g0 !! src = Some empty_descriptor).
    { unfold g0. rewrite with_desc_lookup. unfold descriptor_of. by rewrite Hnone. }
    unfold default_type_of. unfold mbind at 1, M_bind at 1. unfold mbind at 1, M_bind at 1, get_desc at 1. rewrite Hd.
    assert (Hev : evaluate_in_context (m_type empty_descriptor) g0 = Done UNDEF_TYPE g0) by reflexivity. rewrite Hev.
    unfold UNDEF_TYPE. cbn [datatype_eqb scalar_eqb]. destruct (Z.eqb_spec 0 comm_size); [lia|]. by rewrite ?andb_false_r.
  - intros g' r a Hreads. unfold set_val_from. unfold mbind at 1, M_bind at 1. rewrite (ref_type_reads_data g' r _ a Hreads).
    change (buffersize _) with comm_size. rewrite bool_decide_eq_true_2 by done. unfold mbind at 1, M_bind at 1, sized_set_val_from.
    unfold mbind, M_bind. unfold lift. match goal with |- context [debug_string ?t] => destruct (debug_string t) as [x|e|] eqn:Hs; [|done..] end.
    by eexists.
Qed.

End conversions.
