(* ===== verification/MpiRelease.v ===== *)
(** The MPI plugin, when a communicator is taken back: the handle that was published
    under the other name is converted and written to the program's variable, and the
    other name is released. *)

From S2P Require Import Prelude Error Effect ExprSyntax Datatype Layout Memory DenseCopy DenseCopyFacts Access Ref RefInv RefOps RefTheorems RefCopy Numeric Parse Yaml Template GlobalContext Eval ContextInv DescriptorInv EvalInv Share ShareFacts MetadataFacts Logger SetValue Json JsonFacts Mpi MpiFacts.

Section release.
  Context {W : Type} {RT : Runtime W} {OB : Observers W} {LH : LoggerHost W} {MPI : Mpi} {MH : MpiHost W}.

Implicit Types g : global W.

(** The common structure of the two callbacks: [action] is given the reference to
    write to and the one to read from. *)
Definition write_back (dst : string) (ref : nat) (action : nat -> nat -> M (global W) unit) (e : exn) : M (global W) unit :=
  with_ref (ref_copy false true ref) (fun w =>
    n ← ref_is_null w;
    if negb n then with_handle dst (fun r => n ← ref_is_null r; if negb n then action w r else throw e) else mret tt).

(** The name under which the handle is published. *)
Record published g (dst : string) (d : Descriptor) (h : nat) (rs : list nat) (dt : nat) (dd : Referenced_data) : Prop := {
  pu_desc : m_descriptors g !! dst = Some d;
  pu_metadata : m_metadata d = false;
  pu_top : m_refs d = h :: rs;
  pu_links : links g h dt dd;
  pu_address : data_address dd <> nullptr;
  pu_unlocked : unlocked g (data_buffer dd)
}.

Lemma with_handle_runs {A} g dst d h rs dt dd (body : nat -> M (global W) A) a m' :
  inv (g_store g) -> published g dst d h rs dt dd ->
  (forall r g1, calm nothing g g1 -> holder g1 r true dt dd -> body r g1 = Done a (set_mem m' g1)) ->
  exists g', with_handle dst body g = Done a g' /\ calm nothing (set_mem m' g) g' /\ m_descriptors g' = m_descriptors g.
Proof.
  intros Hinv [Hd Hm Hrs Hl Hnn Hun] Hbody. destruct (copy_holds g false h dt dd Hinv Hl Hnn) as (g1 & Hrun1 & C1 & S1 & D1 & Hh1); [done|].
  set (r := next (g_store g)) in *. pose proof (cm_inv _ _ _ C1) as Hinv1. pose proof (holds_links _ _ _ _ _ Hh1) as Hl1.
  destruct (copy_holds g1 true r dt dd Hinv1 Hl1 Hnn) as (g2 & Hrun2 & C2 & S2 & D2 & Hh2); [intros _; by apply (unlocked_kept g g1 r dt dd)|].
  assert (Hlt : (r < next (g_store g1))%nat) by (apply (wf_next_refs _ (proj1 Hinv1)); by eapply links_exists).
  destruct (with_ref_calm g g1 g2 (desc dst;; ref dst) (ref_copy true false) r (next (g_store g1))) as (g3 & Hrun3 & C3 & D3 & _ & C3'); try done.
  { unfold mbind, M_bind, desc. rewrite Hd. by rewrite (ref_runs g dst d h rs). }
  { by eapply links_exists. }
  set (n := next (g_store g1)) in *. assert (Hh3 : holder g3 n true dt dd) by (eapply calm_holds; [apply C2|exact C3'|lia|done]).
  pose proof (Hbody n g3 C3 Hh3) as Hb. set (g4 := set_mem m' g3) in *.
  destruct (destroy_runs g4 n) as (g5 & Hrun5 & C5 & D5); [apply C3|by eapply links_exists, (holds_links g3)|].
  exists g5. split_and!; [| |by rewrite D5; simpl; rewrite D3, D2, D1].
  - unfold with_handle, with_ref at 1. unfold mbind at 1, M_bind at 1. unfold readable. rewrite Hrun3. unfold finally. by rewrite Hb, Hrun5.
  - eapply calm_weaken; [eapply calm_trans; [exact (calm_set_mem _ g g3 m' C3)|exact C5]|].
    intros k Hk [[]|<-]. apply (wf_next_refs _ (proj1 Hinv)) in Hk. unfold r in Hlt. lia.
Qed.

(** Data that the plugin can write to. *)
Definition writable g (r dt b : nat) (a : Z) (u : Datatype) : Prop :=
  exists x y, points_to (g_store g) r x dt (mkData b a u) y /\ m_write_locks y = 0.

Lemma write_back_runs g dst d h rs dt' dd ref dt b a u action e m' :
  inv (g_store g) -> writable g ref dt b a u -> a <> nullptr -> published g dst d h rs dt' dd -> b <> data_buffer dd ->
  (forall w r g1, g_mem g1 = g_mem g -> links g1 w dt (mkData b a u) -> holder g1 r true dt' dd -> action w r g1 = Done tt (set_mem m' g1)) ->
  exists g', write_back dst ref action e g = Done tt g' /\ calm nothing (set_mem m' g) g' /\ m_descriptors g' = m_descriptors g.
Proof.
  intros Hinv (x & y & Hpt & Hw) Ha Hpub Hne Hact. pose proof Hpub as [Hd Hm Hrs Hl Hnn (z & Hz & Hz0)].
  destruct (copy_granted g false true ref x dt _ y Hinv Hpt Ha) as (g1 & Hrun1 & C1 & D1 & Hn1 & Hds1 & Hbs1); [unfold granted; simpl; by rewrite Hw|].
  set (n := next (g_store g)) in *. pose proof (cm_inv _ _ _ C1) as Hinv1. pose proof Hpt as (_ & _ & Hdt & _).
  assert (Hl1 : links g1 n dt (mkData b a u)) by (exists (mkReference false true (Some dt)); by rewrite Hds1).
  assert (Hpub1 : published g1 dst d h rs dt' dd).
  { split; try done; [by rewrite D1|eapply calm_links; [exact Hinv|exact C1|tauto|done]|].
    exists z. split; [|done]. rewrite Hbs1. simpl. by rewrite lookup_insert_ne. }
  destruct (with_handle_runs g1 dst d h rs dt' dd (fun r => isnull ← ref_is_null r; if negb isnull then action n r else throw e) tt m' Hinv1 Hpub1) as (g2 & Hrun2 & C2 & D2).
  { intros r g' C Hh. unfold mbind, M_bind. rewrite (is_null_runs g' r dt' dd (holds_links _ _ _ _ _ Hh) Hnn). cbn [negb].
    apply Hact; [by rewrite (cm_mem _ _ _ C), (cm_mem _ _ _ C1)| |done]. eapply calm_links; [exact Hinv1|exact C|tauto|done]. }
  destruct (destroy_runs g2 n (cm_inv _ _ _ C2)) as (g3 & Hrun3 & C3 & D3).
  { eexists. apply (calm_ref (set_mem m' g1) g2); [exact C2|exact Hn1]. }
  exists g3. split_and!; [| |by rewrite D3, D2].
  - unfold write_back, with_ref at 1. unfold mbind at 1, M_bind at 1. rewrite Hrun1. unfold finally. unfold mbind at 1, M_bind at 1.
    rewrite (is_null_runs g1 n dt _ Hl1 Ha). cbn [negb]. by rewrite Hrun2, Hrun3.
  - eapply calm_weaken; [eapply calm_trans; [exact (calm_set_mem _ g g1 m' C1)|eapply calm_trans; [exact C2|exact C3]]|].
    intros k Hk [[]|[[]|<-]]. apply (wf_next_refs _ (proj1 Hinv)) in Hk. unfold n in Hk. lia.
Qed.

(** Writing back, then releasing the other name. *)
Lemma write_back_and_release g dst d h rs dt' dd ref dt b a u action e m' :
  inv (g_store g) -> writable g ref dt b a u -> a <> nullptr -> published g dst d h rs dt' dd -> b <> data_buffer dd ->
  (forall w r g1, g_mem g1 = g_mem g -> links g1 w dt (mkData b a u) -> holder g1 r true dt' dd -> action w r g1 = Done tt (set_mem m' g1)) ->
  exists g', (write_back dst ref action e;; desc dst;; release_desc dst) g = Done tt g' /\ g_mem g' = m' /\ inv (g_store g') /\
    m_descriptors g' = <[dst := mkDescriptor (m_type d) false rs]> (m_descriptors g).
Proof.
  intros Hinv Hw Ha Hpub Hne Hact. destruct (write_back_runs g dst d h rs dt' dd ref dt b a u action e m' Hinv Hw Ha Hpub Hne Hact) as (g1 & Hrun1 & C1 & D1).
  destruct Hpub as [Hd Hm Hrs Hl Hnn _].
  destruct (release_desc_runs g1 dst d h rs dt' dd (cm_inv _ _ _ C1)) as (g2 & Hrun2 & C2 & D2); try done;
    [by rewrite D1|apply (calm_links nothing (set_mem m' g) g1); [exact Hinv|exact C1|tauto|exact Hl]|].
  exists g2. split_and!; [|by rewrite (cm_mem _ _ _ C2), (cm_mem _ _ _ C1)|apply C2|by rewrite D2, D1].
  unfold mbind at 1, M_bind at 1. rewrite Hrun1. unfold mbind, M_bind, desc. by rewrite D1, Hd, Hrun2.
Qed.

Lemma holder_get g r R d dd : holder g r R d dd -> data_address dd <> nullptr -> ref_get r g = Done (data_address dd) g.
Proof. intros Hh Hnn. apply (get_runs g r d dd (holds_links _ _ _ _ _ Hh) Hnn). Qed.

Lemma links_type g r d dd : links g r d dd -> data_address dd <> nullptr -> ref_type r g = Done (data_type dd) g.
Proof.
  intros (x & Hx & Hc & Hd) Hnn. unfold ref_type, lift, type. rewrite Hx; cbn [deref mbind outcome_bind]. rewrite Hc, Hd; cbn [deref mbind outcome_bind].
  by destruct (Z.eqb_spec (data_address dd) nullptr).
Qed.

Lemma store_value_runs g p w v m' : store_bits (g_mem g) p w v = Ret m' -> store_value p w v g = Done tt (set_mem m' g).
Proof. intros Hst. unfold store_value, unit_mem, on_mem, zoom. by rewrite Hst. Qed.

(** An integer that is written to the data. *)
Lemma set_val_to_runs g r dt b a k w al v m' :
  is_integer k = true -> w ∈ [1; 2; 4; 8] -> links g r dt (mkData b a (scalar_of k w al)) -> a <> nullptr ->
  store_bits (g_mem g) a w (to_int (is_signed k) w v) = Ret m' -> set_val_to r v g = Done tt (set_mem m' g).
Proof.
  intros Hk Hw Hl Ha Hst. unfold set_val_to. unfold mbind at 1, M_bind at 1. rewrite (links_type g r dt _ Hl Ha). cbn [data_type]. unfold scalar_of at 1.
  change (buffersize (scalar_of k w al)) with w. rewrite bool_decide_eq_true_2 by done. unfold sized_set_val_to.
  destruct k; try done; unfold mbind, M_bind; rewrite (get_runs g r dt _ Hl Ha); cbn [data_address]; unfold unit_mem, on_mem, zoom; cbn [write_num];
    cbn [is_signed] in Hst; by rewrite Hst.
Qed.

(** C29: when a communicator that may be written is taken back, and the other name
    holds the handle that was published for it, the handle is converted and written
    to the variable of the program: a C communicator from a Fortran handle, and a
    Fortran handle, stored as an integer of 1, 2, 4 or 8 bytes, from a C communicator.
    The other name, which is not a metadata, is released, and no other memory changes.
    The two handles are in different buffers and the other plugins only observe. *)
Theorem converted_communicators_are_written_back g name dst ref dt b a u d h rs dt' b' p t :
  inv (g_store g) -> writable g ref dt b a u -> a <> nullptr -> published g dst d h rs dt' (mkData b' p t) -> b <> b' ->
  let taken_back g' w := inv (g_store g') /\ m_descriptors g' = <[dst := mkDescriptor (m_type d) false rs]> (m_descriptors g) /\ frame (g_mem g) (g_mem g') a w in
  (forall bits, load_bits (g_mem g) p fint_size = Ret bits -> 0 <= comm_size -> allocated (g_mem g) a comm_size ->
     exists g', C_to_F_on_data_remove dst name ref g = Done tt g' /\ taken_back g' comm_size /\
       load_bits (g_mem g') a comm_size = Ret (MPI_Comm_f2c (to_int fint_signed fint_size bits) mod 2 ^ (8 * comm_size))) /\
  (forall k w al c, u = scalar_of k w al -> is_integer k = true -> w ∈ [1; 2; 4; 8] -> load_bits (g_mem g) p comm_size = Ret c -> allocated (g_mem g) a w ->
     exists g', F_to_C_on_data_remove dst name ref g = Done tt g' /\ taken_back g' w /\
       load_bits (g_mem g') a w = Ret (to_int (is_signed k) w (MPI_Comm_c2f c) mod 2 ^ (8 * w))).
Proof.
  intros Hinv Hw Ha Hpub Hne taken_back. pose proof (pu_address _ _ _ _ _ _ _ Hpub) as Hp. cbn [data_address] in Hp. split.
  - intros bits Hb Hcs Hal. destruct (load_store_bits (g_mem g) a comm_size (MPI_Comm_f2c (to_int fint_signed fint_size bits)) Hcs Hal) as (m' & Hst & Hld & Hf & _).
    destruct (write_back_and_release g dst d h rs dt' (mkData b' p t) ref dt b a u
      (fun w r => p ← ref_get r; f_comm ← load_fint p; q ← ref_get w; store_value q comm_size (MPI_Comm_f2c f_comm))
      (Permission_error ("Cannot read `" +:+ name +:+ "' data")) m' Hinv Hw Ha Hpub Hne) as (g' & Hrun & HM & Hinv' & D).
    { intros w r g1 HM1 Hlw Hr. unfold mbind at 1, M_bind at 1. rewrite (holder_get g1 r true dt' _ Hr Hp). cbn [data_address].
      unfold mbind at 1, M_bind at 1. unfold load_fint. unfold mbind at 1, M_bind at 1, gets. rewrite HM1. unfold read_as. cbn [sizeof]. rewrite Hb. cbn [mbind outcome_bind].
      unfold mbind, M_bind. cbn [lift int_value]. unfold mret, M_ret. rewrite (get_runs g1 w dt _ Hlw Ha). apply store_value_runs. by rewrite HM1. }
    exists g'. split; [exact Hrun|]. unfold taken_back. rewrite HM. by split_and!.
  - intros k w al c -> Hk Hwd Hb Hal. assert (Hw0 : 0 <= w) by (apply is_width_cases in Hwd; lia).
    destruct (load_store_bits (g_mem g) a w (to_int (is_signed k) w (MPI_Comm_c2f c)) Hw0 Hal) as (m' & Hst & Hld & Hf & _).
    destruct (write_back_and_release g dst d h rs dt' (mkData b' p t) ref dt b a (scalar_of k w al)
      (fun w r => p ← ref_get r; comm ← load_comm p; set_val_to w (MPI_Comm_c2f comm))
      (Permission_error ("Cannot read `" +:+ dst +:+ "' data")) m' Hinv Hw Ha Hpub Hne) as (g' & Hrun & HM & Hinv' & D).
    { intros w' r g1 HM1 Hlw Hr. unfold mbind at 1, M_bind at 1. rewrite (holder_get g1 r true dt' _ Hr Hp). cbn [data_address].
      unfold mbind at 1, M_bind at 1. unfold load_comm. unfold mbind at 1, M_bind at 1, gets. rewrite HM1, Hb. cbn [lift].
      by apply (set_val_to_runs g1 w' dt b a k w al); try done; rewrite HM1. }
    exists g'. split; [exact Hrun|]. unfold taken_back. rewrite HM. by split_and!.
Qed.

End release.
