(* ===== verification/MpiRun.v ===== *)
(** A run of the MPI plugin in a context where it is the only plugin, with an MPI
    library whose C handles are addresses and whose Fortran handles are indices. *)

From S2P Require Import Prelude Error Effect ExprSyntax Datatype Layout Memory DenseCopy DenseCopyFacts Access Ref RefInv RefOps RefTheorems RefCopy Numeric Parse Yaml Template GlobalContext Eval ContextInv DescriptorInv EvalInv Share ShareFacts MetadataFacts Logger LoggerFacts SetValue Json JsonFacts Mpi MpiFacts MpiRelease.

Abbreviation world := (loggers * list Mpi_callback)%type.

#[local] Instance logger_host : LoggerHost world := {|
  loggers_of := fst;
  set_loggers := fun ls w => (ls, w.2);
  loggers_set := fun ls w => eq_refl
|}.

#[local] Instance mpi_host : MpiHost world := {|
  mpi_callbacks := snd;
  set_mpi_callbacks := fun l w => (w.1, l);
  on_mpi_callback := fun i => Z.of_nat i;
  mpi_logger := 1%nat
|}.

(** Communicator [i] is the object at [comm_table + 256 * i]; the program is process 3. *)
Definition comm_table : Z := 65536.

#[local] Instance table_mpi : Mpi := {|
  comm_size := 8; comm_align := 8; fint_size := 4; fint_align := 4; fint_signed := true;
  MPI_COMM_WORLD := comm_table; MPI_COMM_SELF := comm_table + 256; MPI_COMM_NULL := comm_table + 512;
  MPI_Comm_c2f := fun c => (c - comm_table) / 256;
  MPI_Comm_f2c := fun f => comm_table + 256 * f;
  MPI_Comm_rank := fun c => if c =? comm_table then 3 else 0
|}.

(** The format of the rank, six digits. *)
Definition six_digits (f : string) (v : fmt_value) : outcome string :=
  match v with
  | Fmt_long n => Ret (String.concat "" (replicate (6 - String.length (pretty n)) "0") +:+ pretty n)
  | _ => Throw (Std_exception "no format")
  end.

Definition mpi_runtime_with (callbacks : Z -> string -> option nat -> M (global world) unit) : Runtime world := {|
  runtime_platform := {| platform_notifications := silent_callbacks; platform_allocator := even_allocator;
                         run_copy := fun _ m to _ => Ret (m, to); invoke := callbacks |};
  operator_new_aligned := aligned_block;
  fmt_format := six_digits
|}.

Fixpoint run_callbacks (depth : nat) (callback : Z) (name : string) (arg : option nat) : M (global world) unit :=
  match depth, arg with
  | S depth, Some ref => run_mpi_callback (RT := mpi_runtime_with (run_callbacks depth)) (Z.to_nat callback) name ref
  | _, _ => lift Crash
  end.

#[local] Instance mpi_runtime : Runtime world := mpi_runtime_with (run_callbacks 4).

Definition mpi_start : global world :=
  mkGlobal empty_store ∅ ∅ ∅ (fun _ => mkRegistry [] []) 0 (demo_loggers, []).

Definition outcome_of {A} (o : exec (global world) A) : option (A + exn) :=
  match o with Done a _ => Some (inl a) | Thrown e _ => Some (inr e) | Crashed => None end.

Definition read_value (name : string) : M (global world) Z := expr_to_long (Reference_expression name [] "").

Definition empty_config : PC_tree := tree_of (YMapping no_region []).


(** The rank is available, and every message shows it. *)
Example mpi_loads :
  outcome_of ((mpi_plugin 9 empty_config;;
               rank ← read_value "MPI_COMM_WORLD_rank"; world_f ← read_value "MPI_COMM_WORLD_F"; self_f ← read_value "MPI_COMM_SELF_F";
               ls ← gets (fun g => loggers_of (g_world g)); mret (rank, world_f, self_f, sp_pattern <$> (ls !! 1%nat ≫= m_logger))) mpi_start)
  = Some (inl (3, 0, 1, Some "[%T][MPI 000003][%n] *** %^%l%$: %v")).
Proof. vm_compute. reflexivity. Qed.

(** Loading it twice is an error. *)
Example mpi_loads_once :
  outcome_of ((mpi_plugin 9 empty_config;; mpi_plugin 9 empty_config) mpi_start)
  = Some (inr (Impl_error "Predefined descriptor already defined `MPI_COMM_WORLD_rank'")).
Proof. vm_compute. reflexivity. Qed.

(** ** Conversions *)

Definition scalar_tree (s : string) : yaml := YScalar no_region s.

Definition conversion (key src dst : string) : PC_tree :=
  tree_of (YMapping no_region [(scalar_tree key, YMapping no_region [(scalar_tree src, scalar_tree dst)])]).

(** The data is declared after the plugins are loaded. *)
Definition declare (name type : string) : M (global world) unit :=
  desc name;; ps ← gets m_datatype_parsers; t ← lift (datatype ps 9 (tree_of (scalar_tree type))); default_type name t.

Definition set_up (config : PC_tree) : M (global world) unit :=
  mpi_plugin 9 config;; declare "c" "MPI_Comm";; declare "f" "MPI_Comm_f".

(** A variable of the program. *)
Definition variable (p w v : Z) : M (global world) unit := modify (fun g => set_mem (bytes_at p (Z_to_little_endian w 8 v) ∪ g_mem g) g).

Definition peek (p w : Z) : M (global world) Z := m ← gets g_mem; lift (load_bits m p w).

Definition top_bits (name : string) (w : Z) : M (global world) Z :=
  with_ref (readable (GlobalContext.ref name)) (fun r => p ← ref_get r; peek p w).

Definition overwrite (name : string) (w v : Z) : M (global world) unit := with_ref (GlobalContext.ref name) (fun r => assign_handle r w v).

(** Communicator 7 is seen from Fortran; the handle is replaced by that of
    communicator 9, which the program finds when it takes its variable back. *)
Example c_to_f_run :
  outcome_of ((set_up (conversion "Comm_c2f" "c" "f");;
               variable 4096 8 (comm_table + 256 * 7);; share_data "c" 4096 true true;; seen ← read_value "f";
               overwrite "f" 4 9;; reclaim "c";; back ← peek 4096 8; d ← get_desc "f"; mret (seen, back, m_refs d)) mpi_start)
  = Some (inl (7, comm_table + 256 * 9, [])).
Proof. vm_compute. reflexivity. Qed.

Example f_to_c_run :
  outcome_of ((set_up (conversion "Comm_f2c" "f" "c");;
               variable 4096 4 7;; share_data "f" 4096 true true;; seen ← top_bits "c" 8;
               overwrite "c" 8 (comm_table + 256 * 9);; reclaim "f";; back ← peek 4096 4; d ← get_desc "c"; mret (seen, back, m_refs d)) mpi_start)
  = Some (inl (comm_table + 256 * 7, 9, [])).
Proof. vm_compute. reflexivity. Qed.

(** With the deprecated key, sharing a C communicator is an error of type. *)
Example deprecated_key_run :
  match outcome_of ((set_up (conversion "transtype" "c" "f");; variable 4096 8 (comm_table + 256 * 7);; share_data "c" 4096 true true) mpi_start) with
  | Some (inr e) => status e = Some PDI_ERR_TYPE
  | _ => False
  end.
Proof. vm_compute. reflexivity. Qed.

(** An integer of another width is not read, and the conversion uses a variable
    that has no value. *)
Example odd_integer_run :
  outcome_of ((mpi_plugin 9 (conversion "Comm_f2c" "f" "c");;
               desc "f";; default_type "f" (Datatype_as_template (scalar_of SIGNED 16 16));; variable 4096 16 7;; share_data "f" 4096 true true) mpi_start) = None.
Proof. vm_compute. reflexivity. Qed.

(** A plugin that refuses a predefined value: the reference made from the local
    variable is destroyed with a null function to free it. *)
Definition refusing : Runtime world := mpi_runtime_with (fun _ _ _ => throw (Std_exception "refused")).

Example refused_value_calls_a_null_function :
  match (on_data 0 "";; mpi_plugin (RT := refusing) 9 empty_config) mpi_start with
  | Thrown _ g => map (fun f => dealloc_freefunc f.2) (freed (g_store g)) = [null_function]
  | _ => False
  end.
Proof. vm_compute. reflexivity. Qed.

(** * Instances of the theorems *)

#[local] Instance mpi_observers : Observers (P := runtime_platform (Runtime := mpi_runtime_with (fun _ _ _ => mret tt))) world.
Proof. split; [|done]. intros h name arg g. exists (g_world g). by destruct g. Defined.

Definition quiet_mpi_runtime : Runtime world := mpi_runtime_with (fun _ _ _ => mret tt).

Lemma predefined_value_outlives_its_variable_witness :
  (exists g' g'', with_local (RT := quiet_mpi_runtime) 4 3 (fun p => add_predefined (RT := quiet_mpi_runtime) "MPI_COMM_WORLD_rank" p (scalar_of SIGNED 4 4)) mpi_start = Done tt g' /\
    expr_to_long (RT := quiet_mpi_runtime) (Reference_expression "MPI_COMM_WORLD_rank" [] "") g' = Done 3 g'') /\
  exists g' h dt b q, with_local (RT := quiet_mpi_runtime) 8 77 (fun p => add_predefined (RT := quiet_mpi_runtime) "MPI_COMM_WORLD" p (scalar_of UNKNOWN 8 8)) mpi_start = Done tt g' /\
    holder g' h true dt (mkData b q (scalar_of UNKNOWN 8 8)) /\ load_bits (g_mem g') q 8 = Ret 77.
Proof.
  split.
  - destruct (predefined_value_outlives_its_variable (RT := quiet_mpi_runtime) mpi_start "MPI_COMM_WORLD_rank" SIGNED 4 4 3) as (g' & h & dt & b & q & Hrun & _ & _ & _ & _ & Hv);
      [apply inv_empty|done|done|by vm_compute|by vm_compute|].
    destruct (Hv eq_refl) as (g'' & Hl & _); [by apply (bool_decide_unpack _)|]. exists g', g''. split; [exact Hrun|]. etrans; [exact Hl|]. by vm_compute (to_int _ _ _).
  - destruct (predefined_value_outlives_its_variable (RT := quiet_mpi_runtime) mpi_start "MPI_COMM_WORLD" UNKNOWN 8 8 77) as (g' & h & dt & b & q & Hrun & _ & Hh & Hl & _);
      [apply inv_empty|done|done|by vm_compute|by vm_compute|].
    exists g', h, dt, b, q. split; [exact Hrun|]. split; [exact Hh|]. etrans; [exact Hl|]. by vm_compute.
Defined.

Lemma deprecated_key_never_converts_to_fortran_witness :
  transtype_entry (RT := quiet_mpi_runtime) (scalar_of UNKNOWN 8 8) "c" "f" mpi_start = transtype_F_to_C "c" "f" (with_desc "c" mpi_start).
Proof.
  apply (deprecated_key_never_converts_to_fortran (RT := quiet_mpi_runtime) mpi_start "c" "f" (scalar_of UNKNOWN 8 8)); [by vm_compute|by apply (bool_decide_unpack _)|done].
Defined.

(** Communicator 7 in the program, and a reference to it. *)
Definition comm_type : Datatype := scalar_of UNKNOWN 8 8.
Definition comm_g : global world :=
  mkGlobal (with_new_ref 4096 free_function comm_type true true empty_store) (bytes_at 4096 (Z_to_little_endian 8 8 (comm_table + 256 * 7))) ∅ ∅
    (fun _ => mkRegistry [] []) 0 (demo_loggers, []).

Lemma comm_g_inv : inv (g_store comm_g).
Proof.
  destruct (new_ref_ok empty_store false false 4096 free_function comm_type true true inv_empty) as [(e & _ & _ & Hnull)|(st & c & Hrun & Hst & _)]; [done|].
  rewrite new_ref_runs in Hrun by done. injection Hrun as <-. by apply (Hst inv_empty).
Defined.

Lemma shared_communicators_are_converted_witness :
  exists g' h dt b p, C_to_F_on_data (RT := quiet_mpi_runtime) "f" "c" 0 comm_g = Done tt g' /\
    links g' h dt (mkData b p (scalar_of SIGNED 4 4)) /\ load_fint p g' = Done 7 g'.
Proof.
  destruct (shared_communicators_are_converted (RT := quiet_mpi_runtime) comm_g "c" "f" 0 2 1 4096 comm_type empty_descriptor) as [Hc _];
    [exact comm_g_inv|by eexists|done|by eexists|done|done|done|done|].
  destruct (Hc (comm_table + 256 * 7) (scalar_of SIGNED 4 4)) as (g' & h & dt & b & p & Hrun & (_ & Hl & _) & Hv); [by vm_compute|by vm_compute|].
  exists g', h, dt, b, p. split_and!; [exact Hrun|exact Hl|]. by rewrite Hv.
Defined.

(** Communicator 7 in the program, and its Fortran handle, that was replaced by 9. *)
Definition both_start : global world :=
  mkGlobal empty_store (bytes_at 4096 (Z_to_little_endian 8 8 (comm_table + 256 * 7)) ∪ bytes_at 8192 (Z_to_little_endian 4 8 9)) ∅ ∅
    (fun _ => mkRegistry [] []) 0 (demo_loggers, []).

Definition both_ops : list ctx_op :=
  [Op_default_type "c" (Datatype_as_template comm_type); Op_default_type "f" (Datatype_as_template (scalar_of SIGNED 4 4));
   Op_share "c" 4096 true true; Op_share "f" 8192 true true].

Definition run_ops (l : list ctx_op) (g : global world) : global world :=
  foldl (fun g o => match run_op (RT := quiet_mpi_runtime) o g with Done _ g' | Thrown _ g' => g' | Crashed => g end) g l.

Definition both_g : global world := run_ops both_ops both_start.

Lemma ops_reach l g : (forall k o, l !! k = Some o -> exists a, run_op (RT := quiet_mpi_runtime) o (run_ops (take k l) g) = Done a (run_ops (take (S k) l) g)) ->
  rtc (ctx_step (RT := quiet_mpi_runtime)) g (run_ops l g).
Proof.
  revert g. induction l as [|o l IH]; intros g H; [apply rtc_refl|]. destruct (H 0%nat o eq_refl) as [a Ha]. eapply rtc_l; [exact (step_returns _ _ _ _ Ha)|].
  change (rtc (ctx_step (RT := quiet_mpi_runtime)) (run_ops [o] g) (run_ops l (run_ops [o] g))). apply IH. intros k o' Hk. exact (H (S k) o' Hk).
Defined.

Lemma both_g_inv : inv (g_store both_g).
Proof.
  assert (Hr : ctx_reachable (RT := quiet_mpi_runtime) both_g).
  { exists both_start. split; [done|]. apply ops_reach. intros k o Hk. exists nullptr.
    do 4 (destruct k as [|k]; [injection Hk as <-; by vm_compute|]). done. }
  by destruct (ctx_reachable_ok (RT := quiet_mpi_runtime) _ Hr) as [Hinv _ _ _ _].
Defined.

Definition scalar_buffer (p : Z) (t : Datatype) : Referenced_buffer := mkBuffer (Some (mkDeallocator p t free_function)) 0 0 ∅.

Lemma converted_communicators_are_written_back_witness :
  exists g', C_to_F_on_data_remove (RT := quiet_mpi_runtime) "f" "c" 4 both_g = Done tt g' /\
    load_bits (g_mem g') 4096 8 = Ret (comm_table + 256 * 9) /\ frame (g_mem both_g) (g_mem g') 4096 8 /\
    m_descriptors g' = <["f" := mkDescriptor (Datatype_as_template (scalar_of SIGNED 4 4)) false []]> (m_descriptors both_g).
Proof.
  destruct (converted_communicators_are_written_back (RT := quiet_mpi_runtime) both_g "c" "f" 4 2 1 4096 comm_type
    (mkDescriptor (Datatype_as_template (scalar_of SIGNED 4 4)) false [11%nat]) 11 [] 9 8 8192 (scalar_of SIGNED 4 4)) as [Hc _].
  - exact both_g_inv.
  - exists (mkReference false false (Some 2%nat)), (scalar_buffer 4096 comm_type). by vm_compute.
  - done.
  - split; [by vm_compute|done|done|exists (mkReference false false (Some 9%nat)); by vm_compute|done|exists (scalar_buffer 8192 (scalar_of SIGNED 4 4)); by vm_compute].
  - done.
  - destruct (Hc 9) as (g' & Hrun & (_ & D & Hf) & Hld); [by vm_compute|by vm_compute|apply allocatedb_ok; by vm_compute|].
    exists g'. split_and!; [exact Hrun|etrans; [exact Hld|by vm_compute]|exact Hf|exact D].
Defined.
