(* ===== verification/Python.v ===== *)
(** The Python bindings: [pdi/src/python/tools.cxx],
    [pdi/src/python/python_ref_wrapper.cxx] and [pdi/src/python/pdi.cxx].

    Data becomes a NumPy array that shares its memory, or a wrapper when there is a
    record inside; the type of a NumPy array is found from its strides.  NumPy, the
    conversions of pybind11 and the Python interpreter are parameters; of an array,
    what its constructor is given is kept, with the flag that pybind11 sets. *)

From Stdlib Require Import Ascii.
From S2P Require Import Prelude Error Effect ExprSyntax Datatype Layout Memory DenseCopy Access Ref RefInv RefOps RefTheorems RefCopy Numeric Parse Yaml Template GlobalContext Eval Logger Includes StringTools PluginStore Init Share Api.

(** * Python objects *)

(** [pybind11::dtype]: a kind and a size. *)
Record pydtype := mkDtype {
  dtype_kind : ascii;
  dtype_itemsize : Z
}.

#[export] Instance pydtype_eq_dec : EqDecision pydtype.
Proof. solve_decision. Defined.

(** [pybind11::array]; [a_base] is the [Ref] that the capsule owns, for an array
    that the library made. *)
Record ndarray := mkNdarray {
  a_dtype : pydtype;
  a_shape : list Z;
  a_strides : list Z;
  a_data : Z;
  a_writeable : bool;
  a_base : option nat
}.

(** [Py_ref] is a [Python_ref_wrapper]; [Py_object] is any other object. *)
Inductive pyobject :=
  | Py_none
  | Py_array (a : ndarray)
  | Py_ref (m_ref : nat)
  | Py_object (handle : Z).

(** NumPy and pybind11: the error with which NumPy refuses to make an array, the
    conversions of objects to arrays and to C++ scalars, and the deallocator that
    keeps an array alive. *)
Class Numpy := {
  PyArray_NewFromDescr : pydtype -> list Z -> list Z -> Z -> option exn;
  array_of : pyobject -> outcome ndarray;
  py_cast : ctype -> pyobject -> outcome cnum;
  keep_array : ndarray -> Z;
  array_of_array : forall a, array_of (Py_array a) = Ret a;
  cast_type : forall T o n, py_cast T o = Ret n -> ctype_of n = T
}.

(** * Types *)

Fixpoint has_record_inside (type : Datatype) : bool :=
  match type with
  | Array_datatype _ subtype _ _ _ | Pointer_datatype _ subtype _ _ => has_record_inside subtype
  | Record_datatype _ _ _ => true
  | _ => false
  end.

(** The texts of the four [Type_error]. *)
Definition cannot_pass {A} (size : Z) (what : string) : outcome A :=
  Throw (Type_error ("Unable to pass " +:+ pretty size +:+ " bytes " +:+ what +:+ " to python")).

(** [to_python] of a scalar type; the caller's [dynamic_pointer_cast] gives null
    for another class, which is then dereferenced. *)
Definition dtype_of (scalar_type : Datatype) : outcome pydtype :=
  match scalar_type with
  | Scalar_datatype _ kind size _ _ _ _ =>
      match kind with
      | FLOAT => if bool_decide (size ∈ [4; 8]) then Ret (mkDtype "f" size) else cannot_pass size "floating point value"
      | SIGNED => if bool_decide (size ∈ [1; 2; 4; 8]) then Ret (mkDtype "i" size) else cannot_pass size "integer value"
      | UNSIGNED => if bool_decide (size ∈ [1; 2; 4; 8]) then Ret (mkDtype "u" size) else cannot_pass size "unsigned integer value"
      | UNKNOWN => Throw (Type_error "Unable to pass value of unexpected type to python")
      end
  | _ => Crash
  end.

(** Conversion to [ssize_t], and its arithmetic. *)
Definition to_ssize (v : Z) : Z := to_int true 8 v.
Definition ssize (v : Z) : outcome Z := if fits true 8 v then Ret v else Crash.

(** The loop over the dimensions of [to_python]: the shape, the sizes of the
    dimensions after the first, the starts and the type of the elements. *)
Fixpoint dimensions (first : bool) (type : Datatype) : list Z * list Z * list Z * Datatype :=
  match type with
  | Array_datatype _ subtype size start subsize =>
      let '(shape, strides, starts, leaf) := dimensions false subtype in
      (to_ssize subsize :: shape, if first then strides else to_ssize size :: strides, to_ssize start :: starts, leaf)
  | _ => ([], [], [], type)
  end.

(** The loop from the last stride to the first one, with the last value. *)
Fixpoint cumulate (strides : list Z) : outcome (list Z * Z) :=
  match strides with
  | [] => Ret ([], 1)
  | stride :: strides =>
      '(strides, cumulated_stride) ← cumulate strides;
      stride ← ssize (stride * cumulated_stride);
      Ret (stride :: strides, stride)
  end.

Fixpoint total_offset (offset : Z) (starts strides : list Z) : outcome Z :=
  match starts, strides with
  | start :: starts, stride :: strides =>
      d ← ssize (start * stride);
      offset ← ssize (offset + d);
      total_offset offset starts strides
  | _, _ => Ret offset
  end.

(** What [to_python] finds from the type: the type of the elements, the shape, the
    strides and the offset of the first element. *)
Definition numpy_layout (type : Datatype) : outcome (pydtype * list Z * list Z * Z) :=
  let '(shape, strides, starts, leaf) := dimensions true type in
  strides ← match shape, leaf with
            | [], _ => Ret strides
            | _, Scalar_datatype _ _ _ _ _ _ _ => Ret (strides ++ [to_ssize (buffersize leaf)])
            | _, _ => Crash
            end;
  pytype ← dtype_of leaf;
  '(strides, _) ← cumulate strides;
  offset ← total_offset 0 starts strides;
  Ret (pytype, shape, strides, offset).

(** [a.strides(ii - 1) / a.strides(ii)] as a [size_t] *)
Fixpoint inner_sizes (strides : list Z) : outcome (list Z) :=
  match strides with
  | outer :: (stride :: _) as strides =>
      if stride =? 0 then Crash else size ← ssize (outer ÷ stride); sizes ← inner_sizes strides; Ret (wrap size :: sizes)
  | _ => Ret []
  end.

Definition kind_of (d : pydtype) : outcome Scalar_kind :=
  if bool_decide (dtype_kind d = "i"%char) then Ret SIGNED
  else if bool_decide (dtype_kind d = "u"%char) || bool_decide (dtype_kind d = "b"%char) then Ret UNSIGNED
  else if bool_decide (dtype_kind d = "f"%char) then Ret FLOAT
  else Throw (Impl_error ("Unexpected python type descriptor: " +:+ String (dtype_kind d) EmptyString)).

(** The arrays around the elements. *)
Definition nest (result : Datatype) (sizes shape : list Z) : Datatype :=
  foldr (fun d result => Array_datatype [] result d.1 0 (wrap d.2)) result (zip sizes shape).

Definition python_type (a : ndarray) : outcome Datatype :=
  sizes ← match a_shape a with
          | [] => Ret []
          | n :: _ => inner ← inner_sizes (a_strides a); Ret (wrap n :: inner)
          end;
  k ← kind_of (a_dtype a);
  result ← make_scalar_kind_size k (wrap (dtype_itemsize (a_dtype a))) [];
  Ret (nest result sizes (a_shape a)).

(** * References as objects *)

Section conversions.
  Context {W : Type} {RT : Runtime W} {NP : Numpy}.

Abbreviation G := (M (global W)).

(** The constructor of [pybind11::array], whose base is a capsule that owns a new
    copy of [r]: the array is writeable. *)
Definition capsule_array (pytype : pydtype) (shape strides : list Z) (ptr : Z) (r : nat) : G pyobject :=
  base ← ref_copy false false r;
  owning base (match PyArray_NewFromDescr pytype shape strides ptr with
               | Some e => throw e
               | None => mret (Py_array (mkNdarray pytype shape strides ptr true (Some base)))
               end).

(** A [Ref_any<R, W>] made from [r] gives an array, unless it is null. *)
Definition array_with (R V : bool) (pytype : pydtype) (shape strides : list Z) (offset : Z) (r : nat) : G (option pyobject) :=
  with_ref (ref_copy R V r) (fun r' =>
    n ← ref_is_null r';
    if negb n then
      p ← ref_get r';
      o ← capsule_array pytype shape strides (p + offset) r;
      mret (Some o)
    else mret None).

(** [to_python] of a reference, which is its parameter by value. *)
Definition to_python (r : nat) (force_const : bool) : G pyobject :=
  t ← ref_type r;
  if has_record_inside t then m_ref ← ref_copy false false r; mret (Py_ref m_ref)
  else
    '(pytype, shape, strides, offset) ← lift (numpy_layout t);
    o ← (if negb force_const then array_with false true pytype shape strides offset r else mret None);
    match o with
    | Some o => mret o
    | None => o ← array_with true false pytype shape strides offset r; mret (default Py_none o)
    end.

(** * [Python_ref_wrapper] *)

Definition getattribute (m_ref : nat) (member_name : string) : G pyobject :=
  with_ref (ref_member member_name m_ref) (fun r => to_python r false).

Definition getitem (m_ref : nat) (index : Z) : G pyobject :=
  with_ref (ref_index index m_ref) (fun r => to_python r false).

(** The C++ type that a scalar member is set from. *)
Definition member_ctype (kind : Scalar_kind) (size : Z) : outcome ctype :=
  match kind with
  | FLOAT =>
      if size =? 4 then Ret CFloat else if size =? 8 then Ret CDouble
      else Throw (Type_error ("Unable to pass " +:+ pretty size +:+ " bytes floating point value to python " +:+ pretty 4))
  | SIGNED => if bool_decide (size ∈ [1; 2; 4; 8]) then Ret (CInt true size) else cannot_pass size "integer value"
  | UNSIGNED => if bool_decide (size ∈ [1; 2; 4; 8]) then Ret (CInt false size) else cannot_pass size "unsigned integer value"
  | UNKNOWN => Throw (Type_error "Unable to pass value of unexpected type to python")
  end.

(** The test of an array member: only the sizes of the elements are compared. *)
Definition check_subtype (member_name : string) (py_type subtype : Datatype) : outcome unit :=
  match py_type with
  | Array_datatype _ py_subtype _ _ _ =>
      if negb (buffersize py_subtype =? buffersize subtype)
      then Throw (Type_error ("Setting a member (" +:+ member_name +:+ ") of array type with subtype different than int64 is unsupported"))
      else Ret tt
  | _ => Ret tt
  end.

Definition setattribute (m_ref : nat) (member_name : string) (value : pyobject) : G unit :=
  with_ref (ref_member member_name m_ref) (fun subref =>
    with_ref (ref_copy false true subref) (fun subref_w =>
      n ← ref_is_null subref_w;
      if negb n then
        t ← ref_type subref_w;
        match t with
        | Scalar_datatype _ kind size _ _ _ _ =>
            T ← lift (member_ctype kind size);
            data ← lift (py_cast T value);
            p ← ref_get subref_w;
            unit_mem (fun m => write_num m p data)
        | Array_datatype _ subtype _ _ _ =>
            py_array ← lift (array_of value);
            py_type ← lift (python_type py_array);
            lift (check_subtype member_name py_type subtype);;
            p ← ref_get subref_w;
            unit_mem (fun m => memcpy m p (a_data py_array) (buffersize t))
        | _ => throw (Type_error ("Setting a member (" +:+ member_name +:+ ") of record type is unsupported"))
        end
      else throw (Permission_error ("Cannot set member that is read only: " +:+ member_name)))).

(** [array::mutable_data] *)
Definition mutable_data (a : ndarray) : outcome Z :=
  if a_writeable a then Ret (a_data a) else Throw (Std_exception "array is not writeable").

End conversions.

(** * The module *)

Section module.
  Context {W : Type} {RT : Runtime W} {FI : Files} {SY : System} {PC : Plugin_code W} {LH : LoggerHost W} {PR : Program W} {NP : Numpy}.
  Context (include_fuel type_fuel pattern_turns : nat) (fortran : option Fortran_kinds).

Implicit Types s : api W.

Abbreviation P := (C (api W)).

(** An operation on the references and the memory, with or without a context. *)
Definition in_machine {A} (m : M (global W) A) : P A := fun s =>
  match m (ps_context (a_store s)) with
  | Done a g => Returned a (set_a_store (set_context g (a_store s)) (s_context s) s)
  | Thrown e g => Raised e (set_a_store (set_context g (a_store s)) (s_context s) s)
  | Crashed => Undefined
  end.

(** The version is formatted with [fmt], so that the conversions of [printf] stay. *)
Definition pyversion (major minor patch : Z) (expected : Z * Z * Z) : P (Z * Z * Z) :=
  let '(expected_major, expected_minor, expected_patch) := expected in
  if (negb (expected_major =? 0) || negb (expected_minor =? 0) || negb (expected_patch =? 0))
     && (negb (expected_major =? major) || (expected_minor >? minor))
  then raise (Plugin_error "Invalid PDI API version: %lu.%lu.%lu, PDI provided version is %lu.%lu.%lu")
  else mret (major, minor, patch).

(** The configuration is a tree here, a text there. *)
Definition pyinit (conf : PC_tree) : P unit := init include_fuel type_fuel pattern_turns fortran conf.

Definition pyfinalize : P unit := reset_context.

Definition pyevent (name : string) : P unit := in_ctx (notify_event name).

(** The reference is made before the context is looked up; on error the data is
    given back. *)
Definition pyshare (name : string) (pybuf : ndarray) (access : Z) : P unit :=
  r ← in_machine (
    data ← lift (mutable_data pybuf);
    t ← lift (python_type pybuf);
    on_store (new_ref false false data (keep_array pybuf) t (has access PDI_OUT) (has access PDI_IN)));
  guarded (in_ctx (desc name;; with_ref (ref_copy false false r) (fun arg => share_ref name arg false false);; mret tt))
    (fun e => in_machine (ref_release r);; in_machine (ref_destroy r);; raise e);;
  in_machine (ref_destroy r).

Definition pyaccess (name : string) (inout : Z) : P pyobject := in_ctx (
  desc name;;
  access_data name false false;;
  with_ref (ref name) (fun r => to_python r (negb (has inout PDI_OUT)))).

Definition pyrelease (name : string) : P unit := in_ctx (desc name;; release_desc name).

Definition pyreclaim (name : string) : P unit := in_ctx (desc name;; reclaim name;; mret tt).

End module.
