(* ===== verification/PythonFacts.v ===== *)
(** What the Python bindings tell NumPy about data: the elements of the array are
    the elements of the data, at the addresses where the library finds them, and the
    type found for an array describes its layout. *)

From Stdlib Require Import Ascii.
From S2P Require Import Prelude Error Effect ExprSyntax Datatype Layout Memory DenseCopy DenseCopyFacts Access Ref RefInv RefOps RefTheorems RefCopy Numeric Parse Yaml Template GlobalContext Eval ContextInv DescriptorInv EvalInv Includes StringTools PluginStore Init Share ShareFacts MetadataFacts Logger SetValue Mpi MpiFacts Hdf5 Hdf5Ops Hdf5Facts Api Python.

(** * Elements of an array *)

Fixpoint dot (index strides : list Z) : Z :=
  match index, strides with
  | i :: index, s :: strides => i * s + dot index strides
  | _, _ => 0
  end.

(** The indices of an array, the last one varying fastest. *)
Definition indices (shape : list Z) : list (list Z) := points (map (fun _ => 0) shape) shape.

(** Where NumPy finds the elements, in that order. *)
Definition numpy_elements (a : ndarray) : list Z := map (fun i => a_data a + dot i (a_strides a)) (indices (a_shape a)).

(** * The layout of nested arrays *)

Fixpoint strides_of (t : Datatype) : list Z :=
  match t with Array_datatype _ sub _ _ _ => buffersize sub :: strides_of sub | _ => [] end.

Fixpoint offset_of (t : Datatype) : Z :=
  match t with Array_datatype _ sub _ s _ => s * buffersize sub + offset_of sub | _ => 0 end.

Definition ssize_max : Z := int_max_of true 8.

(** A type whose sizes a [ssize_t] can hold, without empty dimension. *)
Definition addressable (t : Datatype) : Prop :=
  copy_ok t = true /\ Forall (fun n => 0 < n) (counts_of t) /\ 0 < buffersize (leaf t) /\ buffersize t <= ssize_max.

Lemma to_ssize_small v : 0 <= v <= ssize_max -> to_ssize v = v.
Proof.
  intros Hv. unfold to_ssize, to_int. assert (ssize_max = 2 ^ 63 - 1) as Hm by done.
  change (8 * 8) with 64. rewrite Z.mod_small by lia. simpl (true && _). change (64 - 1) with 63. destruct (Z.leb_spec (2 ^ 63) v); [lia|done].
Qed.

Lemma ssize_small v : 0 <= v <= ssize_max -> ssize v = Ret v.
Proof.
  intros Hv. unfold ssize, fits. fold ssize_max. assert (int_min_of true 8 <= 0) by done.
  destruct (Z.leb_spec (int_min_of true 8) v); [|lia]. destruct (Z.leb_spec v ssize_max); [done|lia].
Qed.

(** What an addressable array is made of. *)
Lemma addressable_array a sub n s c :
  addressable (Array_datatype a sub n s c) ->
  addressable sub /\ 0 < buffersize sub /\ buffersize (Array_datatype a sub n s c) = n * buffersize sub /\
  0 <= s /\ 0 < c /\ s + c <= n /\ n <= ssize_max /\ n * buffersize sub <= ssize_max.
Proof.
  intros (Hok & Hc & Hl & Hb). destruct (extent_array a sub n s c) as (_ & _ & Hcs & Hlf). rewrite Hcs in Hc. rewrite Hlf in Hl.
  apply list.Forall_cons in Hc as [Hc0 Hc]. assert (Hwf := copy_ok_wf _ Hok). pose proof Hok as Hok'. simpl in Hok', Hwf, Hb. bools. unfold is_size in *.
  rewrite size_mul_small in Hb by done. destruct (leaf_ok sub ltac:(done)) as [_ Hsub].
  pose proof (sizes_positive sub ltac:(done) Hc) as Hsz.
  assert (0 < product (sizes_of sub)) by (clear -Hsz; induction Hsz; simpl; [lia|]; fold (product l); nia).
  assert (0 < buffersize sub) by (rewrite Hsub; nia).
  assert (buffersize sub <= n * buffersize sub) by nia.
  split_and!; try nia; [by split_and!; (done || lia)|]. simpl. by rewrite size_mul_small.
Qed.

Lemma dimensions_runs first t :
  addressable t ->
  dimensions first t = (counts_of t, if first then drop 1 (sizes_of t) else sizes_of t, starts_of t, leaf t).
Proof.
  revert first. induction t as [| a sub IH n s c | | |]; intros first H; try (by destruct first).
  destruct (addressable_array _ _ _ _ _ H) as (Hsub & ? & ? & ? & ? & ? & ? & ?).
  destruct (extent_array a sub n s c) as (-> & -> & -> & ->). cbn [dimensions]. rewrite (IH false Hsub).
  rewrite !to_ssize_small by lia. by destruct first.
Qed.

Lemma cumulate_runs t :
  addressable t -> cumulate (sizes_of t ++ [buffersize (leaf t)]) = Ret (buffersize t :: strides_of t, buffersize t).
Proof.
  induction t as [| a sub IH n s c | | |]; intros H;
    try (cbn -[ssize]; destruct H as (_ & _ & Hl & Hb); unfold leaf in Hl; cbn in Hl, Hb; rewrite ssize_small by (cbn; lia); cbn; by rewrite Z.mul_1_r).
  destruct (addressable_array _ _ _ _ _ H) as (Hsub & ? & Hb & ? & ? & ? & ? & ?).
  destruct (extent_array a sub n s c) as (-> & _ & _ & ->). cbn [cumulate app]. rewrite (IH Hsub). cbn [mbind outcome_bind].
  rewrite ssize_small by nia. cbn [mbind outcome_bind]. by rewrite Hb.
Qed.

Lemma offset_bound t : addressable t -> 0 <= offset_of t /\ offset_of t + buffersize (leaf t) <= buffersize t.
Proof.
  induction t as [| a sub IH n s c | | |]; intros H; try (cbn; lia).
  destruct (addressable_array _ _ _ _ _ H) as (Hsub & ? & Hb & ? & ? & ? & ? & ?). destruct (IH Hsub).
  destruct (extent_array a sub n s c) as (_ & _ & _ & ->). rewrite Hb. simpl. nia.
Qed.

Lemma total_offset_runs t acc :
  addressable t -> 0 <= acc -> acc + offset_of t <= ssize_max -> total_offset acc (starts_of t) (strides_of t) = Ret (acc + offset_of t).
Proof.
  revert acc. induction t as [| a sub IH n s c | | |]; intros acc H Hacc Hmax; try (cbn; by rewrite Z.add_0_r).
  destruct (addressable_array _ _ _ _ _ H) as (Hsub & ? & Hb & ? & ? & ? & ? & ?). destruct (offset_bound sub Hsub).
  destruct (extent_array a sub n s c) as (_ & -> & _ & _). cbn [total_offset strides_of offset_of] in *.
  assert (0 <= s * buffersize sub) by nia.
  rewrite ssize_small by nia. cbn [mbind outcome_bind]. rewrite ssize_small by lia. cbn [mbind outcome_bind].
  rewrite IH by (done || lia). f_equal. lia.
Qed.

(** The layout that [to_python] computes. *)
Lemma numpy_layout_runs t d :
  addressable t -> dtype_of (leaf t) = Ret d -> numpy_layout t = Ret (d, counts_of t, strides_of t, offset_of t).
Proof.
  intros H Hd. unfold numpy_layout. rewrite (dimensions_runs true t H). destruct (offset_bound t H) as [? Hob]. pose proof H as (_ & _ & Hl & Hb).
  destruct t as [| a sub n s c | | |]; try (simpl in Hd |- *; by rewrite ?Hd).
  destruct (addressable_array _ _ _ _ _ H) as (Hsub & ? & Hbs & ? & ? & ? & ? & ?).
  assert (Htot : total_offset 0 (starts_of (Array_datatype a sub n s c)) (strides_of (Array_datatype a sub n s c)) = Ret (offset_of (Array_datatype a sub n s c))).
  { rewrite total_offset_runs by (done || lia). done. }
  revert Hd Htot. pose proof (cumulate_runs sub Hsub) as Hcum.
  destruct (extent_array a sub n s c) as (-> & -> & -> & ->). cbn [drop]. intros Hd Htot. destruct Hsub as (_ & _ & Hls & Hbls).
  destruct (leaf sub) as [at' k sz al ds cp de| | | |] eqn:Hleaf; try (by simpl in Hd). rewrite <- Hleaf in *.
  rewrite to_ssize_small by (destruct (leaf_ok sub) as [_ Hp]; [by destruct H as [Hok _]; simpl in Hok; bools|]; pose proof (offset_bound sub ltac:(by destruct (addressable_array _ _ _ _ _ H))); lia).
  cbn [mbind outcome_bind]. rewrite Hd. cbn [mbind outcome_bind]. rewrite drop_0, Hcum. cbn [mbind outcome_bind].
  change (buffersize sub :: strides_of sub) with (strides_of (Array_datatype a sub n s c)). by rewrite Htot.
Qed.

(** The elements of the NumPy array are those of the data. *)
Lemma numpy_elements_are_elements m t p d base :
  copy_ok t = true -> numpy_elements (mkNdarray d (counts_of t) (strides_of t) (p + offset_of t) true base) = elements m t p.
Proof.
  unfold numpy_elements, indices. simpl. revert p. induction t as [| a sub IH n s c | | |]; intros p Hok; try (cbn; f_equal; lia).
  destruct (extent_array a sub n s c) as (_ & _ & -> & _). cbn [map points elements strides_of offset_of]. rewrite concat_map, map_map. f_equal.
  apply map_ext_in. intros i Hi%list_elem_of_In%elem_of_seqZ. rewrite array_element by (done || lia).
  assert (Hsub : copy_ok sub = true) by (simpl in Hok; by bools).
  rewrite map_map, <- IH by done. apply map_ext. intros pt. cbn [dot]. ring.
Qed.

(** * The type of an array *)

(** The rows follow each other: the last stride is the size of an element, and a
    stride is a multiple of the next one that leaves room for a row. *)
Fixpoint row_major (itemsize : Z) (shape strides : list Z) : Prop :=
  match shape, strides with
  | [n], [stride] => 0 < n /\ stride = itemsize
  | n :: (n' :: _) as shape, outer :: (stride :: _) as strides =>
      0 < n /\ (stride | outer) /\ n' * stride <= outer <= ssize_max /\ row_major itemsize shape strides
  | _, _ => False
  end.

(** The types that go through both conversions: a boolean comes back as an integer. *)
Definition returned_dtype (d : pydtype) : pydtype :=
  if bool_decide (dtype_kind d = "b"%char) then mkDtype "u" (dtype_itemsize d) else d.

Definition numeric (d : pydtype) : Prop :=
  (dtype_kind d ∈ ["i"; "u"]%char /\ dtype_itemsize d ∈ [1; 2; 4; 8]) \/ (dtype_kind d = "b"%char /\ dtype_itemsize d = 1) \/
  (dtype_kind d = "f"%char /\ dtype_itemsize d ∈ [4; 8]).

(** The scalar type of the elements. *)
Definition scalar_type_of (k : Scalar_kind) (w : Z) : Datatype := Scalar_datatype [] k w w w None None.

Lemma numeric_scalar d :
  numeric d -> exists k, kind_of d = Ret k /\ make_scalar_kind_size k (wrap (dtype_itemsize d)) [] = Ret (scalar_type_of k (dtype_itemsize d)) /\
    dtype_of (scalar_type_of k (dtype_itemsize d)) = Ret (returned_dtype d) /\ 0 < dtype_itemsize d <= 8.
Proof.
  destruct d as [k w]. unfold numeric. cbn [dtype_kind dtype_itemsize]. rewrite !elem_of_cons, !elem_of_nil.
  intros [[Hk Hw]|[[-> ->]|[-> Hw]]]; [destruct Hk as [-> |[-> |[]]]; [exists SIGNED|exists UNSIGNED]|by exists UNSIGNED|exists FLOAT];
    repeat match goal with H : _ \/ _ |- _ => destruct H as [-> |H] | H : False |- _ => destruct H end; by vm_compute.
Qed.

Lemma row_major_positive w shape strides : 0 < w -> row_major w shape strides -> Forall (fun n => 0 < n) shape /\ Forall (fun s => 0 < s) strides.
Proof.
  intros Hw. revert strides. induction shape as [|n shape IH]; intros [|s strides] H; try done; [by destruct shape|].
  destruct shape as [|n' shape], strides as [|s' strides]; try done.
  - destruct H as [? ->]. repeat constructor; done.
  - destruct H as (Hn & [q ->] & Hle & H). destruct (IH _ H) as [H1 H2]. apply list.Forall_cons in H1 as H1', H2 as H2'.
    split; constructor; try done. nia.
Qed.

(** The type of a row-major array, the first dimension having [k] places. *)
Record describes (u : Datatype) (k w : Z) (shape strides : list Z) (elt : Datatype) : Prop := {
  ds_ok : copy_ok u = true;
  ds_buffersize : buffersize u = k * hd 1 strides;
  ds_packed : packed_size u = product shape * w;
  ds_datasize : datasize u = product shape * w;
  ds_room : product shape * w <= hd 1 shape * hd 1 strides;
  ds_alignment : alignment u = w;
  ds_counts : counts_of u = shape;
  ds_strides : strides_of u = strides;
  ds_offset : offset_of u = 0;
  ds_leaf : leaf u = elt
}.

Lemma one_more_dimension sub k n w shape stride strides elt :
  copy_ok sub = true -> buffersize sub = stride -> packed_size sub = product shape * w -> datasize sub = product shape * w -> 0 < product shape * w <= stride ->
  alignment sub = w -> counts_of sub = shape -> strides_of sub = strides -> offset_of sub = 0 -> leaf sub = elt ->
  0 < w -> 0 < n <= k -> k * stride <= ssize_max ->
  describes (Array_datatype [] sub k 0 n) k w (n :: shape) (stride :: strides) elt.
Proof.
  intros Hok Hb Hp Hd Hr Ha Hc Hs Ho Hl Hw Hn Hk. assert (Hm : ssize_max < size_modulus) by done. assert (Hwf := copy_ok_wf _ Hok).
  destruct (extent_array [] sub k 0 n) as (_ & _ & Hcs & Hlf).
  assert (0 <= n * (product shape * w) <= k * stride) by nia. assert (0 <= k <= k * stride) by nia.
  split; cbn [hd product foldr strides_of offset_of buffersize datasize alignment packed_size array_buffersize array_datasize]; fold (product shape); try congruence.
  - simpl. rewrite Hok, Hwf, Hb, Hd, Hp, Ha. rewrite !bool_decide_eq_true_2 by (unfold is_size; lia).
    destruct (Z.leb_spec (0 + n) k); [|lia]. destruct (Z.leb_spec (product shape * w) stride); [|lia]. rewrite Z_mod_mult. done.
  - rewrite Hb. by rewrite size_mul_small by (unfold is_size; lia).
  - rewrite Hp. lia.
  - rewrite Hd. rewrite size_mul_small by (unfold is_size; lia). lia.
  - nia.
  - rewrite Ho. lia.
Qed.

Lemma python_type_describes w shape strides elt k :
  copy_ok elt = true -> buffersize elt = w -> packed_size elt = w -> datasize elt = w -> alignment elt = w -> leaf elt = elt -> counts_of elt = [] -> strides_of elt = [] -> offset_of elt = 0 ->
  0 < w -> row_major w shape strides -> hd 1 shape <= k -> k * hd 1 strides <= ssize_max ->
  exists inner, inner_sizes strides = Ret inner /\ describes (nest elt (k :: inner) shape) k w shape strides elt.
Proof.
  intros Hok Hb Hp Hd Ha Hl Hc Hs Ho Hw. assert (Hm : ssize_max < size_modulus) by done.
  revert strides k. induction shape as [|n shape IH]; intros [|s strides] k H Hn Hk; try done; [by destruct shape|].
  destruct (row_major_positive w _ _ Hw H) as [Hsh Hst]. apply list.Forall_cons in Hsh as [Hn0 Hsh], Hst as [Hs0 Hst]. cbn [hd] in Hn, Hk.
  assert (Hnk : n <= ssize_max) by nia.
  destruct shape as [|n' shape], strides as [|s' strides]; try done.
  - destruct H as [_ ->]. exists []. split; [done|]. unfold nest. cbn [zip zip_with foldr fst snd]. rewrite wrap_small by (unfold is_size; lia).
    apply one_more_dimension; simpl; (done || congruence || lia).
  - destruct H as (_ & [q Hq] & [Hroom Hmax] & H). apply list.Forall_cons in Hst as [Hs'0 _], Hsh as [Hn'0 _].
    destruct (IH (s' :: strides) q H) as (inner & Hin & D); cbn [hd]; [nia|lia|].
    assert (Hq0 : 0 < q <= ssize_max) by nia.
    exists (q :: inner). split.
    + cbn [inner_sizes]. destruct (Z.eqb_spec s' 0); [lia|]. rewrite Hq, Z.quot_mul, ssize_small by lia. cbn [mbind outcome_bind].
      change (match strides with [] => Ret [] | _ => _ end) with (inner_sizes (s' :: strides)). rewrite Hin. cbn [mbind outcome_bind].
      by rewrite wrap_small by (unfold is_size; lia).
    + destruct D as [D1 D2 D3 D4 D5 D6 D7 D8 D9 D10]. cbn [hd] in D2, D5. change (nest elt (k :: q :: inner) (n :: n' :: shape)) with
        (Array_datatype [] (nest elt (q :: inner) (n' :: shape)) k 0 (wrap n)). rewrite wrap_small by (unfold is_size; lia).
      apply one_more_dimension; try (done || congruence || lia). split; [|lia].
      assert (0 < product (n' :: shape)); [|nia].
      destruct (row_major_positive w _ _ Hw H) as [Hp' _]. clear -Hp'. induction Hp'; simpl; [lia|]. fold (product l). nia.
Qed.

(** An array whose rows follow each other, of a numeric type. *)
Definition c_ordered (a : ndarray) : Prop :=
  numeric (a_dtype a) /\
  ((a_shape a = [] /\ a_strides a = []) \/
   (row_major (dtype_itemsize (a_dtype a)) (a_shape a) (a_strides a) /\ hd 1 (a_shape a) * hd 1 (a_strides a) <= ssize_max)).

Lemma python_type_of_c_ordered a :
  c_ordered a -> exists t, python_type a = Ret t /\ addressable t /\ dtype_of (leaf t) = Ret (returned_dtype (a_dtype a)) /\
    counts_of t = a_shape a /\ strides_of t = a_strides a /\ offset_of t = 0.
Proof.
  intros [Hnum Hlay]. destruct (numeric_scalar _ Hnum) as (k & Hk & Hmake & Hdt & Hw). set (w := dtype_itemsize (a_dtype a)) in *.
  assert (Hscal : copy_ok (scalar_type_of k w) = true).
  { unfold make_scalar_kind_size, make_scalar in Hmake. destruct (negb (nulltype _) && negb (ispow2 (wrap w))) eqn:Hal; [done|].
    assert (Hpow : ispow2 w = true).
    { rewrite wrap_small in Hal by (unfold is_size, size_modulus; lia). apply andb_false_iff in Hal as [Hn|Hn]; [|by apply negb_false_iff].
      apply negb_false_iff in Hn. simpl in Hn. bools. lia. }
    simpl. rewrite Hpow, !bool_decide_eq_true_2 by (done || unfold is_size, size_modulus; lia). rewrite Z.leb_refl. done. }
  destruct Hlay as [[Hsh Hst]|[Hrow Hmax]].
  - exists (scalar_type_of k w). unfold python_type. rewrite Hsh, Hk, Hst. cbn [mbind outcome_bind]. fold w. rewrite Hmake. assert (8 <= ssize_max) by done.
    split_and!; try done. split_and!; try done; [change (buffersize (leaf (scalar_type_of k w))) with w|change (buffersize (scalar_type_of k w)) with w]; lia.
  - destruct (python_type_describes w (a_shape a) (a_strides a) (scalar_type_of k w) (hd 1 (a_shape a))) as (inner & Hin & D); try done; [lia|].
    destruct (a_shape a) as [|n shape] eqn:Hsh; [by destruct (a_strides a)|]. rewrite <- Hsh in *.
    destruct (row_major_positive w _ _ ltac:(lia) Hrow) as [Hpos Hpos']. destruct D as [D1 D2 _ _ _ _ D7 D8 D9 D10].
    assert (Hn : 0 < n <= ssize_max).
    { rewrite Hsh in Hpos, Hmax, Hrow. apply list.Forall_cons in Hpos as [? _]. destruct (a_strides a) as [|s ss]; [by destruct shape|].
      apply list.Forall_cons in Hpos' as [? _]. simpl in Hmax. nia. }
    exists (nest (scalar_type_of k w) (hd 1 (a_shape a) :: inner) (a_shape a)). split_and!; try done.
    + unfold python_type. rewrite Hsh, Hin, Hk. cbn [mbind outcome_bind hd]. fold w. rewrite Hmake. cbn [mbind outcome_bind].
      rewrite (wrap_small n); [done|]. unfold is_size. assert (ssize_max < size_modulus) by done. lia.
    + split_and!; [done|by rewrite D7|rewrite D10; simpl; lia|by rewrite D2].
    + by rewrite D10.
Qed.

(** The type that is found for a NumPy array whose rows follow each other, with or
    without gaps between them, gives back to NumPy an array with the same elements,
    shape and strides (booleans come back as integers), and the library finds the
    elements where NumPy has them. *)
Theorem python_layout_round_trip a m :
  c_ordered a ->
  exists t, python_type a = Ret t /\
    numpy_layout t = Ret (returned_dtype (a_dtype a), a_shape a, a_strides a, 0) /\
    elements m t (a_data a) = numpy_elements a.
Proof.
  intros H. destruct (python_type_of_c_ordered a H) as (t & Ht & Hadd & Hd & Hc & Hs & Ho). exists t. split_and!; [done| |].
  - by rewrite (numpy_layout_runs t _ Hadd Hd), Hc, Hs, Ho.
  - destruct Hadd as [Hok _]. rewrite <- (numpy_elements_are_elements m t (a_data a) (a_dtype a) None Hok). rewrite Hc, Hs, Ho, Z.add_0_r.
    by destruct a.
Qed.

(** * References as arrays *)

(** The arrays that NumPy documents it can make: at most 32 dimensions, and a size
    that a [ssize_t] can hold. *)
Class Numpy_limits {NP : Numpy} := {
  array_is_made d shape strides p : (length shape <= 32)%nat -> Forall (fun n => 0 <= n) shape -> product shape * dtype_itemsize d <= ssize_max ->
    PyArray_NewFromDescr d shape strides p = None
}.

Lemma dtype_size t d : dtype_of t = Ret d -> copy_ok t = true -> 0 < dtype_itemsize d <= buffersize t.
Proof.
  intros Hd Hok. destruct t as [at' k sz al ds cp de| | | |]; try done. simpl in Hd, Hok. bools. simpl.
  destruct k; try done; case_bool_decide as Hin; try done; injection Hd as <-; simpl; rewrite !elem_of_cons, elem_of_nil in Hin; lia.
Qed.

Lemma total_size t d : addressable t -> dtype_of (leaf t) = Ret d -> product (counts_of t) * dtype_itemsize d <= buffersize t.
Proof.
  intros H Hd. destruct (dtype_size _ _ Hd) as [Hpos Hle]; [apply leaf_ok, H|]. clear Hd.
  induction t as [| a sub IH n s c | | |]; try (unfold counts_of; simpl in *; unfold leaf in *; simpl in *; lia).
  destruct (addressable_array _ _ _ _ _ H) as (Hsub & ? & Hb & ? & ? & ? & ? & ?). destruct (extent_array a sub n s c) as (_ & _ & Hc & Hl).
  rewrite Hl in Hle. specialize (IH Hsub Hle). rewrite Hb, Hc. simpl. fold (product (counts_of sub)). nia.
Qed.

Lemma no_record_inside t d : dtype_of (leaf t) = Ret d -> has_record_inside t = false.
Proof.
  induction t as [| a sub IH n s c | | |]; try done. destruct (extent_array a sub n s c) as (_ & _ & _ & ->). apply IH.
Qed.

Section references.
  Context {W : Type} {RT : Runtime W} {OB : Observers W} {NP : Numpy} {NL : Numpy_limits}.

Implicit Types g : global W.

(** A reference that is not granted its rights is null, and nothing else changes. *)
Lemma copy_denied g R V r x d dd y :
  inv (g_store g) -> points_to (g_store g) r x d dd y -> data_address dd <> nullptr -> granted (mkReference R V None) y = false ->
  exists g', ref_copy R V r g = Done (next (g_store g)) g' /\ calm nothing g g' /\ m_descriptors g' = m_descriptors g /\
    refs (g_store g') !! next (g_store g) = Some (mkReference R V None) /\ points_to (g_store g') r x d dd y.
Proof.
  intros Hinv (Hx & Hc & Hd & Hy) Hnn Hgr. destruct (copy_runs g R V r Hinv ltac:(by exists x)) as (g' & Hrun & C & D & _ & _).
  pose proof (fresh_ref _ _ _ Hinv Hx) as Hne. exists g'. assert (Hg' : g' = set_store (new_null R V (g_store g)).2 g).
  { revert Hrun. unfold ref_copy, on_store, zoom, new_copy, new_null, get_content.
    cbn [refs datas buffers freed next mbind outcome_bind]; rewrite lookup_insert_ne by done.
    rewrite Hx; cbn [deref mbind outcome_bind]; rewrite Hc, Hd; cbn [deref mbind outcome_bind].
    destruct (Z.eqb_spec (data_address dd) nullptr); [done|]. cbn [mbind outcome_bind]. unfold link; cbn [refs datas buffers freed next].
    rewrite lookup_insert_eq; cbn [deref mbind outcome_bind m_content].
    rewrite bool_decide_eq_false_2 by (by intros [? ?]). rewrite Hd; cbn [deref mbind outcome_bind].
    destruct (Z.eqb_spec (data_address dd) nullptr); [done|]. rewrite Hy; cbn [deref mbind outcome_bind ref_R ref_W].
    unfold granted in Hgr; apply negb_false_iff in Hgr; cbn [ref_R ref_W] in Hgr; rewrite Hgr. unfold collect.
    rewrite bool_decide_eq_true_2 by (apply map_Exists_lookup; exists r, x; simpl; by rewrite lookup_insert_ne). by intros [= <-]. }
  rewrite Hg'. split; [by rewrite <- Hg'|]. split_and!; [by rewrite <- Hg'|done|simpl; by rewrite lookup_insert_eq|].
  split_and!; try done. simpl. by rewrite lookup_insert_ne.
Qed.

Lemma null_is_null g r R V : refs (g_store g) !! r = Some (mkReference R V None) -> ref_is_null r g = Done true g.
Proof. intros Hr. unfold ref_is_null, on_store, zoom, is_null. rewrite Hr. simpl. by destruct g. Qed.

(** Destroying a null reference. *)
Lemma destroy_null g n R V r x d dd y :
  refs (g_store g) !! n = Some (mkReference R V None) -> points_to (g_store g) r x d dd y ->
  exists g', ref_destroy n g = Done tt g' /\ points_to (g_store g') r x d dd y.
Proof.
  intros Hn (Hx & Hc & Hd & Hy). exists (set_store (set_refs (delete n) (g_store g)) g). split.
  - unfold ref_destroy, unit_store, on_store, zoom, delete_ref, reset. by rewrite Hn.
  - split_and!; try done. simpl. rewrite lookup_delete_ne; [done|]. intros ->. rewrite Hn in Hx. injection Hx as <-. done.
Qed.

(** An array of data to which the rights are granted. *)
Lemma array_with_granted g R V r x d dd y pytype shape strides offset :
  inv (g_store g) -> points_to (g_store g) r x d dd y -> data_address dd <> nullptr -> granted (mkReference R V None) y = true ->
  PyArray_NewFromDescr pytype shape strides (data_address dd + offset) = None ->
  exists g' base, array_with R V pytype shape strides offset r g =
      Done (Some (Py_array (mkNdarray pytype shape strides (data_address dd + offset) true (Some base)))) g' /\
    calm nothing g g' /\ m_descriptors g' = m_descriptors g /\ holder g' base false d dd /\ (next (g_store g) <= base)%nat.
Proof.
  intros Hinv Hpt Hnn Hgr Hnp. destruct (copy_granted g R V r x d dd y Hinv Hpt Hnn Hgr) as (g1 & Hrun1 & C1 & D1 & Hn1 & Hd1 & _).
  set (n := next (g_store g)) in *. pose proof (cm_inv _ _ _ C1) as Hinv1. destruct Hpt as (Hx & Hc & Hd & Hy).
  assert (Hl1 : links g1 n d dd) by (exists (mkReference R V (Some d)); by rewrite Hd1).
  assert (Hlr : links g1 r d dd) by (eapply calm_links; [exact Hinv|exact C1|tauto|by exists x]).
  destruct (copy_holds g1 false r d dd Hinv1 Hlr Hnn) as (g2 & Hrun2 & C2 & _ & D2 & Hh2); [done|]. set (base := next (g_store g1)) in *.
  assert (Hlt : (n < base)%nat) by (apply (wf_next_refs _ (proj1 Hinv1)); by eapply links_exists).
  set (o := Py_array (mkNdarray pytype shape strides (data_address dd + offset) true (Some base))).
  destruct (with_ref_calm g g1 g2 (ref_copy R V r) (fun r' => n ← ref_is_null r'; if negb n then p ← ref_get r'; o ← capsule_array pytype shape strides (p + offset) r; mret (Some o) else mret None)
              n (Some o)) as (g3 & Hrun3 & C3 & D3 & _ & C4); try done; [by eapply links_exists| |].
  { unfold mbind at 1, M_bind at 1. rewrite (is_null_runs g1 n d dd Hl1 Hnn). cbn [negb]. unfold mbind at 1, M_bind at 1.
    rewrite (get_runs g1 n d dd Hl1 Hnn). unfold mbind at 1, M_bind at 1, capsule_array. unfold mbind at 1, M_bind at 1. rewrite Hrun2. by rewrite Hnp. }
  exists g3, base. split_and!; [done|done|by rewrite D3, D2| |lia]. eapply calm_holds; [apply C2|exact C4|lia|done].
Qed.

(** No array of data to which they are denied. *)
Lemma array_with_denied g R V r x d dd y pytype shape strides offset :
  inv (g_store g) -> points_to (g_store g) r x d dd y -> data_address dd <> nullptr -> granted (mkReference R V None) y = false ->
  exists g', array_with R V pytype shape strides offset r g = Done None g' /\ calm nothing g g' /\ m_descriptors g' = m_descriptors g /\
    points_to (g_store g') r x d dd y.
Proof.
  intros Hinv Hpt Hnn Hgr. destruct (copy_denied g R V r x d dd y Hinv Hpt Hnn Hgr) as (g1 & Hrun1 & C1 & D1 & Hn1 & Hpt1).
  set (n := next (g_store g)) in *.
  destruct (with_ref_calm g g1 g1 (ref_copy R V r) (fun r' => n ← ref_is_null r'; if negb n then p ← ref_get r'; o ← capsule_array pytype shape strides (p + offset) r; mret (Some o) else mret None)
              n None) as (g3 & Hrun3 & C3 & D3 & Hd3 & C4); try done; [by eexists| |apply calm_refl, C1|].
  { unfold mbind at 1, M_bind at 1. by rewrite (null_is_null g1 n R V Hn1). }
  destruct (destroy_null g1 n R V r x d dd y Hn1 Hpt1) as (g3' & Hd3' & Hpt3). rewrite Hd3 in Hd3'. injection Hd3' as <-.
  exists g3. split_and!; [done|done|by rewrite D3|done].
Qed.

(** What NumPy gets for the data: the elements, and the new reference, if those
    before [from] exist, that it keeps. *)
Record array_of_data g (from d : nat) (dd : Referenced_data) (dt : pydtype) (a : ndarray) : Prop := {
  ad_elements : numpy_elements a = elements (g_mem g) (data_type dd) (data_address dd);
  ad_dtype : a_dtype a = dt;
  ad_shape : a_shape a = counts_of (data_type dd);
  ad_strides : a_strides a = strides_of (data_type dd);
  ad_base : exists base, a_base a = Some base /\ holder g base false d dd /\ (from <= base)%nat
}.

Definition can_read (y : Referenced_buffer) : bool := m_read_locks y =? 0.
Definition can_write (y : Referenced_buffer) : bool := m_write_locks y =? 0.

Lemma granted_write y : granted (mkReference false true None) y = can_write y.
Proof. unfold granted, can_write. simpl. by destruct (_ =? _). Qed.

Lemma granted_read y : granted (mkReference true false None) y = can_read y.
Proof. unfold granted, can_read. simpl. by destruct (_ =? _). Qed.

Lemma ref_type_runs g r x d dd y : points_to (g_store g) r x d dd y -> data_address dd <> nullptr -> ref_type r g = Done (data_type dd) g.
Proof.
  intros (Hx & Hc & Hd & _) Hnn. unfold ref_type, type. rewrite Hx; cbn [deref mbind outcome_bind]. rewrite Hc, Hd; cbn [deref mbind outcome_bind].
  by destruct (Z.eqb_spec (data_address dd) nullptr).
Qed.

Lemma to_python_runs g r x d dd y dt force_const :
  inv (g_store g) -> points_to (g_store g) r x d dd y -> data_address dd <> nullptr ->
  addressable (data_type dd) -> dtype_of (leaf (data_type dd)) = Ret dt -> (length (counts_of (data_type dd)) <= 32)%nat ->
  exists o g', to_python r force_const g = Done o g' /\ calm nothing g g' /\ m_descriptors g' = m_descriptors g /\
    if (negb force_const && can_write y) || can_read y
    then exists a, o = Py_array a /\ array_of_data g' (next (g_store g)) d dd dt a /\ a_writeable a = true
    else o = Py_none.
Proof.
  intros Hinv Hpt Hnn Hadd Hdt Hrank. pose proof (numpy_layout_runs _ _ Hadd Hdt) as Hlay. set (t := data_type dd) in *.
  pose proof (ref_type_runs g r x d dd y Hpt Hnn : ref_type r g = Done t g) as Hty.
  assert (Hmade : forall p, PyArray_NewFromDescr dt (counts_of t) (strides_of t) p = None).
  { intros p. apply array_is_made; [done| |]. { destruct Hadd as (_ & Hc & _). eapply list.Forall_impl; [exact Hc|]. simpl. lia. }
    pose proof (total_size t dt Hadd Hdt). destruct Hadd as (_ & _ & _ & ?). lia. }
  assert (Hof : forall g' base, calm nothing g g' -> holder g' base false d dd -> (next (g_store g) <= base)%nat ->
            array_of_data g' (next (g_store g)) d dd dt (mkNdarray dt (counts_of t) (strides_of t) (data_address dd + offset_of t) true (Some base))).
  { intros g' base C Hb Hlt. split; try done; [|by exists base]. apply (numpy_elements_are_elements _ t). apply Hadd. }
  unfold to_python. unfold mbind at 1, M_bind at 1. rewrite Hty, (no_record_inside t dt Hdt). unfold mbind at 1, M_bind at 1. rewrite Hlay. cbn [lift].
  destruct (negb force_const && can_write y) eqn:Hw.
  { apply andb_true_iff in Hw as [Hf Hw]. rewrite <- granted_write in Hw.
    destruct (array_with_granted g false true r x d dd y dt (counts_of t) (strides_of t) (offset_of t) Hinv Hpt Hnn Hw (Hmade _)) as (g' & base & Hrun & C & D & Hh & Hlt).
    eexists _, g'. unfold mbind at 1, M_bind at 1. rewrite Hf, Hrun. split_and!; try done. simpl. eexists. split; [done|]. split; [by apply Hof|done]. }
  assert (Hstep : exists g1, (if negb force_const then array_with false true dt (counts_of t) (strides_of t) (offset_of t) r else mret None) g = Done None g1 /\
            calm nothing g g1 /\ m_descriptors g1 = m_descriptors g /\ points_to (g_store g1) r x d dd y).
  { destruct force_const; [exists g; split_and!; try done; by apply calm_refl|]. simpl in Hw |- *. apply array_with_denied; try done. by rewrite granted_write. }
  destruct Hstep as (g1 & Hrun1 & C1 & D1 & Hpt1). unfold mbind at 1, M_bind at 1. rewrite Hrun1. cbn [orb]. unfold mbind at 1, M_bind at 1.
  pose proof (cm_inv _ _ _ C1) as Hinv1. destruct (can_read y) eqn:Hr; rewrite <- granted_read in Hr.
  - destruct (array_with_granted g1 true false r x d dd y dt (counts_of t) (strides_of t) (offset_of t) Hinv1 Hpt1 Hnn Hr (Hmade _)) as (g2 & base & Hrun2 & C2 & D2 & Hh & Hlt).
    assert (next (g_store g) <= base)%nat by (pose proof (cm_next _ _ _ C1); lia). pose proof (calm_step _ _ _ C1 C2) as C12. eexists _, g2. rewrite Hrun2. split_and!; try done; [by rewrite D2|]. simpl. eexists. split; [done|]. split; [by apply Hof|done].
  - destruct (array_with_denied g1 true false r x d dd y dt (counts_of t) (strides_of t) (offset_of t) Hinv1 Hpt1 Hnn Hr) as (g2 & Hrun2 & C2 & D2 & _).
    eexists _, g2. rewrite Hrun2. split_and!; try done; [by eapply calm_step|by rewrite D2].
Qed.

(** ** The state of the plugins *)

(** Wherever the operation stops, the state of the plugins is as it was. *)
Definition aloof {A} (m : M (global W) A) : Prop := forall g,
  match m g with Done _ g' | Thrown _ g' => g_world g' = g_world g | Crashed => True end.

Lemma aloof_bind {A B} (m : M (global W) A) (f : A -> M (global W) B) : aloof m -> (forall a, aloof (f a)) -> aloof (m ≫= f).
Proof.
  intros Hm Hf g. specialize (Hm g). unfold mbind, M_bind. destruct (m g) as [a g1|e g1|]; [|done..].
  specialize (Hf a g1). destruct (f a g1); congruence || done.
Qed.

Lemma aloof_lift {A} (o : outcome A) : aloof (lift o).
Proof. intros g. by destruct o. Qed.

Lemma aloof_ret {A} (a : A) : aloof (mret a).
Proof. done. Qed.

Lemma aloof_throw {A} e : aloof (throw e : M (global W) A).
Proof. done. Qed.

Lemma aloof_store {A} (f : store -> outcome (A * store)) : aloof (on_store f).
Proof. intros g. unfold on_store, zoom. by destruct (f (g_store g)) as [[? ?]| |]. Qed.

Lemma aloof_copy R V r : aloof (ref_copy R V r).
Proof. apply aloof_store. Qed.

Lemma aloof_destroy r : aloof (ref_destroy r).
Proof. apply aloof_store. Qed.

Lemma aloof_with_ref {A} mk (body : nat -> M (global W) A) : aloof mk -> (forall r, aloof (body r)) -> aloof (with_ref mk body).
Proof.
  intros Hmk Hb. apply aloof_bind; [done|]. intros r g. specialize (Hb r g). unfold finally. destruct (body r g) as [a g1|e g1|]; [| |done];
    pose proof (aloof_destroy r g1) as Hd; destruct (ref_destroy r g1); (done || congruence).
Qed.

Lemma aloof_type r : aloof (ref_type r).
Proof. intros g. apply (aloof_lift (type r (g_store g))). Qed.

Lemma aloof_array_with R V pytype shape strides offset r : aloof (array_with R V pytype shape strides offset r).
Proof.
  apply aloof_with_ref; [apply aloof_store|]. intros r'. apply aloof_bind; [apply aloof_store|]. intros [|]; simpl; [apply aloof_ret|].
  apply aloof_bind; [apply aloof_bind; intros; apply aloof_store|]. intros p. apply aloof_bind; [|intros; apply aloof_ret].
  apply aloof_bind; [apply aloof_store|]. intros base. destruct (PyArray_NewFromDescr _ _ _ _); [|apply aloof_ret].
  intros g. unfold owning, catch, throw, mbind, M_bind. pose proof (aloof_destroy base g) as Hd. by destruct (ref_destroy base g).
Qed.

Lemma aloof_to_python r force_const : aloof (to_python r force_const).
Proof.
  apply aloof_bind; [apply aloof_type|]. intros t. destruct (has_record_inside t); [apply aloof_bind; [apply aloof_store|intros; apply aloof_ret]|].
  apply aloof_bind; [apply aloof_lift|]. intros [[[? ?] ?] ?]. apply aloof_bind; [destruct (negb force_const); [apply aloof_array_with|apply aloof_ret]|].
  intros [o|]; [apply aloof_ret|]. apply aloof_bind; [apply aloof_array_with|]. intros. apply aloof_ret.
Qed.

(** C22: what data that Python asks for becomes depends on its type.  Data with a
    record in it becomes an object that wraps a new reference, without any lock, to
    the same data.  Data of scalars that NumPy has, in at most 32 dimensions none of
    which is empty, becomes a NumPy array when it can be read, or written when that is
    allowed: its elements are exactly those of the data, at the addresses where access
    by index finds them and in the same order, and the array keeps a reference without
    any lock; data that can be neither gives [None].  The array is always writeable,
    that of data that must not be written too.  In both cases the other references,
    the memory, the descriptors and the plugins are as they were. *)
Theorem to_python_gives_the_elements g r x d dd y force_const :
  inv (g_store g) -> points_to (g_store g) r x d dd y -> data_address dd <> nullptr ->
  (has_record_inside (data_type dd) = true ->
     exists g' m_ref, to_python r force_const g = Done (Py_ref m_ref) g' /\ calm nothing g g' /\ m_descriptors g' = m_descriptors g /\
       g_world g' = g_world g /\ (next (g_store g) <= m_ref)%nat /\ holder g' m_ref false d dd) /\
  (forall dt, addressable (data_type dd) -> dtype_of (leaf (data_type dd)) = Ret dt -> (length (counts_of (data_type dd)) <= 32)%nat ->
     exists o g', to_python r force_const g = Done o g' /\ calm nothing g g' /\ m_descriptors g' = m_descriptors g /\ g_world g' = g_world g /\
       if (negb force_const && can_write y) || can_read y
       then exists a, o = Py_array a /\ array_of_data g' (next (g_store g)) d dd dt a /\ a_writeable a = true
       else o = Py_none).
Proof.
  intros Hinv Hpt Hnn. pose proof (aloof_to_python r force_const g) as Hw. split.
  - intros Hrec. pose proof Hpt as (Hx & Hc & Hd & _).
    destruct (copy_holds g false r d dd Hinv) as (g1 & Hrun & C & _ & D & Hh); [by exists x|done|done|].
    assert (Hpy : to_python r force_const g = Done (Py_ref (next (g_store g))) g1).
    { unfold to_python. unfold mbind at 1, M_bind at 1. rewrite (ref_type_runs g r x d dd y Hpt Hnn), Hrec. unfold mbind, M_bind. by rewrite Hrun. }
    rewrite Hpy in Hw. exists g1, (next (g_store g)). by split_and!.
  - intros dt Hadd Hdt Hrank. destruct (to_python_runs g r x d dd y dt force_const Hinv Hpt Hnn Hadd Hdt Hrank) as (o & g' & Hrun & C & D & Ho).
    exists o, g'. rewrite Hrun in Hw. by split_and!.
Qed.

End references.

(** * Access that fails *)

Section failures.
  Context {W : Type} {RT : Runtime W} {OB : Observers W} {NP : Numpy} {FI : Files} {SY : System}.

Implicit Types g : global W.

Lemma with_copy_throws {A} g r d dd (body : nat -> M (global W) A) e :
  inv (g_store g) -> links g r d dd -> data_address dd <> nullptr ->
  (forall n g1, holder g1 n false d dd -> body n g1 = Thrown e g1) ->
  exists g', with_ref (ref_copy false false r) body g = Thrown e g' /\ calm nothing g g' /\ m_descriptors g' = m_descriptors g.
Proof.
  intros Hinv Hl Hnn Hbody. destruct (copy_holds g false r d dd Hinv Hl Hnn) as (g1 & Hrun1 & C1 & _ & D1 & Hh1); [done|]. set (n := next (g_store g)) in *.
  destruct (destroy_runs g1 n (cm_inv _ _ _ C1)) as (g2 & Hrun2 & C2 & D2); [by eapply links_exists, holds_links|].
  exists g2. split_and!; [|eapply calm_weaken; [by eapply calm_trans|]|by rewrite D2].
  - unfold with_ref, mbind, M_bind. rewrite Hrun1. unfold finally. by rewrite (Hbody n g1 Hh1), Hrun2.
  - intros k Hk [[]|<-]. apply (wf_next_refs _ (proj1 Hinv)) in Hk. unfold n in Hk. lia.
Qed.

(** [desc.share(desc.ref(), false, false)] adds a holder of the same data. *)
Lemma access_data_runs g name d h rs dt dd :
  inv (g_store g) -> m_descriptors g !! name = Some d -> m_metadata d = false -> m_refs d = h :: rs -> links g h dt dd -> data_address dd <> nullptr ->
  exists g' h', access_data name false false g = Done nullptr g' /\ calm nothing g g' /\
    m_descriptors g' = <[name := mkDescriptor (m_type d) false (h' :: m_refs d)]> (m_descriptors g) /\ links g' h' dt dd.
Proof.
  intros Hinv Hd Hm Hrs Hl Hnn. destruct (copy_holds g false h dt dd Hinv Hl Hnn) as (g1 & Hrun1 & C1 & _ & D1 & Hh1); [done|].
  set (n := next (g_store g)) in *. pose proof (cm_inv _ _ _ C1) as Hinv1. pose proof (holds_links _ _ _ _ _ Hh1) as Hl1.
  destruct (share_ref_runs g1 name d n dt dd Hinv1) as (g2 & h' & Hrun2 & C2 & D2 & Hl2 & Hlt); [by rewrite D1|done..|].
  destruct (with_ref_calm g g1 g2 (ref name) (fun r => share_ref name r false false) n nullptr) as (g3 & Hrun3 & C3 & D3 & _ & C4); try done.
  { by rewrite (ref_runs g name d h rs). }
  { by eapply links_exists. }
  exists g3, h'. split_and!; [done|done|by rewrite D3, D2, D1|]. eapply calm_links; [apply C2|exact C4| |done].
  pose proof (wf_next_refs _ (proj1 Hinv1) n (links_exists _ _ _ _ Hl1)). lia.
Qed.


End failures.
