(* ===== verification/PythonShare.v ===== *)
(** Sharing a NumPy array with the library and getting it back: the composition of
    [share] and [access] of the Python module. *)

From Stdlib Require Import Ascii.
From S2P Require Import Prelude Error Effect ExprSyntax Datatype Layout Memory DenseCopy DenseCopyFacts Access Ref RefInv RefOps RefTheorems RefCopy Numeric Parse Yaml Template GlobalContext Eval ContextInv DescriptorInv EvalInv Includes StringTools PluginStore Init Share ShareFacts MetadataFacts Logger SetValue Mpi MpiFacts Hdf5 Hdf5Ops Hdf5Facts Api Python PythonFacts.

Section sharing.
  Context {W : Type} {RT : Runtime W} {OB : Observers W} {NP : Numpy} {NL : Numpy_limits}.

Implicit Types g : global W.

(** * Sharing takes no read lock *)

Lemma is_null_steadily r : steadily (ref_is_null r : M (global W) bool).
Proof.
  intros g. unfold ref_is_null, on_store, zoom, is_null. destruct (refs (g_store g) !! r) as [x|]; [|done]. cbn [deref mbind outcome_bind].
  destruct (m_content x) as [d|]; [|apply steady_refl]. destruct (datas (g_store g) !! d) as [dd|]; [|done]. cbn [deref mbind outcome_bind].
  destruct (_ =? _); [|apply steady_refl]. destruct (unlink r (g_store g)) as [st| |] eqn:Hu; [|apply steady_refl|done]. by apply unlink_steady in Hu.
Qed.

Lemma steadily_ret {A} (a : A) : steadily (mret a : M (global W) A).
Proof. intros g. apply steady_refl. Qed.

Lemma steadily_throw {A} e : steadily (throw e : M (global W) A).
Proof. intros g. apply steady_refl. Qed.

Lemma get_desc_steadily name : steadily (get_desc name : M (global W) Descriptor).
Proof. apply steadily_same. intros g. unfold get_desc. by destruct (m_descriptors g !! name). Qed.

Lemma assert_steadily name : steadily (assert_placeholder name : M (global W) unit).
Proof. apply steadily_bind; [apply get_desc_steadily|]. intros d. apply steadily_same. intros g. unfold assert. by destruct (has_placeholder d). Qed.

Lemma set_desc_steadily name d : steadily (set_desc name d : M (global W) unit).
Proof. by apply steadily_same. Qed.

Lemma hold_steadily name R r : steadily (hold name R false r : M (global W) unit).
Proof.
  apply with_ref_steadily; [apply ref_copy_steadily|]. intros t. apply steadily_bind; [apply ref_copy_steadily|]. intros h.
  apply steadily_bind; [apply get_desc_steadily|]. intros d. apply set_desc_steadily.
Qed.

Lemma ref_steadily name : steadily (ref name : M (global W) nat).
Proof.
  apply steadily_bind; [apply assert_steadily|]. intros _. apply steadily_bind; [apply get_desc_steadily|]. intros d.
  apply steadily_bind; [|intros _; apply steadily_bind; [apply assert_steadily|]; intros _; apply steadily_bind; [apply get_desc_steadily|];
    intros d'; destruct (m_refs d'); [by apply steadily_same|apply ref_copy_steadily]].
  case_bool_decide; [|apply steadily_ret]. apply steadily_bind; [apply notify_steadily|]. intros _.
  apply steadily_bind; [apply get_desc_steadily|]. intros d'. case_bool_decide; [apply steadily_throw|apply steadily_ret].
Qed.

Lemma share_ref_steadily name r : steadily (share_ref name r false false : M (global W) Z).
Proof.
  apply steadily_catch; [|intros; apply steadily_throw].
  apply steadily_bind; [apply assert_steadily|]. intros _. apply steadily_bind; [apply get_desc_steadily|]. intros d. apply steadily_bind.
  { destruct (m_metadata d); [|apply steadily_ret]. apply steadily_bind; [apply with_ref_steadily; [apply ref_copy_steadily|apply is_null_steadily]|].
    intros [|]; [apply steadily_throw|apply steadily_ret]. }
  intros _. apply steadily_bind; [apply steadily_ret|]. intros res. apply steadily_bind; [apply hold_steadily|]. intros _.
  apply steadily_bind; [apply is_null_steadily|]. intros n. apply steadily_bind.
  { destruct n; [apply steadily_ret|]. simpl. apply steadily_bind; [apply with_ref_steadily; [apply ref_steadily|apply is_null_steadily]|].
    intros [|]; [|apply steadily_ret]. apply steadily_bind; [apply pop_steadily|]. intros _. apply steadily_throw. }
  intros _. apply steadily_bind.
  { apply steadily_catch; [apply with_ref_steadily; [apply ref_steadily|]; intros; apply notify_steadily|]. intros e.
    apply steadily_bind; [apply pop_steadily|]. intros _. apply steadily_throw. }
  intros _. apply steadily_bind; [apply assert_steadily|]. intros _. apply steadily_ret.
Qed.

Lemma share_handle_steadily name r : steadily (share_handle name r : M (global W) unit).
Proof.
  apply steadily_bind; [apply steadily_same; intros g; unfold desc; by destruct (m_descriptors g !! name)|]. intros _.
  apply steadily_bind; [apply with_ref_steadily; [apply ref_copy_steadily|]; intros; apply share_ref_steadily|]. intros _. apply steadily_ret.
Qed.

Lemma access_data_steadily name : steadily (access_data name false false : M (global W) Z).
Proof. apply with_ref_steadily; [apply ref_steadily|]. intros. apply share_ref_steadily. Qed.

(** * The module *)

Implicit Types s : api W.

Abbreviation ctx s := (ps_context (a_store s)).

(** The state of the interface, with another context. *)
Definition with_ctx g s : api W := set_a_store (set_context g (a_store s)) (s_context s) s.

Lemma in_machine_done {A} (m : M (global W) A) s a g : m (ctx s) = Done a g -> in_machine m s = Returned a (with_ctx g s).
Proof. intros H. unfold in_machine. by rewrite H. Qed.

Lemma in_ctx_done {A} (m : M (global W) A) s a g : s_context s = true -> m (ctx s) = Done a g -> in_ctx m s = Returned a (with_ctx g s).
Proof. intros Hs H. unfold in_ctx, with_ctx. by rewrite Hs, H. Qed.

(** Data on top of the stack of a name, that can be read. *)
Record on_top g (name : string) (d : Descriptor) (h : nat) (rs : list nat) (dt : nat) (dd : Referenced_data) : Prop := {
  ot_inv : inv (g_store g);
  ot_desc : m_descriptors g !! name = Some d;
  ot_metadata : m_metadata d = false;
  ot_top : m_refs d = h :: rs;
  ot_links : links g h dt dd;
  ot_address : data_address dd <> nullptr;
  ot_unlocked : unlocked g (data_buffer dd)
}.

(** The array is put on top of the stack of its name. *)
Lemma pyshare_runs s name a access t d :
  s_context s = true -> inv (g_store (ctx s)) -> m_descriptors (with_desc name (ctx s)) !! name = Some d -> m_metadata d = false ->
  a_writeable a = true -> a_data a <> nullptr -> python_type a = Ret t -> has access PDI_OUT = true ->
  exists s' h dt b, pyshare name a access s = Returned tt s' /\ s_context s' = true /\ g_mem (ctx s') = g_mem (ctx s) /\
    on_top (ctx s') name (mkDescriptor (m_type d) false (h :: m_refs d)) h (m_refs d) dt (mkData b (a_data a) t) /\
    m_descriptors (ctx s') = <[name := mkDescriptor (m_type d) false (h :: m_refs d)]> (m_descriptors (with_desc name (ctx s))).
Proof.
  intros Hs Hinv Hd Hm Hwr Hnn Ht Hout. set (g := ctx s) in *. set (r := next (g_store g)). set (dd := mkData (S r) (a_data a) t).
  set (g1 := set_store (with_new_ref (a_data a) (keep_array a) t (has access PDI_OUT) (has access PDI_IN) (g_store g)) g).
  pose proof (new_ref_calm g (a_data a) (keep_array a) t (has access PDI_OUT) (has access PDI_IN) Hnn Hinv) as C1. fold g1 in C1.
  assert (Hh1 : holder g1 r false (S (S r)) dd) by (split; simpl; by rewrite lookup_insert_eq).
  assert (Hun1 : unlocked g1 (S r)) by (eexists; simpl; rewrite lookup_insert_eq, Hout; by split).
  pose proof (cm_inv _ _ _ C1) as Hinv1. pose proof (holds_links _ _ _ _ _ Hh1) as Hl1.
  assert (Hwd : m_descriptors (with_desc name g1) = m_descriptors (with_desc name g)) by (unfold with_desc, g1; simpl; by destruct (m_descriptors g !! name)).
  destruct (share_handle_runs g1 name d r (S (S r)) dd Hinv1) as (g2 & h & Hrun2 & C2 & D2 & Hl2 & Hlt); [by rewrite Hwd|done..|].
  pose proof (share_handle_steadily name r g1) as S2. rewrite Hrun2 in S2.
  assert (Hr2 : exists_ref g2 r) by (destruct Hh1 as [Hr _]; eexists; by apply (calm_ref g1 g2)).
  destruct (destroy_runs g2 r (cm_inv _ _ _ C2) Hr2) as (g3 & Hrun3 & C3 & D3). pose proof (ref_destroy_steadily r g2) as S3. rewrite Hrun3 in S3.
  assert (Hne : h <> r) by (pose proof (wf_next_refs _ (proj1 Hinv1) r (links_exists _ _ _ _ Hl1)); lia).
  assert (Hl3 : links g3 h (S (S r)) dd) by (eapply calm_links; [apply C2|exact C3|congruence|done]).
  exists (with_ctx g3 (with_ctx g2 (with_ctx g1 s))), h, (S (S r)), (S r). split_and!; [|done| | |].
  - unfold pyshare. unfold mbind at 1, C_bind at 1. rewrite (in_machine_done _ s r g1).
    2: { unfold mutable_data. rewrite Hwr, Ht. cbn [lift mbind M_bind]. unfold mbind, M_bind, lift, on_store, zoom. by rewrite new_ref_runs. }
    unfold mbind at 1, C_bind at 1, guarded. rewrite (in_ctx_done _ (with_ctx g1 s) tt g2) by done. by rewrite (in_machine_done _ _ tt g3).
  - simpl. by rewrite (cm_mem _ _ _ C3), (cm_mem _ _ _ C2), (cm_mem _ _ _ C1).
  - simpl. split; try done; [apply C3|by rewrite D3, D2, lookup_insert_eq|].
    apply (unlocked_kept g1 g3 h (S (S r)) dd Hinv1 (cm_inv _ _ _ C3)); [by etrans|exact Hun1|done].
  - simpl. by rewrite D3, D2, Hwd.
Qed.

(** The access of data that can be read gives an array of its elements. *)
Lemma pyaccess_runs s name inout d h rs dt dd dty :
  s_context s = true -> on_top (ctx s) name d h rs dt dd ->
  addressable (data_type dd) -> dtype_of (leaf (data_type dd)) = Ret dty -> (length (counts_of (data_type dd)) <= 32)%nat ->
  exists s' h' a, pyaccess name inout s = Returned (Py_array a) s' /\ array_of_data (ctx s') 0 dt dd dty a /\ g_mem (ctx s') = g_mem (ctx s) /\
    m_descriptors (ctx s') = <[name := mkDescriptor (m_type d) false (h' :: m_refs d)]> (m_descriptors (ctx s)).
Proof.
  intros Hs [Hinv Hd Hm Hrs Hl Hnn Hun] Hadd Hdt Hrank. set (g := ctx s) in *.
  destruct (access_data_runs g name d h rs dt dd Hinv Hd Hm Hrs Hl Hnn) as (g1 & h' & Hrun1 & C1 & D1 & Hl1). pose proof (cm_inv _ _ _ C1) as Hinv1.
  pose proof (access_data_steadily name g) as S1. rewrite Hrun1 in S1.
  set (d1 := mkDescriptor (m_type d) false (h' :: m_refs d)) in *. assert (Hd1 : m_descriptors g1 !! name = Some d1) by (by rewrite D1, lookup_insert_eq).
  destruct (copy_holds g1 false h' dt dd Hinv1 Hl1 Hnn) as (g2 & Hrun2 & C2 & S2 & D2 & Hh2); [done|]. set (r := next (g_store g1)) in *.
  pose proof (cm_inv _ _ _ C2) as Hinv2. pose proof (holds_links _ _ _ _ _ Hh2) as Hl2.
  destruct (unlocked_kept g g2 r dt dd Hinv Hinv2 ltac:(by etrans) Hun Hl2) as (y & Hy & Hy0).
  assert (Hpt : points_to (g_store g2) r (mkReference false false (Some dt)) dt dd y) by (destruct Hh2; by split_and!).
  destruct (to_python_runs g2 r _ dt dd y dty (negb (has inout PDI_OUT)) Hinv2 Hpt Hnn Hadd Hdt Hrank) as (o & g3 & Hrun3 & C3 & D3 & Ho).
  unfold can_read in Ho. rewrite Hy0, orb_true_r in Ho. destruct Ho as (a & -> & [Ha1 Ha2 Ha3 Ha4 (base & Hbase & Hhb & Hlt3)] & _).
  assert (Hlt2 : (r < next (g_store g2))%nat) by (apply (wf_next_refs _ (proj1 Hinv2)); by eapply links_exists).
  destruct (with_ref_calm g1 g2 g3 (ref name) (fun r => to_python r (negb (has inout PDI_OUT))) r (Py_array a)) as (g4 & Hrun4 & C4 & D4 & _ & C4'); try done.
  { by rewrite (ref_runs g1 name d1 h' (m_refs d)). }
  { by eapply links_exists. }
  exists (with_ctx g4 s), h', a. split_and!.
  - unfold pyaccess. apply in_ctx_done; [done|]. fold g. unfold mbind at 1, M_bind at 1, desc. rewrite Hd. unfold mbind at 1, M_bind at 1. by rewrite Hrun1.
  - simpl. split; try done; [by rewrite Ha1, (cm_mem _ _ _ C4), (cm_mem _ _ _ C3), (cm_mem _ _ _ C2)|].
    exists base. split_and!; [done| |lia]. eapply calm_holds; [apply C3|exact C4'|lia|done].
  - simpl. by rewrite (cm_mem _ _ _ C4), (cm_mem _ _ _ C1).
  - simpl. by rewrite D4, D3, D2.
Qed.


End sharing.
