(* ===== verification/Pycall.v ===== *)
(** The Pycall plugin: [plugins/pycall/pycall.cxx].

    A trigger exposes data as variables of the main module of Python, then runs code
    there.  The interpreter is a parameter: what a piece of code does, and what
    happens when a reference to an object goes away. *)

From S2P Require Import Prelude Error Effect ExprSyntax Datatype Layout Memory DenseCopy Access Ref RefInv RefOps RefTheorems RefCopy Numeric Parse Yaml Template GlobalContext Eval SetValue UserCode Python.

(** [Alias] is a pair of a name and an expression. *)
Record Py_trigger := mkPyTrigger {
  m_code : string;
  py_aliases : list (string * Impl)
}.

(** [pyscope] is the dictionary of the module [__main__]; [on_pycall i] is the lambda
    that captures the list [i] of triggers. *)
Class Interpreter (W : Type) := {
  Py_IsInitialized : W -> bool;
  initialize_interpreter : M (global W) unit;
  finalize_interpreter : M (global W) unit;
  import_module : string -> M (global W) pyobject;
  pyscope : W -> gmap string pyobject;
  set_pyscope : gmap string pyobject -> W -> W;
  drop_object : pyobject -> M (global W) unit;
  py_exec : string -> M (global W) unit;
  interpreter_initialized_in_plugin : W -> bool;
  set_initialized_in_plugin : bool -> W -> W;
  pycall_triggers : W -> list (list Py_trigger);
  set_pycall_triggers : list (list Py_trigger) -> W -> W;
  on_pycall : nat -> Z;
  pycall_error : string -> W -> W;
  pycall_debug : string -> W -> W
}.

Section plugin.
  Context {W : Type} {RT : Runtime W} {NP : Numpy} {IN : Interpreter W}.

Abbreviation G := (M (global W)).

Definition on_world (f : W -> W) : G unit := modify (fun g => set_world (f (g_world g)) g).

(** [pyscope[name] = o]: the object that the name referred to loses a reference. *)
Definition set_item (name : string) (o : pyobject) : G unit :=
  scope ← gets (fun g => pyscope (g_world g));
  on_world (set_pyscope (<[name := o]> scope));;
  match scope !! name with Some old => drop_object old | None => mret tt end.

(** ** Triggers *)

(** [Alias::expose] *)
Definition expose_variable (alias : string * Impl) : G unit :=
  with_ref (expr_to_ref alias.2) (fun r =>
    o ← with_ref (ref_copy false false r) (fun arg => to_python arg false);
    set_item (c_str alias.1) o).

(** The text that is logged for an exception of the code. *)
Definition exception_text (e : exn) : string :=
  match what e with
  | Some w => "while calling python, caught exception: " +:+ w
  | None => "while calling python, caught exception"
  end.

(** [Trigger::call] *)
Definition call_python (t : Py_trigger) : G unit :=
  import_module "__main__";;
  pdi ← import_module "pdi";
  set_item "pdi" pdi;;
  each_do expose_variable (py_aliases t);;
  catch (timed "pycall" (py_exec (m_code t))) (fun e => on_world (pycall_error (exception_text e))).

(** [Trigger(string code, PC_tree_t with)] *)
Definition trigger_with_tree (code : string) (with_ : PC_tree) : outcome Py_trigger :=
  aliases ← (if negb (PC_status (get_nth_key with_ 0)) then
               each_pair with_ (fun alias var r =>
                 name ← Yaml.to_string alias; v ← Yaml.to_string var; e ← parse_expression v; Ret (r ++ [(name, e)])) []
             else Ret []);
  Ret (mkPyTrigger code aliases).

(** [Trigger(string code, string with)] *)
Definition trigger_with_name (code with_ : string) : outcome Py_trigger :=
  e ← parse_expression ("$" +:+ with_); Ret (mkPyTrigger code [(with_, e)]).

(** ** The plugin *)

Definition push_pycall (ts : list Py_trigger) : G Z := fun g =>
  let l := pycall_triggers (g_world g) in Done (on_pycall (length l)) (set_world (set_pycall_triggers (l ++ [ts]) (g_world g)) g).

(** A node with [exec] and [with]. *)
Definition load_trigger (node : PC_tree) : outcome Py_trigger :=
  code ← Yaml.to_string (get_key node "exec"); trigger_with_tree code (get_key node "with").

Definition load_event (event name_node : PC_tree) : G unit :=
  triggers ← (if is_list event then
                n ← lift (len event);
                iter (fun i ts => t ← lift (load_trigger (get_item event i)); mret (ts ++ [t])) (seq 0 n) []
              else t ← lift (load_trigger event); mret [t]);
  name ← lift (Yaml.to_string name_node);
  h ← push_pycall triggers;
  on_event h name;; mret tt.

Definition load_data (code_node name_node : PC_tree) : G unit :=
  data_name ← lift (Yaml.to_string name_node);
  code ← lift (Yaml.to_string code_node);
  t ← lift (trigger_with_name code data_name);
  h ← push_pycall [t];
  on_data h data_name;; mret tt.

(** The constructor. *)
Definition pycall_plugin (conf : PC_tree) : G unit :=
  on_world (set_initialized_in_plugin false);;
  running ← gets (fun g => Py_IsInitialized (g_world g));
  (if negb running then
     initialize_interpreter;;
     on_world (set_initialized_in_plugin true);;
     on_world (pycall_debug "Python interpreter is initialized by the plugin")
   else mret tt);;
  let event_node := get_key conf "on_event" in
  each_do (fun i => load_event (get_nth_value event_node i) (get_nth_key event_node i)) (seq 0 (len_default event_node 0));;
  let data_node := get_key conf "on_data" in
  each_do (fun i => load_data (get_nth_value data_node i) (get_nth_key data_node i)) (seq 0 (len_default data_node 0)).

(** The destructor. *)
Definition unload_pycall : G unit :=
  b ← gets (fun g => interpreter_initialized_in_plugin (g_world g));
  if b : bool then on_world (pycall_debug "Finalizing python interpreter");; finalize_interpreter else mret tt.

(** What lambda [i] does. *)
Definition run_pycall (i : nat) : G unit :=
  l ← gets (fun g => pycall_triggers (g_world g));
  match l !! i with Some ts => each_do call_python ts | None => lift Crash end.

End plugin.
