(* ===== verification/PycallFacts.v ===== *)
(** The Pycall plugin: the code of a trigger finds the elements of the data in its
    variables, its exceptions stay in the plugin, and its variables outlive it. *)

From S2P Require Import Prelude Error Effect ExprSyntax Datatype Layout Memory DenseCopy DenseCopyFacts Access Ref RefInv RefOps RefTheorems RefCopy Numeric Parse Yaml Template GlobalContext Eval ContextInv DescriptorInv EvalInv Share ShareFacts MetadataFacts Logger SetValue UserCode Mpi MpiFacts Hdf5 Hdf5Ops Hdf5Facts Python PythonFacts Pycall.

(** * Objects and the references they hold *)

Definition object_ref (o : pyobject) : option nat :=
  match o with Py_array a => a_base a | Py_ref m_ref => Some m_ref | Py_none | Py_object _ => None end.

Abbreviation holds_ref o r := (object_ref o = Some r).

(** The references that the variables of Python keep alive. *)
Definition in_scope (scope : gmap string pyobject) (r : nat) : Prop := exists k o, scope !! k = Some o /\ holds_ref o r.

(** What Python documents of its objects: importing the two modules has no effect on
    the library, and an object that loses a reference gives up those it holds at
    most, as long as no variable refers to it. *)
Class Python_laws (W : Type) {RT : Runtime W} {IN : Interpreter W} := {
  scope_set : forall scope w, pyscope (set_pyscope scope w) = scope;
  import_runs : forall name g, name ∈ ["__main__"; "pdi"] ->
    exists o w, import_module name g = Done o (set_world w g) /\ pyscope w = pyscope (g_world g) /\ forall r, ~ holds_ref o r;
  drop_runs : forall o (g : global W), inv (g_store g) -> (forall r, holds_ref o r -> exists_ref g r) ->
    exists g', drop_object o g = Done tt g' /\ calm (fun r => holds_ref o r /\ ~ in_scope (pyscope (g_world g)) r) g g' /\
      steady (g_store g) (g_store g') /\ m_descriptors g' = m_descriptors g /\ pyscope (g_world g') = pyscope (g_world g)
}.

Section facts.
  Context {W : Type} {RT : Runtime W} {NP : Numpy} {NL : Numpy_limits} {IN : Interpreter W} {PL : Python_laws W}.

Implicit Types g : global W.

Abbreviation scope g := (pyscope (g_world g)).

(** The variables hold references that exist. *)
Definition tidy g : Prop := forall r, in_scope (scope g) r -> exists_ref g r.

Lemma calm_world g w : inv (g_store g) -> calm nothing g (set_world w g).
Proof. by intros Hinv. Qed.

(** Setting a variable. *)
Lemma set_item_runs g name o :
  inv (g_store g) -> tidy g -> (forall r, holds_ref o r -> exists_ref g r) ->
  exists g', set_item name o g = Done tt g' /\ calm (fun r => in_scope (scope g) r /\ ~ in_scope (<[name := o]> (scope g)) r) g g' /\
    steady (g_store g) (g_store g') /\ m_descriptors g' = m_descriptors g /\ scope g' = <[name := o]> (scope g) /\ tidy g'.
Proof.
  intros Hinv Htidy Ho. set (scope' := <[name := o]> (scope g)). set (g1 := set_world (set_pyscope scope' (g_world g)) g).
  assert (Hs1 : scope g1 = scope') by (unfold g1; simpl; apply scope_set).
  assert (Hnew : forall r, in_scope scope' r -> exists_ref g r).
  { intros r (k & o' & Hk & Hr). unfold scope' in Hk. apply lookup_insert_Some in Hk as [[_ <-]|[_ Hk]]; [by apply Ho|apply Htidy; by exists k, o']. }
  assert (Hfin : forall X g', calm X g1 g' -> (forall r, X r -> ~ in_scope scope' r) -> scope g' = scope' -> tidy g').
  { intros X g' C HX Hs r Hr. rewrite Hs in Hr. destruct (Hnew r Hr) as [x Hx]. exists x. apply (cm_refs _ _ _ C); [|done]. intros HXr. by apply (HX r). }
  unfold set_item, mbind, M_bind, gets, on_world, modify. fold scope'. fold g1. destruct (scope g !! name) as [old|] eqn:Hold.
  - destruct (drop_runs old g1 Hinv) as (g2 & Hrun & C & S & D & Hs2); [intros r Hr; apply Htidy; by exists name, old|].
    rewrite Hs1 in Hs2, C. exists g2. split_and!; try done.
    + apply (calm_weaken (fun r => holds_ref old r /\ ~ in_scope scope' r)); [|intros r _ [Hr Hn]; split; [by exists name, old|done]].
      destruct C as [C1 C2 C3 C4 C5 C6]. by split.
    + eapply Hfin; [exact C| |done]. by intros r [_ ?].
  - exists g1. split_and!; try done. by eapply (Hfin nothing g1); [apply calm_refl|done|].
Qed.

(** Importing the library in the main module. *)
Lemma import_pdi_runs g :
  inv (g_store g) -> tidy g ->
  exists g', (import_module "__main__";; pdi ← import_module "pdi"; set_item "pdi" pdi) g = Done tt g' /\
    calm (in_scope (scope g)) g g' /\ steady (g_store g) (g_store g') /\ m_descriptors g' = m_descriptors g /\ tidy g' /\
    (forall r, in_scope (scope g') r -> in_scope (scope g) r).
Proof.
  intros Hinv Htidy. unfold mbind, M_bind. destruct (import_runs "__main__" g) as (o & w & -> & Hw & _); [set_solver|].
  destruct (import_runs "pdi" (set_world w g)) as (pdi & w' & -> & Hw' & Hpdi); [set_solver|]. set (g2 := set_world w' (set_world w g)).
  assert (Hs2 : scope g2 = scope g) by (unfold g2; simpl; rewrite Hw'; simpl; by rewrite Hw).
  destruct (set_item_runs g2 "pdi" pdi Hinv) as (g' & Hrun & C & S & D & Hs & Ht).
  { intros r Hr. rewrite Hs2 in Hr. by apply Htidy. }
  { intros r Hr. by apply Hpdi in Hr. }
  rewrite Hs2 in C, Hs. exists g'. split_and!; try done.
  - apply (calm_weaken _ (in_scope (scope g))) in C; [|by intros r _ [? _]]. destruct C as [C1 C2 C3 C4 C5 C6]. by split.
  - intros r (k & o' & Hk & Hr). rewrite Hs in Hk. apply lookup_insert_Some in Hk as [[_ <-]|[_ Hk]]; [by apply Hpdi in Hr|by exists k, o'].
Qed.

(** The value of [$name] is a new reference to the data. *)
Lemma reference_runs g name d h rs dt dd :
  inv (g_store g) -> m_descriptors g !! name = Some d -> m_refs d = h :: rs -> links g h dt dd -> data_address dd <> nullptr ->
  exists g', expr_to_ref (Reference_expression name [] "") g = Done (next (g_store g)) g' /\ calm nothing g g' /\ steady (g_store g) (g_store g') /\
    m_descriptors g' = m_descriptors g /\ holder g' (next (g_store g)) false dt dd /\ g_world g' = g_world g.
Proof.
  intros Hinv Hd Hrs Hl Hnn. destruct (copy_holds g false h dt dd Hinv Hl Hnn) as (g1 & Hrun & C & S & D & Hh); [done|]. exists g1.
  pose proof (aloof_copy false false h g) as Hw. rewrite Hrun in Hw. split_and!; try done.
  unfold expr_to_ref. cbn -[ref]. unfold mbind, M_bind, desc. rewrite Hd. rewrite (ref_runs g name d h rs) by done. by rewrite Hrun.
Qed.

(** A variable for [$name]: it is set to an array of the elements. *)
Lemma expose_runs g x name d h rs dt dd dty :
  inv (g_store g) -> tidy g -> m_descriptors g !! name = Some d -> m_refs d = h :: rs -> links g h dt dd -> data_address dd <> nullptr ->
  unlocked g (data_buffer dd) -> addressable (data_type dd) -> dtype_of (leaf (data_type dd)) = Ret dty -> (length (counts_of (data_type dd)) <= 32)%nat ->
  exists g' a, expose_variable (x, Reference_expression name [] "") g = Done tt g' /\ calm (in_scope (scope g)) g g' /\
    m_descriptors g' = m_descriptors g /\ tidy g' /\ scope g' = <[c_str x := Py_array a]> (scope g) /\ array_of_data g' (next (g_store g)) dt dd dty a.
Proof.
  intros Hinv Htidy Hd Hrs Hl Hnn Hun Hadd Hdt Hrank.
  destruct (reference_runs g name d h rs dt dd Hinv Hd Hrs Hl Hnn) as (g1 & Hrun1 & C1 & S1 & D1 & Hh1 & W1). set (r := next (g_store g)) in *.
  pose proof (cm_inv _ _ _ C1) as Hinv1. pose proof (holds_links _ _ _ _ _ Hh1) as Hl1.
  destruct (copy_holds g1 false r dt dd Hinv1 Hl1 Hnn) as (g2 & Hrun2 & C2 & S2 & D2 & Hh2); [done|]. set (arg := next (g_store g1)) in *.
  pose proof (cm_inv _ _ _ C2) as Hinv2. pose proof (holds_links _ _ _ _ _ Hh2) as Hl2.
  pose proof (aloof_copy false false r g1) as W2. rewrite Hrun2 in W2.
  destruct (unlocked_kept g g2 arg dt dd Hinv Hinv2 ltac:(by etrans) Hun Hl2) as (y & Hy & Hy0).
  assert (Hpt : points_to (g_store g2) arg (mkReference false false (Some dt)) dt dd y) by (destruct Hh2; by split_and!).
  destruct (to_python_runs g2 arg _ dt dd y dty false Hinv2 Hpt Hnn Hadd Hdt Hrank) as (o & g3 & Hrun3 & C3 & D3 & Ho).
  pose proof (aloof_to_python arg false g2) as W3. rewrite Hrun3 in W3. unfold can_read in Ho. rewrite Hy0, orb_true_r in Ho.
  destruct Ho as (a & -> & [Ha1 Ha2 Ha3 Ha4 (base & Hbase & Hhb & Hlt3)] & _).
  assert (Hlt2 : (arg < next (g_store g2))%nat) by (apply (wf_next_refs _ (proj1 Hinv2)); by eapply links_exists).
  assert (Hlt1 : (r < next (g_store g1))%nat) by (apply (wf_next_refs _ (proj1 Hinv1)); by eapply links_exists).
  destruct (with_ref_calm g1 g2 g3 (ref_copy false false r) (fun arg => to_python arg false) arg (Py_array a)) as (g4 & Hrun4 & C4 & D4 & Hdes & C4'); try done;
    [by eapply links_exists|].
  pose proof (aloof_destroy arg g3) as W4. rewrite Hdes in W4.
  assert (Hs4 : scope g4 = scope g) by congruence.
  assert (Hh4 : holder g4 base false dt dd) by (eapply calm_holds; [apply C3|exact C4'|lia|done]).
  assert (C14 : calm nothing g g4) by (by eapply calm_step).
  destruct (set_item_runs g4 (c_str x) (Py_array a) (cm_inv _ _ _ C4)) as (g5 & Hrun5 & C5 & S5 & D5 & Hs5 & Ht5).
  { intros k Hk. rewrite Hs4 in Hk. destruct (Htidy k Hk) as [z Hz]. exists z. by apply (calm_ref g g4). }
  { intros k Hk. simpl in Hk. assert (k = base) as -> by congruence. by eapply links_exists, holds_links. }
  rewrite Hs4 in C5, Hs5. set (scope' := <[c_str x := Py_array a]> (scope g)) in *.
  assert (Hb' : in_scope scope' base) by (exists (c_str x), (Py_array a); split; [unfold scope'; by rewrite lookup_insert_eq|done]).
  assert (Hh5 : holder g5 base false dt dd) by (eapply calm_holds; [apply C4|exact C5| |done]; by intros [_ ?]).
  assert (Hold : forall k, in_scope (scope g) k -> (k < r)%nat) by (intros k Hk; apply (wf_next_refs _ (proj1 Hinv)), Htidy, Hk).
  assert (Hr5 : exists_ref g5 r).
  { destruct Hh1 as [Hr1 _]. eexists. apply (cm_refs _ _ _ C5); [intros [Hk _]; apply Hold in Hk; lia|]. apply (calm_ref g1 g4); [done|exact Hr1]. }
  destruct (destroy_runs g5 r (cm_inv _ _ _ C5) Hr5) as (g6 & Hrun6 & C6 & D6). pose proof (aloof_destroy r g5) as W6. rewrite Hrun6 in W6.
  exists g6, a. split_and!.
  - unfold expose_variable, with_ref at 1. unfold mbind at 1, M_bind at 1. cbn [fst snd]. rewrite Hrun1. unfold finally at 1. unfold mbind at 1, M_bind at 1.
    by rewrite Hrun4, Hrun5, Hrun6.
  - eapply calm_weaken; [eapply calm_trans; [exact C14|eapply calm_trans; [exact C5|exact C6]]|].
    intros k Hk [[]|[[? _]|<-]]; [done|]. apply (wf_next_refs _ (proj1 Hinv)) in Hk. unfold r in Hk. lia.
  - by rewrite D6, D5, D4, D3, D2, D1.
  - intros k Hk. rewrite W6 in Hk. destruct (Ht5 k Hk) as [z Hz]. exists z. apply (cm_refs _ _ _ C6); [|done]. intros <-.
    rewrite Hs5 in Hk. destruct Hk as (k' & o' & Hk' & Ho'). unfold scope' in Hk'. apply lookup_insert_Some in Hk' as [[_ <-]|[_ Hk']].
    + simpl in Ho'. assert (base = r) by congruence. lia.
    + assert (r < r)%nat by (apply Hold; by exists k', o'). lia.
  - by rewrite W6.
  - split; try done; [by rewrite Ha1, (cm_mem _ _ _ C6), (cm_mem _ _ _ C5), (cm_mem _ _ _ C4), (cm_mem _ _ _ C3), (cm_mem _ _ _ C2)|].
    exists base. split_and!; [done| |lia]. eapply calm_holds; [apply C5|exact C6|lia|done].
Qed.

(** C25: a trigger with one variable [x] for a plain [$name], which is what a trigger
    on data has.  When the data under [name] can be read and its elements are scalars
    that NumPy has, in at most 32 dimensions none of which is empty, the code starts in
    a state where the variable is a NumPy array of exactly the elements of the data
    (the reference of the store must not be one that only a variable of Python keeps);
    whatever exception the code or its timers throw, the plugin returns and logs its
    text.  Nothing is done after the code: the variable stays, with its reference to
    the data. *)
Theorem python_code_sees_the_elements g code x name d h rs dt dd dty :
  inv (g_store g) -> tidy g -> ~ in_scope (scope g) h -> m_descriptors g !! name = Some d -> m_refs d = h :: rs ->
  links g h dt dd -> data_address dd <> nullptr -> unlocked g (data_buffer dd) ->
  addressable (data_type dd) -> dtype_of (leaf (data_type dd)) = Ret dty -> (length (counts_of (data_type dd)) <= 32)%nat ->
  exists g' a, calm (in_scope (scope g)) g g' /\ m_descriptors g' = m_descriptors g /\ tidy g' /\
    scope g' !! c_str x = Some (Py_array a) /\ numpy_elements a = elements (g_mem g) (data_type dd) (data_address dd) /\
    (exists base, a_base a = Some base /\ links g' base dt dd) /\
    call_python (mkPyTrigger code [(x, Reference_expression name [] "")]) g =
      match timed "pycall" (py_exec code) g' with
      | Thrown e g'' => Done tt (set_world (pycall_error (exception_text e) (g_world g'')) g'')
      | o => o
      end.
Proof.
  intros Hinv Htidy Hh Hd Hrs Hl Hnn Hun Hadd Hdt Hrank.
  destruct (import_pdi_runs g Hinv Htidy) as (g1 & Hrun1 & C1 & S1 & D1 & Ht1 & Hsub). pose proof (cm_inv _ _ _ C1) as Hinv1.
  assert (Hl1 : links g1 h dt dd) by (exact (calm_links _ g g1 h dt dd Hinv C1 Hh Hl)).
  assert (Hun1 : unlocked g1 (data_buffer dd)) by (exact (unlocked_kept g g1 h dt dd Hinv Hinv1 S1 Hun Hl1)).
  destruct (expose_runs g1 x name d h rs dt dd dty Hinv1 Ht1) as (g2 & a & Hrun2 & C2 & D2 & Ht2 & Hs2 & [Ha1 _ _ _ (base & Hb & Hhb & _)]); try done; [by rewrite D1|].
  exists g2, a. split_and!; try done.
  - eapply calm_weaken; [by eapply calm_trans|]. intros r _ [?|?]; [done|by apply Hsub].
  - by rewrite D2.
  - by rewrite Hs2, lookup_insert_eq.
  - by rewrite Ha1, (cm_mem _ _ _ C2), (cm_mem _ _ _ C1).
  - exists base. split; [done|by eapply holds_links].
  - unfold call_python. revert Hrun1. unfold mbind, M_bind. destruct (import_module "__main__" g) as [o g0|e g0|]; [|done..].
    destruct (import_module "pdi" g0) as [o' g0'|e g0'|]; [|done..]. intros ->. cbn [py_aliases m_code each_do iter]. unfold each_do, iter, mbind, M_bind. rewrite Hrun2. cbn [mret M_ret].
    unfold mret, M_ret, catch, on_world, modify. by destruct (timed "pycall" (py_exec code) g2).
Qed.

End facts.
