(* ===== verification/PythonRun.v ===== *)
(** Runs of the Python bindings and of the Pycall plugin, with an interpreter that
    knows a few statements. *)

From Stdlib Require Import Ascii.
From S2P Require Import Prelude Error Effect ExprSyntax Datatype Layout Memory DenseCopy DenseCopyFacts Access Ref RefInv RefOps RefTheorems RefCopy Numeric Parse Yaml Template GlobalContext Eval ContextInv DescriptorInv EvalInv Includes StringTools PluginStore Init Share ShareFacts MetadataFacts Logger SetValue UserCode Json JsonFacts Mpi MpiFacts Hdf5 Hdf5Ops Hdf5Facts Api Python PythonFacts PythonShare Pycall PycallFacts.

(** * NumPy and Python *)

Record world := mkWorld {
  variables : gmap string pyobject;
  triggers : list (list Py_trigger);
  running : bool;
  owned : bool;
  messages : list string
}.

(** NumPy refuses what does not fit; numbers are objects, by their value. *)
#[local] Instance small_numpy : Numpy.
Proof.
  refine {|
    PyArray_NewFromDescr := fun d shape _ _ =>
      if (length shape <=? 32)%nat && forallb (fun n => 0 <=? n) shape && (product shape * dtype_itemsize d <=? ssize_max) then None
      else Some (Std_exception "ValueError: array is too big");
    array_of := fun o => match o with Py_array a => Ret a | _ => Throw (Std_exception "Object of type 'int' is not an array") end;
    py_cast := fun T o => match o, T with
                          | Py_object v, CInt s w => if fits s w v then Ret (NInt s w v) else Throw (Std_exception "Unable to cast Python instance to C++ type")
                          | Py_object v, CFloat => Ret (NFloat (float_of_Z false v))
                          | Py_object v, CDouble => Ret (NDouble (float_of_Z true v))
                          | _, _ => Throw (Std_exception "Unable to cast Python instance to C++ type")
                          end;
    keep_array := fun a => a_data a
  |}; [done|].
  intros T [| | |v] n; try done. destruct T as [|s w| |]; try (by intros [= <-]). simpl. destruct (fits s w v); [by intros [= <-]|done].
Defined.

#[local] Instance small_limits : Numpy_limits.
Proof.
  split. intros d shape strides p Hlen Hpos Hsize. simpl. destruct (Nat.leb_spec (length shape) 32); [|lia]. simpl.
  assert (forallb (fun n => 0 <=? n) shape = true) as ->.
  { apply forallb_forall. intros n Hn%list_elem_of_In. rewrite list.Forall_forall in Hpos. apply Z.leb_le, Hpos, Hn. }
  by destruct (Z.leb_spec (product shape * dtype_itemsize d) ssize_max); [|lia].
Defined.

(** [x[i] = v], the value of [x[i]] in the log, an exception, and [del x] *)
Inductive statement := Set_int (x : string) (i v : Z) | Log_int (x : string) (i : Z) | Raise | Del (x : string).

Definition python : gmap string statement :=
  {["a[1]=7" := Set_int "a" 1 7; "print(a[0])" := Log_int "a" 0; "raise" := Raise; "del a" := Del "a"]}.

Definition log_message (m : string) (w : world) : world := mkWorld (variables w) (triggers w) (running w) (owned w) (messages w ++ [m]).
Definition set_variables (scope : gmap string pyobject) (w : world) : world := mkWorld scope (triggers w) (running w) (owned w) (messages w).

Definition change_world (f : world -> world) : M (global world) unit := modify (fun g => set_world (f (g_world g)) g).

(** An object that no variable refers to is freed, with the capsule of an array. *)
Definition free_object (o : pyobject) : M (global world) unit := fun g =>
  match object_ref o with
  | Some base =>
      if bool_decide (map_Exists (fun _ o' => object_ref o' = Some base) (variables (g_world g))) then Done tt g
      else match ref_destroy base g with Done _ g' => Done tt g' | _ => Done tt g end
  | None => Done tt g
  end.

Definition address (x : string) (i : Z) (w : world) : option ndarray * Z :=
  match variables w !! x with Some (Py_array a) => (Some a, a_data a + dot [i] (a_strides a)) | _ => (None, 0) end.

Definition run_statement (code : string) : M (global world) unit :=
  match python !! code with
  | Some (Set_int x i v) =>
      '(o, p) ← gets (fun g => address x i (g_world g));
      match o with
      | Some a => if a_writeable a then zoom g_mem set_mem (fun m => m ← store_bits m p (dtype_itemsize (a_dtype a)) v; Ret (tt, m))
                  else throw (Std_exception "ValueError: assignment destination is read-only")
      | None => throw (Std_exception ("NameError: name '" +:+ x +:+ "' is not defined"))
      end
  | Some (Log_int x i) =>
      '(o, p) ← gets (fun g => address x i (g_world g));
      match o with
      | Some a => m ← gets g_mem; v ← lift (load_bits m p (dtype_itemsize (a_dtype a))); change_world (log_message (pretty v))
      | None => throw (Std_exception ("NameError: name '" +:+ x +:+ "' is not defined"))
      end
  | Some Raise => throw (Std_exception "Exception")
  | Some (Del x) =>
      o ← gets (fun g => variables (g_world g) !! x);
      change_world (fun w => set_variables (delete x (variables w)) w);;
      match o with Some o => free_object o | None => mret tt end
  | None => throw (Std_exception "SyntaxError: invalid syntax")
  end.

#[local] Instance interpreter : Interpreter world := {|
  Py_IsInitialized := running;
  initialize_interpreter := change_world (fun w => mkWorld ∅ (triggers w) true (owned w) (messages w));
  finalize_interpreter := change_world (fun w => mkWorld ∅ (triggers w) false (owned w) (messages w));
  import_module := fun _ => mret (Py_object 0);
  pyscope := variables;
  set_pyscope := set_variables;
  drop_object := free_object;
  py_exec := run_statement;
  interpreter_initialized_in_plugin := owned;
  set_initialized_in_plugin := fun b w => mkWorld (variables w) (triggers w) (running w) b (messages w);
  pycall_triggers := triggers;
  set_pycall_triggers := fun l w => mkWorld (variables w) l (running w) (owned w) (messages w);
  on_pycall := fun i => Z.of_nat i;
  pycall_error := log_message;
  pycall_debug := log_message
|}.

(** The callbacks of the plugin; [depth] bounds the nesting. *)
Fixpoint pycall_callbacks (depth : nat) (callback : Z) (name : string) (arg : option nat) : M (global world) unit :=
  match depth with
  | O => lift Crash
  | S depth => run_pycall (RT := runtime_with even_allocator (pycall_callbacks depth)) (Z.to_nat callback)
  end.

#[local] Instance pycall_runtime : Runtime world := runtime_with even_allocator (pycall_callbacks 4).

(** * Runs of the plugin *)

Definition scalar_tree (s : string) : yaml := YScalar no_region s.
Definition map_tree (l : list (string * yaml)) : yaml := YMapping no_region (map (fun p => (scalar_tree p.1, p.2)) l).
Definition python_node (code : string) (with_ : list (string * string)) : yaml :=
  map_tree [("with", map_tree (map (fun p => (p.1, scalar_tree p.2)) with_)); ("exec", scalar_tree code)].

Definition pycall_config : PC_tree := tree_of (map_tree
  [("on_event", map_tree
     [("testing", python_node "a[1]=7" [("a", "$a")]);
      ("both", YSequence no_region [python_node "raise" [("a", "$a")]; python_node "print(a[0])" [("a", "$a")]]);
      ("later", python_node "print(a[0])" []);
      ("forget", python_node "del a" [])]);
   ("on_data", map_tree [("b", scalar_tree "a[1]=7")])]).

(** Three [int], and an array of them. *)
Definition int_type : Datatype := scalar_of SIGNED 4 4.
Definition three_ints : Datatype := Array_datatype [] int_type 3 0 3.
Definition three_bytes (a b c : Z) : list Z := concat (map (fun v => Z_to_little_endian 4 8 v) [a; b; c]).

Definition quiet_world : world := mkWorld ∅ [] false false [].
Definition declared : gmap string Descriptor := {["a" := mkDescriptor (Datatype_as_template three_ints) false []]}.
Definition pycall_start : global world :=
  mkGlobal empty_store (bytes_at 4096 (three_bytes 1 2 3)) ∅ declared (fun _ => mkRegistry [] []) 0 quiet_world.

Definition outcome_of {A} (o : exec (global world) A) : option (A + exn) :=
  match o with Done a _ => Some (inl a) | Thrown e _ => Some (inr e) | Crashed => None end.

Definition ints_at (p : Z) : M (global world) (list Z) :=
  m ← gets g_mem; iter (fun i l => v ← lift (load_bits m (p + 4 * i) 4); mret (l ++ [v])) [0; 1; 2] [].

(** The example of the documentation: Python changes the data of the program. *)
Example pycall_run :
  outcome_of ((pycall_plugin pycall_config;; share_data "a" 4096 true true;; notify_event "testing";; reclaim "a";; ints_at 4096) pycall_start)
  = Some (inl [1; 7; 3]).
Proof. vm_compute. reflexivity. Qed.

(** It changes it as well when the program only lets it be read. *)
Example read_only_data_is_written :
  outcome_of ((pycall_plugin pycall_config;; share_data "a" 4096 true false;; notify_event "testing";; reclaim "a";; ints_at 4096) pycall_start)
  = Some (inl [1; 7; 3]).
Proof. vm_compute. reflexivity. Qed.

(** An exception is logged, and the next trigger of the list runs. *)
Example exceptions_are_logged :
  outcome_of ((pycall_plugin pycall_config;; share_data "a" 4096 true true;; notify_event "both";; gets (fun g => messages (g_world g))) pycall_start)
  = Some (inl ["Python interpreter is initialized by the plugin"; "while calling python, caught exception: Exception"; "1"]).
Proof. vm_compute. reflexivity. Qed.

(** Data that nobody has shared: the error of the expression leaves the plugin. *)
Example missing_data_is_an_error :
  match outcome_of ((pycall_plugin pycall_config;; notify_event "testing") pycall_start) with
  | Some (inr e) => status e = Some PDI_ERR_VALUE
  | _ => False
  end.
Proof. vm_compute. reflexivity. Qed.

(** The program takes its memory back and frees it; the variable is still there, and
    using it later reads memory that is gone. *)
Definition free_memory (p n : Z) : M (global world) unit := modify (fun g => set_mem (foldr delete (g_mem g) (seqZ p n)) g).

Example stale_variable :
  outcome_of ((pycall_plugin pycall_config;; share_data "a" 4096 true true;; notify_event "testing";; reclaim "a";; free_memory 4096 12;;
               notify_event "later") pycall_start) = None.
Proof. vm_compute. reflexivity. Qed.

(** Data that is released is kept as long as a variable refers to it. *)
Definition freed_data : M (global world) (list Z) := gets (fun g => map (fun f => dealloc_data f.2) (freed (g_store g))).

Example released_data_is_kept :
  outcome_of ((pycall_plugin pycall_config;; share_data "a" 4096 true true;; notify_event "testing";; release_desc "a";;
               kept ← freed_data; notify_event "forget";; gone ← freed_data; mret (kept, gone)) pycall_start) = Some (inl ([], [4096])).
Proof. vm_compute. reflexivity. Qed.

(** * Runs of the module *)

(** Every other element of an array: the stride of the last dimension is not looked at,
    and the library takes the elements that were left out. *)
Definition int64_dtype : pydtype := mkDtype "i" 8.
Definition every_other : ndarray := mkNdarray int64_dtype [3] [16] 4096 true None.

Example other_strides_are_lost :
  (t ← python_type every_other; Ret (elements ∅ t 4096)) = Ret [4096; 4104; 4112] /\ numpy_elements every_other = [4096; 4112; 4128].
Proof. by vm_compute. Qed.

(** Columns that follow each other: the rows have no place at all. *)
Definition fortran_ordered : ndarray := mkNdarray int64_dtype [2; 3] [8; 16] 4096 true None.

Example fortran_order_has_no_rows :
  python_type fortran_ordered = Ret (Array_datatype [] (Array_datatype [] (scalar_of SIGNED 8 8) 0 0 3) 2 0 2).
Proof. by vm_compute. Qed.

(** The same value along a dimension has a null stride. *)
Example broadcast_divides_by_zero : python_type (mkNdarray int64_dtype [2; 3] [8; 0] 4096 true None) = Crash.
Proof. by vm_compute. Qed.

(** A complex number has no type here. *)
Example complex_has_no_type :
  python_type (mkNdarray (mkDtype "c" 16) [3] [16] 4096 true None) = Throw (Impl_error "Unexpected python type descriptor: c").
Proof. by vm_compute. Qed.

(** A tuple has no NumPy equivalent, and this is not an error but a null pointer. *)
Example tuples_are_undefined : numpy_layout (Tuple_datatype [] [mkElement 0 int_type] 4) = Crash.
Proof. by vm_compute. Qed.

(** A NumPy array shared with the library, as data that can be read and written. *)
Definition module_api (g : global world) : api world := mkApi (mkPlugins [] [] [] g) true PDI_NULL_HANDLER "" "" PDI_OK [].

Definition called_of {A} (o : called (api world) A) : option (A + exn) :=
  match o with Returned a _ => Some (inl a) | Raised e _ => Some (inr e) | _ => None end.

Definition numpy_ints : ndarray := mkNdarray (mkDtype "i" 4) [3] [4] 4096 true None.

Example share_and_access :
  called_of ((pyshare "a" numpy_ints 3;; pyaccess "a" 3) (module_api pycall_start)) =
    Some (inl (Py_array (mkNdarray (mkDtype "i" 4) [3] [4] 4096 true (Some 15%nat)))).
Proof. vm_compute. reflexivity. Qed.

(** Data that must not be read is none, and no error. *)
Example unreadable_data_is_none : called_of ((pyshare "a" numpy_ints 0;; pyaccess "a" 1) (module_api pycall_start)) = Some (inl Py_none).
Proof. vm_compute. reflexivity. Qed.

(** Without a context the array is given back to the program. *)
Example share_without_context :
  match pyshare "a" numpy_ints 3 (mkApi (mkPlugins [] [] [] pycall_start) false PDI_NULL_HANDLER "" "" PDI_OK []) with
  | Raised e s => e = State_error "PDI not initialized" /\ freed (g_store (ps_context (a_store s))) = []
  | _ => False
  end.
Proof. by vm_compute. Qed.

(** The message about the version keeps the conversions of [printf]. *)
Example version_message :
  called_of (pyversion 1 8 0 (2, 0, 0) (module_api pycall_start)) =
    Some (inr (Plugin_error "Invalid PDI API version: %lu.%lu.%lu, PDI provided version is %lu.%lu.%lu")).
Proof. vm_compute. reflexivity. Qed.

(** A record of an [int] and three of them, at address 8192. *)
Definition record_type : Datatype := Record_datatype [] [mkMember 0 int_type "n"; mkMember 4 three_ints "v"] 16.
Definition record_start : global world :=
  mkGlobal empty_store (bytes_at 4096 (three_bytes 1 2 3) ∪ bytes_at 8192 (Z_to_little_endian 4 8 5 ++ three_bytes 6 7 8)) ∅
    {["r" := mkDescriptor (Datatype_as_template record_type) false []]} (fun _ => mkRegistry [] []) 0 quiet_world.

Definition with_wrapper {A} (body : nat -> M (global world) A) : M (global world) A :=
  share_data "r" 8192 true true;;
  o ← with_ref (ref "r") (fun r => to_python r false);
  match o with Py_ref m_ref => body m_ref | _ => lift Crash end.

(** Members are set from a number and from an array. *)
Example set_members :
  outcome_of (with_wrapper (fun r => setattribute r "n" (Py_object 9);; setattribute r "v" (Py_array numpy_ints);; ints_at 8192) record_start)
  = Some (inl [9; 1; 2]).
Proof. vm_compute. reflexivity. Qed.

(** Only the sizes of the elements are compared: a shorter array is read past its end. *)
Example shorter_array_is_read_past_its_end :
  outcome_of (with_wrapper (fun r => setattribute r "v" (Py_array (mkNdarray (mkDtype "i" 4) [1] [4] 4104 true None))) record_start) = None.
Proof. vm_compute. reflexivity. Qed.

Example set_whole_record :
  outcome_of (with_wrapper (fun r => setattribute r "x" (Py_object 9)) record_start) = Some (inr (Value_error "Record subaccess error: no member named x")).
Proof. vm_compute. reflexivity. Qed.

(** * Instances of the theorems *)

Lemma gap_c_ordered : c_ordered (mkNdarray (mkDtype "f" 8) [2; 3] [32; 8] 4096 true None).
Proof.
  split; [right; right; split; [done|by apply (bool_decide_unpack _)]|right]. cbn. split; [|done].
  split; [lia|]. split; [by exists 4|]. split; [split; [lia|done]|]. by split; [lia|].
Defined.

(** Two rows of three numbers, in rows of four. *)
Lemma python_layout_round_trip_witness :
  exists t, python_type (mkNdarray (mkDtype "f" 8) [2; 3] [32; 8] 4096 true None) = Ret t /\
    numpy_layout t = Ret (mkDtype "f" 8, [2; 3], [32; 8], 0) /\ elements ∅ t 4096 = [4096; 4104; 4112; 4128; 4136; 4144].
Proof.
  destruct (python_layout_round_trip (mkNdarray (mkDtype "f" 8) [2; 3] [32; 8] 4096 true None) ∅ gap_c_ordered) as (t & Ht & Hl & He).
  exists t. split; [exact Ht|]. split; [exact Hl|]. etrans; [exact He|by vm_compute].
Defined.

Definition quiet_python : Runtime world := runtime_with even_allocator (fun _ _ _ => mret tt).

#[local] Instance python_observers : Observers (P := runtime_platform (Runtime := quiet_python)) world.
Proof. split; [|done]. intros h name arg g. exists (g_world g). by destruct g. Defined.

#[local] Instance python_laws : Python_laws (RT := quiet_python) world.
Proof.
  split; [done|intros name g _; exists (Py_object 0), (g_world g); split_and!; [by destruct g|done..]|].
  intros o g Hinv Hex. unfold drop_object, interpreter, free_object. destruct (object_ref o) as [base|] eqn:Ho.
  - case_bool_decide as Hin; [exists g; split_and!; try done; apply steady_refl|].
    destruct (destroy_runs g base Hinv (Hex base eq_refl)) as (g' & Hrun & C & D). rewrite Hrun.
    exists g'. split_and!; try done.
    + eapply calm_weaken; [exact C|]. intros r _ <-. split; [done|]. intros (k & o' & Hk & Ho'). apply Hin. apply map_Exists_lookup. by exists k, o'.
    + pose proof (ref_destroy_steadily base g) as S. by rewrite Hrun in S.
    + pose proof (aloof_destroy base g) as W. rewrite Hrun in W. simpl. by rewrite W.
  - exists g. split_and!; try done.
Defined.

(** Data of a type, shared by the program. *)
Definition python_start : global world :=
  mkGlobal empty_store (bytes_at 4096 (three_bytes 1 2 3)) ∅ ∅ (fun _ => mkRegistry [] []) 0 quiet_world.

Definition python_after (g : global world) (o : ctx_op) : global world :=
  match run_op (RT := quiet_python) o g with Done _ g' | Thrown _ g' => g' | Crashed => g end.

Definition with_type (t : Datatype) : global world := python_after python_start (Op_default_type "a" (Datatype_as_template t)).
Definition with_data (t : Datatype) : global world := python_after (with_type t) (Op_share "a" 4096 true false).

Lemma data_reachable t :
  run_op (RT := quiet_python) (Op_default_type "a" (Datatype_as_template t)) python_start = Done nullptr (with_type t) ->
  run_op (RT := quiet_python) (Op_share "a" 4096 true false) (with_type t) = Done nullptr (with_data t) ->
  inv (g_store (with_data t)).
Proof.
  intros H1 H2. assert (Hr : ctx_reachable (RT := quiet_python) (with_data t)).
  { exists python_start. split; [done|]. eapply rtc_l; [exact (step_returns _ _ _ _ H1)|]. eapply rtc_l; [exact (step_returns _ _ _ _ H2)|]. apply rtc_refl. }
  by destruct (ctx_reachable_ok (RT := quiet_python) _ Hr) as [Hinv _ _ _ _].
Defined.

Definition ints_data : Referenced_data := mkData 1 4096 three_ints.
Definition ints_buffer : Referenced_buffer := mkBuffer (Some (mkDeallocator 4096 three_ints free_function)) 0 1 ∅.

Lemma ints_addressable : addressable three_ints.
Proof. split_and!; [by vm_compute|by repeat constructor|by vm_compute|by vm_compute]. Defined.

Lemma ints_inv : inv (g_store (with_data three_ints)).
Proof. by apply data_reachable; vm_compute. Defined.

Lemma ints_point : points_to (g_store (with_data three_ints)) 4 (mkReference false false (Some 2%nat)) 2 ints_data ints_buffer.
Proof. by vm_compute. Defined.

(** Data that must not be written, asked for as data that is read. *)
Lemma to_python_gives_the_elements_witness :
  exists a g', to_python 4 true (with_data three_ints) = Done (Py_array a) g' /\
    numpy_elements a = [4096; 4100; 4104] /\ a_writeable a = true.
Proof.
  destruct (to_python_gives_the_elements (with_data three_ints) 4 (mkReference false false (Some 2%nat)) 2 ints_data ints_buffer true) as [_ H];
    [exact ints_inv|exact ints_point|done|].
  destruct (H (mkDtype "i" 4)) as (o & g' & Hrun & C & _ & _ & a & -> & [He _ _ _ _] & Hw); [exact ints_addressable|done|simpl; lia|].
  exists a, g'. split_and!; [exact Hrun| |exact Hw]. etrans; [exact He|by vm_compute].
Defined.

(** A floating point number of 16 bytes. *)
Definition long_double : Datatype := scalar_of FLOAT 16 16.


Lemma no_variable r : ~ in_scope (pyscope (g_world (with_data three_ints))) r.
Proof.
  assert (Hs : pyscope (g_world (with_data three_ints)) = ∅) by (by vm_compute). intros (k & o & Hk & _). rewrite Hs, lookup_empty in Hk. discriminate Hk.
Defined.

Lemma python_code_sees_the_elements_witness :
  exists g' a, pyscope (g_world g') !! "a" = Some (Py_array a) /\ numpy_elements a = [4096; 4100; 4104] /\
    call_python (RT := quiet_python) (mkPyTrigger "a[1]=7" [("a", Reference_expression "a" [] "")]) (with_data three_ints) =
      match timed (P := runtime_platform (Runtime := quiet_python)) "pycall" (py_exec "a[1]=7") g' with
      | Thrown e g'' => Done tt (set_world (pycall_error (exception_text e) (g_world g'')) g'')
      | o => o
      end.
Proof.
  destruct (python_code_sees_the_elements (RT := quiet_python) (with_data three_ints) "a[1]=7" "a" "a" (mkDescriptor (Datatype_as_template three_ints) false [4%nat])
              4 [] 2 ints_data (mkDtype "i" 4)) as (g' & a & _ & _ & _ & Hs & He & _ & Hrun);
    [exact ints_inv|intros r Hr; destruct (no_variable r Hr)|exact (no_variable 4)|by vm_compute|reflexivity
    |by exists (mkReference false false (Some 2%nat)); vm_compute|done|by exists ints_buffer; vm_compute|exact ints_addressable|reflexivity|simpl; lia|].
  exists g', a. split_and!; [exact Hs| |exact Hrun]. etrans; [exact He|by vm_compute].
Defined.

